(* ===== verification/_CoqProject ===== *)
-Q . S2P
Prelude.v
Utf8.v
Text.v
ThirdParty.v
ClientProfile.v
HostCollection.v
Xml.v
GpHttp.v
Interaction.v
Stateful.v
ChildProcess.v
Csc.v
LockFile.v
Transport.v
Tunnel.v
TunnelMonitor.v
Session.v
Credential.v
CookieStore.v
AuthLauncher.v
NativeTunnel.v
Portal.v
GatewayLogin.v
GatewayTransport.v
NonTunnel.v
Service.v
Lifecycle.v
Openconnect.v
Redact.v
EditedReport.v
SessionRegistry.v
VpnTask.v
ScriptTunWorker.v
AttemptRuntime.v
WsServer.v
Dispatcher.v
HipPreview.v
WsHandshake.v
WsConnection.v
WidgetModel.v
Widget.v
ConnectFlow.v
WidgetClient.v
ClientSession.v
ClientConnect.v
ClientAccount.v
ClientLedger.v
Halting.v
FileStore.v
Trust.v
HipApproval.v
DeviceAnchor.v
Collector.v
HipReport.v
VpncScript.v
HipExecution.v
