(* ===== verification/Prelude.v ===== *)
(** Verification of GlobalProtect-openconnect: the privileged service and its clients.

    The program has a root service, apps/gpservice, that runs VPN connections on behalf
    of unprivileged clients: the desktop GUI, apps/gpwidget and apps/gpclient. A client
    authenticates at a portal and a gateway (crates/gpapi), connects to the service over
    a WebSocket that a Noise channel protects, and sends it a connect request; the
    service admits one attempt at a time, runs openconnect (crates/openconnect) in a
    worker, and tells every attached client about the VPN state.

    How the parts meet. A WebSocket task ([ws_connection.rs]) authenticates against the
    session registry ([session_registry.rs]), is taken into the shared server state
    ([ws_server.rs]) and hands its requests to the dispatcher, which reserves and
    commits attempts at the lifecycle handle ([vpn_task.rs]) under the registry's lock.
    The actor [VpnTask] owns the running attempt and publishes its state; the server
    forwards it, numbered, to the connections. A tunnel monitor (crates/gptunnel)
    observes the native tunnel and feeds the server's statistics.

    Files, in dependency order, with what they model:

    - Prelude: fixed-width integers, [result] and state monads, runs of a step function
      with their induction principles, tactics. Utf8, Text: [str] as byte strings with
      character boundaries; trimming, splitting, numbers. ThirdParty: the crates the
      source calls (uuid, tokio's tokens, mpsc and watch, serde_json, base64, url, snow);
      xmltree, urlencoding, MD5 and DNS are classes of the files that use them,
      all as classes of operations with the laws used, and instances that satisfy
      them for the witnesses.
    - ClientProfile: crates/gpapi/src/os_profile and gp_params.rs. The client a login
      presents itself as, emulated or this host. HostCollection: os_profile/desktop, how
      this host is found out on Linux.
    - Xml, GpHttp: utils/xml.rs over the tree of the xmltree crate, error.rs and the
      responses of the portal and gateway with the failures they become.
    - Csc, Credential: portal/csc.rs (custom host checks and their report), credential.rs,
      auth.rs and the login parameters.
    - Portal, GatewayLogin: crates/gpapi/src/portal (discovery, configuration, gateway
      rules, prelogin) and gateway/login.rs (tokens, MFA and the issued cookie). A
      server is a record of the answers it gives; a client keeps what it has sent.
    - Interaction: programs as interaction trees, the runs they have, a logic for
      statements about every run and the simulation of a program by an automaton.
      Stateful: the same for programs that keep a state when they fail.
    - ChildProcess, AuthLauncher: crates/gpapi/src/process. The user and environment of
      a child, the loop that feeds it, the authenticator and its rendering recovery.
    - GatewayTransport, NonTunnel: session/transport, session/desktop/gateway_sessions.rs
      and non_tunnel.rs. The requests of a session, the ledger of sessions, and their
      maintenance: worker and owner tasks whose steps interleave ([step]).
    - LockFile, CookieStore: utils/lock_file.rs and endpoint.rs of crates/gpapi/src, and
      cookie_store.rs over a file system whose every operation may fail.
    - Transport: crates/gpapi/src/service/transport. Credential frames, preludes,
      rejections, the Noise handshake and messages.
    - Tunnel, TunnelMonitor: session/desktop/tunnel.rs and crates/gptunnel. The
      observed state of a tunnel, the size limit of its configuration, the monitor with
      its sequence numbers and sampling requests.
    - NativeTunnel, Openconnect: crates/openconnect. What openconnect tells of a tunnel,
      copied within limits and observed; the builder with its script, the command pipe
      whose users interleave, HIP reports and the data that crosses to C. The C library
      is a record of the answers it gives.
    - Session, Service: gateways, plans and bindings; connect requests, VPN states and
      the client and server messages (gpapi/src/session*, gpapi/src/service).
    - Lifecycle, VpnTask: apps/gpservice/src/vpn_task.rs. [Lifecycle] holds the
      operations of [LifecycleHandle], [ConnectReservation] and [AttemptDrain], one
      critical section each; [VpnTask] holds the actor, and [system_step] runs it
      beside reservations, drains, requests and the worker of the attempt. What the actor
      decides without the lock and does later is [pending] between two of its steps.
    - ScriptTunWorker, AttemptRuntime: vpn_task/script_tun.rs, runtime.rs, non_tunnel.rs.
      The worker of an attempt and the supervisor of a script-tun consumer as programs.
    - Redact: crates/gpapi/src/utils/redact.rs, over the regex and http crates.
    - EditedReport, SessionRegistry: apps/gpservice/src/session_registry.rs, all
      operations over a map of records, and the validation of uploaded reports.
    - WsServer: apps/gpservice/src/ws_server.rs with [ConnectionControl]; controls are
      a shared store because the source shares them by [Arc]; the system adds the
      connection tasks that drain the queues.
    - Dispatcher, HipPreview: apps/gpservice/src/request_dispatcher.rs with
      vpn_task/preparation.rs, and hip_preview.rs with its workers.
    - WsHandshake, WsConnection: apps/gpservice/src/ws_connection.rs. The handshake on
      the frames that arrive, and the loop of a connection with the tasks beside it.
    - WidgetModel, Widget, WidgetClient: apps/gpwidget. The model and its snapshots;
      the daemon with the flows, timers and requests it spawned ([widget_step]); its
      client of gpservice ([pump_message], [task_step]). ConnectFlow: connect_flow.rs,
      the program such a flow runs.
    - ClientSession, ClientConnect: apps/gpclient/src/session.rs with gateway/session.rs,
      and apps/gpclient/src/connect. The session's runtime, and the connect command as a
      program with the state of [ConnectHandler]. ClientAccount watches its runs with an
      automaton ([next]), ClientLedger proves what every run accounts for.
    - Halting, FileStore, Trust: programs that end whatever they are answered; files with
      owners and modes, the operations of the system on them, each of which may fail, and
      a logic for what the files hold wherever a program stops ([fspec]); what users
      without privileges can do to files, and the paths that withstand it.
    - HipApproval, VpncScript, DeviceAnchor: hip_approval.rs, vpnc_script.rs and
      device_anchor.rs of apps/gpservice/src, with the installers under bin and vpn_script.
      What root keeps for users: approved HIP scripts, the VPNC script, the identity of
      the installation.
    - Collector, HipReport, HipExecution: process/collection.rs of gpapi, crates/gphip and
      apps/gpservice/src/hip_source.rs. The tools root runs to learn about the host, the
      HIP report, and what a user's choice of a HIP source makes the service run.

    What the theorems show, by group (properties C1 and up in the manifest's order):

    - Lifecycle: an attempt has one owner at a time, its completion is signalled exactly
      when it is over, a stopped attempt is never newly shown as connected (nor as
      connecting, but for one announcement that was under way), an attempt can always be
      finished, and a restart offer is redeemed at most once.
    - Server: the messages queued for a client replay to the server's state without
      gaps; statistics are sampled while, and only while committed, clients listen.
    - Requests: a connect request is admitted or refused as a whole and an admitted one
      is always settled; a connection's replies are those its client waits for; a dead
      peer is noticed; HIP previews are bounded; a handshake attaches or frees its slot.
    - Attempts: the worker of an attempt gives every session, monitor and thread back
      and ends last; the maintenance of non-tunnel sessions returns when stopped,
      publishes a failure; a script-tun consumer is spoken
      to as its protocol says.
    - Widget: it shows the server's VPN state, because its pump follows the messages the
      server queues; its snapshots are well formed and reconnecting settles; a connect
      flow submits once a sound request, with a session its gateway issued in this run,
      and refines the task the daemon sees.
    - Privileged files: root runs approved scripts and trusted tools only, which other
      users cannot change; approvals, the VPNC script and the installation's identity are
      there as a whole or not at all, wherever an operation stops; a revocation is final.
    - HIP reports: a refresh changes the fields of the session and nothing else.
    - Login: the preferred gateway is the one the rules' definition selects, a gateway's
      token is its arguments under their keys, a cookie it issued is used or logged out
      unless the answer is taken for something else.
    - Command-line client: each session a run was issued is logged out, handed to its
      tunnel or released with its cookie printed, exactly one of these; the PID file is
      removed, if that succeeds.
    - Registry: permits are exclusive, all data stays bounded.
    - Transport, tunnel and data: codecs round-trip, limits are respected, sequence
      numbers order what monitors publish; a tunnel is sent the commands it can read, and
      a command that cannot be written is reported.
    - Lemmas beside these: generations never return, one connect flow at a time, saved
      cookies are whole, the script a tunnel was given is the one it runs, standard input
      is read once, an installed approval resolves to itself.

    Conventions. Errors are values of [result]; a Rust panic is [None]. What runs under one
    lock is one step, and what looks without it and acts later is two, so concurrency is the order of labels in a run; runs are lists,
    and the theorems quantify over all of them. A 64-bit attempt number wraps after
    2^64 reservations: theorems that need it bound the length of the run. The only fuel
    is that of [limit_encoded_size], with [S (cut_measure c)] proved enough. Uuids,
    clock readings and random bytes an operation draws are its arguments.

    Not modelled: the GUI's launching, updating and windows, the drawing of the dashboard and
    the widget, network routes, the template of the HIP report, the host and the scripts of
    macOS, sockets, processes and system calls themselves (their answers are events of the
    programs), and the C code of openconnect; serde's attribute-driven field names (codecs are parameters with
    round-trip laws); GTK, WebKit and terminal drawing; log messages. The manifest lists
    every part with its status. *)
From stdpp Require Export base tactics option list gmap strings numbers.
From Stdlib Require Export NArith Lia.

(** * Machine integers

    Rust's fixed-width unsigned integers are values of [N] with the bound of the
    type written out; [checked_add], [saturating_sub] and the casts are the
    standard library's. *)
Definition u8_max : N := 255.
Definition u16_max : N := 65535.
Definition u32_max : N := 4294967295.
Definition u64_max : N := 18446744073709551615.

Definition checked_add (w a b : N) : option N :=
  if (a + b <=? w)%N then Some (a + b)%N else None.
Definition checked_mul (w a b : N) : option N :=
  if (a * b <=? w)%N then Some (a * b)%N else None.
Definition saturating_add (w a b : N) : N := N.min (a + b) w.
Definition checked_sub (a b : N) : option N :=
  if (b <=? a)%N then Some (a - b)%N else None.
Definition cast (w a : N) : N := (a `mod` (w + 1))%N.

Lemma checked_add_Some w a b c :
  checked_add w a b = Some c ↔ c = (a + b)%N ∧ (a + b ≤ w)%N.
Proof.
  unfold checked_add. destruct (N.leb_spec (a + b) w).
  - split; [intros [= <-]; done | intros [-> ?]; done].
  - split; [done | lia].
Qed.
Lemma checked_add_None w a b : checked_add w a b = None ↔ (w < a + b)%N.
Proof.
  unfold checked_add. destruct (N.leb_spec (a + b) w); split; (done || lia).
Qed.
Lemma checked_mul_is_Some w a b : is_Some (checked_mul w a b) ↔ (a * b ≤ w)%N.
Proof.
  unfold checked_mul. destruct (N.leb_spec (a * b) w).
  - split; [done | by eexists].
  - split; [by intros [? ?] | lia].
Qed.
Lemma checked_sub_Some a b c : checked_sub a b = Some c ↔ (b ≤ a)%N ∧ c = (a - b)%N.
Proof.
  unfold checked_sub. destruct (N.leb_spec b a).
  - split; [intros [= <-]; done | intros [? ->]; done].
  - split; [done | lia].
Qed.
Lemma cast_small w a : (a ≤ w)%N → cast w a = a.
Proof. intros H. unfold cast. apply N.mod_small. lia. Qed.

(** * The state and error monad

    A Rust method [fn op(&self, ..) -> Result<A, E>] on state [S] is a value of
    [stm S E A]: it returns the result and the state it leaves behind, also on
    the error path, because Rust does not roll a mutation back. *)
Inductive result (E A : Type) : Type :=
  | Ok (a : A)
  | Err (e : E).
Arguments Ok {E A} a.
Arguments Err {E A} e.

#[export] Instance result_eq_dec E A `{EqDecision E, EqDecision A} :
  EqDecision (result E A).
Proof. solve_decision. Defined.

Definition is_ok {E A} (r : result E A) : bool :=
  match r with Ok _ => true | Err _ => false end.
Definition map_err {E F A} (f : E → F) (r : result E A) : result F A :=
  match r with Ok a => Ok a | Err e => Err (f e) end.
Definition ok_or {E A} (e : E) (o : option A) : result E A :=
  match o with Some a => Ok a | None => Err e end.
Definition to_option {E A} (r : result E A) : option A :=
  match r with Ok a => Some a | Err _ => None end.

#[export] Instance result_ret {E} : MRet (result E) := λ A a, Ok a.
#[export] Instance result_bind {E} : MBind (result E) := λ A B f r,
  match r with Ok a => f a | Err e => Err e end.
#[export] Instance result_fmap {E} : FMap (result E) := λ A B f r,
  match r with Ok a => Ok (f a) | Err e => Err e end.

Definition ensure {E} (c : bool) (e : E) : result E () := if c then Ok () else Err e.

Definition stm (S E A : Type) : Type := S → result E A * S.

Section stm.
Context {S E : Type}.
Definition stm_ret_def {A} (a : A) : stm S E A := λ s, (Ok a, s).
Definition fail {A} (e : E) : stm S E A := λ s, (Err e, s).
Definition stm_bind_def {A B} (f : A → stm S E B) (m : stm S E A) : stm S E B :=
  λ s, match m s with
       | (Ok a, s') => f a s'
       | (Err e, s') => (Err e, s')
       end.
Definition get : stm S E S := λ s, (Ok s, s).
Definition gets {A} (f : S → A) : stm S E A := λ s, (Ok (f s), s).
Definition modify (f : S → S) : stm S E () := λ s, (Ok (), f s).
(** [lift r] is [r?] on a pure result, [require e o] is [o.ok_or(e)?]. *)
Definition lift {A} (r : result E A) : stm S E A := λ s, (r, s).
Definition require {A} (e : E) (o : option A) : stm S E A := lift (ok_or e o).
Definition assert_or (c : bool) (e : E) : stm S E () := lift (ensure c e).
End stm.

#[export] Instance stm_ret {S E} : MRet (stm S E) := λ A, stm_ret_def.
#[export] Instance stm_bind {S E} : MBind (stm S E) := λ A B, stm_bind_def.

(** The state a run leaves behind, and its answer. *)
Definition run {S E A} (m : stm S E A) (s : S) : result E A * S := m s.
Definition answer {S E A} (m : stm S E A) (s : S) : result E A := (m s).1.
Definition after {S E A} (m : stm S E A) (s : S) : S := (m s).2.

(** ** Inversion of the operations on results *)
Lemma Ok_inj {E A} (a b : A) : @Ok E A a = Ok b → a = b.
Proof. by intros [= ->]. Qed.
Lemma ok_or_Ok {E A} (e : E) o (a : A) : ok_or e o = Ok a ↔ o = Some a.
Proof. destruct o; cbn; split; congruence. Qed.
Lemma ensure_Ok {E} c (e : E) u : ensure c e = Ok u ↔ c = true.
Proof. destruct c, u; cbn; split; congruence. Qed.
Lemma result_bind_Ok {E A B} (r : result E A) (f : A → result E B) b :
  (r ≫= f) = Ok b ↔ ∃ a, r = Ok a ∧ f a = Ok b.
Proof. destruct r as [a|e]; cbn; [naive_solver|split; [done|naive_solver]]. Qed.

(** * Automation *)
Create HintDb gp.
Create Rewrite HintDb gp.
#[export] Hint Rewrite @lookup_insert_eq @lookup_delete_eq @lookup_empty : gp.

(** Unfold the monad of a computation in the goal and in the hypotheses. *)
Ltac stm_unfold :=
  repeat progress unfold run, answer, after, mbind, stm_bind, stm_bind_def, mret, stm_ret,
    stm_ret_def, fail, get, gets, modify, lift, require, assert_or, ok_or, ensure,
    result_bind, result_ret in *;
  cbn [fst snd] in *.

(** Destruct the scrutinee of some match in a hypothesis or in the goal. *)
Ltac break_hyp :=
  match goal with
  | H : context [match ?x with _ => _ end] |- _ =>
      lazymatch x with
      | context [match _ with _ => _ end] => fail
      | _ => let E := fresh "E" in destruct x eqn:E; simplify_eq/=
      end
  end.
Ltac break_goal :=
  match goal with
  | |- context [match ?x with _ => _ end] =>
      lazymatch x with
      | context [match _ with _ => _ end] => fail
      | _ => let E := fresh "E" in destruct x eqn:E; simplify_eq/=
      end
  end.
Ltac crush_hyps := repeat break_hyp.
Ltac crush_goal := repeat break_goal.

(** Take a chain of fallible steps that succeeded apart, step by step: what each
    step returned is a hypothesis. *)
Ltac bind_inv H :=
  repeat first
    [ apply result_bind_Ok in H;
      let x := fresh "x" in let Hx := fresh "Hx" in destruct H as (x & Hx & H);
      first [apply ensure_Ok in Hx | apply ok_or_Ok in Hx | idtac]
    | progress cbn zeta in H ].

(** Boolean tests on numbers and conjunctions as propositions. *)
Ltac boolify :=
  repeat match goal with
    | H : (_ && _)%bool = true |- _ => apply andb_true_iff in H as [??]
    | H : (_ || _)%bool = false |- _ => apply orb_false_iff in H as [??]
    | H : (_ <=? _)%N = true |- _ => apply N.leb_le in H
    | H : (_ <=? _)%N = false |- _ => apply N.leb_gt in H
    | H : (_ <? _)%N = true |- _ => apply N.ltb_lt in H
    | H : (_ <? _)%N = false |- _ => apply N.ltb_ge in H
    | H : (_ =? _)%N = true |- _ => apply N.eqb_eq in H
    | H : (_ =? _)%N = false |- _ => apply N.eqb_neq in H
    | H : negb _ = true |- _ => apply negb_true_iff in H
    | H : negb _ = false |- _ => apply negb_false_iff in H
    | H : bool_decide _ = true |- _ => apply bool_decide_eq_true_1 in H
    | H : bool_decide _ = false |- _ => apply bool_decide_eq_false_1 in H
    end.

(** * Generic lemmas *)

Lemma existsb_false_forall {A} (f : A → bool) l :
  existsb f l = false ↔ ∀ x, x ∈ l → f x = false.
Proof.
  induction l as [|a l IH]; cbn.
  - split; [intros _ x Hx; inversion Hx | done].
  - rewrite orb_false_iff, IH. setoid_rewrite elem_of_cons. split; [intros [??] x [->|?]; auto|]. intros H. split; [|intros x ?]; apply H; auto.
Qed.

Lemma forallb_elem {A} (f : A → bool) l :
  forallb f l = true ↔ ∀ x, x ∈ l → f x = true.
Proof.
  rewrite List.forallb_forall. setoid_rewrite <- list_elem_of_In. done.
Qed.

(** Reachability by a list of labels of an executable transition function, and
    the induction principle every state machine of the development uses. *)
Section runs.
Context {S L : Type} (step : S → L → S).
Definition runs (s : S) (ls : list L) : S := fold_left step ls s.
Definition reachable (init : S → Prop) (s : S) : Prop :=
  ∃ s0 ls, init s0 ∧ s = runs s0 ls.

Lemma runs_app s l1 l2 : runs s (l1 ++ l2) = runs (runs s l1) l2.
Proof. apply fold_left_app. Qed.

Lemma runs_invariant (I : S → Prop) :
  (∀ s l, I s → I (step s l)) → ∀ ls s, I s → I (runs s ls).
Proof. intros Hstep ls. induction ls as [|l ls IH]; intros s Hs; [done|]. apply IH, Hstep, Hs. Qed.

Lemma reachable_invariant (init I : S → Prop) :
  (∀ s, init s → I s) → (∀ s l, I s → I (step s l)) →
  ∀ s, reachable init s → I s.
Proof.
  intros Hinit Hstep s (s0 & ls & H0 & ->). eapply runs_invariant; eauto.
Qed.
(** A relation that is reflexive and transitive and holds of one step holds
    of a run. *)
Lemma runs_relation (R : S → S → Prop) :
  (∀ s, R s s) → (∀ a b c, R a b → R b c → R a c) →
  (∀ s l, R s (step s l)) → ∀ ls s, R s (runs s ls).
Proof.
  intros Hr Ht Hs ls. induction ls as [|l ls IH]; cbn; intros s; [done|].
  eapply Ht; [apply Hs|apply IH].
Qed.
Lemma runs_relation_under (I : S → Prop) (R : S → S → Prop) :
  (∀ s l, I s → I (step s l)) →
  (∀ s, R s s) → (∀ a b c, R a b → R b c → R a c) →
  (∀ s l, I s → R s (step s l)) → ∀ ls s, I s → R s (runs s ls).
Proof.
  intros Hi Hr Ht Hs ls. induction ls as [|l ls IH]; cbn; intros s HI; [done|].
  eapply Ht; [apply Hs|apply IH]; auto.
Qed.
End runs.
