(* ===== verification/Utf8.v ===== *)
(** Rust [str] values as byte strings: lengths in bytes, character boundaries,
    slicing at a boundary, and the chunking loops the service runs over them.

    A [string] is its sequence of bytes. [utf8 s] is the property of [str] the
    code relies on: every character is a lead byte followed by the number of
    continuation bytes the lead announces, at most three. *)
From S2P Require Import Prelude.
From Stdlib Require Import Strings.Ascii.

#[local] Open Scope N_scope.

(** [s.len()] *)
Definition slen (s : string) : N := N.of_nat (String.length s).

Definition byte_val (a : ascii) : N := N_of_ascii a.

(** Continuation bytes are [0x80..=0xBF]. *)
Definition is_continuation (a : ascii) : bool :=
  (128 <=? byte_val a) && (byte_val a <? 192).

(** [s.is_char_boundary(i)] *)
Definition is_char_boundary (s : string) (i : N) : bool :=
  if i =? 0 then true
  else match String.get (N.to_nat i) s with
       | None => i =? slen s
       | Some a => negb (is_continuation a)
       end.

(** [while !s.is_char_boundary(i) { i -= 1 }], the loop the source writes; the
    fuel is [i] itself, which is enough because [0] is a boundary. *)
Fixpoint boundary_below (fuel : nat) (s : string) (i : N) : N :=
  match fuel with
  | O => i
  | S fuel => if is_char_boundary s i then i else boundary_below fuel s (i - 1)
  end.
Definition floor_boundary (s : string) (i : N) : N := boundary_below (N.to_nat i) s i.

(** [str::floor_char_boundary] of the standard library: past the end it is the
    length. *)
Definition floor_char_boundary (s : string) (i : N) : N :=
  if slen s <=? i then slen s else floor_boundary s i.

(** [&s[i..j]] for a slice that does not panic. *)
Definition slice (s : string) (i j : N) : string :=
  String.substring (N.to_nat i) (N.to_nat (j - i)) s.
(** [s.truncate(i)] at a boundary. *)
Definition truncate (s : string) (i : N) : string := slice s 0 i.

(** ** UTF-8 *)
Definition char_width (a : ascii) : option nat :=
  let b := byte_val a in
  if b <? 128 then Some 1%nat
  else if b <? 192 then None
  else if b <? 224 then Some 2%nat
  else if b <? 240 then Some 3%nat
  else if b <? 248 then Some 4%nat
  else None.

(** [conts n s]: the rest of [s] after [n] continuation bytes. *)
Fixpoint conts (n : nat) (s : string) : option string :=
  match n, s with
  | O, _ => Some s
  | S n, String a s => if is_continuation a then conts n s else None
  | S _, EmptyString => None
  end.

Inductive utf8 : string → Prop :=
  | utf8_nil : utf8 ""
  | utf8_char a w s s' :
      char_width a = Some (S w) → conts w s = Some s' → utf8 s' → utf8 (String a s).

Fixpoint utf8b (fuel : nat) (s : string) : bool :=
  match s, fuel with
  | EmptyString, _ => true
  | String a s, S fuel =>
      match char_width a with
      | Some (S w) => match conts w s with Some s' => utf8b fuel s' | None => false end
      | _ => false
      end
  | _, O => false
  end.

Lemma utf8b_sound fuel s : utf8b fuel s = true → utf8 s.
Proof.
  revert s. induction fuel as [|fuel IH]; intros [|a s]; cbn; try (done || constructor).
  destruct (char_width a) as [[|w]|] eqn:E; try done.
  destruct (conts w s) as [s'|] eqn:E'; try done. intros H.
  econstructor; eauto.
Qed.

(** ** Lengths and slices *)
Lemma slen_app s1 s2 : slen (s1 +:+ s2) = slen s1 + slen s2.
Proof.
  unfold slen. rewrite <- Nat2N.inj_add. f_equal.
  induction s1 as [|a s1 IH]; [done|]. change (String a s1 +:+ s2) with (String a (s1 +:+ s2)).
  cbn. by rewrite IH.
Qed.

Lemma string_app_nil_r s : s +:+ "" = s.
Proof.
  induction s as [|a s IH]; [done|]. change (String a (s +:+ "") = String a s). by rewrite IH.
Qed.

Lemma string_app_assoc s t u : s +:+ (t +:+ u) = (s +:+ t) +:+ u.
Proof.
  induction s as [|a s IH]; [done|].
  change (String a (s +:+ (t +:+ u)) = String a ((s +:+ t) +:+ u)). by rewrite IH.
Qed.

Lemma slen_nil_inv s : slen s = 0 → s = ""%string.
Proof. destruct s; [done|]. unfold slen. cbn. lia. Qed.

Lemma substring_all s n : (String.length s ≤ n)%nat → String.substring 0 n s = s.
Proof.
  revert n. induction s as [|a s IH]; intros [|n]; cbn; try (done || lia).
  intros ?. rewrite IH by lia. done.
Qed.

Lemma length_substring s i n :
  String.length (String.substring i n s) = (n `min` (String.length s - i))%nat.
Proof.
  revert i n. induction s as [|a s IH]; intros [|i] [|n]; cbn; try lia.
  - rewrite IH. lia.
  - rewrite IH. done.
  - rewrite IH. done.
Qed.

Lemma substring_app_split s i n m :
  String.substring i n s +:+ String.substring (i + n) m s = String.substring i (n + m) s.
Proof.
  revert i n. induction s as [|a s IH]; intros [|i] [|n]; try done.
  - change (String a (String.substring 0 n s +:+ String.substring (0 + n) m s)
      = String a (String.substring 0 (n + m) s)). by rewrite IH.
  - cbn. rewrite Nat.add_0_r. specialize (IH i 0%nat). rewrite Nat.add_0_r in IH. done.
  - apply (IH i (S n)).
Qed.

Lemma slen_slice s i j : j ≤ slen s → slen (slice s i j) = j - i.
Proof. unfold slen, slice. rewrite length_substring. lia. Qed.

Lemma slice_app s i j k :
  i ≤ j → j ≤ k → slice s i j +:+ slice s j k = slice s i k.
Proof.
  intros ??. unfold slice.
  replace (N.to_nat j) with (N.to_nat i + N.to_nat (j - i))%nat by lia.
  rewrite substring_app_split. f_equal. lia.
Qed.

Lemma slice_all s : slice s 0 (slen s) = s.
Proof. unfold slice, slen. apply substring_all. lia. Qed.

Lemma slice_empty s i : slice s i i = ""%string.
Proof.
  apply slen_nil_inv. unfold slice, slen. rewrite length_substring. lia.
Qed.

Lemma slice_app_l s t : slice (s +:+ t) 0 (slen s) = s.
Proof.
  unfold slice, slen. rewrite N.sub_0_r, Nat2N.id. change (N.to_nat 0) with 0%nat.
  induction s as [|a s IH]; [by destruct t|].
  change (String a (String.substring 0 (String.length s) (s +:+ t)) = String a s).
  by rewrite IH.
Qed.

Lemma slice_app_r s t : slice (s +:+ t) (slen s) (slen (s +:+ t)) = t.
Proof.
  rewrite slen_app. unfold slice, slen.
  replace (N.to_nat (N.of_nat (String.length s) + N.of_nat (String.length t) -
    N.of_nat (String.length s))) with (String.length t) by lia.
  rewrite Nat2N.id.
  induction s as [|a s IH]; [by apply substring_all|].
  change (String a s +:+ t) with (String a (s +:+ t)). exact IH.
Qed.

(** ** Boundaries *)
Lemma boundary_0 s : is_char_boundary s 0 = true.
Proof. done. Qed.

Lemma get_length_None s n : (String.length s ≤ n)%nat ↔ String.get n s = None.
Proof.
  revert n. induction s as [|a s IH]; intros [|n]; cbn; try (split; (done || lia)).
  rewrite <- IH. lia.
Qed.

Lemma boundary_len s : is_char_boundary s (slen s) = true.
Proof.
  unfold is_char_boundary. destruct (slen s =? 0) eqn:E; [done|].
  destruct (String.get _ s) eqn:G; [|apply N.eqb_refl].
  assert (String.get (N.to_nat (slen s)) s = None) as H.
  { apply get_length_None. unfold slen. lia. }
  congruence.
Qed.

Lemma boundary_le s i : is_char_boundary s i = true → i ≤ slen s.
Proof.
  unfold is_char_boundary. destruct (i =? 0) eqn:E; boolify; [subst; lia|].
  destruct (String.get _ s) eqn:G; [|intros; boolify; lia].
  destruct (decide (String.length s ≤ N.to_nat i)%nat) as [H|H].
  - apply get_length_None in H. congruence.
  - unfold slen. lia.
Qed.

(** The downward loop ends on a boundary, never past its start, and skips no
    boundary on the way. *)
Lemma boundary_below_spec fuel s i :
  (N.to_nat i ≤ fuel)%nat →
  let j := boundary_below fuel s i in
  is_char_boundary s j = true ∧ j ≤ i ∧
  ∀ k, j < k → k ≤ i → is_char_boundary s k = false.
Proof.
  revert i. induction fuel as [|fuel IH]; intros i Hi; cbn.
  - assert (i = 0) as -> by lia. split_and!; [done|lia|lia].
  - destruct (is_char_boundary s i) eqn:E.
    + split_and!; [done|lia|lia].
    + destruct (decide (i = 0)) as [->|]; [done|].
      destruct (IH (i - 1)) as (H1 & H2 & H3); [lia|].
      split_and!; [done|lia|]. intros k ??.
      destruct (decide (k = i)) as [->|]; [done|]. apply H3; lia.
Qed.

Lemma floor_boundary_spec s i :
  is_char_boundary s (floor_boundary s i) = true ∧ floor_boundary s i ≤ i ∧
  ∀ k, floor_boundary s i < k → k ≤ i → is_char_boundary s k = false.
Proof. apply boundary_below_spec. done. Qed.

Lemma floor_char_boundary_le s i : floor_char_boundary s i ≤ i ∧
  floor_char_boundary s i ≤ slen s.
Proof.
  unfold floor_char_boundary. destruct (slen s <=? i) eqn:E; boolify; [lia|].
  destruct (floor_boundary_spec s i) as (?&?&?). lia.
Qed.

(** ** Characters are at most four bytes *)
Lemma conts_spec w s s' :
  conts w s = Some s' →
  String.length s = (w + String.length s')%nat ∧
  (∀ k, String.get (w + k) s = String.get k s') ∧
  (∀ k, (k < w)%nat → ∃ a, String.get k s = Some a ∧ is_continuation a = true).
Proof.
  revert s. induction w as [|w IH]; intros s; cbn.
  - intros [= ->]. split_and!; [done|done|lia].
  - destruct s as [|a s]; [done|]. destruct (is_continuation a) eqn:E; [|done].
    intros H. destruct (IH _ H) as (H1 & H2 & H3). split_and!; cbn; [lia|done|].
    intros [|k] Hk; [eauto|]. apply H3. lia.
Qed.

Lemma char_width_bounds a w : char_width a = Some w → (1 ≤ w ≤ 4)%nat.
Proof. unfold char_width. repeat case_match; intros [= <-] || done; lia. Qed.

Lemma char_width_lead a w : char_width a = Some w → is_continuation a = false.
Proof.
  unfold char_width, is_continuation. intros H.
  destruct (128 <=? byte_val a) eqn:E1, (byte_val a <? 192) eqn:E2; try done.
  boolify. destruct (byte_val a <? 128) eqn:E3; boolify; [lia|done].
Qed.

(** The boundaries of a string past its first character are those of the rest. *)
Lemma boundary_shift a w s s' k :
  char_width a = Some (S w) → conts w s = Some s' → utf8 s' →
  is_char_boundary (String a s) (N.of_nat (S w) + k) = is_char_boundary s' k.
Proof.
  intros Ha Hc Hs'. destruct (conts_spec _ _ _ Hc) as (Hl & Hg & _).
  unfold is_char_boundary. rewrite (proj2 (N.eqb_neq _ 0)) by lia.
  replace (N.to_nat (N.of_nat (S w) + k)) with (S (w + N.to_nat k)) by lia. cbn [String.get].
  rewrite Hg. assert (slen (String a s) = N.of_nat (S w) + slen s') as ->.
  { unfold slen. cbn [String.length]. lia. }
  destruct (k =? 0) eqn:E; boolify.
  - subst k. destruct Hs' as [|b w' t t' Hb _ _]; cbn.
    + apply N.eqb_eq. unfold slen. cbn. lia.
    + apply char_width_lead in Hb. change (negb (is_continuation b) = true). by rewrite Hb.
  - destruct (String.get _ s') as [b|] eqn:G; [done|].
    destruct (N.eqb_spec k (slen s')); [apply N.eqb_eq|apply N.eqb_neq]; lia.
Qed.

Lemma utf8_boundary_near s i :
  utf8 s → i ≤ slen s → ∃ j, j ≤ i ∧ i < j + 4 ∧ is_char_boundary s j = true.
Proof.
  intros Hs. revert i. induction Hs as [|a w s s' Ha Hc Hs' IH]; intros i Hi.
  - exists 0. unfold slen in Hi. cbn in Hi. split_and!; [lia|lia|done].
  - destruct (conts_spec _ _ _ Hc) as (Hl & _ & _).
    pose proof (char_width_bounds _ _ Ha).
    destruct (decide (N.of_nat (S w) ≤ i)) as [Hw|Hw].
    + destruct (IH (i - N.of_nat (S w))) as (j & ? & ? & Hj).
      { unfold slen in *. cbn [String.length] in Hi. lia. }
      exists (N.of_nat (S w) + j). split_and!; [lia|lia|].
      by rewrite (boundary_shift _ _ _ _ _ Ha Hc Hs').
    + exists 0. split_and!; [lia|lia|done].
Qed.

(** A chunk limit of at least four bytes always makes progress. *)
Lemma floor_boundary_near s i :
  utf8 s → i ≤ slen s → i < floor_boundary s i + 4.
Proof.
  intros Hs Hi. destruct (utf8_boundary_near s i Hs Hi) as (j & Hji & Hij & Hj).
  destruct (floor_boundary_spec s i) as (_ & _ & Hmax).
  destruct (decide (j ≤ floor_boundary s i)); [lia|].
  rewrite (Hmax j) in Hj by lia. done.
Qed.

(** ** Slicing a string at a boundary keeps it valid *)
Lemma conts_take w s s' m :
  conts w s = Some s' →
  conts w (String.substring 0 (w + m) s) = Some (String.substring 0 m s').
Proof.
  revert s. induction w as [|w IH]; intros s; cbn.
  - by intros [= ->].
  - destruct s as [|a s]; [done|]. cbn. destruct (is_continuation a); [|done]. apply IH.
Qed.

Lemma utf8_take s i : utf8 s → is_char_boundary s i = true → utf8 (slice s 0 i).
Proof.
  intros Hs. revert i. induction Hs as [|a w s s' Ha Hc Hs' IH]; intros i Hb.
  - unfold slice. destruct (N.to_nat (i - 0)); constructor.
  - destruct (decide (i = 0)) as [->|Hi0]; [rewrite slice_empty; constructor|].
    destruct (decide (N.of_nat (S w) ≤ i)) as [Hw|Hw].
    + replace i with (N.of_nat (S w) + (i - N.of_nat (S w))) in Hb |- * by lia.
      rewrite (boundary_shift _ _ _ _ _ Ha Hc Hs') in Hb. unfold slice.
      rewrite N.sub_0_r. change (N.to_nat 0) with 0%nat.
      replace (N.to_nat (_ + _)) with (S (w + N.to_nat (i - N.of_nat (S w)))) by lia.
      econstructor; [done|apply conts_take, Hc|]. apply IH in Hb. unfold slice in Hb.
      by rewrite N.sub_0_r in Hb.
    + exfalso. destruct (conts_spec _ _ _ Hc) as (_ & _ & Hcont).
      destruct (Hcont (N.to_nat (i - 1))) as (b & Hg & Hb'); [lia|].
      unfold is_char_boundary in Hb. rewrite (proj2 (N.eqb_neq _ 0)) in Hb by lia.
      replace (N.to_nat i) with (S (N.to_nat (i - 1))) in Hb by lia. cbn [String.get] in Hb.
      rewrite Hg, Hb' in Hb. done.
Qed.

(** ** Reading a string back in chunks

    [read_chunks fuel next s i] follows the protocol a reader of a chunked text
    runs: ask for the chunk at [i], append it, go on at its end until the chunk
    says it is complete. *)
Fixpoint read_chunks (fuel : nat) (next : N → option (string * bool)) (i : N) :
    option string :=
  match fuel with
  | O => None
  | S fuel =>
      match next i with
      | None => None
      | Some (chunk, true) => Some chunk
      | Some (chunk, false) =>
          rest ← read_chunks fuel next (i + slen chunk); Some (chunk +:+ rest)
      end
  end.

(** ** Searching text

    [str::strip_prefix], [str::contains], [str::split_once] and
    [str::to_ascii_lowercase] with a string pattern. *)
Fixpoint strip_prefix (p s : string) : option string :=
  match p, s with
  | EmptyString, _ => Some s
  | String a p, String b s => if Ascii.eqb a b then strip_prefix p s else None
  | String _ _, EmptyString => None
  end.
Fixpoint contains (p s : string) : bool :=
  match strip_prefix p s with
  | Some _ => true
  | None => match s with EmptyString => false | String _ s => contains p s end
  end.
Fixpoint split_once (p s : string) : option (string * string) :=
  match strip_prefix p s with
  | Some rest => Some (EmptyString, rest)
  | None => match s with
            | EmptyString => None
            | String a s => '(l, r) ← split_once p s; Some (String a l, r)
            end
  end.
Fixpoint to_ascii_lowercase (s : string) : string :=
  match s with
  | EmptyString => EmptyString
  | String a s =>
      let b := byte_val a in
      String (if (65 <=? b) && (b <=? 90) then ascii_of_N (b + 32) else a)
        (to_ascii_lowercase s)
  end.

Lemma strip_prefix_Some p s r : strip_prefix p s = Some r ↔ s = p +:+ r.
Proof.
  revert s. induction p as [|a p IH]; intros s; cbn [strip_prefix].
  - split; [by intros [= ->]|]. intros ->. done.
  - destruct s as [|b s]; [split; done|]. change (String a p +:+ r) with (String a (p +:+ r)).
    destruct (Ascii.eqb a b) eqn:E.
    + apply Ascii.eqb_eq in E as ->. rewrite IH. split; congruence.
    + apply Ascii.eqb_neq in E. split; congruence.
Qed.
Lemma split_once_Some p s l r : split_once p s = Some (l, r) → s = l +:+ p +:+ r.
Proof.
  revert l. induction s as [|a s IH]; intros l; cbn [split_once].
  - destruct (strip_prefix p "") as [r'|] eqn:E; [|done]. intros [= <- <-].
    by apply strip_prefix_Some in E.
  - destruct (strip_prefix p (String a s)) as [r'|] eqn:E.
    + intros [= <- <-]. by apply strip_prefix_Some in E.
    + destruct (split_once p s) as [[l' r']|]; [|done]. cbn. intros [= <- <-].
      by rewrite (IH l').
Qed.

(** A chunk server that answers every boundary with a nonempty chunk up to the next
    one, or with the end, serves the whole text. *)
Definition serves (s : string) (next : N → option (string * bool)) : Prop :=
  ∀ i, is_char_boundary s i = true → ∃ e,
    next i = Some (slice s i e, e =? slen s) ∧ is_char_boundary s e = true ∧
    i ≤ e ≤ slen s ∧ (i < e ∨ e = slen s).

Lemma read_chunks_all s next fuel i :
  serves s next → is_char_boundary s i = true → slen s - i < N.of_nat fuel →
  read_chunks fuel next i = Some (slice s i (slen s)).
Proof.
  intros Hnext. revert i. induction fuel as [|fuel IH]; intros i Hi Hf; [lia|].
  cbn [read_chunks]. destruct (Hnext i Hi) as (e & -> & He & Hie & Hprog).
  destruct (e =? slen s) eqn:E; boolify; [by subst|].
  rewrite slen_slice by lia. replace (i + (e - i)) with e by lia.
  rewrite IH by (done || lia). cbn. f_equal. apply slice_app; lia.
Qed.
