(* ===== verification/Text.v ===== *)
(** Text functions of the standard library: predicates on bytes, [str::trim], splitting
    and the decimal and hexadecimal forms of integers. Strings are UTF-8 bytes. *)
From S2P Require Import Prelude Utf8.
From Stdlib Require Import Strings.Ascii.
From stdpp Require Import pretty.

#[local] Open Scope N_scope.

(** * Text predicates of the standard library *)
Fixpoint contains_nul (s : string) : bool :=
  match s with
  | EmptyString => false
  | String a s => (byte_val a =? 0) || contains_nul s
  end.
Fixpoint all_bytes (p : N → bool) (s : string) : bool :=
  match s with
  | EmptyString => true
  | String a s => p (byte_val a) && all_bytes p s
  end.
Definition between (lo hi b : N) : bool := (lo <=? b) && (b <=? hi).
Definition is_ascii_digit (b : N) : bool := between 48 57 b.
Definition is_ascii_hexdigit (b : N) : bool :=
  is_ascii_digit b || between 65 70 b || between 97 102 b.
Definition is_ascii_alphanumeric (b : N) : bool :=
  is_ascii_digit b || between 65 90 b || between 97 122 b.

(** [s.trim().is_empty()]: every character is Unicode white space, written on the
    UTF-8 bytes. *)
Fixpoint trim_is_empty (s : string) : bool :=
  match s with
  | EmptyString => true
  | String a r =>
      let x := byte_val a in
      if between 9 13 x || (x =? 32) then trim_is_empty r
      else match r with
      | EmptyString => false
      | String b r =>
          let y := byte_val b in
          if (x =? 194) && ((y =? 133) || (y =? 160)) then trim_is_empty r
          else match r with
          | EmptyString => false
          | String c r =>
              let z := byte_val c in
              if ((x =? 225) && (y =? 154) && (z =? 128)) ||
                 ((x =? 226) && (y =? 128) && (between 128 138 z || between 168 169 z || (z =? 175))) ||
                 ((x =? 226) && (y =? 129) && (z =? 159)) ||
                 ((x =? 227) && (y =? 128) && (z =? 128))
              then trim_is_empty r else false
          end
      end
  end.
(** [s.trim_start()], [s.trim_end()] and [s.trim()]. A continuation byte starts no
    white space, so the suffixes of [s] can be tested byte by byte. *)
Fixpoint trim_start (s : string) : string :=
  match s with
  | EmptyString => s
  | String a r =>
      let x := byte_val a in
      if between 9 13 x || (x =? 32) then trim_start r
      else match r with
      | EmptyString => s
      | String b r2 =>
          if trim_is_empty (String a (String b "")) then trim_start r2
          else match r2 with
          | EmptyString => s
          | String c r3 =>
              if trim_is_empty (String a (String b (String c ""))) then trim_start r3 else s
          end
      end
  end.
Fixpoint trim_end (s : string) : string :=
  if trim_is_empty s then ""
  else match s with EmptyString => s | String a r => String a (trim_end r) end.
Definition trim (s : string) : string := trim_end (trim_start s).
Definition is_empty (s : string) : bool := match s with EmptyString => true | _ => false end.

(** * Splitting *)
(** [s.split(c)] for an ASCII character: never empty. *)
Fixpoint split (c : ascii) (s : string) : list string :=
  match s with
  | EmptyString => [""]
  | String a r =>
      if Ascii.eqb a c then "" :: split c r
      else match split c r with
           | [] => [String a ""]
           | w :: ws => String a w :: ws
           end
  end.
(** [s.replace(pat, to)] for a pattern that is not empty: [skip] is what is left of the
    match before. *)
Fixpoint replace_after (pat to : string) (skip : nat) (s : string) : string :=
  match s with
  | EmptyString => EmptyString
  | String c r =>
      match skip with
      | S k => replace_after pat to k r
      | O => match Utf8.strip_prefix pat s with
             | Some _ => to +:+ replace_after pat to (Nat.pred (String.length pat)) r
             | None => String c (replace_after pat to 0 r)
             end
      end
  end.
Definition replace (pat to s : string) : string := replace_after pat to 0 s.
(** [s.replace(c, to)] for an ASCII character and an ASCII replacement. *)
Fixpoint replace_char (c to : ascii) (s : string) : string :=
  match s with
  | EmptyString => EmptyString
  | String a r => String (if Ascii.eqb a c then to else a) (replace_char c to r)
  end.
(** [s.replace(c, "")] *)
Fixpoint remove_char (c : ascii) (s : string) : string :=
  match s with
  | EmptyString => EmptyString
  | String a r => if Ascii.eqb a c then remove_char c r else String a (remove_char c r)
  end.
Fixpoint to_ascii_uppercase (s : string) : string :=
  match s with
  | EmptyString => EmptyString
  | String a r =>
      String (if between 97 122 (byte_val a) then ascii_of_N (byte_val a - 32) else a)
        (to_ascii_uppercase r)
  end.
(** [s.as_bytes().chunks(2)] *)
Fixpoint chunks2 (s : string) : list string :=
  match s with
  | EmptyString => []
  | String a EmptyString => [String a EmptyString]
  | String a (String b r) => String a (String b EmptyString) :: chunks2 r
  end.

Definition newline : ascii := ascii_of_N 10.
Definition strip_cr (s : string) : string :=
  let n := slen s in
  match String.get (N.to_nat (n - 1)) s with
  | Some a => if byte_val a =? 13 then truncate s (n - 1) else s
  | None => s
  end.
(** [s.lines()]: a last line that is empty is no line. *)
Fixpoint drop_last_empty (l : list string) : list string :=
  match l with
  | [] => []
  | [w] => if is_empty w then [] else [w]
  | w :: l => w :: drop_last_empty l
  end.
Definition lines (s : string) : list string := strip_cr <$> drop_last_empty (split newline s).

(** [s.split_whitespace()]: the words between white space. *)
Definition starts_white (s : string) : bool := slen (trim_start s) <? slen s.
Fixpoint word (s : string) : string * string :=
  if starts_white s then ("", s)
  else match s with
  | EmptyString => ("", "")
  | String a r => let '(w, rest) := word r in (String a w, rest)
  end.
Fixpoint words (fuel : nat) (s : string) : list string :=
  match fuel with
  | O => []
  | S fuel =>
      let s := trim_start s in
      if is_empty s then []
      else let '(w, rest) := word s in w :: words fuel rest
  end.
Definition split_whitespace (s : string) : list string := words (S (String.length s)) s.

(** * Integers

    [uN::from_str_radix]: digits, with an optional plus sign, that stay below the bound
    of the type. *)
Definition digit (radix : N) (a : ascii) : option N :=
  let x := byte_val a in
  let v := if is_ascii_digit x then Some (x - 48)
           else if between 97 122 x then Some (x - 87)
           else if between 65 90 x then Some (x - 55)
           else None in
  v ← v; if v <? radix then Some v else None.
Fixpoint parse_digits (w radix acc : N) (s : string) : option N :=
  match s with
  | EmptyString => Some acc
  | String a s =>
      d ← digit radix a;
      m ← checked_mul w acc radix;
      n ← checked_add w m d;
      parse_digits w radix n s
  end.
Definition from_str_radix (w radix : N) (s : string) : option N :=
  match s with
  | EmptyString => None
  | String a r =>
      if byte_val a =? 43 then if is_empty r then None else parse_digits w radix 0 r
      else parse_digits w radix 0 s
  end.
Definition from_str (w : N) (s : string) : option N := from_str_radix w 10 s.
(** A digit of [{:x}]. *)
Definition hex_digit (n : N) : ascii := ascii_of_N (if n <? 10 then 48 + n else 87 + n).
(** [n.to_string()] *)
Definition to_string (n : N) : string := pretty n.

(** * Lemmas *)
Lemma below_ten (P : N → Prop) :
  P 0 → P 1 → P 2 → P 3 → P 4 → P 5 → P 6 → P 7 → P 8 → P 9 → ∀ n, n < 10 → P n.
Proof.
  intros ?????????? n Hn.
  assert (n = 0 ∨ n = 1 ∨ n = 2 ∨ n = 3 ∨ n = 4 ∨ n = 5 ∨ n = 6 ∨ n = 7 ∨ n = 8 ∨ n = 9) by lia.
  naive_solver.
Qed.
Lemma digit_decimal n : n < 10 → digit 10 (pretty_N_char n) = Some n.
Proof. by apply (below_ten (λ n, digit 10 (pretty_N_char n) = Some n)). Qed.
Lemma char_decimal n : n < 10 → is_ascii_digit (byte_val (pretty_N_char n)) = true.
Proof. by apply (below_ten (λ n, is_ascii_digit (byte_val (pretty_N_char n)) = true)). Qed.

Lemma pretty_go_digits x s : all_bytes is_ascii_digit s = true →
  all_bytes is_ascii_digit (pretty_N_go x s) = true.
Proof.
  revert s. induction (N.lt_wf_0 x) as [x _ IH]; intros s Hs.
  destruct (decide (x = 0)) as [->|]; [by rewrite pretty_N_go_0|].
  rewrite pretty_N_go_step by lia. apply IH; [apply N.div_lt; lia|].
  cbn. rewrite char_decimal by (by apply N.mod_lt). done.
Qed.
Lemma pretty_go_length x s : (String.length s ≤ String.length (pretty_N_go x s))%nat.
Proof.
  revert s. induction (N.lt_wf_0 x) as [x _ IH]; intros s.
  destruct (decide (x = 0)) as [->|]; [by rewrite pretty_N_go_0|].
  rewrite pretty_N_go_step by lia. etrans; [|apply IH; apply N.div_lt; lia]. cbn. lia.
Qed.
Lemma parse_pretty_go w x s : x ≤ w →
  parse_digits w 10 0 (pretty_N_go x s) = parse_digits w 10 x s.
Proof.
  revert s. induction (N.lt_wf_0 x) as [x _ IH]; intros s Hw.
  destruct (decide (x = 0)) as [->|]; [by rewrite pretty_N_go_0|].
  pose proof (N.div_mod x 10 ltac:(done)) as Hdm. pose proof (N.mod_lt x 10 ltac:(done)).
  assert (x / 10 < x) by (apply N.div_lt; lia).
  rewrite pretty_N_go_step by lia. rewrite IH by lia.
  cbn [parse_digits]. rewrite digit_decimal by done. cbn [mbind option_bind].
  revert Hdm. generalize (x / 10) (x mod 10). intros q r ->.
  unfold checked_mul. destruct (N.leb_spec (q * 10) w); [|lia]. cbn [mbind option_bind].
  unfold checked_add. destruct (N.leb_spec (q * 10 + r) w); [|lia]. cbn [mbind option_bind].
  f_equal. lia.
Qed.

Lemma to_string_digits n : all_bytes is_ascii_digit (to_string n) = true.
Proof.
  unfold to_string, pretty, pretty_N. destruct (decide (n = 0)); [done|]. by apply pretty_go_digits.
Qed.
Lemma to_string_nonempty n : to_string n ≠ "".
Proof.
  unfold to_string, pretty, pretty_N. destruct (decide (n = 0)); [done|].
  rewrite pretty_N_go_step by lia. intros E. apply (f_equal String.length) in E.
  pose proof (pretty_go_length (n / 10) (String (pretty_N_char (n mod 10)) "")) as Hl.
  rewrite E in Hl. cbn in Hl. lia.
Qed.
(** Printing and parsing an integer that fits. *)
Lemma from_str_to_string w n : n ≤ w → from_str w (to_string n) = Some n.
Proof.
  intros Hn. unfold from_str, from_str_radix.
  pose proof (to_string_digits n) as Hd. pose proof (to_string_nonempty n) as He.
  destruct (to_string n) as [|a r] eqn:E; [done|].
  apply andb_true_iff in Hd as [Ha _].
  destruct (byte_val a =? 43) eqn:Ep.
  { apply N.eqb_eq in Ep. by rewrite Ep in Ha. }
  rewrite <- E. unfold to_string, pretty, pretty_N in *. destruct (decide (n = 0)) as [->|].
  - by destruct w.
  - by rewrite parse_pretty_go.
Qed.

(** ** Predicates on every byte *)
Lemma all_bytes_app p s t : all_bytes p (s +:+ t) = all_bytes p s && all_bytes p t.
Proof.
  induction s as [|a s IH]; [done|].
  change (String a s +:+ t) with (String a (s +:+ t)). cbn [all_bytes]. by rewrite IH, andb_assoc.
Qed.
Lemma all_bytes_impl (p q : N → bool) s :
  (∀ b, p b = true → q b = true) → all_bytes p s = true → all_bytes q s = true.
Proof.
  intros Hpq. induction s as [|a s IH]; [done|]. cbn [all_bytes].
  intros [Ha Hs]%andb_true_iff. by rewrite (Hpq _ Ha), IH.
Qed.

(** A printable ASCII text has no white space to trim and no separator to split at. *)
Definition is_graphic (b : N) : bool := between 33 126 b.
Lemma digit_graphic b : is_ascii_digit b = true → is_graphic b = true.
Proof.
  unfold is_ascii_digit, is_graphic, between. rewrite !andb_true_iff, !N.leb_le. lia.
Qed.
Lemma hexdigit_graphic b : is_ascii_hexdigit b = true → is_graphic b = true.
Proof.
  unfold is_ascii_hexdigit, is_ascii_digit, is_graphic, between.
  rewrite !orb_true_iff, !andb_true_iff, !N.leb_le. lia.
Qed.
Lemma graphic_not_white a r : is_graphic (byte_val a) = true →
  trim_is_empty (String a r) = false ∧ trim_start (String a r) = String a r.
Proof.
  intros Ha. unfold is_graphic, between in Ha. apply andb_true_iff in Ha as [Hl Hu].
  apply N.leb_le in Hl. apply N.leb_le in Hu. set (x := byte_val a) in *.
  assert (between 9 13 x || (x =? 32) = false) as E1.
  { unfold between. destruct (N.leb_spec x 13); [lia|]. rewrite andb_false_r. cbn. apply N.eqb_neq. lia. }
  assert (∀ c, 128 ≤ c → (x =? c) = false) as E2 by (intros; apply N.eqb_neq; lia).
  cbn [trim_is_empty trim_start]. fold x. rewrite E1.
  destruct r as [|b [|c r]]; rewrite ?E2 by done; cbn; done.
Qed.
Lemma digit_not_white a r : is_ascii_digit (byte_val a) = true →
  trim_is_empty (String a r) = false ∧ trim_start (String a r) = String a r.
Proof. intros Ha. by apply graphic_not_white, digit_graphic. Qed.
Lemma trim_graphic s : all_bytes is_graphic s = true → trim s = s.
Proof.
  intros Hs. unfold trim. assert (trim_start s = s) as ->.
  { destruct s as [|a s]; [done|]. apply andb_true_iff in Hs as [Ha _]. by apply graphic_not_white. }
  induction s as [|a s IH]; [done|]. apply andb_true_iff in Hs as [Ha Hs]. cbn [trim_end].
  destruct (graphic_not_white a s Ha) as [-> _]. by rewrite IH.
Qed.
Lemma split_free (p : N → bool) c s r : p (byte_val c) = false → all_bytes p s = true →
  split c (s +:+ String c r) = s :: split c r.
Proof.
  intros Hc. induction s as [|a s IH]; intros Hs.
  - change ("" +:+ String c r) with (String c r). cbn [split]. by rewrite Ascii.eqb_refl.
  - change (String a s +:+ String c r) with (String a (s +:+ String c r)). cbn [split].
    apply andb_true_iff in Hs as [Ha Hs]. rewrite IH by done.
    destruct (Ascii.eqb_spec a c) as [->|]; [congruence|done].
Qed.
Lemma split_free_end (p : N → bool) c s : p (byte_val c) = false → all_bytes p s = true →
  split c s = [s].
Proof.
  intros Hc. induction s as [|a s IH]; cbn [all_bytes split]; intros Hs; [done|].
  apply andb_true_iff in Hs as [Ha Hs]. rewrite IH by done.
  destruct (Ascii.eqb_spec a c) as [->|]; [congruence|done].
Qed.
Lemma split_not_nil c s : split c s ≠ [].
Proof.
  destruct s as [|a s]; [done|]. cbn [split]. destruct (Ascii.eqb a c); [done|].
  by destruct (split c s).
Qed.
(** A separator splits whatever surrounds it. *)
Lemma split_sep c s r : split c (s +:+ String c r) = split c s ++ split c r.
Proof.
  induction s as [|a s IH].
  - change ("" +:+ String c r) with (String c r). cbn [split]. by rewrite Ascii.eqb_refl.
  - change (String a s +:+ String c r) with (String a (s +:+ String c r)). cbn [split].
    rewrite IH. destruct (Ascii.eqb a c); [done|].
    destruct (split c s) eqn:E; [by destruct (split_not_nil c s)|done].
Qed.
Lemma split_digits c s r : is_ascii_digit (byte_val c) = false → all_bytes is_ascii_digit s = true →
  split c (s +:+ String c r) = s :: split c r.
Proof. apply split_free. Qed.
Lemma split_digits_end c s : is_ascii_digit (byte_val c) = false → all_bytes is_ascii_digit s = true →
  split c s = [s].
Proof. apply split_free_end. Qed.

(** ** Case and chunks *)
Lemma lowercase_length s : slen (to_ascii_lowercase s) = slen s.
Proof.
  induction s as [|a s IH]; [done|]. unfold slen in *. cbn [to_ascii_lowercase String.length]. lia.
Qed.
Lemma uppercase_length s : slen (to_ascii_uppercase s) = slen s.
Proof.
  induction s as [|a s IH]; [done|]. unfold slen in *. cbn [to_ascii_uppercase String.length]. lia.
Qed.
Lemma byte_val_of b : b < 256 → byte_val (ascii_of_N b) = b.
Proof. apply N_ascii_embedding. Qed.
Lemma lowercase_hex s : all_bytes is_ascii_hexdigit s = true →
  all_bytes is_ascii_hexdigit (to_ascii_lowercase s) = true.
Proof.
  induction s as [|a s IH]; [done|]. cbn [all_bytes to_ascii_lowercase].
  intros [Ha Hs]%andb_true_iff. rewrite IH by done. rewrite andb_true_r.
  destruct ((65 <=? byte_val a) && (byte_val a <=? 90)) eqn:E; [|done].
  unfold is_ascii_hexdigit, is_ascii_digit, between in *.
  apply andb_true_iff in E as [E1 E2]. apply N.leb_le in E1, E2. rewrite byte_val_of by lia.
  rewrite !orb_true_iff, !andb_true_iff, !N.leb_le in *. lia.
Qed.
Lemma uppercase_hex s : all_bytes is_ascii_hexdigit s = true →
  all_bytes is_ascii_hexdigit (to_ascii_uppercase s) = true.
Proof.
  induction s as [|a s IH]; [done|]. cbn [all_bytes to_ascii_uppercase].
  intros [Ha Hs]%andb_true_iff. rewrite IH by done. rewrite andb_true_r.
  destruct (between 97 122 (byte_val a)) eqn:E; [|done].
  unfold is_ascii_hexdigit, is_ascii_digit, between in *.
  apply andb_true_iff in E as [E1 E2]. apply N.leb_le in E1, E2. rewrite byte_val_of by lia.
  rewrite !orb_true_iff, !andb_true_iff, !N.leb_le in *. lia.
Qed.
Lemma remove_char_free (p : N → bool) c s : p (byte_val c) = false → all_bytes p s = true →
  remove_char c s = s.
Proof.
  intros Hc. induction s as [|a s IH]; [done|]. cbn [all_bytes remove_char].
  intros [Ha Hs]%andb_true_iff. rewrite IH by done.
  destruct (Ascii.eqb_spec a c) as [->|]; [congruence|done].
Qed.
Lemma remove_char_app c s t : remove_char c (s +:+ t) = remove_char c s +:+ remove_char c t.
Proof.
  induction s as [|a s IH]; [done|].
  change (String a s +:+ t) with (String a (s +:+ t)). cbn [remove_char].
  rewrite IH. by destruct (Ascii.eqb a c).
Qed.
Lemma chunks2_ind (P : string → Prop) :
  P "" → (∀ a, P (String a "")) → (∀ a b s, P s → P (String a (String b s))) → ∀ s, P s.
Proof.
  intros H0 H1 H2 s. assert (P s ∧ ∀ a, P (String a s)) as [? _]; [|done].
  induction s as [|b s [IH1 IH2]]; split; auto.
Qed.
Lemma chunks2_all p s : all_bytes p s = true → Forall (λ c, all_bytes p c = true) (chunks2 s).
Proof.
  induction s as [|a|a b s IH] using chunks2_ind; cbn [all_bytes chunks2]; intros Hs.
  - done.
  - by repeat constructor.
  - apply andb_true_iff in Hs as [Ha [Hb Hs]%andb_true_iff]. constructor; [|by apply IH].
    cbn [all_bytes]. by rewrite Ha, Hb.
Qed.
Fixpoint total (l : list string) : N :=
  match l with [] => 0 | s :: l => slen s + total l end.
Lemma total_app l k : total (l ++ k) = total l + total k.
Proof. induction l as [|s l IH]; [done|]. cbn [app total]. lia. Qed.
Lemma total_rev l : total (rev l) = total l.
Proof. induction l as [|s l IH]; [done|]. cbn [rev]. rewrite total_app, IH. cbn [total]. lia. Qed.
Lemma chunks2_total s : total (chunks2 s) = slen s.
Proof.
  induction s as [|a|a b s IH] using chunks2_ind; [done..|].
  unfold slen in *. cbn [chunks2 String.length total]. unfold slen. cbn [String.length]. lia.
Qed.
Lemma concat_empty l : slen (String.concat "" l) = total l.
Proof.
  induction l as [|s l IH]; [done|]. destruct l as [|t l]; [cbn [String.concat total]; lia|].
  change (String.concat "" (s :: t :: l)) with (s +:+ "" +:+ String.concat "" (t :: l)).
  rewrite !slen_app, IH. done.
Qed.
Lemma concat_all p l : Forall (λ s, all_bytes p s = true) l → all_bytes p (String.concat "" l) = true.
Proof.
  induction 1 as [|s l Hs Hl IH]; [done|]. destruct l as [|t l]; [done|].
  change (String.concat "" (s :: t :: l)) with (s +:+ "" +:+ String.concat "" (t :: l)).
  by rewrite !all_bytes_app, Hs, IH.
Qed.

(** A text that begins and ends with a digit is its own trimmed form. *)
Lemma trim_end_digits s : all_bytes is_ascii_digit s = true → trim_end s = s.
Proof.
  induction s as [|a s IH]; [done|]. intros [Ha Hs]%andb_true_iff.
  cbn [trim_end]. destruct (digit_not_white a s Ha) as [-> _]. by rewrite IH.
Qed.
Lemma trim_end_then s c t : all_bytes is_ascii_digit s = true →
  trim_is_empty (String c t) = false → trim_end (String c t) = String c t →
  trim_end (s +:+ String c t) = s +:+ String c t.
Proof.
  intros Hs Hc Ht. induction s as [|a s IH]; [done|]. apply andb_true_iff in Hs as [Ha Hs].
  change (String a s +:+ String c t) with (String a (s +:+ String c t)).
  cbn [trim_end]. destruct (digit_not_white a (s +:+ String c t) Ha) as [-> _].
  by rewrite IH.
Qed.
