(* ===== verification/ThirdParty.v ===== *)
(** The crates the program calls and does not contain, as interfaces.

    Each class lists the operations the source uses; the [..Laws] class states
    the documented behaviour the theorems rely on. The components take these
    classes as parameters. The instances at the end are concrete functions that
    satisfy the laws: the witnesses run the components on them. *)
From S2P Require Import Prelude Utf8.
From Stdlib Require Import Strings.Ascii.

(** * uuid

    A [Uuid] is compared, stored, printed and parsed. [Uuid::new_v4()] draws
    one; an operation that draws takes the drawn value as an argument. *)
Abbreviation Uuid := N (only parsing).

Definition is_uuid (u : Uuid) : Prop := (u < 2 ^ 128)%N.

Class UuidFormat := {
  uuid_as_bytes : Uuid → string;
  uuid_to_string : Uuid → string;
  uuid_parse_str : string → option Uuid;
}.
Class UuidLaws `{UuidFormat} := {
  uuid_as_bytes_inj u v : is_uuid u → is_uuid v → uuid_as_bytes u = uuid_as_bytes v → u = v;
  uuid_as_bytes_length u : slen (uuid_as_bytes u) = 16%N;
  uuid_parse_to_string u : uuid_parse_str (uuid_to_string u) = Some u;
}.

(** * tokio_util::sync::CancellationToken

    A token is a shared handle: every clone sees a cancellation. The store [S]
    holds the state of all tokens. *)
Class CancellationTokens (S T : Type) := {
  token_new : S → T * S;
  token_cancel : T → S → S;
  token_cancelled : T → S → bool;
  token_live : T → S → Prop;
}.
Class CancellationLaws (S T : Type) `{CancellationTokens S T} := {
  token_new_live s : token_live (token_new s).1 (token_new s).2;
  token_new_fresh s : ¬ token_live (token_new s).1 s;
  token_new_uncancelled s : token_cancelled (token_new s).1 (token_new s).2 = false;
  token_new_other t s : token_live t s →
    token_live t (token_new s).2 ∧
    token_cancelled t (token_new s).2 = token_cancelled t s;
  token_cancel_self t s : token_live t s → token_cancelled t (token_cancel t s) = true;
  token_cancel_other t t' s : t ≠ t' →
    token_cancelled t' (token_cancel t s) = token_cancelled t' s;
  token_cancel_live t t' s : token_live t' s → token_live t' (token_cancel t s);
  token_cancel_keeps t t' s : token_cancelled t' s = true →
    token_cancelled t' (token_cancel t s) = true;
}.

(** * tokio::sync::mpsc, bounded *)
Inductive try_send_result := Sent | Full | Closed.
#[export] Instance try_send_result_eq_dec : EqDecision try_send_result.
Proof. solve_decision. Defined.

Class Mpsc (Q : Type → Type) := {
  channel {A} : nat → Q A;
  try_send {A} : A → Q A → try_send_result * Q A;
  recv {A} : Q A → option (A * Q A);
  queued {A} : Q A → list A;
  capacity {A} : Q A → nat;
  receiver_closed {A} : Q A → bool;
  drop_receiver {A} : Q A → Q A;
}.
Class MpscLaws (Q : Type → Type) `{Mpsc Q} := {
  channel_empty {A} n :
    queued (channel (A:=A) n) = [] ∧ capacity (channel (A:=A) n) = n ∧
    receiver_closed (channel (A:=A) n) = false;
  try_send_spec {A} (x : A) q :
    if receiver_closed q then try_send x q = (Closed, q)
    else if decide (length (queued q) < capacity q)
    then (try_send x q).1 = Sent ∧ queued (try_send x q).2 = queued q ++ [x] ∧
         capacity (try_send x q).2 = capacity q ∧
         receiver_closed (try_send x q).2 = false
    else try_send x q = (Full, q);
  recv_spec {A} (q : Q A) :
    match queued q with
    | [] => recv q = None
    | x :: xs => ∃ q', recv q = Some (x, q') ∧ queued q' = xs ∧
                 capacity q' = capacity q ∧ receiver_closed q' = receiver_closed q
    end;
  drop_receiver_closed {A} (q : Q A) : receiver_closed (drop_receiver q) = true;
}.

(** * tokio::sync::watch

    [send] leaves the value alone when no receiver is left; [send_replace]
    always stores. *)
Class Watch (W : Type → Type) := {
  watch_channel {A} : A → W A;
  watch_borrow {A} : W A → A;
  watch_receivers {A} : W A → nat;
  watch_send {A} : A → W A → W A;
  watch_send_replace {A} : A → W A → W A;
}.
Class WatchLaws (W : Type → Type) `{Watch W} := {
  watch_borrow_channel {A} (x : A) : watch_borrow (watch_channel x) = x;
  watch_receivers_channel {A} (x : A) : watch_receivers (watch_channel x) = 1;
  watch_borrow_replace {A} (x : A) w : watch_borrow (watch_send_replace x w) = x;
  watch_borrow_send {A} (x : A) w :
    watch_borrow (watch_send x w) = if decide (watch_receivers w = 0) then watch_borrow w else x;
  watch_receivers_send {A} (x : A) w : watch_receivers (watch_send x w) = watch_receivers w;
  watch_receivers_replace {A} (x : A) w :
    watch_receivers (watch_send_replace x w) = watch_receivers w;
}.

(** * serde_json *)
Class SerdeJson (A : Type) := {
  to_vec : A → option string;
  from_slice : string → option A;
}.
Class SerdeLaws (A : Type) `{SerdeJson A} := {
  from_slice_to_vec a v : to_vec a = Some v → from_slice v = Some a;
  to_vec_nonempty a v : to_vec a = Some v → slen v ≠ 0%N;
}.

(** * base64, the STANDARD engine and the URL-safe one without padding *)
Class Base64 := {
  base64_encode : string → string;
  base64_decode : string → option string;
  base64_url_encode : string → string;
  base64_url_decode : string → option string;
}.
Class Base64Laws `{Base64} := {
  base64_decode_encode b : base64_decode (base64_encode b) = Some b;
  base64_url_decode_encode b : base64_url_decode (base64_url_encode b) = Some b;
  base64_encode_length b : (slen (base64_encode b) ≤ 4 * ((slen b + 2) / 3))%N;
}.

(** * url

    A parsed [Url] through its accessors, and the decoder of
    [application/x-www-form-urlencoded] text. *)
Inductive UrlHost := HostDomain (d : string) | HostIpv4 (ip : N) | HostIpv6 (ip : N).
Record Url := {
  url_scheme : string;
  url_username : string;
  url_password : option string;
  url_host_str : option string;
  url_host : option UrlHost;
  url_port : option N;
  url_port_or_known_default : option N;
  url_path : string;
  url_query : option string;
  url_fragment : option string;
}.
Class UrlCrate := {
  url_parse : string → option Url;
  form_urlencoded_parse : string → list (string * string);
}.

(** * snow: the Noise handshake and transport states

    [hs] is a handshake state, [ts] a transport state. [paired a b] says that
    what [a] writes next is what [b] reads next. *)
Class Snow (hs ts : Type) := {
  build_initiator : string → string → option hs;
  build_responder : string → string → option hs;
  hs_write_message : hs → option (string * hs);
  hs_read_message : string → hs → option hs;
  into_transport_mode : hs → option ts;
  ts_write_message : string → ts → option (string * ts);
  ts_read_message : string → ts → option (string * ts);
  paired : ts → ts → Prop;
}.
Class SnowLaws (hs ts : Type) `{Snow hs ts} := {
  ts_write_length p c t t' : ts_write_message p t = Some (c, t') →
    slen c = (slen p + 16)%N;
  ts_read_write p c t t' u : paired t u → ts_write_message p t = Some (c, t') →
    ∃ u', ts_read_message c u = Some (p, u') ∧ paired t' u';
}.

(** * Concrete instances *)
Module Concrete.
(** Tokens are numbers; the store is the allocated and the cancelled ones. *)
Definition tokens : Type := gset N * gset N.
#[export] Instance tokens_ops : CancellationTokens tokens N := {|
  token_new s := let t := fresh (s.1 ∪ s.2) in (t, ({[t]} ∪ s.1, s.2));
  token_cancel t s := (s.1, {[t]} ∪ s.2);
  token_cancelled t s := bool_decide (t ∈ s.2);
  token_live t s := t ∈ s.1;
|}.
#[export] Instance tokens_laws : CancellationLaws tokens N.
Proof.
  split; cbn.
  - set_solver.
  - intros s H. pose proof (is_fresh (s.1 ∪ s.2)). set_solver.
  - intros s. apply bool_decide_eq_false_2. pose proof (is_fresh (s.1 ∪ s.2)). set_solver.
  - set_solver.
  - intros. apply bool_decide_eq_true_2. set_solver.
  - intros. apply bool_decide_ext. set_solver.
  - done.
  - intros t t' s H. apply bool_decide_eq_true_1 in H. apply bool_decide_eq_true_2. set_solver.
Qed.

Definition queue (A : Type) : Type := list A * nat * bool.
#[export] Instance queue_ops : Mpsc queue := {|
  channel A n := ([], n, false);
  try_send A x q :=
    match q with
    | (l, n, true) => (Closed, (l, n, true))
    | (l, n, false) => if decide (length l < n) then (Sent, (l ++ [x], n, false))
                       else (Full, (l, n, false))
    end;
  recv A q := match q with ([], _, _) => None | (x :: l, n, c) => Some (x, (l, n, c)) end;
  queued A q := q.1.1;
  capacity A q := q.1.2;
  receiver_closed A q := q.2;
  drop_receiver A q := ([], q.1.2, true);
|}.
#[export] Instance queue_laws : MpscLaws queue.
Proof.
  split; [done|..].
  - intros A x [[l n] []]; cbn; [done|]. by destruct (decide _).
  - intros A [[[|x l] n] c]; cbn; eauto.
  - done.
Qed.

Definition cell (A : Type) : Type := A * nat.
#[export] Instance cell_ops : Watch cell := {|
  watch_channel A x := (x, 1);
  watch_borrow A w := w.1;
  watch_receivers A w := w.2;
  watch_send A x w := if decide (w.2 = 0) then w else (x, w.2);
  watch_send_replace A x w := (x, w.2);
|}.
#[export] Instance cell_laws : WatchLaws cell.
Proof. split; intros A; try done; intros x w; cbn; by case_decide. Qed.

(** A codec that knows one value, enough to run a witness. *)
Definition one_value {A} `{EqDecision A} (a : A) (v : string) : SerdeJson A := {|
  to_vec b := if decide (b = a) then Some v else None;
  from_slice w := if decide (w = v) then Some a else None;
|}.
Lemma one_value_laws {A} `{EqDecision A} (a : A) v :
  slen v ≠ 0%N → @SerdeLaws A (one_value a v).
Proof.
  split; intros b w; cbn; (case_decide; [|done]); intros [= <-]; [|done].
  by case_decide; subst.
Qed.

(** Sixteen big-endian bytes, and a printed form in binary digits. *)
Fixpoint bytes_of (k : nat) (n : N) : string :=
  match k with
  | O => ""
  | S k => String (ascii_of_N (n mod 256)) (bytes_of k (n / 256))
  end.
Fixpoint pos_digits (p : positive) : string :=
  match p with
  | xH => ""
  | xO p => String "0" (pos_digits p)
  | xI p => String "1" (pos_digits p)
  end.
Fixpoint pos_parse (s : string) : option positive :=
  match s with
  | EmptyString => Some xH
  | String "0" s => xO <$> pos_parse s
  | String "1" s => xI <$> pos_parse s
  | _ => None
  end.
Definition uuids : UuidFormat := {|
  uuid_as_bytes := bytes_of 16;
  uuid_to_string u := match u with N0 => "-" | Npos p => pos_digits p end;
  uuid_parse_str s := if decide (s = "-"%string) then Some 0%N else Npos <$> pos_parse s;
|}.
Lemma bytes_of_inj k n m :
  (n < 256 ^ N.of_nat k)%N → (m < 256 ^ N.of_nat k)%N → bytes_of k n = bytes_of k m → n = m.
Proof.
  revert n m. induction k as [|k IH]; intros n m Hn Hm; [cbn in *; lia|].
  cbn [bytes_of]. intros H. injection H as Ha Hb.
  assert (n mod 256 = m mod 256)%N as Hmod.
  { apply (f_equal N_of_ascii) in Ha. by rewrite !N_ascii_embedding in Ha by (by apply N.mod_lt). }
  rewrite Nat2N.inj_succ, N.pow_succ_r' in Hn, Hm.
  assert (n / 256 = m / 256)%N as Hdiv.
  { apply IH; [apply N.Div0.div_lt_upper_bound; lia..|done]. }
  rewrite (N.div_mod n 256), (N.div_mod m 256), Hmod, Hdiv by done. done.
Qed.
Lemma bytes_of_length k n : slen (bytes_of k n) = N.of_nat k.
Proof. revert n. induction k as [|k IH]; intros n; [done|]. specialize (IH (n / 256)%N).
  unfold slen in *. cbn [bytes_of String.length]. lia. Qed.
Lemma pos_parse_digits p : pos_parse (pos_digits p) = Some p.
Proof. induction p as [p IH|p IH|]; cbn; by rewrite ?IH. Qed.
Lemma uuids_laws : @UuidLaws uuids.
Proof.
  split.
  - intros u v Hu Hv. by apply bytes_of_inj.
  - intros u. apply bytes_of_length.
  - intros [|p]; [done|]. cbn. destruct (decide _) as [E|_]; [destruct p; done|].
    by rewrite pos_parse_digits.
Qed.

(** A channel that appends a blank tag and strips it. *)
Definition tag : string := "................".
Definition snow : Snow () () := {|
  build_initiator _ _ := Some ();
  build_responder _ _ := Some ();
  hs_write_message _ := Some (tag, ());
  hs_read_message _ _ := Some ();
  into_transport_mode _ := Some ();
  ts_write_message p _ := Some (p +:+ tag, ());
  ts_read_message c _ := Some (slice c 0 (slen c - 16), ());
  paired _ _ := True;
|}.
Lemma snow_laws : @SnowLaws () () snow.
Proof.
  split; cbn.
  - intros p c [] [] [= <-]. by rewrite slen_app.
  - intros p c [] [] [] _ [= <-]. exists (). split; [|done]. do 2 f_equal.
    rewrite slen_app. assert (slen tag = 16%N) as -> by done. rewrite N.add_sub.
    apply slice_app_l.
Qed.

(** Text that needs no encoding. *)
Definition plain_base64 : Base64 := {|
  base64_encode s := s; base64_decode s := Some s;
  base64_url_encode s := s; base64_url_decode s := Some s;
|}.
Lemma plain_base64_laws : @Base64Laws plain_base64.
Proof. split; try done. intros b. cbn. pose proof (N.div_mod' (slen b + 2) 3).
  pose proof (N.mod_lt (slen b + 2) 3). lia.
Qed.

(** A URL parser that knows one HTTPS origin on an IPv4 literal. *)
Definition gateway_url : Url := {|
  url_scheme := "https"; url_username := ""; url_password := None;
  url_host_str := Some "198.51.100.7"; url_host := Some (HostIpv4 3325256711);
  url_port := None; url_port_or_known_default := Some 443%N;
  url_path := "/"; url_query := None; url_fragment := None;
|}.
#[export] Instance one_url : UrlCrate := {|
  url_parse s := if String.eqb s "https://198.51.100.7" then Some gateway_url else None;
  form_urlencoded_parse _ := [("authcookie", "token"); ("user", "alice")];
|}.
End Concrete.
