(* ===== verification/ClientProfile.v ===== *)
(** The client a connection presents itself as (crates/gpapi/src/os_profile/*.rs,
    gp_params.rs): host identity, target OS, the profile projected from them, and the
    request parameters built on it. [u16], [u32] texts and names are as the code's. *)
From S2P Require Import Prelude Utf8 Text.
From Stdlib Require Import Strings.Ascii.

#[local] Open Scope N_scope.

(** * Host identity and client OS (identity.rs, client_os.rs) *)
Record HostIdentity := {
  computer : string;
  host_id : string;
  serial_number : string;
  mac_address : string;
}.
#[export] Instance HostIdentity_eq_dec : EqDecision HostIdentity.
Proof. solve_decision. Defined.
Definition identity_application (c installation : string) : HostIdentity :=
  {| computer := c; host_id := installation; serial_number := ""; mac_address := "" |}.
Definition with_computer (c : string) (h : HostIdentity) : HostIdentity :=
  if trim_is_empty c then h
  else {| computer := c; host_id := host_id h; serial_number := serial_number h;
          mac_address := mac_address h |}.

Inductive ClientOs := Linux | Windows | Mac | Ios.
#[export] Instance ClientOs_eq_dec : EqDecision ClientOs.
Proof. solve_decision. Defined.
Definition client_os_from (os : string) : ClientOs :=
  if String.eqb os "Linux" then Linux
  else if String.eqb os "Windows" then Windows
  else if String.eqb os "Mac" then Mac
  else if String.eqb os "iOS" then Ios
  else Linux.
Definition client_os_as_str (os : ClientOs) : string :=
  match os with Linux => "Linux" | Windows => "Windows" | Mac => "Mac" | Ios => "iOS" end.
Definition to_openconnect_os (os : ClientOs) : string :=
  match os with
  | Linux => "linux" | Windows => "win" | Mac => "mac-intel" | Ios => "apple-ios"
  end.
Definition default_client_version (os : ClientOs) : string :=
  match os with
  | Linux => "6.3.3-619" | Windows => "6.3.3-650" | Mac => "6.3.3-915" | Ios => "6.3.5-28"
  end.
Definition default_csc_support (os : ClientOs) : bool :=
  match os with Linux | Ios => false | Mac | Windows => true end.

Inductive PreloginParamLocation := Body | Query.
Inductive PreloginBrowserMode := Embedded | External.
Inductive WebviewUserAgentTransform := NoTransform | LinuxPanGpuiVersion.
Inductive WebviewUserAgent :=
  | Native (prefix : string) (transform : WebviewUserAgentTransform)
  | Projected (prefix default_user_agent : string).

(** What the target OS decides ([mod target]). *)
Module Target.
Definition prelogin_param_location (os : ClientOs) : PreloginParamLocation :=
  match os with Linux | Mac | Ios => Body | Windows => Query end.
Definition saml_password (os : ClientOs) : string :=
  match os with Linux => "SAMLPASS" | Mac | Windows | Ios => "" end.
Definition external_browser_os_value (os : ClientOs) : string :=
  match os with Linux => "4" | Mac => "3" | Windows => "2" | Ios => "0" end.
Definition supports_macos_plist_csc (os : ClientOs) : bool :=
  match os with Mac => true | _ => false end.
Definition supports_linux_process_csc (os : ClientOs) : bool :=
  match os with Linux => true | _ => false end.
Definition supports_windows_registry_csc (os : ClientOs) : bool :=
  match os with Windows => true | _ => false end.
Definition kerberos_support_in_query (os : ClientOs) : bool :=
  match os with Linux | Ios => false | Mac | Windows => true end.
Definition os_vendor (os : ClientOs) : string :=
  match os with Linux => "Linux" | Mac | Ios => "Apple" | Windows => "Microsoft" end.
Definition webview_user_agent_default (os : ClientOs) : string :=
  match os with
  | Linux => "Mozilla/5.0 (X11; Linux x86_64) AppleWebKit/602.1 (KHTML, like Gecko) PanGPUI Version/10.0 Safari/602.1"
  | Mac | Ios => "Mozilla/5.0 (Macintosh; Intel Mac OS X 10_15_7) AppleWebKit/605.1.15 (KHTML, like Gecko)"
  | Windows => "Mozilla/5.0 (Windows NT 10.0; Win64; x64) AppleWebKit/537.36 (KHTML, like Gecko) Chrome/144.0.0.0 Safari/537.36 Edg/144.0.0.0"
  end.
Definition webview_user_agent_transform (os : ClientOs) : WebviewUserAgentTransform :=
  match os with Linux => LinuxPanGpuiVersion | Mac | Windows | Ios => NoTransform end.
End Target.

(** Defaults of an OS that is not the one running (defaults.rs). *)
Definition default_os_version (os : ClientOs) : string :=
  match os with
  | Linux => "Linux Ubuntu 24.04.3 LTS"
  | Mac => "Apple Mac OS X 13.4.0"
  | Windows => "Microsoft Windows 11 Pro , 64-bit"
  | Ios => "Apple iOS"
  end.
Definition default_software_version (os : ClientOs) : string :=
  match os with Mac => "13.4.0" | Windows => "10.0.22631.0" | Linux | Ios => "" end.

(** * Serial numbers (serial_number.rs)

    Lowering a character outside ASCII never makes a hexadecimal digit, so the ASCII
    functions decide the same texts. *)
Definition reverse_hex_bytes (value : string) : string :=
  String.concat "" (to_ascii_lowercase <$> rev (chunks2 value)).
(** The indices are within the 32 ASCII bytes that were checked. *)
Definition vmware_from_compact_hex (compact : string) : option string :=
  let compact := to_ascii_lowercase (trim compact) in
  if negb (slen compact =? 32) || negb (all_bytes is_ascii_hexdigit compact) then None
  else let pairs := chunks2 compact in
    Some ("VMware-" +:+ String.concat " " (take 8 pairs) +:+ "-" +:+
          String.concat " " (drop 8 pairs)).
Definition vmware_from_uuid (uuid : string) : option string :=
  match split "-" uuid with
  | [p0; p1; p2; p3; p4] =>
      if negb (slen p0 =? 8) || negb (slen p1 =? 4) || negb (slen p2 =? 4) ||
         negb (slen p3 =? 4) || negb (slen p4 =? 12) ||
         negb (forallb (all_bytes is_ascii_hexdigit) [p0; p1; p2; p3; p4])
      then None
      else vmware_from_compact_hex
        (reverse_hex_bytes p0 +:+ reverse_hex_bytes p1 +:+ reverse_hex_bytes p2 +:+
         to_ascii_lowercase p3 +:+ to_ascii_lowercase p4)
  | _ => None
  end.

(** * Projection of the host identity on the target (projection.rs) *)

(** [Uuid::new_v5(&Uuid::NAMESPACE_DNS, name).hyphenated().to_string()] of the uuid
    crate: a text in the 8-4-4-4-12 form. *)
Definition is_lower_hexdigit (b : N) : bool := is_ascii_digit b || between 97 102 b.
Definition hyphenated (s : string) : Prop :=
  ∃ p0 p1 p2 p3 p4, s = String.concat "-" [p0; p1; p2; p3; p4] ∧
    slen p0 = 8 ∧ slen p1 = 4 ∧ slen p2 = 4 ∧ slen p3 = 4 ∧ slen p4 = 12 ∧
    Forall (λ p, all_bytes is_lower_hexdigit p = true) [p0; p1; p2; p3; p4].
Class UuidV5 := { uuid_v5_dns : string → string }.
Class UuidV5Laws `{UuidV5} := { uuid_v5_hyphenated name : hyphenated (uuid_v5_dns name) }.

Record ProfileHostIdentity := {
  pi_computer : string;
  pi_host_id : string;
  pi_serial_number : string;
  pi_mac_address : string;
}.

Section projection.
Context `{UuidV5}.

Definition derive_uuid_from_seed (seed : string) (parts : list string) : string :=
  uuid_v5_dns (seed +:+ "-" +:+ String.concat "-" parts).
Definition derived_profile_mac (seed : string) (os : ClientOs) : string :=
  let uuid := derive_uuid_from_seed seed ["os-profile"; client_os_as_str os; "mac"] in
  let bytes := to_ascii_lowercase <$> take 6 (chunks2 (remove_char "-" uuid)) in
  match os with
  | Linux | Windows => String.concat "-" bytes
  | Mac | Ios => String.concat ":" bytes
  end.
Definition compact_uuid (seed : string) (os : ClientOs) (suffix : string) : string :=
  to_ascii_uppercase (remove_char "-"
    (derive_uuid_from_seed seed ["os-profile"; client_os_as_str os; suffix])).
Definition projected_computer (h : HostIdentity) (override : option string) : string :=
  match override with
  | Some c => if trim_is_empty c then computer h else c
  | None => computer h
  end.
Definition profile_mac_for (os : ClientOs) (mac : string) : string :=
  match os with
  | Linux | Windows => replace_char ":" "-" mac
  | Mac | Ios => replace_char "-" ":" mac
  end.

(** [mod native], [mod linux], [mod windows] and [mod macos]; a failed [expect] is
    [None]. *)
Definition project_native (os : ClientOs) (h : HostIdentity) (override : option string) :
    ProfileHostIdentity := {|
  pi_computer := projected_computer h override;
  pi_host_id := match os with
                | Mac => replace_char "-" ":" (host_id h)
                | Linux | Windows | Ios => host_id h
                end;
  pi_serial_number := serial_number h;
  pi_mac_address := profile_mac_for os (mac_address h);
|}.
Definition project_linux (h : HostIdentity) (override : option string) :
    option ProfileHostIdentity :=
  let seed := host_id h in
  let id := derive_uuid_from_seed seed ["os-profile"; client_os_as_str Linux; "host-id"] in
  serial ← vmware_from_uuid id;
  Some {| pi_computer := projected_computer h override; pi_host_id := id;
          pi_serial_number := serial; pi_mac_address := derived_profile_mac seed Linux |}.
Definition project_windows (h : HostIdentity) (override : option string) :
    option ProfileHostIdentity :=
  let seed := host_id h in
  serial ← vmware_from_compact_hex (compact_uuid seed Windows "serialno");
  Some {| pi_computer := projected_computer h override;
          pi_host_id := derive_uuid_from_seed seed
            ["os-profile"; client_os_as_str Windows; "host-id"];
          pi_serial_number := serial; pi_mac_address := derived_profile_mac seed Windows |}.
Definition project_macos (h : HostIdentity) (override : option string) : ProfileHostIdentity :=
  let seed := host_id h in
  let mac := derived_profile_mac seed Mac in
  {| pi_computer := projected_computer h override; pi_host_id := mac;
     pi_serial_number := truncate (compact_uuid seed Mac "serialno") 10;
     pi_mac_address := mac |}.
Definition project (runtime target : ClientOs) (h : HostIdentity) (override : option string) :
    option ProfileHostIdentity :=
  if decide (target = runtime) then Some (project_native target h override)
  else match target with
  | Linux => project_linux h override
  | Windows => project_windows h override
  | Mac => Some (project_macos h override)
  | Ios => Some (project_native target h override)
  end.

(** * The profile (profile.rs) *)
Record HostSnapshot := {
  snapshot_runtime_os : ClientOs;
  snapshot_identity : HostIdentity;
  snapshot_os_version : string;
  snapshot_software_version : string;
}.
Record OsProfile := {
  profile_runtime_os : ClientOs;
  profile_client_os : ClientOs;
  profile_os_version : string;
  profile_software_version : string;
  profile_os_vendor : string;
  profile_client_version : string;
  profile_host_identity : HostIdentity;
  profile_identity : ProfileHostIdentity;
  profile_user_agent : string;
}.
Definition is_native (p : OsProfile) : bool :=
  bool_decide (profile_runtime_os p = profile_client_os p).
Definition webview_user_agent (p : OsProfile) : WebviewUserAgent :=
  if is_native p
  then Native (profile_user_agent p) (Target.webview_user_agent_transform (profile_client_os p))
  else Projected (profile_user_agent p) (Target.webview_user_agent_default (profile_client_os p)).
Definition portal_default_browser (mode : PreloginBrowserMode) (p : OsProfile) : string :=
  match mode with
  | Embedded => "-10"
  | External => Target.external_browser_os_value (profile_client_os p)
  end.
Definition gateway_default_browser (mode : PreloginBrowserMode) (p : OsProfile) : string :=
  match mode with
  | Embedded => "0"
  | External => Target.external_browser_os_value (profile_client_os p)
  end.

Record OsProfileBuilder := {
  builder_client_os : ClientOs;
  builder_client_version : option string;
  os_version_override : option string;
  computer_name_override : option string;
  builder_host_identity : option HostIdentity;
  builder_user_agent : option string;
}.
Definition profile_builder_new (os : ClientOs) : OsProfileBuilder := {|
  builder_client_os := os; builder_client_version := None; os_version_override := None;
  computer_name_override := None; builder_host_identity := None; builder_user_agent := None;
|}.
Definition unless_blank (s : string) : option string := if trim_is_empty s then None else Some s.
Definition set_computer_name_override (name : string) (b : OsProfileBuilder) : OsProfileBuilder := {|
  builder_client_os := builder_client_os b; builder_client_version := builder_client_version b;
  os_version_override := os_version_override b; computer_name_override := Some name;
  builder_host_identity := builder_host_identity b; builder_user_agent := builder_user_agent b;
|}.
Definition set_client_version (version : string) (b : OsProfileBuilder) : OsProfileBuilder := {|
  builder_client_os := builder_client_os b; builder_client_version := Some version;
  os_version_override := os_version_override b;
  computer_name_override := computer_name_override b;
  builder_host_identity := builder_host_identity b; builder_user_agent := builder_user_agent b;
|}.
Definition set_os_version (version : string) (b : OsProfileBuilder) : OsProfileBuilder := {|
  builder_client_os := builder_client_os b; builder_client_version := builder_client_version b;
  os_version_override := unless_blank version;
  computer_name_override := computer_name_override b;
  builder_host_identity := builder_host_identity b; builder_user_agent := builder_user_agent b;
|}.
Definition set_host_identity (h : HostIdentity) (b : OsProfileBuilder) : OsProfileBuilder := {|
  builder_client_os := builder_client_os b; builder_client_version := builder_client_version b;
  os_version_override := os_version_override b;
  computer_name_override := computer_name_override b;
  builder_host_identity := Some h; builder_user_agent := builder_user_agent b;
|}.
Definition set_user_agent (ua : string) (b : OsProfileBuilder) : OsProfileBuilder := {|
  builder_client_os := builder_client_os b; builder_client_version := builder_client_version b;
  os_version_override := os_version_override b;
  computer_name_override := computer_name_override b;
  builder_host_identity := builder_host_identity b; builder_user_agent := unless_blank ua;
|}.

Definition finish (runtime : ClientOs) (identity : HostIdentity) (os_version software : string)
    (b : OsProfileBuilder) : option OsProfile :=
  let os := builder_client_os b in
  let version := default (default_client_version os) (builder_client_version b ≫= unless_blank) in
  projected ← project runtime os identity (computer_name_override b);
  let os_version := default os_version (os_version_override b) in
  Some {|
    profile_runtime_os := runtime; profile_client_os := os; profile_os_version := os_version;
    profile_software_version := software; profile_os_vendor := Target.os_vendor os;
    profile_client_version := version; profile_host_identity := identity;
    profile_identity := projected;
    profile_user_agent := default
      ("PAN GlobalProtect/" +:+ version +:+ " (" +:+ os_version +:+ ")") (builder_user_agent b);
  |}.
Definition build_profile (snapshot : HostSnapshot) (b : OsProfileBuilder) : option OsProfile :=
  let os := builder_client_os b in
  let '(os_version, software) :=
    if decide (os = snapshot_runtime_os snapshot)
    then (snapshot_os_version snapshot, snapshot_software_version snapshot)
    else (default_os_version os, default_software_version os) in
  finish (snapshot_runtime_os snapshot)
    (default (snapshot_identity snapshot) (builder_host_identity b)) os_version software b.
End projection.

(** * Request parameters (gp_params.rs)

    A [ClientIdentity] is the loaded certificate and key of utils/request.rs; loading
    one and making the request library's identity from files read the disk. *)
Inductive CscMode := CscAuto | CscYes | CscNo.
Definition csc_effective (os : ClientOs) (m : CscMode) : bool :=
  match m with CscAuto => default_csc_support os | CscYes => true | CscNo => false end.
Definition csc_as_str (m : CscMode) : string :=
  match m with CscAuto => "auto" | CscYes => "yes" | CscNo => "no" end.

Section params.
Context {ClientIdentity : Type}.

Record GpParams := {
  os_profile : OsProfile;
  ignore_tls_errors : bool;
  certificate : option string;
  sslkey : option string;
  key_password : option string;
  prepared_identity : option ClientIdentity;
  csc_mode : CscMode;
  is_gateway : bool;
  input_str : option string;
  otp : option string;
}.
Definition with_is_gateway (v : bool) (p : GpParams) : GpParams := {|
  os_profile := os_profile p; ignore_tls_errors := ignore_tls_errors p;
  certificate := certificate p; sslkey := sslkey p; key_password := key_password p;
  prepared_identity := prepared_identity p; csc_mode := csc_mode p; is_gateway := v;
  input_str := input_str p; otp := otp p;
|}.
Definition with_input_str (v : string) (p : GpParams) : GpParams := {|
  os_profile := os_profile p; ignore_tls_errors := ignore_tls_errors p;
  certificate := certificate p; sslkey := sslkey p; key_password := key_password p;
  prepared_identity := prepared_identity p; csc_mode := csc_mode p; is_gateway := is_gateway p;
  input_str := Some v; otp := otp p;
|}.
Definition with_otp (v : string) (p : GpParams) : GpParams := {|
  os_profile := os_profile p; ignore_tls_errors := ignore_tls_errors p;
  certificate := certificate p; sslkey := sslkey p; key_password := key_password p;
  prepared_identity := prepared_identity p; csc_mode := csc_mode p; is_gateway := is_gateway p;
  input_str := input_str p; otp := Some v;
|}.
Definition effective_csc_support (p : GpParams) : bool :=
  csc_effective (profile_client_os (os_profile p)) (csc_mode p).
Definition params_os_version (p : GpParams) : option string :=
  Some (profile_os_version (os_profile p)).
Definition params_client_version (p : GpParams) : option string :=
  Some (profile_client_version (os_profile p)).

(** A failure to load leaves the parameters as they are. *)
Definition prepare_client_identity
    {E} (load : string → option string → option string → result E ClientIdentity) :
    stm GpParams E () :=
  p ← get;
  identity ← match prepared_identity p, certificate p with
             | None, Some c => i ← lift (load c (sslkey p) (key_password p)); mret (Some i)
             | prepared, _ => mret prepared
             end;
  modify (λ p, {|
    os_profile := os_profile p; ignore_tls_errors := ignore_tls_errors p;
    certificate := None; sslkey := None; key_password := None;
    prepared_identity := identity; csc_mode := csc_mode p; is_gateway := is_gateway p;
    input_str := input_str p; otp := otp p |}).

(** What the HTTP client is built with: [RequestIdentity] is the library's identity. *)
Record ClientSettings {RequestIdentity : Type} := {
  accept_invalid_certs : bool;
  settings_user_agent : string;
  settings_identity : option RequestIdentity;
}.
Arguments ClientSettings : clear implicits.
Definition client_builder {RequestIdentity} (request_identity : ClientIdentity → RequestIdentity)
    (create : string → option string → option string → result string RequestIdentity)
    (p : GpParams) : result string (ClientSettings RequestIdentity) :=
  identity ← match prepared_identity p, certificate p with
             | Some i, _ => Ok (Some (request_identity i))
             | None, Some c => Some <$> create c (sslkey p) (key_password p)
             | None, None => Ok None
             end;
  Ok {| accept_invalid_certs := ignore_tls_errors p;
        settings_user_agent := profile_user_agent (os_profile p);
        settings_identity := identity |}.

Record GpParamsBuilder := {
  b_prepared_identity : option ClientIdentity;
  b_is_gateway : bool;
  b_os_profile : OsProfile;
  b_csc_mode : CscMode;
  b_ignore_tls_errors : bool;
  b_certificate : option string;
  b_sslkey : option string;
  b_key_password : option string;
}.
Definition params_builder_new (profile : OsProfile) : GpParamsBuilder := {|
  b_prepared_identity := None; b_is_gateway := false; b_os_profile := profile;
  b_csc_mode := CscAuto; b_ignore_tls_errors := false; b_certificate := None;
  b_sslkey := None; b_key_password := None;
|}.
Definition b_set_is_gateway (v : bool) (b : GpParamsBuilder) : GpParamsBuilder := {|
  b_prepared_identity := b_prepared_identity b; b_is_gateway := v;
  b_os_profile := b_os_profile b; b_csc_mode := b_csc_mode b;
  b_ignore_tls_errors := b_ignore_tls_errors b; b_certificate := b_certificate b;
  b_sslkey := b_sslkey b; b_key_password := b_key_password b;
|}.
Definition b_set_csc_mode (v : CscMode) (b : GpParamsBuilder) : GpParamsBuilder := {|
  b_prepared_identity := b_prepared_identity b; b_is_gateway := b_is_gateway b;
  b_os_profile := b_os_profile b; b_csc_mode := v;
  b_ignore_tls_errors := b_ignore_tls_errors b; b_certificate := b_certificate b;
  b_sslkey := b_sslkey b; b_key_password := b_key_password b;
|}.
Definition b_set_ignore_tls_errors (v : bool) (b : GpParamsBuilder) : GpParamsBuilder := {|
  b_prepared_identity := b_prepared_identity b; b_is_gateway := b_is_gateway b;
  b_os_profile := b_os_profile b; b_csc_mode := b_csc_mode b;
  b_ignore_tls_errors := v; b_certificate := b_certificate b;
  b_sslkey := b_sslkey b; b_key_password := b_key_password b;
|}.
Definition b_set_certificate (v : option string) (b : GpParamsBuilder) : GpParamsBuilder := {|
  b_prepared_identity := None; b_is_gateway := b_is_gateway b;
  b_os_profile := b_os_profile b; b_csc_mode := b_csc_mode b;
  b_ignore_tls_errors := b_ignore_tls_errors b; b_certificate := v;
  b_sslkey := b_sslkey b; b_key_password := b_key_password b;
|}.
Definition b_set_sslkey (v : option string) (b : GpParamsBuilder) : GpParamsBuilder := {|
  b_prepared_identity := None; b_is_gateway := b_is_gateway b;
  b_os_profile := b_os_profile b; b_csc_mode := b_csc_mode b;
  b_ignore_tls_errors := b_ignore_tls_errors b; b_certificate := b_certificate b;
  b_sslkey := v; b_key_password := b_key_password b;
|}.
Definition b_set_key_password (v : option string) (b : GpParamsBuilder) : GpParamsBuilder := {|
  b_prepared_identity := None; b_is_gateway := b_is_gateway b;
  b_os_profile := b_os_profile b; b_csc_mode := b_csc_mode b;
  b_ignore_tls_errors := b_ignore_tls_errors b; b_certificate := b_certificate b;
  b_sslkey := b_sslkey b; b_key_password := v;
|}.
Definition b_set_client_identity (v : option ClientIdentity) (b : GpParamsBuilder) :
    GpParamsBuilder := {|
  b_prepared_identity := v; b_is_gateway := b_is_gateway b;
  b_os_profile := b_os_profile b; b_csc_mode := b_csc_mode b;
  b_ignore_tls_errors := b_ignore_tls_errors b; b_certificate := None;
  b_sslkey := None; b_key_password := None;
|}.
Definition build_params (b : GpParamsBuilder) : GpParams := {|
  os_profile := b_os_profile b; ignore_tls_errors := b_ignore_tls_errors b;
  certificate := b_certificate b; sslkey := b_sslkey b; key_password := b_key_password b;
  prepared_identity := b_prepared_identity b; csc_mode := b_csc_mode b;
  is_gateway := b_is_gateway b; input_str := None; otp := None;
|}.
End params.
Arguments GpParams : clear implicits.
Arguments GpParamsBuilder : clear implicits.
Arguments ClientSettings : clear implicits.

(** * Theorems *)
Lemma lower_hexdigit_hex b : is_lower_hexdigit b = true → is_ascii_hexdigit b = true.
Proof.
  unfold is_lower_hexdigit, is_ascii_hexdigit. rewrite !orb_true_iff. tauto.
Qed.
Lemma lower_hex s : all_bytes is_lower_hexdigit s = true → all_bytes is_ascii_hexdigit s = true.
Proof. apply all_bytes_impl, lower_hexdigit_hex. Qed.
#[local] Hint Resolve lower_hex : core.

Lemma reverse_hex_ok s : all_bytes is_ascii_hexdigit s = true →
  all_bytes is_ascii_hexdigit (reverse_hex_bytes s) = true ∧ slen (reverse_hex_bytes s) = slen s.
Proof.
  intros Hs. unfold reverse_hex_bytes. split.
  - apply concat_all, Forall_fmap.
    eapply Forall_impl; [intros c; apply lowercase_hex|]. apply Forall_rev.
    exact (chunks2_all is_ascii_hexdigit s Hs).
  - rewrite concat_empty.
    assert (∀ l, total (to_ascii_lowercase <$> l) = total l) as E.
    { induction l as [|t l IH]; [done|]. cbn [fmap list_fmap total]. by rewrite lowercase_length, <- IH. }
    by rewrite E, total_rev, chunks2_total.
Qed.

(** Every serial made of 32 hexadecimal digits is accepted. *)
Lemma vmware_compact_ok s : slen s = 32 → all_bytes is_ascii_hexdigit s = true →
  is_Some (vmware_from_compact_hex s).
Proof.
  intros Hl Hh. unfold vmware_from_compact_hex.
  rewrite (trim_graphic s) by (eapply all_bytes_impl; [apply hexdigit_graphic|done]).
  by rewrite lowercase_length, Hl, lowercase_hex.
Qed.
Lemma vmware_uuid_ok s : hyphenated s → is_Some (vmware_from_uuid s).
Proof.
  intros (p0 & p1 & p2 & p3 & p4 & -> & H0 & H1 & H2 & H3 & H4 & Hp).
  inversion Hp as [|? ? L0 Hp0]; subst. inversion Hp0 as [|? ? L1 Hp1]; subst.
  inversion Hp1 as [|? ? L2 Hp2]; subst. inversion Hp2 as [|? ? L3 Hp3]; subst.
  inversion Hp3 as [|? ? L4 Hp4]; subst.
  unfold vmware_from_uuid.
  change (String.concat "-" [p0; p1; p2; p3; p4]) with
    (p0 +:+ String "-" (p1 +:+ String "-" (p2 +:+ String "-" (p3 +:+ String "-" p4)))).
  rewrite !(split_free is_lower_hexdigit) by done. rewrite (split_free_end is_lower_hexdigit) by done.
  rewrite H0, H1, H2, H3, H4. cbn [forallb]. rewrite !lower_hex by done. cbn.
  destruct (reverse_hex_ok p0) as [R0 S0]; [auto|]. destruct (reverse_hex_ok p1) as [R1 S1]; [auto|].
  destruct (reverse_hex_ok p2) as [R2 S2]; [auto|].
  apply vmware_compact_ok.
  - rewrite !slen_app, !lowercase_length, S0, S1, S2. lia.
  - rewrite !all_bytes_app, R0, R1, R2. rewrite !lowercase_hex by auto. done.
Qed.
Lemma compact_hyphenated s : hyphenated s →
  slen (remove_char "-" s) = 32 ∧ all_bytes is_ascii_hexdigit (remove_char "-" s) = true.
Proof.
  intros (p0 & p1 & p2 & p3 & p4 & -> & H0 & H1 & H2 & H3 & H4 & Hp).
  inversion Hp as [|? ? L0 Hp0]; subst. inversion Hp0 as [|? ? L1 Hp1]; subst.
  inversion Hp1 as [|? ? L2 Hp2]; subst. inversion Hp2 as [|? ? L3 Hp3]; subst.
  inversion Hp3 as [|? ? L4 Hp4]; subst.
  change (String.concat "-" [p0; p1; p2; p3; p4]) with
    (p0 +:+ ("-" +:+ (p1 +:+ ("-" +:+ (p2 +:+ ("-" +:+ (p3 +:+ ("-" +:+ p4)))))))).
  rewrite !remove_char_app. change (remove_char "-" "-") with "".
  rewrite !(remove_char_free is_lower_hexdigit) by done.
  split; [rewrite !slen_app; change (slen "") with 0; lia|].
  rewrite !all_bytes_app, !lower_hex by done. done.
Qed.

Section profiles.
Context `{UuidV5Laws}.

Lemma compact_uuid_ok seed os suffix : slen (compact_uuid seed os suffix) = 32 ∧
  all_bytes is_ascii_hexdigit (compact_uuid seed os suffix) = true.
Proof.
  unfold compact_uuid, derive_uuid_from_seed.
  destruct (compact_hyphenated _ (uuid_v5_hyphenated
    (seed +:+ "-" +:+ String.concat "-" ["os-profile"; client_os_as_str os; suffix]))) as [Hl Hh].
  by rewrite uppercase_length, uppercase_hex.
Qed.
(** The [expect]s of the projections hold. *)
Lemma project_total runtime target h override : is_Some (project runtime target h override).
Proof.
  unfold project. destruct (decide _); [by eexists|]. destruct target; try by eexists.
  - unfold project_linux, derive_uuid_from_seed.
    destruct (vmware_uuid_ok _ (uuid_v5_hyphenated (host_id h +:+ "-" +:+
      String.concat "-" ["os-profile"; client_os_as_str Linux; "host-id"]))) as [v ->].
    by eexists.
  - unfold project_windows. destruct (compact_uuid_ok (host_id h) Windows "serialno") as [Hl Hh].
    destruct (vmware_compact_ok _ Hl Hh) as [v ->]. by eexists.
Qed.
Lemma build_profile_total snapshot b : is_Some (build_profile snapshot b).
Proof.
  unfold build_profile, finish. destruct (decide _);
    (edestruct project_total as [q ->]; by eexists).
Qed.

(** What a projection on another desktop OS reads of the host. *)
Lemma project_reads runtime target h h' override : target ≠ runtime → target ≠ Ios →
  computer h' = computer h → host_id h' = host_id h →
  project runtime target h' override = project runtime target h override.
Proof.
  intros Hr Hi Hc Hid. unfold project. destruct (decide _); [done|].
  assert (projected_computer h' override = projected_computer h override) as Ec.
  { unfold projected_computer. by rewrite Hc. }
  destruct target; [..|done]; unfold project_linux, project_windows, project_macos; by rewrite Hid, Ec.
Qed.

Definition used_identity (b : OsProfileBuilder) (s : HostSnapshot) : HostIdentity :=
  default (snapshot_identity s) (builder_host_identity b).

(** A profile that emulates another desktop OS always builds, its serial number
    never fails to parse, and what it sends to a server tells nothing about the machine
    beyond the computer name and the host id that seeds it: two hosts that share those,
    whatever their hardware serial, MAC address and versions, send the same identity, OS
    version and user agent. *)
Lemma emulation_hides_the_host b s s' :
  builder_client_os b ≠ snapshot_runtime_os s → builder_client_os b ≠ Ios →
  snapshot_runtime_os s' = snapshot_runtime_os s →
  computer (used_identity b s') = computer (used_identity b s) →
  host_id (used_identity b s') = host_id (used_identity b s) →
  ∃ p p', build_profile s b = Some p ∧ build_profile s' b = Some p' ∧
    is_native p = false ∧
    profile_identity p' = profile_identity p ∧ profile_os_version p' = profile_os_version p ∧
    profile_software_version p' = profile_software_version p ∧
    profile_client_version p' = profile_client_version p ∧
    profile_user_agent p' = profile_user_agent p ∧
    webview_user_agent p' = webview_user_agent p.
Proof.
  intros Hr Hi Hs Hc Hid. unfold build_profile. fold (used_identity b s) (used_identity b s').
  rewrite Hs. destruct (decide _) as [E|_]; [done|]. unfold finish.
  rewrite (project_reads _ _ (used_identity b s) (used_identity b s')) by done.
  destruct (project_total (snapshot_runtime_os s) (builder_client_os b) (used_identity b s)
    (computer_name_override b)) as [q Hq].
  rewrite Hq. eexists _, _. split_and!; try reflexivity.
  apply bool_decide_eq_false_2. cbn. congruence.
Qed.
End profiles.

Module ProfileExample.
Definition fixed : UuidV5 := {| uuid_v5_dns _ := "5a784d56-6461-19ac-9ea9-d36a3b9c6cef" |}.
Lemma fixed_laws : @UuidV5Laws fixed.
Proof.
  split. intros name. exists "5a784d56", "6461", "19ac", "9ea9", "d36a3b9c6cef".
  split_and!; try reflexivity. by repeat constructor.
Qed.
Definition host (serial mac : string) : HostIdentity :=
  {| computer := "laptop"; host_id := "seed"; serial_number := serial; mac_address := mac |}.
Definition snapshot (serial mac version : string) : HostSnapshot := {|
  snapshot_runtime_os := Mac; snapshot_identity := host serial mac;
  snapshot_os_version := version; snapshot_software_version := version |}.

Example serial_of_uuid :
  vmware_from_uuid "5a784d56-6461-19ac-9ea9-d36a3b9c6cef" =
    Some "VMware-56 4d 78 5a 61 64 ac 19-9e a9 d3 6a 3b 9c 6c ef".
Proof. vm_compute. reflexivity. Qed.
Example not_a_uuid : vmware_from_uuid "not-a-uuid" = None.
Proof. vm_compute. reflexivity. Qed.
Example native_mac : pi_host_id (project_native Mac (host "" "") None) = "seed".
Proof. vm_compute. reflexivity. Qed.

Lemma emulation_hides_the_host_witness :
  ∃ p p', @build_profile fixed (snapshot "s1" "aa:bb" "1") (profile_builder_new Linux) = Some p ∧
    @build_profile fixed (snapshot "s2" "cc:dd" "2") (profile_builder_new Linux) = Some p' ∧
    is_native p = false ∧ profile_identity p' = profile_identity p ∧
    profile_os_version p' = profile_os_version p ∧
    profile_software_version p' = profile_software_version p ∧
    profile_client_version p' = profile_client_version p ∧
    profile_user_agent p' = profile_user_agent p ∧
    webview_user_agent p' = webview_user_agent p.
Proof.
  apply (@emulation_hides_the_host fixed fixed_laws (profile_builder_new Linux)
    (snapshot "s1" "aa:bb" "1") (snapshot "s2" "cc:dd" "2")); done.
Defined.
End ProfileExample.
