(* ===== verification/HostCollection.v ===== *)
(** What is known of the host (crates/gpapi/src/os_profile/desktop/mod.rs and unix.rs): its
    identity with the values derived where the system has none, and the profile built on
    it. [System] is what the system answers. *)
From S2P Require Import Prelude Utf8 Text ThirdParty ClientProfile.
From Stdlib Require Import Strings.Ascii.

#[local] Open Scope N_scope.

Record System := {
  (** [std::fs::read_to_string] *)
  read_file : string → option string;
  hostname : option string;
  (** The hardware address of the default interface, as text. *)
  default_mac : option string;
  distro : option string;
  (** The answers of [control.check()], in the order they are asked for. *)
  checks : nat → result string ();
}.
Record NativeHostIdentitySnapshot := {
  native_host_id : string;
  native_computer : string;
  native_serial_number : option string;
  native_mac_address : option string;
}.

Section collection.
Context `{UuidV5} `{UuidFormat}.
Variable system : System.

(** * Values (mod.rs) *)
Definition non_empty (value fallback : string) : string :=
  if trim_is_empty value then fallback else value.
Definition fallback_hostname : string := default "localhost" (hostname system).
Definition fallback_host_id : string := derive_uuid_from_seed fallback_hostname ["runtime-host-id"].
Definition resolve_host_id (override : option string) (collect : string) : string :=
  default collect (override ≫= unless_blank).
(** A failed [expect] is [None]. *)
Definition derive_serial_number (id : string) : option string :=
  match vmware_from_uuid id with
  | Some v => Some v
  | None => vmware_from_uuid (derive_uuid_from_seed id ["runtime-serialno"])
  end.
Definition utf8_or (fallback chunk : string) : string :=
  if utf8b (String.length chunk) chunk then chunk else fallback.
Definition derive_mac_address (id : string) : string :=
  let compact := remove_char "-" (derive_uuid_from_seed id ["runtime-mac"]) in
  String.concat ":" ((λ c, to_ascii_lowercase (utf8_or "00" c)) <$> take 6 (chunks2 compact)).
(** No letter but an ASCII one has a hexadecimal digit as its lower case. *)
Definition hex_pair (part : string) : bool := (slen part =? 2) && all_bytes is_ascii_hexdigit part.
Definition normalize_mac_colon (value : string) : option string :=
  let compact := to_ascii_lowercase <$> split ":" (replace_char "-" ":" (trim value)) in
  if (length compact =? 6)%nat && forallb hex_pair compact
  then Some (String.concat ":" compact) else None.
Definition primary_mac_colon : option string := default_mac system ≫= normalize_mac_colon.
Definition identity_from_parts (computer id serial mac : string) : option HostIdentity :=
  let id := non_empty id fallback_host_id in
  let computer := non_empty computer fallback_hostname in
  derived ← derive_serial_number id;
  let mac := default (derive_mac_address id) (normalize_mac_colon mac) in
  Some {| computer := computer; host_id := id; serial_number := non_empty serial derived;
          mac_address := mac |}.
Definition into_host_identity (s : NativeHostIdentitySnapshot) : option HostIdentity :=
  let id := non_empty (native_host_id s) fallback_host_id in
  serial ← match native_serial_number s with
           | Some v => Some v
           | None => derive_serial_number id
           end;
  identity_from_parts (native_computer s) id serial
    (default (derive_mac_address id) (native_mac_address s)).
Definition default_with_host_id (id : option string) : option HostIdentity :=
  identity_from_parts fallback_hostname (resolve_host_id id fallback_host_id) ""
    (default "" primary_mac_colon).

(** * Linux (unix.rs) *)
Definition runtime_client_os : ClientOs := Linux.
Definition is_usable_linux_identity_value (v : string) : bool :=
  negb (is_empty v) && negb (String.eqb v "None") && negb (String.eqb v "To Be Filled By O.E.M.").
Definition read_linux_identity_file (path : string) : option string :=
  v ← read_file system path;
  let v := trim v in
  if is_usable_linux_identity_value v then Some v else None.
Definition normalize_uuid (v : string) : option string := uuid_to_string <$> uuid_parse_str (trim v).
Definition collect_linux_product_uuid : option string :=
  read_linux_identity_file "/sys/class/dmi/id/product_uuid" ≫= normalize_uuid.
Definition collect_linux_fallback_seed : option string :=
  match read_linux_identity_file "/etc/machine-id" with
  | Some v => Some v
  | None => read_linux_identity_file "/var/lib/dbus/machine-id"
  end.
Definition resolve_linux_serial_number (serial uuid : option string) : option string :=
  match serial with
  | Some v => Some v
  | None => uuid ≫= vmware_from_uuid
  end.
Definition collect_linux_serial_number : option string :=
  resolve_linux_serial_number (read_linux_identity_file "/sys/class/dmi/id/product_serial")
    collect_linux_product_uuid.
Definition native_id : string :=
  match collect_linux_product_uuid with
  | Some v => v
  | None => derive_uuid_from_seed (default fallback_hostname collect_linux_fallback_seed) []
  end.
Definition collect_native (id : option string) : NativeHostIdentitySnapshot := {|
  native_host_id := resolve_host_id id native_id; native_computer := fallback_hostname;
  native_serial_number := collect_linux_serial_number; native_mac_address := primary_mac_colon |}.
Definition fallback_versions : string * string :=
  ("Linux " +:+ default "Ubuntu 24.04.3 LTS" (distro system), "").

(** * Collection under a control: the state counts its checks, a panic is [Ok None] *)
Abbreviation Controlled := (stm nat string).
Definition check : Controlled () :=
  n ← get; _ ← modify S; lift (checks system n).
Definition collect_with_host_id_and_control (id : option string) : Controlled (option HostIdentity) :=
  _ ← check;
  _ ← check;
  let s := collect_native id in
  _ ← check;
  let identity := into_host_identity s in
  _ ← check;
  mret identity.
Definition collect_with_host_id (id : option string) : option HostIdentity :=
  match answer (collect_with_host_id_and_control id) 0%nat with
  | Ok identity => identity
  | Err _ => default_with_host_id id
  end.
Definition collect_profile_with_control (b : OsProfileBuilder) (id : option string) :
    Controlled (option OsProfile) :=
  _ ← check;
  host ← match builder_host_identity b with
          | Some host => mret (Some host)
          | None => collect_with_host_id_and_control id
          end;
  versions ← (if decide (builder_client_os b = runtime_client_os)
              then _ ← check; mret fallback_versions
              else mret (ClientProfile.default_os_version runtime_client_os,
                         ClientProfile.default_software_version runtime_client_os));
  _ ← check;
  mret (host ← host;
        build_profile {| snapshot_runtime_os := runtime_client_os; snapshot_identity := host;
                         snapshot_os_version := versions.1; snapshot_software_version := versions.2 |} b).
Definition collect_profile (b : OsProfileBuilder) (id : option string) : option OsProfile :=
  match answer (collect_profile_with_control b id) 0%nat with
  | Ok profile => profile
  | Err _ =>
      host ← match builder_host_identity b with
              | Some host => Some host
              | None => default_with_host_id id
              end;
      build_profile {| snapshot_runtime_os := runtime_client_os; snapshot_identity := host;
                       snapshot_os_version := fallback_versions.1;
                       snapshot_software_version := fallback_versions.2 |} b
  end.
Definition default_computer_name (os : ClientOs) : option string :=
  host ← collect_with_host_id None;
  pi_computer <$> project runtime_client_os os host None.
Definition versions : string * string :=
  match answer check 0%nat with Ok _ | Err _ => fallback_versions end.
Definition default_os_version (os : ClientOs) : string :=
  if decide (os = runtime_client_os) then versions.1 else ClientProfile.default_os_version os.
Definition default_software_version (os : ClientOs) : string :=
  if decide (os = runtime_client_os) then versions.2 else ClientProfile.default_software_version os.
End collection.

(** * What a collected identity is *)

(** Six pairs of lower hexadecimal digits. *)
Definition colon_mac (mac : string) : Prop := ∃ l,
  mac = String.concat ":" l ∧ length l = 6%nat ∧
  Forall (λ p, slen p = 2 ∧ all_bytes is_lower_hexdigit p = true) l.
Record identity_valid (h : HostIdentity) : Prop := {
  iv_computer : trim_is_empty (computer h) = false;
  iv_host_id : trim_is_empty (host_id h) = false;
  iv_serial : trim_is_empty (serial_number h) = false;
  iv_mac : colon_mac (mac_address h);
}.

(** ** Texts *)
Lemma lower_hex_lowercase s : all_bytes is_ascii_hexdigit (to_ascii_lowercase s) = true →
  all_bytes is_lower_hexdigit (to_ascii_lowercase s) = true.
Proof.
  induction s as [|a s IH]; [done|]. cbn [to_ascii_lowercase all_bytes].
  intros [Ha Hs]%andb_true_iff. rewrite (IH Hs), andb_true_r. revert Ha.
  destruct ((65 <=? byte_val a) && (byte_val a <=? 90)) eqn:E.
  - apply andb_true_iff in E as [E1%N.leb_le E2%N.leb_le]. rewrite byte_val_of by lia.
    unfold is_ascii_hexdigit, is_lower_hexdigit, is_ascii_digit, between.
    rewrite !orb_true_iff, !andb_true_iff, !N.leb_le. lia.
  - apply andb_false_iff in E. rewrite !N.leb_gt in E.
    unfold is_ascii_hexdigit, is_lower_hexdigit, is_ascii_digit, between.
    rewrite !orb_true_iff, !andb_true_iff, !N.leb_le. lia.
Qed.
Lemma chunks2_even n s : slen s = 2 * N.of_nat n →
  length (chunks2 s) = n ∧ Forall (λ c, slen c = 2) (chunks2 s).
Proof.
  revert n. induction s as [|a|a b s IH] using chunks2_ind; intros n Hn; unfold slen in Hn; cbn in Hn.
  - assert (n = 0%nat) as -> by lia. done.
  - lia.
  - destruct n as [|n]; [lia|]. destruct (IH n) as [<- Hf]; [unfold slen; lia|].
    split; [done|]. by constructor.
Qed.
Lemma hex_utf8b s : all_bytes is_ascii_hexdigit s = true → utf8b (String.length s) s = true.
Proof.
  induction s as [|a s IH]; [done|]. intros [Ha Hs]%andb_true_iff. cbn [utf8b String.length].
  assert (char_width a = Some 1%nat) as ->; [|by apply IH].
  unfold is_ascii_hexdigit, is_ascii_digit, between in Ha.
  rewrite !orb_true_iff, !andb_true_iff, !N.leb_le in Ha. unfold char_width. fold (byte_val a).
  destruct (N.ltb_spec (byte_val a) 128); [done|lia].
Qed.
Lemma not_blank_graphic a s : is_graphic (byte_val a) = true → trim_is_empty (String a s) = false.
Proof. intros Ha. by destruct (graphic_not_white a s Ha). Qed.
Lemma not_blank_hyphenated s : hyphenated s → trim_is_empty s = false.
Proof.
  intros (p0 & p1 & p2 & p3 & p4 & -> & H0 & _ & _ & _ & _ & Hp).
  apply Forall_inv in Hp. destruct p0 as [|a p0]; [done|]. apply andb_true_iff in Hp as [Ha _].
  apply (not_blank_graphic a), hexdigit_graphic, lower_hexdigit_hex, Ha.
Qed.
Lemma vmware_not_blank s v : vmware_from_uuid s = Some v → trim_is_empty v = false.
Proof.
  unfold vmware_from_uuid, vmware_from_compact_hex. repeat case_match; intros; simplify_eq; done.
Qed.
Lemma non_empty_not_blank v f : trim_is_empty f = false → trim_is_empty (non_empty v f) = false.
Proof. unfold non_empty. by destruct (trim_is_empty v) eqn:E. Qed.
Lemma normalize_mac_valid v mac : normalize_mac_colon v = Some mac → colon_mac mac.
Proof.
  unfold normalize_mac_colon. destruct (_ && _) eqn:E; [|done]. intros [= <-].
  apply andb_true_iff in E as [El%Nat.eqb_eq Ef]. eexists. split; [done|]. split; [done|].
  rewrite forallb_forall in Ef. apply Forall_fmap, list.Forall_forall. intros p Hp. cbn.
  assert (hex_pair (to_ascii_lowercase p) = true) as [Hl Hh]%andb_prop.
  { apply Ef, list_elem_of_In, list_elem_of_fmap. by exists p. }
  split; [by apply N.eqb_eq|by apply lower_hex_lowercase].
Qed.

(** ** Derived values *)
Section theorems.
Context `{UuidV5Laws} `{UuidFormat}.
Variable system : System.
Hypothesis Hhost : trim_is_empty (fallback_hostname system) = false.

Lemma derive_serial_ok id : ∃ v, derive_serial_number id = Some v ∧ trim_is_empty v = false.
Proof.
  unfold derive_serial_number. destruct (vmware_from_uuid id) as [v|] eqn:E.
  - exists v. split; [done|by eapply vmware_not_blank].
  - destruct (vmware_uuid_ok (derive_uuid_from_seed id ["runtime-serialno"])) as [v Hv].
    { apply uuid_v5_hyphenated. }
    exists v. split; [done|by eapply vmware_not_blank].
Qed.
Lemma derive_mac_valid id : colon_mac (derive_mac_address id).
Proof.
  unfold derive_mac_address. destruct (compact_hyphenated (derive_uuid_from_seed id ["runtime-mac"]))
    as [Hl Hh]; [apply uuid_v5_hyphenated|].
  set (c := remove_char _ _) in *. destruct (chunks2_even 16 c) as [Hn H2]; [by rewrite Hl|].
  eexists. split; [done|]. rewrite length_fmap, length_take, Hn. split; [done|].
  apply Forall_fmap, Forall_take. pose proof (chunks2_all _ _ Hh) as Ha.
  apply list.Forall_forall. intros p Hp. cbn.
  rewrite list.Forall_forall in Ha, H2. specialize (Ha p Hp). specialize (H2 p Hp). cbn in Ha.
  unfold utf8_or. rewrite hex_utf8b by done. rewrite lowercase_length.
  split; [done|]. by apply lower_hex_lowercase, lowercase_hex.
Qed.
Lemma identity_from_parts_valid c id serial mac :
  ∃ h, identity_from_parts system c id serial mac = Some h ∧ identity_valid h.
Proof.
  unfold identity_from_parts.
  destruct (derive_serial_ok (non_empty id (fallback_host_id system))) as (v & -> & Hv). cbn.
  eexists. split; [done|]. split; cbn.
  - by apply non_empty_not_blank.
  - apply non_empty_not_blank, not_blank_hyphenated, uuid_v5_hyphenated.
  - by apply non_empty_not_blank.
  - destruct (normalize_mac_colon mac) eqn:E; cbn; [by eapply normalize_mac_valid|apply derive_mac_valid].
Qed.
Lemma into_host_identity_valid s : ∃ h, into_host_identity system s = Some h ∧ identity_valid h.
Proof.
  unfold into_host_identity.
  destruct (derive_serial_ok (non_empty (native_host_id s) (fallback_host_id system))) as (v & Ev & _).
  destruct (native_serial_number s) as [w|]; cbn; [|rewrite Ev; cbn]; apply identity_from_parts_valid.
Qed.
(** An override that is not blank is the host's id. *)
Lemma resolved_override id v : trim_is_empty id = false → resolve_host_id (Some id) v = id.
Proof. intros E. unfold resolve_host_id, unless_blank. cbn. by rewrite E. Qed.

Lemma collected_valid id : ∃ h, collect_with_host_id system id = Some h ∧ identity_valid h.
Proof.
  assert (∃ h, default_with_host_id system id = Some h ∧ identity_valid h) as Hd.
  { apply identity_from_parts_valid. }
  destruct (into_host_identity_valid (collect_native system id)) as (h & Eh & Hv).
  unfold collect_with_host_id, collect_with_host_id_and_control, check. stm_unfold.
  repeat (case_match; simplify_eq/=; try done). exists h. by split.
Qed.
(** A profile is always collected: whatever the control answers and the system knows, the
    builder's host or a valid one of this machine is presented. *)
Lemma collect_profile_total b id : (∀ h, builder_host_identity b = Some h → identity_valid h) →
  ∃ p, collect_profile system b id = Some p ∧ identity_valid (profile_host_identity p) ∧
       profile_runtime_os p = Linux ∧ profile_client_os p = builder_client_os b.
Proof.
  intros Hb.
  assert (∀ s, identity_valid (default (snapshot_identity s) (builder_host_identity b)) →
    snapshot_runtime_os s = Linux →
    ∃ p, build_profile s b = Some p ∧ identity_valid (profile_host_identity p) ∧
         profile_runtime_os p = Linux ∧ profile_client_os p = builder_client_os b) as Hbuild.
  { intros s Hs Hl. unfold build_profile, finish.
    destruct (decide _); (edestruct project_total as [q ->]; eexists; split; [done|by split]). }
  assert (∃ h, default_with_host_id system id = Some h ∧ identity_valid h) as (hd & Ed & Hd)
    by apply identity_from_parts_valid.
  destruct (into_host_identity_valid (collect_native system id)) as (h & Eh & Hv).
  unfold collect_profile, collect_profile_with_control, collect_with_host_id_and_control, check. stm_unfold.
  destruct (builder_host_identity b) as [host|] eqn:Eb.
  - specialize (Hb host eq_refl).
    destruct (decide _); repeat (case_match; simplify_eq/=; try done); by apply Hbuild.
  - destruct (decide _); repeat (case_match; simplify_eq/=; try done); rewrite ?Eh, ?Ed; cbn; by apply Hbuild.
Qed.
End theorems.
