(* ===== verification/Xml.v ===== *)
(** Searching an XML document (crates/gpapi/src/utils/xml.rs).

    [Element] and [XMLNode] are the public data of the xmltree crate, with the fields
    the source reads and builds; the crate's functions are the class [Xmltree]. *)
From S2P Require Import Prelude Utf8 Text.

#[local] Open Scope N_scope.

(** * xmltree *)
Inductive Element :=
  | element (name : string) (attributes : gmap string string) (children : list XMLNode)
with XMLNode :=
  | NodeElement (e : Element)
  | NodeText (t : string)
  | NodeCData (t : string)
  | NodeComment (t : string)
  | NodeProcessingInstruction (target : string) (data : option string).
Definition element_name (e : Element) : string := match e with element n _ _ => n end.
Definition attributes (e : Element) : gmap string string := match e with element _ a _ => a end.
Definition children_nodes (e : Element) : list XMLNode := match e with element _ _ l => l end.

(** [Element::new] and [XMLNode::as_element]. *)
Definition element_new (name : string) : Element := element name ∅ [].
Definition as_element (n : XMLNode) : option Element :=
  match n with NodeElement e => Some e | _ => None end.
Definition child_elements (e : Element) : list Element := omap as_element (children_nodes e).

Class Xmltree := {
  parse_xml : string → result string Element;
  (** [write_with_config] with tabs and a document declaration. *)
  write_xml : Element → option string;
  get_text : Element → option string;
  get_child : string → Element → option Element;
}.
(** [get_child] finds the first child element of that name. *)
Class XmltreeLaws `{Xmltree} := {
  get_child_first name e :
    get_child name e = head (List.filter (λ c, String.eqb (element_name c) name) (child_elements e));
}.

(** * ElementExt *)
Fixpoint descendants (name : string) (e : Element) : list Element :=
  match e with
  | element n _ nodes =>
      (if String.eqb n name then [e] else []) ++
      (fix all (l : list XMLNode) : list Element :=
         match l with
         | [] => []
         | NodeElement c :: l => descendants name c ++ all l
         | _ :: l => all l
         end) nodes
  end.
Fixpoint descendant (name : string) (e : Element) : option Element :=
  match e with
  | element n _ nodes =>
      if String.eqb n name then Some e
      else (fix first (l : list XMLNode) : option Element :=
              match l with
              | [] => None
              | NodeElement c :: l =>
                  match descendant name c with Some found => Some found | None => first l end
              | _ :: l => first l
              end) nodes
  end.
Section texts.
Context `{Xmltree}.
Definition descendant_text (name : string) (e : Element) : option string :=
  descendant name e ≫= get_text.
Definition child (name : string) (e : Element) : option Element := get_child name e.
Definition child_text (name : string) (e : Element) : option string := get_child name e ≫= get_text.
Definition children (name : string) (e : Element) : list Element :=
  List.filter (λ c, String.eqb (element_name c) name) (child_elements e).
Definition attr (name : string) (e : Element) : option string := attributes e !! name.
End texts.

(** [parent.children.push(XMLNode::Element(child))] *)
Definition push_element (c : Element) (parent : Element) : Element :=
  element (element_name parent) (attributes parent) (children_nodes parent ++ [NodeElement c]).

(** * Theorems *)

(** The two searches meet: the first descendant in document order. *)
Lemma element_ind' (P : Element → Prop) :
  (∀ n attrs nodes, Forall P (omap as_element nodes) → P (element n attrs nodes)) → ∀ e, P e.
Proof.
  intros IH. fix rec 1. intros [n attrs nodes]. apply IH.
  induction nodes as [|[c|t|t|t|t d] nodes Hn]; cbn; [constructor| |exact Hn..].
  constructor; [apply rec|exact Hn].
Qed.
Lemma descendants_unfold name n attrs nodes :
  descendants name (element n attrs nodes) =
    (if String.eqb n name then [element n attrs nodes] else []) ++
    omap as_element nodes ≫= descendants name.
Proof.
  cbn [descendants]. f_equal. induction nodes as [|[c|t|t|t|t d] nodes Hn]; cbn; [done| |exact Hn..].
  by rewrite Hn.
Qed.
Lemma descendant_head name e : descendant name e = head (descendants name e).
Proof.
  induction e as [n attrs nodes IH] using element_ind'. rewrite descendants_unfold. cbn [descendant].
  destruct (String.eqb n name); [done|]. cbn [app].
  induction nodes as [|[c|t|t|t|t d] nodes Hn]; cbn in *; [done| |by apply Hn..].
  apply Forall_cons_1 in IH as [Hc Hs]. rewrite Hc, (Hn Hs). by destruct (descendants name c).
Qed.
Lemma descendants_named name e d : d ∈ descendants name e → element_name d = name.
Proof.
  induction e as [n attrs nodes IH] using element_ind'. rewrite descendants_unfold.
  rewrite elem_of_app. intros [Hd|Hd].
  - destruct (String.eqb_spec n name); [|by inversion Hd].
    apply list_elem_of_singleton in Hd as ->. done.
  - apply list_elem_of_bind in Hd as (c & Hd & Hc).
    rewrite Forall_forall in IH. apply (IH c); [|done]. by apply list_elem_of_In.
Qed.

(** A parser that knows one document, for the witnesses. *)
Module XmlExample.
Definition text_of (n : XMLNode) : option string :=
  match n with NodeText t | NodeCData t => Some t | _ => None end.
Definition xml (known : list (string * Element)) : Xmltree := {|
  parse_xml s := match List.filter (λ p, String.eqb p.1 s) known with
                 | (_, e) :: _ => Ok e
                 | [] => Err "unexpected end of input"
                 end;
  write_xml e := Some (element_name e);
  get_text e := match omap text_of (children_nodes e) with
                | [] => None
                | l => Some (String.concat "" l)
                end;
  get_child name e :=
    head (List.filter (λ c, String.eqb (element_name c) name) (child_elements e));
|}.
Lemma xml_laws known : @XmltreeLaws (xml known).
Proof. split. done. Qed.
Definition leaf (name text : string) : XMLNode := NodeElement (element name ∅ [NodeText text]).
Definition node (name : string) (l : list XMLNode) : XMLNode := NodeElement (element name ∅ l).
Definition entry (name : string) (l : list XMLNode) : XMLNode :=
  NodeElement (element "entry" {["name" := name]} l).
End XmlExample.
