(* ===== verification/GpHttp.v ===== *)
(** Answers of portals and gateways (crates/gpapi/src/utils/mod.rs, error.rs,
    error/server_tls.rs): the errors of a request and the reading of a response.

    A transport error is the chain of its causes, outermost first: the request library's
    error, its [source]s and the errors inside [std::io::Error]s. An [anyhow] error is
    the typed error it holds under its contexts. *)
From S2P Require Import Prelude Utf8 Text.

#[local] Open Scope N_scope.

(** * Errors *)
Inductive ServerTlsErrorKind := Certificate | ClientCertificateRequired | OtherTls.
Record ServerTlsError := { tls_server : string; tls_kind : ServerTlsErrorKind }.

(** What [classify] tells apart: this program's error and those of rustls. *)
Inductive Cause :=
  | CauseTls (e : ServerTlsError)
  | CauseInvalidCertificate
  | CauseCertificateRequired
  | CauseRustls
  | CauseOther.
(** [net_sources] are the texts of the error's [source]s. *)
Record NetworkError := { net_text : string; net_sources : list string; net_chain : list Cause }.

Fixpoint classify (chain : list Cause) : option ServerTlsErrorKind :=
  match chain with
  | [] => None
  | CauseTls e :: _ => Some (tls_kind e)
  | CauseInvalidCertificate :: _ => Some Certificate
  | CauseCertificateRequired :: _ => Some ClientCertificateRequired
  | CauseRustls :: _ => Some OtherTls
  | CauseOther :: chain => classify chain
  end.
(** [origin] is the serialized origin of the server's URL. *)
Definition from_request (origin : string) (chain : list Cause) : option ServerTlsError :=
  kind ← classify chain; Some {| tls_server := origin; tls_kind := kind |}.
Definition tls_display (e : ServerTlsError) : string :=
  match tls_kind e with
  | Certificate => "The server's certificate could not be verified"
  | ClientCertificateRequired => "The server requires a client certificate"
  | OtherTls => "A secure connection to the server could not be established"
  end +:+ ": " +:+ tls_server e.

Module PortalError.
Inductive t :=
  | PreloginError (m : string)
  | ConfigError (m : string)
  | NetworkError (e : NetworkError).
Definition display (e : t) : string :=
  match e with
  | PreloginError m => "Prelogin error: " +:+ m
  | ConfigError m => "Portal config error: " +:+ m
  | NetworkError e => net_text e
  end.
Definition sources (e : t) : list string :=
  match e with NetworkError e => net_sources e | _ => [] end.
Definition tls_error_kind (e : t) : option ServerTlsErrorKind :=
  match e with NetworkError e => classify (net_chain e) | _ => None end.
End PortalError.

(** What is wrong with a client certificate (utils/request.rs). *)
Module RequestIdentityError.
Inductive t :=
  | NoKey
  | NoPassphrase (cert_type : string)
  | DecryptError (cert_type : string)
  | UnsupportedEncryption
  | UnsupportedKeyFormat
  | InvalidKey
  | InvalidCertificate
  | IncompletePkcs12
  | InvalidPkcs12 (sources : list string)
  | AmbiguousPkcs12.
Definition display (e : t) : string :=
  match e with
  | NoKey => "Failed to find the private key"
  | NoPassphrase _ => "No passphrase provided"
  | DecryptError _ => "Failed to decrypt private key"
  | UnsupportedEncryption => "Unsupported private key encryption. " +:+
      "Convert the key to modern PKCS#8 using PBES2 with AES before importing it"
  | UnsupportedKeyFormat =>
      "Unsupported private key format. Convert the key to PKCS#8 before importing it"
  | InvalidKey => "Invalid private key"
  | InvalidCertificate => "Invalid certificate or certificate chain"
  | IncompletePkcs12 =>
      "The PKCS#12 file must contain both a client certificate and its private key"
  | InvalidPkcs12 _ =>
      "Could not open the PKCS#12 certificate. Check the password and certificate file"
  | AmbiguousPkcs12 => "The PKCS#12 file must contain one matching client identity"
  end.
Definition sources (e : t) : list string := match e with InvalidPkcs12 l => l | _ => [] end.
End RequestIdentityError.

(** The [anyhow] errors of the login and portal code and of the authenticator. *)
Inductive Failure :=
  | Message (m : string)
  | PortalFailure (e : PortalError.t)
  | TlsFailure (e : ServerTlsError)
  | IdentityFailure (e : RequestIdentityError.t)
  | AuthenticationRejected
  | AuthenticationCancelled
  | GatewayLoginProtocolError
  | FlowCancelled
  | RenderingCrash (status : string)
  | RecoveryFailed (e : Failure)
  | Context (m : string) (e : Failure)
  (** [error.context(GatewayLoginProtocolError)] *)
  | ProtocolContext (e : Failure).

(** The [Display] of the outermost error, and those of the errors under it. *)
Definition colon_separated (l : list string) : string := String.concat ": " l.
Definition protocol_error_text : string := "Gateway login returned invalid session configuration".
Fixpoint texts (e : Failure) : string * list string :=
  match e with
  | Message m => (m, [])
  | PortalFailure e => (PortalError.display e, PortalError.sources e)
  | TlsFailure e => (tls_display e, [])
  | IdentityFailure e => (RequestIdentityError.display e, RequestIdentityError.sources e)
  | AuthenticationRejected => ("Authentication was rejected", [])
  | AuthenticationCancelled => ("Authentication cancelled", [])
  | GatewayLoginProtocolError => (protocol_error_text, [])
  | FlowCancelled => ("cancelled", [])
  | RenderingCrash status => ("WebKit Wayland rendering process exited with " +:+ status, [])
  | RecoveryFailed e =>
      let '(t, l) := texts e in
      ("Rendering recovery failed: " +:+ colon_separated (t :: l) +:+
       ". Collect diagnostics for a bug report", t :: l)
  | Context m e => let '(t, l) := texts e in (m, t :: l)
  | ProtocolContext e => let '(t, l) := texts e in (protocol_error_text, t :: l)
  end.
(** [err.to_string()] and [format!("{:#}", err)]. *)
Definition to_text (e : Failure) : string := (texts e).1.
Definition alternate_text (e : Failure) : string :=
  let '(t, l) := texts e in colon_separated (t :: l).
(** The error under the contexts, which [downcast_ref] finds. *)
Fixpoint root_cause (e : Failure) : Failure :=
  match e with Context _ e | ProtocolContext e => root_cause e | e => e end.
(** [downcast_ref::<GatewayLoginProtocolError>()] finds it also as a context. *)
Fixpoint is_login_protocol_error (e : Failure) : bool :=
  match e with
  | GatewayLoginProtocolError | ProtocolContext _ => true
  | Context _ e => is_login_protocol_error e
  | _ => false
  end.
(** The first error of the chain that has a kind. *)
Fixpoint kind_from_error (e : Failure) : option ServerTlsErrorKind :=
  match e with
  | TlsFailure e => Some (tls_kind e)
  | PortalFailure e => PortalError.tls_error_kind e
  | Context _ e | ProtocolContext e | RecoveryFailed e => kind_from_error e
  | _ => None
  end.
Definition context {A} (m : string) (r : result Failure A) : result Failure A :=
  map_err (Context m) r.
Definition bail {A} (m : string) : result Failure A := Err (Message m).

(** * Responses *)

(** [gp_reason] is the x-private-pan-globalprotect header, [Some None] when its value is
    no text; [text] is the body or the error of reading it. *)
Record Response := {
  status : N;
  gp_reason : option (option string);
  text : result NetworkError string;
}.
Record GpError := {
  error_status : N;
  reason : string;
  error_body : string;
  error_source : option NetworkError;
}.
Definition is_client_error (s : N) : bool := between 400 499 s.
Definition is_server_error (s : N) : bool := between 500 599 s.
Definition is_status_error (e : GpError) : bool :=
  is_client_error (error_status e) || is_server_error (error_status e).
Definition is_authentication_rejection (e : GpError) : bool :=
  (error_status e =? 401) || (error_status e =? 403).
(** The chain [ServerTlsError::from_request] sees in a [GpError]: itself and its source. *)
Definition error_chain (e : GpError) : list Cause :=
  CauseOther :: match error_source e with Some n => net_chain n | None => [] end.

Definition parse_gp_error (res : Response) : GpError :=
  let reason := match gp_reason res with
                | None => "<none>"
                | Some (Some v) => v
                | Some None => "<invalid header>"
                end in
  let '(body, source) := match text res with
                         | Ok body => (if is_empty body then "<empty>" else body, None)
                         | Err e => ("<failed to read response>", Some e)
                         end in
  {| error_status := status res; reason := reason; error_body := body; error_source := source |}.
Definition parse_gp_response (res : Response) : result GpError string :=
  if is_client_error (status res) || is_server_error (status res) then Err (parse_gp_error res)
  else map_err (λ e, {|
    error_status := status res; reason := "failed to read response";
    error_body := "<failed to read response>"; error_source := Some e |}) (text res).

(** [client.post(..).send()] failing. *)
Definition send_failure (origin : string) (e : NetworkError) : Failure :=
  match from_request origin (net_chain e) with
  | Some tls => TlsFailure tls
  | None => PortalFailure (PortalError.NetworkError e)
  end.

(** * Lemmas *)
Lemma parse_gp_response_ok res body : parse_gp_response res = Ok body →
  text res = Ok body ∧ ¬ (400 ≤ status res ≤ 599).
Proof.
  unfold parse_gp_response, is_client_error, is_server_error, between.
  destruct (_ || _) eqn:E; [done|]. destruct (text res) as [b|e]; [|done].
  intros [= ->]. split; [done|]. apply orb_false_iff in E as [E1 E2].
  apply andb_false_iff in E1, E2. rewrite !N.leb_gt in *. lia.
Qed.
(** A classified failure is reported as one of the server the request was for. *)
Lemma send_failure_tls origin e kind : classify (net_chain e) = Some kind →
  kind_from_error (send_failure origin e) = Some kind.
Proof. unfold send_failure, from_request. by intros ->. Qed.
Lemma kind_from_context m e : kind_from_error (Context m e) = kind_from_error e.
Proof. done. Qed.
