(* ===== verification/Interaction.v ===== *)
(** Programs that talk to their surroundings, as interaction trees.

    An event [E X] is a question whose answer has type [X]: a request to a server, a child
    process, a prompt. A run is the list of the questions asked so far with their
    answers; [plays t l t'] is a run of [t] that leaves [t'] to do. [wp] is a small logic
    for statements about every run, [exec] runs a program against answers that are
    computed.

    A flow is a program that may fail or panic: [None] is a panic. *)
From S2P Require Import Prelude GpHttp.
From ITree Require Import ITree.

#[export] Instance itree_ret {E} : MRet (itree E) := λ A a, Ret a.
#[export] Instance itree_bind {E} : MBind (itree E) := λ A B k t, ITree.bind t k.

Inductive event {E : Type → Type} :=
  | Ev {X} (question : E X) (answer : X).
Arguments event : clear implicits.
Notation trace E := (list (event E)).

Inductive plays {E R} : itree E R → trace E → itree E R → Prop :=
  | plays_here t : plays t [] t
  | plays_tau t u l t' : observe t = TauF u → plays u l t' → plays t l t'
  | plays_vis t X (e : E X) k x l t' :
      observe t = VisF e k → plays (k x) l t' → plays t (Ev e x :: l) t'.
Definition returns {E R} (t : itree E R) (l : trace E) (r : R) : Prop :=
  ∃ t', plays t l t' ∧ observe t' = RetF r.

(** * Running a program *)
Section exec.
Context {E : Type → Type} {R : Type} (oracle : nat → ∀ X, E X → X).
Fixpoint exec (fuel n : nat) (t : itree E R) : option (trace E * R) :=
  match fuel with
  | O => None
  | S fuel =>
      match observe t with
      | RetF r => Some ([], r)
      | TauF t => exec fuel n t
      | @VisF _ _ _ X e k =>
          let x := oracle n X e in
          '(l, r) ← exec fuel (S n) (k x); Some (Ev e x :: l, r)
      end
  end.
Lemma exec_returns fuel n t l r : exec fuel n t = Some (l, r) → returns t l r.
Proof.
  revert n t l. induction fuel as [|fuel IH]; intros n t l; cbn; [done|].
  destruct (observe t) as [r'|u|X e k] eqn:E'.
  - intros [= <- <-]. exists t. by split; [constructor|].
  - intros Hx. destruct (IH _ _ _ Hx) as (t' & ? & ?). exists t'. split; [by eapply plays_tau|done].
  - destruct (exec fuel (S n) (k _)) as [[l' r']|] eqn:Hx; cbn; [|done]. intros [= <- <-].
    destruct (IH _ _ _ Hx) as (t' & ? & ?). exists t'. split; [by eapply plays_vis|done].
Qed.
End exec.

(** * The logic of runs

    [wp t Φ h]: continued from the history [h], no run of [t] leaves the invariant, and
    [Φ] holds of the history and the result when [t] returns. *)
Lemma observe_bind {E A B} (t : itree E A) (k : A → itree E B) :
  observe (ITree.bind t k) =
    match observe t with
    | RetF r => observe (k r)
    | TauF u => TauF (ITree.bind u k)
    | VisF e h => VisF e (λ x, ITree.bind (h x) k)
    end.
Proof. unfold ITree.bind, observe at 1. cbn. by destruct (observe t). Qed.
Lemma observe_iter {E A I} (step : I → itree E (I + A)) i :
  observe (ITree.iter step i) =
    observe (ITree.bind (step i) (λ x, match x with
      | inl j => Tau (ITree.iter step j) | inr a => Ret a end)).
Proof. done. Qed.
Section runs.
Context {E : Type → Type} {R : Type}.

Lemma plays_app (t u v : itree E R) l k : plays t l u → plays u k v → plays t (l ++ k) v.
Proof.
  induction 1 as [t|t u' l u E' _ IH|t X e f x l u E' _ IH]; intros Hk; cbn; [done|..].
  - by eapply plays_tau; [|apply IH].
  - by eapply plays_vis; [|apply IH].
Qed.
(** What a tree does depends on what it shows. *)
Lemma plays_observe (t u v : itree E R) l : observe t = observe u → plays t l v →
  (l = [] ∧ v = t) ∨ plays u l v.
Proof.
  intros Ho Hp. destruct Hp as [t|t w l v E' Hp|t X e k x l v E' Hp].
  - by left.
  - right. rewrite Ho in E'. by eapply plays_tau.
  - right. rewrite Ho in E'. by eapply plays_vis.
Qed.
(** A run of [t; k] is a run of [t], or one of [t] that returned with one of [k]. *)
Lemma plays_bind_inv {A} (t : itree E A) (k : A → itree E R) l v : plays (ITree.bind t k) l v →
  (∃ t', plays t l t' ∧ v = ITree.bind t' k) ∨
  (∃ l1 l2 x, returns t l1 x ∧ plays (k x) l2 v ∧ l = l1 ++ l2).
Proof.
  remember (ITree.bind t k) as b eqn:Hb. intros Hp. revert t Hb.
  induction Hp as [b|b u l v E' Hp IH|b X e f x l v E' Hp IH]; intros t ->.
  - left. exists t. by split; [constructor|].
  - rewrite observe_bind in E'. destruct (observe t) as [a|w|Y e' f'] eqn:Et.
    + right. exists [], l, a. split; [exists t; by split; [constructor|]|].
      split; [by eapply plays_tau|done].
    + injection E' as <-. destruct (IH w eq_refl) as [(t' & ? & ->)|(l1 & l2 & a & (t' & ? & ?) & ? & ->)].
      * left. exists t'. by split; [eapply plays_tau|].
      * right. exists l1, l2, a. split; [exists t'; by split; [eapply plays_tau|]|done].
    + discriminate.
  - rewrite observe_bind in E'. destruct (observe t) as [a|w|Y e' f'] eqn:Et.
    + right. exists [], (Ev e x :: l), a. split; [exists t; by split; [constructor|]|].
      split; [by eapply plays_vis|done].
    + discriminate.
    + set (G (o : itree' E R) := match o with
           | @VisF _ _ _ Z g c => ∀ y : Z, (∃ z : Y, Ev g y = Ev e' z ∧ c y = ITree.bind (f' z) k)
           | _ => True end).
      assert (HG : G (VisF e f)) by (rewrite <- E'; intros y; by exists y).
      destruct (HG x) as (z & -> & Hf).
      destruct (IH (f' z) Hf) as [(t' & ? & ->)|(l1 & l2 & a & (t' & ? & ?) & ? & ->)].
      * left. exists t'. by split; [eapply plays_vis|].
      * right. exists (Ev e' z :: l1), l2, a. split; [exists t'; by split; [eapply plays_vis|]|done].
Qed.
End runs.

Section logic.
Context {E : Type → Type} (Inv : trace E → Prop).
Definition wp {R} (t : itree E R) (Φ : trace E → R → Prop) (h : trace E) : Prop :=
  ∀ l t', plays t l t' → Inv (h ++ l) ∧ ∀ r, observe t' = RetF r → Φ (h ++ l) r.

Lemma wp_mono {R} (t : itree E R) (Φ Ψ : trace E → R → Prop) h :
  (∀ l r, Φ l r → Ψ l r) → wp t Φ h → wp t Ψ h.
Proof. intros Hm Hw l t' Hp. destruct (Hw l t' Hp) as [? Hr]. split; auto. Qed.
Lemma wp_inv {R} (t : itree E R) Φ h : wp t Φ h → Inv h.
Proof. intros Hw. destruct (Hw [] t (plays_here t)) as [Hi _]. by rewrite app_nil_r in Hi. Qed.
Lemma wp_and_inv {R} (t : itree E R) Φ h : wp t Φ h → wp t (λ l r, Inv l ∧ Φ l r) h.
Proof. intros Hw l t' Hp. destruct (Hw l t' Hp) as [Hi Hr]. split; [done|]. intros r Ho. split; auto. Qed.
Lemma wp_observe {R} (t u : itree E R) Φ h : observe t = observe u → wp u Φ h → wp t Φ h.
Proof.
  intros Ho Hw l t' Hp. apply (plays_observe _ u) in Hp as [[-> ->]|Hp]; [|by apply Hw|done].
  destruct (Hw [] u (plays_here u)) as [? Hr]. by rewrite Ho.
Qed.
Lemma wp_ret {R} (r : R) (Φ : trace E → R → Prop) h : Inv h → Φ h r → wp (Ret r) Φ h.
Proof.
  intros Hi Hr l t' Hp. inversion Hp as [|? ? ? ? E'|? ? ? ? ? ? ? E']; subst; cbn in *; try done.
  rewrite app_nil_r. split; [done|]. intros r' [= <-]. done.
Qed.
Lemma wp_tau {R} (u : itree E R) Φ h : wp u Φ h → wp (Tau u) Φ h.
Proof.
  intros Hw l t' Hp. inversion Hp as [|? u' ? ? E'|? ? ? ? ? ? ? E']; subst.
  - rewrite app_nil_r. split; [by eapply wp_inv|done].
  - injection E' as ->. by apply Hw.
  - done.
Qed.
Lemma wp_vis {X R} (e : E X) (k : X → itree E R) Φ h :
  Inv h → (∀ x, wp (k x) Φ (h ++ [Ev e x])) → wp (Vis e k) Φ h.
Proof.
  intros Hi Hw l t' Hp. inversion Hp as [|? ? ? ? E'|? Y e' k' y l' ? E' Hp']; subst.
  - rewrite app_nil_r. by split.
  - done.
  - set (G (o : itree' E R) := match o with
           | @VisF _ _ _ Z g c => ∀ z : Z, wp (c z) Φ (h ++ [Ev g z])
           | _ => True end).
    assert (HG : G (VisF e' k')) by (rewrite <- E'; exact Hw).
    specialize (HG y l' t' Hp'). by rewrite <- app_assoc in HG.
Qed.
Lemma wp_bind {A R} (t : itree E A) (k : A → itree E R) Φ h :
  wp t (λ l x, wp (k x) Φ l) h → wp (ITree.bind t k) Φ h.
Proof.
  intros Hw l v Hp. apply plays_bind_inv in Hp as [(t' & Hp & ->)|(l1 & l2 & x & (t' & Hp & Hx) & Hk & ->)].
  - destruct (Hw l t' Hp) as [Hi Hr]. split; [done|]. intros r. rewrite observe_bind.
    destruct (observe t') as [a| |]; [|done..]. intros Ho.
    destruct (Hr a eq_refl [] (k a) (plays_here _)) as [_ Hq]. rewrite app_nil_r in Hq. by apply Hq.
  - destruct (Hw l1 t' Hp) as [_ Hr]. rewrite app_assoc. by apply (Hr x Hx).
Qed.
Lemma wp_trigger {X} (e : E X) (Φ : trace E → X → Prop) h :
  Inv h → (∀ x, Inv (h ++ [Ev e x]) ∧ Φ (h ++ [Ev e x]) x) → wp (ITree.trigger e) Φ h.
Proof. intros Hi Hw. apply wp_vis; [done|]. intros x. destruct (Hw x). by apply wp_ret. Qed.
(** A loop keeps [J] from turn to turn; it may turn for ever. *)
Lemma wp_iter {A I} (step : I → itree E (I + A)) (J : trace E → I → Prop) Φ h i :
  (∀ h i, J h i → wp (step i) (λ l x, match x with inl j => J l j | inr a => Φ l a end) h) →
  J h i → wp (ITree.iter step i) Φ h.
Proof.
  intros Hstep Hj.
  set (next := λ x : I + A, match x with inl j => Tau (ITree.iter step j) | inr a => Ret a end).
  set (Ψ := λ (l : trace E) (x : I + A), match x with inl j => J l j | inr a => Φ l a end).
  assert (Hgen : ∀ b l v, plays b l v → ∀ h u, observe b = observe (ITree.bind u next) →
    wp u Ψ h → Inv (h ++ l) ∧ ∀ r, observe v = RetF r → Φ (h ++ l) r).
  { induction 1 as [b|b w l v E' Hp IH|b X e f x l v E' Hp IH]; intros g u Hb Hu;
      rewrite observe_bind in Hb.
    - rewrite app_nil_r. split; [by eapply wp_inv|]. intros r Hr. rewrite Hr in Hb.
      destruct (observe u) as [[j|a]| |] eqn:Eu; try discriminate Hb. injection Hb as ->.
      destruct (Hu [] u (plays_here u)) as [_ Hq]. rewrite app_nil_r in Hq. by apply (Hq _ Eu).
    - rewrite E' in Hb. destruct (observe u) as [[j|a]|w'|] eqn:Eu; try discriminate Hb.
      + injection Hb as ->. apply (IH g (step j)); [by rewrite observe_iter|].
        destruct (Hu [] u (plays_here u)) as [_ Hq]. rewrite app_nil_r in Hq.
        apply Hstep, (Hq _ Eu).
      + injection Hb as ->. apply (IH g w'); [done|]. intros k t' Hk. apply Hu.
        by eapply plays_tau.
    - rewrite E' in Hb. destruct (observe u) as [[j|a]|w'|Y e' f'] eqn:Eu; try discriminate Hb.
      set (G (o : itree' E A) := match o with
           | @VisF _ _ _ Z q c => ∀ z : Z, ∃ y, Ev q z = Ev e' y ∧ c z = ITree.bind (f' y) next
           | _ => True end).
      assert (HG : G (VisF e f)) by (rewrite Hb; intros y; by exists y).
      destruct (HG x) as (y & -> & Hf).
      specialize (IH (g ++ [Ev e' y]) (f' y) ltac:(by rewrite Hf)).
      rewrite <- app_assoc in IH. apply IH. intros k t' Hk.
      rewrite <- app_assoc. apply Hu. by eapply plays_vis. }
  intros l v Hp. apply (Hgen _ l v Hp h (step i)); [apply observe_iter|by apply Hstep].
Qed.
End logic.

(** * Flows *)
Section flows.
Context {E : Type → Type}.
Definition flow (A : Type) : Type := itree E (option (result Failure A)).
Definition ok {A} (a : A) : flow A := Ret (Some (Ok a)).
Definition throw {A} (e : Failure) : flow A := Ret (Some (Err e)).
Definition panic {A} : flow A := Ret None.
Definition pure {A} (r : result Failure A) : flow A := Ret (Some r).
Definition may_panic {A} (o : option A) : flow A := Ret (Ok <$> o).
Definition ask {X} (e : E X) : flow X := ITree.bind (ITree.trigger e) ok.
Definition and_then {A B} (m : flow A) (k : A → flow B) : flow B :=
  ITree.bind m (λ x, match x with
    | None => panic
    | Some (Err e) => throw e
    | Some (Ok a) => k a
    end).
(** [match m { Ok(a) => .., Err(e) => .. }] *)
Definition either {A B} (m : flow A) (k : result Failure A → flow B) : flow B :=
  ITree.bind m (λ x, match x with None => panic | Some r => k r end).
(** A [loop] whose turns go on with [inl] and return with [inr]. *)
Definition repeating {A I} (turn : I → flow (I + A)) (i : I) : flow A :=
  ITree.iter (λ i, ITree.bind (turn i) (λ x, Ret match x with
    | None => inr None
    | Some (Err e) => inr (Some (Err e))
    | Some (Ok (inl j)) => inl j
    | Some (Ok (inr a)) => inr (Some (Ok a))
    end)) i.
End flows.
Arguments flow : clear implicits.

Declare Scope flow_scope.
Delimit Scope flow_scope with flow.
Notation "'let*' x ':=' m 'in' k" := (and_then m (λ x, k))
  (at level 200, x pattern, m at level 100, k at level 200, right associativity) : flow_scope.

Section flow_logic.
Context {E : Type → Type} (Inv : trace E → Prop).
(** Postconditions of flows: a panic satisfies none. *)
Definition wpf {A} (m : flow E A) (Φ : trace E → result Failure A → Prop) (h : trace E) : Prop :=
  wp Inv m (λ l o, match o with Some r => Φ l r | None => False end) h.

Lemma wpf_mono {A} (m : flow E A) (Φ Ψ : trace E → result Failure A → Prop) h :
  (∀ l r, Φ l r → Ψ l r) → wpf m Φ h → wpf m Ψ h.
Proof. intros Hm. apply wp_mono. intros l [r|]; [apply Hm|done]. Qed.
Lemma wpf_pure {A} (r : result Failure A) Φ h : Inv h → Φ h r → wpf (pure r) Φ h.
Proof. intros Hi Hr. exact (wp_ret Inv (Some r) _ h Hi Hr). Qed.
Lemma wpf_may_panic {A} (o : option A) (Φ : trace E → result Failure A → Prop) h :
  Inv h → (∃ a, o = Some a ∧ Φ h (Ok a)) → wpf (may_panic o) Φ h.
Proof. intros Hi (a & -> & Ha). exact (wp_ret Inv (Some (Ok a)) _ h Hi Ha). Qed.
Lemma wpf_ask {X} (e : E X) (Φ : trace E → result Failure X → Prop) h :
  Inv h → (∀ x, Inv (h ++ [Ev e x]) ∧ Φ (h ++ [Ev e x]) (Ok x)) → wpf (ask e) Φ h.
Proof.
  intros Hi Hw. apply wp_bind, wp_trigger; [done|]. intros x. destruct (Hw x) as [Hx Hr].
  split; [done|]. exact (wp_ret Inv (Some (Ok x)) _ _ Hx Hr).
Qed.
Lemma wpf_inv {A} (m : flow E A) Φ h : wpf m Φ h → Inv h.
Proof. apply wp_inv. Qed.
Lemma wpf_either {A B} (m : flow E A) (k : result Failure A → flow E B) Φ h :
  wpf m (λ l r, wpf (k r) Φ l) h → wpf (either m k) Φ h.
Proof. intros Hw. apply wp_bind. eapply wp_mono, Hw. by intros l [r|]. Qed.
Lemma wpf_and_then {A B} (m : flow E A) (k : A → flow E B) Φ h :
  wpf m (λ l r, match r with Ok a => wpf (k a) Φ l | Err e => wpf (throw e) Φ l end) h →
  wpf (and_then m k) Φ h.
Proof. intros Hw. apply wp_bind. eapply wp_mono, Hw. by intros l [[a|e]|]. Qed.
Lemma wpf_let_pure {A B} (r : result Failure A) (k : A → flow E B) Φ h : Inv h →
  match r with Ok a => wpf (k a) Φ h | Err e => Φ h (Err e) end → wpf (and_then (pure r) k) Φ h.
Proof.
  intros Hi Hr. apply wpf_and_then, wpf_pure; [done|]. destruct r; [done|by apply wpf_pure].
Qed.
Lemma wpf_let_may_panic {A B} (o : option A) (k : A → flow E B) Φ h : Inv h →
  (∃ a, o = Some a ∧ wpf (k a) Φ h) → wpf (and_then (may_panic o) k) Φ h.
Proof.
  intros Hi (a & -> & Ha). apply wpf_and_then, wpf_may_panic; [done|]. by exists a.
Qed.
Lemma wpf_let_ask {X B} (e : E X) (k : X → flow E B) Φ h : Inv h →
  (∀ x, Inv (h ++ [Ev e x]) ∧ wpf (k x) Φ (h ++ [Ev e x])) → wpf (and_then (ask e) k) Φ h.
Proof. intros Hi Hw. by apply wpf_and_then, wpf_ask. Qed.
Lemma wpf_ok {A} (a : A) Φ h : Inv h → Φ h (Ok a) → wpf (ok a) Φ h.
Proof. apply (wpf_pure (Ok a)). Qed.
Lemma wpf_throw {A} (e : Failure) (Φ : trace E → result Failure A → Prop) h :
  Inv h → Φ h (Err e) → wpf (throw e) Φ h.
Proof. apply (wpf_pure (Err e)). Qed.
Lemma wpf_repeating {A I} (turn : I → flow E (I + A)) (J : trace E → I → Prop) Φ h i :
  (∀ h i, J h i → wpf (turn i) (λ l r, match r with
     | Ok (inl j) => J l j | Ok (inr a) => Φ l (Ok a) | Err e => Φ l (Err e) end) h) →
  J h i → wpf (repeating turn i) Φ h.
Proof.
  intros Hturn Hj. eapply wp_iter; [|exact Hj]. intros g j Hg. apply wp_bind.
  eapply wp_mono, wp_and_inv, (Hturn g j Hg). intros l [[[j'|a]|e]|] [Hi Hr]; [..|done]; by apply wp_ret.
Qed.
End flow_logic.

(** * Flows against an automaton

    [step s e s']: the automaton allows the event [e] in the state [s]. [spec s m Φ]: from
    a history the automaton accepts into [s], every event of every run of [m] is allowed,
    and when [m] returns [Φ] holds of the automaton's state and the result. *)
Section automaton.
Context {E : Type → Type} {S : Type} (step : S → event E → S → Prop) (s0 : S).
Inductive tracks : trace E → S → Prop :=
  | tracks_nil : tracks [] s0
  | tracks_snoc h e s s' : tracks h s → step s e s' → tracks (h ++ [e]) s'.
Definition accepted (h : trace E) : Prop := ∃ s, tracks h s.
Definition spec {A} (s : S) (m : flow E A) (Φ : S → result Failure A → Prop) : Prop :=
  ∀ h, tracks h s → wpf accepted m (λ l r, ∃ s', tracks l s' ∧ Φ s' r) h.

Lemma tracks_accepted h s : tracks h s → accepted h.
Proof. by exists s. Qed.
Lemma spec_pure {A} s (r : result Failure A) Φ : Φ s r → spec s (pure r) Φ.
Proof. intros Hr h Hh. apply wpf_pure; [by exists s|]. by exists s. Qed.
Lemma spec_ok {A} s (a : A) Φ : Φ s (Ok a) → spec s (ok a) Φ.
Proof. apply (spec_pure s (Ok a)). Qed.
Lemma spec_throw {A} s (e : Failure) (Φ : S → result Failure A → Prop) : Φ s (Err e) → spec s (throw e) Φ.
Proof. apply (spec_pure s (Err e)). Qed.
Lemma spec_mono {A} s (m : flow E A) (Φ Ψ : S → result Failure A → Prop) :
  (∀ s' r, Φ s' r → Ψ s' r) → spec s m Φ → spec s m Ψ.
Proof.
  intros Hm Hs h Hh. eapply wpf_mono, Hs, Hh. intros l r (s' & ? & ?). exists s'. auto.
Qed.
Lemma spec_ask {X B} s (q : E X) (k : X → flow E B) Φ :
  (∀ x, ∃ s', step s (Ev q x) s' ∧ spec s' (k x) Φ) → spec s (and_then (ask q) k) Φ.
Proof.
  intros Hk h Hh. apply wpf_let_ask; [by exists s|]. intros x. destruct (Hk x) as (s' & Hs & Hw).
  pose proof (tracks_snoc _ _ _ _ Hh Hs) as Hh'. split; [by exists s'|]. by apply Hw.
Qed.
Lemma spec_bind {A B} s (m : flow E A) (k : A → flow E B) Φ Ψ :
  spec s m Φ → (∀ s' a, Φ s' (Ok a) → spec s' (k a) Ψ) → (∀ s' e, Φ s' (Err e) → Ψ s' (Err e)) →
  spec s (and_then m k) Ψ.
Proof.
  intros Hm Hk He h Hh. apply wpf_and_then. eapply wpf_mono, Hm, Hh. intros l [a|e] (s' & Hl & Ha).
  - exact (Hk s' a Ha l Hl).
  - apply wpf_throw; [by exists s'|]. exists s'. auto.
Qed.
Lemma spec_let_pure {A B} s (r : result Failure A) (k : A → flow E B) Φ :
  match r with Ok a => spec s (k a) Φ | Err e => Φ s (Err e) end → spec s (and_then (pure r) k) Φ.
Proof.
  intros Hr. apply (spec_bind _ _ _ (λ s' r', s' = s ∧ r' = r)); [by apply spec_pure|..].
  - by intros s' a [-> <-].
  - by intros s' e [-> <-].
Qed.
Lemma spec_either {A B} s (m : flow E A) (k : result Failure A → flow E B) Φ Ψ :
  spec s m Φ → (∀ s' r, Φ s' r → spec s' (k r) Ψ) → spec s (either m k) Ψ.
Proof.
  intros Hm Hk h Hh. apply wpf_either. eapply wpf_mono, Hm, Hh. intros l r (s' & Hl & Hr). exact (Hk s' r Hr l Hl).
Qed.
Lemma spec_repeating {A I} s (turn : I → flow E (I + A)) (J : S → I → Prop) Φ i :
  (∀ s i, J s i → spec s (turn i) (λ s' r, match r with
     | Ok (inl j) => J s' j | Ok (inr a) => Φ s' (Ok a) | Err e => Φ s' (Err e) end)) →
  J s i → spec s (repeating turn i) Φ.
Proof.
  intros Hturn Hj h Hh. eapply (wpf_repeating accepted _ (λ l i, ∃ s, tracks l s ∧ J s i)).
  - intros g j (s' & Hg & Hj'). eapply wpf_mono, (Hturn s' j Hj'), Hg.
    intros l [[j'|a]|e] (s2 & Hl & Hr); by exists s2.
  - by exists s.
Qed.
Lemma spec_runs {A} (m : flow E A) Φ l t : spec s0 m Φ → plays m l t → accepted l.
Proof. intros Hm Hp. by destruct (Hm [] tracks_nil l t Hp) as [? _]. Qed.
Lemma spec_returns {A} (m : flow E A) Φ l o : spec s0 m Φ → returns m l o →
  ∃ r s, o = Some r ∧ tracks l s ∧ Φ s r.
Proof.
  intros Hm (t & Hp & Ho). destruct (Hm [] tracks_nil l t Hp) as [_ Hr].
  specialize (Hr o Ho). destruct o as [r|]; [|done]. destruct Hr as (s & Hl & Hs). by exists r, s.
Qed.
End automaton.
