(* ===== verification/Stateful.v ===== *)
(** Programs that keep a state while they talk to their surroundings: what an operation
    leaves in the state stays also when it fails. A panic ([None]) ends the program.

    [sspec] is the logic of [Interaction] for them: an automaton accepts every event of
    every run, and when the program returns its postcondition holds of the automaton's
    state, the program's state and the result. *)
From S2P Require Import Prelude GpHttp Interaction.
From ITree Require Import ITree.

Section stateful.
Context {E : Type → Type} {S : Type}.
Definition sflow (A : Type) : Type := S → itree E (option (result Failure A) * S).
Definition spure {A} (r : result Failure A) : sflow A := λ s, Ret (Some r, s).
Definition sok {A} (a : A) : sflow A := spure (Ok a).
Definition sthrow {A} (e : Failure) : sflow A := spure (Err e).
Definition smay_panic {A} (o : option A) : sflow A := λ s, Ret (Ok <$> o, s).
Definition sask {X} (q : E X) : sflow X := λ s, ITree.bind (ITree.trigger q) (λ x, Ret (Some (Ok x), s)).
Definition sgets {A} (f : S → A) : sflow A := λ s, Ret (Some (Ok (f s)), s).
Definition smodify (f : S → S) : sflow () := λ s, Ret (Some (Ok ()), f s).
(** [match m { Ok(a) => .., Err(e) => .. }] *)
Definition scatch {A B} (m : sflow A) (k : result Failure A → sflow B) : sflow B :=
  λ s, ITree.bind (m s) (λ rs, match rs.1 with Some r => k r rs.2 | None => Ret (None, rs.2) end).
Definition sbind {A B} (m : sflow A) (k : A → sflow B) : sflow B :=
  scatch m (λ r, match r with Ok a => k a | Err e => sthrow e end).
(** A [loop] whose turns go on with [inl] and return with [inr]. *)
Definition srepeating {A I} (turn : I → sflow (I + A)) (i : I) : sflow A :=
  λ s, ITree.iter (λ p, ITree.bind (turn p.1 p.2) (λ rs, Ret match rs.1 with
    | None => inr (None, rs.2)
    | Some (Err e) => inr (Some (Err e), rs.2)
    | Some (Ok (inl j)) => inl (j, rs.2)
    | Some (Ok (inr a)) => inr (Some (Ok a), rs.2)
    end)) (i, s).
(** [for x in l { .. }] *)
Fixpoint sfor {A} (l : list A) (f : A → sflow ()) : sflow () :=
  match l with
  | [] => sok ()
  | x :: l => sbind (f x) (λ _, sfor l f)
  end.
End stateful.
Arguments sflow : clear implicits.

Declare Scope sflow_scope.
Delimit Scope sflow_scope with sflow.
Notation "'let+' x ':=' m 'in' k" := (sbind m (λ x, k))
  (at level 200, x pattern, m at level 100, k at level 200, right associativity) : sflow_scope.

Section logic.
Context {E : Type → Type} {S Acc : Type} (step : Acc → event E → Acc → Prop) (a0 : Acc).
Definition sspec {A} (a : Acc) (s : S) (m : sflow E S A) (Φ : Acc → S → result Failure A → Prop) : Prop :=
  ∀ h, tracks step a0 h a →
    wp (accepted step a0) (m s) (λ l rs, ∃ a', tracks step a0 l a' ∧
      match rs.1 with Some r => Φ a' rs.2 r | None => True end) h.

Lemma sspec_pure {A} a s (r : result Failure A) Φ : Φ a s r → sspec a s (spure r) Φ.
Proof. intros Hr h Hh. apply wp_ret; [by exists a|]. by exists a. Qed.
Lemma sspec_ok {A} a s (x : A) Φ : Φ a s (Ok x) → sspec a s (sok x) Φ.
Proof. apply (sspec_pure a s (Ok x)). Qed.
Lemma sspec_throw {A} a s e (Φ : Acc → S → result Failure A → Prop) : Φ a s (Err e) → sspec a s (sthrow e) Φ.
Proof. apply (sspec_pure a s (Err e)). Qed.
Lemma sspec_mono {A} a s (m : sflow E S A) (Φ Ψ : Acc → S → result Failure A → Prop) :
  (∀ a s r, Φ a s r → Ψ a s r) → sspec a s m Φ → sspec a s m Ψ.
Proof.
  intros Hm Hs h Hh. eapply wp_mono, Hs, Hh. intros l [[r|] s'] (a' & ? & ?); exists a'; (split; [done|]); [by apply Hm|done].
Qed.
Lemma sspec_catch {A B} a s (m : sflow E S A) (k : result Failure A → sflow E S B) Φ Ψ :
  sspec a s m Φ → (∀ a s r, Φ a s r → sspec a s (k r) Ψ) → sspec a s (scatch m k) Ψ.
Proof.
  intros Hm Hk h Hh. apply wp_bind. eapply wp_mono, Hm, Hh. intros l [[r|] s'] (a' & Hl & Hr); cbn.
  - exact (Hk a' s' r Hr l Hl).
  - apply wp_ret; [by exists a'|]. by exists a'.
Qed.
Lemma sspec_bind {A B} a s (m : sflow E S A) (k : A → sflow E S B) Φ Ψ :
  sspec a s m Φ → (∀ a s x, Φ a s (Ok x) → sspec a s (k x) Ψ) → (∀ a s e, Φ a s (Err e) → Ψ a s (Err e)) →
  sspec a s (sbind m k) Ψ.
Proof.
  intros Hm Hk He. eapply sspec_catch; [exact Hm|]. intros a' s' [x|e] Hr; [by apply Hk|].
  by apply sspec_throw, He.
Qed.
Lemma sspec_catch_pure {A B} a s (r : result Failure A) (k : result Failure A → sflow E S B) Φ :
  sspec a s (k r) Φ → sspec a s (scatch (spure r) k) Φ.
Proof.
  intros Hk. eapply (sspec_catch _ _ _ _ (λ a' s' r', a' = a ∧ s' = s ∧ r' = r)); [by apply sspec_pure|].
  by intros ? ? r' (-> & -> & ->).
Qed.
Lemma sspec_let_pure {A B} a s (r : result Failure A) (k : A → sflow E S B) Φ :
  match r with Ok x => sspec a s (k x) Φ | Err e => Φ a s (Err e) end → sspec a s (sbind (spure r) k) Φ.
Proof.
  intros Hr. apply (sspec_bind _ _ _ _ (λ a' s' r', a' = a ∧ s' = s ∧ r' = r)); [by apply sspec_pure|..].
  - by intros ? ? x (-> & -> & <-).
  - by intros ? ? e (-> & -> & <-).
Qed.
Lemma sspec_may_panic {A B} a s (o : option A) (k : A → sflow E S B) Φ :
  (∀ x, o = Some x → sspec a s (k x) Φ) → sspec a s (sbind (smay_panic o) k) Φ.
Proof.
  intros Hk. apply (sspec_bind _ _ _ _ (λ a' s' r', a' = a ∧ s' = s ∧ ∃ x, o = Some x ∧ r' = Ok x)).
  - intros h Hh. apply wp_ret; [by exists a|]. exists a. split; [done|]. destruct o; cbn; eauto.
  - intros ? ? x (-> & -> & y & Hy & [= ->]). by apply Hk.
  - by intros ? ? e (_ & _ & y & _ & [=]).
Qed.
Lemma sspec_ask {X B} a s (q : E X) (k : X → sflow E S B) Φ :
  (∀ x, ∃ a', step a (Ev q x) a' ∧ sspec a' s (k x) Φ) → sspec a s (sbind (sask q) k) Φ.
Proof.
  intros Hk. apply (sspec_bind _ _ _ _ (λ a' s' r, s' = s ∧ ∃ x, r = Ok x ∧ sspec a' s (k x) Φ)).
  - intros h Hh. apply wp_bind, wp_trigger; [by exists a|]. intros x. destruct (Hk x) as (a' & Hs & Hw).
    pose proof (tracks_snoc _ _ _ _ _ _ Hh Hs) as Hh'. split; [by exists a'|].
    apply wp_ret; [by exists a'|]. exists a'. split; [done|]. cbn. eauto.
  - by intros ? ? x (-> & y & [= ->] & Hw).
  - by intros ? ? e (_ & y & [=] & _).
Qed.
Lemma sspec_asked {X} a s (q : E X) Φ :
  (∀ x, ∃ a', step a (Ev q x) a' ∧ Φ a' s (Ok x)) → sspec a s (sask q) Φ.
Proof.
  intros Hk h Hh. apply wp_bind, wp_trigger; [by exists a|]. intros x. destruct (Hk x) as (a' & Hs & Hw).
  pose proof (tracks_snoc _ _ _ _ _ _ Hh Hs) as Hh'. split; [by exists a'|].
  apply wp_ret; [by exists a'|]. by exists a'.
Qed.
Lemma sspec_gets {A B} a s (f : S → A) (k : A → sflow E S B) Φ :
  sspec a s (k (f s)) Φ → sspec a s (sbind (sgets f) k) Φ.
Proof.
  intros Hk. apply (sspec_bind _ _ _ _ (λ a' s' r', a' = a ∧ s' = s ∧ r' = Ok (f s)));
    [by apply (sspec_ok a s (f s))|..].
  - by intros ? ? x (-> & -> & [= ->]).
  - by intros ? ? e (-> & -> & [=]).
Qed.
Lemma sspec_modify {B} a s (f : S → S) (k : () → sflow E S B) Φ :
  sspec a (f s) (k ()) Φ → sspec a s (sbind (smodify f) k) Φ.
Proof.
  intros Hk. apply (sspec_bind _ _ _ _ (λ a' s' r', a' = a ∧ s' = f s ∧ r' = Ok ())).
  - intros h Hh. apply wp_ret; [by exists a|]. by exists a.
  - by intros ? ? [] (-> & -> & _).
  - by intros ? ? e (-> & -> & [=]).
Qed.
(** A loop keeps [J] from turn to turn; it may turn for ever. *)
Lemma sspec_repeating {A I} a s (turn : I → sflow E S (I + A)) (J : Acc → S → I → Prop) Φ i :
  (∀ a s i, J a s i → sspec a s (turn i) (λ a' s' r, match r with
     | Ok (inl j) => J a' s' j | Ok (inr x) => Φ a' s' (Ok x) | Err e => Φ a' s' (Err e) end)) →
  J a s i → sspec a s (srepeating turn i) Φ.
Proof.
  intros Hturn Hj h Hh. eapply (wp_iter _ _ (λ l p, ∃ a, tracks step a0 l a ∧ J a p.2 p.1)).
  - intros g [j s1] (a1 & Hg & Hj1). apply wp_bind. cbn.
    eapply wp_mono, wp_and_inv, (Hturn a1 s1 j Hj1), Hg.
    intros l [[[[j'|x]|e]|] s2] [Hi (a2 & Hl & Hr)]; (apply wp_ret; [done|]); cbn in *; by exists a2.
  - by exists a.
Qed.
Lemma sspec_for {A} a s (l : list A) (f : A → sflow E S ()) (J : Acc → S → list A → Prop) Φ :
  (∀ a s x l, J a s (x :: l) → sspec a s (f x) (λ a' s' r, match r with
     | Ok _ => J a' s' l | Err e => Φ a' s' (Err e) end)) →
  (∀ a s, J a s [] → Φ a s (Ok ())) →
  J a s l → sspec a s (sfor l f) Φ.
Proof.
  intros Hf Hd. revert a s. induction l as [|x l IH]; intros a s Hj; [by apply sspec_ok, Hd|].
  eapply sspec_bind; [by apply Hf|..]; cbn; [|done]. intros a' s' [] Hj'. by apply IH.
Qed.
Lemma sspec_runs {A} s (m : sflow E S A) Φ l t : sspec a0 s m Φ → plays (m s) l t → accepted step a0 l.
Proof. intros Hm Hp. by destruct (Hm [] (tracks_nil _ _) l t Hp) as [? _]. Qed.
Lemma sspec_returns {A} s (m : sflow E S A) Φ l r s' : sspec a0 s m Φ → returns (m s) l (Some r, s') →
  ∃ a, tracks step a0 l a ∧ Φ a s' r.
Proof.
  intros Hm (t & Hp & Ho). destruct (Hm [] (tracks_nil _ _) l t Hp) as [_ Hr]. exact (Hr _ Ho).
Qed.
End logic.
