(* ===== verification/ChildProcess.v ===== *)
(** Child processes (crates/gpapi/src/process): the user a command runs as (users.rs,
    command_traits.rs), the desktop session it is given (desktop_session_env.rs), and the
    loop that feeds it and drains its pipes (command_runner.rs).

    The environment, the user database and the process table are arguments; a turn of the
    loop is given what the system answered in it. *)
From S2P Require Import Prelude Utf8 Text GpHttp.
From Stdlib Require Import Strings.Ascii.

#[local] Open Scope N_scope.

(** * Commands *)

(** [get_envs]: a variable set, or removed. *)
Record Command := {
  program : string;
  args : list string;
  envs : gmap string (option string);
  run_as : option (N * N);
}.
Definition command_new (program : string) : Command :=
  {| program := program; args := []; envs := ∅; run_as := None |}.
Definition arg (a : string) (c : Command) : Command := {|
  program := program c; args := args c ++ [a]; envs := envs c; run_as := run_as c;
|}.
Definition env (k v : string) (c : Command) : Command := {|
  program := program c; args := args c; envs := <[k := Some v]> (envs c); run_as := run_as c;
|}.
Definition as_user (uid gid : N) (c : Command) : Command := {|
  program := program c; args := args c; envs := envs c; run_as := Some (uid, gid);
|}.

(** [PathBuf::join] *)
Definition path_join (base path : string) : string :=
  if String.prefix "/" path || is_empty base then path
  else match String.get (String.length base - 1) base with
       | Some a => if Ascii.eqb a "/" then base +:+ path else base +:+ "/" +:+ path
       | None => path
       end.

(** [String::from_utf8_lossy]: each byte sequence that starts no character becomes one
    replacement character. *)
Definition replacement : string :=
  String (ascii_of_N 239) (String (ascii_of_N 191) (String (ascii_of_N 189) "")).
Definition second_byte (lead b : N) : bool :=
  if lead =? 224 then between 160 191 b
  else if lead =? 237 then between 128 159 b
  else if lead =? 240 then between 144 191 b
  else if lead =? 244 then between 128 143 b
  else between 128 191 b.
(** The first character or its replacement, and the bytes it takes. *)
Definition lossy_head (a : ascii) (r : string) : string * nat :=
  let x := byte_val a in
  let width := if between 194 223 x then 2 else if between 224 239 x then 3
               else if between 240 244 x then 4 else 0 in
  if x <? 128 then (String a "", 1%nat)
  else if width =? 0 then (replacement, 1%nat)
  else match r with
  | String b r2 =>
      if negb (second_byte x (byte_val b)) then (replacement, 1%nat)
      else if width =? 2 then (String a (String b ""), 2%nat)
      else match r2 with
      | String c r3 =>
          if negb (is_continuation c) then (replacement, 2%nat)
          else if width =? 3 then (String a (String b (String c "")), 3%nat)
          else match r3 with
          | String d _ => if negb (is_continuation d) then (replacement, 3%nat)
                          else (String a (String b (String c (String d ""))), 4%nat)
          | EmptyString => (replacement, 3%nat)
          end
      | EmptyString => (replacement, 2%nat)
      end
  | EmptyString => (replacement, 1%nat)
  end.
Fixpoint lossy_after (skip : nat) (s : string) : string :=
  match s with
  | EmptyString => EmptyString
  | String a r => match skip with
                  | S skip => lossy_after skip r
                  | O => let '(c, n) := lossy_head a r in c +:+ lossy_after (pred n) r
                  end
  end.
Definition from_utf8_lossy (s : string) : string := lossy_after 0 s.

(** * Users (users.rs) *)
Record User := { uid : N; user_name : string; home_dir : string; primary_group_id : N }.
Inductive RealUserLookup := Uid (uid : N) | Name (name : string).

(** [str::parse::<u32>] with the texts of its errors. *)
Fixpoint parse_digits_error (w acc : N) (s : string) : string :=
  match s with
  | EmptyString => ""
  | String a s =>
      match digit 10 a with
      | None => "invalid digit found in string"
      | Some d => match checked_mul w acc 10 with
                  | None => "number too large to fit in target type"
                  | Some m => match checked_add w m d with
                              | None => "number too large to fit in target type"
                              | Some n => parse_digits_error w n s
                              end
                  end
      end
  end.
Definition parse_error (w : N) (s : string) : string :=
  match s with
  | EmptyString => "cannot parse integer from empty string"
  | String a r => if byte_val a =? 43
                  then if is_empty r then "invalid digit found in string" else parse_digits_error w 0 r
                  else parse_digits_error w 0 s
  end.
Definition parse_u32 (s : string) : result Failure N :=
  ok_or (Message (parse_error u32_max s)) (from_str u32_max s).

Section users.
Variable env_var : string → option string.
Variable user_by_name : string → option User.
Variable user_by_uid : N → option User.
(** [whoami::username] *)
Variable whoami : result string string.

Definition real_user_lookup : result Failure RealUserLookup :=
  match env_var "SUDO_UID", env_var "PKEXEC_UID", env_var "DOAS_USER" with
  | Some uid, _, _ | None, Some uid, _ => Uid <$> parse_u32 uid
  | None, None, Some user => if trim_is_empty user then bail "User not found" else Ok (Name user)
  | None, None, None => bail "User not found"
  end.
Definition get_user_by_name (name : string) : result Failure User :=
  ok_or (Message ("User (" +:+ name +:+ ") not found")) (user_by_name name).
Definition get_real_user : result Failure User :=
  l ← real_user_lookup;
  match l with
  | Uid uid => ok_or (Message "User not found") (user_by_uid uid)
  | Name name => get_user_by_name name
  end.
Definition current_username : result Failure string :=
  map_err (λ e, Message ("Failed to resolve current user: " +:+ e)) whoami.
Definition get_non_root_user : result Failure User :=
  name ← current_username;
  user ← (if String.eqb name "root" then get_real_user else get_user_by_name name);
  if uid user =? 0 then bail "Non-root user not found" else Ok user.
End users.

(** * The desktop session of a user (desktop_session_env.rs, Linux) *)
Definition DESKTOP_SESSION_ENV : list string :=
  ["BROWSER"; "DBUS_SESSION_BUS_ADDRESS"; "DESKTOP_SESSION"; "DISPLAY"; "MOZ_ENABLE_WAYLAND";
   "WAYLAND_DISPLAY"; "XAUTHORITY"; "XDG_CONFIG_HOME"; "XDG_CURRENT_DESKTOP"; "XDG_DATA_DIRS";
   "XDG_DATA_HOME"; "XDG_RUNTIME_DIR"; "XDG_SESSION_DESKTOP"; "XDG_SESSION_TYPE"].
Definition non_empty (v : option string) : option string :=
  v ← v; if trim_is_empty v then None else Some v.

Section desktop.
Variable env_var : string → option string.

Definition parse_entry (entry : string) : option (string * string) :=
  '(key, value) ← split_once "=" entry;
  if bool_decide (key ∈ DESKTOP_SESSION_ENV)
  then v ← non_empty (Some (from_utf8_lossy value)); Some (key, v)
  else None.
(** [collect] into a map keeps the last value of a key. *)
Definition parse_environ (bytes : string) : gmap string string :=
  fold_left (λ m kv, <[kv.1 := kv.2]> m) (omap parse_entry (split (ascii_of_N 0) bytes)) ∅.
Definition has (key : string) (m : gmap string string) : bool := bool_decide (is_Some (m !! key)).
Definition score_env (m : gmap string string) : N :=
  (if has "DBUS_SESSION_BUS_ADDRESS" m then 4 else 0) +
  (if has "XDG_RUNTIME_DIR" m then 3 else 0) +
  (if has "WAYLAND_DISPLAY" m || has "DISPLAY" m then 3 else 0) +
  (if has "XDG_CURRENT_DESKTOP" m then 2 else 0) +
  (if has "XDG_DATA_DIRS" m then 1 else 0).

(** An entry of /proc: its name, its owner and its environ file, if they can be read. *)
Record Process := { proc_name : string; proc_uid : option N; proc_environ : option string }.
Definition is_process_dir (p : Process) : bool := all_bytes is_ascii_digit (proc_name p).
Definition owned_by_user (user_id : N) (p : Process) : bool := bool_decide (proc_uid p = Some user_id).
Definition read_environ (p : Process) : gmap string string :=
  match proc_environ p with Some bytes => parse_environ bytes | None => ∅ end.
Definition collect_step (user_id : N) (best : gmap string string * N) (p : Process) :
    gmap string string * N :=
  if negb (is_process_dir p) || negb (owned_by_user user_id p) then best
  else let m := read_environ p in
       if best.2 <? score_env m then (m, score_env m) else best.
Definition collect (processes : option (list Process)) (user_id : N) : gmap string string :=
  match processes with
  | None => ∅
  | Some l => (fold_left (collect_step user_id) l (∅, 0)).1
  end.
Definition desktop_env_value (session : gmap string string) (key : string) : option string :=
  match session !! key with Some v => Some v | None => non_empty (env_var key) end.
Definition unless_given (session : gmap string string) (key v : string) (c : Command) : Command :=
  match desktop_env_value session key with None => env key v c | Some _ => c end.
Definition apply_session (session : gmap string string) (user_id : N) (home : string)
    (c : Command) : Command :=
  let c := fold_left (λ c key, match desktop_env_value session key with
                               | Some v => env key v c | None => c end) DESKTOP_SESSION_ENV c in
  let runtime_dir := default ("/run/user/" +:+ to_string user_id)
                       (desktop_env_value session "XDG_RUNTIME_DIR") in
  let c := env "XDG_RUNTIME_DIR" runtime_dir c in
  let c := unless_given session "DBUS_SESSION_BUS_ADDRESS" ("unix:path=" +:+ runtime_dir +:+ "/bus") c in
  let c := unless_given session "XDG_DATA_HOME" (path_join home ".local/share") c in
  let c := unless_given session "XDG_CONFIG_HOME" (path_join home ".config") c in
  unless_given session "XDG_DATA_DIRS" "/usr/local/share:/usr/share:/var/lib/snapd/desktop" c.

(** [into_non_root]; [debug_text] is the [Debug] of a command. *)
Definition into_non_root (debug_text : Command → string) (user : result Failure User)
    (processes : option (list Process)) (c : Command) : result Failure Command :=
  user ← map_err (λ _, Message (debug_text c +:+ " cannot be run as root")) user;
  let c := apply_session (collect processes (uid user)) (uid user) (home_dir user) c in
  Ok (as_user (uid user) (primary_group_id user)
       (env "USERNAME" (user_name user) (env "LOGNAME" (user_name user)
         (env "USER" (user_name user) (env "HOME" (home_dir user) c))))).
End desktop.
Definition new_pkexec (program : string) : Command :=
  arg program (arg "root" (arg "--user" (command_new "pkexec"))).

(** * Running a child (command_runner.rs) *)
Inductive IoKind := WouldBlock | Interrupted | WriteZero | BrokenPipe | InvalidData | OtherIo.
Record IoError := { io_kind : IoKind; io_text : string }.
Definition try_again (e : IoError) : bool :=
  match io_kind e with WouldBlock | Interrupted => true | _ => false end.

Inductive ExitStatus := Exited (code : N) | Signaled (signal : N) (core_dumped : bool).
Definition success (s : ExitStatus) : bool :=
  match s with Exited 0 => true | _ => false end.

Inductive ChildInput := NoInput | Frame (bytes : string) | Terminal.
Definition own_group (i : ChildInput) : bool := match i with Terminal => false | _ => true end.
Definition stdin_frame (i : ChildInput) : option string :=
  match i with Frame bytes => Some bytes | _ => None end.

(** The variables of the loop; [observed] is what the observer and the sink were given,
    [stopped] that the helpers were killed. *)
Record Runner := {
  input_offset : N;
  input_error : option IoError;
  output : string;
  stdout_eof : bool;
  stderr_eof : bool;
  observed : list string;
  exit_status : option ExitStatus;
  stopped : bool;
}.
Record ObservedOutput := {
  out_status : ExitStatus;
  out_stdout : string;
  out_input_error : option IoError;
}.
(** [child.spawn()] succeeded: [output_limit] is [None] when stdout is inherited, and
    stderr is piped when there is an observer. *)
Definition runner_new (output_limit : option N) (observing : bool) : Runner := {|
  input_offset := 0; input_error := None; output := "";
  stdout_eof := bool_decide (output_limit = None); stderr_eof := negb observing;
  observed := []; exit_status := None; stopped := false;
|}.

Record Turn := {
  check : result IoError ();
  wrote : result IoError N;
  read_stdout : result IoError string;
  read_stderr : result IoError string;
  sink_write : result IoError ();
  waited : result IoError (option ExitStatus);
  (** a quarter of a second passed since the child exited *)
  lingered : bool;
}.
Definition feed (input : ChildInput) (t : Turn) (s : Runner) : Runner :=
  match stdin_frame input with
  | Some frame =>
      if (input_offset s <? slen frame) && bool_decide (input_error s = None) then
        let '(offset, error) := match wrote t with
          | Ok n => if n =? 0
                    then (input_offset s, Some {| io_kind := WriteZero;
                                                  io_text := "Credential input pipe closed" |})
                    else (input_offset s + n, None)
          | Err e => (input_offset s, if try_again e then None else Some e)
          end in
        {| input_offset := offset; input_error := error; output := output s;
           stdout_eof := stdout_eof s; stderr_eof := stderr_eof s; observed := observed s;
           exit_status := exit_status s; stopped := stopped s |}
      else s
  | None => s
  end.
Definition drain_stdout (limit : N) (t : Turn) (s : Runner) : result IoError Runner :=
  if stdout_eof s then Ok s else
  match read_stdout t with
  | Ok bytes =>
      if is_empty bytes then Ok {|
        input_offset := input_offset s; input_error := input_error s; output := output s;
        stdout_eof := true; stderr_eof := stderr_eof s; observed := observed s;
        exit_status := exit_status s; stopped := stopped s |}
      else
        _ ← ensure (slen bytes <=? limit - slen (output s))
          {| io_kind := InvalidData; io_text := "Command output exceeds its limit" |};
        Ok {|
          input_offset := input_offset s; input_error := input_error s;
          output := output s +:+ bytes; stdout_eof := false; stderr_eof := stderr_eof s;
          observed := observed s; exit_status := exit_status s; stopped := stopped s |}
  | Err e => if try_again e then Ok s else Err e
  end.
Definition drain_stderr (t : Turn) (s : Runner) : result IoError Runner :=
  if stderr_eof s then Ok s else
  match read_stderr t with
  | Ok bytes =>
      if is_empty bytes then Ok {|
        input_offset := input_offset s; input_error := input_error s; output := output s;
        stdout_eof := stdout_eof s; stderr_eof := true; observed := observed s;
        exit_status := exit_status s; stopped := stopped s |}
      else
        _ ← sink_write t;
        Ok {|
          input_offset := input_offset s; input_error := input_error s; output := output s;
          stdout_eof := stdout_eof s; stderr_eof := false; observed := observed s ++ [bytes];
          exit_status := exit_status s; stopped := stopped s |}
  | Err e => if try_again e then Ok s else Err e
  end.
Definition reap (t : Turn) (s : Runner) : result IoError Runner :=
  match exit_status s with
  | Some _ => Ok s
  | None =>
      status ← waited t;
      match status with
      | None => Ok s
      | Some _ => Ok {|
          input_offset := input_offset s; input_error := input_error s; output := output s;
          stdout_eof := stdout_eof s; stderr_eof := stderr_eof s; observed := observed s;
          exit_status := status; stopped := true |}
      end
  end.
Definition finished (input : ChildInput) (t : Turn) (s : Runner) : option ObservedOutput :=
  status ← exit_status s;
  if (stdout_eof s && stderr_eof s) || lingered t then Some {|
    out_status := status; out_stdout := output s;
    out_input_error :=
      match stdin_frame input with
      | Some frame =>
          if (input_offset s <? slen frame) && bool_decide (input_error s = None)
          then Some {| io_kind := BrokenPipe;
                       io_text := "Child exited before receiving its credential" |}
          else input_error s
      | None => input_error s
      end |}
  else None.
(** One turn of the loop. *)
Definition turn (limit : N) (input : ChildInput) (t : Turn) (s : Runner) : result IoError Runner :=
  _ ← check t;
  s ← drain_stdout limit t (feed input t s);
  s ← drain_stderr t s;
  reap t s.
(** The loop: what it returns, or the state it is in after these turns. *)
Fixpoint run_turns (limit : N) (input : ChildInput) (l : list Turn) (s : Runner) :
    result IoError ObservedOutput * Runner + Runner :=
  match l with
  | [] => inr s
  | t :: l =>
      match turn limit input t s with
      | Err e => inl (Err e, s)
      | Ok s => match finished input t s with
                | Some o => inl (Ok o, s)
                | None => run_turns limit input l s
                end
      end
  end.
Definition run_command (output_limit : option N) (observing : bool) (input : ChildInput)
    (before : result IoError ()) (spawned : result IoError ()) (l : list Turn) :
    result IoError ObservedOutput * Runner + Runner :=
  let s := runner_new output_limit observing in
  match (_ ← before; spawned) with
  | Err e => inl (Err e, s)
  | Ok _ => run_turns (default 0 output_limit) input l s
  end.

(** * Lemmas *)

(** ** The user of a command *)
Definition SESSION_ENV : list string := DESKTOP_SESSION_ENV ++ ["HOME"; "USER"; "LOGNAME"; "USERNAME"].
(** A command that differs from another at most in values of these variables. *)
Definition same_command (keys : list string) (c c' : Command) : Prop :=
  program c' = program c ∧ args c' = args c ∧
  ∀ k, k ∉ keys → envs c' !! k = envs c !! k.

Lemma same_command_refl keys c : same_command keys c c.
Proof. done. Qed.
Lemma same_command_trans keys a b c :
  same_command keys a b → same_command keys b c → same_command keys a c.
Proof.
  intros (H1 & H2 & H3) (K1 & K2 & K3). split_and!; [congruence..|].
  intros k Hk. by rewrite K3, H3.
Qed.
Lemma env_same keys k v c : k ∈ keys → same_command keys c (env k v c).
Proof. intros Hk. split_and!; [done..|]. intros k' Hk'. cbn. rewrite lookup_insert_ne; set_solver. Qed.
Lemma unless_given_same keys e session k v c : k ∈ keys → same_command keys c (unless_given e session k v c).
Proof. unfold unless_given. intros Hk. destruct (desktop_env_value _ _ _); [done|by apply env_same]. Qed.
Ltac in_keys := apply (bool_decide_unpack _); vm_compute; exact I.

Lemma apply_session_same e session user_id home c :
  same_command SESSION_ENV c (apply_session e session user_id home c).
Proof.
  unfold apply_session.
  repeat first [eapply same_command_trans; [|apply unless_given_same; in_keys]
               | eapply same_command_trans; [|apply env_same; in_keys]].
  assert (Hs : ∀ l d, l ⊆ SESSION_ENV → same_command SESSION_ENV d
    (fold_left (λ c key, match desktop_env_value e session key with
       | Some v => env key v c | None => c end) l d)).
  { induction l as [|k l IH]; intros d Hl; cbn; [apply same_command_refl|].
    eapply same_command_trans; [|apply IH; set_solver].
    destruct (desktop_env_value e session k); [apply env_same; set_solver|done]. }
  apply Hs. intros k Hk. by apply elem_of_app; left.
Qed.
Lemma get_non_root_user_uid e n u w user : get_non_root_user e n u w = Ok user → uid user ≠ 0.
Proof.
  unfold get_non_root_user. intros Hu. bind_inv Hu. destruct (uid x0 =? 0) eqn:E'; [done|].
  apply Ok_inj in Hu as <-. by apply N.eqb_neq.
Qed.
(** A command made to run as the user is not run as root, keeps its program and its
    arguments, and gets no variables but those of the session and the user. *)
Lemma into_non_root_safe e dbg names uids who processes c c' :
  into_non_root e dbg (get_non_root_user e names uids who) processes c = Ok c' →
  same_command SESSION_ENV c c' ∧ ∃ user gid, run_as c' = Some (user, gid) ∧ user ≠ 0.
Proof.
  unfold into_non_root. destruct (get_non_root_user e names uids who) as [user|] eqn:Hu; cbn; [|done].
  intros [= <-]. split.
  - repeat (eapply same_command_trans; [|apply env_same; in_keys]). apply apply_session_same.
  - eexists _, _. split; [done|]. by eapply get_non_root_user_uid.
Qed.

(** ** The loop *)
(** What was read of a pipe: the chunks up to the end of the file. *)
Fixpoint until_eof (l : list (result IoError string)) : list string :=
  match l with
  | [] => []
  | Ok bytes :: l => if is_empty bytes then [] else bytes :: until_eof l
  | Err _ :: l => until_eof l
  end.
Definition is_eof (r : result IoError string) : bool :=
  match r with Ok bytes => is_empty bytes | Err _ => false end.
(** The chunks of a pipe that is at its end already when [eof]. *)
Definition chunks (eof : bool) (l : list (result IoError string)) : list string :=
  if eof then [] else until_eof l.
Lemma chunks_cons eof r l : chunks eof (r :: l) = chunks eof [r] ++ chunks (eof || is_eof r) l.
Proof. unfold chunks. destruct eof; [done|]. destruct r as [b|e]; cbn; [by destruct (is_empty b)|done]. Qed.
Lemma concat_chunks_app l k : String.concat "" (l ++ k) = String.concat "" l +:+ String.concat "" k.
Proof.
  induction l as [|a l IH]; [done|]. destruct l as [|b l].
  - destruct k; cbn; [by rewrite string_app_nil_r|done].
  - change (String.concat "" ((a :: b :: l) ++ k)) with (a +:+ String.concat "" ((b :: l) ++ k)).
    rewrite IH. apply string_app_assoc.
Qed.

(** One turn: the pipes give their chunks, within the limit; a frame is written in order
    and once. *)
Lemma feed_fields input t s : let s' := feed input t s in
  output s' = output s ∧ stdout_eof s' = stdout_eof s ∧ stderr_eof s' = stderr_eof s ∧
  observed s' = observed s ∧ exit_status s' = exit_status s.
Proof.
  unfold feed. destruct (stdin_frame input); [|done]. destruct (_ && _); [|done].
  destruct (wrote t) as [n|e]; [destruct (n =? 0)|]; done.
Qed.
Lemma drain_stdout_Ok limit t s s' : drain_stdout limit t s = Ok s' →
  slen (output s) ≤ limit →
  output s' = output s +:+ String.concat "" (chunks (stdout_eof s) [read_stdout t]) ∧
  slen (output s') ≤ limit ∧
  stdout_eof s' = stdout_eof s || is_eof (read_stdout t) ∧
  stderr_eof s' = stderr_eof s ∧ observed s' = observed s ∧ exit_status s' = exit_status s ∧
  input_offset s' = input_offset s ∧ input_error s' = input_error s.
Proof.
  unfold drain_stdout, chunks, is_eof. intros Hd Hl. destruct (stdout_eof s) eqn:Eo.
  { injection Hd as <-. cbn. rewrite string_app_nil_r. done. }
  destruct (read_stdout t) as [b|e]; cbn [until_eof orb].
  - destruct (is_empty b).
    + injection Hd as <-. cbn. by rewrite string_app_nil_r.
    + bind_inv Hd. apply N.leb_le in Hx. injection Hd as <-. cbn. split_and!; try done.
      rewrite slen_app. lia.
  - destruct (try_again e); [|done]. injection Hd as <-. cbn. by rewrite string_app_nil_r.
Qed.
Lemma drain_stderr_Ok t s s' : drain_stderr t s = Ok s' →
  observed s' = observed s ++ chunks (stderr_eof s) [read_stderr t] ∧
  stderr_eof s' = stderr_eof s || is_eof (read_stderr t) ∧
  output s' = output s ∧ stdout_eof s' = stdout_eof s ∧ exit_status s' = exit_status s ∧
  input_offset s' = input_offset s ∧ input_error s' = input_error s.
Proof.
  unfold drain_stderr, chunks, is_eof. intros Hd. destruct (stderr_eof s) eqn:Eo.
  { injection Hd as <-. by rewrite app_nil_r. }
  destruct (read_stderr t) as [b|e]; cbn [until_eof orb].
  - destruct (is_empty b); [injection Hd as <-; cbn; by rewrite app_nil_r|].
    bind_inv Hd. by injection Hd as <-.
  - destruct (try_again e); [|done]. injection Hd as <-. by rewrite app_nil_r.
Qed.
Lemma reap_Ok t s s' : reap t s = Ok s' →
  output s' = output s ∧ stdout_eof s' = stdout_eof s ∧ stderr_eof s' = stderr_eof s ∧
  observed s' = observed s ∧ input_offset s' = input_offset s ∧ input_error s' = input_error s ∧
  (∀ e, exit_status s' = Some e → exit_status s = Some e ∨ waited t = Ok (Some e)).
Proof.
  unfold reap. intros Hr. destruct (exit_status s) as [e|] eqn:Es.
  { injection Hr as <-. split_and!; try done. rewrite Es. auto. }
  bind_inv Hr. destruct x as [e|]; injection Hr as <-; cbn; split_and!; try done.
  - intros e' [= <-]. by right.
  - by rewrite Es.
Qed.
Lemma turn_Ok limit input t s s' : turn limit input t s = Ok s' → slen (output s) ≤ limit →
  output s' = output s +:+ String.concat "" (chunks (stdout_eof s) [read_stdout t]) ∧
  slen (output s') ≤ limit ∧
  stdout_eof s' = stdout_eof s || is_eof (read_stdout t) ∧
  observed s' = observed s ++ chunks (stderr_eof s) [read_stderr t] ∧
  stderr_eof s' = stderr_eof s || is_eof (read_stderr t) ∧
  input_offset s' = input_offset (feed input t s) ∧ input_error s' = input_error (feed input t s) ∧
  (∀ e, exit_status s' = Some e → exit_status s = Some e ∨ waited t = Ok (Some e)).
Proof.
  unfold turn. intros Ht Hl. bind_inv Ht.
  destruct (feed_fields input t s) as (F1 & F2 & F3 & F4 & F5). rewrite <- F1 in Hl.
  apply drain_stdout_Ok in Hx0 as (? & ? & ? & ? & ? & ? & ? & ?); [|done].
  apply drain_stderr_Ok in Hx1 as (? & ? & ? & ? & ? & ? & ?).
  apply reap_Ok in Ht as (? & ? & ? & ? & ? & ? & Hst). split_and!; try congruence.
  intros e He. rewrite <- F5. destruct (Hst e He) as [?|?]; [left; congruence|by right].
Qed.

(** What the loop returns: the output of the child in order and within the limit, what
    it wrote on stderr in order, a status the system reported, and an input error unless
    the whole frame was accepted. *)
Lemma run_turns_Ok limit input l s o s' : run_turns limit input l s = inl (Ok o, s') →
  slen (output s) ≤ limit →
  ∃ played rest, l = played ++ rest ∧
    out_stdout o = output s +:+ String.concat "" (chunks (stdout_eof s) (read_stdout <$> played)) ∧
    slen (out_stdout o) ≤ limit ∧
    observed s' = observed s ++ chunks (stderr_eof s) (read_stderr <$> played) ∧
    (exit_status s = Some (out_status o) ∨
     ∃ t, t ∈ played ∧ waited t = Ok (Some (out_status o))) ∧
    ∀ frame, stdin_frame input = Some frame → out_input_error o = None →
      slen frame ≤ input_offset s'.
Proof.
  revert s. induction l as [|t l IH]; intros s Hr Hl; cbn [run_turns] in Hr; [done|].
  destruct (turn limit input t s) as [s1|e] eqn:Ht; [|done].
  apply turn_Ok in Ht as (Ho & Hl1 & Heo & Hs & Hes & Hi & He & Hst); [|done].
  destruct (finished input t s1) as [o'|] eqn:Hf.
  - injection Hr as -> ->. exists [t], l. split; [done|]. unfold finished in Hf.
    destruct (exit_status s') as [status|] eqn:Hx; cbn in Hf; [|done].
    destruct (_ || _); [|done]. injection Hf as <-. cbn [out_stdout out_status out_input_error].
    split_and!; try done.
    + destruct (Hst status eq_refl) as [?|?]; [by left|]. right. exists t. split; [set_solver|done].
    + intros frame ->. destruct (input_offset s' <? slen frame) eqn:El; [|by apply N.ltb_ge in El].
      cbn. destruct (decide (input_error s' = None)) as [E|E]; [rewrite bool_decide_true by done|
        rewrite bool_decide_false by done]; done.
  - destruct (IH s1 Hr Hl1) as (played & rest & -> & Hout & Hb & Hobs & Hstat & Hfr).
    exists (t :: played), rest. split; [done|]. rewrite !fmap_cons, (chunks_cons _ (read_stdout t)), (chunks_cons _ (read_stderr t)).
    rewrite Hout, Hobs, Ho, Hs, Heo, Hes, concat_chunks_app, <- !app_assoc, string_app_assoc.
    split; [done|]. split; [by rewrite <- Ho, <- Heo, <- Hout|]. split; [done|]. split; [|done].
    destruct Hstat as [Hstat|(t' & Ht' & Hw)].
    + destruct (Hst _ Hstat) as [?|?]; [by left|]. right. exists t. split; [set_solver|done].
    + right. exists t'. split; [set_solver|done].
Qed.
Lemma drain_stdout_exit limit t s s' : drain_stdout limit t s = Ok s' → exit_status s' = exit_status s.
Proof.
  unfold drain_stdout. intros Hd. destruct (stdout_eof s); [by injection Hd as <-|].
  destruct (read_stdout t) as [b|e]; [destruct (is_empty b)|destruct (try_again e); [|done]].
  - by injection Hd as <-.
  - bind_inv Hd. by injection Hd as <-.
  - by injection Hd as <-.
Qed.
Lemma turn_exit limit input t s s' : turn limit input t s = Ok s' →
  is_Some (exit_status s) ∨ (∃ e, waited t = Ok (Some e)) → is_Some (exit_status s').
Proof.
  unfold turn. intros Ht Hex. bind_inv Ht.
  destruct (feed_fields input t s) as (_ & _ & _ & _ & F5).
  assert (F6 : exit_status x1 = exit_status s).
  { apply drain_stderr_Ok in Hx1 as (_ & _ & _ & _ & -> & _). by rewrite (drain_stdout_exit _ _ _ _ Hx0). }
  unfold reap in Ht. rewrite F6 in Ht. destruct (exit_status s) eqn:Es.
  { injection Ht as <-. rewrite F6. eauto. }
  destruct Hex as [[? ?]|(e & He)]; [done|]. rewrite He in Ht. cbn in Ht. injection Ht as <-. cbn. eauto.
Qed.
(** Once the child has exited the loop returns as soon as a quarter of a second is over:
    a helper that holds a pipe open cannot keep it. *)
Lemma run_turns_returns limit input l s t e : run_turns limit input l s = inr t →
  ∀ i u j u', l !! i = Some u → waited u = Ok (Some e) →
  (i ≤ j)%nat → l !! j = Some u' → lingered u' = false.
Proof.
  assert (Hgen : ∀ l s, run_turns limit input l s = inr t →
    ∀ i j u', is_Some (exit_status s) ∨ (∃ u, l !! i = Some u ∧ waited u = Ok (Some e)) ∧ (i ≤ j)%nat →
    l !! j = Some u' → lingered u' = false).
  { clear. induction l as [|x l IH]; intros s Hr i j u' Hex Hj; [done|]. cbn [run_turns] in Hr.
    destruct (turn limit input x s) as [s1|] eqn:Ht; [|done].
    destruct (finished input x s1) eqn:Hf; [done|].
    destruct j as [|j]; cbn in Hj.
    - injection Hj as <-. assert (Hs1 : is_Some (exit_status s1)).
      { eapply turn_exit; [done|]. destruct Hex as [?|[(u & Hu & Hw) Hij]]; [by left|]. right.
        destruct i; [|lia]. injection Hu as <-. by exists e. }
      destruct Hs1 as [st Hst]. unfold finished in Hf. rewrite Hst in Hf. cbn in Hf.
      destruct (lingered x); [|done]. by rewrite orb_true_r in Hf.
    - apply (IH s1 Hr (pred i) j u'); [|done]. destruct Hex as [?|[(u & Hu & Hw) Hij]].
      + left. eapply turn_exit; [done|by left].
      + destruct i as [|i]; cbn in Hu.
        * injection Hu as <-. left. eapply turn_exit; [done|]. right. by exists e.
        * right. split; [by exists u|cbn; lia]. }
  intros Hr i u j u' Hi Hw Hij. apply (Hgen l s Hr i j u'). right. split; [by exists u|done].
Qed.
