(* ===== verification/Csc.v ===== *)
(** The custom-check report a portal asks for before it hands out its policy
    (crates/gpapi/src/portal/csc.rs).

    Reading macOS preferences and the list of processes is a [CscDataReader]; the MD5
    digest and [urlencoding::encode] are arguments. *)
From S2P Require Import Prelude Utf8 Text ClientProfile Xml GpHttp.
From Stdlib Require Import Strings.Ascii.
From stdpp Require Import sorting.

#[local] Open Scope N_scope.

Definition DIGEST_PLACEHOLDER : string := "__#_PAN_CSC_DATA_DIGEST_#__".

Record CscBuildSummary := {
  plist_entries : N;
  plist_present : N;
  plist_missing : N;
  process_entries : N;
  process_present : N;
  process_missing : N;
}.
Definition summary_default : CscBuildSummary := {|
  plist_entries := 0; plist_present := 0; plist_missing := 0;
  process_entries := 0; process_present := 0; process_missing := 0;
|}.
Definition add_plist (entries present missing : N) (s : CscBuildSummary) : CscBuildSummary := {|
  plist_entries := plist_entries s + entries; plist_present := plist_present s + present;
  plist_missing := plist_missing s + missing; process_entries := process_entries s;
  process_present := process_present s; process_missing := process_missing s;
|}.
Definition add_process (exists_ : bool) (s : CscBuildSummary) : CscBuildSummary := {|
  plist_entries := plist_entries s; plist_present := plist_present s;
  plist_missing := plist_missing s; process_entries := process_entries s + 1;
  process_present := process_present s + (if exists_ then 1 else 0);
  process_missing := process_missing s + (if exists_ then 0 else 1);
|}.
Record CscRequest := {
  csc_auth_cookie : string;
  csc_config_digest : string;
  csc_digest : string;
  csc_data : string;
  csc_summary : CscBuildSummary;
  csc_host_id : string;
  csc_serial_number : string;
}.
Record CscDataReader := {
  read_preference : string → string → option string;
  process_exists : string → bool;
}.

(** [names.sort(); names.dedup()]: strings in the order of their bytes, then the runs of
    equal ones cut to one. *)
Fixpoint dedup (l : list string) : list string :=
  match l with
  | [] => []
  | x :: rest => match rest with
                 | [] => [x]
                 | y :: _ => if String.eqb x y then dedup rest else x :: dedup rest
                 end
  end.
Definition sort_dedup (l : list string) : list string := dedup (merge_sort String.le l).

Definition yes_no (b : bool) : string := if b then "yes" else "no".
Definition push_text (name value : string) (parent : Element) : Element :=
  push_element (element name ∅ [NodeText value]) parent.
Definition named_entry (name : string) : Element := element "entry" {["name" := name]} [].

(** [linux_process_names] reads the name between the parentheses of a stat file. *)
Fixpoint after_last (c : ascii) (s : string) : option string :=
  match s with
  | EmptyString => None
  | String a r => match after_last c r with
                  | Some t => Some t
                  | None => if Ascii.eqb a c then Some r else None
                  end
  end.
Definition stat_comm (stat : string) : option string :=
  '(before, rest) ← split_once "(" stat;
  tail ← after_last ")" stat;
  let start := slen before + 1 in
  let stop := slen stat - slen tail - 1 in
  if start <=? stop then Some (slice stat start stop) else None.
(** The entries of /proc with the text of their stat file, where it can be read. *)
Definition linux_process_names (proc : list (string * option string)) : list string :=
  List.filter (λ n, negb (is_empty n))
    (omap (λ e, if all_bytes is_ascii_digit e.1 then e.2 ≫= stat_comm else None) proc).
(** [SystemCscDataReader] on Linux: no macOS preferences. *)
Definition system_reader (proc : list (string * option string)) : CscDataReader := {|
  read_preference _ _ := None;
  process_exists name := existsb (String.eqb name) (linux_process_names proc);
|}.

Section csc.
Context `{Xmltree} {ClientIdentity : Type}.
Variable reader : CscDataReader.

Definition is_config_criteria (root : Element) : bool :=
  String.eqb (element_name root) "config-criteria".

Definition plist_entry_keys (entry : Element) : list string :=
  match omap get_text (descendants "member" entry) with
  | [] => match attr "name" entry with Some name => [name] | None => [] end
  | keys => keys
  end.
(** [process_list_names] and [registry_key_names] are the same function. *)
Definition member_names (list_ : Element) : list string :=
  List.filter (λ t, negb (is_empty t)) (trim <$> omap get_text (descendants "member" list_)) ++
  omap (attr "name") (children "entry" list_).
Definition process_list_names (process_list : Element) : list string :=
  sort_dedup (member_names process_list).
Definition registry_key_names (registry_key : Element) : list string :=
  sort_dedup (member_names registry_key).

(** One requested preference file; [count] numbers the keys as [usize]. *)
Definition count (l : list (string * option string)) (present : bool) : N :=
  N.of_nat (length (List.filter (λ v, Bool.eqb (bool_decide (is_Some v.2)) present) l)).
Definition preference_entry (kv : string * option string) : Element :=
  push_text "value" (default "" kv.2)
    (push_text "exist" (yes_no (bool_decide (is_Some kv.2))) (named_entry kv.1)).
Definition build_plist_entry (entry : Element) (s : CscBuildSummary) : Element * CscBuildSummary :=
  let domain := default "" (attr "name" entry) in
  let keys := plist_entry_keys entry in
  let values := (λ key, (key, read_preference reader domain key)) <$> keys in
  let plist_exists := existsb (λ v, bool_decide (is_Some v.2)) values in
  let s := add_plist (N.of_nat (length keys)) (count values true) (count values false) s in
  let out := push_text "value" "" (push_text "exist" (yes_no plist_exists) (named_entry domain)) in
  let preferences := fold_left (λ e v, push_element (preference_entry v) e) values
                       (element_new "preference-value") in
  (push_element preferences out, s).
Definition build_plist_checks (plist : Element) (s : CscBuildSummary) : Element * CscBuildSummary :=
  fold_left (λ os entry, let '(e, s) := build_plist_entry entry os.2 in (push_element e os.1, s))
    (children "entry" plist) (element_new "plist", s).

Definition build_process_entry (name : string) : Element :=
  let found := process_exists reader name in
  push_text "value" (if found then name else "")
    (push_text "exist" (yes_no found) (named_entry name)).
Definition build_process_list_checks (process_list : Element) (s : CscBuildSummary) :
    Element * CscBuildSummary :=
  fold_left (λ os name,
      (push_element (build_process_entry name) os.1, add_process (process_exists reader name) os.2))
    (process_list_names process_list) (element_new "process-list", s).
Definition build_registry_key_checks (registry_key : Element) : Element :=
  fold_left (λ out name, push_element
      (push_text "value" "" (push_text "exist" "no" (named_entry name))) out)
    (registry_key_names registry_key) (element_new "registry-key").

Definition or_else {A} (a b : option A) : option A := match a with Some _ => a | None => b end.
Definition build_custom_checks (criteria : Element) (os : ClientOs) (s : CscBuildSummary) :
    Element * CscBuildSummary :=
  let out := element_new "custom-checks" in
  match descendant "custom-checks" criteria with
  | None => (out, s)
  | Some requested =>
      let '(out, s) :=
        match (if Target.supports_macos_plist_csc os
               then child "mac-os" requested ≫= child "plist" else None) with
        | Some plist => let '(e, s) := build_plist_checks plist s in (push_element e out, s)
        | None => (out, s)
        end in
      let '(out, s) :=
        match (if Target.supports_linux_process_csc os
               then or_else (child "linux" requested ≫= child "process-list")
                            (child "process-list" requested) else None) with
        | Some l => let '(e, s) := build_process_list_checks l s in (push_element e out, s)
        | None => (out, s)
        end in
      match (if Target.supports_windows_registry_csc os
             then or_else (child "windows" requested ≫= child "registry-key")
                          (child "registry-key" requested) else None) with
      | Some r => (push_element (build_registry_key_checks r) out, s)
      | None => (out, s)
      end
  end.

(** The digest of sixteen bytes, each written without a leading zero. *)
Variable md5 : string → list N.
Variable url_encode : string → string.
Definition hex_byte (b : N) : string :=
  if b <? 16 then String (hex_digit b) ""
  else String (hex_digit (b / 16)) (String (hex_digit (b mod 16)) "").
Definition pan_md5_hex (data : string) : string := String.concat "" (hex_byte <$> md5 data).

Definition client_os_report_value (gp : GpParams ClientIdentity) : string :=
  replace_char " " "+" (default (client_os_as_str (profile_client_os (os_profile gp)))
    (params_os_version gp)).
Definition csc_report (criteria : Element) (auth_cookie username : string)
    (gp : GpParams ClientIdentity) (digest : string) (s : CscBuildSummary) :
    Element * CscBuildSummary :=
  let pi := profile_identity (os_profile gp) in
  let root := push_text "csc-digest" digest (push_text "device-serial-number" (pi_serial_number pi)
    (push_text "host-id" (pi_host_id pi) (push_text "client-os" (client_os_report_value gp)
    (push_text "user-name" (url_encode username) (push_text "portal-csc-auth-cookie" auth_cookie
    (element_new "hip-report")))))) in
  let root := push_element (element_new "categories") root in
  let '(checks, s) := build_custom_checks criteria (profile_client_os (os_profile gp)) s in
  (match children_nodes checks with [] => root | _ => push_element checks root end, s).
Definition build_csc_data (criteria : Element) (auth_cookie username : string)
    (gp : GpParams ClientIdentity) (s : CscBuildSummary) :
    result Failure (string * CscBuildSummary) :=
  let '(root, s) := csc_report criteria auth_cookie username gp DIGEST_PLACEHOLDER s in
  xml ← ok_or (Message "failed to write the report") (write_xml root);
  Ok (replace "<categories />" ("<categories>" +:+ String newline (String (ascii_of_N 9)
        "</categories>")) xml +:+ String newline "", s).

Definition build_csc_request (root : Element) (username : string) (gp : GpParams ClientIdentity) :
    result Failure CscRequest :=
  auth_cookie ← ok_or (Message "CSC criteria response does not contain portal-csc-auth-cookie")
    (descendant_text "portal-csc-auth-cookie" root ≫= λ v, if is_empty v then None else Some v);
  '(data, s) ← build_csc_data root auth_cookie username gp summary_default;
  let digest := pan_md5_hex data in
  Ok {| csc_auth_cookie := auth_cookie;
        csc_config_digest := default "" (descendant_text "config-digest" root);
        csc_digest := digest; csc_data := replace DIGEST_PLACEHOLDER digest data;
        csc_summary := s; csc_host_id := pi_host_id (profile_identity (os_profile gp));
        csc_serial_number := pi_serial_number (profile_identity (os_profile gp)) |}.

(** A map: the order of the pairs is the request library's. *)
Definition csc_params (req : CscRequest) (username : string) (gp : GpParams ClientIdentity)
    (nonce : string) : gmap string string :=
  {["user" := username; "clientVer" := "4100";
    "clientos" := client_os_as_str (profile_client_os (os_profile gp));
    "os-version" := default "" (params_os_version gp); "hostid" := csc_host_id req;
    "serialno" := csc_serial_number req; "portal-cc-auth-cookie" := csc_auth_cookie req;
    "config-digest" := csc_config_digest req; "csc-digest" := csc_digest req;
    "csc-data" := csc_data req; "swg-auth-token" := "0"; "swg-nonce" := nonce]}.
End csc.

(** * Theorems *)
Lemma dedup_elem l x : x ∈ dedup l ↔ x ∈ l.
Proof.
  induction l as [|y l IH]; [done|]. destruct l as [|z l]; [done|].
  change (dedup (y :: z :: l)) with (if String.eqb y z then dedup (z :: l) else y :: dedup (z :: l)).
  destruct (String.eqb_spec y z) as [->|]; [rewrite IH; set_solver|].
  rewrite !elem_of_cons, IH, elem_of_cons. done.
Qed.
Lemma dedup_sorted l : StronglySorted String.le l →
  StronglySorted String.le (dedup l) ∧ NoDup (dedup l).
Proof.
  induction 1 as [|y l Hl IH Hy]; [repeat constructor|].
  destruct l as [|z l]; [by repeat constructor; try set_solver|].
  change (dedup (y :: z :: l)) with (if String.eqb y z then dedup (z :: l) else y :: dedup (z :: l)).
  destruct (String.eqb_spec y z) as [->|Hne]; [done|]. destruct IH as [Hs Hn].
  rewrite List.Forall_forall in Hy. split; constructor; try done.
  - apply List.Forall_forall. intros w Hw. apply Hy. apply list_elem_of_In, dedup_elem.
    by apply list_elem_of_In.
  - rewrite dedup_elem. intros Hin. apply Hne. apply (anti_symm String.le).
    + apply Hy. by left.
    + apply elem_of_cons in Hin as [->|Hin]; [done|].
      inversion Hl as [|? ? _ Hz]; subst. rewrite List.Forall_forall in Hz.
      by apply Hz, list_elem_of_In.
Qed.
Lemma sort_dedup_spec l :
  StronglySorted String.le (sort_dedup l) ∧ NoDup (sort_dedup l) ∧
  ∀ x, x ∈ sort_dedup l ↔ x ∈ l.
Proof.
  unfold sort_dedup.
  destruct (dedup_sorted (merge_sort String.le l)) as [Hs Hn].
  { apply StronglySorted_merge_sort; apply _. }
  split_and!; [done..|]. intros x. rewrite dedup_elem. by rewrite merge_sort_Permutation.
Qed.

Section reports.
Context `{Xmltree} (reader : CscDataReader).

Lemma push_children c e : child_elements (push_element c e) = child_elements e ++ [c].
Proof. unfold child_elements, push_element. cbn. by rewrite omap_app. Qed.

Lemma process_fold names out s :
  let '(out', s') := fold_left (λ os name,
    (push_element (build_process_entry reader name) os.1,
     add_process (process_exists reader name) os.2)) names (out, s) in
  child_elements out' = child_elements out ++ (build_process_entry reader <$> names) ∧
  process_entries s' = process_entries s + N.of_nat (length names) ∧
  process_present s' =
    process_present s + N.of_nat (length (List.filter (process_exists reader) names)) ∧
  process_present s' + process_missing s' =
    process_present s + process_missing s + N.of_nat (length names).
Proof.
  revert out s. induction names as [|n names IH]; intros out s; cbn [fold_left].
  - cbn [fmap list_fmap List.filter length]. rewrite app_nil_r. split_and!; [done|lia..].
  - specialize (IH (push_element (build_process_entry reader n) out)
      (add_process (process_exists reader n) s)).
    cbn [fst snd]. destruct (fold_left _ _ _) as [out' s'].
    destruct IH as (Hc & He & Hp & Ht). rewrite push_children, <- app_assoc in Hc.
    cbn [List.filter]. destruct (process_exists reader n) eqn:E;
      cbn [add_process process_entries process_present process_missing] in *;
      (split_and!; [exact Hc|cbn [length]; lia..]).
Qed.

(** The process report answers every name the portal asks about, members and named
    entries alike, exactly once and in the order of their bytes, each with what the
    reader found; the summary counts as many entries as there are and splits them into
    the present and the missing. *)
Lemma process_report_complete process_list s :
  let names := process_list_names process_list in
  let '(out, s') := build_process_list_checks reader process_list s in
  StronglySorted String.le names ∧ NoDup names ∧
  (∀ n, n ∈ names ↔ n ∈ member_names process_list) ∧
  child_elements out = build_process_entry reader <$> names ∧
  process_entries s' = process_entries s + N.of_nat (length names) ∧
  process_present s' =
    process_present s + N.of_nat (length (List.filter (process_exists reader) names)) ∧
  process_present s' + process_missing s' =
    process_present s + process_missing s + N.of_nat (length names).
Proof.
  cbn zeta. unfold build_process_list_checks.
  pose proof (process_fold (process_list_names process_list) (element_new "process-list") s) as Hf.
  destruct (fold_left _ _ _) as [out s']. destruct Hf as (Hc & Hrest).
  destruct (sort_dedup_spec (member_names process_list)) as (Hs & Hn & He).
  split_and!; [exact Hs|exact Hn|exact He|exact Hc|apply Hrest..].
Qed.
End reports.

Module CscExample.
Import XmlExample.
Definition process_list : Element := element "process-list" ∅
  [leaf "member" " sshd "; entry "agent" []; leaf "member" "bash"; entry "sshd" []].
Definition proc : list (string * option string) :=
  [("1", Some "1 (sshd) S 0"); ("self", Some "2 (bash) R 1"); ("7", None)].
Example names_sorted : @process_list_names (xml []) process_list = ["agent"; "bash"; "sshd"].
Proof. vm_compute. reflexivity. Qed.
Example running : linux_process_names proc = ["sshd"].
Proof. vm_compute. reflexivity. Qed.
Example nested_parentheses : stat_comm "9 (a (b) c) S" = Some "a (b) c".
Proof. vm_compute. reflexivity. Qed.
Example counted :
  let s := (@build_process_list_checks (xml []) (system_reader proc) process_list
              summary_default).2 in
  (process_entries s, process_present s, process_missing s) = (3, 1, 2).
Proof. vm_compute. reflexivity. Qed.
Example unpadded_digest : pan_md5_hex (λ _, [212; 1; 140; 0]) "" = "d418c0".
Proof. vm_compute. reflexivity. Qed.
End CscExample.
