(* ===== verification/LockFile.v ===== *)
(** The service's lock file (crates/gpapi/src/utils/lock_file.rs and endpoint.rs): what
    it says, who may remove it, and the URLs clients read from it.

    The file's content is [Ok text] or the error reading it gives. *)
From S2P Require Import Prelude Utf8 Text ThirdParty.
From Stdlib Require Import Strings.Ascii.

#[local] Open Scope N_scope.

Inductive IoErrorKind := NotFound | PermissionDenied | OtherKind.
Inductive LockFileError :=
  | IoError (kind : IoErrorKind)
  | InvalidFormat
  | InvalidPid
  | InvalidPort.
Record LockInfo := { lock_pid : N; lock_port : N }.

Definition colon : ascii := ascii_of_N 58.
Definition lock_info_parse (content : string) : result LockFileError LockInfo :=
  let parts := split colon (trim content) in
  first ← ok_or InvalidFormat (head parts);
  pid ← ok_or InvalidPid (from_str u32_max first);
  second ← ok_or InvalidFormat (head (tail parts));
  port ← ok_or InvalidPort (from_str u32_max second);
  if bool_decide (is_Some (head (tail (tail parts)))) then Err InvalidFormat
  else Ok {| lock_pid := pid; lock_port := port |}.

Abbreviation Content := (result IoErrorKind string) (only parsing).
Definition lock_info_from_file (file : Content) : result LockFileError LockInfo :=
  match file with Ok content => lock_info_parse content | Err e => Err (IoError e) end.

(** A lock of process [pid]; [io] says whether the file can be written or removed. *)
Record LockFile := { lock_file_pid : N }.
Definition lock_content (l : LockFile) (content : string) : string :=
  to_string (lock_file_pid l) +:+ ":" +:+ content.
Definition lock (l : LockFile) (content : string) (io : result IoErrorKind ()) (file : Content) :
    result IoErrorKind () * Content :=
  match io with
  | Ok _ => (Ok (), Ok (lock_content l content))
  | Err e => (Err e, file)
  end.
Definition unlock (l : LockFile) (io : result IoErrorKind ()) (file : Content) :
    result IoErrorKind () * Content :=
  match file with
  | Ok content =>
      match lock_info_parse content with
      | Ok info =>
          if lock_pid info =? lock_file_pid l
          then match io with
               | Ok _ => (Ok (), Err NotFound)
               | Err e => (Err e, file)
               end
          else (Ok (), file)
      | Err _ => (Ok (), file)
      end
  | Err NotFound => (Ok (), file)
  | Err e => (Err e, file)
  end.

(** The URL that is asked, and [get]: whether a request was answered with success. *)
Definition health_url (content : string) : string :=
  "http://127.0.0.1:" +:+ trim content +:+ "/health".
Definition check_health (get : string → bool) (file : Content) : bool :=
  match file with Ok content => get (health_url content) | Err _ => false end.

(** ** endpoint.rs *)
Definition http_endpoint (file : Content) : result LockFileError string :=
  info ← lock_info_from_file file; Ok ("http://127.0.0.1:" +:+ to_string (lock_port info)).
Definition ws_endpoint (file : Content) : result LockFileError string :=
  info ← lock_info_from_file file;
  Ok ("ws://127.0.0.1:" +:+ to_string (lock_port info) +:+ "/ws").

(** * Theorems *)
Lemma trim_lock p q : trim (to_string p +:+ ":" +:+ to_string q) = to_string p +:+ ":" +:+ to_string q.
Proof.
  unfold trim. pose proof (to_string_digits p) as Hp. pose proof (to_string_nonempty p).
  pose proof (to_string_digits q) as Hq.
  assert (trim_start (to_string p +:+ ":" +:+ to_string q) = to_string p +:+ ":" +:+ to_string q) as ->.
  { destruct (to_string p) as [|a r]; [done|]. apply andb_true_iff in Hp as [Ha _].
    change (String a r +:+ ?x) with (String a (r +:+ x)). by apply digit_not_white. }
  apply trim_end_then; [done| |].
  - pose proof (to_string_nonempty q). destruct (to_string q) as [|b [|c t]]; done.
  - pose proof (to_string_nonempty q). cbn [trim_end].
    destruct (trim_is_empty _) eqn:E; [|by rewrite trim_end_digits].
    exfalso. destruct (to_string q) as [|b [|c t]]; done.
Qed.

(** What the service writes into its lock is what clients read: its process and
    port, hence its endpoints; it can remove the file, and another process cannot. *)
Lemma lock_round_trip l other port file :
  lock_file_pid l ≤ u32_max → port ≤ u32_max → lock_file_pid other ≠ lock_file_pid l →
  let locked := (lock l (to_string port) (Ok ()) file).2 in
  lock_info_from_file locked = Ok {| lock_pid := lock_file_pid l; lock_port := port |} ∧
  ws_endpoint locked = Ok ("ws://127.0.0.1:" +:+ to_string port +:+ "/ws") ∧
  unlock l (Ok ()) locked = (Ok (), Err NotFound) ∧
  unlock other (Ok ()) locked = (Ok (), locked).
Proof.
  intros Hp Hq Ho. cbn zeta. cbn [lock snd].
  assert (lock_info_parse (lock_content l (to_string port)) =
    Ok {| lock_pid := lock_file_pid l; lock_port := port |}) as Hi.
  { unfold lock_info_parse, lock_content. rewrite trim_lock.
    change (":" +:+ to_string port) with (String colon (to_string port)).
    rewrite split_digits, split_digits_end by (done || apply to_string_digits).
    cbn [head tail ok_or result_bind mbind]. by rewrite !from_str_to_string. }
  unfold ws_endpoint. cbn [lock_info_from_file]. rewrite Hi. cbn [unlock mbind result_bind].
  rewrite Hi. cbn [lock_pid]. rewrite N.eqb_refl.
  destruct (N.eqb_spec (lock_file_pid l) (lock_file_pid other)); [congruence|done].
Qed.
Lemma lock_round_trip_witness :
  unlock {| lock_file_pid := 5678 |} (Ok ())
    (lock {| lock_file_pid := 1234 |} (to_string 8080) (Ok ()) (Err NotFound)).2 =
    (Ok (), Ok "1234:8080") ∧
  ws_endpoint (Ok "1234:8080") = Ok "ws://127.0.0.1:8080/ws".
Proof.
  destruct (lock_round_trip {| lock_file_pid := 1234 |} {| lock_file_pid := 5678 |} 8080 (Err NotFound)
    ltac:(by vm_compute) ltac:(by vm_compute) ltac:(done)) as (_ & Hw & _ & Hu).
  split; [exact Hu|exact Hw].
Defined.

(** A health check against a lock the service wrote asks for a URL whose authority has
    two ports. No URL parser accepts it, so the check fails although a service runs. *)
Lemma health_url_of_a_lock l port file :
  health_url (lock_content l (to_string port)) =
  "http://127.0.0.1:" +:+ to_string (lock_file_pid l) +:+ ":" +:+ to_string port +:+ "/health" ∧
  ∀ get, (∀ host a b rest, get ("http://" +:+ host +:+ ":" +:+ a +:+ ":" +:+ b +:+ "/" +:+ rest) = false) →
    check_health get (lock l (to_string port) (Ok ()) file).2 = false.
Proof.
  unfold check_health, health_url, lock, lock_content. cbn [snd]. rewrite trim_lock.
  assert (∀ a b c : string, (a +:+ b) +:+ c = a +:+ b +:+ c) as Ha
    by (intros a b c; induction a as [|x a IH]; [done|]; change (String x ((a +:+ b) +:+ c) = String x (a +:+ b +:+ c)); by rewrite IH).
  rewrite !Ha. split; [done|]. intros get Hget. apply (Hget "127.0.0.1").
Qed.
