(* ===== verification/Transport.v ===== *)
(** The wire layer between the GUI and gpservice
    (crates/gpapi/src/service/transport): limits, close reasons, the credential
    frame, the preludes, the bounded rejection text and the Noise channel. *)
From S2P Require Import Prelude Utf8 ThirdParty.
From Stdlib Require Import Strings.Ascii.

#[local] Open Scope N_scope.

(** * Limits (transport/mod.rs) *)
Definition MAX_CREDENTIAL_FRAME : N := 512.
Definition MAX_PRELUDE : N := 256.
Definition MAX_PRODUCT_VERSION : N := 64.
Definition HIP_PROTOCOL_VERSION : N := 1.
Definition MAX_PLAINTEXT : N := 60 * 1024.
Definition MAX_WS_MESSAGE : N := u16_max.
Definition MAX_SERVICE_MESSAGE : N := 256.

Definition DESKTOP_GUI_EXITED : N := 0.
Definition DESKTOP_RENDERING_RETRY : N := 1.
Definition DESKTOP_SWITCH_BEGIN : N := 2.
Definition DESKTOP_SWITCH_COMMIT : N := 3.
Definition DESKTOP_SWITCH_CANCEL : N := 4.
Definition DESKTOP_GUI_INSTALLER : N := 5.

(** * Errors and close reasons (transport/error.rs)

    The wrapped foreign error of [Noise] and [Serialization] is dropped: no code
    looks inside it. *)
Inductive TransportError :=
  | InvalidCredential
  | InvalidState
  | MessageTooLarge
  | MalformedMessage
  | Noise
  | Serialization.

Inductive HandshakeRejection :=
  | VersionMismatch (client service : string)
  | HipProtocolMismatch (client service : N)
  | ServiceRestarted (service_instance_id : Uuid)
  | ReconnectSuperseded
  | Unauthorized.

Inductive ServiceErrorCode :=
  | InvalidRequest
  | Busy
  | ChecksumFailed
  | InstallFailed
  | Internal.
#[export] Instance ServiceErrorCode_eq_dec : EqDecision ServiceErrorCode.
Proof. solve_decision. Defined.

Module CloseReason.
Inductive t :=
  | VersionMismatch
  | Unauthorized
  | SessionReplaced
  | HandshakeFailed
  | MalformedMessage
  | MessageTooLarge
  | AuthenticationFailed
  | HandshakeTimeout
  | ReconnectSuperseded
  | InternalError
  | ServiceRestarted
  | HeartbeatTimeout.
#[global] Instance t_eq_dec : EqDecision t.
Proof. solve_decision. Defined.

Definition code (r : t) : N :=
  match r with
  | VersionMismatch => 4001
  | Unauthorized => 4002
  | SessionReplaced => 4003
  | HandshakeFailed => 4004
  | MalformedMessage => 4005
  | MessageTooLarge => 4006
  | AuthenticationFailed => 4007
  | HandshakeTimeout => 4008
  | ReconnectSuperseded => 4009
  | InternalError => 4010
  | ServiceRestarted => 4011
  | HeartbeatTimeout => 4012
  end.

Definition reason (r : t) : string :=
  match r with
  | VersionMismatch => "VersionMismatch"
  | Unauthorized => "Unauthorized"
  | SessionReplaced => "SessionReplaced"
  | HandshakeFailed => "HandshakeFailed"
  | MalformedMessage => "MalformedMessage"
  | MessageTooLarge => "MessageTooLarge"
  | AuthenticationFailed => "AuthenticationFailed"
  | HandshakeTimeout => "HandshakeTimeout"
  | ReconnectSuperseded => "ReconnectSuperseded"
  | InternalError => "InternalError"
  | ServiceRestarted => "ServiceRestarted"
  | HeartbeatTimeout => "HeartbeatTimeout"
  end.
End CloseReason.

(** * Device anchors (gpapi/device_anchor/mod.rs) *)
Inductive AnchorSource := UnixMac | UnixRandom | MacosIokit.

Definition anchor_source_into_u8 (source : AnchorSource) : N :=
  match source with UnixMac => 1 | UnixRandom => 2 | MacosIokit => 3 end.

(** [None] is [InvalidAnchorSource(value)]. *)
Definition anchor_source_try_from (value : N) : option AnchorSource :=
  match value with
  | 1 => Some UnixMac
  | 2 => Some UnixRandom
  | 3 => Some MacosIokit
  | _ => None
  end.

#[export] Instance AnchorSource_eq_dec : EqDecision AnchorSource.
Proof. solve_decision. Defined.

Record DeviceAnchor := { hardware_id : string; source : AnchorSource }.
#[export] Instance DeviceAnchor_eq_dec : EqDecision DeviceAnchor.
Proof. solve_decision. Defined.

Section device_anchor.
Context `{Base64}.

Definition validate (anchor : DeviceAnchor) : bool :=
  match base64_url_decode (hardware_id anchor) with
  | Some bytes => (slen bytes =? 32) && bool_decide (base64_url_encode bytes = hardware_id anchor)
  | None => false
  end.

(** [derive] hashes a domain-separated seed; [sha256] is the sha2 crate's. *)
Definition derive (sha256 : string → string) (source : AnchorSource) (seed : string) :
    DeviceAnchor :=
  let domain := match source with
    | UnixMac => "gp-device-anchor:v1:unix-mac:"
    | UnixRandom => "gp-device-anchor:v1:unix-random:"
    | MacosIokit => "gp-device-anchor:v1:macos-platform-uuid:"
    end%string in
  {| hardware_id := base64_url_encode (sha256 (domain +:+ seed)); source := source |}.
End device_anchor.

#[global] Arguments validate : simpl never.

(** * The session credential (transport/credential.rs) *)
Record SessionCredential := {
  service_instance_id : Uuid;
  session_id : Uuid;
  secret : string;
  product_version : string;
  device_anchor : option DeviceAnchor;
}.

(** [CredentialDtoRef] and [CredentialDto]: the fields serde writes and reads. *)
Record CredentialDto := {
  dto_service_instance_id : Uuid;
  dto_session_id : Uuid;
  dto_secret : string;
  dto_product_version : string;
  dto_device_anchor : option DeviceAnchor;
}.

(** [(n as u16).to_be_bytes()] and [u16::from_be_bytes]. *)
Definition u16_to_be_bytes (n : N) : string :=
  String (ascii_of_N (n / 256)) (String (ascii_of_N (n mod 256)) "").
Definition u16_from_be_bytes (hi lo : ascii) : N := N_of_ascii hi * 256 + N_of_ascii lo.

Definition valid_product_version (v : string) : bool :=
  negb (slen v =? 0) && (slen v <=? MAX_PRODUCT_VERSION).

#[global] Arguments valid_product_version : simpl never.

Section credential.
Context `{Base64} `{SerdeJson CredentialDto}.

(** [entropy] is what [getrandom::fill] writes, [None] when it fails;
    [session] is the drawn session id. *)
Definition generate (instance : Uuid) (version : string) (entropy : option string)
    (session : Uuid) : result TransportError SessionCredential :=
  if negb (valid_product_version version) then Err InvalidCredential
  else secret ← ok_or InvalidState entropy;
    Ok {| service_instance_id := instance; session_id := session; secret := secret;
          product_version := version; device_anchor := None |}.

Definition with_device_anchor (c : SessionCredential) (anchor : DeviceAnchor) :
    result TransportError SessionCredential :=
  if negb (validate anchor) then Err InvalidCredential
  else Ok {| service_instance_id := service_instance_id c; session_id := session_id c;
             secret := secret c; product_version := product_version c;
             device_anchor := Some anchor |}.

Definition credential_dto (c : SessionCredential) : CredentialDto := {|
  dto_service_instance_id := service_instance_id c;
  dto_session_id := session_id c;
  dto_secret := base64_encode (secret c);
  dto_product_version := product_version c;
  dto_device_anchor := device_anchor c;
|}.

Definition encode_frame (c : SessionCredential) : result TransportError string :=
  payload ← ok_or Serialization (to_vec (credential_dto c));
  if (MAX_CREDENTIAL_FRAME <? slen payload + 2) || (u16_max <? slen payload)
  then Err MessageTooLarge
  else Ok (u16_to_be_bytes (slen payload) +:+ payload).

(** [decode_slice] into the 32-byte buffer: more decoded bytes are an error,
    fewer leave a short count. *)
Definition decode_secret (encoded : string) : result TransportError string :=
  decoded ← ok_or InvalidCredential (base64_decode encoded);
  if 32 <? slen decoded then Err InvalidCredential
  else if negb (slen decoded =? 32) then Err InvalidCredential
  else Ok decoded.

Definition decode_frame (frame : string) : result TransportError SessionCredential :=
  if MAX_CREDENTIAL_FRAME <? slen frame then Err InvalidCredential
  else match frame with
  | String hi (String lo payload) =>
      let payload_len := u16_from_be_bytes hi lo in
      if (payload_len =? 0) || negb (payload_len + 2 =? slen frame)
      then Err InvalidCredential
      else
        dto ← ok_or InvalidCredential (from_slice payload);
        if match dto_device_anchor dto with
           | Some anchor => negb (validate anchor)
           | None => false
           end
        then Err InvalidCredential
        else if negb (valid_product_version (dto_product_version dto))
        then Err InvalidCredential
        else
          secret ← decode_secret (dto_secret dto);
          Ok {| service_instance_id := dto_service_instance_id dto;
                session_id := dto_session_id dto;
                secret := secret;
                product_version := dto_product_version dto;
                device_anchor := dto_device_anchor dto |}
  | _ => Err InvalidCredential
  end.

(** What [generate] and [with_device_anchor] establish. *)
Definition credential_wf (c : SessionCredential) : Prop :=
  slen (secret c) = 32 ∧ valid_product_version (product_version c) = true ∧
  match device_anchor c with Some a => validate a = true | None => True end.
End credential.

(** * Preludes (transport/handshake.rs) *)
Record ClientPrelude := {
  prelude_product_version : string;
  prelude_hip_protocol_version : N;
  prelude_service_instance_id : Uuid;
  prelude_session_id : Uuid;
}.
Inductive ServerPrelude :=
  | Ready
  | Rejected (r : HandshakeRejection).

Section prelude.
Context `{SerdeJson ClientPrelude} `{SerdeJson ServerPrelude}.

Definition client_prelude_encode (p : ClientPrelude) : result TransportError string :=
  if negb (valid_product_version (prelude_product_version p)) then Err MalformedMessage
  else encoded ← ok_or Serialization (to_vec p);
    if MAX_PRELUDE <? slen encoded then Err MessageTooLarge else Ok encoded.

Definition client_prelude_decode (encoded : string) : result TransportError ClientPrelude :=
  if MAX_PRELUDE <? slen encoded then Err MessageTooLarge
  else p ← ok_or Serialization (from_slice encoded);
    if negb (valid_product_version (prelude_product_version p)) then Err MalformedMessage
    else Ok p.

Definition server_prelude_encode (p : ServerPrelude) : result TransportError string :=
  encoded ← ok_or Serialization (to_vec p);
  if MAX_PRELUDE <? slen encoded then Err MessageTooLarge else Ok encoded.

Definition server_prelude_decode (encoded : string) : result TransportError ServerPrelude :=
  if MAX_PRELUDE <? slen encoded then Err MessageTooLarge
  else ok_or Serialization (from_slice encoded).
End prelude.

(** * Service rejections and the message codec (transport/message.rs) *)
Record ServiceRejection := { rejection_code : ServiceErrorCode; rejection_message : string }.

Definition rejection_new (code : ServiceErrorCode) (message : string) : ServiceRejection :=
  {| rejection_code := code;
     rejection_message :=
       if MAX_SERVICE_MESSAGE <? slen message
       then truncate message (floor_boundary message MAX_SERVICE_MESSAGE)
       else message |}.

(** [TryFrom<ServiceRejectionDto>]: [None] is the error. *)
Definition rejection_try_from (code : ServiceErrorCode) (message : string) :
    option ServiceRejection :=
  if MAX_SERVICE_MESSAGE <? slen message then None
  else Some {| rejection_code := code; rejection_message := message |}.

Definition message_encode `{SerdeJson A} (message : A) : result TransportError string :=
  encoded ← ok_or Serialization (to_vec message);
  if MAX_PLAINTEXT <? slen encoded then Err MessageTooLarge else Ok encoded.

Definition message_decode `{SerdeJson A} (encoded : string) : result TransportError A :=
  if MAX_PLAINTEXT <? slen encoded then Err MessageTooLarge
  else ok_or Serialization (from_slice encoded).

(** * The Noise channel (transport/noise.rs) *)
Definition NOISE_PATTERN : string := "Noise_NNpsk0_25519_ChaChaPoly_SHA256".
Definition NOISE_TAG_SIZE : N := 16.

Section noise.
Context `{UuidFormat} {hs ts : Type} `{Snow hs ts}.

Definition prologue (version : string) (instance session : Uuid) :
    result TransportError string :=
  if negb (valid_product_version version) then Err MessageTooLarge
  else Ok (("GPWS" +:+ String (ascii_of_N 0) "") +:+ u16_to_be_bytes (slen version) +:+
           version +:+ uuid_as_bytes instance +:+ uuid_as_bytes session).

(** [NoiseInitiator] and [NoiseResponder] both hold an [Option<HandshakeState>]. *)
Record NoiseHandshake := { nh_state : option hs }.

Definition initiator_new (version : string) (instance session : Uuid) (psk : string) :
    result TransportError NoiseHandshake :=
  p ← prologue version instance session;
  state ← ok_or Noise (build_initiator p psk);
  Ok {| nh_state := Some state |}.

Definition responder_new (version : string) (instance session : Uuid) (psk : string) :
    result TransportError NoiseHandshake :=
  p ← prologue version instance session;
  state ← ok_or Noise (build_responder p psk);
  Ok {| nh_state := Some state |}.

Definition write_first (n : NoiseHandshake) : result TransportError (string * NoiseHandshake) :=
  state ← ok_or InvalidState (nh_state n);
  out ← ok_or Noise (hs_write_message state);
  Ok (out.1, {| nh_state := Some out.2 |}).

Definition read_response (n : NoiseHandshake) (message : string) : result TransportError ts :=
  if MAX_WS_MESSAGE <? slen message then Err MessageTooLarge
  else
    state ← ok_or InvalidState (nh_state n);
    state ← ok_or Noise (hs_read_message message state);
    ok_or Noise (into_transport_mode state).

Definition read_first (n : NoiseHandshake) (message : string) :
    result TransportError NoiseHandshake :=
  if MAX_WS_MESSAGE <? slen message then Err MessageTooLarge
  else
    state ← ok_or InvalidState (nh_state n);
    state ← ok_or Noise (hs_read_message message state);
    Ok {| nh_state := Some state |}.

Definition write_response (n : NoiseHandshake) : result TransportError (string * ts) :=
  state ← ok_or InvalidState (nh_state n);
  out ← ok_or Noise (hs_write_message state);
  transport ← ok_or Noise (into_transport_mode out.2);
  Ok (out.1, transport).

Definition encrypt `{SerdeJson A} (t : ts) (message : A) :
    result TransportError (string * ts) :=
  plaintext ← message_encode message;
  ok_or Noise (ts_write_message plaintext t).

Definition decrypt `{SerdeJson A} (t : ts) (message : string) :
    result TransportError (A * ts) :=
  if MAX_WS_MESSAGE <? slen message then Err MessageTooLarge
  else if slen message <? NOISE_TAG_SIZE then Err MalformedMessage
  else
    out ← ok_or Noise (ts_read_message message t);
    if MAX_PLAINTEXT <? slen out.1 then Err MessageTooLarge
    else a ← message_decode out.1; Ok (a, out.2).
End noise.

(** * Theorems *)
Lemma u16_bytes_round_trip n :
  n ≤ u16_max →
  ∃ hi lo, u16_to_be_bytes n = String hi (String lo "") ∧ u16_from_be_bytes hi lo = n.
Proof.
  intros Hn. unfold u16_to_be_bytes, u16_from_be_bytes. do 2 eexists. split; [done|].
  unfold u16_max in Hn.
  rewrite !N_ascii_embedding.
  - rewrite N.mul_comm. symmetry. apply N.div_mod. done.
  - by apply N.mod_lt.
  - apply N.Div0.div_lt_upper_bound. lia.
Qed.

Lemma u16_bytes_inj n m s t :
  n ≤ u16_max → m ≤ u16_max →
  u16_to_be_bytes n +:+ s = u16_to_be_bytes m +:+ t → n = m ∧ s = t.
Proof.
  intros Hn Hm. destruct (u16_bytes_round_trip n Hn) as (h1 & l1 & -> & <-).
  destruct (u16_bytes_round_trip m Hm) as (h2 & l2 & -> & <-). cbn.
  intros H. injection H as -> -> Hst. done.
Qed.

Lemma app_string_inj_length s1 s2 t1 t2 :
  String.length s1 = String.length s2 → s1 +:+ t1 = s2 +:+ t2 → s1 = s2 ∧ t1 = t2.
Proof.
  revert s2. induction s1 as [|a s1 IH]; intros [|b s2]; cbn; try done.
  intros [= Hl] H. injection H as -> H. destruct (IH _ Hl H) as [-> ->]. done.
Qed.

Lemma slen_inj_length s t : slen s = slen t → String.length s = String.length t.
Proof. unfold slen. lia. Qed.

Section credential_theorems.
Context `{Base64Laws} `{SerdeLaws CredentialDto}.

Lemma decode_secret_length s x : decode_secret s = Ok x → slen x = 32.
Proof.
  unfold decode_secret. intros Hd. apply result_bind_Ok in Hd as (d & _ & Hd).
  crush_hyps; boolify; done.
Qed.

Lemma decode_secret_encode x : slen x = 32 → decode_secret (base64_encode x) = Ok x.
Proof. intros Hx. unfold decode_secret. rewrite base64_decode_encode. cbn. by rewrite Hx. Qed.

(** C17: a credential the service made survives the pipe. Every frame that
    [encode_frame] produces for a well-formed credential decodes to exactly that
    credential, so the GUI authenticates with the secret the registry stored. *)
Theorem credential_frame_round_trip c frame :
  credential_wf c → encode_frame c = Ok frame → decode_frame frame = Ok c.
Proof.
  intros (Hs & Hv & Ha) Henc. unfold encode_frame in Henc.
  apply result_bind_Ok in Henc as (payload & Hp & Henc). apply ok_or_Ok in Hp.
  pose proof (to_vec_nonempty _ _ Hp). apply from_slice_to_vec in Hp.
  destruct (_ || _) eqn:Hsize in Henc; [done|]. injection Henc as <-. boolify.
  destruct (u16_bytes_round_trip (slen payload)) as (hi & lo & Hb & Hlen); [lia|].
  rewrite Hb. unfold decode_frame.
  change (String hi (String lo "") +:+ payload) with (String hi (String lo payload)).
  assert (slen (String hi (String lo payload)) = slen payload + 2) as Hlen2.
  { unfold slen. cbn [String.length]. lia. }
  rewrite Hlen2, (proj2 (N.ltb_ge _ _)) by lia. cbn zeta.
  rewrite Hlen, N.eqb_refl, (proj2 (N.eqb_neq _ _)) by done. cbn [negb orb].
  rewrite Hp. cbn. rewrite Hv.
  destruct c as [i s x v [a|]]; cbn in *; [rewrite Ha|]; cbn;
    by rewrite decode_secret_encode.
Qed.

(** No malformed frame becomes a credential. Whatever bytes arrive, a frame
    that decodes announces exactly its own length, fits the frame limit, and
    yields a 32-byte secret, a product version of 1 to 64 bytes and, when there
    is one, a device anchor that validates. *)
Lemma decode_frame_wf frame c :
  decode_frame frame = Ok c →
  credential_wf c ∧ slen frame ≤ MAX_CREDENTIAL_FRAME ∧
  ∃ hi lo payload, frame = String hi (String lo payload) ∧
    u16_from_be_bytes hi lo = slen payload ∧ payload ≠ ""%string.
Proof.
  unfold decode_frame. intros Hd.
  destruct (MAX_CREDENTIAL_FRAME <? slen frame) eqn:Hmax; [done|].
  destruct frame as [|hi [|lo payload]]; [done..|]. boolify. cbn zeta in Hd.
  destruct (_ || _) eqn:Hlen in Hd; [done|]. boolify.
  assert (slen (String hi (String lo payload)) = slen payload + 2) as Hs.
  { unfold slen. cbn [String.length]. lia. }
  apply result_bind_Ok in Hd as (dto & _ & Hd).
  destruct (match dto_device_anchor dto with Some _ => _ | None => _ end) eqn:Ha; [done|].
  destruct (negb (valid_product_version _)) eqn:Hv; [done|]. boolify.
  apply result_bind_Ok in Hd as (x & Hx & Hd). injection Hd as <-.
  split; [split; [|split]; cbn|split].
  - by eapply decode_secret_length.
  - done.
  - destruct (dto_device_anchor dto); boolify; done.
  - lia.
  - exists hi, lo, payload. split_and!; [done|lia|]. intros ->. unfold slen in *. cbn in *. lia.
Qed.

Lemma generate_wf i v e s c :
  generate i v e s = Ok c → (∀ x, e = Some x → slen x = 32) → credential_wf c.
Proof.
  unfold generate. destruct (negb _) eqn:Hv; [done|]. boolify. intros Hg He.
  apply result_bind_Ok in Hg as (x & Hx & [= <-]). apply ok_or_Ok in Hx.
  split; [|split]; cbn; auto.
Qed.

Lemma with_device_anchor_wf c a c' :
  credential_wf c → with_device_anchor c a = Ok c' → credential_wf c'.
Proof.
  unfold with_device_anchor. intros (?&?&?). destruct (negb _) eqn:Hv; [done|]. boolify.
  intros [= <-]. split; [|split]; done.
Qed.
End credential_theorems.

(** A concrete credential, its DTO codec and its frame. *)
Module CredentialExample.
Definition secret32 : string := "0123456789abcdef0123456789abcdef".
Definition cred : SessionCredential := {|
  service_instance_id := 1; session_id := 2; secret := secret32;
  product_version := "2.6.4"; device_anchor := None |}.
#[export] Instance dto_eq_dec : EqDecision CredentialDto.
Proof. solve_decision. Defined.
#[local] Existing Instance Concrete.plain_base64.
#[local] Instance codec : SerdeJson CredentialDto :=
  Concrete.one_value (credential_dto cred) "{}".
Definition frame : string := u16_to_be_bytes 2 +:+ "{}".

Lemma credential_frame_round_trip_witness :
  credential_wf cred ∧ encode_frame cred = Ok frame ∧ decode_frame frame = Ok cred.
Proof.
  assert (credential_wf cred) as Hwf by (by vm_compute).
  assert (encode_frame cred = Ok frame) as He by (by vm_compute).
  split_and!; [done|done|].
  exact (@credential_frame_round_trip _ Concrete.plain_base64_laws codec
    (Concrete.one_value_laws (credential_dto cred) "{}" ltac:(done)) cred frame Hwf He).
Defined.

Lemma decode_frame_wf_witness : decode_frame frame = Ok cred ∧ credential_wf cred.
Proof.
  assert (decode_frame frame = Ok cred) as Hd by (by vm_compute).
  split; [done|].
  exact (proj1 (decode_frame_wf frame cred Hd)).
Defined.
End CredentialExample.

Section prelude_theorems.
Context `{SerdeLaws ClientPrelude} `{SerdeLaws ServerPrelude}.

(** The preludes survive the socket, and a decoded prelude is within bounds. *)
Lemma client_prelude_round_trip p encoded :
  client_prelude_encode p = Ok encoded → client_prelude_decode encoded = Ok p.
Proof.
  unfold client_prelude_encode, client_prelude_decode. intros He.
  destruct (negb _) eqn:Hv in He; [done|].
  apply result_bind_Ok in He as (v & Hv' & He). apply ok_or_Ok in Hv'.
  destruct (_ <? _) eqn:Hm in He; [done|]. injection He as <-.
  rewrite Hm, (from_slice_to_vec _ _ Hv'). cbn. by rewrite Hv.
Qed.

Lemma server_prelude_round_trip p encoded :
  server_prelude_encode p = Ok encoded → server_prelude_decode encoded = Ok p.
Proof.
  unfold server_prelude_encode, server_prelude_decode. intros He.
  apply result_bind_Ok in He as (v & Hv' & He). apply ok_or_Ok in Hv'.
  destruct (_ <? _) eqn:Hm in He; [done|]. injection He as <-.
  by rewrite Hm, (from_slice_to_vec _ _ Hv').
Qed.
End prelude_theorems.

(** A rejection text is bounded, never splits a character and loses at most
    what the bound demands: at most 256 bytes, a prefix of the message, valid text
    when the message is, unchanged when it fits and otherwise at least 253 bytes;
    and the peer's [TryFrom] check accepts it. *)
Lemma rejection_new_bounded code message :
  utf8 message →
  let m := rejection_message (rejection_new code message) in
  slen m ≤ MAX_SERVICE_MESSAGE ∧
  (∃ rest, message = m +:+ rest) ∧
  utf8 m ∧
  (slen message ≤ MAX_SERVICE_MESSAGE → m = message) ∧
  (MAX_SERVICE_MESSAGE < slen message → 253 ≤ slen m) ∧
  rejection_try_from code m = Some (rejection_new code message).
Proof.
  intros Hu m. unfold rejection_try_from.
  assert (slen m ≤ MAX_SERVICE_MESSAGE ∧ (∃ rest, message = m +:+ rest) ∧ utf8 m ∧
    (slen message ≤ MAX_SERVICE_MESSAGE → m = message) ∧
    (MAX_SERVICE_MESSAGE < slen message → 253 ≤ slen m)) as (H1 & H2 & H3 & H4 & H5).
  { subst m. unfold rejection_new. cbn [rejection_message].
    destruct (N.ltb_spec MAX_SERVICE_MESSAGE (slen message)) as [Hlt|Hle].
    - destruct (floor_boundary_spec message MAX_SERVICE_MESSAGE) as (Hb & Hle & _).
      pose proof (floor_boundary_near message MAX_SERVICE_MESSAGE Hu ltac:(lia)) as Hnear.
      unfold truncate. rewrite slen_slice by lia.
      split_and!; [lia| |by apply utf8_take|lia|unfold MAX_SERVICE_MESSAGE in *; lia].
      exists (slice message (floor_boundary message MAX_SERVICE_MESSAGE) (slen message)).
      rewrite slice_app by lia. symmetry. apply slice_all.
    - split_and!; [done| |done|done|lia]. exists "". by rewrite string_app_nil_r. }
  rewrite (proj2 (N.ltb_ge _ _)) by done. split_and!; done.
Qed.

Lemma rejection_new_bounded_witness :
  utf8 "busy" ∧ slen (rejection_message (rejection_new Busy "busy")) ≤ MAX_SERVICE_MESSAGE.
Proof.
  assert (utf8 "busy") as Hu by (apply (utf8b_sound 4); by vm_compute).
  split; [done|]. exact (proj1 (rejection_new_bounded Busy "busy" Hu)).
Defined.

Section noise_theorems.
Context `{UuidLaws} {hs ts : Type} `{SnowLaws hs ts}.

Lemma message_round_trip `{SerdeLaws A} (a : A) e :
  message_encode a = Ok e → message_decode e = Ok a ∧ slen e ≤ MAX_PLAINTEXT.
Proof.
  unfold message_encode, message_decode. intros He.
  apply result_bind_Ok in He as (v & Hv & He). apply ok_or_Ok in Hv.
  destruct (_ <? _) eqn:Hm in He; [done|]. injection He as <-.
  rewrite Hm, (from_slice_to_vec _ _ Hv). boolify. done.
Qed.

(** C18: the encrypted channel delivers. On a paired channel, whatever [encrypt]
    accepts fits a WebSocket message and [decrypt] returns exactly the message,
    leaving the two ends paired for the next one: no size check of the receiver
    rejects what the sender's checks let through. *)
Theorem noise_round_trip `{SerdeLaws A} (t u : ts) (a : A) c t' :
  paired t u → encrypt t a = Ok (c, t') →
  slen c ≤ MAX_WS_MESSAGE ∧ ∃ u', decrypt u c = Ok (a, u') ∧ paired t' u'.
Proof.
  unfold encrypt. intros Hp He. apply result_bind_Ok in He as (p & Hm & He).
  apply ok_or_Ok in He. apply message_round_trip in Hm as [Hm Hlen].
  pose proof (ts_write_length _ _ _ _ He) as Hc.
  destruct (ts_read_write _ _ _ _ _ Hp He) as (u' & Hr & Hp').
  unfold MAX_PLAINTEXT, MAX_WS_MESSAGE, u16_max in *. split; [lia|].
  exists u'. split; [|done]. unfold decrypt, MAX_WS_MESSAGE, NOISE_TAG_SIZE, u16_max.
  rewrite !(proj2 (N.ltb_ge _ _)) by lia. rewrite Hr. cbn.
  rewrite (proj2 (N.ltb_ge _ _)) by (unfold MAX_PLAINTEXT; lia). by rewrite Hm.
Qed.

(** The handshake transcript binds the identity. Two prologues are equal only
    if product version, service instance and session are, so a handshake of one
    session can not be replayed under another. *)
Lemma prologue_injective v1 i1 s1 v2 i2 s2 p :
  is_uuid i1 → is_uuid s1 → is_uuid i2 → is_uuid s2 →
  prologue v1 i1 s1 = Ok p → prologue v2 i2 s2 = Ok p →
  v1 = v2 ∧ i1 = i2 ∧ s1 = s2.
Proof.
  intros Hi1 Hs1 Hi2 Hs2. unfold prologue.
  destruct (negb (valid_product_version v1)) eqn:Hv1; [done|].
  destruct (negb (valid_product_version v2)) eqn:Hv2; [done|].
  intros <- Heq. apply Ok_inj, app_string_inj_length in Heq as [_ Heq]; [|done].
  boolify. unfold valid_product_version in *. boolify.
  unfold MAX_PRODUCT_VERSION in *.
  symmetry in Heq. apply u16_bytes_inj in Heq as [Hl Heq]; [|unfold u16_max; lia..].
  apply app_string_inj_length in Heq as [-> Heq]; [|by apply slen_inj_length].
  apply app_string_inj_length in Heq as [Hi Hs];
    [|apply slen_inj_length; by rewrite !uuid_as_bytes_length].
  split_and!; [done|by apply uuid_as_bytes_inj..].
Qed.
End noise_theorems.

Module NoiseExample.
#[local] Existing Instance Concrete.snow.
#[local] Existing Instance Concrete.uuids.
#[local] Instance codec : SerdeJson N := Concrete.one_value 7 "7".

Lemma noise_round_trip_witness :
  encrypt () 7 = Ok ("7" +:+ Concrete.tag, ()) ∧
  ∃ u', decrypt () ("7" +:+ Concrete.tag) = Ok (7, u').
Proof.
  assert (encrypt () 7 = Ok ("7" +:+ Concrete.tag, ())) as He by (by vm_compute).
  split; [done|].
  destruct (@noise_round_trip () () Concrete.snow Concrete.snow_laws N codec
    (Concrete.one_value_laws 7 "7" ltac:(done)) () () 7 _ _ I He) as (_ & u' & Hd & _).
  by exists u'.
Defined.

Lemma prologue_injective_witness :
  ∃ p, prologue "2.6.4" 1 2 = Ok p ∧ (1 : N) = 1.
Proof.
  destruct (prologue "2.6.4" 1 2) as [p|] eqn:Hp; [|by vm_compute in Hp].
  exists p. split; [done|].
  destruct (@prologue_injective Concrete.uuids Concrete.uuids_laws "2.6.4" 1 2 "2.6.4" 1 2 p
    ltac:(done) ltac:(done) ltac:(done) ltac:(done) Hp Hp) as (_ & H & _).
  exact H.
Defined.
End NoiseExample.
