(* ===== verification/Tunnel.v ===== *)
(** Observed tunnel data (crates/gpapi/src/session/desktop/tunnel.rs): phases,
    transports, the negotiated configuration with the loop that bounds its
    encoding, and the statistics snapshots. *)
From S2P Require Import Prelude Utf8 ThirdParty.

#[local] Open Scope N_scope.

Definition MAX_CONFIGURATION_BYTES : N := 16 * 1024.

Inductive TunnelPhase := Establishing | Connected | Reconnecting | Ended.
#[export] Instance TunnelPhase_eq_dec : EqDecision TunnelPhase.
Proof. solve_decision. Defined.

Inductive TunnelTransport := Negotiating | IpsecEsp | SslTls | Unavailable.
#[export] Instance TunnelTransport_eq_dec : EqDecision TunnelTransport.
Proof. solve_decision. Defined.

Definition is_active (t : TunnelTransport) : bool :=
  match t with IpsecEsp | SslTls => true | _ => false end.

Definition label (t : TunnelTransport) : string :=
  match t with
  | Negotiating => "Negotiating"
  | IpsecEsp => "IPsec (ESP)"
  | SslTls => "SSL/TLS"
  | Unavailable => "Unavailable"
  end.

(** * Negotiated configuration *)
Record TunnelList := {
  items : list string;
  total_count : N;
  list_truncated : bool;
}.
#[export] Instance TunnelList_eq_dec : EqDecision TunnelList.
Proof. solve_decision. Defined.

Record TunnelAddress := {
  address : string;
  netmask : option string;
  prefix_length : option N;
}.
#[export] Instance TunnelAddress_eq_dec : EqDecision TunnelAddress.
Proof. solve_decision. Defined.

(** [print_u8] is the decimal [Display] of an integer. *)
Definition display (print_u8 : N → string) (a : TunnelAddress) : string :=
  match prefix_length a with
  | Some prefix => address a +:+ "/" +:+ print_u8 prefix
  | None =>
      match netmask a with
      | Some netmask => address a +:+ " (mask " +:+ netmask +:+ ")"
      | None => address a
      end
  end.

Record TunnelConfiguration := {
  interface : option string;
  ipv4 : option TunnelAddress;
  ipv6 : option TunnelAddress;
  server_ip : option string;
  dns : TunnelList;
  search_domains : TunnelList;
  split_dns : TunnelList;
  included_routes : TunnelList;
  excluded_routes : TunnelList;
  mtu : option N;
  truncated : bool;
}.
#[export] Instance TunnelConfiguration_eq_dec : EqDecision TunnelConfiguration.
Proof. solve_decision. Defined.

(** ** Bounding the encoding

    The five lists in the order the loop empties them, and the scalars it
    shortens, as selectors of the configuration. *)
Inductive ListField := ExcludedRoutes | IncludedRoutes | SplitDns | SearchDomains | Dns.
Inductive ScalarField := Interface | ServerIp | Netmask4 | Netmask6.

Definition get_list (c : TunnelConfiguration) (f : ListField) : TunnelList :=
  match f with
  | ExcludedRoutes => excluded_routes c
  | IncludedRoutes => included_routes c
  | SplitDns => split_dns c
  | SearchDomains => search_domains c
  | Dns => dns c
  end.
Definition set_list (c : TunnelConfiguration) (f : ListField) (l : TunnelList) :
    TunnelConfiguration := {|
  interface := interface c; ipv4 := ipv4 c; ipv6 := ipv6 c; server_ip := server_ip c;
  dns := match f with Dns => l | _ => dns c end;
  search_domains := match f with SearchDomains => l | _ => search_domains c end;
  split_dns := match f with SplitDns => l | _ => split_dns c end;
  included_routes := match f with IncludedRoutes => l | _ => included_routes c end;
  excluded_routes := match f with ExcludedRoutes => l | _ => excluded_routes c end;
  mtu := mtu c; truncated := truncated c;
|}.
Definition set_truncated (c : TunnelConfiguration) : TunnelConfiguration := {|
  interface := interface c; ipv4 := ipv4 c; ipv6 := ipv6 c; server_ip := server_ip c;
  dns := dns c; search_domains := search_domains c; split_dns := split_dns c;
  included_routes := included_routes c; excluded_routes := excluded_routes c;
  mtu := mtu c; truncated := true;
|}.
Definition set_netmask (a : TunnelAddress) (m : option string) : TunnelAddress :=
  {| address := address a; netmask := m; prefix_length := prefix_length a |}.

(** The scalar behind a selector: [None] when the enclosing address is absent,
    otherwise the optional text. *)
Definition get_scalar (c : TunnelConfiguration) (f : ScalarField) : option (option string) :=
  match f with
  | Interface => Some (interface c)
  | ServerIp => Some (server_ip c)
  | Netmask4 => netmask <$> ipv4 c
  | Netmask6 => netmask <$> ipv6 c
  end.
Definition set_scalar (c : TunnelConfiguration) (f : ScalarField) (v : option string) :
    TunnelConfiguration := {|
  interface := match f with Interface => v | _ => interface c end;
  ipv4 := match f with Netmask4 => (λ a, set_netmask a v) <$> ipv4 c | _ => ipv4 c end;
  ipv6 := match f with Netmask6 => (λ a, set_netmask a v) <$> ipv6 c | _ => ipv6 c end;
  server_ip := match f with ServerIp => v | _ => server_ip c end;
  dns := dns c; search_domains := search_domains c; split_dns := split_dns c;
  included_routes := included_routes c; excluded_routes := excluded_routes c;
  mtu := mtu c; truncated := truncated c;
|}.

(** [list.items.pop(); list.truncated = true] *)
Definition pop_item (l : TunnelList) : TunnelList :=
  {| items := removelast (items l); total_count := total_count l; list_truncated := true |}.

Definition list_fields : list ListField :=
  [ExcludedRoutes; IncludedRoutes; SplitDns; SearchDomains; Dns].
Definition first_nonempty (c : TunnelConfiguration) : option ListField :=
  List.find (λ f, match items (get_list c f) with [] => false | _ => true end) list_fields.

(** An address text over 128 bytes is cut and loses its prefix length. *)
Definition limit_address (a : TunnelAddress) : TunnelAddress :=
  if 128 <? slen (address a)
  then {| address := truncate (address a) (floor_char_boundary (address a) 128);
          netmask := netmask a; prefix_length := None |}
  else a.
Definition limit_addresses (c : TunnelConfiguration) : TunnelConfiguration := {|
  interface := interface c;
  ipv4 := limit_address <$> ipv4 c;
  ipv6 := limit_address <$> ipv6 c;
  server_ip := server_ip c;
  dns := dns c; search_domains := search_domains c; split_dns := split_dns c;
  included_routes := included_routes c; excluded_routes := excluded_routes c;
  mtu := mtu c; truncated := truncated c;
|}.

Definition scalar_fields (c : TunnelConfiguration) : list ScalarField :=
  [Interface; ServerIp] ++
  (if ipv4 c then [Netmask4] else []) ++ (if ipv6 c then [Netmask6] else []).
Definition scalar_text (c : TunnelConfiguration) (f : ScalarField) : option string :=
  default None (get_scalar c f).
Definition scalar_len (c : TunnelConfiguration) (f : ScalarField) : N :=
  match scalar_text c f with Some t => slen t | None => 0 end.

(** [max_by_key]: the last of the longest. *)
Definition longest_scalar (c : TunnelConfiguration) : ScalarField :=
  fold_left (λ best f, if scalar_len c best <=? scalar_len c f then f else best)
    (scalar_fields c) Interface.

Section limit.
(** [serde_json::to_vec(self).expect(..).len()] *)
Variable encoded_len : TunnelConfiguration → N.

(** One turn of the loop: [inl c'] goes on with [c'], [inr (b, c')] returns [b]. *)
Definition limit_iteration (limit : N) (c : TunnelConfiguration) :
    TunnelConfiguration + bool * TunnelConfiguration :=
  let c := set_truncated c in
  match first_nonempty c with
  | Some f => inl (set_list c f (pop_item (get_list c f)))
  | None =>
      let c := limit_addresses c in
      let f := longest_scalar c in
      match scalar_text c f with
      | Some text =>
          if slen text =? 0 then inr (encoded_len c <=? limit, c)
          else inl (set_scalar c f
                      (Some (truncate text (floor_char_boundary text (slen text / 2)))))
      | None => inr (encoded_len c <=? limit, c)
      end
  end.

(** [None] is out of fuel. *)
Fixpoint limit_encoded_size (fuel : nat) (limit : N) (c : TunnelConfiguration) :
    option (bool * TunnelConfiguration) :=
  match fuel with
  | O => None
  | S fuel =>
      if encoded_len c <=? limit then Some (true, c)
      else match limit_iteration limit c with
           | inl c => limit_encoded_size fuel limit c
           | inr r => Some r
           end
  end.
End limit.

(** What is left to cut: list entries and bytes of text. *)
Definition cut_measure (c : TunnelConfiguration) : nat :=
  (sum_list_with (λ f, length (items (get_list c f))) list_fields +
   sum_list_with (λ f, N.to_nat (scalar_len c f)) [Interface; ServerIp; Netmask4; Netmask6])%nat.

(** * Statistics *)
Record TunnelState := {
  tunnel_id : Uuid;
  sequence : N;
  phase : TunnelPhase;
  configuration_revision : N;
  configuration : option TunnelConfiguration;
  transport : TunnelTransport;
  elapsed_ms : N;
}.

Record TunnelStatistics := {
  ts_tunnel_id : Uuid;
  ts_sequence : N;
  ts_state_sequence : N;
  ts_configuration_revision : N;
  ts_elapsed_ms : N;
  received_bytes : N;
  sent_bytes : N;
  received_packets : N;
  sent_packets : N;
}.

Module StatisticsState.
Inductive t := Disabled | Waiting | Fresh | Stale | Ended.
#[global] Instance t_eq_dec : EqDecision t.
Proof. solve_decision. Defined.
End StatisticsState.

Record TunnelStatisticsView := {
  tv_sequence : N;
  tv_tunnel_id : Uuid;
  tv_state_sequence : N;
  tv_phase : TunnelPhase;
  tv_transport : TunnelTransport;
  tv_state : StatisticsState.t;
  tv_elapsed_ms : N;
  tv_sample_age_ms : option N;
  tv_sample : option TunnelStatistics;
}.

Inductive TunnelUnavailableReason := NoTunnel | NonTunnel | ObservationFailed.

Inductive TunnelStatisticsSnapshot :=
  | StatisticsAvailable (view : TunnelStatisticsView)
  | StatisticsUnavailable (reason : TunnelUnavailableReason).

Definition unavailable (reason : TunnelUnavailableReason) : TunnelStatisticsSnapshot :=
  StatisticsUnavailable reason.
Definition view (s : TunnelStatisticsSnapshot) : option TunnelStatisticsView :=
  match s with StatisticsAvailable v => Some v | StatisticsUnavailable _ => None end.
Definition snapshot_tunnel_id (s : TunnelStatisticsSnapshot) : option Uuid :=
  tv_tunnel_id <$> view s.
Definition snapshot_sequence (s : TunnelStatisticsSnapshot) : option N := tv_sequence <$> view s.
Definition snapshot_state_sequence (s : TunnelStatisticsSnapshot) : option N :=
  tv_state_sequence <$> view s.

Definition set_view_state (v : TunnelStatisticsView) (st : StatisticsState.t) :
    TunnelStatisticsView := {|
  tv_sequence := tv_sequence v; tv_tunnel_id := tv_tunnel_id v;
  tv_state_sequence := tv_state_sequence v; tv_phase := tv_phase v;
  tv_transport := tv_transport v; tv_state := st; tv_elapsed_ms := tv_elapsed_ms v;
  tv_sample_age_ms := tv_sample_age_ms v; tv_sample := tv_sample v;
|}.

Definition disabled (s : TunnelStatisticsSnapshot) : TunnelStatisticsSnapshot :=
  match s with
  | StatisticsAvailable v =>
      match tv_state v with
      | StatisticsState.Ended => s
      | _ => StatisticsAvailable (set_view_state v StatisticsState.Disabled)
      end
  | _ => s
  end.
Definition stale (s : TunnelStatisticsSnapshot) : TunnelStatisticsSnapshot :=
  match s with
  | StatisticsAvailable v =>
      match tv_state v with
      | StatisticsState.Fresh | StatisticsState.Waiting =>
          StatisticsAvailable (set_view_state v StatisticsState.Stale)
      | _ => s
      end
  | _ => s
  end.

(** * Theorems *)

(** [t'] is [t] with some of its end cut off. *)
Definition text_prefix (t' t : string) : Prop := ∃ rest, t = t' +:+ rest.
Definition opt_text_prefix (o' o : option string) : Prop :=
  match o', o with
  | Some t', Some t => text_prefix t' t
  | None, None => True
  | _, _ => False
  end.

Lemma text_prefix_refl t : text_prefix t t.
Proof. exists "". by rewrite string_app_nil_r. Qed.
Lemma text_prefix_trans a b c : text_prefix a b → text_prefix b c → text_prefix a c.
Proof.
  intros [r ->] [r' ->]. exists (r +:+ r'). symmetry. apply string_app_assoc.
Qed.
Lemma opt_text_prefix_refl o : opt_text_prefix o o.
Proof. destruct o; [apply text_prefix_refl|done]. Qed.
Lemma opt_text_prefix_trans a b c :
  opt_text_prefix a b → opt_text_prefix b c → opt_text_prefix a c.
Proof. destruct a, b, c; cbn; try done. apply text_prefix_trans. Qed.
#[export] Hint Resolve text_prefix_refl opt_text_prefix_refl : gp.

Lemma truncate_prefix s i : i ≤ slen s → text_prefix (truncate s i) s.
Proof.
  intros Hi. exists (slice s i (slen s)). unfold truncate. rewrite slice_app by lia.
  symmetry. apply slice_all.
Qed.
Lemma slen_truncate s i : i ≤ slen s → slen (truncate s i) = i.
Proof. intros Hi. unfold truncate. rewrite slen_slice by done. lia. Qed.

(** The list [l'] is [l] with entries omitted from its end, and says so. *)
Definition list_cut (l' l : TunnelList) : Prop :=
  total_count l' = total_count l ∧
  (l' = l ∨ (list_truncated l' = true ∧ ∃ rest, items l = items l' ++ rest)).
Definition address_cut (a' a : option TunnelAddress) : Prop :=
  match a', a with
  | Some a', Some a => text_prefix (address a') (address a) ∧
                       opt_text_prefix (netmask a') (netmask a) ∧
                       (prefix_length a' = prefix_length a ∨ prefix_length a' = None)
  | None, None => True
  | _, _ => False
  end.
(** What bounding may do to a configuration. *)
Definition configuration_cut (c' c : TunnelConfiguration) : Prop :=
  (∀ f, list_cut (get_list c' f) (get_list c f)) ∧
  address_cut (ipv4 c') (ipv4 c) ∧ address_cut (ipv6 c') (ipv6 c) ∧
  opt_text_prefix (interface c') (interface c) ∧
  opt_text_prefix (server_ip c') (server_ip c) ∧
  mtu c' = mtu c ∧
  (c' = c ∨ truncated c' = true).

Lemma list_cut_refl l : list_cut l l.
Proof. split; auto. Qed.
Lemma list_cut_trans a b c : list_cut a b → list_cut b c → list_cut a c.
Proof.
  intros [? [->|[Ha [r Hr]]]]; [done|].
  intros [? [->|[Hb [r' Hr']]]]; (split; [congruence|]); right; [eauto|].
  split; [done|]. exists (r ++ r'). rewrite Hr', Hr. by rewrite (assoc_L (++)).
Qed.
Lemma address_cut_refl a : address_cut a a.
Proof. destruct a; cbn; auto with gp. Qed.
Lemma address_cut_trans a b c : address_cut a b → address_cut b c → address_cut a c.
Proof.
  destruct a, b, c; cbn; try done. intros (?&?&Hp) (?&?&Hq). split_and!.
  - by eapply text_prefix_trans.
  - by eapply opt_text_prefix_trans.
  - destruct Hp as [->|]; auto.
Qed.
#[export] Hint Resolve list_cut_refl address_cut_refl : gp.

#[export] Instance configuration_cut_preorder : PreOrder (flip configuration_cut).
Proof.
  split.
  - intros c. split_and!; auto with gp.
  - intros a b c (Hl1 & H41 & H61 & Hi1 & Hs1 & Hm1 & Ht1) (Hl2 & H42 & H62 & Hi2 & Hs2 & Hm2 & Ht2).
    split_and!.
    + intros f. eapply list_cut_trans; eauto.
    + by eapply address_cut_trans.
    + by eapply address_cut_trans.
    + by eapply opt_text_prefix_trans.
    + by eapply opt_text_prefix_trans.
    + congruence.
    + destruct Ht2 as [->|]; auto.
Qed.

Lemma configuration_cut_refl c : configuration_cut c c.
Proof. exact (reflexivity (R := flip configuration_cut) c). Qed.
#[export] Hint Resolve configuration_cut_refl : gp.

Lemma list_cut_pop l : items l ≠ [] → list_cut (pop_item l) l.
Proof.
  intros Hne. split; [done|]. right. split; [done|].
  exists [List.last (items l) ""]. cbn. by apply app_removelast_last.
Qed.

Lemma first_nonempty_Some c f : first_nonempty c = Some f → items (get_list c f) ≠ [].
Proof. unfold first_nonempty. intros H%List.find_some. destruct H as [_ H]. by case_match. Qed.

Lemma get_set_list c f l g :
  get_list (set_list c f l) g = if (match f, g with
    | ExcludedRoutes, ExcludedRoutes | IncludedRoutes, IncludedRoutes
    | SplitDns, SplitDns | SearchDomains, SearchDomains | Dns, Dns => true
    | _, _ => false end) then l else get_list c g.
Proof. by destruct f, g. Qed.

Lemma limit_address_cut a : address_cut (limit_address <$> a) a.
Proof.
  destruct a as [a|]; cbn; [|done]. unfold limit_address.
  destruct (_ <? _) eqn:E; cbn; auto with gp. boolify. split_and!; auto with gp.
  apply truncate_prefix, floor_char_boundary_le.
Qed.

Lemma scalar_text_limit c f :
  scalar_text (limit_addresses (set_truncated c)) f = scalar_text c f.
Proof.
  destruct f; cbn; [done|done|..].
  all: unfold scalar_text; cbn; destruct (ipv4 c), (ipv6 c); cbn; try done.
  all: unfold limit_address; by destruct (_ <? _).
Qed.

Section limit_theorems.
Variable encoded_len : TunnelConfiguration → N.

Lemma limit_iteration_cut limit c :
  match limit_iteration encoded_len limit c with
  | inl c' => configuration_cut c' c
  | inr (_, c') => configuration_cut c' c
  end.
Proof.
  unfold limit_iteration. destruct (first_nonempty _) as [f|] eqn:Hf.
  - apply first_nonempty_Some in Hf. split_and!; cbn; auto with gp.
    intros g. change (get_list c g) with (get_list (set_truncated c) g).
    rewrite get_set_list. case_match eqn:Hfg; auto with gp.
    assert (f = g) as <- by (by destruct f, g). by apply list_cut_pop.
  - assert (configuration_cut (limit_addresses (set_truncated c)) c) as Hc.
    { split_and!; cbn; auto using limit_address_cut with gp. }
    set (c1 := limit_addresses (set_truncated c)) in *.
    assert (truncated c1 = true) as Ht by done. clearbody c1.
    destruct (scalar_text c1 (longest_scalar c1)) as [t|] eqn:Htext; [|done].
    destruct (slen t =? 0); [done|]. set (f := longest_scalar c1) in *. clearbody f.
    assert (text_prefix (truncate t (floor_char_boundary t (slen t / 2))) t) as Hp
      by (apply truncate_prefix, floor_char_boundary_le).
    apply (transitivity (R := flip configuration_cut) (y := c1)); [done|].
    unfold scalar_text in Htext. destruct f; cbn in *; split_and!; cbn; auto with gp;
      try (intros []; cbn; by auto with gp); try (by rewrite Htext).
    + destruct (ipv4 c1) as [a|]; [|done]. cbn in *. rewrite Htext. cbn. auto with gp.
    + destruct (ipv6 c1) as [a|]; [|done]. cbn in *. rewrite Htext. cbn. auto with gp.
Qed.

Lemma limit_iteration_decreases limit c c' :
  limit_iteration encoded_len limit c = inl c' → (cut_measure c' < cut_measure c)%nat.
Proof.
  unfold limit_iteration. destruct (first_nonempty _) as [f|] eqn:Hf.
  - intros [= <-]. apply first_nonempty_Some in Hf.
    assert (length (items (pop_item (get_list (set_truncated c) f)))
      < length (items (get_list (set_truncated c) f)))%nat.
    { cbn. destruct (items (get_list _ f)) as [|x l] using rev_ind; [done|].
      rewrite removelast_last, length_app. cbn. lia. }
    unfold cut_measure, scalar_len, scalar_text. destruct f; cbn in *; lia.
  - set (c1 := limit_addresses (set_truncated c)) in *.
    assert (cut_measure c1 = cut_measure c) as <-.
    { unfold cut_measure, scalar_len. cbn [sum_list_with].
      unfold c1. by rewrite !scalar_text_limit. }
    clearbody c1. destruct (scalar_text c1 (longest_scalar c1)) as [t|] eqn:Htext; [|done].
    destruct (slen t =? 0) eqn:Ht; [done|]. intros [= <-]. boolify.
    set (f := longest_scalar c1) in *. clearbody f.
    assert (slen (truncate t (floor_char_boundary t (slen t / 2))) < slen t) as Hlt.
    { destruct (floor_char_boundary_le t (slen t / 2)). rewrite slen_truncate by done.
      assert (slen t / 2 < slen t) by (apply N.div_lt; lia). lia. }
    unfold cut_measure, scalar_len, scalar_text in *.
    destruct f; cbn in *; try (rewrite Htext; lia).
    + destruct (ipv4 c1) as [a|]; [|done]. cbn in *. rewrite Htext. lia.
    + destruct (ipv6 c1) as [a|]; [|done]. cbn in *. rewrite Htext. lia.
Qed.

Lemma limit_iteration_result limit c b c' :
  limit_iteration encoded_len limit c = inr (b, c') → b = (encoded_len c' <=? limit).
Proof. unfold limit_iteration. intros H. crush_hyps; done. Qed.

(** Bounding an observation terminates and is honest. From any configuration
    and for any limit the loop ends within as many turns as there are list entries
    and bytes of text to cut; its answer is true exactly when the configuration it
    leaves fits the limit; and that configuration is the original with list entries
    and text cut from their ends only: counts and the MTU are unchanged, every
    shortened list and the whole are marked truncated. *)
Lemma limit_encoded_size_total limit c :
  ∃ b c', limit_encoded_size encoded_len (S (cut_measure c)) limit c = Some (b, c') ∧
    b = (encoded_len c' <=? limit) ∧
    configuration_cut c' c ∧
    (encoded_len c <= limit → c' = c).
Proof.
  remember (cut_measure c) as n eqn:Hn. assert (cut_measure c ≤ n)%nat as Hle by lia.
  clear Hn. revert c Hle. induction n as [|n IH]; intros c Hle; cbn.
  all: destruct (N.leb_spec (encoded_len c) limit) as [Hfit|Hbig];
    [exists true, c; split_and!; [done| |auto with gp|done]; symmetry; by apply N.leb_le|].
  all: pose proof (limit_iteration_cut limit c) as Hcut.
  all: destruct (limit_iteration _ limit c) as [c'|[b c']] eqn:Hit.
  - apply limit_iteration_decreases in Hit. lia.
  - exists b, c'. split_and!; [done|by eapply limit_iteration_result|done|lia].
  - apply limit_iteration_decreases in Hit as Hdec.
    destruct (IH c') as (b & c2 & Hrun & Hb & Hcut2 & _); [lia|].
    exists b, c2. split_and!; [done|done| |lia].
    by apply (transitivity (R := flip configuration_cut) (y := c')).
  - exists b, c'. split_and!; [done|by eapply limit_iteration_result|done|lia].
Qed.
End limit_theorems.
