(* ===== verification/TunnelMonitor.v ===== *)
(** The tunnel monitor (crates/gptunnel): one native tunnel's observed state, the
    optional traffic sampler and the ordering tokens its consumers rely on.

    [Observation] and its methods are monitor.rs lines 33-282; [TunnelMonitor] adds
    the published update. Sequence exhaustion is a panic in the source and [None]
    here. Instants are nanoseconds. *)
From S2P Require Import Prelude Utf8 ThirdParty Tunnel.
From Stdlib Require Import Strings.Ascii.

#[local] Open Scope N_scope.

(** * Native observations (crates/openconnect/src/tunnel.rs) *)
Module Native.
Inductive Transport := Negotiating | IpsecEsp | SslTls | Unavailable.
Record NativeList := {
  items : list string;
  total_count : N;
  truncated : bool;
}.
Record Configuration := {
  interface : option string;
  ipv4 : option string;
  netmask : option string;
  ipv6 : option string;
  netmask6 : option string;
  server_ip : option string;
  dns : NativeList;
  search_domains : NativeList;
  split_dns : NativeList;
  included_routes : NativeList;
  excluded_routes : NativeList;
  mtu : option N;
  truncated_configuration : bool;
}.
Record Statistics := {
  received_bytes : N;
  sent_bytes : N;
  received_packets : N;
  sent_packets : N;
}.
Inductive Event :=
  | EvConfiguration (c : option Configuration)
  | EvEstablished
  | EvReconnecting
  | EvReconnected
  | EvTransport (t : Transport)
  | EvStatistics (s : Statistics)
  | EvEnded.
End Native.

(** * Normalising a configuration (crates/gptunnel/src/configuration.rs) *)
Section configuration.
(** [str::parse] of the standard library's address and integer types. *)
Variable parse_ipv4 : string → option N.
Variable parse_ipv6 : string → option N.
Variable parse_u8 : string → option N.
Variable encoded_len : TunnelConfiguration → N.

(** [u32::leading_ones] *)
Fixpoint leading_ones_from (bits : nat) (m : N) : N :=
  match bits with
  | O => 0
  | S bits => if N.testbit m (N.of_nat bits) then 1 + leading_ones_from bits m else 0
  end.
Definition leading_ones (m : N) : N := leading_ones_from 32 m.

Definition mask_prefix (mask : N) : option N :=
  let prefix := leading_ones mask in
  let expected := if prefix =? 0 then 0
                  else N.land (N.shiftl u32_max (32 - prefix)) u32_max in
  if mask =? expected then Some prefix else None.

Definition ipv4_prefix (mask : string) : option N :=
  mask ← parse_ipv4 mask; mask_prefix mask.

(** [str::split_once('/')] *)
Fixpoint split_once_slash (s : string) : option (string * string) :=
  match s with
  | EmptyString => None
  | String "/"%char rest => Some (EmptyString, rest)
  | String a rest => '(l, r) ← split_once_slash rest; Some (String a l, r)
  end.

Definition ipv6_prefix (address mask : string) : option N :=
  '(network_address, prefix) ← split_once_slash mask;
  network ← parse_ipv6 network_address;
  addr ← parse_ipv6 address;
  if negb (network =? addr) then None
  else prefix ← parse_u8 prefix; if prefix <=? 128 then Some prefix else None.

Definition native_list (l : Native.NativeList) : TunnelList := {|
  items := Native.items l;
  total_count := Native.total_count l;
  list_truncated := Native.truncated l;
|}.

Definition normalized (c : Native.Configuration) : TunnelConfiguration := {|
  interface := Native.interface c;
  ipv4 := (λ address, {|
    address := address;
    netmask := Native.netmask c;
    prefix_length := _ ← parse_ipv4 address; Native.netmask c ≫= ipv4_prefix;
  |}) <$> Native.ipv4 c;
  ipv6 := (λ address, {|
    address := address;
    netmask := Native.netmask6 c;
    prefix_length := Native.netmask6 c ≫= ipv6_prefix address;
  |}) <$> Native.ipv6 c;
  server_ip := Native.server_ip c;
  dns := native_list (Native.dns c);
  search_domains := native_list (Native.search_domains c);
  split_dns := native_list (Native.split_dns c);
  included_routes := native_list (Native.included_routes c);
  excluded_routes := native_list (Native.excluded_routes c);
  mtu := Native.mtu c;
  truncated := Native.truncated_configuration c;
|}.

(** [None] is the failed assertion. *)
Definition normalize (c : Native.Configuration) : option TunnelConfiguration :=
  let c := normalized c in
  match limit_encoded_size encoded_len (S (cut_measure c)) MAX_CONFIGURATION_BYTES c with
  | Some (true, c) => Some c
  | _ => None
  end.
End configuration.

(** * Observation (monitor.rs) *)
Definition SAMPLE_INTERVAL : N := 2 * 10 ^ 9.
Definition SAMPLE_TIMEOUT : N := 4 * 10 ^ 9.

Record RequestStamp := {
  rs_generation : N;
  rs_state_sequence : N;
  rs_issued : N;
}.
Record RetainedSample := {
  sample_value : TunnelStatistics;
  sample_acquired : N;
}.

Record Observation := {
  o_state : TunnelState;
  o_sequence : N;
  o_statistics_sequence : N;
  o_started : option N;
  o_ended_elapsed : option N;
  o_configuration_observed : bool;
  o_enabled : bool;
  o_generation : N;
  o_pending : option RequestStamp;
  o_sample : option RetainedSample;
  o_statistics_state : StatisticsState.t;
  o_finished : bool;
  o_request_failed : bool;
}.

(** Field updates of the two records. *)
Definition set_sequence (v : N) (s : TunnelState) : TunnelState := {|
  tunnel_id := tunnel_id s; sequence := v; phase := phase s;
  configuration_revision := configuration_revision s; configuration := configuration s;
  transport := transport s; elapsed_ms := elapsed_ms s
|}.
Definition set_phase (v : TunnelPhase) (s : TunnelState) : TunnelState := {|
  tunnel_id := tunnel_id s; sequence := sequence s; phase := v;
  configuration_revision := configuration_revision s; configuration := configuration s;
  transport := transport s; elapsed_ms := elapsed_ms s
|}.
Definition set_configuration_revision (v : N) (s : TunnelState) : TunnelState := {|
  tunnel_id := tunnel_id s; sequence := sequence s; phase := phase s;
  configuration_revision := v; configuration := configuration s;
  transport := transport s; elapsed_ms := elapsed_ms s
|}.
Definition set_configuration (v : option TunnelConfiguration) (s : TunnelState) : TunnelState := {|
  tunnel_id := tunnel_id s; sequence := sequence s; phase := phase s;
  configuration_revision := configuration_revision s; configuration := v;
  transport := transport s; elapsed_ms := elapsed_ms s
|}.
Definition set_transport (v : TunnelTransport) (s : TunnelState) : TunnelState := {|
  tunnel_id := tunnel_id s; sequence := sequence s; phase := phase s;
  configuration_revision := configuration_revision s; configuration := configuration s;
  transport := v; elapsed_ms := elapsed_ms s
|}.
Definition set_elapsed_ms (v : N) (s : TunnelState) : TunnelState := {|
  tunnel_id := tunnel_id s; sequence := sequence s; phase := phase s;
  configuration_revision := configuration_revision s; configuration := configuration s;
  transport := transport s; elapsed_ms := v
|}.
Definition set_o_state (v : TunnelState) (s : Observation) : Observation := {|
  o_state := v; o_sequence := o_sequence s;
  o_statistics_sequence := o_statistics_sequence s; o_started := o_started s;
  o_ended_elapsed := o_ended_elapsed s;
  o_configuration_observed := o_configuration_observed s; o_enabled := o_enabled s;
  o_generation := o_generation s; o_pending := o_pending s; o_sample := o_sample s;
  o_statistics_state := o_statistics_state s; o_finished := o_finished s;
  o_request_failed := o_request_failed s
|}.
Definition set_o_sequence (v : N) (s : Observation) : Observation := {|
  o_state := o_state s; o_sequence := v;
  o_statistics_sequence := o_statistics_sequence s; o_started := o_started s;
  o_ended_elapsed := o_ended_elapsed s;
  o_configuration_observed := o_configuration_observed s; o_enabled := o_enabled s;
  o_generation := o_generation s; o_pending := o_pending s; o_sample := o_sample s;
  o_statistics_state := o_statistics_state s; o_finished := o_finished s;
  o_request_failed := o_request_failed s
|}.
Definition set_o_statistics_sequence (v : N) (s : Observation) : Observation := {|
  o_state := o_state s; o_sequence := o_sequence s; o_statistics_sequence := v;
  o_started := o_started s; o_ended_elapsed := o_ended_elapsed s;
  o_configuration_observed := o_configuration_observed s; o_enabled := o_enabled s;
  o_generation := o_generation s; o_pending := o_pending s; o_sample := o_sample s;
  o_statistics_state := o_statistics_state s; o_finished := o_finished s;
  o_request_failed := o_request_failed s
|}.
Definition set_o_started (v : option N) (s : Observation) : Observation := {|
  o_state := o_state s; o_sequence := o_sequence s;
  o_statistics_sequence := o_statistics_sequence s; o_started := v;
  o_ended_elapsed := o_ended_elapsed s;
  o_configuration_observed := o_configuration_observed s; o_enabled := o_enabled s;
  o_generation := o_generation s; o_pending := o_pending s; o_sample := o_sample s;
  o_statistics_state := o_statistics_state s; o_finished := o_finished s;
  o_request_failed := o_request_failed s
|}.
Definition set_o_ended_elapsed (v : option N) (s : Observation) : Observation := {|
  o_state := o_state s; o_sequence := o_sequence s;
  o_statistics_sequence := o_statistics_sequence s; o_started := o_started s;
  o_ended_elapsed := v; o_configuration_observed := o_configuration_observed s;
  o_enabled := o_enabled s; o_generation := o_generation s; o_pending := o_pending s;
  o_sample := o_sample s; o_statistics_state := o_statistics_state s;
  o_finished := o_finished s; o_request_failed := o_request_failed s
|}.
Definition set_o_configuration_observed (v : bool) (s : Observation) : Observation := {|
  o_state := o_state s; o_sequence := o_sequence s;
  o_statistics_sequence := o_statistics_sequence s; o_started := o_started s;
  o_ended_elapsed := o_ended_elapsed s; o_configuration_observed := v;
  o_enabled := o_enabled s; o_generation := o_generation s; o_pending := o_pending s;
  o_sample := o_sample s; o_statistics_state := o_statistics_state s;
  o_finished := o_finished s; o_request_failed := o_request_failed s
|}.
Definition set_o_enabled (v : bool) (s : Observation) : Observation := {|
  o_state := o_state s; o_sequence := o_sequence s;
  o_statistics_sequence := o_statistics_sequence s; o_started := o_started s;
  o_ended_elapsed := o_ended_elapsed s;
  o_configuration_observed := o_configuration_observed s; o_enabled := v;
  o_generation := o_generation s; o_pending := o_pending s; o_sample := o_sample s;
  o_statistics_state := o_statistics_state s; o_finished := o_finished s;
  o_request_failed := o_request_failed s
|}.
Definition set_o_generation (v : N) (s : Observation) : Observation := {|
  o_state := o_state s; o_sequence := o_sequence s;
  o_statistics_sequence := o_statistics_sequence s; o_started := o_started s;
  o_ended_elapsed := o_ended_elapsed s;
  o_configuration_observed := o_configuration_observed s; o_enabled := o_enabled s;
  o_generation := v; o_pending := o_pending s; o_sample := o_sample s;
  o_statistics_state := o_statistics_state s; o_finished := o_finished s;
  o_request_failed := o_request_failed s
|}.
Definition set_o_pending (v : option RequestStamp) (s : Observation) : Observation := {|
  o_state := o_state s; o_sequence := o_sequence s;
  o_statistics_sequence := o_statistics_sequence s; o_started := o_started s;
  o_ended_elapsed := o_ended_elapsed s;
  o_configuration_observed := o_configuration_observed s; o_enabled := o_enabled s;
  o_generation := o_generation s; o_pending := v; o_sample := o_sample s;
  o_statistics_state := o_statistics_state s; o_finished := o_finished s;
  o_request_failed := o_request_failed s
|}.
Definition set_o_sample (v : option RetainedSample) (s : Observation) : Observation := {|
  o_state := o_state s; o_sequence := o_sequence s;
  o_statistics_sequence := o_statistics_sequence s; o_started := o_started s;
  o_ended_elapsed := o_ended_elapsed s;
  o_configuration_observed := o_configuration_observed s; o_enabled := o_enabled s;
  o_generation := o_generation s; o_pending := o_pending s; o_sample := v;
  o_statistics_state := o_statistics_state s; o_finished := o_finished s;
  o_request_failed := o_request_failed s
|}.
Definition set_o_statistics_state (v : StatisticsState.t) (s : Observation) : Observation := {|
  o_state := o_state s; o_sequence := o_sequence s;
  o_statistics_sequence := o_statistics_sequence s; o_started := o_started s;
  o_ended_elapsed := o_ended_elapsed s;
  o_configuration_observed := o_configuration_observed s; o_enabled := o_enabled s;
  o_generation := o_generation s; o_pending := o_pending s; o_sample := o_sample s;
  o_statistics_state := v; o_finished := o_finished s;
  o_request_failed := o_request_failed s
|}.
Definition set_o_finished (v : bool) (s : Observation) : Observation := {|
  o_state := o_state s; o_sequence := o_sequence s;
  o_statistics_sequence := o_statistics_sequence s; o_started := o_started s;
  o_ended_elapsed := o_ended_elapsed s;
  o_configuration_observed := o_configuration_observed s; o_enabled := o_enabled s;
  o_generation := o_generation s; o_pending := o_pending s; o_sample := o_sample s;
  o_statistics_state := o_statistics_state s; o_finished := v;
  o_request_failed := o_request_failed s
|}.
Definition set_o_request_failed (v : bool) (s : Observation) : Observation := {|
  o_state := o_state s; o_sequence := o_sequence s;
  o_statistics_sequence := o_statistics_sequence s; o_started := o_started s;
  o_ended_elapsed := o_ended_elapsed s;
  o_configuration_observed := o_configuration_observed s; o_enabled := o_enabled s;
  o_generation := o_generation s; o_pending := o_pending s; o_sample := o_sample s;
  o_statistics_state := o_statistics_state s; o_finished := o_finished s;
  o_request_failed := v
|}.

Record TunnelUpdate := {
  update_state : TunnelState;
  update_statistics : TunnelStatisticsSnapshot;
}.

Definition observation_new (id : Uuid) : Observation := {|
  o_state := {| tunnel_id := id; sequence := 1; phase := Establishing;
                configuration_revision := 0; configuration := None;
                transport := Negotiating; elapsed_ms := 0 |};
  o_sequence := 1;
  o_statistics_sequence := 1;
  o_started := None;
  o_ended_elapsed := None;
  o_configuration_observed := false;
  o_enabled := false;
  o_generation := 0;
  o_pending := None;
  o_sample := None;
  o_statistics_state := StatisticsState.Disabled;
  o_finished := false;
  o_request_failed := false;
|}.

(** [duration.as_millis().min(u64::MAX)] *)
Definition millis (duration : N) : N := N.min (duration / 10 ^ 6) u64_max.

Definition next_sequence (o : Observation) : option (N * Observation) :=
  s ← checked_add u64_max (o_sequence o) 1; Some (s, set_o_sequence s o).

Definition elapsed (now : N) (o : Observation) : N :=
  match o_ended_elapsed o with
  | Some e => e
  | None => match o_started o with Some started => millis (now - started) | None => 0 end
  end.

Definition active (o : Observation) : bool :=
  negb (o_finished o) && bool_decide (phase (o_state o) = Connected) &&
  is_active (transport (o_state o)).

Definition project (now : N) (o : Observation) : TunnelUpdate :=
  let state := set_elapsed_ms (elapsed now o) (o_state o) in
  {| update_state := state;
     update_statistics := StatisticsAvailable {|
       tv_sequence := o_statistics_sequence o;
       tv_tunnel_id := tunnel_id state;
       tv_state_sequence := sequence state;
       tv_phase := phase state;
       tv_transport := transport state;
       tv_state := o_statistics_state o;
       tv_elapsed_ms := elapsed_ms state;
       tv_sample_age_ms := (λ s, millis (now - sample_acquired s)) <$> o_sample o;
       tv_sample := sample_value <$> o_sample o;
     |} |}.

Definition invalidate_statistics (o : Observation) : option Observation :=
  let st :=
    if o_finished o then StatisticsState.Ended
    else if negb (o_enabled o) then StatisticsState.Disabled
    else if bool_decide (is_Some (o_sample o)) || negb (active o) then StatisticsState.Stale
    else StatisticsState.Waiting in
  '(s, o) ← next_sequence (set_o_statistics_state st o);
  Some (set_o_statistics_sequence s o).

Definition state_changed (o : Observation) : option Observation :=
  '(s, o) ← next_sequence o;
  invalidate_statistics (set_o_state (set_sequence s (o_state o)) o).

Definition enable (enabled : bool) (o : Observation) : option (bool * Observation) :=
  if o_finished o || Bool.eqb (o_enabled o) enabled then Some (false, o)
  else
    let o := set_o_enabled enabled o in
    g ← checked_add u64_max (o_generation o) 1;
    let o := set_o_generation g o in
    let o := set_o_statistics_state
      (if enabled then StatisticsState.Waiting else StatisticsState.Disabled) o in
    '(s, o) ← next_sequence o;
    Some (true, set_o_statistics_sequence s o).

Definition finish (now : N) (o : Observation) : option Observation :=
  if o_finished o then Some o
  else
    let o := set_o_ended_elapsed (Some (elapsed now o)) o in
    let o := set_o_finished true o in
    let o := set_o_enabled false o in
    let o := set_o_pending None o in
    state_changed (set_o_state (set_transport Unavailable (set_phase Ended (o_state o))) o).

Definition receive_statistics (s : Native.Statistics) (now : N) (o : Observation) :
    option Observation :=
  match o_pending o with
  | None => Some o
  | Some stamp =>
      let o := set_o_pending None o in
      if negb (o_enabled o) || negb (active o) ||
         negb (rs_generation stamp =? o_generation o) ||
         negb (rs_state_sequence stamp =? sequence (o_state o))
      then Some o
      else
        '(seq, o) ← next_sequence o;
        let o := set_o_sample (Some {|
          sample_value := {|
            ts_tunnel_id := tunnel_id (o_state o);
            ts_sequence := seq;
            ts_state_sequence := sequence (o_state o);
            ts_configuration_revision := configuration_revision (o_state o);
            ts_elapsed_ms := elapsed now o;
            received_bytes := Native.received_bytes s;
            sent_bytes := Native.sent_bytes s;
            received_packets := Native.received_packets s;
            sent_packets := Native.sent_packets s;
          |};
          sample_acquired := now |}) o in
        Some (set_o_statistics_state StatisticsState.Fresh (set_o_statistics_sequence seq o))
  end.

Definition transport_of (t : Native.Transport) : TunnelTransport :=
  match t with
  | Native.Negotiating => Negotiating
  | Native.IpsecEsp => IpsecEsp
  | Native.SslTls => SslTls
  | Native.Unavailable => Unavailable
  end.

Definition set_phase_if_changed (p : TunnelPhase) (o : Observation) : option Observation :=
  if bool_decide (phase (o_state o) = p) then Some o
  else state_changed (set_o_state (set_phase p (o_state o)) o).

(** The pair says whether to log the configuration and the transport. *)
Definition apply (normalize : Native.Configuration → option TunnelConfiguration)
    (event : Native.Event) (now : N) (o : Observation) :
    option ((bool * bool) * Observation) :=
  if o_finished o then Some ((false, false), o)
  else match event with
  | Native.EvConfiguration c =>
      c ← match c with None => Some None | Some c => Some <$> normalize c end;
      if o_configuration_observed o && bool_decide (configuration (o_state o) = c)
      then Some ((false, false), o)
      else
        let o := set_o_configuration_observed true o in
        r ← checked_add u64_max (configuration_revision (o_state o)) 1;
        let st := set_configuration_revision r (set_configuration c (o_state o)) in
        o ← state_changed (set_o_state st o);
        Some ((true, false), o)
  | Native.EvEstablished =>
      let o := match o_started o with None => set_o_started (Some now) o | Some _ => o end in
      o ← set_phase_if_changed Connected o;
      Some ((false, false), o)
  | Native.EvReconnected =>
      o ← (if o_started o then set_phase_if_changed Connected o else Some o);
      Some ((false, false), o)
  | Native.EvReconnecting =>
      o ← set_phase_if_changed (if o_started o then Reconnecting else Establishing) o;
      Some ((false, false), o)
  | Native.EvTransport t =>
      let t := transport_of t in
      if bool_decide (transport (o_state o) = t) then Some ((false, false), o)
      else
        o ← state_changed (set_o_state (set_transport t (o_state o)) o);
        Some ((false, true), o)
  | Native.EvStatistics s =>
      o ← receive_statistics s now o; Some ((false, false), o)
  | Native.EvEnded =>
      o ← finish now o; Some ((false, false), o)
  end.

(** * The monitor

    [publish] stores the projection the receivers of [updates] see. [observing] is
    whether the native observer is still installed. [Notify] wake-ups carry no
    data; the operations that wake the sampler return it. *)
Section monitor.
Context {W : Type → Type} `{Watch W}.
Variable normalize : Native.Configuration → option TunnelConfiguration.

Record TunnelMonitor := {
  observation : Observation;
  updates : W TunnelUpdate;
  observing : bool;
}.

Definition attach (id : Uuid) (now : N) : TunnelMonitor :=
  let o := observation_new id in
  {| observation := o; updates := watch_channel (project now o); observing := true |}.

Definition publish (now : N) (o : Observation) (m : TunnelMonitor) : TunnelMonitor :=
  {| observation := o; updates := watch_send_replace (project now o) (updates m);
     observing := observing m |}.
Definition keep (o : Observation) (m : TunnelMonitor) : TunnelMonitor :=
  {| observation := o; updates := updates m; observing := observing m |}.

Definition monitor_state (now : N) (m : TunnelMonitor) : TunnelState :=
  update_state (project now (observation m)).
Definition statistics (now : N) (m : TunnelMonitor) : TunnelStatisticsSnapshot :=
  update_statistics (project now (observation m)).

Definition set_statistics_enabled (enabled : bool) (now : N) (m : TunnelMonitor) :
    option (bool * TunnelMonitor) :=
  '(changed, o) ← enable enabled (observation m);
  Some (changed, if (changed : bool) then publish now o m else keep o m).

Definition monitor_finish (now : N) (m : TunnelMonitor) : option TunnelMonitor :=
  o ← finish now (observation m);
  let m := publish now o m in
  Some {| observation := observation m; updates := updates m; observing := false |}.

Definition observe (event : Native.Event) (now : N) (m : TunnelMonitor) :
    option (bool * TunnelMonitor) :=
  let is_statistics := match event with Native.EvStatistics _ => true | _ => false end in
  '(_, o) ← apply normalize event now (observation m);
  let retry := is_statistics &&
    match o_sample o with
    | None => true
    | Some s =>
        negb (ts_state_sequence (sample_value s) =? sequence (o_state o)) ||
        negb (bool_decide (o_statistics_state o = StatisticsState.Fresh))
    end in
  Some (negb is_statistics || retry, publish now o m).

(** [Vpn::request_statistics] answers [Ok(bool)] or an error. The result is
    whether the sampler goes on. *)
Definition request_sample (answer : result () bool) (now : N) (m : TunnelMonitor) :
    option (bool * TunnelMonitor) :=
  let o := observation m in
  if o_finished o then Some (false, m)
  else if negb (o_enabled o) || negb (active o) then Some (true, m)
  else match o_pending o with
  | Some pending =>
      if (SAMPLE_TIMEOUT <=? now - rs_issued pending) &&
         negb (bool_decide (o_statistics_state o = StatisticsState.Stale))
      then
        '(s, o) ← next_sequence (set_o_statistics_state StatisticsState.Stale o);
        Some (true, publish now (set_o_statistics_sequence s o) m)
      else Some (true, m)
  | None =>
      match answer with
      | Ok true =>
          let o := set_o_pending (Some {|
            rs_generation := o_generation o;
            rs_state_sequence := sequence (o_state o);
            rs_issued := now |}) o in
          Some (true, keep (set_o_request_failed false o) m)
      | Ok false => Some (true, m)
      | Err _ =>
          let o := set_o_request_failed true o in
          '(s, o) ← next_sequence (set_o_statistics_state StatisticsState.Stale o);
          Some (true, publish now (set_o_statistics_sequence s o) m)
      end
  end.

(** Everything that happens to a monitor, as labels. *)
Inductive monitor_label :=
  | Observe (event : Native.Event) (now : N)
  | SetEnabled (enabled : bool) (now : N)
  | Request (answer : result () bool) (now : N)
  | Finish (now : N).

(** [None] is a panic; a native event reaches the monitor only while the observer
    is installed. *)
Definition monitor_step (m : option TunnelMonitor) (l : monitor_label) :
    option TunnelMonitor :=
  m ← m;
  match l with
  | Observe event now => if observing m then snd <$> observe event now m else Some m
  | SetEnabled enabled now => snd <$> set_statistics_enabled enabled now m
  | Request answer now => snd <$> request_sample answer now m
  | Finish now => monitor_finish now m
  end.
End monitor.

(** * Theorems

    ** Netmasks *)
Lemma leading_ones_from_le bits m : leading_ones_from bits m ≤ N.of_nat bits.
Proof. induction bits as [|bits IH]; cbn [leading_ones_from]; [lia|]. case_match; lia. Qed.

(** The netmask of a prefix length. *)
Definition prefix_mask (p : N) : N := 2 ^ 32 - 2 ^ (32 - p).

Lemma all_prefixes :
  List.forallb (λ n, let p := N.of_nat n in
    bool_decide (mask_prefix (prefix_mask p) = Some p) &&
    ((if p =? 0 then 0 else N.land (N.shiftl u32_max (32 - p)) u32_max) =? prefix_mask p))
    (List.seq 0 33) = true.
Proof. by vm_compute. Qed.

Lemma prefix_case p : p ≤ 32 →
  mask_prefix (prefix_mask p) = Some p ∧
  (if p =? 0 then 0 else N.land (N.shiftl u32_max (32 - p)) u32_max) = prefix_mask p.
Proof.
  intros Hp. pose proof all_prefixes as H. rewrite List.forallb_forall in H.
  specialize (H (N.to_nat p)). cbn zeta in H. rewrite N2Nat.id in H.
  assert (In (N.to_nat p) (List.seq 0 33)) as Hin by (apply List.in_seq; lia).
  apply H in Hin. boolify. done.
Qed.

(** A netmask has a prefix length exactly when it is contiguous. [ipv4_prefix]
    answers [p] for a parsed 32-bit mask just when [p] is at most 32 and the mask is
    the [p] leading one bits; every other mask has none. *)
Lemma mask_prefix_contiguous mask p :
  mask_prefix mask = Some p ↔ p ≤ 32 ∧ mask = prefix_mask p.
Proof.
  split.
  - unfold mask_prefix. destruct (_ =? _) eqn:E in |- *; [|done]. intros [= Hp]. boolify.
    assert (p ≤ 32) as Hle by (subst p; apply (leading_ones_from_le 32)).
    split; [done|]. rewrite Hp in E. rewrite E. by apply prefix_case.
  - intros [Hp ->]. by apply prefix_case.
Qed.

(** ** Invariant of an observation *)
Record obs_base (o : Observation) : Prop := {
  ob_sequence : 1 ≤ sequence (o_state o) ≤ o_sequence o;
  ob_statistics : o_statistics_sequence o ≤ o_sequence o;
  ob_bound : o_sequence o ≤ u64_max;
  ob_sample : ∀ s, o_sample o = Some s →
    ts_tunnel_id (sample_value s) = tunnel_id (o_state o) ∧
    ts_state_sequence (sample_value s) ≤ sequence (o_state o) ∧
    ts_sequence (sample_value s) ≤ o_statistics_sequence o;
  ob_pending : ∀ p, o_pending o = Some p →
    rs_generation p ≤ o_generation o ∧ rs_state_sequence p ≤ sequence (o_state o);
  ob_finished : o_finished o = bool_decide (phase (o_state o) = Ended);
  ob_ended : o_finished o = true →
    o_enabled o = false ∧ o_pending o = None ∧
    transport (o_state o) = Unavailable ∧ is_Some (o_ended_elapsed o);
  ob_started : o_started o = None →
    phase (o_state o) = Establishing ∨ phase (o_state o) = Ended;
}.

(** What the published statistics state means. *)
Definition statistics_meaning (o : Observation) : Prop :=
  if o_finished o then o_statistics_state o = StatisticsState.Ended
  else if o_enabled o then
    match o_statistics_state o with
    | StatisticsState.Waiting | StatisticsState.Stale => True
    | StatisticsState.Fresh => active o = true ∧ ∃ s, o_sample o = Some s ∧
        ts_state_sequence (sample_value s) = sequence (o_state o) ∧
        ts_sequence (sample_value s) = o_statistics_sequence o
    | _ => False
    end
  else o_statistics_state o = StatisticsState.Disabled.

Definition obs_inv (o : Observation) : Prop := obs_base o ∧ statistics_meaning o.

(** [o'] comes after [o]: the ordering tokens do not go back, and an equal token
    means an equal value. *)
Definition obs_after (o' o : Observation) : Prop :=
  tunnel_id (o_state o') = tunnel_id (o_state o) ∧
  o_sequence o ≤ o_sequence o' ∧
  sequence (o_state o) ≤ sequence (o_state o') ∧
  o_statistics_sequence o ≤ o_statistics_sequence o' ∧
  (sequence (o_state o') = sequence (o_state o) → o_state o' = o_state o) ∧
  (o_statistics_sequence o' = o_statistics_sequence o →
     o_statistics_state o' = o_statistics_state o ∧ o_sample o' = o_sample o) ∧
  (o_finished o = true → o' = o).

Lemma obs_after_refl o : obs_after o o.
Proof. split_and!; auto; lia. Qed.
Lemma obs_after_trans o1 o2 o3 : obs_after o2 o1 → obs_after o3 o2 → obs_after o3 o1.
Proof.
  intros (Ht1 & H1 & Hs1 & Hq1 & Hes1 & Heq1 & Hf1) (Ht2 & H2 & Hs2 & Hq2 & Hes2 & Heq2 & Hf2).
  split_and!; try lia; try congruence.
  - intros E. rewrite Hes2 by lia. apply Hes1. lia.
  - intros E. destruct Heq2 as [-> ->]; [lia|]. apply Heq1. lia.
  - intros Hf. assert (o2 = o1) as -> by auto. auto.
Qed.

Lemma next_sequence_Some o s o' :
  next_sequence o = Some (s, o') →
  s = o_sequence o + 1 ∧ s ≤ u64_max ∧ o' = set_o_sequence (o_sequence o + 1) o.
Proof.
  unfold next_sequence. destruct (checked_add _ _ _) as [n|] eqn:E; [|done]. cbn.
  apply checked_add_Some in E as [-> ?]. by intros [= <- <-].
Qed.

Lemma invalidate_statistics_Some o o' :
  invalidate_statistics o = Some o' →
  o_sequence o + 1 ≤ u64_max ∧
  ∃ st, o' = set_o_statistics_sequence (o_sequence o + 1)
    (set_o_sequence (o_sequence o + 1) (set_o_statistics_state st o)) ∧
  st = (if o_finished o then StatisticsState.Ended
    else if negb (o_enabled o) then StatisticsState.Disabled
    else if bool_decide (is_Some (o_sample o)) || negb (active o) then StatisticsState.Stale
    else StatisticsState.Waiting).
Proof.
  unfold invalidate_statistics. set (st := if o_finished o then _ else _).
  destruct (next_sequence _) as [[s o1]|] eqn:E; [|done]. cbn. intros [= <-].
  apply next_sequence_Some in E as (-> & Hb & ->). cbn in *. eauto.
Qed.

Lemma state_changed_Some o o' :
  state_changed o = Some o' →
  o_sequence o + 2 ≤ u64_max ∧
  ∃ st, o' = set_o_statistics_sequence (o_sequence o + 2)
    (set_o_sequence (o_sequence o + 2) (set_o_statistics_state st
      (set_o_state (set_sequence (o_sequence o + 1) (o_state o)) o))) ∧
  st = (if o_finished o then StatisticsState.Ended
    else if negb (o_enabled o) then StatisticsState.Disabled
    else if bool_decide (is_Some (o_sample o)) || negb (active o) then StatisticsState.Stale
    else StatisticsState.Waiting).
Proof.
  unfold state_changed. destruct (next_sequence _) as [[s o1]|] eqn:E; [|done]. cbn.
  apply next_sequence_Some in E as (-> & Hb & ->).
  intros (Hb2 & st & -> & ->)%invalidate_statistics_Some. cbn in *.
  split; [lia|]. eexists. split; [|done].
  replace (o_sequence o + 1 + 1) with (o_sequence o + 2) by lia. done.
Qed.

(** After a recorded state change the whole invariant holds again, and the new
    observation comes after any one with the old tokens. *)
Lemma state_changed_inv o o' :
  obs_base o → state_changed o = Some o' → obs_inv o'.
Proof.
  intros [Hseq Hstat Hb Hsample Hpend Hfin Hend Hstart] (Hb2 & st & -> & Hst)%state_changed_Some.
  split; [split; cbn; try lia; auto|].
  - intros s Hs. destruct (Hsample s Hs) as (?&?&?). split_and!; [done|lia..].
  - intros p Hp. destruct (Hpend p Hp). split; lia.
  - unfold statistics_meaning. cbn. rewrite Hst.
    destruct (o_finished o), (o_enabled o); cbn; try done. by destruct (_ || _).
Qed.

Lemma state_changed_after o0 o o' :
  obs_base o → o_finished o0 = false → tunnel_id (o_state o) = tunnel_id (o_state o0) →
  o_sequence o = o_sequence o0 → sequence (o_state o) = sequence (o_state o0) →
  o_statistics_sequence o = o_statistics_sequence o0 →
  state_changed o = Some o' → obs_after o' o0.
Proof.
  intros Hbase Hf Ht Hs1 Hs2 Hs3 (Hb2 & st & -> & Hst)%state_changed_Some.
  destruct Hbase. split_and!; cbn; try lia; try done; intros; try lia. congruence.
Qed.
Lemma obs_after_same o o0 :
  o_finished o0 = false → o_state o = o_state o0 → o_sequence o = o_sequence o0 →
  o_statistics_sequence o = o_statistics_sequence o0 →
  o_statistics_state o = o_statistics_state o0 → o_sample o = o_sample o0 → obs_after o o0.
Proof.
  intros Hf Hs Hn Hq Hst Hsm. unfold obs_after. rewrite Hs, Hn, Hq, Hst, Hsm.
  split_and!; auto; congruence.
Qed.
#[export] Hint Resolve obs_after_refl : gp.

(** The operations keep the invariant and come after the observation they start
    from. *)
Definition good_step (o o' : Observation) : Prop := obs_inv o' ∧ obs_after o' o.

Lemma good_step_refl o : obs_inv o → good_step o o.
Proof. intros. split; auto with gp. Qed.

Lemma good_step_changed o0 o o' :
  obs_base o → o_finished o0 = false → tunnel_id (o_state o) = tunnel_id (o_state o0) →
  o_sequence o = o_sequence o0 → sequence (o_state o) = sequence (o_state o0) →
  o_statistics_sequence o = o_statistics_sequence o0 →
  state_changed o = Some o' → good_step o0 o'.
Proof. split; [by eapply state_changed_inv|by eapply state_changed_after]. Qed.

Lemma set_phase_if_changed_good o0 o p o' :
  obs_inv o → o_finished o0 = false → o_finished o = false → p ≠ Ended →
  (o_started o = None → p = Establishing) →
  tunnel_id (o_state o) = tunnel_id (o_state o0) → o_sequence o = o_sequence o0 →
  o_state o = o_state o0 → o_statistics_sequence o = o_statistics_sequence o0 →
  o_statistics_state o = o_statistics_state o0 → o_sample o = o_sample o0 →
  set_phase_if_changed p o = Some o' → good_step o0 o'.
Proof.
  unfold set_phase_if_changed. intros [Hbase Hm] Hf0 Hf Hp Hstart Ht Hs1 Hs2 Hs3 Hs4 Hs5.
  destruct (bool_decide _) eqn:E.
  - intros [= <-]. split; [done|]. by apply obs_after_same.
  - intros Hc. eapply good_step_changed; [|exact Hf0|..|exact Hc]; cbn;
      try done; try (by rewrite Hs2).
    destruct Hbase as [Hseq Hstat Hb Hsample Hpend Hfin Hend Hst]. split; cbn; auto.
    rewrite Hf. symmetry. by apply bool_decide_eq_false_2.
Qed.

Lemma finish_good now o o' : obs_inv o → finish now o = Some o' → good_step o o'.
Proof.
  unfold finish. intros [Hbase Hm]. destruct (o_finished o) eqn:Hf.
  - intros [= <-]. by apply good_step_refl.
  - intros Hc. eapply good_step_changed; [|done|..|exact Hc]; cbn; try done.
    destruct Hbase. split; cbn; eauto. done.
Qed.

Lemma enable_good b c o o' : obs_inv o → enable b o = Some (c, o') → good_step o o'.
Proof.
  unfold enable. intros [Hbase Hm]. destruct (o_finished o || _) eqn:Hf.
  - intros [= <- <-]. by apply good_step_refl.
  - apply orb_false_iff in Hf as [Hf Hne].
    destruct (checked_add _ _ _) as [g|] eqn:Hg; [|done]. cbn.
    destruct (next_sequence _) as [[s o1]|] eqn:E; [|done]. cbn. intros [= <- <-].
    apply next_sequence_Some in E as (-> & Hb & ->). apply checked_add_Some in Hg as [-> ?].
    cbn in *. destruct Hbase as [Hseq Hstat Hbd Hsample Hpend Hfin Hend Hst].
    split; [split; [split; cbn; auto; try lia|]|].
    + intros sm Hs. destruct (Hsample sm Hs) as (?&?&?). split_and!; [done|lia..].
    + intros p Hp. destruct (Hpend p Hp). split; lia.
    + by rewrite Hf.
    + unfold statistics_meaning. cbn. rewrite Hf. by destruct b.
    + split_and!; cbn; try lia; try done; intros; try lia. congruence.
Qed.

Lemma stale_good o st o' s :
  obs_inv o → o_finished o = false → o_enabled o = true →
  st = StatisticsState.Stale →
  ∀ o1, obs_inv o1 → obs_after o1 o → o_finished o1 = false → o_enabled o1 = true →
  next_sequence (set_o_statistics_state st o1) = Some (s, o') →
  good_step o (set_o_statistics_sequence s o').
Proof.
  intros Hi Hf He -> o1 [Hbase Hm] Ha Hf1 He1 (-> & Hb & ->)%next_sequence_Some. cbn in *.
  destruct Hbase as [Hseq Hstat Hbd Hsample Hpend Hfin Hend Hst].
  split; [split; [split; cbn; auto; try lia|]|].
  - intros sm Hs. destruct (Hsample sm Hs) as (?&?&?). split_and!; [done|lia..].
  - unfold statistics_meaning. cbn. by rewrite Hf1, He1.
  - destruct Ha as (?&?&?&?&?&?&?). split_and!; cbn; try lia; try done; intros; try lia.
    congruence.
Qed.

Lemma receive_statistics_good s now o o' :
  obs_inv o → o_finished o = false → receive_statistics s now o = Some o' → good_step o o'.
Proof.
  unfold receive_statistics. intros [Hbase Hm] Hf.
  destruct (o_pending o) as [stamp|] eqn:Hp; [|intros [= <-]; by apply good_step_refl].
  assert (obs_base (set_o_pending None o)) as Hbase'.
  { destruct Hbase. split; cbn; auto; try done. rewrite Hf. done. }
  destruct (_ || _) eqn:Hc.
  - intros [= <-]. split; [by split|]. by apply obs_after_same.
  - cbn in Hc. boolify.
    destruct (next_sequence _) as [[q o1]|] eqn:E; [|done]. cbn. intros [= <-].
    apply next_sequence_Some in E as (-> & Hb & ->). cbn in *.
    destruct Hbase as [Hseq Hstat Hbd Hsample Hpend Hfin Hend Hst].
    split; [split; [split; cbn; auto; try lia|]|].
    + intros sm [= <-]. cbn. split_and!; [done|lia..].
    + done.
    + rewrite Hf. done.
    + unfold statistics_meaning. cbn. rewrite Hf. rewrite H. eauto 10.
    + split_and!; cbn; try lia; try done; intros; try lia. congruence.
Qed.

(** A native event keeps the invariant and moves the tokens forward. *)
Lemma apply_good normalize event now o r o' :
  obs_inv o → apply normalize event now o = Some (r, o') → good_step o o'.
Proof.
  intros Hi. unfold apply. destruct (o_finished o) eqn:Hf.
  { intros [= <- <-]. by apply good_step_refl. }
  pose proof Hi as [Hbase Hm]. pose proof (ob_started _ Hbase) as Hst.
  pose proof (ob_finished _ Hbase) as Hph. rewrite Hf in Hph.
  symmetry in Hph. apply bool_decide_eq_false_1 in Hph.
  destruct event as [c| | | |t|s|]; cbn.
  - destruct (match c with None => _ | Some c => _ end) as [c'|]; [|done]. cbn.
    destruct (_ && _). { intros [= <- <-]. by apply good_step_refl. }
    destruct (checked_add _ _ _) as [r'|]; [|done]. cbn.
    destruct (state_changed _) as [o1|] eqn:Hc; [|done]. cbn. intros [= <- <-].
    eapply good_step_changed; [|exact Hf|..|exact Hc]; cbn; try done.
    destruct Hbase. by split; cbn; auto.
  - set (o1 := match o_started o with None => _ | Some _ => _ end).
    destruct (set_phase_if_changed _ _) as [o2|] eqn:Hc; [|done]. cbn. intros [= <- <-].
    assert (o1 = o ∨ (o_started o = None ∧ o1 = set_o_started (Some now) o)) as Ho1
      by (unfold o1; destruct (o_started o); auto).
    assert (o_started o1 ≠ None) as Hs1 by (unfold o1; destruct (o_started o) eqn:?; cbn; congruence).
    eapply set_phase_if_changed_good; [|exact Hf|..|exact Hc]; try done;
      destruct Ho1 as [->|[_ ->]]; try done.
    split; [|done]. destruct Hbase. by split; cbn; auto.
  - destruct (o_started o) as [st|] eqn:Hs; cbn.
    + destruct (set_phase_if_changed _ _) as [o2|] eqn:Hc; [|done]. cbn. intros [= <- <-].
      eapply set_phase_if_changed_good; [exact Hi|exact Hf|..|exact Hc]; try done. congruence.
    + destruct (set_phase_if_changed _ _) as [o2|] eqn:Hc; [|done]. cbn. intros [= <- <-].
      eapply set_phase_if_changed_good; [exact Hi|exact Hf|..|exact Hc]; done.
  - destruct (o_started o) as [st|] eqn:Hs; cbn.
    + destruct (set_phase_if_changed _ _) as [o2|] eqn:Hc; [|done]. cbn. intros [= <- <-].
      eapply set_phase_if_changed_good; [exact Hi|exact Hf|..|exact Hc]; try done. congruence.
    + intros [= <- <-]. by apply good_step_refl.
  - destruct (bool_decide _). { intros [= <- <-]. by apply good_step_refl. }
    destruct (state_changed _) as [o1|] eqn:Hc; [|done]. cbn. intros [= <- <-].
    eapply good_step_changed; [|exact Hf|..|exact Hc]; cbn; try done.
    destruct Hbase. split; cbn; auto. intros. congruence.
  - destruct (receive_statistics _ _ _) as [o1|] eqn:Hc; [|done]. cbn. intros [= <- <-].
    by eapply receive_statistics_good.
  - destruct (finish _ _) as [o1|] eqn:Hc; [|done]. cbn. intros [= <- <-].
    by eapply finish_good.
Qed.

(** Marking the statistics stale, and recording a request. *)
Lemma mark_stale_good o s o' :
  obs_inv o → o_finished o = false → o_enabled o = true →
  next_sequence (set_o_statistics_state StatisticsState.Stale o) = Some (s, o') →
  good_step o (set_o_statistics_sequence s o').
Proof. intros Hi Hf He Hn. eapply stale_good; eauto with gp. Qed.

Lemma request_failed_good o b :
  obs_inv o → o_finished o = false → good_step o (set_o_request_failed b o).
Proof.
  intros [Hb Hm] Hf. split; [|by apply obs_after_same].
  split; [|done]. destruct Hb. by split; cbn; auto.
Qed.

Lemma request_recorded_good o b now :
  obs_inv o → o_finished o = false →
  good_step o (set_o_request_failed b (set_o_pending (Some {|
    rs_generation := o_generation o; rs_state_sequence := sequence (o_state o);
    rs_issued := now |}) o)).
Proof.
  intros [Hb Hm] Hf. split; [|by apply obs_after_same].
  split; [|done]. destruct Hb as [Hseq Hstat Hbd Hsample Hpend Hfin Hend Hst].
  split; cbn; auto; try done.
  - intros p [= <-]. cbn. lia.
  - rewrite Hf. done.
Qed.

Section monitor_theorems.
Context {W : Type → Type} `{WatchLaws W}.
Variable normalize : Native.Configuration → option TunnelConfiguration.

(** The published update is the observation's projection at some instant. *)
Definition published (m : TunnelMonitor (W:=W)) : Prop :=
  ∃ now, watch_borrow (updates m) = project now (observation m).
Definition monitor_inv (m : TunnelMonitor (W:=W)) : Prop :=
  obs_inv (observation m) ∧ published m.
Definition monitor_after (m m' : TunnelMonitor (W:=W)) : Prop :=
  obs_after (observation m') (observation m).

Lemma project_same now o o' :
  o_state o' = o_state o → o_statistics_sequence o' = o_statistics_sequence o →
  o_statistics_state o' = o_statistics_state o → o_sample o' = o_sample o →
  o_started o' = o_started o → o_ended_elapsed o' = o_ended_elapsed o →
  project now o' = project now o.
Proof. unfold project, elapsed. by intros -> -> -> -> -> ->. Qed.

Lemma publish_good now m o :
  good_step (observation m) o →
  monitor_inv (publish now o m) ∧ monitor_after m (publish now o m).
Proof.
  intros [Hi Ha]. split; [|done]. split; [done|].
  exists now. cbn. apply watch_borrow_replace.
Qed.
Lemma keep_good m o :
  monitor_inv m → good_step (observation m) o →
  (∀ now, project now o = project now (observation m)) →
  monitor_inv (keep o m) ∧ monitor_after m (keep o m).
Proof.
  intros [_ [now Hp]] [Hi Ha] Hsame. split; [|done]. split; [done|].
  exists now. cbn. by rewrite Hsame.
Qed.
Lemma monitor_refl m : monitor_inv m → monitor_inv m ∧ monitor_after m m.
Proof. intros Hm. split; [done|]. apply obs_after_refl. Qed.

Lemma request_sample_good answer now m r m' :
  monitor_inv m → request_sample answer now m = Some (r, m') →
  monitor_inv m' ∧ monitor_after m m'.
Proof.
  intros Hm. pose proof Hm as [Hi _]. unfold request_sample.
  destruct (o_finished (observation m)) eqn:Hf.
  { intros [= <- <-]. by apply monitor_refl. }
  destruct (negb _ || _) eqn:He. { intros [= <- <-]. by apply monitor_refl. }
  boolify. destruct (o_pending (observation m)) as [p|].
  - destruct (_ && _); [|intros [= <- <-]; by apply monitor_refl].
    destruct (next_sequence _) as [[s o]|] eqn:E; [|done]. cbn. intros [= <- <-].
    apply publish_good. by eapply mark_stale_good.
  - destruct answer as [[]|e].
    + intros [= <- <-]. apply keep_good; [done| |done].
      by apply request_recorded_good.
    + intros [= <- <-]. by apply monitor_refl.
    + destruct (next_sequence _) as [[s o]|] eqn:E; [|done]. cbn. intros [= <- <-].
      apply publish_good.
      destruct (request_failed_good (observation m) true) as [Hi' Ha']; [done..|].
      eapply stale_good; [exact Hi|done|done|done|exact Hi'|exact Ha'|done|done|exact E].
Qed.

Lemma monitor_step_good l m m' :
  monitor_inv m → monitor_step normalize (Some m) l = Some m' →
  monitor_inv m' ∧ monitor_after m m'.
Proof.
  intros Hm. pose proof Hm as [Hi _]. destruct l as [e now|b now|a now|now]; cbn.
  - destruct (observing m); [|intros [= <-]; by apply monitor_refl].
    unfold observe. destruct (apply _ _ _ _) as [[r o]|] eqn:E; [|done]. cbn.
    intros [= <-]. apply publish_good. by eapply apply_good.
  - unfold set_statistics_enabled. destruct (enable _ _) as [[c o]|] eqn:E; [|done]. cbn.
    intros [= <-]. destruct c.
    + apply publish_good. by eapply enable_good.
    + unfold enable in E. destruct (_ || _).
      * injection E as <-. destruct m. by apply monitor_refl.
      * destruct (checked_add _ _ _); [|done]. cbn in E.
        by destruct (next_sequence _) as [[]|].
  - destruct (request_sample _ _ _) as [[r m1]|] eqn:E; [|done]. cbn. intros [= <-].
    by eapply request_sample_good.
  - unfold monitor_finish. destruct (finish _ _) as [o|] eqn:E; [|done]. cbn. intros [= <-].
    destruct (publish_good now m o) as [[Hi' Hp] Ha]; [by eapply finish_good|].
    exact (conj (conj Hi' Hp) Ha).
Qed.

Lemma attach_inv id now : monitor_inv (attach (W:=W) id now).
Proof.
  split; [|exists now; apply watch_borrow_channel].
  split; [|done]. unfold u64_max. split; cbn; try done; unfold u64_max; lia || auto.
Qed.

Lemma monitor_runs_None ls : runs (monitor_step (W:=W) normalize) None ls = None.
Proof. by induction ls. Qed.

Lemma monitor_runs_good ls m m' :
  monitor_inv m → runs (monitor_step normalize) (Some m) ls = Some m' →
  monitor_inv m' ∧ monitor_after m m'.
Proof.
  revert m. induction ls as [|l ls IH]; intros m Hm.
  - intros [= <-]. by apply monitor_refl.
  - change (runs _ (Some m) (l :: ls)) with
      (runs (monitor_step normalize) (monitor_step normalize (Some m) l) ls).
    destruct (monitor_step normalize (Some m) l) as [m1|] eqn:E.
    + intros Hr. destruct (monitor_step_good l m m1 Hm E) as [Hm1 Ha1].
      destruct (IH m1 Hm1 Hr) as [Hm2 Ha2]. split; [done|].
      by eapply obs_after_trans.
    + by rewrite monitor_runs_None.
Qed.

(** C19: the ordering tokens of a tunnel's updates. Between any two points of a
    monitor's life neither the state sequence nor the statistics sequence goes
    back, an unchanged state sequence means an unchanged state, an unchanged
    statistics sequence means the same statistics state and sample, and the
    published update is always the projection of the current observation. *)
Theorem monitor_updates_ordered id start before between m1 m2 :
  runs (monitor_step normalize) (Some (attach (W:=W) id start)) before = Some m1 →
  runs (monitor_step normalize) (Some m1) between = Some m2 →
  let s1 := o_state (observation m1) in
  let s2 := o_state (observation m2) in
  sequence s1 ≤ sequence s2 ∧
  (sequence s2 = sequence s1 → s2 = s1) ∧
  o_statistics_sequence (observation m1) ≤ o_statistics_sequence (observation m2) ∧
  (o_statistics_sequence (observation m2) = o_statistics_sequence (observation m1) →
     o_statistics_state (observation m2) = o_statistics_state (observation m1) ∧
     o_sample (observation m2) = o_sample (observation m1)) ∧
  tunnel_id s2 = id ∧
  ∃ now, watch_borrow (updates m2) = project now (observation m2).
Proof.
  intros H1 H2. apply monitor_runs_good in H1 as [Hi1 Ha1]; [|apply attach_inv].
  apply monitor_runs_good in H2 as [[Hi2 Hp] Ha2]; [|done].
  destruct Ha1 as (Ht1&_). destruct Ha2 as (Ht2&?&?&?&?&?&?).
  cbn zeta. split_and!; try done. by rewrite Ht2, Ht1.
Qed.

(** What a fresh sample promises. Whenever the update a subscriber reads says
    [Fresh], the tunnel is connected over an active transport, is not finished,
    and the sample it carries was acquired in exactly the state and under exactly
    the statistics token the update names. *)
Lemma fresh_statistics_current id start ls m v :
  runs (monitor_step normalize) (Some (attach (W:=W) id start)) ls = Some m →
  update_statistics (watch_borrow (updates m)) = StatisticsAvailable v →
  tv_state v = StatisticsState.Fresh →
  tv_phase v = Connected ∧ is_active (tv_transport v) = true ∧
  o_enabled (observation m) = true ∧ o_finished (observation m) = false ∧
  ∃ s, tv_sample v = Some s ∧ ts_tunnel_id s = id ∧
    ts_state_sequence s = tv_state_sequence v ∧ ts_sequence s = tv_sequence v.
Proof.
  intros H1 Hv Hfresh. apply monitor_runs_good in H1 as [[[Hb Hm] [now Hp]] Ha1];
    [|apply attach_inv].
  rewrite Hp in Hv. injection Hv as <-. cbn in *.
  unfold statistics_meaning in Hm. rewrite Hfresh in Hm.
  destruct (o_finished _); [done|]. destruct (o_enabled _); [|done].
  destruct Hm as (Hact & s & Hs & Hseq & Hq). unfold active in Hact. boolify.
  split_and!; try done. rewrite Hs. cbn. exists (sample_value s). split_and!; try done.
  destruct (ob_sample _ Hb s Hs) as [-> _]. apply Ha1.
Qed.

(** A finished tunnel stays finished. After [finish] the published phase and
    statistics are [Ended], no event, request or setting changes the observation
    any more, and the elapsed time every later view shows is the one at the end. *)
Lemma finished_tunnel_frozen id start before now m1 m2 after m3 :
  runs (monitor_step normalize) (Some (attach (W:=W) id start)) before = Some m1 →
  monitor_finish now m1 = Some m2 →
  runs (monitor_step normalize) (Some m2) after = Some m3 →
  observation m3 = observation m2 ∧
  phase (o_state (observation m3)) = Ended ∧
  transport (o_state (observation m3)) = Unavailable ∧
  o_statistics_state (observation m3) = StatisticsState.Ended ∧
  ∀ t, elapsed_ms (monitor_state t m3) = elapsed now (observation m1).
Proof.
  intros H1 Hfin H3. apply monitor_runs_good in H1 as [Hi1 Ha1]; [|apply attach_inv].
  assert (monitor_step normalize (Some m1) (Finish now) = Some m2) as Hstep by done.
  apply monitor_step_good in Hstep as [Hi2 Ha2]; [|done].
  apply monitor_runs_good in H3 as [_ Ha3]; [|done].
  assert (o_finished (observation m2) = true ∧
          o_ended_elapsed (observation m2) = Some (elapsed now (observation m1)))
    as [Hf He].
  { revert Hfin. unfold monitor_finish, finish.
    destruct (o_finished (observation m1)) eqn:Hf1.
    - cbn. intros [= <-]. cbn. split; [done|]. unfold elapsed.
      destruct Hi1 as [[Hb _] _]. destruct (ob_ended _ Hb Hf1) as (_&_&_&[e He]).
      by rewrite He.
    - destruct (state_changed _) as [o|] eqn:E; [|done]. cbn. intros [= <-].
      apply state_changed_Some in E as (_ & st & -> & _). done. }
  assert (observation m3 = observation m2) as -> by (apply Ha3; done).
  destruct Hi2 as [[Hb Hm] _]. unfold statistics_meaning in Hm. rewrite Hf in Hm.
  pose proof (ob_finished _ Hb) as Hp. rewrite Hf in Hp. symmetry in Hp. boolify.
  destruct (ob_ended _ Hb Hf) as (_&_&Htr&_). split_and!; try done.
  intros t. unfold monitor_state. cbn. unfold elapsed at 1.
  assert (o_ended_elapsed (observation m3) = Some (elapsed now (observation m1))) as ->; [|done].
  destruct Ha3 as (_&_&_&_&_&_&->); done.
Qed.
End monitor_theorems.

(** A run that connects, enables the sampler, and receives one answer. *)
Module MonitorExample.
Import Concrete.
Definition id : Uuid := 7.
Definition no_address (_ : Native.Configuration) : option TunnelConfiguration := None.
Definition counters : Native.Statistics := {|
  Native.received_bytes := 10; Native.sent_bytes := 20;
  Native.received_packets := 1; Native.sent_packets := 2 |}.
Definition connected : list monitor_label :=
  [Observe Native.EvEstablished 5000000; Observe (Native.EvTransport Native.SslTls) 6000000;
   SetEnabled true 7000000].
Definition sampled : list monitor_label :=
  [Request (Ok true) 8000000; Observe (Native.EvStatistics counters) 9000000].
Definition start : TunnelMonitor (W:=Concrete.cell) := attach id 1000000.
Definition or_start (m : option (TunnelMonitor (W:=Concrete.cell))) := default start m.
Definition m1 := or_start (runs (monitor_step no_address) (Some start) connected).
Definition m2 := or_start (runs (monitor_step no_address) (Some m1) sampled).
Definition m3 := or_start (monitor_finish 12000000 m2).
Definition v2 : TunnelStatisticsView :=
  match update_statistics (watch_borrow (updates m2)) with
  | StatisticsAvailable v => v
  | _ => {| tv_sequence := 0; tv_tunnel_id := 0; tv_state_sequence := 0;
            tv_phase := Ended; tv_transport := Unavailable;
            tv_state := StatisticsState.Ended; tv_elapsed_ms := 0;
            tv_sample_age_ms := None; tv_sample := None |}
  end.

Lemma monitor_updates_ordered_witness :
  sequence (o_state (observation m2)) = 4 ∧
  o_statistics_sequence (observation m1) < o_statistics_sequence (observation m2) ∧
  (sequence (o_state (observation m2)) = sequence (o_state (observation m1)) →
   o_state (observation m2) = o_state (observation m1)).
Proof.
  split; [by vm_compute|]. split; [by vm_compute|].
  refine (proj1 (proj2 (monitor_updates_ordered no_address id 1000000 connected sampled
    m1 m2 _ _))); by vm_compute.
Defined.

Lemma fresh_statistics_current_witness :
  ∃ s, tv_sample v2 = Some s ∧ ts_tunnel_id s = id ∧
    ts_state_sequence s = tv_state_sequence v2 ∧ ts_sequence s = tv_sequence v2.
Proof.
  refine (proj2 (proj2 (proj2 (proj2 (fresh_statistics_current no_address id 1000000
    (connected ++ sampled) m2 v2 _ _ _))))); by vm_compute.
Defined.

Lemma finished_tunnel_frozen_witness :
  observation m3 = observation m3 ∧
  ∀ t, elapsed_ms (monitor_state t m3) = 7.
Proof.
  split; [done|].
  refine (proj2 (proj2 (proj2 (proj2 (finished_tunnel_frozen no_address id 1000000
    (connected ++ sampled) 12000000 m2 m3 (sampled ++ connected) m3 _ _ _)))));
    by vm_compute.
Defined.
End MonitorExample.
