(* ===== verification/Session.v ===== *)
(** Gateways, session data and the connection plan (crates/gpapi/src/gateway/mod.rs,
    session.rs, session/connection.rs, session/detection.rs,
    session/desktop/connection_plan.rs, session/desktop/network/binding.rs).

    An [anyhow] error is its message. *)
From S2P Require Import Prelude Utf8 Text ThirdParty.
From Stdlib Require Import Strings.Ascii.

#[local] Open Scope N_scope.

(** * Addresses of the standard library

    An IPv4 address is its 32 bits, an IPv6 address its 128 bits. *)
Inductive IpAddr := V4 (ip : N) | V6 (ip : N).
#[export] Instance IpAddr_eq_dec : EqDecision IpAddr.
Proof. solve_decision. Defined.

Inductive SocketAddr :=
  | SocketV4 (v4_ip : N) (v4_port : N)
  | SocketV6 (v6_ip : N) (v6_port : N) (flowinfo : N) (scope_id : N).

Definition socket_ip (a : SocketAddr) : IpAddr :=
  match a with SocketV4 ip _ => V4 ip | SocketV6 ip _ _ _ => V6 ip end.
Definition socket_port (a : SocketAddr) : N :=
  match a with SocketV4 _ port => port | SocketV6 _ port _ _ => port end.
Definition is_ipv4 (a : SocketAddr) : bool :=
  match a with SocketV4 _ _ => true | SocketV6 _ _ _ _ => false end.

Definition is_unspecified (a : IpAddr) : bool :=
  match a with V4 ip | V6 ip => ip =? 0 end.
Definition is_loopback (a : IpAddr) : bool :=
  match a with V4 ip => N.shiftr ip 24 =? 127 | V6 ip => ip =? 1 end.
Definition is_multicast (a : IpAddr) : bool :=
  match a with V4 ip => N.shiftr ip 28 =? 14 | V6 ip => N.shiftr ip 120 =? 255 end.
(** fe80::/10 *)
Definition is_unicast_link_local (ip : N) : bool := N.shiftr ip 118 =? 1018.

(** * Gateways (gateway/mod.rs) *)
Inductive GatewayKind := Internal | External.
#[export] Instance GatewayKind_eq_dec : EqDecision GatewayKind.
Proof. solve_decision. Defined.
Inductive GatewaySelection := Auto | Manual.
Module IpPreference.
Inductive t := Auto | Ipv4 | Ipv6.
End IpPreference.

Definition kind_login_param (k : GatewayKind) : string :=
  match k with Internal => "yes" | External => "no" end.
Definition selection_login_param (s : GatewaySelection) : string :=
  match s with Auto => "auto" | Manual => "manual" end.

Record PriorityRule := { rule_name : string; rule_priority : N }.
Record Gateway := {
  gateway_name : string;
  gateway_address : string;
  gateway_kind : GatewayKind;
  gateway_priority : N;
  priority_rules : list PriorityRule;
}.
Definition gateway_new (name address : string) : Gateway := {|
  gateway_name := name; gateway_address := address; gateway_kind := External;
  gateway_priority := 0; priority_rules := [];
|}.
Definition gateway_display (g : Gateway) : string :=
  gateway_name g +:+ " (" +:+ gateway_address g +:+ ")".

Record GatewayLoginContext := {
  login_host : string;
  login_name : string;
  login_kind : GatewayKind;
  login_selection : GatewaySelection;
  login_connect_method : option string;
  login_client_ip : option string;
}.
Definition login_context_new (g : Gateway) (s : GatewaySelection) : GatewayLoginContext := {|
  login_host := gateway_address g;
  login_name := if is_empty (gateway_name g) then gateway_address g else gateway_name g;
  login_kind := gateway_kind g;
  login_selection := s;
  login_connect_method := None;
  login_client_ip := None;
|}.
Definition nonempty (o : option string) : option string :=
  match o with Some s => if is_empty s then None else Some s | None => None end.
Definition with_connect_method (m : option string) (c : GatewayLoginContext) :
    GatewayLoginContext := {|
  login_host := login_host c; login_name := login_name c; login_kind := login_kind c;
  login_selection := login_selection c; login_connect_method := nonempty m;
  login_client_ip := login_client_ip c;
|}.
Definition with_client_ip (ip : option string) (c : GatewayLoginContext) :
    GatewayLoginContext := {|
  login_host := login_host c; login_name := login_name c; login_kind := login_kind c;
  login_selection := login_selection c; login_connect_method := login_connect_method c;
  login_client_ip := nonempty ip;
|}.

(** * Session data (session.rs) *)
Record SessionWarning := { prior_secs : N; warning_message : string }.
Record SessionInfo := {
  lifetime_secs : option N;
  user_expires : option N;
  expires_in_human : option string;
  lifetime_warning : option SessionWarning;
  inactivity_warning : option SessionWarning;
  admin_logout_message : option string;
  allow_extend_session : bool;
}.

Section session_info.
(** [humantime::format_duration] of a number of seconds, and the current time in
  seconds as a [u32]. *)
Variable format_duration_secs : N → string.

Definition build_human_readable_expiry (now : N) (expires lifetime : option N) :
  option string :=
match expires with
| Some expires => Some (format_duration_secs (expires - now))
| None => format_duration_secs <$> lifetime
end.

Definition with_computed_human_times (now : N) (i : SessionInfo) : SessionInfo := {|
lifetime_secs := lifetime_secs i;
user_expires := user_expires i;
expires_in_human := build_human_readable_expiry now (user_expires i) (lifetime_secs i);
lifetime_warning := lifetime_warning i;
inactivity_warning := inactivity_warning i;
admin_logout_message := admin_logout_message i;
allow_extend_session := allow_extend_session i;
|}.

Definition from_vpn_session_fields (now : N) (lifetime expires : option N)
  (warning : option SessionWarning) (extend : bool) : SessionInfo :=
with_computed_human_times now {|
  lifetime_secs := lifetime;
  user_expires := expires;
  expires_in_human := None;
  lifetime_warning := warning;
  inactivity_warning := None;
  admin_logout_message := None;
  allow_extend_session := extend;
|}.

Definition rescheduled_after_extension (now : N) (i : SessionInfo) : option SessionInfo :=
lifetime ← lifetime_secs i;
Some (with_computed_human_times now {|
  lifetime_secs := lifetime_secs i;
  user_expires := Some (saturating_add u32_max now lifetime);
  expires_in_human := expires_in_human i;
  lifetime_warning := lifetime_warning i;
  inactivity_warning := inactivity_warning i;
  admin_logout_message := admin_logout_message i;
  allow_extend_session := allow_extend_session i;
|}).
End session_info.

(** * Authentication and policy (session/connection.rs) *)
Inductive SessionMode := Tunnel | NonTunnel.
#[export] Instance SessionMode_eq_dec : EqDecision SessionMode.
Proof. solve_decision. Defined.
Inductive MaintenanceState := Authenticated | Healthy | MaintenanceRejected.
#[export] Instance MaintenanceState_eq_dec : EqDecision MaintenanceState.
Proof. solve_decision. Defined.
Inductive SessionEndReason :=
  | InvalidCookie | NetworkChanged | AllMembersFailed | AuthorizationRevoked.

Record GatewaySessionSummary := {
  summary_gateway : Gateway;
  summary_mode : SessionMode;
  summary_client_ip : option string;
  summary_client_ipv6 : option string;
  maintenance : MaintenanceState;
}.

Record GatewayAuthentication := { cookie : string; connection_type : string }.

Definition authentication_mode (a : GatewayAuthentication) : SessionMode :=
  if String.eqb (connection_type a) "tunnel" then Tunnel else NonTunnel.

Section authentication.
Context `{UrlCrate}.

(** Exactly one value under [key], and it is not empty. *)
Definition one_nonempty (key : string) (params : list (string * string)) : bool :=
match List.filter (λ p, String.eqb p.1 key) params with
| [(_, value)] => negb (is_empty value)
| _ => false
end.

Definition authentication_new (c t : string) : result string GatewayAuthentication :=
_ ← ensure (negb (is_empty c) && (slen c <=? 64 * 1024))
  "Gateway authentication cookie is missing or too large";
let params := form_urlencoded_parse c in
_ ← ensure (one_nonempty "authcookie" params)
  "Gateway authentication requires one nonempty authcookie";
_ ← ensure (one_nonempty "user" params)
  "Gateway authentication requires one nonempty user";
_ ← ensure (negb (trim_is_empty t) && negb (String.eqb t "(null)") && negb (String.eqb t "-1"))
  "Gateway connection type is missing";
Ok {| cookie := c; connection_type := t |}.
End authentication.

Record InternalSessionPolicy := { hip_interval_secs : N; collect_hip_data : bool }.
Definition policy_default : InternalSessionPolicy :=
  {| hip_interval_secs := 3600; collect_hip_data := true |}.
Definition policy_new (secs : N) (collect : bool) : result string InternalSessionPolicy :=
  _ ← ensure (0 <? secs) "HIP report interval must be positive";
  _ ← ensure (bool_decide (is_Some (checked_mul u32_max secs 1000)))
    "HIP report interval exceeds the supported range";
  Ok {| hip_interval_secs := secs; collect_hip_data := collect |}.

(** * Internal host detection (session/detection.rs) *)
Record DetectionTarget := { target_address : IpAddr; target_hostname : string }.
Record InternalHostDetection := { targets : list DetectionTarget }.

Definition validate_target (address : IpAddr) (hostname : string) : result string () :=
  _ ← ensure (negb (is_unspecified address) && negb (is_loopback address) &&
              negb (is_multicast address))
    "Invalid internal detection address";
  ensure (negb (is_empty hostname) && (slen hostname <=? 253) &&
          all_bytes (λ b, is_ascii_alphanumeric b || (b =? 46) || (b =? 45) || (b =? 95)) hostname)
    "Invalid internal detection hostname".

(** [iter().map(..).collect::<Result<Vec<_>, _>>()]: the first error wins. *)
Fixpoint validate_targets (l : list (IpAddr * string)) : result string (list DetectionTarget) :=
  match l with
  | [] => Ok []
  | (address, hostname) :: l =>
      _ ← validate_target address hostname;
      l ← validate_targets l;
      Ok ({| target_address := address; target_hostname := hostname |} :: l)
  end.
Definition detection_new (l : list (IpAddr * string)) : result string InternalHostDetection :=
  _ ← ensure (negb (bool_decide (l = [])) && bool_decide (length l ≤ 2)%nat)
    "Invalid internal detection target count";
  l ← validate_targets l;
  Ok {| targets := l |}.

(** * The physical binding (session/desktop/network/binding.rs) *)
Record ClientAddresses := { addr_ipv4 : option N; addr_ipv6 : option N }.

Record GatewayBinding := {
  endpoint : SocketAddr;
  binding_source : SocketAddr;
  binding_interface : string;
  interface_index : N;
  addresses : ClientAddresses;
  network_fingerprint : option string;
}.

Definition v6_scope_valid (index : N) (a : SocketAddr) : result string () :=
  match a with
  | SocketV4 _ _ => Ok ()
  | SocketV6 ip _ flowinfo scope =>
      _ ← ensure (flowinfo =? 0) "Gateway IPv6 flow information is invalid";
      _ ← ensure ((scope =? 0) || (scope =? index))
        "Gateway IPv6 scope differs from its interface";
      ensure (negb (is_unicast_link_local ip) || (scope =? index))
        "Gateway IPv6 scope is missing"
  end.

Definition binding_new (e s : SocketAddr) (interface : string) (index : N)
    (addrs : ClientAddresses) (fingerprint : option string) : result string GatewayBinding :=
  _ ← ensure (match fingerprint with
              | None => true
              | Some f => (slen f =? 64) && all_bytes is_ascii_hexdigit f
              end) "Physical network fingerprint is invalid";
  _ ← ensure (negb (socket_port e =? 0) && negb (is_unspecified (socket_ip e)) &&
              negb (is_multicast (socket_ip e))) "Gateway endpoint is invalid";
  _ ← ensure ((socket_port s =? 0) && negb (is_unspecified (socket_ip s)) &&
              negb (is_multicast (socket_ip s))) "Gateway source is invalid";
  _ ← ensure (Bool.eqb (is_ipv4 e) (is_ipv4 s)) "Gateway address families differ";
  _ ← ensure (negb (is_empty interface) && (slen interface <? 64) &&
              negb (contains_nul interface) && negb (index =? 0)) "Gateway interface is invalid";
  _ ← v6_scope_valid index e;
  _ ← v6_scope_valid index s;
  _ ← match socket_ip s with
      | V4 ip => ensure (bool_decide (addr_ipv4 addrs = Some ip))
          "Gateway IPv4 source differs from its identity"
      | V6 ip => ensure (bool_decide (addr_ipv6 addrs = Some ip))
          "Gateway IPv6 source differs from its identity"
      end;
  Ok {| endpoint := e; binding_source := s; binding_interface := interface;
        interface_index := index; addresses := addrs; network_fingerprint := fingerprint |}.

Section servers.
Context `{UrlCrate}.

(** utils/mod.rs, and the origin check of session/transport/binding.rs. [port_text]
  is the decimal text of a port. *)
Definition parse_url (s : string) : result string Url := ok_or "invalid URL" (url_parse s).

Variable port_text : N → string.

Definition normalize_server (server : string) : result string string :=
let server := if String.prefix "https://" server || String.prefix "http://" server
              then server else "https://" +:+ server in
url ← parse_url server;
host ← ok_or "Invalid server URL: missing host" (url_host_str url);
let port := match url_port url with None => "" | Some p => ":" +:+ port_text p end in
Ok (url_scheme url +:+ "://" +:+ host +:+ port).

Definition gateway_origin (server : string) : result string Url :=
let server := if String.prefix "https://" server then server else "https://" +:+ server in
origin ← parse_url server;
_ ← ensure (String.eqb (url_scheme origin) "https" && is_empty (url_username origin) &&
            bool_decide (url_password origin = None) && String.eqb (url_path origin) "/" &&
            bool_decide (url_query origin = None) && bool_decide (url_fragment origin = None))
  "Gateway endpoint must be an HTTPS origin";
Ok origin.

Definition validate_server (b : GatewayBinding) (server : string) : result string () :=
origin ← gateway_origin server;
_ ← ensure (bool_decide (url_port_or_known_default origin = Some (socket_port (endpoint b))))
  "Gateway endpoint port differs";
let literal := match url_host origin with
               | Some (HostIpv4 ip) => Some (V4 ip)
               | Some (HostIpv6 ip) => Some (V6 ip)
               | _ => None
               end in
match literal with
| Some ip => ensure (bool_decide (socket_ip (endpoint b) = ip)) "Literal gateway endpoint differs"
| None => Ok ()
end.

(** * The connection plan (session/desktop/connection_plan.rs) *)
Record AuthenticatedGateway := {
gateway : Gateway;
authentication : GatewayAuthentication;
binding : option GatewayBinding;
}.
Inductive GatewayFailure := AuthenticationRejected | Unreachable | TunnelFailed.
Record GatewayFailureSummary := { failed_gateway : Gateway; failure : GatewayFailure }.

Record ConnectionPlan := {
members : list AuthenticatedGateway;
failures : list GatewayFailureSummary;
policy : InternalSessionPolicy;
internal_detection : option InternalHostDetection;
}.

Definition member_mode (m : AuthenticatedGateway) : SessionMode :=
authentication_mode (authentication m).
Definition member_internal (m : AuthenticatedGateway) : bool :=
bool_decide (gateway_kind (gateway m) = Internal).

(** The loop over the members; [hosts] are the normalised servers met so far. *)
Fixpoint plan_hosts (mode : SessionMode) (hosts : gset string)
  (l : list AuthenticatedGateway) : result string () :=
match l with
| [] => Ok ()
| m :: l =>
    _ ← (if bool_decide (mode = NonTunnel) then
           b ← ok_or "Non-tunnel session has no physical binding" (binding m);
           validate_server b (gateway_address (gateway m))
         else Ok ());
    host ← normalize_server (gateway_address (gateway m));
    _ ← ensure (negb (bool_decide (host ∈ hosts))) "Connection plan has duplicate gateways";
    plan_hosts mode ({[host]} ∪ hosts) l
end.

Definition plan_new (l : list AuthenticatedGateway) (fs : list GatewayFailureSummary)
  (p : InternalSessionPolicy) : result string ConnectionPlan :=
match l with
| [] => Err "Connection plan has no authenticated gateways"
| first :: _ =>
    _ ← ensure (bool_decide (length l ≤ 64)%nat && bool_decide (length fs ≤ 64)%nat)
      "Connection plan exceeds its gateway limit";
    let mode := member_mode first in
    _ ← ensure (forallb (λ m, bool_decide (member_mode m = mode)) l)
      "Mixed tunnel and non-tunnel sessions are unsupported";
    _ ← ensure (negb (bool_decide (mode = NonTunnel)) || forallb member_internal l)
      "Non-tunnel sessions require freshly discovered internal gateways";
    _ ← ensure (bool_decide (length l = 1)%nat || forallb member_internal l)
      "Multiple authenticated gateways require an internal connection";
    _ ← plan_hosts mode ∅ l;
    Ok {| members := l; failures := fs; policy := p; internal_detection := None |}
end.

Definition with_internal_detection (d : option InternalHostDetection) (p : ConnectionPlan) :
  ConnectionPlan :=
{| members := members p; failures := failures p; policy := policy p; internal_detection := d |}.

(** [members[0]] panics on an empty plan; [None]. *)
Definition plan_mode (p : ConnectionPlan) : option SessionMode := member_mode <$> head (members p).
End servers.

(** * Theorems *)

(** What a plan promises the service: a bounded, nonempty set of gateways with one
    session mode and pairwise different hosts; several gateways, or any without a
    tunnel, are internal; without a tunnel every gateway is bound to the physical
    network of its own server. *)
Record plan_valid `{UrlCrate} (port_text : N → string) (l : list AuthenticatedGateway)
    (fs : list GatewayFailureSummary) (mode : SessionMode) : Prop := {
  pv_size : (1 ≤ length l ≤ 64)%nat ∧ (length fs ≤ 64)%nat;
  pv_mode m : m ∈ l → member_mode m = mode;
  pv_internal m : (mode = NonTunnel ∨ length l ≠ 1%nat) → m ∈ l → gateway_kind (gateway m) = Internal;
  pv_bound m : mode = NonTunnel → m ∈ l →
    ∃ b, binding m = Some b ∧ validate_server b (gateway_address (gateway m)) = Ok ();
  pv_hosts : ∃ hosts, NoDup hosts ∧
    Forall2 (λ m host, normalize_server port_text (gateway_address (gateway m)) = Ok host) l hosts;
}.

Section plan_theorems.
Context `{UrlCrate} (port_text : N → string).

Lemma plan_hosts_Ok mode hosts l :
plan_hosts port_text mode hosts l = Ok () ↔
(∀ m, mode = NonTunnel → m ∈ l →
   ∃ b, binding m = Some b ∧ validate_server b (gateway_address (gateway m)) = Ok ()) ∧
∃ hs, NoDup hs ∧ (∀ h, h ∈ hs → h ∉ hosts) ∧
  Forall2 (λ m host, normalize_server port_text (gateway_address (gateway m)) = Ok host) l hs.
Proof.
revert hosts. induction l as [|m l IH]; intros hosts; cbn [plan_hosts].
- split; [|done]. intros _. split; [intros m _ Hm; inversion Hm|].
  exists []. split_and!; [constructor|intros h Hh; inversion Hh|constructor].
- split.
  + intros Hr. bind_inv Hr. destruct x, x1. boolify.
    apply IH in Hr as (Hbound & hs & Hnd & Hfresh & Hall).
    split.
    * intros m' Hm' [->|Hin]%elem_of_cons; [|by apply Hbound].
      rewrite bool_decide_eq_true_2 in Hx by done.
      destruct (binding m) as [b|]; [|done]. by exists b.
    * exists (x0 :: hs). split_and!; [|intros h' [->|Hin]%elem_of_cons; [done|]|by constructor].
      -- constructor; [|done]. intros Hin. apply Hfresh in Hin. set_solver.
      -- apply Hfresh in Hin. set_solver.
  + intros (Hbound & hs & Hnd & Hfresh & Hall).
    inversion Hall as [|? h ? hs' Hn Hall']; subst. inversion Hnd as [|? ? Hh Hnd']; subst.
    assert ((if bool_decide (mode = NonTunnel) then
       b ← ok_or "Non-tunnel session has no physical binding" (binding m);
       validate_server b (gateway_address (gateway m)) else Ok ()) = Ok ()) as ->.
    { case_bool_decide; [|done]. destruct (Hbound m) as (b & -> & Hv); [done|left|]. done. }
    cbn. rewrite Hn. cbn. rewrite bool_decide_eq_false_2 by (apply Hfresh; left). cbn.
    apply IH. split; [intros m' Hm' Hin; apply Hbound; [done|by right]|].
    exists hs'. split_and!; [done| |done].
    intros h' Hin. assert (h' ∉ hosts) by (apply Hfresh; by right). set_solver.
Qed.

(** [ConnectionPlan::new] accepts exactly the valid plans: it succeeds with the
  members, failures and policy it was given just when there is a mode for which
  [plan_valid] holds, and every other input is an error. *)
Lemma plan_new_iff l fs p plan :
plan_new port_text l fs p = Ok plan ↔
plan = {| members := l; failures := fs; policy := p; internal_detection := None |} ∧
∃ mode, plan_valid port_text l fs mode.
Proof.
split.
- unfold plan_new. destruct l as [|first l']; [done|]. set (l := first :: l') in *.
  intros Hr. bind_inv Hr. injection Hr as <-. destruct x3.
  rename Hx into H1, Hx0 into H2, Hx1 into H3, Hx2 into H4.
  apply plan_hosts_Ok in Hx3 as (Hbound & hs & Hnd & _ & Hall).
  boolify. rewrite forallb_elem in H2.
  split; [done|]. exists (member_mode first). split.
  + cbn in *. lia.
  + intros m Hm. apply H2 in Hm. by boolify.
  + intros m Hor Hm. assert (forallb member_internal l = true) as Hi.
    { destruct Hor as [Hmode|Hlen].
      - by rewrite bool_decide_eq_true_2 in H3.
      - by rewrite bool_decide_eq_false_2 in H4. }
    rewrite forallb_elem in Hi. apply Hi in Hm. unfold member_internal in Hm. by boolify.
  + by apply Hbound.
  + by exists hs.
- intros (-> & mode & [[Hlen Hfs] Hmode Hint Hbound Hhosts]). unfold plan_new.
  destruct l as [|first l']; [cbn in Hlen; lia|]. set (l := first :: l') in *.
  assert (member_mode first = mode) as -> by (apply Hmode; left).
  assert (mode = NonTunnel ∨ length l ≠ 1%nat → forallb member_internal l = true) as Hall.
  { intros Hor. apply forallb_elem. intros m Hm. apply bool_decide_eq_true_2. by apply Hint. }
  apply result_bind_Ok. exists (). split.
  { apply ensure_Ok, andb_true_iff. split; apply bool_decide_eq_true_2; lia. }
  cbn zeta. apply result_bind_Ok. exists (). split.
  { apply ensure_Ok, forallb_elem. intros m Hm. apply bool_decide_eq_true_2. by apply Hmode. }
  apply result_bind_Ok. exists (). split.
  { apply ensure_Ok. case_bool_decide; [|done]. rewrite Hall; auto. }
  apply result_bind_Ok. exists (). split.
  { apply ensure_Ok. case_bool_decide; [done|]. rewrite Hall; auto. }
  apply result_bind_Ok. exists (). split; [|done].
  apply plan_hosts_Ok. split; [auto|]. destruct Hhosts as (hs & Hnd & Hh).
  exists hs. split_and!; [done|set_solver|done].
Qed.

(** A binding is only ever used for the network it was made for. A binding that
  [GatewayBinding::new] built and that [validate_server] accepts for a server has
  that server's port, its address when the server is an address literal, and an
  unspecified source port on an interface of its own whose address is the recorded
  client address of the endpoint's family. *)
Lemma binding_matches_server e s interface index addrs fp b server origin :
binding_new e s interface index addrs fp = Ok b →
validate_server b server = Ok () →
gateway_origin server = Ok origin →
url_port_or_known_default origin = Some (socket_port (endpoint b)) ∧
socket_port (endpoint b) ≠ 0 ∧ socket_port (binding_source b) = 0 ∧
interface_index b ≠ 0 ∧
is_ipv4 (endpoint b) = is_ipv4 (binding_source b) ∧
match socket_ip (binding_source b) with
| V4 ip => addr_ipv4 (addresses b) = Some ip
| V6 ip => addr_ipv6 (addresses b) = Some ip
end ∧
match url_host origin with
| Some (HostIpv4 ip) => socket_ip (endpoint b) = V4 ip
| Some (HostIpv6 ip) => socket_ip (endpoint b) = V6 ip
| _ => True
end.
Proof.
unfold binding_new, validate_server. intros Hn Hv Ho. rewrite Ho in Hv.
bind_inv Hn. injection Hn as <-. cbn in *. bind_inv Hv. boolify.
apply Bool.eqb_prop in Hx2. split_and!; try done.
- destruct (socket_ip s); apply ensure_Ok in Hx6; by boolify.
- destruct (url_host origin) as [[d|ip|ip]|]; try done; apply ensure_Ok in Hv; by boolify.
Qed.
End plan_theorems.

Module PlanExample.
Import Concrete.
Definition server : string := "198.51.100.7".
Definition no_port (_ : N) : string := "".
Definition client : ClientAddresses := {| addr_ipv4 := Some 3221225989; addr_ipv6 := None |}.
Definition bound : GatewayBinding := {|
endpoint := SocketV4 3325256711 443; binding_source := SocketV4 3221225989 0;
binding_interface := "eth0"; interface_index := 2; addresses := client;
network_fingerprint := None |}.
Definition member : AuthenticatedGateway := {|
gateway := {| gateway_name := "gw"; gateway_address := server; gateway_kind := Internal;
              gateway_priority := 0; priority_rules := [] |};
authentication := {| cookie := "authcookie=token&user=alice"; connection_type := "none" |};
binding := Some bound |}.
Definition plan : ConnectionPlan := {|
members := [member]; failures := []; policy := policy_default; internal_detection := None |}.

Example plan_accepted : plan_new no_port [member] [] policy_default = Ok plan.
Proof. by vm_compute. Qed.
Example plan_duplicate :
plan_new no_port [member; member] [] policy_default =
Err "Connection plan has duplicate gateways".
Proof. by vm_compute. Qed.

Lemma binding_matches_server_witness :
url_port_or_known_default gateway_url = Some (socket_port (endpoint bound)) ∧
socket_ip (endpoint bound) = V4 3325256711.
Proof.
pose proof (binding_matches_server (SocketV4 3325256711 443) (SocketV4 3221225989 0) "eth0" 2
  client None bound server gateway_url
  ltac:(by vm_compute) ltac:(by vm_compute) ltac:(by vm_compute)) as H.
split; [exact (proj1 H)|]. exact (proj2 (proj2 (proj2 (proj2 (proj2 (proj2 H)))))).
Defined.
End PlanExample.
