(* ===== verification/Credential.v ===== *)
(** Credentials and the parameters of the requests they authenticate
    (crates/gpapi/src/credential.rs, auth.rs and params/*.rs).

    Parameters are ordered pairs. The DNS lookup of the gateway, the regular expressions
    and the URL decoders are arguments. *)
From S2P Require Import Prelude Utf8 Text ThirdParty ClientProfile GpHttp Session.
From Stdlib Require Import Strings.Ascii.

#[local] Open Scope N_scope.

(** * SAML authentication data (auth.rs) *)
Inductive AuthDataParseError :=
  | NotFound
  | AuthenticationFailed (status : string)
  | Invalid (m : string).
Definition is_invalid (e : AuthDataParseError) : bool :=
  match e with Invalid _ | AuthenticationFailed _ => true | NotFound => false end.
Definition parse_error_text (e : AuthDataParseError) : string :=
  match e with
  | NotFound => "No auth data found"
  | AuthenticationFailed s => "Authentication failed (SAML status: " +:+ s +:+ ")"
  | Invalid m => m
  end.
Definition validate_saml_auth_status (status : option string) : result AuthDataParseError () :=
  match status with
  | Some s => if String.eqb s "1" then Ok () else Err (AuthenticationFailed s)
  | None => Err NotFound
  end.

Record SamlAuthData := {
  saml_username : string;
  saml_prelogin_cookie : option string;
  saml_portal_userauthcookie : option string;
  saml_token : option string;
  saml_host_id : option string;
}.
Inductive SamlAuthResult :=
  | SamlSuccess (d : SamlAuthData)
  | SamlCancelled
  | SamlFailure (m : string)
  | SamlServerTlsError (e : ServerTlsError).
Definition is_success (r : SamlAuthResult) : bool :=
  match r with SamlSuccess _ => true | _ => false end.

Definition saml_new (username prelogin_cookie portal_userauthcookie : option string) :
    result string SamlAuthData :=
  let username := default "" username in
  _ ← ensure (negb (is_empty username)) "Invalid username: <empty>";
  let p := default "" prelogin_cookie in
  let c := default "" portal_userauthcookie in
  _ ← ensure (negb ((slen p <=? 5) && (slen c <=? 5)))
    ("Invalid prelogin-cookie: " +:+ p +:+ ", portal-userauthcookie: " +:+ c);
  Ok {| saml_username := username; saml_prelogin_cookie := Some p;
        saml_portal_userauthcookie := Some c; saml_token := None; saml_host_id := None |}.
Definition with_host_id (h : string) (d : SamlAuthData) : SamlAuthData := {|
  saml_username := saml_username d; saml_prelogin_cookie := saml_prelogin_cookie d;
  saml_portal_userauthcookie := saml_portal_userauthcookie d; saml_token := saml_token d;
  saml_host_id := unless_blank h;
|}.

(** [s.trim_start_matches(pat)] for a pattern that is not empty. *)
Fixpoint trim_prefixes (fuel : nat) (pat s : string) : string :=
  match fuel with
  | O => s
  | S fuel => match Utf8.strip_prefix pat s with
              | Some r => trim_prefixes fuel pat r
              | None => s
              end
  end.
Definition trim_start_matches (pat s : string) : string := trim_prefixes (String.length s) pat s.

Section saml.
Context `{Base64}.
(** The first group of [Regex::new(&format!("<{tag}>(.*)</{tag}>"))], [urlencoding::decode]
    and [serde_urlencoded::from_str]. *)
Variable parse_xml_tag : string → string → option string.
Variable url_decode : string → option string.
Variable from_urlencoded : string → result string SamlAuthData.

Definition from_html (html : string) : result AuthDataParseError SamlAuthData :=
  _ ← validate_saml_auth_status (parse_xml_tag html "saml-auth-status");
  map_err Invalid (saml_new (parse_xml_tag html "saml-username")
    (parse_xml_tag html "prelogin-cookie") (parse_xml_tag html "portal-userauthcookie")).

Definition decode_to_string (s : string) : result string string :=
  b ← ok_or "invalid base64" (base64_decode s);
  _ ← ensure (utf8b (String.length b) b) "invalid utf-8 sequence";
  Ok b.
Definition from_gpcallback (data : string) : result AuthDataParseError SamlAuthData :=
  let data := trim_start_matches "/" (trim_start_matches "globalprotectcallback:" data) in
  if String.prefix "cas-as" data then
    map_err Invalid (from_urlencoded (default data (url_decode data)))
  else
    html ← map_err Invalid (decode_to_string data);
    from_html html.
End saml.

(** * Credentials (credential.rs) *)
Record PasswordCredential := { pw_username : string; pw_password : string }.
Record PreloginCredential := {
  pre_username : string;
  pre_prelogin_cookie : option string;
  pre_portal_userauthcookie : option string;
  pre_token : option string;
}.
Record AuthCookieCredential := {
  ac_username : string;
  user_auth_cookie : string;
  prelogon_user_auth_cookie : string;
  ac_password : option string;
}.
Record CachedCredential := {
  ca_username : string;
  ca_password : option string;
  ca_auth_cookie : option AuthCookieCredential;
}.
Inductive Credential :=
  | Password (c : PasswordCredential)
  | Prelogin (c : PreloginCredential)
  | AuthCookie (c : AuthCookieCredential)
  | Cached (c : CachedCredential).

Definition auth_cookie_new (username user prelogon : string) : AuthCookieCredential := {|
  ac_username := username; user_auth_cookie := user; prelogon_user_auth_cookie := prelogon;
  ac_password := None;
|}.
Definition with_password (p : string) (c : AuthCookieCredential) : AuthCookieCredential := {|
  ac_username := ac_username c; user_auth_cookie := user_auth_cookie c;
  prelogon_user_auth_cookie := prelogon_user_auth_cookie c; ac_password := unless_blank p;
|}.
Definition is_gateway_auth_cookie (v : string) : bool :=
  let v := trim v in negb (is_empty v) && negb (String.eqb v "empty").
Definition cookie_can_authenticate (c : AuthCookieCredential) : bool :=
  is_gateway_auth_cookie (user_auth_cookie c) ||
  is_gateway_auth_cookie (prelogon_user_auth_cookie c).
Definition cached_can_authenticate (c : CachedCredential) : bool :=
  match ca_auth_cookie c with Some a => cookie_can_authenticate a | None => false end.
Definition set_auth_cookie (a : AuthCookieCredential) (c : CachedCredential) : CachedCredential :=
  {| ca_username := ca_username c; ca_password := ca_password c; ca_auth_cookie := Some a |}.
Definition set_username (u : string) (c : CachedCredential) : CachedCredential :=
  {| ca_username := u; ca_password := ca_password c; ca_auth_cookie := ca_auth_cookie c |}.
Definition set_password (p : option string) (c : CachedCredential) : CachedCredential :=
  {| ca_username := ca_username c; ca_password := p; ca_auth_cookie := ca_auth_cookie c |}.

Definition password_of_cached (c : CachedCredential) : PasswordCredential :=
  {| pw_username := ca_username c; pw_password := default "" (ca_password c) |}.
Definition cached_of_password (c : PasswordCredential) : CachedCredential :=
  {| ca_username := pw_username c; ca_password := Some (pw_password c); ca_auth_cookie := None |}.
Definition prelogin_of_saml (d : SamlAuthData) : PreloginCredential := {|
  pre_username := saml_username d; pre_prelogin_cookie := saml_prelogin_cookie d;
  pre_portal_userauthcookie := saml_portal_userauthcookie d; pre_token := saml_token d;
|}.
Definition credential_of_result (r : SamlAuthResult) : result Failure Credential :=
  match r with
  | SamlSuccess d => Ok (Prelogin (prelogin_of_saml d))
  | SamlCancelled => Err AuthenticationCancelled
  | SamlFailure m => bail m
  | SamlServerTlsError e => Err (TlsFailure e)
  end.

Definition username (c : Credential) : string :=
  match c with
  | Password c => pw_username c
  | Prelogin c => pre_username c
  | AuthCookie c => ac_username c
  | Cached c => ca_username c
  end.
Definition password (c : Credential) : option string :=
  match c with
  | Password c => Some (pw_password c)
  | Cached c => ca_password c
  | Prelogin _ | AuthCookie _ => None
  end.
Definition can_authenticate_gateway (c : Credential) : bool :=
  match c with
  | AuthCookie c => cookie_can_authenticate c
  | Cached c => cached_can_authenticate c
  | Password _ | Prelogin _ => true
  end.

(** * Request parameters (params) *)
Definition Params : Type := list (string * string).
Record RequestParams := { body : Params; query : Params }.

Definition portal_cookie_param (v : option string) : string :=
  match v with
  | Some v => if is_empty v then "empty" else v
  | None => "empty"
  end.

Section requests.
Context {ClientIdentity : Type}.

Definition credential_params (c : Credential) (gp : GpParams ClientIdentity) : Params :=
  let saml := Target.saml_password (profile_client_os (os_profile gp)) in
  let '(passwd, prelogin, user, prelogon, token) :=
    match c with
    | Password c => (Some (pw_password c), None, None, None, None)
    | Prelogin c =>
        (Some saml, pre_prelogin_cookie c, pre_portal_userauthcookie c, None, pre_token c)
    | AuthCookie c =>
        (Some (default saml (ac_password c)), None, Some (user_auth_cookie c),
         Some (prelogon_user_auth_cookie c), None)
    | Cached c =>
        (ca_password c, None, user_auth_cookie <$> ca_auth_cookie c,
         prelogon_user_auth_cookie <$> ca_auth_cookie c, None)
    end in
  [("user", username c); ("passwd", default "" passwd);
   ("prelogin-cookie", default "" prelogin);
   ("portal-userauthcookie", portal_cookie_param user);
   ("portal-prelogonuserauthcookie", portal_cookie_param prelogon);
   ("token", default "" token)].

(** params/portal_prelogin.rs and params/gateway_prelogin.rs. *)
Definition prelogin_base (browser : string) (p : OsProfile) : Params :=
  [("tmp", "tmp"); ("clientVer", "4100"); ("clientos", client_os_as_str (profile_client_os p));
   ("os-version", profile_os_version p); ("host-id", pi_host_id (profile_identity p));
   ("ipv6-support", "yes"); ("default-browser", browser); ("cas-support", "yes");
   ("data", "eyJjYXNfZW1iZWRkZWRfYnJvd3NlciI6InllcyJ9")].
Definition prelogin_place (params : Params) (p : OsProfile) : RequestParams :=
  let os := profile_client_os p in
  let query := if Target.kerberos_support_in_query os then [("kerberos-support", "yes")] else [] in
  match Target.prelogin_param_location os with
  | Body => {| body := params; query := query |}
  | Query => {| body := []; query := params ++ query |}
  end.
Definition portal_prelogin_build (p : OsProfile) (mode : PreloginBrowserMode) : RequestParams :=
  prelogin_place (prelogin_base (portal_default_browser mode p) p) p.
Definition gateway_prelogin_build (p : OsProfile) (mode : PreloginBrowserMode) : RequestParams :=
  prelogin_place (prelogin_base (gateway_default_browser mode p) p) p.

(** portal/csc.rs [swg_nonce] at a number of milliseconds since the epoch. *)
Definition swg_nonce (millis : N) : string := to_string (millis mod 2147483647).

(** params/portal_getconfig.rs *)
Definition getconfig_build (c : Credential) (gp : GpParams ClientIdentity) (server : string)
    (millis : N) : RequestParams :=
  let p := os_profile gp in
  let nonce := match profile_client_os p with Linux | Ios => "0" | _ => swg_nonce millis end in
  {| body := credential_params c gp ++
       [("inputStr", default "" (input_str gp)); ("ok", "Login"); ("clientVer", "4100");
        ("clientos", client_os_as_str (profile_client_os p));
        ("clientgpversion", profile_client_version p);
        ("computer", pi_computer (profile_identity p)); ("os-version", profile_os_version p);
        ("host-id", pi_host_id (profile_identity p)); ("ipv6-support", "yes");
        ("serialno", pi_serial_number (profile_identity p)); ("csc-digest", "");
        ("config-digest", ""); ("csc-support", if effective_csc_support gp then "yes" else "no");
        ("host", server); ("swg-auth-token", "0"); ("swg-nonce", nonce)];
     query := [] |}.

(** [Ipv4Addr::to_string] *)
Definition ipv4_text (ip : N) : string :=
  String.concat "." [to_string (N.shiftr ip 24); to_string (N.shiftr ip 16 mod 256);
                     to_string (N.shiftr ip 8 mod 256); to_string (ip mod 256)].

(** params/gateway_login.rs *)
Definition set_body_param (key value : string) (l : Params) : Params :=
  match list_find (λ p, p.1 = key) l with
  | Some (pos, (k, _)) => <[pos := (k, value)]> l
  | None => l ++ [(key, value)]
  end.
Record GatewayLoginInput := {
  in_params : GpParams ClientIdentity;
  in_cred : Credential;
  gateway_host : string;
  in_context : option GatewayLoginContext;
  in_client_ip : option string;
  extend_lifetime : bool;
}.
(** [to_socket_addrs]: the addresses of a host name, a lookup of the system. *)
Context `{UrlCrate}.
Variable to_socket_addrs : string → N → option (list IpAddr).
Definition resolve_to_ipv4 (host : string) : option string :=
  server ← to_option (normalize_server to_string host);
  url ← url_parse server;
  host ← url_host_str url;
  port ← url_port_or_known_default url;
  l ← to_socket_addrs host port;
  head (omap (λ a, match a with V4 ip => Some (ipv4_text ip) | V6 _ => None end) l).
(** profile.rs: every profile resolves. *)
Definition gateway_server_uses_resolved_ipv4 (p : OsProfile) : bool := true.
Definition resolve_server (i : GatewayLoginInput) : string :=
  if negb (gateway_server_uses_resolved_ipv4 (os_profile (in_params i))) then gateway_host i
  else match in_context i with
  | Some c => default (gateway_host i) (resolve_to_ipv4 (login_host c))
  | None => gateway_host i
  end.
Definition context_params (i : GatewayLoginInput) (c : GatewayLoginContext) : Params :=
  let host := login_host c in
  let name := if decide (profile_client_os (os_profile (in_params i)) = Ios)
              then login_name c else host in
  [("host", host); ("gw", name); ("gateway-name", name);
   ("internal", kind_login_param (login_kind c));
   ("selection-type", selection_login_param (login_selection c)); ("client-ipv6", "")] ++
  match login_connect_method c with Some m => [("connect-method", m)] | None => [] end.
Definition login_build (i : GatewayLoginInput) : RequestParams :=
  let gp := in_params i in
  let p := os_profile gp in
  let pi := profile_identity p in
  let l := credential_params (in_cred i) gp ++
    [("prot", "https:"); ("jnlpReady", "jnlpReady"); ("ok", "Login"); ("direct", "yes");
     ("ipv6-support", "yes"); ("clientVer", "4100");
     ("clientos", client_os_as_str (profile_client_os p)); ("computer", pi_computer pi);
     ("inputStr", default "" (input_str gp))] in
  let l := match otp gp with Some o => set_body_param "passwd" o l | None => l end in
  let l := l ++ match params_os_version gp with Some v => [("os-version", v)] | None => [] end in
  let l := l ++ [("server", resolve_server i); ("host-id", pi_host_id pi)] in
  let l := l ++ (if decide (profile_client_os p = Ios)
                 then [("mobile-id", pi_host_id pi); ("vpn-type", "App Level VPN")] else []) in
  let l := l ++ [("serialno", pi_serial_number pi); ("preferred-ip", ""); ("preferred-ipv6", "")] in
  let l := l ++ match params_client_version gp with
                | Some v => [("clientgpversion", v)] | None => [] end in
  let l := match in_context i with
    | None => l
    | Some c =>
        let l := l ++ context_params i c in
        let l := match params_client_version gp with
                 | Some v => set_body_param "clientgpversion" v l
                 | None => l
                 end in
        l ++ match in_client_ip i with Some ip => [("client-ip", ip)] | None => [] end
    end in
  let l := l ++ (if extend_lifetime i then [("extend-lifetime", "true")] else []) in
  {| body := l; query := [] |}.
End requests.
Arguments GatewayLoginInput : clear implicits.

(** * Theorems *)
Definition keys (l : Params) : list string := fst <$> l.
Definition value (key : string) (l : Params) : option string :=
  snd <$> head (List.filter (λ p, String.eqb p.1 key) l).

Lemma set_body_param_keys key v l : key ∈ keys l → keys (set_body_param key v l) = keys l.
Proof.
  intros Hk. unfold set_body_param. destruct (list_find _ l) as [[i [k w]]|] eqn:E.
  - apply list_find_Some in E as (Hi & _ & _). unfold keys, Params in *. rewrite list_fmap_insert.
    apply list_insert_id. by rewrite list_lookup_fmap, Hi.
  - exfalso. apply list_find_None in E. apply list_elem_of_fmap in Hk as ([k w] & -> & Hl).
    rewrite Forall_forall in E. apply list_elem_of_In in Hl. by apply (E _ Hl).
Qed.
Lemma keys_app l k : keys (l ++ k) = keys l ++ keys k.
Proof. apply fmap_app. Qed.
Lemma value_app key l k : value key (l ++ k) =
  match value key l with Some v => Some v | None => value key k end.
Proof.
  unfold value. induction l as [|[q w] l IH]; [done|]. cbn [List.filter app fst].
  destruct (String.eqb q key); [done|]. apply IH.
Qed.
Lemma value_set key v l : key ∈ keys l → value key (set_body_param key v l) = Some v.
Proof.
  unfold set_body_param. intros Hk. induction l as [|[k w] l IH]; [by inversion Hk|].
  cbn [list_find fst]. destruct (decide (k = key)) as [->|Hn].
  - cbn. unfold value. cbn. by rewrite String.eqb_refl.
  - assert (key ∈ keys l) as Hl by (cbn in Hk; set_solver). specialize (IH Hl).
    destruct (list_find _ l) as [[i [k' w']]|]; cbn; unfold value; cbn;
      (rewrite (proj2 (String.eqb_neq k key)) by done); apply IH.
Qed.
Lemma value_set_other key key' v l : key ≠ key' →
  value key' (set_body_param key v l) = value key' l.
Proof.
  intros Hne. unfold set_body_param. destruct (list_find _ l) as [[i [k w]]|] eqn:E.
  - apply list_find_Some in E as (Hi & Hk & _). cbn in Hk. subst k. clear -Hi Hne. unfold value.
    revert i Hi. induction l as [|[q x] l IH]; intros [|i] Hi; try done; cbn in *.
    + injection Hi as -> ->. by rewrite (proj2 (String.eqb_neq key key')).
    + destruct (String.eqb q key'); [done|]. by apply IH.
  - rewrite value_app. unfold value at 2. cbn. rewrite (proj2 (String.eqb_neq key key')) by done.
    by destruct (value key' l).
Qed.

Section login_request.
Context {ClientIdentity : Type} `{UrlCrate} (dns : string → N → option (list IpAddr)).
Implicit Types (i : GatewayLoginInput ClientIdentity).

Definition expected_passwd (i : GatewayLoginInput ClientIdentity) : string :=
  match otp (in_params i) with
  | Some o => o
  | None => default "" (value "passwd" (credential_params (in_cred i) (in_params i)))
  end.
Lemma credential_params_shape c (gp : GpParams ClientIdentity) : ∃ p a b d t,
  credential_params c gp =
    [("user", username c); ("passwd", p); ("prelogin-cookie", a); ("portal-userauthcookie", b);
     ("portal-prelogonuserauthcookie", d); ("token", t)].
Proof. destruct c; repeat eexists. Qed.

(** A gateway login request names every parameter once, so no later pair can
    override an earlier one at the server; its password is the one-time password as soon
    as there is one and the credential's otherwise, the gateway it asks for is the one
    of the login context, and what the server echoed as [inputStr] goes back with it. *)
Lemma login_request_unambiguous i :
  NoDup (keys (body (login_build dns i))) ∧
  value "passwd" (body (login_build dns i)) = Some (expected_passwd i) ∧
  value "user" (body (login_build dns i)) = Some (username (in_cred i)) ∧
  value "inputStr" (body (login_build dns i)) = Some (default "" (input_str (in_params i))) ∧
  value "host" (body (login_build dns i)) = login_host <$> in_context i ∧
  value "extend-lifetime" (body (login_build dns i)) =
    (if extend_lifetime i then Some "true" else None).
Proof.
  unfold expected_passwd. destruct i as [gp cred host ctx ip ext]. cbn [in_params in_cred in_context].
  unfold login_build. cbn [in_params in_cred in_context in_client_ip extend_lifetime].
  destruct (credential_params_shape cred gp) as (p & a & b & d & t & ->).
  match goal with |- context [resolve_server dns ?i] => generalize (resolve_server dns i) end.
  intros server.
  unfold params_os_version, params_client_version, context_params. cbn [in_params].
  generalize (client_os_as_str (profile_client_os (os_profile gp))). intros os.
  destruct (decide (profile_client_os (os_profile gp) = Ios)); destruct (otp gp), ext, ctx as [c|];
    try destruct (login_connect_method c), ip;
    (split; [apply (bool_decide_unpack (NoDup _)); by vm_compute|]); split_and!; reflexivity.
Qed.
End login_request.

Module CredentialExample.
Definition no_url : UrlCrate := {| url_parse _ := None; form_urlencoded_parse _ := [] |}.
Definition no_dns (_ : string) (_ : N) : option (list IpAddr) := None.
Definition profile : OsProfile := {|
  profile_runtime_os := Linux; profile_client_os := Linux; profile_os_version := "Linux";
  profile_software_version := ""; profile_os_vendor := "Linux"; profile_client_version := "6";
  profile_host_identity := identity_application "laptop" "id";
  profile_identity := project_native Linux (identity_application "laptop" "id") None;
  profile_user_agent := "PAN GlobalProtect/6 (Linux)" |}.
Definition params : GpParams () := with_otp "123456"
  (with_input_str "challenge" (build_params (params_builder_new profile))).
Definition alice : Credential := Password {| pw_username := "alice"; pw_password := "secret" |}.
Definition input : GatewayLoginInput () := {|
  in_params := params; in_cred := alice; gateway_host := "vpn.example"; in_client_ip := None;
  in_context := Some (login_context_new (gateway_new "Office" "vpn.example") Manual);
  extend_lifetime := false |}.
Example otp_replaces_the_password :
  value "passwd" (body (@login_build () no_url no_dns input)) = Some "123456".
Proof. reflexivity. Qed.
Example sentinel_cookies :
  cookie_can_authenticate (auth_cookie_new "alice" "empty" " ") = false.
Proof. reflexivity. Qed.
Example callback_prefixes :
  trim_start_matches "globalprotectcallback:" "globalprotectcallback:cas-as=1" = "cas-as=1".
Proof. reflexivity. Qed.
End CredentialExample.
