(* ===== verification/CookieStore.v ===== *)
(** The cookie gpclient keeps between runs (crates/gpapi/src/cookie_store.rs).

    Saving is a program over [FsE], the file system's operations; [Fs] is what the files
    hold after each of them. *)
From S2P Require Import Prelude Utf8 Text ThirdParty ChildProcess GpHttp Interaction Credential.
From ITree Require Import ITree.
From Stdlib Require Import Strings.Ascii.

#[local] Open Scope N_scope.

Definition STORE_VERSION : N := 1.
Record StoredCookie := {
  stored_version : N;
  stored_server : string;
  stored_username : string;
  stored_host_id : string;
  last_gateway : string;
  stored_auth_cookie : AuthCookieCredential;
  saved_at : N;
}.
(** [now] is the time in seconds, [None] before 1970. *)
Definition stored_cookie_new (now : option N) (server username host_id gateway : string)
    (c : AuthCookieCredential) : StoredCookie := {|
  stored_version := STORE_VERSION; stored_server := server; stored_username := username;
  stored_host_id := host_id; last_gateway := gateway; stored_auth_cookie := c;
  saved_at := default 0 now |}.
Definition cookie_path (home : option string) (custom : option string) : string :=
  match custom with
  | Some p => p
  | None => path_join (default "/root" home) ".config/gpclient/cookie.json"
  end.

(** [Path::parent]: the path without its last component. *)
Fixpoint trim_end_char (c : ascii) (s : string) : string :=
  match s with
  | EmptyString => EmptyString
  | String a r => let t := trim_end_char c r in
      if is_empty t && Ascii.eqb a c then "" else String a t
  end.
Definition slash : ascii := "/".
(** The part before the last slash, and [None] without one. *)
Fixpoint before_last_slash (s : string) : option string :=
  match s with
  | EmptyString => None
  | String a r =>
      match before_last_slash r with
      | Some b => Some (String a b)
      | None => if Ascii.eqb a slash then Some "" else None
      end
  end.
Definition path_parent (path : string) : option string :=
  let p := trim_end_char slash path in
  if is_empty p then None
  else match before_last_slash p with
       | None => Some ""
       | Some b => let b := trim_end_char slash b in
                   Some (if is_empty b then "/" else b)
       end.
Example path_parents :
  path_parent "/root/.config/cookie.json" = Some "/root/.config" ∧ path_parent "/cookie" = Some "/" ∧
  path_parent "cookie" = Some "" ∧ path_parent "/" = None ∧ path_parent "a//b/" = Some "a".
Proof. by vm_compute. Qed.

(** * The store *)
Inductive FsE : Type → Type :=
  | CreateDirAllE (path : string) : FsE (result Failure ())
  | SetModeE (path : string) (mode : N) : FsE (result Failure ())
  (** A new file in a directory, for its owner only; the answer is the end of its name. *)
  | NewTempE (dir : string) : FsE (result Failure string)
  (** A write that fails tells what it wrote. *)
  | WriteAllE (path bytes : string) : FsE (result (Failure * string) ())
  | FlushE (path : string) : FsE (result Failure ())
  | PersistE (temp path : string) : FsE (result Failure ())
  (** Dropping a temporary file that was not persisted. *)
  | DropTempE (path : string) : FsE ()
  | RemoveFileE (path : string) : FsE (result Failure ()).

(** ** What the files hold *)
Record File := { mode : N; content : string }.
Record Fs := { files : gmap string File; dir_modes : gmap string N }.
Definition set_files (f : gmap string File → gmap string File) (s : Fs) : Fs :=
  {| files := f (files s); dir_modes := dir_modes s |}.
Definition temp_path (dir suffix : string) : string := path_join dir (".tmp" +:+ suffix).
Definition fs_after (s : Fs) (e : event FsE) : Fs :=
  let '@Ev _ X q a := e in
  match q in FsE Y return Y → Fs with
  | CreateDirAllE _ | FlushE _ => λ _, s
  | SetModeE path m => λ a,
      match a with
      | Ok _ =>
          match files s !! path with
          | Some f => set_files <[path := {| mode := m; content := content f |}]> s
          | None => {| files := files s; dir_modes := <[path := m]> (dir_modes s) |}
          end
      | Err _ => s
      end
  | NewTempE dir => λ a,
      match a with
      | Ok suffix => set_files <[temp_path dir suffix := {| mode := 384; content := "" |}]> s
      | Err _ => s
      end
  | WriteAllE path bytes => λ a,
      let written := match a with Ok _ => bytes | Err (_, partial) => partial end in
      match files s !! path with
      | Some f => set_files <[path := {| mode := mode f; content := written |}]> s
      | None => s
      end
  | PersistE temp path => λ a,
      match a, files s !! temp with
      | Ok _, Some f => set_files (λ l, <[path := f]> (delete temp l)) s
      | _, _ => s
      end
  | DropTempE path => λ _, set_files (delete path) s
  | RemoveFileE path => λ a, match a with Ok _ => set_files (delete path) s | Err _ => s end
  end a.

Section store.
Context `{SerdeJson StoredCookie}.

(** [file] is what reading the path answers. *)
Definition load (file : option string) (server host_id : string) : option StoredCookie :=
  bytes ← file;
  stored ← from_slice (A := StoredCookie) bytes;
  if negb (stored_version stored =? STORE_VERSION) || negb (String.eqb (stored_server stored) server)
     || negb (String.eqb (stored_host_id stored) host_id)
  then None else Some stored.

#[local] Open Scope flow_scope.
Definition fs {A} (e : FsE (result Failure A)) : flow FsE A := let* r := ask e in pure r.
(** What fails while the temporary file lives drops it. *)
Definition with_temp {A} (temp : string) (m : flow FsE A) : flow FsE A :=
  either m (λ r, match r with
    | Ok a => ok a
    | Err e => let* _ := ask (DropTempE temp) in throw e
    end).
Definition save (path : string) (stored : StoredCookie) : flow FsE () :=
  let* parent := pure (ok_or (Message "cookie path has no parent directory") (path_parent path)) in
  let* _ := fs (CreateDirAllE parent) in
  let* _ := fs (SetModeE parent 448) in
  let* suffix := fs (NewTempE parent) in
  let temp := temp_path parent suffix in
  with_temp temp (
    let* bytes := pure (ok_or (Message "serialization failed") (to_vec stored)) in
    let* written := ask (WriteAllE temp bytes) in
    let* _ := pure (map_err fst written) in
    let* _ := fs (FlushE temp) in
    let* _ := fs (SetModeE temp 384) in
    fs (PersistE temp path)).
Definition clear (path : string) : flow FsE () := let* _ := ask (RemoveFileE path) in ok ().
End store.

(** * Saving is atomic and private *)
Section saving.
Context `{SerdeJson StoredCookie} (path : string) (stored : StoredCookie) (s0 : Fs).
Definition saved (s : Fs) : Prop := ∃ bytes parent,
  to_vec stored = Some bytes ∧ path_parent path = Some parent ∧ dir_modes s !! parent = Some 448 ∧
  files s !! path = Some {| mode := 384; content := bytes |}.
Definition settled (s : Fs) : Prop := files s !! path = files s0 !! path ∨ saved s.
Definition fs_step (s : Fs) (e : event FsE) (s' : Fs) : Prop := s' = fs_after s e ∧ settled s'.
Lemma tracked_files h s : tracks fs_step s0 h s → s = fold_left fs_after h s0 ∧ settled s.
Proof.
  induction 1 as [|h e s s' _ [-> _] [-> Hs]]; [split; [done|by left]|].
  by rewrite fold_left_app.
Qed.
Hypothesis Hname : ∀ parent suffix, path_parent path = Some parent → temp_path parent suffix ≠ path.
Hypothesis Hfresh : ∀ parent suffix, path_parent path = Some parent → files s0 !! temp_path parent suffix = None.
Hypothesis Hdir : ∀ parent, path_parent path = Some parent → files s0 !! parent = None.
Definition outcome (s : Fs) (r : result Failure ()) : Prop :=
  match r with
  | Ok _ => saved s ∧ ∃ bytes, to_vec stored = Some bytes ∧
            files s = <[path := {| mode := 384; content := bytes |}]> (files s0)
  | Err _ => files s = files s0
  end.
Lemma spec_fs {A B} s (q : FsE (result Failure A)) (k : A → flow FsE B) Φ :
  (∀ r, settled (fs_after s (Ev q r))) →
  (∀ e, Φ (fs_after s (Ev q (Err e))) (Err e)) →
  (∀ a, spec fs_step s0 (fs_after s (Ev q (Ok a))) (k a) Φ) →
  spec fs_step s0 s (and_then (fs q) k) Φ.
Proof.
  intros Hs He Hk. apply (spec_bind _ _ _ _ _ (λ s' r, s' = fs_after s (Ev q r))).
  - apply spec_ask. intros r. exists (fs_after s (Ev q r)). split; [by split|]. by apply spec_pure.
  - by intros s' a ->.
  - by intros s' e ->.
Qed.
Lemma settled_files s : files s = files s0 → settled s.
Proof. intros E. left. by rewrite E. Qed.
(** While the temporary file lives only it differs. *)
Lemma settled_temp temp f s : temp ≠ path → files s = <[temp := f]> (files s0) → settled s.
Proof. intros Ht E. left. by rewrite E, lookup_insert_ne. Qed.

(** What [with_temp] guards starts with the temporary file and ends without it. *)
Lemma with_temp_spec temp s (m : flow FsE ()) :
  temp ≠ path → files s0 !! temp = None →
  spec fs_step s0 s m (λ s' r, match r with
    | Ok _ => outcome s' (Ok ())
    | Err _ => ∃ f', files s' = <[temp := f']> (files s0) end) →
  spec fs_step s0 s (with_temp temp m) outcome.
Proof.
  intros Ht Hf Hm. eapply spec_either; [exact Hm|]. intros s' [[]|e]; [intros Ho; by apply spec_ok|].
  intros (f' & Hs'). apply spec_ask. intros []. exists (fs_after s' (Ev (DropTempE temp) ())).
  assert (files (fs_after s' (Ev (DropTempE temp) ())) = files s0) as E.
  { cbn. by rewrite Hs', delete_insert_id. }
  split; [split; [done|by apply settled_files]|]. by apply spec_throw.
Qed.
(** The temporary file and the directory it is in. *)
Definition held (parent temp : string) (f : File) (s : Fs) : Prop :=
  files s = <[temp := f]> (files s0) ∧ dir_modes s !! parent = Some 448.
Lemma held_lookup parent temp f s : held parent temp f s → files s !! temp = Some f.
Proof. intros [-> _]. apply lookup_insert_eq. Qed.
Lemma held_write parent temp f s bytes w : held parent temp f s →
  held parent temp {| mode := mode f; content := match w with Ok _ => bytes | Err (_, b) => b end |}
    (fs_after s (Ev (WriteAllE temp bytes) w)).
Proof.
  intros Hh. pose proof (held_lookup _ _ _ _ Hh) as Hl. cbn. rewrite Hl. destruct Hh as [Hf Hd].
  split; cbn; [|done]. by rewrite Hf, insert_insert_eq.
Qed.
Lemma held_mode parent temp f s m : held parent temp f s →
  held parent temp {| mode := m; content := content f |} (fs_after s (Ev (SetModeE temp m) (Ok ()))).
Proof.
  intros Hh. pose proof (held_lookup _ _ _ _ Hh) as Hl. cbn. rewrite Hl. destruct Hh as [Hf Hd].
  split; cbn; [|done]. by rewrite Hf, insert_insert_eq.
Qed.
Lemma held_settled parent temp f s : temp ≠ path → held parent temp f s → settled s.
Proof. intros Ht [Hf _]. by eapply settled_temp. Qed.
Lemma held_persisted parent temp bytes s : temp ≠ path → files s0 !! temp = None →
  to_vec stored = Some bytes → path_parent path = Some parent →
  held parent temp {| mode := 384; content := bytes |} s →
  outcome (fs_after s (Ev (PersistE temp path) (Ok ()))) (Ok ()).
Proof.
  intros Ht Hn Hv Hp Hh. pose proof (held_lookup _ _ _ _ Hh) as Hl. cbn. rewrite Hl.
  destruct Hh as [Hf Hd].
  assert (<[path:={| mode := 384; content := bytes |}]> (delete temp (files s)) =
          <[path:={| mode := 384; content := bytes |}]> (files s0)) as E.
  { by rewrite Hf, delete_insert_id. }
  split; [|by exists bytes]. exists bytes, parent. cbn. by rewrite lookup_insert_eq.
Qed.

Lemma save_spec : spec fs_step s0 s0 (save path stored) outcome.
Proof.
  unfold save. apply spec_let_pure. destruct (path_parent path) as [parent|] eqn:Ep; cbn [ok_or]; [|done].
  apply spec_fs; [intros r; by apply settled_files|done|]. intros []. cbn [fs_after].
  assert (files s0 !! parent = None) as Hp by by apply Hdir.
  apply spec_fs; [intros [[]|e]; cbn; rewrite ?Hp; by apply settled_files|done|]. intros []. cbn. rewrite Hp.
  set (s1 := {| files := files s0; dir_modes := <[parent := 448]> (dir_modes s0) |}).
  apply spec_fs; [|done|].
  { intros [suffix|e]; cbn; [|by apply settled_files].
    by eapply settled_temp; [apply Hname|]. }
  intros suffix. set (temp := temp_path parent suffix).
  assert (temp ≠ path) as Ht by by apply Hname.
  apply with_temp_spec; [done|by apply Hfresh|]. cbn [fs_after].
  set (s2 := set_files _ s1).
  assert (held parent temp {| mode := 384; content := "" |} s2) as H2.
  { split; [done|]. apply lookup_insert_eq. }
  apply spec_let_pure. destruct (to_vec stored) as [bytes|] eqn:Ev; cbn [ok_or]; [|by eexists; apply H2].
  apply spec_ask. intros w. eexists.
  pose proof (held_write _ _ _ _ bytes w H2) as H3. split; [split; [reflexivity|by eapply held_settled]|].
  revert H3. set (s3 := fs_after _ _). intros H3. apply spec_let_pure.
  destruct w as [[]|[e b]]; cbn [map_err]; [|by eexists; apply H3].
  apply spec_fs; [intros r; by eapply held_settled|intros e; by eexists; apply H3|]. intros []. cbn [fs_after].
  pose proof (held_mode _ _ _ _ 384 H3) as H4.
  apply spec_fs.
  { intros [[]|e]; [|by eapply (held_settled _ _ _ s3)]. by eapply held_settled. }
  { intros e. by eexists; apply H3. }
  intros []. revert H4. set (s4 := fs_after _ _). intros H4.
  pose proof (held_persisted _ _ _ _ Ht (Hfresh _ suffix eq_refl) Ev Ep H4) as H5.
  apply spec_ask. intros r. exists (fs_after s4 (Interaction.Ev (PersistE temp path) r)).
  destruct r as [[]|e].
  - split; [split; [done|right; apply H5]|]. by apply spec_pure.
  - split; [split; [done|by eapply held_settled]|]. apply spec_throw. by eexists; apply H4.
Qed.
End saving.

(** Saving the cookie is atomic and private. For a path whose directory is one, and a
    temporary name no file has: whatever operations fail and wherever the run stops, the
    path holds what it held before, or the whole new cookie in a file of mode 600 in a
    directory of mode 700. When [save] returns it holds the new cookie and nothing else
    changed, or it failed and no file changed. *)
Lemma save_is_atomic_and_private `{SerdeJson StoredCookie} path stored s0 h
    (Hname : ∀ parent suffix, path_parent path = Some parent →
       temp_path parent suffix ≠ path ∧ files s0 !! temp_path parent suffix = None)
    (Hdir : ∀ parent, path_parent path = Some parent → files s0 !! parent = None) :
  let s := fold_left fs_after h s0 in
  (∀ t, plays (save path stored) h t →
     files s !! path = files s0 !! path ∨ saved path stored s) ∧
  (∀ o, returns (save path stored) h o → ∃ r, o = Some r ∧
     match r with
     | Ok _ => saved path stored s ∧ ∃ f, files s = <[path := f]> (files s0)
     | Err _ => files s = files s0
     end).
Proof.
  cbv zeta. pose proof (save_spec path stored s0 (λ p x E, proj1 (Hname p x E))
    (λ p x E, proj2 (Hname p x E)) Hdir) as Hs. split.
  - intros t Hp. destruct (spec_runs _ _ _ _ _ _ Hs Hp) as [s Ht].
    by destruct (tracked_files _ _ _ _ _ Ht) as [<- ?].
  - intros o Hr. destruct (spec_returns _ _ _ _ _ _ Hs Hr) as (r & s & -> & Ht & Ho).
    destruct (tracked_files _ _ _ _ _ Ht) as [<- _]. exists r. split; [done|]. destruct r as [[]|e]; [|done].
    destruct Ho as [? (bytes & _ & Hf)]. split; [done|]. by eexists.
Qed.

(** A saved cookie is loaded again for its server and host, and for no other. *)
Lemma saved_cookie_loads `{SerdeLaws StoredCookie} now server username host gateway c bytes server' host' :
  let stored := stored_cookie_new now server username host gateway c in
  to_vec stored = Some bytes →
  load (Some bytes) server' host' =
    (if String.eqb server server' && String.eqb host host' then Some stored else None).
Proof.
  cbv zeta. intros Hv. unfold load. cbn [mbind option_bind]. rewrite (from_slice_to_vec _ _ Hv).
  cbn. destruct (String.eqb server server'), (String.eqb host host'); done.
Qed.

Module StoreExample.
#[local] Instance json : SerdeJson StoredCookie :=
  {| to_vec c := Some (stored_server c); from_slice _ := None |}.
Definition path : string := "/r/cookie.json".
Definition stored : StoredCookie :=
  stored_cookie_new (Some 1) "vpn.example.com" "alice" "host-1" "gw1.example.com"
    (auth_cookie_new "alice" "user" "prelogon").
Definition before : Fs :=
  {| files := {[path := {| mode := 384; content := "old" |}]}; dir_modes := ∅ |}.
(** Everything succeeds, or the file cannot be flushed. *)
Definition answers (full : bool) (n : nat) (X : Type) (q : FsE X) : X :=
  match q in FsE Y return Y with
  | CreateDirAllE _ => Ok ()
  | SetModeE _ _ => Ok ()
  | NewTempE _ => Ok "x7Ka2q"
  | WriteAllE _ _ => if full then Err (Message "No space left on device", "vpn") else Ok ()
  | FlushE _ => Ok ()
  | PersistE _ _ => Ok ()
  | DropTempE _ => ()
  | RemoveFileE _ => Ok ()
  end.
Definition run (full : bool) := exec (answers full) 40 0 (save path stored).
Definition seen (full : bool) : trace FsE := match run full with Some (l, _) => l | None => [] end.
Definition after (full : bool) : Fs := fold_left fs_after (seen full) before.
Lemma save_is_atomic_and_private_witness :
  (saved path stored (after false) ∧ ∃ f, files (after false) = <[path := f]> (files before)) ∧
  files (after true) = files before ∧ length (seen true) = 5%nat.
Proof.
  assert (∀ parent suffix, path_parent path = Some parent →
    temp_path parent suffix ≠ path ∧ files before !! temp_path parent suffix = None) as Hname.
  { intros parent suffix [= <-]. split; [done|]. by apply lookup_singleton_ne. }
  assert (∀ parent, path_parent path = Some parent → files before !! parent = None) as Hdir
    by (intros parent [= <-]; by vm_compute).
  assert (run false = Some (seen false, Some (Ok ()))) as H1 by by vm_compute.
  assert (run true = Some (seen true, Some (Err (Message "No space left on device")))) as H2 by by vm_compute.
  destruct (save_is_atomic_and_private path stored before (seen false) Hname Hdir) as [_ R1].
  destruct (save_is_atomic_and_private path stored before (seen true) Hname Hdir) as [_ R2].
  destruct (R1 _ (exec_returns _ _ _ _ _ _ H1)) as (r1 & E1 & O1).
  destruct (R2 _ (exec_returns _ _ _ _ _ _ H2)) as (r2 & E2 & O2).
  injection E1 as <-. injection E2 as <-. split; [exact O1|]. split; [exact O2|by vm_compute].
Defined.
End StoreExample.
