(* ===== verification/AuthLauncher.v ===== *)
(** The authenticator as a child process (crates/gpapi/src/process/auth_launcher.rs and
    rendering_recovery.rs).

    The builder and its command line, the recovery from a rendering crash of the webview,
    and what the child's answer means. Resolving a path is an argument. *)
From S2P Require Import Prelude Utf8 Text ThirdParty ClientProfile GpHttp Session Credential.
From S2P Require Import ChildProcess.
From Stdlib Require Import Strings.Ascii.

#[local] Open Scope N_scope.

(** * Recovery from a rendering crash (rendering_recovery.rs) *)
Definition DMABUF : string := "WEBKIT_DISABLE_DMABUF_RENDERER".
Definition DIAGNOSTIC : string := "Error 71 (Protocol error) dispatching to Wayland display".

Record RecoveryState := { first_failure : option string }.
Definition recovery_new : RecoveryState := {| first_failure := None |}.
Definition recovery_dmabuf_disabled (s : RecoveryState) : bool :=
  bool_decide (is_Some (first_failure s)).
Definition is_rendering_crash (e : Failure) : bool :=
  match root_cause e with RenderingCrash _ => true | _ => false end.
Definition is_recovery_failed (e : Failure) : bool :=
  match root_cause e with RecoveryFailed _ => true | _ => false end.
Definition is_authentication_cancelled (e : Failure) : bool :=
  match root_cause e with AuthenticationCancelled => true | _ => false end.
Definition recover (e : Failure) (s : RecoveryState) : bool * RecoveryState :=
  if negb (recovery_dmabuf_disabled s) && is_rendering_crash e
  then (true, {| first_failure := Some (to_text e) |})
  else (false, s).
Definition terminal (e : Failure) (s : RecoveryState) : Failure :=
  if is_authentication_cancelled e || is_recovery_failed e then e
  else match first_failure s with
       | Some first => RecoveryFailed (Context ("First attempt: " +:+ first) e)
       | None => e
       end.
Definition finish_recovery {A} (r : result Failure A) (s : RecoveryState) : result Failure A :=
  map_err (λ e, terminal e s) r.

Definition is_crash_exit (s : ExitStatus) : bool :=
  negb (success s) &&
  match s with
  | Signaled n _ => negb ((n =? 1) || (n =? 2) || (n =? 9) || (n =? 15))
  | Exited _ => true
  end.
(** The environment of this process, and whether it is one with Wayland. *)
Section environment.
Variable env_var : string → option string.
Variable wayland_platform : bool.

Definition effective_env (c : Command) (key : string) (inherits : bool) : option string :=
  match envs c !! key with
  | Some v => v
  | None => if inherits then env_var key else None
  end.
Definition eligible_with_inheritance (c : Command) (inherits : bool) : bool :=
  wayland_platform &&
  match effective_env c "WAYLAND_DISPLAY" inherits with
  | Some v => negb (is_empty v)
  | None => false
  end &&
  match effective_env c DMABUF inherits with Some _ => false | None => true end.
Definition eligible (c : Command) : bool := eligible_with_inheritance c true.
End environment.

Record StderrDiagnostic := { line : string; overflow : bool; matched : bool }.
Definition diagnostic_new : StderrDiagnostic := {| line := ""; overflow := false; matched := false |}.
(** [trim_ascii_end] *)
Definition is_ascii_white (a : ascii) : bool :=
  let x := byte_val a in (x =? 32) || (x =? 9) || (x =? 10) || (x =? 12) || (x =? 13).
Fixpoint trim_ascii_end (s : string) : string :=
  match s with
  | EmptyString => EmptyString
  | String a r => let t := trim_ascii_end r in
      if is_empty t && is_ascii_white a then "" else String a t
  end.
Definition ends_with (suffix s : string) : bool :=
  (slen suffix <=? slen s) && String.eqb (slice s (slen s - slen suffix) (slen s)) suffix.
Definition strip_suffix (suffix s : string) : option string :=
  if ends_with suffix s then Some (slice s 0 (slen s - slen suffix)) else None.
(** The test of [check_line] on a line that was not cut. *)
Definition is_diagnostic (l : string) : bool :=
  let l := trim_ascii_end l in
  let message := default l (strip_suffix "." l) in
  (String.prefix "Gdk-Message:" l || String.prefix "(gpgui:" l || String.prefix "(gpauth:" l ||
   String.prefix "(gpgui-helper:" l) &&
  contains "Gdk-Message:" l && ends_with DIAGNOSTIC message.
Definition check_line (d : StderrDiagnostic) : StderrDiagnostic := {|
  line := line d; overflow := overflow d;
  matched := matched d || (negb (overflow d) && is_diagnostic (line d));
|}.
Definition MAX_LINE : N := 1024.
Definition push_byte (a : ascii) (d : StderrDiagnostic) : StderrDiagnostic :=
  if Ascii.eqb a newline then {| line := ""; overflow := false; matched := matched (check_line d) |}
  else if slen (line d) <? MAX_LINE
  then {| line := line d +:+ String a ""; overflow := overflow d; matched := matched d |}
  else {| line := line d; overflow := true; matched := matched d |}.
Fixpoint push (bytes : string) (d : StderrDiagnostic) : StderrDiagnostic :=
  match bytes with
  | EmptyString => d
  | String a bytes => push bytes (push_byte a d)
  end.
Definition diagnostic_matched (d : StderrDiagnostic) : bool := matched (check_line d).

(** * The launcher (auth_launcher.rs) *)
Definition MAX_AUTH_RESULT_BYTES : N := 256 * 1024.
Inductive LogFormat := LogText | LogJson.
Definition log_format_as_str (f : LogFormat) : string :=
  match f with LogText => "text" | LogJson => "json" end.
Module AuthWindowTheme.
Inductive t := System | Light | Dark.
Definition as_str (v : t) : string :=
  match v with System => "system" | Light => "light" | Dark => "dark" end.
End AuthWindowTheme.

(** The [Display] of an address: the first longest run of two or more zero groups is
    written as a double colon, and a mapped IPv4 address as such. *)
Definition hex_group (n : N) : string :=
  let d k := String (hex_digit ((n / 16 ^ k) mod 16)) "" in
  (if 4096 <=? n then d 3 else "") +:+ (if 256 <=? n then d 2 else "") +:+
  (if 16 <=? n then d 1 else "") +:+ d 0.
Definition groups (ip : N) : list N :=
  (λ i, (ip / 65536 ^ i) mod 65536) <$> [7; 6; 5; 4; 3; 2; 1; 0].
(** The start and the length of the zero run at the front of each suffix, the first
    longest one kept. *)
Fixpoint zero_run (l : list N) : nat :=
  match l with 0 :: l => S (zero_run l) | _ => O end.
Fixpoint longest_zeros (i : nat) (l : list N) (best : nat * nat) : nat * nat :=
  match l with
  | [] => best
  | _ :: l' => let n := zero_run l in
               longest_zeros (S i) l' (if (best.2 <? n)%nat then (i, n) else best)
  end.
Definition ipv6_text (ip : N) : string :=
  if N.shiftr ip 32 =? 65535 then "::ffff:" +:+ ipv4_text (ip mod 4294967296)
  else
    let text l := String.concat ":" (hex_group <$> l) in
    let g := groups ip in
    let '(start, n) := longest_zeros 0 g (0%nat, 0%nat) in
    if (1 <? n)%nat then text (take start g) +:+ "::" +:+ text (drop (start + n) g) else text g.
Definition ip_text (a : IpAddr) : string :=
  match a with V4 ip => ipv4_text ip | V6 ip => ipv6_text ip end.
Example ip_text_examples :
  ip_text (V6 (2 ^ 112 * 8193 + 1)) = "2001::1" ∧ ip_text (V6 0) = "::" ∧
  ip_text (V6 (65535 * 2 ^ 32 + 1)) = "::ffff:0.0.0.1" ∧
  ip_text (V6 (2 ^ 112 + 2 ^ 64 + 2 ^ 48)) = "1:0:0:1:1::".
Proof. vm_compute. repeat split. Qed.

Record SamlAuthLauncher := {
  launch_server : string;
  auth_executable : option string;
  launch_gateway : bool;
  launch_saml_request : option string;
  launch_os : option string;
  launch_host_id : option string;
  launch_client_version : option string;
  launch_certificate : option string;
  launch_sslkey : option string;
  launch_key_password : option string;
  launch_ignore_tls_errors : bool;
  hidpi : bool;
  clean : bool;
  launch_default_browser : bool;
  window_title : option string;
  window_theme : option AuthWindowTheme.t;
  browser : option string;
  browser_listen : option IpAddr;
  verbose : option string;
  log_format : LogFormat;
  dmabuf_disabled : bool;
}.
Definition launcher_new (server : string) : SamlAuthLauncher := {|
  launch_server := server; auth_executable := None; launch_gateway := false;
  launch_saml_request := None; launch_os := None; launch_host_id := None;
  launch_client_version := None; launch_certificate := None; launch_sslkey := None;
  launch_key_password := None; launch_ignore_tls_errors := false; hidpi := false;
  clean := false; launch_default_browser := false; window_title := None;
  window_theme := None; browser := None; browser_listen := None; verbose := None;
  log_format := LogText; dmabuf_disabled := false
|}.
Definition set_auth_executable (v : option string) (s : SamlAuthLauncher) : SamlAuthLauncher := {|
  launch_server := launch_server s; auth_executable := v; launch_gateway := launch_gateway s;
  launch_saml_request := launch_saml_request s; launch_os := launch_os s;
  launch_host_id := launch_host_id s; launch_client_version := launch_client_version s;
  launch_certificate := launch_certificate s; launch_sslkey := launch_sslkey s;
  launch_key_password := launch_key_password s;
  launch_ignore_tls_errors := launch_ignore_tls_errors s; hidpi := hidpi s;
  clean := clean s; launch_default_browser := launch_default_browser s;
  window_title := window_title s; window_theme := window_theme s; browser := browser s;
  browser_listen := browser_listen s; verbose := verbose s; log_format := log_format s;
  dmabuf_disabled := dmabuf_disabled s
|}.
Definition set_launch_gateway (v : bool) (s : SamlAuthLauncher) : SamlAuthLauncher := {|
  launch_server := launch_server s; auth_executable := auth_executable s; launch_gateway := v;
  launch_saml_request := launch_saml_request s; launch_os := launch_os s;
  launch_host_id := launch_host_id s; launch_client_version := launch_client_version s;
  launch_certificate := launch_certificate s; launch_sslkey := launch_sslkey s;
  launch_key_password := launch_key_password s;
  launch_ignore_tls_errors := launch_ignore_tls_errors s; hidpi := hidpi s;
  clean := clean s; launch_default_browser := launch_default_browser s;
  window_title := window_title s; window_theme := window_theme s; browser := browser s;
  browser_listen := browser_listen s; verbose := verbose s; log_format := log_format s;
  dmabuf_disabled := dmabuf_disabled s
|}.
Definition set_launch_saml_request (v : option string) (s : SamlAuthLauncher) : SamlAuthLauncher := {|
  launch_server := launch_server s; auth_executable := auth_executable s; launch_gateway := launch_gateway s;
  launch_saml_request := v; launch_os := launch_os s;
  launch_host_id := launch_host_id s; launch_client_version := launch_client_version s;
  launch_certificate := launch_certificate s; launch_sslkey := launch_sslkey s;
  launch_key_password := launch_key_password s;
  launch_ignore_tls_errors := launch_ignore_tls_errors s; hidpi := hidpi s;
  clean := clean s; launch_default_browser := launch_default_browser s;
  window_title := window_title s; window_theme := window_theme s; browser := browser s;
  browser_listen := browser_listen s; verbose := verbose s; log_format := log_format s;
  dmabuf_disabled := dmabuf_disabled s
|}.
Definition set_launch_os (v : option string) (s : SamlAuthLauncher) : SamlAuthLauncher := {|
  launch_server := launch_server s; auth_executable := auth_executable s; launch_gateway := launch_gateway s;
  launch_saml_request := launch_saml_request s; launch_os := v;
  launch_host_id := launch_host_id s; launch_client_version := launch_client_version s;
  launch_certificate := launch_certificate s; launch_sslkey := launch_sslkey s;
  launch_key_password := launch_key_password s;
  launch_ignore_tls_errors := launch_ignore_tls_errors s; hidpi := hidpi s;
  clean := clean s; launch_default_browser := launch_default_browser s;
  window_title := window_title s; window_theme := window_theme s; browser := browser s;
  browser_listen := browser_listen s; verbose := verbose s; log_format := log_format s;
  dmabuf_disabled := dmabuf_disabled s
|}.
Definition set_launch_host_id (v : option string) (s : SamlAuthLauncher) : SamlAuthLauncher := {|
  launch_server := launch_server s; auth_executable := auth_executable s; launch_gateway := launch_gateway s;
  launch_saml_request := launch_saml_request s; launch_os := launch_os s;
  launch_host_id := v; launch_client_version := launch_client_version s;
  launch_certificate := launch_certificate s; launch_sslkey := launch_sslkey s;
  launch_key_password := launch_key_password s;
  launch_ignore_tls_errors := launch_ignore_tls_errors s; hidpi := hidpi s;
  clean := clean s; launch_default_browser := launch_default_browser s;
  window_title := window_title s; window_theme := window_theme s; browser := browser s;
  browser_listen := browser_listen s; verbose := verbose s; log_format := log_format s;
  dmabuf_disabled := dmabuf_disabled s
|}.
Definition set_launch_client_version (v : option string) (s : SamlAuthLauncher) : SamlAuthLauncher := {|
  launch_server := launch_server s; auth_executable := auth_executable s; launch_gateway := launch_gateway s;
  launch_saml_request := launch_saml_request s; launch_os := launch_os s;
  launch_host_id := launch_host_id s; launch_client_version := v;
  launch_certificate := launch_certificate s; launch_sslkey := launch_sslkey s;
  launch_key_password := launch_key_password s;
  launch_ignore_tls_errors := launch_ignore_tls_errors s; hidpi := hidpi s;
  clean := clean s; launch_default_browser := launch_default_browser s;
  window_title := window_title s; window_theme := window_theme s; browser := browser s;
  browser_listen := browser_listen s; verbose := verbose s; log_format := log_format s;
  dmabuf_disabled := dmabuf_disabled s
|}.
Definition set_launch_certificate (v : option string) (s : SamlAuthLauncher) : SamlAuthLauncher := {|
  launch_server := launch_server s; auth_executable := auth_executable s; launch_gateway := launch_gateway s;
  launch_saml_request := launch_saml_request s; launch_os := launch_os s;
  launch_host_id := launch_host_id s; launch_client_version := launch_client_version s;
  launch_certificate := v; launch_sslkey := launch_sslkey s;
  launch_key_password := launch_key_password s;
  launch_ignore_tls_errors := launch_ignore_tls_errors s; hidpi := hidpi s;
  clean := clean s; launch_default_browser := launch_default_browser s;
  window_title := window_title s; window_theme := window_theme s; browser := browser s;
  browser_listen := browser_listen s; verbose := verbose s; log_format := log_format s;
  dmabuf_disabled := dmabuf_disabled s
|}.
Definition set_launch_sslkey (v : option string) (s : SamlAuthLauncher) : SamlAuthLauncher := {|
  launch_server := launch_server s; auth_executable := auth_executable s; launch_gateway := launch_gateway s;
  launch_saml_request := launch_saml_request s; launch_os := launch_os s;
  launch_host_id := launch_host_id s; launch_client_version := launch_client_version s;
  launch_certificate := launch_certificate s; launch_sslkey := v;
  launch_key_password := launch_key_password s;
  launch_ignore_tls_errors := launch_ignore_tls_errors s; hidpi := hidpi s;
  clean := clean s; launch_default_browser := launch_default_browser s;
  window_title := window_title s; window_theme := window_theme s; browser := browser s;
  browser_listen := browser_listen s; verbose := verbose s; log_format := log_format s;
  dmabuf_disabled := dmabuf_disabled s
|}.
Definition set_launch_key_password (v : option string) (s : SamlAuthLauncher) : SamlAuthLauncher := {|
  launch_server := launch_server s; auth_executable := auth_executable s; launch_gateway := launch_gateway s;
  launch_saml_request := launch_saml_request s; launch_os := launch_os s;
  launch_host_id := launch_host_id s; launch_client_version := launch_client_version s;
  launch_certificate := launch_certificate s; launch_sslkey := launch_sslkey s;
  launch_key_password := v; launch_ignore_tls_errors := launch_ignore_tls_errors s;
  hidpi := hidpi s; clean := clean s;
  launch_default_browser := launch_default_browser s; window_title := window_title s;
  window_theme := window_theme s; browser := browser s;
  browser_listen := browser_listen s; verbose := verbose s; log_format := log_format s;
  dmabuf_disabled := dmabuf_disabled s
|}.
Definition set_launch_ignore_tls_errors (v : bool) (s : SamlAuthLauncher) : SamlAuthLauncher := {|
  launch_server := launch_server s; auth_executable := auth_executable s; launch_gateway := launch_gateway s;
  launch_saml_request := launch_saml_request s; launch_os := launch_os s;
  launch_host_id := launch_host_id s; launch_client_version := launch_client_version s;
  launch_certificate := launch_certificate s; launch_sslkey := launch_sslkey s;
  launch_key_password := launch_key_password s; launch_ignore_tls_errors := v;
  hidpi := hidpi s; clean := clean s;
  launch_default_browser := launch_default_browser s; window_title := window_title s;
  window_theme := window_theme s; browser := browser s;
  browser_listen := browser_listen s; verbose := verbose s; log_format := log_format s;
  dmabuf_disabled := dmabuf_disabled s
|}.
Definition set_hidpi (v : bool) (s : SamlAuthLauncher) : SamlAuthLauncher := {|
  launch_server := launch_server s; auth_executable := auth_executable s; launch_gateway := launch_gateway s;
  launch_saml_request := launch_saml_request s; launch_os := launch_os s;
  launch_host_id := launch_host_id s; launch_client_version := launch_client_version s;
  launch_certificate := launch_certificate s; launch_sslkey := launch_sslkey s;
  launch_key_password := launch_key_password s;
  launch_ignore_tls_errors := launch_ignore_tls_errors s; hidpi := v; clean := clean s;
  launch_default_browser := launch_default_browser s; window_title := window_title s;
  window_theme := window_theme s; browser := browser s;
  browser_listen := browser_listen s; verbose := verbose s; log_format := log_format s;
  dmabuf_disabled := dmabuf_disabled s
|}.
Definition set_clean (v : bool) (s : SamlAuthLauncher) : SamlAuthLauncher := {|
  launch_server := launch_server s; auth_executable := auth_executable s; launch_gateway := launch_gateway s;
  launch_saml_request := launch_saml_request s; launch_os := launch_os s;
  launch_host_id := launch_host_id s; launch_client_version := launch_client_version s;
  launch_certificate := launch_certificate s; launch_sslkey := launch_sslkey s;
  launch_key_password := launch_key_password s;
  launch_ignore_tls_errors := launch_ignore_tls_errors s; hidpi := hidpi s; clean := v;
  launch_default_browser := launch_default_browser s; window_title := window_title s;
  window_theme := window_theme s; browser := browser s;
  browser_listen := browser_listen s; verbose := verbose s; log_format := log_format s;
  dmabuf_disabled := dmabuf_disabled s
|}.
Definition set_launch_default_browser (v : bool) (s : SamlAuthLauncher) : SamlAuthLauncher := {|
  launch_server := launch_server s; auth_executable := auth_executable s; launch_gateway := launch_gateway s;
  launch_saml_request := launch_saml_request s; launch_os := launch_os s;
  launch_host_id := launch_host_id s; launch_client_version := launch_client_version s;
  launch_certificate := launch_certificate s; launch_sslkey := launch_sslkey s;
  launch_key_password := launch_key_password s;
  launch_ignore_tls_errors := launch_ignore_tls_errors s; hidpi := hidpi s;
  clean := clean s; launch_default_browser := v; window_title := window_title s;
  window_theme := window_theme s; browser := browser s;
  browser_listen := browser_listen s; verbose := verbose s; log_format := log_format s;
  dmabuf_disabled := dmabuf_disabled s
|}.
Definition set_window_title (v : option string) (s : SamlAuthLauncher) : SamlAuthLauncher := {|
  launch_server := launch_server s; auth_executable := auth_executable s; launch_gateway := launch_gateway s;
  launch_saml_request := launch_saml_request s; launch_os := launch_os s;
  launch_host_id := launch_host_id s; launch_client_version := launch_client_version s;
  launch_certificate := launch_certificate s; launch_sslkey := launch_sslkey s;
  launch_key_password := launch_key_password s;
  launch_ignore_tls_errors := launch_ignore_tls_errors s; hidpi := hidpi s;
  clean := clean s; launch_default_browser := launch_default_browser s;
  window_title := v; window_theme := window_theme s; browser := browser s;
  browser_listen := browser_listen s; verbose := verbose s; log_format := log_format s;
  dmabuf_disabled := dmabuf_disabled s
|}.
Definition set_window_theme (v : option AuthWindowTheme.t) (s : SamlAuthLauncher) : SamlAuthLauncher := {|
  launch_server := launch_server s; auth_executable := auth_executable s; launch_gateway := launch_gateway s;
  launch_saml_request := launch_saml_request s; launch_os := launch_os s;
  launch_host_id := launch_host_id s; launch_client_version := launch_client_version s;
  launch_certificate := launch_certificate s; launch_sslkey := launch_sslkey s;
  launch_key_password := launch_key_password s;
  launch_ignore_tls_errors := launch_ignore_tls_errors s; hidpi := hidpi s;
  clean := clean s; launch_default_browser := launch_default_browser s;
  window_title := window_title s; window_theme := v; browser := browser s;
  browser_listen := browser_listen s; verbose := verbose s; log_format := log_format s;
  dmabuf_disabled := dmabuf_disabled s
|}.
Definition set_browser (v : option string) (s : SamlAuthLauncher) : SamlAuthLauncher := {|
  launch_server := launch_server s; auth_executable := auth_executable s; launch_gateway := launch_gateway s;
  launch_saml_request := launch_saml_request s; launch_os := launch_os s;
  launch_host_id := launch_host_id s; launch_client_version := launch_client_version s;
  launch_certificate := launch_certificate s; launch_sslkey := launch_sslkey s;
  launch_key_password := launch_key_password s;
  launch_ignore_tls_errors := launch_ignore_tls_errors s; hidpi := hidpi s;
  clean := clean s; launch_default_browser := launch_default_browser s;
  window_title := window_title s; window_theme := window_theme s; browser := v;
  browser_listen := browser_listen s; verbose := verbose s; log_format := log_format s;
  dmabuf_disabled := dmabuf_disabled s
|}.
Definition set_browser_listen (v : option IpAddr) (s : SamlAuthLauncher) : SamlAuthLauncher := {|
  launch_server := launch_server s; auth_executable := auth_executable s; launch_gateway := launch_gateway s;
  launch_saml_request := launch_saml_request s; launch_os := launch_os s;
  launch_host_id := launch_host_id s; launch_client_version := launch_client_version s;
  launch_certificate := launch_certificate s; launch_sslkey := launch_sslkey s;
  launch_key_password := launch_key_password s;
  launch_ignore_tls_errors := launch_ignore_tls_errors s; hidpi := hidpi s;
  clean := clean s; launch_default_browser := launch_default_browser s;
  window_title := window_title s; window_theme := window_theme s; browser := browser s;
  browser_listen := v; verbose := verbose s; log_format := log_format s;
  dmabuf_disabled := dmabuf_disabled s
|}.
Definition set_verbose (v : option string) (s : SamlAuthLauncher) : SamlAuthLauncher := {|
  launch_server := launch_server s; auth_executable := auth_executable s; launch_gateway := launch_gateway s;
  launch_saml_request := launch_saml_request s; launch_os := launch_os s;
  launch_host_id := launch_host_id s; launch_client_version := launch_client_version s;
  launch_certificate := launch_certificate s; launch_sslkey := launch_sslkey s;
  launch_key_password := launch_key_password s;
  launch_ignore_tls_errors := launch_ignore_tls_errors s; hidpi := hidpi s;
  clean := clean s; launch_default_browser := launch_default_browser s;
  window_title := window_title s; window_theme := window_theme s; browser := browser s;
  browser_listen := browser_listen s; verbose := v; log_format := log_format s;
  dmabuf_disabled := dmabuf_disabled s
|}.
Definition set_log_format (v : LogFormat) (s : SamlAuthLauncher) : SamlAuthLauncher := {|
  launch_server := launch_server s; auth_executable := auth_executable s; launch_gateway := launch_gateway s;
  launch_saml_request := launch_saml_request s; launch_os := launch_os s;
  launch_host_id := launch_host_id s; launch_client_version := launch_client_version s;
  launch_certificate := launch_certificate s; launch_sslkey := launch_sslkey s;
  launch_key_password := launch_key_password s;
  launch_ignore_tls_errors := launch_ignore_tls_errors s; hidpi := hidpi s;
  clean := clean s; launch_default_browser := launch_default_browser s;
  window_title := window_title s; window_theme := window_theme s; browser := browser s;
  browser_listen := browser_listen s; verbose := verbose s; log_format := v;
  dmabuf_disabled := dmabuf_disabled s
|}.
Definition set_dmabuf_disabled (v : bool) (s : SamlAuthLauncher) : SamlAuthLauncher := {|
  launch_server := launch_server s; auth_executable := auth_executable s; launch_gateway := launch_gateway s;
  launch_saml_request := launch_saml_request s; launch_os := launch_os s;
  launch_host_id := launch_host_id s; launch_client_version := launch_client_version s;
  launch_certificate := launch_certificate s; launch_sslkey := launch_sslkey s;
  launch_key_password := launch_key_password s;
  launch_ignore_tls_errors := launch_ignore_tls_errors s; hidpi := hidpi s;
  clean := clean s; launch_default_browser := launch_default_browser s;
  window_title := window_title s; window_theme := window_theme s; browser := browser s;
  browser_listen := browser_listen s; verbose := verbose s; log_format := log_format s;
  dmabuf_disabled := v
|}.
Definition set_launch_os_profile (p : OsProfile) (s : SamlAuthLauncher) : SamlAuthLauncher :=
  set_launch_os (Some (client_os_as_str (profile_client_os p)))
    (set_launch_host_id (Some (pi_host_id (profile_identity p)))
      (set_launch_client_version (Some (profile_client_version p)) s)).

Definition flag (b : bool) (name : string) (c : Command) : Command := if b then arg name c else c.
Definition option_arg (v : option string) (name : string) (c : Command) : Command :=
  match v with Some v => arg v (arg name c) | None => c end.
(** The arguments, in the order they are appended. *)
Definition build_command (s : SamlAuthLauncher) (program : string) : Command :=
  let c := arg (launch_server s) (command_new program) in
  let c := flag (launch_gateway s) "--gateway" c in
  let c := option_arg (launch_saml_request s) "--saml-request" c in
  let c := option_arg (launch_os s) "--os" c in
  let c := option_arg (launch_host_id s) "--host-id" c in
  let c := option_arg (launch_client_version s) "--client-version" c in
  let c := flag (launch_ignore_tls_errors s) "--ignore-tls-errors" c in
  let c := option_arg (launch_certificate s) "--certificate" c in
  let c := option_arg (launch_sslkey s) "--sslkey" c in
  let c := option_arg (launch_key_password s) "--key-password" c in
  let c := flag (hidpi s) "--hidpi" c in
  let c := flag (clean s) "--clean" c in
  let c := flag (launch_default_browser s) "--default-browser" c in
  let c := option_arg (window_title s) "--window-title" c in
  let c := option_arg (AuthWindowTheme.as_str <$> window_theme s) "--window-theme" c in
  let c := option_arg (browser s) "--browser" c in
  let c := option_arg (ip_text <$> browser_listen s) "--browser-listen" c in
  let c := option_arg (Some (log_format_as_str (log_format s))) "--log-format" c in
  match verbose s with Some v => arg v c | None => c end.

Definition is_manual (browser : string) : bool :=
  let b := to_ascii_lowercase browser in String.eqb b "manual" || String.eqb b "remote".
Definition auth_stdin (browser : option string) : ChildInput :=
  match browser with Some b => if is_manual b then Terminal else NoInput | None => NoInput end.

(** The [Display] of an exit status: the signals of Linux. *)
Definition SIGNALS : list string :=
  ["SIGHUP"; "SIGINT"; "SIGQUIT"; "SIGILL"; "SIGTRAP"; "SIGABRT"; "SIGBUS"; "SIGFPE"; "SIGKILL";
   "SIGUSR1"; "SIGSEGV"; "SIGUSR2"; "SIGPIPE"; "SIGALRM"; "SIGTERM"; "SIGSTKFLT"; "SIGCHLD";
   "SIGCONT"; "SIGSTOP"; "SIGTSTP"; "SIGTTIN"; "SIGTTOU"; "SIGURG"; "SIGXCPU"; "SIGXFSZ";
   "SIGVTALRM"; "SIGPROF"; "SIGWINCH"; "SIGIO"; "SIGPWR"; "SIGSYS"].
Definition status_text (s : ExitStatus) : string :=
  match s with
  | Exited code => "exit status: " +:+ to_string code
  | Signaled n core =>
      "signal: " +:+ to_string n +:+
      match SIGNALS !! N.to_nat (n - 1) with
      | Some name => " (" +:+ name +:+ ")" | None => "" end +:+
      (if core then " (core dumped)" else "")
  end.

Section launch.
Context `{SerdeJson SamlAuthResult}.
Variable env_var : string → option string.
Variable wayland_platform : bool.
(** [Path::canonicalize], the path of the bundled authenticator, [into_non_root]. *)
Variable canonicalize : string → option string.
Variable gpauth : string.
Variable non_root : Command → result Failure Command.

Definition is_bundled_authenticator (program bundled : string) : bool :=
  match canonicalize program, canonicalize bundled with
  | Some a, Some b => String.eqb a b
  | _, _ => false
  end.
Definition decode_auth_output (status : ExitStatus) (stdout : string) (rendering_failure : bool) :
    result Failure Credential :=
  if negb (success status) then
    if rendering_failure && is_crash_exit status then Err (RenderingCrash (status_text status))
    else bail ("Authenticator exited unsuccessfully: " +:+ status_text status)
  else match from_slice stdout with
       | Some r => credential_of_result r
       | None => bail "Failed to parse auth data"
       end.

(** What [launch] runs, and whether a crash of it can be recovered from. *)
Record Launch := { launch_command : Command; launch_stdin : ChildInput; can_recover : bool }.
Definition prepare_launch (s : SamlAuthLauncher) : result Failure Launch :=
  let program := default gpauth (auth_executable s) in
  command ← non_root (build_command s program);
  let embedded := bool_decide (browser s = None) && negb (launch_default_browser s) in
  let bundled := is_bundled_authenticator program gpauth in
  let can_recover := embedded && bundled && eligible env_var wayland_platform command in
  let command := if embedded && bundled && dmabuf_disabled s then env DMABUF "1" command
                 else command in
  Ok {| launch_command := command; launch_stdin := auth_stdin (browser s);
        can_recover := can_recover |}.
(** How the worker that runs the child ended. *)
Inductive WorkerEnd :=
  | JoinFailed (m : string)
  | RunFailed (e : IoError)
  | Ran (o : ObservedOutput) (stderr : list string).
Definition launch_result (l : Launch) (w : WorkerEnd) (cancelled : bool) : result Failure Credential :=
  match w with
  | JoinFailed m => bail m
  | RunFailed e => match io_kind e with
                   | Interrupted => Err AuthenticationCancelled
                   | _ => bail (io_text e)
                   end
  | Ran o stderr =>
      if cancelled then Err AuthenticationCancelled
      else decode_auth_output (out_status o) (out_stdout o)
             (can_recover l && diagnostic_matched (fold_left (λ d c, push c d) stderr diagnostic_new))
  end.
End launch.

(** * Lemmas *)

(** ** Diagnostics *)
Lemma push_app s t d : push (s +:+ t) d = push t (push s d).
Proof. revert d. induction s as [|a s IH]; intros d; [done|]. apply IH. Qed.
Lemma push_chunks l d : fold_left (λ d c, push c d) l d = push (String.concat "" l) d.
Proof.
  revert d. induction l as [|s l IH]; intros d; [done|]. cbn [fold_left]. rewrite IH, <- push_app.
  destruct l as [|t l]; cbn [String.concat]; [by rewrite string_app_nil_r|done].
Qed.
(** [p] is the line that is being read; of a line that is too long only that is known. *)
Definition reads_line (p : string) (d : StderrDiagnostic) : Prop :=
  if overflow d then MAX_LINE < slen p else line d = p ∧ slen p ≤ MAX_LINE.
Definition reported (l : string) : bool := (slen l <=? MAX_LINE) && is_diagnostic l.
Lemma reads_byte a p d : Ascii.eqb a newline = false → reads_line p d →
  reads_line (p +:+ String a "") (push_byte a d) ∧ matched (push_byte a d) = matched d.
Proof.
  unfold reads_line, push_byte. intros ->. rewrite slen_app. change (slen (String a "")) with 1.
  destruct (N.ltb_spec (slen (line d)) MAX_LINE) as [Hl|Hl]; cbn [overflow line matched];
    destruct (overflow d).
  - intros Hr. split; [lia|reflexivity].
  - intros [Hd Hr]. rewrite Hd in *. split; [split; [reflexivity|lia]|reflexivity].
  - intros Hr. split; [lia|reflexivity].
  - intros [Hd Hr]. rewrite Hd in *. split; [lia|reflexivity].
Qed.
Lemma check_line_reported p d : reads_line p d →
  matched (check_line d) = matched d || reported p.
Proof.
  unfold reads_line, reported. cbn [matched check_line]. destruct (overflow d).
  - intros Hp. by rewrite (proj2 (N.leb_gt _ _) Hp).
  - intros [-> Hp]. by rewrite (proj2 (N.leb_le _ _) Hp).
Qed.
Lemma split_cons c s : ∃ w ws, split c s = w :: ws.
Proof.
  destruct s as [|a s]; cbn; [by eexists _, _|]. destruct (Ascii.eqb a c); [by eexists _, _|].
  destruct (split c s); by eexists _, _.
Qed.
Lemma push_lines s p d : reads_line p d → diagnostic_matched (push s d) =
  matched d || existsb reported
    (match split newline s with [] => [] | w :: ws => (p +:+ w) :: ws end).
Proof.
  revert p d. induction s as [|a s IH]; intros p d Hp; cbn [push split].
  - cbn [existsb]. rewrite string_app_nil_r, orb_false_r. by apply check_line_reported.
  - destruct (Ascii.eqb a newline) eqn:Ea.
    + rewrite (IH ""); unfold push_byte; rewrite Ea; [|by split].
      cbn [matched]. rewrite (check_line_reported p) by done. cbn [existsb].
      rewrite string_app_nil_r, <- orb_assoc. f_equal. f_equal.
      by destruct (split newline s).
    + destruct (reads_byte a p d Ea Hp) as [Hr Hm]. rewrite (IH _ _ Hr), Hm. f_equal.
      destruct (split_cons newline s) as (w & ws & ->). by rewrite <- string_app_assoc.
Qed.
(** However the child's stderr was cut into chunks, the diagnostic is matched exactly if
    one of its lines is the diagnostic. *)
Lemma diagnostic_chunking l :
  diagnostic_matched (fold_left (λ d c, push c d) l diagnostic_new) =
  existsb reported (split newline (String.concat "" l)).
Proof.
  rewrite push_chunks, (push_lines _ "") by by split. cbn [matched orb diagnostic_new].
  by destruct (split_cons newline (String.concat "" l)) as (w & ws & ->).
Qed.

(** ** Recovery *)
(** A flow recovers from a crash once: afterwards the crash ends it, reported with the
    first one, and a cancellation stays a cancellation. *)
Lemma recovery_once e s s' : recover e s = (true, s') →
  is_rendering_crash e = true ∧ recovery_dmabuf_disabled s = false ∧
  (∀ e', recover e' s' = (false, s')) ∧
  (∀ e', is_authentication_cancelled e' = false → is_recovery_failed (terminal e' s') = true) ∧
  ∀ e', is_authentication_cancelled e' = true → terminal e' s' = e'.
Proof.
  unfold recover. destruct (recovery_dmabuf_disabled s) eqn:Es; cbn; [done|].
  destruct (is_rendering_crash e); [|done]. intros [= <-]. split_and!; try done.
  - intros e' He'. unfold terminal. rewrite He'. cbn. by destruct (is_recovery_failed e') eqn:E.
  - intros e' He'. unfold terminal. by rewrite He'.
Qed.
