(* ===== verification/NativeTunnel.v ===== *)
(** What is observed of one native tunnel (crates/openconnect/src/ffi/tunnel.rs, and the
    observer of vpn.rs): the negotiated settings copied under a budget, and the events
    with the transport that was already reported left out.

    A pointer is an option, a C string the bytes before its NUL. *)
From S2P Require Import Prelude Utf8 Text ThirdParty ChildProcess AuthLauncher TunnelMonitor.
Import TunnelMonitor.Native.

#[local] Open Scope N_scope.

Definition TEXT_LIMIT : N := 1024.
Definition COPY_BUDGET : N := 16 * 1024.
Definition LIST_LIMIT : nat := 256.

Record IpInfo := {
  raw_addr : option string;
  raw_netmask : option string;
  raw_addr6 : option string;
  raw_netmask6 : option string;
  raw_dns : list (option string);
  raw_domain : option string;
  raw_mtu : Z;
  raw_split_dns : list (option string);
  raw_split_includes : list (option string);
  raw_split_excludes : list (option string);
  raw_gateway_addr : option string;
}.
Record Stats := { tx_pkts : N; tx_bytes : N; rx_pkts : N; rx_bytes : N }.

(** * Copying under a budget *)
Record CopyBudget := { remaining : N; cut : bool }.
Definition budget_new : CopyBudget := {| remaining := COPY_BUDGET; cut := false |}.
Definition budget_text (bytes : string) (b : CopyBudget) : string * CopyBudget :=
  let limit := N.min (N.min (remaining b) TEXT_LIMIT) (slen bytes) in
  let text := from_utf8_lossy (slice bytes 0 limit) in
  let stop := floor_boundary text (N.min (slen text) limit) in
  let text := truncate text stop in
  (text, {| remaining := remaining b - slen text; cut := cut b || (stop <? slen bytes) |}).
(** [strnlen] bounds what is read of a scalar. *)
Definition budget_optional (value : option string) (b : CopyBudget) : option string * CopyBudget :=
  match value with
  | None => (None, b)
  | Some v => let '(t, b) := budget_text (slice v 0 (N.min (slen v) (TEXT_LIMIT + 1))) b in (Some t, b)
  end.
Definition list_empty : NativeList := {| items := []; total_count := 0; truncated := false |}.
Definition budget_push (l : NativeList) (bytes : string) (b : CopyBudget) : NativeList * CopyBudget :=
  let count := saturating_add u32_max (total_count l) 1 in
  if (LIST_LIMIT <=? length (items l))%nat || (TEXT_LIMIT <? slen bytes) || (remaining b <? slen bytes)
  then ({| items := items l; total_count := count; truncated := true |},
        {| remaining := remaining b; cut := true |})
  else
    let '(t, b) := budget_text bytes b in
    ({| items := items l ++ [t]; total_count := count;
        truncated := truncated l || negb (slen t =? slen bytes) |}, b).
Fixpoint push_all (l : NativeList) (entries : list string) (b : CopyBudget) : NativeList * CopyBudget :=
  match entries with
  | [] => (l, b)
  | e :: entries => let '(l, b) := budget_push l e b in push_all l entries b
  end.
(** The nodes without a text are no entries. *)
Definition present (nodes : list (option string)) : list string := omap id nodes.
Definition routes (nodes : list (option string)) (b : CopyBudget) : NativeList * CopyBudget :=
  push_all list_empty (present nodes) b.
(** [split(u8::is_ascii_whitespace)], the empty pieces left out. *)
Fixpoint split_white (s : string) : list string :=
  match s with
  | EmptyString => [""]
  | String a r =>
      if is_ascii_white a then "" :: split_white r
      else match split_white r with [] => [String a ""] | w :: ws => String a w :: ws end
  end.
Definition domains (domain : option string) : list string :=
  match domain with
  | None => []
  | Some d => List.filter (λ w, negb (is_empty w)) (split_white d)
  end.
Definition positive_mtu (mtu : Z) : option N := if (0 <? mtu)%Z then Some (Z.to_N mtu) else None.

Definition configuration (iface : option string) (raw : IpInfo) : Configuration :=
  let b := budget_new in
  let '(interface, b) := budget_optional iface b in
  let '(ipv4, b) := budget_optional (raw_addr raw) b in
  let '(netmask, b) := budget_optional (raw_netmask raw) b in
  let '(ipv6, b) := budget_optional (raw_addr6 raw) b in
  let '(netmask6, b) := budget_optional (raw_netmask6 raw) b in
  let '(server_ip, b) := budget_optional (raw_gateway_addr raw) b in
  let '(dns, b) := routes (raw_dns raw) b in
  let '(search_domains, b) := push_all list_empty (domains (raw_domain raw)) b in
  let '(split_dns, b) := routes (raw_split_dns raw) b in
  let '(included_routes, b) := routes (raw_split_includes raw) b in
  let '(excluded_routes, b) := routes (raw_split_excludes raw) b in
  {| interface := interface; ipv4 := ipv4; netmask := netmask; ipv6 := ipv6;
     netmask6 := netmask6; server_ip := server_ip; dns := dns; search_domains := search_domains;
     split_dns := split_dns; included_routes := included_routes;
     excluded_routes := excluded_routes; mtu := positive_mtu (raw_mtu raw);
     truncated_configuration := cut b |}.

(** * Events *)
#[export] Instance Transport_eq_dec : EqDecision Transport.
Proof. solve_decision. Defined.

(** What [Vpn] keeps for its observer: the transport reported last, and the observer,
    which tells whether it panics on an event. *)
Record Observer := {
  observed_transport : option Transport;
  tunnel_callback : option (Event → bool);
}.
Definition set_tunnel_observer (c : Event → bool) (o : Observer) : Observer :=
  {| observed_transport := observed_transport o; tunnel_callback := Some c |}.
Definition clear_tunnel_observer (o : Observer) : Observer :=
  {| observed_transport := observed_transport o; tunnel_callback := None |}.
(** The event the observer is given, whether it panicked, and what is kept. *)
Definition on_tunnel_event (e : Event) (o : Observer) : list Event * bool * Observer :=
  let give o := match tunnel_callback o with Some c => ([e], c e, o) | None => ([], false, o) end in
  match e with
  | EvTransport t =>
      if bool_decide (observed_transport o = Some t) then ([], false, o)
      else give {| observed_transport := Some t; tunnel_callback := tunnel_callback o |}
  | _ => give o
  end.
(** [observe]: a panic ends the action. *)
Fixpoint observe_all (es : list Event) (o : Observer) : list Event * Observer :=
  match es with
  | [] => ([], o)
  | e :: es =>
      match on_tunnel_event e o with
      | (given, true, o) => (given, o)
      | (given, false, o) => let '(more, o) := observe_all es o in (given ++ more, o)
      end
  end.
Definition native_events (event : Z) : list Event :=
  match event with
  | 0%Z => [EvTransport Negotiating]
  | 1%Z => [EvTransport IpsecEsp]
  | 2%Z => [EvTransport SslTls]
  | 3%Z => [EvTransport Unavailable]
  | 4%Z => [EvTransport Unavailable; EvReconnecting]
  | 5%Z => [EvEstablished]
  | 6%Z => [EvReconnected]
  | 7%Z => [EvTransport Unavailable; EvEnded]
  | _ => []
  end.
Definition vpn_tunnel_event (event : Z) (o : Observer) : list Event * Observer :=
  observe_all (native_events event) o.
Definition vpn_tunnel_configuration (iface : option string) (info : option IpInfo) (o : Observer) :
    list Event * Observer :=
  observe_all [EvConfiguration (configuration iface <$> info)] o.
(** The pending request is cleared by [Openconnect.statistics_received] before. *)
Definition vpn_tunnel_statistics (stats : option Stats) (o : Observer) : list Event * Observer :=
  observe_all
    (option_list ((λ s, EvStatistics {|
       received_bytes := rx_bytes s; sent_bytes := tx_bytes s;
       received_packets := rx_pkts s; sent_packets := tx_pkts s |}) <$> stats)) o.

(** * What is kept of a configuration *)

(** Rust's UTF-8. *)
Definition valid (s : string) : Prop := from_utf8_lossy s = s.
(** Text copied from [src] that leaves [b'] of the budget [b]: when there was room nothing
    is lost, and when nothing is marked as cut every text has a copy of its length, which
    is the text if that is UTF-8. *)
Record copies (room : Prop) (src out : list string) (b b' : CopyBudget) : Prop := {
  copy_spends : remaining b = remaining b' + total out;
  copy_short : Forall (λ s, slen s ≤ TEXT_LIMIT) out;
  copy_sizes : cut b' = false → cut b = false ∧ slen <$> out = slen <$> src;
  copy_complete : Forall valid src → cut b' = false → cut b = false ∧ out = src;
  copy_exact : room → Forall valid src → Forall (λ s, slen s ≤ TEXT_LIMIT) src →
    total src ≤ remaining b → out = src ∧ cut b' = cut b;
}.
Lemma forall_one {A} (P : A → Prop) x : Forall P [x] → P x.
Proof. apply list.Forall_singleton. Qed.
Lemma copies_mono (P Q : Prop) src out b b' : (Q → P) → copies P src out b b' → copies Q src out b b'.
Proof. intros HPQ [? ? ? ? ?]. split; auto. Qed.
Lemma copies_app P src1 src2 out1 out2 b1 b2 b3 :
  copies P src1 out1 b1 b2 → copies P src2 out2 b2 b3 → copies P (src1 ++ src2) (out1 ++ out2) b1 b3.
Proof.
  intros [S1 L1 Z1 C1 E1] [S2 L2 Z2 C2 E2]. split.
  - rewrite total_app. lia.
  - by apply list.Forall_app.
  - intros Hc. destruct (Z2 Hc) as [Hb Hs]. destruct (Z1 Hb) as [? Hs']. split; [done|].
    by rewrite !fmap_app, Hs, Hs'.
  - intros [V1 V2]%list.Forall_app Hc. destruct (C2 V2 Hc) as [Hb ->]. by destruct (C1 V1 Hb) as [? ->].
  - intros HP [V1 V2]%list.Forall_app [M1 M2]%list.Forall_app. rewrite total_app. intros Ht.
    destruct (E1 HP V1 M1 ltac:(lia)) as [-> <-]. destruct (E2 HP V2 M2 ltac:(lia)) as [-> <-]. done.
Qed.
Lemma copies_nil P b : copies P [] [] b b.
Proof. split; cbn; auto. lia. Qed.

Lemma budget_text_copies s b t b' : budget_text s b = (t, b') →
  copies True [s] [t] b b' ∧ slen t ≤ slen s ∧ cut b' = cut b || (slen t <? slen s).
Proof.
  unfold budget_text. set (limit := N.min (N.min (remaining b) TEXT_LIMIT) (slen s)).
  set (text := from_utf8_lossy (slice s 0 limit)).
  destruct (floor_boundary_spec text (N.min (slen text) limit)) as (Hb & Hle & _).
  assert (slen (truncate text (floor_boundary text (N.min (slen text) limit))) =
          floor_boundary text (N.min (slen text) limit)) as Hlen.
  { unfold truncate. rewrite slen_slice; [lia|]. lia. }
  intros [= <- <-]. rewrite Hlen. split_and!; [|unfold limit in *; lia|done].
  assert (valid s → slen s ≤ limit →
    floor_boundary text (N.min (slen text) limit) = slen s ∧
    truncate text (floor_boundary text (N.min (slen text) limit)) = s) as Hall.
  { intros Hv Hs. assert (limit = slen s) as El by (unfold limit in *; lia).
    assert (text = s) as Et by (unfold text; rewrite El, slice_all; exact Hv).
    rewrite Et, El, N.min_id.
    destruct (floor_boundary_spec s (slen s)) as (_ & Hl & Hf).
    destruct (N.eq_dec (floor_boundary s (slen s)) (slen s)) as [->|Hn].
    - split; [done|]. apply slice_all.
    - exfalso. pose proof (boundary_len s) as Hbl. rewrite Hf in Hbl; [done|lia|lia]. }
  split; cbn [remaining cut total].
  - cbn. rewrite Hlen. unfold limit in *. lia.
  - apply list.Forall_singleton. rewrite Hlen. unfold limit in *. lia.
  - intros [Hc Hs]%orb_false_iff. split; [done|]. apply N.ltb_ge in Hs. cbn. f_equal. rewrite Hlen.
    unfold limit in *. lia.
  - intros Hv%forall_one [Hc Hs]%orb_false_iff. split; [done|]. apply N.ltb_ge in Hs.
    f_equal. apply Hall; [done|]. unfold limit in *. lia.
  - intros _ Hv%forall_one Hs%forall_one Ht. cbn in Ht.
    destruct (Hall Hv ltac:(unfold limit; lia)) as [E ->]. split; [done|]. rewrite E.
    rewrite (proj2 (N.ltb_ge _ _)); [|lia]. apply orb_false_r.
Qed.

Lemma budget_optional_copies v b o b' : budget_optional v b = (o, b') →
  copies True (option_list v) (option_list o) b b'.
Proof.
  destruct v as [v|]; [|intros [= <- <-]; apply copies_nil]. unfold budget_optional.
  destruct (budget_text (slice v 0 (N.min (slen v) (TEXT_LIMIT + 1))) b) as [t b2] eqn:Et. intros [= <- <-]. cbn [option_list].
  pose proof (budget_text_copies _ _ _ _ Et) as (Hc & Hl & Hb).
  destruct (N.le_gt_cases (slen v) (TEXT_LIMIT + 1)) as [Hs|Hs].
  { by rewrite N.min_l, slice_all in Hc by done. }
  rewrite N.min_r in * by lia. destruct Hc as [S L _ _ _]. apply forall_one in L as L'.
  assert (cut b2 = true) as Hcut.
  { rewrite Hb, slen_slice by lia. rewrite (proj2 (N.ltb_lt _ _)) by lia. by rewrite orb_true_r. }
  split; [done..| | |].
  - by rewrite Hcut.
  - by rewrite Hcut.
  - intros _ _ Hshort%forall_one. lia.
Qed.

(** What pushing entries adds to a list. *)
Record pushes (l l' : NativeList) (entries out : list string) : Prop := {
  push_items : items l' = items l ++ out;
  push_count : total_count l' = N.min (total_count l + N.of_nat (length entries)) u32_max;
  push_bound : (length (items l) ≤ LIST_LIMIT → length (items l') ≤ LIST_LIMIT)%nat;
  push_fewer : (length out ≤ length entries)%nat;
  push_flag : out = entries → truncated l' = truncated l;
}.
Lemma pushes_nil l : total_count l ≤ u32_max → pushes l l [] [].
Proof. split; cbn; auto; [by rewrite app_nil_r|lia]. Qed.
Lemma pushes_cons l1 l2 l3 e es o os : (length o ≤ 1)%nat →
  pushes l1 l2 [e] o → pushes l2 l3 es os → pushes l1 l3 (e :: es) (o ++ os).
Proof.
  intros Ho [I1 C1 B1 F1 T1] [I2 C2 B2 F2 T2]. split; cbn [length] in *.
  - by rewrite I2, I1, app_assoc.
  - rewrite C2, C1. lia.
  - auto.
  - rewrite length_app. lia.
  - intros E. destruct o as [|x [|y o]]; cbn in E.
    + apply (f_equal length) in E. cbn in E. lia.
    + injection E as -> ->. rewrite T2, T1; done.
    + cbn in Ho. lia.
Qed.
Lemma budget_push_copies l s b l' b' : budget_push l s b = (l', b') →
  ∃ o, (length o ≤ 1)%nat ∧ pushes l l' [s] o ∧
       copies (length (items l) < LIST_LIMIT)%nat [s] o b b' ∧ (length o = 1 ∨ cut b' = true)%nat.
Proof.
  unfold budget_push. destruct (_ || _ || _) eqn:E.
  - intros [= <- <-]. exists []. split_and!; [cbn; lia| | |by right].
    + split; cbn [items total_count truncated length]; try done; [by rewrite app_nil_r|lia].
    + split; cbn; [lia|done|done|done|]. intros Hr _ Hs%forall_one Ht. cbn in Ht. exfalso.
      apply orb_true_iff in E as [[E|E]%orb_true_iff|E].
      * apply Nat.leb_le in E. lia.
      * apply N.ltb_lt in E. lia.
      * apply N.ltb_lt in E. lia.
  - apply orb_false_iff in E as [[E _]%orb_false_iff _]. apply Nat.leb_gt in E.
    destruct (budget_text s b) as [t b2] eqn:Et. intros [= <- <-].
    destruct (budget_text_copies _ _ _ _ Et) as (Hc & Hl & _). exists [t].
    split_and!; [cbn; lia| | |by left].
    + split; cbn [items total_count truncated length]; try done.
      * intros _. rewrite length_app. cbn. lia.
      * intros [= ->]. rewrite N.eqb_refl. apply orb_false_r.
    + eapply copies_mono, Hc. done.
Qed.
Lemma push_all_copies entries : ∀ l b l' b', total_count l ≤ u32_max →
  push_all l entries b = (l', b') →
  ∃ out, pushes l l' entries out ∧
         copies (length (items l) + length entries ≤ LIST_LIMIT)%nat entries out b b'.
Proof.
  induction entries as [|e es IH]; intros l b l' b' Ht.
  - intros [= <- <-]. exists []. split; [by apply pushes_nil|apply copies_nil].
  - cbn [push_all]. destruct (budget_push l e b) as [l1 b1] eqn:E1. intros E2.
    destruct (budget_push_copies _ _ _ _ _ E1) as (o & Ho & Hp & Hc & _).
    destruct (IH _ _ _ _ ltac:(rewrite (push_count _ _ _ _ Hp); lia) E2) as (os & Hps & Hcs).
    exists (o ++ os). split; [by eapply pushes_cons|].
    apply (copies_app _ [e] es o os b b1 b'); (eapply copies_mono; [|eassumption]); cbn [length].
    + lia.
    + rewrite (push_items _ _ _ _ Hp), length_app. lia.
Qed.
Definition entries_of (raw : IpInfo) : list (list string) :=
  [present (raw_dns raw); domains (raw_domain raw); present (raw_split_dns raw);
   present (raw_split_includes raw); present (raw_split_excludes raw)].
Definition scalars_of (iface : option string) (raw : IpInfo) : list (option string) :=
  [iface; raw_addr raw; raw_netmask raw; raw_addr6 raw; raw_netmask6 raw; raw_gateway_addr raw].
Definition lists (c : Configuration) : list NativeList :=
  [dns c; search_domains c; split_dns c; included_routes c; excluded_routes c].
Definition scalars (c : Configuration) : list (option string) :=
  [interface c; ipv4 c; netmask c; ipv6 c; netmask6 c; server_ip c].
(** The texts of a configuration, and those they are copied from, in the order of the
    copies. *)
Definition retained (c : Configuration) : list (list string) :=
  (option_list <$> scalars c) ++ (items <$> lists c).
Definition native_texts (iface : option string) (raw : IpInfo) : list (list string) :=
  (option_list <$> scalars_of iface raw) ++ entries_of raw.
Record fits (iface : option string) (raw : IpInfo) : Prop := {
  fits_texts : Forall (λ s, slen s ≤ TEXT_LIMIT) (mjoin (native_texts iface raw));
  fits_lists : Forall (λ l, length l ≤ LIST_LIMIT)%nat (entries_of raw);
  fits_total : total (mjoin (native_texts iface raw)) ≤ COPY_BUDGET;
}.
(** The copy without limits. *)
Definition whole_list (entries : list string) : NativeList :=
  {| items := entries; total_count := N.min (N.of_nat (length entries)) u32_max; truncated := false |}.
Definition whole (iface : option string) (raw : IpInfo) : Configuration := {|
  interface := iface; ipv4 := raw_addr raw; netmask := raw_netmask raw; ipv6 := raw_addr6 raw;
  netmask6 := raw_netmask6 raw; server_ip := raw_gateway_addr raw;
  dns := whole_list (present (raw_dns raw));
  search_domains := whole_list (domains (raw_domain raw));
  split_dns := whole_list (present (raw_split_dns raw));
  included_routes := whole_list (present (raw_split_includes raw));
  excluded_routes := whole_list (present (raw_split_excludes raw));
  mtu := positive_mtu (raw_mtu raw); truncated_configuration := false;
|}.

(** Copies one after the other. *)
Inductive chain (P : Prop) : list (list string) → list (list string) → CopyBudget → CopyBudget → Prop :=
  | chain_nil b : chain P [] [] b b
  | chain_cons s o b b1 b2 ss os :
      copies P s o b b1 → chain P ss os b1 b2 → chain P (s :: ss) (o :: os) b b2.
Lemma chain_copies P ss os b b' : chain P ss os b b' → copies P (mjoin ss) (mjoin os) b b'.
Proof. induction 1; [apply copies_nil|by eapply copies_app]. Qed.
Lemma chain_complete P ss os b b' : chain P ss os b b' →
  Forall valid (mjoin ss) → cut b' = false → cut b = false ∧ os = ss.
Proof.
  induction 1 as [b|s o b b1 b2 ss os Hc _ IH]; [done|]. cbn. intros [Vs Vss]%list.Forall_app Hcut.
  destruct (IH Vss Hcut) as [Hb ->]. by destruct (copy_complete _ _ _ _ _ Hc Vs Hb) as [? ->].
Qed.
(** The lengths of texts. *)
Definition sizes (l : list string) : list N := slen <$> l.
Lemma chain_sizes P ss os b b' : chain P ss os b b' →
  cut b' = false → cut b = false ∧ sizes <$> os = sizes <$> ss.
Proof.
  induction 1 as [b|s o b b1 b2 ss os Hc _ IH]; [done|]. intros Hcut.
  destruct (IH Hcut) as [Hb He]. destruct (copy_sizes _ _ _ _ _ Hc Hb) as [? Hs]. split; [done|].
  cbn. unfold sizes at 1 3. by rewrite Hs, He.
Qed.
(** What only depends on the lengths of the texts. *)
Lemma sizes_join (os ss : list (list string)) :
  sizes <$> os = sizes <$> ss → slen <$> mjoin os = slen <$> mjoin ss.
Proof.
  revert ss. induction os as [|o os IH]; intros [|s ss]; cbn; try done. intros [= Ho Hos].
  unfold sizes in Ho. rewrite !fmap_app, Ho. f_equal. by apply IH.
Qed.
Lemma sizes_total (a b : list string) : slen <$> a = slen <$> b → total a = total b.
Proof. revert b. induction a as [|x a IH]; intros [|y b]; cbn; try done. intros [= ->]. f_equal. auto. Qed.
Lemma sizes_short (a b : list string) : slen <$> a = slen <$> b →
  Forall (λ s, slen s ≤ TEXT_LIMIT) a → Forall (λ s, slen s ≤ TEXT_LIMIT) b.
Proof.
  intros Hs Ha. apply (list.Forall_fmap slen (λ n, n ≤ TEXT_LIMIT)). rewrite <- Hs. by apply list.Forall_fmap.
Qed.
Lemma option_list_inj (a b : list (option string)) : option_list <$> a = option_list <$> b → a = b.
Proof.
  revert b. induction a as [|[x|] a IH]; intros [|[y|] b]; cbn; try done; intros [= ]; subst; f_equal; auto.
Qed.
Lemma configuration_chain iface raw :
  let c := configuration iface raw in
  Forall2 (λ l es, pushes list_empty l es (items l)) (lists c) (entries_of raw) ∧
  mtu c = positive_mtu (raw_mtu raw) ∧
  ∃ b, cut b = truncated_configuration c ∧
    chain (Forall (λ l, length l ≤ LIST_LIMIT)%nat (entries_of raw)) (native_texts iface raw) (retained c)
      budget_new b.
Proof.
  assert (∀ entries b l b', push_all list_empty entries b = (l, b') →
    pushes list_empty l entries (items l) ∧
    copies (length entries ≤ LIST_LIMIT)%nat entries (items l) b b') as Hpush.
  { intros entries b l b' E. apply push_all_copies in E as (out & Hp & Hc); [|cbn; lia].
    pose proof (push_items _ _ _ _ Hp) as Hi. cbn in Hi. by subst out. }
  unfold configuration, routes.
  repeat match goal with
    | |- context [budget_optional ?v ?b] =>
        let o := fresh "o" in let b' := fresh "b" in let E := fresh "E" in
        destruct (budget_optional v b) as [o b'] eqn:E; apply budget_optional_copies in E
    | |- context [push_all list_empty ?es ?b] =>
        let l := fresh "l" in let b' := fresh "b" in let E := fresh "E" in
        destruct (push_all list_empty es b) as [l b'] eqn:E; apply Hpush in E as [? ?]
    end.
  cbv zeta. split; [repeat (constructor; [eassumption|]); constructor|]. split; [done|]. eexists. split; [reflexivity|].
  unfold native_texts, retained, scalars_of, entries_of, scalars, lists. cbn.
  repeat (eapply chain_cons; [eapply copies_mono; [|eassumption]; try done;
    intros Hl; by repeat (apply list.Forall_cons in Hl as [? Hl])|]). apply chain_nil.
Qed.

Lemma fits_room iface raw : fits iface raw → Forall valid (mjoin (native_texts iface raw)) →
  truncated_configuration (configuration iface raw) = false.
Proof.
  intros [Ft Fl Fs] Hv. destruct (configuration_chain iface raw) as (_ & _ & b & <- & Hc).
  by destruct (copy_exact _ _ _ _ _ (chain_copies _ _ _ _ _ Hc) Fl Hv Ft Fs) as [_ ->].
Qed.

Lemma retained_whole iface raw :
  retained (configuration iface raw) = native_texts iface raw →
  scalars (configuration iface raw) = scalars_of iface raw ∧
  items <$> lists (configuration iface raw) = entries_of raw.
Proof.
  intros [Hs Hl]%app_inj_1; [|by rewrite !length_fmap]. split; [by apply option_list_inj|done].
Qed.
Lemma pushes_whole l es : pushes list_empty l es (items l) → items l = es → l = whole_list es.
Proof.
  intros [_ Hc _ _ Hf] He. specialize (Hf He). destruct l. cbn in *. subst. unfold whole_list. by f_equal.
Qed.
Lemma whole_eq iface raw :
  Forall2 (λ l es, pushes list_empty l es (items l)) (lists (configuration iface raw)) (entries_of raw) →
  mtu (configuration iface raw) = positive_mtu (raw_mtu raw) →
  scalars (configuration iface raw) = scalars_of iface raw →
  items <$> lists (configuration iface raw) = entries_of raw →
  truncated_configuration (configuration iface raw) = false → configuration iface raw = whole iface raw.
Proof.
  destruct (configuration iface raw) as [? ? ? ? ? ? d se sp inc ex m t]. unfold lists, scalars, scalars_of, entries_of.
  cbn. intros Hp -> [= -> -> -> -> -> ->] [= Hd Hse Hsp Hi He] ->.
  repeat (apply Forall2_cons_1 in Hp as [? Hp]). unfold whole.
  f_equal; by apply pushes_whole.
Qed.

Lemma unmarked_fits iface raw : truncated_configuration (configuration iface raw) = false →
  fits iface raw ∧ sizes <$> retained (configuration iface raw) = sizes <$> native_texts iface raw.
Proof.
  destruct (configuration_chain iface raw) as (Hp & _ & b & <- & Hc). intros Hcut.
  destruct (chain_sizes _ _ _ _ _ Hc Hcut) as [_ Hsz]. split; [|done].
  pose proof (chain_copies _ _ _ _ _ Hc) as Hall. pose proof (sizes_join _ _ Hsz) as Hj. split.
  - eapply sizes_short; [exact Hj|]. apply (copy_short _ _ _ _ _ Hall).
  - assert (length <$> (items <$> lists (configuration iface raw)) = length <$> entries_of raw) as Hlen.
    { apply (f_equal (fmap length)) in Hsz. rewrite <- !list_fmap_compose in Hsz.
      unfold retained, native_texts in Hsz. rewrite !fmap_app in Hsz.
      apply app_inj_1 in Hsz as [_ Hsz]; [|by rewrite !length_fmap].
      rewrite <- !list_fmap_compose in *. etrans; [|etrans; [exact Hsz|]];
        apply list_fmap_ext; intros; cbn; unfold sizes; by rewrite length_fmap. }
    apply (list.Forall_fmap length (λ n, n ≤ LIST_LIMIT)%nat). rewrite <- Hlen.
    apply list.Forall_fmap, list.Forall_fmap.
    eapply Forall2_Forall_l; [exact Hp|]. apply list.Forall_true. intros es l Hpush.
    apply (push_bound _ _ _ _ Hpush). cbn. lia.
  - rewrite <- (sizes_total _ _ Hj). pose proof (copy_spends _ _ _ _ _ Hall) as Hs.
    cbn [remaining budget_new] in Hs. lia.
Qed.

(** C21: what is kept of a tunnel's settings is bounded. The texts kept are at most 16 KiB
    together and 1 KiB each, no list keeps more than 256 entries, and every entry the
    tunnel has is counted. When the copy is not marked as truncated the settings fit these
    limits, and every text has a copy of its length: no entry is left out. When the native
    texts are UTF-8 the copy is marked exactly if they do not fit, and one that is not
    marked is equal to the copy without limits. For other bytes neither holds: replacing
    one byte takes three of the length, and what no longer fits is lost unmarked
    ([replaced_bytes_are_lost]). *)
Theorem native_configuration_bounded iface raw :
  let c := configuration iface raw in
  total (mjoin (retained c)) ≤ COPY_BUDGET ∧
  Forall (λ s, slen s ≤ TEXT_LIMIT) (mjoin (retained c)) ∧
  Forall2 (λ l es, length (items l) ≤ LIST_LIMIT ∧
    total_count l = N.min (N.of_nat (length es)) u32_max)%nat (lists c) (entries_of raw) ∧
  (truncated_configuration c = false →
   fits iface raw ∧ sizes <$> retained c = sizes <$> native_texts iface raw) ∧
  (Forall valid (mjoin (native_texts iface raw)) →
   (truncated_configuration c = false ↔ fits iface raw) ∧
   (truncated_configuration c = false → c = whole iface raw)).
Proof.
  cbv zeta. destruct (configuration_chain iface raw) as (Hp & Hm & b & Hb & Hc).
  pose proof (chain_copies _ _ _ _ _ Hc) as Hall. split_and!.
  - pose proof (copy_spends _ _ _ _ _ Hall) as Hs. cbn [remaining budget_new] in Hs. lia.
  - apply (copy_short _ _ _ _ _ Hall).
  - eapply list.Forall2_impl; [exact Hp|]. intros l es Hpush. split.
    + apply (push_bound _ _ _ _ Hpush). cbn. lia.
    + by rewrite (push_count _ _ _ _ Hpush).
  - apply unmarked_fits.
  - intros Hv. split; [split; [intros Hcut; by apply unmarked_fits|intros Hf; by apply fits_room]|].
    intros Hcut. rewrite <- Hb in Hcut. destruct (chain_complete _ _ _ _ _ Hc Hv Hcut) as [_ Heq].
    destruct (retained_whole _ _ Heq) as [Hs Hl]. rewrite Hb in Hcut. by apply whole_eq.
Qed.

(** ** Events *)
Definition transport_of (e : Event) : option Transport :=
  match e with EvTransport t => Some t | _ => None end.
(** No transport follows itself. *)
Fixpoint changing (previous : option Transport) (l : list Transport) : Prop :=
  match l with
  | [] => True
  | t :: l => previous ≠ Some t ∧ changing (Some t) l
  end.
Lemma changing_app p l k : changing p l → changing (default p (Some <$> list.last l)) k → changing p (l ++ k).
Proof.
  revert p. induction l as [|t l IH]; intros p; cbn [app changing]; [done|].
  intros [Hp Hl]. rewrite last_cons. intros Hk. split; [done|]. apply IH; [done|].
  by destruct (list.last l).
Qed.
Lemma observe_changing es o given o' c : observe_all es o = (given, o') → tunnel_callback o = Some c →
  changing (observed_transport o) (omap transport_of given) ∧ tunnel_callback o' = Some c ∧
  observed_transport o' = default (observed_transport o) (Some <$> list.last (omap transport_of given)).
Proof.
  revert o given o'. induction es as [|e es IH]; intros o given o'; cbn [observe_all]; [by intros [= <- <-]|].
  destruct (on_tunnel_event e o) as [[g p] o1] eqn:E. intros Ho Hcb.
  assert (changing (observed_transport o) (omap transport_of g) ∧ tunnel_callback o1 = Some c ∧
    observed_transport o1 = default (observed_transport o) (Some <$> list.last (omap transport_of g)))
    as (Hch & Hc1 & Ho1).
  { unfold on_tunnel_event in E. rewrite Hcb in E. destruct e; cbn in E; try (injection E as <- <- <-; by cbn).
    destruct (bool_decide_reflect (observed_transport o = Some t)) as [Ht|Ht];
      injection E as <- <- <-; [by cbn|]. by cbn. }
  destruct p; [by injection Ho as <- <-|].
  destruct (observe_all es o1) as [more o2] eqn:E2. injection Ho as <- <-.
  destruct (IH _ _ _ E2 Hc1) as (Hch2 & Hc2 & Ho2). rewrite omap_app. split_and!; [|done|].
  - apply changing_app; [done|]. by rewrite Ho1 in Hch2.
  - rewrite Ho2, Ho1, last_app. by destruct (list.last (omap transport_of more)).
Qed.
(** Whatever the tunnel reports, and also when its observer panics, the observer is told of
    a transport only when it changed. *)
Lemma transports_change (codes : list Z) (c : Event → bool) :
  let run := fold_left (λ st code, let '(es, o) := vpn_tunnel_event code st.2 in (st.1 ++ es, o)) codes
    ([], {| observed_transport := None; tunnel_callback := Some c |}) in
  changing None (omap transport_of run.1).
Proof.
  cbv zeta. set (f := λ st code, _).
  assert (∀ codes (st : list Event * Observer), tunnel_callback st.2 = Some c → changing None (omap transport_of st.1) →
    observed_transport st.2 = list.last (omap transport_of st.1) →
    changing None (omap transport_of (fold_left f codes st).1)) as Hgen.
  { clear codes. intros codes. induction codes as [|code codes IH]; intros [given o] Hcb Hch Ho; [done|].
    cbn [fold_left]. cbn [fst snd] in *.
    assert (f (given, o) code = (given ++ (vpn_tunnel_event code o).1, (vpn_tunnel_event code o).2)) as ->.
    { unfold f. cbn. by destruct (vpn_tunnel_event code o). }
    destruct (vpn_tunnel_event code o) as [es o'] eqn:E.
    destruct (observe_changing _ _ _ _ _ E Hcb) as (Hch' & Hcb' & Ho').
    apply IH; cbn [fst snd]; [done|..]; rewrite omap_app.
    - apply changing_app; [done|]. rewrite Ho in Hch'. by destruct (list.last (omap transport_of given)).
    - rewrite last_app, Ho', Ho. by destruct (list.last (omap transport_of es)). }
  by apply Hgen.
Qed.

Module NativeExample.
Definition raw (domain : string) : IpInfo := {|
  raw_addr := Some "10.0.0.7"; raw_netmask := Some "255.255.255.255"; raw_addr6 := None;
  raw_netmask6 := None; raw_dns := [Some "10.0.0.1"; None; None]; raw_domain := Some domain;
  raw_mtu := 1400; raw_split_dns := []; raw_split_includes := [Some "10.0.0.0/8"; None];
  raw_split_excludes := []; raw_gateway_addr := Some "192.0.2.1" |}.
(** The name \xffabc: the replacement character takes three of its four bytes, 'b' and 'c'
    are lost, and the copy is not marked. *)
Example replaced_bytes_are_lost :
  let name := String (Ascii.ascii_of_N 255) "abc" in
  let c := configuration (Some name) (raw "a.example") in
  truncated_configuration c = false ∧
  interface c = Some (String (Ascii.ascii_of_N 239) (String (Ascii.ascii_of_N 191) (String (Ascii.ascii_of_N 189) "a"))).
Proof. by vm_compute. Qed.
Definition many : string := String.concat " " (replicate 300 "a.example").
Lemma native_configuration_bounded_witness :
  configuration (Some "tun0") (raw "a.example  b.example") = whole (Some "tun0") (raw "a.example  b.example") ∧
  domains (Some "a.example  b.example") = ["a.example"; "b.example"] ∧
  total_count (search_domains (configuration (Some "tun0") (raw many))) = 300 ∧
  length (items (search_domains (configuration (Some "tun0") (raw many)))) = LIST_LIMIT ∧
  ¬ fits (Some "tun0") (raw many).
Proof.
  assert (∀ d, forallb (λ s, String.eqb (from_utf8_lossy s) s) (mjoin (native_texts (Some "tun0") (raw d))) = true →
    Forall valid (mjoin (native_texts (Some "tun0") (raw d)))) as Hv.
  { intros d Hf. apply list.Forall_forall. intros s Hs. apply forallb_elem with (x := s) in Hf; [|done].
    by apply String.eqb_eq. }
  split_and!; [|by vm_compute..|].
  - apply (native_configuration_bounded (Some "tun0") (raw "a.example  b.example")); [|by vm_compute].
    by apply Hv; vm_compute.
  - intros Hf. apply (native_configuration_bounded (Some "tun0") (raw many)) in Hf; [|by apply Hv; vm_compute].
    revert Hf. vm_compute. discriminate.
Defined.
End NativeExample.
