(* ===== verification/Portal.v ===== *)
(** The portal's policy (crates/gpapi/src/gateway/parse_gateways.rs, portal/config.rs,
    portal/discovery.rs, portal/prelogin.rs).

    A server's answer to a request is [None] when the cancellation won the [select!]; a
    Rust panic is [None] in the functions that can panic. *)
From S2P Require Import Prelude Utf8 Text ThirdParty ClientProfile Xml GpHttp Csc Session Credential.
From Stdlib Require Import Strings.Ascii.

#[local] Open Scope N_scope.

(** * Internet addresses: [IpAddr::from_str] of the standard library *)
Module IpText.
Fixpoint read_digits (radix : N) (acc count : N) (s : string) : N * N * string :=
  match s with
  | EmptyString => (acc, count, s)
  | String a r => match digit radix a with
                  | Some d => read_digits radix (acc * radix + d) (count + 1) r
                  | None => (acc, count, s)
                  end
  end.
Definition read_number (radix max_digits bound : N) (allow_zero_prefix : bool) (s : string) :
    option (N * string) :=
  let '(n, count, rest) := read_digits radix 0 0 s in
  let leading_zero := String.prefix "0" s in
  if (count =? 0) || (max_digits <? count) ||
     (negb allow_zero_prefix && leading_zero && (1 <? count)) || (bound <? n)
  then None else Some (n, rest).
Definition read_separator {A} (sep : string) (index : nat)
    (inner : string → option (A * string)) (s : string) : option (A * string) :=
  match index with O => inner s | S _ => s ← Utf8.strip_prefix sep s; inner s end.
Definition octet : string → option (N * string) := read_number 10 3 255 false.
Definition read_ipv4 (s : string) : option (N * string) :=
  '(a, s) ← read_separator "." 0 octet s;
  '(b, s) ← read_separator "." 1 octet s;
  '(c, s) ← read_separator "." 2 octet s;
  '(d, s) ← read_separator "." 3 octet s;
  Some (((a * 256 + b) * 256 + c) * 256 + d, s).
(** At most [room] groups from group [i] on, and whether they end with an IPv4 text. *)
Fixpoint read_groups (room i : nat) (s : string) : list N * bool * string :=
  match room with
  | O => ([], false, s)
  | S room =>
      let v4 := match room with O => None | S _ => read_separator ":" i read_ipv4 s end in
      match v4 with
      | Some (ip, s) => ([ip / 65536; ip mod 65536], true, s)
      | None =>
          match read_separator ":" i (read_number 16 4 65535 true) s with
          | Some (g, s) => let '(l, v4, s) := read_groups room (S i) s in (g :: l, v4, s)
          | None => ([], false, s)
          end
      end
  end.
Definition of_groups (l : list N) : N := fold_left (λ n g, n * 65536 + g) l 0.
Definition read_ipv6 (s : string) : option (N * string) :=
  let '(front, front_v4, s) := read_groups 8 0 s in
  if bool_decide (length front = 8%nat) then Some (of_groups front, s)
  else if front_v4 then None
  else s ← Utf8.strip_prefix ":" s;
       s ← Utf8.strip_prefix ":" s;
       let '(back, _, s) := read_groups (8 - (length front + 1)) 0 s in
       Some (of_groups (front ++ replicate (8 - length front - length back) 0 ++ back), s).
Definition parse (s : string) : option IpAddr :=
  '(ip, rest) ← match read_ipv4 s with
                | Some (n, rest) => Some (V4 n, rest)
                | None => '(n, rest) ← read_ipv6 s; Some (V6 n, rest)
                end;
  if is_empty rest then Some ip else None.
End IpText.

(** * Gateways of a policy (parse_gateways.rs) *)
Section parsing.
Context `{Xmltree}.

Definition parse_priority (e : Element) : N :=
  default u32_max (child_text "priority" e ≫= from_str u32_max).
Definition parse_priority_rules (e : Element) : list PriorityRule :=
  (λ n, {| rule_name := default "" (attr "name" n); rule_priority := parse_priority n |})
    <$> children "entry" e.
Definition parse_gateway (kind : GatewayKind) (item : Element) : Gateway := {|
  gateway_name := default "" (child_text "description" item);
  gateway_address := default "" (attr "name" item);
  gateway_kind := kind;
  gateway_priority := parse_priority item;
  priority_rules := default [] (parse_priority_rules <$> child "priority-rule" item);
|}.
Definition parse_gateways (e : Element) (prefer_internal : bool) : option (list Gateway) :=
  node ← descendant "gateways" e;
  let internal := if prefer_internal
    then (λ l, (l, Internal)) <$> (descendant "internal" node ≫= child "list") else None in
  '(list_, kind) ← or_else internal
    ((λ l, (l, External)) <$> (descendant "external" node ≫= child "list"));
  Some (parse_gateway kind <$> children "entry" list_).

(** * Policy values (portal/config.rs) *)
Definition parse_policy_number (v : option string) (default_ : N) (field : string) :
    result Failure N :=
  match v with
  | Some v => ok_or (Message ("Invalid portal " +:+ field +:+ " policy")) (from_str u32_max (trim v))
  | None => Ok default_
  end.
Definition parse_internal_session_policy (root : Element) : result Failure InternalSessionPolicy :=
  let hip := descendant "hip-collection" root in
  let text_of name := (λ e, default "" (get_text e)) <$> (hip ≫= child name) in
  interval ← parse_policy_number (text_of "hip-report-interval") 3600 "hip-report-interval";
  collect ← match trim <$> text_of "collect-hip-data" with
            | None => Ok true
            | Some v => if String.eqb v "yes" then Ok true
                        else if String.eqb v "no" then Ok false
                        else bail "Invalid portal collect-hip-data policy"
            end;
  map_err Message (policy_new interval collect).
Definition parse_yes_no (name : string) (root : Element) : option bool :=
  v ← descendant_text name root;
  let v := trim v in
  if String.eqb v "yes" then Some true else if String.eqb v "no" then Some false else None.
Definition parse_default_browser : Element → option bool := parse_yes_no "default-browser".
Definition parse_allow_extend_session : Element → option bool := parse_yes_no "allow-extend-session".
Definition parse_connect_method (root : Element) : option string :=
  nonempty (descendant_text "connect-method" root).

(** The loop over the IPv4 and the IPv6 pair. *)
Fixpoint detection_targets (l : list (option string * option string)) :
    result Failure (list (IpAddr * string)) :=
  match l with
  | [] => Ok []
  | (address, host) :: l =>
      match nonempty address, nonempty host with
      | None, None => detection_targets l
      | Some address, Some host =>
          ip ← ok_or (Message "invalid IP address syntax") (IpText.parse address);
          rest ← detection_targets l;
          Ok ((ip, host) :: rest)
      | _, _ => bail "Incomplete internal host detection policy"
      end
  end.
Definition parse_internal_detection (e : Element) : result Failure (option InternalHostDetection) :=
  l ← detection_targets [(child_text "ip-address" e, child_text "host" e);
                         (child_text "ipv6-address" e, child_text "ipv6-host" e)];
  match l with
  | [] => Ok None
  | _ => d ← map_err Message (detection_new l); Ok (Some d)
  end.

(** * The configuration *)
Record PortalConfig := {
  portal : string;
  auth_cookie : AuthCookieCredential;
  config_cred : Credential;
  gateways : list Gateway;
  connect_method : option string;
  config_digest : option string;
  internal_host_detection : option bool;
  config_detection : option InternalHostDetection;
  version : option string;
  config_allow_extend_session : option bool;
  default_browser : option bool;
  internal_session_policy : option InternalSessionPolicy;
}.
Record PortalPolicy := {
  config : PortalConfig;
  internal_gateways : list Gateway;
  external_gateways : list Gateway;
}.
Definition with_gateways (l : list Gateway) (detected : option bool) (c : PortalConfig) :
    PortalConfig := {|
  portal := portal c; auth_cookie := auth_cookie c; config_cred := config_cred c; gateways := l;
  connect_method := connect_method c; config_digest := config_digest c;
  internal_host_detection := detected; config_detection := config_detection c;
  version := version c; config_allow_extend_session := config_allow_extend_session c;
  default_browser := default_browser c; internal_session_policy := internal_session_policy c;
|}.
Definition select_gateways (prefer_internal : bool) (detected : option bool) (p : PortalPolicy) :
    PortalConfig :=
  let l := if prefer_internal then internal_gateways p else external_gateways p in
  let l := match l with
           | [] => [gateway_new (portal (config p)) (portal (config p))]
           | l => l
           end in
  with_gateways l detected (config p).
(** [PortalPolicy::external_gateways] *)
Definition into_external (p : PortalPolicy) : PortalConfig := select_gateways false None p.

(** The two loops of [find_preferred_gateway] with their variables. *)
Definition rule_applies (region : string) (r : PriorityRule) : bool :=
  String.eqb (rule_name r) region || String.eqb (rule_name r) "Any".
Definition preferred_step (region : string) (g : Gateway) (acc : option Gateway * N)
    (r : PriorityRule) : option Gateway * N :=
  if rule_applies region r && (rule_priority r <? acc.2) then (Some g, rule_priority r) else acc.
Definition preferred_by_region (region : string) (l : list Gateway) : option Gateway * N :=
  fold_left (λ acc g, fold_left (preferred_step region g) (priority_rules g) acc) l (None, u32_max).
(** [Iterator::min_by_key]: the first of the least. *)
Fixpoint min_by_key {A} (f : A → N) (l : list A) : option A :=
  match l with
  | [] => None
  | x :: l => match min_by_key f l with
              | Some y => if f y <? f x then Some y else Some x
              | None => Some x
              end
  end.
Definition find_preferred_gateway (region : string) (c : PortalConfig) : option Gateway :=
  match (preferred_by_region region (gateways c)).1 with
  | Some g => Some g
  | None => min_by_key gateway_priority (gateways c)
  end.
Definition find_gateway (name_or_address : string) (c : PortalConfig) : option Gateway :=
  List.find (λ g, String.eqb (gateway_name g) name_or_address ||
                  String.eqb (gateway_address g) name_or_address) (gateways c).
(** [slice::swap(i, j)], which panics out of range. *)
Definition swap {A} (i j : nat) (l : list A) : option (list A) :=
  x ← l !! i; y ← l !! j; Some (<[j := x]> (<[i := y]> l)).
Fixpoint position {A} (f : A → bool) (l : list A) : option nat :=
  match l with
  | [] => None
  | x :: l => if f x then Some O else S <$> position f l
  end.
Definition sort_gateways (region : string) (c : PortalConfig) : option PortalConfig :=
  preferred ← find_preferred_gateway region c;
  index ← position (λ g, String.eqb (gateway_name g) (gateway_name preferred)) (gateways c);
  l ← swap 0 index (gateways c);
  Some (with_gateways l (internal_host_detection c) c).

(** [parse_portal_policy]; [cancelled] is the token at its check. *)
Definition parse_portal_policy (server : string) (cred : Credential) (root : Element)
    (cancelled : bool) : result Failure PortalPolicy :=
  let detection := match parse_internal_detection <$> descendant "internal-host-detection" root with
                   | Some (Ok d) => d
                   | Some (Err _) | None => None
                   end in
  if cancelled then bail "Portal configuration cancelled"
  else Ok {|
    internal_gateways := default [] (parse_gateways root true);
    external_gateways := default [] (parse_gateways root false);
    config := {|
      portal := server;
      auth_cookie := auth_cookie_new (username cred)
        (default "" (descendant_text "portal-userauthcookie" root))
        (default "" (descendant_text "portal-prelogonuserauthcookie" root));
      config_cred := cred;
      gateways := [];
      connect_method := parse_connect_method root;
      config_digest := descendant_text "config-digest" root;
      internal_host_detection := None;
      config_detection := detection;
      version := descendant_text "version" root;
      config_allow_extend_session := parse_allow_extend_session root;
      default_browser := parse_default_browser root;
      internal_session_policy := to_option (parse_internal_session_policy root);
    |} |}.
End parsing.

(** * Retrieving the policy *)
Definition remove_url_scheme (s : string) : string := replace "https://" "" (replace "http://" "" s).

Section retrieval.
Context `{Xmltree} `{UrlCrate} {ClientIdentity : Type}.
(** [Url::origin().ascii_serialization()], the digest and encoder of the custom checks,
    their reader, and the time in milliseconds. *)
Variable origin_text : Url → string.
Variable md5 : string → list N.
Variable url_encode : string → string.
Variable reader : CscDataReader.
Variable millis : N.

Definition Answer : Type := option (result NetworkError Response).
Record PortalServer := {
  post_config : string → Params → Answer;
  post_csc : string → gmap string string → Answer;
  (** The cancellation won before the second request was made. *)
  csc_cancelled : bool;
}.

Definition parse_url_or (s : string) : result Failure Url := map_err Message (parse_url s).
Definition normalize (server : string) : result Failure string :=
  map_err Message (normalize_server to_string server).

(** The errors of the two requests and of [prelogin]. *)
Definition config_failure (gp : GpParams ClientIdentity) (origin : string) (e : GpError) : Failure :=
  match from_request origin (error_chain e) with
  | Some tls => TlsFailure tls
  | None =>
      if bool_decide (profile_client_os (os_profile gp) = Ios) && is_authentication_rejection e
      then GpHttp.AuthenticationRejected
      else if error_status e =? 404
      then PortalFailure (PortalError.ConfigError "Config endpoint not found")
      else if is_status_error e then Message ("Portal config error: " +:+ reason e)
      else PortalFailure (PortalError.ConfigError (reason e))
  end.
Definition csc_failure (origin : string) (e : GpError) : Failure :=
  match from_request origin (error_chain e) with
  | Some tls => TlsFailure tls
  | None =>
      if error_status e =? 404
      then PortalFailure (PortalError.ConfigError "CSC config endpoint not found")
      else if is_status_error e then Message ("Portal CSC config error: " +:+ reason e)
      else PortalFailure (PortalError.ConfigError (reason e))
  end.
Definition prelogin_failure (origin : string) (e : GpError) : Failure :=
  match from_request origin (error_chain e) with
  | Some tls => TlsFailure tls
  | None =>
      if error_status e =? 404
      then PortalFailure (PortalError.PreloginError "Prelogin endpoint not found")
      else if is_status_error e then Message ("Prelogin error: " +:+ reason e)
      else PortalFailure (PortalError.PreloginError (reason e))
  end.

(** The [select!] around a request: cancelled, failed to send, or answered. *)
Definition receive (origin : string) (failure : GpError → Failure) (a : Answer) :
    result Failure string :=
  match a with
  | None => bail "Portal configuration cancelled"
  | Some (Err e) => Err (send_failure origin e)
  | Some (Ok res) => map_err failure (parse_gp_response res)
  end.
Definition parse_config_xml (xml : string) : result Failure Element :=
  map_err (λ m, PortalFailure (PortalError.ConfigError m)) (parse_xml xml).

Definition retrieve_csc_config (net : PortalServer) (portal : string) (root : Element)
    (user : string) (gp : GpParams ClientIdentity) : result Failure string :=
  req ← build_csc_request reader md5 url_encode root user gp;
  let params := csc_params req user gp (swg_nonce millis) in
  url ← parse_url_or portal;
  let origin := origin_text url in
  receive origin (csc_failure origin)
    (post_csc net (portal +:+ "/global-protect/getconfig_csc.esp") params).

(** [client] is the construction of the HTTP client. *)
Definition retrieve_config (net : PortalServer) (client : result Failure ()) (portal : string)
    (cred : Credential) (gp : GpParams ClientIdentity) (cancelled : bool) :
    result Failure PortalPolicy :=
  portal ← normalize portal;
  url ← parse_url_or portal;
  let server := remove_url_scheme portal in
  let origin := origin_text url in
  _ ← client;
  let request := getconfig_build cred gp server millis in
  xml ← receive origin (config_failure gp origin)
          (post_config net (portal +:+ "/global-protect/getconfig.esp") (body request));
  if is_empty xml then Err (PortalFailure (PortalError.ConfigError "Empty portal config response"))
  else
    root ← parse_config_xml xml;
    if is_config_criteria root then
      if negb (effective_csc_support gp) then Err (PortalFailure (PortalError.ConfigError
        "Portal returned CSC criteria but CSC support is disabled"))
      else if csc_cancelled net then bail "Portal configuration cancelled"
      else
        csc_xml ← retrieve_csc_config net portal root (username cred) gp;
        root ← parse_config_xml csc_xml;
        parse_portal_policy server cred root cancelled
    else parse_portal_policy server cred root cancelled.

(** portal/discovery.rs; [detect] is the native detection. *)
Definition discover (detect : InternalHostDetection → result string bool) (net : PortalServer)
    (client : result Failure ()) (portal : string) (cred : Credential)
    (gp : GpParams ClientIdentity) (cancelled cancelled_after : bool) :
    result Failure PortalConfig :=
  policy ← retrieve_config net client portal cred gp cancelled;
  let detected := (λ d, match detect d with Ok b => b | Err _ => false end)
                    <$> config_detection (config policy) in
  if cancelled_after then bail "Portal configuration cancelled"
  else Ok (select_gateways (default false detected) detected policy).
End retrieval.

(** * Prelogin (portal/prelogin.rs) *)
Record SamlPrelogin := {
  saml_region : string;
  saml_is_gateway : bool;
  saml_request : string;
  saml_method : string;
  support_default_browser : bool;
}.
Record StandardPrelogin := {
  standard_region : string;
  standard_is_gateway : bool;
  auth_message : string;
  label_username : string;
  label_password : string;
}.
Inductive Prelogin := Saml (s : SamlPrelogin) | Standard (s : StandardPrelogin).
Definition region (p : Prelogin) : string :=
  match p with Saml s => saml_region s | Standard s => standard_region s end.
Definition prelogin_is_gateway (p : Prelogin) : bool :=
  match p with Saml s => saml_is_gateway s | Standard s => standard_is_gateway s end.

Record PreloginOptions := {
  external_browser_requested : bool;
  gateway_external_browser_allowed : bool;
}.
Definition browser_mode (o : PreloginOptions) (gateway : bool) : PreloginBrowserMode :=
  if external_browser_requested o && (negb gateway || gateway_external_browser_allowed o)
  then ClientProfile.External else Embedded.

(** [str::to_uppercase] where it can produce letters of SUCCESS: besides ASCII that is the
    long s and the sharp s. *)
Fixpoint to_uppercase (s : string) : string :=
  match s with
  | EmptyString => EmptyString
  | String a r =>
      match byte_val a, r with
      | 197, String b r' => if byte_val b =? 191 then String "S" (to_uppercase r')
                            else String a (to_uppercase r)
      | 195, String b r' => if byte_val b =? 159 then String "S" (String "S" (to_uppercase r'))
                            else String a (to_uppercase r)
      | _, _ => String (if between 97 122 (byte_val a) then ascii_of_N (byte_val a - 32) else a)
                  (to_uppercase r)
      end
  end.

Section prelogin.
Context `{Xmltree} `{Base64} `{UrlCrate} {ClientIdentity : Type}.
Variable origin_text : Url → string.

Definition parse_prelogin_response (res_xml : string) (is_gateway : bool) :
    result Failure Prelogin :=
  root ← map_err Message (parse_xml res_xml);
  status ← ok_or (Message "Prelogin response does not contain status element")
    (descendant_text "status" root);
  if negb (String.eqb (to_uppercase status) "SUCCESS")
  then bail (default "Unknown error" (descendant_text "msg" root))
  else
    let region := default "Unknown" (descendant_text "region" root) in
    match descendant_text "saml-auth-method" root, descendant_text "saml-request" root with
    | Some method, Some request =>
        _ ← ensure (String.eqb method "REDIRECT" || String.eqb method "POST")
          (Message "Unsupported SAML binding");
        request ← map_err Message (decode_to_string request);
        Ok (Saml {|
          saml_region := region; saml_is_gateway := is_gateway; saml_request := request;
          saml_method := method;
          support_default_browser := default false
            ((λ s, String.eqb (to_ascii_lowercase s) "yes") <$>
               descendant_text "saml-default-browser" root) |})
    | _, _ =>
        Ok (Standard {|
          standard_region := region; standard_is_gateway := is_gateway;
          auth_message := default "Please enter the login credentials"
            (descendant_text "authentication-message" root);
          label_username := default "Username" (descendant_text "username-label" root);
          label_password := default "Password" (descendant_text "password-label" root) |})
    end.

(** [post] gets the URL, the query and the form of the request. *)
Definition prelogin (post : string → Params → Params → result NetworkError Response)
    (client : result Failure ()) (portal : string) (gp : GpParams ClientIdentity)
    (o : PreloginOptions) : result Failure Prelogin :=
  let gateway := is_gateway gp in
  portal ← normalize portal;
  let path := if gateway then "ssl-vpn" else "global-protect" in
  let mode := browser_mode o gateway in
  let request := if gateway then gateway_prelogin_build (os_profile gp) mode
                 else portal_prelogin_build (os_profile gp) mode in
  _ ← client;
  url ← parse_url_or portal;
  let origin := origin_text url in
  res ← map_err (send_failure origin)
    (post (portal +:+ "/" +:+ path +:+ "/prelogin.esp") (query request) (body request));
  xml ← map_err (prelogin_failure origin) (parse_gp_response res);
  map_err (λ e, PortalFailure (PortalError.PreloginError (to_text e)))
    (parse_prelogin_response xml gateway).
End prelogin.

(** * Theorems *)

(** ** The preferred gateway *)

(** The first of the least elements, as a relation. *)
Definition least_first {A} (f : A → N) (l : list A) (x : A) : Prop :=
  ∃ l1 l2, l = l1 ++ x :: l2 ∧ Forall (λ y, f x < f y) l1 ∧ Forall (λ y, f x ≤ f y) l2.
(** The rules that can choose a gateway of a region, with their gateways. *)
Definition candidates (region : string) (l : list Gateway) : list (N * Gateway) :=
  l ≫= λ g, (λ r, (rule_priority r, g)) <$>
    List.filter (λ r, rule_applies region r && (rule_priority r <? u32_max)) (priority_rules g).
(** What a region prefers: the gateway of its least rule or, without rules, the gateway
    of least priority; the first in the portal's order where several are least. *)
Definition preferred (region : string) (l : list Gateway) (g : Gateway) : Prop :=
  match candidates region l with
  | [] => least_first gateway_priority l g
  | rules => ∃ p, least_first fst rules (p, g)
  end.

Lemma min_by_key_Some {A} (f : A → N) l x : min_by_key f l = Some x → least_first f l x.
Proof.
  revert x. induction l as [|y l IH]; intros x; [done|]. cbn [min_by_key].
  destruct (min_by_key f l) as [z|] eqn:E.
  - specialize (IH z eq_refl). destruct IH as (l1 & l2 & -> & H1 & H2).
    destruct (N.ltb_spec (f z) (f y)); intros [= <-].
    + exists (y :: l1), l2. split_and!; [done| |done]. by constructor.
    + exists [], (l1 ++ z :: l2). split_and!; [done|constructor|].
      apply Forall_app; split; [|constructor; [done|]].
      * eapply Forall_impl; [|exact H1]. intros w Hw. cbn in Hw. lia.
      * eapply Forall_impl; [|exact H2]. intros w Hw. cbn in Hw. lia.
  - intros [= <-]. destruct l as [|w l]; [by exists [], []|]. cbn in E.
    by destruct (min_by_key f l) as [v|]; [destruct (f v <? f w)|].
Qed.
Lemma min_by_key_None {A} (f : A → N) l : min_by_key f l = None ↔ l = [].
Proof.
  destruct l as [|x l]; [done|]. cbn. split; [|done].
  by destruct (min_by_key f l) as [y|]; [destruct (f y <? f x)|].
Qed.
Lemma least_first_head {A} (f : A → N) l1 l2 k1 k2 x y :
  l1 ++ x :: l2 = k1 ++ y :: k2 → Forall (λ z, f x < f z) l1 → Forall (λ z, f x ≤ f z) l2 →
  Forall (λ z, f y < f z) k1 → Forall (λ z, f y ≤ f z) k2 → x = y.
Proof.
  revert k1. induction l1 as [|z l1 IH]; intros [|w k1] E; cbn in E.
  - by injection E.
  - injection E as -> ->. intros _ Hx Hy _. exfalso.
    apply Forall_cons_1 in Hy as [Hy _]. apply Forall_app in Hx as [_ Hx].
    apply Forall_cons_1 in Hx as [Hx _]. cbn in *. lia.
  - injection E as -> <-. intros Hx _ _ Hy. exfalso.
    apply Forall_cons_1 in Hx as [Hx _]. apply Forall_app in Hy as [_ Hy].
    apply Forall_cons_1 in Hy as [Hy _]. cbn in *. lia.
  - injection E as -> E. intros H1 H2 H3 H4. apply Forall_cons_1 in H1 as [_ H1].
    apply Forall_cons_1 in H3 as [_ H3]. by eapply IH.
Qed.
Lemma min_by_key_spec {A} (f : A → N) l x : min_by_key f l = Some x ↔ least_first f l x.
Proof.
  split; [apply min_by_key_Some|]. intros (l1 & l2 & E & H1 & H2).
  destruct (min_by_key f l) as [y|] eqn:Em.
  - apply min_by_key_Some in Em as (k1 & k2 & -> & H3 & H4). f_equal. symmetry.
    by eapply least_first_head.
  - apply min_by_key_None in Em. subst. by destruct l1.
Qed.

Definition candidate_step (acc : option Gateway * N) (c : N * Gateway) : option Gateway * N :=
  if c.1 <? acc.2 then (Some c.2, c.1) else acc.
Lemma candidate_step_le acc c : (candidate_step acc c).2 ≤ acc.2.
Proof. unfold candidate_step. destruct (N.ltb_spec c.1 acc.2); cbn; lia. Qed.
Lemma candidate_fold_le l acc : (fold_left candidate_step l acc).2 ≤ acc.2.
Proof.
  revert acc. induction l as [|c l IH]; intros acc; [cbn; lia|]. cbn [fold_left].
  pose proof (candidate_step_le acc c). specialize (IH (candidate_step acc c)). lia.
Qed.
Lemma preferred_rules_fold region g rules acc : acc.2 ≤ u32_max →
  fold_left (preferred_step region g) rules acc =
  fold_left candidate_step ((λ r, (rule_priority r, g)) <$>
    List.filter (λ r, rule_applies region r && (rule_priority r <? u32_max)) rules) acc.
Proof.
  revert acc. induction rules as [|r rules IH]; intros acc Ha; [done|]. cbn [fold_left List.filter].
  assert (preferred_step region g acc r =
    if rule_applies region r && (rule_priority r <? u32_max)
    then candidate_step acc (rule_priority r, g) else acc) as E.
  { unfold preferred_step, candidate_step. cbn [fst snd].
    destruct (rule_applies region r); [|done]. cbn [andb].
    destruct (N.ltb_spec (rule_priority r) acc.2), (N.ltb_spec (rule_priority r) u32_max);
      (done || lia). }
  rewrite E. destruct (rule_applies region r && (rule_priority r <? u32_max)).
  - cbn [fmap list_fmap fold_left]. apply IH.
    pose proof (candidate_step_le acc (rule_priority r, g)). lia.
  - by apply IH.
Qed.
Lemma preferred_fold region l acc : acc.2 ≤ u32_max →
  fold_left (λ acc g, fold_left (preferred_step region g) (priority_rules g) acc) l acc =
  fold_left candidate_step (candidates region l) acc.
Proof.
  revert acc. induction l as [|g l IH]; intros acc Ha; [done|].
  unfold candidates. cbn [fold_left]. rewrite bind_cons, fold_left_app, preferred_rules_fold by done.
  apply IH. etrans; [apply candidate_fold_le|done].
Qed.
Lemma candidate_fold_min l acc : fold_left candidate_step l acc =
  match min_by_key fst l with
  | Some c => candidate_step acc c
  | None => acc
  end.
Proof.
  revert acc. induction l as [|c l IH]; intros acc; [done|]. cbn [fold_left min_by_key].
  rewrite IH. destruct (min_by_key fst l) as [d|]; [|done]. unfold candidate_step.
  destruct (N.ltb_spec d.1 c.1), (N.ltb_spec c.1 acc.2), (N.ltb_spec d.1 acc.2); cbn [fst snd];
    try (destruct (N.ltb_spec d.1 c.1)); try (destruct (N.ltb_spec d.1 acc.2));
    try (destruct (N.ltb_spec c.1 acc.2)); (done || lia).
Qed.
Lemma candidates_bound region l c : c ∈ candidates region l → c.1 < u32_max.
Proof.
  intros (g & Hc & _)%list_elem_of_bind. apply list_elem_of_fmap in Hc as (r & -> & Hr).
  apply list_elem_of_In, filter_In in Hr as [_ Hr]. apply andb_true_iff in Hr as [_ Hr].
  by apply N.ltb_lt.
Qed.

(** C38: [find_preferred_gateway], two nested loops with a running minimum and a fallback,
    computes what a region prefers as the portal's rules define it: the gateway of the
    least rule named after the region or "Any", the first such rule in document order,
    where a rule of priority [u32::MAX] chooses nothing; and when no rule chooses, the
    first gateway of least priority. *)
Theorem preferred_gateway_equivalence region c g :
  find_preferred_gateway region c = Some g ↔ preferred region (gateways c) g.
Proof.
  unfold find_preferred_gateway, preferred_by_region, preferred.
  rewrite preferred_fold, candidate_fold_min by (cbn; lia).
  destruct (candidates region (gateways c)) as [|d l] eqn:E.
  - apply min_by_key_spec.
  - destruct (min_by_key fst (d :: l)) as [[p h]|] eqn:Em; [|by apply min_by_key_None in Em].
    assert (p < u32_max) as Hp.
    { apply (candidates_bound region (gateways c) (p, h)). rewrite E.
      apply min_by_key_spec in Em as (l1 & l2 & -> & _). set_solver. }
    unfold candidate_step. cbn [fst snd]. destruct (N.ltb_spec p u32_max); [|lia]. cbn [fst].
    setoid_rewrite <- min_by_key_spec. split; [intros [= <-]; by exists p|].
    intros [q Hq]. rewrite Em in Hq. by injection Hq as _ ->.
Qed.

(** ** Sorting *)
Lemma find_preferred_elem region c g : find_preferred_gateway region c = Some g → g ∈ gateways c.
Proof.
  intros Hp%preferred_gateway_equivalence. unfold preferred in Hp.
  destruct (candidates region (gateways c)) as [|d l] eqn:E.
  - destruct Hp as (l1 & l2 & -> & _). set_solver.
  - destruct Hp as (p & l1 & l2 & El & _). assert ((p, g) ∈ candidates region (gateways c)) as Hin.
    { rewrite E, El. set_solver. }
    apply list_elem_of_bind in Hin as (h & Hc & Hh).
    by apply list_elem_of_fmap in Hc as (r & [= -> ->] & _).
Qed.
Lemma find_preferred_total region c : gateways c ≠ [] → is_Some (find_preferred_gateway region c).
Proof.
  intros Hne. unfold find_preferred_gateway. destruct (preferred_by_region _ _).1; [by eexists|].
  destruct (min_by_key _ _) eqn:E; [by eexists|]. by apply min_by_key_None in E.
Qed.
Lemma position_Some {A} (f : A → bool) l i : position f l = Some i →
  ∃ l1 x l2, l = l1 ++ x :: l2 ∧ length l1 = i ∧ f x = true ∧ List.find f l = Some x ∧
    Forall (λ y, f y = false) l1.
Proof.
  revert i. induction l as [|x l IH]; intros i; [done|]. cbn [position List.find].
  destruct (f x) eqn:E.
  - intros [= <-]. exists [], x, l. by split_and!.
  - destruct (position f l) as [j|]; [|done]. intros [= <-].
    destruct (IH j eq_refl) as (l1 & y & l2 & -> & <- & Hy & Hf & Hl).
    exists (x :: l1), y, l2. split_and!; try done. by constructor.
Qed.
Lemma position_elem {A} (f : A → bool) l x : x ∈ l → f x = true → is_Some (position f l).
Proof.
  induction 1 as [x l|x y l Hx IH]; cbn; intros Hf; [rewrite Hf; by eexists|].
  destruct (f y); [by eexists|]. destruct (IH Hf) as [i ->]. by eexists.
Qed.
Lemma swap_first {A} (l1 : list A) x l2 : ∃ l', swap 0 (length l1) (l1 ++ x :: l2) = Some l' ∧
  l' ≡ₚ l1 ++ x :: l2 ∧ head l' = Some x.
Proof.
  unfold swap. rewrite list_lookup_middle by done. destruct l1 as [|y l1]; cbn.
  - by eexists.
  - pose proof (insert_app_r_alt l1 (x :: l2) (length l1) y (le_n _)) as E.
    rewrite Nat.sub_diag in E. change (<[0%nat := y]> (x :: l2)) with (y :: l2) in E.
    exists (x :: l1 ++ y :: l2). split_and!; [by rewrite <- E| |done].
    rewrite <- !Permutation_middle. apply perm_swap.
Qed.
Lemma sort_gateways_total region c : gateways c ≠ [] → is_Some (sort_gateways region c).
Proof.
  intros Hne. unfold sort_gateways. destruct (find_preferred_total region c Hne) as [g Hg].
  rewrite Hg. cbn. apply find_preferred_elem in Hg.
  destruct (position_elem (λ h, String.eqb (gateway_name h) (gateway_name g)) _ _ Hg
    (String.eqb_refl _)) as [i Hi].
  rewrite Hi. cbn. apply position_Some in Hi as (l1 & x & l2 & -> & <- & _).
  destruct (swap_first l1 x l2) as (l' & -> & _). by eexists.
Qed.

(** Sorting keeps the portal's gateways and everything else of the configuration and
    puts in front the first gateway that has the preferred gateway's name: the preferred
    one itself when the names differ. *)
Lemma sort_gateways_moves_by_name region c c' :
  sort_gateways region c = Some c' →
  ∃ g f, find_preferred_gateway region c = Some g ∧
    c' = with_gateways (gateways c') (internal_host_detection c) c ∧
    gateways c' ≡ₚ gateways c ∧ head (gateways c') = Some f ∧
    List.find (λ h, String.eqb (gateway_name h) (gateway_name g)) (gateways c) = Some f ∧
    (NoDup (gateway_name <$> gateways c) → f = g).
Proof.
  unfold sort_gateways. destruct (find_preferred_gateway region c) as [g|] eqn:Hg; [|done].
  cbn. destruct (position _ _) as [i|] eqn:Hi; [|done]. cbn.
  apply find_preferred_elem in Hg. apply position_Some in Hi as (l1 & x & l2 & E & <- & Hx & Hf & _).
  rewrite E. destruct (swap_first l1 x l2) as (l' & -> & Hp & Hh). intros [= <-].
  exists g, x. rewrite <- E, Hf. split_and!; try done; [by rewrite E|]. rewrite E in *. intros Hn. apply String.eqb_eq in Hx.
  apply list_elem_of_lookup in Hg as [j Hj].
  assert ((l1 ++ x :: l2) !! length l1 = Some x) as Hk by (by apply list_lookup_middle).
  assert (length l1 = j) as <-; [|congruence].
  eapply NoDup_lookup; [exact Hn| |]; rewrite list_lookup_fmap; [by rewrite Hk|rewrite Hj; cbn; by f_equal].
Qed.

(** ** A discovered configuration *)
Section discovered.
Context `{Xmltree} `{UrlCrate} {ClientIdentity : Type}.
Variable origin_text : Url → string.
Variable md5 : string → list N.
Variable url_encode : string → string.
Variable reader : CscDataReader.
Variable millis : N.
Implicit Types gp : GpParams ClientIdentity.

Lemma select_gateways_nonempty prefer detected p : gateways (select_gateways prefer detected p) ≠ [].
Proof. unfold select_gateways. cbn. by destruct (if prefer then _ else _). Qed.
Lemma parse_portal_policy_cancelled server cred root cancelled p :
  parse_portal_policy server cred root cancelled = Ok p → cancelled = false.
Proof. unfold parse_portal_policy. by destruct cancelled. Qed.
Lemma parse_gateways_external root :
  Forall (λ g, gateway_kind g = External) (default [] (parse_gateways root false)).
Proof.
  unfold parse_gateways. destruct (descendant "gateways" root) as [node|]; [|constructor]. cbn.
  destruct (descendant "external" node ≫= child "list") as [l|]; [|constructor]. cbn.
  apply List.Forall_forall. intros g Hg. apply list_elem_of_In, list_elem_of_fmap in Hg.
  by destruct Hg as (e & -> & _).
Qed.
Lemma policy_external server cred root p : parse_portal_policy server cred root false = Ok p →
  Forall (λ g, gateway_kind g = External) (gateways (select_gateways false (Some false) p)).
Proof.
  intros [= <-]. pose proof (parse_gateways_external root) as Hl. unfold select_gateways. cbn.
  destruct (default [] (parse_gateways root false)); [|done]. by repeat constructor.
Qed.
Lemma retrieve_config_policy net client s cred gp cancelled p :
  retrieve_config origin_text md5 url_encode reader millis net client s cred gp cancelled = Ok p →
  ∃ server root, parse_portal_policy server cred root cancelled = Ok p.
Proof.
  unfold retrieve_config. intros Hr. bind_inv Hr.
  destruct (is_empty _); [done|]. bind_inv Hr. destruct (is_config_criteria _); [|by eauto].
  destruct (negb _); [done|]. destruct (csc_cancelled net); [done|]. bind_inv Hr. by eauto.
Qed.

(** Whatever the servers answer, a portal configuration that discovery hands out can
    be used without a panic for every region: it has a gateway, the preferred gateway
    exists and is one of the portal's, and sorting succeeds. Internal gateways appear in it
    only if the policy has a host detection and that found the internal network. *)
Lemma discovered_config_usable detect net client s cred gp cancelled after c :
  discover origin_text md5 url_encode reader millis detect net client s cred gp cancelled after
    = Ok c →
  cancelled = false ∧ after = false ∧ gateways c ≠ [] ∧
  (∀ region, (∃ g, find_preferred_gateway region c = Some g ∧ g ∈ gateways c) ∧
     is_Some (sort_gateways region c)) ∧
  (internal_host_detection c = Some true →
     ∃ d, config_detection c = Some d ∧ detect d = Ok true) ∧
  (internal_host_detection c = None ↔ config_detection c = None) ∧
  (internal_host_detection c ≠ Some true → Forall (λ g, gateway_kind g = External) (gateways c)).
Proof.
  unfold discover. intros Hd. bind_inv Hd. destruct after; [done|]. injection Hd as <-.
  apply retrieve_config_policy in Hx as (server & root & Hp).
  pose proof (parse_portal_policy_cancelled _ _ _ _ _ Hp) as ->.
  pose proof (select_gateways_nonempty
    (default false ((λ d, match detect d with Ok b => b | Err _ => false end)
                      <$> config_detection (config x)))
    ((λ d, match detect d with Ok b => b | Err _ => false end) <$> config_detection (config x)) x)
    as Hne.
  split_and!; try done.
  - intros region. split; [|by apply sort_gateways_total].
    destruct (find_preferred_total region _ Hne) as [g Hg]. exists g. split; [done|].
    by eapply find_preferred_elem.
  - cbn. destruct (config_detection (config x)) as [d|]; [|done]. cbn. intros [= Hd].
    exists d. split; [done|]. by destruct (detect d) as [[]|].
  - cbn. by destruct (config_detection (config x)).
  - intros Hi. pose proof (policy_external _ _ _ _ Hp) as He. cbn in Hi.
    destruct (config_detection (config x)) as [d|]; [|exact He]. cbn in *.
    by destruct (detect d) as [[]|].
Qed.
End discovered.

Module PortalExample.
Import XmlExample.
Definition rule (name : string) (p : N) : PriorityRule := {| rule_name := name; rule_priority := p |}.
Definition gw (name address : string) (priority : N) (rules : list PriorityRule) : Gateway := {|
  gateway_name := name; gateway_address := address; gateway_kind := External;
  gateway_priority := priority; priority_rules := rules |}.
Definition cfg (l : list Gateway) : PortalConfig := {|
  portal := "portal.example"; auth_cookie := auth_cookie_new "alice" "cookie" "";
  config_cred := CredentialExample.alice; gateways := l; connect_method := None;
  config_digest := None; internal_host_detection := None; config_detection := None;
  version := None; config_allow_extend_session := None; default_browser := None;
  internal_session_policy := None |}.
Definition paris : Gateway := gw "Paris" "fr.example" 2 [rule "FR" 1; rule "Any" 5].
Definition tokyo : Gateway := gw "Tokyo" "jp.example" 1 [rule "JP" 1; rule "Any" 4].
Definition spare : Gateway := gw "Spare" "sp.example" 0 [rule "Any" u32_max].

Example by_region : find_preferred_gateway "FR" (cfg [tokyo; paris; spare]) = Some paris.
Proof. reflexivity. Qed.
Example by_any : find_preferred_gateway "US" (cfg [paris; tokyo; spare]) = Some tokyo.
Proof. reflexivity. Qed.
Example by_priority : find_preferred_gateway "US" (cfg [gw "A" "a" 7 []; spare; gw "B" "b" 0 []])
  = Some spare.
Proof. reflexivity. Qed.
Example none_at_all : sort_gateways "US" (cfg []) = None.
Proof. reflexivity. Qed.

(** Gateways without a description have the same, empty name. The region prefers the
    second one, and sorting leaves the first in front. *)
Example unnamed_gateways_are_confused :
  let a := gw "" "a.example" 0 [] in
  let b := gw "" "b.example" 0 [rule "FR" 1] in
  find_preferred_gateway "FR" (cfg [a; b]) = Some b ∧
  gateways <$> sort_gateways "FR" (cfg [a; b]) = Some [a; b].
Proof. split; reflexivity. Qed.

Lemma sort_gateways_moves_by_name_witness : ∃ c' g f,
  sort_gateways "FR" (cfg [tokyo; paris]) = Some c' ∧
  find_preferred_gateway "FR" (cfg [tokyo; paris]) = Some g ∧
  c' = with_gateways (gateways c') None (cfg [tokyo; paris]) ∧
  gateways c' ≡ₚ [tokyo; paris] ∧ head (gateways c') = Some f ∧
  List.find (λ h, String.eqb (gateway_name h) (gateway_name g)) [tokyo; paris] = Some f ∧
  (NoDup (gateway_name <$> [tokyo; paris]) → f = g).
Proof.
  destruct (sort_gateways_moves_by_name "FR" (cfg [tokyo; paris]) (cfg [paris; tokyo]) eq_refl)
    as (g & f & H). exists (cfg [paris; tokyo]), g, f. split; [reflexivity|exact H].
Defined.

Example addresses :
  IpText.parse <$> ["192.0.2.1"; "192.0.02.1"; "256.1.1.1"; "::1"; "2001:db8::ff"; "::ffff:192.0.2.1";
    "1:2:3:4:5:6:7:8"; "1:2:3:4:5:6:7::"; "1::2::3"; "1.2.3.4.5"] =
  [Some (V4 3221225985); None; None; Some (V6 1);
   Some (V6 42540766411282592856903984951653826815); Some (V6 281473902969345);
   Some (V6 5192455318486707404433266433261576); Some (V6 5192455318486707404433266433261568);
   None; None].
Proof. vm_compute. reflexivity. Qed.

(** A portal that answers with one policy. *)
Definition policy_doc : Element := element "policy" ∅
  [node "internal-host-detection" [leaf "ip-address" "192.0.2.1"; leaf "host" "inside.example"];
   node "gateways"
     [node "internal" [node "list" [entry "in.example" [leaf "description" "Inside"]]];
      node "external" [node "list"
        [entry "out.example" [leaf "description" "Outside"; leaf "priority" "3";
           node "priority-rule" [entry "FR" [leaf "priority" "1"]]]]]];
   leaf "connect-method" "on-demand"; leaf "version" "6.2"].
Definition docs : Xmltree := xml [("<policy/>", policy_doc)].
Definition net : PortalServer := {|
  post_config _ _ := Some (Ok {| status := 200; gp_reason := None; text := Ok "<policy/>" |});
  post_csc _ _ := None; csc_cancelled := false |}.
Definition discovered (inside : bool) : result Failure PortalConfig :=
  @discover docs Concrete.one_url () (λ _, "origin") (λ _, []) (λ s, s) (system_reader []) 0
    (λ _, Ok inside) net (Ok ()) "198.51.100.7" CredentialExample.alice
    CredentialExample.params false false.

Example inside_and_outside :
  (λ c, gateway_name <$> gateways c) <$> discovered true = Ok ["Inside"] ∧
  (λ c, gateways c) <$> discovered false = Ok [gw "Outside" "out.example" 3 [rule "FR" 1]].
Proof. vm_compute. split; reflexivity. Qed.

Lemma discovered_config_usable_witness : ∃ c, discovered true = Ok c ∧ gateways c ≠ [] ∧
  (∀ region, (∃ g, find_preferred_gateway region c = Some g ∧ g ∈ gateways c) ∧
     is_Some (sort_gateways region c)).
Proof.
  eexists. split; [vm_compute; reflexivity|].
  edestruct (@discovered_config_usable docs Concrete.one_url () (λ _, "origin") (λ _, []) (λ s, s)
    (system_reader []) 0 (λ _, Ok true) net (Ok ()) "198.51.100.7" CredentialExample.alice
    CredentialExample.params false false) as (_ & _ & Hne & Hr & _); [vm_compute; reflexivity|].
  split; [exact Hne|exact Hr].
Defined.
End PortalExample.
