(* ===== verification/GatewayLogin.v ===== *)
(** Logging in at a gateway (crates/gpapi/src/gateway/login.rs): the request, the reading
    of its answer, the token made of the answer, and the one-time password.

    Sending a request, logging a cookie out and asking the system for the local address
    are arguments. *)
From S2P Require Import Prelude Utf8 Text ThirdParty ClientProfile Xml GpHttp Csc Session Credential.
From S2P Require Import Portal.
From Stdlib Require Import Strings.Ascii.

#[local] Open Scope N_scope.

(** * urlencoding *)
Class UrlEncoding := {
  url_encode : string → string;
  url_decode : string → option string;
}.
Definition plain_key (k : string) : Prop :=
  all_bytes (λ b, between 97 122 b || between 48 57 b || (b =? 45)) k = true.
Definition form_pair (kv : string * string) `{UrlEncoding} : string :=
  kv.1 +:+ "=" +:+ url_encode kv.2.
(** A decoded text is a Rust string, and a form of encoded values parses to them. *)
Class UrlEncodingLaws `{UrlEncoding} `{UrlCrate} := {
  url_decode_utf8 s v : url_decode s = Some v → utf8 v;
  form_parse_pairs l : Forall (λ kv, plain_key kv.1 ∧ utf8 kv.2) l →
    form_urlencoded_parse (String.concat "&" ((λ kv, form_pair kv) <$> l)) = l;
}.

Inductive GatewayLogin :=
  | Authenticated (a : GatewayAuthentication)
  | Mfa (message input_str : string).

(** * The token (build_gateway_token and its readers) *)

(** [value.chars().any(char::is_control)] on the UTF-8 bytes: the C0 controls, delete
    and the C1 controls. *)
Fixpoint has_control (s : string) : bool :=
  match s with
  | EmptyString => false
  | String a r =>
      let x := byte_val a in
      (x <? 32) || (x =? 127) ||
      match r with
      | String b _ => (x =? 194) && between 128 159 (byte_val b)
      | EmptyString => false
      end || has_control r
  end.

Section token.
Context `{UrlEncoding} `{Xmltree}.

Definition normalize_arg_value (v : string) : result string (option string) :=
  v ← ok_or "invalid utf-8 sequence" (url_decode v);
  if is_empty v || String.eqb v "(null)" || String.eqb v "-1" then Ok None
  else _ ← ensure (negb (has_control v)) "Gateway argument contains control characters";
       Ok (Some v).
Definition read_arg_value (args : list string) (index : nat) : result string (option string) :=
  match args !! index with
  | None => Ok None
  | Some s => map_err (λ e, "Failed to decode gateway login argument " +:+
                to_string (N.of_nat index) +:+ ": " +:+ e) (normalize_arg_value s)
  end.
Definition read_required_arg (args : list string) (index : nat) (key : string) :
    result string (option (string * string)) :=
  v ← read_arg_value args index;
  match v with
  | Some v => Ok (Some (key, v))
  | None => Err ("Failed to read " +:+ key +:+ " from args")
  end.
Definition read_optional_arg (args : list string) (index : nat) (key : string) :
    result string (option (string * string)) :=
  v ← read_arg_value args index;
  Ok match v with Some v => Some (key, v) | None => None end.
Definition token_params (args : list string) (computer : string) :
    result string (list (string * string)) :=
  c ← read_required_arg args 1 "authcookie";
  p ← read_optional_arg args 2 "persistent-cookie";
  portal ← read_optional_arg args 3 "portal";
  user ← read_required_arg args 4 "user";
  domain ← read_optional_arg args 7 "domain";
  ip ← read_optional_arg args 15 "preferred-ip";
  ip6 ← read_optional_arg args 18 "preferred-ipv6";
  Ok (omap id [c; p; portal; user; domain; ip; ip6] ++ [("computer", computer)]).
Definition build_gateway_token (args : list string) (computer : string) : result string string :=
  l ← token_params args computer;
  Ok (String.concat "&" ((λ kv, form_pair kv) <$> l)).

Definition arguments (application : Element) : list string :=
  (λ e, default "" (get_text e)) <$> children "argument" application.
(** The cookie, and the connection type or why there is none. *)
Definition parse_issued_authentication (e : Element) (computer : string) :
    result string (string * result string string) :=
  _ ← ensure (String.eqb (element_name e) "jnlp") "Gateway login response is not JNLP";
  _ ← ensure (match attr "status" e with Some s => String.eqb s "success" | None => true end)
    "Gateway login response rejected authentication";
  application ← ok_or "Gateway login response has no application description"
    (child "application-desc" e);
  let args := arguments application in
  cookie ← build_gateway_token args computer;
  let connection_type :=
    mode ← read_arg_value args 12;
    ok_or "Gateway login response has no connection type" mode in
  Ok (cookie, connection_type).
End token.

(** What stands between the first quotation marks of the first line with a word. *)
Definition quote : ascii := ascii_of_N 34.
Definition quoted_in (word res : string) : option string :=
  l ← List.find (contains word) (lines res); split quote l !! 1%nat.
Definition parse_mfa (res : string) : option (string * string) :=
  message ← quoted_in "respMsg" res;
  input ← quoted_in "inputStr" res;
  Some (message, input).

(** * Requests and answers *)
Record LoginAnswer := {
  la_response : Response;
  la_peer_certificate : option string;
  la_endpoint : option SocketAddr;
  la_url : Url;
}.
Record ReceivedLogin := {
  rl_peer_certificate : option string;
  rl_body : string;
  rl_endpoint : option SocketAddr;
  rl_url : Url;
}.
Record LoginResponse := {
  lr_peer_certificate : option string;
  lr_login : GatewayLogin;
  lr_endpoint : option SocketAddr;
  lr_url : Url;
}.
Fixpoint trim_end_slashes (s : string) : string :=
  match s with
  | EmptyString => EmptyString
  | String a r => let t := trim_end_slashes r in
      if is_empty t && Ascii.eqb a "/" then "" else String a t
  end.

Section login.
Context `{UrlEncoding} `{Xmltree} `{UrlCrate} {ClientIdentity : Type}.
Variable origin_text : Url → string.
(** [Url::as_str] *)
Variable url_text : Url → string.
Variable to_socket_addrs : string → N → option (list IpAddr).

Definition login_failure (gp : GpParams ClientIdentity) (origin : string) (e : GpError) : Failure :=
  match from_request origin (error_chain e) with
  | Some tls => TlsFailure tls
  | None =>
      if bool_decide (profile_client_os (os_profile gp) = Ios) && is_authentication_rejection e
      then GpHttp.AuthenticationRejected
      else Message ("Gateway login error: " +:+ reason e)
  end.
Definition login_request (origin : Url) (cred : Credential) (gp : GpParams ClientIdentity)
    (ctx : option GatewayLoginContext) (client_ip : option string) (extend : bool) : Params :=
  body (login_build to_socket_addrs {|
    in_params := gp; in_cred := cred;
    gateway_host := remove_url_scheme (trim_end_slashes (url_text origin));
    in_context := ctx; in_client_ip := client_ip; extend_lifetime := extend |}).
Definition receive_gateway_login (post : string → Params → result NetworkError LoginAnswer)
    (origin : Url) (cred : Credential) (gp : GpParams ClientIdentity)
    (ctx : option GatewayLoginContext) (client_ip : option string) (extend : bool) :
    result Failure ReceivedLogin :=
  res ← map_err (send_failure (origin_text origin))
    (post (trim_end_slashes (url_text origin) +:+ "/ssl-vpn/login.esp")
          (login_request origin cred gp ctx client_ip extend));
  text ← map_err (login_failure gp (origin_text origin)) (parse_gp_response (la_response res));
  Ok {| rl_peer_certificate := la_peer_certificate res; rl_body := text;
        rl_endpoint := la_endpoint res; rl_url := la_url res |}.

(** What a login answer means, and the cookie that is logged out because nobody will use
    it. *)
Definition read_login (computer : string) (res : string) :
    result Failure GatewayLogin * option string :=
  if trim_is_empty res then (bail "Got empty gateway login response", None)
  else if contains "Challenge" res then
    (match parse_mfa res with
     | Some (message, input) => Ok (Mfa message input)
     | None => bail "Failed to parse MFA challenge"
     end, None)
  else
    let lower := to_ascii_lowercase res in
    if contains "<!doctype" lower || contains "<!entity" lower
    then (Err GatewayLoginProtocolError, None)
    else match parse_xml res with
    | Err _ => (Err GatewayLoginProtocolError, None)
    | Ok root =>
        match parse_issued_authentication root computer with
        | Err _ => (Err GatewayLoginProtocolError, None)
        | Ok (cookie, connection_type) =>
            match (mode ← connection_type; authentication_new cookie mode) with
            | Ok a => (Ok (Authenticated a), None)
            | Err _ => (Err GatewayLoginProtocolError, Some cookie)
            end
        end
    end.
Definition parse_login_response (r : ReceivedLogin) (gp : GpParams ClientIdentity) :
    result Failure LoginResponse * option string :=
  let '(login, logout) := read_login (pi_computer (profile_identity (os_profile gp))) (rl_body r) in
  ((λ l, {| lr_peer_certificate := rl_peer_certificate r; lr_login := l;
            lr_endpoint := rl_endpoint r; lr_url := rl_url r |}) <$> login, logout).

(** * The client *)
Record GatewayLoginClient := {
  origin : Url;
  client_params : GpParams ClientIdentity;
  login_endpoint : option SocketAddr;
  login_url : option Url;
  peer_certificate : option string;
}.
Definition login_client_new (gateway : string) (gp : GpParams ClientIdentity)
    (client : result Failure ()) : result Failure GatewayLoginClient :=
  server ← normalize gateway;
  url ← parse_url_or server;
  _ ← client;
  Ok {| origin := url; client_params := gp; login_endpoint := None; login_url := None;
        peer_certificate := None |}.
Definition respond_mfa (input otp : string) (c : GatewayLoginClient) : GatewayLoginClient := {|
  origin := origin c; client_params := with_otp otp (with_input_str input (client_params c));
  login_endpoint := login_endpoint c; login_url := login_url c;
  peer_certificate := peer_certificate c;
|}.
Definition note_response (r : LoginResponse) (c : GatewayLoginClient) : GatewayLoginClient := {|
  origin := origin c; client_params := client_params c; login_endpoint := lr_endpoint r;
  login_url := Some (lr_url r); peer_certificate := lr_peer_certificate r;
|}.

(** [detect_local_ipv4] asks the system which address routes to a host. *)
Variable detect_local_ipv4 : string → option string.
Definition login_client_ip (ctx : option GatewayLoginContext) (c : GatewayLoginClient) :
    option string :=
  ctx ← ctx;
  or_else (login_client_ip ctx) (url_host_str (origin c) ≫= detect_local_ipv4).

(** [post] answers [None] when the cancellation won; a full answer is always read. *)
Definition login (post : string → Params → option (result NetworkError LoginAnswer))
    (cred : Credential) (ctx : option GatewayLoginContext) (cancelled : bool)
    (c : GatewayLoginClient) : result Failure GatewayLogin * GatewayLoginClient * option string :=
  if cancelled then (Err AuthenticationCancelled, c, None)
  else
    let url := trim_end_slashes (url_text (origin c)) +:+ "/ssl-vpn/login.esp" in
    let params := login_request (origin c) cred (client_params c) ctx (login_client_ip ctx c) false in
    match post url params with
    | None => (Err AuthenticationCancelled, c, None)
    | Some answer =>
        match receive_gateway_login (λ _ _, answer) (origin c) cred (client_params c) ctx
                (login_client_ip ctx c) false with
        | Err e => (Err e, c, None)
        | Ok received =>
            match parse_login_response received (client_params c) with
            | (Ok r, logout) => (Ok (lr_login r), note_response r c, logout)
            | (Err e, logout) => (Err e, c, logout)
            end
        end
    end.
Definition extend_lifetime_login (post : string → Params → result NetworkError LoginAnswer)
    (cred : Credential) (c : GatewayLoginClient) : result Failure GatewayLogin * option string :=
  match receive_gateway_login post (origin c) cred (client_params c) None None true with
  | Err e => (Err e, None)
  | Ok received =>
      let '(r, logout) := parse_login_response received (client_params c) in
      (lr_login <$> r, logout)
  end.
End login.

(** * Theorems *)
Lemma require_not_empty s : is_empty s = false ↔ s ≠ "".
Proof. by destruct s. Qed.

Section tokens.
Context `{UrlEncodingLaws} `{Xmltree}.

Lemma normalize_arg_Some v w : normalize_arg_value v = Ok (Some w) →
  w ≠ "" ∧ w ≠ "(null)" ∧ w ≠ "-1" ∧ has_control w = false ∧ utf8 w.
Proof.
  unfold normalize_arg_value. intros Hn. bind_inv Hn.
  destruct (is_empty x || String.eqb x "(null)" || String.eqb x "-1") eqn:E; [done|].
  bind_inv Hn. apply Ok_inj in Hn as [= ->]. apply orb_false_iff in E as [[E1 E2]%orb_false_iff E3].
  apply require_not_empty in E1. apply String.eqb_neq in E2, E3. apply negb_true_iff in Hx0.
  split_and!; try done. by eapply url_decode_utf8.
Qed.
Lemma read_arg_Some args i w : read_arg_value args i = Ok (Some w) →
  w ≠ "" ∧ w ≠ "(null)" ∧ w ≠ "-1" ∧ has_control w = false ∧ utf8 w.
Proof.
  unfold read_arg_value. destruct (args !! i) as [s|]; [|done].
  destruct (normalize_arg_value s) as [o|] eqn:E; [|done]. intros [= ->].
  by eapply normalize_arg_Some.
Qed.
(** What a gateway says in an argument, and what it may say there. *)
Definition no_value (w : string) : bool := is_empty w || String.eqb w "(null)" || String.eqb w "-1".
Definition issued_arg (args : list string) (i : nat) : option string :=
  w ← args !! i ≫= url_decode; if no_value w then None else Some w.
Definition readable (args : list string) (i : nat) : Prop :=
  ∀ raw, args !! i = Some raw → ∃ w, url_decode raw = Some w ∧ (no_value w = true ∨ has_control w = false).
Lemma read_arg_iff args i o : read_arg_value args i = Ok o ↔ readable args i ∧ o = issued_arg args i.
Proof.
  unfold read_arg_value, readable, issued_arg. destruct (args !! i) as [raw|]; cbn.
  2:{ split; [intros [= <-]; split; [by intros ? [=]|done]|by intros [_ ->]]. }
  unfold normalize_arg_value. destruct (url_decode raw) as [w|] eqn:Ew; cbn.
  2:{ split; [done|]. intros [Hr _]. destruct (Hr raw eq_refl) as (w & Hw & _). congruence. }
  change (is_empty w || String.eqb w "(null)" || String.eqb w "-1") with (no_value w).
  destruct (no_value w) eqn:En; cbn.
  { split; [intros [= <-]; split; [|done]|by intros [_ ->]]. intros r [= <-]. exists w. auto. }
  destruct (has_control w) eqn:Ec; cbn.
  - split; [done|]. intros [Hr _]. destruct (Hr raw eq_refl) as (v & Hv & [Hn|Hn]); congruence.
  - split; [intros [= <-]; split; [|done]|by intros [_ ->]]. intros r [= <-]. exists w. auto.
Qed.
Lemma read_required_iff args i key o : read_required_arg args i key = Ok o ↔
  readable args i ∧ ∃ v, issued_arg args i = Some v ∧ o = Some (key, v).
Proof.
  unfold read_required_arg. destruct (read_arg_value args i) as [v|e] eqn:Ev; cbn.
  - apply read_arg_iff in Ev as [Hr ->]. destruct (issued_arg args i) as [v|].
    + split; [intros [= <-]; eauto|by intros (_ & ? & [= <-] & ->)].
    + split; [done|by intros (_ & ? & [=] & _)].
  - split; [done|]. intros (Hr & _). assert (read_arg_value args i = Ok (issued_arg args i)) as E by by apply read_arg_iff.
    congruence.
Qed.
Lemma read_optional_iff args i key o : read_optional_arg args i key = Ok o ↔
  readable args i ∧ o = (λ v, (key, v)) <$> issued_arg args i.
Proof.
  unfold read_optional_arg. destruct (read_arg_value args i) as [v|e] eqn:Ev; cbn.
  - apply read_arg_iff in Ev as [Hr ->]. destruct (issued_arg args i); cbn;
      (split; [by intros [= <-]|by intros [_ ->]]).
  - split; [done|]. intros (Hr & _). assert (read_arg_value args i = Ok (issued_arg args i)) as E by by apply read_arg_iff.
    congruence.
Qed.
Lemma issued_arg_spec args i w : issued_arg args i = Some w → is_empty w = false ∧ utf8 w.
Proof.
  unfold issued_arg. destruct (args !! i ≫= url_decode) as [v|] eqn:Ev; [|done]. cbn.
  destruct (no_value v) eqn:En; [done|]. intros [= <-]. unfold no_value in En.
  apply orb_false_iff in En as [[? _]%orb_false_iff _]. split; [done|].
  destruct (args !! i) as [raw|]; [|done]. by eapply url_decode_utf8.
Qed.
(** A parameter of the token, if the gateway gave it. *)
Definition given (key : string) (v : option string) : list (string * string) :=
  option_list ((λ v, (key, v)) <$> v).
(** The arguments a token is made of. *)
Definition token_args : list nat := [1; 2; 3; 4; 7; 15; 18]%nat.
Lemma token_params_iff args computer l : token_params args computer = Ok l ↔
  Forall (readable args) token_args ∧ ∃ cookie user,
    issued_arg args 1 = Some cookie ∧ issued_arg args 4 = Some user ∧
    l = [("authcookie", cookie)] ++ given "persistent-cookie" (issued_arg args 2) ++
        given "portal" (issued_arg args 3) ++ [("user", user)] ++ given "domain" (issued_arg args 7) ++
        given "preferred-ip" (issued_arg args 15) ++ given "preferred-ipv6" (issued_arg args 18) ++
        [("computer", computer)].
Proof.
  unfold token_params, token_args, given. split.
  - intros Ht. bind_inv Ht. apply Ok_inj in Ht as <-.
    apply read_required_iff in Hx as (R1 & c & A1 & ->), Hx2 as (R4 & u & A4 & ->).
    apply read_optional_iff in Hx0 as (R2 & ->), Hx1 as (R3 & ->), Hx3 as (R7 & ->), Hx4 as (R15 & ->), Hx5 as (R18 & ->).
    split; [by repeat constructor|]. exists c, u. split_and!; [done..|].
    by destruct (issued_arg args 2), (issued_arg args 3), (issued_arg args 7), (issued_arg args 15), (issued_arg args 18).
  - intros (Hr & c & u & A1 & A4 & ->). repeat (apply list.Forall_cons in Hr as [? Hr]).
    rewrite (proj2 (read_required_iff args 1 "authcookie" (Some ("authcookie", c)))) by eauto. cbn.
    rewrite (proj2 (read_optional_iff args 2 "persistent-cookie" _)) by eauto. cbn.
    rewrite (proj2 (read_optional_iff args 3 "portal" _)) by eauto. cbn.
    rewrite (proj2 (read_required_iff args 4 "user" (Some ("user", u)))) by eauto. cbn.
    rewrite (proj2 (read_optional_iff args 7 "domain" _)) by eauto. cbn.
    rewrite (proj2 (read_optional_iff args 15 "preferred-ip" _)) by eauto. cbn.
    rewrite (proj2 (read_optional_iff args 18 "preferred-ipv6" _)) by eauto. cbn.
    by destruct (issued_arg args 2), (issued_arg args 3), (issued_arg args 7), (issued_arg args 15), (issued_arg args 18).
Qed.
(** The parameters of a token: well formed, with one cookie and one user. *)
Lemma token_params_ok args computer l : utf8 computer → token_params args computer = Ok l →
  Forall (λ kv, plain_key kv.1 ∧ utf8 kv.2) l ∧
  one_nonempty "authcookie" l = true ∧ one_nonempty "user" l = true.
Proof.
  intros Hc (_ & c & u & [Hcn ?]%issued_arg_spec & [Hun ?]%issued_arg_spec & ->)%token_params_iff.
  assert (∀ k i, plain_key k → Forall (λ kv, plain_key kv.1 ∧ utf8 kv.2) (given k (issued_arg args i))) as Hg.
  { intros k i Hk. unfold given. destruct (issued_arg args i) as [v|] eqn:Ev; constructor; [|constructor].
    split; [done|]. by apply issued_arg_spec in Ev as [_ ?]. }
  split.
  - repeat (apply list.Forall_app; split); try (by apply Hg); by repeat constructor.
  - unfold one_nonempty, given.
    destruct (issued_arg args 2), (issued_arg args 3), (issued_arg args 7), (issued_arg args 15), (issued_arg args 18);
      cbn; by rewrite Hcn, Hun.
Qed.

(** C39: a gateway token keeps what the gateway issued, and nothing else. There is a token
    exactly if the arguments it is made of can be read (their escapes are UTF-8 and no value
    has control characters) and the cookie and the user are among them. Read back as a form
    it then is the cookie of argument 1, the persistent cookie of 2, the portal of 3, the
    user of 4, the domain of 7, the preferred addresses of 15 and 18 and the computer's
    name, in this order and under these keys, decoded, the optional ones if the gateway gave
    them, whatever characters the values have. With exactly one cookie and one user it
    passes the checks of a session's authentication unless it is longer than 64 KiB or the
    connection type is blank. *)
Theorem gateway_token_round_trip args computer :
  utf8 computer →
  ((∃ token, build_gateway_token args computer = Ok token) ↔
     Forall (readable args) [1; 2; 3; 4; 7; 15; 18]%nat ∧
     is_Some (issued_arg args 1) ∧ is_Some (issued_arg args 4)) ∧
  ∀ token, build_gateway_token args computer = Ok token →
    form_urlencoded_parse token =
      given "authcookie" (issued_arg args 1) ++ given "persistent-cookie" (issued_arg args 2) ++
      given "portal" (issued_arg args 3) ++ given "user" (issued_arg args 4) ++
      given "domain" (issued_arg args 7) ++ given "preferred-ip" (issued_arg args 15) ++
      given "preferred-ipv6" (issued_arg args 18) ++ [("computer", computer)] ∧
    ∀ mode, issued_arg args 12 = Some mode → readable args 12 →
      trim_is_empty mode = false → slen token ≤ 64 * 1024 →
      authentication_new token mode = Ok {| cookie := token; connection_type := mode |}.
Proof.
  intros Hc. unfold build_gateway_token. split.
  { split.
    - intros [token Ht]. bind_inv Ht. apply token_params_iff in Hx as (Hr & c & u & -> & -> & _). by eauto.
    - intros (Hr & [c A1] & [u A4]). assert (∃ l, token_params args computer = Ok l) as [l ->];
        [eexists; apply token_params_iff; split; [exact Hr|]; by exists c, u|]. by eexists. }
  intros token Ht. bind_inv Ht. apply Ok_inj in Ht as <-.
  destruct (token_params_ok args computer x Hc Hx) as (Hl & Ha & Hu).
  pose proof (form_parse_pairs x Hl) as Hp. split.
  { rewrite Hp. apply token_params_iff in Hx as (_ & c & u & -> & -> & ->). done. }
  intros mode Hm12 Hr12 Hb Hs. unfold authentication_new. rewrite Hp, Ha, Hu.
  assert (read_arg_value args 12 = Ok (Some mode)) as Hm by by apply read_arg_iff.
  apply read_arg_Some in Hm as (_ & Hn1 & Hn2 & _). rewrite Hb.
  apply String.eqb_neq in Hn1, Hn2. rewrite Hn1, Hn2.
  destruct (N.leb_spec (slen (String.concat "&" ((λ kv, form_pair kv) <$> x))) (64 * 1024)); [|lia].
  destruct (is_empty _) eqn:E; [|done]. exfalso.
  destruct (String.concat "&" _) eqn:Ec; [|done].
  assert (form_urlencoded_parse "" = []) as E0.
  { pose proof (form_parse_pairs [] (Forall_nil _)) as E0. exact E0. }
  rewrite E0 in Hp. by subst x.
Qed.
End tokens.

Section answers.
Context `{UrlEncoding} `{Xmltree} `{UrlCrate} {ClientIdentity : Type}.

(** C40: an issued session is not forgotten, unless the answer looks like something else.
    Whatever the gateway answers, a login succeeds only with the cookie the answer carries,
    and only such a cookie is ever logged out. An answer that carries a cookie, and has
    neither the word Challenge nor a document type nor an entity in it, either becomes the
    session or, when its configuration is invalid, ends in a protocol error with exactly
    that cookie logged out. An answer with one of these three is never a session and
    nothing is logged out, whatever cookie it carries ([forgotten_session]). *)
Theorem issued_cookie_used_or_revoked computer res :
  let '(outcome, logout) := read_login computer res in
  let other := contains "Challenge" res || contains "<!doctype" (to_ascii_lowercase res) ||
               contains "<!entity" (to_ascii_lowercase res) in
  (∀ a, outcome = Ok (Authenticated a) → logout = None ∧
     ∃ root, parse_xml res = Ok root ∧
       parse_issued_authentication root computer = Ok (cookie a, Ok (connection_type a))) ∧
  (∀ c, logout = Some c → outcome = Err GatewayLoginProtocolError ∧
     ∃ root mode, parse_xml res = Ok root ∧
       parse_issued_authentication root computer = Ok (c, mode)) ∧
  (∀ root c mode, parse_xml res = Ok root → parse_issued_authentication root computer = Ok (c, mode) →
     trim_is_empty res = false → other = false →
     (∃ a, outcome = Ok (Authenticated a) ∧ cookie a = c) ∨ logout = Some c) ∧
  (other = true → logout = None ∧ ∀ a, outcome ≠ Ok (Authenticated a)).
Proof.
  unfold read_login. destruct (trim_is_empty res); [by split_and!|].
  destruct (contains "Challenge" res); cbn [orb].
  { destruct (parse_mfa res) as [[m i]|]; by split_and!. }
  destruct (contains "<!doctype" _ || contains "<!entity" _); [by split_and!|].
  destruct (parse_xml res) as [root|] eqn:Ex; [|by split_and!].
  destruct (parse_issued_authentication root computer) as [[c t]|] eqn:Ei.
  2:{ split_and!; try done. intros root' c mode [= <-]. by rewrite Ei. }
  destruct (mbind _ t) as [a|e] eqn:Ea.
  - assert (cookie a = c ∧ t = Ok (connection_type a)) as [Hc Ht].
    { bind_inv Ea. unfold authentication_new in Ea. bind_inv Ea. apply Ok_inj in Ea as <-.
      by subst. }
    split_and!; [|done| |done].
    + intros b [= <-]. split; [done|]. exists root. by rewrite Ei, Hc, Ht.
    + intros root' c' mode [= <-] Hi. rewrite Ei in Hi. injection Hi as <- <-. left. by exists a.
  - split_and!; [done| | |done].
    + intros c' [= <-]. split; [done|]. by exists root, t.
    + intros root' c' mode [= <-] Hi. rewrite Ei in Hi. injection Hi as <- <-. by right.
Qed.
End answers.

Module LoginExample.
Import XmlExample.
(** Values in pairs of letters, and a decoder for texts without escapes. *)
Fixpoint letters (s : string) : string :=
  match s with
  | EmptyString => EmptyString
  | String a r => String (ascii_of_N (97 + byte_val a / 16))
                    (String (ascii_of_N (97 + byte_val a mod 16)) (letters r))
  end.
Fixpoint unletters (s : string) : string :=
  match s with
  | String a (String b r) =>
      String (ascii_of_N ((byte_val a - 97) * 16 + (byte_val b - 97))) (unletters r)
  | _ => EmptyString
  end.
#[export] Instance encoding : UrlEncoding := {|
  url_encode := letters;
  url_decode s := if utf8b (String.length s) s then Some s else None;
|}.
Definition form_parse (s : string) : list (string * string) :=
  omap (λ p, '(k, v) ← split_once "=" p; Some (k, unletters v)) (split "&" s).
#[export] Instance forms : UrlCrate := {|
  url_parse _ := Some Concrete.gateway_url;
  form_urlencoded_parse := form_parse;
|}.

Definition plain (b : N) : bool := negb (b =? 38) && negb (b =? 61).
Lemma unletters_letters s : unletters (letters s) = s.
Proof.
  induction s as [|a s IH]; [done|]. cbn [letters unletters]. rewrite IH. f_equal.
  assert (byte_val a < 256) as Ha by apply N_ascii_bounded.
  pose proof (N.div_mod (byte_val a) 16 ltac:(done)) as Hd.
  pose proof (N.mod_lt (byte_val a) 16 ltac:(done)).
  assert (byte_val a / 16 < 16) by (apply N.Div0.div_lt_upper_bound; lia).
  rewrite !byte_val_of by lia. rewrite !(N.add_comm 97), !N.add_sub, (N.mul_comm _ 16), <- Hd.
  apply ascii_N_embedding.
Qed.
Lemma letters_plain s : all_bytes plain (letters s) = true.
Proof.
  induction s as [|a s IH]; [done|]. cbn [letters all_bytes].
  assert (byte_val a < 256) as Ha by apply N_ascii_bounded.
  assert (byte_val a / 16 < 16) by (apply N.Div0.div_lt_upper_bound; lia).
  pose proof (N.mod_lt (byte_val a) 16 ltac:(done)).
  rewrite !byte_val_of by lia. rewrite IH.
  assert (∀ q, q < 16 → plain (97 + q) = true) as Hq.
  { intros q Hq. unfold plain. destruct (N.eqb_spec (97 + q) 38); [lia|].
    by destruct (N.eqb_spec (97 + q) 61); [lia|]. }
  by rewrite !Hq.
Qed.
Lemma key_plain k : plain_key k → all_bytes plain k = true.
Proof.
  apply all_bytes_impl. intros b. unfold plain, between.
  rewrite !orb_true_iff, !andb_true_iff, !N.leb_le, N.eqb_eq, !negb_true_iff, !N.eqb_neq. lia.
Qed.
Lemma split_once_plain k v : all_bytes plain k = true → split_once "=" (k +:+ "=" +:+ v) = Some (k, v).
Proof.
  induction k as [|a k IH]; intros Hk; [done|]. apply andb_true_iff in Hk as [Ha Hk].
  change (String a k +:+ "=" +:+ v) with (String a (k +:+ "=" +:+ v)). cbn [split_once Utf8.strip_prefix].
  destruct (Ascii.eqb_spec "=" a) as [<-|]; [done|]. by rewrite IH.
Qed.
Lemma encoding_laws : UrlEncodingLaws.
Proof.
  split.
  - intros s v. cbn. destruct (utf8b (String.length s) s) eqn:E; [|done]. intros [= <-].
    by eapply utf8b_sound.
  - intros l Hl. cbn. unfold form_parse.
    assert (∀ kv, plain_key kv.1 → all_bytes (λ b, negb (b =? 38)) (form_pair kv) = true) as Hp.
    { intros kv Hk. unfold form_pair. rewrite !all_bytes_app.
      assert (∀ t, all_bytes plain t = true → all_bytes (λ b, negb (b =? 38)) t = true) as Hw.
      { intros t. apply all_bytes_impl. intros b. unfold plain. by intros [? _]%andb_true_iff. }
      rewrite (Hw _ (key_plain _ Hk)). change (url_encode kv.2) with (letters kv.2).
      by rewrite (Hw _ (letters_plain kv.2)). }
    assert (∀ kv, plain_key kv.1 →
      ('(k, v) ← split_once "=" (form_pair kv); Some (k, unletters v)) = Some kv) as Hs.
    { intros [k v] Hk. unfold form_pair. cbn [fst snd] in *. rewrite split_once_plain by (by apply key_plain).
      cbn. by rewrite unletters_letters. }
    induction Hl as [|kv l [Hk _] Hl IH]; [done|]. destruct l as [|kv' l].
    + cbn [fmap list_fmap String.concat]. rewrite (split_free_end (λ b, negb (b =? 38))) by (done || by apply Hp).
      cbn [omap list_omap]. by rewrite Hs.
    + change (String.concat "&" ((λ kv, form_pair kv) <$> kv :: kv' :: l)) with
        (form_pair kv +:+ String "&" (String.concat "&" ((λ kv, form_pair kv) <$> kv' :: l))).
      rewrite (split_free (λ b, negb (b =? 38))) by (done || by apply Hp).
      cbn [omap list_omap]. rewrite Hs by done. by f_equal.
Qed.

Definition args : list string :=
  [""; "c&=1"; "(null)"; "portal"; "alice"; ""; ""; "-1"; ""; ""; ""; ""; "tunnel"].
Lemma gateway_token_round_trip_witness : ∃ token,
  @build_gateway_token encoding args "laptop" = Ok token ∧
  form_parse token = [("authcookie", "c&=1"); ("portal", "portal"); ("user", "alice");
                      ("computer", "laptop")] ∧
  authentication_new token "tunnel" = Ok {| cookie := token; connection_type := "tunnel" |}.
Proof.
  edestruct (@gateway_token_round_trip encoding forms encoding_laws args "laptop") as (_ & Hround).
  { apply (utf8b_sound 9). vm_compute. reflexivity. }
  eexists. split; [vm_compute; reflexivity|]. edestruct Hround as (Hp & Ha); [vm_compute; reflexivity|].
  split; [rewrite <- Hp at 1; vm_compute; reflexivity|].
  apply Ha; [vm_compute; reflexivity| |vm_compute; reflexivity|vm_compute; discriminate].
  intros raw [= <-]. exists "tunnel". split; [vm_compute; reflexivity|]. right. vm_compute. reflexivity.
Defined.

(** An answer with a session, and one without a connection type. *)
Definition jnlp (l : list string) : Element := element "jnlp" {["status" := "success"]}
  [node "application-desc" ((λ a, leaf "argument" a) <$> l)].
Definition docs : Xmltree := xml [("<jnlp/>", jnlp args); ("<jnlp></jnlp>", jnlp (take 5 args))].
Lemma issued_cookie_used_or_revoked_witness : ∃ a token,
  @read_login encoding docs forms "laptop" "<jnlp/>" = (Ok (Authenticated a), None) ∧
  (∃ root, @parse_xml docs "<jnlp/>" = Ok root ∧
     @parse_issued_authentication encoding docs root "laptop" =
       Ok (cookie a, Ok (connection_type a))) ∧
  @read_login encoding docs forms "laptop" "<jnlp></jnlp>" =
    (Err GatewayLoginProtocolError, Some token).
Proof.
  eexists. eexists. split; [vm_compute; reflexivity|]. split; [|vm_compute; reflexivity].
  destruct (@read_login encoding docs forms "laptop" "<jnlp/>") as [o l] eqn:E.
  pose proof (@issued_cookie_used_or_revoked encoding docs forms "laptop" "<jnlp/>") as H.
  rewrite E in H. destruct H as [H _]. vm_compute in E. injection E as <- <-.
  exact (proj2 (H _ eq_refl)).
Defined.

(** A user whose name holds the word: the answer carries a session, and is taken for a
    challenge that cannot be read. The session's cookie is neither used nor logged out. *)
Definition challenged : list string := [""; "c&=1"; ""; "portal"; "Challenger"; ""; ""; ""; ""; ""; ""; ""; "tunnel"].
Definition challenged_text : string := "<jnlp><argument>Challenger</argument></jnlp>".
Example forgotten_session :
  is_ok (@parse_issued_authentication encoding docs (jnlp challenged) "laptop") = true ∧
  @read_login encoding (xml [(challenged_text, jnlp challenged)]) forms "laptop" challenged_text =
    (Err (Message "Failed to parse MFA challenge"), None).
Proof. by vm_compute. Qed.
Example challenge : parse_mfa "var respStatus = 1;" = None.
Proof. reflexivity. Qed.
End LoginExample.
