(* ===== verification/GatewayTransport.v ===== *)
(** Authenticated requests to a gateway (crates/gpapi/src/session/transport/mod.rs), the
    clients they are sent with (binding.rs), and the ledger of issued sessions
    (session/desktop/gateway_sessions.rs).

    The regular expression of a JavaScript error, the digest and the text of an address
    are arguments. *)
From S2P Require Import Prelude Utf8 Text ThirdParty ClientProfile Xml GpHttp ChildProcess.
From S2P Require Import Session Credential AuthLauncher GatewayLogin.
From Stdlib Require Import Strings.Ascii.

#[local] Open Scope N_scope.

Definition MAX_GATEWAY_RESPONSE_BYTES : N := 1024 * 1024.
Definition MAX_HIP_REPORT_BYTES : N := 1024 * 1024.

Module GatewayRequestError.
Inductive t :=
  | InvalidCookie
  | Transport (e : NetworkError)
  | Http (status : N)
  | Rejected
  | MalformedResponse
  | ResponseTooLarge
  | InvalidReport.
End GatewayRequestError.
Import GatewayRequestError.

Record HipCheck := { report_needed : bool; delay : N }.

(** * Bodies (utils/request.rs) *)
Inductive ResponseBodyError := BodyTransport (e : NetworkError) | TooLarge.
(** [chunks] are what [response.chunk()] answers, until its [None]. *)
Fixpoint read_chunks (limit : N) (chunks : list (result NetworkError string)) (body : string) :
    result ResponseBodyError string :=
  match chunks with
  | [] => Ok body
  | Err e :: _ => Err (BodyTransport e)
  | Ok chunk :: chunks =>
      if limit - slen body <? slen chunk then Err TooLarge
      else read_chunks limit chunks (body +:+ chunk)
  end.
Definition read_bounded_response (content_length : option N)
    (chunks : list (result NetworkError string)) (limit : N) : result ResponseBodyError string :=
  if match content_length with Some n => limit <? n | None => false end then Err TooLarge
  else read_chunks limit chunks "".

(** * Forms *)
Definition set_form (key value : string) (form : Params) : Params :=
  List.filter (λ kv, negb (String.eqb kv.1 key)) form ++ [(key, value)].
Definition set_address (key : string) (v : option IpAddr) (form : Params) : Params :=
  match v with Some ip => set_form key (ip_text ip) form | None => form end.

(** A gateway's answer to a POST. *)
Record GatewayAnswer := {
  answer_status : N;
  globalprotect_header : option string;
  answer_length : option N;
  answer_chunks : list (result NetworkError string);
}.

Section transport.
Context `{Xmltree} `{UrlCrate} `{SerdeJson string}.
Variable md5 : string → list N.
(** The first group of the pattern of an error in JavaScript. *)
Variable error_message : string → option string.

(** [hip_token]: the digest of the cookie without the fields that change. *)
Definition stable_field (field : string) : bool :=
  let key := match split "="%char field with k :: _ => k | [] => "" end in
  negb (bool_decide (key ∈ ["authcookie"; "preferred-ip"; "preferred-ipv6"])).
Definition hex2 (b : N) : string := String (hex_digit (b / 16)) (String (hex_digit (b mod 16)) "").
Definition stable_cookie (cookie : string) : string :=
  String.concat "&" (List.filter stable_field (split "&"%char cookie)).
Definition hip_token (cookie : string) : string :=
  String.concat "" (hex2 <$> md5 (stable_cookie cookie)).

Definition message_error (message : option string) : GatewayRequestError.t :=
  match message with
  | Some m => if String.eqb m "Invalid authentication cookie" then InvalidCookie else Rejected
  | None => Rejected
  end.
Definition javascript_error (text : string) : option GatewayRequestError.t :=
  literal ← error_message text;
  Some match from_slice (A := string) literal with
       | Some message => message_error (Some message)
       | None => MalformedResponse
       end.
Definition parse_response (body : string) : result GatewayRequestError.t Element :=
  _ ← ensure (String.eqb (from_utf8_lossy body) body) MalformedResponse;
  let lower := to_ascii_lowercase body in
  if Utf8.contains "<!doctype" lower || Utf8.contains "<!entity" lower then Err MalformedResponse
  else match javascript_error body with
  | Some e => Err e
  | None =>
      root ← map_err (λ _, MalformedResponse) (parse_xml body);
      if String.eqb (element_name root) "html"
      then Err (default MalformedResponse (descendant_text "body" root ≫= javascript_error))
      else if String.eqb (element_name root) "prelogin-response" &&
              bool_decide (child_text "status" root = Some "Error")
      then Err (message_error (child_text "msg" root))
      else if negb (String.eqb (element_name root) "response") then Err MalformedResponse
      else match attr "status" root with
           | None => Ok root
           | Some s => if String.eqb s "error" then Err (message_error (child_text "error" root))
                       else if String.eqb s "success" then Ok root
                       else Err Rejected
           end
  end.
(** [post] after [send] succeeded. *)
Definition read_answer (a : GatewayAnswer) : result GatewayRequestError.t Element :=
  if (answer_status a =? 512) ||
     bool_decide (globalprotect_header a = Some "Invalid authentication cookie")
  then Err InvalidCookie
  else if negb (between 200 299 (answer_status a)) then Err (Http (answer_status a))
  else
    body ← map_err (λ e, match e with BodyTransport e => Transport e | TooLarge => ResponseTooLarge end)
      (read_bounded_response (answer_length a) (answer_chunks a) MAX_GATEWAY_RESPONSE_BYTES);
    parse_response body.
Definition read_post (a : result NetworkError GatewayAnswer) : result GatewayRequestError.t Element :=
  a ← map_err Transport a; read_answer a.
Definition parse_hip_check (root : Element) : result GatewayRequestError.t HipCheck :=
  needed ← match child_text "hip-report-needed" root with
           | Some v => if String.eqb v "yes" then Ok true
                       else if String.eqb v "no" then Ok false else Err MalformedResponse
           | None => Err MalformedResponse
           end;
  secs ← match child_text "delay" root with
         | Some v => ok_or MalformedResponse (from_str u32_max v)
         | None => Ok 0
         end;
  _ ← ensure (secs <=? 3600) MalformedResponse;
  Ok {| report_needed := needed; delay := secs |}.

(** * The transport of one session *)
Record GatewayTransport := {
  transport_origin : Url;
  transport_authentication : GatewayAuthentication;
  transport_profile : OsProfile;
}.
Definition cookie_form (t : GatewayTransport) : Params :=
  form_urlencoded_parse (cookie (transport_authentication t)).
Definition hip_form (ipv4 ipv6 : option IpAddr) (t : GatewayTransport) : Params :=
  let p := profile_identity (transport_profile t) in
  let form := cookie_form t in
  let form := set_form "client-role" "global-protect-full" form in
  let form := set_form "computer" (pi_computer p) form in
  let form := set_form "host-id" (pi_host_id p) form in
  let form := set_form "serialno" (pi_serial_number p) form in
  set_address "client-ipv6" ipv6 (set_address "client-ip" ipv4 form).
Definition check_hip_form (ipv4 ipv6 : option IpAddr) (t : GatewayTransport) : Params :=
  hip_form ipv4 ipv6 t ++ [("md5", hip_token (cookie (transport_authentication t)))].
Definition check_hip (ipv4 ipv6 : option IpAddr)
    (post : string → Params → result NetworkError GatewayAnswer) (t : GatewayTransport) :
    result GatewayRequestError.t HipCheck :=
  root ← read_post (post "/ssl-vpn/hipreportcheck.esp" (check_hip_form ipv4 ipv6 t));
  parse_hip_check root.
Definition valid_report (report : string) : bool :=
  negb (is_empty report || (MAX_HIP_REPORT_BYTES <? slen report) || contains_nul report).
Definition submit_hip (report : string) (ipv4 ipv6 : option IpAddr)
    (post : string → Params → result NetworkError GatewayAnswer) (t : GatewayTransport) :
    result GatewayRequestError.t () :=
  _ ← ensure (valid_report report) InvalidReport;
  _ ← read_post (post "/ssl-vpn/hipreport.esp" (hip_form ipv4 ipv6 t ++ [("report", report)]));
  Ok ().
Definition logout_form (c : string) (p : OsProfile) : Params :=
  set_form "os-version" (profile_os_version p)
    (set_form "clientos" (client_os_as_str (profile_client_os p))
      (set_form "computer" (pi_computer (profile_identity p)) (form_urlencoded_parse c))).
Definition logout_cookie (c : string) (p : OsProfile)
    (post : string → Params → result NetworkError GatewayAnswer) : result GatewayRequestError.t () :=
  _ ← read_post (post "/ssl-vpn/logout.esp" (logout_form c p)); Ok ().
Definition transport_logout (post : string → Params → result NetworkError GatewayAnswer)
    (t : GatewayTransport) : result GatewayRequestError.t () :=
  logout_cookie (cookie (transport_authentication t)) (transport_profile t) post.
End transport.

(** * The ledger (gateway_sessions.rs) *)
Record GatewaySession := {
  session_gateway : Gateway;
  session_transport : GatewayTransport;
  session_addresses : ClientAddresses;
}.
Definition GatewaySessions : Type := list GatewaySession.
Definition session_server (s : GatewaySession) : string := gateway_address (session_gateway s).
Definition serves (server : string) (s : GatewaySession) : bool := String.eqb (session_server s) server.
Definition register (s : GatewaySession) (l : GatewaySessions) : GatewaySessions := l ++ [s].
Definition register_login (g : Gateway) (t : GatewayTransport) : GatewaySessions → GatewaySessions :=
  register {| session_gateway := g; session_transport := t;
              session_addresses := {| addr_ipv4 := None; addr_ipv6 := None |} |}.
(** The first member of a server is replaced. *)
Fixpoint update (s : GatewaySession) (l : GatewaySessions) : GatewaySessions :=
  match l with
  | [] => []
  | m :: l => if serves (session_server s) m then s :: l else m :: update s l
  end.
(** The first member of a server is taken out; [logout_gateway] logs it out then. *)
Fixpoint relinquish_gateway (server : string) (l : GatewaySessions) : GatewaySessions :=
  match l with
  | [] => []
  | m :: l => if serves server m then l else m :: relinquish_gateway server l
  end.
Definition taken (server : string) (l : GatewaySessions) : option GatewaySession :=
  List.find (serves server) l.

(** * What the bodies, the forms and the ledger guarantee *)
Lemma read_chunks_bounded limit chunks body b :
  slen body ≤ limit → read_chunks limit chunks body = Ok b → slen b ≤ limit.
Proof.
  revert body. induction chunks as [|[c|e] chunks IH]; intros body Hb Hr; cbn in Hr; simplify_eq; [done|].
  destruct (N.ltb_spec (limit - slen body) (slen c)); [done|].
  eapply IH; [|exact Hr]. rewrite slen_app. lia.
Qed.
(** Whatever the gateway announces or sends, no more than the limit is kept. *)
Lemma bounded_response_bounded len chunks limit b :
  read_bounded_response len chunks limit = Ok b → slen b ≤ limit.
Proof.
  unfold read_bounded_response. destruct (match len with Some n => _ | None => _ end); [done|].
  apply read_chunks_bounded. apply N.le_0_l.
Qed.
Lemma set_form_get key value form k :
  List.filter (λ kv, String.eqb kv.1 k) (set_form key value form) =
  if String.eqb key k then [(key, value)] else List.filter (λ kv, String.eqb kv.1 k) form.
Proof.
  unfold set_form. rewrite List.filter_app. cbn.
  assert (∀ l : Params, List.filter (λ kv, String.eqb kv.1 k)
    (List.filter (λ kv, negb (String.eqb kv.1 key)) l) =
    if String.eqb key k then [] else List.filter (λ kv, String.eqb kv.1 k) l) as ->.
  { induction l as [|[a b] l IH]; cbn; [by destruct (String.eqb key k)|].
    destruct (String.eqb_spec a key) as [->|]; cbn; rewrite IH.
    - destruct (String.eqb_spec key k); done.
    - destruct (String.eqb_spec key k) as [->|], (String.eqb_spec a k); congruence. }
  destruct (String.eqb_spec key k); [done|]. by rewrite app_nil_r.
Qed.
(** The digest is that of the fields that stay, whatever stands between them. *)
Lemma stable_cookie_ignores (pre field post : string) :
  stable_field field = false → split "&"%char field = [field] →
  stable_cookie (pre +:+ String "&" (field +:+ String "&" post)) =
  stable_cookie (pre +:+ String "&" post).
Proof.
  intros Hf Hs. unfold stable_cookie.
  rewrite !split_sep, Hs, !List.filter_app. cbn [List.filter]. by rewrite Hf.
Qed.

Lemma relinquish_taken server l :
  l ≡ₚ option_list (taken server l) ++ relinquish_gateway server l.
Proof.
  unfold taken. induction l as [|m l IH]; [done|]. cbn [List.find relinquish_gateway].
  destruct (serves server m); [done|]. etrans; [by apply Permutation_skip, IH|].
  by rewrite <- Permutation_middle.
Qed.
Lemma taken_serves server l m : taken server l = Some m → session_server m = server.
Proof. intros [_ H]%List.find_some. by apply String.eqb_eq in H. Qed.
Lemma taken_None server l : taken server l = None → server ∉ session_server <$> l.
Proof.
  intros H (m & -> & Hm)%list_elem_of_fmap. apply list_elem_of_In in Hm.
  eapply List.find_none in H; [|exact Hm]. unfold serves in H. by rewrite String.eqb_refl in H.
Qed.
(** An update keeps the gateways and their order. *)
Lemma update_servers s l : session_server <$> update s l = session_server <$> l.
Proof.
  induction l as [|m l IH]; [done|]. cbn [update]. unfold serves.
  destruct (String.eqb_spec (session_server m) (session_server s)) as [E|].
  - cbn. by rewrite E.
  - cbn. by rewrite IH.
Qed.

(** * The client of a bound session (transport/binding.rs, Linux) *)
Definition REQUEST_TIMEOUT : N := 30.
Record BoundClient {RequestIdentity : Type} := {
  bound_settings : ClientSettings RequestIdentity;
  follow_redirects : bool;
  use_proxy : bool;
  local_address : IpAddr;
  resolve_override : string * SocketAddr;
  request_timeout : N;
  bound_interface : string;
}.
Arguments BoundClient : clear implicits.

Section bound.
Context `{UrlCrate} {ClientIdentity RequestIdentity : Type}.
Variable settings : GpParams ClientIdentity → result string (ClientSettings RequestIdentity).
(** [ClientBuilder::build] of the library. *)
Variable build : BoundClient RequestIdentity → result string (BoundClient RequestIdentity).

Definition bound_client (server : string) (p : GpParams ClientIdentity) (b : GatewayBinding) :
    result string (BoundClient RequestIdentity) :=
  _ ← validate_server b server;
  origin ← gateway_origin server;
  host ← ok_or "Gateway host is missing" (url_host_str origin);
  base ← settings p;
  build {| bound_settings := base; follow_redirects := false; use_proxy := false;
           local_address := socket_ip (binding_source b);
           resolve_override := (host, endpoint b);
           request_timeout := REQUEST_TIMEOUT; bound_interface := binding_interface b |}.

(** [port_text] is the decimal text of a port, [client] the result of
    [Client::try_from(params)]. *)
Definition transport_new (port_text : N → string) (server : string) (a : GatewayAuthentication)
    (p : GpParams ClientIdentity) (binding : option GatewayBinding) (client : result string ()) :
    result string GatewayTransport :=
  text ← normalize_server port_text server;
  origin ← parse_url text;
  _ ← match binding with
      | Some b => (λ _, ()) <$> bound_client server p b
      | None => client
      end;
  Ok {| transport_origin := origin; transport_authentication := a; transport_profile := os_profile p |}.

(** [url.origin()]: the tuple of a URL with a host. *)
Definition url_origin (u : Url) : string * option UrlHost * option N :=
  (url_scheme u, url_host u, url_port_or_known_default u).
#[local] Instance UrlHost_eq_dec : EqDecision UrlHost.
Proof. solve_decision. Defined.
(** [network] captures the physical network, which binds the authenticated endpoint and
    validates the binding; each may fail. *)
Definition bind_non_tunnel (url_text : Url → string) (g : Gateway)
    (c : GatewayLoginClient (ClientIdentity := ClientIdentity)) (disable_ipv6 : bool)
    (network : Url → SocketAddr → bool → result string GatewayBinding) (l : GatewaySessions) :
    result string (GatewayBinding * BoundClient RequestIdentity * GatewaySessions) :=
  member ← ok_or "Gateway must be registered before network binding" (taken (gateway_address g) l);
  origin' ← gateway_origin (url_text (origin c));
  response_url ← ok_or "Authenticated response endpoint is unavailable" (login_url c);
  _ ← ensure (bool_decide (url_origin response_url = url_origin origin'))
        "Redirected non-tunnel authentication is unsupported";
  e ← ok_or "Non-tunnel authentication has no direct peer address" (login_endpoint c);
  b ← network origin' e disable_ipv6;
  maintenance ← bound_client (url_text origin') (client_params c) b;
  Ok (b, maintenance,
      update {| session_gateway := g;
                session_transport := {|
                  transport_origin := origin c;
                  transport_authentication := transport_authentication (session_transport member);
                  transport_profile := os_profile (client_params c) |};
                session_addresses := addresses b |} l).

(** A bound client speaks to the endpoint it was bound to, over the interface of the
    binding and nothing else. *)
Lemma bound_client_direct server p b c
    (Hbuild : ∀ x y, build x = Ok y → y = x) : bound_client server p b = Ok c →
  follow_redirects c = false ∧ use_proxy c = false ∧
  (resolve_override c).2 = endpoint b ∧ local_address c = socket_ip (binding_source b) ∧
  bound_interface c = binding_interface b ∧
  ∃ o, gateway_origin server = Ok o ∧ url_host_str o = Some (resolve_override c).1 ∧
       url_scheme o = "https".
Proof.
  unfold bound_client. intros Hc. bind_inv Hc. apply Hbuild in Hc as ->. cbn.
  split_and!; try done. exists x0. split_and!; try done.
  unfold gateway_origin in Hx0. bind_inv Hx0. simplify_eq. rename Hx4 into Hx0.
  repeat (apply andb_true_iff in Hx0 as [Hx0 ?]). by apply String.eqb_eq.
Qed.
Lemma bind_non_tunnel_keeps url_text g c d network l b m l' :
  bind_non_tunnel url_text g c d network l = Ok (b, m, l') →
  session_server <$> l' = session_server <$> l ∧
  transport_authentication ∘ session_transport <$> l' =
  transport_authentication ∘ session_transport <$> l.
Proof.
  unfold bind_non_tunnel. intros Hb. bind_inv Hb. apply Ok_inj in Hb as [= <- <- <-].
  split; [by apply update_servers|].
  rename Hx into Et. clear -Et. induction l as [|n l IH]; [done|]. unfold taken in Et. cbn in Et |- *.
  unfold session_server in *. cbn. destruct (serves (gateway_address g) n); cbn.
  - by simplify_eq.
  - f_equal. by apply IH.
Qed.
End bound.
