(* ===== verification/NonTunnel.v ===== *)
(** Maintenance of non-tunnel sessions (crates/gpapi/src/session/desktop/non_tunnel.rs).

    Every member of the session set has a worker task; their owner waits for a
    cancellation, a change of the network, and the workers. A task runs from one point
    where another can interfere to the next in one step: an await, a poll inside a biased
    [select!], a read of a token, and the acquisition and release of the lock that guards
    status publication. Steps of the tasks interleave freely, and the cancellation, the
    clock and the answers of callbacks and gateways are labels of their own.

    A panic of a callback ends its worker; a panic of the observer while the owner
    invalidates the members, and an aborted worker, are not modelled. *)
From S2P Require Import Prelude Utf8 Text ThirdParty ClientProfile Xml GpHttp ChildProcess.
From S2P Require Import Session Credential AuthLauncher GatewayLogin GatewayTransport.

#[local] Open Scope N_scope.

Definition COLLECTION_TIMEOUT : N := 60.

Record SessionHipRequest := {
  hip_gateway : Gateway;
  hip_cookie : string;
  hip_client_ip : option string;
  hip_client_ipv6 : option string;
  hip_md5 : string;
  collect_posture : bool;
}.

Inductive SessionExit := Disconnected | Failed (reason : SessionEndReason).
Inductive MemberExit := Cancelled | Rejected | Terminal (reason : SessionEndReason).
Inductive MemberError :=
  | GatewayError (e : GatewayRequestError.t)
  | Collection | Network | Authorization.
(** The kinds of [io::Error] a report producer answers, as far as they are told apart. *)
Inductive ProducerError := PermissionDenied | OtherKind.

(** What the outside sees. [Checking] records the instant [sent_at] of a check. *)
Inductive Event :=
  | StatusChanged (summary : GatewaySessionSummary)
  | Checking (server : string) (sent_at : N)
  | Posted (server path : string) (form : Params)
  | ReportSubmitted (request : SessionHipRequest) (report : string)
  | LoggedOut (s : GatewaySession).
Definition event_server (e : Event) : string :=
  match e with
  | StatusChanged m => gateway_address (summary_gateway m)
  | Checking server _ | Posted server _ _ => server
  | ReportSubmitted r _ => gateway_address (hip_gateway r)
  | LoggedOut s => session_server s
  end.

Definition member_summary (s : GatewaySession) (m : MaintenanceState) : GatewaySessionSummary := {|
  summary_gateway := session_gateway s;
  summary_mode := NonTunnel;
  summary_client_ip := ip_text ∘ V4 <$> addr_ipv4 (session_addresses s);
  summary_client_ipv6 := ip_text ∘ V6 <$> addr_ipv6 (session_addresses s);
  maintenance := m;
|}.

(** * A worker ([maintain_member]) *)
(** When the current check was sent and how long its gateway asks to wait. *)
Record Round := { sent_at : N; round_delay : N }.
(** Where the code goes on once a status is published. *)
Inductive Resume := ToValidate | ToSchedule (r : Round) | ToExit (e : MemberExit).
(** [polled] is true between the poll of [cancelled()] and that of the other branch of a
    [select!]; [posted] once the request of the other branch was polled. *)
Inductive Phase :=
  | Status (m : MaintenanceState) (k : Resume)
  | AtGate (m : MaintenanceState) (k : Resume)
  | InGate (m : MaintenanceState) (k : Resume)
  | Validate
  | Check (sent : N) (posted polled : bool)
  | Collect (r : Round) (deadline : N)
  | Producing (r : Round) (deadline : N)
  | Revalidate (r : Round) (report : string)
  | Submit (r : Round) (report : string) (posted polled : bool)
  | Submitted (r : Round) (report : string)
  | Settle (res : result MemberError ()) (r : Round)
  | Sleep (next_check : N) (polled : bool)
  | Exited (e : option MemberExit).

(** What a worker waits for; [Go] when it runs by itself. *)
Inductive Input :=
  | Go
  | NetworkValid (ok : bool)
  | Answer (a : result NetworkError GatewayAnswer)
  | Produced (r : option (result ProducerError string))
  | CallbackPanics.

Definition in_gate (p : Phase) : bool := match p with InGate _ _ => true | _ => false end.
(** The phases in which a callback of the session runs. *)
Definition calls_back (p : Phase) : bool :=
  match p with InGate _ _ | Validate | Revalidate _ _ | Submitted _ _ => true | _ => false end.

Section member.
Context `{Xmltree} `{UrlCrate} `{SerdeJson string}.
Variable md5 : string → list N.
Variable error_message : string → option string.
(** The largest instant of the clock, in seconds. *)
Variable INSTANT_MAX : N.
Variable policy : InternalSessionPolicy.

Definition v4_of (s : GatewaySession) : option IpAddr := V4 <$> addr_ipv4 (session_addresses s).
Definition v6_of (s : GatewaySession) : option IpAddr := V6 <$> addr_ipv6 (session_addresses s).
Definition hip_request (s : GatewaySession) : SessionHipRequest := {|
  hip_gateway := session_gateway s;
  hip_cookie := cookie (transport_authentication (session_transport s));
  hip_client_ip := ip_text <$> v4_of s;
  hip_client_ipv6 := ip_text <$> v6_of s;
  hip_md5 := hip_token md5 (cookie (transport_authentication (session_transport s)));
  collect_posture := collect_hip_data policy;
|}.
(** [SessionCollectionControl::check], as whether it fails. *)
Definition control_fails (now : N) (cancelled : bool) (deadline : N) : bool :=
  cancelled || (deadline <=? now).
Definition schedule (r : Round) : option N :=
  checked_add INSTANT_MAX (sent_at r) (hip_interval_secs policy) ≫=
  λ t, checked_add INSTANT_MAX t (round_delay r).
Definition resume (k : Resume) : Phase :=
  match k with
  | ToValidate => Validate
  | ToSchedule r => match schedule r with
                    | Some next => Sleep next false
                    | None => Status MaintenanceRejected (ToExit Rejected)
                    end
  | ToExit e => Exited (Some e)
  end.

Definition checked (now : N) (c : result GatewayRequestError.t HipCheck) (sent : N) : Phase :=
  match c with
  | Ok c =>
      let r := {| sent_at := sent; round_delay := delay c |} in
      if report_needed c
      then match checked_add INSTANT_MAX now COLLECTION_TIMEOUT with
           | Some deadline => Collect r deadline
           | None => Exited None
           end
      else Settle (Ok ()) r
  | Err e => Settle (Err (GatewayError e)) {| sent_at := sent; round_delay := 0 |}
  end.
Definition produced (now : N) (cancelled : bool) (deadline : N) (r : Round)
    (p : option (result ProducerError string)) : Phase :=
  match p with
  | Some (Ok report) =>
      if control_fails now cancelled deadline then Settle (Err Collection) r
      else Revalidate r report
  | Some (Err PermissionDenied) => Settle (Err Authorization) r
  | Some (Err OtherKind) | None => Settle (Err Collection) r
  end.
Definition settle (cancelled : bool) (res : result MemberError ()) (r : Round) : Phase :=
  match res with
  | Ok _ => if cancelled then Exited (Some Cancelled) else Status Healthy (ToSchedule r)
  | Err (GatewayError GatewayRequestError.InvalidCookie) =>
      Status MaintenanceRejected (ToExit (Terminal InvalidCookie))
  | Err Network => Exited (Some (Terminal NetworkChanged))
  | Err Authorization => Exited (Some (Terminal AuthorizationRevoked))
  | Err _ => if cancelled then Exited (Some Cancelled)
             else Status MaintenanceRejected (ToExit Rejected)
  end.

(** One step of the worker of [s]: [cancelled] is its token's state, [held] whether
    another worker is inside the status gate. *)
Definition member_step (now : N) (cancelled held : bool) (s : GatewaySession) (p : Phase)
    (i : Input) : option (Phase * list Event) :=
  let server := session_server s in
  let t := session_transport s in
  match i with
  | CallbackPanics => if calls_back p then Some (Exited None, []) else None
  | Go =>
    match p with
    | Status m k => Some (if cancelled then resume k else AtGate m k, [])
    | AtGate m k =>
        if held then None else Some (if cancelled then resume k else InGate m k, [])
    | InGate m k => Some (resume k, [StatusChanged (member_summary s m)])
    | Check sent posted false =>
        Some (if cancelled then Exited (Some Cancelled) else Check sent posted true, [])
    | Check sent posted true =>
        Some (Check sent true false,
              if posted then [] else
              [Posted server "/ssl-vpn/hipreportcheck.esp" (check_hip_form md5 (v4_of s) (v6_of s) t)])
    | Collect r deadline =>
        Some (if control_fails now cancelled deadline then Settle (Err Collection) r
              else Producing r deadline, [])
    | Submit r report posted false =>
        Some (if cancelled then Settle (Err Collection) r else Submit r report posted true, [])
    | Submit r report posted true =>
        if negb (valid_report report)
        then Some (Settle (Err (GatewayError GatewayRequestError.InvalidReport)) r, [])
        else Some (Submit r report true false,
                   if posted then [] else
                   [Posted server "/ssl-vpn/hipreport.esp"
                      (hip_form (v4_of s) (v6_of s) t ++ [("report", report)])])
    | Submitted r report =>
        Some (Settle (Ok ()) r, if cancelled then [] else [ReportSubmitted (hip_request s) report])
    | Settle res r => Some (settle cancelled res r, [])
    | Sleep next false =>
        Some (if cancelled then Exited (Some Cancelled) else Sleep next true, [])
    | Sleep next true => Some (if next <=? now then Validate else Sleep next false, [])
    | _ => None
    end
  | NetworkValid ok =>
    match p with
    | Validate =>
        if ok then Some (Check now false false, [Checking server now])
        else Some (Exited (Some (Terminal NetworkChanged)), [])
    | Revalidate r report =>
        Some (if ok then Submit r report false false else Settle (Err Network) r, [])
    | _ => None
    end
  | Answer a =>
    match p with
    | Check sent posted true =>
        Some (checked now (check_hip md5 error_message (v4_of s) (v6_of s) (λ _ _, a) t) sent,
              if posted then [] else
              [Posted server "/ssl-vpn/hipreportcheck.esp" (check_hip_form md5 (v4_of s) (v6_of s) t)])
    | Submit r report posted true =>
        if negb (valid_report report) then None
        else Some (match submit_hip error_message report (v4_of s) (v6_of s) (λ _ _, a) t with
                   | Ok _ => Submitted r report
                   | Err e => Settle (Err (GatewayError e)) r
                   end,
                   if posted then [] else
                   [Posted server "/ssl-vpn/hipreport.esp"
                      (hip_form (v4_of s) (v6_of s) t ++ [("report", report)])])
    | _ => None
    end
  | Produced r =>
    match p with
    | Producing round deadline => Some (produced now cancelled deadline round r, [])
    | _ => None
    end
  end.

(** * The owner ([maintain_non_tunnel_sessions]) *)
(** [panicked] is [worker_failure.is_some()]. *)
Inductive Owner :=
  | PollCancelled | PollNetwork | PollWorkers
  | LoggingOut
  | Stopping (o : SessionExit) (panicked : bool)
  | Invalidating (o : SessionExit) (panicked : bool)
  | Draining (o : SessionExit) (panicked : bool)
  | Returned (r : result () SessionExit).
Record System := {
  cancellation : bool;
  workers_cancel : bool;
  ledger : GatewaySessions;
  workers : list (GatewaySession * Phase);
  owner : Owner;
  log : list Event;
  clock : N;
}.
(** The workers' token is a child of the caller's. *)
Definition workers_stopped (s : System) : bool := cancellation s || workers_cancel s.
Definition held (s : System) : bool := existsb (λ w, in_gate w.2) (workers s).

Definition start (sessions : GatewaySessions) (now : N) : result string System :=
  _ ← ensure (negb (bool_decide (length sessions = 0%nat))) "Non-tunnel session set is empty";
  _ ← ensure (forallb (λ s, bool_decide
        (authentication_mode (transport_authentication (session_transport s)) = NonTunnel)) sessions)
        "Tunnel member supplied to non-tunnel runtime";
  Ok {| cancellation := false; workers_cancel := false; ledger := sessions;
        workers := (λ s, (s, Status Session.Authenticated ToValidate)) <$> sessions;
        owner := PollCancelled; log := []; clock := now |}.

Inductive Label :=
  | Cancel
  | Tick
  | Member (i : nat) (input : Input)
  | OwnerRuns
  | NetworkChange (reason : SessionEndReason)
  | Joined (i : nat)
  | LogoutDone.

Definition with_owner (o : Owner) (s : System) : System := {|
  cancellation := cancellation s; workers_cancel := workers_cancel s; ledger := ledger s;
  workers := workers s; owner := o; log := log s; clock := clock s |}.
Definition with_workers (ws : list (GatewaySession * Phase)) (s : System) : System := {|
  cancellation := cancellation s; workers_cancel := workers_cancel s; ledger := ledger s;
  workers := ws; owner := owner s; log := log s; clock := clock s |}.
Definition emit (evs : list Event) (s : System) : System := {|
  cancellation := cancellation s; workers_cancel := workers_cancel s; ledger := ledger s;
  workers := workers s; owner := owner s; log := log s ++ evs; clock := clock s |}.
(** [sessions.logout_gateway(server)], up to the request it awaits. *)
Definition logout_gateway (server : string) (s : System) : System := {|
  cancellation := cancellation s; workers_cancel := workers_cancel s;
  ledger := relinquish_gateway server (ledger s);
  workers := workers s; owner := owner s;
  log := log s ++ option_list (LoggedOut <$> taken server (ledger s)); clock := clock s |}.
Definition stop_workers (s : System) : System := {|
  cancellation := cancellation s; workers_cancel := true; ledger := ledger s;
  workers := workers s; owner := owner s; log := log s; clock := clock s |}.

Definition is_failed (o : SessionExit) : bool := match o with Failed _ => true | _ => false end.
Definition exited (p : Phase) : bool := match p with Exited _ => true | _ => false end.
Definition worker_finished (s : System) : bool := existsb (λ w, exited w.2) (workers s).

Definition owner_runs (s : System) : option System :=
  match owner s with
  | PollCancelled =>
      Some (with_owner (if cancellation s then Stopping Disconnected false else PollNetwork) s)
  | PollNetwork => Some (with_owner PollWorkers s)
  | PollWorkers =>
      match workers s with
      | [] => Some (with_owner (Stopping (Failed AllMembersFailed) false) s)
      | _ => if worker_finished s then None else Some (with_owner PollCancelled s)
      end
  | LoggingOut => None
  | Stopping o p =>
      Some (with_owner (if is_failed o || p then Invalidating o p else Draining o p) (stop_workers s))
  | Invalidating o p =>
      if held s then None
      else Some (with_owner (Draining o p)
             (emit ((λ m, StatusChanged (member_summary m MaintenanceRejected)) <$> ledger s) s))
  | Draining o p =>
      match workers s with
      | [] => Some (with_owner (Returned (if p then Err ()
                     else if cancellation s then Ok Disconnected else Ok o)) s)
      | _ => None
      end
  | Returned _ => None
  end.
(** The owner takes what [join_next] answers: worker [i], whose task is over. *)
Definition joined (i : nat) (s : System) : option System :=
  match workers s !! i with
  | Some (w, Exited e) =>
      let s := with_workers (delete i (workers s)) s in
      match owner s with
      | PollWorkers =>
          Some match e with
               | Some (Terminal r) => with_owner (Stopping (Failed r) false) s
               | Some Rejected => with_owner LoggingOut (logout_gateway (session_server w) s)
               | Some Cancelled => with_owner PollCancelled s
               | None => with_owner (Stopping Disconnected true) s
               end
      | Draining o p => Some (with_owner (Draining o (p || bool_decide (e = None))) s)
      | _ => None
      end
  | _ => None
  end.

Definition step (l : Label) (s : System) : option System :=
  match l with
  | Cancel => Some {| cancellation := true; workers_cancel := workers_cancel s; ledger := ledger s;
                      workers := workers s; owner := owner s; log := log s; clock := clock s |}
  | Tick => Some {| cancellation := cancellation s; workers_cancel := workers_cancel s;
                    ledger := ledger s; workers := workers s; owner := owner s; log := log s;
                    clock := clock s + 1 |}
  | Member i input =>
      w ← workers s !! i;
      r ← member_step (clock s) (workers_stopped s) (held s) w.1 w.2 input;
      Some (emit r.2 (with_workers (<[i := (w.1, r.1)]> (workers s)) s))
  | OwnerRuns => owner_runs s
  | NetworkChange reason =>
      match owner s with
      | PollNetwork => Some (with_owner (Stopping (Failed reason) false) s)
      | _ => None
      end
  | Joined i => joined i s
  | LogoutDone =>
      match owner s with
      | LoggingOut =>
          Some (with_owner (match workers s with
                            | [] => Stopping (Failed AllMembersFailed) false
                            | _ => PollCancelled
                            end) s)
      | _ => None
      end
  end.
(** A label that is not enabled changes nothing. *)
Definition advance (s : System) (l : Label) : System := default s (step l s).

(** * One step of a worker *)
(** A status that ends its worker is a rejection. *)
Definition publishes (m : MaintenanceState) (k : Resume) : Prop :=
  match k with ToExit _ => m = MaintenanceRejected | _ => True end.
Definition wf_phase (p : Phase) : Prop :=
  match p with Status m k | AtGate m k | InGate m k => publishes m k | _ => True end.

(** The cases of a step: the phase it starts in, the one it ends in, its events. *)
Ltac member_cases Hs :=
  unfold member_step in Hs;
  match type of Hs with match ?i with _ => _ end = Some _ =>
    destruct i; try discriminate Hs end;
  match type of Hs with
  | (if ?b then _ else _) = Some _ => destruct b eqn:?; try discriminate Hs
  | match ?p with _ => _ end = Some _ => destruct p; try discriminate Hs
  | _ => idtac
  end;
  repeat (match type of Hs with (if ?b then _ else _) = Some _ => destruct b eqn:? end;
          try discriminate Hs);
  injection Hs as <- <-.
Definition is_logout (e : Event) : bool := match e with LoggedOut _ => true | _ => false end.
Definition is_status (e : Event) : bool := match e with StatusChanged _ => true | _ => false end.
(** A worker speaks of its own gateway and publishes inside the gate only. *)
Lemma member_events now c h s p i p' evs :
  member_step now c h s p i = Some (p', evs) →
  Forall (λ e, event_server e = session_server s ∧ is_logout e = false) evs ∧
  ((∃ m k, p = InGate m k ∧ p' = resume k ∧ evs = [StatusChanged (member_summary s m)]) ∨
   Forall (λ e, is_status e = false) evs).
Proof.
  intros Hs. member_cases Hs.
  all: try (destruct posted); try (destruct c).
  all: split; [by repeat constructor|first [by right; repeat constructor|left; eauto]].
Qed.
Lemma resume_not_in_gate k : in_gate (resume k) = false.
Proof. destruct k as [|r|e]; cbn; [done| |done]. by destruct (schedule r). Qed.
(** The gate is entered when it is free and the token is not cancelled. *)
Lemma member_enters now c h s p i p' evs :
  member_step now c h s p i = Some (p', evs) → in_gate p' = true → c = false ∧ h = false.
Proof.
  intros Hs. member_cases Hs; intros Hp; try (rewrite resume_not_in_gate in Hp); try done.
  all: unfold settle, checked, produced in Hp; repeat (case_match; simplify_eq/=; try done).
  all: by rewrite resume_not_in_gate in Hp.
Qed.
Lemma resume_rejected k : resume k = Exited (Some Rejected) → k = ToExit Rejected.
Proof. destruct k as [|r|e]; cbn; [done| |by intros [= ->]]. by destruct (schedule r). Qed.
(** A worker that gives its gateway up has said so, unless it is being stopped. *)
Lemma member_rejects now c h s p i evs :
  wf_phase p → member_step now c h s p i = Some (Exited (Some Rejected), evs) →
  c = true ∨ evs = [StatusChanged (member_summary s MaintenanceRejected)].
Proof.
  intros Hw Hs. remember (Exited (Some Rejected)) as q eqn:Eq. member_cases Hs; try done.
  all: try (unfold settle, checked, produced in Eq; repeat (case_match; simplify_eq/=; try done); by auto).
  apply resume_rejected in Eq as ->. cbn in Hw. subst. by right.
Qed.
Lemma resume_wf k : wf_phase (resume k).
Proof. destruct k as [|r|e]; cbn; [done| |done]. by destruct (schedule r). Qed.
Lemma member_wf now c h s p i p' evs :
  wf_phase p → member_step now c h s p i = Some (p', evs) → wf_phase p'.
Proof.
  intros Hw Hs. member_cases Hs; try done; try apply resume_wf.
  all: unfold settle, checked, produced; repeat (case_match; try done); try apply resume_wf.
Qed.
Lemma member_exited now c h s e i : member_step now c h s (Exited e) i = None.
Proof. by destruct i. Qed.

(** * One step of the system *)
Definition servers (s : System) : list string := (λ w, session_server w.1) <$> workers s.
Definition logged_out (l : list Event) : GatewaySessions :=
  omap (λ e, match e with LoggedOut m => Some m | _ => None end) l.
Lemma logged_out_app l l' : logged_out (l ++ l') = logged_out l ++ logged_out l'.
Proof. apply omap_app. Qed.
Lemma logged_out_none l : Forall (λ e, is_logout e = false) l → logged_out l = [].
Proof. induction 1 as [|e l He _ IH]; [done|]. by destruct e. Qed.
Lemma servers_insert s i w p p' :
  workers s !! i = Some (w, p) →
  (λ w, session_server w.1) <$> <[i := (w, p')]> (workers s) = servers s.
Proof.
  intros Hi. unfold servers. rewrite list_fmap_insert. apply list_insert_id.
  by rewrite list_lookup_fmap, Hi.
Qed.

(** What a step does to the ledger, the workers and what was seen. *)
Inductive view_step (s s' : System) : Prop :=
  | view_emits evs : ledger s' = ledger s → servers s' = servers s → log s' = log s ++ evs →
      Forall (λ e, is_logout e = false ∧
        (event_server e ∈ servers s ∨ event_server e ∈ session_server <$> ledger s)) evs →
      view_step s s'
  | view_joins i w e : workers s !! i = Some (w, Exited e) → ledger s' = ledger s →
      workers s' = delete i (workers s) → log s' = log s → view_step s s'
  | view_logs_out i w : workers s !! i = Some (w, Exited (Some Rejected)) →
      owner s = PollWorkers →
      ledger s' = relinquish_gateway (session_server w) (ledger s) →
      workers s' = delete i (workers s) →
      log s' = log s ++ option_list (LoggedOut <$> taken (session_server w) (ledger s)) →
      view_step s s'.
Lemma view_same s s' : ledger s' = ledger s → workers s' = workers s → log s' = log s → view_step s s'.
Proof.
  intros Hl Hw Hg. apply (view_emits s s' []); [done|by unfold servers; rewrite Hw|by rewrite app_nil_r|done].
Qed.
Lemma owner_view s s' : owner_runs s = Some s' → view_step s s'.
Proof.
  unfold owner_runs. intros Hs. repeat case_match; simplify_eq; try by apply view_same.
  eapply view_emits; [done..|]. cbn. apply Forall_fmap, list.Forall_forall. intros m Hm. cbn.
  split; [done|]. right. apply list_elem_of_fmap. by exists m.
Qed.
Lemma joined_view i s s' : joined i s = Some s' → view_step s s'.
Proof.
  unfold joined. intros Hs. destruct (workers s !! i) as [[w p]|] eqn:Hi; [|done].
  destruct p; try done. repeat case_match; simplify_eq; try (by eapply view_joins).
  by eapply view_logs_out.
Qed.
Lemma step_view l s s' : step l s = Some s' → view_step s s'.
Proof.
  destruct l; cbn; intros Hs; simplify_eq; try by apply view_same.
  - destruct (workers s !! i) as [[w p]|] eqn:Hi; [|done]. cbn in Hs.
    destruct (member_step _ _ _ _ _ _) as [[p' evs]|] eqn:Em; [|done]. cbn in Hs. simplify_eq.
    eapply view_emits; [done|by eapply servers_insert|done|].
    apply member_events in Em as [Em _]. eapply list.Forall_impl; [exact Em|]. intros e [He ->].
    split; [done|]. left. rewrite He. apply list_elem_of_fmap. exists (w, p).
    split; [done|]. by eapply list_elem_of_lookup_2.
  - by apply owner_view.
  - repeat case_match; simplify_eq; by apply view_same.
  - by eapply joined_view.
  - repeat case_match; simplify_eq; by apply view_same.
Qed.

(** Nothing is seen of a gateway after its logout. *)
Definition quiet (l : list Event) : Prop := ∀ l1 m l2, l = l1 ++ LoggedOut m :: l2 →
  Forall (λ e, event_server e ≠ session_server m) l2.
(** The gateways logged out and those of the ledger are the ones the session set began
    with, nothing is left of a gateway's worker when it is logged out, and nothing is
    seen of the gateway afterwards. *)
Record ledger_inv (all : GatewaySessions) (s : System) : Prop := {
  inv_perm : logged_out (log s) ++ ledger s ≡ₚ all;
  inv_workers : servers s ⊆ session_server <$> ledger s;
  inv_nodup : NoDup (servers s);
  inv_quiet : quiet (log s);
}.
Lemma ledger_inv_start sessions now s :
  NoDup (session_server <$> sessions) → start sessions now = Ok s → ledger_inv sessions s.
Proof.
  unfold start. intros Hn Hs. bind_inv Hs. simplify_eq/=.
  assert (servers {| cancellation := false; workers_cancel := false; ledger := sessions;
    workers := (λ s, (s, Status Session.Authenticated ToValidate)) <$> sessions;
    owner := PollCancelled; log := []; clock := now |} = session_server <$> sessions) as E.
  { unfold servers. cbn. by rewrite <- list_fmap_compose. }
  split; rewrite ?E; [done..|]. intros l1 m l2 Hl. by destruct l1.
Qed.

(** A quiet log stays quiet when what is added leaves the logged-out gateways alone. *)
Lemma quiet_snoc l e : quiet l → (∀ m, m ∈ logged_out l → event_server e ≠ session_server m) →
  quiet (l ++ [e]).
Proof.
  intros Hq He l1 m l2 E. destruct l2 as [|x l2 _] using rev_ind.
  - apply List.Forall_nil.
  - rewrite app_comm_cons, app_assoc in E. apply app_inj_tail in E as [-> <-].
    apply Forall_app. split; [by eapply Hq|]. apply list.Forall_singleton, He.
    rewrite logged_out_app. apply elem_of_app. right. apply elem_of_cons. by left.
Qed.
Lemma quiet_app l evs : quiet l →
  Forall (λ e, is_logout e = false ∧ ∀ m, m ∈ logged_out l → event_server e ≠ session_server m) evs →
  quiet (l ++ evs).
Proof.
  intros Hq. induction evs as [|e evs IH] using rev_ind; intros He; [by rewrite app_nil_r|].
  apply Forall_app in He as [Hevs [[_ He] _]%list.Forall_cons]. rewrite app_assoc.
  apply quiet_snoc; [by apply IH|]. intros m Hm. apply He.
  rewrite logged_out_app, (logged_out_none evs), app_nil_r in Hm; [done|].
  eapply list.Forall_impl; [exact Hevs|]. by intros x [? _].
Qed.
Lemma ledger_disjoint all s m :
  NoDup (session_server <$> all) → ledger_inv all s → m ∈ logged_out (log s) →
  session_server m ∉ session_server <$> ledger s.
Proof.
  intros Hn [Hp _ _ _] Hm Hin. rewrite <- Hp, fmap_app in Hn.
  apply list.NoDup_app in Hn as (_ & Hd & _). apply (Hd (session_server m)); [|exact Hin]. by apply list_elem_of_fmap_2.
Qed.
Lemma servers_delete s i w p :
  NoDup (servers s) → workers s !! i = Some (w, p) →
  ((λ w, session_server w.1) <$> delete i (workers s)) ⊆ servers s ∧
  NoDup ((λ w, session_server w.1) <$> delete i (workers s)) ∧
  session_server w ∉ (λ w, session_server w.1) <$> delete i (workers s).
Proof.
  intros Hn Hi. pose proof (delete_Permutation _ _ _ Hi) as Hp. unfold servers in *.
  rewrite Hp in Hn. cbn in Hn. apply list.NoDup_cons in Hn as [Hn1 Hn2].
  split; [|by split]. rewrite Hp at 2. cbn. set_solver.
Qed.
Lemma ledger_inv_step all l s s' :
  NoDup (session_server <$> all) → ledger_inv all s → step l s = Some s' → ledger_inv all s'.
Proof.
  intros Hn Hinv Hs. pose proof (ledger_disjoint all s) as Hd. pose proof Hinv as [Hp Hw Hu Hq].
  apply step_view in Hs as [evs Hl Hv Hg He|i w e Hi Hl Hv Hg|i w Hi _ Hl Hv Hg].
  - split; rewrite ?Hv, ?Hl; [|done..|].
    + rewrite Hg, logged_out_app, (logged_out_none evs), app_nil_r; [done|].
      eapply list.Forall_impl; [exact He|]. by intros x [? _].
    + rewrite Hg. apply quiet_app; [done|]. eapply list.Forall_impl; [exact He|].
      intros x [Hx Hin]. split; [done|]. intros m Hm E. eapply Hd; [done..|].
      rewrite <- E. destruct Hin as [?|?]; [by apply Hw|done].
  - destruct (servers_delete s i w _ Hu Hi) as (Hs1 & Hs2 & _).
    split; rewrite ?Hl, ?Hg; [done| |by unfold servers; rewrite Hv|done].
    unfold servers. rewrite Hv. by etrans.
  - destruct (servers_delete s i w _ Hu Hi) as (Hs1 & Hs2 & Hs3).
    pose proof (relinquish_taken (session_server w) (ledger s)) as Ht.
    split; rewrite ?Hl, ?Hg.
    + rewrite logged_out_app, <- app_assoc. rewrite Ht in Hp. rewrite <- Hp.
      by destruct (taken (session_server w) (ledger s)).
    + unfold servers. rewrite Hv. intros v Hv'. pose proof (Hw v (Hs1 v Hv')) as Hin.
      rewrite Ht, fmap_app in Hin. apply elem_of_app in Hin as [Hin|]; [|done].
      destruct (taken (session_server w) (ledger s)) as [m|] eqn:Et; [|by inversion Hin].
      cbn in Hin. apply list_elem_of_singleton in Hin as ->. by rewrite (taken_serves _ _ _ Et) in Hv'.
    + unfold servers. by rewrite Hv.
    + destruct (taken (session_server w) (ledger s)) as [m'|] eqn:Et; cbn;
        [|by rewrite app_nil_r].
      apply quiet_snoc; [done|]. intros m Hm E. eapply Hd; [done..|]. rewrite <- E. cbn.
      apply list_elem_of_fmap_2. rewrite Ht. apply elem_of_app. left. by left.
Qed.

(** * What was last published of a gateway *)
Definition status_of (server : string) (e : Event) : option MaintenanceState :=
  match e with
  | StatusChanged m => if String.eqb (gateway_address (summary_gateway m)) server
                       then Some (maintenance m) else None
  | _ => None
  end.
Definition last_status (server : string) (l : list Event) : option MaintenanceState :=
  list.last (omap (status_of server) l).
Lemma last_status_app v l l' : last_status v (l ++ l') =
  match last_status v l' with Some x => Some x | None => last_status v l end.
Proof. unfold last_status. by rewrite omap_app, last_app. Qed.
Lemma last_status_none v evs :
  Forall (λ e, is_status e = false ∨ event_server e ≠ v) evs → last_status v evs = None.
Proof.
  intros He. unfold last_status. assert (omap (status_of v) evs = []) as ->; [|done].
  induction He as [|e evs He _ IH]; [done|]. cbn. destruct e as [m| | | |]; cbn; try done.
  destruct (String.eqb_spec (gateway_address (summary_gateway m)) v) as [E|]; [|done].
  by destruct He.
Qed.
Lemma last_status_other now c h s p i p' evs v l :
  member_step now c h s p i = Some (p', evs) → session_server s ≠ v →
  last_status v (l ++ evs) = last_status v l.
Proof.
  intros [He _]%member_events Hv. rewrite last_status_app, last_status_none; [done|].
  eapply list.Forall_impl; [exact He|]. intros e [-> _]. by right.
Qed.

Definition after_stop (o : Owner) : bool :=
  match o with Invalidating _ _ | Draining _ _ | Returned _ => true | _ => false end.
(** The session failed and the members were invalidated. *)
Definition invalidated (o : Owner) : bool :=
  match o with
  | Draining o _ => is_failed o
  | Returned (Ok o) => is_failed o
  | _ => false
  end.
Definition returned_failed (o : Owner) : bool :=
  match o with Returned (Ok o) => is_failed o | _ => false end.
Record status_inv (all : GatewaySessions) (s : System) : Prop := {
  st_wf : Forall (λ w, wf_phase w.2) (workers s);
  st_exit w : (w, Exited (Some Rejected)) ∈ workers s →
    workers_stopped s = true ∨ last_status (session_server w) (log s) = Some MaintenanceRejected;
  st_flag : workers_cancel s = after_stop (owner s);
  st_gone m : m ∈ all → session_server m ∉ session_server <$> ledger s →
    (cancellation s = true ∧ returned_failed (owner s) = false) ∨
    last_status (session_server m) (log s) = Some MaintenanceRejected;
  st_sealed : invalidated (owner s) = true → held s = false ∧
    ∀ m, m ∈ ledger s → last_status (session_server m) (log s) = Some MaintenanceRejected;
}.

Lemma insert_elem {A} (l : list A) i x y : y ∈ <[i := x]> l → y = x ∨ y ∈ l.
Proof.
  intros [j [(_ & -> & _)|[_ Hj]]%list_lookup_insert_Some]%list_elem_of_lookup_1; [by left|].
  right. by eapply list_elem_of_lookup_2.
Qed.
Lemma held_false s : held s = false ↔ ∀ w, w ∈ workers s → in_gate w.2 = false.
Proof. apply existsb_false_forall. Qed.
Lemma invalidate_last m l : m ∈ l →
  last_status (session_server m)
    ((λ m, StatusChanged (member_summary m MaintenanceRejected)) <$> l) = Some MaintenanceRejected.
Proof.
  induction l as [|x l IH] using rev_ind; intros Hm; [by inversion Hm|].
  rewrite fmap_app, last_status_app. change ((λ m, _) <$> [x]) with
    [StatusChanged (member_summary x MaintenanceRejected)].
  unfold last_status at 1. cbn. change (gateway_address (session_gateway x)) with (session_server x).
  destruct (String.eqb_spec (session_server x) (session_server m)) as [E|E]; [done|]. cbn.
  apply elem_of_app in Hm as [Hm|Hm]; [by apply IH|].
  by apply list_elem_of_singleton in Hm as ->.
Qed.
Lemma status_inv_member all s i w p p' evs input :
  ledger_inv all s → status_inv all s → workers s !! i = Some (w, p) →
  member_step (clock s) (workers_stopped s) (held s) w p input = Some (p', evs) →
  status_inv all (emit evs (with_workers (<[i := (w, p')]> (workers s)) s)).
Proof.
  intros [_ Hl Hn _] [Hw He Hf Hg Hs] Hi Hm.
  assert (session_server w ∈ servers s) as Hin by (apply list_elem_of_fmap; exists (w, p);
    split; [done|]; by eapply list_elem_of_lookup_2).
  split; cbn; [| |done| |].
  - apply list.Forall_insert; [done|]. eapply member_wf; [|exact Hm].
    by apply (Forall_lookup_1 _ _ _ _ Hw Hi).
  - intros w' [j Hj]%list_elem_of_lookup_1. destruct (decide (i = j)) as [<-|Hij].
    + rewrite list_lookup_insert_eq in Hj by (by eapply lookup_lt_Some). simplify_eq.
      eapply member_rejects in Hm as [Hm| ->]; [by left| |by apply (Forall_lookup_1 _ _ _ _ Hw Hi)].
      right. rewrite last_status_app. unfold last_status at 1. cbn. by rewrite String.eqb_refl.
    + rewrite list_lookup_insert_ne in Hj by done.
      destruct (He w') as [|Hlast]; [by eapply list_elem_of_lookup_2|by left|]. right.
      rewrite (last_status_other _ _ _ _ _ _ _ _ _ _ Hm); [done|]. intros E. apply Hij.
      eapply (NoDup_lookup _ _ _ _ Hn); unfold servers; rewrite list_lookup_fmap;
        [by rewrite Hi|rewrite Hj; cbn; by rewrite E].
  - intros m Hm' Hnot. destruct (Hg m Hm' Hnot) as [|Hlast]; [by left|right].
    rewrite (last_status_other _ _ _ _ _ _ _ _ _ _ Hm); [done|]. intros E. apply Hnot.
    rewrite <- E. by apply Hl.
  - intros Hinv. destruct (Hs Hinv) as [Hh Hlast]. pose proof (proj1 (held_false s) Hh) as Hh'.
    assert (workers_stopped s = true) as Hc.
    { unfold workers_stopped. rewrite Hf. destruct (owner s); try done; by rewrite orb_true_r. }
    rewrite Hc, Hh in Hm. split.
    + apply existsb_false_forall. cbn. intros w' [->|Hw']%insert_elem; [|by apply Hh'].
      cbn. destruct (in_gate p') eqn:E; [|done]. by destruct (member_enters _ _ _ _ _ _ _ _ Hm E).
    + intros m Hm'. rewrite last_status_app, last_status_none; [by apply Hlast|].
      apply member_events in Hm as [_ [(m' & k & -> & _)|Hm]].
      * by specialize (Hh' _ (list_elem_of_lookup_2 _ _ _ Hi)).
      * eapply list.Forall_impl; [exact Hm|]. by left.
Qed.

(** A step that leaves the workers, the ledger and the log alone. *)
Lemma status_inv_frame all s s' : status_inv all s →
  workers s' = workers s → ledger s' = ledger s → log s' = log s →
  (cancellation s = true → cancellation s' = true) →
  (workers_cancel s = true → workers_cancel s' = true) →
  workers_cancel s' = after_stop (owner s') →
  (invalidated (owner s') = true → invalidated (owner s) = true) →
  (returned_failed (owner s') = true → returned_failed (owner s) = true ∨ cancellation s = false) →
  status_inv all s'.
Proof.
  intros [Hw He Hf Hg Hs] E1 E2 E3 Hc Hc' Hf' Hi Hr.
  split; unfold held; rewrite ?E1, ?E2, ?E3; try done.
  - intros w Hin. destruct (He w Hin) as [Hst|]; [left|by right].
    unfold workers_stopped in *. apply orb_true_iff in Hst as [?|?]; apply orb_true_iff; auto.
  - intros m Hm Hn. destruct (Hg m Hm Hn) as [[Hx Hy]|]; [left|by right]. split; [by apply Hc|].
    destruct (returned_failed (owner s')); [|done]. destruct Hr; congruence.
  - intros E. by apply Hs, Hi.
Qed.
Lemma status_inv_owner all s s' :
  status_inv all s → owner_runs s = Some s' → status_inv all s'.
Proof.
  intros Hinv Hs. pose proof Hinv as [Hw He Hf Hg Hse]. unfold owner_runs in Hs.
  destruct (owner s) as [| | | |o p|o p|o p|r] eqn:Eo; try done.
  - simplify_eq. eapply status_inv_frame; try done; cbn; by destruct (cancellation s).
  - simplify_eq. by eapply status_inv_frame.
  - destruct (workers s); [|destruct (worker_finished s); [done|]]; simplify_eq;
      by eapply status_inv_frame.
  - simplify_eq. eapply status_inv_frame; try done; cbn;
      by destruct o, p.
  - destruct (held s) eqn:Eh; [done|]. simplify_eq. split; cbn; try done.
    + intros w Hin. left. unfold workers_stopped. cbn. rewrite Hf. by rewrite orb_true_r.
    + intros m Hm Hnot. destruct (Hg m Hm Hnot) as [[? _]|Hl]; [by left|right].
      rewrite last_status_app, last_status_none; [done|].
      apply Forall_fmap, list.Forall_forall. intros x Hx. right. intros E. apply Hnot.
      apply list_elem_of_fmap. by exists x.
    + intros _. split; [done|]. intros m Hm. rewrite last_status_app.
      by rewrite invalidate_last.
  - destruct (workers s); [|done]. simplify_eq. eapply status_inv_frame; try done; cbn.
    all: rewrite Eo; destruct p, (cancellation s), o; auto.
Qed.
(** What a worker that is joined leaves behind. *)
Lemma status_inv_delete all s s' i w e : NoDup (session_server <$> all) → ledger_inv all s →
  status_inv all s → workers s !! i = Some (w, Exited e) → workers s' = delete i (workers s) →
  cancellation s' = cancellation s → workers_cancel s' = workers_cancel s →
  workers_cancel s' = after_stop (owner s') → returned_failed (owner s') = false →
  ((ledger s' = ledger s ∧ log s' = log s ∧
    (invalidated (owner s') = true → invalidated (owner s) = true)) ∨
   (e = Some Rejected ∧ owner s = PollWorkers ∧ invalidated (owner s') = false ∧
    ledger s' = relinquish_gateway (session_server w) (ledger s) ∧
    log s' = log s ++ option_list (LoggedOut <$> taken (session_server w) (ledger s)))) →
  status_inv all s'.
Proof.
  intros Hn Hl [Hw He Hf Hg Hse] Hi Ew Ec Ecc Hf' Hr Hcase.
  assert (∀ x, x ∈ delete i (workers s) → x ∈ workers s) as Hsub.
  { intros x Hx. rewrite (delete_Permutation _ _ _ Hi). by right. }
  assert (∀ v, last_status v (log s') = last_status v (log s)) as Hlast.
  { intros v. destruct Hcase as [(_ & -> & _)|(_ & _ & _ & _ & ->)]; [done|].
    rewrite last_status_app, last_status_none; [done|].
    destruct (taken _ _); cbn; repeat constructor. }
  split; unfold held, workers_stopped; rewrite ?Ew, ?Ec, ?Ecc; rewrite ?Ecc in Hf'.
  - rewrite list.Forall_forall in Hw |- *. auto.
  - intros x Hx. rewrite Hlast. by apply He, Hsub.
  - done.
  - intros m Hm Hnot. rewrite Hlast. destruct Hcase as [(El & _)|(-> & Eo & _ & El & _)];
      rewrite El in Hnot; rewrite Hr; [by destruct (Hg m Hm Hnot) as [[? _]|]; auto|].
    destruct (decide (session_server m = session_server w)) as [->|Hne].
    + destruct (He w) as [Hst|]; [by eapply list_elem_of_lookup_2| |by right]. left.
      unfold workers_stopped in Hst. rewrite Hf, Eo in Hst. by rewrite orb_false_r in Hst.
    + cut ((cancellation s = true ∧ returned_failed (owner s) = false) ∨
        last_status (session_server m) (log s) = Some MaintenanceRejected); [tauto|].
      apply Hg; [done|]. intros Hin. apply Hnot.
      rewrite (relinquish_taken (session_server w)), fmap_app in Hin.
      apply elem_of_app in Hin as [Hin|]; [|done].
      destruct (taken _ _) as [y|] eqn:Et; [|by inversion Hin].
      apply list_elem_of_singleton in Hin. by rewrite (taken_serves _ _ _ Et) in Hin.
  - intros Hinv. destruct Hcase as [(El & _ & Hi')|(_ & _ & Hno & _)]; [|congruence].
    destruct (Hse (Hi' Hinv)) as [Hh Hm]. split.
    + apply existsb_false_forall. intros x Hx. apply (proj1 (held_false s) Hh). auto.
    + intros m. rewrite El, Hlast. apply Hm.
Qed.
Lemma status_inv_joined all i s s' : NoDup (session_server <$> all) → ledger_inv all s →
  status_inv all s → joined i s = Some s' → status_inv all s'.
Proof.
  intros Hn Hl Hinv Hs. unfold joined in Hs. pose proof (st_flag _ _ Hinv) as Hf.
  destruct (workers s !! i) as [[w p]|] eqn:Hi; [|done]. destruct p as [| | | | | | | | | | | |e]; try done.
  change (owner (with_workers _ s)) with (owner s) in Hs.
  destruct (owner s) as [| | | | | |o p|] eqn:Eo; try done.
  - injection Hs as <-. eapply (status_inv_delete all s _ i w e); try done; try (by destruct e as [[]|]).
    destruct e as [[]|]; first [by left|by right].
  - injection Hs as <-. eapply (status_inv_delete all s _ i w e); try done. left. by rewrite Eo.
Qed.
Lemma status_inv_step all l s s' : NoDup (session_server <$> all) → ledger_inv all s →
  status_inv all s → step l s = Some s' → status_inv all s'.
Proof.
  intros Hn Hl Hinv Hs. pose proof (st_flag _ _ Hinv) as Hf.
  destruct l; cbn in Hs; simplify_eq; try (eapply status_inv_frame; cbn; eauto; done).
  - destruct (workers s !! i) as [[w p]|] eqn:Hi; [|done]. cbn in Hs.
    destruct (member_step _ _ _ _ _ _) as [[p' evs]|] eqn:Em; [|done]. cbn in Hs. simplify_eq.
    by eapply status_inv_member.
  - by eapply status_inv_owner.
  - destruct (owner s) eqn:Eo; try done. simplify_eq. by eapply status_inv_frame.
  - by eapply status_inv_joined.
  - destruct (owner s) eqn:Eo; try done. simplify_eq.
    eapply status_inv_frame; try done; cbn; by destruct (workers s).
Qed.
Definition initial (all : GatewaySessions) (s : System) : Prop :=
  NoDup (session_server <$> all) ∧ ∃ now, start all now = Ok s.
Lemma start_Ok all now s : start all now = Ok s →
  s = {| cancellation := false; workers_cancel := false; ledger := all;
         workers := (λ s, (s, Status Session.Authenticated ToValidate)) <$> all;
         owner := PollCancelled; log := []; clock := now |}.
Proof. unfold start. intros Hs. bind_inv Hs. by simplify_eq. Qed.
Lemma status_inv_start all now s : start all now = Ok s → status_inv all s.
Proof.
  intros ->%start_Ok. split; cbn; try done.
  - by apply Forall_fmap, list.Forall_forall.
  - by intros w (x & [=] & _)%list_elem_of_fmap.
  - intros m Hm Hn. destruct Hn. by apply list_elem_of_fmap_2.
Qed.
Lemma maintenance_inv all s : reachable advance (initial all) s → ledger_inv all s ∧ status_inv all s.
Proof.
  intros Hr. cut (NoDup (session_server <$> all) ∧ ledger_inv all s ∧ status_inv all s); [tauto|].
  revert s Hr. apply reachable_invariant.
  - intros s [Hn [now Hs]]. split; [done|]. split; [by eapply ledger_inv_start|by eapply status_inv_start].
  - intros s l (Hn & Hl & Hs). split; [done|]. unfold advance.
    destruct (step l s) as [s'|] eqn:E; [|done]. cbn.
    split; [by eapply ledger_inv_step|by eapply status_inv_step].
Qed.

(** C28: when the maintenance of a session set ends with a failure, whatever the workers,
    the network and the gateways did and in whatever order, the last thing published of
    every gateway the set began with is that it is rejected: no worker can publish
    health after its owner invalidated it, and a gateway that was given up earlier had
    been announced. *)
Theorem nontunnel_failure_is_published all now s0 ls r :
  NoDup (session_server <$> all) → start all now = Ok s0 →
  let s := runs advance s0 ls in
  owner s = Returned (Ok (Failed r)) →
  ∀ m, m ∈ all → last_status (session_server m) (log s) = Some MaintenanceRejected.
Proof.
  intros Hn Hstart s Ho m Hm. destruct (maintenance_inv all s) as [Hl [_ _ _ Hg Hs]].
  { exists s0, ls. split; [|done]. split; [done|by exists now]. }
  rewrite Ho in Hg, Hs. destruct (Hs eq_refl) as [_ Hlast].
  destruct (decide (session_server m ∈ session_server <$> ledger s)) as [Hin|Hnot].
  - apply list_elem_of_fmap in Hin as (m' & -> & Hin). by apply Hlast.
  - by destruct (Hg m Hm Hnot) as [[_ ?]|].
Qed.

(** A gateway is logged out at most once, and only when its worker is gone: the
    gateways logged out by the maintenance and those its ledger still holds are those
    the set began with, a gateway that was logged out has no worker left, and after its
    logout no request is sent to it and nothing is published of it. *)
Lemma nontunnel_logout_once all now s0 ls :
  NoDup (session_server <$> all) → start all now = Ok s0 →
  let s := runs advance s0 ls in
  logged_out (log s) ++ ledger s ≡ₚ all ∧
  (∀ m, m ∈ logged_out (log s) → session_server m ∉ servers s) ∧
  (∀ l1 m l2, log s = l1 ++ LoggedOut m :: l2 →
     Forall (λ e, event_server e ≠ session_server m) l2).
Proof.
  intros Hn Hstart s. destruct (maintenance_inv all s) as [Hl _].
  { exists s0, ls. split; [|done]. split; [done|by exists now]. }
  pose proof (λ m, ledger_disjoint all s m Hn Hl) as Hd. destruct Hl as [Hp Hw _ Hq].
  split; [done|]. split; [|exact Hq]. intros m Hm Hin. by apply (Hd m Hm), Hw.
Qed.

(** * Every stopped maintenance returns *)
Definition resume_rank (k : Resume) : nat :=
  match k with ToValidate => 2 | ToSchedule _ => 1 | ToExit _ => 0 end.
(** How many steps a worker whose token is cancelled has left at most. *)
Definition phase_rank (p : Phase) : nat :=
  match p with
  | Exited _ => 0
  | Status _ k | AtGate _ k | InGate _ k => 1 + resume_rank k
  | Sleep _ false | Check _ _ false => 1
  | Validate => 2
  | Sleep _ true => 3
  | Settle _ _ => 2
  | Submit _ _ _ false | Submitted _ _ => 3
  | Submit _ _ _ true | Revalidate _ _ => 4
  | Producing _ _ => 5
  | Collect _ _ => 6
  | Check _ _ true => 7
  end%nat.
Definition owner_rank (o : Owner) : nat :=
  match o with
  | Returned _ => 0 | Draining _ _ => 1 | Invalidating _ _ => 2 | Stopping _ _ => 3
  | PollCancelled => 4 | PollWorkers | LoggingOut => 5 | PollNetwork => 6
  end%nat.
Definition rank (s : System) : nat :=
  (owner_rank (owner s) + sum_list ((λ w, S (phase_rank w.2)) <$> workers s))%nat.
Lemma resume_decreases k : (phase_rank (resume k) ≤ resume_rank k)%nat.
Proof. destruct k as [|r|e]; cbn; [lia| |lia]. destruct (schedule r); cbn; lia. Qed.
Lemma member_decreases now h s p i p' evs :
  wf_phase p → member_step now true h s p i = Some (p', evs) → (phase_rank p' < phase_rank p)%nat.
Proof.
  intros Hw Hs. member_cases Hs; cbn; try lia.
  all: try (match goal with |- context [resume ?k] => pose proof (resume_decreases k) end; cbn in *; lia).
  all: try (unfold settle, checked, produced; repeat case_match; simplify_eq/=; lia).
  by destruct p; cbn; try lia.
Qed.
Lemma sum_list_insert (l : list nat) i x y :
  l !! i = Some x → (sum_list (<[i := y]> l) + x = sum_list l + y)%nat.
Proof.
  revert i. induction l as [|a l IH]; intros [|i] Hi; simplify_eq/=; [lia|].
  specialize (IH _ Hi). lia.
Qed.
Lemma sum_list_delete (l : list nat) i x :
  l !! i = Some x → (sum_list (delete i l) + x = sum_list l)%nat.
Proof.
  revert i. induction l as [|a l IH]; intros [|i] Hi; simplify_eq/=; [lia|].
  specialize (IH _ Hi). cbn in IH. lia.
Qed.
Lemma worker_rank_lookup s i w p : workers s !! i = Some (w, p) →
  ((λ w, S (phase_rank w.2)) <$> workers s) !! i = Some (S (phase_rank p)).
Proof. intros Hi. by rewrite list_lookup_fmap, Hi. Qed.
(** Once the caller cancelled or the owner stopped the workers, every step but a tick of
    the clock and another cancellation decreases the rank. *)
Lemma stopped_step_decreases l s s' :
  Forall (λ w, wf_phase w.2) (workers s) → workers_cancel s = after_stop (owner s) →
  workers_stopped s = true → l ≠ Cancel → l ≠ Tick →
  step l s = Some s' → (rank s' < rank s)%nat.
Proof.
  intros Hw Hf Hc Hl1 Hl2 Hs. unfold rank. destruct l; cbn in Hs; try done.
  - destruct (workers s !! i) as [[w p]|] eqn:Hi; [|done]. cbn in Hs.
    destruct (member_step _ _ _ _ _ _) as [[p' evs]|] eqn:Em; [|done]. cbn in Hs. simplify_eq.
    cbn. rewrite list_fmap_insert. rewrite Hc in Em.
    pose proof (sum_list_insert _ _ _ (S (phase_rank p')) (worker_rank_lookup _ _ _ _ Hi)).
    pose proof (member_decreases _ _ _ _ _ _ _ (Forall_lookup_1 _ _ _ _ Hw Hi) Em) as Hd.
    cbn in *. lia.
  - unfold workers_stopped in Hc. rewrite Hf in Hc. unfold owner_runs in Hs.
    destruct (owner s) eqn:Eo; cbn in Hc; rewrite ?orb_false_r in Hc; rewrite ?Hc in Hs.
    all: repeat case_match; simplify_eq; cbn;
      repeat (match goal with E : workers _ = _ |- _ => rewrite E end); cbn; lia.
  - destruct (owner s); simplify_eq; cbn; lia.
  - unfold joined in Hs. destruct (workers s !! i) as [[w p]|] eqn:Hi; [|done].
    destruct p as [| | | | | | | | | | | |e]; try done.
    pose proof (sum_list_delete _ _ _ (worker_rank_lookup _ _ _ _ Hi)) as Hd.
    rewrite <- list_fmap_delete in Hd. cbn in Hs, Hd.
    destruct (owner s); simplify_eq; [destruct e as [[]|]|]; cbn; lia.
  - destruct (owner s); simplify_eq. cbn. destruct (workers s); cbn; lia.
Qed.

(** A worker that is not over can run, or waits for a callback or a gateway to answer. *)
Lemma member_progress now c s p : exited p = false →
  ∃ i p' evs, member_step now c false s p i = Some (p', evs).
Proof.
  intros Hp. destruct p as [m k|m k|m k| |sent posted polled|r d|r d|r rep|r rep posted polled|r rep|res r|next polled|e];
    try done; try (by exists Go; eexists _, _; cbn).
  - exists (NetworkValid true). by eexists _, _.
  - exists Go. by destruct polled; eexists _, _.
  - exists (Produced None). by eexists _, _.
  - exists (NetworkValid true). by eexists _, _.
  - exists Go. destruct polled; cbn; [destruct (negb (valid_report rep))|]; by eexists _, _.
  - exists Go. by destruct polled; eexists _, _.
Qed.
Lemma gate_progress now c h s p : in_gate p = true →
  ∃ i p' evs, member_step now c h s p i = Some (p', evs).
Proof. intros Hp. destruct p; try done. exists Go. by eexists _, _. Qed.
Lemma member_enabled s i w p j p' evs : workers s !! i = Some (w, p) →
  member_step (clock s) (workers_stopped s) (held s) w p j = Some (p', evs) →
  is_Some (step (Member i j) s).
Proof. intros Hi Hm. cbn. rewrite Hi. cbn. rewrite Hm. by eexists. Qed.
(** As long as workers run, one of them can. *)
Lemma workers_progress s w : w ∈ workers s → exited w.2 = false →
  ∃ i j, is_Some (step (Member i j) s).
Proof.
  intros Hw He. destruct (held s) eqn:Eh.
  - apply existsb_exists in Eh as ([w' p] & Hin & Hg). apply list_elem_of_In in Hin.
    apply list_elem_of_lookup_1 in Hin as [i Hi].
    destruct (gate_progress (clock s) (workers_stopped s) (held s) w' p Hg) as (j & p' & evs & Hm).
    exists i, j. by eapply member_enabled.
  - apply list_elem_of_lookup_1 in Hw as [i Hi]. destruct w as [w p].
    destruct (member_progress (clock s) (workers_stopped s) w p He) as (j & p' & evs & Hm).
    exists i, j. eapply member_enabled; [done|]. by rewrite Eh.
Qed.
Definition returned (s : System) : bool := match owner s with Returned _ => true | _ => false end.
(** Work that is neither the clock's nor the caller's. *)
Definition is_work (l : Label) : bool := match l with Cancel | Tick => false | _ => true end.
(** There is always something to do until the owner returned. *)
Lemma owner_progress s : returned s = false → ∃ l, is_work l = true ∧ is_Some (step l s).
Proof.
  intros Hr. unfold returned in Hr. cut (is_Some (owner_runs s) ∨ owner s = LoggingOut ∨
    (∃ i w e, workers s !! i = Some (w, Exited e) ∧ (owner s = PollWorkers ∨ ∃ o p, owner s = Draining o p)) ∨
    (∃ w, w ∈ workers s ∧ exited w.2 = false)).
  { intros [Ho|[Ho|[(i & w & e & Hi & Ho)|(w & Hw & He)]]].
    - by exists OwnerRuns.
    - exists LogoutDone. cbn. rewrite Ho. by split; eauto.
    - exists (Joined i). split; [done|]. cbn. unfold joined. rewrite Hi. cbn.
      destruct Ho as [->|(o & p & ->)]; by eexists.
    - destruct (workers_progress s w Hw He) as (i & j & Hs). by exists (Member i j). }
  unfold owner_runs. destruct (owner s) eqn:Eo; try done; try (by eauto).
  - destruct (workers s) as [|w ws] eqn:Ew; [by eauto|]. destruct (worker_finished s) eqn:Ef; [|by eauto].
    apply existsb_exists in Ef as ([w' p] & Hin & Hp). apply list_elem_of_In in Hin.
    apply list_elem_of_lookup_1 in Hin as [i Hi]. destruct p; try done.
    right. right. left. rewrite <- Ew. by eauto 8.
  - destruct (held s) eqn:Eh; [|by eauto]. apply existsb_exists in Eh as ([w p'] & Hin & Hp).
    apply list_elem_of_In in Hin. right. right. right. exists (w, p'). split; [done|]. by destruct p'.
  - destruct (workers s) as [|[w p'] ws] eqn:Ew; [by eauto|]. destruct (exited p') eqn:Ex.
    + right. right. left. exists 0%nat, w. destruct p'; try done. by eauto 8.
    + right. right. right. exists (w, p'). split; [by left|done].
Qed.

Fixpoint follow (ls : list Label) (s : System) : option System :=
  match ls with [] => Some s | l :: ls => s' ← step l s; follow ls s' end.
Lemma follow_runs ls s s' : follow ls s = Some s' → s' = runs advance s ls.
Proof.
  revert s. induction ls as [|l ls IH]; cbn; intros s Hs; [by simplify_eq|].
  unfold advance at 2. destruct (step l s) as [x|]; [|done]. by apply IH.
Qed.
Lemma runs_reachable all now s0 ls : NoDup (session_server <$> all) → start all now = Ok s0 →
  reachable advance (initial all) (runs advance s0 ls).
Proof. intros Hn Hs. exists s0, ls. split; [|done]. split; [done|by exists now]. Qed.
Lemma reachable_step all l s s' :
  reachable advance (initial all) s → step l s = Some s' → reachable advance (initial all) s'.
Proof.
  intros (s0 & ls & Hi & ->) Hs. exists s0, (ls ++ [l]). split; [done|].
  rewrite runs_app. cbn. unfold advance at 1. by rewrite Hs.
Qed.
(** Tokens are never un-cancelled, and a cancelled session does not end in failure. *)
Lemma step_keeps l s s' : step l s = Some s' →
  (workers_stopped s = true → workers_stopped s' = true) ∧
  (cancellation s = true ∧ returned_failed (owner s) = false →
   cancellation s' = true ∧ returned_failed (owner s') = false) ∧
  ((returned s = true → workers s = []) → returned s' = true → workers s' = []).
Proof.
  unfold workers_stopped, returned. intros Hs.
  assert (∀ b c : bool, b || c = true → b || true = true) as Ht by (by intros []).
  destruct l; cbn in Hs; simplify_eq/=; [naive_solver|naive_solver| | | | |].
  - destruct (workers s !! i) as [[w p]|] eqn:Hi; [|done]. cbn in Hs.
    destruct (member_step _ _ _ _ _ _) as [[p' evs]|]; [|done]. simplify_eq/=.
    split; [done|]. split; [done|]. intros Hw Hr. by rewrite (Hw Hr) in Hi.
  - unfold owner_runs in Hs. destruct (owner s) eqn:Eo; repeat case_match; simplify_eq/=;
      repeat (match goal with E : cancellation _ = _ |- _ => rewrite !E; clear E end);
      rewrite ?orb_true_r; (split; [by auto|]; split; [by intros [? ?]|done]).
  - destruct (owner s) eqn:Eo; simplify_eq/=. done.
  - unfold joined in Hs. destruct (workers s !! i) as [[w p]|]; [|done]. destruct p; try done.
    cbn in Hs. destruct (owner s) eqn:Eo; simplify_eq/=; [|done]. by destruct e as [[]|].
  - destruct (owner s) eqn:Eo; simplify_eq/=. by destruct (workers s).
Qed.
Lemma stopped_follow all ls s s' :
  reachable advance (initial all) s → workers_stopped s = true → follow ls s = Some s' →
  (length (List.filter is_work ls) + rank s' ≤ rank s)%nat.
Proof.
  revert s. induction ls as [|l ls IH]; cbn; intros s Hr Hc Hs; [by simplify_eq|].
  destruct (step l s) as [x|] eqn:E; [|done]. cbn in Hs.
  pose proof (IH x (reachable_step _ _ _ _ Hr E) (proj1 (step_keeps _ _ _ E) Hc) Hs) as Hlen.
  destruct (maintenance_inv _ _ Hr) as [_ [Hw _ Hf _ _]].
  destruct (is_work l) eqn:El; cbn.
  - assert (rank x < rank s)%nat; [|lia].
    eapply stopped_step_decreases; [done..| | |done]; by intros ->.
  - assert (rank x = rank s) as <-; [|lia]. destruct l; try done; by injection E as <-.
Qed.
Lemma stopped_finishes all s : reachable advance (initial all) s → workers_stopped s = true →
  ∃ ls s', follow ls s = Some s' ∧ forallb is_work ls = true ∧ returned s' = true.
Proof.
  remember (rank s) as n eqn:En. revert s En. induction n as [n IH] using lt_wf_ind. intros s -> Hr Hc.
  destruct (returned s) eqn:Er; [by exists [], s|].
  destruct (owner_progress s Er) as (l & Hl & s1 & E).
  destruct (maintenance_inv _ _ Hr) as [_ [Hw _ Hf _ _]].
  assert (rank s1 < rank s)%nat as Hlt.
  { eapply stopped_step_decreases; [done..| | |done]; by intros ->. }
  destruct (IH _ Hlt s1 eq_refl (reachable_step _ _ _ _ Hr E) (proj1 (step_keeps _ _ _ E) Hc))
    as (ls & s' & Hf' & Hall & Hret).
  exists (l :: ls), s'. cbn. rewrite E, Hl. done.
Qed.
Lemma returned_empty all s : reachable advance (initial all) s → returned s = true → workers s = [].
Proof.
  revert s. apply (reachable_invariant _ _ (λ s, returned s = true → workers s = [])).
  - by intros s [_ [now ->%start_Ok]].
  - intros s l Hi. unfold advance. destruct (step l s) as [x|] eqn:E; [|done].
    by apply (step_keeps _ _ _ E).
Qed.

(** C29: stopping the maintenance works: once the caller cancels or the owner stops its
    workers, the maintenance returns after a bounded number of steps of the workers, the
    owner and their callbacks, whatever their order (no run is longer and none gets
    stuck before it); it never returns before every worker was joined; and if the caller
    cancelled before, it does not report a failed session. *)
Theorem nontunnel_returns all now s0 ls :
  NoDup (session_server <$> all) → start all now = Ok s0 →
  let s := runs advance s0 ls in
  (workers_stopped s = true →
   (∀ ls' s', follow ls' s = Some s' → (length (List.filter is_work ls') ≤ rank s)%nat) ∧
   ∃ ls' s', follow ls' s = Some s' ∧ forallb is_work ls' = true ∧ returned s' = true) ∧
  (returned s = true → workers s = []) ∧
  (cancellation s = true → returned s = false →
   ∀ ls' s' o, follow ls' s = Some s' → owner s' = Returned (Ok o) → o = Disconnected).
Proof.
  intros Hn Hstart s. pose proof (runs_reachable all now s0 ls Hn Hstart : reachable _ _ s) as Hr.
  split; [|split].
  - intros Hc. split; [|by eapply stopped_finishes]. intros ls' s' Hf.
    pose proof (stopped_follow _ _ _ _ Hr Hc Hf). lia.
  - by eapply returned_empty.
  - intros Hc Hret ls' s' o Hf Ho.
    assert (cancellation s' = true ∧ returned_failed (owner s') = false) as [_ Hx].
    { rewrite (follow_runs _ _ _ Hf).
      apply (runs_invariant advance (λ s, cancellation s = true ∧ returned_failed (owner s) = false)).
      - intros x l Hx. unfold advance. destruct (step l x) as [y|] eqn:E; [|done].
        by apply (step_keeps _ _ _ E).
      - split; [done|]. unfold returned in Hret. by destruct (owner s). }
    rewrite Ho in Hx. by destruct o.
Qed.

(** * The pace of the checks *)
Definition check_time (server : string) (e : Event) : option N :=
  match e with Checking v t => if String.eqb v server then Some t else None | _ => None end.
Definition check_times (server : string) (l : list Event) : list N := omap (check_time server) l.
Definition paced (l : list N) : Prop :=
  ∀ i t u, l !! i = Some t → l !! S i = Some u → t + hip_interval_secs policy ≤ u.
Lemma paced_snoc l u : paced l → (∀ t, list.last l = Some t → t + hip_interval_secs policy ≤ u) →
  paced (l ++ [u]).
Proof.
  intros Hl Hu i t u' Hi Hi'. apply lookup_app_Some in Hi' as [Hi'|[Hlen Hi']].
  - rewrite lookup_app_l in Hi by (apply lookup_lt_Some in Hi'; lia). by eapply Hl.
  - apply list_lookup_singleton_Some in Hi' as [Hx <-]. apply Hu.
    rewrite last_lookup. rewrite lookup_app_l in Hi by lia. by replace (pred (length l)) with i by lia.
Qed.
(** What is known of the last check of a worker in each phase. *)
Definition pace (now : N) (last : option N) (p : Phase) : Prop :=
  match p with
  | Status _ k | AtGate _ k | InGate _ k =>
      match k with
      | ToSchedule r => last = Some (sent_at r) | ToValidate => last = None | ToExit _ => True
      end
  | Check sent _ _ => last = Some sent
  | Collect r _ | Producing r _ | Revalidate r _ | Submit r _ _ _ | Submitted r _ | Settle _ r =>
      last = Some (sent_at r)
  | Sleep next _ => ∀ t, last = Some t → t + hip_interval_secs policy ≤ next
  | Validate => ∀ t, last = Some t → t + hip_interval_secs policy ≤ now
  | Exited _ => True
  end.
Lemma pace_tick now last p : pace now last p → pace (now + 1) last p.
Proof. destruct p; cbn; try done. intros Hp t Ht. specialize (Hp t Ht). lia. Qed.
Lemma pace_resume now last k : pace now last (InGate Healthy k) → pace now last (resume k).
Proof.
  destruct k as [|r|e]; cbn; [by intros ->| |done]. intros ->. unfold schedule.
  destruct (checked_add INSTANT_MAX (sent_at r) (hip_interval_secs policy)) as [a|] eqn:E; [|done].
  cbn. destruct (checked_add INSTANT_MAX a (round_delay r)) as [b|] eqn:E'; [|done].
  apply checked_add_Some in E as [-> _], E' as [-> _]. cbn. intros t [= <-]. lia.
Qed.
Lemma member_pace now c h s p i p' evs last :
  pace now last p → member_step now c h s p i = Some (p', evs) →
  (check_times (session_server s) evs = [] ∧ pace now last p') ∨
  (evs = [Checking (session_server s) now] ∧ pace now (Some now) p' ∧
   ∀ t, last = Some t → t + hip_interval_secs policy ≤ now).
Proof.
  intros Hp Hs. member_cases Hs; try (destruct c); try (by left; split; [done|apply pace_resume]);
    try (by left).
  all: try (left; split; [by repeat case_match|]).
  all: try (unfold settle, checked, produced; repeat case_match; simplify_eq/=; done).
  all: try (by right).
  all: destruct (N.leb_spec next_check now); cbn in *; [|done]; intros t Ht; specialize (Hp t Ht); lia.
Qed.
Definition pace_inv (s : System) : Prop :=
  (∀ v, paced (check_times v (log s))) ∧
  ∀ w p, (w, p) ∈ workers s → pace (clock s) (list.last (check_times (session_server w) (log s))) p.
Lemma check_times_app v l l' : check_times v (l ++ l') = check_times v l ++ check_times v l'.
Proof. apply omap_app. Qed.
Lemma check_times_other v evs : Forall (λ e, event_server e ≠ v) evs → check_times v evs = [].
Proof.
  induction 1 as [|e evs He _ IH]; [done|]. unfold check_times in *. cbn. rewrite IH.
  destruct e as [|w t| | |]; try done. cbn in *. by destruct (String.eqb_spec w v).
Qed.
Lemma pace_inv_member s i w p p' evs input :
  NoDup (servers s) → pace_inv s → workers s !! i = Some (w, p) →
  member_step (clock s) (workers_stopped s) (held s) w p input = Some (p', evs) →
  pace_inv (emit evs (with_workers (<[i := (w, p')]> (workers s)) s)).
Proof.
  intros Hn [Hl Hp] Hi Hm. pose proof (Hp w p (list_elem_of_lookup_2 _ _ _ Hi)) as Hw.
  destruct (member_events _ _ _ _ _ _ _ _ Hm) as [He _].
  assert (∀ v, session_server w ≠ v → check_times v evs = []) as Hother.
  { intros v Hv. apply check_times_other. eapply list.Forall_impl; [exact He|]. by intros e [-> _]. }
  pose proof (member_pace _ _ _ _ _ _ _ _ _ Hw Hm) as Hpace.
  split; cbn [log emit with_workers workers clock].
  - intros v. rewrite check_times_app. destruct (decide (session_server w = v)) as [<-|Hv].
    + destruct Hpace as [[-> _]|(-> & _ & Hlast)]; [by rewrite app_nil_r|].
      cbn. rewrite String.eqb_refl. by apply paced_snoc.
    + by rewrite (Hother v Hv), app_nil_r.
  - intros w' q [j Hj]%list_elem_of_lookup_1. rewrite check_times_app. destruct (decide (i = j)) as [<-|Hij].
    + rewrite list_lookup_insert_eq in Hj by (by eapply lookup_lt_Some). simplify_eq.
      destruct Hpace as [[-> Hq]|(-> & Hq & _)]; [by rewrite app_nil_r|].
      cbn. by rewrite String.eqb_refl, last_snoc.
    + rewrite list_lookup_insert_ne in Hj by done. rewrite Hother, app_nil_r.
      * apply Hp. by eapply list_elem_of_lookup_2.
      * intros E. apply Hij. eapply (NoDup_lookup _ _ _ _ Hn); unfold servers; rewrite list_lookup_fmap;
          [by rewrite Hi|rewrite Hj; cbn; by rewrite E].
Qed.
(** Every other step leaves the checks alone and keeps or ends workers. *)
Lemma pace_inv_frame s s' : pace_inv s →
  (∀ v, check_times v (log s') = check_times v (log s)) →
  (∀ x, x ∈ workers s' → x ∈ workers s) → (clock s' = clock s ∨ clock s' = clock s + 1) → pace_inv s'.
Proof.
  intros [Hl Hp] Hlog Hw Hc. split; intros v; [rewrite Hlog; apply Hl|]. intros p Hin.
  rewrite Hlog. specialize (Hp v p (Hw _ Hin)). destruct Hc as [->| ->]; [done|by apply pace_tick].
Qed.
Lemma pace_inv_step all l s s' : ledger_inv all s → pace_inv s → step l s = Some s' → pace_inv s'.
Proof.
  intros Hl Hp Hs. destruct l; cbn in Hs; simplify_eq;
    try (eapply pace_inv_frame; [done|done|done|by auto]).
  - destruct (workers s !! i) as [[w p]|] eqn:Hi; [|done]. cbn in Hs.
    destruct (member_step _ _ _ _ _ _) as [[p' evs]|] eqn:Em; [|done]. cbn in Hs. simplify_eq.
    eapply pace_inv_member; try done. apply Hl.
  - unfold owner_runs in Hs. repeat case_match; simplify_eq;
      eapply pace_inv_frame; try done; try (by auto).
    intros v. cbn [log with_owner emit with_workers logout_gateway]. rewrite check_times_app. assert (∀ l, check_times v
      ((λ m, StatusChanged (member_summary m MaintenanceRejected)) <$> l) = []) as ->;
      [|by rewrite app_nil_r]. by induction l.
  - repeat case_match; simplify_eq. eapply pace_inv_frame; try done; by auto.
  - unfold joined in Hs. destruct (workers s !! i) as [[w p]|] eqn:Hi; [|done].
    assert (∀ x, x ∈ delete i (workers s) → x ∈ workers s) as Hsub.
    { intros x Hx. rewrite (delete_Permutation _ _ _ Hi). by right. }
    repeat case_match; simplify_eq; (eapply pace_inv_frame; [done| |done|by auto]); try done.
    intros v. cbn [log with_owner emit with_workers logout_gateway]. rewrite check_times_app. destruct (taken _ _); cbn; by rewrite app_nil_r.
  - repeat case_match; simplify_eq; eapply pace_inv_frame; try done; by auto.
Qed.

(** No gateway is checked more often than the policy allows: in every run, two
    consecutive checks of one gateway begin at least the policy's interval apart. *)
Lemma nontunnel_checks_paced all now s0 ls server :
  NoDup (session_server <$> all) → start all now = Ok s0 →
  ∀ i t u, check_times server (log (runs advance s0 ls)) !! i = Some t →
    check_times server (log (runs advance s0 ls)) !! S i = Some u →
    t + hip_interval_secs policy ≤ u.
Proof.
  intros Hn Hstart. cut (ledger_inv all (runs advance s0 ls) ∧ pace_inv (runs advance s0 ls)).
  { intros [_ [Hp _]]. apply Hp. }
  apply (runs_invariant advance (λ s, ledger_inv all s ∧ pace_inv s)).
  - intros s l [Hl Hp]. unfold advance. destruct (step l s) as [x|] eqn:E; [|done].
    split; [by eapply ledger_inv_step|by eapply pace_inv_step].
  - split; [by eapply ledger_inv_start|]. apply start_Ok in Hstart as ->. split; cbn; [by intros v []|].
    by intros w p (x & [= -> ->] & _)%list_elem_of_fmap.
Qed.
End member.

(** * Concrete runs *)
Module MaintenanceExample.
Import XmlExample.
Definition check_doc : Element := element "response" ∅ [leaf "hip-report-needed" "no"; leaf "delay" "2"].
#[local] Instance docs : Xmltree := xml [("<response/>", check_doc)].
#[local] Instance forms : UrlCrate := LoginExample.forms.
#[local] Instance strings : SerdeJson string := {| to_vec s := Some s; from_slice s := Some s |}.
Definition session (address : string) : GatewaySession := {|
  session_gateway := gateway_new "" address;
  session_transport := {|
    transport_origin := Concrete.gateway_url;
    transport_authentication := {| cookie := "authcookie=c&user=u"; connection_type := "notunnel" |};
    transport_profile := CredentialExample.profile |};
  session_addresses := {| addr_ipv4 := Some 167772161; addr_ipv6 := None |} |}.
Definition members : GatewaySessions := [session "a.example"; session "b.example"].
Definition policy : InternalSessionPolicy := {| hip_interval_secs := 3; collect_hip_data := true |}.
Definition begun : System := {|
  cancellation := false; workers_cancel := false; ledger := members;
  workers := (λ s, (s, Status Session.Authenticated ToValidate)) <$> members;
  owner := PollCancelled; log := []; clock := 0 |}.
Definition md5 (s : string) : list N := [slen s].
Definition run (ls : list Label) : System :=
  runs (advance md5 (λ _, None) u32_max policy) begun ls.
Definition healthy : Input :=
  Answer (Ok {| answer_status := 200; globalprotect_header := None; answer_length := None;
                answer_chunks := [Ok "<response/>"] |}).
Definition expired : Input :=
  Answer (Ok {| answer_status := 512; globalprotect_header := None; answer_length := None;
                answer_chunks := [] |}).
Definition rejected : Input :=
  Answer (Ok {| answer_status := 500; globalprotect_header := None; answer_length := None;
                answer_chunks := [] |}).
(** A worker that published its state and whose check is answered. *)
Definition checks (i : nat) (a : Input) : list Label :=
  Member i <$> [Go; Go; Go; NetworkValid true; Go; Go; Go; a; Go].
Definition publishes (i : nat) : list Label := Member i <$> [Go; Go; Go].
(** The first gateway refuses the session and is logged out; the cookie of the second is
    refused while it publishes. *)
Definition failing : list Label :=
  checks 0 rejected ++ publishes 0 ++ [OwnerRuns; OwnerRuns; Joined 0; LogoutDone] ++
  checks 0 expired ++ publishes 0 ++ [OwnerRuns; OwnerRuns; Joined 0; OwnerRuns; OwnerRuns; OwnerRuns].
Example failing_run : owner (run failing) = Returned (Ok (Failed InvalidCookie)) ∧
  length (log (run failing)) = 10%nat.
Proof. by vm_compute. Qed.
Lemma members_distinct : NoDup (session_server <$> members).
Proof. apply (bool_decide_unpack (NoDup _)). by vm_compute. Qed.
Lemma nontunnel_failure_is_published_witness :
  last_status "a.example" (log (run failing)) = Some MaintenanceRejected ∧
  last_status "b.example" (log (run failing)) = Some MaintenanceRejected.
Proof.
  pose proof (nontunnel_failure_is_published md5 (λ _, None) u32_max policy members 0 begun failing
    InvalidCookie members_distinct eq_refl ltac:(by vm_compute)) as Hp.
  split; [apply (Hp (session "a.example"))|apply (Hp (session "b.example"))]; repeat constructor.
Defined.
Lemma nontunnel_logout_once_witness :
  logged_out (log (run failing)) ++ ledger (run failing) ≡ₚ members ∧
  session_server <$> logged_out (log (run failing)) = ["a.example"].
Proof.
  split; [|by vm_compute].
  apply (nontunnel_logout_once md5 (λ _, None) u32_max policy members 0 begun failing
    members_distinct eq_refl).
Defined.
(** The caller cancels while the first gateway's check is on its way. *)
Definition cancelled : list Label := take 6 (checks 0 healthy) ++ [Cancel].
Lemma nontunnel_returns_witness :
  ∃ ls s, follow md5 (λ _, None) u32_max policy ls (run cancelled) = Some s ∧
    forallb is_work ls = true ∧ returned s = true.
Proof.
  pose proof (nontunnel_returns md5 (λ _, None) u32_max policy members 0 begun cancelled
    members_distinct eq_refl) as [Hr _].
  apply Hr. by vm_compute.
Defined.
(** The gateway asks for two more seconds, and is checked again after five. *)
Definition twice : list Label := checks 0 healthy ++ publishes 0 ++ replicate 5 Tick ++
  [Member 0 Go; Member 0 Go; Member 0 (NetworkValid true)].
Lemma nontunnel_checks_paced_witness :
  check_times "a.example" (log (run twice)) = [0; 5] ∧ 0 + 3 ≤ 5.
Proof.
  split; [by vm_compute|].
  apply (nontunnel_checks_paced md5 (λ _, None) u32_max policy members 0 begun twice "a.example"
    members_distinct eq_refl 0); by vm_compute.
Defined.
End MaintenanceExample.
