(* ===== verification/Service.v ===== *)
(** The service's data and messages (crates/gpapi/src/service/*.rs, hip.rs,
    script_tun.rs): connect requests, VPN
    states, the client and server messages and the script-tun control channel. *)
From S2P Require Import Prelude Utf8 Text ThirdParty ClientProfile Transport Tunnel Session.
From Stdlib Require Import Strings.Ascii.

#[local] Open Scope N_scope.

(** * HIP sources (hip.rs) *)
Inductive HipSource :=
  | Disabled
  | Generated
  | Edited (report_id : string)
  | UserScript (path : string)
  | ApprovedRootScript (approval_id : string).
Inductive HipApprovalStatus := Valid | Revoked | Corrupt | OtherUser.

(** * Script-tun (script_tun.rs) *)
Record Identity := { service_instance : Uuid; id_attempt : N; id_launch : Uuid }.

(** The base64 text. *)
Record Bootstrap := { bootstrap_text : string }.
Definition bootstrap_default : Bootstrap := {| bootstrap_text := "" |}.

(** [program] is the bytes of the path. *)
Record ScriptTunRequest := {
  launch_id : Uuid;
  program : string;
  script_args : list string;
  bootstrap : Bootstrap;
}.

Inductive PacketDelivery := System | ScriptTun (request : ScriptTunRequest).
Inductive PacketDeliveryKind := KindSystem | KindScriptTun.
#[export] Instance PacketDeliveryKind_eq_dec : EqDecision PacketDeliveryKind.
Proof. solve_decision. Defined.
Definition packet_delivery_kind (p : PacketDelivery) : PacketDeliveryKind :=
  match p with System => KindSystem | ScriptTun _ => KindScriptTun end.

Section bootstrap.
Context `{Base64}.

Definition bootstrap_new (bytes : string) : result string Bootstrap :=
_ ← ensure (slen bytes <=? 16 * 1024) "Script-tun bootstrap too large";
Ok {| bootstrap_text := base64_encode bytes |}.

Definition bootstrap_decode (b : Bootstrap) : result string string :=
_ ← ensure (slen (bootstrap_text b) <=? 21848) "Script-tun bootstrap too large";
bytes ← ok_or "base64" (base64_decode (bootstrap_text b));
_ ← ensure (slen bytes <=? 16 * 1024) "Script-tun bootstrap too large";
Ok bytes.

Definition path_is_absolute (path : string) : bool := String.prefix "/" path.
Definition path_to_str (path : string) : option string :=
if utf8b (String.length path) path then Some path else None.

Definition total_len (l : list string) : N := fold_left (λ n s, n + slen s) l 0.

Definition script_tun_validate (r : ScriptTunRequest) : result string () :=
program ← ok_or "Executable path must be UTF-8" (path_to_str (program r));
_ ← ensure (path_is_absolute program && negb (contains_nul program))
  "Script-tun requires an absolute executable path";
_ ← ensure (bool_decide (length (script_args r) ≤ 64)%nat &&
            forallb (λ a, negb (contains_nul a)) (script_args r) &&
            (slen program + total_len (script_args r) <=? 16 * 1024))
  "Invalid script-tun arguments";
_ ← bootstrap_decode (bootstrap r);
Ok ().
End bootstrap.

(** The control messages between gpservice and the script, and their framing: a
    big-endian 32-bit length and the JSON. A stream is the bytes still to come. *)
Record NegotiatedNetwork := {
  net_addresses : list IpAddr;
  net_dns : list IpAddr;
  net_search : list string;
  net_mtu : N;
}.
Module Control.
Inductive Message :=
| Configure (identity : Identity) (network : NegotiatedNetwork) (bootstrap : Bootstrap)
| Ready
| Activate
| Activated
| Suspend
| Suspended
| Stop
| Error (message : string).

Definition MAX_MESSAGE : N := 60 * 1024.

Definition u32_to_be_bytes (n : N) : string :=
String (ascii_of_N (n / 2 ^ 24 mod 256)) (String (ascii_of_N (n / 2 ^ 16 mod 256))
  (String (ascii_of_N (n / 2 ^ 8 mod 256)) (String (ascii_of_N (n mod 256)) ""))).

(** [None] is an error. *)
Definition send `{SerdeJson Message} (message : Message) : option string :=
bytes ← to_vec message;
if MAX_MESSAGE <? slen bytes then None
else Some (u32_to_be_bytes (slen bytes) +:+ bytes).

(** The message and the rest of the stream. *)
Definition receive `{SerdeJson Message} (stream : string) : option (Message * string) :=
match stream with
| String a (String b (String c (String d rest))) =>
    let len := byte_val a * 2 ^ 24 + byte_val b * 2 ^ 16 + byte_val c * 2 ^ 8 + byte_val d in
    if MAX_MESSAGE <? len then None
    else if slen rest <? len then None
    else
      message ← from_slice (slice rest 0 len);
      Some (message, slice rest len (slen rest))
| _ => None
end.
End Control.

(** * Connect requests (service/request.rs) *)
Definition MAX_CLIENT_IDENTITY_DATA : N := 32 * 1024.

Record ConnectArgs := {
  arg_packet_delivery : PacketDelivery;
  arg_vpnc_script : option string;
  arg_host_identity : option HostIdentity;
  arg_ignore_tls_errors : bool;
  arg_user_agent : option string;
  arg_os : option ClientOs;
  arg_os_version : option string;
  arg_client_version : option string;
  arg_host_id : option string;
  arg_certificate : option string;
  arg_sslkey : option string;
  arg_certificate_data : option string;
  arg_sslkey_data : option string;
  arg_key_password : option string;
  arg_hip_source : HipSource;
  arg_reconnect_timeout : N;
  arg_mtu : N;
  arg_disable_ipv6 : bool;
  arg_gateway_ip_preference : IpPreference.t;
  arg_no_dtls : bool;
  arg_local_hostname : option string;
  arg_force_dpd : N;
  arg_no_xmlpost : bool;
  arg_allow_extend_session : bool;
}.

Definition connect_args_new : ConnectArgs := {|
  arg_packet_delivery := System; arg_vpnc_script := None; arg_host_identity := None;
  arg_ignore_tls_errors := false; arg_user_agent := None; arg_os := None;
  arg_os_version := None; arg_client_version := None; arg_host_id := None;
  arg_certificate := None; arg_sslkey := None; arg_certificate_data := None;
  arg_sslkey_data := None; arg_key_password := None; arg_hip_source := Disabled;
  arg_reconnect_timeout := 300; arg_mtu := 0; arg_disable_ipv6 := false;
  arg_gateway_ip_preference := IpPreference.Auto; arg_no_dtls := false;
  arg_local_hostname := None; arg_force_dpd := 0; arg_no_xmlpost := false;
  arg_allow_extend_session := false;
|}.

(** Field updates. *)
Definition set_arg_packet_delivery (v : PacketDelivery) (s : ConnectArgs) : ConnectArgs := {|
  arg_packet_delivery := v; arg_vpnc_script := arg_vpnc_script s;
  arg_host_identity := arg_host_identity s;
  arg_ignore_tls_errors := arg_ignore_tls_errors s; arg_user_agent := arg_user_agent s;
  arg_os := arg_os s; arg_os_version := arg_os_version s;
  arg_client_version := arg_client_version s; arg_host_id := arg_host_id s;
  arg_certificate := arg_certificate s; arg_sslkey := arg_sslkey s;
  arg_certificate_data := arg_certificate_data s; arg_sslkey_data := arg_sslkey_data s;
  arg_key_password := arg_key_password s; arg_hip_source := arg_hip_source s;
  arg_reconnect_timeout := arg_reconnect_timeout s; arg_mtu := arg_mtu s;
  arg_disable_ipv6 := arg_disable_ipv6 s;
  arg_gateway_ip_preference := arg_gateway_ip_preference s;
  arg_no_dtls := arg_no_dtls s; arg_local_hostname := arg_local_hostname s;
  arg_force_dpd := arg_force_dpd s; arg_no_xmlpost := arg_no_xmlpost s;
  arg_allow_extend_session := arg_allow_extend_session s
|}.
Definition set_arg_vpnc_script (v : option string) (s : ConnectArgs) : ConnectArgs := {|
  arg_packet_delivery := arg_packet_delivery s; arg_vpnc_script := v;
  arg_host_identity := arg_host_identity s;
  arg_ignore_tls_errors := arg_ignore_tls_errors s; arg_user_agent := arg_user_agent s;
  arg_os := arg_os s; arg_os_version := arg_os_version s;
  arg_client_version := arg_client_version s; arg_host_id := arg_host_id s;
  arg_certificate := arg_certificate s; arg_sslkey := arg_sslkey s;
  arg_certificate_data := arg_certificate_data s; arg_sslkey_data := arg_sslkey_data s;
  arg_key_password := arg_key_password s; arg_hip_source := arg_hip_source s;
  arg_reconnect_timeout := arg_reconnect_timeout s; arg_mtu := arg_mtu s;
  arg_disable_ipv6 := arg_disable_ipv6 s;
  arg_gateway_ip_preference := arg_gateway_ip_preference s;
  arg_no_dtls := arg_no_dtls s; arg_local_hostname := arg_local_hostname s;
  arg_force_dpd := arg_force_dpd s; arg_no_xmlpost := arg_no_xmlpost s;
  arg_allow_extend_session := arg_allow_extend_session s
|}.
Definition set_arg_host_identity (v : option HostIdentity) (s : ConnectArgs) : ConnectArgs := {|
  arg_packet_delivery := arg_packet_delivery s; arg_vpnc_script := arg_vpnc_script s;
  arg_host_identity := v; arg_ignore_tls_errors := arg_ignore_tls_errors s;
  arg_user_agent := arg_user_agent s; arg_os := arg_os s;
  arg_os_version := arg_os_version s; arg_client_version := arg_client_version s;
  arg_host_id := arg_host_id s; arg_certificate := arg_certificate s;
  arg_sslkey := arg_sslkey s; arg_certificate_data := arg_certificate_data s;
  arg_sslkey_data := arg_sslkey_data s; arg_key_password := arg_key_password s;
  arg_hip_source := arg_hip_source s; arg_reconnect_timeout := arg_reconnect_timeout s;
  arg_mtu := arg_mtu s; arg_disable_ipv6 := arg_disable_ipv6 s;
  arg_gateway_ip_preference := arg_gateway_ip_preference s;
  arg_no_dtls := arg_no_dtls s; arg_local_hostname := arg_local_hostname s;
  arg_force_dpd := arg_force_dpd s; arg_no_xmlpost := arg_no_xmlpost s;
  arg_allow_extend_session := arg_allow_extend_session s
|}.
Definition set_arg_ignore_tls_errors (v : bool) (s : ConnectArgs) : ConnectArgs := {|
  arg_packet_delivery := arg_packet_delivery s; arg_vpnc_script := arg_vpnc_script s;
  arg_host_identity := arg_host_identity s; arg_ignore_tls_errors := v;
  arg_user_agent := arg_user_agent s; arg_os := arg_os s;
  arg_os_version := arg_os_version s; arg_client_version := arg_client_version s;
  arg_host_id := arg_host_id s; arg_certificate := arg_certificate s;
  arg_sslkey := arg_sslkey s; arg_certificate_data := arg_certificate_data s;
  arg_sslkey_data := arg_sslkey_data s; arg_key_password := arg_key_password s;
  arg_hip_source := arg_hip_source s; arg_reconnect_timeout := arg_reconnect_timeout s;
  arg_mtu := arg_mtu s; arg_disable_ipv6 := arg_disable_ipv6 s;
  arg_gateway_ip_preference := arg_gateway_ip_preference s;
  arg_no_dtls := arg_no_dtls s; arg_local_hostname := arg_local_hostname s;
  arg_force_dpd := arg_force_dpd s; arg_no_xmlpost := arg_no_xmlpost s;
  arg_allow_extend_session := arg_allow_extend_session s
|}.
Definition set_arg_user_agent (v : option string) (s : ConnectArgs) : ConnectArgs := {|
  arg_packet_delivery := arg_packet_delivery s; arg_vpnc_script := arg_vpnc_script s;
  arg_host_identity := arg_host_identity s;
  arg_ignore_tls_errors := arg_ignore_tls_errors s; arg_user_agent := v;
  arg_os := arg_os s; arg_os_version := arg_os_version s;
  arg_client_version := arg_client_version s; arg_host_id := arg_host_id s;
  arg_certificate := arg_certificate s; arg_sslkey := arg_sslkey s;
  arg_certificate_data := arg_certificate_data s; arg_sslkey_data := arg_sslkey_data s;
  arg_key_password := arg_key_password s; arg_hip_source := arg_hip_source s;
  arg_reconnect_timeout := arg_reconnect_timeout s; arg_mtu := arg_mtu s;
  arg_disable_ipv6 := arg_disable_ipv6 s;
  arg_gateway_ip_preference := arg_gateway_ip_preference s;
  arg_no_dtls := arg_no_dtls s; arg_local_hostname := arg_local_hostname s;
  arg_force_dpd := arg_force_dpd s; arg_no_xmlpost := arg_no_xmlpost s;
  arg_allow_extend_session := arg_allow_extend_session s
|}.
Definition set_arg_os (v : option ClientOs) (s : ConnectArgs) : ConnectArgs := {|
  arg_packet_delivery := arg_packet_delivery s; arg_vpnc_script := arg_vpnc_script s;
  arg_host_identity := arg_host_identity s;
  arg_ignore_tls_errors := arg_ignore_tls_errors s; arg_user_agent := arg_user_agent s;
  arg_os := v; arg_os_version := arg_os_version s;
  arg_client_version := arg_client_version s; arg_host_id := arg_host_id s;
  arg_certificate := arg_certificate s; arg_sslkey := arg_sslkey s;
  arg_certificate_data := arg_certificate_data s; arg_sslkey_data := arg_sslkey_data s;
  arg_key_password := arg_key_password s; arg_hip_source := arg_hip_source s;
  arg_reconnect_timeout := arg_reconnect_timeout s; arg_mtu := arg_mtu s;
  arg_disable_ipv6 := arg_disable_ipv6 s;
  arg_gateway_ip_preference := arg_gateway_ip_preference s;
  arg_no_dtls := arg_no_dtls s; arg_local_hostname := arg_local_hostname s;
  arg_force_dpd := arg_force_dpd s; arg_no_xmlpost := arg_no_xmlpost s;
  arg_allow_extend_session := arg_allow_extend_session s
|}.
Definition set_arg_os_version (v : option string) (s : ConnectArgs) : ConnectArgs := {|
  arg_packet_delivery := arg_packet_delivery s; arg_vpnc_script := arg_vpnc_script s;
  arg_host_identity := arg_host_identity s;
  arg_ignore_tls_errors := arg_ignore_tls_errors s; arg_user_agent := arg_user_agent s;
  arg_os := arg_os s; arg_os_version := v; arg_client_version := arg_client_version s;
  arg_host_id := arg_host_id s; arg_certificate := arg_certificate s;
  arg_sslkey := arg_sslkey s; arg_certificate_data := arg_certificate_data s;
  arg_sslkey_data := arg_sslkey_data s; arg_key_password := arg_key_password s;
  arg_hip_source := arg_hip_source s; arg_reconnect_timeout := arg_reconnect_timeout s;
  arg_mtu := arg_mtu s; arg_disable_ipv6 := arg_disable_ipv6 s;
  arg_gateway_ip_preference := arg_gateway_ip_preference s;
  arg_no_dtls := arg_no_dtls s; arg_local_hostname := arg_local_hostname s;
  arg_force_dpd := arg_force_dpd s; arg_no_xmlpost := arg_no_xmlpost s;
  arg_allow_extend_session := arg_allow_extend_session s
|}.
Definition set_arg_client_version (v : option string) (s : ConnectArgs) : ConnectArgs := {|
  arg_packet_delivery := arg_packet_delivery s; arg_vpnc_script := arg_vpnc_script s;
  arg_host_identity := arg_host_identity s;
  arg_ignore_tls_errors := arg_ignore_tls_errors s; arg_user_agent := arg_user_agent s;
  arg_os := arg_os s; arg_os_version := arg_os_version s; arg_client_version := v;
  arg_host_id := arg_host_id s; arg_certificate := arg_certificate s;
  arg_sslkey := arg_sslkey s; arg_certificate_data := arg_certificate_data s;
  arg_sslkey_data := arg_sslkey_data s; arg_key_password := arg_key_password s;
  arg_hip_source := arg_hip_source s; arg_reconnect_timeout := arg_reconnect_timeout s;
  arg_mtu := arg_mtu s; arg_disable_ipv6 := arg_disable_ipv6 s;
  arg_gateway_ip_preference := arg_gateway_ip_preference s;
  arg_no_dtls := arg_no_dtls s; arg_local_hostname := arg_local_hostname s;
  arg_force_dpd := arg_force_dpd s; arg_no_xmlpost := arg_no_xmlpost s;
  arg_allow_extend_session := arg_allow_extend_session s
|}.
Definition set_arg_host_id (v : option string) (s : ConnectArgs) : ConnectArgs := {|
  arg_packet_delivery := arg_packet_delivery s; arg_vpnc_script := arg_vpnc_script s;
  arg_host_identity := arg_host_identity s;
  arg_ignore_tls_errors := arg_ignore_tls_errors s; arg_user_agent := arg_user_agent s;
  arg_os := arg_os s; arg_os_version := arg_os_version s;
  arg_client_version := arg_client_version s; arg_host_id := v;
  arg_certificate := arg_certificate s; arg_sslkey := arg_sslkey s;
  arg_certificate_data := arg_certificate_data s; arg_sslkey_data := arg_sslkey_data s;
  arg_key_password := arg_key_password s; arg_hip_source := arg_hip_source s;
  arg_reconnect_timeout := arg_reconnect_timeout s; arg_mtu := arg_mtu s;
  arg_disable_ipv6 := arg_disable_ipv6 s;
  arg_gateway_ip_preference := arg_gateway_ip_preference s;
  arg_no_dtls := arg_no_dtls s; arg_local_hostname := arg_local_hostname s;
  arg_force_dpd := arg_force_dpd s; arg_no_xmlpost := arg_no_xmlpost s;
  arg_allow_extend_session := arg_allow_extend_session s
|}.
Definition set_arg_certificate (v : option string) (s : ConnectArgs) : ConnectArgs := {|
  arg_packet_delivery := arg_packet_delivery s; arg_vpnc_script := arg_vpnc_script s;
  arg_host_identity := arg_host_identity s;
  arg_ignore_tls_errors := arg_ignore_tls_errors s; arg_user_agent := arg_user_agent s;
  arg_os := arg_os s; arg_os_version := arg_os_version s;
  arg_client_version := arg_client_version s; arg_host_id := arg_host_id s;
  arg_certificate := v; arg_sslkey := arg_sslkey s;
  arg_certificate_data := arg_certificate_data s; arg_sslkey_data := arg_sslkey_data s;
  arg_key_password := arg_key_password s; arg_hip_source := arg_hip_source s;
  arg_reconnect_timeout := arg_reconnect_timeout s; arg_mtu := arg_mtu s;
  arg_disable_ipv6 := arg_disable_ipv6 s;
  arg_gateway_ip_preference := arg_gateway_ip_preference s;
  arg_no_dtls := arg_no_dtls s; arg_local_hostname := arg_local_hostname s;
  arg_force_dpd := arg_force_dpd s; arg_no_xmlpost := arg_no_xmlpost s;
  arg_allow_extend_session := arg_allow_extend_session s
|}.
Definition set_arg_sslkey (v : option string) (s : ConnectArgs) : ConnectArgs := {|
  arg_packet_delivery := arg_packet_delivery s; arg_vpnc_script := arg_vpnc_script s;
  arg_host_identity := arg_host_identity s;
  arg_ignore_tls_errors := arg_ignore_tls_errors s; arg_user_agent := arg_user_agent s;
  arg_os := arg_os s; arg_os_version := arg_os_version s;
  arg_client_version := arg_client_version s; arg_host_id := arg_host_id s;
  arg_certificate := arg_certificate s; arg_sslkey := v;
  arg_certificate_data := arg_certificate_data s; arg_sslkey_data := arg_sslkey_data s;
  arg_key_password := arg_key_password s; arg_hip_source := arg_hip_source s;
  arg_reconnect_timeout := arg_reconnect_timeout s; arg_mtu := arg_mtu s;
  arg_disable_ipv6 := arg_disable_ipv6 s;
  arg_gateway_ip_preference := arg_gateway_ip_preference s;
  arg_no_dtls := arg_no_dtls s; arg_local_hostname := arg_local_hostname s;
  arg_force_dpd := arg_force_dpd s; arg_no_xmlpost := arg_no_xmlpost s;
  arg_allow_extend_session := arg_allow_extend_session s
|}.
Definition set_arg_certificate_data (v : option string) (s : ConnectArgs) : ConnectArgs := {|
  arg_packet_delivery := arg_packet_delivery s; arg_vpnc_script := arg_vpnc_script s;
  arg_host_identity := arg_host_identity s;
  arg_ignore_tls_errors := arg_ignore_tls_errors s; arg_user_agent := arg_user_agent s;
  arg_os := arg_os s; arg_os_version := arg_os_version s;
  arg_client_version := arg_client_version s; arg_host_id := arg_host_id s;
  arg_certificate := arg_certificate s; arg_sslkey := arg_sslkey s;
  arg_certificate_data := v; arg_sslkey_data := arg_sslkey_data s;
  arg_key_password := arg_key_password s; arg_hip_source := arg_hip_source s;
  arg_reconnect_timeout := arg_reconnect_timeout s; arg_mtu := arg_mtu s;
  arg_disable_ipv6 := arg_disable_ipv6 s;
  arg_gateway_ip_preference := arg_gateway_ip_preference s;
  arg_no_dtls := arg_no_dtls s; arg_local_hostname := arg_local_hostname s;
  arg_force_dpd := arg_force_dpd s; arg_no_xmlpost := arg_no_xmlpost s;
  arg_allow_extend_session := arg_allow_extend_session s
|}.
Definition set_arg_sslkey_data (v : option string) (s : ConnectArgs) : ConnectArgs := {|
  arg_packet_delivery := arg_packet_delivery s; arg_vpnc_script := arg_vpnc_script s;
  arg_host_identity := arg_host_identity s;
  arg_ignore_tls_errors := arg_ignore_tls_errors s; arg_user_agent := arg_user_agent s;
  arg_os := arg_os s; arg_os_version := arg_os_version s;
  arg_client_version := arg_client_version s; arg_host_id := arg_host_id s;
  arg_certificate := arg_certificate s; arg_sslkey := arg_sslkey s;
  arg_certificate_data := arg_certificate_data s; arg_sslkey_data := v;
  arg_key_password := arg_key_password s; arg_hip_source := arg_hip_source s;
  arg_reconnect_timeout := arg_reconnect_timeout s; arg_mtu := arg_mtu s;
  arg_disable_ipv6 := arg_disable_ipv6 s;
  arg_gateway_ip_preference := arg_gateway_ip_preference s;
  arg_no_dtls := arg_no_dtls s; arg_local_hostname := arg_local_hostname s;
  arg_force_dpd := arg_force_dpd s; arg_no_xmlpost := arg_no_xmlpost s;
  arg_allow_extend_session := arg_allow_extend_session s
|}.
Definition set_arg_key_password (v : option string) (s : ConnectArgs) : ConnectArgs := {|
  arg_packet_delivery := arg_packet_delivery s; arg_vpnc_script := arg_vpnc_script s;
  arg_host_identity := arg_host_identity s;
  arg_ignore_tls_errors := arg_ignore_tls_errors s; arg_user_agent := arg_user_agent s;
  arg_os := arg_os s; arg_os_version := arg_os_version s;
  arg_client_version := arg_client_version s; arg_host_id := arg_host_id s;
  arg_certificate := arg_certificate s; arg_sslkey := arg_sslkey s;
  arg_certificate_data := arg_certificate_data s; arg_sslkey_data := arg_sslkey_data s;
  arg_key_password := v; arg_hip_source := arg_hip_source s;
  arg_reconnect_timeout := arg_reconnect_timeout s; arg_mtu := arg_mtu s;
  arg_disable_ipv6 := arg_disable_ipv6 s;
  arg_gateway_ip_preference := arg_gateway_ip_preference s;
  arg_no_dtls := arg_no_dtls s; arg_local_hostname := arg_local_hostname s;
  arg_force_dpd := arg_force_dpd s; arg_no_xmlpost := arg_no_xmlpost s;
  arg_allow_extend_session := arg_allow_extend_session s
|}.
Definition set_arg_hip_source (v : HipSource) (s : ConnectArgs) : ConnectArgs := {|
  arg_packet_delivery := arg_packet_delivery s; arg_vpnc_script := arg_vpnc_script s;
  arg_host_identity := arg_host_identity s;
  arg_ignore_tls_errors := arg_ignore_tls_errors s; arg_user_agent := arg_user_agent s;
  arg_os := arg_os s; arg_os_version := arg_os_version s;
  arg_client_version := arg_client_version s; arg_host_id := arg_host_id s;
  arg_certificate := arg_certificate s; arg_sslkey := arg_sslkey s;
  arg_certificate_data := arg_certificate_data s; arg_sslkey_data := arg_sslkey_data s;
  arg_key_password := arg_key_password s; arg_hip_source := v;
  arg_reconnect_timeout := arg_reconnect_timeout s; arg_mtu := arg_mtu s;
  arg_disable_ipv6 := arg_disable_ipv6 s;
  arg_gateway_ip_preference := arg_gateway_ip_preference s;
  arg_no_dtls := arg_no_dtls s; arg_local_hostname := arg_local_hostname s;
  arg_force_dpd := arg_force_dpd s; arg_no_xmlpost := arg_no_xmlpost s;
  arg_allow_extend_session := arg_allow_extend_session s
|}.
Definition set_arg_reconnect_timeout (v : N) (s : ConnectArgs) : ConnectArgs := {|
  arg_packet_delivery := arg_packet_delivery s; arg_vpnc_script := arg_vpnc_script s;
  arg_host_identity := arg_host_identity s;
  arg_ignore_tls_errors := arg_ignore_tls_errors s; arg_user_agent := arg_user_agent s;
  arg_os := arg_os s; arg_os_version := arg_os_version s;
  arg_client_version := arg_client_version s; arg_host_id := arg_host_id s;
  arg_certificate := arg_certificate s; arg_sslkey := arg_sslkey s;
  arg_certificate_data := arg_certificate_data s; arg_sslkey_data := arg_sslkey_data s;
  arg_key_password := arg_key_password s; arg_hip_source := arg_hip_source s;
  arg_reconnect_timeout := v; arg_mtu := arg_mtu s;
  arg_disable_ipv6 := arg_disable_ipv6 s;
  arg_gateway_ip_preference := arg_gateway_ip_preference s;
  arg_no_dtls := arg_no_dtls s; arg_local_hostname := arg_local_hostname s;
  arg_force_dpd := arg_force_dpd s; arg_no_xmlpost := arg_no_xmlpost s;
  arg_allow_extend_session := arg_allow_extend_session s
|}.
Definition set_arg_mtu (v : N) (s : ConnectArgs) : ConnectArgs := {|
  arg_packet_delivery := arg_packet_delivery s; arg_vpnc_script := arg_vpnc_script s;
  arg_host_identity := arg_host_identity s;
  arg_ignore_tls_errors := arg_ignore_tls_errors s; arg_user_agent := arg_user_agent s;
  arg_os := arg_os s; arg_os_version := arg_os_version s;
  arg_client_version := arg_client_version s; arg_host_id := arg_host_id s;
  arg_certificate := arg_certificate s; arg_sslkey := arg_sslkey s;
  arg_certificate_data := arg_certificate_data s; arg_sslkey_data := arg_sslkey_data s;
  arg_key_password := arg_key_password s; arg_hip_source := arg_hip_source s;
  arg_reconnect_timeout := arg_reconnect_timeout s; arg_mtu := v;
  arg_disable_ipv6 := arg_disable_ipv6 s;
  arg_gateway_ip_preference := arg_gateway_ip_preference s;
  arg_no_dtls := arg_no_dtls s; arg_local_hostname := arg_local_hostname s;
  arg_force_dpd := arg_force_dpd s; arg_no_xmlpost := arg_no_xmlpost s;
  arg_allow_extend_session := arg_allow_extend_session s
|}.
Definition set_arg_disable_ipv6 (v : bool) (s : ConnectArgs) : ConnectArgs := {|
  arg_packet_delivery := arg_packet_delivery s; arg_vpnc_script := arg_vpnc_script s;
  arg_host_identity := arg_host_identity s;
  arg_ignore_tls_errors := arg_ignore_tls_errors s; arg_user_agent := arg_user_agent s;
  arg_os := arg_os s; arg_os_version := arg_os_version s;
  arg_client_version := arg_client_version s; arg_host_id := arg_host_id s;
  arg_certificate := arg_certificate s; arg_sslkey := arg_sslkey s;
  arg_certificate_data := arg_certificate_data s; arg_sslkey_data := arg_sslkey_data s;
  arg_key_password := arg_key_password s; arg_hip_source := arg_hip_source s;
  arg_reconnect_timeout := arg_reconnect_timeout s; arg_mtu := arg_mtu s;
  arg_disable_ipv6 := v; arg_gateway_ip_preference := arg_gateway_ip_preference s;
  arg_no_dtls := arg_no_dtls s; arg_local_hostname := arg_local_hostname s;
  arg_force_dpd := arg_force_dpd s; arg_no_xmlpost := arg_no_xmlpost s;
  arg_allow_extend_session := arg_allow_extend_session s
|}.
Definition set_arg_gateway_ip_preference (v : IpPreference.t) (s : ConnectArgs) : ConnectArgs := {|
  arg_packet_delivery := arg_packet_delivery s; arg_vpnc_script := arg_vpnc_script s;
  arg_host_identity := arg_host_identity s;
  arg_ignore_tls_errors := arg_ignore_tls_errors s; arg_user_agent := arg_user_agent s;
  arg_os := arg_os s; arg_os_version := arg_os_version s;
  arg_client_version := arg_client_version s; arg_host_id := arg_host_id s;
  arg_certificate := arg_certificate s; arg_sslkey := arg_sslkey s;
  arg_certificate_data := arg_certificate_data s; arg_sslkey_data := arg_sslkey_data s;
  arg_key_password := arg_key_password s; arg_hip_source := arg_hip_source s;
  arg_reconnect_timeout := arg_reconnect_timeout s; arg_mtu := arg_mtu s;
  arg_disable_ipv6 := arg_disable_ipv6 s; arg_gateway_ip_preference := v;
  arg_no_dtls := arg_no_dtls s; arg_local_hostname := arg_local_hostname s;
  arg_force_dpd := arg_force_dpd s; arg_no_xmlpost := arg_no_xmlpost s;
  arg_allow_extend_session := arg_allow_extend_session s
|}.
Definition set_arg_no_dtls (v : bool) (s : ConnectArgs) : ConnectArgs := {|
  arg_packet_delivery := arg_packet_delivery s; arg_vpnc_script := arg_vpnc_script s;
  arg_host_identity := arg_host_identity s;
  arg_ignore_tls_errors := arg_ignore_tls_errors s; arg_user_agent := arg_user_agent s;
  arg_os := arg_os s; arg_os_version := arg_os_version s;
  arg_client_version := arg_client_version s; arg_host_id := arg_host_id s;
  arg_certificate := arg_certificate s; arg_sslkey := arg_sslkey s;
  arg_certificate_data := arg_certificate_data s; arg_sslkey_data := arg_sslkey_data s;
  arg_key_password := arg_key_password s; arg_hip_source := arg_hip_source s;
  arg_reconnect_timeout := arg_reconnect_timeout s; arg_mtu := arg_mtu s;
  arg_disable_ipv6 := arg_disable_ipv6 s;
  arg_gateway_ip_preference := arg_gateway_ip_preference s; arg_no_dtls := v;
  arg_local_hostname := arg_local_hostname s; arg_force_dpd := arg_force_dpd s;
  arg_no_xmlpost := arg_no_xmlpost s;
  arg_allow_extend_session := arg_allow_extend_session s
|}.
Definition set_arg_local_hostname (v : option string) (s : ConnectArgs) : ConnectArgs := {|
  arg_packet_delivery := arg_packet_delivery s; arg_vpnc_script := arg_vpnc_script s;
  arg_host_identity := arg_host_identity s;
  arg_ignore_tls_errors := arg_ignore_tls_errors s; arg_user_agent := arg_user_agent s;
  arg_os := arg_os s; arg_os_version := arg_os_version s;
  arg_client_version := arg_client_version s; arg_host_id := arg_host_id s;
  arg_certificate := arg_certificate s; arg_sslkey := arg_sslkey s;
  arg_certificate_data := arg_certificate_data s; arg_sslkey_data := arg_sslkey_data s;
  arg_key_password := arg_key_password s; arg_hip_source := arg_hip_source s;
  arg_reconnect_timeout := arg_reconnect_timeout s; arg_mtu := arg_mtu s;
  arg_disable_ipv6 := arg_disable_ipv6 s;
  arg_gateway_ip_preference := arg_gateway_ip_preference s;
  arg_no_dtls := arg_no_dtls s; arg_local_hostname := v;
  arg_force_dpd := arg_force_dpd s; arg_no_xmlpost := arg_no_xmlpost s;
  arg_allow_extend_session := arg_allow_extend_session s
|}.
Definition set_arg_force_dpd (v : N) (s : ConnectArgs) : ConnectArgs := {|
  arg_packet_delivery := arg_packet_delivery s; arg_vpnc_script := arg_vpnc_script s;
  arg_host_identity := arg_host_identity s;
  arg_ignore_tls_errors := arg_ignore_tls_errors s; arg_user_agent := arg_user_agent s;
  arg_os := arg_os s; arg_os_version := arg_os_version s;
  arg_client_version := arg_client_version s; arg_host_id := arg_host_id s;
  arg_certificate := arg_certificate s; arg_sslkey := arg_sslkey s;
  arg_certificate_data := arg_certificate_data s; arg_sslkey_data := arg_sslkey_data s;
  arg_key_password := arg_key_password s; arg_hip_source := arg_hip_source s;
  arg_reconnect_timeout := arg_reconnect_timeout s; arg_mtu := arg_mtu s;
  arg_disable_ipv6 := arg_disable_ipv6 s;
  arg_gateway_ip_preference := arg_gateway_ip_preference s;
  arg_no_dtls := arg_no_dtls s; arg_local_hostname := arg_local_hostname s;
  arg_force_dpd := v; arg_no_xmlpost := arg_no_xmlpost s;
  arg_allow_extend_session := arg_allow_extend_session s
|}.
Definition set_arg_no_xmlpost (v : bool) (s : ConnectArgs) : ConnectArgs := {|
  arg_packet_delivery := arg_packet_delivery s; arg_vpnc_script := arg_vpnc_script s;
  arg_host_identity := arg_host_identity s;
  arg_ignore_tls_errors := arg_ignore_tls_errors s; arg_user_agent := arg_user_agent s;
  arg_os := arg_os s; arg_os_version := arg_os_version s;
  arg_client_version := arg_client_version s; arg_host_id := arg_host_id s;
  arg_certificate := arg_certificate s; arg_sslkey := arg_sslkey s;
  arg_certificate_data := arg_certificate_data s; arg_sslkey_data := arg_sslkey_data s;
  arg_key_password := arg_key_password s; arg_hip_source := arg_hip_source s;
  arg_reconnect_timeout := arg_reconnect_timeout s; arg_mtu := arg_mtu s;
  arg_disable_ipv6 := arg_disable_ipv6 s;
  arg_gateway_ip_preference := arg_gateway_ip_preference s;
  arg_no_dtls := arg_no_dtls s; arg_local_hostname := arg_local_hostname s;
  arg_force_dpd := arg_force_dpd s; arg_no_xmlpost := v;
  arg_allow_extend_session := arg_allow_extend_session s
|}.
Definition set_arg_allow_extend_session (v : bool) (s : ConnectArgs) : ConnectArgs := {|
  arg_packet_delivery := arg_packet_delivery s; arg_vpnc_script := arg_vpnc_script s;
  arg_host_identity := arg_host_identity s;
  arg_ignore_tls_errors := arg_ignore_tls_errors s; arg_user_agent := arg_user_agent s;
  arg_os := arg_os s; arg_os_version := arg_os_version s;
  arg_client_version := arg_client_version s; arg_host_id := arg_host_id s;
  arg_certificate := arg_certificate s; arg_sslkey := arg_sslkey s;
  arg_certificate_data := arg_certificate_data s; arg_sslkey_data := arg_sslkey_data s;
  arg_key_password := arg_key_password s; arg_hip_source := arg_hip_source s;
  arg_reconnect_timeout := arg_reconnect_timeout s; arg_mtu := arg_mtu s;
  arg_disable_ipv6 := arg_disable_ipv6 s;
  arg_gateway_ip_preference := arg_gateway_ip_preference s;
  arg_no_dtls := arg_no_dtls s; arg_local_hostname := arg_local_hostname s;
  arg_force_dpd := arg_force_dpd s; arg_no_xmlpost := arg_no_xmlpost s;
  arg_allow_extend_session := v
|}.

Section client_identity.
Context `{Base64}.

(** [.map(decode_to_vec).transpose()] *)
Definition decode_secret_data (o : option string) : result string (option string) :=
match o with
| None => Ok None
| Some s => d ← ok_or "base64" (base64_decode s); Ok (Some d)
end.
Definition certificate_data (a : ConnectArgs) : result string (option string) :=
decode_secret_data (arg_certificate_data a).
Definition sslkey_data (a : ConnectArgs) : result string (option string) :=
decode_secret_data (arg_sslkey_data a).
End client_identity.

Definition openconnect_os (a : ConnectArgs) : option string := to_openconnect_os <$> arg_os a.

(** * VPN states (service/vpn_state.rs) *)
Record ConnectInfo := {
  info_packet_delivery : PacketDeliveryKind;
  info_script_tun_identity : option Identity;
  info_portal : string;
  info_gateway : Gateway;
  info_gateways : list Gateway;
}.
Definition connect_info_new (portal : string) (g : Gateway) (gs : list Gateway) : ConnectInfo := {|
  info_packet_delivery := KindSystem; info_script_tun_identity := None;
  info_portal := portal; info_gateway := g; info_gateways := gs;
|}.
Definition set_script_tun_identity (i : Identity) (c : ConnectInfo) : ConnectInfo := {|
  info_packet_delivery := info_packet_delivery c; info_script_tun_identity := Some i;
  info_portal := info_portal c; info_gateway := info_gateway c;
  info_gateways := info_gateways c;
|}.
Definition set_packet_delivery (k : PacketDeliveryKind) (c : ConnectInfo) : ConnectInfo := {|
  info_packet_delivery := k; info_script_tun_identity := None;
  info_portal := info_portal c; info_gateway := info_gateway c;
  info_gateways := info_gateways c;
|}.

Record ConnectedInfo := {
  connected_connect_info : ConnectInfo;
  connected_session_info : option SessionInfo;
  connected_at : N;
  connected_members : list GatewaySessionSummary;
  connected_failures : list GatewayFailureSummary;
}.
Definition connected_info_new (now : N) (i : ConnectInfo) (s : option SessionInfo) :
    ConnectedInfo := {|
  connected_connect_info := i; connected_session_info := s; connected_at := now;
  connected_members := []; connected_failures := [];
|}.
Definition with_members (ms : list GatewaySessionSummary) (fs : list GatewayFailureSummary)
    (c : ConnectedInfo) : ConnectedInfo := {|
  connected_connect_info := connected_connect_info c;
  connected_session_info := connected_session_info c; connected_at := connected_at c;
  connected_members := ms; connected_failures := fs;
|}.

Record ReconnectRequest := { rr_attempt : N; rr_owner : Uuid; rr_info : ConnectInfo }.

Module VpnState.
Inductive t :=
| ReconnectRequired (r : ReconnectRequest)
| Disconnected
| Failed (reason : string)
| Connecting (info : ConnectInfo)
| Connected (info : ConnectedInfo)
| Disconnecting.
End VpnState.

(** ** The request and its builders *)
Record ConnectRequest := {
  restart_of : option N;
  request_info : ConnectInfo;
  request_plan : ConnectionPlan;
  request_args : ConnectArgs;
}.

Definition connect_request_new (i : ConnectInfo) (p : ConnectionPlan) : ConnectRequest :=
  {| restart_of := None; request_info := i; request_plan := p; request_args := connect_args_new |}.
Definition with_restart_of (a : option N) (r : ConnectRequest) : ConnectRequest :=
  {| restart_of := a; request_info := request_info r; request_plan := request_plan r;
     request_args := request_args r |}.
Definition with_args (f : ConnectArgs → ConnectArgs) (r : ConnectRequest) : ConnectRequest :=
  {| restart_of := restart_of r; request_info := request_info r;
     request_plan := request_plan r; request_args := f (request_args r) |}.
Definition with_packet_delivery (mode : PacketDelivery) (r : ConnectRequest) : ConnectRequest :=
  {| restart_of := restart_of r;
     request_info := set_packet_delivery (packet_delivery_kind mode) (request_info r);
     request_plan := request_plan r;
     request_args := set_arg_packet_delivery mode (request_args r) |}.
Definition release_script_tun_bootstrap (r : ConnectRequest) : ConnectRequest :=
  match arg_packet_delivery (request_args r) with
  | ScriptTun s => with_args (set_arg_packet_delivery (ScriptTun {|
      launch_id := launch_id s; program := program s; script_args := script_args s;
      bootstrap := bootstrap_default |})) r
  | System => r
  end.
Definition with_hip_source (h : HipSource) : ConnectRequest → ConnectRequest :=
  with_args (set_arg_hip_source h).
Definition with_certificate_data `{Base64} (c : option string) : ConnectRequest → ConnectRequest :=
  with_args (set_arg_certificate_data (base64_encode <$> c)).
Definition with_sslkey_data `{Base64} (k : option string) : ConnectRequest → ConnectRequest :=
  with_args (set_arg_sslkey_data (base64_encode <$> k)).

Definition with_os_profile (p : OsProfile) : ConnectRequest → ConnectRequest :=
  with_args (λ a,
    let a := set_arg_host_identity (Some (profile_host_identity p)) a in
    let a := set_arg_os (Some (profile_client_os p)) a in
    let a := set_arg_os_version (Some (profile_os_version p)) a in
    let a := set_arg_client_version (Some (profile_client_version p)) a in
    let a := set_arg_host_id (Some (host_id (profile_host_identity p))) a in
    set_arg_user_agent (Some (profile_user_agent p)) a).

(** * Scripts (service/vpnc_script.rs) *)
Definition MAX_VPNC_SCRIPT_SOURCE_VALUE : N := 32 * 1024.
Inductive VpncScriptSource := ScriptFile | ScriptCommand.
Record VpncScriptMetadata := { script_source : VpncScriptSource; script_value : string }.
Definition vpnc_script_metadata_new (s : VpncScriptSource) (v : string) :
    result string VpncScriptMetadata :=
  if trim_is_empty v then Err "VPNC script source is empty"
  else if contains_nul v then Err "VPNC script source contains a null character"
  else if MAX_VPNC_SCRIPT_SOURCE_VALUE <? slen v
  then Err "VPNC script source exceeds the byte limit"
  else Ok {| script_source := s; script_value := v |}.
Definition vpnc_script_metadata_validate (m : VpncScriptMetadata) : result string () :=
  _ ← vpnc_script_metadata_new (script_source m) (script_value m); Ok ().

(** * Messages (service/transport/message.rs, service/event.rs, service/vpn_env.rs) *)
Inductive GuiVariant := Tauri | Nsh.
Record UpdateGuiRequest := { gui_path : string; gui_checksum : string; gui_variant : GuiVariant }.
Record StoreEditedHipReportChunkRequest := {
  chunk_upload_id : option string;
  chunk_offset : N;
  chunk_xml : string;
  chunk_complete : bool;
}.
Record PreviewHipReportRequest := {
  preview_source : HipSource;
  preview_client_os : ClientOs;
  preview_client_version : string;
  preview_host_id : option string;
}.
Record ReadHipPreviewChunkRequest := { read_preview_id : string; read_offset : N }.

Inductive WsRequest :=
  | SetTunnelStatisticsEnabled (enabled : bool)
  | Connect (request : ConnectRequest)
  | Disconnect
  | StopNonTunnelAttachment (connection_id : Uuid)
  | StoreEditedHipReportChunk (request : StoreEditedHipReportChunkRequest)
  | PreviewHipReport (request : PreviewHipReportRequest)
  | GetHipApprovalStatus (approval_id : string)
  | ReadHipPreviewChunk (request : ReadHipPreviewChunkRequest)
  | GetLastSubmittedHipReport
  | UpdateLogLevel (level : string)
  | RestartGui
  | UpdateGui (request : UpdateGuiRequest)
  | GetVpncScriptMetadata.

Record HostInfo := { host_identity : HostIdentity }.
Record VpnEnv := {
  env_tunnel_state : option TunnelState;
  env_vpn_state : VpnState.t;
  env_vpnc_script : option string;
  env_auth_executable : string;
  env_host_info : HostInfo;
}.

Module WsEvent.
Inductive t :=
| EvTunnelState (s : option TunnelState)
| EvVpnEnv (e : VpnEnv)
| EvVpnState (s : VpnState.t)
| ActiveGui
| ResumeConnection.
End WsEvent.

Inductive ServiceResult :=
  | StatisticsSnapshotResult (s : TunnelStatisticsSnapshot)
  | Accepted
  | StoredHipReport (report_id : string)
  | HipUploadProgress (upload_id : string)
  | HipPreviewChunk (preview_id : string) (offset : N) (xml : string) (complete : bool)
  | HipApprovalStatusResult (s : HipApprovalStatus)
  | NoSubmittedHipReport
  | VpncScriptMetadataResult (m : option VpncScriptMetadata)
  | Rejected (r : ServiceRejection).

Definition rejected (code : ServiceErrorCode) (message : string) : ServiceResult :=
  Rejected (rejection_new code message).

Inductive ClientMessage :=
  | ClientAttach (last_event_revision : option N)
  | ClientRequest (id : Uuid) (request : WsRequest)
  | ClientResync (last_event_revision : N).

Inductive ServerMessage :=
  | ServerTunnelStatistics (snapshot : TunnelStatisticsSnapshot)
  | ServerAttached (connection_id : Uuid) (current_revision : N) (snapshot : VpnEnv)
  | ServerReply (id : Uuid) (result : ServiceResult)
  | ServerEvent (revision : N) (event : WsEvent.t)
  | ServerSnapshot (current_revision : N) (snapshot : VpnEnv).

(** * Theorems *)

(** ** The script-tun channel *)
Section control_theorems.
Context `{SerdeLaws Control.Message}.

Lemma u32_bytes_round_trip n : n ≤ u32_max →
∃ a b c d, Control.u32_to_be_bytes n = String a (String b (String c (String d ""))) ∧
  byte_val a * 2 ^ 24 + byte_val b * 2 ^ 16 + byte_val c * 2 ^ 8 + byte_val d = n.
Proof.
intros Hn. unfold Control.u32_to_be_bytes. do 4 eexists. split; [done|].
unfold byte_val. rewrite !N_ascii_embedding by (by apply N.mod_lt).
unfold u32_max in Hn.
assert (n / 2 ^ 24 mod 256 = n / 2 ^ 24) as ->.
{ apply N.mod_small. apply N.Div0.div_lt_upper_bound. lia. }
replace (2 ^ 24) with (2 ^ 16 * 256) by done. replace (2 ^ 16) with (2 ^ 8 * 256) by done.
replace (2 ^ 8) with 256 by done.
rewrite <- !N.Div0.div_div.
pose proof (N.div_mod n 256). pose proof (N.div_mod (n / 256) 256).
pose proof (N.div_mod (n / 256 / 256) 256). lia.
Qed.

(** What gpservice writes on the script-tun control socket, the script reads: a
  message sent is received as itself and the bytes behind it stay in the stream,
  so a sequence of sends is received as the same sequence. *)
Lemma control_frame_round_trip m frame rest :
Control.send m = Some frame → Control.receive (frame +:+ rest) = Some (m, rest).
Proof.
unfold Control.send. destruct (to_vec m) as [bytes|] eqn:Hm; [|done]. cbn.
destruct (_ <? _) eqn:Hl; [done|]. boolify. intros [= <-].
unfold Control.MAX_MESSAGE in *.
destruct (u32_bytes_round_trip (slen bytes)) as (a & b & c & d & -> & Hlen);
  [unfold u32_max; lia|].
change ((String a (String b (String c (String d ""))) +:+ bytes) +:+ rest)
  with (String a (String b (String c (String d (bytes +:+ rest))))).
cbn [Control.receive]. cbn zeta. rewrite Hlen. unfold Control.MAX_MESSAGE.
assert ((60 * 1024 <? slen bytes) = false) as -> by (apply N.ltb_ge; lia).
assert ((slen (bytes +:+ rest) <? slen bytes) = false) as ->
  by (apply N.ltb_ge; rewrite slen_app; lia).
rewrite slice_app_l, slice_app_r.
by rewrite (from_slice_to_vec _ _ Hm).
Qed.
End control_theorems.

(** The two size limits of a script-tun bootstrap agree. Every payload
    [Bootstrap::new] accepts decodes to itself on the service's side, although that
    side bounds the base64 text and not the payload. *)
Lemma bootstrap_round_trip `{Base64Laws} bytes b :
  bootstrap_new bytes = Ok b → bootstrap_decode b = Ok bytes.
Proof.
  unfold bootstrap_new, bootstrap_decode. intros Hn. bind_inv Hn. injection Hn as <-. boolify.
  cbn [bootstrap_text]. pose proof (base64_encode_length bytes) as Hlen.
  assert ((slen bytes + 2) / 3 <= 5462) by (apply N.Div0.div_le_upper_bound; lia).
  apply result_bind_Ok. exists (). split; [apply ensure_Ok, N.leb_le; lia|].
  rewrite base64_decode_encode. cbn. by rewrite (proj2 (N.leb_le _ _) Hx).
Qed.

(** ** The builders keep the request coherent *)

(** The delivery kind the GUI is shown is the delivery the service performs. *)
Definition request_coherent (r : ConnectRequest) : Prop :=
  info_packet_delivery (request_info r) =
  packet_delivery_kind (arg_packet_delivery (request_args r)).

Lemma connect_request_new_coherent i p :
  info_packet_delivery i = KindSystem → request_coherent (connect_request_new i p).
Proof. done. Qed.
Lemma with_packet_delivery_coherent m r : request_coherent (with_packet_delivery m r).
Proof. done. Qed.
Lemma with_args_coherent f r :
  (∀ a, arg_packet_delivery (f a) = arg_packet_delivery a) →
  request_coherent r → request_coherent (with_args f r).
Proof. unfold request_coherent. intros Hf Hr. cbn. by rewrite Hf. Qed.
Lemma release_bootstrap_coherent r :
  request_coherent r → request_coherent (release_script_tun_bootstrap r).
Proof.
  unfold release_script_tun_bootstrap, request_coherent.
  destruct (arg_packet_delivery (request_args r)) eqn:E; cbn; [by rewrite E|done].
Qed.
#[export] Hint Resolve with_packet_delivery_coherent with_args_coherent
  release_bootstrap_coherent : gp.

(** ** Client identities *)
Lemma identity_data_round_trip `{Base64Laws} c k r :
  let r := with_sslkey_data k (with_certificate_data c r) in
  certificate_data (request_args r) = Ok c ∧ sslkey_data (request_args r) = Ok k.
Proof.
  cbn. unfold certificate_data, sslkey_data. cbn.
  destruct c, k; cbn; rewrite ?base64_decode_encode; done.
Qed.

Module ServiceExample.
Import Concrete.
Definition codec : SerdeJson Control.Message :=
{| to_vec m := match m with Control.Ready => Some "ready" | _ => None end;
   from_slice s := if String.eqb s "ready" then Some Control.Ready else None |}.
Lemma codec_laws : @SerdeLaws Control.Message codec.
Proof. split; intros m v; destruct m; cbn; try done; by intros [= <-]. Qed.

Lemma control_frame_round_trip_witness :
let frame := Control.u32_to_be_bytes 5 +:+ "ready" in
@Control.send codec Control.Ready = Some frame ∧
@Control.receive codec (frame +:+ frame) = Some (Control.Ready, frame).
Proof.
split; [by vm_compute|].
apply (@control_frame_round_trip codec codec_laws). by vm_compute.
Defined.

Lemma bootstrap_round_trip_witness :
@bootstrap_decode plain_base64 {| bootstrap_text := "payload" |} = Ok "payload".
Proof. apply (@bootstrap_round_trip plain_base64 plain_base64_laws). by vm_compute. Defined.
End ServiceExample.
