(* ===== verification/Lifecycle.v ===== *)
(** Admission of connection attempts (apps/gpservice/src/vpn_task.rs, [LifecycleHandle],
    [ConnectReservation] and [AttemptDrain]): at most one attempt is admitted, a
    reservation owns it until the actor does, and every owner of a drain sees it end.

    [Lifecycle] is what every clone of the handle shares. An [AttemptCompletion] is
    named by its attempt: [completed] holds the attempts whose flag is set. The
    waiters of [Notify] check the flag after they register, so a wake-up carries
    nothing but the flag. Each operation below is one critical section of the
    admissions mutex. Attempt numbers wrap at 64 bits, as in a release build. *)
From S2P Require Import Prelude Utf8 ThirdParty Transport Session Service.

#[local] Open Scope N_scope.

Inductive AdmissionPhase := Preparing | Pending | Active | Stopping.
#[export] Instance AdmissionPhase_eq_dec : EqDecision AdmissionPhase.
Proof. solve_decision. Defined.

(** [VpnSessionInfo] of crates/openconnect. *)
Record VpnSessionInfo := {
  vsi_lifetime_secs : option N;
  vsi_user_expires : option N;
  vsi_lifetime_warning : option SessionWarning;
  vsi_nlb_enabled : bool;
  vsi_nlb_connected_gw_ip : option string;
}.

Section lifecycle.
Context {TS T : Type} `{CancellationTokens TS T}.
Context {Q : Type → Type} `{Mpsc Q} {W : Type → Type} `{Watch W}.
(** What a prepared connection holds besides its request, and a tunnel monitor. *)
Context {Resources Monitor : Type}.

Record PreparedConnection := {
  prepared_request : ConnectRequest;
  prepared_resources : Resources;
}.

Record TunnelBinding := {
  tb_attempt : N;
  tb_monitor : option Monitor;
  tb_non_tunnel : bool;
}.
Definition tunnel_binding_default : TunnelBinding :=
  {| tb_attempt := 0; tb_monitor := None; tb_non_tunnel := false |}.

Inductive LifecycleEvent :=
  | EvTunnelMonitor (attempt : N) (monitor : Monitor)
  | EvStart (attempt : N) (connection : PreparedConnection) (desktop_uid : option N)
      (edited_report : option string) (session_id : option Uuid)
  | EvStop (attempt : N)
  | EvScriptTunSuspended (attempt : N)
  | EvReconnectRequired (attempt : N)
  | EvEstablished (attempt : N) (session : VpnSessionInfo)
  | EvMembersChanged (attempt : N) (members : list GatewaySessionSummary)
      (failures : list GatewayFailureSummary)
  | EvEnded (attempt : N)
  | EvFailed (attempt : N) (reason : string)
  | EvPreparationReleased.

Record Admission := {
  adm_attempt : N;
  adm_phase : AdmissionPhase;
  adm_stop_requested : bool;
  adm_cancellation : T;
}.
Record Admissions := {
  closed : bool;
  next_attempt : N;
  current : option Admission;
  restart : option (N * Uuid);
}.
Definition admissions_default : Admissions :=
  {| closed := false; next_attempt := 0; current := None; restart := None |}.

Record Lifecycle := {
  tokens : TS;
  completed : gset N;
  admissions : Admissions;
  events : Q LifecycleEvent;
  tunnel : W TunnelBinding;
  state : W VpnState.t;
}.

(** Field updates. *)
Definition set_adm_phase (v : AdmissionPhase) (s : Admission) : Admission := {|
  adm_attempt := adm_attempt s; adm_phase := v;
  adm_stop_requested := adm_stop_requested s; adm_cancellation := adm_cancellation s
|}.
Definition set_adm_stop_requested (v : bool) (s : Admission) : Admission := {|
  adm_attempt := adm_attempt s; adm_phase := adm_phase s; adm_stop_requested := v;
  adm_cancellation := adm_cancellation s
|}.
Definition set_closed (v : bool) (s : Admissions) : Admissions := {|
  closed := v; next_attempt := next_attempt s; current := current s;
  restart := restart s
|}.
Definition set_next_attempt (v : N) (s : Admissions) : Admissions := {|
  closed := closed s; next_attempt := v; current := current s; restart := restart s
|}.
Definition set_current (v : option Admission) (s : Admissions) : Admissions := {|
  closed := closed s; next_attempt := next_attempt s; current := v;
  restart := restart s
|}.
Definition set_restart (v : option (N * Uuid)) (s : Admissions) : Admissions := {|
  closed := closed s; next_attempt := next_attempt s; current := current s;
  restart := v
|}.
Definition set_tokens (v : TS) (s : Lifecycle) : Lifecycle := {|
  tokens := v; completed := completed s; admissions := admissions s;
  events := events s; tunnel := tunnel s; state := state s
|}.
Definition set_completed (v : gset N) (s : Lifecycle) : Lifecycle := {|
  tokens := tokens s; completed := v; admissions := admissions s; events := events s;
  tunnel := tunnel s; state := state s
|}.
Definition set_admissions (v : Admissions) (s : Lifecycle) : Lifecycle := {|
  tokens := tokens s; completed := completed s; admissions := v; events := events s;
  tunnel := tunnel s; state := state s
|}.
Definition set_events (v : Q LifecycleEvent) (s : Lifecycle) : Lifecycle := {|
  tokens := tokens s; completed := completed s; admissions := admissions s;
  events := v; tunnel := tunnel s; state := state s
|}.
Definition set_tunnel (v : W TunnelBinding) (s : Lifecycle) : Lifecycle := {|
  tokens := tokens s; completed := completed s; admissions := admissions s;
  events := events s; tunnel := v; state := state s
|}.
Definition set_state (v : W VpnState.t) (s : Lifecycle) : Lifecycle := {|
  tokens := tokens s; completed := completed s; admissions := admissions s;
  events := events s; tunnel := tunnel s; state := v
|}.

Record ConnectReservation := {
  rsv_attempt : N;
  rsv_cancellation : T;
}.
Record AttemptDrain := {
  drain_cancellation : T;
  drain_attempt : N;
}.

Definition cancel (t : T) (l : Lifecycle) : Lifecycle := set_tokens (token_cancel t (tokens l)) l.
Definition set_current_admission (a : option Admission) (l : Lifecycle) : Lifecycle :=
  set_admissions (set_current a (admissions l)) l.
(** [let _ = events.try_send(e)] *)
Definition post (e : LifecycleEvent) (l : Lifecycle) : Lifecycle :=
  set_events (try_send e (events l)).2 l.

(** The current admission, if it is that of [attempt]. *)
Definition admission_of (attempt : N) (l : Lifecycle) : option Admission :=
  match current (admissions l) with
  | Some a => if adm_attempt a =? attempt then Some a else None
  | None => None
  end.

Definition reserve_connect (r : option (N * Uuid)) (l : Lifecycle) :
    result ServiceResult ConnectReservation * Lifecycle :=
  let a := admissions l in
  if closed a then (Err (rejected Transport.Internal "VPN task is unavailable"), l)
  else if bool_decide (is_Some (current a)) then
    (Err (rejected Busy "A VPN connection is already in progress"), l)
  else if bool_decide (is_Some r) && negb (bool_decide (restart a = r)) then
    (Err (rejected InvalidRequest "Reconnect request is no longer current"), l)
  else
    let attempt := next_attempt a in
    let (t, ts) := token_new (tokens l) in
    let a := set_next_attempt (cast u64_max (attempt + 1)) (set_restart None a) in
    let a := set_current (Some {| adm_attempt := attempt; adm_phase := Preparing;
                                  adm_stop_requested := false; adm_cancellation := t |}) a in
    (Ok {| rsv_attempt := attempt; rsv_cancellation := t |},
     set_tokens ts (set_admissions a l)).

(** Mark the current admission as stopping and cancel it. *)
Definition stop_admission (adm : Admission) (l : Lifecycle) : Lifecycle :=
  cancel (adm_cancellation adm)
    (set_current_admission (Some (set_adm_phase Stopping (set_adm_stop_requested true adm))) l).

Definition request_disconnect (l : Lifecycle) : ServiceResult * Lifecycle :=
  let l := set_admissions (set_restart None (admissions l)) l in
  match current (admissions l) with
  | None => (Accepted, set_state (watch_send_replace VpnState.Disconnected (state l)) l)
  | Some adm =>
      if adm_stop_requested adm then (Accepted, l)
      else (Accepted, post (EvStop (adm_attempt adm)) (stop_admission adm l))
  end.

(** [disconnect_and_wait] up to its wait: the attempt whose completion it then
    waits for, or [None] for the immediate [false]. *)
Definition disconnect_and_wait (l : Lifecycle) : option N * Lifecycle :=
  match current (admissions l) with
  | None => (None, l)
  | Some adm =>
      (Some (adm_attempt adm),
       if adm_stop_requested adm then l
       else stop_admission adm (post (EvStop (adm_attempt adm)) l))
  end.
(** The wait returns [true] as soon as the flag is set. *)
Definition wait_returns (attempt : N) (l : Lifecycle) : bool :=
  bool_decide (attempt ∈ completed l).

Definition is_stop_requested (attempt : N) (l : Lifecycle) : bool :=
  match admission_of attempt l with Some a => adm_stop_requested a | None => false end.

Definition close_admission (l : Lifecycle) : Lifecycle :=
  let l := set_admissions (set_closed true (admissions l)) l in
  match current (admissions l) with
  | Some adm => stop_admission adm l
  | None => l
  end.

Definition attempt_cancellation (attempt : N) (l : Lifecycle) : T * Lifecycle :=
  match admission_of attempt l with
  | Some a => (adm_cancellation a, l)
  | None => let (t, ts) := token_new (tokens l) in (t, set_tokens (token_cancel t ts) l)
  end.

Definition activate_attempt (attempt : N) (l : Lifecycle) : bool * Lifecycle :=
  match current (admissions l) with
  | None => (false, l)
  | Some adm =>
      if negb (adm_attempt adm =? attempt) || adm_stop_requested adm ||
         token_cancelled (adm_cancellation adm) (tokens l) ||
         negb (bool_decide (adm_phase adm = Pending))
      then (false, l)
      else (true, set_current_admission (Some (set_adm_phase Active adm)) l)
  end.

Definition clear_attempt (attempt : N) (l : Lifecycle) : Lifecycle :=
  match admission_of attempt l with
  | None => l
  | Some _ => set_completed ({[attempt]} ∪ completed l) (set_current_admission None l)
  end.

(** ** Reservations *)

(** [None] is the failed [expect]. *)
Definition reservation_drain (r : ConnectReservation) (l : Lifecycle) : option AttemptDrain :=
  match admission_of (rsv_attempt r) l with
  | Some _ => Some {| drain_cancellation := rsv_cancellation r; drain_attempt := rsv_attempt r |}
  | None => None
  end.

(** [Drop] of a reservation that was not transferred. *)
Definition reservation_drop (r : ConnectReservation) (l : Lifecycle) : Lifecycle :=
  post EvPreparationReleased (clear_attempt (rsv_attempt r) (cancel (rsv_cancellation r) l)).

(** The body of [commit] under the lock; the flag is [transferred]. *)
Definition commit_locked (r : ConnectReservation) (c : PreparedConnection)
    (uid : option N) (report : option string) (session : option Uuid) (l : Lifecycle) :
    ServiceResult * bool * Lifecycle :=
  if closed (admissions l) then (rejected Transport.Internal "VPN task is unavailable", false, l)
  else match admission_of (rsv_attempt r) l with
  | None => (rejected InvalidRequest "Connection preparation was superseded", false, l)
  | Some adm =>
      if adm_stop_requested adm || token_cancelled (rsv_cancellation r) (tokens l)
      then (rejected InvalidRequest "Connection preparation was cancelled", false, l)
      else
        let (sent, q) := try_send (EvStart (rsv_attempt r) c uid report session) (events l) in
        match sent with
        | Sent => (Accepted, true,
            set_current_admission (Some (set_adm_phase Pending adm)) (set_events q l))
        | Full => (rejected Busy "VPN lifecycle queue is full", false, l)
        | Closed => (rejected Transport.Internal "VPN task is unavailable", false, l)
        end
  end.

(** [commit] consumes the reservation: what is not transferred is dropped. *)
Definition commit (r : ConnectReservation) (c : PreparedConnection)
    (uid : option N) (report : option string) (session : option Uuid) (l : Lifecycle) :
    ServiceResult * Lifecycle :=
  let '(result, transferred, l) := commit_locked r c uid report session l in
  (result, if (transferred : bool) then l else reservation_drop r l).

(** ** Drains *)
Definition drain_cancel (d : AttemptDrain) (l : Lifecycle) : Lifecycle :=
  cancel (drain_cancellation d) l.
Definition drain_is_complete (d : AttemptDrain) (l : Lifecycle) : bool :=
  wait_returns (drain_attempt d) l.
End lifecycle.
