(* ===== verification/Openconnect.v ===== *)
(** The bindings of the tunnel library (crates/openconnect: vpn.rs, vpn_utils.rs, hip.rs,
    and ffi/ without the observation of [NativeTunnel]).

    The builder with the script it resolves, the commands written to a running tunnel, HIP
    sources, and what crosses to and from the C side. A C string is the bytes before its
    NUL, a pointer an option; the file system, the pipe and the C library are arguments. A
    panic is [None]. *)
From S2P Require Import Prelude Utf8 Text ThirdParty ChildProcess Service.
From S2P Require Session Lifecycle.
From Stdlib Require Import Strings.Ascii.

#[local] Open Scope N_scope.

(** [CString::new] *)
Definition c_string (v : string) : option string := if contains_nul v then None else Some v.
(** [CStr::to_str] *)
Definition to_str (bytes : string) : option string :=
  if String.eqb (from_utf8_lossy bytes) bytes then Some bytes else None.

(** * Errors of the operating system and of Rust's own kinds *)
Inductive ErrorKind := KInterrupted | KTimedOut | KInvalidInput | KInvalidData | KPermissionDenied
  | KNotFound | KOther.
Inductive OsError := Errno (code : Z) | Kind (k : ErrorKind) (m : string).
Definition EPERM : Z := 1.
Definition ENOENT : Z := 2.
Definition EINTR : Z := 4.
Definition EIO : Z := 5.
Definition E2BIG : Z := 7.
Definition EAGAIN : Z := 11.
Definition EINVAL : Z := 22.
Definition ETIMEDOUT : Z := 110.
Definition raw_os_error (e : OsError) : option Z :=
  match e with Errno code => Some code | Kind _ _ => None end.
Definition error_code (e : OsError) : Z :=
  (- match e with
     | Errno code => code
     | Kind KInterrupted _ => EINTR
     | Kind KTimedOut _ => ETIMEDOUT
     | Kind (KInvalidInput | KInvalidData) _ => EINVAL
     | Kind KPermissionDenied _ => EPERM
     | Kind KNotFound _ => ENOENT
     | Kind KOther _ => EIO
     end)%Z.
(** The answer of a callback whose body was under [catch_unwind]. *)
Definition callback_code (r : option (result OsError ())) : Z :=
  match r with
  | Some (Ok _) => 0
  | Some (Err e) => error_code e
  | None => (- EIO)%Z
  end.

(** * HIP sources (hip.rs) *)
Record HipRequest := {
  hip_cookie : string;
  hip_client_ip : option string;
  hip_client_ipv6 : option string;
  hip_md5 : string;
  hip_client_version : string;
  hip_client_os : string;
  hip_os_version : string;
  hip_host_id : option string;
  hip_local_hostname : option string;
}.
Record HipScript := {
  hip_path : string;
  hip_user : option N;
  (** The validator's answer. *)
  hip_validator : option (option (result OsError ()));
  hip_environment : option (list string);
  hip_cwd : option string;
}.
Inductive HipSource :=
  | HipDisabled
  | HipGenerator (generate : HipRequest → option (result OsError string))
  | HipScripted (s : HipScript).

(** * Network configuration (network_configuration.rs) *)
Record NetworkConfiguration := {
  reason : string;
  environment : list (string * option string);
}.
Definition Handler : Type := NetworkConfiguration → option (result OsError ()).

(** * The builder (vpn.rs) *)
Module GatewayIpPreference.
Inductive t := Auto | Ipv4 | Ipv6.
Definition repr (p : t) : N := match p with Auto => 0 | Ipv4 => 4 | Ipv6 => 6 end.
End GatewayIpPreference.
Import GatewayIpPreference.

Record ScriptTunLaunch := {
  launch_program : string;
  launch_arguments : list string;
  launch_uid : N;
  (** The descriptor only the child keeps. *)
  launch_control : option N;
}.
Record VpnBuilder := {
  b_server : string;
  b_cookie : string;
  b_script : option string;
  b_handler : option Handler;
  b_script_is_path : bool;
  b_interface : option string;
  b_script_tun : bool;
  b_script_tun_launch : option ScriptTunLaunch;
  b_user_agent : option string;
  b_os : option string;
  b_os_version : option string;
  b_client_version : option string;
  b_host_id : option string;
  b_local_hostname : option string;
  b_certificate : option string;
  b_sslkey : option string;
  b_key_password : option string;
  b_hip_source : HipSource;
  b_reconnect_timeout : N;
  b_mtu : N;
  b_disable_ipv6 : bool;
  b_gateway_ip_preference : GatewayIpPreference.t;
  b_no_dtls : bool;
  b_dpd_interval : N;
  b_no_xmlpost : bool;
}.
Definition builder_new (server cookie : string) : VpnBuilder := {|
  b_server := server; b_cookie := cookie; b_script := None; b_handler := None;
  b_script_is_path := false; b_interface := None; b_script_tun := false;
  b_script_tun_launch := None; b_user_agent := None; b_os := None; b_os_version := None;
  b_client_version := None; b_host_id := None; b_local_hostname := None;
  b_certificate := None; b_sslkey := None; b_key_password := None;
  b_hip_source := HipDisabled; b_reconnect_timeout := 300; b_mtu := 0;
  b_disable_ipv6 := false; b_gateway_ip_preference := Auto; b_no_dtls := false;
  b_dpd_interval := 0; b_no_xmlpost := false
|}.
Definition script_command (v : option string) (s : VpnBuilder) : VpnBuilder := {|
  b_server := b_server s; b_cookie := b_cookie s; b_script := v;
  b_handler := b_handler s; b_script_is_path := false; b_interface := b_interface s;
  b_script_tun := b_script_tun s; b_script_tun_launch := b_script_tun_launch s;
  b_user_agent := b_user_agent s; b_os := b_os s; b_os_version := b_os_version s;
  b_client_version := b_client_version s; b_host_id := b_host_id s;
  b_local_hostname := b_local_hostname s; b_certificate := b_certificate s;
  b_sslkey := b_sslkey s; b_key_password := b_key_password s;
  b_hip_source := b_hip_source s; b_reconnect_timeout := b_reconnect_timeout s;
  b_mtu := b_mtu s; b_disable_ipv6 := b_disable_ipv6 s;
  b_gateway_ip_preference := b_gateway_ip_preference s; b_no_dtls := b_no_dtls s;
  b_dpd_interval := b_dpd_interval s; b_no_xmlpost := b_no_xmlpost s
|}.
Definition script_path (v : option string) (s : VpnBuilder) : VpnBuilder := {|
  b_server := b_server s; b_cookie := b_cookie s; b_script := v;
  b_handler := b_handler s; b_script_is_path := true; b_interface := b_interface s;
  b_script_tun := b_script_tun s; b_script_tun_launch := b_script_tun_launch s;
  b_user_agent := b_user_agent s; b_os := b_os s; b_os_version := b_os_version s;
  b_client_version := b_client_version s; b_host_id := b_host_id s;
  b_local_hostname := b_local_hostname s; b_certificate := b_certificate s;
  b_sslkey := b_sslkey s; b_key_password := b_key_password s;
  b_hip_source := b_hip_source s; b_reconnect_timeout := b_reconnect_timeout s;
  b_mtu := b_mtu s; b_disable_ipv6 := b_disable_ipv6 s;
  b_gateway_ip_preference := b_gateway_ip_preference s; b_no_dtls := b_no_dtls s;
  b_dpd_interval := b_dpd_interval s; b_no_xmlpost := b_no_xmlpost s
|}.
Definition network_configuration_handler (h : Handler) (s : VpnBuilder) : VpnBuilder := {|
  b_server := b_server s; b_cookie := b_cookie s; b_script := b_script s;
  b_handler := Some h; b_script_is_path := b_script_is_path s;
  b_interface := b_interface s; b_script_tun := b_script_tun s;
  b_script_tun_launch := b_script_tun_launch s; b_user_agent := b_user_agent s;
  b_os := b_os s; b_os_version := b_os_version s; b_client_version := b_client_version s;
  b_host_id := b_host_id s; b_local_hostname := b_local_hostname s;
  b_certificate := b_certificate s; b_sslkey := b_sslkey s;
  b_key_password := b_key_password s; b_hip_source := b_hip_source s;
  b_reconnect_timeout := b_reconnect_timeout s; b_mtu := b_mtu s;
  b_disable_ipv6 := b_disable_ipv6 s;
  b_gateway_ip_preference := b_gateway_ip_preference s; b_no_dtls := b_no_dtls s;
  b_dpd_interval := b_dpd_interval s; b_no_xmlpost := b_no_xmlpost s
|}.
Definition set_script_tun (v : bool) (s : VpnBuilder) : VpnBuilder := {|
  b_server := b_server s; b_cookie := b_cookie s; b_script := b_script s;
  b_handler := b_handler s; b_script_is_path := b_script_is_path s;
  b_interface := b_interface s; b_script_tun := v;
  b_script_tun_launch := b_script_tun_launch s; b_user_agent := b_user_agent s;
  b_os := b_os s; b_os_version := b_os_version s; b_client_version := b_client_version s;
  b_host_id := b_host_id s; b_local_hostname := b_local_hostname s;
  b_certificate := b_certificate s; b_sslkey := b_sslkey s;
  b_key_password := b_key_password s; b_hip_source := b_hip_source s;
  b_reconnect_timeout := b_reconnect_timeout s; b_mtu := b_mtu s;
  b_disable_ipv6 := b_disable_ipv6 s;
  b_gateway_ip_preference := b_gateway_ip_preference s; b_no_dtls := b_no_dtls s;
  b_dpd_interval := b_dpd_interval s; b_no_xmlpost := b_no_xmlpost s
|}.
Definition with_launch (l : ScriptTunLaunch) (s : VpnBuilder) : VpnBuilder := {|
  b_server := b_server s; b_cookie := b_cookie s; b_script := None;
  b_handler := b_handler s; b_script_is_path := false; b_interface := b_interface s;
  b_script_tun := true; b_script_tun_launch := Some l; b_user_agent := b_user_agent s;
  b_os := b_os s; b_os_version := b_os_version s; b_client_version := b_client_version s;
  b_host_id := b_host_id s; b_local_hostname := b_local_hostname s;
  b_certificate := b_certificate s; b_sslkey := b_sslkey s;
  b_key_password := b_key_password s; b_hip_source := b_hip_source s;
  b_reconnect_timeout := b_reconnect_timeout s; b_mtu := b_mtu s;
  b_disable_ipv6 := b_disable_ipv6 s;
  b_gateway_ip_preference := b_gateway_ip_preference s; b_no_dtls := b_no_dtls s;
  b_dpd_interval := b_dpd_interval s; b_no_xmlpost := b_no_xmlpost s
|}.
Definition script_tun_program (program : string) (arguments : list string) (uid inherited : N)
    (s : VpnBuilder) : result string VpnBuilder :=
  _ ← ensure (path_is_absolute program && negb (contains_nul program))
        "Script-tun requires an absolute executable path";
  _ ← ensure (forallb (λ a, negb (contains_nul a)) arguments) "Script-tun argument contains NUL";
  Ok (with_launch {| launch_program := program; launch_arguments := arguments; launch_uid := uid;
                     launch_control := Some inherited |} s).

(** [format!("'{}'", path.replace('\'', "'\\''"))] *)
Definition apostrophe : ascii := "'".
Fixpoint escape_quotes (s : string) : string :=
  match s with
  | EmptyString => EmptyString
  | String a r => (if Ascii.eqb a apostrophe then "'\''" else String a "") +:+ escape_quotes r
  end.
Definition shell_quote_path (path : string) : string :=
  String apostrophe (escape_quotes path +:+ String apostrophe "").

Record Vpn := {
  vpn_server : string;
  vpn_cookie : string;
  vpn_user_agent : string;
  vpn_os : string;
  vpn_os_version : option string;
  vpn_client_version : option string;
  vpn_host_id : option string;
  vpn_local_hostname : option string;
  vpn_script : option string;
  vpn_handler : option Handler;
  vpn_interface : option string;
  vpn_script_tun : bool;
  vpn_script_tun_launch : option ScriptTunLaunch;
  vpn_certificate : option string;
  vpn_sslkey : option string;
  vpn_key_password : option string;
  vpn_hip_source : HipSource;
  vpn_reconnect_timeout : N;
  vpn_mtu : N;
  vpn_disable_ipv6 : bool;
  vpn_gateway_ip_preference : GatewayIpPreference.t;
  vpn_no_dtls : bool;
  vpn_dpd_interval : N;
  vpn_no_xmlpost : bool;
}.

Section build.
(** The file system and the environment. *)
Variables exists_file is_file is_executable : string → bool.
Variable canonicalize : string → option string.
Variable gp_vpnc_script : option string.
Variable current_exe : option string.

(** ** Scripts (vpn_utils.rs) *)
Definition VPNC_SCRIPT_LOCATIONS : list string :=
  ["/usr/local/libexec/gpclient/vpnc-script"; "/usr/libexec/gpclient/vpnc-script";
   "/usr/lib/gpclient/vpnc-script"; "/usr/local/share/vpnc-scripts/vpnc-script";
   "/usr/local/sbin/vpnc-script"; "/usr/share/vpnc-scripts/vpnc-script";
   "/usr/sbin/vpnc-script"; "/etc/vpnc/vpnc-script"; "/etc/openconnect/vpnc-script";
   "/usr/libexec/vpnc-scripts/vpnc-script"].
Definition find_executable (locations : list string) : option string :=
  List.find is_executable locations.
Definition configured_script (path : string) : option string :=
  if path_is_absolute path && is_file path && is_executable path then to_str path else None.
(** [parent] and [file_name] of a canonical path. *)
Definition components (path : string) : list string :=
  List.filter (λ c, negb (is_empty c)) (split "/"%char path).
Definition parent (path : string) : option string :=
  match components path with
  | [] => None
  | l => Some ("/" +:+ String.concat "/" (removelast l))
  end.
Definition file_name (path : string) : option string := list.last (components path).
Definition installed_vpnc_script (executable : string) : option string :=
  executable ← canonicalize executable;
  bin ← parent executable;
  name ← file_name bin;
  if negb (String.eqb name "bin") then None
  else
    prefix ← parent bin;
    configured_script (path_join prefix "libexec/gpclient/vpnc-script").
Definition find_vpnc_script : option string :=
  match gp_vpnc_script with
  | Some path => if is_empty path
                 then match current_exe ≫= installed_vpnc_script with
                      | Some script => Some script
                      | None => find_executable VPNC_SCRIPT_LOCATIONS
                      end
                 else configured_script path
  | None => match current_exe ≫= installed_vpnc_script with
            | Some script => Some script
            | None => find_executable VPNC_SCRIPT_LOCATIONS
            end
  end.
Definition check_executable (file : string) : result OsError () :=
  if exists_file file && negb (is_executable file)
  then Err (Kind KPermissionDenied (file +:+ " is not executable")) else Ok ().
Definition os_text (e : OsError) : string := match e with Kind _ m => m | Errno _ => "" end.

(** ** [build] *)
Definition resolve_script (s : VpnBuilder) : result string (option string) :=
  match b_handler s with
  | Some _ =>
      if bool_decide (is_Some (b_script s)) || b_script_tun s
      then Err "Network configuration handler conflicts with script options" else Ok None
  | None =>
      match b_script_tun_launch s with
      | Some _ => Ok None
      | None =>
          script ← match b_script s with
                   | Some script =>
                       if b_script_is_path s && negb (exists_file script)
                       then Err ("VPN script does not exist: " +:+ script)
                       else _ ← map_err os_text (check_executable script); Ok script
                   | None => ok_or "Failed to find vpnc-script" find_vpnc_script
                   end;
          Ok (Some (if b_script_is_path s || bool_decide (b_script s = None)
                    then shell_quote_path script else script))
      end
  end.
Definition c_option (v : option string) : option (option string) :=
  match v with None => Some None | Some v => Some <$> c_string v end.
Definition build (s : VpnBuilder) : option (result string Vpn) :=
  if bool_decide (is_Some (b_script_tun_launch s)) && negb (b_script_tun s)
  then Some (Err "Child identity requires script-tun")
  else match resolve_script s with
  | Err e => Some (Err e)
  | Ok script =>
      script ← c_option script;
      server ← c_string (b_server s);
      cookie ← c_string (b_cookie s);
      user_agent ← c_string (default "" (b_user_agent s));
      os ← c_string (default "linux" (b_os s));
      os_version ← c_option (b_os_version s);
      client_version ← c_option (b_client_version s);
      host_id ← c_option (b_host_id s);
      local_hostname ← c_option (b_local_hostname s);
      interface ← c_option (b_interface s);
      certificate ← c_option (b_certificate s);
      sslkey ← c_option (b_sslkey s);
      key_password ← c_option (b_key_password s);
      Some (Ok {|
        vpn_server := server; vpn_cookie := cookie; vpn_user_agent := user_agent; vpn_os := os;
        vpn_os_version := os_version; vpn_client_version := client_version;
        vpn_host_id := host_id; vpn_local_hostname := local_hostname; vpn_script := script;
        vpn_handler := b_handler s; vpn_interface := interface;
        vpn_script_tun := b_script_tun s; vpn_script_tun_launch := b_script_tun_launch s;
        vpn_certificate := certificate; vpn_sslkey := sslkey; vpn_key_password := key_password;
        vpn_hip_source := b_hip_source s; vpn_reconnect_timeout := b_reconnect_timeout s;
        vpn_mtu := b_mtu s; vpn_disable_ipv6 := b_disable_ipv6 s;
        vpn_gateway_ip_preference := b_gateway_ip_preference s; vpn_no_dtls := b_no_dtls s;
        vpn_dpd_interval := b_dpd_interval s; vpn_no_xmlpost := b_no_xmlpost s |})
  end.

(** ** HIP scripts *)
Definition hip_script_new (metadata_is_file : string → result OsError bool) (path : string)
    (user : option N) : result OsError HipScript :=
  regular ← metadata_is_file path;
  _ ← ensure regular (Kind KInvalidInput "HIP executable is not a regular file");
  _ ← check_executable path;
  path ← ok_or (Kind KInvalidInput "HIP value contains NUL") (c_string path);
  Ok {| hip_path := path; hip_user := user; hip_validator := None; hip_environment := None;
        hip_cwd := None |}.
End build.
Definition hip_variable (kv : string * string) : result OsError string :=
  if is_empty kv.1 || Utf8.contains "=" kv.1
  then Err (Kind KInvalidInput "Invalid HIP environment key")
  else ok_or (Kind KInvalidInput "HIP value contains NUL") (c_string (kv.1 +:+ "=" +:+ kv.2)).
Fixpoint collect_results {E A} (l : list (result E A)) : result E (list A) :=
  match l with
  | [] => Ok []
  | r :: l => a ← r; l ← collect_results l; Ok (a :: l)
  end.
Definition with_environment (variables : list (string * string)) (cwd : string) (s : HipScript) :
    result OsError HipScript :=
  variables ← collect_results (hip_variable <$> variables);
  cwd ← ok_or (Kind KInvalidInput "HIP value contains NUL") (c_string cwd);
  Ok {| hip_path := hip_path s; hip_user := hip_user s; hip_validator := hip_validator s;
        hip_environment := Some variables; hip_cwd := Some cwd |}.
Definition with_validator (v : option (result OsError ())) (s : HipScript) : HipScript := {|
  hip_path := hip_path s; hip_user := hip_user s; hip_validator := Some v;
  hip_environment := hip_environment s; hip_cwd := hip_cwd s |}.

(** * Commands to a running tunnel: [Cancellation] *)
Record Cancellation := {
  requested : bool;
  command_fd : option N;
  statistics_pending : bool;
}.
Definition cancellation_new : Cancellation :=
  {| requested := false; command_fd := None; statistics_pending := false |}.
Inductive PipeCommand := Statistics | Cancel.
(** What a write to the pipe answers. *)
Inductive PipeWrite := Written | WouldBlock | WriteFailed (code : Z).
Definition attach (fd : N) (s : Cancellation) : bool * Cancellation :=
  (requested s, {| requested := requested s; command_fd := Some fd;
                   statistics_pending := statistics_pending s |}).
Definition detach (s : Cancellation) : Cancellation :=
  {| requested := requested s; command_fd := None; statistics_pending := false |}.
(** [io::Result] of writing the cancellation. *)
Definition write_answer (w : PipeWrite) : result OsError () :=
  match w with
  | Written => Ok ()
  | WouldBlock => Err (Errno EAGAIN)
  | WriteFailed code => Err (Errno code)
  end.
(** The answer, the write with its descriptor, and what is left. *)
Definition request_statistics (w : PipeWrite) (s : Cancellation) :
    result OsError bool * option N * Cancellation :=
  if requested s || statistics_pending s then (Ok false, None, s)
  else match command_fd s with
  | None => (Ok false, None, s)
  | Some fd =>
      match w with
      | Written => (Ok true, Some fd, {| requested := requested s; command_fd := command_fd s;
                                         statistics_pending := true |})
      | WouldBlock => (Ok false, Some fd, s)
      | WriteFailed code => (Err (Errno code), Some fd, s)
      end
  end.
Definition statistics_received (s : Cancellation) : Cancellation :=
  {| requested := requested s; command_fd := command_fd s; statistics_pending := false |}.
Definition cancel (w : PipeWrite) (s : Cancellation) : result OsError () * option N * Cancellation :=
  if requested s then (Ok (), None, s)
  else
    let s := {| requested := true; command_fd := command_fd s;
                statistics_pending := statistics_pending s |} in
    match command_fd s with
    | None => (Ok (), None, s)
    | Some fd => (write_answer w, Some fd, s)
    end.

(** * What crosses the boundary (ffi/) *)

(** ** Sessions *)
Record VpnSessionInfoRaw := {
  raw_auth_expiration : Z;
  raw_lifetime_secs : Z;
  raw_user_expires : Z;
  raw_lifetime_warning_prior : Z;
  raw_lifetime_warning_message : option string;
  raw_nlb_enabled : Z;
  raw_nlb_connected_gw_ip : option string;
}.
Definition positive_i64_to_u32 (v : Z) : option N :=
  if (0 <? v)%Z && (v <=? 4294967295)%Z then Some (Z.to_N v) else None.
Definition non_empty_text (v : option string) : option string :=
  t ← v ≫= to_str; if is_empty t then None else Some t.
Definition session_info_from_raw (raw : option VpnSessionInfoRaw) : Lifecycle.VpnSessionInfo :=
  match raw with
  | None => {| Lifecycle.vsi_lifetime_secs := None; Lifecycle.vsi_user_expires := None;
               Lifecycle.vsi_lifetime_warning := None; Lifecycle.vsi_nlb_enabled := false;
               Lifecycle.vsi_nlb_connected_gw_ip := None |}
  | Some raw => {|
      Lifecycle.vsi_lifetime_secs := positive_i64_to_u32 (raw_lifetime_secs raw);
      Lifecycle.vsi_user_expires :=
        match positive_i64_to_u32 (raw_user_expires raw) with
        | Some v => Some v
        | None => positive_i64_to_u32 (raw_auth_expiration raw)
        end;
      Lifecycle.vsi_lifetime_warning :=
        match positive_i64_to_u32 (raw_lifetime_warning_prior raw),
              non_empty_text (raw_lifetime_warning_message raw) with
        | Some prior, Some message =>
            Some {| Session.prior_secs := prior; Session.warning_message := message |}
        | _, _ => None
        end;
      Lifecycle.vsi_nlb_enabled := negb (raw_nlb_enabled raw =? 0)%Z;
      Lifecycle.vsi_nlb_connected_gw_ip := raw_nlb_connected_gw_ip raw ≫= to_str |}
  end.

(** ** Network configuration *)
Definition read_string (v : option string) : result OsError string :=
  match v with
  | None => Err (Errno EINVAL)
  | Some v => ok_or (Errno EINVAL) (to_str v)
  end.
Definition read_option (o : option string * option string) : result OsError (string * option string) :=
  name ← read_string o.1;
  match o.2 with
  | None => Ok (name, None)
  | Some v => value ← read_string (Some v); Ok (name, Some value)
  end.
Definition snapshot (r : option string) (options : list (option string * option string)) :
    result OsError NetworkConfiguration :=
  r ← read_string r;
  environment ← collect_results (read_option <$> options);
  Ok {| reason := r; environment := environment |}.
Definition configure_network (handler : option Handler) (r : option string)
    (options : list (option string * option string)) : Z :=
  let failed e := (- match raw_os_error e with
                     | Some code => if (0 <? code)%Z then code else EIO
                     | None => EIO
                     end)%Z in
  match (c ← snapshot r options; h ← ok_or (Errno EINVAL) handler; Ok (h c)) with
  | Err e => failed e
  | Ok None => (- EIO)%Z
  | Ok (Some (Err e)) => failed e
  | Ok (Some (Ok _)) => 0
  end.

(** ** Addresses of a gateway (ffi/gateway.rs): a stable sort by the family *)
Inductive Family := Inet | Inet6 | OtherFamily.
#[export] Instance Family_eq_dec : EqDecision Family.
Proof. solve_decision. Defined.
Section family.
Context {Address : Type} (family_of : Address → Family).
Definition prefer_family (l : list Address) (family : Family) : list Address :=
  List.filter (λ a, bool_decide (family_of a = family)) l ++
  List.filter (λ a, negb (bool_decide (family_of a = family))) l.
(** [getaddrinfo] answers a status and a list. *)
Definition resolve_gateway (answer : Z * list Address) (preference : N) : Z * list Address :=
  let '(status, l) := answer in
  if negb (status =? 0)%Z then (status, l)
  else match preference with
  | 4 => (0%Z, prefer_family l Inet)
  | 6 => (0%Z, prefer_family l Inet6)
  | _ => (0%Z, l)
  end.
End family.

(** ** HIP collection (ffi/hip.rs) *)
Record HipRequestRaw := {
  raw_cookie : option string;
  raw_client_ip : option string;
  raw_client_ipv6 : option string;
  raw_md5 : option string;
  raw_client_version : option string;
  raw_client_os : option string;
  raw_os_version : option string;
  raw_host_id : option string;
  raw_local_hostname : option string;
}.
Record HipScriptRaw := {
  raw_path : option string;
  raw_uid : N;
  raw_uid_present : bool;
  raw_validate : bool;
  raw_environment : option (list string);
  raw_cwd : option string;
}.
Definition script_raw_default : HipScriptRaw := {|
  raw_path := None; raw_uid := 0; raw_uid_present := false; raw_validate := false;
  raw_environment := None; raw_cwd := None |}.
(** [from_script], with the environment [script_environment] lends it. *)
Definition script_raw (s : HipScript) : HipScriptRaw := {|
  raw_path := Some (hip_path s); raw_uid := default 0 (hip_user s);
  raw_uid_present := bool_decide (is_Some (hip_user s));
  raw_validate := bool_decide (is_Some (hip_validator s));
  raw_environment := hip_environment s; raw_cwd := hip_cwd s |}.
Definition request_string (v : option string) : result OsError (option string) :=
  match v with
  | None => Ok None
  | Some v => Some <$> ok_or (Kind KInvalidData "Invalid HIP request encoding") (to_str v)
  end.
Definition read_hip_request (raw : HipRequestRaw) : result OsError HipRequest :=
  cookie ← request_string (raw_cookie raw);
  client_ip ← request_string (raw_client_ip raw);
  client_ipv6 ← request_string (raw_client_ipv6 raw);
  md5 ← request_string (raw_md5 raw);
  client_version ← request_string (raw_client_version raw);
  client_os ← request_string (raw_client_os raw);
  os_version ← request_string (raw_os_version raw);
  host_id ← request_string (raw_host_id raw);
  local_hostname ← request_string (raw_local_hostname raw);
  Ok {| hip_cookie := default "" cookie; hip_client_ip := client_ip;
        hip_client_ipv6 := client_ipv6; hip_md5 := default "" md5;
        hip_client_version := default "" client_version;
        hip_client_os := default "" client_os; hip_os_version := default "" os_version;
        hip_host_id := host_id; hip_local_hostname := local_hostname |}.
(** [control.check()] on what the C side answers. *)
Definition control_check (code : Z) : result OsError () :=
  if (code <? 0)%Z then Err (Errno (- code)) else Ok ().
(** The two checks, the generator between them; the report is copied into [capacity]. *)
Definition generate_report (source : HipSource) (raw : HipRequestRaw) (before after_report : Z)
    (capacity : N) : option (result OsError string) :=
  match source with
  | HipGenerator generate =>
      match (r ← read_hip_request raw; _ ← control_check before; Ok r) with
      | Err e => Some (Err e)
      | Ok r =>
          report ← generate r;
          Some (report ← report;
                _ ← control_check after_report;
                _ ← ensure (slen report <=? capacity) (Errno E2BIG);
                Ok report)
      end
  | _ => Some (Err (Kind KInvalidInput "No HIP generator"))
  end.
Definition generate_source_report (source : HipSource) (raw : HipRequestRaw)
    (before after_report : Z) (capacity : N) : Z * option string :=
  match generate_report source raw before after_report capacity with
  | Some (Ok report) => (0%Z, Some report)
  | Some (Err e) => (callback_code (Some (Err e)), None)
  | None => (callback_code None, None)
  end.
Definition validate_hip_script (s : HipScript) (before after_check : Z) : Z :=
  callback_code
    (match control_check before with
     | Err e => Some (Err e)
     | Ok _ => match hip_validator s with
               | None => Some (control_check after_check)
               | Some None => None
               | Some (Some v) => Some (_ ← v; control_check after_check)
               end
     end).
Definition c_value (v : option string) : result OsError (option string) :=
  ok_or (Kind KInvalidInput "HIP request contains NUL") (c_option v).
Definition request_raw (r : HipRequest) : result OsError HipRequestRaw :=
  cookie ← c_value (Some (hip_cookie r));
  client_ip ← c_value (hip_client_ip r);
  client_ipv6 ← c_value (hip_client_ipv6 r);
  md5 ← c_value (Some (hip_md5 r));
  client_version ← c_value (Some (hip_client_version r));
  client_os ← c_value (Some (hip_client_os r));
  os_version ← c_value (Some (hip_os_version r));
  host_id ← c_value (hip_host_id r);
  local_hostname ← c_value (hip_local_hostname r);
  Ok {| raw_cookie := cookie; raw_client_ip := client_ip; raw_client_ipv6 := client_ipv6;
        raw_md5 := md5; raw_client_version := client_version; raw_client_os := client_os;
        raw_os_version := os_version; raw_host_id := host_id;
        raw_local_hostname := local_hostname |}.
(** ** Options of a connection ([connect], [build_connect_options]) *)
Record ScriptTunLaunchRaw := {
  tun_program : string;
  tun_argv : list string;
  tun_uid : N;
  tun_control_fd : Z;
}.
Definition launch_raw (l : ScriptTunLaunch) : ScriptTunLaunchRaw := {|
  tun_program := launch_program l; tun_argv := launch_program l :: launch_arguments l;
  tun_uid := launch_uid l;
  tun_control_fd := match launch_control l with Some fd => Z.of_N fd | None => (-1)%Z end |}.
(** Once the child was started only it keeps the descriptor. *)
Definition vpn_script_started (l : ScriptTunLaunch) : ScriptTunLaunch := {|
  launch_program := launch_program l; launch_arguments := launch_arguments l;
  launch_uid := launch_uid l; launch_control := None |}.
Record ConnectOptions := {
  opt_server : string;
  opt_cookie : string;
  opt_user_agent : string;
  opt_os : string;
  opt_os_version : option string;
  opt_client_version : option string;
  opt_host_id : option string;
  opt_local_hostname : option string;
  opt_script : option string;
  opt_configures_network : bool;
  opt_interface : option string;
  opt_script_tun : N;
  opt_script_tun_launch : option ScriptTunLaunchRaw;
  opt_certificate : option string;
  opt_sslkey : option string;
  opt_key_password : option string;
  opt_servercert : option string;
  opt_hip_script : HipScriptRaw;
  opt_generates_hip : bool;
  opt_reconnect_timeout : N;
  opt_mtu : N;
  opt_disable_ipv6 : N;
  opt_gateway_ip_preference : N;
  opt_no_dtls : N;
  opt_dpd_interval : N;
  opt_no_xmlpost : N;
}.
Definition connect_options (v : Vpn) : ConnectOptions := {|
  opt_server := vpn_server v; opt_cookie := vpn_cookie v; opt_user_agent := vpn_user_agent v;
  opt_os := vpn_os v; opt_os_version := vpn_os_version v;
  opt_client_version := vpn_client_version v; opt_host_id := vpn_host_id v;
  opt_local_hostname := vpn_local_hostname v; opt_script := vpn_script v;
  opt_configures_network := bool_decide (is_Some (vpn_handler v));
  opt_interface := vpn_interface v; opt_script_tun := N.b2n (vpn_script_tun v);
  opt_script_tun_launch := launch_raw <$> vpn_script_tun_launch v;
  opt_certificate := vpn_certificate v; opt_sslkey := vpn_sslkey v;
  opt_key_password := vpn_key_password v; opt_servercert := None;
  opt_hip_script := match vpn_hip_source v with
                    | HipScripted s => script_raw s | _ => script_raw_default end;
  opt_generates_hip := match vpn_hip_source v with HipGenerator _ => true | _ => false end;
  opt_reconnect_timeout := vpn_reconnect_timeout v; opt_mtu := vpn_mtu v;
  opt_disable_ipv6 := N.b2n (vpn_disable_ipv6 v);
  opt_gateway_ip_preference := repr (vpn_gateway_ip_preference v);
  opt_no_dtls := N.b2n (vpn_no_dtls v); opt_dpd_interval := vpn_dpd_interval v;
  opt_no_xmlpost := N.b2n (vpn_no_xmlpost v) |}.

(** ** One collection *)
Definition MAX_HIP_OUTPUT : N := 1024 * 1024.
(** [vpn_collect_hip_report] of the C side: the script, the request, the generator it may
    call, and the capacity of the output; a code and what it wrote. *)
Definition Collect : Type :=
  HipScriptRaw → HipRequestRaw → option (HipRequestRaw → N → Z * option string) → N → Z * string.
Definition collect_hip_report (native : Collect) (script : HipScriptRaw)
    (generate : option (HipRequestRaw → N → Z * option string)) (r : HipRequest) :
    result OsError string :=
  raw ← request_raw r;
  let '(code, output) := native script raw generate MAX_HIP_OUTPUT in
  if (code <? 0)%Z then Err (Errno (- code))
  else ok_or (Kind KInvalidData "HIP output is not UTF-8") (to_str output).
(** [check] answers the checks of one collection. *)
Definition collect_hip_source (native : Collect) (source : HipSource) (before after_report : Z)
    (r : HipRequest) : result OsError string :=
  match source with
  | HipDisabled => Err (Kind KInvalidInput "HIP collection is disabled")
  | HipScripted s => collect_hip_report native (script_raw s) None r
  | HipGenerator _ =>
      collect_hip_report native script_raw_default
        (Some (λ raw capacity, generate_source_report source raw before after_report capacity)) r
  end.
(** The report an observer is given, and whether it is called at all. *)
Definition on_hip_report_submitted (report : option string) (length : N) : option string :=
  match report with
  | None => None
  | Some bytes => if 1024 * 1024 <? length then None else to_str (slice bytes 0 length)
  end.

(** * Scripts are one word of the shell *)

(** The word a POSIX shell reads: a quoted part stands for itself, a backslash for the
    character after it; of the other characters only plain ones are read. *)
Definition plain_char (a : ascii) : bool :=
  is_ascii_alphanumeric (byte_val a) || existsb (Ascii.eqb a) ["/"; "."; "-"; "_"; ","; ":"; "+"; "@"]%char.
Fixpoint sh_word (quoted : bool) (s : string) : option string :=
  match s with
  | EmptyString => if quoted then None else Some ""
  | String a r =>
      if Ascii.eqb a apostrophe then sh_word (negb quoted) r
      else if quoted then String a <$> sh_word true r
      else if Ascii.eqb a "\"%char then
        match r with
        | String b r => String b <$> sh_word false r
        | EmptyString => None
        end
      else if plain_char a then String a <$> sh_word false r else None
  end.
Lemma sh_word_quoted path rest t : sh_word true rest = Some t →
  sh_word true (escape_quotes path +:+ rest) = Some (path +:+ t).
Proof.
  intros Ht. induction path as [|a path IH]; [done|]. cbn [escape_quotes].
  destruct (Ascii.eqb_spec a apostrophe) as [->|Ha].
  - change (String apostrophe <$> sh_word true (escape_quotes path +:+ rest) = Some (String apostrophe (path +:+ t))).
    by rewrite IH.
  - change ((if Ascii.eqb a apostrophe then sh_word false (escape_quotes path +:+ rest)
             else String a <$> sh_word true (escape_quotes path +:+ rest)) = Some (String a (path +:+ t))).
    by rewrite (proj2 (Ascii.eqb_neq _ _) Ha), IH.
Qed.
Lemma shell_quote_one_word path : sh_word false (shell_quote_path path) = Some path.
Proof.
  change (sh_word true (escape_quotes path +:+ String apostrophe "") = Some path).
  rewrite (sh_word_quoted _ _ ""); [by rewrite string_app_nil_r|done].
Qed.
Lemma c_option_Some v o : c_option v = Some o → o = v ∧ ∀ s, v = Some s → contains_nul s = false.
Proof.
  destruct v as [s|]; cbn; [|by intros [= <-]]. unfold c_string. destruct (contains_nul s) eqn:E; [done|].
  intros [= <-]. split; [done|]. by intros s' [= <-].
Qed.
Section scripts.
Variables exists_file is_file is_executable : string → bool.
Variable canonicalize : string → option string.
Variable gp_vpnc_script : option string.
Variable current_exe : option string.
Notation built := (build exists_file is_file is_executable canonicalize gp_vpnc_script current_exe).
Notation find_vpnc_script := (find_vpnc_script is_file is_executable canonicalize gp_vpnc_script current_exe).

(** Which script a built tunnel runs. A builder with a handler of its own runs none,
    and neither does one that launches a program as its tunnel. A path that was given and
    the script that was found are quoted: the shell reads them as one word, which is that
    path, whatever characters it has; the path exists and may be executed. A command that
    was given is passed on as it is. *)
Lemma built_script_is_the_given_one s v : built s = Some (Ok v) →
  match vpn_script v with
  | None => is_Some (b_handler s) ∧ b_script s = None ∧ b_script_tun s = false ∨
            is_Some (b_script_tun_launch s) ∧ b_script_tun s = true
  | Some c =>
      b_handler s = None ∧ contains_nul c = false ∧
      match b_script s with
      | Some script =>
          if b_script_is_path s
          then sh_word false c = Some script ∧ exists_file script = true ∧ is_executable script = true
          else c = script ∧ (exists_file script = true → is_executable script = true)
      | None => ∃ script, find_vpnc_script = Some script ∧ sh_word false c = Some script
      end
  end.
Proof.
  unfold build. destruct (_ && negb (b_script_tun s)) eqn:El; [done|].
  destruct (resolve_script _ _ _ _ _ _ s) as [script|e] eqn:Er; [|done].
  destruct (c_option script) as [script'|] eqn:Ec; [|done]. apply c_option_Some in Ec as [-> Hnul].
  intros Hb. change (Some script ≫= ?k) with (k script) in Hb.
  assert (vpn_script v = script) as ->.
  { repeat (apply bind_Some in Hb as (? & ? & Hb)). by injection Hb as <-. }
  unfold resolve_script in Er. destruct (b_handler s) as [h|] eqn:Eh.
  { destruct (_ || b_script_tun s) eqn:Es; [done|]. injection Er as <-. left.
    apply orb_false_iff in Es as [Es Et]. apply bool_decide_eq_false in Es. split_and!; [by eexists| |done].
    destruct (b_script s); [|done]. by destruct Es. }
  destruct (b_script_tun_launch s) as [l|] eqn:Ela.
  { injection Er as <-. right. split; [by eexists|]. cbn in El. by destruct (b_script_tun s). }
  bind_inv Er. injection Er as <-. split; [done|]. split; [by apply Hnul|].
  destruct (b_script s) as [script|]; cbn [bool_decide] in *.
  - destruct (b_script_is_path s); cbn [andb] in Hx.
    + destruct (exists_file script) eqn:Ee; [|done]. cbn [negb andb] in Hx. bind_inv Hx. injection Hx as <-.
      unfold check_executable in Hx0. rewrite Ee in Hx0. cbn [andb] in Hx0.
      destruct (is_executable script); [|done]. split; [apply shell_quote_one_word|done].
    + bind_inv Hx. injection Hx as <-. split; [done|]. intros Ee. unfold check_executable in Hx0.
      rewrite Ee in Hx0. by destruct (is_executable script) eqn:Ex; cbn in Hx0.
  - exists x. split; [by apply ok_or_Ok in Hx|]. rewrite bool_decide_true, orb_true_r by done. apply shell_quote_one_word.
Qed.
End scripts.

(** * Commands reach the tunnel they are meant for

    The methods of [Cancellation] run one at a time under its mutex; what they do to the
    pipe is recorded. *)
Inductive PipeOp :=
  | OpAttach (fd : N)
  | OpDetach
  | OpStatistics (w : PipeWrite)
  | OpReceived
  | OpCancel (w : PipeWrite).
Inductive PipeEvent :=
  | Attached (fd : N) (pending : bool)
  | Detached
  | Wrote (fd : N) (c : PipeCommand) (w : PipeWrite)
  | Received
  | CancelRequested
  | CancelReturned (r : result OsError ()).
Definition wrote (c : PipeCommand) (w : PipeWrite) (fd : option N) : list PipeEvent :=
  match fd with Some fd => [Wrote fd c w] | None => [] end.
Definition pipe_step (st : Cancellation * list PipeEvent) (op : PipeOp) :
    Cancellation * list PipeEvent :=
  let '(s, log) := st in
  match op with
  | OpAttach fd => let '(pending, s) := attach fd s in (s, log ++ [Attached fd pending])
  | OpDetach => (detach s, log ++ [Detached])
  | OpStatistics w => let '(_, fd, s) := request_statistics w s in (s, log ++ wrote Statistics w fd)
  | OpReceived => (statistics_received s, log ++ [Received])
  | OpCancel w =>
      let '(r, fd, s) := cancel w s in
      (s, log ++ CancelRequested :: wrote Cancel w fd ++ [CancelReturned r])
  end.
Definition pipe_log (ops : list PipeOp) : list PipeEvent :=
  (runs pipe_step (cancellation_new, []) ops).2.

(** What the record says: whether a cancellation was requested, the descriptor attached
    last and not detached, how its tunnel was told of the cancellation (with the answer to
    attaching, or by a write that may have failed), and whether statistics are awaited. *)
Definition is_cancel (e : PipeEvent) : bool := match e with CancelRequested => true | _ => false end.
Definition cancelled (log : list PipeEvent) : bool := existsb is_cancel log.
Definition after_event (st : option N * option (result OsError ()) * bool) (e : PipeEvent) :
    option N * option (result OsError ()) * bool :=
  let '(fd, told, awaited) := st in
  match e with
  | Attached fd pending => (Some fd, if pending then Some (Ok ()) else None, awaited)
  | Detached => (None, None, false)
  | Wrote _ Cancel w => (fd, Some (write_answer w), awaited)
  | Wrote _ Statistics Written => (fd, told, true)
  | Received => (fd, told, false)
  | _ => st
  end.
Definition read_log (log : list PipeEvent) : option N * option (result OsError ()) * bool :=
  fold_left after_event log (None, None, false).
Definition attached (log : list PipeEvent) : option N := (read_log log).1.1.
Definition told (log : list PipeEvent) : option (result OsError ()) := (read_log log).1.2.
Definition awaited (log : list PipeEvent) : bool := (read_log log).2.

(** What may happen after a record. *)
Definition allowed (log : list PipeEvent) (e : PipeEvent) : Prop :=
  match e with
  | Wrote fd Cancel _ =>
      attached log = Some fd ∧ ∃ before, log = before ++ [CancelRequested] ∧ cancelled before = false
  | Wrote fd Statistics _ => attached log = Some fd ∧ cancelled log = false ∧ awaited log = false
  | Attached _ pending => pending = cancelled log
  | CancelReturned r =>
      r = match list.last log with Some (Wrote _ Cancel w) => write_answer w | _ => Ok () end
  | _ => True
  end.
(** The tunnel at [fd] was told of the cancellation, or the one write of it failed and the
    caller got the error. *)
Definition told_or_reported (log : list PipeEvent) (fd : N) : Prop :=
  match told log with
  | Some (Ok _) => True
  | Some (Err e) => ∃ pre w post,
      log = pre ++ [CancelRequested; Wrote fd Cancel w; CancelReturned (Err e)] ++ post
  | None => False
  end.
Inductive lawful : list PipeEvent → Prop :=
  | lawful_nil : lawful []
  | lawful_snoc log e : lawful log → allowed log e → lawful (log ++ [e]).
Lemma lawful_allowed log pre e post : lawful log → log = pre ++ e :: post → allowed pre e.
Proof.
  intros Hl. revert post. induction Hl as [|log e' _ IH Ha]; intros post E; [by destruct pre|].
  destruct post as [|x post _] using rev_ind.
  - apply app_inj_tail in E as [-> ->]. done.
  - rewrite app_comm_cons, app_assoc in E. apply app_inj_tail in E as [-> _]. by eapply IH.
Qed.
Lemma read_log_snoc log e : read_log (log ++ [e]) = after_event (read_log log) e.
Proof. apply fold_left_app. Qed.
Lemma cancelled_snoc log e : cancelled (log ++ [e]) = cancelled log || is_cancel e.
Proof. unfold cancelled. rewrite existsb_app. cbn. by rewrite orb_false_r. Qed.

Record pipe_inv (st : Cancellation * list PipeEvent) : Prop := {
  inv_lawful : lawful st.2;
  inv_requested : requested st.1 = cancelled st.2;
  inv_fd : command_fd st.1 = attached st.2;
  inv_awaited : statistics_pending st.1 = awaited st.2;
  inv_told fd : attached st.2 = Some fd → cancelled st.2 = true → told_or_reported st.2 fd;
}.

Lemma told_or_reported_snoc log l fd : told (log ++ l) = told log →
  told_or_reported log fd → told_or_reported (log ++ l) fd.
Proof.
  unfold told_or_reported. intros ->. destruct (told log) as [[[]|e]|]; [done| |done].
  intros (pre & w & post & ->). exists pre, w, (post ++ l). by rewrite <- !app_assoc.
Qed.
Lemma lawful_app log l : lawful log → (∀ pre e post, l = pre ++ e :: post → allowed (log ++ pre) e) →
  lawful (log ++ l).
Proof.
  intros Hl Ha. induction l as [|e l IH] using rev_ind; [by rewrite app_nil_r|].
  rewrite app_assoc. constructor; [|by apply (Ha l e [])].
  apply IH. intros pre x post ->. apply (Ha pre x (post ++ [e])). by rewrite <- app_assoc.
Qed.
Lemma pipe_cancel_inv w st : pipe_inv st → pipe_inv (pipe_step st (OpCancel w)).
Proof.
  destruct st as [s log]. intros [Hl Hr Hf Ha Hs]. cbn [fst snd pipe_step] in *. unfold cancel.
  assert (∀ l, cancelled (log ++ CancelRequested :: l) = true) as Hc.
  { intros l. unfold cancelled. rewrite existsb_app. cbn. by rewrite orb_true_r. }
  assert (∀ l, read_log (log ++ l) = fold_left after_event l (read_log log)) as Hread.
  { intros l. apply fold_left_app. }
  assert (lawful (log ++ [CancelRequested; CancelReturned (Ok ())])) as Hquiet.
  { apply lawful_app; [done|]. intros [|x [|y [|]]] e post [=]; subst; cbn; [done|].
    by rewrite list.last_snoc. }
  destruct (requested s) eqn:Eq; cbn [wrote app command_fd].
  - split; cbn [fst snd]; [done|by rewrite Hc|unfold attached, awaited; rewrite Hread..|].
    + rewrite Hf. unfold attached. by destruct (read_log log) as [[? ?] ?].
    + rewrite Ha. unfold awaited. by destruct (read_log log) as [[? ?] ?].
    + intros fd Hfd _. unfold attached in Hfd. rewrite Hread in Hfd.
      apply told_or_reported_snoc; [unfold told; rewrite Hread; by destruct (read_log log) as [[? ?] ?]|].
      apply Hs; [|by rewrite <- Hr]. unfold attached. by destruct (read_log log) as [[? ?] ?].
  - destruct (command_fd s) as [fd|] eqn:Ef; cbn [wrote app].
    + split; cbn [fst snd requested command_fd statistics_pending]; [|by rewrite Hc|..].
      * apply lawful_app; [done|]. intros [|x [|y [|z [|]]]] e post [=]; subst; cbn; [done|..].
        -- split; [unfold attached; rewrite Hread; unfold attached in Hf; by destruct (read_log log) as [[? ?] ?]|].
           by exists log.
        -- replace (log ++ [CancelRequested; Wrote fd Cancel w])
             with ((log ++ [CancelRequested]) ++ [Wrote fd Cancel w]) by by rewrite <- app_assoc.
           by rewrite list.last_snoc.
      * unfold attached in *. rewrite Hread. by destruct (read_log log) as [[? ?] ?].
      * unfold awaited in *. rewrite Hread. by destruct (read_log log) as [[? ?] ?].
      * intros fd' Hfd _. unfold attached in *. unfold told_or_reported, told. rewrite Hread in *.
        destruct (read_log log) as [[fd0 tl] aw]. cbn in *. subst fd0. injection Hfd as <-.
        destruct (write_answer w) as [[]|e] eqn:Ew; [done|]. exists log, w, []. by rewrite ?Ew.
    + split; cbn [fst snd requested command_fd statistics_pending]; [done|by rewrite Hc|..];
        unfold attached, awaited in *; rewrite Hread.
      * by destruct (read_log log) as [[? ?] ?].
      * by destruct (read_log log) as [[? ?] ?].
      * intros fd Hfd. exfalso. destruct (read_log log) as [[? ?] ?]. cbn in *. congruence.
Qed.
Lemma pipe_step_inv st op : pipe_inv st → pipe_inv (pipe_step st op).
Proof.
  destruct st as [s log]. intros Hinv. pose proof Hinv as [Hl Hr Hf Ha Hs]. cbn [fst snd] in *.
  destruct op as [fd| |w| |w]; cbn [pipe_step attach detach statistics_received].
  - split; cbn [fst snd requested command_fd statistics_pending]; unfold attached, awaited;
      rewrite ?read_log_snoc, ?cancelled_snoc, ?orb_false_r; [by constructor|done|..].
    + by destruct (read_log log) as [[? ?] ?].
    + unfold awaited in Ha. by destruct (read_log log) as [[? ?] ?].
    + intros fd' _ Hc. unfold told_or_reported, told. rewrite read_log_snoc, Hr.
      destruct (read_log log) as [[? ?] ?]. cbn in *. by rewrite Hc.
  - split; cbn [fst snd requested command_fd statistics_pending]; unfold attached, awaited;
      rewrite ?read_log_snoc, ?cancelled_snoc, ?orb_false_r; [by constructor|done|..];
      destruct (read_log log) as [[? ?] ?]; cbn; done.
  - unfold request_statistics. rewrite Hr, Ha, Hf.
    destruct (cancelled log) eqn:Ec; cbn [orb wrote]; [by rewrite app_nil_r|].
    destruct (awaited log) eqn:Ew; cbn [wrote]; [by rewrite app_nil_r|].
    destruct (attached log) as [fd|] eqn:Ef; [|by rewrite app_nil_r].
    assert (lawful (log ++ [Wrote fd Statistics w])) as Hl'.
    { constructor; [done|]. unfold allowed. by rewrite Ew. }
    assert (∀ b, pipe_inv ({| requested := requested s; command_fd := command_fd s; statistics_pending := b |},
        log ++ [Wrote fd Statistics w]) ↔ b = awaited (log ++ [Wrote fd Statistics w])) as Hb.
    { intros b. split; [intros []; done|]. intros ->.
      split; cbn [fst snd requested command_fd statistics_pending]; try done.
      - by rewrite cancelled_snoc, Ec.
      - rewrite Hf. unfold attached. rewrite read_log_snoc. unfold attached in Ef.
        destruct (read_log log) as [[? ?] ?]. cbn in *. by destruct w.
      - rewrite cancelled_snoc, Ec. done. }
    assert (awaited (log ++ [Wrote fd Statistics w]) = match w with Written => true | _ => false end) as Hw.
    { unfold awaited in *. rewrite read_log_snoc. destruct (read_log log) as [[? ?] ?]. cbn in *. by destruct w. }
    rewrite Hw in Hb. destruct s as [rq cf sp]. cbn in *. subst. by destruct w; apply Hb.
  - split; cbn [fst snd requested command_fd statistics_pending]; unfold attached, awaited in *;
      rewrite ?read_log_snoc, ?cancelled_snoc, ?orb_false_r; [by constructor|done|..].
    + by destruct (read_log log) as [[? ?] ?].
    + by destruct (read_log log) as [[? ?] ?].
    + intros fd Hfd Hc. apply told_or_reported_snoc; [|apply Hs; [|done]].
      * unfold told. rewrite read_log_snoc. by destruct (read_log log) as [[? ?] ?].
      * by destruct (read_log log) as [[? ?] ?].
  - exact (pipe_cancel_inv w (s, log) Hinv).
Qed.

(** C20: commands go to the tunnel they are meant for, and a cancellation that does not
    reach it is reported. In whatever order the mutex serves the attaching and detaching
    of the pipe, the requests for statistics, their arrival and the cancellations, and
    whatever the writes answer: a command is written only to the descriptor that is
    attached; the cancellation is written at most once, right after it was first requested,
    and nothing after it; a pipe that is attached later is told at once; while a pipe is
    attached its tunnel has been told of a requested cancellation in one of the two ways,
    unless the one write of it failed, and then the request that made it got the error;
    every other request succeeds; and statistics are asked for only when none are awaited. *)
Theorem tunnel_commands_lawful ops :
  let log := pipe_log ops in
  (∀ pre e post, log = pre ++ e :: post → allowed pre e) ∧
  (∀ fd, attached log = Some fd → cancelled log = true → told_or_reported log fd).
Proof.
  cbv zeta. assert (pipe_inv (runs pipe_step (cancellation_new, []) ops)) as [Hl _ _ _ Hs].
  { apply runs_invariant; [intros; by apply pipe_step_inv|]. split; cbn; [constructor|done..]. }
  split; [intros pre e post; by apply lawful_allowed|done].
Qed.
(** A cancellation whose write fails is lost: the first request is answered with the error,
    and the next ones with success, while the tunnel runs on untold. *)
Example lost_cancellation :
  let log := pipe_log [OpAttach 5; OpCancel WouldBlock; OpCancel Written] in
  log = [Attached 5 false; CancelRequested; Wrote 5 Cancel WouldBlock; CancelReturned (Err (Errno EAGAIN));
         CancelRequested; CancelReturned (Ok ())] ∧ told log = Some (Err (Errno EAGAIN)).
Proof. by vm_compute. Qed.

(** * Addresses, sessions and HIP requests *)
(** Every address is kept, and those of one family in their order. *)
Lemma prefer_family_sound {A} (f : A → Family) l p :
  prefer_family f l p ≡ₚ l ∧
  (∀ q, List.filter (λ a, bool_decide (f a = q)) (prefer_family f l p) =
        List.filter (λ a, bool_decide (f a = q)) l) ∧
  (∀ a, a ∈ l → f a = p → ∃ b, head (prefer_family f l p) = Some b ∧ f b = p).
Proof.
  unfold prefer_family. split_and!.
  - induction l as [|a l IH]; [done|]. cbn. destruct (bool_decide (f a = p)); cbn.
    + by apply Permutation_skip.
    + by rewrite <- Permutation_middle, IH.
  - intros q. rewrite List.filter_app. induction l as [|a l IH]; [done|]. cbn.
    destruct (bool_decide_reflect (f a = p)) as [Hp|Hp]; cbn.
    + destruct (bool_decide (f a = q)); cbn; [by f_equal|done].
    + destruct (bool_decide_reflect (f a = q)) as [Hq|Hq]; cbn; [|done].
      assert (List.filter (λ a, bool_decide (f a = q)) (List.filter (λ a, bool_decide (f a = p)) l) = []) as E.
      { clear IH. induction l as [|b l IHl]; [done|]. cbn.
        destruct (bool_decide_reflect (f b = p)) as [Hb|]; [|done]. cbn. rewrite bool_decide_false; [done|].
        congruence. }
      rewrite E in *. cbn in *. by rewrite IH.
  - intros a Ha Hf. destruct (List.filter (λ a, bool_decide (f a = p)) l) as [|b k] eqn:E.
    + assert (a ∈ List.filter (λ a, bool_decide (f a = p)) l) as Hin.
      { apply list_elem_of_In, List.filter_In. split; [by apply list_elem_of_In|]. by apply bool_decide_eq_true. }
      rewrite E in Hin. by apply not_elem_of_nil in Hin.
    + exists b. split; [done|]. assert (In b (List.filter (λ a, bool_decide (f a = p)) l)) as Hb
        by (rewrite E; by left). apply List.filter_In in Hb as [_ Hb]. by apply bool_decide_eq_true in Hb.
Qed.
Lemma positive_bounds v n : positive_i64_to_u32 v = Some n → 0 < n ≤ u32_max ∧ v = Z.of_N n.
Proof.
  unfold positive_i64_to_u32, u32_max. destruct (_ && _) eqn:E; [|done]. intros [= <-].
  apply andb_true_iff in E as [E1%Z.ltb_lt E2%Z.leb_le]. lia.
Qed.
(** The times of a session are unknown or positive numbers of 32 bits. *)
Lemma session_info_bounded raw :
  let i := session_info_from_raw raw in
  (∀ n, Lifecycle.vsi_lifetime_secs i = Some n → 0 < n ≤ u32_max) ∧
  (∀ n, Lifecycle.vsi_user_expires i = Some n → 0 < n ≤ u32_max) ∧
  (∀ w, Lifecycle.vsi_lifetime_warning i = Some w →
     0 < Session.prior_secs w ≤ u32_max ∧ Session.warning_message w ≠ "").
Proof.
  destruct raw as [raw|]; [|done]. cbn. split_and!.
  - intros n Hn. apply (positive_bounds _ _ Hn).
  - intros n. destruct (positive_i64_to_u32 (raw_user_expires raw)) as [m|] eqn:E; intros Hn; simplify_eq;
      by eapply positive_bounds.
  - intros w. destruct (positive_i64_to_u32 _) as [p|] eqn:E; [|done].
    destruct (non_empty_text _) as [m|] eqn:Em; [|done]. intros [= <-]. cbn. split; [by eapply positive_bounds|].
    unfold non_empty_text in Em. apply bind_Some in Em as (t & _ & Ht). intros ->. by destruct t; simplify_eq/=.
Qed.
(** The texts of a request. *)
Definition request_texts (r : HipRequest) : list string :=
  [hip_cookie r; hip_md5 r; hip_client_version r; hip_client_os r; hip_os_version r] ++
  mjoin (option_list <$> [hip_client_ip r; hip_client_ipv6 r; hip_host_id r; hip_local_hostname r]).
Lemma request_string_valid v w : c_option v = Some w → (∀ s, v = Some s → to_str s = Some s) →
  request_string w = Ok v.
Proof.
  intros Hc Hv. apply c_option_Some in Hc as [-> _]. destruct v as [s|]; [|done].
  cbn. by rewrite (Hv s eq_refl).
Qed.
(** What the library reads is the request that was made. *)
Lemma hip_request_round_trip r raw : request_raw r = Ok raw →
  Forall (λ s, to_str s = Some s) (request_texts r) → read_hip_request raw = Ok r.
Proof.
  unfold request_raw. intros Hr Hv. bind_inv Hr. injection Hr as <-. unfold read_hip_request. cbn -[c_option] in *.
  assert (∀ v w, c_option v = Some w → (∀ s, v = Some s → s ∈ request_texts r) → request_string w = Ok v) as Hs.
  { intros v w Hc Hin. apply (request_string_valid _ _ Hc). intros s Es.
    by apply (proj1 (list.Forall_forall _ _) Hv), Hin. }
  assert (∀ o s, o = Some s → o ∈ [hip_client_ip r; hip_client_ipv6 r; hip_host_id r; hip_local_hostname r] →
    s ∈ request_texts r) as Ho.
  { intros o s -> Hin. apply elem_of_app. right. apply list_elem_of_join. exists [s].
    split; [by left|]. apply list_elem_of_fmap. by exists (Some s). }
  assert (∀ t s, Some t = Some s →
    t ∈ [hip_cookie r; hip_md5 r; hip_client_version r; hip_client_os r; hip_os_version r] →
    s ∈ request_texts r) as Ht by (intros t s [= <-] Hin; apply elem_of_app; by left).
  repeat match goal with H : c_option ?v = Some ?w |- _ =>
    apply Hs in H; [rewrite H; clear H|intros s E; first
      [apply (Ho _ _ E); rewrite !elem_of_cons; tauto|apply (Ht _ _ E); rewrite !elem_of_cons; tauto]] end.
  cbn. by destruct r.
Qed.
(** A generated report is what the generator answered to the request, if it is UTF-8 and
    fits the output; otherwise the collection fails, and so it does when a check fails.
    [forward] is a library that only passes the request on. *)
Definition forward : Collect := λ _ raw g capacity,
  match g with
  | Some g => let '(code, output) := g raw capacity in (code, default "" output)
  | None => ((- EIO)%Z, "")
  end.
Lemma generated_report_collected generate before after_report r report :
  Forall (λ s, to_str s = Some s) (request_texts r) →
  (∀ code, generate r = Some (Err (Errno code)) → (0 < code)%Z) →
  collect_hip_source forward (HipGenerator generate) before after_report r = Ok report →
  generate r = Some (Ok report) ∧ slen report ≤ MAX_HIP_OUTPUT ∧
  (0 ≤ before)%Z ∧ (0 ≤ after_report)%Z.
Proof.
  intros Hv Hpos. unfold collect_hip_source, collect_hip_report. intros Hc. bind_inv Hc.
  assert (∀ e, (error_code e < 0)%Z →
    (let '(code, output) := (error_code e, "") in
     if (code <? 0)%Z then Err (Errno (- code))
     else ok_or (Kind KInvalidData "HIP output is not UTF-8") (to_str output)) = Ok report → False) as Hneg.
  { intros e He. cbn. by rewrite (proj2 (Z.ltb_lt _ _) He). }
  unfold forward, generate_source_report, generate_report in Hc.
  rewrite (hip_request_round_trip _ _ Hx Hv) in Hc. unfold control_check in Hc.
  cbn [mbind result_bind] in Hc. destruct (Z.ltb_spec before 0) as [Hb|Hb]; cbn [mbind result_bind callback_code default] in Hc.
  { destruct (Hneg (Errno (- before))); [unfold error_code; lia|exact Hc]. }
  destruct (generate r) as [[rep|e]|] eqn:Eg; cbn [mbind option_bind result_bind callback_code default] in Hc.
  - destruct (Z.ltb_spec after_report 0) as [Ha|Ha]; cbn [mbind option_bind result_bind callback_code default] in Hc.
    { destruct (Hneg (Errno (- after_report))); [unfold error_code; lia|exact Hc]. }
    destruct (N.leb_spec (slen rep) MAX_HIP_OUTPUT) as [Hl|Hl]; cbn [ensure mbind option_bind result_bind callback_code default] in Hc.
    + cbn in Hc. unfold to_str in Hc. destruct (String.eqb _ rep); [|done]. injection Hc as ->. done.
    + destruct (Hneg (Errno E2BIG)); [done|exact Hc].
  - destruct (Hneg e); [|exact Hc]. destruct e as [code|k m]; [|by destruct k]. unfold error_code.
    pose proof (Hpos code eq_refl). lia.
  - done.
Qed.

Module OpenconnectExample.
Definition builder : VpnBuilder :=
  script_path (Some "/opt/bob's tools/vpnc-script") (builder_new "vpn.example.com" "authcookie=1").
Definition here (path : string) : bool := String.eqb path "/opt/bob's tools/vpnc-script".
Definition built : option (result string Vpn) := build here here here Some None None builder.
Definition quoted : string := "'/opt/bob'\''s tools/vpnc-script'".
Lemma built_script_is_the_given_one_witness :
  ∃ v, built = Some (Ok v) ∧ vpn_script v = Some quoted ∧
       sh_word false quoted = Some "/opt/bob's tools/vpnc-script".
Proof.
  destruct built as [[v|e]|] eqn:E; [|by vm_compute in E..]. exists v.
  assert (vpn_script v = Some quoted) as Hq by (vm_compute in E; injection E as <-; by vm_compute).
  split; [done|]. split; [done|]. pose proof (built_script_is_the_given_one _ _ _ _ _ _ builder v E) as Hb.
  rewrite Hq in Hb. apply Hb.
Defined.
(** A cancellation that comes before the pipe, and statistics around a reconnection. *)
Definition late : list PipeOp :=
  [OpAttach 5; OpStatistics Written; OpStatistics Written; OpReceived; OpStatistics WouldBlock; OpDetach;
   OpCancel Written; OpAttach 6; OpStatistics Written; OpCancel Written].
(** One whose write fails. *)
Definition refused : list PipeOp := [OpAttach 5; OpStatistics Written; OpCancel (WriteFailed 32); OpCancel Written].
Lemma tunnel_commands_lawful_witness :
  pipe_log late = [Attached 5 false; Wrote 5 Statistics Written; Received; Wrote 5 Statistics WouldBlock;
    Detached; CancelRequested; CancelReturned (Ok ()); Attached 6 true; CancelRequested; CancelReturned (Ok ())] ∧
  allowed [Attached 5 false; Wrote 5 Statistics Written; Received] (Wrote 5 Statistics WouldBlock) ∧
  attached (pipe_log late) = Some 6 ∧ told_or_reported (pipe_log late) 6 ∧ told (pipe_log late) = Some (Ok ()) ∧
  told_or_reported (pipe_log refused) 5 ∧ told (pipe_log refused) = Some (Err (Errno 32)).
Proof.
  destruct (tunnel_commands_lawful late) as [Ha Hs]. destruct (tunnel_commands_lawful refused) as [_ Hr].
  split; [by vm_compute|]. split.
  - by apply (Ha _ _ [Detached; CancelRequested; CancelReturned (Ok ()); Attached 6 true; CancelRequested;
      CancelReturned (Ok ())]); vm_compute.
  - split; [by vm_compute|]. split; [by apply (Hs 6); vm_compute|]. split; [by vm_compute|].
    split; [by apply (Hr 5); vm_compute|by vm_compute].
Defined.
End OpenconnectExample.
