(* ===== verification/Redact.v ===== *)
(** Log redaction (crates/gpapi/src/utils/redact.rs): registered values, single values,
    URIs and form parameters.

    The regular expressions are the regex crate's: [find_iter] gives the texts a pattern
    matches. A [str] slice off a character boundary panics: the functions that slice
    answer [None] then. *)
From S2P Require Import Prelude Utf8.
From Stdlib Require Import Strings.Ascii.

#[local] Open Scope N_scope.

(** * The crates *)

(** [regex]: [regex_literal t] is [Regex::new(&regex::escape(t))], [regex_ipv4] the
    pattern of [Redaction::new]. *)
Class RegexCrate := {
  Regex : Type;
  regex_literal : string → option Regex;
  regex_ipv4 : Regex;
  find_iter : Regex → string → list string;
}.

(** The leftmost matches of a text that do not overlap; [skip] is what is left of the
    match before. *)
Fixpoint literal_matches (t : list ascii) (skip : nat) (s : list ascii) : nat :=
  match s with
  | [] => 0
  | c :: s' =>
      match skip with
      | S k => literal_matches t k s'
      | O => if decide (t `prefix_of` s)
             then S (literal_matches t (length t - 1) s')
             else literal_matches t 0 s'
      end
  end.
Definition chars (s : string) : list ascii := String.list_ascii_of_string s.
(** An escaped pattern matches its literal. *)
Class RegexLaws `{RegexCrate} := {
  find_iter_literal t r s : regex_literal t = Some r → chars t ≠ [] →
    find_iter r s = replicate (literal_matches (chars t) 0 (chars s)) t;
}.

(** [url] and [form_urlencoded]. *)
Class UriCrate := {
  Uri : Type;
  uri_parse : string → option Uri;
  cannot_be_a_base : Uri → bool;
  uri_scheme : Uri → string;
  uri_path : Uri → string;
  uri_host_str : Uri → option string;
  uri_query : Uri → option string;
  uri_set_host : option string → Uri → option Uri;
  uri_set_query : option string → Uri → Uri;
  uri_to_string : Uri → string;
  form_parse : string → list (string * string);
  form_serialize : list (string * string) → string;
}.

Definition MASK : string := "[**********]".

(** [str::replacen(pat, to, 1)] *)
Fixpoint replace_first (pat to s : string) : string :=
  match strip_prefix pat s with
  | Some rest => to +:+ rest
  | None =>
      match s with
      | EmptyString => EmptyString
      | String c s' => String c (replace_first pat to s')
      end
  end.

Section redaction.
Context `{RegexCrate} `{UriCrate}.

Definition Redaction : Type := list Regex.
Definition redaction_new : Redaction := [regex_ipv4].
(** Either every value is added or none. *)
Definition add_values (texts : list string) (r : Redaction) : option Redaction :=
  patterns ← mapM regex_literal texts; Some (r ++ patterns).
Definition add_value (text : string) (r : Redaction) : option Redaction := add_values [text] r.
Definition redact_pattern (text acc : string) (p : Regex) : string :=
  fold_left (λ acc m, replace_first m MASK acc) (find_iter p text) acc.
Definition redact_str (r : Redaction) (text : string) : string :=
  fold_left (redact_pattern text) r text.

(** [&text[i..j]] *)
Definition str_slice (s : string) (i j : N) : option string :=
  if (i <=? j) && is_char_boundary s i && is_char_boundary s j then Some (slice s i j) else None.
Definition redact_value (text : string) : option string :=
  if slen text <? 3 then Some text
  else
    first ← str_slice text 0 1;
    last ← str_slice text (slen text - 1) (slen text);
    Some (first +:+ "**********" +:+ last).

(** The pairs are redacted one after the other. *)
Definition redact_query (query : option string) : option (option string) :=
  match query with
  | None => Some None
  | Some q =>
      pairs ← mapM (λ kv : string * string, v ← redact_value kv.2; Some (kv.1, v)) (form_parse q);
      Some (Some (form_serialize pairs))
  end.

Definition redact_uri (uri : string) : option string :=
  match uri_parse uri with
  | None => Some uri
  | Some url =>
      if cannot_be_a_base url then
        if String.eqb (uri_scheme url) "about" then Some uri
        else if 15 <? slen (uri_path url) then
          head ← str_slice (uri_path url) 0 10;
          tail ← str_slice (uri_path url) 10 (slen (uri_path url));
          tail ← redact_value tail;
          Some (uri_scheme url +:+ ":" +:+ head +:+ tail)
        else
          path ← redact_value (uri_path url);
          Some (uri_scheme url +:+ ":" +:+ path)
      else
        host ← redact_value (default "" (uri_host_str url));
        match uri_set_host (Some host) url with
        | None =>
            query ← redact_query (uri_query url);
            let query := match query with Some q => "?" +:+ q | None => "" end in
            Some (uri_scheme url +:+ "://[**********]" +:+ uri_path url +:+ query)
        | Some url =>
            query ← redact_query (uri_query url);
            Some (uri_to_string (uri_set_query query url))
        end
  end.

Definition safe_form_params : list string :=
  ["clientVer"; "clientos"; "config-digest"; "csc-digest"; "csc-support"; "direct";
   "ipv6-support"; "jnlpReady"; "ok"; "os-version"; "prot"; "swg-auth-token"; "swg-nonce"].
Definition is_safe_form_param (key : string) : bool := bool_decide (key ∈ safe_form_params).
(** [usize]'s [Display]. *)
Variable show_usize : N → string.
Definition redact_form_value (key value : string) : string :=
  if String.eqb value "" || is_safe_form_param key then value
  else "redacted-" +:+ show_usize (slen value).
(** [sort_by] on the keys is stable: an insertion after the equal ones. *)
Fixpoint insert_pair (p : string * string) (l : list (string * string)) : list (string * string) :=
  match l with
  | [] => [p]
  | q :: l' => if String.ltb p.1 q.1 then p :: l else q :: insert_pair p l'
  end.
Definition sort_pairs (l : list (string * string)) : list (string * string) :=
  fold_left (λ acc p, insert_pair p acc) l [].
Definition redact_form_params (params : list (string * string)) : string :=
  form_serialize (sort_pairs ((λ kv, (kv.1, redact_form_value kv.1 kv.2)) <$> params)).
End redaction.

(** * Occurrences *)
Section occurrences.
Context {A : Type} `{EqDecision A} (t : list A).

(** [s] holds [n] occurrences of [t] that do not overlap. *)
Inductive occ : nat → list A → Prop :=
  | occ_O s : occ 0 s
  | occ_S n x y : occ n y → occ (S n) (x ++ t ++ y).

Lemma occ_app_l n x s : occ n s → occ n (x ++ s).
Proof.
  destruct 1 as [|n x' y Hy]; [constructor|]. rewrite app_assoc. by constructor.
Qed.
Lemma occ_app i j a b : occ i a → occ j b → occ (i + j) (a ++ b).
Proof.
  induction 1 as [|i x y Hy IH]; intros Hb; cbn; [by apply occ_app_l|].
  rewrite <- !app_assoc. constructor. auto.
Qed.
Lemma occ_app_r n s y : occ n s → occ n (s ++ y).
Proof. intros Hs. rewrite <- (Nat.add_0_r n). apply occ_app; [done|constructor]. Qed.
Lemma occ_less n s : occ (S n) s → occ n s.
Proof.
  revert s. induction n as [|n IH]; intros s Hs; [constructor|].
  inversion Hs as [|m x y Hy]; subst. constructor. by apply IH.
Qed.

(** Neither list contradicts the other. *)
Fixpoint agree (a b : list A) : bool :=
  match a, b with
  | x :: a, y :: b => bool_decide (x = y) && agree a b
  | _, _ => true
  end.
Lemma agree_app a b p q : a ++ p = b ++ q → agree a b = true.
Proof.
  revert b. induction a as [|x a IH]; intros [|y b]; cbn; try done. intros [= -> He].
  rewrite bool_decide_true by done. by apply IH.
Qed.
(** However [t] is laid over [m] there is a place where they differ: neither begins in the
    other and goes on with it. *)
Definition apart (m : list A) : bool :=
  negb (existsb (λ j, agree m (drop j t)) (seq 0 (length t))) &&
  negb (existsb (λ i, agree (drop i m) t) (seq 0 (length m))).
Lemma apart_spec m : apart m = true →
  (∀ j, (j < length t)%nat → agree m (drop j t) = false) ∧
  (∀ i, (i < length m)%nat → agree (drop i m) t = false).
Proof.
  intros [Ht Hm]%andb_true_iff. apply negb_true_iff in Ht, Hm.
  split; intros k Hk; [destruct (agree m (drop k t)) eqn:E|destruct (agree (drop k m) t) eqn:E]; try done;
    exfalso; [rewrite (proj2 (existsb_exists _ _)) in Ht|rewrite (proj2 (existsb_exists _ _)) in Hm]; try done;
    exists k; (split; [apply in_seq; lia|done]).
Qed.
(** In particular when they share nothing. *)
Lemma disjoint_apart m : (∀ c, c ∈ m → c ∈ t → False) → m ≠ [] → t ≠ [] → apart m = true.
Proof.
  intros Hdis Hm Ht. unfold apart. rewrite <- negb_orb. apply negb_true_iff, orb_false_iff.
  assert (∀ i j, (i < length m)%nat → (j < length t)%nat → agree (drop i m) (drop j t) = false) as Hd.
  { intros i j Hi Hj. apply lookup_lt_is_Some_2 in Hi as [x Hx]. apply lookup_lt_is_Some_2 in Hj as [y Hy].
    rewrite (drop_S _ _ _ Hx), (drop_S _ _ _ Hy). cbn. rewrite bool_decide_false; [done|]. intros ->.
    apply (Hdis y); by eapply list_elem_of_lookup_2. }
  assert (0 < length m)%nat by (destruct m; cbn; [done|lia]).
  assert (0 < length t)%nat by (destruct t; cbn; [done|lia]).
  split; apply existsb_false_forall; intros k Hk%list_elem_of_In%in_seq; [apply (Hd 0%nat)|apply (Hd k 0%nat)]; lia.
Qed.

(** An occurrence lies on one side of a text it is apart from. *)
Lemma occurrence_side a m b x y :
  apart m = true → a ++ m ++ b = x ++ t ++ y →
  (∃ z, a = x ++ t ++ z ∧ y = z ++ m ++ b) ∨ (∃ z, b = z ++ t ++ y).
Proof.
  intros [Hat Ham]%apart_spec He.
  destruct (decide (length x + length t ≤ length a)%nat) as [Hl|Hl];
    [|destruct (decide (length a + length m ≤ length x)%nat) as [Hr|Hr]].
  - left. exists (drop (length x + length t) a).
    assert (x = take (length x) a) as Hx.
    { apply (f_equal (take (length x))) in He. rewrite take_app_length, take_app_le in He by lia. done. }
    assert (t = take (length t) (drop (length x) a)) as Htt.
    { apply (f_equal (λ l, take (length t) (drop (length x) l))) in He.
      rewrite drop_app_length, take_app_length, drop_app_le, take_app_le in He
        by (rewrite ?length_drop; lia). done. }
    split.
    + rewrite Hx at 1. rewrite Htt at 1. rewrite <- drop_drop, take_drop. by rewrite take_drop.
    + apply (f_equal (drop (length x + length t))) in He.
      rewrite drop_app_le in He by lia. rewrite He, app_assoc.
      by rewrite drop_app_length' by (rewrite length_app; lia).
  - right. exists (drop (length a + length m) x).
    apply (f_equal (drop (length a + length m))) in He.
    rewrite app_assoc, drop_app_length' in He by (rewrite length_app; lia).
    rewrite He. by rewrite drop_app_le by lia.
  - exfalso. destruct (decide (length x ≤ length a)%nat) as [Hx|Hx].
    + apply (f_equal (drop (length a))) in He. rewrite drop_app_length in He.
      rewrite drop_app_ge, drop_app_le in He by lia.
      specialize (Hat (length a - length x)%nat ltac:(lia)). by rewrite (agree_app _ _ _ _ He) in Hat.
    + apply (f_equal (drop (length x))) in He. rewrite drop_app_length in He.
      rewrite drop_app_ge, drop_app_le in He by lia.
      specialize (Ham (length x - length a)%nat ltac:(lia)). by rewrite (agree_app _ _ _ _ He) in Ham.
Qed.
Lemma occ_mask n a m b :
  apart m = true → occ n (a ++ m ++ b) → ∃ i j, n = (i + j)%nat ∧ occ i a ∧ occ j b.
Proof.
  intros Hdis. revert a. induction n as [|n IH]; intros a Ho.
  - exists 0%nat, 0%nat. split_and!; [done|constructor..].
  - inversion Ho as [|n' x y Hy Hn He]; subst n'.
    destruct (occurrence_side a m b x y) as [(z & -> & ->)|(z & ->)]; [done..| |].
    + destruct (IH z Hy) as (i & j & -> & Hi & Hj). exists (S i), j.
      split_and!; [done|by constructor|done].
    + exists 0%nat, (S n). split_and!; [done|constructor|by constructor].
Qed.
End occurrences.

(** The leftmost matches are as many as any choice of occurrences. *)
Section leftmost.
Context (t : list ascii) (Ht : t ≠ []).

Lemma literal_matches_skip k s : literal_matches t k s = literal_matches t 0 (drop k s).
Proof.
  revert k. induction s as [|c s IH]; intros [|k]; [done..|]. cbn [literal_matches drop]. apply IH.
Qed.
Lemma literal_matches_cons c s :
  literal_matches t 0 (c :: s) =
  if decide (t `prefix_of` c :: s) then S (literal_matches t 0 (drop (length t - 1) s))
  else literal_matches t 0 s.
Proof. cbn [literal_matches]. by rewrite literal_matches_skip. Qed.

Lemma literal_matches_drop s :
  (∀ j, literal_matches t 0 (drop j s) ≤ literal_matches t 0 s)%nat ∧
  (∀ k, k < length t → literal_matches t 0 s ≤ S (literal_matches t 0 (drop k s)))%nat.
Proof.
  remember (length s) as n eqn:Hn. assert (length s ≤ n)%nat as Hle by lia. clear Hn.
  revert s Hle. induction n as [|n IH]; intros [|c s] Hle; cbn [length] in Hle;
    try lia; try (by split; intros j; rewrite ?drop_nil; lia).
  destruct (IH s) as [Hm Hl]; [lia|].
  assert (literal_matches t 0 s ≤ literal_matches t 0 (c :: s))%nat as Hc.
  { rewrite literal_matches_cons. destruct (decide _); [|lia]. apply Hl.
    destruct t; cbn; [done|lia]. }
  split.
  - intros [|j]; cbn [drop]; [lia|]. specialize (Hm j). lia.
  - intros [|k] Hk; cbn [drop]; [lia|]. rewrite literal_matches_cons.
    destruct (decide _).
    + replace (length t - 1)%nat with (k + (length t - 1 - k))%nat by lia.
      rewrite <- drop_drop. destruct (IH (drop k s)) as [Hm' _]; [rewrite length_drop; lia|].
      specialize (Hm' (length t - 1 - k)%nat). lia.
    + apply Hl. lia.
Qed.
Lemma literal_matches_occurrence x y :
  (S (literal_matches t 0 y) ≤ literal_matches t 0 (x ++ t ++ y))%nat.
Proof.
  induction x as [|c x IH]; cbn [app].
  - destruct t as [|c t'] eqn:E; [done|]. cbn [app]. rewrite <- E, literal_matches_cons.
    rewrite decide_True by (rewrite E; by exists y).
    rewrite E. cbn [length]. replace (S (length t') - 1)%nat with (length t') by lia.
    by rewrite drop_app_length.
  - rewrite literal_matches_cons. destruct (decide _); [|done]. apply le_n_S.
    destruct (literal_matches_drop (drop (length t - 1) (x ++ t ++ y))) as [Hm _].
    specialize (Hm (S (length x))). rewrite drop_drop in Hm.
    replace (length t - 1 + S (length x))%nat with (length x + length t)%nat in Hm
      by (destruct t; cbn; [done|lia]).
    rewrite app_assoc, drop_app_length' in Hm by (rewrite length_app; lia).
    rewrite <- app_assoc in Hm. exact Hm.
Qed.
Lemma literal_matches_max n s : occ t n s → (n ≤ literal_matches t 0 s)%nat.
Proof.
  induction 1 as [|n x y Hy IH]; [lia|]. pose proof (literal_matches_occurrence x y). lia.
Qed.
End leftmost.

(** ** Strings *)
Lemma chars_app a b : chars (a +:+ b) = chars a ++ chars b.
Proof.
  induction a as [|c a IH]; [done|].
  change (c :: chars (a +:+ b) = c :: chars a ++ chars b). by rewrite IH.
Qed.
Lemma strip_prefix_chars p s :
  match strip_prefix p s with
  | Some r => chars s = chars p ++ chars r
  | None => ¬ chars p `prefix_of` chars s
  end.
Proof.
  revert s. induction p as [|c p IH]; intros s; cbn; [done|].
  destruct s as [|c' s]; cbn; [intros [k Hk]; done|].
  destruct (Ascii.eqb_spec c c') as [<-|Hne].
  - specialize (IH s). destruct (strip_prefix p s); cbn; [by f_equal|].
    intros Hp. apply prefix_cons_inv_2 in Hp. done.
  - intros Hp. by apply prefix_cons_inv_1 in Hp.
Qed.
(** Either the text has no occurrence and stays, or the first one is replaced. *)
Lemma replace_first_spec pat to s :
  (replace_first pat to s = s ∧ ¬ ∃ a b, chars s = a ++ chars pat ++ b) ∨
  ∃ a b, chars s = a ++ chars pat ++ b ∧ chars (replace_first pat to s) = a ++ chars to ++ b ∧
    ∀ a' b', chars s = a' ++ chars pat ++ b' → (length a ≤ length a')%nat.
Proof.
  induction s as [|c s IH]; cbn [replace_first].
  - pose proof (strip_prefix_chars pat "") as Hs. destruct (strip_prefix pat "") as [rest|].
    + right. exists [], (chars rest). split_and!; [done|by rewrite chars_app|cbn; lia].
    + left. split; [done|]. intros (a & b & He). apply Hs. destruct a; [|done]. by exists b.
  - pose proof (strip_prefix_chars pat (String c s)) as Hs.
    destruct (strip_prefix pat (String c s)) as [rest|].
    + right. exists [], (chars rest). split_and!; [done|by rewrite chars_app|cbn; lia].
    + assert (∀ a b, chars (String c s) = a ++ chars pat ++ b →
        ∃ a', a = c :: a' ∧ chars s = a' ++ chars pat ++ b) as Hshift.
      { intros [|c' a] b He; [exfalso; apply Hs; by exists b|]. cbn in He. injection He as <- He.
        by exists a. }
      destruct IH as [[He Hno]|(a & b & He & Hr & Hfirst)].
      * left. split; [by rewrite He|]. intros (a & b & Hx).
        destruct (Hshift a b Hx) as (a' & _ & Hx'). eauto.
      * right. exists (c :: a), b. cbn. split_and!; [by f_equal|by f_equal|].
        intros a' b' Hx. destruct (Hshift a' b' Hx) as (a2 & -> & Hx'). cbn.
        specialize (Hfirst a2 b' Hx'). lia.
Qed.

(** * Theorems *)
Section redact_theorems.
Context `{RegexLaws}.

(** A value that is not empty and cannot be made up with the mask: it is no part of it,
    does not hold it, does not begin with an end of it and does not end with a beginning. *)
Definition maskable (t : string) : Prop := chars t ≠ [] ∧ apart (chars t) (chars MASK) = true.
Lemma disjoint_maskable t :
  chars t ≠ [] → (∀ c, c ∈ chars MASK → c ∈ chars t → False) → maskable t.
Proof. intros Ht Hd. split; [done|]. by apply disjoint_apart. Qed.

(** Replacing anything by the mask makes no new occurrence of a maskable value. *)
Lemma mask_step t n m acc :
  maskable t → occ (chars t) n (chars (replace_first m MASK acc)) → occ (chars t) n (chars acc).
Proof.
  intros [Ht Hdis] Ho. destruct (replace_first_spec m MASK acc) as [[Heq _]|(a & b & He & Hr & _)];
    [by rewrite Heq in Ho|].
  rewrite Hr in Ho. apply occ_mask in Ho as (i & j & -> & Hi & Hj); [|done].
  rewrite He. apply occ_app; [done|]. by apply occ_app_l.
Qed.
(** Replacing the value itself takes an occurrence away. *)
Lemma mask_own_step t n acc :
  maskable t → occ (chars t) (S n) (chars (replace_first t MASK acc)) →
  occ (chars t) (S (S n)) (chars acc).
Proof.
  intros [Ht Hdis] Ho. destruct (replace_first_spec t MASK acc) as [[Heq Hno]|(a & b & He & Hr & Hfirst)].
  - exfalso. rewrite Heq in Ho. inversion Ho as [|n' x y Hy Hn Hx]. apply Hno. eauto.
  - rewrite Hr in Ho. apply occ_mask in Ho as (i & j & Hn & Hi & Hj); [|done].
    destruct i as [|i].
    + rewrite He. cbn in Hn. subst j. apply (occ_app_l _ (S (S n)) a). by apply (occ_S _ (S n) []).
    + exfalso. inversion Hi as [|n' x y Hy Hn' Hx]. subst a.
      specialize (Hfirst x (y ++ chars t ++ b)).
      rewrite He, <- !app_assoc, !length_app in Hfirst. specialize (Hfirst eq_refl).
      assert (0 < length (chars t))%nat by (destruct (chars t); cbn; [done|lia]). lia.
Qed.

Lemma mask_steps t n ms acc :
  maskable t → occ (chars t) n (chars (fold_left (λ acc m, replace_first m MASK acc) ms acc)) →
  occ (chars t) n (chars acc).
Proof.
  intros Ht. revert acc. induction ms as [|m ms IH]; intros acc Ho; [done|].
  cbn [fold_left] in Ho. by eapply mask_step, IH.
Qed.
Lemma mask_own_steps t n k acc :
  maskable t →
  occ (chars t) (S n) (chars (fold_left (λ acc m, replace_first m MASK acc) (replicate k t) acc)) →
  occ (chars t) (S n + k) (chars acc).
Proof.
  intros Ht. revert n acc. induction k as [|k IH]; intros n acc Ho.
  - by rewrite Nat.add_0_r.
  - cbn [fold_left replicate] in Ho. apply IH in Ho.
    replace (S n + S k)%nat with (S (S (n + k))) by lia. by apply mask_own_step.
Qed.
Lemma redact_patterns_occ t n r text acc :
  maskable t → occ (chars t) n (chars (fold_left (redact_pattern text) r acc)) →
  occ (chars t) n (chars acc).
Proof.
  intros Ht. revert acc. induction r as [|p r IH]; intros acc Ho; [done|].
  cbn [fold_left] in Ho. apply IH in Ho. unfold redact_pattern in Ho. by eapply mask_steps.
Qed.

(** C24: a registered value never reaches the log, unless the mask can make one up.
    Whatever other values and patterns are registered before and after it, and however they
    overlap with it, the redacted text holds no occurrence of a registered value that is
    not empty and [maskable]. Values like '*' or '[', of which the mask itself holds an
    occurrence, and those that begin or end like it, are not. *)
Theorem registered_values_redacted r p t text :
  p ∈ r → regex_literal t = Some p → maskable t →
  ¬ ∃ a b, chars (redact_str r text) = a ++ chars t ++ b.
Proof.
  intros Hp Hlit Ht (a & b & He).
  assert (occ (chars t) 1 (chars (redact_str r text))) as Ho
    by (rewrite He; apply (occ_S _ 0), occ_O).
  apply list_elem_of_split in Hp as (r1 & r2 & ->).
  unfold redact_str in Ho. rewrite fold_left_app in Ho. cbn [fold_left] in Ho.
  apply redact_patterns_occ in Ho; [|done]. unfold redact_pattern at 1 in Ho.
  rewrite (find_iter_literal t p text) in Ho by (done || apply Ht).
  apply mask_own_steps in Ho; [|done]. apply redact_patterns_occ in Ho; [|done].
  apply literal_matches_max in Ho; [lia|apply Ht].
Qed.
End redact_theorems.

(** [&text[0..1]] is not a character when the first one takes two bytes: "éab" panics. *)
Lemma redact_value_panics : redact_value (String "195" (String "169" "ab")) = None.
Proof. reflexivity. Qed.

(** * A concrete matcher *)
Module RedactExample.
(** Patterns are literals. *)
#[local] Instance literal_regex : RegexCrate := {|
  Regex := string;
  regex_literal := Some;
  regex_ipv4 := "127.0.0.1";
  find_iter r s := replicate (literal_matches (chars r) 0 (chars s)) r;
|}.
#[local] Instance literal_laws : RegexLaws.
Proof. constructor. by intros t r s [= ->] _. Qed.

Example redacts : redact_str ["gw.corp"; "gw"] "to gw.corp by gw" = "to [**********] by [**********]".
Proof. reflexivity. Qed.

Lemma registered_values_redacted_witness :
  maskable "gw" ∧ maskable "a.b+$[x]" ∧
  (¬ ∃ a b, chars (redact_str ["gw.corp"; "gw"] "to gw.corp by gw") = a ++ chars "gw" ++ b) ∧
  ¬ ∃ a b, chars (redact_str ["a.b+$[x]"; "b"] "a.b+$[x] b a.b+$[x] aXb") = a ++ chars "a.b+$[x]" ++ b.
Proof.
  assert (maskable "gw" ∧ maskable "a.b+$[x]") as [Hm Hn] by by split; split; vm_compute.
  split; [exact Hm|]. split; [exact Hn|]. split.
  - apply (registered_values_redacted (["gw.corp"; "gw"] : @Redaction literal_regex)
      "gw" "gw" "to gw.corp by gw"); [cbn; set_solver|reflexivity|exact Hm].
  - apply (registered_values_redacted (["a.b+$[x]"; "b"] : @Redaction literal_regex)
      "a.b+$[x]" "a.b+$[x]" "a.b+$[x] b a.b+$[x] aXb"); [cbn; set_solver|reflexivity|exact Hn].
Defined.
(** A value the mask holds is still there. *)
Example mask_is_no_mask : redact_str ["*"] "*" = MASK ∧ apart (chars "*") (chars MASK) = false.
Proof. by vm_compute. Qed.
End RedactExample.
