(* ===== verification/EditedReport.v ===== *)
(** Validation of an edited HIP report (crates/gphip/src/lib.rs, lines 17-85). The
    XML parser is the xmltree crate's. *)
From S2P Require Import Prelude Utf8 ThirdParty Xml.

#[local] Open Scope N_scope.

Definition MAX_EDITED_REPORT_BYTES : N := 48 * 1024.

(** [Element::parse]. *)
Class XmlTree := { element_parse : string → option Element }.

Definition named (name : string) (e : Element) : bool := String.eqb (element_name e) name.

(** The child elements [unique_child] looks for. *)
Definition children_named (name : string) (parent : Element) : list Element :=
  List.filter (named name) (child_elements parent).

Definition unique_child (parent : Element) (name : string) : result string Element :=
  match children_named name parent with
  | [] => Err ("HIP report is missing <" +:+ name +:+ ">")
  | [child] => Ok child
  | _ => Err ("HIP report has duplicate <" +:+ name +:+ "> elements")
  end.

Fixpoint unique_children (parent : Element) (names : list string) : result string () :=
  match names with
  | [] => Ok ()
  | name :: names => _ ← unique_child parent name; unique_children parent names
  end.

Definition is_host_info (e : Element) : bool :=
  named "entry" e && bool_decide (attr "name" e = Some "host-info").

Definition root_names : list string :=
  ["md5-sum"; "user-name"; "domain"; "host-name"; "host-id"; "ip-address"; "ipv6-address";
   "generate-time"; "hip-report-version"].
Definition host_info_names : list string :=
  ["client-version"; "os"; "os-vendor"; "domain"; "host-name"; "host-id"].

(** The XML declaration names no encoding, or UTF-8. *)
Definition declares_utf8 (lower : string) : bool :=
  match rest ← strip_prefix "<?xml" lower; split_once "?>" rest with
  | Some (declaration, _) =>
      negb (contains "encoding" declaration) ||
      (contains "utf-8" declaration || contains "utf8" declaration)
  | None => true
  end.

Definition validate_edited_report `{XmlTree} (xml : string) : result string Element :=
  _ ← ensure (slen xml <=? MAX_EDITED_REPORT_BYTES) "HIP report exceeds 48 KiB";
  let lower := to_ascii_lowercase xml in
  _ ← ensure (negb (contains "<!doctype" lower) && negb (contains "<!entity" lower))
    "HIP report must not contain a DTD or entity declaration";
  _ ← ensure (declares_utf8 lower) "HIP report must use UTF-8 encoding";
  root ← ok_or "XML" (element_parse xml);
  _ ← ensure (named "hip-report" root) "HIP report root must be <hip-report>";
  _ ← unique_children root root_names;
  categories ← unique_child root "categories";
  match List.filter is_host_info (child_elements categories) with
  | [] => Err "HIP report is missing host-info"
  | [host_info] => _ ← unique_children host_info host_info_names; Ok root
  | _ => Err "HIP report has duplicate host-info entries"
  end.

(** * Theorems *)
Lemma unique_child_Ok parent name child :
  unique_child parent name = Ok child ↔ children_named name parent = [child].
Proof.
  unfold unique_child. destruct (children_named name parent) as [|c [|d l]]; split; congruence.
Qed.
Lemma unique_children_Ok parent names :
  unique_children parent names = Ok () ↔
  ∀ name, name ∈ names → ∃ child, children_named name parent = [child].
Proof.
  induction names as [|name names IH]; cbn [unique_children].
  - split; [intros _ name Hn; inversion Hn|done].
  - rewrite result_bind_Ok. setoid_rewrite unique_child_Ok. setoid_rewrite IH. split.
    + intros (c & Hc & Hr) n [->|Hn]%elem_of_cons; eauto.
    + intros Hall. destruct (Hall name) as [c Hc]; [left|].
      exists c. split; [done|]. intros n Hn. apply Hall. by right.
Qed.

(** What a report that passed validation is: the refresh and the submission read these
    elements without a further check. *)
Record report_valid `{XmlTree} (xml : string) (root : Element) : Prop := {
  rv_size : slen xml ≤ MAX_EDITED_REPORT_BYTES;
  rv_no_dtd : contains "<!doctype" (to_ascii_lowercase xml) = false ∧
    contains "<!entity" (to_ascii_lowercase xml) = false;
  rv_root : element_parse xml = Some root ∧ element_name root = "hip-report"%string;
  rv_fields name : name ∈ root_names → ∃ child, children_named name root = [child];
  rv_host_info : ∃ categories host_info,
    children_named "categories" root = [categories] ∧
    List.filter is_host_info (child_elements categories) = [host_info] ∧
    ∀ name, name ∈ host_info_names → ∃ child, children_named name host_info = [child];
}.

(** An edited HIP report that passes validation is bounded, has neither a DTD nor
    an entity declaration, and has exactly one of each element the service later
    rewrites, in the report and in its single host-info entry. *)
Lemma validate_edited_report_sound `{XmlTree} xml root :
  validate_edited_report xml = Ok root → report_valid xml root.
Proof.
  unfold validate_edited_report. intros Hv. bind_inv Hv. destruct x4.
  rewrite unique_children_Ok in Hx4. rewrite unique_child_Ok in Hx5.
  destruct (List.filter is_host_info (child_elements x5)) as [|h [|]] eqn:Hh; try done.
  bind_inv Hv. injection Hv as <-. destruct x4. rewrite unique_children_Ok in Hx6.
  boolify. apply String.eqb_eq in Hx3. split; eauto 10.
Qed.

Module ReportExample.
Definition leaf (name : string) : XMLNode := NodeElement (element_new name).
Definition host_info : Element :=
element "entry" {[ "name" := "host-info" ]} (map leaf host_info_names).
Definition report : Element :=
element "hip-report" ∅
  (map leaf root_names ++ [NodeElement (element "categories" ∅ [NodeElement host_info])]).
Definition xml : string := "<?xml version='1.0' encoding='UTF-8'?><hip-report/>".
Definition parser : XmlTree :=
{| element_parse s := if String.eqb s xml then Some report else None |}.

Lemma validate_edited_report_sound_witness :
@validate_edited_report parser xml = Ok report ∧ @report_valid parser xml report.
Proof.
split; [by vm_compute|]. apply (@validate_edited_report_sound parser). by vm_compute.
Defined.

Example encoding_refused :
@validate_edited_report parser "<?xml encoding='latin1'?><hip-report/>" =
Err "HIP report must use UTF-8 encoding".
Proof. by vm_compute. Qed.
End ReportExample.
