(* ===== verification/SessionRegistry.v ===== *)
(** The session registry (apps/gpservice/src/session_registry.rs): the credentials the
    service has issued, the handshake and reconnect permits, the attachment
    generations, and the HIP data each GUI session keeps.

    The registry is one mutex-protected map; an operation is one critical section.
    [world] is what the registry shares with the rest of the service through
    [ConnectionControl] and [AttemptDrain] handles. Times are in nanoseconds; the
    [Uuid]s an operation draws are arguments. *)
From S2P Require Import Prelude Utf8 ThirdParty Transport Session Service EditedReport.

#[local] Open Scope N_scope.

(** * Interfaces

    What the registry needs of a connection's control handle and of an attempt's
    reservation and drain. *)
Class ConnectionHandles (World C : Type) := {
  connection_id : C → Uuid;
  is_closed : C → World → bool;
  close : CloseReason.t → C → World → World;
}.
Class AttemptHandles (World D R : Type) := {
  drain : R → World → option D;
  drain_cancel : D → World → World;
  drain_is_complete : D → World → bool;
}.

Definition ACTIVATION_TIMEOUT : N := 15 * 10 ^ 9.
Definition MAX_PENDING_SESSIONS : nat := 16.
Definition HIP_PREVIEW_CHUNK_BYTES : N := 16 * 1024.
Definition MAX_UPLOAD_CHUNK : N := 8 * 1024.
Definition MAX_SUBMITTED_REPORT : N := 1024 * 1024.

Inductive SessionError :=
  | ServiceRestarted (id : Uuid)
  | Unauthorized
  | TooManyPending
  | ReconnectSuperseded
  | Unavailable
  | InvalidHipUpload.

Inductive HipUploadResult := Progress (id : Uuid) | Stored (id : Uuid).

Record HandshakePermit := {
  permit_session_id : Uuid;
  permit_desktop_uid : option N;
  observed_generation : N;
  permit_secret : string;
  token : Uuid;
}.

Definition unavailable_connection : ServiceResult :=
  rejected InvalidRequest "Connection attachment is unavailable".
Definition attachment_closing : ServiceResult :=
  rejected InvalidRequest "Non-tunnel attachment is closing".

Section registry.
Context {World C D R : Type} `{ConnectionHandles World C} `{AttemptHandles World D R}.
Context `{XmlTree}.

Inductive SessionStatus :=
  | Pending (activation_deadline : N) (handshake_token : option Uuid)
  | Active (generation : N) (connection : option C) (reconnect_token : option Uuid).

Record AttachmentAttempt := {
  att_generation : N;
  att_connection_id : Uuid;
  att_drain : D;
}.

Record SessionRecord := {
  non_tunnel : option AttachmentAttempt;
  closed_attachment : option Uuid;
  rec_secret : string;
  rec_product_version : string;
  rec_desktop_uid : option N;
  edited_hip_report : option (Uuid * string);
  edited_hip_upload : option (Uuid * string);
  hip_preview : option (Uuid * string);
  last_successful_hip_report : option string;
  status : SessionStatus;
}.

(** Field updates. *)
Definition set_non_tunnel (v : option AttachmentAttempt) (s : SessionRecord) : SessionRecord := {|
  non_tunnel := v; closed_attachment := closed_attachment s;
  rec_secret := rec_secret s; rec_product_version := rec_product_version s;
  rec_desktop_uid := rec_desktop_uid s; edited_hip_report := edited_hip_report s;
  edited_hip_upload := edited_hip_upload s; hip_preview := hip_preview s;
  last_successful_hip_report := last_successful_hip_report s; status := status s
|}.
Definition set_closed_attachment (v : option Uuid) (s : SessionRecord) : SessionRecord := {|
  non_tunnel := non_tunnel s; closed_attachment := v; rec_secret := rec_secret s;
  rec_product_version := rec_product_version s; rec_desktop_uid := rec_desktop_uid s;
  edited_hip_report := edited_hip_report s; edited_hip_upload := edited_hip_upload s;
  hip_preview := hip_preview s;
  last_successful_hip_report := last_successful_hip_report s; status := status s
|}.
Definition set_edited_hip_report (v : option (Uuid * string)) (s : SessionRecord) : SessionRecord := {|
  non_tunnel := non_tunnel s; closed_attachment := closed_attachment s;
  rec_secret := rec_secret s; rec_product_version := rec_product_version s;
  rec_desktop_uid := rec_desktop_uid s; edited_hip_report := v;
  edited_hip_upload := edited_hip_upload s; hip_preview := hip_preview s;
  last_successful_hip_report := last_successful_hip_report s; status := status s
|}.
Definition set_edited_hip_upload (v : option (Uuid * string)) (s : SessionRecord) : SessionRecord := {|
  non_tunnel := non_tunnel s; closed_attachment := closed_attachment s;
  rec_secret := rec_secret s; rec_product_version := rec_product_version s;
  rec_desktop_uid := rec_desktop_uid s; edited_hip_report := edited_hip_report s;
  edited_hip_upload := v; hip_preview := hip_preview s;
  last_successful_hip_report := last_successful_hip_report s; status := status s
|}.
Definition set_hip_preview (v : option (Uuid * string)) (s : SessionRecord) : SessionRecord := {|
  non_tunnel := non_tunnel s; closed_attachment := closed_attachment s;
  rec_secret := rec_secret s; rec_product_version := rec_product_version s;
  rec_desktop_uid := rec_desktop_uid s; edited_hip_report := edited_hip_report s;
  edited_hip_upload := edited_hip_upload s; hip_preview := v;
  last_successful_hip_report := last_successful_hip_report s; status := status s
|}.
Definition set_last_successful_hip_report (v : option string) (s : SessionRecord) : SessionRecord := {|
  non_tunnel := non_tunnel s; closed_attachment := closed_attachment s;
  rec_secret := rec_secret s; rec_product_version := rec_product_version s;
  rec_desktop_uid := rec_desktop_uid s; edited_hip_report := edited_hip_report s;
  edited_hip_upload := edited_hip_upload s; hip_preview := hip_preview s;
  last_successful_hip_report := v; status := status s
|}.
Definition set_status (v : SessionStatus) (s : SessionRecord) : SessionRecord := {|
  non_tunnel := non_tunnel s; closed_attachment := closed_attachment s;
  rec_secret := rec_secret s; rec_product_version := rec_product_version s;
  rec_desktop_uid := rec_desktop_uid s; edited_hip_report := edited_hip_report s;
  edited_hip_upload := edited_hip_upload s; hip_preview := hip_preview s;
  last_successful_hip_report := last_successful_hip_report s; status := v
|}.

Abbreviation Sessions := (gmap Uuid SessionRecord) (only parsing).

(** [poisoned]: some thread panicked while it held the mutex. *)
Record Registry := {
  registry_instance : Uuid;
  sessions : Sessions;
  poisoned : bool;
}.
Definition State : Type := Registry * World.
Definition Locked : Type := Sessions * World.

Definition set_sessions (m : Sessions) (r : Registry) : Registry :=
  {| registry_instance := registry_instance r; sessions := m; poisoned := poisoned r |}.

(** [self.sessions.lock().map_err(|_| e)?], then the body under the lock. *)
Definition locked {E A} (e : E) (body : stm Locked E A) : stm State E A := λ s,
  if poisoned s.1 then (Err e, s)
  else let '(r, (m, w)) := body (sessions s.1, s.2) in (r, (set_sessions m s.1, w)).

(** Steps of a body: [sessions.get(&id).ok_or(e)?], a write through [get_mut], and a
    call into the rest of the service. *)
Definition get_record {E} (id : Uuid) (e : E) : stm Locked E SessionRecord := λ s,
  (ok_or e (s.1 !! id), s).
Definition put_record {E} (id : Uuid) (r : SessionRecord) : stm Locked E () := λ s,
  (Ok (), (<[id := r]> s.1, s.2)).
Definition remove_record {E} (id : Uuid) : stm Locked E () := λ s,
  (Ok (), (delete id s.1, s.2)).
Definition put_sessions {E} (m : Sessions) : stm Locked E () := λ s, (Ok (), (m, s.2)).
Definition world {E} : stm Locked E World := λ s, (Ok s.2, s).
Definition on_world {E A} (f : stm World E A) : stm Locked E A := λ s,
  let '(r, w) := f s.2 in (r, (s.1, w)).
Definition world_effect {E} (f : World → World) : stm Locked E () := λ s, (Ok (), (s.1, f s.2)).

Definition is_pending (r : SessionRecord) : bool :=
  match status r with Pending _ _ => true | Active _ _ _ => false end.
Definition is_active (r : SessionRecord) : bool := negb (is_pending r).
Definition token_is (o : option Uuid) (t : Uuid) : bool := bool_decide (o = Some t).

Definition current_connection (r : SessionRecord) (expected : N) (w : World) :
    result ServiceResult Uuid :=
  match status r with
  | Active generation (Some c) _ =>
      if (generation =? expected) && negb (is_closed c w) then Ok (connection_id c)
      else Err unavailable_connection
  | _ => Err unavailable_connection
  end.

(** * Connection attempts on behalf of a session *)

(** [reserve] is the closure: [LifecycleHandle::reserve_connect]. *)
Definition reserve_connection (id : Uuid) (generation : N) (non_tunnel_mode : bool)
    (reserve : stm World ServiceResult R) : stm State ServiceResult R :=
  locked unavailable_connection (
    record ← get_record id unavailable_connection;
    w ← world;
    connection ← lift (current_connection record generation w);
    if non_tunnel_mode && bool_decide (closed_attachment record = Some connection)
    then fail attachment_closing
    else
      let record := match non_tunnel record with
        | Some a => if drain_is_complete (att_drain a) w then set_non_tunnel None record else record
        | None => record
        end in
      _ ← put_record id record;
      reservation ← on_world reserve;
      if non_tunnel_mode then
        w ← world;
        (* [None]: [reservation.drain()] panics. *)
        match drain reservation w with
        | Some d =>
            _ ← put_record id (set_non_tunnel (Some {|
                  att_generation := generation; att_connection_id := connection;
                  att_drain := d |}) record);
            mret reservation
        | None => mret reservation
        end
      else mret reservation).

(** The closure's result is the result; [Err] marks the refusals made before it. *)
Definition commit_connection (id : Uuid) (generation : N) (non_tunnel_mode : bool)
    (commit : World → ServiceResult * World) : stm State ServiceResult ServiceResult :=
  locked unavailable_connection (
    record ← get_record id unavailable_connection;
    w ← world;
    _ ← (if non_tunnel_mode then
           connection ← lift (current_connection record generation w);
           assert_or (negb (bool_decide (closed_attachment record = Some connection)))
             attachment_closing
         else assert_or (is_active record) unavailable_connection);
    on_world (λ w, let '(r, w) := commit w in (Ok r, w))).

Definition stop_non_tunnel_attachment (id : Uuid) (generation : N) (connection : Uuid) :
    stm State ServiceResult (option D) :=
  locked unavailable_connection (
    record ← get_record id unavailable_connection;
    w ← world;
    current_id ← lift (current_connection record generation w);
    let record := if current_id =? connection
      then set_closed_attachment (Some connection) record else record in
    _ ← put_record id record;
    match non_tunnel record with
    | Some a =>
        if att_connection_id a =? connection then
          _ ← world_effect (drain_cancel (att_drain a)); mret (Some (att_drain a))
        else mret None
    | None => mret None
    end).

(** * Credentials *)
Definition registry_new (instance : Uuid) : Registry :=
  {| registry_instance := instance; sessions := ∅; poisoned := false |}.

(** [sessions.retain(..)]: pending records past their deadline go. *)
Definition expired (now : N) (r : SessionRecord) : bool :=
  match status r with Pending deadline _ => deadline <? now | Active _ _ _ => false end.
Definition retain_live (now : N) (m : Sessions) : Sessions :=
  filter (λ p, expired now p.2 = false) m.
Definition pending_count (m : Sessions) : nat :=
  size (filter (λ p, is_pending p.2 = true) m).

Definition new_record (c : SessionCredential) (uid : option N) (deadline : N) : SessionRecord := {|
  non_tunnel := None; closed_attachment := None;
  rec_secret := secret c; rec_product_version := product_version c; rec_desktop_uid := uid;
  edited_hip_report := None; edited_hip_upload := None; hip_preview := None;
  last_successful_hip_report := None;
  status := Pending deadline None;
|}.

(** [now] and [now'] are the two readings of the clock; [entropy] and [session] what
    the generator draws; [anchor] what [resolve_device_anchor] returns. *)
Definition issue `{Base64} (version : string) (uid : option N) (now now' : N)
    (entropy : option string) (session : Uuid) (anchor : option DeviceAnchor)
    (instance : Uuid) : stm State SessionError SessionCredential :=
  locked Unavailable (
    s ← get;
    let m := retain_live now s.1 in
    _ ← put_sessions m;
    _ ← assert_or (bool_decide (pending_count m < MAX_PENDING_SESSIONS)%nat) TooManyPending;
    credential ← lift (map_err (λ _, Unavailable) (generate instance version entropy session));
    anchor ← require Unavailable anchor;
    credential ← lift (map_err (λ _, Unavailable) (with_device_anchor credential anchor));
    _ ← put_record (session_id credential)
      (new_record credential uid (now' + ACTIVATION_TIMEOUT));
    mret credential).

Definition registry_is_empty (now : N) (r : Registry) : bool * Registry :=
  if poisoned r then (false, r)
  else let m := retain_live now (sessions r) in
       (bool_decide (m = ∅), set_sessions m r).

(** * Handshakes and attachments *)
Definition begin_handshake (instance own_instance : Uuid) (id : Uuid) (version : string)
    (now : N) (new_token : Uuid) : stm State SessionError HandshakePermit :=
  if negb (instance =? own_instance) then fail (ServiceRestarted own_instance)
  else locked Unavailable (
    record ← get_record id Unauthorized;
    _ ← assert_or (String.eqb (rec_product_version record) version) Unauthorized;
    generation ← match status record with
      | Pending deadline handshake =>
          if deadline <? now then _ ← remove_record id; fail Unauthorized
          else if bool_decide (is_Some handshake) then fail ReconnectSuperseded
          else _ ← put_record id (set_status (Pending deadline (Some new_token)) record);
               mret 0
      | Active generation connection reconnect =>
          if bool_decide (is_Some reconnect) then fail ReconnectSuperseded
          else _ ← put_record id (set_status (Active generation connection (Some new_token)) record);
               mret generation
      end;
    record ← get_record id Unauthorized;
    mret {| permit_session_id := id; permit_desktop_uid := rec_desktop_uid record;
            observed_generation := generation; permit_secret := rec_secret record;
            token := new_token |}).

(** A permit still holds the slot it was given. *)
Definition permit_current (p : HandshakePermit) (r : SessionRecord) : bool :=
  match status r with
  | Pending _ handshake => (observed_generation p =? 0) && token_is handshake (token p)
  | Active generation _ reconnect =>
      (generation =? observed_generation p) && token_is reconnect (token p)
  end.

Definition prepare_attach (p : HandshakePermit) : stm State SessionError N :=
  locked Unavailable (
    record ← get_record (permit_session_id p) Unauthorized;
    if permit_current p record then
      match status record with
      | Pending _ _ => mret 1
      | Active generation _ _ => require Unavailable (checked_add u64_max generation 1)
      end
    else fail ReconnectSuperseded).

(** The connection the new one replaces. *)
Definition commit_attach (p : HandshakePermit) (connection : C) :
    stm State SessionError (option C) :=
  locked Unavailable (
    record ← get_record (permit_session_id p) Unauthorized;
    if permit_current p record then
      match status record with
      | Pending _ _ =>
          _ ← put_record (permit_session_id p)
            (set_status (Active 1 (Some connection) None) record);
          mret None
      | Active generation current reconnect =>
          _ ← world_effect (match non_tunnel record with
                            | Some a => drain_cancel (att_drain a)
                            | None => λ w, w
                            end);
          let record := set_closed_attachment None record in
          _ ← put_record (permit_session_id p) record;
          next ← require Unavailable (checked_add u64_max generation 1);
          _ ← put_record (permit_session_id p)
            (set_status (Active next (Some connection) None) record);
          mret current
      end
    else fail ReconnectSuperseded).

(** An operation without a result: nothing is done when the mutex is poisoned. *)
Definition effect (body : Sessions → World → Sessions * World) (s : State) : State :=
  if poisoned s.1 then s
  else let '(m, w) := body (sessions s.1) s.2 in (set_sessions m s.1, w).

(** [cancel_handshake], which is also the [Drop] of a permit. *)
Definition cancel_handshake (p : HandshakePermit) : State → State :=
  effect (λ m w,
    match m !! permit_session_id p with
    | None => (m, w)
    | Some record =>
        if permit_current p record then
          match status record with
          | Pending _ _ => (delete (permit_session_id p) m, w)
          | Active generation connection _ =>
              (<[permit_session_id p := set_status (Active generation connection None) record]> m, w)
          end
        else (m, w)
    end).

Definition has_session (id : Uuid) (r : Registry) : bool :=
  negb (poisoned r) && bool_decide (is_Some (sessions r !! id)).

Definition is_current (id : Uuid) (generation : N) (r : Registry) : bool :=
  negb (poisoned r) &&
  match status <$> sessions r !! id with
  | Some (Active current _ _) => current =? generation
  | _ => false
  end.

(** * HIP data *)

(** [upload] is drawn when the request starts an upload, [report] when it ends one. *)
Definition append_edited_hip_report_chunk (id : Uuid) (upload_id : option Uuid) (offset : N)
    (chunk : string) (complete : bool) (upload report : Uuid) :
    stm State SessionError HipUploadResult :=
  locked Unavailable (
    record ← get_record id Unauthorized;
    _ ← assert_or (is_active record) Unauthorized;
    record ← match upload_id with
      | None =>
          _ ← assert_or (offset =? 0) InvalidHipUpload;
          let record := set_edited_hip_upload (Some (upload, EmptyString)) record in
          _ ← put_record id record;
          mret record
      | Some _ => mret record
      end;
    '(current_id, xml) ← require InvalidHipUpload (edited_hip_upload record);
    if match upload_id with Some i => negb (i =? current_id) | None => false end ||
       negb (offset =? slen xml) || (MAX_UPLOAD_CHUNK <? slen chunk)
    then fail InvalidHipUpload
    else if MAX_EDITED_REPORT_BYTES <? slen xml + slen chunk then
      _ ← put_record id (set_edited_hip_upload None record); fail InvalidHipUpload
    else
      let xml := xml +:+ chunk in
      if negb complete then
        _ ← put_record id (set_edited_hip_upload (Some (current_id, xml)) record);
        mret (Progress current_id)
      else if negb (is_ok (validate_edited_report xml)) then
        _ ← put_record id (set_edited_hip_upload None record); fail InvalidHipUpload
      else
        _ ← put_record id (set_edited_hip_report (Some (report, xml))
              (set_edited_hip_upload None record));
        mret (Stored report)).

Definition edited_report (id report : Uuid) : stm State SessionError string :=
  locked Unavailable (
    record ← get_record id Unauthorized;
    require Unauthorized (
      '(i, xml) ← edited_hip_report record; if i =? report then Some xml else None)).

Definition store_hip_preview (id : Uuid) (xml : string) (preview : Uuid) :
    stm State SessionError Uuid :=
  locked Unavailable (
    record ← get_record id Unauthorized;
    _ ← assert_or (is_active record) Unauthorized;
    _ ← put_record id (set_hip_preview (Some (preview, xml)) record);
    mret preview).

Definition hip_preview_chunk (id preview : Uuid) (offset : N) :
    stm State SessionError (string * bool) :=
  locked Unavailable (
    record ← get_record id Unauthorized;
    xml ← require Unauthorized (
      '(i, xml) ← hip_preview record; if i =? preview then Some xml else None);
    if (slen xml <? offset) || negb (is_char_boundary xml offset) then fail Unauthorized
    else
      let end_ := floor_boundary xml (N.min (offset + HIP_PREVIEW_CHUNK_BYTES) (slen xml)) in
      mret (slice xml offset end_, end_ =? slen xml)).

Definition store_successful_hip_report (id : Uuid) (xml : string) : stm State SessionError () :=
  if MAX_SUBMITTED_REPORT <? slen xml then fail Unavailable
  else locked Unavailable (
    record ← get_record id Unauthorized;
    _ ← assert_or (is_active record) Unauthorized;
    put_record id (set_last_successful_hip_report (Some xml) record)).

Definition successful_hip_report (id : Uuid) : stm State SessionError (option string) :=
  locked Unavailable (
    record ← get_record id Unauthorized;
    mret (last_successful_hip_report record)).

Definition clear_successful_hip_report (id : Uuid) : State → State :=
  effect (λ m w,
    match m !! id with
    | Some record => (<[id := set_last_successful_hip_report None record]> m, w)
    | None => (m, w)
    end).

(** * Ending *)
Definition disconnect_if_current (id : Uuid) (generation : N) : State → State :=
  effect (λ m w,
    match m !! id with
    | None => (m, w)
    | Some record =>
        let w := match non_tunnel record with
          | Some a => if att_generation a =? generation then drain_cancel (att_drain a) w else w
          | None => w
          end in
        match status record with
        | Active current connection reconnect =>
            if current =? generation
            then (<[id := set_status (Active current None reconnect) record]> m, w)
            else (m, w)
        | Pending _ _ => (m, w)
        end
    end).

Definition revoke (id : Uuid) : State → State :=
  effect (λ m w,
    match m !! id with
    | None => (m, w)
    | Some record =>
        let w := match non_tunnel record with
          | Some a => drain_cancel (att_drain a) w
          | None => w
          end in
        let w := match status record with
          | Active _ (Some c) _ => close CloseReason.Unauthorized c w
          | _ => w
          end in
        (delete id m, w)
    end).
End registry.

(** * The registry as a transition system *)
Section steps.
Context {World C D R : Type} `{ConnectionHandles World C} `{AttemptHandles World D R}.
Context `{XmlTree} `{Base64}.

Definition RState : Type := State (World:=World) (C:=C) (D:=D).

Inductive registry_label :=
  | LIssue (version : string) (uid : option N) (now now' : N) (entropy : option string)
      (session : Uuid) (anchor : option DeviceAnchor)
  | LIsEmpty (now : N)
  | LBegin (instance id : Uuid) (version : string) (now : N) (new_token : Uuid)
  | LAttach (permit : HandshakePermit) (connection : C)
  | LDropPermit (permit : HandshakePermit)
  | LReserve (id : Uuid) (generation : N) (mode : bool) (reserve : stm World ServiceResult R)
  | LCommit (id : Uuid) (generation : N) (mode : bool) (commit : World → ServiceResult * World)
  | LStop (id : Uuid) (generation : N) (connection : Uuid)
  | LAppend (id : Uuid) (upload_id : option Uuid) (offset : N) (chunk : string)
      (complete : bool) (upload report : Uuid)
  | LStorePreview (id : Uuid) (xml : string) (preview : Uuid)
  | LStoreReport (id : Uuid) (xml : string)
  | LClearReport (id : Uuid)
  | LDisconnect (id : Uuid) (generation : N)
  | LRevoke (id : Uuid)
  | LWorld (f : World → World).

(** Every operation that changes the registry, and any change of the world. *)
Definition registry_step (s : RState) (l : registry_label) : RState :=
  match l with
  | LIssue v u now now' e i a => after (issue v u now now' e i a (registry_instance s.1)) s
  | LIsEmpty now => ((registry_is_empty now s.1).2, s.2)
  | LBegin i id v now t => after (begin_handshake i (registry_instance s.1) id v now t) s
  | LAttach p c => after (commit_attach p c) s
  | LDropPermit p => cancel_handshake p s
  | LReserve id g mode f => after (reserve_connection id g mode f) s
  | LCommit id g mode f => after (commit_connection id g mode f) s
  | LStop id g c => after (stop_non_tunnel_attachment id g c) s
  | LAppend id u o c b n r => after (append_edited_hip_report_chunk id u o c b n r) s
  | LStorePreview id x p => after (store_hip_preview id x p) s
  | LStoreReport id x => after (store_successful_hip_report id x) s
  | LClearReport id => clear_successful_hip_report id s
  | LDisconnect id g => disconnect_if_current id g s
  | LRevoke id => revoke id s
  | LWorld f => (s.1, f s.2)
  end.

Definition issues (id : Uuid) (l : registry_label) : bool :=
  match l with LIssue _ _ _ _ _ session _ => session =? id | _ => false end.
Definition attaches (id : Uuid) (l : registry_label) : bool :=
  match l with LAttach p _ => permit_session_id p =? id | _ => false end.

(** ** What a record promises *)
Definition rank (r : SessionRecord (C:=C) (D:=D)) : N :=
  match status r with Pending _ _ => 0 | Active g _ _ => g end.

Record record_wf (r : SessionRecord (C:=C) (D:=D)) : Prop := {
  rw_generation : is_pending r = false → 1 ≤ rank r ≤ u64_max;
  rw_pending : is_pending r = true →
    non_tunnel r = None ∧ closed_attachment r = None ∧ edited_hip_report r = None ∧
    edited_hip_upload r = None ∧ hip_preview r = None ∧ last_successful_hip_report r = None;
  rw_upload i x : edited_hip_upload r = Some (i, x) → slen x ≤ MAX_EDITED_REPORT_BYTES;
  rw_report i x : edited_hip_report r = Some (i, x) → is_ok (validate_edited_report x) = true;
  rw_submitted x : last_successful_hip_report r = Some x → slen x ≤ MAX_SUBMITTED_REPORT;
}.

(** The attachment of a non-tunnel connection is being closed, or gone. *)
Definition blocked (r : SessionRecord (C:=C) (D:=D)) : Prop :=
  match status r with
  | Active _ (Some c) _ => closed_attachment r = Some (connection_id c)
  | Active _ None _ => True
  | Pending _ _ => False
  end.

(** How one record changes; [attach] allows a new attachment. *)
Record rec_evolves (attach : bool) (r r' : SessionRecord (C:=C) (D:=D)) : Prop := {
  re_identity : rec_secret r' = rec_secret r ∧ rec_product_version r' = rec_product_version r ∧
    rec_desktop_uid r' = rec_desktop_uid r;
  re_rank : rank r ≤ rank r';
  re_pending : is_pending r' = true → is_pending r = true;
  re_wf : record_wf r → record_wf r';
  re_blocked : attach = false → blocked r → blocked r';
}.
Lemma rec_evolves_refl b r : rec_evolves b r r.
Proof. split; auto; lia. Qed.
Lemma rec_evolves_trans b r1 r2 r3 :
  rec_evolves b r1 r2 → rec_evolves b r2 r3 → rec_evolves b r1 r3.
Proof.
  intros [(?&?&?) ????] [(?&?&?) ????]. split; auto; try lia. split_and!; congruence.
Qed.

(** How the map changes, pointwise: no record appears. *)
Definition opt_evolves (b : bool) (o o' : option (SessionRecord (C:=C) (D:=D))) : Prop :=
  match o, o' with
  | None, None => True
  | None, Some _ => False
  | Some _, None => True
  | Some r, Some r' => rec_evolves b r r'
  end.
Definition evolves (b : Uuid → bool) (m m' : gmap Uuid (SessionRecord (C:=C) (D:=D))) : Prop :=
  ∀ id, opt_evolves (b id) (m !! id) (m' !! id).

Lemma evolves_refl b m : evolves b m m.
Proof. intros id. destruct (m !! id); cbn; auto using rec_evolves_refl. Qed.
Lemma evolves_trans b m1 m2 m3 : evolves b m1 m2 → evolves b m2 m3 → evolves b m1 m3.
Proof.
  intros H12 H23 id. specialize (H12 id). specialize (H23 id).
  destruct (m1 !! id), (m2 !! id), (m3 !! id); cbn in *; try done.
  by eapply rec_evolves_trans.
Qed.
Lemma evolves_insert b m id r r' :
  m !! id = Some r → rec_evolves (b id) r r' → evolves b m (<[id := r']> m).
Proof.
  intros Hr He i. destruct (decide (i = id)) as [->|Hne].
  - rewrite lookup_insert_eq, Hr. done.
  - rewrite lookup_insert_ne by done. apply evolves_refl.
Qed.
Lemma evolves_delete b m id : evolves b m (delete id m).
Proof.
  intros i. destruct (decide (i = id)) as [->|Hne].
  - rewrite lookup_delete_eq. by destruct (m !! id).
  - rewrite lookup_delete_ne by done. apply evolves_refl.
Qed.
Lemma evolves_filter b m (P : Uuid * SessionRecord → Prop) `{∀ p, Decision (P p)} :
  evolves b m (filter P m).
Proof.
  intros i. destruct (filter P m !! i) as [r|] eqn:E.
  - apply map_lookup_filter_Some in E as [-> _]. apply rec_evolves_refl.
  - by destruct (m !! i).
Qed.

(** ** Every operation but [issue] evolves the records *)
Lemma locked_evolves {E A} b (e : E) (body : stm Locked E A) (s : RState) :
  (∀ m w, m = sessions s.1 → evolves b m (body (m, w)).2.1) →
  evolves b (sessions s.1) (sessions (after (locked e body) s).1).
Proof.
  intros Hb. unfold locked, after. destruct (poisoned s.1); [apply evolves_refl|].
  specialize (Hb (sessions s.1) s.2 eq_refl).
  destruct (body (sessions s.1, s.2)) as [r [m w]]. exact Hb.
Qed.
Lemma effect_evolves b body (s : RState) :
  (∀ m w, m = sessions s.1 → evolves b m (body m w).1) →
  evolves b (sessions s.1) (sessions (effect body s).1).
Proof.
  intros Hb. unfold effect. destruct (poisoned s.1); [apply evolves_refl|].
  specialize (Hb (sessions s.1) s.2 eq_refl).
  destruct (body (sessions s.1) s.2) as [m w]. exact Hb.
Qed.

(** Run the body as far as the known values go, and split on the next test. *)
Ltac step_body :=
  repeat (cbn [fst snd]; cbn beta iota; rewrite ?lookup_insert_eq, ?insert_insert_eq;
    cbn [fst snd]; cbn beta iota;
    lazymatch goal with
    | |- evolves _ ?m ?m => apply evolves_refl
    | |- evolves _ ?m (delete _ ?m) => apply evolves_delete
    | |- evolves _ ?m (<[_ := _]> ?m) => idtac
    | |- evolves _ _ ?e =>
        match e with
        | context [match ?x with _ => _ end] =>
          lazymatch x with
          | context [match _ with _ => _ end] => fail
          | (_, _) => fail
          | _ => let E := fresh "E" in destruct x eqn:E
          end
        end
    end).
Ltac wf_solve :=
  let G := fresh "G" in let P := fresh "P" in let U := fresh "U" in
  let O := fresh "O" in let S := fresh "S" in
  intros [G P U O S]; unfold rank, is_active, is_pending in *; cbn in *;
  split; unfold rank, is_pending; cbn; intros; simplify_eq; eauto; try lia; try tauto.
Ltac rec_solve :=
  match goal with
  | |- rec_evolves _ ?r _ =>
      destruct r; unfold rank, is_active, is_pending, blocked in *; cbn in *; subst; simplify_eq;
      try match goal with st : SessionStatus |- _ => destruct st; cbn in *; try done end;
      split; unfold rank, is_pending, blocked; cbn in *;
      first [done | lia | wf_solve; fail | tauto | intros; boolify; congruence | idtac]
  end.
Ltac monads :=
  unfold get_record, put_record, remove_record, put_sessions, world, on_world, world_effect,
    require, assert_or, fail, lift, mbind, stm_bind, stm_bind_def, mret, stm_ret, stm_ret_def,
    get, ok_or, ensure in *.

Ltac record_op id m r Hr :=
  intros m w _; monads; cbn [fst snd]; cbn beta iota;
  destruct (m !! id) as [r|] eqn:Hr; [|apply evolves_refl];
  step_body.
Ltac split_record :=
  repeat match goal with
    | |- rec_evolves _ _ ?e =>
        match e with
        | context [match ?x with _ => _ end] =>
            lazymatch x with
            | context [match _ with _ => _ end] => fail
            | _ => let E := fresh "E" in destruct x eqn:E
            end
        end
    end.
Ltac insert_solve := eapply evolves_insert; [eassumption|split_record; rec_solve].

Lemma begin_handshake_evolves b i own id v now t (s : RState) :
  evolves b (sessions s.1) (sessions (after (begin_handshake i own id v now t) s).1).
Proof.
  unfold begin_handshake. destruct (negb _); [apply evolves_refl|].
  apply locked_evolves. record_op id m r Hr; insert_solve.
Qed.
Lemma cancel_handshake_evolves b p (s : RState) :
  evolves b (sessions s.1) (sessions (cancel_handshake p s).1).
Proof.
  apply effect_evolves. record_op (permit_session_id p) m r Hr; insert_solve.
Qed.
Lemma reserve_connection_evolves b id g mode f (s : RState) :
  evolves b (sessions s.1) (sessions (after (reserve_connection id g mode f) s).1).
Proof.
  apply locked_evolves. unfold current_connection. record_op id m r Hr; insert_solve.
Qed.
Lemma commit_connection_evolves b id g mode f (s : RState) :
  evolves b (sessions s.1) (sessions (after (commit_connection id g mode f) s).1).
Proof.
  apply locked_evolves. unfold current_connection. record_op id m r Hr; insert_solve.
Qed.
Lemma stop_non_tunnel_attachment_evolves b id g c (s : RState) :
  evolves b (sessions s.1) (sessions (after (stop_non_tunnel_attachment id g c) s).1).
Proof.
  apply locked_evolves. unfold current_connection. record_op id m r Hr; insert_solve.
Qed.
Lemma upload_evolves b r o :
  is_active r = true → (∀ i x, o = Some (i, x) → slen x ≤ MAX_EDITED_REPORT_BYTES) →
  rec_evolves b r (set_edited_hip_upload o r).
Proof.
  unfold is_active. intros Ha Ho. boolify. split; try done.
  intros [G P U O S]. split; try done. intros Hp. exfalso.
  change (is_pending r = true) in Hp. congruence.
Qed.
Lemma report_evolves b r i x :
  is_active r = true → is_ok (validate_edited_report x) = true →
  rec_evolves b r (set_edited_hip_report (Some (i, x)) r).
Proof.
  unfold is_active. intros Ha Ho. boolify. split; try done.
  intros [G P U O S]. split; try done.
  - intros Hp. exfalso. change (is_pending r = true) in Hp. congruence.
  - cbn. by intros ? ? [= _ <-].
Qed.
Lemma append_evolves b id u o c e n r (s : RState) :
  evolves b (sessions s.1)
    (sessions (after (append_edited_hip_report_chunk id u o c e n r) s).1).
Proof.
  apply locked_evolves. record_op id m rec Hr;
    (eapply evolves_insert; [eassumption|]); boolify; rewrite ?slen_app in *;
    repeat first
      [ apply rec_evolves_refl
      | eapply rec_evolves_trans; [|apply report_evolves; [assumption|by boolify]]
      | eapply rec_evolves_trans;
          [|apply upload_evolves; [assumption|intros ? ? [= <- <-]; rewrite ?slen_app; done]] ].
Qed.
Lemma store_hip_preview_evolves b id x p (s : RState) :
  evolves b (sessions s.1) (sessions (after (store_hip_preview id x p) s).1).
Proof. apply locked_evolves. record_op id m r Hr; insert_solve. Qed.
Lemma store_successful_evolves b id x (s : RState) :
  evolves b (sessions s.1) (sessions (after (store_successful_hip_report id x) s).1).
Proof.
  unfold store_successful_hip_report. destruct (_ <? _) eqn:Hx; [apply evolves_refl|].
  apply N.ltb_ge in Hx. apply locked_evolves. record_op id m r Hr; insert_solve.
Qed.
Lemma clear_successful_evolves b id (s : RState) :
  evolves b (sessions s.1) (sessions (clear_successful_hip_report id s).1).
Proof. apply effect_evolves. record_op id m r Hr; insert_solve. Qed.
Lemma disconnect_evolves b id g (s : RState) :
  evolves b (sessions s.1) (sessions (disconnect_if_current id g s).1).
Proof. apply effect_evolves. record_op id m r Hr; insert_solve. Qed.
Lemma revoke_evolves b id (s : RState) :
  evolves b (sessions s.1) (sessions (revoke id s).1).
Proof. apply effect_evolves. record_op id m r Hr; insert_solve. Qed.
Lemma commit_attach_evolves b p c (s : RState) :
  b (permit_session_id p) = true →
  evolves b (sessions s.1) (sessions (after (commit_attach p c) s).1).
Proof.
  intros Hb. apply locked_evolves. record_op (permit_session_id p) m r Hr;
    (eapply evolves_insert; [eassumption|rewrite Hb;
      repeat match goal with
        | E : checked_add _ _ _ = Some _ |- _ => apply checked_add_Some in E as [-> ?]
        | E : checked_add _ _ _ = None |- _ => clear E
        end; rec_solve]).
  all: intros [G P U O S]; unfold rank, is_pending, u64_max in *; cbn in *.
  all: split; unfold rank, is_pending, u64_max; cbn; try done; intros; eauto; try lia.
Qed.

(** ** The map after any step *)
Lemma is_empty_evolves b now (s : RState) :
  evolves b (sessions s.1) (sessions (registry_is_empty now s.1).2).
Proof.
  unfold registry_is_empty. destruct (poisoned s.1); [apply evolves_refl|]. apply evolves_filter.
Qed.
Lemma step_evolves l (s : RState) :
  (∀ id, issues id l = false) →
  evolves (λ id, attaches id l) (sessions s.1) (sessions (registry_step s l).1).
Proof.
  intros Hi. destruct l; cbn -[sessions].
  - specialize (Hi session). cbn in Hi. by rewrite N.eqb_refl in Hi.
  - apply is_empty_evolves.
  - apply begin_handshake_evolves.
  - apply commit_attach_evolves. apply N.eqb_refl.
  - apply cancel_handshake_evolves.
  - apply reserve_connection_evolves.
  - apply commit_connection_evolves.
  - apply stop_non_tunnel_attachment_evolves.
  - apply append_evolves.
  - apply store_hip_preview_evolves.
  - apply store_successful_evolves.
  - apply clear_successful_evolves.
  - apply disconnect_evolves.
  - apply revoke_evolves.
  - apply evolves_refl.
Qed.

(** [issue] drops the expired records and may add a fresh one, if there is room. *)
Lemma issue_sessions v u now now' e i a own (s : RState) :
  let m' := sessions (after (issue v u now now' e i a own) s).1 in
  m' = sessions s.1 ∨ m' = retain_live now (sessions s.1) ∨
  (pending_count (retain_live now (sessions s.1)) < MAX_PENDING_SESSIONS)%nat ∧
  ∃ c, session_id c = i ∧
    m' = <[i := new_record c u (now' + ACTIVATION_TIMEOUT)]> (retain_live now (sessions s.1)).
Proof.
  unfold issue, locked, after. destruct (poisoned s.1); [by left|]. monads.
  cbn [fst snd]. cbn beta iota zeta.
  case_bool_decide as Hroom; [|by right; left]. cbn [fst snd]. cbn beta iota.
  unfold generate. destruct (negb _); [by right; left|].
  destruct e as [e|]; [|by right; left]. cbn. destruct a as [a|]; [|by right; left]. cbn.
  unfold with_device_anchor. destruct (negb _); [by right; left|]. cbn.
  right. right. split; [done|]. by eexists {| session_id := i |}.
Qed.

Lemma new_record_wf c u d : record_wf (new_record (C:=C) (D:=D) c u d).
Proof. split; cbn; done. Qed.

Lemma pending_count_evolves b m m' : evolves b m m' → (pending_count m' ≤ pending_count m)%nat.
Proof.
  intros He. unfold pending_count. rewrite <- !size_dom. apply subseteq_size.
  intros id [r' Hr']%elem_of_dom. apply map_lookup_filter_Some in Hr' as [Hr' Hp].
  specialize (He id). rewrite Hr' in He. destruct (m !! id) as [r|] eqn:Hr; [|done].
  apply elem_of_dom. exists r. apply map_lookup_filter_Some. split; [done|].
  destruct He as [_ _ Hpend _ _]. by apply Hpend.
Qed.
Lemma pending_count_insert m id (r : SessionRecord (C:=C) (D:=D)) :
  (pending_count (<[id := r]> m) ≤ S (pending_count m))%nat.
Proof.
  unfold pending_count. rewrite <- !size_dom.
  transitivity (size ({[id]} ∪ dom (filter (λ p, is_pending p.2 = true) m) : gset N)).
  - apply subseteq_size. intros i [r' Hr']%elem_of_dom.
    apply map_lookup_filter_Some in Hr' as [Hr' Hp].
    destruct (decide (i = id)) as [->|Hne]; [set_solver|].
    rewrite lookup_insert_ne in Hr' by done. apply elem_of_union_r, elem_of_dom.
    exists r'. by apply map_lookup_filter_Some.
  - rewrite size_union_alt, size_singleton. cbn.
    apply le_n_S, subseteq_size. set_solver.
Qed.

Definition registry_inv (m : gmap Uuid (SessionRecord (C:=C) (D:=D))) : Prop :=
  (pending_count m ≤ MAX_PENDING_SESSIONS)%nat ∧ map_Forall (λ _, record_wf) m.

Lemma registry_inv_evolves b m m' : evolves b m m' → registry_inv m → registry_inv m'.
Proof.
  intros He [Hp Hw]. split.
  - pose proof (pending_count_evolves _ _ _ He). lia.
  - intros id r' Hr'. specialize (He id). rewrite Hr' in He.
    destruct (m !! id) as [r|] eqn:Hr; [|done]. apply He. by apply (Hw id).
Qed.

Lemma registry_step_inv s l : registry_inv (sessions s.1) → registry_inv (sessions (registry_step s l).1).
Proof.
  intros Hi. destruct l as [v u now now' e i a| | | | | | | | | | | | | |] eqn:El;
    try (eapply registry_inv_evolves; [apply step_evolves; done|done]).
  cbn -[sessions].
  destruct (issue_sessions v u now now' e i a (registry_instance s.1) s)
    as [->|[->|(Hroom & c & _ & ->)]]; [done| |];
    (assert (registry_inv (retain_live now (sessions s.1))) as [Hp Hw];
      [eapply registry_inv_evolves; [apply (evolves_filter (λ _, false))|done]|]); [done|].
  split.
  - etrans; [apply pending_count_insert|]. lia.
  - apply map_Forall_insert_2; [apply new_record_wf|done].
Qed.

Lemma registry_runs_inv (s : RState) ls :
  registry_inv (sessions s.1) → registry_inv (sessions (runs registry_step s ls).1).
Proof.
  apply runs_invariant with (I := λ s, registry_inv (sessions s.1)).
  intros s' l. apply registry_step_inv.
Qed.
Lemma registry_new_inv instance : registry_inv (sessions (registry_new (C:=C) (D:=D) instance)).
Proof. split; [apply Nat.le_0_l|]. apply map_Forall_empty. Qed.

(** C22: the invariant of the registry. In every state that any sequence of operations
    reaches from the empty registry at most sixteen credentials wait for activation;
    a session that was never attached has no attachment attempt and no HIP data; the
    generation of an attached one is a positive 64-bit number; a partial upload and
    the last submitted report are within their limits; and a stored edited report has
    passed validation. *)
Theorem registry_reachable_inv instance w ls :
  registry_inv (sessions (runs registry_step (registry_new instance, w) ls).1).
Proof. apply registry_runs_inv, registry_new_inv. Qed.

(** ** One session over a run *)
Lemma step_session l (s : RState) id :
  issues id l = false →
  opt_evolves (attaches id l) (sessions s.1 !! id) (sessions (registry_step s l).1 !! id).
Proof.
  intros Hi. destruct l as [v u now now' e i a| | | | | | | | | | | | | |] eqn:El;
    try (apply (step_evolves _ s); done).
  cbn -[sessions]. cbn in Hi. apply N.eqb_neq in Hi.
  pose proof (evolves_filter (λ _, false) (sessions s.1) (λ p, expired now p.2 = false)) as Hf.
  destruct (issue_sessions v u now now' e i a (registry_instance s.1) s)
    as [->|[->|(Hroom & c & _ & ->)]].
  - apply (evolves_refl (λ _, false)).
  - apply Hf.
  - rewrite lookup_insert_ne by done. apply Hf.
Qed.

Lemma run_session (b : bool) ls (s : RState) id :
  Forall (λ l, issues id l = false ∧ (b = false → attaches id l = false)) ls →
  opt_evolves b (sessions s.1 !! id) (sessions (runs registry_step s ls).1 !! id).
Proof.
  revert s. induction ls as [|l ls IH]; intros s Hall.
  - apply (evolves_refl (λ _, b)).
  - inversion Hall as [|? ? [Hi Ha] Hall']; subst. specialize (IH (registry_step s l) Hall').
    change (runs registry_step s (l :: ls)) with (runs registry_step (registry_step s l) ls).
    pose proof (step_session l s id Hi) as Hs.
    destruct (sessions s.1 !! id) as [r|], (sessions (registry_step s l).1 !! id) as [r1|],
      (sessions (runs registry_step (registry_step s l) ls).1 !! id) as [r2|]; cbn in *; try done.
    eapply rec_evolves_trans; [|exact IH]. destruct Hs as [H3 H4 H5 H6 Hb]. split; try done.
    intros ->. by apply Hb, Ha.
Qed.

Lemma current_connection_generation r g w c :
  current_connection (World:=World) (C:=C) (D:=D) r g w = Ok c → rank r = g.
Proof.
  unfold current_connection, rank. destruct (status r) as [|g' [c'|]]; try done.
  destruct (_ && _) eqn:E; [|done]. by boolify.
Qed.
Lemma current_connection_unblocked r g w c :
  current_connection (World:=World) (C:=C) (D:=D) r g w = Ok c → blocked r →
  closed_attachment r = Some c.
Proof.
  unfold current_connection, blocked. destruct (status r) as [|g' [c'|]]; try done.
  destruct (_ && _); [|done]. by intros [= <-].
Qed.

(** What the operations on behalf of an attachment need. *)
Lemma reserve_connection_Ok id g mode f (s : RState) x :
  answer (reserve_connection id g mode f) s = Ok x →
  ∃ r c, sessions s.1 !! id = Some r ∧ current_connection r g s.2 = Ok c ∧
    (mode = true → closed_attachment r ≠ Some c).
Proof.
  unfold reserve_connection, locked, answer. destruct (poisoned s.1); [done|]. monads.
  cbn [fst snd]. cbn beta iota.
  destruct (sessions s.1 !! id) as [r|]; [|done]. cbn [fst snd]. cbn beta iota.
  destruct (current_connection r g s.2) as [c|] eqn:Hc; [|cbn; discriminate]. cbn [fst snd]. cbn beta iota.
  destruct (mode && _) eqn:E; [cbn; discriminate|]. intros _. exists r, c. split_and!; [done..|].
  intros ->. cbn in E. by boolify.
Qed.
Lemma commit_connection_Ok id g f (s : RState) x :
  answer (commit_connection id g true f) s = Ok x →
  ∃ r c, sessions s.1 !! id = Some r ∧ current_connection r g s.2 = Ok c ∧
    closed_attachment r ≠ Some c.
Proof.
  unfold commit_connection, locked, answer. destruct (poisoned s.1); [done|]. monads.
  cbn [fst snd]. cbn beta iota.
  destruct (sessions s.1 !! id) as [r|]; [|done]. cbn [fst snd]. cbn beta iota.
  destruct (current_connection r g s.2) as [c|] eqn:Hc; [|cbn; discriminate]. cbn [fst snd]. cbn beta iota.
  case_bool_decide as E; [cbn; discriminate|]. intros _. by exists r, c.
Qed.
Lemma stop_attachment_Ok id g k (s : RState) x :
  answer (stop_non_tunnel_attachment id g k) s = Ok x →
  ∃ r c, sessions s.1 !! id = Some r ∧ current_connection r g s.2 = Ok c.
Proof.
  unfold stop_non_tunnel_attachment, locked, answer. destruct (poisoned s.1); [done|]. monads.
  cbn [fst snd]. cbn beta iota.
  destruct (sessions s.1 !! id) as [r|]; [|done]. cbn [fst snd]. cbn beta iota.
  destruct (current_connection r g s.2) as [c|] eqn:Hc; [|done]. eauto.
Qed.

(** Attachment generations never come back. Once a session's generation has moved
    past [g], then whatever happens afterwards (short of issuing the same random
    session id again) generation [g] is not current, and no request that names it can
    reserve a connection, commit one, or stop an attachment; a session that was
    removed stays removed, and the credential of one that was not stays the same. *)
Lemma generation_never_returns (s : RState) ls id r g :
  sessions s.1 !! id = Some r → g < rank r →
  Forall (λ l, issues id l = false) ls →
  let s' := runs registry_step s ls in
  is_current id g s'.1 = false ∧
  (∀ mode f, is_ok (answer (reserve_connection id g mode f) s') = false) ∧
  (∀ f, is_ok (answer (commit_connection id g true f) s') = false) ∧
  (∀ c, is_ok (answer (stop_non_tunnel_attachment id g c) s') = false) ∧
  match sessions s'.1 !! id with
  | None => has_session id s'.1 = false
  | Some r' => rec_secret r' = rec_secret r ∧ rec_product_version r' = rec_product_version r ∧
               rec_desktop_uid r' = rec_desktop_uid r ∧ rank r ≤ rank r'
  end.
Proof.
  intros Hr Hg Hall s'.
  assert (opt_evolves true (Some r) (sessions s'.1 !! id)) as He.
  { rewrite <- Hr. apply run_session. eapply List.Forall_impl; [|exact Hall]. cbn. naive_solver. }
  assert (∀ r' c, sessions s'.1 !! id = Some r' → current_connection r' g s'.2 = Ok c → False)
    as Hno.
  { intros r' c Hr' Hc. rewrite Hr' in He. apply current_connection_generation in Hc.
    destruct He. lia. }
  split_and!.
  - unfold is_current. destruct (sessions s'.1 !! id) as [r'|]; cbn; [|apply andb_false_r].
    destruct He as [_ Hrank _ _ _]. unfold rank in Hrank, Hg.
    destruct (status r'); [apply andb_false_r|]. apply andb_false_iff. right.
    apply N.eqb_neq. lia.
  - intros mode f. destruct (answer _ _) eqn:E; [|done].
    apply reserve_connection_Ok in E as (r' & c & Hr' & Hc & _). exfalso; eauto.
  - intros f. destruct (answer _ _) eqn:E; [|done].
    apply commit_connection_Ok in E as (r' & c & Hr' & Hc & _). exfalso; eauto.
  - intros k. destruct (answer _ _) eqn:E; [|done].
    apply stop_attachment_Ok in E as (r' & c & Hr' & Hc). exfalso; eauto.
  - destruct (sessions s'.1 !! id) as [r'|] eqn:Hr'.
    + destruct He as [(?&?&?) ? _ _ _]. done.
    + unfold has_session. rewrite Hr'. apply andb_false_r.
Qed.

(** A non-tunnel attachment that is being closed starts nothing more. After
    [stop_non_tunnel_attachment] on the current connection, and until that session
    attaches again, no non-tunnel connection can be reserved or committed for it, at
    any generation, whatever else happens. *)
Lemma stopped_attachment_blocked (s : RState) ls id g k d s1 :
  stop_non_tunnel_attachment id g k s = (Ok d, s1) →
  (∃ r, sessions s.1 !! id = Some r ∧ current_connection r g s.2 = Ok k) →
  Forall (λ l, issues id l = false ∧ attaches id l = false) ls →
  let s' := runs registry_step s1 ls in
  ∀ g', (∀ f, is_ok (answer (reserve_connection id g' true f) s') = false) ∧
        (∀ f, is_ok (answer (commit_connection id g' true f) s') = false).
Proof.
  intros Hstop (r & Hr & Hc) Hall s'.
  assert (∃ r1, sessions s1.1 !! id = Some r1 ∧ blocked r1) as (r1 & Hr1 & Hb1).
  { revert Hstop. unfold stop_non_tunnel_attachment, locked.
    destruct (poisoned s.1); [done|]. monads. cbn [fst snd]. cbn beta iota.
    rewrite Hr. cbn [fst snd]. cbn beta iota. rewrite Hc. cbn [fst snd]. cbn beta iota zeta.
    rewrite N.eqb_refl. intros Hs.
    exists (set_closed_attachment (Some k) r). split.
    - destruct (non_tunnel _) as [a|]; [destruct (_ =? _)|]; injection Hs as _ <-;
        cbn; by rewrite lookup_insert_eq.
    - unfold current_connection in Hc. unfold blocked. cbn.
      destruct (status r) as [|g0 [c0|]]; try done.
      destruct (_ && _); [|done]. by injection Hc as ->. }
  assert (opt_evolves false (Some r1) (sessions s'.1 !! id)) as He.
  { rewrite <- Hr1. apply run_session. eapply List.Forall_impl; [|exact Hall]. cbn. naive_solver. }
  assert (∀ r' g' c, sessions s'.1 !! id = Some r' → current_connection r' g' s'.2 = Ok c →
    closed_attachment r' = Some c) as Hclosed.
  { intros r' g' c Hr' Hc'. rewrite Hr' in He. eapply current_connection_unblocked; [done|].
    by apply He. }
  intros g'. split; intros f; (destruct (answer _ _) eqn:E; [|done]); exfalso.
  - apply reserve_connection_Ok in E as (r' & c & Hr' & Hc' & Hn). naive_solver.
  - apply commit_connection_Ok in E as (r' & c & Hr' & Hc' & Hn). naive_solver.
Qed.

(** ** Permits *)

(** What a granted handshake leaves behind: the slot was free, and is taken. *)
Lemma begin_handshake_inv own id v now t (s s1 : RState) p :
  begin_handshake own own id v now t s = (Ok p, s1) →
  poisoned s.1 = false ∧ permit_session_id p = id ∧ token p = t ∧
  ∃ r st, sessions s.1 !! id = Some r ∧
    s1 = (set_sessions (<[id := set_status st r]> (sessions s.1)) s.1, s.2) ∧
    ((∃ d, status r = Pending d None ∧ st = Pending d (Some t) ∧ observed_generation p = 0) ∨
     (∃ g c, status r = Active g c None ∧ st = Active g c (Some t) ∧ observed_generation p = g)).
Proof.
  unfold begin_handshake. rewrite N.eqb_refl. cbn [negb]. unfold locked.
  destruct (poisoned s.1); [done|]. monads. cbn [fst snd]. cbn beta iota.
  destruct (sessions s.1 !! id) as [r|]; [|done]. cbn [fst snd]. cbn beta iota.
  destruct (String.eqb _ _); [|done]. cbn [fst snd]. cbn beta iota.
  destruct (status r) as [d [h|]|g c [h|]] eqn:Hst; cbn [is_Some_dec]; try done.
  - destruct (d <? now); done.
  - destruct (d <? now); [done|]. cbn. rewrite lookup_insert_eq. intros [= <- <-].
    split_and!; [done..|]. exists r, (Pending d (Some t)). split_and!; [done..|]. left. eauto.
  - cbn. rewrite lookup_insert_eq. intros [= <- <-].
    split_and!; [done..|]. exists r, (Active g c (Some t)). split_and!; [done..|]. right. eauto.
Qed.

Lemma token_is_refl t : token_is (Some t) t = true.
Proof. by apply bool_decide_eq_true_2. Qed.

(** C23: a handshake permit is exclusive, good for one attachment, and given back when
    it is dropped. While a permit is out no other handshake for the session is
    admitted; [commit_attach] with it makes the next generation current, the one
    [prepare_attach] announced, and a second commit with the same permit is refused;
    a dropped permit restores the session exactly, or removes it when it was never
    activated. *)
Theorem permit_lifecycle own id v now t (s s1 : RState) p :
  registry_inv (sessions s.1) →
  begin_handshake own own id v now t s = (Ok p, s1) →
  (∀ v' now' t', is_ok (answer (begin_handshake own own id v' now' t') s1) = false) ∧
  (∀ c old s2, commit_attach p c s1 = (Ok old, s2) →
     prepare_attach p s1 = (Ok (observed_generation p + 1), s1) ∧
     is_current id (observed_generation p + 1) s2.1 = true ∧
     ∀ c', answer (commit_attach p c') s2 = Err ReconnectSuperseded) ∧
  cancel_handshake p s1 =
    if observed_generation p =? 0 then (set_sessions (delete id (sessions s.1)) s.1, s.2) else s.
Proof.
  intros [_ Hinv] Hb. apply begin_handshake_inv in Hb as (Hpo & Hid & Ht & r & st & Hr & Hs1 & Hst).
  pose proof (Hinv _ _ Hr) as Hwf. destruct s as [[inst m po] w]. cbn in Hpo, Hr, Hs1. subst po s1.
  subst id t. cbn [set_sessions fst snd registry_instance] in *.
  assert (is_pending (set_status st r) = is_pending r) as Hpend.
  { destruct Hst as [(d & E & -> & _)|(g & c & E & -> & _)]; unfold is_pending; by rewrite E. }
  split_and!.
  - intros v' now' t'. unfold begin_handshake. rewrite N.eqb_refl. cbn [negb].
    unfold locked, answer. cbn [poisoned set_sessions fst snd sessions]. monads.
    cbn [fst snd]. cbn beta iota. rewrite lookup_insert_eq. cbn [fst snd]. cbn beta iota.
    destruct (String.eqb _ _); [|done]. cbn [fst snd]. cbn beta iota. cbn [status set_status].
    destruct Hst as [(d & E & -> & _)|(g & c & E & -> & _)]; [by destruct (d <? now')|done].
  - intros c old s2. unfold commit_attach, prepare_attach, locked, answer.
    cbn [poisoned set_sessions fst snd sessions]. monads. cbn [fst snd]. cbn beta iota.
    rewrite lookup_insert_eq. cbn [fst snd]. cbn beta iota. unfold permit_current.
    cbn [status set_status].
    destruct Hst as [(d & E & -> & Hg)|(g & k & E & -> & Hg)]; rewrite Hg, token_is_refl.
    + cbn. rewrite insert_insert_eq. intros [= <- <-]. cbn. rewrite lookup_insert_eq. cbn.
      unfold is_current. cbn. rewrite ?lookup_insert_eq. done.
    + rewrite N.eqb_refl. cbn [andb fst snd]. cbn beta iota.
      destruct (checked_add u64_max g 1) as [g'|] eqn:Eg; [|done]. cbn beta iota. cbn [fst snd].
      cbn beta iota. apply checked_add_Some in Eg as [-> ?]. rewrite !insert_insert_eq.
      intros [= <- <-]. cbn. unfold is_current. cbn. rewrite ?lookup_insert_eq. cbn.
      rewrite N.eqb_refl. split_and!; [done..|]. intros c'.
      rewrite (proj2 (N.eqb_neq (g + 1) g)) by lia. done.
  - unfold cancel_handshake, effect. cbn [poisoned set_sessions fst snd sessions].
    rewrite lookup_insert_eq. unfold permit_current. cbn [status set_status].
    destruct Hst as [(d & E & -> & Hg)|(g & k & E & -> & Hg)]; rewrite Hg, token_is_refl; cbn.
    + by rewrite delete_insert_eq.
    + rewrite N.eqb_refl. cbn. rewrite insert_insert_eq.
      assert (g ≠ 0) as Hg0.
      { destruct Hwf as [Hgen _ _ _ _]. unfold is_pending, rank in Hgen. rewrite E in Hgen.
        specialize (Hgen eq_refl). lia. }
      rewrite (proj2 (N.eqb_neq g 0)) by done. f_equal.
      assert (set_status (Active g k None) (set_status (Active g k (Some (token p))) r) = r) as ->
        by (destruct r; cbn in *; by subst).
      unfold set_sessions. cbn. by rewrite insert_id.
Qed.

(** ** Uploading an edited report *)

(** What the GUI does: the chunks in order, each at the offset the last one ended, the
    last one marked complete. [u] and [rep] are the identifiers the service draws. *)
Fixpoint upload_rest (id : Uuid) (upload_id : option Uuid) (offset : N) (u rep : Uuid)
    (chunk : string) (chunks : list string) : stm RState SessionError HipUploadResult :=
  match chunks with
  | [] => append_edited_hip_report_chunk id upload_id offset chunk true u rep
  | next :: chunks =>
      r ← append_edited_hip_report_chunk id upload_id offset chunk false u rep;
      match r with
      | Progress i => upload_rest id (Some i) (offset + slen chunk) u rep next chunks
      | Stored i => mret (Stored i)
      end
  end.
Definition text_of (chunks : list string) : string := foldr (λ c s, c +:+ s) EmptyString chunks.

Definition uploading (id i : Uuid) (x : string) (s : RState) : Prop :=
  poisoned s.1 = false ∧
  ∃ r, sessions s.1 !! id = Some r ∧ is_active r = true ∧ edited_hip_upload r = Some (i, x).

(** One accepted chunk. *)
Lemma append_chunk id i x c (complete : bool) u rep (s : RState) :
  uploading id i x s → slen c ≤ MAX_UPLOAD_CHUNK →
  slen x + slen c ≤ MAX_EDITED_REPORT_BYTES →
  is_ok (validate_edited_report (x +:+ c)) = true ∨ complete = false →
  ∃ s', append_edited_hip_report_chunk id (Some i) (slen x) c complete u rep s =
      (Ok (if complete then Stored rep else Progress i), s') ∧
    if complete then answer (edited_report id rep) s' = Ok (x +:+ c)
    else uploading id i (x +:+ c) s'.
Proof.
  intros (Hpo & r & Hr & Ha & Hu) Hc Hx Hv. destruct s as [[inst m po] w]. cbn in Hpo, Hr. subst po.
  unfold append_edited_hip_report_chunk, locked. cbn [poisoned fst snd sessions]. monads.
  cbn [fst snd]. cbn beta iota. rewrite Hr. cbn [fst snd]. cbn beta iota. rewrite Ha.
  cbn [fst snd]. cbn beta iota. rewrite Hu. cbn [fst snd]. cbn beta iota.
  rewrite !N.eqb_refl. cbn [negb orb].
  rewrite (proj2 (N.ltb_ge MAX_UPLOAD_CHUNK (slen c))) by done.
  rewrite (proj2 (N.ltb_ge MAX_EDITED_REPORT_BYTES (slen x + slen c))) by done.
  destruct complete; cbn [negb].
  - destruct Hv as [->|]; [|done]. cbn. eexists. split; [done|].
    unfold edited_report, locked, answer. cbn. monads. cbn. rewrite lookup_insert_eq. cbn.
    by rewrite N.eqb_refl.
  - cbn. eexists. split; [done|]. split; [done|]. eexists. cbn. rewrite lookup_insert_eq.
    split_and!; [done| |done]. by destruct r.
Qed.

Lemma upload_rest_stored id i x u rep chunk chunks (s : RState) :
  uploading id i x s → Forall (λ c, slen c ≤ MAX_UPLOAD_CHUNK) (chunk :: chunks) →
  let text := x +:+ text_of (chunk :: chunks) in
  slen text ≤ MAX_EDITED_REPORT_BYTES → is_ok (validate_edited_report text) = true →
  let '(r, s') := upload_rest id (Some i) (slen x) u rep chunk chunks s in
  r = Ok (Stored rep) ∧ answer (edited_report id rep) s' = Ok text.
Proof.
  revert x chunk s. induction chunks as [|next chunks IH]; intros x chunk s Hup Hall text Hlen Hv.
  - cbn [upload_rest]. unfold text in *. cbn [text_of foldr] in *. rewrite string_app_nil_r in *.
    rewrite slen_app in Hlen. inversion Hall; subst.
    destruct (append_chunk id i x chunk true u rep s) as (s' & -> & Hs'); auto.
  - cbn [upload_rest]. inversion Hall as [|? ? Hc Hall']; subst.
    unfold text in *. cbn [text_of foldr] in *. fold (text_of chunks) in *.
    change (next +:+ text_of chunks) with (text_of (next :: chunks)) in *.
    rewrite string_app_assoc in *.
    destruct (append_chunk id i x chunk false u rep s) as (s' & Happ & Hs'); auto.
    { rewrite !slen_app in Hlen. lia. }
    monads. rewrite Happ. cbn beta iota. rewrite <- slen_app. by apply IH.
Qed.

(** Uploading an edited HIP report in chunks stores exactly that report. For an
    attached session, a text that validates, is within 48 KiB and is cut in pieces of
    at most 8 KiB, the upload ends with [Stored], and the report that is then
    submitted is the concatenation of the pieces, whatever upload was in progress
    before. *)
Lemma upload_round_trip id u rep chunk chunks (s : RState) r :
  poisoned s.1 = false → sessions s.1 !! id = Some r → is_active r = true →
  Forall (λ c, slen c ≤ MAX_UPLOAD_CHUNK) (chunk :: chunks) →
  let text := text_of (chunk :: chunks) in
  slen text ≤ MAX_EDITED_REPORT_BYTES → is_ok (validate_edited_report text) = true →
  let '(result, s') := upload_rest id None 0 u rep chunk chunks s in
  result = Ok (Stored rep) ∧ answer (edited_report id rep) s' = Ok text.
Proof.
  intros Hpo Hr Ha Hall text Hlen Hv.
  set (s0 := (set_sessions (<[id := set_edited_hip_upload (Some (u, EmptyString)) r]> (sessions s.1)) s.1, s.2) : RState).
  assert (uploading id u "" s0) as Hup.
  { split; [done|]. eexists. split; [cbn; by rewrite lookup_insert_eq|]. by destruct r. }
  assert (∀ c complete,
    append_edited_hip_report_chunk id None 0 c complete u rep s =
    append_edited_hip_report_chunk id (Some u) (slen "") c complete u rep s0) as Hfirst.
  { intros c complete. destruct s as [[inst m po] w]. cbn in Hpo, Hr. subst po.
    unfold append_edited_hip_report_chunk, locked, s0. cbn [poisoned fst snd sessions set_sessions].
    monads. cbn [fst snd]. cbn beta iota. rewrite lookup_insert_eq, Hr.
    cbn [fst snd]. cbn beta iota. rewrite Ha.
    assert (is_active (set_edited_hip_upload (Some (u, EmptyString)) r) = true) as -> by (by destruct r).
    cbn. rewrite N.eqb_refl. repeat (case_match; simplify_eq/=; rewrite ?insert_insert_eq; try done). }
  pose proof (upload_rest_stored id u "" u rep chunk chunks s0 Hup Hall Hlen Hv) as Hrest.
  destruct chunks as [|next chunks]; cbn [upload_rest] in *.
  - by rewrite Hfirst.
  - monads. rewrite Hfirst. exact Hrest.
Qed.

(** ** Reading a preview *)

(** A HIP preview is read back whole. After [store_hip_preview] the protocol the
    GUI runs, asking for the chunk at each offset the last chunk ended at until one is
    marked complete, ends and returns the stored text, for every text, because each
    chunk is cut at a character boundary and is not empty. *)
Lemma preview_round_trip id xml pid (s s1 : RState) fuel :
  utf8 xml → store_hip_preview id xml pid s = (Ok pid, s1) → slen xml < N.of_nat fuel →
  read_chunks fuel (λ i, to_option (answer (hip_preview_chunk id pid i) s1)) 0 = Some xml.
Proof.
  intros Hxml Hstore Hfuel.
  assert (serves xml (λ i, to_option (answer (hip_preview_chunk id pid i) s1))) as Hserves.
  { revert Hstore. unfold store_hip_preview, locked. destruct s as [[inst m po] w].
    destruct po; cbn [poisoned fst]; [done|]. monads. cbn [fst snd sessions]. cbn beta iota.
    destruct (m !! id) as [r|] eqn:Hr; [|done]. cbn [fst snd]. cbn beta iota.
    destruct (is_active r); [|done]. cbn. intros [= <-] i Hi.
    unfold hip_preview_chunk, locked, answer. cbn [poisoned fst snd sessions set_sessions]. monads.
    cbn [fst snd]. cbn beta iota. rewrite lookup_insert_eq. cbn. rewrite N.eqb_refl. cbn.
    pose proof (boundary_le _ _ Hi) as Hle.
    rewrite (proj2 (N.ltb_ge _ _)), Hi by done. cbn.
    set (limit := N.min (i + HIP_PREVIEW_CHUNK_BYTES) (slen xml)).
    destruct (floor_boundary_spec xml limit) as (Hb & Hmax & Hnone).
    pose proof (floor_boundary_near xml limit Hxml) as Hnear.
    exists (floor_boundary xml limit). unfold limit, HIP_PREVIEW_CHUNK_BYTES in *.
    split_and!; [done|done| |lia|].
    - destruct (decide (floor_boundary xml (N.min (i + 16 * 1024) (slen xml)) < i)) as [Hlt|]; [|lia].
      rewrite (Hnone i) in Hi by lia. done.
    - destruct (decide (slen xml ≤ i + 16 * 1024)) as [Hend|Hend]; [right|left; lia].
      rewrite N.min_r in * by done.
      destruct (decide (floor_boundary xml (slen xml) = slen xml)) as [|Hne]; [done|].
      pose proof (boundary_len xml) as Hlen. rewrite (Hnone (slen xml)) in Hlen by lia. done. }
  rewrite (read_chunks_all xml) by (done || lia). by rewrite slice_all.
Qed.
End steps.

(** A session from its credential to its attachment. *)
Module RegistryExample.
#[export] Instance numbers : ConnectionHandles (gset N) N := {|
  connection_id c := c; is_closed c w := bool_decide (c ∈ w); close _ c w := {[c]} ∪ w |}.
#[export] Instance no_attempts : AttemptHandles (gset N) () () := {|
  drain _ _ := Some (); drain_cancel _ w := w; drain_is_complete _ _ := false |}.
#[export] Existing Instance ReportExample.parser.
#[export] Existing Instance Concrete.plain_base64.

Definition anchor : DeviceAnchor :=
  {| hardware_id := "0123456789abcdef0123456789abcdef"; source := UnixRandom |}.
Definition secret32 : string := "fedcba9876543210fedcba9876543210".
Definition St : Type := RState (World:=gset N) (C:=N) (D:=()).
Definition s0 : St := (registry_new 1, ∅).
Definition labels : list (registry_label (World:=gset N) (C:=N) (R:=())) :=
  [LIssue "2.0" (Some 1000) 0 0 (Some secret32) 42 (Some anchor)].
Definition s1 : St := runs registry_step s0 labels.
Definition handshake := begin_handshake (World:=gset N) (C:=N) (D:=()) 1 1 42 "2.0" 5 7.
Definition permit : HandshakePermit := {|
  permit_session_id := 42; permit_desktop_uid := Some 1000; observed_generation := 0;
  permit_secret := secret32; token := 7 |}.
Definition s2 : St := after handshake s1.
Definition s3 : St := after (commit_attach permit 100) s2.
Definition fallback : SessionRecord (C:=N) (D:=()) :=
  new_record {| service_instance_id := 0; session_id := 0; secret := ""; product_version := "";
                device_anchor := None |} None 0.
Definition attached : SessionRecord (C:=N) (D:=()) := default fallback (sessions s3.1 !! 42).
Definition later : list (registry_label (World:=gset N) (C:=N) (R:=())) :=
  [LStoreReport 42 "report"; LDisconnect 42 1; LClearReport 42; LDropPermit permit].

Lemma permit_lifecycle_witness :
  is_ok (answer (begin_handshake 1 1 42 "2.0" 6 8) s2) = false ∧
  is_current 42 1 s3.1 = true ∧
  answer (commit_attach permit 101) s3 = Err ReconnectSuperseded ∧
  cancel_handshake permit s2 = (registry_new 1, ∅).
Proof.
  assert (registry_inv (sessions s1.1)) as Hi.
  { apply (registry_runs_inv s0). apply registry_new_inv. }
  destruct (permit_lifecycle 1 42 "2.0" 5 7 s1 s2 permit Hi ltac:(by vm_compute)) as (He & Hc & Hd).
  destruct (Hc 100 None s3 ltac:(by vm_compute)) as (_ & H1 & H2).
  split; [apply He|]. split; [exact H1|]. split; [apply H2|].
  rewrite Hd. by vm_compute.
Defined.

Lemma generation_never_returns_witness :
  is_current 42 0 (runs registry_step s3 later).1 = false.
Proof.
  refine (proj1 (generation_never_returns s3 later 42 attached 0 _ _ _));
    [by vm_compute..|repeat constructor].
Defined.

Lemma stopped_attachment_blocked_witness :
is_current 42 1 s3.1 = true ∧
is_ok (answer (reserve_connection 42 1 true (λ w, (Ok (), w)))
  (runs registry_step (after (stop_non_tunnel_attachment 42 1 100) s3) later)) = false.
Proof.
split; [by vm_compute|].
refine (proj1 (stopped_attachment_blocked s3 later 42 1 100 None
  (after (stop_non_tunnel_attachment 42 1 100) s3) _ _ _ 1) (λ w, (Ok (), w)));
  [by vm_compute|exists attached; by vm_compute|repeat constructor].
Defined.

Definition declaration : string := "<?xml version='1.0' encoding='UTF-8'?>".
Lemma upload_round_trip_witness :
  let '(result, s') := upload_rest 42 None 0 50 51 declaration ["<hip-report/>"%string] s3 in
  result = Ok (Stored 51) ∧
  answer (edited_report 42 51) s' = Ok (declaration +:+ "<hip-report/>").
Proof.
  apply (upload_round_trip 42 50 51 declaration ["<hip-report/>"%string] s3 attached);
    try (by vm_compute). repeat constructor; by vm_compute.
Defined.

Lemma preview_round_trip_witness :
  read_chunks 10 (λ i, to_option (answer (hip_preview_chunk 42 60 i)
    (after (store_hip_preview 42 "<report/>" 60) s3))) 0 = Some "<report/>"%string.
Proof.
  apply (preview_round_trip 42 "<report/>" 60 s3); [|by vm_compute|by vm_compute].
  apply (utf8b_sound 9). by vm_compute.
Defined.
End RegistryExample.
