(* ===== verification/VpnTask.v ===== *)
(** The VPN task (apps/gpservice/src/vpn_task.rs, [VpnTask]): the actor that runs one
    admitted connection attempt at a time and publishes the VPN state.

    [handle_event] and the functions it calls are the actor's. Where it looks at an
    attempt without the lock of the admissions and acts later, others may come in
    between: what it is about to do is [pending], and [resume] does it in a step of its
    own. [system_step] is the task together with everything that runs beside it: GUI
    requests on the handle, the owners of reservations, drains, the worker of the running
    attempt and the session registry. The events of [runtime::spawn]'s worker are labels: the worker
    sends any events of its attempt and [Ended] last. [VpnState] receivers are held by
    the WebSocket server, so the watch has one. *)
From S2P Require Import Prelude Utf8 ThirdParty Transport Session Service Lifecycle.

#[local] Open Scope N_scope.

(** What the task needs of the session registry. *)
Class SessionDirectory (R : Type) := {
  directory_instance : R → Uuid;
  directory_has_session : Uuid → R → bool;
  directory_clear_report : Uuid → R → R;
}.

Section vpn_task.
Context {TS T : Type} `{CancellationTokens TS T}.
Context {Q : Type → Type} `{Mpsc Q} {W : Type → Type} `{Watch W}.
Context {Resources Monitor : Type} {R : Type} `{SessionDirectory R}.
(** [humantime::format_duration]. *)
Variable format_duration_secs : N → string.

Abbreviation Shared := (Lifecycle (TS:=TS) (T:=T) (Q:=Q) (W:=W)
  (Resources:=Resources) (Monitor:=Monitor)) (only parsing).
Abbreviation Event := (LifecycleEvent (Resources:=Resources) (Monitor:=Monitor)) (only parsing).
Abbreviation Connection := (PreparedConnection (Resources:=Resources)) (only parsing).

Record ActiveAttempt := {
  aa_attempt : N;
  aa_session_id : option Uuid;
  aa_info : ConnectInfo;
  aa_allow_extend_session : bool;
  aa_cancellation : T;
  aa_failure : option string;
  aa_reconnect_required : bool;
}.

(** What the actor decided to do when it looked at the active attempt: show a state, take
    the lock to publish that the attempt is connected or what its members are, or end the
    attempt, with an offer of a restart to its session or without, and release it then. *)
Inductive Unfinished :=
  | Announce (v : VpnState.t)
  | PublishConnected (now attempt : N) (i : ConnectInfo) (s : SessionInfo)
  | PublishMembers (now attempt : N) (i : ConnectInfo) (ms : list GatewaySessionSummary)
      (fs : list GatewayFailureSummary)
  | Conclude (attempt : N) (restart : option Uuid)
  | ReleaseAttempt (attempt : N).

(** The task and what it shares; [workers] are the attempts whose worker runs. *)
Record VpnTask := {
  lifecycle : Shared;
  active : option ActiveAttempt;
  pending : option Unfinished;
  registry : R;
  workers : gset N;
  cancel_token : T;
  shutting_down : bool;
  stopped : bool;
}.

(** Field updates. *)
Definition set_aa_failure (v : option string) (s : ActiveAttempt) : ActiveAttempt := {|
  aa_attempt := aa_attempt s; aa_session_id := aa_session_id s; aa_info := aa_info s;
  aa_allow_extend_session := aa_allow_extend_session s;
  aa_cancellation := aa_cancellation s; aa_failure := v;
  aa_reconnect_required := aa_reconnect_required s
|}.
Definition set_aa_reconnect_required (v : bool) (s : ActiveAttempt) : ActiveAttempt := {|
  aa_attempt := aa_attempt s; aa_session_id := aa_session_id s; aa_info := aa_info s;
  aa_allow_extend_session := aa_allow_extend_session s;
  aa_cancellation := aa_cancellation s; aa_failure := aa_failure s;
  aa_reconnect_required := v
|}.
Definition set_lifecycle (v : Shared) (s : VpnTask) : VpnTask := {|
  lifecycle := v; active := active s; pending := pending s; registry := registry s; workers := workers s;
  cancel_token := cancel_token s; shutting_down := shutting_down s;
  stopped := stopped s
|}.
Definition set_active (v : option ActiveAttempt) (s : VpnTask) : VpnTask := {|
  lifecycle := lifecycle s; active := v; pending := pending s; registry := registry s; workers := workers s;
  cancel_token := cancel_token s; shutting_down := shutting_down s;
  stopped := stopped s
|}.
Definition set_pending (v : option Unfinished) (s : VpnTask) : VpnTask := {|
  lifecycle := lifecycle s; active := active s; pending := v; registry := registry s;
  workers := workers s; cancel_token := cancel_token s; shutting_down := shutting_down s;
  stopped := stopped s
|}.
Definition set_registry (v : R) (s : VpnTask) : VpnTask := {|
  lifecycle := lifecycle s; active := active s; pending := pending s; registry := v; workers := workers s;
  cancel_token := cancel_token s; shutting_down := shutting_down s;
  stopped := stopped s
|}.
Definition set_workers (v : gset N) (s : VpnTask) : VpnTask := {|
  lifecycle := lifecycle s; active := active s; pending := pending s; registry := registry s; workers := v;
  cancel_token := cancel_token s; shutting_down := shutting_down s;
  stopped := stopped s
|}.
Definition set_shutting_down (v : bool) (s : VpnTask) : VpnTask := {|
  lifecycle := lifecycle s; active := active s; pending := pending s; registry := registry s;
  workers := workers s; cancel_token := cancel_token s; shutting_down := v;
  stopped := stopped s
|}.
Definition set_stopped (v : bool) (s : VpnTask) : VpnTask := {|
  lifecycle := lifecycle s; active := active s; pending := pending s; registry := registry s;
  workers := workers s; cancel_token := cancel_token s;
  shutting_down := shutting_down s; stopped := v
|}.

Definition on_lifecycle (f : Shared → Shared) (t : VpnTask) : VpnTask :=
  set_lifecycle (f (lifecycle t)) t.
(** [let _ = self.vpn_state_tx.send(state)] *)
Definition send_state (v : VpnState.t) (t : VpnTask) : VpnTask :=
  on_lifecycle (λ l, set_state (watch_send v (state l)) l) t.
Definition vpn_state (t : VpnTask) : VpnState.t := watch_borrow (state (lifecycle t)).
Definition bind_tunnel (b : TunnelBinding) (t : VpnTask) : VpnTask :=
  on_lifecycle (λ l, set_tunnel (watch_send_replace b (tunnel l)) l) t.

(** The active attempt, if it is [attempt]. *)
Definition active_is (attempt : N) (t : VpnTask) : option ActiveAttempt :=
  match active t with
  | Some a => if aa_attempt a =? attempt then Some a else None
  | None => None
  end.
Definition aa_cancelled (a : ActiveAttempt) (t : VpnTask) : bool :=
  token_cancelled (aa_cancellation a) (tokens (lifecycle t)).

Definition non_tunnel_plan (r : ConnectRequest) : bool :=
  forallb (λ m, bool_decide (member_mode m = NonTunnel)) (members (request_plan r)).

(** [start_attempt]: the worker is spawned whatever [activate_attempt] says. The lock is
    released before the state is sent. *)
Definition start_info (instance : Uuid) (attempt : N) (r : ConnectRequest) : ConnectInfo :=
  match arg_packet_delivery (request_args r) with
  | ScriptTun s => set_script_tun_identity {| service_instance := instance;
      id_attempt := attempt; id_launch := launch_id s |} (request_info r)
  | System => request_info r
  end.
Definition start_attempt (attempt : N) (c : Connection) (session : option Uuid) (t : VpnTask) :
    VpnTask :=
  let (activated, l) := activate_attempt attempt (lifecycle t) in
  let t := bind_tunnel {| tb_attempt := attempt; tb_monitor := None;
    tb_non_tunnel := non_tunnel_plan (prepared_request c) |} (set_lifecycle l t) in
  let info := start_info (directory_instance (registry t)) attempt (prepared_request c) in
  let (token, l) := attempt_cancellation attempt (lifecycle t) in
  let t := set_lifecycle (if (activated : bool) then l else cancel token l) t in
  let t := set_workers ({[attempt]} ∪ workers t) t in
  let t := set_active (Some {|
    aa_attempt := attempt; aa_session_id := session; aa_info := info;
    aa_allow_extend_session := arg_allow_extend_session (request_args (prepared_request c));
    aa_cancellation := token; aa_failure := None; aa_reconnect_required := false |}) t in
  if activated then set_pending (Some (Announce (VpnState.Connecting info))) t else t.

(** A stop that was requested stays requested, and no one else sends a state while there
    is an admission. *)
Definition stop_attempt (attempt : N) (t : VpnTask) : VpnTask :=
  match active_is attempt t with
  | None => t
  | Some a =>
      if is_stop_requested attempt (lifecycle t) then
        on_lifecycle (cancel (aa_cancellation a)) (send_state VpnState.Disconnecting t)
      else t
  end.

(** [now] is the time in seconds of [ConnectedInfo::new] and of the expiry text. *)
Definition publish_connected (now attempt : N) (i : ConnectInfo) (s : SessionInfo) (t : VpnTask) :
    VpnTask :=
  match admission_of attempt (lifecycle t) with
  | Some a =>
      if bool_decide (adm_phase a = Active) && negb (adm_stop_requested a)
      then send_state (VpnState.Connected (connected_info_new now i (Some s))) t else t
  | None => t
  end.

Definition establish_attempt (now attempt : N) (v : VpnSessionInfo) (t : VpnTask) : VpnTask :=
  match active_is attempt t with
  | None => t
  | Some a =>
      if aa_cancelled a t then t
      else set_pending (Some (PublishConnected now attempt (aa_info a)
        (from_vpn_session_fields format_duration_secs now (vsi_lifetime_secs v)
           (vsi_user_expires v) (vsi_lifetime_warning v) (aa_allow_extend_session a)))) t
  end.

Definition any_healthy (ms : list GatewaySessionSummary) : bool :=
  existsb (λ m, bool_decide (maintenance m = Healthy)) ms.

(** The end of [publish_members], with the lock. *)
Definition publish_healthy (now attempt : N) (i : ConnectInfo) (ms : list GatewaySessionSummary)
    (fs : list GatewayFailureSummary) (t : VpnTask) : VpnTask :=
  match admission_of attempt (lifecycle t) with
  | None => t
  | Some adm =>
      if adm_stop_requested adm then t
      else
        let info := match vpn_state t with
          | VpnState.Connected c => c
          | _ => connected_info_new now i None
          end in
        send_state (VpnState.Connected (with_members ms fs info)) t
  end.
(** While there is an active attempt the state is the actor's, so what it reads of it
    cannot change before it sends. *)
Definition publish_members (now attempt : N) (ms : list GatewaySessionSummary)
    (fs : list GatewayFailureSummary) (t : VpnTask) : VpnTask :=
  match active_is attempt t with
  | None => t
  | Some a =>
      if aa_cancelled a t then t
      else if negb (any_healthy ms) then
        match vpn_state t with
        | VpnState.Connected _ => set_pending (Some (Announce (VpnState.Connecting (aa_info a)))) t
        | _ => t
        end
      else set_pending (Some (PublishMembers now attempt (aa_info a) ms fs)) t
  end.

(** [finish_attempt], up to the release, which takes the lock. *)
Definition finish_attempt (attempt : N) (t : VpnTask) : VpnTask :=
  set_pending (Some (ReleaseAttempt attempt)) (send_state VpnState.Disconnected t).
Definition release_attempt (attempt : N) (t : VpnTask) : VpnTask :=
  set_active None (on_lifecycle (clear_attempt attempt) t).

(** The reconnect branch of [end_attempt]: the admission is released here, and the
    restart is offered to its owner, unless the attempt was cancelled meanwhile. *)
Definition offer_restart (a : ActiveAttempt) (owner : Uuid) (t : VpnTask) : VpnTask :=
  let l := lifecycle t in
  match current (admissions l) with
  | None => t
  | Some adm =>
      let t := set_lifecycle (set_current_admission None l) t in
      let t :=
        if negb (token_cancelled (adm_cancellation adm) (tokens l)) && negb (adm_stop_requested adm)
        then
          send_state (VpnState.ReconnectRequired {|
            rr_attempt := aa_attempt a; rr_owner := owner; rr_info := aa_info a |})
            (on_lifecycle (λ l, set_admissions
               (set_restart (Some (aa_attempt a, owner)) (admissions l)) l) t)
        else send_state VpnState.Disconnected t in
      on_lifecycle (λ l, set_completed ({[adm_attempt adm]} ∪ completed l) l) t
  end.
(** The rest of [end_attempt]. *)
Definition conclude (attempt : N) (restart : option Uuid) (t : VpnTask) : VpnTask :=
  match active t with
  | None => t
  | Some a =>
      match restart with
      | Some owner => set_active None (offer_restart a owner t)
      | None =>
          match aa_failure a with
          | Some reason =>
              set_pending (Some (ReleaseAttempt attempt)) (send_state (VpnState.Failed reason) t)
          | None => finish_attempt attempt t
          end
      end
  end.

(** What was pending is done. *)
Definition resume (u : Unfinished) (t : VpnTask) : VpnTask :=
  match u with
  | Announce v => send_state v t
  | PublishConnected now attempt i s => publish_connected now attempt i s t
  | PublishMembers now attempt i ms fs => publish_healthy now attempt i ms fs t
  | Conclude attempt restart => conclude attempt restart t
  | ReleaseAttempt attempt => release_attempt attempt t
  end.

(** The first part of [end_attempt]: the worker is joined (it has sent its last event), the
    report cleared and an unbound tunnel reset, and whether a restart is to be offered is
    decided. The actor's own record of the attempt is kept here until it is released. *)
Definition take_attempt (a : ActiveAttempt) (t : VpnTask) : VpnTask :=
  let t := match aa_session_id a with
    | Some id => set_registry (directory_clear_report id (registry t)) t
    | None => t
    end in
  match tb_monitor (watch_borrow (tunnel (lifecycle t))) with
  | None => bind_tunnel {| tb_attempt := aa_attempt a; tb_monitor := None;
                           tb_non_tunnel := false |} t
  | Some _ => t
  end.
Definition end_attempt (attempt : N) (t : VpnTask) : VpnTask :=
  match active_is attempt t with
  | None => t
  | Some a =>
      let t := take_attempt a t in
      let owner := match aa_session_id a with
        | Some id => if directory_has_session id (registry t) then Some id else None
        | None => None
        end in
      set_pending (Some (Conclude attempt
        (if aa_reconnect_required a && negb (aa_cancelled a t) then owner else None))) t
  end.

Definition handle_event (now : N) (e : Event) (t : VpnTask) : VpnTask :=
  match e with
  | EvTunnelMonitor attempt monitor =>
      if active_is attempt t is Some _ then
        bind_tunnel {| tb_attempt := attempt; tb_monitor := Some monitor;
                       tb_non_tunnel := false |} t
      else t
  | EvStart attempt c _ _ session => start_attempt attempt c session t
  | EvStop attempt => stop_attempt attempt t
  | EvEstablished attempt session => establish_attempt now attempt session t
  | EvMembersChanged attempt ms fs => publish_members now attempt ms fs t
  | EvEnded attempt => end_attempt attempt t
  | EvFailed attempt reason =>
      match active_is attempt t with
      | Some a => set_active (Some (set_aa_failure (Some reason) a)) t
      | None => t
      end
  | EvScriptTunSuspended attempt =>
      match active_is attempt t with
      | Some a =>
          if aa_cancelled a t then t
          else set_pending (Some (Announce (VpnState.Connecting (aa_info a)))) t
      | None => t
      end
  | EvReconnectRequired attempt =>
      match active_is attempt t with
      | Some a => set_active (Some (set_aa_reconnect_required true a)) t
      | None => t
      end
  | EvPreparationReleased => t
  end.

(** [VpnTask::new] and the loop of [start]. *)
Definition vpn_task_new (initial : VpnState.t) (ts : TS) (r : R) : VpnTask :=
  let (token, ts) := token_new ts in
  {| lifecycle := {| tokens := ts; completed := ∅; admissions := admissions_default;
       events := channel 4; tunnel := watch_channel tunnel_binding_default;
       state := watch_channel initial |};
     active := None; pending := None; registry := r; workers := ∅; cancel_token := token;
     shutting_down := false; stopped := false |}.

Definition has_admission (t : VpnTask) : bool :=
  bool_decide (is_Some (current (admissions (lifecycle t)))).

(** One step of a turn: the rest of the event that is being handled, or the next event, if
    the loop still runs and there is one. *)
Definition receive_event (now : N) (t : VpnTask) : VpnTask :=
  match pending t with
  | Some u => resume u (set_pending None t)
  | None =>
      if stopped t then t
      else if shutting_down t && negb (bool_decide (is_Some (active t))) && negb (has_admission t) then
        set_stopped true (on_lifecycle close_admission t)
      else match recv (events (lifecycle t)) with
      | Some (e, q) => handle_event now e (on_lifecycle (set_events q) t)
      | None => t
      end
  end.

(** The cancelled branch of the select. *)
Definition begin_shutdown (t : VpnTask) : VpnTask :=
  if stopped t || shutting_down t || negb (token_cancelled (cancel_token t) (tokens (lifecycle t)))
     || bool_decide (is_Some (pending t))
  then t
  else
    let t := on_lifecycle close_admission (set_shutting_down true t) in
    match active t with Some a => stop_attempt (aa_attempt a) t | None => t end.

(** * The task in its environment *)

(** Reservations that were neither committed nor dropped, by attempt. *)
Record System := {
  task : VpnTask;
  held : gmap N (ConnectReservation (T:=T));
}.

(** The events a worker sends about its attempt. *)
Inductive worker_event :=
  | WMonitor (m : Monitor)
  | WScriptTunSuspended
  | WReconnectRequired
  | WEstablished (s : VpnSessionInfo)
  | WMembersChanged (ms : list GatewaySessionSummary) (fs : list GatewayFailureSummary)
  | WFailed (reason : string)
  | WEnded.
Definition worker_message (attempt : N) (e : worker_event) : Event :=
  match e with
  | WMonitor m => EvTunnelMonitor attempt m
  | WScriptTunSuspended => EvScriptTunSuspended attempt
  | WReconnectRequired => EvReconnectRequired attempt
  | WEstablished s => EvEstablished attempt s
  | WMembersChanged ms fs => EvMembersChanged attempt ms fs
  | WFailed reason => EvFailed attempt reason
  | WEnded => EvEnded attempt
  end.

Inductive label :=
  | Reserve (restart : option (N * Uuid))
  | Commit (attempt : N) (c : Connection) (uid : option N) (report : option string)
      (session : option Uuid)
  | Release (attempt : N)
  | RequestDisconnect
  | DisconnectAndWait
  | Cancel (token : T)
  | Worker (attempt : N) (e : worker_event)
  | ReceiveEvent (now : N)
  | BeginShutdown
  | RegistryChange (r : R).

Definition with_task (t : VpnTask) (s : System) : System := {| task := t; held := held s |}.
Definition with_lifecycle (l : Shared) (s : System) : System :=
  with_task (set_lifecycle l (task s)) s.

(** [send(..).await] of the worker: it waits while the queue is full. *)
Definition worker_send (attempt : N) (e : worker_event) (t : VpnTask) : VpnTask :=
  if decide (attempt ∈ workers t) then
    match try_send (worker_message attempt e) (events (lifecycle t)) with
    | (Full, _) => t
    | (_, q) =>
        let t := on_lifecycle (set_events q) t in
        match e with WEnded => set_workers (workers t ∖ {[attempt]}) t | _ => t end
    end
  else t.

Definition system_step (s : System) (l : label) : System :=
  match l with
  | Reserve restart =>
      match reserve_connect restart (lifecycle (task s)) with
      | (Ok r, l) => {| task := set_lifecycle l (task s); held := <[rsv_attempt r := r]> (held s) |}
      | (Err _, l) => with_lifecycle l s
      end
  | Commit attempt c uid report session =>
      match held s !! attempt with
      | Some r => {| task := set_lifecycle
                       (commit r c uid report session (lifecycle (task s))).2 (task s);
                     held := delete attempt (held s) |}
      | None => s
      end
  | Release attempt =>
      match held s !! attempt with
      | Some r => {| task := on_lifecycle (reservation_drop r) (task s);
                     held := delete attempt (held s) |}
      | None => s
      end
  | RequestDisconnect => with_lifecycle (request_disconnect (lifecycle (task s))).2 s
  | DisconnectAndWait => with_lifecycle (disconnect_and_wait (lifecycle (task s))).2 s
  | Cancel token => with_lifecycle (cancel token (lifecycle (task s))) s
  | Worker attempt e => with_task (worker_send attempt e (task s)) s
  | ReceiveEvent now => with_task (receive_event now (task s)) s
  | BeginShutdown => with_task (begin_shutdown (task s)) s
  | RegistryChange r => with_task (set_registry r (task s)) s
  end.

Definition system_new (initial : VpnState.t) (ts : TS) (r : R) : System :=
  {| task := vpn_task_new initial ts r; held := ∅ |}.
End vpn_task.

(** * Theorems *)
Section task_theorems.
Context {TS T : Type} `{CancellationLaws TS T}.
Context {Q : Type → Type} `{MpscLaws Q} {W : Type → Type} `{WatchLaws W}.
Context {Resources Monitor : Type} {R : Type} `{SessionDirectory R}.
Variable format_duration_secs : N → string.

Abbreviation Shared := (Lifecycle (TS:=TS) (T:=T) (Q:=Q) (W:=W)
  (Resources:=Resources) (Monitor:=Monitor)) (only parsing).
Abbreviation Task := (VpnTask (TS:=TS) (T:=T) (Q:=Q) (W:=W)
  (Resources:=Resources) (Monitor:=Monitor) (R:=R)) (only parsing).
Abbreviation Sys := (System (TS:=TS) (T:=T) (Q:=Q) (W:=W)
  (Resources:=Resources) (Monitor:=Monitor) (R:=R)) (only parsing).
Abbreviation step := (system_step (TS:=TS) (T:=T) (Q:=Q) (W:=W)
  (Resources:=Resources) (Monitor:=Monitor) (R:=R) format_duration_secs) (only parsing).

(** ** The queue, by the attempts its events start and end *)
Definition start_of (e : LifecycleEvent (Resources:=Resources) (Monitor:=Monitor)) : option N :=
  match e with EvStart k _ _ _ _ => Some k | _ => None end.
Definition end_of (e : LifecycleEvent (Resources:=Resources) (Monitor:=Monitor)) : option N :=
  match e with EvEnded k => Some k | _ => None end.
Definition starts (l : Shared) : list N := omap start_of (queued (events l)).
Definition ends (l : Shared) : list N := omap end_of (queued (events l)).

Lemma post_queue e (l : Shared) :
  receiver_closed (events l) = false →
  receiver_closed (events (post e l)) = false ∧
  capacity (events (post e l)) = capacity (events l) ∧
  (queued (events (post e l)) = queued (events l) ++ [e] ∨
   queued (events (post e l)) = queued (events l)).
Proof.
  intros Hc. unfold post. cbn. pose proof (try_send_spec e (events l)) as Hs.
  rewrite Hc in Hs. destruct (decide _) in Hs.
  - destruct Hs as (_ & -> & -> & ->). auto.
  - rewrite Hs. auto.
Qed.
Lemma post_quiet e (l : Shared) :
  receiver_closed (events l) = false → start_of e = None → end_of e = None →
  receiver_closed (events (post e l)) = false ∧ starts (post e l) = starts l ∧
  ends (post e l) = ends l ∧ capacity (events (post e l)) = capacity (events l).
Proof.
  intros Hc Hs He. destruct (post_queue e l Hc) as (Hc' & Hk & Hq). split; [done|].
  unfold starts, ends. destruct Hq as [-> | ->]; [|done].
  rewrite !omap_app. cbn. rewrite Hs, He. by rewrite !app_nil_r.
Qed.

(** ** Who owns the admitted attempt *)

(** The attempt whose end is under way. *)
Definition concluding (u : option Unfinished) : option N :=
  match u with
  | Some (Conclude k _) | Some (ReleaseAttempt k) => Some k
  | _ => None
  end.
Inductive owner (s : Sys) (k : N) (token : T) : Prop :=
  | owner_held r :
      held s = {[k := r]} → rsv_attempt r = k → rsv_cancellation r = token →
      starts (lifecycle (task s)) = [] → ends (lifecycle (task s)) = [] →
      active (task s) = None → workers (task s) = ∅ → owner s k token
  | owner_queued :
      held s = ∅ → starts (lifecycle (task s)) = [k] → ends (lifecycle (task s)) = [] →
      active (task s) = None → workers (task s) = ∅ → owner s k token
  | owner_running a :
      held s = ∅ → starts (lifecycle (task s)) = [] →
      active (task s) = Some a → aa_attempt a = k → aa_cancellation a = token →
      (workers (task s) = {[k]} ∧ ends (lifecycle (task s)) = [] ∧
         concluding (pending (task s)) = None ∨
       workers (task s) = ∅ ∧ ends (lifecycle (task s)) = [k] ∧
         concluding (pending (task s)) = None ∨
       workers (task s) = ∅ ∧ ends (lifecycle (task s)) = [] ∧
         concluding (pending (task s)) = Some k) → owner s k token.

Definition busy_state (v : VpnState.t) : bool :=
  match v with
  | VpnState.Connecting _ | VpnState.Connected _ | VpnState.Disconnecting => true
  | _ => false
  end.

(** What is pending is about the active attempt; a state that is announced is that it
    connects, and an attempt is released when its end is shown. *)
Definition pending_sound (t : Task) : Prop := ∀ u, pending t = Some u →
  ∃ a, active t = Some a ∧ (∀ v, u = Announce v → v = VpnState.Connecting (aa_info a)) ∧
    ∀ k, u = ReleaseAttempt k → busy_state (vpn_state t) = false.

Record task_inv (n : N) (s : Sys) : Prop := {
  ti_next : next_attempt (admissions (lifecycle (task s))) ≤ n;
  ti_queue : receiver_closed (events (lifecycle (task s))) = false;
  ti_watch : watch_receivers (state (lifecycle (task s))) ≠ 0%nat;
  ti_completed k : k ∈ completed (lifecycle (task s)) ↔
    k < next_attempt (admissions (lifecycle (task s))) ∧
    (∀ adm, current (admissions (lifecycle (task s))) = Some adm → adm_attempt adm ≠ k);
  ti_owner : match current (admissions (lifecycle (task s))) with
    | Some adm =>
        adm_attempt adm < next_attempt (admissions (lifecycle (task s))) ∧
        token_live (adm_cancellation adm) (tokens (lifecycle (task s))) ∧
        (adm_stop_requested adm = true →
           token_cancelled (adm_cancellation adm) (tokens (lifecycle (task s))) = true) ∧
        (adm_phase adm = Lifecycle.Active → adm_stop_requested adm = false) ∧
        owner s (adm_attempt adm) (adm_cancellation adm)
    | None =>
        held s = ∅ ∧ starts (lifecycle (task s)) = [] ∧ ends (lifecycle (task s)) = [] ∧
        active (task s) = None ∧ workers (task s) = ∅
    end;
  ti_restart a o : restart (admissions (lifecycle (task s))) = Some (a, o) →
    current (admissions (lifecycle (task s))) = None ∧ a ∈ completed (lifecycle (task s)) ∧
    ∃ i, vpn_state (task s) = VpnState.ReconnectRequired
           {| rr_attempt := a; rr_owner := o; rr_info := i |};
  ti_state : busy_state (vpn_state (task s)) = true → active (task s) ≠ None;
  ti_closed : stopped (task s) = true →
    closed (admissions (lifecycle (task s))) = true ∧
    current (admissions (lifecycle (task s))) = None;
  ti_shutdown : shutting_down (task s) = true →
    closed (admissions (lifecycle (task s))) = true;
  ti_pending : pending_sound (task s);
}.

Lemma idle_pending (t : Task) : pending_sound t → active t = None → pending t = None.
Proof.
  intros Hp Ha. destruct (pending t) as [u|] eqn:Hu; [|done].
  destruct (Hp u Hu) as (a & Hb & _). congruence.
Qed.

(** ** Steps that leave the ownership alone *)
Definition tokens_grow (ts ts' : TS) : Prop :=
  ∀ t, token_live t ts → token_live t ts' ∧
       (token_cancelled t ts = true → token_cancelled t ts' = true).
Lemma tokens_grow_refl ts : tokens_grow ts ts.
Proof. done. Qed.
Lemma tokens_grow_trans a b c : tokens_grow a b → tokens_grow b c → tokens_grow a c.
Proof. intros Hab Hbc t Ht. destruct (Hab t Ht) as [Hl Hc]. destruct (Hbc t Hl). auto. Qed.
Lemma tokens_grow_cancel t ts : tokens_grow ts (token_cancel t ts).
Proof. intros t' Ht. split; [by apply token_cancel_live|apply token_cancel_keeps]. Qed.
Lemma tokens_grow_new ts : tokens_grow ts (token_new ts).2.
Proof. intros t Ht. destruct (token_new_other t ts Ht) as [? ->]. done. Qed.
Hint Resolve tokens_grow_refl tokens_grow_cancel tokens_grow_new : gp.

(** The attempt an active record is for, with its token. *)
Definition identity (a : ActiveAttempt (T:=T)) : N * T := (aa_attempt a, aa_cancellation a).

Record task_eq (t t' : Task) : Prop := {
  te_admissions : admissions (lifecycle t') = admissions (lifecycle t);
  te_completed : completed (lifecycle t') = completed (lifecycle t);
  te_starts : starts (lifecycle t') = starts (lifecycle t);
  te_ends : ends (lifecycle t') = ends (lifecycle t);
  te_queue : receiver_closed (events (lifecycle t')) = receiver_closed (events (lifecycle t));
  te_capacity : capacity (events (lifecycle t')) = capacity (events (lifecycle t));
  te_watch : watch_receivers (state (lifecycle t')) = watch_receivers (state (lifecycle t));
  te_tokens : tokens_grow (tokens (lifecycle t)) (tokens (lifecycle t'));
  te_active : identity <$> active t' = identity <$> active t;
  te_workers : workers t' = workers t;
  te_stopped : stopped t' = stopped t;
  te_shutdown : shutting_down t' = shutting_down t;
  te_state : vpn_state t' = vpn_state t ∨ active t ≠ None;
  te_pending : pending_sound t → pending_sound t';
  te_concluding : concluding (pending t') = concluding (pending t);
}.
Lemma task_eq_refl t : task_eq t t.
Proof. split; auto with gp. Qed.
Lemma active_None (t t' : Task) : identity <$> active t' = identity <$> active t →
  active t ≠ None ↔ active t' ≠ None.
Proof. destruct (active t), (active t'); cbn; naive_solver. Qed.
Lemma task_eq_trans t1 t2 t3 : task_eq t1 t2 → task_eq t2 t3 → task_eq t1 t3.
Proof.
  intros [] []. split; try congruence; [by eapply tokens_grow_trans| |by auto].
  rewrite (active_None t1 t2) by done. rewrite <- (active_None t1 t2) in * by done.
  naive_solver congruence.
Qed.

Lemma send_state_eq v (t : Task) :
  active t ≠ None → concluding (pending t) = None → task_eq t (send_state v t).
Proof.
  intros Ha Hc. split; cbn; auto with gp; [apply watch_receivers_send|].
  intros Hp u Hu. destruct (Hp u Hu) as (a & Hb & Hv & _). exists a. split_and!; [done..|].
  intros k ->. cbn in Hu. by rewrite Hu in Hc.
Qed.
Lemma bind_tunnel_eq b (t : Task) : task_eq t (bind_tunnel b t).
Proof. split; cbn; auto with gp. Qed.
Lemma cancel_eq token (t : Task) : task_eq t (on_lifecycle (cancel token) t).
Proof. split; cbn; auto with gp. Qed.
Lemma set_registry_eq r (t : Task) : task_eq t (set_registry r t).
Proof. split; cbn; auto with gp. Qed.
Lemma set_pending_eq u (t : Task) :
  (∀ u', u = Some u' → ∃ a, active t = Some a ∧
     (∀ v, u' = Announce v → v = VpnState.Connecting (aa_info a)) ∧
     ∀ k, u' = ReleaseAttempt k → busy_state (vpn_state t) = false) →
  concluding u = concluding (pending t) → task_eq t (set_pending u t).
Proof. intros Hu Hc. split; cbn; auto with gp. Qed.
Lemma pending_None (t : Task) : pending t = None → pending_sound t.
Proof. intros Hp u Hu. congruence. Qed.
Lemma set_active_eq a a' (t : Task) :
  active t = Some a → identity a' = identity a → aa_info a' = aa_info a → task_eq t (set_active (Some a') t).
Proof.
  intros Ha He Hi. split; cbn; auto with gp; [by rewrite Ha; cbn; rewrite He|].
  intros Hp u Hu. destruct (Hp u Hu) as (b & Hb & Hv & Hr). rewrite Ha in Hb. injection Hb as <-.
  exists a'. by rewrite Hi.
Qed.
Lemma quiet_events_eq q (t : Task) :
  starts (set_events q (lifecycle t)) = starts (lifecycle t) →
  ends (set_events q (lifecycle t)) = ends (lifecycle t) →
  receiver_closed q = receiver_closed (events (lifecycle t)) →
  capacity q = capacity (events (lifecycle t)) →
  task_eq t (on_lifecycle (set_events q) t).
Proof. intros. split; cbn; auto with gp. Qed.

Lemma active_is_Some k (t : Task) a :
  active_is k t = Some a ↔ active t = Some a ∧ aa_attempt a = k.
Proof.
  unfold active_is. destruct (active t) as [b|]; [|naive_solver].
  destruct (aa_attempt b =? k) eqn:E; boolify; naive_solver.
Qed.
Lemma admission_of_Some k (l : Shared) a :
  admission_of k l = Some a ↔ current (admissions l) = Some a ∧ adm_attempt a = k.
Proof.
  unfold admission_of. destruct (current (admissions l)) as [b|]; [|naive_solver].
  destruct (adm_attempt b =? k) eqn:E; boolify; naive_solver.
Qed.

Lemma owner_frame s (t' : Task) k token :
  task_eq (task s) t' → owner s k token → owner {| task := t'; held := held s |} k token.
Proof.
  intros [] [r Hh Hr Ht Hs He Ha Hw|Hh Hs He Ha Hw|a Hh Hs Ha Hk Ht Hw].
  - eapply owner_held; cbn; try congruence; eauto. destruct (active t'); [|done].
    rewrite Ha in te_active0. done.
  - eapply owner_queued; cbn; try congruence. destruct (active t'); [|done].
    rewrite Ha in te_active0. done.
  - rewrite Ha in te_active0. destruct (active t') as [a'|] eqn:Ha'; [|done].
    injection te_active0 as Hk' Ht'.
    apply owner_running with a'; cbn; congruence.
Qed.

Lemma inv_frame n s (t' : Task) :
  task_eq (task s) t' → task_inv n s → task_inv n {| task := t'; held := held s |}.
Proof.
  intros Heq Hinv. pose proof (owner_frame s t') as Hown.
  destruct Hinv as [Hn Hq Hw Hc Ho Hr Hs Hcl Hsh Hpd], Heq.
  split; cbn; rewrite ?te_admissions0, ?te_completed0, ?te_starts0, ?te_ends0, ?te_queue0,
    ?te_watch0, ?te_workers0, ?te_stopped0, ?te_shutdown0; auto.
  - destruct (current _) as [adm|].
    + destruct Ho as (?&Hl&Hcan&?&?). destruct (te_tokens0 _ Hl). split_and!; auto.
      apply Hown; [by split|done].
    + destruct Ho as (?&?&?&Ha&?). rewrite Ha in te_active0. split_and!; auto.
      by destruct (active t').
  - intros a o Hrs. destruct (Hr a o Hrs) as (Hcur & ? & i & Hi). split_and!; auto.
    exists i. rewrite Hcur in Ho. destruct Ho as (_&_&_&Ha&_). destruct te_state0; congruence.
  - intros Hb. apply (active_None (task s) t'); [done|]. destruct te_state0 as [Hst|]; [|done].
    rewrite Hst in Hb. auto.
Qed.

(** ** The quiet handlers *)
Lemma stop_attempt_eq k (t : Task) : pending t = None → task_eq t (stop_attempt k t).
Proof.
  intros Hp. unfold stop_attempt. destruct (active_is k t) as [a|] eqn:Ha; [|apply task_eq_refl].
  apply active_is_Some in Ha as [Ha _]. destruct (is_stop_requested _ _); [|apply task_eq_refl].
  eapply task_eq_trans; [apply (send_state_eq VpnState.Disconnecting); [congruence|by rewrite Hp]|apply cancel_eq].
Qed.
Lemma establish_attempt_eq now k v (t : Task) :
  pending t = None → task_eq t (establish_attempt format_duration_secs now k v t).
Proof.
  intros Hp. unfold establish_attempt. destruct (active_is k t) as [a|] eqn:Ha; [|apply task_eq_refl].
  apply active_is_Some in Ha as [Ha _]. destruct (aa_cancelled a t); [apply task_eq_refl|].
  apply set_pending_eq; [|by rewrite Hp]. intros u [= <-]. exists a. by split_and!.
Qed.
Lemma publish_members_eq now k ms fs (t : Task) :
  pending t = None → task_eq t (publish_members now k ms fs t).
Proof.
  intros Hp. unfold publish_members. destruct (active_is k t) as [a|] eqn:Ha; [|apply task_eq_refl].
  apply active_is_Some in Ha as [Ha _]. destruct (aa_cancelled a t); [apply task_eq_refl|].
  destruct (negb _); [destruct (vpn_state t); try apply task_eq_refl|];
    (apply set_pending_eq; [|by rewrite Hp]); intros u [= <-]; exists a; (split_and!; [done|congruence|done]).
Qed.
(** Doing what was pending. *)
Lemma resume_eq u (t : Task) :
  active t ≠ None → pending t = None → concluding (Some u) = None → task_eq t (resume u t).
Proof.
  intros Ha Hp Hc. assert (concluding (pending t) = None) by (by rewrite Hp). destruct u as [v|now k i si|now k i ms fs| |]; try done; cbn; [by apply send_state_eq|..].
  - unfold publish_connected. destruct (admission_of _ _); [|apply task_eq_refl].
    destruct (_ && _); [by apply send_state_eq|apply task_eq_refl].
  - unfold publish_healthy. destruct (admission_of _ _) as [adm|]; [|apply task_eq_refl].
    destruct (adm_stop_requested adm); [apply task_eq_refl|by apply send_state_eq].
Qed.
Lemma resume_pending_eq u (t : Task) :
  pending_sound t → pending t = Some u → concluding (Some u) = None →
  task_eq t (resume u (set_pending None t)).
Proof.
  intros Hp Hu Hc. destruct (Hp u Hu) as (a & Ha & _).
  eapply task_eq_trans; [apply (set_pending_eq None); [done|by rewrite Hu]|].
  apply resume_eq; [cbn; congruence|done..].
Qed.
Lemma handle_event_eq now e (t : Task) :
  pending t = None → start_of e = None → end_of e = None →
  task_eq t (handle_event format_duration_secs now e t).
Proof.
  intros Hp Hs He. destruct e as [k m|k c u r s|k|k|k|k v|k ms fs|k|k reason|]; try done; cbn.
  - destruct (active_is k t); [apply bind_tunnel_eq|apply task_eq_refl].
  - by apply stop_attempt_eq.
  - destruct (active_is k t) as [a|] eqn:Ha; [|apply task_eq_refl].
    apply active_is_Some in Ha as [Ha _]. destruct (aa_cancelled a t); [apply task_eq_refl|].
    apply set_pending_eq; [|by rewrite Hp]. intros u [= <-]. exists a. split_and!; [done|congruence|done].
  - destruct (active_is k t) as [a|] eqn:Ha; [|apply task_eq_refl].
    apply active_is_Some in Ha as [Ha _]. by eapply set_active_eq.
  - by apply establish_attempt_eq.
  - by apply publish_members_eq.
  - destruct (active_is k t) as [a|] eqn:Ha; [|apply task_eq_refl].
    apply active_is_Some in Ha as [Ha _]. by eapply set_active_eq.
  - apply task_eq_refl.
Qed.

(** ** Steps that change the admission *)

(** The admission stays, possibly stopped or activated. *)
Lemma inv_current n s (t' : Task) h' adm adm' :
  task_inv n s → current (admissions (lifecycle (task s))) = Some adm →
  current (admissions (lifecycle t')) = Some adm' →
  adm_attempt adm' = adm_attempt adm → adm_cancellation adm' = adm_cancellation adm →
  next_attempt (admissions (lifecycle t')) = next_attempt (admissions (lifecycle (task s))) →
  (restart (admissions (lifecycle t')) = restart (admissions (lifecycle (task s))) ∨
   restart (admissions (lifecycle t')) = None) →
  (closed (admissions (lifecycle (task s))) = true → closed (admissions (lifecycle t')) = true) →
  completed (lifecycle t') = completed (lifecycle (task s)) →
  receiver_closed (events (lifecycle t')) = false →
  watch_receivers (state (lifecycle t')) = watch_receivers (state (lifecycle (task s))) →
  tokens_grow (tokens (lifecycle (task s))) (tokens (lifecycle t')) →
  (adm_stop_requested adm' = true →
     token_cancelled (adm_cancellation adm) (tokens (lifecycle t')) = true) →
  (adm_phase adm' = Lifecycle.Active → adm_stop_requested adm' = false) →
  owner {| task := t'; held := h' |} (adm_attempt adm) (adm_cancellation adm) →
  (busy_state (vpn_state t') = true → active t' ≠ None) →
  stopped t' = stopped (task s) →
  (shutting_down t' = true → closed (admissions (lifecycle t')) = true) →
  pending_sound t' →
  task_inv n {| task := t'; held := h' |}.
Proof.
  intros [Hn Hq Hw Hc Ho Hr Hs Hcl Hsh Hpd] Hcur Hcur' Hk Ht Hnext Hrs Hclosed Hcomp Hq' Hw' Hgrow
    Hstop Hact Hown Hbusy Hstopped Hshut Hpd'.
  rewrite Hcur in Ho. destruct Ho as (Hlt & Hl & _).
  split; cbn; rewrite ?Hcur', ?Hcomp, ?Hnext, ?Hw', ?Hstopped; auto.
  - intros k. rewrite Hc, Hcur. naive_solver congruence.
  - rewrite Hk, Ht. split_and!; auto. by apply Hgrow.
  - intros a o Hra. exfalso. destruct Hrs as [Hrs|Hrs]; rewrite Hrs in Hra; [|done].
    destruct (Hr a o Hra). congruence.
  - intros Hst. destruct (Hcl Hst). congruence.
Qed.

(** The admission is released and its completion signalled. *)
Lemma inv_release n s (t' : Task) adm :
  task_inv n s → current (admissions (lifecycle (task s))) = Some adm →
  current (admissions (lifecycle t')) = None →
  next_attempt (admissions (lifecycle t')) = next_attempt (admissions (lifecycle (task s))) →
  completed (lifecycle t') = {[adm_attempt adm]} ∪ completed (lifecycle (task s)) →
  (restart (admissions (lifecycle t')) = restart (admissions (lifecycle (task s))) ∨
   ∃ o i, restart (admissions (lifecycle t')) = Some (adm_attempt adm, o) ∧
     vpn_state t' = VpnState.ReconnectRequired
       {| rr_attempt := adm_attempt adm; rr_owner := o; rr_info := i |}) →
  closed (admissions (lifecycle t')) = closed (admissions (lifecycle (task s))) →
  receiver_closed (events (lifecycle t')) = false →
  watch_receivers (state (lifecycle t')) = watch_receivers (state (lifecycle (task s))) →
  starts (lifecycle t') = [] → ends (lifecycle t') = [] → active t' = None → workers t' = ∅ →
  busy_state (vpn_state t') = false →
  stopped t' = stopped (task s) → shutting_down t' = shutting_down (task s) → pending t' = None →
  task_inv n {| task := t'; held := ∅ |}.
Proof.
  intros [Hn Hq Hw Hc Ho Hr Hs Hcl Hsh Hpd] Hcur Hcur' Hnext Hcomp Hrs Hclosed Hq' Hw' Hst He Ha Hwk
    Hbusy Hstopped Hshut Hpd'.
  rewrite Hcur in Ho. destruct Ho as (Hlt & _).
  split; cbn; rewrite ?Hcur', ?Hcomp, ?Hnext, ?Hw', ?Hstopped, ?Hshut, ?Hclosed, ?Hbusy; auto.
  - intros k. rewrite elem_of_union, elem_of_singleton, Hc, Hcur.
    destruct (decide (k = adm_attempt adm)); naive_solver congruence.
  - intros a o Hra. split; [done|]. destruct Hrs as [Hrs|(o' & i & Hrs & Hv)].
    + rewrite Hrs in Hra. destruct (Hr a o Hra). congruence.
    + rewrite Hrs in Hra. injection Hra as <- <-. split; [set_solver|eauto].
  - intros Hsp. split; [|done]. by apply Hcl.
  - by apply pending_None.
Qed.

Lemma start_attempt_spec k c session (t : Task) adm :
  current (admissions (lifecycle t)) = Some adm → adm_attempt adm = k →
  let t' := start_attempt k c session t in
  (∃ adm', current (admissions (lifecycle t')) = Some adm' ∧
     adm_attempt adm' = adm_attempt adm ∧ adm_cancellation adm' = adm_cancellation adm ∧
     adm_stop_requested adm' = adm_stop_requested adm ∧
     (adm_phase adm' = adm_phase adm ∨ adm_stop_requested adm = false)) ∧
  (∃ a, active t' = Some a ∧ aa_attempt a = k ∧ aa_cancellation a = adm_cancellation adm) ∧
  next_attempt (admissions (lifecycle t')) = next_attempt (admissions (lifecycle t)) ∧
  restart (admissions (lifecycle t')) = restart (admissions (lifecycle t)) ∧
  closed (admissions (lifecycle t')) = closed (admissions (lifecycle t)) ∧
  completed (lifecycle t') = completed (lifecycle t) ∧
  events (lifecycle t') = events (lifecycle t) ∧
  watch_receivers (state (lifecycle t')) = watch_receivers (state (lifecycle t)) ∧
  tokens_grow (tokens (lifecycle t)) (tokens (lifecycle t')) ∧
  workers t' = {[k]} ∪ workers t ∧ stopped t' = stopped t ∧ shutting_down t' = shutting_down t ∧
  (pending t = None → pending_sound t' ∧ concluding (pending t') = None).
Proof.
  intros Hcur Hk. unfold start_attempt, activate_attempt, attempt_cancellation, admission_of.
  rewrite Hcur. rewrite (proj2 (N.eqb_eq _ _) Hk). cbn [negb orb].
  destruct (_ || _) eqn:E; cbn; rewrite ?Hcur; cbn; rewrite (proj2 (N.eqb_eq _ _) Hk); cbn.
  - split; [exists adm; split_and!; auto|]. split; [eexists; split_and!; done|].
    split_and!; auto with gp. intros Hp. split; [by apply pending_None|by rewrite Hp].
  - boolify. split; [eexists; split; [done|]; split_and!; auto|].
    split; [eexists; split_and!; done|]. split_and!; auto with gp.
    intros _. split; [|done]. intros u [= <-]. eexists. split_and!; [done|by intros v [= <-]|done].
Qed.

Lemma vpn_state_send v (t : Task) :
  watch_receivers (state (lifecycle t)) ≠ 0%nat → vpn_state (send_state v t) = v.
Proof.
  intros Hw. unfold vpn_state. cbn. rewrite watch_borrow_send. by rewrite decide_False.
Qed.

Lemma take_attempt_spec a (t : Task) :
  let t' := take_attempt a t in
  active t' = active t ∧ workers t' = workers t ∧ stopped t' = stopped t ∧
  shutting_down t' = shutting_down t ∧ pending t' = pending t ∧
  ∃ w, lifecycle t' = set_tunnel w (lifecycle t).
Proof.
  unfold take_attempt. destruct t as [l ? ? ? ? ? ? ?]. cbn.
  destruct (aa_session_id a); cbn; (destruct (tb_monitor _); cbn;
    split_and!; try done; [exists (tunnel l); by destruct l|by eexists]).
Qed.
Lemma clear_attempt_current k (l : Shared) adm :
  current (admissions l) = Some adm → adm_attempt adm = k →
  clear_attempt k l = set_completed ({[k]} ∪ completed l) (set_current_admission None l).
Proof.
  intros Hc Hk. unfold clear_attempt, admission_of. rewrite Hc. by rewrite (proj2 (N.eqb_eq _ _) Hk).
Qed.

(** ** Every label *)
Lemma recv_queue (t : Task) e q :
  recv (events (lifecycle t)) = Some (e, q) →
  queued (events (lifecycle t)) = e :: queued q ∧
  receiver_closed q = receiver_closed (events (lifecycle t)) ∧
  capacity q = capacity (events (lifecycle t)).
Proof.
  intros Hr. pose proof (recv_spec (events (lifecycle t))) as Hs.
  destruct (queued _) as [|x xs]; [congruence|].
  destruct Hs as (q' & Hq & <- & Hk & Hc). rewrite Hr in Hq. by injection Hq as -> ->.
Qed.

Lemma receive_start_inv n s q now k c u rep session :
  task_inv n s → pending (task s) = None →
  recv (events (lifecycle (task s))) = Some (EvStart k c u rep session, q) →
  task_inv n {| task := handle_event format_duration_secs now (EvStart k c u rep session)
                  (on_lifecycle (set_events q) (task s)); held := held s |}.
Proof.
  intros Hinv Hpn Hr. apply recv_queue in Hr as (Hqd & Hcl & Hcap).
  assert (starts (lifecycle (task s)) = k :: omap start_of (queued q)) as Hst
    by (unfold starts; by rewrite Hqd).
  assert (ends (lifecycle (task s)) = omap end_of (queued q)) as Hen
    by (unfold ends; by rewrite Hqd).
  pose proof Hinv as [_ Hq Hw _ Ho _ _ _ Hsh Hpd].
  destruct (current (admissions (lifecycle (task s)))) as [adm|] eqn:Hcur;
    [|destruct Ho as (_&Hno&_); congruence].
  destruct Ho as (_ & Hlive & Hcan & Hact & Hown).
  destruct Hown as [r _ _ _ Hno|Hh Hone He Ha Hwk|a _ Hno]; try congruence.
  rewrite Hst in Hone. injection Hone as Hk Hrest. cbn [handle_event].
  destruct (start_attempt_spec k c session (on_lifecycle (set_events q) (task s)) adm)
    as ((adm' & Hcur' & Hk' & Ht' & Hs' & Hph) & (a & Ha' & Hak & Hat) & Hnext & Hres & Hclo &
        Hcomp & Hev & Hwt & Hgrow & Hwk' & Hsp & Hshut & Hpd'); [done|done|].
  cbn in Hnext, Hres, Hclo, Hcomp, Hev, Hwt, Hgrow, Hwk', Hsp, Hshut.
  eapply (inv_current n s _ _ adm adm'); eauto; try congruence.
  - intros Hstop. rewrite Hs' in Hstop. by apply Hgrow, Hcan.
  - intros Hp. rewrite Hs'. destruct Hph as [Hph|]; [|done]. apply Hact. congruence.
  - apply owner_running with a; cbn; auto; [unfold starts; by rewrite Hev|by rewrite Hak, Hk|].
    left. rewrite Hwk', Hwk. split_and!; [set_solver| |by apply Hpd'].
    unfold ends. rewrite Hev. cbn. congruence.
  - by apply Hpd'.
Qed.

Lemma receive_end_inv n s q now k :
  task_inv n s → pending (task s) = None →
  recv (events (lifecycle (task s))) = Some (EvEnded k, q) →
  task_inv n {| task := handle_event format_duration_secs now (EvEnded k)
                  (on_lifecycle (set_events q) (task s)); held := held s |}.
Proof.
  intros Hinv Hpn Hr. apply recv_queue in Hr as (Hqd & Hcl & Hcap).
  assert (starts (lifecycle (task s)) = omap start_of (queued q)) as Hst
    by (unfold starts; by rewrite Hqd).
  assert (ends (lifecycle (task s)) = k :: omap end_of (queued q)) as Hen
    by (unfold ends; by rewrite Hqd).
  pose proof Hinv as [_ Hq Hw _ Ho _ Hbusy _ Hsh _].
  destruct (current (admissions (lifecycle (task s)))) as [adm|] eqn:Hcur;
    [|destruct Ho as (_&_&Hno&_); congruence].
  destruct Ho as (_ & _ & Hcan & Hact & Hown).
  destruct Hown as [r|? ? Hno|a Hh Hsn Ha Hak Hat [(_ & Hno & _)|[(Hwk & He & _)|(_ & Hno & _)]]];
    try congruence.
  rewrite Hen in He. injection He as Hk Hrest. cbn [handle_event].
  unfold end_attempt. rewrite (proj2 (active_is_Some k _ a)) by (split; [exact Ha|congruence]).
  destruct (take_attempt_spec a (on_lifecycle (set_events q) (task s))) as (Ha' & Hwk' & Hsp & Hsd & _ & w & Hl).
  set (t1 := take_attempt a _) in *. clearbody t1. cbn in Ha', Hwk', Hsp, Hsd, Hl.
  eapply (inv_current n s _ _ adm adm); cbn; rewrite ?Hl; cbn; auto with gp; try congruence.
  - apply owner_running with a; cbn; rewrite ?Hl, ?Ha', ?Hwk'; cbn; auto; [unfold starts; cbn; congruence|].
    right. right. split_and!; [done| |by rewrite Hk]. unfold ends. cbn. congruence.
  - by rewrite Hsd.
  - intros u [= <-]. exists a. split_and!; [by cbn; rewrite Ha'|done..].
Qed.

(** The two steps of the end: it is shown, unless a restart is offered, and the attempt
    is released. *)
Lemma resume_inv n s u :
  task_inv n s → pending (task s) = Some u →
  task_inv n {| task := resume u (set_pending None (task s)); held := held s |}.
Proof.
  intros Hinv Hu. destruct (concluding (Some u)) as [k|] eqn:Hc.
  2:{ apply (inv_frame n s); [|done]. apply resume_pending_eq; [apply (ti_pending n _ Hinv)|done..]. }
  pose proof Hinv as [_ Hq Hw _ Ho Hrs _ _ Hsh Hpd]. destruct (Hpd u Hu) as (a & Ha & _ & Hrel).
  destruct (current (admissions (lifecycle (task s)))) as [adm|] eqn:Hcur;
    [|destruct Ho as (_&_&_&Hno&_); congruence].
  destruct Ho as (_ & _ & Hcan & Hact & Hown). rewrite <- Hu in Hc.
  destruct Hown as [r ? ? ? ? ? Hno|? ? ? Hno|b Hh Hsn Hb Hak Hat [(_ & _ & Hno)|[(_ & _ & Hno)|(Hwk & Hen & Hk)]]];
    try congruence.
  rewrite Ha in Hb. injection Hb as <-. rewrite Hc in Hk. injection Hk as ->. rewrite Hu in Hc.
  assert (∀ v, busy_state v = false → task_inv n {| task :=
    set_pending (Some (ReleaseAttempt (adm_attempt adm))) (send_state v (set_pending None (task s))); held := held s |}) as Hshow.
  { intros v Hv. eapply (inv_current n s _ _ adm adm); cbn; auto with gp.
    - apply watch_receivers_send.
    - apply owner_running with a; cbn; auto 10.
    - unfold vpn_state. cbn. rewrite watch_borrow_send, decide_False by done. by rewrite Hv.
    - intros x [= <-]. exists a. split_and!; [done..|]. intros j _. unfold vpn_state. cbn.
      by rewrite watch_borrow_send, decide_False by done. }
  destruct u as [| | |k restart|k]; try done; cbn in Hc; injection Hc as ->; cbn [resume].
  - unfold conclude. cbn [active set_pending]. rewrite Ha.
    destruct restart as [o|]; [|destruct (aa_failure a); by apply Hshow].
    unfold offer_restart. cbn [lifecycle set_pending]. rewrite Hcur, Hh.
    destruct (negb (token_cancelled (adm_cancellation adm) _) && _);
      eapply (inv_release n s _ adm); cbn; auto; try apply watch_receivers_send;
      try (unfold vpn_state; cbn; by rewrite watch_borrow_send, decide_False by done).
    right. exists o, (aa_info a). rewrite <- Hak. split; [done|].
    unfold vpn_state. cbn. by rewrite watch_borrow_send, decide_False by done.
  - unfold release_attempt, on_lifecycle. cbn [lifecycle set_pending].
    rewrite (clear_attempt_current _ _ adm) by done. rewrite Hh.
    eapply (inv_release n s _ adm); cbn; auto. exact (Hrel _ eq_refl).
Qed.

Lemma receive_event_inv n s now :
  task_inv n s → task_inv n (step s (ReceiveEvent now)).
Proof.
  intros Hinv. cbn. unfold with_task, receive_event. destruct s as [t h]. cbn.
  destruct (pending t) as [u|] eqn:Hpn.
  { by apply (resume_inv n {| task := t; held := h |}). }
  destruct (stopped t) eqn:Hsp; [done|].
  destruct (shutting_down t && _ && _) eqn:Hexit.
  - boolify. destruct Hinv as [Hn Hq Hw Hc Ho Hr Hs Hcl Hsh Hpd]. cbn in *.
    unfold has_admission in *. boolify.
    destruct (current (admissions (lifecycle t))) as [adm|] eqn:Hcur.
    { exfalso. eauto. }
    assert (close_admission (lifecycle t) =
      set_admissions (set_closed true (admissions (lifecycle t))) (lifecycle t)) as Hclose
      by (unfold close_admission; cbn; by rewrite Hcur).
    unfold on_lifecycle. rewrite Hclose.
    split; cbn; rewrite ?Hcur; auto.
  - destruct (recv (events (lifecycle t))) as [[e q]|] eqn:Hrecv; [|done].
    destruct (start_of e) as [k|] eqn:Hst; [destruct e; try done; by apply (receive_start_inv n {| task := t; held := h |})|].
    destruct (end_of e) as [k|] eqn:Hen; [destruct e; try done; by apply (receive_end_inv n {| task := t; held := h |})|].
    apply recv_queue in Hrecv as (Hqd & Hcl & Hcap).
    eapply (inv_frame n {| task := t; held := h |}); [cbn|done].
    eapply task_eq_trans; [apply (quiet_events_eq q)|by apply handle_event_eq].
    + unfold starts. cbn. rewrite Hqd. cbn. by rewrite Hst.
    + unfold ends. cbn. rewrite Hqd. cbn. by rewrite Hen.
    + done.
    + done.
Qed.

Lemma inv_more n m s : task_inv n s → n ≤ m → task_inv m s.
Proof. intros [] ?. split; auto. lia. Qed.

Lemma post_eq e (t : Task) :
  receiver_closed (events (lifecycle t)) = false → start_of e = None → end_of e = None →
  task_eq t (on_lifecycle (post e) t).
Proof.
  intros Hc Hs He. destruct (post_quiet e (lifecycle t) Hc Hs He) as (Hc' & Hst & Hen & Hk).
  split; cbn; auto with gp. rewrite Hc. exact Hc'.
Qed.

Lemma stop_inv n s adm :
  task_inv n s → current (admissions (lifecycle (task s))) = Some adm →
  task_inv n (with_task (on_lifecycle (stop_admission adm) (task s)) s).
Proof.
  intros Hinv Hcur. pose proof Hinv as [Hn Hq Hw Hc Ho Hr Hs Hcl Hsh Hpd].
  rewrite Hcur in Ho. destruct Ho as (Hlt & Hlive & _ & _ & Hown).
  eapply (inv_current n s _ (held s) adm); cbn; eauto with gp.
  - intros _. by apply token_cancel_self.
  - done.
  - destruct Hown; [eapply owner_held|eapply owner_queued|eapply owner_running]; eauto.
Qed.

Lemma clear_restart_inv n s :
  task_inv n s →
  task_inv n (with_task (on_lifecycle (λ l, set_admissions (set_restart None (admissions l)) l)
    (task s)) s).
Proof.
  intros [Hn Hq Hw Hc Ho Hr Hs Hcl Hsh Hpd]. split; cbn; auto; [|done].
  destruct (current _) as [adm|]; [|done].
  destruct Ho as (?&?&?&?&Hown). split_and!; auto.
  destruct Hown; [eapply owner_held|eapply owner_queued|eapply owner_running]; eauto.
Qed.

Lemma request_disconnect_inv n s : task_inv n s → task_inv n (step s RequestDisconnect).
Proof.
  intros Hinv. apply clear_restart_inv in Hinv. cbn. unfold request_disconnect.
  set (s1 := with_task _ _) in Hinv. set (l := set_admissions _ _).
  assert (l = lifecycle (task s1)) as -> by done.
  destruct (current (admissions (lifecycle (task s1)))) as [adm|] eqn:Hcur.
  - destruct (adm_stop_requested adm); [exact Hinv|].
    pose proof (stop_inv n s1 adm Hinv Hcur) as Hstop.
    apply (inv_frame n (with_task (on_lifecycle (stop_admission adm) (task s1)) s1)); [|done].
    apply (post_eq (EvStop (adm_attempt adm)) (on_lifecycle (stop_admission adm) (task s1)));
      try done. apply Hstop.
  - destruct Hinv as [Hn Hq Hw Hc Ho Hr Hs Hcl Hsh Hpd]. rewrite Hcur in Ho, Hc.
    split; cbn; auto.
    + by rewrite watch_receivers_replace.
    + cbn in Hcur. rewrite Hcur. exact Hc.
    + cbn in Hcur. rewrite Hcur. exact Ho.
    + done.
    + unfold vpn_state. cbn. by rewrite watch_borrow_replace.
    + destruct Ho as (_ & _ & _ & Ha & _). apply pending_None. exact (idle_pending (task s1) Hpd Ha).
Qed.

Lemma disconnect_and_wait_inv n s : task_inv n s → task_inv n (step s DisconnectAndWait).
Proof.
  intros Hinv. cbn. unfold disconnect_and_wait.
  destruct (current (admissions (lifecycle (task s)))) as [adm|] eqn:Hcur.
  - destruct (adm_stop_requested adm); [by destruct s as [[] ?]|].
    assert (task_inv n (with_task (on_lifecycle (post (EvStop (adm_attempt adm))) (task s)) s)) as Hp.
    { apply inv_frame; [|done]. apply post_eq; try done. apply Hinv. }
    by apply (stop_inv n _ adm Hp).
  - by destruct s as [[] ?].
Qed.

Lemma begin_shutdown_inv n s : task_inv n s → task_inv n (step s BeginShutdown).
Proof.
  intros Hinv. cbn. unfold begin_shutdown.
  destruct (_ || _ || _ || _) eqn:E; [by destruct s|]. boolify.
  set (t1 := on_lifecycle _ _).
  assert (task_inv n (with_task t1 s)) as Hclosed.
  { assert (task_inv n (with_task (on_lifecycle (λ l, set_admissions
      (set_closed true (admissions l)) l) (set_shutting_down true (task s))) s)) as Hc1.
    { destruct Hinv as [Hn Hq Hw Hc Ho Hr Hs Hcl Hsh Hpd]. split; cbn; auto; [|naive_solver].
      destruct (current _) as [adm|]; [|done].
      destruct Ho as (?&?&?&?&Hown). split_and!; auto.
      destruct Hown; [eapply owner_held|eapply owner_queued|eapply owner_running]; eauto. }
    unfold t1, on_lifecycle, close_admission. cbn [lifecycle set_lifecycle].
    destruct (current (admissions (lifecycle (task s)))) as [adm|] eqn:Hcur.
    - apply (stop_inv n _ adm) in Hc1; [|done]. cbn. rewrite Hcur. exact Hc1.
    - cbn. rewrite Hcur. exact Hc1. }
  destruct (active t1) as [a|]; [|done].
  apply (inv_frame n (with_task t1 s)); [|done]. apply stop_attempt_eq. cbn. by apply eq_None_not_Some.
Qed.

Lemma reserve_inv n s r :
  n < u64_max → task_inv n s → task_inv (n + 1) (step s (Reserve r)).
Proof.
  intros Hnm Hinv. cbn. unfold reserve_connect.
  destruct (closed _) eqn:Hclosed.
  { apply (inv_more n); [|lia]. by destruct s as [[] ?]. }
  case_bool_decide as Hcur.
  { apply (inv_more n); [|lia]. by destruct s as [[] ?]. }
  destruct (_ && _).
  { apply (inv_more n); [|lia]. by destruct s as [[] ?]. }
  destruct (current (admissions (lifecycle (task s)))) as [adm|] eqn:Hc0; [naive_solver|].
  pose proof (token_new_live (tokens (lifecycle (task s)))) as Hlive.
  pose proof (tokens_grow_new (tokens (lifecycle (task s)))) as Hgrow.
  destruct (token_new (tokens (lifecycle (task s)))) as [t ts] eqn:Ht. cbn in Hlive, Hgrow.
  destruct Hinv as [Hn Hq Hw Hc Ho Hr Hs Hcl Hsh Hpd]. rewrite Hc0 in Ho.
  destruct Ho as (Hh & Hst & Hen & Ha & Hwk).
  set (k := next_attempt (admissions (lifecycle (task s)))) in *.
  assert (cast u64_max (k + 1) = k + 1) as Hcast by (apply cast_small; lia).
  cbn -[u64_max]. rewrite Hh.
  split; cbn -[u64_max]; rewrite ?Hcast; auto; try done; try lia.
  - intros j. rewrite Hc, Hc0. split.
    + intros [Hj _]. split; [lia|]. intros ? [= <-]. cbn. lia.
    + intros [Hj Hne]. split; [|done]. specialize (Hne _ eq_refl). cbn in Hne. lia.
  - split_and!; try done; [lia|]. eapply owner_held; eauto.
  - intros Hst'. destruct (Hcl Hst'). congruence.
Qed.

Lemma held_owner n s k r :
  task_inv n s → held s !! k = Some r →
  ∃ adm, current (admissions (lifecycle (task s))) = Some adm ∧ adm_attempt adm = k ∧
    adm_cancellation adm = rsv_cancellation r ∧ rsv_attempt r = k ∧ held s = {[k := r]} ∧
    starts (lifecycle (task s)) = [] ∧ ends (lifecycle (task s)) = [] ∧
    active (task s) = None ∧ workers (task s) = ∅.
Proof.
  intros [Hn Hq Hw Hc Ho Hr Hs Hcl Hsh Hpd] Hk.
  destruct (current _) as [adm|]; [|destruct Ho as (Hh&_); by rewrite Hh in Hk].
  destruct Ho as (_&_&_&_&[r' Hh Hra Hrt|Hh|a Hh]); try (rewrite Hh in Hk; done).
  rewrite Hh in Hk. apply lookup_singleton_Some in Hk as [Hk ->]. subst.
  exists adm. split_and!; auto.
Qed.

Lemma drop_inv n s k r :
  task_inv n s → held s !! k = Some r →
  task_inv n {| task := on_lifecycle (reservation_drop r) (task s); held := delete k (held s) |}.
Proof.
  intros Hinv Hk. destruct (held_owner n s k r Hinv Hk)
    as (adm & Hcur & Hadm & Ht & Hr & Hh & Hst & Hen & Ha & Hwk).
  rewrite Hh, delete_singleton_eq.
  assert (task_inv n {| task := on_lifecycle (λ l, clear_attempt (rsv_attempt r)
    (cancel (rsv_cancellation r) l)) (task s); held := ∅ |}) as Hrel.
  { pose proof Hinv as [Hn Hq Hw Hc Ho Hrs Hs Hcl Hsh Hpd].
    assert (busy_state (vpn_state (task s)) = false) as Hidle.
    { destruct (busy_state _); [|done]. by destruct Hs. }
    unfold on_lifecycle, clear_attempt, admission_of. cbn. rewrite Hcur. cbn.
    rewrite (proj2 (N.eqb_eq _ _)) by congruence.
    eapply (inv_release n s _ adm); cbn; eauto; [by rewrite Hr, Hadm|by apply idle_pending]. }
  set (t1 := on_lifecycle _ _) in Hrel.
  apply (inv_frame n {| task := t1; held := ∅ |} (on_lifecycle (post EvPreparationReleased) t1));
    [|exact Hrel].
  apply post_eq; try done. apply Hrel.
Qed.

Lemma commit_inv n s k c u rep session :
  task_inv n s → task_inv n (step s (Commit k c u rep session)).
Proof.
  intros Hinv. cbn. destruct (held s !! k) as [r|] eqn:Hk; [|done].
  pose proof (drop_inv n s k r Hinv Hk) as Hdrop.
  destruct (held_owner n s k r Hinv Hk)
    as (adm & Hcur & Hadm & Ht & Hr & Hh & Hst & Hen & Ha & Hwk).
  unfold commit, commit_locked.
  destruct (closed _); [exact Hdrop|].
  assert (admission_of (rsv_attempt r) (lifecycle (task s)) = Some adm) as ->
    by (apply admission_of_Some; split; congruence).
  destruct (_ || _) eqn:Hstop; [exact Hdrop|]. boolify.
  pose proof (try_send_spec (EvStart (rsv_attempt r) c u rep session) (events (lifecycle (task s)))) as Hs.
  rewrite (ti_queue n s Hinv) in Hs. destruct (decide _) in Hs.
  - destruct (try_send _ _) as [sent q]. cbn in Hs. destruct Hs as (-> & Hqd & _ & Hclq). cbn.
    rewrite Hh, delete_singleton_eq.
    pose proof Hinv as [Hn Hq Hw Hc Ho Hrs Hs Hcl Hsh Hpd].
    eapply (inv_current n s _ ∅ adm); cbn; eauto with gp; try done; [cbn; congruence|].
    eapply owner_queued; cbn; auto; unfold starts, ends in *; cbn; rewrite Hqd, omap_app.
    + rewrite Hst. cbn. congruence.
    + by rewrite Hen.
  - rewrite Hs. exact Hdrop.
Qed.

Lemma worker_inv n s k e : task_inv n s → task_inv n (step s (Worker k e)).
Proof.
  intros Hinv. cbn. unfold worker_send, with_task. destruct s as [t h]. cbn [task held].
  destruct (decide (k ∈ workers t)) as [Hk|]; [|done].
  pose proof (try_send_spec (worker_message k e) (events (lifecycle t))) as Hs.
  rewrite (ti_queue n _ Hinv : receiver_closed (events (lifecycle t)) = false) in Hs.
  destruct (decide _) in Hs; [|by rewrite Hs].
  destruct (try_send _ _) as [sent q]. cbn in Hs. destruct Hs as (-> & Hqd & Hcap & Hclq).
  destruct e as [m| | |v|ms fs|reason|].
  1-6: apply (inv_frame n {| task := t; held := h |}); [cbn|done];
    apply quiet_events_eq; unfold starts, ends; cbn; rewrite ?Hqd, ?omap_app; cbn;
    rewrite ?app_nil_r; try done;
    rewrite (ti_queue n _ Hinv : receiver_closed (events (lifecycle t)) = false); done.
  pose proof Hinv as [Hn Hq Hw Hc Ho Hrs Hst Hcl Hsh Hpd]. cbn in *.
  destruct (current (admissions (lifecycle t))) as [adm|] eqn:Hcur;
    [|destruct Ho as (_&_&_&_&Hno); rewrite Hno in Hk; by apply not_elem_of_empty in Hk].
  destruct Ho as (_ & _ & Hcan & Hact & [r _ _ _ _ _ _ Hno|_ _ _ _ Hno|a Hh Hsn Ha Hak Hat [(Hwk & He & Hcn)|[(Hno & _)|(Hno & _)]]]);
    cbn in *; try (rewrite Hno in Hk; by apply not_elem_of_empty in Hk).
  assert (k = adm_attempt adm) as -> by (rewrite Hwk in Hk; by apply elem_of_singleton in Hk).
  eapply (inv_current n {| task := t; held := h |} _ h adm adm); cbn; eauto with gp; try congruence.
  apply owner_running with a; cbn; auto; unfold starts, ends in *; cbn; rewrite Hqd, omap_app.
  - by rewrite Hsn.
  - right. left. rewrite Hwk, He. split_and!; [set_solver|done..].
Qed.

Lemma system_step_inv n s l : n < u64_max → task_inv n s → task_inv (n + 1) (step s l).
Proof.
  intros Hn Hinv. destruct l as [r|k c u rep ses|k| | |token|k e|now| |r].
  - by apply reserve_inv.
  - apply (inv_more n); [|lia]. by apply commit_inv.
  - apply (inv_more n); [|lia]. cbn. destruct (held s !! k) eqn:Hk; [|done]. by apply drop_inv.
  - apply (inv_more n); [|lia]. by apply request_disconnect_inv.
  - apply (inv_more n); [|lia]. by apply disconnect_and_wait_inv.
  - apply (inv_more n); [|lia]. apply (inv_frame n s); [|done]. apply cancel_eq.
  - apply (inv_more n); [|lia]. by apply worker_inv.
  - apply (inv_more n); [|lia]. by apply receive_event_inv.
  - apply (inv_more n); [|lia]. by apply begin_shutdown_inv.
  - apply (inv_more n); [|lia]. apply (inv_frame n s); [|done]. apply set_registry_eq.
Qed.

Lemma system_new_inv v ts r : busy_state v = false → task_inv 0 (system_new v ts r).
Proof.
  intros Hv. unfold system_new, vpn_task_new. destruct (token_new ts) as [t ts'].
  destruct (channel_empty (A:=LifecycleEvent (Resources:=Resources) (Monitor:=Monitor)) 4)
    as (Hqd & _ & Hcl).
  split; cbn; auto; try done.
  - by rewrite watch_receivers_channel.
  - set_solver by lia.
  - unfold starts, ends. cbn. by rewrite Hqd.
  - unfold vpn_state. cbn. rewrite watch_borrow_channel. by rewrite Hv.
Qed.

Lemma runs_inv n s ls :
  task_inv n s → n + N.of_nat (length ls) ≤ u64_max →
  task_inv (n + N.of_nat (length ls)) (runs step s ls).
Proof.
  revert n s. induction ls as [|l ls IH]; intros n s Hinv Hn; cbn [length] in *.
  - by rewrite N.add_0_r.
  - replace (n + N.of_nat (S (length ls))) with (n + 1 + N.of_nat (length ls)) by lia.
    change (runs step s (l :: ls)) with (runs step (step s l) ls).
    apply IH; [|lia]. apply system_step_inv; [lia|done].
Qed.

(** ** How a step moves the admission *)
Record advances (l l' : Shared) : Prop := {
  ev_next : next_attempt (admissions l) ≤ next_attempt (admissions l');
  ev_current adm' : current (admissions l') = Some adm' →
    next_attempt (admissions l) ≤ adm_attempt adm' ∨
    ∃ adm, current (admissions l) = Some adm ∧ adm_attempt adm' = adm_attempt adm ∧
      (adm_stop_requested adm = true → adm_stop_requested adm' = true);
  ev_restart r : restart (admissions l') = Some r →
    restart (admissions l) = Some r ∨ next_attempt (admissions l) ≤ r.1 ∨
    ∃ adm, current (admissions l) = Some adm ∧ r.1 = adm_attempt adm;
  ev_capacity : capacity (events l') = capacity (events l);
}.
Lemma advances_refl l : advances l l.
Proof. split; eauto 10 using N.le_refl. Qed.
Lemma advances_trans l1 l2 l3 : advances l1 l2 → advances l2 l3 → advances l1 l3.
Proof.
  intros [Hn1 Hc1 Hr1 Hk1] [Hn2 Hc2 Hr2 Hk2].
  assert (∀ k, next_attempt (admissions l2) ≤ k → next_attempt (admissions l1) ≤ k) as Hle by lia.
  split; [lia| | |congruence].
  - intros adm3 Hx3. destruct (Hc2 adm3 Hx3) as [?|(adm2 & Hx2 & He & Hs)]; [auto|].
    destruct (Hc1 adm2 Hx2) as [?|(adm1 & Hx1 & He1 & Hs1)]; [left; congruence|].
    right. exists adm1. split_and!; [done|congruence|auto].
  - intros r Hx3. destruct (Hr2 r Hx3) as [Hx2|[?|(adm & Hc & He)]]; [auto|auto|].
    destruct (Hc1 adm Hc) as [?|(adm1 & Hc' & He' & _)]; [right; left; congruence|].
    right. right. exists adm1. split; [done|congruence].
Qed.
Lemma advances_same l l' :
  admissions l' = admissions l → capacity (events l') = capacity (events l) → advances l l'.
Proof. intros Ha Hc. split; rewrite ?Ha; eauto 10 using N.le_refl. Qed.

Lemma post_advances e l : advances l (post e l).
Proof.
  apply advances_same; [done|]. unfold post. cbn. pose proof (try_send_spec e (events l)) as Hs.
  destruct (receiver_closed _); [by rewrite Hs|]. destruct (decide _); [by destruct Hs as (_&_&?&_)|].
  by rewrite Hs.
Qed.
(** Replacing the admissions by ones that differ as allowed. *)
Lemma admissions_advance l a :
  next_attempt a = next_attempt (admissions l) →
  (∀ adm', current a = Some adm' → ∃ adm, current (admissions l) = Some adm ∧
     adm_attempt adm' = adm_attempt adm ∧
     (adm_stop_requested adm = true → adm_stop_requested adm' = true)) →
  (∀ r, restart a = Some r → restart (admissions l) = Some r ∨
     ∃ adm, current (admissions l) = Some adm ∧ r.1 = adm_attempt adm) →
  advances l (set_admissions a l).
Proof.
  intros Hn Hc Hr. split; cbn; [lia|..|done].
  - intros adm' H'. right. auto.
  - intros r H'. destruct (Hr r H'); auto.
Qed.
Ltac keep_admissions := apply admissions_advance; cbn; [done|by eauto|by eauto].

Lemma stop_admission_advances adm l :
  current (admissions l) = Some adm → advances l (stop_admission adm l).
Proof.
  intros Hc. unfold stop_admission.
  apply (advances_trans _ (set_current_admission
    (Some (set_adm_phase Stopping (set_adm_stop_requested true adm))) l)); [|by apply advances_same].
  apply admissions_advance; cbn; [done| |by eauto]. intros ? [= <-]. by exists adm.
Qed.
Lemma clear_attempt_advances k l : advances l (clear_attempt k l).
Proof.
  unfold clear_attempt. destruct (admission_of k l); [|apply advances_refl].
  eapply (advances_trans _ (set_current_admission None l)); [|by apply advances_same].
  keep_admissions.
Qed.
Lemma drop_advances r l : advances l (reservation_drop r l).
Proof.
  unfold reservation_drop. eapply advances_trans; [|apply post_advances].
  eapply (advances_trans _ (cancel (rsv_cancellation r) l)); [|apply clear_attempt_advances].
  by apply advances_same.
Qed.
Lemma recv_advances e q l : recv (events l) = Some (e, q) → advances l (set_events q l).
Proof.
  intros Hr. apply advances_same; [done|]. cbn. pose proof (recv_spec (events l)) as Hs.
  destruct (queued _); [congruence|]. destruct Hs as (q' & Hq & _ & Hc & _). congruence.
Qed.

Lemma start_attempt_advances k c session (t : Task) :
  advances (lifecycle t) (lifecycle (start_attempt k c session t)).
Proof.
  unfold start_attempt, activate_attempt.
  destruct (current (admissions (lifecycle t))) as [adm|] eqn:Hc.
  - destruct (_ || _); unfold attempt_cancellation, admission_of; cbn; rewrite ?Hc; cbn;
      destruct (adm_attempt adm =? k); cbn; try destruct (token_new _); cbn;
      try (by apply advances_same).
    all: split; cbn; [lia| |by eauto|done]; intros ? [= <-]; right; by exists adm.
  - unfold attempt_cancellation, admission_of. cbn. rewrite ?Hc. cbn.
    destruct (token_new _). cbn. by apply advances_same.
Qed.
Lemma offer_restart_advances a o (t : Task) adm :
  current (admissions (lifecycle t)) = Some adm → adm_attempt adm = aa_attempt a →
  advances (lifecycle t) (lifecycle (offer_restart a o t)).
Proof.
  intros Hc Hk. unfold offer_restart. rewrite Hc. destruct (negb _ && _); cbn.
  - split; cbn; [lia|done| |done]. intros r [= <-]. right. right. by exists adm.
  - split; cbn; [lia|done|by eauto|done].
Qed.

Lemma task_eq_advances (t t' : Task) : task_eq t t' → advances (lifecycle t) (lifecycle t').
Proof. intros []. by apply advances_same. Qed.

Lemma end_attempt_advances k (t : Task) : advances (lifecycle t) (lifecycle (end_attempt k t)).
Proof.
  unfold end_attempt. destruct (active_is k t) as [a|]; [|apply advances_refl].
  destruct (take_attempt_spec a t) as (_ & _ & _ & _ & _ & w & Hl).
  apply advances_same; cbn; by rewrite Hl.
Qed.
(** The attempt that is concluded is the admitted one. *)
Lemma concluding_owner n s k : task_inv n s → concluding (pending (task s)) = Some k →
  ∃ adm a, current (admissions (lifecycle (task s))) = Some adm ∧ adm_attempt adm = k ∧
    active (task s) = Some a ∧ aa_attempt a = k ∧ aa_cancellation a = adm_cancellation adm.
Proof.
  intros Hinv Hk. pose proof (ti_owner n s Hinv) as Ho. pose proof (ti_pending n s Hinv) as Hpd.
  assert (active (task s) ≠ None) as Ha.
  { intros Ha. by rewrite (idle_pending _ Hpd Ha) in Hk. }
  destruct (current _) as [adm|]; [|by destruct Ho as (_ & _ & _ & ? & _)].
  destruct Ho as (_ & _ & _ & _ & [| |a _ _ Hact Hak Hat Hw]); try done.
  exists adm, a. destruct Hw as [(_ & _ & Hc)|[(_ & _ & Hc)|(_ & _ & Hc)]]; try congruence.
  split_and!; congruence.
Qed.
Lemma resume_advances n s u :
  task_inv n s → pending (task s) = Some u →
  advances (lifecycle (task s)) (lifecycle (resume u (set_pending None (task s)))).
Proof.
  intros Hinv Hu. destruct (concluding (Some u)) as [k|] eqn:Hk.
  2:{ by apply task_eq_advances, resume_pending_eq; [apply (ti_pending n s Hinv)|..]. }
  pose proof Hk as Hk'. rewrite <- Hu in Hk'.
  destruct (concluding_owner n s k Hinv Hk') as (adm & a & Hc & Hadm & Ha & Hak & _).
  destruct u as [| | |j restart|j]; try done; cbn in Hk; injection Hk as ->; cbn [resume].
  - unfold conclude. cbn [active set_pending]. rewrite Ha.
    destruct restart as [o|]; [|by destruct (aa_failure a); apply advances_same].
    apply (offer_restart_advances a o (set_pending None (task s)) adm); [done|congruence].
  - apply clear_attempt_advances.
Qed.

Lemma receive_advances n s now :
  task_inv n s → advances (lifecycle (task s)) (lifecycle (receive_event format_duration_secs now (task s))).
Proof.
  intros Hinv. unfold receive_event. destruct (pending (task s)) as [u|] eqn:Hpn.
  { by apply (resume_advances n). }
  destruct (stopped _); [apply advances_refl|].
  destruct (shutting_down _ && _ && _) eqn:Hexit.
  - unfold has_admission in Hexit. boolify. unfold on_lifecycle, close_admission. cbn.
    destruct (current _) as [adm|] eqn:Hc; [exfalso; eauto|]. cbn.
    apply admissions_advance; cbn; eauto.
  - destruct (recv _) as [[e q]|] eqn:Hr; [|apply advances_refl].
    eapply (advances_trans _ (set_events q (lifecycle (task s)))); [by eapply recv_advances|].
    set (t1 := on_lifecycle _ _).
    destruct (start_of e) as [k|] eqn:Hst; [destruct e; try done; apply (start_attempt_advances _ _ _ t1)|].
    destruct (end_of e) as [k|] eqn:Hen; [destruct e; try done; apply (end_attempt_advances _ t1)|].
    by apply (task_eq_advances t1), handle_event_eq.
Qed.

Lemma step_advances n s l :
  n < u64_max → task_inv n s → advances (lifecycle (task s)) (lifecycle (task (step s l))).
Proof.
  intros Hn Hinv. destruct l as [r|k c u rep ses|k| | |tok|k e|now| |r].
  - cbn. unfold reserve_connect. destruct (closed _); [by destruct s as [[] ?]; apply advances_refl|].
    destruct (bool_decide (is_Some _)); [by destruct s as [[] ?]; apply advances_refl|].
    destruct (_ && _); [by destruct s as [[] ?]; apply advances_refl|].
    destruct (token_new _) as [t ts]. cbn -[u64_max].
    pose proof (ti_next n s Hinv) as Hnext.
    split; cbn -[u64_max]; rewrite ?cast_small by lia; [lia|intros ? [= <-]; by left|done|done].
  - cbn. destruct (held s !! k) as [r|]; [|apply advances_refl]. cbn.
    unfold commit, commit_locked. destruct (closed _); [apply drop_advances|].
    destruct (admission_of _ _) as [adm|] eqn:Ha; [|apply drop_advances].
    apply admission_of_Some in Ha as [Ha _].
    destruct (_ || _); [apply drop_advances|].
    pose proof (try_send_spec (EvStart (rsv_attempt r) c u rep ses) (events (lifecycle (task s)))) as Hs.
    rewrite (ti_queue n s Hinv) in Hs.
    destruct (decide _) in Hs; [|rewrite Hs; apply drop_advances].
    destruct (try_send _ _) as [sent q]. cbn in Hs. destruct Hs as (-> & _ & Hcap & _). cbn.
    split; cbn; [lia| |by eauto|done]. intros ? [= <-]. right. by exists adm.
  - cbn. destruct (held s !! k) as [r|]; [|apply advances_refl]. apply drop_advances.
  - cbn. unfold request_disconnect. set (l := set_admissions _ _).
    eapply (advances_trans _ l); [by apply admissions_advance; cbn; eauto|].
    destruct (current (admissions l)) as [adm|] eqn:Hc; [|by apply advances_same].
    destruct (adm_stop_requested adm); [apply advances_refl|]. cbn.
    eapply advances_trans; [by apply stop_admission_advances|apply post_advances].
  - cbn. unfold disconnect_and_wait. destruct (current _) as [adm|] eqn:Hc; [|apply advances_refl].
    destruct (adm_stop_requested adm); [apply advances_refl|].
    eapply advances_trans; [apply (post_advances (EvStop (adm_attempt adm)))|].
    by apply stop_admission_advances.
  - by apply advances_same.
  - cbn. unfold worker_send. destruct (decide _); [|apply advances_refl].
    pose proof (try_send_spec (worker_message k e) (events (lifecycle (task s)))) as Hs.
    rewrite (ti_queue n s Hinv) in Hs.
    destruct (decide _) in Hs; [|rewrite Hs; apply advances_refl].
    destruct (try_send _ _) as [sent q]. cbn in Hs. destruct Hs as (-> & _ & Hcap & _).
    destruct e; by apply advances_same.
  - cbn. by eapply receive_advances.
  - cbn. unfold begin_shutdown. destruct (_ || _ || _ || _) eqn:E; [apply advances_refl|]. boolify.
    set (t1 := on_lifecycle _ _).
    eapply (advances_trans _ (lifecycle t1)).
    + unfold t1, on_lifecycle, close_admission. cbn.
      set (l := set_admissions _ _).
      eapply (advances_trans _ l); [by apply admissions_advance; cbn; eauto|].
      destruct (current _) as [adm|] eqn:Hc; [|apply advances_refl].
      by apply stop_admission_advances.
    + destruct (active t1); [|apply advances_refl]. apply task_eq_advances, stop_attempt_eq. cbn.
      by apply eq_None_not_Some.
  - by apply advances_same.
Qed.

Lemma runs_advance n s ls :
  task_inv n s → n + N.of_nat (length ls) ≤ u64_max →
  advances (lifecycle (task s)) (lifecycle (task (runs step s ls))).
Proof.
  revert n s. induction ls as [|l ls IH]; intros n s Hinv Hn; [apply advances_refl|].
  cbn [length] in Hn. change (runs step s (l :: ls)) with (runs step (step s l) ls).
  eapply advances_trans; [eapply (step_advances n); [lia|done]|].
  apply (IH (n + 1)); [apply system_step_inv; [lia|done]|lia].
Qed.

(** A completed attempt stays completed, and is never admitted or offered again. *)
Lemma completed_stays n m s s' k :
  task_inv n s → task_inv m s' → advances (lifecycle (task s)) (lifecycle (task s')) →
  k ∈ completed (lifecycle (task s)) → k ∈ completed (lifecycle (task s')).
Proof.
  intros Hinv Hinv' [Hn Hc _ _] Hk. apply (ti_completed n s Hinv) in Hk as [Hlt Hne].
  apply (ti_completed m s' Hinv'). split; [lia|]. intros adm' Hadm' <-.
  destruct (Hc adm' Hadm') as [?|(adm & Hadm & He & _)]; [lia|]. by apply (Hne adm).
Qed.
Lemma current_or_completed n m s s' adm :
  task_inv n s → task_inv m s' → advances (lifecycle (task s)) (lifecycle (task s')) →
  current (admissions (lifecycle (task s))) = Some adm →
  adm_attempt adm ∈ completed (lifecycle (task s')) ∨
  ∃ adm', current (admissions (lifecycle (task s'))) = Some adm' ∧
    adm_attempt adm' = adm_attempt adm ∧
    (adm_stop_requested adm = true → adm_stop_requested adm' = true).
Proof.
  intros Hinv Hinv' [Hn Hc _ _] Hcur.
  assert (adm_attempt adm < next_attempt (admissions (lifecycle (task s)))) as Hlt.
  { pose proof (ti_owner n s Hinv) as Ho. rewrite Hcur in Ho. apply Ho. }
  destruct (current (admissions (lifecycle (task s')))) as [adm'|] eqn:Hcur'.
  - destruct (decide (adm_attempt adm' = adm_attempt adm)) as [He|Hne].
    + right. exists adm'. split_and!; [done|done|].
      destruct (Hc adm' eq_refl) as [?|(adm0 & Hadm0 & _ & Hs)]; [lia|].
      rewrite Hcur in Hadm0. injection Hadm0 as <-. exact Hs.
    + left. apply (ti_completed m s' Hinv'). split; [lia|]. rewrite Hcur'. intros ? [= <-]. done.
  - left. apply (ti_completed m s' Hinv'). split; [lia|]. by rewrite Hcur'.
Qed.

(** The runs from a task that starts idle, short of 2^64 labels. *)
Lemma reachable_inv v ts r ls :
  busy_state v = false → N.of_nat (length ls) ≤ u64_max →
  task_inv (N.of_nat (length ls)) (runs step (system_new v ts r) ls).
Proof.
  intros Hv Hl. rewrite <- (N.add_0_l (N.of_nat (length ls))).
  apply runs_inv; [by apply system_new_inv|lia].
Qed.

(** ** Properties *)

(** C1: an admitted attempt has exactly one owner: its reservation, its queued start or
    its running worker; without an admission there is none. A VPN state of an attempt
    in progress is only shown while the admitted attempt runs, under its token. *)
Theorem attempt_ownership v ts r ls :
  busy_state v = false → N.of_nat (length ls) ≤ u64_max →
  let s := runs step (system_new v ts r) ls in
  let current := current (admissions (lifecycle (task s))) in
  (size (held s) + length (starts (lifecycle (task s))) +
   (if decide (active (task s) = None) then 0 else 1) = if decide (current = None) then 0 else 1)%nat ∧
  (∀ k, k ∈ workers (task s) ∨ is_Some (held s !! k) → adm_attempt <$> current = Some k) ∧
  (busy_state (vpn_state (task s)) = true → ∃ a adm,
     active (task s) = Some a ∧ current = Some adm ∧
     identity a = (adm_attempt adm, adm_cancellation adm)).
Proof.
  intros Hv Hl s. pose proof (reachable_inv v ts r ls Hv Hl) as Hinv.
  fold s in Hinv. cbn zeta. pose proof (ti_state _ s Hinv) as Hst.
  pose proof (ti_owner _ s Hinv) as Ho.
  destruct (current (admissions (lifecycle (task s)))) as [adm|].
  - destruct Ho as (_&_&_&_&[rv Hh Hr Ht Hs He Ha Hw|Hh Hs He Ha Hw|a Hh Hs Ha Hk Ht Hw]);
      rewrite Hh, Hs, Ha in *; rewrite ?map_size_singleton, ?map_size_empty;
      (split; [done|split]).
    + intros j [Hj|[x Hj]]; [rewrite Hw in Hj; by apply not_elem_of_empty in Hj|].
      apply lookup_singleton_Some in Hj as [<- _]. done.
    + naive_solver.
    + intros j [Hj|[x Hj]]; [rewrite Hw in Hj; by apply not_elem_of_empty in Hj|done].
    + naive_solver.
    + intros j [Hj|[x Hj]]; [|done]. destruct Hw as [[Hw _]|[[Hw _]|[Hw _]]]; rewrite Hw in Hj;
        [|by apply not_elem_of_empty in Hj..].
      apply elem_of_singleton in Hj as ->. done.
    + intros _. exists a, adm. split_and!; [done..|]. unfold identity. by rewrite Hk, Ht.
  - destruct Ho as (Hh&Hs&He&Ha&Hw). rewrite Hh, Hs, Ha, Hw in *. rewrite map_size_empty.
    split; [done|split]; [|naive_solver]. intros j [Hj|[x Hj]]; [by apply not_elem_of_empty in Hj|done].
Qed.

(** C2: a drain answers exactly when its attempt is over: an attempt that was reserved
    counts as complete once it is not admitted any more, never before, and for good. *)
Theorem drain_completion v ts r ls ls' k :
  busy_state v = false → N.of_nat (length (ls ++ ls')) ≤ u64_max →
  let s := runs step (system_new v ts r) ls in
  let a := admissions (lifecycle (task s)) in
  (wait_returns k (lifecycle (task s)) = true ↔
     k < next_attempt a ∧ adm_attempt <$> current a ≠ Some k) ∧
  (wait_returns k (lifecycle (task s)) = true →
     wait_returns k (lifecycle (task (runs step s ls'))) = true ∧
     adm_attempt <$> current (admissions (lifecycle (task (runs step s ls')))) ≠ Some k).
Proof.
  rewrite length_app. intros Hv Hl s a.
  pose proof (reachable_inv v ts r ls Hv ltac:(lia)) as Hinv. fold s in Hinv.
  assert (∀ n s, task_inv n s → wait_returns k (lifecycle (task s)) = true ↔
    k < next_attempt (admissions (lifecycle (task s))) ∧
    adm_attempt <$> current (admissions (lifecycle (task s))) ≠ Some k) as Hiff.
  { intros n s' Hinv'. unfold wait_returns. rewrite bool_decide_eq_true, (ti_completed n s' Hinv').
    destruct (current _) as [adm|]; cbn; [|naive_solver].
    split; intros [Hlt Hne]; (split; [done|]).
    - intros [= He]. by apply (Hne adm).
    - intros ? [= <-] He. apply Hne. by f_equal. }
  split; [by eapply Hiff|]. intros Hk.
  pose proof (runs_inv _ s ls' Hinv ltac:(lia)) as Hinv'.
  pose proof (runs_advance _ s ls' Hinv ltac:(lia)) as Hev.
  assert (wait_returns k (lifecycle (task (runs step s ls'))) = true) as Hk'.
  { unfold wait_returns in *. boolify. eapply bool_decide_eq_true_2.
    by eapply (completed_stays _ _ s). }
  split; [done|]. apply (Hiff _ _ Hinv') in Hk'. apply Hk'.
Qed.

(** C5: a restart is accepted at most once: after a reservation redeemed the offer of
    an attempt, no reservation redeems an offer of that attempt again. *)
Theorem restart_redeemed_once v ts r ls ls' k o o' :
  busy_state v = false → N.of_nat (length (ls ++ ls')) < u64_max →
  let s := runs step (system_new v ts r) ls in
  is_ok (reserve_connect (Some (k, o)) (lifecycle (task s))).1 = true →
  is_ok (reserve_connect (Some (k, o'))
    (lifecycle (task (runs step s (Reserve (Some (k, o)) :: ls'))))).1 = false.
Proof.
  rewrite length_app. intros Hv Hl s Hok.
  pose proof (reachable_inv v ts r ls Hv ltac:(lia)) as Hinv. fold s in Hinv.
  change (runs step s (Reserve (Some (k, o)) :: ls')) with
    (runs step (step s (Reserve (Some (k, o)))) ls').
  pose proof (system_step_inv (N.of_nat (length ls)) s (Reserve (Some (k, o))) ltac:(lia) Hinv) as Hinv1.
  pose proof (step_advances (N.of_nat (length ls)) s (Reserve (Some (k, o))) ltac:(lia) Hinv) as Hev1.
  assert (k ∈ completed (lifecycle (task s)) ∧
    restart (admissions (lifecycle (task (step s (Reserve (Some (k, o))))))) = None) as [Hk Hnone].
  { unfold reserve_connect in Hok. cbn. unfold reserve_connect.
    destruct (closed _); [done|]. destruct (bool_decide (is_Some (current _))); [done|].
    destruct (_ && _) eqn:E; [done|]. destruct (token_new _). cbn. split; [|done].
    apply andb_false_iff in E as [E|E]; [boolify; exfalso; eauto|].
    apply negb_false_iff in E. boolify. by destruct (ti_restart _ s Hinv k o E) as (_&?&_). }
  pose proof (completed_stays _ _ _ _ _ Hinv Hinv1 Hev1 Hk) as Hk1.
  set (s1 := step s _) in *.
  pose proof (runs_advance _ s1 ls' Hinv1 ltac:(lia)) as Hev.
  unfold reserve_connect. destruct (closed _); [done|].
  destruct (bool_decide (is_Some (current _))); [done|].
  destruct (_ && _) eqn:E; [done|]. exfalso.
  apply andb_false_iff in E as [E|E]; [boolify; eauto|].
  apply negb_false_iff in E. boolify.
  apply (ti_completed _ s1 Hinv1) in Hk1 as [Hlt Hne].
  destruct (ev_restart _ _ Hev _ E) as [Hr|[Hr|(adm & Hc & Hr)]]; [by rewrite Hnone in Hr|change (k, o').1 with k in Hr; lia|].
  by apply (Hne adm).
Qed.

(** ** A stopped attempt *)
Definition kept_or_disconnecting (v v' : VpnState.t) : Prop := v' = v ∨ v' = VpnState.Disconnecting.
Lemma kept_trans v1 v2 v3 :
  kept_or_disconnecting v1 v2 → kept_or_disconnecting v2 v3 → kept_or_disconnecting v1 v3.
Proof. intros [-> | ->] [-> | ->]; by (left + right). Qed.
(** Nothing is left to do, or only to conclude. *)
Definition at_rest (u : option Unfinished) : Prop :=
  match u with None | Some (Conclude _ _) => True | _ => False end.
(** One step: another's, a turn of the actor, or the rest of one. *)
Inductive acts (t t' : Task) : Prop :=
  | acts_other : pending t' = pending t → vpn_state t' = vpn_state t → acts t t'
  | acts_turn : pending t = None → at_rest (pending t') →
      kept_or_disconnecting (vpn_state t) (vpn_state t') → acts t t'
  | acts_resumed u : pending t = Some u → concluding (Some u) = None → pending t' = None →
      vpn_state t' = vpn_state t ∨ u = Announce (vpn_state t') → acts t t'
  | acts_concluded k r : pending t = Some (Conclude k r) → pending t' = Some (ReleaseAttempt k) →
      busy_state (vpn_state t') = false → acts t t'.
(** From [t] to [t'] at most what was pending was done, or the attempt's end was shown. *)
Inductive winds_down (t t' : Task) : Prop :=
  | winds_same : pending t' = pending t → kept_or_disconnecting (vpn_state t) (vpn_state t') → winds_down t t'
  | winds_rest : at_rest (pending t') →
      kept_or_disconnecting (vpn_state t) (vpn_state t') ∨ pending t = Some (Announce (vpn_state t')) →
      winds_down t t'
  | winds_shown k : pending t' = Some (ReleaseAttempt k) → busy_state (vpn_state t') = false → winds_down t t'.
Lemma winds_down_step t0 t t' : winds_down t0 t → acts t t' → winds_down t0 t'.
Proof.
  intros Hw [Hp Hv|Hp Hr Hk|u Hp Hc Hn Hv|k r Hp Hn Hb].
  - destruct Hw as [Hp' Hk|Hr Hk|j Hp' Hb]; rewrite <- ?Hv in *.
    + apply winds_same; [congruence|done].
    + apply winds_rest; [by rewrite Hp|done].
    + apply (winds_shown _ _ j); [congruence|done].
  - apply winds_rest; [done|]. destruct Hw as [_ Hk'|_ Hk'|j Hp' _]; [left; by eapply kept_trans| |congruence].
    destruct Hk' as [Hk'|Ha]; [left; by eapply kept_trans|].
    destruct Hk as [-> | ->]; [by right|left; by right].
  - apply winds_rest; [by rewrite Hn|]. destruct Hw as [Hp' Hk|Hr Hk|j Hp' _].
    + destruct Hv as [-> | ->]; [by left|right; congruence].
    + exfalso. rewrite Hp in Hr. by destruct u.
    + exfalso. rewrite Hp in Hp'. injection Hp' as ->. done.
  - by apply (winds_shown _ _ k).
Qed.

Lemma take_attempt_state a (t : Task) : vpn_state (take_attempt a t) = vpn_state t.
Proof.
  destruct (take_attempt_spec a t) as (_ & _ & _ & _ & _ & w & Hl). unfold vpn_state. by rewrite Hl.
Qed.
Lemma stop_attempt_keeps k (t : Task) :
  watch_receivers (state (lifecycle t)) ≠ 0%nat →
  pending (stop_attempt k t) = pending t ∧
  kept_or_disconnecting (vpn_state t) (vpn_state (stop_attempt k t)).
Proof.
  intros Hw. unfold stop_attempt. destruct (active_is k t); [|split; [done|by left]].
  destruct (is_stop_requested _ _); [|split; [done|by left]]. split; [done|right].
  by apply (vpn_state_send VpnState.Disconnecting t).
Qed.
Lemma handle_stopped now e (t : Task) :
  watch_receivers (state (lifecycle t)) ≠ 0%nat → pending t = None →
  (∀ a, active t = Some a → aa_cancelled a t = true) →
  (∀ adm, current (admissions (lifecycle t)) = Some adm → adm_stop_requested adm = true) →
  at_rest (pending (handle_event format_duration_secs now e t)) ∧
  kept_or_disconnecting (vpn_state t) (vpn_state (handle_event format_duration_secs now e t)).
Proof.
  intros Hw Hp Hcan Hstop.
  assert (∀ t' : Task, pending t' = pending t → vpn_state t' = vpn_state t →
    at_rest (pending t') ∧ kept_or_disconnecting (vpn_state t) (vpn_state t')) as Hsame.
  { intros t' -> ->. rewrite Hp. split; [done|by left]. }
  assert (∀ k a, active_is k t = Some a → aa_cancelled a t = true) as Hcan'.
  { intros k a Ha. apply active_is_Some in Ha as [Ha _]. auto. }
  destruct e as [k m|k c u r ss|k|k|k|k v|k ms fs|k|k reason|]; cbn.
  - destruct (active_is k t); by apply Hsame.
  - unfold start_attempt, activate_attempt.
    destruct (current (admissions (lifecycle t))) as [adm|] eqn:Hc.
    + rewrite (Hstop adm eq_refl), orb_true_r. cbn. unfold attempt_cancellation, admission_of. cbn.
      rewrite Hc. destruct (_ =? _); [by apply Hsame|]. destruct (token_new _). by apply Hsame.
    + unfold attempt_cancellation, admission_of. cbn. rewrite Hc. destruct (token_new _). by apply Hsame.
  - destruct (stop_attempt_keeps k t Hw) as [-> Hk]. by rewrite Hp.
  - destruct (active_is k t) as [a|] eqn:Ha; [rewrite (Hcan' k a Ha)|]; by apply Hsame.
  - destruct (active_is k t); by apply Hsame.
  - unfold establish_attempt.
    destruct (active_is k t) as [a|] eqn:Ha; [rewrite (Hcan' k a Ha)|]; by apply Hsame.
  - unfold publish_members.
    destruct (active_is k t) as [a|] eqn:Ha; [rewrite (Hcan' k a Ha)|]; by apply Hsame.
  - unfold end_attempt. destruct (active_is k t) as [a|]; [|by apply Hsame].
    split; [done|]. left. apply take_attempt_state.
  - destruct (active_is k t); by apply Hsame.
  - by apply Hsame.
Qed.
Lemma resume_spec u (t : Task) : concluding (Some u) = None →
  events (lifecycle (resume u t)) = events (lifecycle t) ∧ pending (resume u t) = pending t ∧
  workers (resume u t) = workers t.
Proof.
  intros Hu. destruct u as [v|now k i si|now k i ms fs| |]; try done; cbn.
  - unfold publish_connected. destruct (admission_of _ _); [by destruct (_ && _)|done].
  - unfold publish_healthy. destruct (admission_of _ _) as [adm|]; [|done].
    by destruct (adm_stop_requested adm).
Qed.
(** With the lock, the stop is seen: only an announcement is still made, or the end of the
    attempt is shown. *)
Lemma resume_stopped u (t : Task) adm :
  watch_receivers (state (lifecycle t)) ≠ 0%nat → pending t = Some u → active t ≠ None →
  current (admissions (lifecycle t)) = Some adm → adm_stop_requested adm = true →
  (∀ k, concluding (Some u) = Some k → adm_attempt adm = k) →
  is_Some (current (admissions (lifecycle (resume u (set_pending None t))))) →
  acts t (resume u (set_pending None t)).
Proof.
  intros Hw Hu Ha Hc Hstop Hk Hstays.
  assert (∀ v, vpn_state (send_state v (set_pending None t)) = v) as Hsend by (intros; by apply vpn_state_send).
  destruct u as [v|now k i si|now k i ms fs|k r|k]; cbn [resume] in *.
  - apply (acts_resumed _ _ (Announce v)); try done. right. by rewrite Hsend.
  - apply (acts_resumed _ _ _ Hu); try done; unfold publish_connected;
      (destruct (admission_of k (lifecycle _)) as [adm'|] eqn:Hadm; [|auto]);
      apply admission_of_Some in Hadm as [Hadm _]; cbn in Hadm; rewrite Hc in Hadm; injection Hadm as <-;
      rewrite Hstop, andb_false_r; auto.
  - apply (acts_resumed _ _ _ Hu); try done; unfold publish_healthy;
      (destruct (admission_of k (lifecycle _)) as [adm'|] eqn:Hadm; [|auto]);
      apply admission_of_Some in Hadm as [Hadm _]; cbn in Hadm; rewrite Hc in Hadm; injection Hadm as <-;
      rewrite Hstop; auto.
  - unfold conclude in *. cbn [active set_pending] in *. destruct (active t) as [a|]; [|done].
    destruct r as [o|].
    { exfalso. unfold offer_restart in Hstays. cbn in Hstays. rewrite Hc in Hstays.
      destruct Hstays as [x Hx]. by destruct (negb _ && _). }
    destruct (aa_failure a) as [reason|]; (eapply acts_concluded; [exact Hu|done|]);
      [exact (f_equal busy_state (Hsend (VpnState.Failed reason)))
      |exact (f_equal busy_state (Hsend VpnState.Disconnected))].
  - exfalso. unfold release_attempt, on_lifecycle in Hstays. cbn [lifecycle set_pending] in Hstays.
    rewrite (clear_attempt_current _ _ adm) in Hstays by auto. by destruct Hstays.
Qed.

Lemma drop_state r (l : Shared) : state (reservation_drop r l) = state l.
Proof. unfold reservation_drop, clear_attempt. cbn. by destruct (admission_of _ _). Qed.
Lemma close_state (l : Shared) : state (close_admission l) = state l.
Proof. unfold close_admission. cbn. by destruct (current _). Qed.
Lemma commit_state r c u rep ses (t : Task) :
  vpn_state (set_lifecycle (commit r c u rep ses (lifecycle t)).2 t) = vpn_state t.
Proof.
  unfold commit, commit_locked, vpn_state. cbn.
  destruct (closed _); [exact (f_equal watch_borrow (drop_state _ _))|].
  destruct (admission_of _ _); [|exact (f_equal watch_borrow (drop_state _ _))].
  destruct (_ || _); [exact (f_equal watch_borrow (drop_state _ _))|].
  destruct (try_send _ _) as [[] q]; [done|exact (f_equal watch_borrow (drop_state _ _))..].
Qed.

Lemma receive_stopped n s now adm adm' :
  task_inv n s → current (admissions (lifecycle (task s))) = Some adm →
  adm_stop_requested adm = true →
  let t' := receive_event format_duration_secs now (task s) in
  current (admissions (lifecycle t')) = Some adm' → acts (task s) t'.
Proof.
  intros Hinv Hc Hs t' Hc'. subst t'. pose proof (ti_watch n s Hinv) as Hw.
  pose proof (ti_owner n s Hinv) as Ho. rewrite Hc in Ho. destruct Ho as (_ & Hlive & Hcan & _ & Ho).
  unfold receive_event in *. destruct (pending (task s)) as [u|] eqn:Hpn.
  { destruct (ti_pending n s Hinv u Hpn) as (a & Ha & _).
    apply (resume_stopped u (task s) adm); [done|done|congruence|done|done| |by rewrite Hc'].
    intros k Hk. rewrite <- Hpn in Hk. destruct (concluding_owner n s k Hinv Hk) as (x & _ & Hx & ? & _).
    congruence. }
  destruct (stopped _); [by apply acts_other|].
  destruct (shutting_down _ && _ && _).
  { apply acts_other; [done|exact (f_equal watch_borrow (close_state _))]. }
  destruct (recv _) as [[e q]|] eqn:Hr; [|by apply acts_other].
  destruct (handle_stopped now e (on_lifecycle (set_events q) (task s))) as [Hrest Hk]; try done.
  - intros a Ha. cbn in Ha. unfold aa_cancelled. cbn.
    destruct Ho as [? _ _ _ _ _ Hno _|_ _ _ Hno _|b _ _ Hb _ Ht _]; try congruence.
    rewrite Hb in Ha. injection Ha as <-. rewrite Ht. auto.
  - cbn. rewrite Hc. by intros ? [= <-].
  - by apply acts_turn.
Qed.
Lemma step_stopped n s l adm adm' :
  task_inv n s → current (admissions (lifecycle (task s))) = Some adm →
  adm_stop_requested adm = true →
  current (admissions (lifecycle (task (step s l)))) = Some adm' →
  acts (task s) (task (step s l)).
Proof.
  intros Hinv Hc Hs Hc'. pose proof (ti_watch n s Hinv) as Hw.
  destruct l as [r|k c u rep ses|k| | |tok|k e|now| |r]; cbn in *.
  - unfold reserve_connect. rewrite Hc. destruct (closed _); by apply acts_other.
  - destruct (held s !! k); [|by apply acts_other]. apply acts_other; [done|apply commit_state].
  - destruct (held s !! k); [|by apply acts_other].
    apply acts_other; [done|exact (f_equal watch_borrow (drop_state _ _))].
  - unfold request_disconnect. cbn. rewrite Hc. cbn. rewrite Hs. by apply acts_other.
  - unfold disconnect_and_wait. rewrite Hc. rewrite Hs. by apply acts_other.
  - by apply acts_other.
  - unfold worker_send. destruct (decide _); [|by apply acts_other].
    destruct (try_send _ _) as [[] q]; by destruct e; apply acts_other.
  - by apply (receive_stopped n s now adm adm').
  - unfold begin_shutdown in *. destruct (_ || _ || _ || _) eqn:E; [by apply acts_other|]. boolify.
    set (t1 := on_lifecycle _ _).
    assert (state (lifecycle t1) = state (lifecycle (task s))) as Ht1 by apply (close_state (lifecycle (task s))).
    assert (pending (task s) = None) as Hp by by apply eq_None_not_Some.
    assert (vpn_state t1 = vpn_state (task s)) as Hv by (unfold vpn_state; by rewrite Ht1).
    destruct (active t1) as [a|]; [|by apply acts_other].
    destruct (stop_attempt_keeps (aa_attempt a) t1) as [Hp' Hk]; [by rewrite Ht1|].
    apply acts_turn; [done|by rewrite Hp'; cbn; rewrite Hp|by rewrite <- Hv].
  - by apply acts_other.
Qed.

Lemma runs_stopped n s ls t0 adm :
  task_inv n s → n + N.of_nat (length ls) < u64_max → winds_down t0 (task s) →
  current (admissions (lifecycle (task s))) = Some adm → adm_stop_requested adm = true →
  let s' := runs step s ls in
  adm_attempt adm ∈ completed (lifecycle (task s')) ∨
  ∃ adm', current (admissions (lifecycle (task s'))) = Some adm' ∧
    adm_attempt adm' = adm_attempt adm ∧ adm_stop_requested adm' = true ∧
    winds_down t0 (task s').
Proof.
  revert n s adm. induction ls as [|l ls IH]; intros n s adm Hinv Hl Hw Hc Hs; cbn [length] in *.
  { right. by exists adm. }
  change (runs step s (l :: ls)) with (runs step (step s l) ls). cbn zeta in *.
  pose proof (step_advances n s l ltac:(lia) Hinv) as Hev.
  pose proof (system_step_inv n s l ltac:(lia) Hinv) as Hinv1.
  destruct (current_or_completed _ _ s _ adm Hinv Hinv1 Hev Hc) as [Hdone|(adm1 & Hc1 & He & Hs1)].
  - left. apply (completed_stays (n + 1) (n + 1 + N.of_nat (length ls)) (step s l));
      [done|apply runs_inv; [done|lia]| |done].
    apply (runs_advance (n + 1)); [done|lia].
  - pose proof (step_stopped _ s l adm adm1 Hinv Hc Hs Hc1) as Ha.
    destruct (IH (n + 1) (step s l) adm1 Hinv1 ltac:(lia) (winds_down_step _ _ _ Hw Ha) Hc1 (Hs1 Hs))
      as [?|(adm2 & Hc2 & He2 & Hs2 & Hw2)]; [left; congruence|right].
    exists adm2. split_and!; [done|congruence|done|done].
Qed.

(** C3: once an attempt was told to stop, the VPN state is not advanced on its behalf. In
    every later state the attempt is over, or it is still admitted and stopping, and the
    actor has taken nothing new upon itself but to end it. The state is what it was,
    [Disconnecting], or the [Connecting] the actor was about to send when the stop came;
    or, right before the attempt is released, its end is shown. The announcement is the
    only one a stop cannot prevent, and there is none when nothing was pending. *)
Theorem stopped_attempt_stays_stopped v ts r ls ls' adm :
  busy_state v = false → N.of_nat (length (ls ++ ls')) < u64_max →
  let s := runs step (system_new v ts r) ls in
  current (admissions (lifecycle (task s))) = Some adm → adm_stop_requested adm = true →
  let s' := runs step s ls' in
  wait_returns (adm_attempt adm) (lifecycle (task s')) = true ∨
  ∃ adm', current (admissions (lifecycle (task s'))) = Some adm' ∧
    adm_attempt adm' = adm_attempt adm ∧ adm_stop_requested adm' = true ∧
    (pending (task s') = pending (task s) ∨ pending (task s') = None ∨
     concluding (pending (task s')) = Some (adm_attempt adm)) ∧
    (kept_or_disconnecting (vpn_state (task s)) (vpn_state (task s')) ∨
     (∃ a, active (task s) = Some a ∧
       pending (task s) = Some (Announce (VpnState.Connecting (aa_info a))) ∧
       vpn_state (task s') = VpnState.Connecting (aa_info a)) ∨
     pending (task s') = Some (ReleaseAttempt (adm_attempt adm)) ∧
       busy_state (vpn_state (task s')) = false).
Proof.
  rewrite length_app. intros Hv Hl s Hc Hs s'.
  pose proof (reachable_inv v ts r ls Hv ltac:(lia)) as Hinv. fold s in Hinv.
  pose proof (runs_inv _ s ls' Hinv ltac:(lia)) as Hinv'. fold s' in Hinv'.
  unfold wait_returns. rewrite bool_decide_eq_true.
  destruct (runs_stopped _ s ls' (task s) adm Hinv ltac:(lia) ltac:(apply winds_same; [done|by left]) Hc Hs)
    as [?|(adm' & Hc' & He & Hs' & Hw)]; [by left|right].
  fold s' in Hc', Hw. clearbody s'.
  assert (∀ k, concluding (pending (task s')) = Some k → k = adm_attempt adm) as Hk.
  { intros k Hk. destruct (concluding_owner _ s' k Hinv' Hk) as (x & _ & Hx & ? & _). congruence. }
  exists adm'. split_and!; [done..| |].
  - destruct Hw as [Hp _|Hp _|k Hp _]; [by left| |].
    + right. destruct (pending (task s')) as [[| | |k q|]|] eqn:Ep; try done; [|by left].
      right. cbn. by rewrite <- (Hk k eq_refl).
    + right. right. rewrite Hp in *. by rewrite <- (Hk k eq_refl).
  - destruct Hw as [_ Hkept|_ [Hkept|Hp]|k Hp Hb]; [by left..| |].
    + right. left. destruct (ti_pending _ s Hinv _ Hp) as (a & Ha & Hi & _). specialize (Hi _ eq_refl).
      exists a. by rewrite Hi in *.
    + right. right. split; [|done]. rewrite Hp in *. by rewrite <- (Hk k eq_refl).
Qed.

(** ** An admitted attempt can always be finished *)
Lemma handle_event_events now e (t : Task) :
  events (lifecycle (handle_event format_duration_secs now e t)) = events (lifecycle t).
Proof.
  destruct (start_of e) as [k|] eqn:Hs; [destruct e; try done|destruct (end_of e) as [k|] eqn:He].
  - cbn. unfold start_attempt. destruct (activate_attempt _ _) as [b l] eqn:Ha.
    assert (events l = events (lifecycle t)) as Hl.
    { unfold activate_attempt in Ha. destruct (current _); [|by injection Ha as _ <-].
      destruct (_ || _); by injection Ha as _ <-. }
    destruct (attempt_cancellation _ _) as [tok l'] eqn:Hc.
    assert (events l' = events l) as Hl'.
    { unfold attempt_cancellation in Hc. destruct (admission_of _ _); [by injection Hc as _ <-|].
      destruct (token_new _). by injection Hc as _ <-. }
    destruct b; cbn; congruence.
  - destruct e; try done. cbn. unfold end_attempt. destruct (active_is _ t) as [a|]; [|done].
    destruct (take_attempt_spec a t) as (_ & _ & _ & _ & _ & w & Hl). cbn. by rewrite Hl.
  - destruct e as [k m|k c u r ss|k|k|k|k v|k ms fs|k|k reason|]; try done; cbn.
    + by destruct (active_is k t).
    + unfold stop_attempt. destruct (active_is k t); [|done]. by destruct (is_stop_requested _ _).
    + destruct (active_is k t); [|done]. by destruct (aa_cancelled _ _).
    + by destruct (active_is k t).
    + unfold establish_attempt. destruct (active_is k t); [|done]. by destruct (aa_cancelled _ _).
    + unfold publish_members. destruct (active_is k t); [|done].
      destruct (aa_cancelled _ _); [done|]. destruct (negb _); [by destruct (vpn_state t)|done].
    + by destruct (active_is k t).
Qed.

(** What is left of an attempt, in turns of the actor: a start leads to a worker and an
    announcement, a worker to its last event, and that to the two steps of the end. *)
Definition pending_work (u : option Unfinished) : nat :=
  match u with None => 0 | Some (Conclude _ _) => 2 | Some _ => 1 end.
Definition event_work (e : LifecycleEvent (Resources:=Resources) (Monitor:=Monitor)) : nat :=
  if start_of e then 6 else 3.
Definition queue_work (es : list (LifecycleEvent (Resources:=Resources) (Monitor:=Monitor))) : nat :=
  sum_list_with event_work es.
Definition work_left (t : Task) : nat :=
  queue_work (queued (events (lifecycle t))) + pending_work (pending t) + 4 * size (workers t).

Lemma resume_works u (t : Task) : pending t = Some u →
  (work_left (resume u (set_pending None t)) < work_left t)%nat.
Proof.
  intros Hu. unfold work_left. rewrite Hu.
  destruct (concluding (Some u)) as [k|] eqn:Hc.
  2:{ destruct (resume_spec u (set_pending None t) Hc) as (-> & -> & ->). cbn.
      destruct u; cbn; try lia. }
  destruct u as [| | |j r|j]; try done; cbn [resume].
  - unfold conclude. cbn [active set_pending]. destruct (active t) as [a|]; [|cbn; lia].
    destruct r as [o|]; [|destruct (aa_failure a); cbn; lia].
    unfold offer_restart. cbn. destruct (current _); [|cbn; lia].
    destruct (negb _ && _); cbn; lia.
  - unfold release_attempt, clear_attempt. cbn. destruct (admission_of _ _); cbn; lia.
Qed.
Lemma add_worker_size k (ws : gset N) : (size ({[k]} ∪ ws) ≤ 1 + size ws)%nat.
Proof.
  rewrite size_union_alt, size_singleton.
  pose proof (subseteq_size (ws ∖ {[k]}) ws ltac:(set_solver)). lia.
Qed.
Lemma handle_event_works now e (t : Task) : pending t = None →
  (pending_work (pending (handle_event format_duration_secs now e t)) +
   4 * size (workers (handle_event format_duration_secs now e t)) <
   event_work e + 4 * size (workers t))%nat.
Proof.
  intros Hp. destruct e as [k m|k c u r ss|k|k|k|k v|k ms fs|k|k reason|]; cbn.
  - destruct (active_is k t); cbn; rewrite Hp; cbn; lia.
  - pose proof (add_worker_size k (workers t)). unfold start_attempt.
    destruct (activate_attempt _ _) as [b l], (attempt_cancellation _ _) as [tok l'].
    destruct b; cbn; rewrite ?Hp; cbn; lia.
  - unfold stop_attempt. destruct (active_is k t); [destruct (is_stop_requested _ _)|];
      cbn; rewrite Hp; cbn; lia.
  - destruct (active_is k t); [destruct (aa_cancelled _ _)|]; cbn; rewrite ?Hp; cbn; lia.
  - destruct (active_is k t); cbn; rewrite Hp; cbn; lia.
  - unfold establish_attempt. destruct (active_is k t); [destruct (aa_cancelled _ _)|];
      cbn; rewrite ?Hp; cbn; lia.
  - unfold publish_members. destruct (active_is k t); [destruct (aa_cancelled _ _)|];
      [|destruct (negb _); [destruct (vpn_state t)|]|]; cbn; rewrite ?Hp; cbn; lia.
  - unfold end_attempt. destruct (active_is k t) as [a|]; [|cbn; rewrite Hp; cbn; lia].
    destruct (take_attempt_spec a t) as (_ & Hw & _). cbn. rewrite Hw. lia.
  - destruct (active_is k t); cbn; rewrite Hp; cbn; lia.
  - rewrite Hp. cbn. lia.
Qed.

(** What the owners of an attempt do to finish it. *)
Definition finishing (k : N)
  (l : label (T:=T) (Resources:=Resources) (Monitor:=Monitor) (R:=R)) : Prop :=
  l = ReceiveEvent 0 ∨ l = Release k ∨ l = Worker k WEnded.

Lemma receive_admitted n s adm x xs :
  task_inv n s → current (admissions (lifecycle (task s))) = Some adm →
  pending (task s) = None → queued (events (lifecycle (task s))) = x :: xs →
  ∃ q, recv (events (lifecycle (task s))) = Some (x, q) ∧ queued q = xs ∧
    receive_event format_duration_secs 0 (task s) =
      handle_event format_duration_secs 0 x (on_lifecycle (set_events q) (task s)).
Proof.
  intros Hinv Hc Hp Hq. pose proof (recv_spec (events (lifecycle (task s)))) as Hs. rewrite Hq in Hs.
  destruct Hs as (q & Hr & Hqd & _). exists q. split_and!; [done..|].
  unfold receive_event. rewrite Hp. destruct (stopped (task s)) eqn:Hst.
  { destruct (ti_closed n s Hinv Hst). congruence. }
  assert (has_admission (task s) = true) as ->
    by (unfold has_admission; rewrite Hc; by apply bool_decide_eq_true_2).
  rewrite andb_false_r. by rewrite Hr.
Qed.
Lemma receive_works n s adm :
  task_inv n s → current (admissions (lifecycle (task s))) = Some adm →
  pending (task s) ≠ None ∨ queued (events (lifecycle (task s))) ≠ [] →
  (work_left (task (step s (ReceiveEvent 0))) < work_left (task s))%nat.
Proof.
  intros Hinv Hc Hw. cbn [system_step with_task task].
  destruct (pending (task s)) as [u|] eqn:Hp.
  { unfold receive_event. rewrite Hp. by apply resume_works. }
  destruct (queued (events (lifecycle (task s)))) as [|x xs] eqn:Hq; [naive_solver|].
  destruct (receive_admitted n s adm x xs Hinv Hc Hp Hq) as (q & _ & Hqd & ->).
  pose proof (handle_event_works 0 x (on_lifecycle (set_events q) (task s)) Hp) as Hless.
  unfold work_left. rewrite handle_event_events. rewrite Hq. cbn [workers on_lifecycle set_lifecycle] in Hless.
  cbn [lifecycle on_lifecycle set_lifecycle events set_events].
  rewrite Hqd. unfold queue_work. cbn [sum_list_with]. lia.
Qed.

Lemma released_completed r (l : Shared) adm :
  current (admissions l) = Some adm → adm_attempt adm = rsv_attempt r →
  rsv_attempt r ∈ completed (reservation_drop r l).
Proof.
  intros Hc Hk. unfold reservation_drop, clear_attempt, admission_of. cbn. rewrite Hc.
  rewrite (proj2 (N.eqb_eq _ _) Hk). cbn. set_solver.
Qed.
(** Its last event is sent for less than the worker counted for. *)
Lemma ended_works n s k :
  task_inv n s → (0 < capacity (events (lifecycle (task s))))%nat →
  queued (events (lifecycle (task s))) = [] → workers (task s) = {[k]} →
  (work_left (task (step s (Worker k WEnded))) < work_left (task s))%nat.
Proof.
  intros Hinv Hcap Hq Hw. cbn. unfold worker_send.
  destruct (decide _) as [_|Hno]; [|exfalso; apply Hno; rewrite Hw; set_solver].
  pose proof (try_send_spec (worker_message k WEnded) (events (lifecycle (task s)))) as Hs.
  rewrite (ti_queue n s Hinv), Hq in Hs. cbn [length app] in Hs. destruct (decide _) in Hs; [|lia].
  destruct (try_send _ _) as [sent q]. cbn in Hs. destruct Hs as (-> & Hqd & _ & _).
  unfold work_left. cbn. rewrite Hqd, Hq, Hw. rewrite difference_diag_L, size_singleton, size_empty.
  cbn. lia.
Qed.
(** There is always a step that finishes the attempt, or leaves less to do. *)
Lemma finishing_step n s adm :
  task_inv n s → current (admissions (lifecycle (task s))) = Some adm →
  (0 < capacity (events (lifecycle (task s))))%nat →
  ∃ l, finishing (adm_attempt adm) l ∧
    (adm_attempt adm ∈ completed (lifecycle (task (step s l))) ∨
     task_inv n (step s l) ∧ (work_left (task (step s l)) < work_left (task s))%nat).
Proof.
  intros Hinv Hc Hcap. pose proof (ti_owner n s Hinv) as Ho. rewrite Hc in Ho.
  destruct Ho as (_ & _ & _ & _ & Ho).
  destruct (decide (pending (task s) = None ∧ queued (events (lifecycle (task s))) = [])) as [[Hp Hq]|Hne].
  2:{ exists (ReceiveEvent 0). split; [by left|right]. split; [by apply receive_event_inv|].
      apply (receive_works n s adm Hinv Hc). destruct (pending (task s)); [by left|right].
      intros Hq. by apply Hne. }
  assert (starts (lifecycle (task s)) = [] ∧ ends (lifecycle (task s)) = []) as [Hst Hen]
    by (unfold starts, ends; by rewrite Hq).
  assert (concluding (pending (task s)) = None) as Hnc by by rewrite Hp.
  destruct Ho as [rv Hh Hr|_ Hs|a Hh _ Ha Hak _ [(Hw & _)|[(_ & Hno & _)|(_ & _ & Hno)]]]; try congruence.
  - exists (Release (adm_attempt adm)). split; [by right; left|left].
    cbn. rewrite Hh, lookup_singleton_eq. cbn. rewrite <- Hr. by apply (released_completed rv _ adm).
  - exists (Worker (adm_attempt adm) WEnded). split; [by right; right|right].
    split; [by apply worker_inv|by apply (ended_works n)].
Qed.
Lemma finish_attempt_steps n s adm :
  n < u64_max → task_inv n s → current (admissions (lifecycle (task s))) = Some adm →
  capacity (events (lifecycle (task s))) = 4%nat →
  ∃ ls, Forall (finishing (adm_attempt adm)) ls ∧
    adm_attempt adm ∈ completed (lifecycle (task (runs step s ls))).
Proof.
  intros Hn. remember (work_left (task s)) as w eqn:Hw. revert s adm Hw.
  induction (lt_wf w) as [w _ IH]. intros s adm -> Hinv Hc Hcap.
  destruct (finishing_step n s adm Hinv Hc ltac:(lia)) as (l & Hl & [Hdone|[Hinv1 Hless]]).
  { exists [l]. split; [by constructor|done]. }
  pose proof (step_advances n s l Hn Hinv) as Hev.
  destruct (current_or_completed n n s _ adm Hinv Hinv1 Hev Hc) as [Hdone|(adm1 & Hc1 & He & _)].
  { exists [l]. split; [by constructor|done]. }
  destruct (IH _ Hless (step s l) adm1) as (ls & Hls & Hdone); [done..| |].
  { by rewrite (ev_capacity _ _ Hev). }
  rewrite He in *. exists (l :: ls). split; [by constructor|done].
Qed.

(** C4: an admitted attempt is never stuck: from every reachable state its owner, its
    worker and the actor have steps after which the attempt is over and every drain of
    it is answered. *)
Theorem attempt_can_finish v ts r ls adm :
  busy_state v = false → N.of_nat (length ls) < u64_max →
  let s := runs step (system_new v ts r) ls in
  current (admissions (lifecycle (task s))) = Some adm →
  ∃ ls', Forall (finishing (adm_attempt adm)) ls' ∧
    wait_returns (adm_attempt adm) (lifecycle (task (runs step s ls'))) = true.
Proof.
  intros Hv Hl s Hc. pose proof (reachable_inv v ts r ls Hv ltac:(lia)) as Hinv. fold s in Hinv.
  destruct (finish_attempt_steps _ s adm Hl Hinv Hc) as (ls' & Hls & Hdone).
  - etransitivity;
      [apply (ev_capacity _ _ (runs_advance 0 _ ls (system_new_inv v ts r Hv) ltac:(lia)))|].
    unfold system_new, vpn_task_new. destruct (token_new ts). cbn. apply channel_empty.
  - exists ls'. split; [done|]. by apply bool_decide_eq_true_2.
Qed.

(** ** How an attempt ends *)
Lemma take_attempt_registry a (t : Task) :
  registry (take_attempt a t) = match aa_session_id a with
    | Some id => directory_clear_report id (registry t)
    | None => registry t
    end.
Proof. unfold take_attempt. destruct (aa_session_id a); by destruct (tb_monitor _). Qed.

(** The session whose attempt may be restarted, if the worker asked for it. *)
Definition restart_owner (a : ActiveAttempt (T:=T)) (cancelled : bool) (r : R) : option Uuid :=
  match aa_session_id a with
  | Some id =>
      if aa_reconnect_required a && negb cancelled && directory_has_session id r
      then Some id else None
  | None => None
  end.
(** What the end of a worker leaves to do: a restart is offered if the worker asked for
    one, nobody cancelled the attempt and its session still exists. *)
Lemma end_attempt_decides a (t : Task) :
  active t = Some a →
  let t' := end_attempt (aa_attempt a) t in
  pending t' =
    Some (Conclude (aa_attempt a) (restart_owner a (aa_cancelled a t) (registry t'))) ∧
  vpn_state t' = vpn_state t.
Proof.
  intros Ha. unfold end_attempt. rewrite (proj2 (active_is_Some _ t a)) by done.
  cbn zeta. split; [|apply take_attempt_state]. cbn.
  assert (aa_cancelled a (take_attempt a t) = aa_cancelled a t) as ->.
  { destruct (take_attempt_spec a t) as (_ & _ & _ & _ & _ & w & Hl).
    unfold aa_cancelled. by rewrite Hl. }
  unfold restart_owner. destruct (aa_session_id a) as [id|]; [|by destruct (_ && _)].
  by destruct (aa_reconnect_required a), (aa_cancelled a t), (directory_has_session id _).
Qed.

(** The state an attempt leaves behind: the restart offer to its session, unless a stop
    came before the lock was taken; else its failure; else [Disconnected]. An offer
    ends the attempt at once, the others when the lock is taken for the release. *)
Lemma conclude_outcome v ts r ls a k offer now :
  busy_state v = false → N.of_nat (length ls) ≤ u64_max →
  let s := runs step (system_new v ts r) ls in
  pending (task s) = Some (Conclude k offer) → active (task s) = Some a →
  let t' := receive_event format_duration_secs now (task s) in
  let cancelled := aa_cancelled a (task s) in
  vpn_state t' =
    match offer, aa_failure a with
    | Some id, _ => if cancelled then VpnState.Disconnected else
        VpnState.ReconnectRequired {| rr_attempt := k; rr_owner := id; rr_info := aa_info a |}
    | None, Some reason => VpnState.Failed reason
    | None, None => VpnState.Disconnected
    end ∧
  match offer with
  | Some id => wait_returns k (lifecycle t') = true ∧
      (cancelled = false → restart (admissions (lifecycle t')) = Some (k, id))
  | None => pending t' = Some (ReleaseAttempt k)
  end.
Proof.
  intros Hv Hl s Hp Ha. pose proof (reachable_inv v ts r ls Hv Hl) as Hinv. fold s in Hinv.
  clearbody s. pose proof (ti_watch _ s Hinv) as Hw. pose proof (ti_owner _ s Hinv) as Ho.
  destruct (concluding_owner _ s k Hinv ltac:(by rewrite Hp)) as (adm & b & Hc & Hadm & Hb & Hk & Ht).
  rewrite Ha in Hb. injection Hb as <-. rewrite Hc in Ho. destruct Ho as (_ & _ & Hstop & _).
  unfold receive_event. rewrite Hp. cbn [resume]. unfold conclude. cbn [active set_pending]. rewrite Ha.
  assert (∀ x (t : Task), lifecycle t = lifecycle (task s) → vpn_state (send_state x t) = x) as Hsend
    by (intros x t Hlt; apply vpn_state_send; by rewrite Hlt).
  destruct offer as [id|].
  - unfold offer_restart, aa_cancelled. cbn [lifecycle set_pending]. rewrite Hc, Ht.
    assert (∀ ks : gset N, k ∈ {[adm_attempt adm]} ∪ ks) as Hdone by (intros ks; set_solver).
    destruct (token_cancelled (adm_cancellation adm) (tokens (lifecycle (task s)))) eqn:Hcan; cbn [negb andb].
    + split; [by apply (Hsend VpnState.Disconnected (set_pending None (task s)))|].
      split; [by apply bool_decide_eq_true_2, Hdone|done].
    + assert (adm_stop_requested adm = false) as -> by (destruct (adm_stop_requested adm); [symmetry; auto|done]).
      cbn [negb]. rewrite <- Hk. split; [by eapply (Hsend _ (set_pending None (task s)))|].
      rewrite Hk. split; [by apply bool_decide_eq_true_2, Hdone|done].
  - destruct (aa_failure a) as [reason|]; (split; [|done]); by apply Hsend.
Qed.

(** The release changes nothing but that the attempt is over. *)
Lemma release_outcome v ts r ls k now :
  busy_state v = false → N.of_nat (length ls) ≤ u64_max →
  let s := runs step (system_new v ts r) ls in
  pending (task s) = Some (ReleaseAttempt k) →
  let t' := receive_event format_duration_secs now (task s) in
  vpn_state t' = vpn_state (task s) ∧ wait_returns k (lifecycle t') = true.
Proof.
  intros Hv Hl s Hp. pose proof (reachable_inv v ts r ls Hv Hl) as Hinv. fold s in Hinv.
  clearbody s.
  destruct (concluding_owner _ s k Hinv ltac:(by rewrite Hp)) as (adm & _ & Hc & Hadm & _).
  unfold receive_event. rewrite Hp. cbn [resume]. unfold release_attempt, on_lifecycle, vpn_state, wait_returns.
  cbn [lifecycle set_pending]. rewrite (clear_attempt_current _ _ adm) by done.
  split; [done|]. apply bool_decide_eq_true_2. cbn. set_solver.
Qed.
End task_theorems.


(** * Witnesses *)
Module TaskExample.
Import Concrete.
(** One session, and a registry that only remembers whether its report was cleared. *)
#[export] Instance directory : SessionDirectory bool := {|
  directory_instance _ := 7;
  directory_has_session id _ := id =? 42;
  directory_clear_report _ _ := true;
|}.
Definition request : ConnectRequest :=
  connect_request_new (connect_info_new "portal" (gateway PlanExample.member) []) PlanExample.plan.
Definition connection : PreparedConnection (Resources:=()) :=
  {| prepared_request := request; prepared_resources := () |}.
Definition initial : System (TS:=tokens) (T:=N) (Q:=queue) (W:=cell) (Resources:=())
  (Monitor:=()) (R:=bool) := system_new VpnState.Disconnected (∅, ∅) false.
Abbreviation step := (system_step (TS:=tokens) (T:=N) (Q:=queue) (W:=cell) (Resources:=())
  (Monitor:=()) (R:=bool) (λ _, "")).
Abbreviation labels := (list (label (T:=N) (Resources:=()) (Monitor:=()) (R:=bool))).
Definition connecting : labels :=
  [Reserve None; Commit 0 connection None None (Some 42); ReceiveEvent 0; ReceiveEvent 0].
Definition lost : labels :=
  connecting ++ [Worker 0 WReconnectRequired; ReceiveEvent 0; Worker 0 WEnded; ReceiveEvent 0;
                 ReceiveEvent 0].
Definition stopping : labels := connecting ++ [DisconnectAndWait].
(** The stop comes between the activation and the announcement. *)
Definition racing : labels := firstn 3 connecting ++ [DisconnectAndWait].
Definition established : labels :=
  [Worker 0 (WEstablished {| vsi_lifetime_secs := None; vsi_user_expires := None;
                             vsi_lifetime_warning := None; vsi_nlb_enabled := false;
                             vsi_nlb_connected_gw_ip := None |}); ReceiveEvent 9; ReceiveEvent 9].

Example connecting_state :
  vpn_state (task (runs step initial connecting)) = VpnState.Connecting (request_info request).
Proof. by vm_compute. Qed.
Example lost_state :
  vpn_state (task (runs step initial lost)) = VpnState.ReconnectRequired
    {| rr_attempt := 0; rr_owner := 42; rr_info := request_info request |}.
Proof. by vm_compute. Qed.
Example stopping_state :
  vpn_state (task (runs step initial (stopping ++ established))) = VpnState.Disconnecting.
Proof. by vm_compute. Qed.

Lemma attempt_ownership_witness :
  adm_attempt <$> current (admissions (lifecycle (task (runs step initial connecting)))) = Some 0.
Proof.
  apply (attempt_ownership (λ _, "") VpnState.Disconnected (∅, ∅) false connecting);
    [done|by vm_compute|]. left. apply (bool_decide_unpack _). by vm_compute.
Defined.

Lemma drain_completion_witness :
  wait_returns 0 (lifecycle (task (runs step (runs step initial lost) [Reserve None]))) = true ∧
  wait_returns 1 (lifecycle (task (runs step (runs step initial lost) [Reserve None]))) = false.
Proof.
  split; [|by vm_compute].
  apply (drain_completion (λ _, "") VpnState.Disconnected (∅, ∅) false lost [Reserve None]);
    by vm_compute.
Defined.

Lemma restart_redeemed_once_witness :
  is_ok (reserve_connect (Some (0, 42)) (lifecycle (task (runs step initial lost)))).1 = true ∧
  is_ok (reserve_connect (Some (0, 42)) (lifecycle (task
    (runs step (runs step initial lost) [Reserve (Some (0, 42)); Release 1])))).1 = false.
Proof.
  split; [by vm_compute|].
  apply (restart_redeemed_once (λ _, "") VpnState.Disconnected (∅, ∅) false lost [Release 1]);
    by vm_compute.
Defined.

Lemma stopped_attempt_stays_stopped_witness :
  is_Some (current (admissions (lifecycle (task (runs step initial stopping))))) ∧
  pending (task (runs step (runs step initial stopping) established)) = None ∧
  (kept_or_disconnecting (VpnState.Connecting (request_info request))
     (vpn_state (task (runs step (runs step initial stopping) established))) ∨
   is_Some (pending (task (runs step initial stopping)))).
Proof.
  destruct (current (admissions (lifecycle (task (runs step initial stopping))))) as [adm|] eqn:Hc;
    [|exfalso; by vm_compute in Hc]. split; [done|].
  destruct (stopped_attempt_stays_stopped (λ _, "") VpnState.Disconnected (∅, ∅) false stopping
    established adm ltac:(done) ltac:(by vm_compute) Hc ltac:(vm_compute in Hc; by injection Hc as <-))
    as [Hd|(adm' & _ & _ & _ & Hp & Hk)].
  - exfalso. vm_compute in Hc. injection Hc as <-. by vm_compute in Hd.
  - assert (vpn_state (task (runs step initial stopping)) = VpnState.Connecting (request_info request))
      as <- by by vm_compute.
    split; [destruct Hp as [Hp|[Hp|Hp]]; [exact Hp..|by vm_compute in Hp]|].
    destruct Hk as [Hk|[(a & _ & Hp' & _)|[Hp' _]]]; [by left|right; by eexists|by vm_compute in Hp'].
Defined.
(** The race: the state becomes [Connecting] after the stop, and [Disconnecting] next. *)
Example racing_states :
  let s := runs step initial racing in
  vpn_state (task s) = VpnState.Disconnected ∧
  pending (task s) = Some (Announce (VpnState.Connecting (request_info request))) ∧
  vpn_state (task (runs step s [ReceiveEvent 0])) = VpnState.Connecting (request_info request) ∧
  vpn_state (task (runs step s [ReceiveEvent 0; ReceiveEvent 0])) = VpnState.Disconnecting.
Proof. by vm_compute. Qed.

(** A stop between the two parts of the end takes the restart back. *)
Example late_stop_states :
  let s := runs step initial (firstn 8 lost) in
  pending (task s) = Some (Conclude 0 (Some 42)) ∧
  vpn_state (task (runs step s [DisconnectAndWait; ReceiveEvent 0])) = VpnState.Disconnected ∧
  restart (admissions (lifecycle (task (runs step s [DisconnectAndWait; ReceiveEvent 0])))) = None.
Proof. by vm_compute. Qed.
Lemma conclude_outcome_witness :
  vpn_state (receive_event (λ _, "") 0 (task (runs step initial (firstn 8 lost)))) =
    VpnState.ReconnectRequired
      {| rr_attempt := 0; rr_owner := 42; rr_info := request_info request |}.
Proof.
  destruct (active (task (runs step initial (firstn 8 lost)))) as [a|] eqn:Ha;
    [|exfalso; by vm_compute in Ha].
  destruct (conclude_outcome (λ _, "") VpnState.Disconnected (∅, ∅) false (firstn 8 lost) a 0 (Some 42) 0
    ltac:(done) ltac:(by vm_compute) ltac:(by vm_compute) Ha) as (Hs & _).
  vm_compute in Ha. injection Ha as <-. exact Hs.
Defined.

Lemma attempt_can_finish_witness :
  ∃ ls, wait_returns 0 (lifecycle (task (runs step (runs step initial connecting) ls))) = true.
Proof.
  destruct (current (admissions (lifecycle (task (runs step initial connecting))))) as [adm|] eqn:Hc;
    [|exfalso; by vm_compute in Hc].
  destruct (attempt_can_finish (λ _, "") VpnState.Disconnected (∅, ∅) false connecting adm
    ltac:(done) ltac:(by vm_compute) Hc) as (ls & _ & Hw).
  exists ls. vm_compute in Hc. injection Hc as <-. exact Hw.
Defined.
End TaskExample.
