(* ===== verification/ScriptTunWorker.v ===== *)
(** The supervisor of a script-tun consumer
    (apps/gpservice/src/vpn_task/script_tun.rs, [supervise]).

    The supervisor waits for its cancellation, a deadline, messages of the consumer and
    observations of the native tunnel, in this order when several are ready; [TurnE] is
    that wait and answers the branch that was taken. A write to the consumer and an event
    to the task answer whether they succeeded. The spawned reader only forwards messages.

    [Protocol] is what a consumer may expect of the control socket, whatever the tunnel
    does; the supervisor is shown to follow it. *)
From S2P Require Import Prelude Utf8 Text GpHttp Interaction Session Portal Service.
From S2P Require Import Csc TunnelMonitor Lifecycle.
From ITree Require Import ITree.
From Stdlib Require Import Strings.Ascii.
Import Control.

#[local] Open Scope N_scope.

#[export] Instance NegotiatedNetwork_eq_dec : EqDecision NegotiatedNetwork.
Proof. solve_decision. Defined.

#[export] Instance SessionWarning_eq_dec : EqDecision SessionWarning.
Proof. solve_decision. Defined.
#[export] Instance VpnSessionInfo_eq_dec : EqDecision VpnSessionInfo.
Proof. solve_decision. Defined.

Inductive Native := NativeEvent (e : Native.Event) | NativeEstablished (s : VpnSessionInfo).
Inductive WorkerState := Preparing | WorkerReady | Activating | Active | Suspending.
#[export] Instance WorkerState_eq_dec : EqDecision WorkerState.
Proof. solve_decision. Defined.

Inductive Turn :=
  | TurnCancelled
  | TurnDeadline
  | FromScript (m : option (result Failure Message))
  | FromNative (e : option Native).
Inductive Published := PubEstablished (s : VpnSessionInfo) | PubSuspended.
Inductive SuperviseE : Type → Type :=
  (** The [select!]; a deadline that is not set never passes. *)
  | TurnE (deadline : option N) : SuperviseE Turn
  | NowE : SuperviseE N
  | StoppedE : SuperviseE bool
  | PublishE (e : Published) : SuperviseE bool
  | WriteE (m : Message) : SuperviseE bool.

(** [NetworkChanged] is the error the caller recognises by its type. *)
Inductive SuperviseEnd := Stopped | NetworkChanged.
Record Supervisor := {
  sv_network : option NegotiatedNetwork;
  sv_session : option VpnSessionInfo;
  sv_worker : WorkerState;
  online : bool;
  was_connected : bool;
  sv_deadline : option N;
  sv_bootstrap : Bootstrap;
}.
Definition set_worker (w : WorkerState) (d : option N) (s : Supervisor) : Supervisor := {|
  sv_network := sv_network s; sv_session := sv_session s; sv_worker := w; online := online s;
  was_connected := was_connected s; sv_deadline := d; sv_bootstrap := sv_bootstrap s |}.
Definition set_online (b : bool) (s : Supervisor) : Supervisor := {|
  sv_network := sv_network s; sv_session := sv_session s; sv_worker := sv_worker s; online := b;
  was_connected := was_connected s; sv_deadline := sv_deadline s; sv_bootstrap := sv_bootstrap s |}.
Definition set_connected (s : Supervisor) : Supervisor := {|
  sv_network := sv_network s; sv_session := sv_session s; sv_worker := Active; online := online s;
  was_connected := true; sv_deadline := None; sv_bootstrap := sv_bootstrap s |}.
Definition set_session (i : VpnSessionInfo) (d : option N) (s : Supervisor) : Supervisor := {|
  sv_network := sv_network s; sv_session := Some i; sv_worker := sv_worker s; online := true;
  was_connected := was_connected s; sv_deadline := d; sv_bootstrap := sv_bootstrap s |}.
Definition set_network (n : NegotiatedNetwork) (d : option N) (s : Supervisor) : Supervisor := {|
  sv_network := Some n; sv_session := sv_session s; sv_worker := sv_worker s; online := online s;
  was_connected := was_connected s; sv_deadline := d; sv_bootstrap := bootstrap_default |}.

(** * Observed networks *)
Fixpoint parse_all (l : list string) : result Failure (list IpAddr) :=
  match l with
  | [] => Ok []
  | a :: l =>
      ip ← ok_or (GpHttp.Message "invalid IP address syntax") (IpText.parse a);
      ips ← parse_all l; Ok (ip :: ips)
  end.
Definition before_slash (a : string) : string := hd "" (split "/"%char a).
Definition observed_network (c : Native.Configuration) : result Failure NegotiatedNetwork :=
  _ ← ensure (negb (Native.truncated_configuration c) && negb (Native.truncated (Native.dns c)) &&
              negb (Native.truncated (Native.search_domains c)))
        (GpHttp.Message "VPN configuration is truncated");
  ips ← parse_all (before_slash <$>
    option_list (Native.ipv4 c) ++ option_list (or_else (Native.ipv6 c) (Native.netmask6 c)));
  dns ← parse_all (Native.items (Native.dns c));
  mtu ← ok_or (GpHttp.Message "VPN MTU is absent") (Native.mtu c);
  Ok {| net_addresses := ips; net_dns := dns; net_search := Native.items (Native.search_domains c);
        net_mtu := mtu |}.

(** * The supervisor *)
Notation Flow := (flow SuperviseE).
#[local] Open Scope flow_scope.

Definition bail {A} (m : string) : Flow A := throw (GpHttp.Message m).
Definition in_ten_seconds : Flow (option N) :=
  let* now := ask NowE in ok (Some (now + 10)).
Definition write (m : Message) : Flow () :=
  let* done := ask (WriteE m) in
  if (done : bool) then ok () else bail "Script-tun control write timed out".
Definition publish (e : Published) : Flow () :=
  let* done := ask (PublishE e) in
  if (done : bool) then ok () else bail "channel closed".
Definition unexpected {A} : Flow A := bail "Unexpected script-tun consumer message".

Definition on_message (m : Message) (s : Supervisor) : Flow Supervisor :=
  match m with
  | Ready =>
      if bool_decide (sv_worker s = Preparing) && bool_decide (is_Some (sv_network s))
      then ok (set_worker WorkerReady (sv_deadline s) s) else unexpected
  | Activated =>
      if bool_decide (sv_worker s = Activating) then
        if negb (online s) then bail "Script-tun activation completed while VPN was offline"
        else
          let* stopped := ask StoppedE in
          if (stopped : bool) then bail "Script-tun startup cancelled"
          else match sv_session s with
          | None => bail "Native session is missing"
          | Some info => let* _ := publish (PubEstablished info) in ok (set_connected s)
          end
      else unexpected
  | Suspended =>
      if bool_decide (sv_worker s = Suspending) then ok (set_worker WorkerReady None s) else unexpected
  | Error m => bail (("Script-tun worker: " +:+ m))
  | _ => unexpected
  end.
(** [None] is [NetworkChanged]. *)
Definition on_configuration (identity : Identity) (c : option Native.Configuration) (s : Supervisor) :
    Flow (option Supervisor) :=
  let observed := c' ← ok_or (GpHttp.Message "VPN configuration is absent") c; observed_network c' in
  let changed := match observed with
                 | Err _ => true
                 | Ok new => match sv_network s with Some old => negb (bool_decide (old = new)) | None => false end
                 end in
  if was_connected s && changed then ok None
  else
    let* observed := pure observed in
    match sv_network s with
    | Some old =>
        if bool_decide (old = observed) then ok (Some s)
        else bail "VPN configuration changed during startup"
    | None =>
        let* _ := write (Configure identity observed (sv_bootstrap s)) in
        let* d := in_ten_seconds in
        ok (Some (set_network observed d s))
    end.
Definition on_native (identity : Identity) (e : Native) (s : Supervisor) : Flow (option Supervisor) :=
  match e with
  | NativeEstablished info =>
      let* d := in_ten_seconds in ok (Some (set_session info (or_else (sv_deadline s) d) s))
  | NativeEvent (Native.EvConfiguration c) => on_configuration identity c s
  | NativeEvent Native.EvReconnecting =>
      if bool_decide (sv_worker s = Activating)
      then bail "VPN connection interrupted during script-tun activation; reconnect the VPN"
      else
        let s := set_online false s in
        let* _ := publish PubSuspended in
        if bool_decide (sv_worker s = WorkerReady) || bool_decide (sv_worker s = Active) then
          let* _ := write Suspend in
          let* d := in_ten_seconds in
          ok (Some (set_worker Suspending d s))
        else ok (Some s)
  | NativeEvent Native.EvReconnected => ok (Some (set_online true s))
  | NativeEvent _ => ok (Some s)
  end.
(** What follows the [select!]. *)
Definition activate (s : Supervisor) : Flow (Supervisor + SuperviseEnd) :=
  if online s && bool_decide (is_Some (sv_session s)) && bool_decide (sv_worker s = WorkerReady) then
    let* stopped := ask StoppedE in
    if (stopped : bool) then ok (inl s)
    else
      let* _ := write Activate in
      let* d := in_ten_seconds in
      ok (inl (set_worker Activating d s))
  else ok (inl s).
Definition turn (identity : Identity) (s : Supervisor) : Flow (Supervisor + SuperviseEnd) :=
  let* t := ask (TurnE (sv_deadline s)) in
  match t with
  | TurnCancelled => ok (inr Stopped)
  | TurnDeadline =>
      match sv_deadline s with
      | Some _ => bail "Script-tun worker activation timed out"
      | None => ok (inl s)
      end
  | FromScript None => bail "Script-tun control reader stopped"
  | FromScript (Some m) =>
      let* m := pure m in
      let* s := on_message m s in activate s
  | FromNative None => bail "Native event stream ended"
  | FromNative (Some e) =>
      let* s := on_native identity e s in
      match s with Some s => activate s | None => ok (inr NetworkChanged) end
  end.
Definition supervisor_new (b : Bootstrap) : Supervisor := {|
  sv_network := None; sv_session := None; sv_worker := Preparing; online := false;
  was_connected := false; sv_deadline := None; sv_bootstrap := b |}.
Definition supervise (identity : Identity) (b : Bootstrap) : Flow SuperviseEnd :=
  either (repeating (turn identity) (supervisor_new b)) (λ r,
    let* _ := ask (WriteE Stop) in pure r).

(** * What the consumer may expect *)
Inductive Consumer := Idle | Configured | Prepared | Starting | Live | Pausing | Ending.
#[export] Instance Consumer_eq_dec : EqDecision Consumer.
Proof. solve_decision. Defined.
(** The messages the supervisor may send; [None]: a message the consumer does not expect. *)
Definition hears (m : Message) (c : Consumer) : option Consumer :=
  match m, c with
  | Stop, _ => Some Ending
  | Configure _ _ _, Idle => Some Configured
  | Activate, Prepared => Some Starting
  | Suspend, (Prepared | Live) => Some Pausing
  | _, _ => None
  end.
(** What the consumer says; anything else ends the session. *)
Definition says (m : result Failure Message) (c : Consumer) : Consumer :=
  match m, c with
  | Ok Ready, Configured => Prepared
  | Ok Activated, Starting => Live
  | Ok Suspended, Pausing => Prepared
  | _, _ => Ending
  end.
(** The consumer owes an answer. *)
Definition owes (c : Consumer) : bool :=
  match c with Configured | Starting | Pausing => true | _ => false end.
Record Protocol := { consumer : Consumer; tunnel_up : bool; reported : option VpnSessionInfo }.
Definition set_consumer (c : Consumer) (p : Protocol) : Protocol :=
  {| consumer := c; tunnel_up := tunnel_up p; reported := reported p |}.
Definition observes (e : Native) (p : Protocol) : Protocol :=
  match e with
  | NativeEstablished i => {| consumer := consumer p; tunnel_up := true; reported := Some i |}
  | NativeEvent Native.EvReconnecting =>
      {| consumer := consumer p; tunnel_up := false; reported := reported p |}
  | NativeEvent Native.EvReconnected =>
      {| consumer := consumer p; tunnel_up := true; reported := reported p |}
  | NativeEvent _ => p
  end.
Definition takes_turn (t : Turn) (p : Protocol) : Protocol :=
  match t with
  | TurnCancelled => set_consumer Ending p
  | TurnDeadline => p
  | FromScript m => set_consumer (says (default (Err (GpHttp.Message "")) m) (consumer p)) p
  | FromNative e => default p ((λ e, observes e p) <$> e)
  end.
Definition may_publish (e : Published) (p : Protocol) : bool :=
  match e with
  | PubEstablished i =>
      bool_decide (consumer p = Live) && tunnel_up p && bool_decide (reported p = Some i)
  | PubSuspended => negb (tunnel_up p)
  end.
(** [None]: the supervisor broke the protocol. It may wait without a deadline only while
    the consumer owes nothing, send what the consumer expects, and announce a connection
    only when the consumer is live on a tunnel that is up, with the session the tunnel
    reported last. *)
Definition protocol_step (p : Protocol) (e : event SuperviseE) : option Protocol :=
  match e with
  | @Ev _ X q x =>
      match q in SuperviseE Y return Y → option Protocol with
      | TurnE d => λ t, if bool_decide (d = None) && owes (consumer p) then None else Some (takes_turn t p)
      | NowE => λ _, Some p
      | StoppedE => λ _, Some p
      | PublishE e => λ _, if may_publish e p then Some p else None
      | WriteE m => λ ok, c ← hears m (consumer p); Some (set_consumer (if ok then c else Ending) p)
      end x
  end.
Definition protocol (h : trace SuperviseE) : option Protocol :=
  foldl (λ p e, p ≫= λ p, protocol_step p e)
    (Some {| consumer := Idle; tunnel_up := false; reported := None |}) h.

Definition consumer_of (s : Supervisor) : Consumer :=
  match sv_worker s with
  | Preparing => match sv_network s with None => Idle | Some _ => Configured end
  | WorkerReady => Prepared
  | Activating => Starting
  | Active => Live
  | Suspending => Pausing
  end.
(** The supervisor's own state agrees with the protocol's. *)
Record agrees (s : Supervisor) (p : Protocol) : Prop := {
  ag_consumer : consumer p = consumer_of s;
  ag_up : tunnel_up p = online s;
  ag_session : reported p = sv_session s;
  ag_deadline : owes (consumer p) = true → sv_deadline s ≠ None;
  ag_network : sv_network s = None → sv_worker s = Preparing;
}.
Definition begins : Protocol := {| consumer := Idle; tunnel_up := false; reported := None |}.
Definition allowed (p : Protocol) (e : event SuperviseE) (p' : Protocol) : Prop :=
  protocol_step p e = Some p'.
(** A failure may leave the protocol anywhere; a success satisfies [Φ]. *)
Definition succeeds {A} (Φ : Protocol → A → Prop) (p : Protocol) (r : result Failure A) : Prop :=
  ∀ a, r = Ok a → Φ p a.
Notation speaks p m Φ := (spec allowed begins p m (succeeds Φ)).
Lemma speaks_ok {A} p (a : A) Φ : Φ p a → speaks p (ok a) Φ.
Proof. intros Ha. apply spec_ok. by intros b [= <-]. Qed.
Lemma speaks_bail {A} p m (Φ : Protocol → A → Prop) : speaks p (bail m) Φ.
Proof. apply spec_throw. by intros a [=]. Qed.
Lemma speaks_bind {A B} p (m : Flow A) (k : A → Flow B) Φ Ψ :
  speaks p m Φ → (∀ p' a, Φ p' a → speaks p' (k a) Ψ) → speaks p (and_then m k) Ψ.
Proof.
  intros Hm Hk. eapply spec_bind; [exact Hm|..]; cbn.
  - intros p' a Ha. by apply Hk, Ha.
  - by intros p' e _ a [=].
Qed.
Lemma speaks_unexpected {A} p (Φ : Protocol → A → Prop) : speaks p unexpected Φ.
Proof. apply speaks_bail. Qed.
#[local] Hint Resolve speaks_bail speaks_unexpected : core.
Lemma speaks_pure {A B} p (r : result Failure A) (k : A → Flow B) Ψ :
  (∀ a, r = Ok a → speaks p (k a) Ψ) → speaks p (and_then (pure r) k) Ψ.
Proof.
  intros Hk. eapply (spec_bind _ _ _ _ _ (λ p' r', p' = p ∧ r' = r)); [by apply spec_pure| |].
  - intros p' a [-> <-]. by apply Hk.
  - by intros p' e _ a [=].
Qed.
(** A write the consumer expects, and an event that may be published. *)
Lemma write_spec m p c : hears m (consumer p) = Some c →
  speaks p (write m) (λ p' _, p' = set_consumer c p).
Proof.
  intros Hc. apply spec_ask. intros b. exists (set_consumer (if b then c else Ending) p).
  split; [unfold allowed; cbn; by rewrite Hc|]. destruct b; [by apply speaks_ok|auto].
Qed.
Lemma publish_spec e p : may_publish e p = true → speaks p (publish e) (λ p' _, p' = p).
Proof.
  intros Hc. apply spec_ask. intros b. exists p. split; [unfold allowed; cbn; by rewrite Hc|].
  destruct b; [by apply speaks_ok|auto].
Qed.
Lemma in_ten_seconds_spec p : speaks p in_ten_seconds (λ p' d, p' = p ∧ d ≠ None).
Proof. apply spec_ask. intros now. exists p. split; [done|]. by apply speaks_ok. Qed.

Lemma on_message_spec m s p : agrees s p →
  speaks (set_consumer (says (Ok m) (consumer p)) p) (on_message m s) (λ p' s', agrees s' p').
Proof.
  intros [Hc Hu Hr Hd Hn]. unfold consumer_of in Hc. unfold on_message. destruct m; auto.
  - case_bool_decide as Hw; [|by auto]. case_bool_decide as Hnet; [|by auto]. apply speaks_ok.
    destruct Hnet as [n Hnet]. rewrite Hw, Hnet in Hc. rewrite Hc. split; cbn; try done. congruence.
  - case_bool_decide as Hw; [|by auto]. rewrite Hw in Hc. rewrite Hc.
    destruct (online s) eqn:Eo; cbn [negb]; [|by auto].
    apply spec_ask. intros stopped. eexists. split; [done|]. destruct stopped; [by auto|].
    destruct (sv_session s) as [i|] eqn:Es; [|by auto]. eapply speaks_bind; [apply publish_spec|].
    { cbn. rewrite Hu, Hr. by rewrite !bool_decide_true. }
    intros p' [] ->. apply speaks_ok. split; cbn; try congruence. intros Hx. specialize (Hn Hx). congruence.
  - case_bool_decide as Hw; [|by auto]. rewrite Hw in Hc. rewrite Hc. apply speaks_ok.
    split; cbn; try done. intros Hx. specialize (Hn Hx). congruence.
Qed.

Definition agrees_if (p : Protocol) (o : option Supervisor) : Prop :=
  match o with Some s => agrees s p | None => True end.
Lemma on_configuration_spec identity c s p : agrees s p →
  speaks p (on_configuration identity c s) agrees_if.
Proof.
  intros Ha. pose proof Ha as [Hc Hu Hr Hd Hn]. unfold on_configuration.
  destruct (was_connected s && _); [by apply speaks_ok|]. apply speaks_pure. intros new _.
  destruct (sv_network s) as [old|] eqn:En.
  - case_bool_decide; [|by auto]. by apply speaks_ok.
  - specialize (Hn eq_refl). unfold consumer_of in Hc. rewrite Hn, En in Hc.
    eapply speaks_bind; [apply write_spec; by rewrite Hc|]. intros p' [] ->.
    eapply speaks_bind; [apply in_ten_seconds_spec|]. intros p' d [-> Hd'].
    apply speaks_ok. split; cbn; try done. unfold consumer_of. cbn. by rewrite Hn.
Qed.
Lemma on_native_spec identity e s p : agrees s p →
  speaks (observes e p) (on_native identity e s) agrees_if.
Proof.
  intros Ha. pose proof Ha as [Hc Hu Hr Hd Hn].
  destruct e as [[c| | | |t|st|]|i]; cbn [on_native observes] in *; try (by apply speaks_ok).
  - by apply on_configuration_spec.
  - case_bool_decide as Hw; [by auto|].
    eapply speaks_bind; [by apply publish_spec|]. intros p' [] ->. cbn [sv_worker set_online].
    destruct (bool_decide (sv_worker s = WorkerReady) || bool_decide (sv_worker s = Active)) eqn:Hb;
      [|apply speaks_ok; by split].
    eapply speaks_bind; [apply (write_spec Suspend)|].
    { cbn. rewrite Hc. unfold consumer_of. apply orb_true_iff in Hb as [Hb|Hb];
        apply bool_decide_eq_true in Hb as ->; done. }
    intros p' [] ->. eapply speaks_bind; [apply in_ten_seconds_spec|]. intros p' d [-> Hd2].
    apply speaks_ok. split; cbn; try done. intros Hx. rewrite (Hn Hx) in Hb. done.
  - eapply speaks_bind; [apply in_ten_seconds_spec|]. intros p' d [-> Hd'].
    apply speaks_ok. split; cbn; try done. intros _. by destruct (sv_deadline s).
Qed.
Definition after_turn (p : Protocol) (x : Supervisor + SuperviseEnd) : Prop :=
  match x with inl s => agrees s p | inr _ => True end.
Lemma activate_spec s p : agrees s p → speaks p (activate s) after_turn.
Proof.
  intros Ha. pose proof Ha as [Hc Hu Hr Hd Hn]. unfold activate.
  destruct (online s && _ && _) eqn:Hb; [|by apply speaks_ok].
  apply andb_true_iff in Hb as [_ Hw]. apply bool_decide_eq_true in Hw.
  apply spec_ask. intros stopped. exists p. split; [done|]. destruct stopped; [by apply speaks_ok|].
  eapply speaks_bind; [apply (write_spec Activate)|].
  { rewrite Hc. unfold consumer_of. by rewrite Hw. }
  intros p' [] ->. eapply speaks_bind; [apply in_ten_seconds_spec|]. intros p' d [-> Hd'].
  apply speaks_ok. split; cbn; try done. intros Hx. rewrite (Hn Hx) in Hw. done.
Qed.
Lemma turn_spec identity s p : agrees s p → speaks p (turn identity s) after_turn.
Proof.
  intros Ha. pose proof Ha as [Hc Hu Hr Hd Hn]. unfold turn.
  apply spec_ask. intros t. exists (takes_turn t p). split.
  { unfold allowed. cbn. destruct (owes (consumer p)); [|by rewrite andb_false_r].
    by rewrite bool_decide_false by auto. }
  destruct t as [| |[m|]|[e|]]; cbn [takes_turn default from_option]; auto.
  - by apply speaks_ok.
  - destruct (sv_deadline s); [by auto|]. by apply speaks_ok.
  - apply speaks_pure. intros m' ->. eapply speaks_bind; [by apply on_message_spec|].
    intros p' s' Hs'. by apply activate_spec.
  - eapply speaks_bind; [by apply on_native_spec|].
    intros p' [s'|] Hs'; [by apply activate_spec|by apply speaks_ok].
Qed.
Lemma supervise_spec identity b : spec allowed begins begins (supervise identity b) (λ _ _, True).
Proof.
  eapply (spec_either _ _ _ _ _ (λ _ _, True)).
  - eapply (spec_repeating _ _ _ _ (λ p s, agrees s p)); [|by split].
    intros p s Hs. eapply spec_mono, turn_spec, Hs. intros p' [[s'|e]|e] Hr; [|done..].
    by apply (Hr (inl s')).
  - intros p r _. apply spec_ask. intros b'. eexists. split; [done|]. by apply spec_pure.
Qed.
Lemma tracks_protocol h p : tracks allowed begins h p → protocol h = Some p.
Proof.
  induction 1 as [|h e p p' _ IH Hs]; [done|]. unfold protocol in *. rewrite foldl_app, IH. exact Hs.
Qed.

(** C27: whatever the tunnel, the network and the consumer do, the supervisor of a
    script-tun consumer keeps to the control protocol: it sends only messages the consumer
    expects (Configure first, Activate after Ready, Suspend only to a prepared or live
    consumer, nothing but Stop once the session ends), it never waits without a deadline
    for an answer the consumer owes, and it announces a connection only when the consumer
    confirmed its activation, the tunnel is up, and with the session the tunnel reported. *)
Theorem script_tun_follows_protocol identity b h t :
  plays (supervise identity b) h t → is_Some (protocol h).
Proof.
  intros Hp. destruct (spec_runs _ _ _ _ _ _ (supervise_spec identity b) Hp) as [p Hh].
  exists p. by apply tracks_protocol.
Qed.

(** * A run *)
Module ScriptTunExample.
Definition list_of (l : list string) : Native.NativeList :=
  {| Native.items := l; Native.total_count := N.of_nat (length l); Native.truncated := false |}.
Definition configuration : Native.Configuration := {|
  Native.interface := None; Native.ipv4 := Some "10.0.0.5/24"; Native.netmask := None; Native.ipv6 := None;
  Native.netmask6 := None; Native.server_ip := None; Native.dns := list_of ["10.0.0.1"];
  Native.search_domains := list_of ["corp.example"]; Native.split_dns := list_of [];
  Native.included_routes := list_of []; Native.excluded_routes := list_of [];
  Native.mtu := Some 1400; Native.truncated_configuration := false |}.
Definition session : VpnSessionInfo := {|
  vsi_lifetime_secs := Some 3600; vsi_user_expires := None; vsi_lifetime_warning := None;
  vsi_nlb_enabled := false; vsi_nlb_connected_gw_ip := None |}.
(** The consumer is configured and activated, suspended while the tunnel reconnects,
    activated again, and stopped. *)
Definition turn_at (n : nat) : Turn :=
  match n with
  | 0 => FromNative (Some (NativeEvent (Native.EvConfiguration (Some configuration))))
  | 3 => FromScript (Some (Ok Ready))
  | 4 => FromNative (Some (NativeEstablished session))
  | 9 | 21 => FromScript (Some (Ok Activated))
  | 12 => FromNative (Some (NativeEvent Native.EvReconnecting))
  | 16 => FromScript (Some (Ok Suspended))
  | 17 => FromNative (Some (NativeEvent Native.EvReconnected))
  | _ => TurnCancelled
  end%nat.
Definition answers (n : nat) (X : Type) (q : SuperviseE X) : X :=
  match q in SuperviseE Y return Y with
  | TurnE _ => turn_at n
  | NowE => N.of_nat n
  | StoppedE => false
  | PublishE _ => true
  | WriteE _ => true
  end.
Definition identity : Identity := {| service_instance := 1; id_attempt := 2; id_launch := 3 |}.
Definition run : option (trace SuperviseE * option (result Failure SuperviseEnd)) :=
  exec answers 60 0 (supervise identity bootstrap_default).
Definition seen : trace SuperviseE := match run with Some (l, _) => l | None => [] end.
Lemma script_tun_follows_protocol_witness :
  length seen = 26%nat ∧ protocol seen =
    Some {| consumer := Ending; tunnel_up := true; reported := Some session |} ∧
  is_Some (protocol seen).
Proof.
  assert (run = Some (seen, Some (Ok Stopped))) as Hr by by vm_compute.
  split; [by vm_compute|]. split; [by vm_compute|].
  destruct (exec_returns _ _ _ _ _ _ Hr) as (t & Hp & _).
  exact (script_tun_follows_protocol identity bootstrap_default seen t Hp).
Defined.
End ScriptTunExample.
