(* ===== verification/AttemptRuntime.v ===== *)
(** The worker of one accepted attempt (apps/gpservice/src/vpn_task/runtime.rs, [spawn],
    and vpn_task/non_tunnel.rs, [run]; the outer loop of script_tun.rs).

    The worker is an interaction tree: [RuntimeE] are the questions it asks its
    surroundings (tokens, blocking setup, the tunnel library, the maintenance of
    [NonTunnel], the supervisor of [ScriptTunWorker]) and the events it sends to the task
    of [VpnTask]. Threads and futures that run beside its loops answer them: the turn of a
    loop tells which branch was ready, or what the tunnel's thread sends meanwhile.

    [Attempt] is what an attempt must account for: who owns its gateway sessions, the
    tunnel's thread and monitor, and what it may still report. *)
From S2P Require Import Prelude Utf8 ThirdParty GpHttp Interaction Session GatewayTransport NonTunnel.
From S2P Require Import Service Lifecycle VpnTask ScriptTunWorker.
From ITree Require Import ITree.

#[local] Open Scope N_scope.

(** * The worker *)
Section runtime.
Context {Monitor : Type}.
Notation worker_event := (worker_event (Monitor := Monitor)).

Inductive MaintainTurn :=
  (** The maintenance returned, after logging these gateways out. *)
  | MaintainDone (r : result Failure SessionExit) (logged_out : list string)
  | MaintainTick (approval_valid : bool)
  | MaintainChanged (open : bool).
Inductive TunnelTurn :=
  | TunnelCancelled
  | TunnelEnded
  | TunnelTick (approval_valid : bool)
  | TunnelEstablished (s : VpnSessionInfo).
Inductive ScriptTurn :=
  | SupervisorDone (r : result Failure SuperviseEnd)
  | SupervisorPublishes (e : Published)
  | ScriptTunnelEnded
  | ScriptTick (approval_valid has_session : bool).
(** What a thread or future does before it is joined. *)
Inductive JoinTurn (A : Type) := JoinedNow | JoinSends (a : A).
Arguments JoinedNow {A}.
Arguments JoinSends {A} a.

Inductive RuntimeE : Type → Type :=
  | CancelledE : RuntimeE bool
  | SendE (e : worker_event) : RuntimeE bool
  (** [stop_for_revoked_approval] *)
  | RevokeE : RuntimeE ()
  (** Blocking setup; [None]: its thread panicked. *)
  | PrepareExecutionE : RuntimeE (option (result Failure ()))
  (** The answer tells whether a script-tun consumer was prepared. *)
  | PrepareTunnelE : RuntimeE (option (result Failure bool))
  | AttachMonitorE : RuntimeE Monitor
  | StopMonitorE : RuntimeE ()
  | RelinquishE (l : GatewaySessions) : RuntimeE ()
  | ConnectE : RuntimeE ()
  | TunnelE : RuntimeE TunnelTurn
  | DisconnectE : RuntimeE ()
  | JoinTunnelE : RuntimeE (JoinTurn VpnSessionInfo)
  | ScriptE : RuntimeE ScriptTurn
  | JoinSupervisorE : RuntimeE (JoinTurn Published)
  (** [changed.borrow_and_update().clone()] *)
  | SnapshotE : RuntimeE (list GatewaySessionSummary)
  | MaintainE : RuntimeE MaintainTurn
  | JoinMonitorE : RuntimeE bool
  | LogoutE (l : GatewaySessions) : RuntimeE ().

Record AttemptInput := {
  sessions : GatewaySessions;
  modes : list SessionMode;
  session_id : option Uuid;
  (** [resources.network.is_some()] *)
  has_network : bool;
  plan_failures : list GatewayFailureSummary;
}.

Notation Flow := (flow RuntimeE).
#[local] Open Scope flow_scope.

(** ** Non-tunnel sessions (non_tunnel.rs) *)
(** The status observer: [send_modify] of the member's summary. *)
Fixpoint note_status (summary : GatewaySessionSummary) (members : list GatewaySessionSummary) :
    list GatewaySessionSummary :=
  match members with
  | [] => []
  | m :: l =>
      if String.eqb (gateway_address (summary_gateway m)) (gateway_address (summary_gateway summary))
      then summary :: l else m :: note_status summary l
  end.
Definition initial_members (l : GatewaySessions) : list GatewaySessionSummary :=
  (λ s, member_summary s Session.Authenticated) <$> l.
(** What the maintenance logged out, and the ledger it leaves. *)
Fixpoint logged_out_of (servers : list string) (l : GatewaySessions) : GatewaySessions * GatewaySessions :=
  match servers with
  | [] => ([], l)
  | v :: servers =>
      let '(out, rest) := logged_out_of servers (relinquish_gateway v l) in
      (option_list (taken v l) ++ out, rest)
  end.

Definition send_members (failures : list GatewayFailureSummary) : Flow () :=
  let* members := ask SnapshotE in
  let* _ := ask (SendE (WMembersChanged members failures)) in ok ().
(** One turn of the loop: [(publish, approval_revoked)]. *)
Definition maintain_turn (failures : list GatewayFailureSummary) (st : bool * bool) :
    Flow ((bool * bool) + (result Failure SessionExit * list string * bool)) :=
  let '(publish, revoked) := st in
  let* publish :=
    (if publish then
       let* cancelled := ask CancelledE in
       if (cancelled : bool) then ok true else let* _ := send_members failures in ok false
     else ok false) in
  let* t := ask MaintainE in
  match t with
  | MaintainDone r out => ok (inr (r, out, revoked))
  | MaintainTick true => ok (inl (publish, revoked))
  | MaintainTick false => let* _ := ask RevokeE in ok (inl (publish, true))
  | MaintainChanged open => ok (inl (publish || open, revoked))
  end.
Definition non_tunnel_run (i : AttemptInput) : Flow (result Failure SessionExit * GatewaySessions) :=
  if negb (has_network i)
  then ok (Err (GpHttp.Message "Physical network context is missing"), sessions i)
  else
    let* r := repeating (maintain_turn (plan_failures i)) (true, false) in
    let '(r, out, revoked) := r in
    let rest := (logged_out_of out (sessions i)).2 in
    let* cancelled := ask CancelledE in
    let* _ := (if (cancelled : bool) then ok () else send_members (plan_failures i)) in
    let* joined := ask JoinMonitorE in
    if negb joined then ok (Err (GpHttp.Message "Network monitor worker failed"), rest)
    else
      let* _ := (if (revoked : bool) then ask (SendE (WFailed "HIP script approval was revoked")) else ok true) in
      let* cancelled := ask CancelledE in
      ok (if (cancelled : bool) then Ok Disconnected else r, rest).

(** ** Tunnels *)
Definition join_tunnel : Flow () :=
  repeating (λ _ : (),
    let* t := ask JoinTunnelE in
    match t with
    | JoinedNow => ok (inr ())
    | JoinSends s => let* _ := ask (SendE (WEstablished s)) in ok (inl ())
    end) ().
Definition published_event (e : Published) : worker_event :=
  match e with PubEstablished s => WEstablished s | PubSuspended => WScriptTunSuspended end.
Definition join_supervisor : Flow () :=
  repeating (λ _ : (),
    let* t := ask JoinSupervisorE in
    match t with
    | JoinedNow => ok (inr ())
    | JoinSends e => let* _ := ask (SendE (published_event e)) in ok (inl ())
    end) ().
Definition tunnel_turn (_ : ()) : Flow (() + ()) :=
  let* t := ask TunnelE in
  match t with
  | TunnelCancelled => let* _ := ask DisconnectE in let* _ := join_tunnel in ok (inr ())
  | TunnelEnded => ok (inr ())
  | TunnelTick true => ok (inl ())
  | TunnelTick false =>
      let* _ := ask RevokeE in let* _ := ask DisconnectE in let* _ := join_tunnel in ok (inr ())
  | TunnelEstablished s => let* _ := ask (SendE (WEstablished s)) in ok (inl ())
  end.
Definition run_tunnel (l : GatewaySessions) : Flow GatewaySessions :=
  let* cancelled := ask CancelledE in
  if (cancelled : bool) then ok l
  else
    let* m := ask AttachMonitorE in
    let* sent := ask (SendE (WMonitor m)) in
    if negb sent then let* _ := ask StopMonitorE in ok l
    else
      let* _ := ask (RelinquishE l) in
      let* _ := ask ConnectE in
      let* _ := repeating tunnel_turn () in
      let* _ := ask StopMonitorE in ok [].

(** The loop of script_tun.rs's [run]: how it ended, whether the supervisor and the
    tunnel's thread are done. *)
Definition script_turn (_ : ()) : Flow (() + (result Failure SuperviseEnd * bool * bool)) :=
  let* t := ask ScriptE in
  match t with
  | SupervisorDone r => ok (inr (r, true, false))
  | SupervisorPublishes e => let* _ := ask (SendE (published_event e)) in ok (inl ())
  | ScriptTunnelEnded => ok (inr (Err (GpHttp.Message "VPN worker ended"), false, true))
  | ScriptTick valid known =>
      if valid && known then ok (inl ()) else let* _ := ask RevokeE in ok (inl ())
  end.
Definition script_tun_run (l : GatewaySessions) : Flow (result Failure SuperviseEnd * GatewaySessions) :=
  let* m := ask AttachMonitorE in
  let* sent := ask (SendE (WMonitor m)) in
  if negb sent then let* _ := ask StopMonitorE in ok (Ok Stopped, l)
  else
    let* _ := ask (RelinquishE l) in
    let* _ := ask ConnectE in
    let* r := repeating script_turn () in
    let '(r, supervisor_done, worker_done) := r in
    let* _ := (if (supervisor_done : bool) then ok () else join_supervisor) in
    let* _ := ask DisconnectE in
    let* _ := (if (worker_done : bool) then ok () else join_tunnel) in
    let* _ := ask StopMonitorE in
    ok (r, []).

(** ** [spawn] *)
Definition failure_message (reason : SessionEndReason) : string :=
  match reason with
  | InvalidCookie => "Internal gateway authentication expired; connect again"
  | Session.NetworkChanged => "Physical network changed or could not be verified; connect again"
  | AllMembersFailed => "All internal gateway sessions failed; connect again"
  | AuthorizationRevoked => "HIP execution authorization was revoked"
  end.
(** The reason a failed attempt gives, and the sessions left to log out. *)
Definition outcome : Type := option string * GatewaySessions.
Definition execute_non_tunnel (i : AttemptInput) : Flow outcome :=
  let* r := non_tunnel_run i in
  ok match r with
     | (Ok Disconnected, l) => (None, l)
     | (Ok (Failed reason), l) => (Some (failure_message reason), l)
     | (Err _, l) => (Some "Internal session maintenance failed", l)
     end.
Definition execute_script_tun (l : GatewaySessions) : Flow outcome :=
  let* r := script_tun_run l in
  match r with
  | (Ok Stopped, l) => ok (None, l)
  | (Ok ScriptTunWorker.NetworkChanged, l) =>
      let* cancelled := ask CancelledE in
      if (cancelled : bool) then
        let* cancelled := ask CancelledE in
        ok (if (cancelled : bool) then None else Some "VPN network configuration changed", l)
      else let* _ := ask (SendE WReconnectRequired) in ok (None, l)
  | (Err e, l) =>
      let* cancelled := ask CancelledE in
      ok (if (cancelled : bool) then None else Some (to_text e), l)
  end.
Definition execute_tunnel (i : AttemptInput) : Flow outcome :=
  let* prepared := ask PrepareTunnelE in
  match prepared with
  | Some (Ok true) =>
      match session_id i with
      | Some _ => execute_script_tun (sessions i)
      | None => ok (None, sessions i)
      end
  | Some (Ok false) => let* l := run_tunnel (sessions i) in ok (None, l)
  | Some (Err e) => ok (Some ("Failed to prepare tunnel: " +:+ alternate_text e), sessions i)
  | None => ok (Some "Tunnel setup worker failed", sessions i)
  end.
Definition execute (i : AttemptInput) : Flow outcome :=
  let* prepared := ask PrepareExecutionE in
  match prepared with
  | Some (Ok _) =>
      if forallb (λ m, bool_decide (m = NonTunnel)) (modes i)
      then execute_non_tunnel i else execute_tunnel i
  | Some (Err _) => ok (Some "HIP execution could not be prepared", sessions i)
  | None => ok (Some "HIP setup worker failed", sessions i)
  end.
Definition attempt (i : AttemptInput) : Flow () :=
  let* cancelled := ask CancelledE in
  let* r := (if (cancelled : bool) then ok (None, sessions i) else execute i) in
  let '(failure, l) := r in
  let* _ := ask (LogoutE l) in
  let* cancelled := ask CancelledE in
  let* _ := match failure with
            | Some reason => if (cancelled : bool) then ok true else ask (SendE (WFailed reason))
            | None => ok true
            end in
  let* _ := ask (SendE WEnded) in ok ().

(** * What an attempt accounts for *)
Inductive Stage := Running | LoggedOff | Reported | Over.
Record Account := {
  stage : Stage;
  (** The sessions this worker must still clean up, and those it handed over. *)
  kept : GatewaySessions;
  cleaned : GatewaySessions;
  has_monitor : bool;
  has_thread : bool;
}.
Definition account_new (l : GatewaySessions) : Account := {|
  stage := Running; kept := l; cleaned := []; has_monitor := false; has_thread := false |}.
Definition set_stage (v : Stage) (a : Account) : Account := {|
  stage := v; kept := kept a; cleaned := cleaned a; has_monitor := has_monitor a; has_thread := has_thread a |}.
Definition set_monitor (v : bool) (a : Account) : Account := {|
  stage := stage a; kept := kept a; cleaned := cleaned a; has_monitor := v; has_thread := has_thread a |}.
Definition set_thread (v : bool) (a : Account) : Account := {|
  stage := stage a; kept := kept a; cleaned := cleaned a; has_monitor := has_monitor a; has_thread := v |}.
Definition hand_over (out rest : GatewaySessions) (a : Account) : Account := {|
  stage := stage a; kept := rest; cleaned := cleaned a ++ out; has_monitor := has_monitor a;
  has_thread := has_thread a |}.

(** The events an attempt may send: a failure at most once after its sessions are logged
    out, [Ended] after that, and nothing after [Ended]. *)
Definition may_send (e : worker_event) (s : Stage) : option Stage :=
  match e, s with
  | WEnded, (LoggedOff | Reported) => Some Over
  | WFailed _, LoggedOff => Some Reported
  | WEnded, _ => None
  | _, Running => Some Running
  | _, _ => None
  end.
Definition account_step (a : Account) (e : event RuntimeE) (a' : Account) : Prop :=
  match e with
  | @Ev _ X q x =>
      match q in RuntimeE Y return Y → Prop with
      | SendE e => λ _, ∃ st, may_send e (stage a) = Some st ∧ a' = set_stage st a
      | AttachMonitorE => λ _, has_monitor a = false ∧ a' = set_monitor true a
      | StopMonitorE => λ _, has_monitor a = true ∧ has_thread a = false ∧ a' = set_monitor false a
      | RelinquishE l => λ _, l = kept a ∧ a' = hand_over l [] a
      | ConnectE => λ _, kept a = [] ∧ has_monitor a = true ∧ has_thread a = false ∧ a' = set_thread true a
      | TunnelE => λ t, has_thread a = true ∧
          a' = match t with TunnelEnded => set_thread false a | _ => a end
      | ScriptE => λ t, has_thread a = true ∧
          a' = match t with ScriptTunnelEnded => set_thread false a | _ => a end
      | JoinTunnelE => λ t, has_thread a = true ∧
          a' = match t with JoinedNow => set_thread false a | JoinSends _ => a end
      | MaintainE => λ t, has_thread a = false ∧
          a' = match t with
               | MaintainDone _ out => let '(out, rest) := logged_out_of out (kept a) in hand_over out rest a
               | _ => a
               end
      | LogoutE l => λ _, stage a = Running ∧ l = kept a ∧ has_monitor a = false ∧
          has_thread a = false ∧ a' = set_stage LoggedOff (hand_over l [] a)
      | _ => λ _, a' = a
      end x
  end.
Definition sends (h : trace RuntimeE) : list worker_event :=
  omap (λ e, match e with
    | Ev q _ => match q with SendE e => Some e | _ => None end end) h.

Lemma logged_out_perm servers l :
  (logged_out_of servers l).1 ++ (logged_out_of servers l).2 ≡ₚ l.
Proof.
  revert l. induction servers as [|v servers IH]; intros l; [done|]. cbn.
  specialize (IH (relinquish_gateway v l)). destruct (logged_out_of servers _) as [out rest].
  cbn in *. etrans; [|symmetry; apply (relinquish_taken v l)].
  rewrite <- app_assoc. by apply Permutation_app_head.
Qed.
Lemma account_conserves l h a : tracks account_step (account_new l) h a → cleaned a ++ kept a ≡ₚ l.
Proof.
  induction 1 as [|h e a a' _ IH Hs]; [done|]. destruct e as [X q x]. destruct q; cbn in Hs.
  all: try (by subst). all: destruct_and?; subst; try done.
  - destruct Hs as (st & _ & ->). done.
  - cbn. by rewrite app_nil_r.
  - by destruct x.
  - by destruct x.
  - by destruct x.
  - destruct x as [r out| |]; try done. pose proof (logged_out_perm out (kept a)) as Hp.
    destruct (logged_out_of out (kept a)) as [o rest]. cbn in *. by rewrite <- app_assoc, Hp.
  - cbn. by rewrite app_nil_r.
Qed.
Lemma account_ends_last l h a : tracks account_step (account_new l) h a →
  match stage a with
  | Over => ∃ k, sends h = k ++ [WEnded] ∧ WEnded ∉ k
  | _ => WEnded ∉ sends h
  end.
Proof.
  induction 1 as [|h e a a' _ IH Hs]; [by apply not_elem_of_nil|].
  assert (sends (h ++ [e]) = sends h ++ sends [e]) as -> by apply omap_app.
  destruct e as [X q x]. destruct q; cbn in Hs |- *; rewrite ?app_nil_r.
  all: try (by subst). all: destruct_and?; subst; try done; try by destruct x.
  - destruct Hs as (st & Hst & ->). cbn.
    assert (∀ e, e ≠ WEnded → WEnded ∉ sends h → WEnded ∉ sends h ++ [e]) as Hother.
    { intros e' He Hn [?|Hin]%elem_of_app; [done|]. by apply list_elem_of_singleton in Hin. }
    destruct e, (stage a); cbn in Hst; simplify_eq; try (by apply Hother); by exists (sends h).
  - destruct x as [r out| |]; try done. by destruct (logged_out_of out (kept a)).
  - match goal with Hr : stage a = Running |- _ => rewrite Hr in IH end. done.
Qed.

(** ** The worker keeps its account *)
Definition within {A} (Φ : Account → A → Prop) (a : Account) (r : result Failure A) : Prop :=
  ∃ x, r = Ok x ∧ Φ a x.
Notation keeps l a m Φ := (spec account_step (account_new l) a m (within Φ)).
Section keeping.
Variable all : GatewaySessions.
Lemma keeps_ok {A} a (x : A) Φ : Φ a x → keeps all a (ok x) Φ.
Proof. intros Hx. apply spec_ok. by exists x. Qed.
Lemma keeps_bind {A B} a (m : Flow A) (k : A → Flow B) Φ Ψ :
  keeps all a m Φ → (∀ a' x, Φ a' x → keeps all a' (k x) Ψ) → keeps all a (and_then m k) Ψ.
Proof.
  intros Hm Hk. eapply spec_bind; [exact Hm|..]; cbn.
  - intros a' x (y & [= <-] & Hx). by apply Hk.
  - by intros a' e (y & [=] & _).
Qed.
Lemma keeps_repeating {A I} a (turn : I → Flow (I + A)) (J : Account → I → Prop) Φ i :
  (∀ a i, J a i → keeps all a (turn i) (λ a' x, match x with inl j => J a' j | inr y => Φ a' y end)) →
  J a i → keeps all a (repeating turn i) Φ.
Proof.
  intros Ht Hj. eapply (spec_repeating _ _ _ _ J); [|exact Hj]. intros a' j Hj'.
  eapply spec_mono, Ht, Hj'. intros b r (x & -> & Hx). destruct x as [j'|y]; [done|by exists y].
Qed.
(** A question that leaves the account as it is. *)
Lemma keeps_ask {X B} a (q : RuntimeE X) (k : X → Flow B) Φ :
  (∀ x, account_step a (Ev q x) a) → (∀ x, keeps all a (k x) Φ) → keeps all a (and_then (ask q) k) Φ.
Proof. intros Hs Hk. apply spec_ask. intros x. by exists a. Qed.
Lemma set_stage_id a : set_stage (stage a) a = a.
Proof. by destruct a. Qed.
(** While it runs, a worker may send anything but [Ended]. *)
Lemma keeps_send {B} a e (k : bool → Flow B) Φ : stage a = Running → e ≠ WEnded →
  (∀ x, keeps all a (k x) Φ) → keeps all a (and_then (ask (SendE e)) k) Φ.
Proof.
  intros Hr He Hk. apply keeps_ask; [|done]. intros x. cbn. exists Running.
  split; [by rewrite Hr; destruct e|]. by rewrite <- Hr, set_stage_id.
Qed.

Lemma keeps_send_alone a e st : may_send e (stage a) = Some st →
  keeps all a (ask (SendE e)) (λ a' _, a' = set_stage st a).
Proof.
  intros He h Hh. apply wpf_ask; [by eapply tracks_accepted|]. intros b.
  assert (tracks account_step (account_new all) (h ++ [Ev (SendE e) b]) (set_stage st a)) as Hh'.
  { eapply tracks_snoc; [done|]. by exists st. }
  split; [by eapply tracks_accepted|]. eexists. split; [done|]. by exists b.
Qed.
(** Nothing of the tunnel is held and [l] is still to be logged out. *)
Definition idle (a : Account) (l : GatewaySessions) : Prop :=
  stage a = Running ∧ kept a = l ∧ has_monitor a = false ∧ has_thread a = false.
(** The tunnel owns the session; its thread runs or is over. *)
Definition connected (thread : bool) (a : Account) : Prop :=
  stage a = Running ∧ kept a = [] ∧ has_monitor a = true ∧ has_thread a = thread.

Lemma join_tunnel_keeps a : connected true a → keeps all a join_tunnel (λ a' _, connected false a').
Proof.
  intros Ha. apply (keeps_repeating _ _ (λ a _, connected true a)); [|done]. clear a Ha.
  intros a [] (Hr & Hk & Hm & Ht). apply spec_ask. intros [|s]; (eexists; split; [by split|]).
  - by apply keeps_ok.
  - apply keeps_send; [done|done|]. intros _. by apply keeps_ok.
Qed.
Lemma join_supervisor_keeps b a : connected b a → keeps all a join_supervisor (λ a' _, connected b a').
Proof.
  intros Ha. apply (keeps_repeating _ _ (λ a _, connected b a)); [|done]. clear a Ha.
  intros a [] Ha. apply keeps_ask; [done|]. intros [|e]; [by apply keeps_ok|].
  apply keeps_send; [apply Ha|by destruct e|]. intros _. by apply keeps_ok.
Qed.
Lemma tunnel_turn_keeps a : connected true a →
  keeps all a (tunnel_turn ()) (λ a' x, match x with inl _ => connected true a' | inr _ => connected false a' end).
Proof.
  intros (Hr & Hk & Hm & Ht). apply spec_ask. intros [| |[]|s]; (eexists; split; [by split|]).
  - apply keeps_ask; [done|]. intros _. eapply keeps_bind; [by apply join_tunnel_keeps|].
    intros a' [] Ha'. by apply keeps_ok.
  - by apply keeps_ok.
  - by apply keeps_ok.
  - apply keeps_ask; [done|]. intros _. apply keeps_ask; [done|]. intros _.
    eapply keeps_bind; [by apply join_tunnel_keeps|]. intros a' [] Ha'. by apply keeps_ok.
  - apply keeps_send; [done|done|]. intros _. by apply keeps_ok.
Qed.
Lemma script_turn_keeps a : connected true a →
  keeps all a (script_turn ()) (λ a' x, match x with
    | inl _ => connected true a' | inr (_, _, worker_done) => connected (negb worker_done) a' end).
Proof.
  intros (Hr & Hk & Hm & Ht). apply spec_ask. intros [r|e| |valid known]; (eexists; split; [by split|]).
  - by apply keeps_ok.
  - apply keeps_send; [done|by destruct e|]. intros _. by apply keeps_ok.
  - by apply keeps_ok.
  - destruct (valid && known); [by apply keeps_ok|]. apply keeps_ask; [done|]. intros _. by apply keeps_ok.
Qed.
(** The monitor is attached and announced, and the tunnel takes the sessions over. *)
Lemma tunnel_begins {A} a l (k : Flow A) (early : A) Φ : idle a l →
  (∀ a', idle a' l → Φ a' early) → (∀ a', connected true a' → keeps all a' k Φ) →
  keeps all a (let* m := ask AttachMonitorE in
    let* sent := ask (SendE (WMonitor m)) in
    if negb sent then let* _ := ask StopMonitorE in ok early
    else let* _ := ask (RelinquishE l) in let* _ := ask ConnectE in k) Φ.
Proof.
  intros (Hr & Hk & Hm & Ht) He Hc. apply spec_ask. intros m. eexists. split; [by split|].
  apply keeps_send; [done|done|]. intros [|]; cbn [negb].
  - apply spec_ask. intros []. eexists. split; [by split|]. apply spec_ask. intros []. eexists.
    split; [by split|]. by apply Hc.
  - apply spec_ask. intros []. eexists. split; [by split|]. apply keeps_ok, He. by split.
Qed.
Lemma stops_monitor {A} a (x : A) (Φ : Account → A → Prop) : connected false a →
  (∀ a', idle a' [] → Φ a' x) → keeps all a (let* _ := ask StopMonitorE in ok x) Φ.
Proof.
  intros (Hr & Hk & Hm & Ht) Hx. apply spec_ask. intros []. eexists. split; [by split|].
  apply keeps_ok, Hx. by split.
Qed.
Lemma run_tunnel_keeps a l : idle a l → keeps all a (run_tunnel l) idle.
Proof.
  intros Ha. apply keeps_ask; [done|]. intros [|]; [by apply keeps_ok|].
  apply tunnel_begins; [done|done|]. clear a Ha. intros a Ha.
  eapply keeps_bind.
  - apply (keeps_repeating _ _ (λ a _, connected true a) (λ a _, connected false a)); [|done].
    intros a' [] Ha'. by apply tunnel_turn_keeps.
  - intros a' [] Ha'. by apply stops_monitor.
Qed.
Lemma script_tun_run_keeps a l : idle a l → keeps all a (script_tun_run l) (λ a' r, idle a' r.2).
Proof.
  intros Ha. apply tunnel_begins; [done|done|]. clear a Ha. intros a Ha.
  eapply keeps_bind.
  { apply (keeps_repeating _ _ (λ a _, connected true a) (λ a x, connected (negb x.2) a)); [|done].
    intros a' [] Ha'. eapply spec_mono, script_turn_keeps, Ha'. intros b r (x & -> & Hx). exists x.
    split; [done|]. by destruct x as [[]|[[] ?]]. }
  intros a' [[r sd] wd] Ha'. cbn in Ha'.
  eapply (keeps_bind _ _ _ (λ a' _, connected (negb wd) a')).
  { destruct sd; [by apply keeps_ok|by apply join_supervisor_keeps]. }
  intros a2 [] Ha2. apply keeps_ask; [done|]. intros _.
  eapply (keeps_bind _ _ _ (λ a' _, connected false a')).
  { destruct wd; [by apply keeps_ok|by apply join_tunnel_keeps]. }
  intros a3 [] Ha3. by apply stops_monitor.
Qed.
Lemma send_members_keeps a l fs : idle a l → keeps all a (send_members fs) (λ a' _, idle a' l).
Proof.
  intros Ha. apply keeps_ask; [done|]. intros members. apply keeps_send; [apply Ha|done|].
  intros _. by apply keeps_ok.
Qed.
(** What the maintenance logged out is no longer kept. *)
Lemma maintain_turn_keeps a l fs st : idle a l →
  keeps all a (maintain_turn fs st) (λ a' x, match x with
    | inl _ => idle a' l | inr (_, out, _) => idle a' (logged_out_of out l).2 end).
Proof.
  intros Ha. destruct st as [publish revoked].
  eapply (keeps_bind _ _ _ (λ a' _, idle a' l)).
  { destruct publish; [|by apply keeps_ok]. apply keeps_ask; [done|]. intros [|]; [by apply keeps_ok|].
    eapply keeps_bind; [by apply send_members_keeps|]. intros a' [] Ha'. by apply keeps_ok. }
  clear a Ha. intros a p (Hr & Hk & Hm & Ht). apply spec_ask.
  intros [r out|[]|open]; (eexists; split; [by split|]); try (by apply keeps_ok).
  - apply keeps_ok. rewrite Hk. destruct (logged_out_of out l) as [o rest]. by split.
  - apply keeps_ask; [done|]. intros _. by apply keeps_ok.
Qed.
Lemma non_tunnel_run_keeps a i : idle a (sessions i) →
  keeps all a (non_tunnel_run i) (λ a' r, idle a' r.2).
Proof.
  intros Ha. unfold non_tunnel_run. destruct (has_network i); cbn [negb]; [|by apply keeps_ok].
  eapply keeps_bind.
  { apply (keeps_repeating _ _ (λ a _, idle a (sessions i))
      (λ a x, idle a (logged_out_of x.1.2 (sessions i)).2)); [|done].
    intros a' st Ha'. eapply spec_mono, maintain_turn_keeps, Ha'. intros b r (x & -> & Hx). exists x.
    split; [done|]. by destruct x as [|[[? ?] ?]]. }
  clear a Ha. intros a [[r out] revoked] Ha. cbn [fst snd] in Ha.
  apply keeps_ask; [done|]. intros c. eapply keeps_bind.
  { destruct c; [|by apply send_members_keeps]. by apply (keeps_ok _ _ (λ a' _, idle a' _)). }
  clear a Ha. intros a [] Ha. apply keeps_ask; [done|]. intros joined.
  destruct joined; cbn [negb]; [|by apply keeps_ok]. eapply (keeps_bind _ _ _ (λ a' _, idle a' _)).
  { destruct revoked; [|by apply keeps_ok]. eapply spec_mono.
    2: { apply keeps_send_alone. by rewrite (proj1 Ha). }
    intros a2 r2 (x & -> & ->). exists x. split; [done|].
    by rewrite <- (proj1 Ha), set_stage_id. }
  clear a Ha. intros a b Ha. apply keeps_ask; [done|]. intros c2. by apply keeps_ok.
Qed.
Lemma execute_keeps a i : idle a (sessions i) → keeps all a (execute i) (λ a' r, idle a' r.2).
Proof.
  intros Ha. apply keeps_ask; [done|]. intros [[[]|e]|]; try (by apply keeps_ok).
  destruct (forallb _ (modes i)).
  - eapply keeps_bind; [by apply non_tunnel_run_keeps|]. intros a' [[[|r]|e] l] Ha'; by apply keeps_ok.
  - apply keeps_ask; [done|]. intros [[[|]|e]|]; try (by apply keeps_ok).
    + destruct (session_id i); [|by apply keeps_ok].
      eapply keeps_bind; [by apply script_tun_run_keeps|]. intros a' [[[|]|e] l] Ha'; [by apply keeps_ok|..].
      * apply keeps_ask; [done|]. intros [|].
        -- apply keeps_ask; [done|]. intros c. by apply keeps_ok.
        -- apply keeps_send; [apply Ha'|done|]. intros _. by apply keeps_ok.
      * apply keeps_ask; [done|]. intros c. by apply keeps_ok.
    + eapply keeps_bind; [by apply run_tunnel_keeps|]. intros a' l Ha'. by apply keeps_ok.
Qed.
Definition settled_account (a : Account) : Prop :=
  stage a = Over ∧ kept a = [] ∧ has_monitor a = false ∧ has_thread a = false.
Lemma attempt_keeps a i : idle a (sessions i) → keeps all a (attempt i) (λ a' _, settled_account a').
Proof.
  intros Ha. apply keeps_ask; [done|]. intros c. eapply (keeps_bind _ _ _ (λ a' r, idle a' r.2)).
  { destruct c; [by apply keeps_ok|by apply execute_keeps]. }
  clear a Ha. intros a [failure l] (Hr & Hk & Hm & Ht). apply spec_ask. intros []. eexists.
  split; [by split|]. apply keeps_ask; [done|]. intros cancelled.
  eapply (keeps_bind _ _ _ (λ a' _, (stage a' = LoggedOff ∨ stage a' = Reported) ∧
    kept a' = [] ∧ has_monitor a' = false ∧ has_thread a' = false)).
  { destruct failure; [destruct cancelled|]; try (apply keeps_ok; by auto).
    eapply spec_mono; [|by apply keeps_send_alone]. intros a' r (x & -> & ->). exists x. by auto. }
  intros a' _ (Hs & Hk' & Hm' & Ht'). apply spec_ask. intros b. exists (set_stage Over a'). split.
  - exists Over. split; [|done]. by destruct Hs as [-> | ->].
  - by apply keeps_ok.
Qed.
End keeping.

(** C26: an accepted attempt cleans up after itself on every path. In every run its worker
    keeps the account: the tunnel's thread runs only under an attached monitor, which is
    stopped after the thread ended, only one owner has the sessions at a time, and nothing
    is sent out of turn. When the worker returns it has sent [Ended] as its last event and
    once; every session the attempt was given was logged out by the maintenance, handed to
    the tunnel or logged out in the end, exactly once; and neither monitor nor thread is
    left. *)
Theorem attempt_cleans_up i h :
  (∀ t, plays (attempt i) h t → accepted account_step (account_new (sessions i)) h) ∧
  (∀ o, returns (attempt i) h o → o = Some (Ok ()) ∧
    ∃ a, tracks account_step (account_new (sessions i)) h a ∧
      cleaned a ≡ₚ sessions i ∧ has_monitor a = false ∧ has_thread a = false ∧
      ∃ k, sends h = k ++ [WEnded] ∧ WEnded ∉ k).
Proof.
  pose proof (attempt_keeps (sessions i) (account_new (sessions i)) i ltac:(by split)) as Hs.
  split; [intros t; by apply (spec_runs _ _ _ _ _ _ Hs)|].
  intros o Ho. destruct (spec_returns _ _ _ _ _ _ Hs Ho) as (r & a & -> & Hh & [] & -> & Hover & Hk & Hm & Ht).
  split; [done|]. exists a. pose proof (account_conserves _ _ _ Hh) as Hp. rewrite Hk, app_nil_r in Hp.
  pose proof (account_ends_last _ _ _ Hh) as Hl. rewrite Hover in Hl. done.
Qed.
End runtime.

(** * A run *)
Module AttemptExample.
Definition input : AttemptInput := {|
  sessions := MaintenanceExample.members; modes := [NonTunnel; NonTunnel]; session_id := Some 7;
  has_network := true; plan_failures := [] |}.
(** The maintenance logs the first gateway out and fails; the second is logged out in the
    end. *)
Definition answers (n : nat) (X : Type) (q : RuntimeE (Monitor := ()) X) : X :=
  match q in RuntimeE Y return Y with
  | CancelledE => false
  | SendE _ => true
  | RevokeE => ()
  | PrepareExecutionE => Some (Ok ())
  | PrepareTunnelE => None
  | AttachMonitorE => ()
  | StopMonitorE => ()
  | RelinquishE _ => ()
  | ConnectE => ()
  | TunnelE => TunnelEnded
  | DisconnectE => ()
  | JoinTunnelE => JoinedNow _
  | ScriptE => ScriptTunnelEnded
  | JoinSupervisorE => JoinedNow _
  | SnapshotE => initial_members MaintenanceExample.members
  | MaintainE => if bool_decide (n < 9)%nat then MaintainChanged true
                 else MaintainDone (Ok (Failed InvalidCookie)) ["a.example"]
  | JoinMonitorE => true
  | LogoutE _ => ()
  end.
Definition run : option (trace (RuntimeE (Monitor := ())) * option (result Failure ())) :=
  exec answers 80 0 (attempt input).
Definition seen : trace (RuntimeE (Monitor := ())) := match run with Some (l, _) => l | None => [] end.
Lemma attempt_cleans_up_witness :
  run = Some (seen, Some (Ok ())) ∧ length (sends seen) = 5%nat ∧
  ∃ a, tracks account_step (account_new (sessions input)) seen a ∧
    cleaned a ≡ₚ sessions input ∧ has_monitor a = false ∧ has_thread a = false ∧
    ∃ k, sends seen = k ++ [WEnded] ∧ WEnded ∉ k.
Proof.
  assert (run = Some (seen, Some (Ok ()))) as Hr by by vm_compute.
  split; [done|]. split; [by vm_compute|].
  destruct (attempt_cleans_up input seen) as [_ Hret].
  by destruct (Hret _ (exec_returns _ _ _ _ _ _ Hr)) as [_ Ha].
Defined.
End AttemptExample.
