(* ===== verification/WsServer.v ===== *)
(** The state the WebSocket connections share (apps/gpservice/src/ws_server.rs,
    [WsServerContext], and apps/gpservice/src/ws_connection.rs, [ConnectionControl]).

    A [ConnectionControl] is shared by its clones: [controls] holds one value per
    connection id, and [connections] are the ids in the map of [ServiceState]. Each
    operation below is one critical section of the state mutex; [bind_tunnel] and
    [publish_tunnel] are three. The registry is that of SessionRegistry.v, whose world
    is the controls and the attempts. *)
From S2P Require Import Prelude Utf8 ThirdParty ClientProfile Transport Tunnel TunnelMonitor Session Service.
From S2P Require Import EditedReport Lifecycle SessionRegistry.

#[local] Open Scope N_scope.

(** A running tunnel monitor, as the server holds it. *)
Class MonitorHandles (MW M : Type) := {
  monitor_enable : bool → M → MW → MW;
  monitor_tunnel_state : M → MW → TunnelState;
  monitor_snapshot : M → MW → TunnelStatisticsSnapshot;
  monitor_demand : M → MW → bool;
  monitor_finished : M → MW → bool;
}.
Class MonitorLaws (MW M : Type) `{MonitorHandles MW M} := {
  monitor_demand_enable b m w :
    monitor_finished m (monitor_enable b m w) = false → monitor_demand m (monitor_enable b m w) = b;
}.

(** The monitors of TunnelMonitor.v, by tunnel id, with the clock; [None] is one whose
    mutex is poisoned. *)
Section monitor_world.
Context {W : Type → Type} `{Watch W}.
Record TunnelMonitors := { clock : N; running : gmap Uuid (option (TunnelMonitor (W:=W))) }.
Definition running_monitor (id : Uuid) (w : TunnelMonitors) : option (TunnelMonitor (W:=W)) :=
  mjoin (running w !! id).
#[export] Instance tunnel_monitors : MonitorHandles TunnelMonitors Uuid := {|
  monitor_enable b id w := {| clock := clock w;
    running := alter (λ m, m ← m; snd <$> set_statistics_enabled b (clock w) m) id (running w) |};
  monitor_tunnel_state id w :=
    monitor_state (clock w) (default (attach id (clock w)) (running_monitor id w));
  monitor_snapshot id w :=
    statistics (clock w) (default (attach id (clock w)) (running_monitor id w));
  monitor_demand id w :=
    match running_monitor id w with Some m => o_enabled (observation m) | None => false end;
  monitor_finished id w :=
    match running_monitor id w with Some m => o_finished (observation m) | None => true end;
|}.
#[export] Instance tunnel_monitors_laws : MonitorLaws TunnelMonitors Uuid.
Proof.
  split. intros b id w. cbn. unfold running_monitor. cbn. rewrite lookup_alter_eq.
  destruct (running w !! id) as [[m|]|]; cbn; [|done..].
  unfold set_statistics_enabled, enable.
  destruct (o_finished (observation m)) eqn:Hf; cbn; [congruence|].
  destruct (Bool.eqb _ b) eqn:Hb; cbn; [intros _; by apply eqb_prop|].
  destruct (checked_add _ _ _) as [g|]; cbn; [|done].
  unfold next_sequence. cbn. by destruct (checked_add _ _ _).
Qed.
End monitor_world.

Definition CONNECTION_QUEUE : nat := 64.

(** * Connection controls *)
Inductive ConnectionCommand := Send (m : ServerMessage) | Reply (id : Uuid) (r : ServiceResult).

Section control.
Context {Q : Type → Type} `{Mpsc Q} {W : Type → Type} `{Watch W}.

Record ConnectionControl := {
  control_tx : Q ConnectionCommand;
  close_tx : W (option CloseReason.t);
  control_statistics : W (option TunnelStatisticsSnapshot);
  statistics_enabled : bool;
  committed : bool;
}.
(** Field updates. *)
Definition set_control_tx (v : Q ConnectionCommand) (s : ConnectionControl) : ConnectionControl := {|
  control_tx := v; close_tx := close_tx s; control_statistics := control_statistics s;
  statistics_enabled := statistics_enabled s; committed := committed s
|}.
Definition set_close_tx (v : W (option CloseReason.t)) (s : ConnectionControl) : ConnectionControl := {|
  control_tx := control_tx s; close_tx := v;
  control_statistics := control_statistics s;
  statistics_enabled := statistics_enabled s; committed := committed s
|}.
Definition set_control_statistics (v : W (option TunnelStatisticsSnapshot)) (s : ConnectionControl) : ConnectionControl := {|
  control_tx := control_tx s; close_tx := close_tx s; control_statistics := v;
  statistics_enabled := statistics_enabled s; committed := committed s
|}.
Definition set_statistics_enabled (v : bool) (s : ConnectionControl) : ConnectionControl := {|
  control_tx := control_tx s; close_tx := close_tx s;
  control_statistics := control_statistics s; statistics_enabled := v;
  committed := committed s
|}.
Definition set_committed (v : bool) (s : ConnectionControl) : ConnectionControl := {|
  control_tx := control_tx s; close_tx := close_tx s;
  control_statistics := control_statistics s;
  statistics_enabled := statistics_enabled s; committed := v
|}.

Definition control_new (tx : Q ConnectionCommand) : ConnectionControl := {|
  control_tx := tx; close_tx := watch_channel None; control_statistics := watch_channel None;
  statistics_enabled := false; committed := false |}.
Definition control_send (c : ConnectionCommand) (k : ConnectionControl) : bool * ConnectionControl :=
  let (r, q) := try_send c (control_tx k) in (bool_decide (r = Sent), set_control_tx q k).
Definition control_is_closed (k : ConnectionControl) : bool :=
  receiver_closed (control_tx k) || bool_decide (is_Some (watch_borrow (close_tx k))).
Definition clear_statistics (k : ConnectionControl) : ConnectionControl :=
  set_control_statistics (watch_send_replace None (control_statistics k)) k.
Definition control_set_statistics_enabled (b : bool) (k : ConnectionControl) : ConnectionControl :=
  let k := set_statistics_enabled b k in
  if (b : bool) then k else clear_statistics k.
Definition control_close (r : CloseReason.t) (k : ConnectionControl) : ConnectionControl :=
  let k := control_set_statistics_enabled false k in
  set_close_tx (watch_send_replace (Some r) (close_tx k)) k.
Definition mark_committed (k : ConnectionControl) : ConnectionControl := set_committed true k.
Definition publish_statistics (v : TunnelStatisticsSnapshot) (k : ConnectionControl) :
    ConnectionControl :=
  if statistics_enabled k && negb (control_is_closed k)
  then set_control_statistics (watch_send_replace (Some v) (control_statistics k)) k else k.
End control.
Arguments ConnectionControl Q W : clear implicits.

(** * The server *)
Section server.
Context {Q : Type → Type} `{Mpsc Q} {W : Type → Type} `{Watch W}.
Context {A D R : Type} `{AttemptHandles A D R}.
Context {MW M : Type} `{MonitorHandles MW M} `{XmlTree}.
Context `{SerdeJson ServerMessage} `{SerdeJson TunnelConfiguration}.

Abbreviation Control := (ConnectionControl Q W) (only parsing).
Abbreviation Controls := (gmap Uuid Control) (only parsing).

(** What the registry sees of the controls and the attempts. *)
#[export] Instance server_connections : ConnectionHandles (Controls * A) Uuid := {|
  connection_id c := c;
  is_closed c w := match w.1 !! c with Some k => control_is_closed k | None => true end;
  close r c w := (alter (control_close r) c w.1, w.2);
|}.
#[export] Instance server_attempts : AttemptHandles (Controls * A) D R := {|
  drain r w := drain r w.2;
  SessionRegistry.drain_cancel d w := (w.1, SessionRegistry.drain_cancel d w.2);
  SessionRegistry.drain_is_complete d w := SessionRegistry.drain_is_complete d w.2;
|}.

Abbreviation Binding := (TunnelBinding (Monitor:=M)) (only parsing).
Abbreviation Sessions := (Registry (C:=Uuid) (D:=D)) (only parsing).

Record Server := {
  revision : N;
  snapshot : VpnEnv;
  connections : gset Uuid;
  binding : Binding;
  controls : Controls;
  server_registry : Sessions;
  attempts : A;
  monitors : MW;
}.
Definition set_revision (v : N) (s : Server) : Server := {|
  revision := v; snapshot := snapshot s; connections := connections s;
  binding := binding s; controls := controls s; server_registry := server_registry s;
  attempts := attempts s; monitors := monitors s
|}.
Definition set_snapshot (v : VpnEnv) (s : Server) : Server := {|
  revision := revision s; snapshot := v; connections := connections s;
  binding := binding s; controls := controls s; server_registry := server_registry s;
  attempts := attempts s; monitors := monitors s
|}.
Definition set_connections (v : gset Uuid) (s : Server) : Server := {|
  revision := revision s; snapshot := snapshot s; connections := v;
  binding := binding s; controls := controls s; server_registry := server_registry s;
  attempts := attempts s; monitors := monitors s
|}.
Definition set_binding (v : Binding) (s : Server) : Server := {|
  revision := revision s; snapshot := snapshot s; connections := connections s;
  binding := v; controls := controls s; server_registry := server_registry s;
  attempts := attempts s; monitors := monitors s
|}.
Definition set_controls (v : Controls) (s : Server) : Server := {|
  revision := revision s; snapshot := snapshot s; connections := connections s;
  binding := binding s; controls := v; server_registry := server_registry s;
  attempts := attempts s; monitors := monitors s
|}.
Definition set_server_registry (v : Sessions) (s : Server) : Server := {|
  revision := revision s; snapshot := snapshot s; connections := connections s;
  binding := binding s; controls := controls s; server_registry := v;
  attempts := attempts s; monitors := monitors s
|}.
Definition set_attempts (v : A) (s : Server) : Server := {|
  revision := revision s; snapshot := snapshot s; connections := connections s;
  binding := binding s; controls := controls s; server_registry := server_registry s;
  attempts := v; monitors := monitors s
|}.
Definition set_monitors (v : MW) (s : Server) : Server := {|
  revision := revision s; snapshot := snapshot s; connections := connections s;
  binding := binding s; controls := controls s; server_registry := server_registry s;
  attempts := attempts s; monitors := v
|}.

Definition registry_state (s : Server) : State (World:=Controls * A) (C:=Uuid) (D:=D) :=
  (server_registry s, (controls s, attempts s)).
Definition set_registry_state (r : State (World:=Controls * A) (C:=Uuid) (D:=D)) (s : Server) :
    Server :=
  set_server_registry r.1 (set_controls r.2.1 (set_attempts r.2.2 s)).
Definition on_control (id : Uuid) (f : Control → Control) (s : Server) : Server :=
  set_controls (alter f id (controls s)) s.
(** The same update for every connection of the map. *)
Definition on_connections (f : Control → Control) (s : Server) : Server :=
  set_controls (map_imap (λ id k, Some (if decide (id ∈ connections s) then f k else k)) (controls s)) s.
Definition control_closed (id : Uuid) (s : Server) : bool := is_closed id (controls s, attempts s).
Definition wants_statistics (s : Server) (id : Uuid) : bool :=
  match controls s !! id with
  | Some k => statistics_enabled k && negb (control_is_closed k)
  | None => false
  end.

Definition refresh_demand (s : Server) : Server :=
  match tb_monitor (binding s) with
  | Some m => set_monitors
      (monitor_enable (existsb (wants_statistics s) (elements (connections s))) m (monitors s)) s
  | None => s
  end.

Definition set_env_tunnel_state (t : option TunnelState) (e : VpnEnv) : VpnEnv := {|
  env_tunnel_state := t; env_vpn_state := env_vpn_state e; env_vpnc_script := env_vpnc_script e;
  env_auth_executable := env_auth_executable e; env_host_info := env_host_info e |}.
Definition set_env_vpn_state (v : VpnState.t) (e : VpnEnv) : VpnEnv := {|
  env_tunnel_state := env_tunnel_state e; env_vpn_state := v; env_vpnc_script := env_vpnc_script e;
  env_auth_executable := env_auth_executable e; env_host_info := env_host_info e |}.
Definition server_snapshot (s : Server) : VpnEnv :=
  match tb_monitor (binding s) with
  | Some m => set_env_tunnel_state (Some (monitor_tunnel_state m (monitors s))) (snapshot s)
  | None => snapshot s
  end.

(** ** Fitting a snapshot into a frame *)
Definition encoded_size (c : TunnelConfiguration) : N :=
  match to_vec c with Some v => slen v | None => 0 end.
Definition set_state_configuration (c : TunnelConfiguration) (t : TunnelState) : TunnelState := {|
  tunnel_id := tunnel_id t; sequence := sequence t; phase := phase t;
  configuration_revision := configuration_revision t; configuration := Some c;
  transport := transport t; elapsed_ms := elapsed_ms t |}.
Definition message_snapshot (m : ServerMessage) : option (VpnEnv * (VpnEnv → ServerMessage)) :=
  match m with
  | ServerAttached c r e => Some (e, ServerAttached c r)
  | ServerSnapshot r e => Some (e, ServerSnapshot r)
  | _ => None
  end.
Definition fit_snapshot_message (m : ServerMessage) : option ServerMessage :=
  size ← slen <$> to_vec m;
  if size <=? MAX_PLAINTEXT then Some m
  else
    let excess := size - MAX_PLAINTEXT in
    '(env, rebuild) ← message_snapshot m;
    state ← env_tunnel_state env;
    c ← configuration state;
    csize ← slen <$> to_vec c;
    remaining ← checked_sub csize excess;
    '(fits, c) ← limit_encoded_size encoded_size (S (cut_measure c)) remaining c;
    if negb fits then None
    else
      let m := rebuild (set_env_tunnel_state (Some (set_state_configuration c state)) env) in
      size ← slen <$> to_vec m;
      if MAX_PLAINTEXT <? size then None else Some m.

(** ** Attaching *)

(** [establish] makes the control; [id] is the [Uuid] it draws. *)
Definition new_control (id : Uuid) (s : Server) : Server :=
  set_controls (<[id := control_new (channel CONNECTION_QUEUE)]> (controls s)) s.

(** The command is queued on the control; the flag says whether it was. *)
Definition send_command (c : ConnectionCommand) (id : Uuid) (s : Server) : bool * Server :=
  match controls s !! id with
  | Some k => let (sent, k) := control_send c k in (sent, set_controls (<[id := k]> (controls s)) s)
  | None => (false, s)
  end.

Definition prepare_connection (p : HandshakePermit) (id : Uuid) (s : Server) :
    result SessionError N * Server :=
  match answer (prepare_attach p) (registry_state s) with
  | Err e => (Err e, s)
  | Ok generation =>
      match fit_snapshot_message (ServerAttached id (revision s) (server_snapshot s)) with
      | None => (Err Unavailable, s)
      | Some attached =>
          let (sent, s) := send_command (Send attached) id s in
          if (sent : bool) then (Ok generation, set_connections ({[id]} ∪ connections s) s)
          else (Err Unavailable, s)
      end
  end.

Definition remove_id (id : Uuid) (s : Server) : Server :=
  set_connections (connections s ∖ {[id]}) s.

Definition commit_connection (p : HandshakePermit) (id : Uuid) (s : Server) :
    result SessionError (option Uuid) * Server :=
  if negb (bool_decide (id ∈ connections s)) || control_closed id s then (Err Unavailable, s)
  else
    let (r, st) := commit_attach p id (registry_state s) in
    let s := set_registry_state st s in
    match r with
    | Ok replaced =>
        let s := on_control id mark_committed s in
        let s := match replaced with
          | Some old => remove_id old (on_control old (control_set_statistics_enabled false) s)
          | None => s
          end in
        (Ok replaced, refresh_demand s)
    | Err e => (Err e, refresh_demand (remove_id id s))
    end.

Definition abandon_connection (id : Uuid) (s : Server) : Server := refresh_demand (remove_id id s).

Definition remove_closed_connections (s : Server) : Server :=
  refresh_demand (set_connections (filter (λ id, control_closed id s = false) (connections s)) s).

Definition remove_connection (id session : Uuid) (generation : N) (s : Server) : Server :=
  let s := set_registry_state (disconnect_if_current session generation (registry_state s)) s in
  refresh_demand (remove_id id s).

(** ** Telling the connections *)
Definition send_snapshot (id : Uuid) (s : Server) : bool * Server :=
  match fit_snapshot_message (ServerSnapshot (revision s) (server_snapshot s)) with
  | None => (false, s)
  | Some m => send_command (Send m) id s
  end.

Definition apply_event (ev : WsEvent.t) (e : VpnEnv) : VpnEnv :=
  match ev with
  | WsEvent.EvVpnEnv env => env
  | WsEvent.EvVpnState v => set_env_vpn_state v e
  | WsEvent.EvTunnelState t => set_env_tunnel_state t e
  | WsEvent.ActiveGui | WsEvent.ResumeConnection => e
  end.

(** One connection's part of the [retain] of [send_event]. *)
Definition offer_event (m : ServerMessage) (k : Control) : bool * Control :=
  let (sent, k) := control_send (Send m) k in
  if (sent : bool) then (true, k) else (false, control_close CloseReason.InternalError k).
Definition offered (m : ServerMessage) (s : Server) (id : Uuid) : bool :=
  match controls s !! id with Some k => (offer_event m k).1 | None => false end.

Definition send_event (ev : WsEvent.t) (s : Server) : Server :=
  let s := set_snapshot (apply_event ev (snapshot s)) s in
  match checked_add u64_max (revision s) 1 with
  | None => refresh_demand (set_connections ∅ (on_connections (control_close CloseReason.InternalError) s))
  | Some r =>
      let s := set_revision r s in
      let m := ServerEvent r ev in
      let keep := filter (λ id, offered m s id = true) (connections s) in
      refresh_demand (set_connections keep (on_connections (λ k, (offer_event m k).2) s))
  end.

(** ** Tunnel statistics *)
Definition no_monitor_snapshot (b : Binding) : TunnelStatisticsSnapshot :=
  unavailable (if tb_non_tunnel b then Tunnel.NonTunnel else Tunnel.NoTunnel).
Definition bound_statistics (s : Server) : TunnelStatisticsSnapshot :=
  match tb_monitor (binding s) with
  | Some m => monitor_snapshot m (monitors s)
  | None => no_monitor_snapshot (binding s)
  end.

Definition server_set_statistics_enabled (id session : Uuid) (generation : N) (enabled : bool)
    (s : Server) : ServiceResult * Server :=
  match controls s !! id with
  | None => (rejected InvalidRequest "Service attachment is no longer active", s)
  | Some k =>
      if negb (committed k) || control_is_closed k || negb (bool_decide (id ∈ connections s)) ||
         negb (is_current session generation (server_registry s))
      then (rejected InvalidRequest "Service attachment is no longer active", s)
      else
        let s := refresh_demand (on_control id (control_set_statistics_enabled enabled) s) in
        let view := bound_statistics s in
        (StatisticsSnapshotResult (if enabled then view else disabled view), s)
  end.

(** [bind_tunnel]: the first section answers the state its event then carries. *)
Definition bind_tunnel_first (b : Binding) (s : Server) : option TunnelState * Server :=
  let s := match tb_monitor (binding s) with
    | Some m => set_monitors (monitor_enable false m (monitors s)) s
    | None => s
    end in
  let s := refresh_demand (on_connections clear_statistics (set_binding b s)) in
  ((λ m, monitor_tunnel_state m (monitors s)) <$> tb_monitor (binding s), s).
Definition publish_all (s : Server) : Server :=
  on_connections (publish_statistics (bound_statistics s)) s.
Definition bind_tunnel (b : Binding) (s : Server) : Server :=
  let (t, s) := bind_tunnel_first b s in
  publish_all (send_event (WsEvent.EvTunnelState t) s).

(** [publish_tunnel]: the first section says which event is sent, if any. *)
Definition publish_tunnel_first (attempt : N) (s : Server) : option (option TunnelState) :=
  if negb (tb_attempt (binding s) =? attempt) then None
  else match tb_monitor (binding s) with
  | None => None
  | Some m =>
      let now := monitor_tunnel_state m (monitors s) in
      Some (match env_tunnel_state (snapshot s) with
            | Some previous =>
                if negb (tunnel_id previous =? tunnel_id now) ||
                   negb (sequence previous =? sequence now)
                then Some now else None
            | None => Some now
            end)
  end.
Definition publish_tunnel_last (attempt : N) (s : Server) : Server :=
  if negb (tb_attempt (binding s) =? attempt) then s
  else match tb_monitor (binding s) with
  | Some m => on_connections (publish_statistics (monitor_snapshot m (monitors s))) s
  | None => s
  end.
Definition publish_tunnel (attempt : N) (s : Server) : Server :=
  match publish_tunnel_first attempt s with
  | None => s
  | Some None => publish_tunnel_last attempt s
  | Some (Some now) => publish_tunnel_last attempt (send_event (WsEvent.EvTunnelState (Some now)) s)
  end.

(** [WsServerContext::new] *)
Definition server_new (env : VpnEnv) (r : Sessions) (a : A) (w : MW) : Server := {|
  revision := 0; snapshot := env; connections := ∅; binding := tunnel_binding_default;
  controls := ∅; server_registry := r; attempts := a; monitors := w |}.

(** * The server and its connection tasks *)

(** [delivered]: what the task of a connection has taken from its queue. *)
Record ServerSystem := {
  server : Server;
  delivered : gmap Uuid (list ConnectionCommand);
}.
Definition with_server (s : Server) (y : ServerSystem) : ServerSystem :=
  {| server := s; delivered := delivered y |}.

Inductive server_label :=
  | Prepare (p : HandshakePermit) (id : Uuid)
  | Commit (p : HandshakePermit) (id : Uuid)
  | Abandon (id : Uuid)
  | RemoveClosed
  | Resync (id : Uuid)
  | Remove (id session : Uuid) (generation : N)
  | Event (ev : WsEvent.t)
  | SetStatistics (id session : Uuid) (generation : N) (enabled : bool)
  | BindFirst (b : Binding)
  | PublishAll
  | PublishLast (attempt : N)
  | SendReply (id request : Uuid) (r : ServiceResult)
  | Deliver (id : Uuid)
  | DropReceiver (id : Uuid)
  | CloseControl (id : Uuid) (r : CloseReason.t)
  | RegistryWorld (r : Sessions) (a : A)
  | MonitorWorld (w : MW).

(** Nobody but the server sets the demand of a monitor, and a finished monitor stays so. *)
Definition monitor_kept (s : Server) (w : MW) : bool :=
  match tb_monitor (binding s) with
  | Some m => monitor_finished m w ||
      (negb (monitor_finished m (monitors s)) && Bool.eqb (monitor_demand m w) (monitor_demand m (monitors s)))
  | None => true
  end.

Definition server_step (y : ServerSystem) (l : server_label) : ServerSystem :=
  let s := server y in
  match l with
  | Prepare p id =>
      if decide (controls s !! id = None)
      then with_server (prepare_connection p id (new_control id s)).2 y else y
  | Commit p id => with_server (commit_connection p id s).2 y
  | Abandon id => with_server (abandon_connection id s) y
  | RemoveClosed => with_server (remove_closed_connections s) y
  | Resync id => with_server (send_snapshot id s).2 y
  | Remove id session generation => with_server (remove_connection id session generation s) y
  | Event ev => with_server (send_event ev s) y
  | SetStatistics id session generation b =>
      with_server (server_set_statistics_enabled id session generation b s).2 y
  | BindFirst b => with_server (bind_tunnel_first b s).2 y
  | PublishAll => with_server (publish_all s) y
  | PublishLast attempt => with_server (publish_tunnel_last attempt s) y
  | SendReply id request r => with_server (send_command (Reply request r) id s).2 y
  | Deliver id =>
      match controls s !! id with
      | Some k =>
          match recv (control_tx k) with
          | Some (c, q) => {|
              server := on_control id (set_control_tx q) s;
              delivered := <[id := default [] (delivered y !! id) ++ [c]]> (delivered y) |}
          | None => y
          end
      | None => y
      end
  | DropReceiver id => with_server (on_control id (λ k, set_control_tx (drop_receiver (control_tx k)) k) s) y
  | CloseControl id r => with_server (on_control id (control_close r) s) y
  | RegistryWorld r a => with_server (set_server_registry r (set_attempts a s)) y
  | MonitorWorld w => if monitor_kept s w then with_server (set_monitors w s) y else y
  end.

Definition system_start (env : VpnEnv) (r : Sessions) (a : A) (w : MW) : ServerSystem :=
  {| server := server_new env r a w; delivered := ∅ |}.

(** ** What a client makes of its messages *)
Definition follow (st : N * VpnEnv) (m : ServerMessage) : option (N * VpnEnv) :=
  match m with
  | ServerEvent r ev => if r =? st.1 + 1 then Some (r, apply_event ev st.2) else None
  | ServerSnapshot r e => if r =? st.1 then Some (r, e) else None
  | ServerAttached _ _ _ => None
  | _ => Some st
  end.
Fixpoint follow_all (st : N * VpnEnv) (ms : list ServerMessage) : option (N * VpnEnv) :=
  match ms with
  | [] => Some st
  | m :: ms => st ← follow st m; follow_all st ms
  end.
(** A client's view is the server's, up to the tunnel state, which a snapshot takes
    from the monitor. *)
Definition same_but_tunnel (e e' : VpnEnv) : Prop :=
  set_env_tunnel_state None e = set_env_tunnel_state None e'.

Definition sent_message (c : ConnectionCommand) : option ServerMessage :=
  match c with Send m => Some m | Reply _ _ => None end.
(** Every message queued for a connection so far. *)
Definition messages (y : ServerSystem) (id : Uuid) (k : Control) : list ServerMessage :=
  omap sent_message (default [] (delivered y !! id) ++ queued (control_tx k)).
End server.

(** * Theorems *)
Section server_theorems.
Context {Q : Type → Type} `{MpscLaws Q} {W : Type → Type} `{WatchLaws W}.
Context {A D R : Type} `{AttemptHandles A D R}.
Context {MW M : Type} `{MonitorLaws MW M} `{XmlTree}.
Context `{SerdeJson ServerMessage} `{SerdeJson TunnelConfiguration}.

Abbreviation Control := (ConnectionControl Q W) (only parsing).
Abbreviation Srv := (Server (Q:=Q) (W:=W) (A:=A) (D:=D) (MW:=MW) (M:=M)) (only parsing).
Abbreviation Sys := (ServerSystem (Q:=Q) (W:=W) (A:=A) (D:=D) (MW:=MW) (M:=M)) (only parsing).

(** ** Fitting a snapshot *)
Lemma fit_shape m m' :
  fit_snapshot_message m = Some m' →
  m' = m ∨ ∃ env rebuild st c c', message_snapshot m = Some (env, rebuild) ∧
    env_tunnel_state env = Some st ∧ configuration st = Some c ∧ configuration_cut c' c ∧
    m' = rebuild (set_env_tunnel_state (Some (set_state_configuration c' st)) env).
Proof.
  unfold fit_snapshot_message. destruct (to_vec m) as [v|]; [|done]. cbn [mbind option_bind fmap option_fmap option_map].
  destruct (_ <=? _); [intros [= ->]; by left|].
  destruct (message_snapshot m) as [[env rebuild]|] eqn:Hm; [|done]. cbn [mbind option_bind fmap option_fmap option_map].
  destruct (env_tunnel_state env) as [st|] eqn:Ht; [|done]. cbn [mbind option_bind fmap option_fmap option_map].
  destruct (configuration st) as [c|] eqn:Hc; [|done]. cbn [mbind option_bind fmap option_fmap option_map].
  destruct (to_vec c) as [cv|]; [|done]. cbn [mbind option_bind fmap option_fmap option_map].
  destruct (checked_sub _ _) as [remaining|]; [|done]. cbn [mbind option_bind fmap option_fmap option_map].
  destruct (limit_encoded_size_total encoded_size remaining c) as (b & c' & Hl & _ & Hcut & _).
  rewrite Hl. cbn [mbind option_bind fmap option_fmap option_map]. destruct b; [|done]. cbn [mbind option_bind fmap option_fmap option_map].
  destruct (to_vec (rebuild _)) as [v'|]; [|done]. cbn [mbind option_bind fmap option_fmap option_map]. destruct (_ <? _); [done|].
  intros [= <-]. right. by exists env, rebuild, st, c, c'.
Qed.
Lemma fit_size m m' :
  fit_snapshot_message m = Some m' → ∃ v, to_vec m' = Some v ∧ slen v ≤ MAX_PLAINTEXT.
Proof.
  unfold fit_snapshot_message. destruct (to_vec m) as [v|] eqn:Hv; [|done].
  cbn [mbind option_bind fmap option_fmap option_map].
  destruct (_ <=? _) eqn:Hle; [boolify; intros [= <-]; by exists v|].
  destruct (message_snapshot m) as [[env rebuild]|]; [|done]. cbn [mbind option_bind].
  destruct (env_tunnel_state env) as [st|]; [|done]. cbn [mbind option_bind].
  destruct (configuration st) as [c|]; [|done]. cbn [mbind option_bind].
  destruct (to_vec c); [|done]. cbn [mbind option_bind fmap option_fmap option_map].
  destruct (checked_sub _ _); [|done]. cbn [mbind option_bind].
  destruct (limit_encoded_size _ _ _ _) as [[[] c']|]; [|done|done]. cbn [mbind option_bind negb].
  destruct (to_vec (rebuild _)) as [v'|] eqn:Hv'; [|done].
  cbn [mbind option_bind fmap option_fmap option_map]. destruct (_ <? _) eqn:Hlt; [done|].
  boolify. intros [= <-]. by exists v'.
Qed.

(** A snapshot that leaves the service fits the frame: what [fit_snapshot_message]
    accepts encodes within the limit and differs from the message at most in its tunnel
    configuration, whose lists and texts are only cut from the end; a message that fits
    already is left alone, and an oversized one that carries no configuration is refused. *)
Lemma fit_snapshot_sound m m' :
  fit_snapshot_message m = Some m' →
  (∃ v, to_vec m' = Some v ∧ slen v ≤ MAX_PLAINTEXT) ∧
  (m' = m ∨ ∃ env rebuild st c c', message_snapshot m = Some (env, rebuild) ∧
     env_tunnel_state env = Some st ∧ configuration st = Some c ∧ configuration_cut c' c ∧
     m' = rebuild (set_env_tunnel_state (Some (set_state_configuration c' st)) env)) ∧
  (∀ v, to_vec m = Some v → slen v ≤ MAX_PLAINTEXT → m' = m).
Proof.
  intros Hf. split; [by eapply fit_size|]. split; [by apply fit_shape|].
  intros v Hv Hle. unfold fit_snapshot_message in Hf. rewrite Hv in Hf.
  cbn [mbind option_bind fmap option_fmap option_map] in Hf.
  rewrite (proj2 (N.leb_le _ _) Hle) in Hf. by injection Hf.
Qed.

(** ** Views *)
Lemma same_but_tunnel_set t e : same_but_tunnel (set_env_tunnel_state t e) e.
Proof. done. Qed.
Lemma same_but_tunnel_event ev e e' :
  same_but_tunnel e e' → same_but_tunnel (apply_event ev e) (apply_event ev e').
Proof.
  unfold same_but_tunnel. destruct e, e'. cbn. intros [= -> -> -> ->]. by destruct ev.
Qed.
Lemma server_snapshot_same (s : Srv) : same_but_tunnel (server_snapshot s) (snapshot s).
Proof. unfold server_snapshot. by destruct (tb_monitor _). Qed.
Lemma fit_attached id r e m :
  fit_snapshot_message (ServerAttached id r e) = Some m →
  ∃ e', m = ServerAttached id r e' ∧ same_but_tunnel e' e.
Proof.
  intros [-> |(env & f & st & c & c' & Hm & _ & _ & _ & ->)]%fit_shape; [by exists e|].
  injection Hm as -> <-. by eexists.
Qed.
Lemma fit_snapshot r e m :
  fit_snapshot_message (ServerSnapshot r e) = Some m →
  ∃ e', m = ServerSnapshot r e' ∧ same_but_tunnel e' e.
Proof.
  intros [-> |(env & f & st & c & c' & Hm & _ & _ & _ & ->)]%fit_shape; [by exists e|].
  injection Hm as -> <-. by eexists.
Qed.
Lemma follow_all_app st ms m :
  follow_all st (ms ++ [m]) = st' ← follow_all st ms; follow st' m.
Proof.
  revert st. induction ms as [|x ms IH]; intros st; cbn; [by destruct (follow st m)|].
  destruct (follow st x); cbn; [apply IH|done].
Qed.

(** What a connection was told brings its client to [r] and [e]. *)
Definition told (ms : list ServerMessage) (r : N) (e : VpnEnv) : Prop :=
  ∃ id r0 e0 rest e', ms = ServerAttached id r0 e0 :: rest ∧
    follow_all (r0, e0) rest = Some (r, e') ∧ same_but_tunnel e' e.
Lemma told_more ms m r e r' e' x :
  told ms r e → (∀ e0, same_but_tunnel e0 e → ∃ e1, follow (r, e0) m = Some (r', e1) ∧ same_but_tunnel e1 e') →
  x = ms ++ [m] → told x r' e'.
Proof.
  intros (id & r0 & e0 & rest & e2 & -> & Hf & Hs) Hm ->.
  destruct (Hm e2 Hs) as (e3 & Hm' & Hs').
  exists id, r0, e0, (rest ++ [m]), e3. split_and!; [done| |done].
  rewrite follow_all_app, Hf. exact Hm'.
Qed.

Record replica_inv (y : Sys) : Prop := {
  ri_controls id : id ∈ connections (server y) → is_Some (controls (server y) !! id);
  ri_delivered id : controls (server y) !! id = None → delivered y !! id = None;
  ri_told id k : id ∈ connections (server y) → controls (server y) !! id = Some k →
    receiver_closed (control_tx k) = false →
    told (messages y id k) (revision (server y)) (snapshot (server y));
}.

(** Steps that queue no message and take no connection in. *)
Record quiet (s s' : Srv) : Prop := {
  qu_revision : revision s' = revision s;
  qu_snapshot : snapshot s' = snapshot s;
  qu_connections : connections s' ⊆ connections s;
  qu_kept id k : controls s !! id = Some k → ∃ k', controls s' !! id = Some k' ∧
    control_tx k' = control_tx k;
  qu_known id : controls s !! id = None → controls s' !! id = None;
}.
Lemma quiet_refl s : quiet s s.
Proof. split; eauto. Qed.
Lemma quiet_trans s1 s2 s3 : quiet s1 s2 → quiet s2 s3 → quiet s1 s3.
Proof.
  intros [Hr1 Hs1 Hc1 Hk1 Hn1] [Hr2 Hs2 Hc2 Hk2 Hn2]. split; [congruence..|set_solver| |auto].
  intros id k Hk. destruct (Hk1 id k Hk) as (k1 & Hk' & Hq1).
  destruct (Hk2 id k1 Hk') as (k2 & Hk2' & Hq2). exists k2. split; [done|congruence].
Qed.
Lemma quiet_inv y s' : quiet (server y) s' → replica_inv y → replica_inv (with_server s' y).
Proof.
  intros [Hr Hs Hc Hk Hn] [Hcon Hdel Htold]. split; cbn.
  - intros id Hid. destruct (Hcon id ltac:(set_solver)) as [k Hk0].
    destruct (Hk id k Hk0) as (k' & ? & _). eauto.
  - intros id Hid. apply Hdel. destruct (controls (server y) !! id) as [k|] eqn:E; [|done].
    destruct (Hk id k E) as (k' & ? & _). congruence.
  - intros id k' Hid Hk' Hopen. destruct (Hcon id ltac:(set_solver)) as [k Hk0].
    destruct (Hk id k Hk0) as (k1 & Hk1 & Hq). rewrite Hk1 in Hk'. injection Hk' as ->.
    rewrite Hr, Hs. unfold messages. cbn. rewrite Hq.
    apply Htold; [set_solver|done|congruence].
Qed.

Lemma quiet_same (s s' : Srv) :
  revision s' = revision s → snapshot s' = snapshot s → connections s' ⊆ connections s →
  controls s' = controls s → quiet s s'.
Proof.
  intros Hr Hs Hc Hk. split; [done..| |]; intros id; rewrite Hk; [|done].
  intros k Hid. by exists k.
Qed.
Lemma quiet_refresh s : quiet s (refresh_demand s).
Proof. unfold refresh_demand. destruct (tb_monitor _); by apply quiet_same. Qed.
Lemma lookup_on_control id f (s : Srv) j :
  controls (on_control id f s) !! j =
  if decide (j = id) then f <$> controls s !! j else controls s !! j.
Proof.
  change (controls (on_control id f s)) with (alter f id (controls s)). case_decide.
  - subst. apply lookup_alter_eq.
  - by apply lookup_alter_ne.
Qed.
Lemma lookup_on_connections f (s : Srv) j :
  controls (on_connections f s) !! j =
  if decide (j ∈ connections s) then f <$> controls s !! j else controls s !! j.
Proof.
  change (controls (on_connections f s)) with
    (map_imap (λ id k, Some (if decide (id ∈ connections s) then f k else k)) (controls s)).
  rewrite map_lookup_imap. destruct (controls s !! j); cbn; by case_decide.
Qed.
Lemma quiet_alter id f (s : Srv) :
  (∀ k, control_tx (f k) = control_tx k) → quiet s (on_control id f s).
Proof.
  intros Hf. split; try done; intros j; rewrite lookup_on_control.
  - intros k Hk. rewrite Hk. case_decide; eauto.
  - intros ->. by case_decide.
Qed.
Lemma quiet_imap f (s : Srv) :
  (∀ k, control_tx (f k) = control_tx k) → quiet s (on_connections f s).
Proof.
  intros Hf. split; try done; intros j; rewrite lookup_on_connections.
  - intros k Hk. rewrite Hk. case_decide; eauto.
  - intros ->. by case_decide.
Qed.

(** ** The quiet operations *)
Lemma commit_attach_controls p id (st : State (World:=gmap Uuid Control * A) (C:=Uuid) (D:=D)) :
  (after (commit_attach p id) st).2.1 = st.2.1.
Proof.
  unfold commit_attach. destruct st as [reg [ctl att]].
  stm_unfold. unfold locked. cbn. destruct (poisoned reg); [done|].
  unfold get_record, put_record, world_effect. cbn.
  destruct (sessions reg !! _) as [rec|]; cbn; [|done].
  destruct (permit_current p rec); cbn; [|done].
  destruct (status rec) as [|g c t]; cbn; [done|].
  destruct (non_tunnel rec); cbn; by destruct (checked_add _ g 1).
Qed.
Lemma disconnect_controls id g (st : State (World:=gmap Uuid Control * A) (C:=Uuid) (D:=D)) :
  (disconnect_if_current id g st).2.1 = st.2.1.
Proof.
  unfold disconnect_if_current, effect. destruct st as [reg [ctl att]]. cbn.
  destruct (poisoned reg); [done|]. destruct (sessions reg !! id) as [rec|]; [|done].
  destruct (non_tunnel rec) as [a|]; [destruct (att_generation a =? g)|];
    destruct (status rec) as [|g' c t]; try done; by destruct (g' =? g).
Qed.
Lemma quiet_registry (s : Srv) st : st.2.1 = controls s → quiet s (set_registry_state st s).
Proof. intros Hc. by apply quiet_same. Qed.
Lemma quiet_remove id (s : Srv) : quiet s (remove_id id s).
Proof. apply quiet_same; try done. cbn. set_solver. Qed.

Lemma set_statistics_tx b (k : Control) : control_tx (control_set_statistics_enabled b k) = control_tx k.
Proof. by destruct b. Qed.
Lemma publish_statistics_tx v (k : Control) : control_tx (publish_statistics v k) = control_tx k.
Proof. unfold publish_statistics. by destruct (_ && _). Qed.

Lemma quiet_commit p id (s : Srv) : quiet s (commit_connection p id s).2.
Proof.
  unfold commit_connection. destruct (_ || _); [apply quiet_refl|].
  pose proof (commit_attach_controls p id (registry_state s)) as Hc. unfold after in Hc.
  destruct (commit_attach p id (registry_state s)) as [[replaced|e] st]; cbn in Hc |- *.
  - eapply quiet_trans; [by apply (quiet_registry s st)|].
    eapply quiet_trans; [|apply quiet_refresh].
    eapply quiet_trans; [by apply (quiet_alter id mark_committed)|].
    destruct replaced as [old|]; [|apply quiet_refl].
    eapply quiet_trans; [|apply quiet_remove].
    apply quiet_alter. intros k. apply set_statistics_tx.
  - eapply quiet_trans; [by apply (quiet_registry s st)|].
    eapply quiet_trans; [|apply quiet_refresh]. apply quiet_remove.
Qed.
Lemma quiet_abandon id (s : Srv) : quiet s (abandon_connection id s).
Proof. eapply quiet_trans; [apply quiet_remove|apply quiet_refresh]. Qed.
Lemma quiet_remove_closed (s : Srv) : quiet s (remove_closed_connections s).
Proof.
  eapply quiet_trans; [|apply quiet_refresh]. apply quiet_same; try done. cbn. set_solver.
Qed.
Lemma quiet_remove_connection id session g (s : Srv) : quiet s (remove_connection id session g s).
Proof.
  unfold remove_connection. eapply quiet_trans; 
    [apply quiet_registry, (disconnect_controls session g (registry_state s))|].
  apply quiet_abandon.
Qed.
Lemma quiet_set_statistics id session g b (s : Srv) :
  quiet s (server_set_statistics_enabled id session g b s).2.
Proof.
  unfold server_set_statistics_enabled. destruct (controls s !! id) as [k|]; [|apply quiet_refl].
  destruct (_ || _); [apply quiet_refl|]. cbn.
  eapply quiet_trans; [|apply quiet_refresh]. apply quiet_alter. intros k'. apply set_statistics_tx.
Qed.
Lemma quiet_publish_all (s : Srv) : quiet s (publish_all s).
Proof. apply quiet_imap. intros k. apply publish_statistics_tx. Qed.
Lemma quiet_publish_last attempt (s : Srv) : quiet s (publish_tunnel_last attempt s).
Proof.
  unfold publish_tunnel_last. destruct (negb _); [apply quiet_refl|].
  destruct (tb_monitor _); [|apply quiet_refl]. apply quiet_imap. intros k. apply publish_statistics_tx.
Qed.
Lemma quiet_bind b (s : Srv) : quiet s (bind_tunnel_first b s).2.
Proof.
  unfold bind_tunnel_first. cbn. eapply quiet_trans; [|apply quiet_refresh].
  set (s1 := match tb_monitor (binding s) with Some _ => _ | None => _ end).
  apply (quiet_trans _ (set_binding b s1)).
  - unfold s1. destruct (tb_monitor _); by apply quiet_same.
  - by apply quiet_imap.
Qed.

(** ** The operations that queue messages *)
Lemma send_command_spec c id (s : Srv) k :
  controls s !! id = Some k →
  ((send_command c id s).1 = true ∧ receiver_closed (control_tx k) = false ∧
   ∃ q, (send_command c id s).2 = set_controls (<[id := set_control_tx q k]> (controls s)) s ∧
        queued q = queued (control_tx k) ++ [c] ∧ receiver_closed q = false) ∨
  ((send_command c id s).1 = false ∧ (send_command c id s).2 = s).
Proof.
  intros Hk. unfold send_command, control_send. rewrite Hk.
  assert (set_controls (<[id := set_control_tx (control_tx k) k]> (controls s)) s = s) as Hsame.
  { destruct k, s. unfold set_controls, set_control_tx. cbn in *. f_equal. by apply insert_id. }
  pose proof (try_send_spec c (control_tx k)) as Hs.
  destruct (receiver_closed (control_tx k)) eqn:Hc; [|destruct (decide _) in Hs].
  - rewrite Hs. right. split; [done|exact Hsame].
  - destruct (try_send c (control_tx k)) as [r q]. cbn in Hs. destruct Hs as (-> & Hq & _ & Hr).
    left. split_and!; [done|done|]. by exists q.
  - rewrite Hs. right. split; [done|exact Hsame].
Qed.

Lemma messages_send (y : Sys) id (k : Control) q c s' :
  queued q = queued (control_tx k) ++ [c] →
  messages (with_server s' y) id (set_control_tx q k) =
  messages y id k ++ option_list (sent_message c).
Proof.
  intros Hq. unfold messages at 1. cbn. rewrite Hq, app_assoc, omap_app.
  by destruct c.
Qed.

(** A command queued on one control, with a client that takes it. *)
Lemma send_command_inv c id (y : Sys) :
  replica_inv y →
  (∀ m e0, sent_message c = Some m → same_but_tunnel e0 (snapshot (server y)) →
     ∃ e1, follow (revision (server y), e0) m = Some (revision (server y), e1) ∧
       same_but_tunnel e1 (snapshot (server y))) →
  replica_inv (with_server (send_command c id (server y)).2 y).
Proof.
  intros Hinv Hm. destruct (controls (server y) !! id) as [k|] eqn:Hk.
  2: { unfold send_command. rewrite Hk. by destruct y. }
  destruct (send_command_spec c id (server y) k Hk) as [(_ & Hopen & q & -> & Hq & Hc)|[_ ->]];
    [|by destruct y].
  destruct Hinv as [Hcon Hdel Htold]. split; cbn.
  - intros j Hj. destruct (decide (j = id)) as [-> |Hne].
    + rewrite lookup_insert_eq. eauto.
    + rewrite lookup_insert_ne by done. auto.
  - intros j Hj. apply Hdel. destruct (decide (j = id)) as [-> |Hne].
    + by rewrite lookup_insert_eq in Hj.
    + by rewrite lookup_insert_ne in Hj.
  - intros j k' Hj Hk' Hopen'. destruct (decide (j = id)) as [-> |Hne].
    + rewrite lookup_insert_eq in Hk'. injection Hk' as <-.
      rewrite (messages_send y id k q c) by done. specialize (Htold id k Hj Hk Hopen).
      destruct (sent_message c) as [m|] eqn:Hsc; cbn; [|by rewrite app_nil_r].
      eapply told_more; [exact Htold| |done]. intros e0. by apply Hm.
    + rewrite lookup_insert_ne in Hk' by done. by apply Htold.
Qed.
Lemma resync_inv id (y : Sys) :
  replica_inv y → replica_inv (with_server (send_snapshot id (server y)).2 y).
Proof.
  intros Hinv. unfold send_snapshot.
  destruct (fit_snapshot_message _) as [m|] eqn:Hf; [|by destruct y].
  apply fit_snapshot in Hf as (e' & -> & He'). apply send_command_inv; [done|].
  intros m e0 [= <-] _. exists e'. cbn. rewrite N.eqb_refl. split; [done|].
  unfold same_but_tunnel in *. rewrite He'. apply server_snapshot_same.
Qed.
Lemma reply_inv id request r (y : Sys) :
  replica_inv y → replica_inv (with_server (send_command (Reply request r) id (server y)).2 y).
Proof. intros Hinv. by apply send_command_inv. Qed.

Lemma prepare_inv p id (y : Sys) :
  controls (server y) !! id = None → replica_inv y →
  replica_inv (with_server (prepare_connection p id (new_control id (server y))).2 y).
Proof.
  intros Hnew Hinv. set (s := new_control id (server y)).
  assert (id ∉ connections (server y)) as Hout.
  { intros Hid. destruct (ri_controls y Hinv id Hid). congruence. }
  assert (replica_inv (with_server s y) ∧ controls s !! id = Some (control_new (channel CONNECTION_QUEUE)))
    as [Hs Hk].
  { split; [|apply lookup_insert_eq]. destruct Hinv as [Hcon Hdel Htold]. split; cbn.
    - intros j Hj. rewrite lookup_insert_ne by congruence. auto.
    - intros j Hj. apply Hdel. destruct (decide (j = id)) as [-> |Hne]; [done|].
      by rewrite lookup_insert_ne in Hj.
    - intros j k Hj Hk Hopen. rewrite lookup_insert_ne in Hk by congruence. by apply Htold. }
  unfold prepare_connection. destruct (answer _ _) as [g|e]; [|done].
  destruct (fit_snapshot_message _) as [m|] eqn:Hf; [|done].
  apply fit_attached in Hf as (e' & -> & He').
  destruct (send_command_spec (Send (ServerAttached id (revision s) e')) id s _ Hk)
    as [(Hok & _ & q & Heq & Hq & Hc)|[Hok Heq]];
    destruct (send_command _ id s) as [sent s']; cbn in Hok, Heq; subst sent s'; [|done].
  pose proof (ri_delivered y Hinv id Hnew) as Hnone.
  destruct Hs as [Hcon Hdel Htold]. split; cbn -[s].
  - intros j Hj. destruct (decide (j = id)) as [-> |Hne].
    + rewrite lookup_insert_eq. eauto.
    + rewrite lookup_insert_ne by done. apply Hcon. cbn -[s]. set_solver.
  - intros j Hj. apply Hdel. cbn -[s]. destruct (decide (j = id)) as [-> |Hne].
    + by rewrite lookup_insert_eq in Hj.
    + by rewrite lookup_insert_ne in Hj.
  - intros j k Hj Hk' Hopen. destruct (decide (j = id)) as [-> |Hne].
    + rewrite lookup_insert_eq in Hk'. injection Hk' as <-.
      unfold messages. cbn -[s]. rewrite Hnone, Hq. cbn.
      destruct (channel_empty (A:=ConnectionCommand) CONNECTION_QUEUE) as (-> & _). cbn -[s].
      exists id, (revision s), e', [], e'. split_and!; [done..|].
      etransitivity; [exact He'|exact (server_snapshot_same s)].
    + rewrite lookup_insert_ne in Hk' by done. apply (Htold j k); [|done|done]. cbn -[s]. set_solver.
Qed.

Lemma offer_event_spec m (k : Control) :
  ((offer_event m k).1 = true ∧ receiver_closed (control_tx k) = false ∧
   queued (control_tx (offer_event m k).2) = queued (control_tx k) ++ [Send m]) ∨
  (offer_event m k).1 = false.
Proof.
  unfold offer_event, control_send. pose proof (try_send_spec (Send m) (control_tx k)) as Hs.
  destruct (receiver_closed (control_tx k)) eqn:Hc; [rewrite Hs; by right|].
  destruct (decide _) in Hs; [|rewrite Hs; by right].
  destruct (try_send _ _) as [r q]. cbn in Hs. destruct Hs as (-> & Hq & _). by left.
Qed.

Lemma send_event_inv ev (y : Sys) :
  replica_inv y → replica_inv (with_server (send_event ev (server y)) y).
Proof.
  intros [Hcon Hdel Htold]. unfold send_event. set (s0 := set_snapshot _ _).
  destruct (checked_add u64_max (revision s0) 1) as [r|] eqn:Hr.
  - apply checked_add_Some in Hr as [Hr _].
    set (m := ServerEvent r ev). set (s1 := set_revision r s0).
    set (keep := filter _ _). set (f := λ k : Control, (offer_event m k).2).
    apply (quiet_inv (with_server (set_connections keep (on_connections f s1)) y));
      [apply quiet_refresh|].
    assert (∀ j, controls (on_connections f s1) !! j =
      if decide (j ∈ connections (server y)) then f <$> controls (server y) !! j
      else controls (server y) !! j) as Hlk by exact (lookup_on_connections f s1).
    split; cbn -[on_connections].
    + intros j [_ Hj]%elem_of_filter. change (connections s1) with (connections (server y)) in Hj.
      rewrite Hlk. case_decide; [|by apply Hcon]. destruct (Hcon j Hj) as [k ->]. by eexists.
    + intros j. rewrite Hlk. case_decide as Hj; [|auto].
      destruct (Hcon j Hj) as [k ->]. done.
    + intros j k' [Hoff Hj]%elem_of_filter Hk' Hopen.
      change (connections s1) with (connections (server y)) in Hj.
      rewrite Hlk in Hk'. rewrite decide_True in Hk' by done.
      destruct (controls (server y) !! j) as [k|] eqn:Hk; [|done]. injection Hk' as <-.
      unfold offered in Hoff. change (controls s1) with (controls (server y)) in Hoff.
      rewrite Hk in Hoff.
      destruct (offer_event_spec m k) as [(_ & Hopen0 & Hq)|Hno]; [|congruence].
      eapply (told_more _ m); [by apply (Htold j k)| |].
      * intros e0 He0. exists (apply_event ev e0).
        change (follow (revision (server y), e0) m) with
          (if r =? revision (server y) + 1 then Some (r, apply_event ev e0) else None).
        rewrite (proj2 (N.eqb_eq r (revision (server y) + 1)) Hr). split; [done|]. by apply same_but_tunnel_event.
      * unfold messages, f. cbn. by rewrite Hq, app_assoc, omap_app.
  - set (f := control_close _).
    apply (quiet_inv (with_server (set_connections ∅ (on_connections f s0)) y));
      [apply quiet_refresh|].
    split; cbn -[on_connections]; [set_solver| |set_solver].
    intros j. change (on_connections f s0) with (on_connections f s0).
    pose proof (lookup_on_connections f s0 j) as Hlk. rewrite Hlk. intros Hnone. apply Hdel.
    case_decide; [|done]. change (controls s0) with (controls (server y)) in Hnone.
    by destruct (controls (server y) !! j).
Qed.

Lemma deliver_inv id (y : Sys) : replica_inv y → replica_inv (server_step y (Deliver id)).
Proof.
  intros [Hcon Hdel Htold]. cbn -[on_control]. destruct (controls (server y) !! id) as [k|] eqn:Hk; [|by split].
  pose proof (recv_spec (control_tx k)) as Hr. destruct (queued (control_tx k)) as [|c cs] eqn:Hq.
  { rewrite Hr. by split. }
  destruct Hr as (q & -> & Hqd & _ & Hcl).
  split; cbn -[on_control].
  - intros j Hj. rewrite lookup_on_control. destruct (Hcon j Hj) as [k' ->]. case_decide; by eexists.
  - intros j. rewrite lookup_on_control. case_decide as Hj; [subst; by rewrite Hk|].
    rewrite lookup_insert_ne by done. apply Hdel.
  - intros j k' Hj. rewrite lookup_on_control. case_decide as Hid.
    + subst j. rewrite Hk. intros [= <-]. cbn. rewrite Hcl. intros Hopen.
      unfold messages. cbn. rewrite lookup_insert_eq. cbn. rewrite Hqd, <- app_assoc. cbn [app].
      rewrite <- Hq. by apply (Htold id k).
    + intros Hk' Hopen. unfold messages. cbn. rewrite lookup_insert_ne by done.
      by apply (Htold j k').
Qed.

Lemma drop_receiver_inv id (y : Sys) :
  replica_inv y → replica_inv (server_step y (DropReceiver id)).
Proof.
  intros [Hcon Hdel Htold]. split; cbn -[on_control].
  - intros j Hj. rewrite lookup_on_control. destruct (Hcon j Hj) as [k' ->]. case_decide; by eexists.
  - intros j. rewrite lookup_on_control. case_decide; [|apply Hdel].
    intros Hn%fmap_None. by apply Hdel.
  - intros j k' Hj. rewrite lookup_on_control. case_decide; [|by apply Htold].
    intros (k & _ & ->)%fmap_Some. cbn. by rewrite drop_receiver_closed.
Qed.

Lemma server_step_replica y l : replica_inv y → replica_inv (server_step y l).
Proof.
  intros Hinv. destruct l as [p id|p id|id| |id|id ss g|ev|id ss g b|b| |k|id q r|id|id|id r|r a|w];
    try (by apply deliver_inv); cbn -[on_control].
  - destruct (decide _); [|done]. by apply prepare_inv.
  - apply quiet_inv; [apply quiet_commit|done].
  - apply quiet_inv; [apply quiet_abandon|done].
  - apply quiet_inv; [apply quiet_remove_closed|done].
  - by apply resync_inv.
  - apply quiet_inv; [apply quiet_remove_connection|done].
  - by apply send_event_inv.
  - apply quiet_inv; [apply quiet_set_statistics|done].
  - apply quiet_inv; [apply quiet_bind|done].
  - apply quiet_inv; [apply quiet_publish_all|done].
  - apply quiet_inv; [apply quiet_publish_last|done].
  - by apply reply_inv.
  - by apply drop_receiver_inv.
  - apply quiet_inv; [|done]. apply quiet_alter. done.
  - apply quiet_inv; [|done]. by apply quiet_same.
  - destruct (monitor_kept _ _); [|done]. apply quiet_inv; [|done]. by apply quiet_same.
Qed.
Lemma send_command_revision c id (s : Srv) : revision (send_command c id s).2 = revision s.
Proof. unfold send_command. destruct (controls s !! id); [|done]. by destruct (control_send _ _). Qed.
(** Revisions stay 64 bits wide. *)
Lemma server_step_revision y l : revision (server y) ≤ u64_max →
  revision (server (server_step y l)) ≤ u64_max.
Proof.
  intros Hr. assert (∀ s', quiet (server y) s' → revision s' ≤ u64_max) as Hq by (by intros s' [-> _ _ _ _]).
  destruct l as [p id|p id|id| |id|id ss g|ev|id ss g b|b| |k|id q r|id|id|id r|r a|w]; cbn -[on_control].
  - destruct (decide _); [|done]. unfold prepare_connection.
    destruct (answer _ _); [|done]. destruct (fit_snapshot_message _) as [m|]; [|done].
    set (s1 := new_control id (server y)) in *.
    pose proof (send_command_revision (Send m) id s1) as Hs.
    destruct (send_command (Send m) id s1) as [[] s2]; cbn in *; by rewrite Hs.
  - apply Hq, quiet_commit.
  - apply Hq, quiet_abandon.
  - apply Hq, quiet_remove_closed.
  - unfold send_snapshot. destruct (fit_snapshot_message _); [|done]. by rewrite send_command_revision.
  - apply Hq, quiet_remove_connection.
  - unfold send_event. cbn. destruct (checked_add u64_max (revision (server y)) 1) eqn:E; cbn.
    + apply checked_add_Some in E as [-> ?]. unfold refresh_demand. by destruct (tb_monitor _).
    + unfold refresh_demand. by destruct (tb_monitor _).
  - apply Hq, quiet_set_statistics.
  - apply Hq, quiet_bind.
  - done.
  - first [done | apply Hq, quiet_publish_last].
  - by rewrite send_command_revision.
  - destruct (controls (server y) !! id) as [c|]; [|done]. by destruct (recv _) as [[? ?]|].
  - done.
  - done.
  - done.
  - by destruct (monitor_kept _ _).
Qed.
Lemma replica_start env r (a : A) (w : MW) : replica_inv (system_start env r a w).
Proof. split; cbn; [set_solver|done|set_solver]. Qed.

(** C6: every client follows the server. Whatever the clients, the registry and the
    tunnels do, what was queued for a connection of the map whose task still listens
    starts with its [Attached] message, its events carry consecutive revisions without
    a gap or a repetition, a snapshot carries the revision reached, and replaying all of
    it gives the server's revision and snapshot (up to the monitored tunnel state). *)
Theorem clients_follow env r (a : A) (w : MW) ls id k :
  let y := runs server_step (system_start env r a w) ls in
  id ∈ connections (server y) → controls (server y) !! id = Some k →
  receiver_closed (control_tx k) = false →
  ∃ id' r0 e0 rest e, messages y id k = ServerAttached id' r0 e0 :: rest ∧
    follow_all (r0, e0) rest = Some (revision (server y), e) ∧
    same_but_tunnel e (snapshot (server y)).
Proof.
  intros y Hid Hk Hopen. assert (replica_inv y) as Hinv.
  { apply (runs_invariant server_step replica_inv); [|apply replica_start].
    intros ? ?. apply server_step_replica. }
  by apply (ri_told y Hinv).
Qed.

(** ** Statistics *)

(** The bound tunnel's monitor samples while some attached client listens for it. *)
Definition fed (s : Srv) : Prop := ∀ m,
  tb_monitor (binding s) = Some m → monitor_finished m (monitors s) = false →
  ∀ id, id ∈ connections s → wants_statistics s id = true → monitor_demand m (monitors s) = true.
Definition enabled_committed (s : Srv) : Prop := ∀ id k,
  controls s !! id = Some k → statistics_enabled k = true → committed k = true.

Lemma refresh_fed (s : Srv) : fed (refresh_demand s).
Proof.
  unfold refresh_demand. intros m. destruct (tb_monitor (binding s)) as [m'|] eqn:Hb; cbn; [|congruence].
  rewrite Hb. intros [= ->] Hf id Hid Hw. rewrite monitor_demand_enable by done. apply existsb_exists. exists id.
  split; [|exact Hw]. by apply list_elem_of_In, elem_of_elements.
Qed.
Lemma refresh_controls (s : Srv) : controls (refresh_demand s) = controls s.
Proof. unfold refresh_demand. by destruct (tb_monitor _). Qed.

(** Controls that ask for no more than before, on the same binding and monitors. *)
Lemma fed_frame (s s' : Srv) :
  binding s' = binding s → monitors s' = monitors s →
  (∀ id, id ∈ connections s' → wants_statistics s' id = true →
     id ∈ connections s ∧ wants_statistics s id = true) →
  fed s → fed s'.
Proof.
  intros Hb Hm Hw Hf m. rewrite Hb, Hm. intros Hbm Hfin id Hid Hwid.
  destruct (Hw id Hid Hwid). by apply (Hf m Hbm Hfin id).
Qed.

(** An update of a control that keeps its switches, or only turns statistics off. *)
Definition modest (f : Control → Control) : Prop := ∀ k,
  committed (f k) = committed k ∧ (statistics_enabled (f k) = true → statistics_enabled k = true) ∧
  (statistics_enabled (f k) = true → control_is_closed (f k) = false → control_is_closed k = false).
Lemma modest_wants f (s s' : Srv) id :
  modest f → controls s' !! id = f <$> controls s !! id ∨ controls s' !! id = controls s !! id →
  wants_statistics s' id = true → wants_statistics s id = true.
Proof.
  intros Hf Hk. unfold wants_statistics. destruct (controls s !! id) as [k|].
  - destruct Hk as [-> | ->]; cbn; [|done]. destruct (Hf k) as (_ & He & Hc). intros Hw. boolify.
    rewrite He, Hc by done. done.
  - destruct Hk as [-> | ->]; done.
Qed.
Lemma modest_committed f (s s' : Srv) :
  modest f →
  (∀ id, controls s' !! id = f <$> controls s !! id ∨ controls s' !! id = controls s !! id) →
  enabled_committed s → enabled_committed s'.
Proof.
  intros Hf Hk Hec id k'. destruct (Hk id) as [-> | ->]; [|apply Hec].
  destruct (controls s !! id) as [k|] eqn:E; [|done]. cbn. intros [= <-].
  destruct (Hf k) as (-> & He & _). intros Hen. by apply (Hec id k E), He.
Qed.

Lemma modest_off : modest (control_set_statistics_enabled false).
Proof. by intros k. Qed.
Lemma modest_close r : modest (control_close r).
Proof. by intros k. Qed.
Lemma modest_clear : modest clear_statistics.
Proof. by intros k. Qed.
Lemma modest_publish v : modest (publish_statistics v).
Proof. intros k. unfold publish_statistics. by destruct (_ && _). Qed.
Lemma modest_queue (f : Q ConnectionCommand → Q ConnectionCommand) :
  (∀ q, receiver_closed (f q) = false → receiver_closed q = false) →
  modest (λ k, set_control_tx (f (control_tx k)) k).
Proof.
  intros Hf k. split_and!; [done|done|]. intros _. unfold control_is_closed. cbn.
  intros Hc. boolify. rewrite Hf by done. cbn. by apply bool_decide_eq_false_2.
Qed.
Lemma send_closed c (q : Q ConnectionCommand) :
  receiver_closed (try_send c q).2 = false → receiver_closed q = false.
Proof.
  pose proof (try_send_spec c q) as Hs. destruct (receiver_closed q) eqn:E; [|done].
  rewrite Hs. cbn. congruence.
Qed.
Definition received (q : Q ConnectionCommand) : Q ConnectionCommand :=
  match recv q with Some (_, q') => q' | None => q end.
Lemma received_closed q : receiver_closed (received q) = false → receiver_closed q = false.
Proof.
  unfold received. pose proof (recv_spec q) as Hr. destruct (queued q); [by rewrite Hr|].
  destruct Hr as (q' & -> & _ & _ & <-). done.
Qed.
Lemma modest_offer m : modest (λ k, (offer_event m k).2).
Proof.
  intros k. unfold offer_event, control_send.
  pose proof (modest_queue (λ q, (try_send (Send m) q).2) (send_closed _) k) as Hq.
  destruct (try_send (Send m) (control_tx k)) as [r q] eqn:E. cbn in Hq |- *.
  rewrite E in Hq. destruct (bool_decide (r = Sent)); [exact Hq|]. cbn. split_and!; [done|done|done].
Qed.

Record statistics_inv (s : Srv) : Prop := {
  si_committed : enabled_committed s;
  si_fed : fed s;
}.
Lemma modest_control id f (s : Srv) :
  modest f → statistics_inv s → statistics_inv (on_control id f s).
Proof.
  intros Hf [Hec Hfed].
  assert (∀ j, controls (on_control id f s) !! j = f <$> controls s !! j ∨
    controls (on_control id f s) !! j = controls s !! j) as Hk.
  { intros j. rewrite lookup_on_control. case_decide; auto. }
  split; [by eapply modest_committed|].
  apply (fed_frame s); [done..| |done]. intros j Hj Hw. split; [exact Hj|].
  by eapply (modest_wants f s _ j Hf (Hk j)).
Qed.
Lemma modest_connections f (s : Srv) :
  modest f → statistics_inv s → statistics_inv (on_connections f s).
Proof.
  intros Hf [Hec Hfed].
  assert (∀ j, controls (on_connections f s) !! j = f <$> controls s !! j ∨
    controls (on_connections f s) !! j = controls s !! j) as Hk.
  { intros j. rewrite lookup_on_connections. case_decide; auto. }
  split; [by eapply modest_committed|].
  apply (fed_frame s); [done..| |done]. intros j Hj Hw. split; [exact Hj|].
  by eapply (modest_wants f s _ j Hf (Hk j)).
Qed.
Lemma modest_connections_committed f (s : Srv) :
  modest f → enabled_committed s → enabled_committed (on_connections f s).
Proof.
  intros Hf. apply (modest_committed f); [done|]. intros j. rewrite lookup_on_connections.
  case_decide; auto.
Qed.
(** What ends in [refresh_demand] only has to keep the switches right. *)
Lemma refreshed (s : Srv) : enabled_committed s → statistics_inv (refresh_demand s).
Proof.
  intros Hec. split; [|apply refresh_fed]. intros id k. rewrite refresh_controls. apply Hec.
Qed.
Lemma committed_same (s s' : Srv) :
  controls s' = controls s → enabled_committed s → enabled_committed s'.
Proof. intros Hc Hec id k. rewrite Hc. apply Hec. Qed.

Lemma mark_committed_ok id (s : Srv) :
  enabled_committed s → enabled_committed (on_control id mark_committed s).
Proof.
  intros Hec j k. rewrite lookup_on_control. case_decide; [|apply Hec].
  destruct (controls s !! j); [|done]. by intros [= <-].
Qed.
Lemma commit_statistics p id (s : Srv) :
  statistics_inv s → statistics_inv (commit_connection p id s).2.
Proof.
  intros Hinv. unfold commit_connection. destruct (_ || _); [done|].
  pose proof (commit_attach_controls p id (registry_state s)) as Hc. unfold after in Hc.
  destruct (commit_attach p id (registry_state s)) as [[replaced|e] st]; cbn in Hc |- *.
  - apply refreshed.
    assert (enabled_committed (on_control id mark_committed (set_registry_state st s))) as Hec.
    { apply mark_committed_ok. apply (committed_same s); [done|apply Hinv]. }
    destruct replaced as [old|]; [|done].
    apply (modest_committed (control_set_statistics_enabled false)
      (on_control id mark_committed (set_registry_state st s))); [apply modest_off| |done].
    intros j. unfold remove_id. change (controls (set_connections ?c ?x)) with (controls x).
    rewrite lookup_on_control. case_decide; auto.
  - apply refreshed. apply (committed_same s); [done|apply Hinv].
Qed.
Lemma new_control_statistics id (s : Srv) :
  controls s !! id = None → statistics_inv s → statistics_inv (new_control id s).
Proof.
  intros Hnew [Hec Hfed]. split.
  - intros j k Hk. cbn in Hk. destruct (decide (j = id)) as [-> |Hne].
    + rewrite lookup_insert_eq in Hk. by injection Hk as <-.
    + rewrite lookup_insert_ne in Hk by done. by apply (Hec j).
  - apply (fed_frame s); [done..| |done]. intros j Hj Hw. split; [exact Hj|].
    revert Hw. unfold wants_statistics. cbn. destruct (decide (j = id)) as [-> |Hne].
    + by rewrite lookup_insert_eq.
    + by rewrite lookup_insert_ne.
Qed.
Lemma send_command_statistics c id (s : Srv) :
  statistics_inv s → statistics_inv (send_command c id s).2.
Proof.
  intros Hinv. destruct (controls s !! id) as [k|] eqn:Hk.
  2: { unfold send_command. by rewrite Hk. }
  pose proof (modest_control id _ s (modest_queue (λ q, (try_send c q).2) (send_closed c)) Hinv) as Hm.
  unfold send_command, control_send. rewrite Hk. unfold on_control in Hm.
  destruct (try_send c (control_tx k)) as [r q] eqn:E. cbn in Hm |- *.
  rewrite (alter_alt_Some _ _ _ _ Hk), E in Hm. exact Hm.
Qed.

Lemma prepare_statistics p id (s : Srv) :
  controls s !! id = None → statistics_inv s →
  statistics_inv (prepare_connection p id (new_control id s)).2.
Proof.
  intros Hnew Hinv. pose proof (new_control_statistics id s Hnew Hinv) as Hn.
  unfold prepare_connection. destruct (answer _ _) as [g|e]; [|done].
  destruct (fit_snapshot_message _) as [m|]; [|done].
  pose proof (send_command_statistics (Send m) id _ Hn) as Hs.
  assert (wants_statistics (send_command (Send m) id (new_control id s)).2 id = false) as Hoff.
  { unfold send_command, wants_statistics, new_control. cbn. rewrite lookup_insert_eq.
    unfold control_send. destruct (try_send _ _). cbn. by rewrite lookup_insert_eq. }
  destruct (send_command _ _ _) as [[] s1]; cbn in Hs, Hoff |- *; [|done].
  destruct Hs as [Hec Hfed]. split; [by apply (committed_same s1)|].
  apply (fed_frame s1); [done..| |done]. intros j Hj Hw.
  change (wants_statistics s1 j = true) in Hw. split; [|done].
  cbn in Hj. apply elem_of_union in Hj as [Hj|Hj]; [|done].
  apply elem_of_singleton in Hj as ->. congruence.
Qed.
Lemma send_event_statistics ev (s : Srv) : statistics_inv s → statistics_inv (send_event ev s).
Proof.
  intros [Hec _]. unfold send_event. set (s0 := set_snapshot _ _).
  destruct (checked_add _ _ _) as [r|]; apply refreshed.
  - set (m := ServerEvent r ev). set (s1 := set_revision r s0).
    apply (committed_same (on_connections (λ k, (offer_event m k).2) s1)); [done|].
    apply modest_connections_committed; [apply modest_offer|by apply (committed_same s)].
  - apply (committed_same (on_connections (control_close CloseReason.InternalError) s0)); [done|].
    apply modest_connections_committed; [apply modest_close|by apply (committed_same s)].
Qed.
Lemma set_statistics_inv id session g b (s : Srv) :
  statistics_inv s → statistics_inv (server_set_statistics_enabled id session g b s).2.
Proof.
  intros Hinv. unfold server_set_statistics_enabled.
  destruct (controls s !! id) as [k|] eqn:Hk; [|done].
  destruct (_ || _ || _ || _) eqn:E; [done|]. cbn. apply refreshed. boolify.
  intros j k'. rewrite lookup_on_control. case_decide as Hj; [|apply Hinv].
  subst j. rewrite Hk. cbn. intros [= <-] _. by destruct b.
Qed.
Lemma bind_statistics b (s : Srv) : statistics_inv s → statistics_inv (bind_tunnel_first b s).2.
Proof.
  intros Hinv. unfold bind_tunnel_first. cbn. apply refreshed.
  apply modest_connections_committed; [apply modest_clear|].
  apply (committed_same s); [|apply Hinv]. by destruct (tb_monitor (binding s)).
Qed.

Lemma server_step_statistics y l :
  statistics_inv (server y) → statistics_inv (server (server_step y l)).
Proof.
  intros Hinv. destruct l as [p id|p id|id| |id|id ss g|ev|id ss g b|b| |k|id q r|id|id|id r|r a|w];
    cbn -[on_control].
  - destruct (decide _); [|done]. by apply prepare_statistics.
  - by apply commit_statistics.
  - apply refreshed, (committed_same (server y)); [done|apply Hinv].
  - apply refreshed, (committed_same (server y)); [done|apply Hinv].
  - unfold send_snapshot. destruct (fit_snapshot_message _); [|done]. by apply send_command_statistics.
  - apply refreshed, (committed_same (server y)); [|apply Hinv].
    exact (disconnect_controls ss g (registry_state (server y))).
  - by apply send_event_statistics.
  - by apply set_statistics_inv.
  - by apply bind_statistics.
  - apply modest_connections; [apply modest_publish|done].
  - unfold publish_tunnel_last. destruct (negb _); [done|]. destruct (tb_monitor _); [|done].
    apply modest_connections; [apply modest_publish|done].
  - by apply send_command_statistics.
  - destruct (controls (server y) !! id) as [k|] eqn:Hk; [|done].
    destruct (recv (control_tx k)) as [[c q]|] eqn:E; [|done]. cbn -[on_control].
    pose proof (modest_control id _ (server y) (modest_queue received received_closed) Hinv) as Hm.
    unfold on_control, received in *. rewrite !(alter_alt_Some _ _ _ _ Hk). rewrite (alter_alt_Some _ _ _ _ Hk) in Hm.
    cbn beta in Hm. by rewrite E in Hm.
  - apply modest_control; [|done]. apply (modest_queue drop_receiver). intros q0.
    by rewrite drop_receiver_closed.
  - apply modest_control; [apply modest_close|done].
  - destruct Hinv as [Hec Hfed]. split; [by apply (committed_same (server y))|].
    by apply (fed_frame (server y)).
  - destruct (monitor_kept _ _) eqn:Hkept; [|done]. destruct Hinv as [Hec Hfed].
    split; [by apply (committed_same (server y))|]. intros m Hm Hfin id Hid Hw. cbn in *.
    unfold monitor_kept in Hkept. rewrite Hm, Hfin in Hkept. cbn in Hkept. boolify.
    rewrite (eqb_prop _ _ H10). by apply (Hfed m Hm) with id.
Qed.

Lemma statistics_start env r (a : A) (w : MW) :
  statistics_inv (server (system_start env r a w)).
Proof. split; [done|]. intros m Hm. done. Qed.
Lemma runs_statistics env r (a : A) (w : MW) ls :
  statistics_inv (server (runs server_step (system_start env r a w) ls)).
Proof.
  apply (runs_invariant server_step (λ y, statistics_inv (server y)));
    [intros ? ?; apply server_step_statistics|apply statistics_start].
Qed.

(** C7: who gets statistics. In every reachable state only committed connections have
    asked for them, and while an open one of the map has, the running monitor of the
    bound tunnel samples. *)
Theorem listeners_are_fed env r (a : A) (w : MW) ls :
  let s := server (runs server_step (system_start env r a w) ls) in
  (∀ id k, controls s !! id = Some k → statistics_enabled k = true → committed k = true) ∧
  (∀ m id k, tb_monitor (binding s) = Some m → monitor_finished m (monitors s) = false →
     id ∈ connections s → controls s !! id = Some k → statistics_enabled k = true →
     control_is_closed k = false → monitor_demand m (monitors s) = true).
Proof.
  intros s. destruct (runs_statistics env r a w ls) as [Hec Hfed]. fold s in Hec, Hfed.
  split; [exact Hec|]. intros m id k Hm Hfin Hid Hk Hen Hopen.
  apply (Hfed m Hm Hfin id Hid). unfold wants_statistics. by rewrite Hk, Hen, Hopen.
Qed.

(** A reconnect supersedes the old connection at once: a successful
    [commit_connection] marks the new connection committed, takes the replaced one out
    of the map with its statistics off, and from then on every request of the old one to
    switch its statistics is refused; a refused commit leaves the connection out. *)
Lemma commit_supersedes p id (s : Srv) :
  let '(r, s') := commit_connection p id s in
  match r with
  | Ok replaced =>
      id ∈ connections s ∧ control_closed id s = false ∧
      (∀ k, controls s' !! id = Some k → committed k = true) ∧
      connections s' = connections s ∖ (match replaced with Some old => {[old]} | None => ∅ end) ∧
      ∀ old, replaced = Some old →
        wants_statistics s' old = false ∧
        ∀ session g b, server_set_statistics_enabled old session g b s' =
          (rejected InvalidRequest "Service attachment is no longer active", s')
  | Err _ => s' = s ∨ id ∉ connections s'
  end.
Proof.
  unfold commit_connection. destruct (_ || _) eqn:E; [by left|]. boolify.
  pose proof (commit_attach_controls p id (registry_state s)) as Hc. unfold after in Hc.
  destruct (commit_attach p id (registry_state s)) as [[replaced|e] st]; cbn in Hc |- *.
  2: { right. unfold refresh_demand. destruct (tb_monitor _); cbn; set_solver. }
  set (s1 := set_registry_state st s). set (s2 := on_control id mark_committed s1).
  assert (∀ x : Srv, connections (refresh_demand x) = connections x) as Href
    by (intros x; unfold refresh_demand; by destruct (tb_monitor _)).
  assert (∀ k, controls s2 !! id = Some k → committed k = true) as Hmark.
  { intros k. unfold s2. rewrite lookup_on_control, decide_True by done.
    destruct (controls s1 !! id); [|done]. by intros [= <-]. }
  rewrite Href. split_and!; [done|done| | |].
  - intros k. rewrite refresh_controls. destruct replaced as [old|]; [|apply Hmark].
    change (controls (remove_id old (on_control old (control_set_statistics_enabled false) s2)))
      with (controls (on_control old (control_set_statistics_enabled false) s2)).
    rewrite lookup_on_control. case_decide; [|apply Hmark]. intros Hk.
    apply fmap_Some in Hk as (k0 & Hk0 & ->). exact (Hmark k0 Hk0).
  - destruct replaced; cbn; set_solver.
  - intros old ->. set (s3 := on_control old _ s2).
    assert (old ∉ connections (refresh_demand (remove_id old s3))) as Hout
      by (rewrite Href; cbn; set_solver).
    split.
    + unfold wants_statistics. rewrite refresh_controls.
      change (controls (remove_id old s3)) with (controls s3). unfold s3.
      rewrite lookup_on_control, decide_True by done. by destruct (controls s2 !! old).
    + intros session g b. unfold server_set_statistics_enabled.
      destruct (controls _ !! old) as [k|]; [|done].
      rewrite (bool_decide_eq_false_2 _ Hout). cbn. by rewrite orb_true_r.
Qed.
End server_theorems.

(** * Witnesses *)
Module ServerExample.
Import Concrete.
#[export] Existing Instance RegistryExample.no_attempts.
#[export] Existing Instance ReportExample.parser.
(** A configuration is its DNS servers, a message a long text and its configuration. *)
Definition configuration_text (c : TunnelConfiguration) : string :=
  String.concat "" (items (dns c)).
Definition filler : string := String.concat "" (repeat "0123456789012345678901234567890123456789" 1535).
#[export] Instance configuration_codec : SerdeJson TunnelConfiguration := {|
  to_vec c := Some (configuration_text c); from_slice _ := None |}.
#[export] Instance message_codec : SerdeJson ServerMessage := {|
  to_vec m := Some (filler +:+
    match '(e, _) ← message_snapshot m; s ← env_tunnel_state e; configuration s with
    | Some c => configuration_text c +:+ "0123456789012345678901234567890123456"
    | None => ""
    end);
  from_slice _ := None |}.
Definition no_items : TunnelList := {| items := []; total_count := 0; list_truncated := false |}.
Definition servers : TunnelList :=
  {| items := ["1.1.1.1"; "8.8.8.8"]; total_count := 2; list_truncated := false |}.
Definition settings : TunnelConfiguration := {|
  interface := None; ipv4 := None; ipv6 := None; server_ip := None; dns := servers;
  search_domains := no_items; split_dns := no_items; included_routes := no_items;
  excluded_routes := no_items; mtu := None; truncated := false |}.
Definition state : TunnelState := {|
  tunnel_id := 5; sequence := 1; phase := Establishing; configuration_revision := 1;
  configuration := Some settings; transport := Negotiating; elapsed_ms := 0 |}.
Definition env : VpnEnv := {|
  env_tunnel_state := Some state; env_vpn_state := VpnState.Disconnected; env_vpnc_script := None;
  env_auth_executable := "gpauth"; env_host_info := {| host_identity := identity_application "c" "i" |} |}.
Definition quiet_env : VpnEnv := set_env_tunnel_state None env.
Definition world : TunnelMonitors (W:=cell) :=
  {| clock := 0; running := {[5 := Some (attach 5 0)]} |}.
Definition start : ServerSystem (Q:=queue) (W:=cell) (A:=gset N) (D:=()) (M:=N) :=
  system_start quiet_env RegistryExample.s2.1 ∅ world.
Abbreviation labels := (list (server_label (A:=gset N) (D:=()) (MW:=TunnelMonitors (W:=cell)) (M:=N))).
Definition attached : labels :=
  [Prepare RegistryExample.permit 100; Commit RegistryExample.permit 100;
   BindFirst {| tb_attempt := 0; tb_monitor := Some 5; tb_non_tunnel := false |}].
Definition listening : labels :=
  attached ++ [SetStatistics 100 42 1 true; Event (WsEvent.EvVpnState VpnState.Disconnecting);
               Deliver 100; Resync 100].
Definition fallback : ConnectionControl queue cell := control_new (channel 1).
Definition listener : ConnectionControl queue cell :=
  default fallback (controls (server (runs server_step start listening)) !! 100).

Definition cut : TunnelConfiguration :=
  set_truncated (set_list settings Dns {| items := []; total_count := 2; list_truncated := true |}).
Definition cut_env : VpnEnv :=
  set_env_tunnel_state (Some (set_state_configuration cut state)) env.
Lemma fit_snapshot_sound_witness :
  slen <$> to_vec (ServerSnapshot 3 env) = Some 61451 ∧
  fit_snapshot_message (ServerSnapshot 3 env) = Some (ServerSnapshot 3 cut_env) ∧
  ∃ v, to_vec (ServerSnapshot 3 cut_env) = Some v ∧ slen v ≤ MAX_PLAINTEXT.
Proof.
  split; [by vm_compute|]. split; [by vm_compute|].
  apply (fit_snapshot_sound (ServerSnapshot 3 env) (ServerSnapshot 3 cut_env)). by vm_compute.
Defined.

Lemma clients_follow_witness :
  ∃ id r0 e0 rest e, messages (runs server_step start listening) 100 listener =
      ServerAttached id r0 e0 :: rest ∧ length rest = 2%nat ∧
    follow_all (r0, e0) rest = Some (revision (server (runs server_step start listening)), e) ∧
    env_vpn_state e = VpnState.Disconnecting.
Proof.
  destruct (clients_follow quiet_env RegistryExample.s2.1 ∅ world listening 100 listener
    ltac:(apply (bool_decide_unpack _); by vm_compute) ltac:(by vm_compute) ltac:(by vm_compute))
    as (id & r0 & e0 & rest & e & Hm & Hf & He).
  exists id, r0, e0, rest, e. split; [exact Hm|]. split; [|split; [exact Hf|]].
  - assert (length (messages (runs server_step start listening) 100 listener) = 3%nat) as Hl
      by by vm_compute.
    change (length (messages (runs server_step (system_start quiet_env RegistryExample.s2.1 ∅ world)
      listening) 100 listener) = 3%nat) in Hl. rewrite Hm in Hl. by injection Hl.
  - apply (f_equal env_vpn_state) in He. etransitivity; [exact He|]. by vm_compute.
Defined.

Lemma listeners_are_fed_witness :
  statistics_enabled listener = true ∧ committed listener = true ∧
  monitor_demand (5 : Uuid) (monitors (server (runs server_step start listening))) = true.
Proof.
  destruct (listeners_are_fed quiet_env RegistryExample.s2.1 ∅ world listening) as [Hc Hf].
  split; [by vm_compute|]. split.
  - apply (Hc 100); by vm_compute.
  - by apply (Hf 5 100 listener); vm_compute.
Defined.

(** The session attaches again, on connection 101. *)
Definition before : Server (Q:=queue) (W:=cell) (A:=gset N) (D:=()) (MW:=TunnelMonitors) (M:=N) :=
  server (runs server_step start listening).
Definition again : HandshakePermit := {|
  permit_session_id := 42; permit_desktop_uid := Some 1000; observed_generation := 1;
  permit_secret := RegistryExample.secret32; token := 8 |}.
Definition reattaching : Server (Q:=queue) (W:=cell) (A:=gset N) (D:=()) (MW:=TunnelMonitors) (M:=N) :=
  let st := after (begin_handshake 1 1 42 "2.0" 6 8) (registry_state before) in
  (prepare_connection again 101 (new_control 101 (set_registry_state st before))).2.
Lemma commit_supersedes_witness :
  (commit_connection again 101 reattaching).1 = Ok (Some 100) ∧
  (server_set_statistics_enabled 100 42 1 true (commit_connection again 101 reattaching).2).1 =
    rejected InvalidRequest "Service attachment is no longer active".
Proof.
  pose proof (commit_supersedes again 101 reattaching) as H.
  destruct (commit_connection again 101 reattaching) as [r s'] eqn:E.
  assert (r = Ok (Some 100)) as ->.
  { change r with (r, s').1. rewrite <- E. by vm_compute. }
  destruct H as (_ & _ & _ & _ & H). split; [done|].
  destruct (H 100 eq_refl) as [_ Hrefused]. cbn [snd]. by rewrite Hrefused.
Defined.
End ServerExample.
