(* ===== verification/Dispatcher.v ===== *)
(** The request dispatcher (apps/gpservice/src/request_dispatcher.rs) and the checks of
    vpn_task/preparation.rs, on a Linux build.

    The dispatcher runs its requests against the session registry and, under the
    registry's lock, the lifecycle handle: [world] is the connection controls of
    WsServer.v and the [Lifecycle]. What the operating system answers (identity files,
    the physical network, the GUI installer, the script's metadata) is an argument.
    Dropping a [ConnectionPreparation] drops its reservation; the operations that
    consume one say so. *)
From S2P Require Import Prelude Utf8 ThirdParty Transport Tunnel Session Service Redact.
From S2P Require Import EditedReport Lifecycle SessionRegistry WsServer.

#[local] Open Scope N_scope.

(** ** The attempts the registry holds on to are those of the lifecycle. *)
#[export] Instance lifecycle_attempts {TS T} `{CancellationTokens TS T} {Q : Type → Type}
    {W : Type → Type} {Resources Monitor : Type} :
    AttemptHandles (Lifecycle (TS:=TS) (T:=T) (Q:=Q) (W:=W) (Resources:=Resources) (Monitor:=Monitor))
      (AttemptDrain (T:=T)) (ConnectReservation (T:=T)) := {|
  drain := reservation_drain;
  drain_cancel := Lifecycle.drain_cancel;
  drain_is_complete := Lifecycle.drain_is_complete;
|}.

Section dispatcher.
Context {TS T : Type} `{CancellationTokens TS T}.
Context {Q : Type → Type} `{Mpsc Q} {W : Type → Type} `{Watch W}.
Context {Resources Monitor Level : Type}.
Context `{XmlTree} `{UuidFormat} `{RegexCrate} `{Base64}.

Abbreviation Shared := (Lifecycle (TS:=TS) (T:=T) (Q:=Q) (W:=W)
  (Resources:=Resources) (Monitor:=Monitor)) (only parsing).
Abbreviation Reservation := (ConnectReservation (T:=T)) (only parsing).
Abbreviation Drain := (AttemptDrain (T:=T)) (only parsing).
Abbreviation Controls := (gmap Uuid (ConnectionControl Q W)) (only parsing).
Abbreviation Attachments := (State (World:=Controls * Shared) (C:=Uuid) (D:=Drain)) (only parsing).

(** The session on whose behalf a request runs. *)
Record SessionAuthority := { auth_session : Uuid; auth_generation : N }.

Record ConnectionPreparation := {
  authority : SessionAuthority;
  prep_non_tunnel : bool;
  reservation : Reservation;
}.

Inductive PendingDispatch :=
  | PendingConnect (preparation : ConnectionPreparation) (request : ConnectRequest)
      (desktop_uid : option N) (edited_report : option string)
  | PendingDrain (d : option Drain)
  | PendingOther (request : WsRequest).

Record RequestDispatcher := {
  gui_restart_requested : bool;
  redaction : Redaction;
  (** [None] before the logger is initialised. *)
  max_level : option Level;
  gui_management_enabled : bool;
  externally_brokered : bool;
}.
Definition set_gui_restart_requested (v : bool) (s : RequestDispatcher) : RequestDispatcher := {|
  gui_restart_requested := v; redaction := redaction s; max_level := max_level s;
  gui_management_enabled := gui_management_enabled s;
  externally_brokered := externally_brokered s |}.
Definition set_redaction (v : Redaction) (s : RequestDispatcher) : RequestDispatcher := {|
  gui_restart_requested := gui_restart_requested s; redaction := v; max_level := max_level s;
  gui_management_enabled := gui_management_enabled s;
  externally_brokered := externally_brokered s |}.
Definition set_max_level (v : option Level) (s : RequestDispatcher) : RequestDispatcher := {|
  gui_restart_requested := gui_restart_requested s; redaction := redaction s; max_level := v;
  gui_management_enabled := gui_management_enabled s;
  externally_brokered := externally_brokered s |}.

Definition DispatchState : Type := RequestDispatcher * Attachments.
Definition on_dispatcher {E} (f : RequestDispatcher → RequestDispatcher) : stm DispatchState E () :=
  λ s, (Ok (), (f s.1, s.2)).
Definition on_attachments {E A} (m : stm Attachments E A) : stm DispatchState E A := λ s,
  let '(r, a) := m s.2 in (r, (s.1, a)).
(** A call on the lifecycle handle. *)
Definition on_lifecycle {A} (f : Shared → A * Shared) (w : Controls * Shared) : A * (Controls * Shared) :=
  let '(r, l) := f w.2 in (r, (w.1, l)).
Definition attachments_effect (f : Shared → Shared) (a : Attachments) : Attachments :=
  (a.1, (a.2.1, f a.2.2)).

(** ** Preparations *)
Definition drop_preparation (p : ConnectionPreparation) : Attachments → Attachments :=
  attachments_effect (reservation_drop (reservation p)).

(** [commit]: the closure that owns the reservation is dropped if the registry refuses
    to call it. *)
Definition preparation_commit (p : ConnectionPreparation) (c : PreparedConnection (Resources:=Resources))
    (uid : option N) (report : option string) (a : Attachments) : ServiceResult * Attachments :=
  let '(r, a) := SessionRegistry.commit_connection
      (auth_session (authority p)) (auth_generation (authority p)) (prep_non_tunnel p)
      (on_lifecycle (Lifecycle.commit (reservation p) c uid report (Some (auth_session (authority p)))))
      a in
  match r with Ok r => (r, a) | Err r => (r, drop_preparation p a) end.

(** The checks of [prepare_connection] before it asks the system for anything. *)
Definition all_non_tunnel (p : ConnectionPlan) : bool :=
  forallb (λ m, bool_decide (member_mode m = Session.NonTunnel)) (members p).
Definition binding_allowed (ipv6_disabled : bool) (m : AuthenticatedGateway) : result string () :=
  b ← ok_or "Internal gateway binding is missing" (Session.binding m);
  ensure (negb ipv6_disabled ||
          is_ipv4 (endpoint b) && negb (bool_decide (is_Some (addr_ipv6 (addresses b)))))
    "IPv6 gateway transport or identity is disabled".
Fixpoint bindings_allowed (ipv6_disabled : bool) (ms : list AuthenticatedGateway) : result string () :=
  match ms with
  | [] => Ok ()
  | m :: ms => _ ← binding_allowed ipv6_disabled m; bindings_allowed ipv6_disabled ms
  end.
Definition check_preparation (request : ConnectRequest) : result string ConnectRequest :=
  let request := with_packet_delivery (arg_packet_delivery (request_args request)) request in
  let ms := members (request_plan request) in
  _ ← match arg_packet_delivery (request_args request) with
      | ScriptTun consumer =>
          _ ← script_tun_validate consumer;
          ensure (match ms with
                  | [m] => bool_decide (member_mode m = Session.Tunnel)
                  | _ => false
                  end) "Script-tun requires a tunnel gateway"
      | System => Ok ()
      end;
  let non_tunnel := all_non_tunnel (request_plan request) in
  _ ← ensure (non_tunnel || bool_decide (length ms = 1%nat))
    "Only one selected tunnel gateway can execute";
  _ ← (if non_tunnel then bindings_allowed (arg_disable_ipv6 (request_args request)) ms else Ok ());
  Ok request.
(** [acquire] is what the system answers: identity files, profile, network and sessions. *)
Definition prepare_connection (acquire : ConnectRequest → result string Resources)
    (request : ConnectRequest) : result string (PreparedConnection (Resources:=Resources)) :=
  request ← check_preparation request;
  resources ← acquire request;
  Ok {| prepared_request := request; prepared_resources := resources |}.

(** ** Requests *)
Definition validate_connect_request (r : ConnectRequest) (d : RequestDispatcher) : result string () :=
  let args := request_args r in
  if negb (externally_brokered d) then Ok ()
  else if bool_decide (is_Some (arg_vpnc_script args)) then
    Err "macOS does not support custom VPN scripts"
  else if match arg_hip_source args with UserScript _ | ApprovedRootScript _ => true | _ => false end then
    Err "macOS does not support custom HIP scripts"
  else if bool_decide (is_Some (arg_certificate args)) || bool_decide (is_Some (arg_sslkey args)) then
    Err "macOS client identity must be provided as protected data, not root-readable paths"
  else Ok ().

Definition redaction_values (p : ConnectionPlan) : list string :=
  m ← members p; [gateway_address (gateway m); cookie (authentication m)].

(** [?] on a report that is missing drops the preparation. *)
Definition preparation_report (p : ConnectionPreparation) (source : HipSource) (report : option string)
    (a : Attachments) : result ServiceResult (option string) * Attachments :=
  match source with
  | Edited report_id =>
      let r := match uuid_parse_str report_id with
        | None => Err (rejected InvalidRequest "Invalid HIP report ID")
        | Some id =>
            map_err (λ _, rejected InvalidRequest "HIP report is unavailable for this session")
              (answer (edited_report (auth_session (authority p)) id) a)
        end in
      match r with
      | Ok xml => (Ok (Some xml), a)
      | Err e => (Err e, drop_preparation p a)
      end
  | _ => (Ok report, a)
  end.

Definition missing_session : ServiceResult :=
  rejected InvalidRequest "Connection session is missing".

Definition dispatch_connect (request : ConnectRequest) (uid : option N) (report : option string)
    (who : option SessionAuthority) : stm DispatchState ServiceResult PendingDispatch :=
  s ← get;
  _ ← lift (map_err (rejected InvalidRequest) (validate_connect_request request s.1));
  r ← require (rejected Transport.Internal "Request could not be accepted")
    (add_values (redaction_values (request_plan request)) (redaction s.1));
  _ ← on_dispatcher (set_redaction r);
  authority ← require missing_session who;
  let non_tunnel := all_non_tunnel (request_plan request) in
  reservation ← on_attachments (
    reserve_connection (auth_session authority) (auth_generation authority) non_tunnel
      (on_lifecycle (reserve_connect
        ((λ attempt, (attempt, auth_session authority)) <$> restart_of request))));
  let p := {| authority := authority; prep_non_tunnel := non_tunnel; reservation := reservation |} in
  report ← on_attachments (preparation_report p (arg_hip_source (request_args request)) report);
  mret (PendingConnect p request uid report).

Definition dispatch_lifecycle (request : WsRequest) (uid : option N) (report : option string)
    (who : option SessionAuthority) : stm DispatchState ServiceResult PendingDispatch :=
  match request with
  | Connect request => dispatch_connect request uid report who
  | StopNonTunnelAttachment connection_id =>
      authority ← require missing_session who;
      d ← on_attachments (
        stop_non_tunnel_attachment (auth_session authority) (auth_generation authority) connection_id);
      mret (PendingDrain d)
  | Disconnect => on_attachments (λ a,
      let '(r, w) := on_lifecycle request_disconnect a.2 in (Err r, (a.1, w)))
  | request => mret (PendingOther request)
  end.

(** ** The asynchronous part *)
Inductive InstallOutcome := Installed | ChecksumFailure | InstallFailure | InstallTaskFailure.
(** What the system answers while a request is handled. *)
Record SystemAnswers := {
  ans_acquire : ConnectRequest → result string Resources;
  ans_install : UpdateGuiRequest → InstallOutcome;
  ans_metadata : result string (option VpncScriptMetadata);
  ans_parse_level : string → option Level;
  ans_info : Level;
}.

Definition update_gui (answers : SystemAnswers) (r : UpdateGuiRequest) : ServiceResult :=
  match ans_install answers r with
  | Installed => Accepted
  | ChecksumFailure => rejected ChecksumFailed "GUI update checksum failed"
  | InstallFailure | InstallTaskFailure => rejected InstallFailed "GUI update installation failed"
  end.

(** [Waiting]: the drain is not complete yet. [Panicked]: the [unreachable!]. *)
Inductive outcome := Answered (r : ServiceResult) | Waiting | Panicked.

Definition dispatch_other (answers : SystemAnswers) (request : WsRequest) (d : RequestDispatcher) :
    outcome * RequestDispatcher :=
  match request with
  | RestartGui =>
      if negb (gui_management_enabled d)
      then (Answered (rejected InvalidRequest "GUI restart is unavailable on macOS"), d)
      else (Answered Accepted, set_gui_restart_requested true d)
  | UpdateGui r =>
      if negb (gui_management_enabled d)
      then (Answered (rejected InvalidRequest "GUI update is unavailable on macOS"), d)
      else (Answered (update_gui answers r), d)
  | GetVpncScriptMetadata =>
      (Answered match ans_metadata answers with
                | Ok m => VpncScriptMetadataResult m
                | Err _ => rejected Transport.Internal "Failed to read VPNC script metadata"
                end, d)
  | UpdateLogLevel level =>
      let level := default (ans_info answers) (ans_parse_level answers level) in
      (Answered Accepted, set_max_level ((λ _, level) <$> max_level d) d)
  | _ => (Panicked, d)
  end.

Definition dispatch_pending (answers : SystemAnswers) (request : PendingDispatch) (s : DispatchState) :
    outcome * DispatchState :=
  match request with
  | PendingConnect p request uid report =>
      match prepare_connection (ans_acquire answers) request with
      | Ok c =>
          let '(r, a) := preparation_commit p c uid report s.2 in (Answered r, (s.1, a))
      | Err _ =>
          (Answered (rejected InvalidRequest "Connection resources could not be prepared"),
           (s.1, drop_preparation p s.2))
      end
  | PendingDrain d =>
      (match d with
       | Some d => if Lifecycle.drain_is_complete d s.2.2.2 then Answered Accepted else Waiting
       | None => Answered Accepted
       end, s)
  | PendingOther request => let '(r, d) := dispatch_other answers request s.1 in (r, (d, s.2))
  end.
End dispatcher.

(** * Theorems *)
Section dispatcher_theorems.
Context {TS T : Type} `{CancellationLaws TS T}.
Context {Q : Type → Type} `{MpscLaws Q} {W : Type → Type} `{Watch W}.
Context {Resources Monitor Level : Type}.
Context `{XmlTree} `{UuidFormat} `{RegexCrate} `{Base64}.

Abbreviation Shared := (Lifecycle (TS:=TS) (T:=T) (Q:=Q) (W:=W)
  (Resources:=Resources) (Monitor:=Monitor)) (only parsing).
Abbreviation Controls := (gmap Uuid (ConnectionControl Q W)) (only parsing).
Abbreviation Attachments := (State (World:=Controls * Shared) (C:=Uuid) (D:=AttemptDrain (T:=T)))
  (only parsing).
Abbreviation Dispatch := (DispatchState (TS:=TS) (T:=T) (Q:=Q) (W:=W) (Resources:=Resources)
  (Monitor:=Monitor) (Level:=Level)) (only parsing).

(** The lifecycle a dispatch sees. *)
Definition handle (s : Dispatch) : Shared := s.2.2.2.

(** ** Dropping a reservation *)
Lemma drop_admission_of (r : ConnectReservation (T:=T)) (l : Shared) :
  admission_of (rsv_attempt r) (reservation_drop r l) = None.
Proof.
  unfold reservation_drop, clear_attempt, admission_of; cbn.
  destruct (current (admissions l)) as [a|] eqn:Ha; cbn; [|by rewrite Ha].
  destruct (adm_attempt a =? rsv_attempt r) eqn:Hk; cbn; rewrite ?Ha, ?Hk; done.
Qed.
Lemma drop_current (r : ConnectReservation (T:=T)) (l : Shared) :
  current (admissions (reservation_drop r l)) =
  match admission_of (rsv_attempt r) l with Some _ => None | None => current (admissions l) end.
Proof.
  unfold reservation_drop, clear_attempt, admission_of; cbn.
  destruct (current (admissions l)) as [a|] eqn:Ha; cbn; [|by rewrite Ha].
  destruct (adm_attempt a =? rsv_attempt r); cbn; by rewrite ?Ha.
Qed.
Lemma drop_completed (r : ConnectReservation (T:=T)) (l : Shared) a :
  admission_of (rsv_attempt r) l = Some a → rsv_attempt r ∈ completed (reservation_drop r l).
Proof.
  intros Ha. unfold reservation_drop, clear_attempt.
  assert (admission_of (rsv_attempt r) (cancel (rsv_cancellation r) l) = Some a) as -> by exact Ha.
  cbn. set_solver.
Qed.
Lemma drop_cancelled (r : ConnectReservation (T:=T)) (l : Shared) :
  token_live (rsv_cancellation r) (tokens l) →
  token_cancelled (rsv_cancellation r) (tokens (reservation_drop r l)) = true.
Proof.
  intros Hl. unfold reservation_drop, clear_attempt. destruct (admission_of _ _); by apply token_cancel_self.
Qed.

(** What a refusal leaves of a reservation. *)
Record released (r : ConnectReservation (T:=T)) (l l' : Shared) : Prop := {
  rel_admission : admission_of (rsv_attempt r) l' = None;
  rel_others a : current (admissions l) = Some a → adm_attempt a ≠ rsv_attempt r →
    current (admissions l') = Some a;
  rel_completed a : admission_of (rsv_attempt r) l = Some a → rsv_attempt r ∈ completed l';
  rel_cancelled : token_live (rsv_cancellation r) (tokens l) →
    token_cancelled (rsv_cancellation r) (tokens l') = true;
}.
Lemma drop_released (r : ConnectReservation (T:=T)) (l : Shared) : released r l (reservation_drop r l).
Proof.
  split; [apply drop_admission_of| |apply drop_completed|apply drop_cancelled].
  intros a Ha Hk. rewrite drop_current. unfold admission_of. rewrite Ha.
  by rewrite (proj2 (N.eqb_neq _ _) Hk).
Qed.

Definition refusal (r : ServiceResult) : Prop := ∃ code text, r = rejected code text.

(** [commit] transfers the reservation or releases it. *)
Lemma commit_settled (r : ConnectReservation (T:=T)) c uid report session (l l' : Shared) res :
  Lifecycle.commit r c uid report session l = (res, l') →
  (res = Accepted ∧
   (∃ a, admission_of (rsv_attempt r) l = Some a ∧ adm_stop_requested a = false ∧
      current (admissions l') = Some (set_adm_phase Lifecycle.Pending a)) ∧
   token_cancelled (rsv_cancellation r) (tokens l') = false ∧
   queued (events l') = queued (events l) ++ [EvStart (rsv_attempt r) c uid report session]) ∨
  (refusal res ∧ released r l l').
Proof.
  unfold Lifecycle.commit, commit_locked. intros Hc.
  destruct (closed (admissions l)).
  { injection Hc as <- <-. right. split; [by do 2 eexists|apply drop_released]. }
  destruct (admission_of (rsv_attempt r) l) as [a|] eqn:Ha.
  2: { injection Hc as <- <-. right. split; [by do 2 eexists|apply drop_released]. }
  destruct (adm_stop_requested a || token_cancelled (rsv_cancellation r) (tokens l)) eqn:Hs.
  { injection Hc as <- <-. right. split; [by do 2 eexists|apply drop_released]. }
  pose proof (try_send_spec (EvStart (rsv_attempt r) c uid report session) (events l)) as Hq.
  apply orb_false_iff in Hs as [Hs Ht].
  destruct (try_send _ (events l)) as [sent q] eqn:Hsend. cbn [fst snd] in Hq.
  destruct sent; injection Hc as <- <-.
  2,3: right; split; [by do 2 eexists|apply drop_released].
  left. split; [done|]. split; [by exists a|]. split; [done|]. cbn.
  destruct (receiver_closed (events l)); [done|]. destruct (decide _); [by destruct Hq as (_ & -> & _)|done].
Qed.

Lemma preparation_commit_settled p c uid report (a a' : Attachments) res :
  preparation_commit p c uid report a = (res, a') →
  let l := a.2.2 in let l' := a'.2.2 in let r := reservation p in
  (res = Accepted ∧
   (∃ adm, admission_of (rsv_attempt r) l = Some adm ∧ adm_stop_requested adm = false ∧
      current (admissions l') = Some (set_adm_phase Lifecycle.Pending adm)) ∧
   token_cancelled (rsv_cancellation r) (tokens l') = false ∧
   queued (events l') =
     queued (events l) ++ [EvStart (rsv_attempt r) c uid report (Some (auth_session (authority p)))]) ∨
  (refusal res ∧ released r l l').
Proof.
  intros Hp. unfold preparation_commit in Hp.
  destruct (SessionRegistry.commit_connection _ _ _ _ a) as [r a1] eqn:Hc.
  assert (match r with
    | Ok r => ∃ l1, Lifecycle.commit (reservation p) c uid report
        (Some (auth_session (authority p))) a.2.2 = (r, l1) ∧ a1.2.2 = l1
    | Err e => refusal e ∧ a1.2 = a.2 end) as Hr.
  { unfold SessionRegistry.commit_connection, locked in Hc.
    destruct (poisoned a.1); [injection Hc as <- <-; split; [by do 2 eexists|done]|].
    unfold get_record, world, on_world, SessionRegistry.current_connection in Hc. stm_unfold.
    unfold on_lifecycle in Hc. destruct a as [reg [w l]]. cbn [fst snd] in *.
    destruct (sessions reg !! auth_session (authority p)) as [rec|]; cbn in Hc;
      [|injection Hc as <- <-; split; [by do 2 eexists|done]].
    destruct (Lifecycle.commit _ _ _ _ _ l) as [r1 l1] eqn:Hcm.
    destruct (prep_non_tunnel p); cbn in Hc; crush_hyps; (split; [by do 2 eexists|done]) || eauto. }
  destruct r as [r|e]; injection Hp as <- <-; cbn.
  - destruct Hr as (l1 & Hcm & ->). by apply commit_settled in Hcm.
  - destruct Hr as [He Ha]. right. split; [done|].
    unfold drop_preparation, attachments_effect. cbn. rewrite Ha. apply drop_released.
Qed.

(** ** Reserving *)
Definition admitted (p : ConnectionPreparation (T:=T)) : Admission := {|
  adm_attempt := rsv_attempt (reservation p); adm_phase := Preparing;
  adm_stop_requested := false; adm_cancellation := rsv_cancellation (reservation p) |}.

Lemma reserve_connect_settled r (l l' : Shared) res :
  reserve_connect r l = (res, l') →
  match res with
  | Err e => refusal e ∧ l' = l
  | Ok rsv => current (admissions l) = None ∧ rsv_attempt rsv = next_attempt (admissions l) ∧
      current (admissions l') = Some {| adm_attempt := rsv_attempt rsv; adm_phase := Preparing;
        adm_stop_requested := false; adm_cancellation := rsv_cancellation rsv |} ∧
      token_live (rsv_cancellation rsv) (tokens l') ∧
      token_cancelled (rsv_cancellation rsv) (tokens l') = false
  end.
Proof.
  unfold reserve_connect. intros Hr.
  destruct (closed _); [injection Hr as <- <-; split; [by do 2 eexists|done]|].
  destruct (bool_decide (is_Some (current _))) eqn:Hc;
    [injection Hr as <- <-; split; [by do 2 eexists|done]|].
  destruct (_ && _); [injection Hr as <- <-; split; [by do 2 eexists|done]|].
  pose proof (token_new_live (tokens l)) as Hl. pose proof (token_new_uncancelled (tokens l)) as Hu.
  destruct (token_new (tokens l)) as [t ts]. injection Hr as <- <-. cbn.
  split_and!; [|done..]. boolify. destruct (current (admissions l)); [|done]. exfalso. eauto.
Qed.
Lemma reserve_connection_settled id g (mode : bool) o (a a' : Attachments) res :
  reserve_connection id g mode (on_lifecycle (reserve_connect o)) a = (res, a') →
  match res with
  | Err e => refusal e ∧ a'.2 = a.2
  | Ok rsv => current (admissions a.2.2) = None ∧
      current (admissions a'.2.2) = Some {| adm_attempt := rsv_attempt rsv; adm_phase := Preparing;
        adm_stop_requested := false; adm_cancellation := rsv_cancellation rsv |} ∧
      token_live (rsv_cancellation rsv) (tokens a'.2.2) ∧
      token_cancelled (rsv_cancellation rsv) (tokens a'.2.2) = false
  end.
Proof.
  unfold reserve_connection, locked. intros Hr.
  destruct (poisoned a.1); [injection Hr as <- <-; split; [by do 2 eexists|done]|].
  destruct a as [reg [w l]]. cbn [fst snd] in *.
  unfold get_record, put_record, world, on_world, SessionRegistry.current_connection, on_lifecycle in Hr.
  stm_unfold. destruct (sessions reg !! id) as [rec|]; cbn in Hr;
    [|injection Hr as <- <-; split; [by do 2 eexists|done]].
  crush_hyps; try (by split; [do 2 eexists|]);
    match goal with Hl : _ = (_, _) |- _ => apply reserve_connect_settled in Hl end; naive_solver.
Qed.
Lemma preparation_report_settled p source report (a a' : Attachments) res :
  preparation_report p source report a = (res, a') →
  (∃ x, res = Ok x ∧ a' = a) ∨ (∃ e, res = Err e ∧ refusal e ∧ a' = drop_preparation p a).
Proof.
  unfold preparation_report. intros Hr.
  destruct source; try (injection Hr as <- <-; left; by eexists).
  destruct (uuid_parse_str report_id) as [id|].
  - destruct (answer _ a) as [x|e]; cbn in Hr; injection Hr as <- <-; [left; by eexists|].
    right. eexists. split; [done|]. split; [by do 2 eexists|done].
  - injection Hr as <- <-. right. eexists. split; [done|]. split; [by do 2 eexists|done].
Qed.

(** Dispatching a connect request either takes the admission for it or leaves the
    admissions as they were. A request that is handed on was made by a session, found no
    admission, and now holds one of its own that is being prepared, with a live token; a
    request that is refused, at whatever step, changes no admission: one it had taken
    already is given back. *)
Lemma connect_request_admitted request uid report who (s s' : Dispatch) r :
  dispatch_lifecycle (Connect request) uid report who s = (r, s') →
  match r with
  | Err e => refusal e ∧ current (admissions (handle s')) = current (admissions (handle s))
  | Ok pending => ∃ p report', pending = PendingConnect p request uid report' ∧
      who = Some (authority p) ∧ current (admissions (handle s)) = None ∧
      current (admissions (handle s')) = Some (admitted p) ∧
      token_live (rsv_cancellation (reservation p)) (tokens (handle s')) ∧
      token_cancelled (rsv_cancellation (reservation p)) (tokens (handle s')) = false
  end.
Proof.
  cbn [dispatch_lifecycle]. unfold dispatch_connect, handle. intros Hd. stm_unfold.
  destruct (validate_connect_request request s.1) as [[]|e]; cbn in Hd;
    [|injection Hd as <- <-; split; [by do 2 eexists|done]].
  destruct (add_values _ _) as [red|]; cbn in Hd; [|injection Hd as <- <-; split; [by do 2 eexists|done]].
  destruct who as [who|]; cbn in Hd; [|injection Hd as <- <-; split; [by do 2 eexists|done]].
  unfold on_attachments in Hd. cbn [fst snd] in Hd.
  destruct (reserve_connection _ _ _ _ s.2) as [[rsv|e] a] eqn:Hr; apply reserve_connection_settled in Hr;
    [|injection Hd as <- <-; cbn; destruct Hr as [? ->]; done].
  cbn [fst snd] in Hd. destruct (preparation_report _ _ _ a) as [res a'] eqn:Hp.
  apply preparation_report_settled in Hp as [(x & -> & ->)|(e & -> & He & ->)];
    injection Hd as <- <-; cbn [fst snd].
  - destruct Hr as (Hn & Hc & Hl & Ht). by eexists _, x.
  - destruct Hr as (Hn & Hc & Hl & Ht). split; [done|]. unfold drop_preparation, attachments_effect.
    cbn [fst snd]. rewrite drop_current. unfold admission_of. rewrite Hc. cbn.
    by rewrite N.eqb_refl, Hn.
Qed.

(** C25: a prepared connect request is settled in one of two ways, whatever happened to the
    service since it was dispatched. Either it is accepted: its admission, until then
    without a stop request, is pending with a live token and its start is the last event
    of the actor's queue. Or it is refused with a reason: its admission is gone and
    signalled as completed, its token is cancelled, and no other attempt's admission has
    changed. *)
Theorem connect_request_settled answers p request uid report (s s' : Dispatch) o :
  dispatch_pending answers (PendingConnect p request uid report) s = (o, s') →
  token_live (rsv_cancellation (reservation p)) (tokens (handle s)) →
  let r := reservation p in
  ∃ res, o = Answered res ∧
  ((res = Accepted ∧ ∃ a resources,
      admission_of (rsv_attempt r) (handle s) = Some a ∧ adm_stop_requested a = false ∧
      current (admissions (handle s')) = Some (set_adm_phase Lifecycle.Pending a) ∧
      token_cancelled (rsv_cancellation r) (tokens (handle s')) = false ∧
      queued (events (handle s')) = queued (events (handle s)) ++
        [EvStart (rsv_attempt r)
          {| prepared_request :=
               with_packet_delivery (arg_packet_delivery (request_args request)) request;
             prepared_resources := resources |}
          uid report (Some (auth_session (authority p)))]) ∨
   (refusal res ∧ admission_of (rsv_attempt r) (handle s') = None ∧
    token_cancelled (rsv_cancellation r) (tokens (handle s')) = true ∧
    (is_Some (admission_of (rsv_attempt r) (handle s)) → rsv_attempt r ∈ completed (handle s')) ∧
    ∀ a, current (admissions (handle s)) = Some a → adm_attempt a ≠ rsv_attempt r →
      current (admissions (handle s')) = Some a)).
Proof.
  unfold handle. cbn [dispatch_pending]. intros Hd Hlive.
  assert (∀ res l', refusal res → released (reservation p) s.2.2.2 l' →
    refusal res ∧ admission_of (rsv_attempt (reservation p)) l' = None ∧
    token_cancelled (rsv_cancellation (reservation p)) (tokens l') = true ∧
    (is_Some (admission_of (rsv_attempt (reservation p)) s.2.2.2) →
      rsv_attempt (reservation p) ∈ completed l') ∧
    ∀ a, current (admissions s.2.2.2) = Some a → adm_attempt a ≠ rsv_attempt (reservation p) →
      current (admissions l') = Some a) as Hrefused.
  { intros res l' Hr [Hn Ho Hc Ht]. split_and!; auto. intros [a Ha]. by eapply Hc. }
  destruct (prepare_connection (ans_acquire answers) request) as [c|e] eqn:Hc.
  - destruct (preparation_commit p c uid report s.2) as [res a] eqn:Hp.
    injection Hd as <- <-. exists res. split; [done|]. cbn [snd].
    apply preparation_commit_settled in Hp as [(-> & (adm & Ha & Hs & Hcur) & Ht & Hq)|[Hr Hrel]];
      [left|right; by apply Hrefused].
    split; [done|]. unfold prepare_connection, check_preparation in Hc. bind_inv Hc.
    injection Hc as <-. bind_inv Hx. injection Hx as <-. by exists adm, x0.
  - injection Hd as <- <-. eexists. split; [done|]. right.
    apply Hrefused; [by do 2 eexists|]. apply drop_released.
Qed.
End dispatcher_theorems.

(** * A request of session 42 *)
Module DispatcherExample.
Import Concrete.
#[export] Existing Instance Concrete.uuids.
#[export] Existing Instance Concrete.plain_base64.
#[export] Existing Instance ReportExample.parser.
#[export] Existing Instance RedactExample.literal_regex.

Abbreviation Shared := (Lifecycle (TS:=tokens) (T:=N) (Q:=queue) (W:=cell) (Resources:=()) (Monitor:=())).
Abbreviation Dispatch := (DispatchState (TS:=tokens) (T:=N) (Q:=queue) (W:=cell) (Resources:=())
  (Monitor:=()) (Level:=N)).

Definition idle : Shared := {|
  Lifecycle.tokens := (∅, ∅); completed := ∅; admissions := admissions_default; events := channel 4;
  tunnel := watch_channel tunnel_binding_default; state := watch_channel VpnState.Disconnected |}.
Definition session : SessionRecord (C:=N) (D:=AttemptDrain (T:=N)) :=
  set_status (Active 1 (Some 100) None)
    (new_record {| service_instance_id := 1; session_id := 42; secret := "s"; product_version := "2.0";
                   device_anchor := None |} (Some 1000) 0).
Definition base : Dispatch :=
  ({| gui_restart_requested := false; redaction := []; max_level := None;
      gui_management_enabled := true; externally_brokered := false |},
   ({| registry_instance := 1; sessions := {[42 := session]}; poisoned := false |},
    ({[100 := control_new (channel 4)]}, idle))).
Definition request : ConnectRequest :=
  connect_request_new (connect_info_new "portal" (gateway PlanExample.member) []) PlanExample.plan.
Definition who : SessionAuthority := {| auth_session := 42; auth_generation := 1 |}.
Definition dispatched := dispatch_lifecycle (Connect request) (Some 1000) None (Some who) base.
Definition preparation : ConnectionPreparation (T:=N) := {|
  authority := who; prep_non_tunnel := true;
  reservation := {| rsv_attempt := 0; rsv_cancellation := 0 |} |}.
Definition answers : SystemAnswers (Resources:=()) (Level:=N) := {|
  ans_acquire _ := Ok (); ans_install _ := Installed; ans_metadata := Ok None;
  ans_parse_level _ := None; ans_info := 3 |}.
Definition settled :=
  dispatch_pending answers (PendingConnect preparation request (Some 1000) None) dispatched.2.
(** The session attaches again before the preparation is done. *)
Definition superseded : Dispatch :=
  (dispatched.2.1, (set_sessions {[42 := set_status (Active 2 (Some 100) None) session]} dispatched.2.2.1,
                    dispatched.2.2.2)).
Definition refused :=
  dispatch_pending answers (PendingConnect preparation request (Some 1000) None) superseded.

Lemma connect_request_admitted_witness :
  dispatched.1 = Ok (PendingConnect preparation request (Some 1000) None) ∧
  current (admissions (handle base)) = None ∧
  ∃ p, current (admissions (handle dispatched.2)) = Some (admitted p).
Proof.
  pose proof (connect_request_admitted request (Some 1000) None (Some who) base dispatched.2
    dispatched.1 ltac:(by vm_compute)) as Hd.
  split; [by vm_compute|]. destruct dispatched.1 as [pending|e] eqn:E; [|by vm_compute in E].
  destruct Hd as (p & report & _ & _ & Hn & Hc & _). split; [exact Hn|]. by exists p.
Defined.

Lemma connect_request_settled_witness :
  settled.1 = Answered Accepted ∧
  refused.1 = Answered (rejected InvalidRequest "Connection attachment is unavailable") ∧
  admission_of 0 (handle refused.2) = None ∧ 0 ∈ completed (handle refused.2).
Proof.
  split; [by vm_compute|]. split; [by vm_compute|].
  destruct (connect_request_settled answers preparation request (Some 1000) None superseded refused.2
    refused.1 ltac:(by vm_compute) ltac:(change (0 ∈ (Lifecycle.tokens (handle superseded)).1); by apply (bool_decide_unpack _); vm_compute))
    as (res & Hres & [(Ha & _)|(_ & Hn & _ & Hc & _)]).
  - exfalso. rewrite Ha in Hres. by vm_compute in Hres.
  - split; [exact Hn|]. apply Hc. vm_compute. by eexists.
Defined.
End DispatcherExample.
