(* ===== verification/HipPreview.v ===== *)
(** HIP previews (apps/gpservice/src/hip_preview.rs): at most one worker per session and
    four in all generate reports in the background.

    [running] are the spawned workers that have not ended; a worker is named by the
    number [start] gives it. What a worker generates is the host's: [end_worker] takes
    it as an argument. [cancel_connection] waits for its worker under the lock of the
    task map: [awaited] names it, and the map is locked until it ends. *)
From S2P Require Import Prelude Utf8 ThirdParty Transport Tunnel Session Service.
From S2P Require Import EditedReport Lifecycle SessionRegistry WsServer.

#[local] Open Scope N_scope.

Definition MAX_ACTIVE_PREVIEWS : nat := 4.

Record PreviewTask := { task_connection : Uuid; task_worker : N }.
(** What the worker keeps of its [PreviewJob]. *)
Record PreviewWorker := {
  worker_session : Uuid;
  worker_connection : Uuid;
  worker_request : Uuid;
}.
Record HipPreviews := {
  tasks : gmap Uuid PreviewTask;
  slots : nat;
  shutdown : bool;
  running : gmap N PreviewWorker;
  cancelled : gset N;
  next_worker : N;
  awaited : option N;
}.
Definition set_tasks (v : gmap Uuid PreviewTask) (s : HipPreviews) : HipPreviews := {|
  tasks := v; slots := slots s; shutdown := shutdown s; running := running s;
  cancelled := cancelled s; next_worker := next_worker s; awaited := awaited s |}.

Definition previews_new : HipPreviews := {|
  tasks := ∅; slots := MAX_ACTIVE_PREVIEWS; shutdown := false; running := ∅; cancelled := ∅;
  next_worker := 0; awaited := None |}.

Definition is_running (p : HipPreviews) (w : N) : bool := bool_decide (is_Some (running p !! w)).
(** The task map's lock is held by a [cancel_connection] that waits. *)
Definition tasks_locked (p : HipPreviews) : bool :=
  match awaited p with Some w => is_running p w | None => false end.

(** [start], once it has the lock. *)
Definition start (session connection request : Uuid) (p : HipPreviews) : bool * HipPreviews :=
  if shutdown p || match tasks p !! session with
                   | Some t => is_running p (task_worker t)
                   | None => false
                   end
  then (false, p)
  else
    let p := set_tasks (delete session (tasks p)) p in
    match slots p with
    | O => (false, p)
    | S slots =>
        let w := next_worker p in
        (true, {|
          tasks := <[session := {| task_connection := connection; task_worker := w |}]> (tasks p);
          slots := slots; shutdown := shutdown p;
          running := <[w := {| worker_session := session; worker_connection := connection;
                               worker_request := request |}]> (running p);
          cancelled := cancelled p; next_worker := w + 1; awaited := awaited p |})
    end.

Definition cancel_connection (session connection : Uuid) (p : HipPreviews) : HipPreviews :=
  match tasks p !! session with
  | Some t =>
      if task_connection t =? connection then {|
        tasks := delete session (tasks p); slots := slots p; shutdown := shutdown p;
        running := running p; cancelled := {[task_worker t]} ∪ cancelled p;
        next_worker := next_worker p; awaited := Some (task_worker t) |}
      else p
  | None => p
  end.

(** [shutdown] cancels the parent token, then takes the tasks under their lock. *)
Definition begin_shutdown (p : HipPreviews) : HipPreviews := {|
  tasks := tasks p; slots := slots p; shutdown := true; running := running p;
  cancelled := dom (running p) ∪ cancelled p; next_worker := next_worker p; awaited := awaited p |}.

(** The worker's last step: its slot is free again. *)
Definition release_slot (w : N) (p : HipPreviews) : HipPreviews := {|
  tasks := tasks p; slots := S (slots p); shutdown := shutdown p; running := delete w (running p);
  cancelled := cancelled p; next_worker := next_worker p; awaited := awaited p |}.

(** ** The state machine *)
Inductive preview_label :=
  | StartPreview (session connection request : Uuid)
  | CancelPreview (session connection : Uuid)
  | BeginShutdown
  | TakeTasks
  | EndWorker (w : N).
Definition preview_step (p : HipPreviews) (l : preview_label) : HipPreviews :=
  match l with
  | StartPreview session connection request =>
      if tasks_locked p then p else (start session connection request p).2
  | CancelPreview session connection =>
      if tasks_locked p then p else cancel_connection session connection p
  | BeginShutdown => begin_shutdown p
  | TakeTasks => if shutdown p && negb (tasks_locked p) then set_tasks ∅ p else p
  | EndWorker w => if is_running p w then release_slot w p else p
  end.

(** ** The worker's answer *)
Section result.
Context {Q : Type → Type} `{Mpsc Q} {W : Type → Type} `{Watch W}.
Context {A D R : Type} `{AttemptHandles A D R}.
Context {MW M : Type} `{MonitorHandles MW M} `{XmlTree} `{UuidFormat}.
Abbreviation Srv := (Server (Q:=Q) (W:=W) (A:=A) (D:=D) (MW:=MW) (M:=M)) (only parsing).

(** A registry operation on behalf of a connection. *)
Definition on_registry {E B} (m : stm (State (C:=Uuid) (D:=D)) E B) (s : Srv) : result E B * Srv :=
  let '(r, st) := m (registry_state s) in (r, set_registry_state st s).

(** [store_hip_preview] and the first chunk; [preview] is the id that is drawn. *)
Definition stored_preview (session preview : Uuid) (xml : string) :
    stm (State (World:=gmap Uuid (ConnectionControl Q W) * A) (C:=Uuid) (D:=D)) SessionError ServiceResult :=
  preview ← store_hip_preview session xml preview;
  '(xml, complete) ← hip_preview_chunk session preview 0;
  mret (HipPreviewChunk (uuid_to_string preview) 0 xml complete).
Definition preview_result (session preview : Uuid) (xml : string) (s : Srv) : ServiceResult * Srv :=
  match on_registry (stored_preview session preview xml) s with
  | (Ok r, s) => (r, s)
  | (Err _, s) => (rejected Transport.Internal "HIP preview is unavailable", s)
  end.
(** [generated]: the blocking task's report, or that it failed. *)
Definition worker_result (session preview : Uuid) (generated : option string) (s : Srv) :
    ServiceResult * Srv :=
  match generated with
  | Some xml => preview_result session preview xml s
  | None => (rejected Transport.Internal "HIP preview failed", s)
  end.
End result.

(** * Theorems *)

(** ** At most one worker per session *)
Record previews_inv (p : HipPreviews) : Prop := {
  pi_slots : (slots p + size (running p) = MAX_ACTIVE_PREVIEWS)%nat;
  pi_next w : is_Some (running p !! w) → w < next_worker p;
  pi_stale session t : tasks p !! session = Some t → task_worker t < next_worker p;
  pi_tasks session t : tasks p !! session = Some t → is_running p (task_worker t) = true →
    ∃ x, running p !! task_worker t = Some x ∧ worker_session x = session;
  (** A running worker is its session's task, or awaited, or the service shuts down. *)
  pi_known w x : running p !! w = Some x →
    (∃ t, tasks p !! worker_session x = Some t ∧ task_worker t = w) ∨ awaited p = Some w ∨
    shutdown p = true;
  pi_unique w w' x x' : running p !! w = Some x → running p !! w' = Some x' →
    worker_session x = worker_session x' → w = w';
}.
Lemma is_running_true p w : is_running p w = true ↔ is_Some (running p !! w).
Proof. apply bool_decide_eq_true. Qed.
Lemma is_running_false p w : is_running p w = false ↔ running p !! w = None.
Proof.
  unfold is_running. rewrite bool_decide_eq_false. split; [apply eq_None_not_Some|].
  intros -> [x Hx]. done.
Qed.

Lemma running_lookup w x p w' x' :
  <[w:=x]> (running p) !! w' = Some x' → (w' = w ∧ x' = x) ∨ running p !! w' = Some x'.
Proof. intros [[-> ->]|[_ Hx]]%lookup_insert_Some; [by left|by right]. Qed.

(** A session whose task is not running has no worker at all. *)
Lemma session_free session p :
  tasks_locked p = false → shutdown p = false → previews_inv p →
  match tasks p !! session with Some t => is_running p (task_worker t) | None => false end = false →
  ∀ w x, running p !! w = Some x → worker_session x ≠ session.
Proof.
  intros Hlock Hsd Hinv Hbusy w x Hx Hs.
  destruct (pi_known p Hinv w x Hx) as [(t & Ht & Hw)|[Ha|Hd]]; [| |congruence].
  - rewrite <- Hs, Ht in Hbusy. subst w. apply is_running_false in Hbusy. congruence.
  - unfold tasks_locked in Hlock. rewrite Ha in Hlock. apply is_running_false in Hlock. congruence.
Qed.
Lemma start_inv session connection request p :
  tasks_locked p = false → previews_inv p →
  previews_inv (start session connection request p).2.
Proof.
  intros Hlock Hinv. unfold start. destruct (shutdown p) eqn:Hsd; cbn [orb]; [done|].
  destruct (match tasks p !! session with Some t => is_running p (task_worker t) | None => false end)
    eqn:Hbusy; [done|].
  pose proof (session_free session p Hlock Hsd Hinv Hbusy) as Hfree.
  destruct Hinv as [Hs Hn Hst Ht Hk Hu]. cbn.
  assert (∀ w x, running p !! w = Some x →
    (∃ t, delete session (tasks p) !! worker_session x = Some t ∧ task_worker t = w) ∨
    awaited p = Some w ∨ shutdown p = true) as Hkept.
  { intros w x Hx. destruct (Hk w x Hx) as [(t & Htt & Hw)|?]; [left|by right].
    exists t. split; [|done]. rewrite lookup_delete_ne; [done|]. intros Heq. by apply (Hfree w x). }
  destruct (slots p) as [|n] eqn:Hslots; cbn.
  { split; cbn; [lia|done| | |done|done]; intros ss t [_ Hl]%lookup_delete_Some;
      [by apply (Hst ss)|by apply (Ht ss)]. }
  assert (running p !! next_worker p = None) as Hfresh.
  { apply eq_None_not_Some. intros Hx%Hn. lia. }
  assert (∀ ss t, delete session (tasks p) !! ss = Some t → task_worker t < next_worker p) as Hold.
  { intros ss t [_ Hl]%lookup_delete_Some. by apply (Hst ss). }
  split; cbn.
  - rewrite map_size_insert_None by done. lia.
  - intros w [x [[-> _]|Hx]%running_lookup]; [lia|]. specialize (Hn w ltac:(eauto)). lia.
  - intros ss t [[<- <-]|[_ Hl]]%lookup_insert_Some; cbn; [lia|]. specialize (Hold ss t Hl). lia.
  - intros ss t [[<- <-]|[_ Hl]]%lookup_insert_Some; cbn.
    + rewrite lookup_insert_eq. by eexists.
    + unfold is_running. cbn. pose proof (Hold ss t Hl). rewrite lookup_insert_ne by lia.
      apply lookup_delete_Some in Hl as [_ Hl]. by apply Ht.
  - intros w x [[-> ->]|Hx]%running_lookup.
    + left. cbn. rewrite lookup_insert_eq. by eexists.
    + destruct (Hkept w x Hx) as [(t & Htt & Hw)|?]; [left|by right]. exists t.
      split; [|done]. rewrite lookup_insert_ne; [done|]. intros Heq. by apply (Hfree w x).
  - intros w w' x x' [[-> ->]|Hx]%running_lookup [[-> ->]|Hx']%running_lookup; cbn;
      intros Hsame; [done|by destruct (Hfree w' x')|by destruct (Hfree w x)|by eapply Hu].
Qed.
Lemma cancel_inv session connection p :
  tasks_locked p = false → previews_inv p → previews_inv (cancel_connection session connection p).
Proof.
  intros Hlock Hinv. unfold cancel_connection. destruct (tasks p !! session) as [t|] eqn:Hs; [|done].
  destruct (task_connection t =? connection); [|done].
  destruct Hinv as [Hsl Hn Hst Ht Hk Hu].
  split; cbn; [done|done| | | |done]; try (intros ss t' [_ Hl]%lookup_delete_Some; eauto).
  intros w x Hx. destruct (decide (w = task_worker t)) as [->|Hne]; [by right; left|].
  destruct (Hk w x Hx) as [(t' & Htt & Hw)|[Ha|Hsd]]; [| |by right; right].
  - left. exists t'. split; [|done]. rewrite lookup_delete_ne; [done|]. intros Heq. congruence.
  - exfalso. unfold tasks_locked in Hlock. rewrite Ha in Hlock. apply is_running_false in Hlock. congruence.
Qed.
Lemma begin_previews_shutdown_inv p : previews_inv p → previews_inv (begin_shutdown p).
Proof. intros [Hsl Hn Hst Ht Hk Hu]. by split; cbn; auto. Qed.
Lemma take_tasks_inv p : shutdown p = true → previews_inv p → previews_inv (set_tasks ∅ p).
Proof. intros Hsd [Hsl Hn Hst Ht Hk Hu]. split; cbn; auto; by intros ss t. Qed.
Lemma release_inv w p : is_running p w = true → previews_inv p → previews_inv (release_slot w p).
Proof.
  intros [x Hx]%is_running_true [Hsl Hn Hst Ht Hk Hu].
  split; cbn; [| | | | |].
  - rewrite map_size_delete, Hx. cbn.
    assert (size (running p) ≠ 0)%nat by (intros He%map_size_empty_inv; rewrite He in Hx; done). lia.
  - intros w' [x' [_ Hx']%lookup_delete_Some]. apply Hn. eauto.
  - done.
  - intros ss t Hl. unfold is_running. cbn. rewrite bool_decide_eq_true.
    intros [x' [Hne Hx']%lookup_delete_Some]. rewrite lookup_delete_ne by done.
    apply (Ht ss t Hl). apply is_running_true. eauto.
  - intros w' x' [_ Hx']%lookup_delete_Some. by apply Hk.
  - intros w1 w2 x1 x2 [_ H1]%lookup_delete_Some [_ H2]%lookup_delete_Some. by apply Hu.
Qed.
Lemma preview_step_inv p l : previews_inv p → previews_inv (preview_step p l).
Proof.
  intros Hinv. destruct l as [ss c r|ss c| | |w]; cbn.
  - destruct (tasks_locked p) eqn:?; [done|by apply start_inv].
  - destruct (tasks_locked p) eqn:?; [done|by apply cancel_inv].
  - by apply begin_previews_shutdown_inv.
  - destruct (shutdown p && _) eqn:?; [boolify; by apply take_tasks_inv|done].
  - destruct (is_running p w) eqn:?; [by apply release_inv|done].
Qed.

(** Previews are bounded. Over every run no session has two preview workers at once,
    at most four run in all, the free slots are exactly the others, and once the service
    shuts down no worker is started. *)
Lemma previews_bounded ls :
  let p := runs preview_step previews_new ls in
  (∀ w w' x x', running p !! w = Some x → running p !! w' = Some x' →
     worker_session x = worker_session x' → w = w') ∧
  (slots p + size (running p) = 4)%nat ∧
  ∀ ls', shutdown p = true → running (runs preview_step p ls') ⊆ running p.
Proof.
  assert (∀ p, previews_inv p → ∀ ls, previews_inv (runs preview_step p ls)) as Hruns.
  { intros p Hp ls'. apply runs_invariant; [|done]. intros ? ?; apply preview_step_inv. }
  intros p. assert (previews_inv p) as Hinv.
  { apply Hruns. split; cbn; [done|by intros w [x Hx]|done|done|done|done]. }
  split; [apply (pi_unique p Hinv)|]. split; [apply (pi_slots p Hinv)|].
  intros ls' Hsd. revert Hsd. generalize p. clear p Hinv. induction ls' as [|l ls' IH]; intros p Hsd; [done|].
  cbn. transitivity (running (preview_step p l)).
  - apply IH. destruct l; cbn; unfold start, cancel_connection; rewrite ?Hsd; repeat case_match; done.
  - destruct l; cbn; unfold start, cancel_connection; rewrite ?Hsd; repeat case_match; try done.
    apply delete_subseteq.
Qed.

Lemma previews_bounded_witness :
  let p := runs preview_step previews_new [StartPreview 1 10 100; StartPreview 1 10 101;
    StartPreview 2 11 102; CancelPreview 1 10; StartPreview 1 12 103; BeginShutdown; EndWorker 0; TakeTasks] in
  size (running p) = 1%nat ∧
  running (runs preview_step p [StartPreview 3 13 104]) ⊆ running p.
Proof.
  split; [by vm_compute|].
  apply (previews_bounded [StartPreview 1 10 100; StartPreview 1 10 101;
    StartPreview 2 11 102; CancelPreview 1 10; StartPreview 1 12 103; BeginShutdown; EndWorker 0; TakeTasks]).
  by vm_compute.
Defined.
