(* ===== verification/WsHandshake.v ===== *)
(** The handshake of a WebSocket connection (apps/gpservice/src/ws_connection.rs,
    [establish] and what it calls), run alone on the frames that arrive. A clock reading
    and the ids it draws are arguments; the timeout around it drops it, which drops its
    permit as an error does. *)
From S2P Require Import Prelude Utf8 ThirdParty Transport Tunnel Session Service.
From S2P Require Import EditedReport Lifecycle SessionRegistry WsServer HipPreview.

#[local] Open Scope N_scope.

(** * The socket *)
Inductive Received := RBinary (data : string) | ROther | RFailed.
(** [writes] says which sends succeed; all do when it is used up. *)
Record Socket := {
  incoming : list Received;
  writes : list bool;
  outgoing : list string;
}.

Section handshake.
Context {Q : Type → Type} `{Mpsc Q} {W : Type → Type} `{Watch W}.
Context {A D R : Type} `{AttemptHandles A D R} {M MW : Type} `{MonitorHandles MW M}.
Context `{XmlTree} `{UuidFormat}.
Context `{SerdeJson ServerMessage} `{SerdeJson ClientMessage} `{SerdeJson TunnelConfiguration}.
Context `{SerdeJson ClientPrelude} `{SerdeJson ServerPrelude}.
Context {hs ts : Type} `{Snow hs ts}.

Abbreviation Srv := (Server (Q:=Q) (W:=W) (A:=A) (D:=D) (MW:=MW) (M:=M)) (only parsing).

(** ** Frames *)
Definition Handshake : Type := Socket * Srv.
Definition receive_binary : stm Handshake CloseReason.t string := λ h,
  match incoming h.1 with
  | RBinary data :: rest =>
      (Ok data, ({| incoming := rest; writes := writes h.1; outgoing := outgoing h.1 |}, h.2))
  | ROther :: _ => (Err CloseReason.MalformedMessage, h)
  | _ => (Err CloseReason.HandshakeFailed, h)
  end.
Definition send_binary {E} (e : E) (data : string) : stm Handshake E () := λ h,
  let ok := hd true (writes h.1) in
  let k := {| incoming := incoming h.1; writes := tl (writes h.1);
              outgoing := if (ok : bool) then outgoing h.1 ++ [data] else outgoing h.1 |} in
  (if (ok : bool) then Ok () else Err e, (k, h.2)).
Definition receive_prelude : stm Handshake CloseReason.t ClientPrelude :=
  data ← receive_binary;
  lift (map_err (λ _, CloseReason.MalformedMessage) (client_prelude_decode data)).
Definition send_server_prelude (p : ServerPrelude) : stm Handshake CloseReason.t () :=
  data ← lift (map_err (λ _, CloseReason.InternalError) (server_prelude_encode p));
  send_binary CloseReason.HandshakeFailed data.
Definition send_encrypted (noise : ts) (m : ServerMessage) : stm Handshake () ts :=
  out ← lift (map_err (λ _, ()) (encrypt noise m));
  _ ← send_binary () out.1;
  mret out.2.
(** A rejected prelude is answered; the reason closes the socket. *)
Definition reject {B} (r : HandshakeRejection) (reason : CloseReason.t) : stm Handshake CloseReason.t B :=
  _ ← send_server_prelude (Transport.Rejected r); fail reason.

(** ** Establishing *)
Definition attach_error (e : SessionError) : CloseReason.t :=
  match e with
  | SessionRegistry.ReconnectSuperseded => CloseReason.ReconnectSuperseded
  | SessionRegistry.Unauthorized => CloseReason.Unauthorized
  | _ => CloseReason.InternalError
  end.
Definition on_server {E B} (f : Srv → result E B * Srv) : stm Handshake E B := λ h,
  let '(r, s) := f h.2 in (r, (h.1, s)).
Definition or_reason {E B} (m : stm Handshake E B) (f : E → CloseReason.t) :
    stm Handshake CloseReason.t B := λ h, let '(r, h) := m h in (map_err f r, h).
Definition on_error {E B} (m : stm Handshake E B) (undo : Srv → Srv) (reason : CloseReason.t) :
    stm Handshake CloseReason.t B := λ h,
  match m h with
  | (Ok b, h) => (Ok b, h)
  | (Err _, h) => (Err reason, (h.1, undo h.2))
  end.

(** The version checks, and the permit; [own] is the service's version. *)
Definition open_handshake (own : string) (own_instance : Uuid) (now : N) (token : Uuid) :
    stm Handshake CloseReason.t (ClientPrelude * HandshakePermit) :=
  prelude ← receive_prelude;
  if negb (String.eqb (prelude_product_version prelude) own) then
    reject (Transport.VersionMismatch (prelude_product_version prelude) own) CloseReason.VersionMismatch
  else if negb (prelude_hip_protocol_version prelude =? HIP_PROTOCOL_VERSION) then
    reject (HipProtocolMismatch (prelude_hip_protocol_version prelude) HIP_PROTOCOL_VERSION)
      CloseReason.VersionMismatch
  else λ h,
    match on_registry (begin_handshake (prelude_service_instance_id prelude) own_instance
            (prelude_session_id prelude) (prelude_product_version prelude) now token) h.2 with
    | (Ok permit, s) => (Ok (prelude, permit), (h.1, s))
    | (Err (SessionRegistry.ServiceRestarted id), s) =>
        reject (Transport.ServiceRestarted id) CloseReason.ServiceRestarted (h.1, s)
    | (Err SessionRegistry.ReconnectSuperseded, s) =>
        reject Transport.ReconnectSuperseded CloseReason.ReconnectSuperseded (h.1, s)
    | (Err _, s) => reject Transport.Unauthorized CloseReason.Unauthorized (h.1, s)
    end.

(** The Noise handshake with the session's secret, up to the client's [Attach]. *)
Definition noise_handshake (own : string) (prelude : ClientPrelude) (permit : HandshakePermit) :
    stm Handshake CloseReason.t ts :=
  responder ← lift (map_err (λ _, CloseReason.HandshakeFailed)
    (responder_new own (prelude_service_instance_id prelude) (prelude_session_id prelude)
       (permit_secret permit)));
  first ← receive_binary;
  responder ← lift (map_err (λ _, CloseReason.HandshakeFailed) (read_first responder first));
  out ← lift (map_err (λ _, CloseReason.HandshakeFailed) (write_response responder));
  _ ← send_binary CloseReason.HandshakeFailed out.1;
  attach ← receive_binary;
  message ← lift (map_err (λ _, CloseReason.AuthenticationFailed) (decrypt (A:=ClientMessage) out.2 attach));
  match message.1 with
  | ClientAttach _ => mret message.2
  | _ => fail CloseReason.MalformedMessage
  end.

(** [rx.recv()] of the first command. *)
Definition take_command (id : Uuid) (s : Srv) : option ConnectionCommand * Srv :=
  match controls s !! id with
  | Some k =>
      match recv (control_tx k) with
      | Some (c, q) => (Some c, on_control id (set_control_tx q) s)
      | None => (None, s)
      end
  | None => (None, s)
  end.
Definition close_replaced (replaced : option Uuid) (s : Srv) : Srv :=
  match replaced with Some old => on_control old (control_close CloseReason.SessionReplaced) s | None => s end.

(** [id] names the new control. *)
Definition attach_connection (noise : ts) (permit : HandshakePermit) (id : Uuid) :
    stm Handshake CloseReason.t (ts * N) :=
  generation ← or_reason (on_server (λ s, WsServer.prepare_connection permit id (new_control id s))) attach_error;
  attached ← on_error (λ h,
      match take_command id h.2 with
      | (Some (Send (ServerAttached c r e)), s) => (Ok (ServerAttached c r e), (h.1, s))
      | (_, s) => (Err (), (h.1, s))
      end) (abandon_connection id) CloseReason.InternalError;
  noise ← on_error (send_encrypted noise attached) (abandon_connection id) CloseReason.InternalError;
  replaced ← or_reason (on_server (WsServer.commit_connection permit id)) attach_error;
  _ ← on_server (λ s, (Ok (), close_replaced replaced s));
  mret (noise, generation).

(** A permit that does not become a connection is dropped. *)
Definition drop_permit {B} (permit : HandshakePermit) (m : stm Handshake CloseReason.t B) :
    stm Handshake CloseReason.t B := λ h,
  match m h with
  | (Ok b, h) => (Ok b, h)
  | (Err reason, h) =>
      (Err reason, (h.1, set_registry_state (cancel_handshake permit (registry_state h.2)) h.2))
  end.

Definition establish (own : string) (own_instance : Uuid) (now : N) (token id : Uuid) :
    stm Handshake CloseReason.t (ts * HandshakePermit * N) :=
  '(prelude, permit) ← open_handshake own own_instance now token;
  drop_permit permit (
    _ ← send_server_prelude Ready;
    noise ← noise_handshake own prelude permit;
    '(noise, generation) ← attach_connection noise permit id;
    mret (noise, permit, generation)).
End handshake.

(** * Theorems *)
Section handshake_theorems.
Context {Q : Type → Type} `{MpscLaws Q} {W : Type → Type} `{WatchLaws W}.
Context {A D R : Type} `{AttemptHandles A D R} {M MW : Type} `{MonitorLaws MW M}.
Context `{XmlTree} `{UuidFormat}.
Context `{SerdeJson ServerMessage} `{SerdeJson ClientMessage} `{SerdeJson TunnelConfiguration}.
Context `{SerdeJson ClientPrelude} `{SerdeJson ServerPrelude}.
Context {hs ts : Type} `{Snow hs ts}.

Abbreviation Srv := (Server (Q:=Q) (W:=W) (A:=A) (D:=D) (MW:=MW) (M:=M)) (only parsing).
Abbreviation Shake := (Handshake (Q:=Q) (W:=W) (A:=A) (D:=D) (MW:=MW) (M:=M)) (only parsing).

(** ** Steps that only use the socket *)
Definition socket_only {E B} (m : stm Shake E B) : Prop := ∀ h, (m h).2.2 = h.2.
Lemma socket_bind {E B1 B2} (m : stm Shake E B1) (f : B1 → stm Shake E B2) :
  socket_only m → (∀ b, socket_only (f b)) → socket_only (m ≫= f).
Proof.
  intros Hm Hf h. specialize (Hm h). unfold mbind, stm_bind, stm_bind_def.
  destruct (m h) as [[b|e] h1]; cbn in *; [by rewrite Hf|done].
Qed.
Lemma socket_lift {E B} (r : result E B) : socket_only (lift r).
Proof. done. Qed.
Lemma receive_socket : socket_only receive_binary.
Proof. intros [k s]. unfold receive_binary. by destruct (incoming _) as [|[]]. Qed.
Lemma send_socket {E} (e : E) data : socket_only (send_binary e data).
Proof. done. Qed.
Lemma prelude_socket p : socket_only (send_server_prelude p).
Proof. apply socket_bind; [done|intros data; apply send_socket]. Qed.
Lemma reject_socket {B} r reason : socket_only (reject (B:=B) r reason).
Proof. apply socket_bind; [apply prelude_socket|done]. Qed.
Lemma encrypted_socket noise m : socket_only (send_encrypted noise m).
Proof. apply socket_bind; [done|]. intros out. apply socket_bind; [apply send_socket|done]. Qed.
Lemma noise_socket own prelude permit : socket_only (noise_handshake own prelude permit).
Proof.
  repeat first [apply socket_bind; [done || apply receive_socket || apply send_socket|intros ?]|done].
  by case_match.
Qed.

(** ** Tokens *)
Definition slot (r : SessionRecord (C:=Uuid) (D:=D)) : option Uuid :=
  match status r with Pending _ h => h | Active _ _ h => h end.
Definition no_token (t : Uuid) (s : Srv) : Prop :=
  ∀ id r, sessions (server_registry s) !! id = Some r → slot r ≠ Some t.
(** The permit is out, and nobody else has its token. *)
Definition held (p : HandshakePermit) (s : Srv) : Prop :=
  poisoned (server_registry s) = false ∧
  ∃ r, sessions (server_registry s) !! permit_session_id p = Some r ∧ permit_current p r = true ∧
    ∀ id r', id ≠ permit_session_id p → sessions (server_registry s) !! id = Some r' →
      slot r' ≠ Some (token p).

(** No session has connection [id]. *)
Definition unattached (id : Uuid) (s : Srv) : Prop := ∀ k r g c,
  sessions (server_registry s) !! k = Some r → status r ≠ Active g (Some id) c.

Lemma begin_held i own id v now t (s : Srv) p st :
  no_token t s → begin_handshake i own id v now t (registry_state s) = (Ok p, st) →
  held p (set_registry_state st s) ∧ token p = t ∧ connections (set_registry_state st s) = connections s ∧
  ∀ c, unattached c s → unattached c (set_registry_state st s).
Proof.
  intros Hno Hb. destruct (decide (i = own)) as [->|Hne].
  2: { unfold begin_handshake in Hb. by rewrite (proj2 (N.eqb_neq i own) Hne) in Hb. }
  apply begin_handshake_inv in Hb as (Hpo & <- & Ht & r & st0 & Hr & -> & Hst).
  split; [|split; [done|split; [done|]]].
  2: { intros c Hc k r0 g h. cbn. intros [[_ <-]|[_ Hk]]%lookup_insert_Some; [|by eapply Hc].
       destruct Hst as [(d & _ & -> & _)|(g0 & c0 & Hs & -> & _)]; [done|]. cbn. intros [= -> -> _].
       by eapply Hc. }
  split; [exact Hpo|]. exists (set_status st0 r). cbn. rewrite lookup_insert_eq.
  split; [done|]. split.
  - unfold permit_current. destruct Hst as [(d & _ & -> & ->)|(g & c & _ & -> & ->)]; cbn;
      rewrite ?N.eqb_refl, Ht, token_is_refl; done.
  - intros id' r' Hne. rewrite lookup_insert_ne by done. rewrite Ht. apply Hno.
Qed.
Lemma begin_refused i own id v now t (s : Srv) e st :
  no_token t s → begin_handshake i own id v now t (registry_state s) = (Err e, st) →
  no_token t (set_registry_state st s) ∧ connections (set_registry_state st s) = connections s.
Proof.
  intros Hno Hb. split; [|done].
  assert (∀ k r, sessions st.1 !! k = Some r → sessions (server_registry s) !! k = Some r) as Hsub;
    [|intros k r Hk; by eapply Hno, Hsub].
  unfold begin_handshake, locked, get_record, put_record, remove_record in Hb. stm_unfold.
  destruct (negb _); [by injection Hb as _ <-|]. cbn [fst snd registry_state] in Hb.
  destruct (poisoned _); [by injection Hb as _ <-|].
  crush_hyps; intros k r0 Hk; cbn in *; try done.
  all: first [by apply lookup_delete_Some in Hk as [_ Hk]
             | exfalso; match goal with E : <[_ := _]> _ !! _ = None |- _ => by rewrite lookup_insert_eq in E end].
Qed.

Lemma cancel_releases p (s : Srv) :
  held p s → no_token (token p) (set_registry_state (cancel_handshake p (registry_state s)) s).
Proof.
  intros (Hpo & r & Hr & Hcur & Hothers). unfold cancel_handshake, effect. cbn [registry_state fst snd].
  rewrite Hpo, Hr, Hcur.
  destruct (status r) as [d h|g c h] eqn:Hst; intros id r' Hid; cbn in Hid.
  - apply lookup_delete_Some in Hid as [Hne Hid]. by eapply Hothers.
  - apply lookup_insert_Some in Hid as [[_ <-]|[Hne Hid]]; [done|]. by eapply Hothers.
Qed.
Lemma held_registry p (s s' : Srv) : server_registry s' = server_registry s → held p s → held p s'.
Proof. intros He. unfold held. by rewrite He. Qed.
Lemma refresh_registry (s : Srv) : server_registry (refresh_demand s) = server_registry s.
Proof. unfold refresh_demand. by destruct (tb_monitor _). Qed.
Lemma refresh_connections (s : Srv) : connections (refresh_demand s) = connections s.
Proof. unfold refresh_demand. by destruct (tb_monitor _). Qed.
Lemma send_command_registry c id (s : Srv) :
  server_registry (send_command c id s).2 = server_registry s ∧
  connections (send_command c id s).2 = connections s.
Proof. unfold send_command. destruct (controls s !! id); [|done]. by destruct (control_send _ _). Qed.

(** ** Attaching with a held permit *)
Lemma prepare_generation p g (s : Srv) :
  held p s → answer (prepare_attach p) (registry_state s) = Ok g → g = observed_generation p + 1.
Proof.
  intros (Hpo & r & Hr & Hcur & _). unfold answer, prepare_attach, locked, get_record. stm_unfold.
  cbn [registry_state fst snd]. rewrite Hpo, Hr. cbn [fst snd]. rewrite Hcur. unfold permit_current in Hcur.
  destruct (status r) as [d h|g' c h]; cbn; boolify.
  - intros [= <-]. lia.
  - destruct (checked_add u64_max g' 1) as [x|] eqn:E; cbn; [|done].
    apply checked_add_Some in E as [-> _]. intros [= <-]. lia.
Qed.
Lemma prepare_spec p id (s : Srv) :
  held p s → id ∉ connections s →
  let '(r, s') := WsServer.prepare_connection p id (new_control id s) in
  server_registry s' = server_registry s ∧
  match r with
  | Ok g => g = observed_generation p + 1
  | Err _ => id ∉ connections s'
  end.
Proof.
  intros Hh Hid. unfold WsServer.prepare_connection.
  pose proof (prepare_generation p) as Hg.
  destruct (answer (prepare_attach p) _) as [g|e] eqn:Ha; [|done].
  destruct (fit_snapshot_message _) as [m|]; [|done].
  destruct (send_command_registry (Send m) id (new_control id s)) as [Hr Hc].
  destruct (send_command _ _ _) as [[] s1]; cbn in Hr, Hc |- *.
  - split; [done|]. by apply (Hg g (new_control id s)).
  - split; [done|]. congruence.
Qed.
(** What [commit_attach] does with a held permit. *)
Lemma commit_attach_held p id (s : Srv) :
  held p s → unattached id s →
  let '(r, st) := commit_attach p id (registry_state s) in
  match r with
  | Ok replaced => replaced ≠ Some id ∧
      is_current (permit_session_id p) (observed_generation p + 1) st.1 = true ∧
      ∃ r', sessions st.1 !! permit_session_id p = Some r' ∧
        status r' = Active (observed_generation p + 1) (Some id) None
  | Err _ => held p (set_registry_state st s)
  end.
Proof.
  intros (Hpo & r & Hr & Hcur & Hothers) Hfresh. unfold commit_attach, locked, get_record, put_record, world_effect.
  stm_unfold. cbn [registry_state fst snd]. rewrite Hpo, Hr. cbn [fst snd]. rewrite Hcur.
  pose proof Hcur as Hc. unfold permit_current in Hc.
  destruct (status r) as [d h|g c h] eqn:Hst; cbn; boolify.
  - split; [done|]. unfold is_current. cbn -[N.eqb N.add]. rewrite Hpo, lookup_insert_eq. cbn -[N.eqb N.add].
    split; [apply N.eqb_eq; lia|]. eexists. split; [done|]. cbn. f_equal. lia.
  - destruct (checked_add u64_max g 1) as [x|] eqn:E; cbn.
    + apply checked_add_Some in E as [-> _]. split; [intros ->; by eapply Hfresh|].
      unfold is_current. cbn -[N.eqb N.add]. rewrite Hpo, lookup_insert_eq. cbn -[N.eqb N.add].
      split; [apply N.eqb_eq; lia|]. eexists. split; [done|]. cbn. f_equal. lia.
    + split; [done|]. exists (set_closed_attachment None r). cbn. rewrite lookup_insert_eq.
      split; [done|]. split; [exact Hcur|]. intros id' r' Hne. rewrite lookup_insert_ne by done. by apply Hothers.
Qed.

(** A connection that is in the map, and the session's. *)
Definition attached_as (p : HandshakePermit) (id : Uuid) (g : N) (s : Srv) : Prop :=
  id ∈ connections s ∧ is_current (permit_session_id p) g (server_registry s) = true ∧
  ∃ r, sessions (server_registry s) !! permit_session_id p = Some r ∧ status r = Active g (Some id) None.
Lemma commit_spec p id (s : Srv) :
  held p s → unattached id s →
  let '(r, s') := WsServer.commit_connection p id s in
  match r with
  | Ok replaced => replaced ≠ Some id ∧ attached_as p id (observed_generation p + 1) s'
  | Err _ => held p s' ∧ (id ∉ connections s' ∨ control_closed id s' = true)
  end.
Proof.
  intros Hh Hfresh. unfold WsServer.commit_connection.
  destruct (negb _ || control_closed id s) eqn:E.
  { split; [done|]. apply orb_true_iff in E as [E|E]; [left|by right]. boolify. done. }
  boolify. pose proof (commit_attach_held p id s Hh Hfresh) as Hc.
  destruct (commit_attach p id (registry_state s)) as [[replaced|e] st].
  - destruct Hc as (Hne & Hcur & r' & Hr' & Hst). split; [done|].
    unfold attached_as. rewrite refresh_registry, refresh_connections.
    destruct replaced as [old|]; cbn; [|by eauto]. split; [|by eauto].
    apply elem_of_difference. split; [done|]. intros Ho%elem_of_singleton. congruence.
  - split.
    + eapply held_registry; [|exact Hc]. by rewrite refresh_registry.
    + left. rewrite refresh_connections. cbn. set_solver.
Qed.
Lemma take_command_registry id (s : Srv) :
  server_registry (take_command id s).2 = server_registry s ∧ connections (take_command id s).2 = connections s.
Proof.
  unfold take_command. destruct (controls s !! id) as [k|]; [|done]. by destruct (recv _) as [[c q]|].
Qed.
Lemma abandon_out id (s : Srv) :
  server_registry (abandon_connection id s) = server_registry s ∧ id ∉ connections (abandon_connection id s).
Proof.
  unfold abandon_connection. rewrite refresh_registry, refresh_connections. cbn. split; [done|set_solver].
Qed.

Lemma attach_spec noise p id (h : Shake) :
  held p h.2 → id ∉ connections h.2 → unattached id h.2 →
  let '(r, h') := attach_connection noise p id h in
  match r with
  | Ok (_, g) => attached_as p id g h'.2
  | Err _ => held p h'.2 ∧ (id ∉ connections h'.2 ∨ control_closed id h'.2 = true)
  end.
Proof.
  intros Hh Hid Hfresh. unfold attach_connection, or_reason, on_server, on_error. stm_unfold.
  pose proof (prepare_spec p id h.2 Hh Hid) as Hp.
  destruct (WsServer.prepare_connection _ _ _) as [[g|e] s1]; cbn [map_err fst snd];
    destruct Hp as [Hr1 Hp]; [subst g|split; [by eapply held_registry|by left]].
  destruct (take_command_registry id s1) as [Hr2 _].
  destruct (take_command id s1) as [c s2]; cbn [fst snd] in *.
  assert (∀ s', server_registry s' = server_registry h.2 →
    held p (abandon_connection id s') ∧ (id ∉ connections (abandon_connection id s') ∨
      control_closed id (abandon_connection id s') = true)) as Hout.
  { intros s' Hs'. destruct (abandon_out id s') as [Ha Hi]. split; [|by left].
    eapply held_registry; [|exact Hh]. congruence. }
  destruct c as [[[|cid rev env| | |]|]|]; cbn [fst snd]; try (apply (Hout s2); congruence).
  pose proof (encrypted_socket noise (ServerAttached cid rev env) (h.1, s2)) as Hs.
  destruct (send_encrypted _ _ _) as [[noise'|e] h3]; cbn [fst snd] in *; [|apply Hout; congruence].
  pose proof (commit_spec p id h3.2) as Hc.
  destruct (WsServer.commit_connection _ _ _) as [[replaced|e] s4]; cbn [map_err fst snd].
  - destruct Hc as [Hne Hatt].
    + eapply held_registry; [|exact Hh]. congruence.
    + unfold unattached. rewrite Hs, Hr2, Hr1. exact Hfresh.
    + by destruct replaced.
  - apply Hc; [eapply held_registry; [|exact Hh]; congruence|]. unfold unattached.
    rewrite Hs, Hr2, Hr1. exact Hfresh.
Qed.

(** ** The whole handshake *)
Lemma begin_secret i own id v now t (st st' : State (World:=gmap Uuid (ConnectionControl Q W) * A) (C:=Uuid) (D:=D)) p :
  begin_handshake i own id v now t st = (Ok p, st') →
  permit_session_id p = id ∧
  ∃ r, sessions st.1 !! id = Some r ∧ permit_secret p = rec_secret r ∧ rec_product_version r = v.
Proof.
  unfold begin_handshake, locked, get_record, put_record, remove_record. intros Hb. stm_unfold.
  destruct (negb _); [done|]. destruct (poisoned _); [done|]. cbn [fst snd] in Hb.
  crush_hyps; match goal with E : <[_ := _]> _ !! _ = Some _ |- _ => rewrite lookup_insert_eq in E end;
    simplify_eq/=; split; try done; eexists; split; try done; split; try done; by apply String.eqb_eq.
Qed.
Lemma reject_spec {B} r reason (h : Shake) : ∃ e h', reject (B:=B) r reason h = (Err e, h') ∧ h'.2 = h.2.
Proof.
  pose proof (reject_socket (B:=B) r reason h) as Hs. destruct (reject r reason h) as [[b|e] h'] eqn:E; [|eauto].
  exfalso. unfold reject in E. stm_unfold. by destruct (send_server_prelude _ h) as [[]].
Qed.
Definition opened (own : string) (t : Uuid) (s : Srv)
    (x : result CloseReason.t (ClientPrelude * HandshakePermit) * Shake) : Prop :=
  connections x.2.2 = connections s ∧
  match x.1 with
  | Ok (prelude, p) => prelude_product_version prelude = own ∧
      permit_session_id p = prelude_session_id prelude ∧ held p x.2.2 ∧ token p = t ∧
      (∃ r, sessions (server_registry s) !! permit_session_id p = Some r ∧ permit_secret p = rec_secret r) ∧
      ∀ id, unattached id s → unattached id x.2.2
  | Err _ => no_token t x.2.2
  end.
Lemma reject_opened own t s r reason (h : Shake) :
  connections h.2 = connections s → no_token t h.2 → opened own t s (reject r reason h).
Proof. intros Hc Hno. destruct (reject_spec (B:=ClientPrelude * HandshakePermit) r reason h)
  as (e & h' & -> & Hs). unfold opened. cbn. by rewrite Hs. Qed.
Lemma open_spec own own_instance now t (h : Shake) :
  no_token t h.2 → opened own t h.2 (open_handshake own own_instance now t h).
Proof.
  intros Hno. unfold open_handshake, mbind, stm_bind, stm_bind_def.
  assert (socket_only (receive_prelude (Q:=Q) (W:=W) (A:=A) (D:=D) (MW:=MW) (M:=M))) as Hrec
    by (apply socket_bind; [apply receive_socket|intros data; apply socket_lift]).
  specialize (Hrec h). destruct (receive_prelude h) as [[prelude|e] h1]; cbn [snd] in Hrec;
    [|unfold opened; cbn; by rewrite Hrec].
  destruct (String.eqb _ own) eqn:Hv; cbn [negb]; [|apply reject_opened; by rewrite Hrec].
  apply String.eqb_eq in Hv.
  destruct (_ =? HIP_PROTOCOL_VERSION); cbn [negb]; [|apply reject_opened; by rewrite Hrec].
  unfold on_registry. rewrite Hrec.
  destruct (begin_handshake _ _ _ _ _ _ _) as [[p|e] st] eqn:Hb.
  - destruct (begin_secret _ _ _ _ _ _ _ _ _ Hb) as (Hid & r & Hr & Hsec & _).
    apply begin_held in Hb as (Hh & Ht & Hc & Hu); [|done]. subst own.
    unfold opened. cbn. split_and!; [done..| |done]. exists r. by rewrite Hid.
  - apply begin_refused in Hb as [Hn Hc]; [|done].
    destruct e; by apply reject_opened.
Qed.

(** A failure under a held permit frees the slot. *)
Definition failed (t id : Uuid) (s : Srv) : Prop :=
  no_token t s ∧ (id ∉ connections s ∨ control_closed id s = true).
Lemma cancel_controls p (st : State (World:=gmap Uuid (ConnectionControl Q W) * A) (C:=Uuid) (D:=D)) :
  (cancel_handshake p st).2 = st.2.
Proof.
  unfold cancel_handshake, effect. destruct st as [reg w]. cbn. destruct (poisoned reg); [done|].
  destruct (sessions reg !! _) as [r|]; [|done]. destruct (permit_current p r); [|done]. by destruct (status r).
Qed.
Lemma drop_failed {B} p id (m : stm Shake CloseReason.t B) (h : Shake) e h' :
  m h = (Err e, h') → held p h'.2 → id ∉ connections h'.2 ∨ control_closed id h'.2 = true →
  ∃ h'', drop_permit p m h = (Err e, h'') ∧ failed (token p) id h''.2.
Proof.
  intros Hm Hh Ho. unfold drop_permit. rewrite Hm. eexists. split; [done|]. cbn [snd].
  split; [by apply cancel_releases|]. destruct Ho as [Ho|Ho]; [by left|right].
  pose proof (cancel_controls p (registry_state h'.2)) as Hc.
  unfold control_closed in *. cbn in Hc |- *. by rewrite Hc.
Qed.

(** C32: a handshake ends in an attachment or leaves no trace. When [establish] succeeds the
    client spoke the service's version, the Noise handshake ran with the secret of the
    session it named, and the new connection is in the map and is the session's current
    attachment at the next generation. When it fails, at whatever frame, the session's
    slot is free again for the next handshake, and the new connection is not in the map,
    or is closed. *)
Theorem establish_settles own own_instance now t id (h : Shake) :
  no_token t h.2 → id ∉ connections h.2 → unattached id h.2 →
  let '(r, h') := establish own own_instance now t id h in
  match r with
  | Ok (_, p, g) => attached_as p id g h'.2 ∧
      ∃ prelude (h1 : Shake) rec, prelude_product_version prelude = own ∧ permit_session_id p = prelude_session_id prelude ∧
        sessions (server_registry h.2) !! permit_session_id p = Some rec ∧ permit_secret p = rec_secret rec ∧
        is_ok (answer (noise_handshake own prelude p) h1) = true
  | Err _ => no_token t h'.2 ∧ (id ∉ connections h'.2 ∨ control_closed id h'.2 = true)
  end.
Proof.
  intros Hno Hid Hun. unfold establish. stm_unfold. pose proof (open_spec own own_instance now t h Hno) as [Hc Ho].
  destruct (open_handshake _ _ _ _ _) as [[[prelude p]|e] h1]; cbn [fst snd] in *; [|split; [done|left; congruence]].
  destruct Ho as (Hv & Hsid & Hh & Ht & (rec & Hrec & Hsec) & Hu). specialize (Hu id Hun).
  subst t.
  match goal with |- context [drop_permit p ?m h1] => set (body := m) end.
  assert (match body h1 with
    | (Ok (_, p', g), h') => p' = p ∧ attached_as p id g h'.2 ∧
        ∃ h2 : Shake, is_ok (answer (noise_handshake own prelude p) h2) = true
    | (Err _, h') => held p h'.2 ∧ (id ∉ connections h'.2 ∨ control_closed id h'.2 = true)
    end) as Hbody.
  { unfold body. clear body. pose proof (prelude_socket Ready h1) as Hs2.
    destruct (send_server_prelude Ready h1) as [[[]|e] h2]; cbn [fst snd] in *;
      [|rewrite Hs2; split; [done|left; congruence]].
    pose proof (noise_socket own prelude p h2) as Hs3.
    destruct (noise_handshake own prelude p h2) as [[noise|e] h3] eqn:Hn; cbn [fst snd] in *;
      [|rewrite Hs3, Hs2; split; [done|left; congruence]].
    pose proof (attach_spec noise p id h3) as Ha. rewrite Hs3, Hs2 in Ha. specialize (Ha Hh ltac:(congruence) Hu).
    destruct (attach_connection noise p id h3) as [[[noise' g]|e] h4]; cbn [fst snd]; [|done].
    split; [done|]. split; [done|]. exists h2. unfold answer. by rewrite Hn. }
  destruct (body h1) as [[[[noise p'] g]|e] h'] eqn:Hb.
  - destruct Hbody as (-> & Ha & h2 & Hok). unfold drop_permit. rewrite Hb. split; [done|].
    by exists prelude, h2, rec.
  - destruct Hbody as [Hh' Ho]. destruct (drop_failed p id body h1 e h' Hb Hh' Ho) as (h'' & -> & Hf).
    exact Hf.
Qed.
End handshake_theorems.

(** * The handshake of session 42 *)
Module HandshakeExample.
Import Concrete.
#[export] Existing Instance RegistryExample.no_attempts.
#[export] Existing Instance ReportExample.parser.
#[export] Existing Instance Concrete.uuids.
#[export] Existing Instance Concrete.snow.
Definition client : ClientPrelude := {|
  prelude_product_version := "2.0"; prelude_hip_protocol_version := 1;
  prelude_service_instance_id := 1; prelude_session_id := 42 |}.
#[export] Instance client_codec : SerdeJson ClientPrelude :=
  {| to_vec _ := Some "p"; from_slice s := if String.eqb s "p" then Some client else None |}.
#[export] Instance prelude_codec : SerdeJson ServerPrelude :=
  {| to_vec p := Some match p with Ready => "ready" | _ => "no" end; from_slice _ := None |}.
#[export] Instance client_message_codec : SerdeJson ClientMessage :=
  {| to_vec _ := Some "a"; from_slice s := if String.eqb s "a" then Some (ClientAttach None) else None |}.
#[export] Instance server_message_codec : SerdeJson ServerMessage :=
  {| to_vec _ := Some "m"; from_slice _ := None |}.
#[export] Existing Instance ServerExample.configuration_codec.

Definition start (frames : list Received) : Handshake (Q:=queue) (W:=cell) (A:=gset N) (D:=()) (M:=N) :=
  ({| incoming := frames; writes := []; outgoing := [] |},
   server_new ServerExample.quiet_env RegistryExample.s1.1 ∅ ServerExample.world).
Definition good : list Received := [RBinary "p"; RBinary "e"; RBinary ("a" +:+ tag)].
Definition bad : list Received := [RBinary "p"; RBinary "e"; RBinary ("x" +:+ tag)].
Definition run_on (frames : list Received) := establish "2.0" 1 5 7 100 (start frames).

Lemma start_free frames : no_token 7 (start frames).2 ∧ 100 ∉ connections (start frames).2 ∧
  unattached 100 (start frames).2.
Proof.
  split; [|split; [set_solver|]].
  - intros id r Hr.
    assert (map_Forall (λ _ r, slot r ≠ Some 7) (sessions RegistryExample.s1.1)) as Hall
      by (apply (bool_decide_unpack _); by vm_compute).
    by apply (Hall id r).
  - intros id r g c Hr Hs.
    assert (map_Forall (λ _ r, is_pending r = true) (sessions RegistryExample.s1.1)) as Hall
      by (apply (bool_decide_unpack _); by vm_compute).
    specialize (Hall id r Hr). unfold is_pending in Hall. by rewrite Hs in Hall.
Qed.
Lemma establish_settles_witness :
  is_ok (run_on good).1 = true ∧ 100 ∈ connections (run_on good).2.2 ∧
  (run_on bad).1 = Err CloseReason.AuthenticationFailed ∧ no_token 7 (run_on bad).2.2.
Proof.
  split; [by vm_compute|].
  destruct (start_free good) as (H1 & H2 & H3). destruct (start_free bad) as (H4 & H5 & H6).
  pose proof (establish_settles "2.0" 1 5 7 100 (start good) H1 H2 H3) as Hg.
  pose proof (establish_settles "2.0" 1 5 7 100 (start bad) H4 H5 H6) as Hb.
  split; [|split; [by vm_compute|]].
  - change (establish "2.0" 1 5 7 100 (start good)) with (run_on good) in Hg.
    assert (is_ok (run_on good).1 = true) as Hok by by vm_compute.
    destruct (run_on good) as [[[[x p] g]|e] h']; [|done]. apply Hg.
  - change (establish "2.0" 1 5 7 100 (start bad)) with (run_on bad) in Hb.
    assert (is_ok (run_on bad).1 = false) as Hok by by vm_compute.
    destruct (run_on bad) as [[[[x p] g]|e] h']; [done|]. apply Hb.
Defined.
End HandshakeExample.
