(* ===== verification/WsConnection.v ===== *)
(** The loop of a WebSocket connection (apps/gpservice/src/ws_connection.rs) and the
    requests it serves.

    The loop is [connection_step]: every label is one arm of its [select!], in any order, or something
    that runs beside it (the request tasks it spawned, HIP previews, the server). Times
    are in milliseconds, readings of the same clock. *)
From S2P Require Import Prelude Utf8 ThirdParty Transport Tunnel Session Service Redact.
From S2P Require Import EditedReport Lifecycle SessionRegistry WsServer Dispatcher HipPreview WsHandshake.

#[local] Open Scope N_scope.

Definition HEARTBEAT_INTERVAL : N := 15000.
Definition PONG_TIMEOUT : N := 10000.
Definition MAX_PENDING_REQUESTS : nat := 64.

Section connection.
Context {TS T : Type} `{CancellationTokens TS T}.
Context {Q : Type → Type} `{Mpsc Q} {W : Type → Type} `{Watch W}.
Context {Resources M Level MW : Type} `{MonitorHandles MW M}.
Context `{XmlTree} `{UuidFormat} `{RegexCrate} `{Base64}.
Context `{SerdeJson ServerMessage} `{SerdeJson TunnelConfiguration}.
(** The approvals are files of the host. *)
Variable hip_approval_status : string → N → option HipApprovalStatus.

Abbreviation Shared := (Lifecycle (TS:=TS) (T:=T) (Q:=Q) (W:=W)
  (Resources:=Resources) (Monitor:=M)) (only parsing).
Abbreviation Srv := (Server (Q:=Q) (W:=W) (A:=Shared) (D:=AttemptDrain (T:=T)) (MW:=MW) (M:=M)) (only parsing).
Abbreviation Pending := (PendingDispatch (T:=T)) (only parsing).

(** * The loop *)

(** What a request task does: it runs [dispatch_pending], then queues the reply. *)
Inductive RequestTask := Dispatching (request : Pending) | Replying (r : ServiceResult).

(** Why the loop ended. *)
Inductive LoopEnd :=
  | EndUnexpectedReply
  | EndClosed (reason : CloseReason.t)
  | EndMalformed
  | EndAuthentication
  | EndHeartbeat
  | EndSocket.

(** [lost] remembers requests whose preview found the queue full. *)
Record Connection := {
  pending_requests : gset Uuid;
  request_tasks : list (Uuid * RequestTask);
  last_outbound : N;
  pong_deadline : option N;
  written : list ServerMessage;
  lost : list Uuid;
  ended : option LoopEnd;
}.
Definition set_pending_requests (v : gset Uuid) (s : Connection) : Connection := {|
  pending_requests := v; request_tasks := request_tasks s; last_outbound := last_outbound s;
  pong_deadline := pong_deadline s; written := written s; lost := lost s; ended := ended s |}.
Definition set_request_tasks (v : list (Uuid * RequestTask)) (s : Connection) : Connection := {|
  pending_requests := pending_requests s; request_tasks := v; last_outbound := last_outbound s;
  pong_deadline := pong_deadline s; written := written s; lost := lost s; ended := ended s |}.
Definition set_last_outbound (v : N) (s : Connection) : Connection := {|
  pending_requests := pending_requests s; request_tasks := request_tasks s; last_outbound := v;
  pong_deadline := pong_deadline s; written := written s; lost := lost s; ended := ended s |}.
Definition set_pong_deadline (v : option N) (s : Connection) : Connection := {|
  pending_requests := pending_requests s; request_tasks := request_tasks s;
  last_outbound := last_outbound s; pong_deadline := v; written := written s; lost := lost s;
  ended := ended s |}.
Definition set_written (v : list ServerMessage) (s : Connection) : Connection := {|
  pending_requests := pending_requests s; request_tasks := request_tasks s;
  last_outbound := last_outbound s; pong_deadline := pong_deadline s; written := v; lost := lost s;
  ended := ended s |}.
Definition set_lost (v : list Uuid) (s : Connection) : Connection := {|
  pending_requests := pending_requests s; request_tasks := request_tasks s;
  last_outbound := last_outbound s; pong_deadline := pong_deadline s; written := written s;
  lost := v; ended := ended s |}.
Definition set_ended (v : LoopEnd) (s : Connection) : Connection := {|
  pending_requests := pending_requests s; request_tasks := request_tasks s;
  last_outbound := last_outbound s; pong_deadline := pong_deadline s; written := written s;
  lost := lost s; ended := Some v |}.

(** The connection, what it shares, and what it was established with. *)
Record Attachment := {
  at_id : Uuid;
  at_session : Uuid;
  at_uid : option N;
  at_generation : N;
}.
Record Service := {
  server : Srv;
  dispatcher : RequestDispatcher (Level:=Level);
  previews : HipPreviews;
  connection : Connection;
}.
Definition with_server (v : Srv) (s : Service) : Service := {|
  server := v; dispatcher := dispatcher s; previews := previews s; connection := connection s |}.
Definition with_dispatcher (v : RequestDispatcher (Level:=Level)) (s : Service) : Service := {|
  server := server s; dispatcher := v; previews := previews s; connection := connection s |}.
Definition with_previews (v : HipPreviews) (s : Service) : Service := {|
  server := server s; dispatcher := dispatcher s; previews := v; connection := connection s |}.
Definition with_connection (v : Connection) (s : Service) : Service := {|
  server := server s; dispatcher := dispatcher s; previews := previews s; connection := v |}.
Definition on_connection (f : Connection → Connection) (s : Service) : Service :=
  with_connection (f (connection s)) s.

Variable at_ : Attachment.
Abbreviation handler := (stm Service () ()) (only parsing).

(** ** Requests *)
Definition serve {E B} (m : stm (State (C:=Uuid) (D:=AttemptDrain (T:=T))) E B) (s : Service) :
    result E B * Service :=
  let '(r, srv) := on_registry m (server s) in (r, with_server srv s).
Definition queue_reply (id : Uuid) (r : ServiceResult) (s : Service) : bool * Service :=
  let '(sent, srv) := send_command (Reply id r) (at_id at_) (server s) in (sent, with_server srv s).
(** [control.send(..).map_err(|_| ())?] *)
Definition reply (id : Uuid) (r : ServiceResult) : handler := λ s,
  let '(sent, s) := queue_reply id r s in (if (sent : bool) then Ok () else Err (), s).
(** [if control.send(..).is_err() { remove; close }] *)
Definition reply_or_close (id : Uuid) (r : ServiceResult) : handler := λ s,
  let '(sent, s) := queue_reply id r s in
  (Ok (), if (sent : bool) then s
          else with_server (on_control (at_id at_) (control_close CloseReason.InternalError) (server s))
                 (on_connection (λ c, set_pending_requests (pending_requests c ∖ {[id]}) c) s)).

(** The ids a request may draw. *)
Record Draws := { drawn_upload : Uuid; drawn_report : Uuid; drawn_preview : Uuid }.

Definition store_chunk (d : Draws) (r : StoreEditedHipReportChunkRequest) (s : Service) :
    ServiceResult * Service :=
  let upload_id := text ← chunk_upload_id r; uuid_parse_str text in
  if bool_decide (is_Some (chunk_upload_id r)) && negb (bool_decide (is_Some upload_id))
  then (rejected InvalidRequest "Invalid HIP upload ID", s)
  else match serve (append_edited_hip_report_chunk (at_session at_) upload_id (chunk_offset r)
                      (chunk_xml r) (chunk_complete r) (drawn_upload d) (drawn_report d)) s with
       | (Ok (Progress id), s) => (HipUploadProgress (uuid_to_string id), s)
       | (Ok (Stored id), s) => (StoredHipReport (uuid_to_string id), s)
       | (Err _, s) => (rejected InvalidRequest "Invalid HIP report upload", s)
       end.
Definition read_chunk (r : ReadHipPreviewChunkRequest) (s : Service) : ServiceResult * Service :=
  let refused := rejected InvalidRequest "HIP preview is unavailable" in
  match uuid_parse_str (read_preview_id r) with
  | None => (refused, s)
  | Some id =>
      match serve (hip_preview_chunk (at_session at_) id (read_offset r)) s with
      | (Ok (xml, complete), s) => (HipPreviewChunk (uuid_to_string id) (read_offset r) xml complete, s)
      | (Err _, s) => (refused, s)
      end
  end.
Definition last_report (d : Draws) (s : Service) : ServiceResult * Service :=
  match serve (successful_hip_report (at_session at_)) s with
  | (Ok (Some xml), s) =>
      match serve (stored_preview (at_session at_) (drawn_preview d) xml) s with
      | (Ok r, s) => (r, s)
      | (Err _, s) => (rejected Transport.Internal "Submitted HIP report is unavailable", s)
      end
  | (Ok None, s) => (NoSubmittedHipReport, s)
  | (Err _, s) => (rejected InvalidRequest "Session is unavailable", s)
  end.
Definition approval_status (approval_id : string) : ServiceResult :=
  match at_uid at_ with
  | Some uid =>
      if uid =? 0 then rejected InvalidRequest "Desktop user is unavailable"
      else match hip_approval_status approval_id uid with
           | Some status => HipApprovalStatusResult status
           | None => rejected InvalidRequest "Invalid HIP approval ID"
           end
  | None => rejected InvalidRequest "Desktop user is unavailable"
  end.
Definition start_preview (id : Uuid) (r : PreviewHipReportRequest) : handler := λ s,
  let report := match preview_source r with
    | Edited text =>
        match uuid_parse_str text with
        | None => Err (rejected InvalidRequest "Invalid HIP report ID")
        | Some report_id => map_err (λ _, rejected InvalidRequest "HIP report is unavailable for this session")
            (Some <$> (serve (edited_report (at_session at_) report_id) s).1)
        end
    | _ => Ok None
    end in
  match report with
  | Err result => reply id result s
  | Ok _ =>
      let '(started, p) := start (at_session at_) (at_id at_) id (previews s) in
      let s := with_previews p s in
      if (started : bool) then (Ok (), s)
      else reply id (rejected Busy "HIP preview is already running") s
  end.
Definition dispatch_request (id : Uuid) (request : WsRequest) : handler := λ s,
  let '(r, (d, a)) := dispatch_lifecycle request (at_uid at_) None
      (Some {| auth_session := at_session at_; auth_generation := at_generation at_ |})
      (dispatcher s, registry_state (server s)) in
  let s := with_dispatcher d (with_server (set_registry_state a (server s)) s) in
  match r with
  | Err result => reply_or_close id result s
  | Ok request =>
      (Ok (), on_connection (λ c, set_request_tasks (request_tasks c ++ [(id, Dispatching request)]) c) s)
  end.

Definition handle_request (d : Draws) (id : Uuid) (request : WsRequest) : handler := λ s,
  match request with
  | SetTunnelStatisticsEnabled enabled =>
      let '(r, srv) := server_set_statistics_enabled (at_id at_) (at_session at_) (at_generation at_)
                         enabled (server s) in
      reply id r (with_server srv s)
  | StoreEditedHipReportChunk report => let '(r, s) := store_chunk d report s in reply_or_close id r s
  | ReadHipPreviewChunk chunk => let '(r, s) := read_chunk chunk s in reply id r s
  | GetLastSubmittedHipReport => let '(r, s) := last_report d s in reply id r s
  | GetHipApprovalStatus approval_id => reply id (approval_status approval_id) s
  | PreviewHipReport preview => start_preview id preview s
  | request => dispatch_request id request s
  end.

Definition handle_client_message (d : Draws) (m : ClientMessage) : handler := λ s,
  match m with
  | ClientAttach _ => (Err (), s)
  | ClientResync _ =>
      let '(sent, srv) := send_snapshot (at_id at_) (server s) in
      (if (sent : bool) then Ok () else Err (), with_server srv s)
  | ClientRequest id request =>
      let pending := pending_requests (connection s) in
      if bool_decide (MAX_PENDING_REQUESTS ≤ size pending)%nat || bool_decide (id ∈ pending)
      then (Err (), s)
      else
        let s := on_connection (set_pending_requests ({[id]} ∪ pending)) s in
        if negb (is_current (at_session at_) (at_generation at_) (server_registry (server s)))
        then (Err (), on_connection (λ c, set_pending_requests (pending_requests c ∖ {[id]}) c) s)
        else handle_request d id request s
  end.

(** ** The arms of the loop *)
Inductive Frame :=
  | FBinary (m : option ClientMessage)
  | FPing
  | FPong
  | FClose
  | FText
  | FError.

Definition end_loop (e : LoopEnd) : Service → Service := on_connection (set_ended e).
(** A message of the service goes out; the flag says whether the write succeeded. *)
Definition write (ok : bool) (now : N) (m : ServerMessage) (s : Service) : Service :=
  if ok then on_connection (λ c, set_last_outbound now (set_written (written c ++ [m]) c)) s
  else end_loop EndSocket s.

Definition take_next (ok : bool) (now : N) (s : Service) : Service :=
  match take_command (at_id at_) (server s) with
  | (None, _) => s
  | (Some (Send m), srv) => write ok now m (with_server srv s)
  | (Some (Reply id r), srv) =>
      let s := with_server srv s in
      if bool_decide (id ∈ pending_requests (connection s)) then
        write ok now (ServerReply id r)
          (on_connection (λ c, set_pending_requests (pending_requests c ∖ {[id]}) c) s)
      else end_loop EndUnexpectedReply s
  end.
Definition take_close (s : Service) : Service :=
  match controls (server s) !! at_id at_ with
  | Some k => match watch_borrow (close_tx k) with
              | Some reason => end_loop (EndClosed reason) s
              | None => s
              end
  | None => s
  end.
(** A preview request waits for the task map. *)
Definition frame_blocked (f : Frame) (s : Service) : bool :=
  match f with FBinary (Some (ClientRequest _ (PreviewHipReport _))) => tasks_locked (previews s) | _ => false end.
Definition take_frame (f : Frame) (d : Draws) (ok : bool) (now : N) (s : Service) : Service :=
  match f with
  | FBinary None => end_loop EndAuthentication s
  | FBinary (Some m) =>
      match handle_client_message d m s with
      | (Ok _, s) => s
      | (Err _, s) => end_loop EndMalformed s
      end
  | FPing => if (ok : bool) then on_connection (set_last_outbound now) s else end_loop EndSocket s
  | FPong => on_connection (set_pong_deadline None) s
  | FClose | FError => end_loop EndSocket s
  | FText => end_loop EndMalformed s
  end.
Definition heartbeat (now : N) (ok : bool) (s : Service) : Service :=
  let c := connection s in
  match pong_deadline c with
  | Some deadline => if deadline <=? now then end_loop EndHeartbeat s else s
  | None =>
      if HEARTBEAT_INTERVAL <=? now - last_outbound c then
        if (ok : bool) then
          on_connection (λ c, set_pong_deadline (Some (now + PONG_TIMEOUT)) (set_last_outbound now c)) s
        else end_loop EndSocket s
      else s
  end.
Definition take_statistics (ok : bool) (now : N) (s : Service) : Service :=
  match controls (server s) !! at_id at_ with
  | Some k =>
      if statistics_enabled k then
        match watch_borrow (control_statistics k) with
        | Some snapshot => write ok now (ServerTunnelStatistics snapshot) s
        | None => s
        end
      else s
  | None => s
  end.
Definition clean_up (s : Service) : Service :=
  let srv := remove_connection (at_id at_) (at_session at_) (at_generation at_) (server s) in
  with_previews (cancel_connection (at_session at_) (at_id at_) (previews s)) (with_server srv s).

(** ** Beside the loop *)
Definition run_task (i : nat) (answers : SystemAnswers) (s : Service) : Service :=
  match request_tasks (connection s) !! i with
  | Some (id, Dispatching request) =>
      let '(o, (d, a)) := dispatch_pending answers request (dispatcher s, registry_state (server s)) in
      let s := with_dispatcher d (with_server (set_registry_state a (server s)) s) in
      match o with
      | Answered r => on_connection (λ c, set_request_tasks (<[i := (id, Replying r)]> (request_tasks c)) c) s
      | Waiting => s
      | Panicked => on_connection (λ c, set_request_tasks (delete i (request_tasks c)) c) s
      end
  | Some (id, Replying r) =>
      (** [tx.send(..).await]: it waits while the queue is full. *)
      match controls (server s) !! at_id at_ with
      | Some k =>
          if receiver_closed (control_tx k)
          then on_connection (λ c, set_request_tasks (delete i (request_tasks c)) c) s
          else
            let '(sent, s) := queue_reply id r s in
            if (sent : bool) then on_connection (λ c, set_request_tasks (delete i (request_tasks c)) c) s else s
      | None => s
      end
  | None => s
  end.
(** A preview worker ends; [control] is its connection's. *)
Definition end_preview (w : N) (generated : option string) (preview : Uuid) (s : Service) : Service :=
  match running (previews s) !! w with
  | None => s
  | Some x =>
      let '(r, srv) := worker_result (worker_session x) preview generated (server s) in
      let '(sent, srv) := send_command (Reply (worker_request x) r) (worker_connection x) srv in
      let s := with_previews (release_slot w (previews s)) (with_server srv s) in
      if (sent : bool) || negb (worker_connection x =? at_id at_) then s
      else on_connection (λ c, set_lost (lost c ++ [worker_request x]) c) s
  end.

Inductive connection_label :=
  | TakeCommand (ok : bool) (now : N)
  | TakeClose
  | TakeFrame (f : Frame) (d : Draws) (ok : bool) (now : N)
  | Tick (now : N) (ok : bool)
  | TakeStatistics (ok : bool) (now : N)
  | RunTask (i : nat) (answers : SystemAnswers (Resources:=Resources) (Level:=Level))
  | EndPreview (w : N) (generated : option string) (preview : Uuid)
  | CleanUp
  | OtherPreview (l : preview_label)
  | OtherServer (l : server_label (A:=Shared) (D:=AttemptDrain (T:=T)) (MW:=MW) (M:=M))
  | OtherDispatcher (d : RequestDispatcher (Level:=Level)).

(** While the loop runs only this task takes its commands and drops its receiver, and
    replies to its requests come from its own request tasks. *)
Definition other_server (l : server_label (A:=Shared) (D:=AttemptDrain (T:=T)) (MW:=MW) (M:=M)) (s : Service) :
    Service :=
  match l with
  | Deliver id | SendReply id _ _ | DropReceiver id =>
      if (id =? at_id at_) && negb (bool_decide (is_Some (ended (connection s)))) then s else
      with_server (WsServer.server (server_step {| WsServer.server := server s; delivered := ∅ |} l)) s
  | l => with_server (WsServer.server (server_step {| WsServer.server := server s; delivered := ∅ |} l)) s
  end.
(** The previews of the other connections, and the service's shutdown. *)
Definition other_preview (l : preview_label) (s : Service) : Service :=
  match l with
  | StartPreview _ c _ | CancelPreview _ c =>
      if c =? at_id at_ then s else with_previews (preview_step (previews s) l) s
  | EndWorker _ => s
  | BeginShutdown | TakeTasks => with_previews (preview_step (previews s) l) s
  end.

Definition connection_step (s : Service) (l : connection_label) : Service :=
  match l with
  | RunTask i answers => run_task i answers s
  | EndPreview w generated preview => end_preview w generated preview s
  | OtherPreview l => other_preview l s
  | OtherServer l => other_server l s
  | OtherDispatcher d => with_dispatcher d s
  | CleanUp =>
      if bool_decide (is_Some (ended (connection s))) && negb (tasks_locked (previews s)) then clean_up s else s
  | l =>
      if bool_decide (is_Some (ended (connection s))) then s
      else match l with
           | TakeCommand ok now => take_next ok now s
           | TakeClose => take_close s
           | TakeFrame f d ok now => if frame_blocked f s then s else take_frame f d ok now s
           | Tick now ok => heartbeat now ok s
           | TakeStatistics ok now => take_statistics ok now s
           | _ => s
           end
  end.

(** The connection as [accept] starts its loop. *)
Definition connection_new (now : N) : Connection := {|
  pending_requests := ∅; request_tasks := []; last_outbound := now; pong_deadline := None;
  written := []; lost := []; ended := None |}.
End connection.

(** * Theorems *)
Section connection_theorems.
Context {TS T : Type} `{CancellationTokens TS T}.
Context {Q : Type → Type} `{MpscLaws Q} {W : Type → Type} `{WatchLaws W}.
Context {Resources M Level MW : Type} `{MonitorLaws MW M}.
Context `{XmlTree} `{UuidFormat} `{RegexCrate} `{Base64}.
Context `{SerdeJson ServerMessage} `{SerdeJson TunnelConfiguration}.
Variable hip_approval_status : string → N → option HipApprovalStatus.
Variable at_ : Attachment.

Abbreviation Shared := (Lifecycle (TS:=TS) (T:=T) (Q:=Q) (W:=W)
  (Resources:=Resources) (Monitor:=M)) (only parsing).
Abbreviation Srv := (Server (Q:=Q) (W:=W) (A:=Shared) (D:=AttemptDrain (T:=T)) (MW:=MW) (M:=M)) (only parsing).
Abbreviation Svc := (Service (TS:=TS) (T:=T) (Q:=Q) (W:=W) (Resources:=Resources) (M:=M) (Level:=Level)
  (MW:=MW)) (only parsing).
Abbreviation Dispatch := (DispatchState (TS:=TS) (T:=T) (Q:=Q) (W:=W) (Resources:=Resources)
  (Monitor:=M) (Level:=Level)) (only parsing).
Abbreviation step := (connection_step hip_approval_status at_) (only parsing).

(** ** Replies in the queue *)
Definition reply_id (c : ConnectionCommand) : option Uuid :=
  match c with Reply id _ => Some id | Send _ => None end.
Definition queue_ids (k : ConnectionControl Q W) : list Uuid := omap reply_id (queued (control_tx k)).

(** The connection's replies stay as they are. *)
Definition steady (s s' : Srv) : Prop := ∀ k,
  controls s !! at_id at_ = Some k → ∃ k', controls s' !! at_id at_ = Some k' ∧
    queue_ids k' = queue_ids k ∧ receiver_closed (control_tx k') = receiver_closed (control_tx k).
Lemma steady_refl s : steady s s.
Proof. intros k Hk. by exists k. Qed.
Lemma steady_trans s1 s2 s3 : steady s1 s2 → steady s2 s3 → steady s1 s3.
Proof.
  intros H12 H23 k Hk. destruct (H12 k Hk) as (k2 & Hk2 & <- & <-).
  destruct (H23 k2 Hk2) as (k3 & Hk3 & <- & <-). by exists k3.
Qed.
Lemma steady_quiet (s s' : Srv) : quiet s s' → steady s s'.
Proof.
  intros [_ _ _ Hk _] k Hc. destruct (Hk _ k Hc) as (k' & Hk' & Ht). exists k'.
  unfold queue_ids. by rewrite Ht.
Qed.
Lemma steady_controls (s s' : Srv) : controls s' = controls s → steady s s'.
Proof. intros Hc k. rewrite Hc. by exists k. Qed.
Lemma steady_send m id (s : Srv) : steady s (send_command (Send m) id s).2.
Proof.
  intros k Hk. destruct (controls s !! id) as [k0|] eqn:Hid.
  2: { unfold send_command. rewrite Hid. by exists k. }
  destruct (send_command_spec (Send m) id s k0 Hid) as [(_ & Ho & q & -> & Hq & Hc)|[_ ->]]; [|by exists k].
  cbn. destruct (decide (at_id at_ = id)) as [<-|Hne].
  - rewrite lookup_insert_eq. rewrite Hid in Hk. injection Hk as ->. eexists. split; [done|].
    unfold queue_ids. cbn. rewrite Hq, omap_app. cbn. by rewrite app_nil_r, Hc, Ho.
  - rewrite lookup_insert_ne by done. by exists k.
Qed.
(** A reply to someone else. *)
Lemma steady_other_reply id i r (s : Srv) : id ≠ at_id at_ → steady s (send_command (Reply i r) id s).2.
Proof.
  intros Hne k Hk. destruct (controls s !! id) as [k0|] eqn:Hid.
  2: { unfold send_command. rewrite Hid. by exists k. }
  destruct (send_command_spec (Reply i r) id s k0 Hid) as [(_ & Ho & q & -> & Hq & Hc)|[_ ->]]; [|by exists k].
  cbn. rewrite lookup_insert_ne by done. by exists k.
Qed.
Lemma offer_event_queue m (k : ConnectionControl Q W) :
  queue_ids (offer_event m k).2 = queue_ids k ∧
  receiver_closed (control_tx (offer_event m k).2) = receiver_closed (control_tx k).
Proof.
  unfold offer_event, control_send, queue_ids. pose proof (try_send_spec (Send m) (control_tx k)) as Hs.
  destruct (receiver_closed (control_tx k)) eqn:Hc; [rewrite Hs; split; [done|exact Hc]|].
  destruct (decide _) in Hs; [|rewrite Hs; split; [done|exact Hc]].
  destruct (try_send _ _) as [r q]. cbn in Hs. destruct Hs as (-> & Hq & _ & Hr).
  split; [|exact Hr]. change (omap reply_id (queued q) = omap reply_id (queued (control_tx k))).
  rewrite Hq, omap_app. cbn. by rewrite app_nil_r.
Qed.
Lemma steady_connections f (s : Srv) :
  (∀ k, queue_ids (f k) = queue_ids k ∧ receiver_closed (control_tx (f k)) = receiver_closed (control_tx k)) →
  steady s (on_connections f s).
Proof.
  intros Hf k Hk. rewrite lookup_on_connections, Hk. case_decide; cbn; [|by exists k].
  exists (f k). split; [done|apply Hf].
Qed.
Lemma steady_event ev (s : Srv) : steady s (send_event ev s).
Proof.
  unfold send_event. set (s0 := set_snapshot _ _).
  assert (∀ c (x : Srv), steady x (refresh_demand (set_connections c x))) as Hend.
  { intros c x. apply (steady_trans _ (set_connections c x)); [by apply steady_controls|].
    apply steady_quiet, quiet_refresh. }
  destruct (checked_add _ _ _) as [r|].
  - set (s1 := set_revision r s0). apply (steady_trans _ s1); [by apply steady_controls|].
    eapply steady_trans; [|apply Hend].
    apply (steady_connections (λ k, (offer_event (ServerEvent r ev) k).2)). apply offer_event_queue.
  - apply (steady_trans _ s0); [by apply steady_controls|]. eapply steady_trans; [|apply Hend].
    by apply (steady_connections (control_close CloseReason.InternalError)).
Qed.
Lemma steady_prepare p id (s : Srv) :
  controls s !! id = None → steady s (WsServer.prepare_connection p id (new_control id s)).2.
Proof.
  intros Hnew.
  assert (steady s (new_control id s)) as Hn.
  { intros k Hk. exists k. split; [|done]. unfold new_control. cbn.
    rewrite lookup_insert_ne; [done|]. intros ->. congruence. }
  unfold WsServer.prepare_connection. destruct (answer _ _) as [g|e]; [|done].
  destruct (fit_snapshot_message _) as [m|]; [|done].
  pose proof (steady_send m id (new_control id s)) as Hs.
  destruct (send_command (Send m) id (new_control id s)) as [[] s1]; cbn in Hs |- *.
  - eapply steady_trans; [exact Hn|]. eapply steady_trans; [exact Hs|]. by apply steady_controls.
  - by eapply steady_trans.
Qed.
Lemma steady_step (s : Srv) l :
  match l with Deliver id | SendReply id _ _ | DropReceiver id => id ≠ at_id at_ | _ => True end →
  steady s (WsServer.server (server_step {| WsServer.server := s; delivered := ∅ |} l)).
Proof.
  intros Hl. destruct l as [p id|p id|id| |id|id ss g|ev|id ss g b|b| |k|id q r|id|id|id r|r a|w];
    cbn -[on_control].
  - destruct (decide _); [by apply steady_prepare|apply steady_refl].
  - apply steady_quiet, quiet_commit.
  - apply steady_quiet, quiet_abandon.
  - apply steady_quiet, quiet_remove_closed.
  - unfold send_snapshot. destruct (fit_snapshot_message _); [apply steady_send|apply steady_refl].
  - apply steady_quiet, quiet_remove_connection.
  - apply steady_event.
  - apply steady_quiet, quiet_set_statistics.
  - apply steady_quiet, quiet_bind.
  - apply steady_quiet, quiet_publish_all.
  - apply steady_quiet, quiet_publish_last.
  - by apply steady_other_reply.
  - destruct (controls s !! id) as [k|]; [|apply steady_refl].
    destruct (recv (control_tx k)) as [[c q]|]; [|apply steady_refl]. cbn -[on_control].
    intros k' Hk'. rewrite lookup_on_control, decide_False by congruence. by exists k'.
  - intros k' Hk'. rewrite lookup_on_control, decide_False by congruence. by exists k'.
  - apply steady_quiet, quiet_alter. done.
  - by apply steady_controls.
  - destruct (monitor_kept _ _); [|apply steady_refl]. by apply steady_controls.
Qed.

(** ** Registry operations leave the controls alone *)
Abbreviation World := (gmap Uuid (ConnectionControl Q W) * Shared)%type (only parsing).
Abbreviation RState := (State (World:=World) (C:=Uuid) (D:=AttemptDrain (T:=T))) (only parsing).
Abbreviation RLocked := (Locked (World:=World) (C:=Uuid) (D:=AttemptDrain (T:=T))) (only parsing).
Definition calm {St E B X} (view : St → X) (m : stm St E B) : Prop := ∀ st, view (m st).2 = view st.
Definition locked_controls (s : RLocked) := s.2.1.
Definition state_controls (s : RState) := s.2.1.

Lemma calm_bind {St E B1 B2 X} (c : St → X) (m : stm St E B1) (f : B1 → stm St E B2) :
  calm c m → (∀ b, calm c (f b)) → calm c (m ≫= f).
Proof.
  intros Hm Hf st. specialize (Hm st). unfold mbind, stm_bind, stm_bind_def.
  destruct (m st) as [[b|e] st1]; cbn in *; [by rewrite Hf|done].
Qed.
Lemma calm_same {St E B X} (c : St → X) (m : stm St E B) : (∀ st, (m st).2 = st) → calm c m.
Proof. intros Hm st. by rewrite Hm. Qed.
Lemma calm_put {E} id r : calm (E:=E) locked_controls (put_record id r).
Proof. done. Qed.
Lemma calm_locked {E B} (e : E) (body : stm RLocked E B) :
  calm locked_controls body → calm state_controls (locked e body).
Proof.
  intros Hb [reg w]. unfold locked. cbn. destruct (poisoned reg); [done|].
  specialize (Hb (sessions reg, w)). unfold run. by destruct (body (sessions reg, w)) as [r [m w']].
Qed.
Lemma calm_on_world {E B} (f : Shared → result E B * Shared) :
  calm locked_controls (on_world (Dispatcher.on_lifecycle f)).
Proof. intros [m [c l]]. unfold on_world, Dispatcher.on_lifecycle. cbn. by destruct (f l). Qed.
Ltac calm_solve :=
  repeat first
    [ progress intros
    | apply calm_locked | apply calm_bind | apply calm_put | apply calm_on_world
    | by apply calm_same
    | done
    | match goal with |- calm _ (match ?x with _ => _ end) => destruct x end
    | match goal with |- calm _ (if ?x then _ else _) => destruct x end ].

Lemma append_calm id u o c e n r :
  calm state_controls (append_edited_hip_report_chunk id u o c e n r).
Proof. unfold append_edited_hip_report_chunk. calm_solve. Qed.
Lemma chunk_calm id i o : calm state_controls (hip_preview_chunk id i o).
Proof. unfold hip_preview_chunk. calm_solve. Qed.
Lemma store_calm id x i : calm state_controls (store_hip_preview id x i).
Proof. unfold store_hip_preview. calm_solve. Qed.
Lemma stored_calm id i x : calm state_controls (stored_preview id i x).
Proof. unfold stored_preview. calm_solve. Qed.
Lemma successful_calm id : calm state_controls (successful_hip_report id).
Proof. unfold successful_hip_report. calm_solve. Qed.
Lemma reserve_calm id g mode f :
  calm state_controls (reserve_connection id g mode (Dispatcher.on_lifecycle f)).
Proof. unfold reserve_connection. calm_solve. Qed.
Lemma stop_calm id g c : calm state_controls (stop_non_tunnel_attachment id g c).
Proof.
  unfold stop_non_tunnel_attachment. calm_solve.
Qed.
Lemma commit_calm id g mode (f : Shared → ServiceResult * Shared) :
  calm state_controls (SessionRegistry.commit_connection id g mode (Dispatcher.on_lifecycle f)).
Proof.
  unfold SessionRegistry.commit_connection. calm_solve.
  all: intros [m [ctl l]]; unfold on_world, Dispatcher.on_lifecycle; cbn; by destruct (f l).
Qed.

(** ** The books: every pending request has exactly one reply on its way, or lost it *)
Definition own_request (kv : N * PreviewWorker) : option Uuid :=
  if worker_connection kv.2 =? at_id at_ then Some (worker_request kv.2) else None.
Definition preview_ids (p : HipPreviews) : list Uuid := omap own_request (map_to_list (running p)).
Definition outstanding (k : ConnectionControl Q W) (s : Svc) : list Uuid :=
  queue_ids k ++ (request_tasks (connection s)).*1 ++ preview_ids (previews s).

(** [extra] are requests being handled. *)
Definition booked (extra : list Uuid) (s : Svc) : Prop :=
  (∃ k, controls (server s) !! at_id at_ = Some k ∧ receiver_closed (control_tx k) = false ∧
     extra ++ outstanding k s ++ lost (connection s) ≡ₚ elements (pending_requests (connection s))) ∧
  (size (pending_requests (connection s)) ≤ MAX_PENDING_REQUESTS)%nat.

Definition aside (s s' : Svc) : Prop :=
  steady (server s) (server s') ∧ connection s' = connection s ∧ previews s' = previews s.
Lemma aside_refl s : aside s s.
Proof. split; [apply steady_refl|done]. Qed.
Lemma aside_trans s1 s2 s3 : aside s1 s2 → aside s2 s3 → aside s1 s3.
Proof. intros (?&?&?) (?&?&?). split; [by eapply steady_trans|]. split; congruence. Qed.
Lemma aside_booked extra s s' : aside s s' → booked extra s → booked extra s'.
Proof.
  intros (Hs & Hc & Hp) [(k & Hk & Ho & Hb) Hz]. destruct (Hs k Hk) as (k' & Hk' & Hq & Hr).
  split; [|by rewrite Hc]. exists k'. split; [done|]. split; [congruence|].
  unfold outstanding in *. by rewrite Hc, Hp, Hq.
Qed.
Lemma aside_server (s : Svc) srv : steady (server s) srv → aside s (with_server srv s).
Proof. by split. Qed.
Lemma serve_aside {E B} (m : stm RState E B) (s : Svc) :
  calm state_controls m → aside s (serve m s).2.
Proof.
  intros Hm. unfold serve, on_registry. specialize (Hm (registry_state (server s))).
  destruct (m (registry_state (server s))) as [r st]. apply aside_server. by apply steady_controls.
Qed.

Lemma size_remove (id : Uuid) (X : gset Uuid) : (size (X ∖ {[id]}) ≤ size X)%nat.
Proof. apply subseteq_size. set_solver. Qed.
Lemma elements_remove (id : Uuid) (X : gset Uuid) :
  id ∈ X → id :: elements (X ∖ {[id]}) ≡ₚ elements X.
Proof.
  intros Hid. rewrite <- elements_union_singleton by set_solver.
  apply elements_proper. intros x. destruct (decide (x = id)); set_solver.
Qed.

(** The reply of a request that is being handled. *)
Lemma queue_reply_booked id r extra (s : Svc) :
  booked (id :: extra) s →
  let '(sent, s') := queue_reply at_ id r s in
  connection s' = connection s ∧ previews s' = previews s ∧
  if (sent : bool) then booked extra s' else s' = s.
Proof.
  intros [(k & Hk & Ho & Hb) Hz]. unfold queue_reply.
  destruct (send_command_spec (Reply id r) (at_id at_) (server s) k Hk)
    as [(Hsent & _ & q & Heq & Hq & Hc)|[Hsent Heq]];
    destruct (send_command _ _ _) as [sent srv]; cbn in Hsent, Heq; subst sent srv.
  - split; [done|]. split; [done|]. split; [|done]. cbn. rewrite lookup_insert_eq. eexists. split; [done|].
    split; [done|]. rewrite <- Hb. unfold outstanding, queue_ids. cbn. rewrite Hq, omap_app. cbn.
    solve_Permutation.
  - split; [done|]. split; [done|]. by destruct s.
Qed.

(** ** Handling a request *)
Definition task_ok (t : RequestTask (T:=T)) : Prop :=
  match t with
  | Dispatching (PendingOther (RestartGui | UpdateGui _ | GetVpncScriptMetadata | UpdateLogLevel _)) => True
  | Dispatching (PendingOther _) => False
  | _ => True
  end.
(** What stays true besides the books. *)
Record fine (s : Svc) : Prop := {
  fi_previews : previews_inv (previews s);
  fi_tasks : Forall (λ t, task_ok t.2) (request_tasks (connection s));
}.
Lemma fine_aside s s' : aside s s' → fine s → fine s'.
Proof. intros (_ & Hc & Hp) [Hi Ht]. split; congruence. Qed.

(** A handler that succeeds has settled the request [id]. *)
Definition settles (id : Uuid) (m : stm Svc () ()) : Prop := ∀ s,
  booked [id] s → fine s →
  let '(r, s') := m s in
  (r = Ok () → booked [] s') ∧ fine s' ∧ ended (connection s') = ended (connection s).

Lemma reply_settles id r : settles id (reply at_ id r).
Proof.
  intros s Hb Hf. unfold reply. pose proof (queue_reply_booked id r [] s Hb) as Hq.
  destruct (queue_reply at_ id r s) as [sent s']. destruct Hq as (Hc & Hp & Hq).
  split; [by destruct sent|]. split; [split; rewrite ?Hp, ?Hc; apply Hf|by rewrite Hc].
Qed.
Lemma reply_or_close_settles id r : settles id (reply_or_close at_ id r).
Proof.
  intros s Hb Hf. unfold reply_or_close. pose proof (queue_reply_booked id r [] s Hb) as Hq.
  destruct (queue_reply at_ id r s) as [sent s']. destruct Hq as (Hc & Hp & Hq). destruct sent.
  - split; [done|]. split; [split; rewrite ?Hp, ?Hc; apply Hf|by rewrite Hc].
  - subst s'. split; [intros _|by split; [split; apply Hf|]].
    destruct Hb as [(k & Hk & Ho & Hb) Hz]. split; [|cbn; pose proof (size_remove id (pending_requests (connection s))); lia].
    cbn -[on_control]. rewrite lookup_on_control, decide_True, Hk by done. eexists. split; [done|]. split; [done|].
    unfold outstanding in *. cbn in *. apply (Permutation_cons_inv (a:=id)). rewrite elements_remove; [exact Hb|].
    apply elem_of_elements. rewrite <- Hb. set_solver.
Qed.
Lemma settles_after id m s0 s : aside s0 s → settles id m → booked [id] s0 → fine s0 →
  let '(r, s') := m s in
  (r = Ok () → booked [] s') ∧ fine s' ∧ ended (connection s') = ended (connection s0).
Proof.
  intros Ha Hm Hb Hf. specialize (Hm s (aside_booked _ _ _ Ha Hb) (fine_aside _ _ Ha Hf)).
  destruct (m s) as [r s']. destruct Ha as (_ & <- & _). done.
Qed.

Lemma store_chunk_aside d r s : aside s (store_chunk at_ d r s).2.
Proof.
  unfold store_chunk. destruct (_ && _); [apply aside_refl|].
  match goal with |- context [serve ?m s] => pose proof (serve_aside m s (append_calm _ _ _ _ _ _ _)) as Ha end.
  destruct (serve _ s) as [[[]|] s']; exact Ha.
Qed.
Lemma read_chunk_aside r s : aside s (read_chunk at_ r s).2.
Proof.
  unfold read_chunk. destruct (uuid_parse_str _) as [id|]; [|apply aside_refl].
  pose proof (serve_aside _ s (chunk_calm (at_session at_) id (read_offset r))) as Ha.
  destruct (serve _ s) as [[[xml b]|] s']; exact Ha.
Qed.
Lemma last_report_aside d s : aside s (last_report at_ d s).2.
Proof.
  unfold last_report. pose proof (serve_aside _ s (successful_calm (at_session at_))) as Ha.
  destruct (serve _ s) as [[[xml|]|] s1]; [|exact Ha..]. cbn in Ha.
  pose proof (serve_aside _ s1 (stored_calm (at_session at_) (drawn_preview d) xml)) as Ha'.
  destruct (serve _ s1) as [[r|] s2]; cbn in Ha' |- *; by eapply aside_trans.
Qed.
Lemma statistics_aside b s :
  aside s (with_server (server_set_statistics_enabled (at_id at_) (at_session at_) (at_generation at_) b
    (server s)).2 s).
Proof. apply aside_server, steady_quiet, quiet_set_statistics. Qed.

Lemma start_ids session id p :
  previews_inv p →
  preview_ids (start session (at_id at_) id p).2 ≡ₚ
    (if (start session (at_id at_) id p).1 then [id] else []) ++ preview_ids p.
Proof.
  intros Hinv. unfold start. destruct (_ || _); [done|]. cbn. destruct (slots p) as [|n]; [done|].
  unfold preview_ids. cbn. rewrite map_to_list_insert.
  - cbn. unfold own_request at 1. cbn. by rewrite N.eqb_refl.
  - apply eq_None_not_Some. intros Hx%(pi_next p Hinv). lia.
Qed.

Lemma start_preview_settles id r s :
  booked [id] s → fine s → tasks_locked (previews s) = false →
  let '(res, s') := start_preview at_ id r s in
  (res = Ok () → booked [] s') ∧ fine s' ∧ ended (connection s') = ended (connection s).
Proof.
  intros Hb Hf Hlock. unfold start_preview.
  destruct (match preview_source r with Edited _ => _ | _ => _ end) as [report|e];
    [|by apply reply_settles].
  pose proof (start_ids (at_session at_) id (previews s) (fi_previews s Hf)) as Hids.
  pose proof (start_inv (at_session at_) (at_id at_) id (previews s) Hlock (fi_previews s Hf)) as Hinv.
  destruct (start _ _ _ (previews s)) as [[] p]; cbn in Hids, Hinv |- *.
  - split; [intros _|by split; [split; [|apply Hf]|]].
    destruct Hb as [(k & Hk & Ho & Hb) Hz]. split; [|done]. exists k. split; [done|]. split; [done|].
    rewrite <- Hb. unfold outstanding. cbn. rewrite Hids. solve_Permutation.
  - assert (booked [id] (with_previews p s)) as Hb'.
    { destruct Hb as [(k & Hk & Ho & Hb) Hz]. split; [|done]. exists k. split; [done|]. split; [done|].
      rewrite <- Hb. unfold outstanding. cbn. by rewrite Hids. }
    apply (reply_settles id _ (with_previews p s)); [done|]. split; [done|apply Hf].
Qed.

Lemma dispatch_lifecycle_calm request uid report who (s : Dispatch) :
  (dispatch_lifecycle request uid report who s).2.2.2.1 = s.2.2.1.
Proof.
  destruct s as [d a]. destruct request; try done.
  - cbn [dispatch_lifecycle]. unfold dispatch_connect. stm_unfold.
    destruct (validate_connect_request _ _); [|done]. cbn.
    destruct (add_values _ _); [|done]. cbn. destruct who as [who|]; [|done]. cbn.
    unfold on_attachments. cbn.
    match goal with |- context [reserve_connection ?i ?g ?m (Dispatcher.on_lifecycle ?f) a] =>
      pose proof (reserve_calm i g m f a) as Hr; destruct (reserve_connection _ _ _ _ a) as [[rsv|e] a1] end;
      [|done]. cbn in Hr |- *.
    destruct (preparation_report _ _ _ a1) as [res a2] eqn:Hp.
    assert (a2.2.1 = a1.2.1) as Ha by
      (apply preparation_report_settled in Hp as [(x & _ & ->)|(e & _ & _ & ->)]; done).
    destruct res; cbn; unfold state_controls in Hr; congruence.
  - cbn [dispatch_lifecycle]. unfold on_attachments, Dispatcher.on_lifecycle.
    by destruct (request_disconnect _).
  - cbn [dispatch_lifecycle]. stm_unfold. destruct who as [who|]; [|done]. cbn. unfold on_attachments. cbn.
    match goal with |- context [stop_non_tunnel_attachment ?i ?g ?c a] =>
      pose proof (stop_calm i g c a) as Hr; destruct (stop_non_tunnel_attachment _ _ _ a) as [[d'|e] a1] end;
      exact Hr.
Qed.
Lemma dispatch_lifecycle_ok request uid report who (s : Dispatch) pending :
  match request with
  | SetTunnelStatisticsEnabled _ | StoreEditedHipReportChunk _ | PreviewHipReport _
  | GetHipApprovalStatus _ | ReadHipPreviewChunk _ | GetLastSubmittedHipReport => False
  | _ => True
  end →
  (dispatch_lifecycle request uid report who s).1 = Ok pending → task_ok (Dispatching pending).
Proof.
  intros Hr. destruct request; try done; try (by intros [= <-]).
  - destruct (dispatch_lifecycle (Connect request) uid report who s) as [r s'] eqn:Hd.
    cbn [fst]. intros ->.
    cbn [dispatch_lifecycle] in Hd. unfold dispatch_connect in Hd. stm_unfold. crush_hyps; done.
  - cbn [dispatch_lifecycle]. unfold on_attachments. by destruct (Dispatcher.on_lifecycle _ _).
  - cbn [dispatch_lifecycle]. stm_unfold. destruct who as [who|]; [|done]. cbn. unfold on_attachments. cbn.
    destruct (stop_non_tunnel_attachment _ _ _ _) as [[d'|e] a1]; [|done]. by intros [= <-].
Qed.
Lemma dispatch_settles id request :
  match request with
  | SetTunnelStatisticsEnabled _ | StoreEditedHipReportChunk _ | PreviewHipReport _
  | GetHipApprovalStatus _ | ReadHipPreviewChunk _ | GetLastSubmittedHipReport => False
  | _ => True
  end →
  settles id (dispatch_request (Level:=Level) at_ id request).
Proof.
  intros Hr s Hb Hf. unfold dispatch_request. set (who := Some _).
  pose proof (dispatch_lifecycle_calm request (at_uid at_) None who
    (dispatcher s, registry_state (server s))) as Hc.
  pose proof (dispatch_lifecycle_ok request (at_uid at_) None who
    (dispatcher s, registry_state (server s))) as Hok.
  destruct (dispatch_lifecycle _ _ _ _ _) as [r [d a]]. cbn in Hc, Hok |- *.
  set (s1 := with_dispatcher d (with_server (set_registry_state a (server s)) s)).
  assert (aside s s1) as Ha by (split; [by apply steady_controls|done]).
  destruct r as [pending|result]; [|by eapply settles_after; [done|apply reply_or_close_settles| |]].
  pose proof (aside_booked _ _ _ Ha Hb) as [(k & Hk & Ho & Hbk) Hz].
  pose proof (fine_aside _ _ Ha Hf) as [Hp Ht]. cbn -[s1].
  split; [intros _|split; [split|done]].
  - split; [|done]. exists k. split; [done|]. split; [done|]. rewrite <- Hbk.
    unfold outstanding. cbn -[s1]. rewrite fmap_app. cbn -[s1]. solve_Permutation.
  - done.
  - cbn -[s1]. apply Forall_app. split; [done|]. constructor; [|done]. by apply Hok.
Qed.

Lemma handle_request_settles d id request s :
  booked [id] s → fine s →
  (match request with PreviewHipReport _ => tasks_locked (previews s) = false | _ => True end) →
  let '(res, s') := handle_request hip_approval_status at_ d id request s in
  (res = Ok () → booked [] s') ∧ fine s' ∧ ended (connection s') = ended (connection s).
Proof.
  intros Hb Hf Hlock. destruct request; cbn [handle_request]; try by apply dispatch_settles.
  - pose proof (statistics_aside enabled s) as Ha.
    destruct (server_set_statistics_enabled _ _ _ _ _) as [r srv].
    by eapply settles_after; [exact Ha|apply reply_settles| |].
  - pose proof (store_chunk_aside d request s) as Ha. destruct (store_chunk _ _ _ _) as [r s1].
    by eapply settles_after; [exact Ha|apply reply_or_close_settles| |].
  - by apply start_preview_settles.
  - by apply reply_settles.
  - pose proof (read_chunk_aside request s) as Ha. destruct (read_chunk _ _ _) as [r s1].
    by eapply settles_after; [exact Ha|apply reply_settles| |].
  - pose proof (last_report_aside d s) as Ha. destruct (last_report _ _ _) as [r s1].
    by eapply settles_after; [exact Ha|apply reply_settles| |].
Qed.
Lemma handle_message_settles d m s :
  booked [] s → fine s → frame_blocked (FBinary (Some m)) s = false →
  let '(res, s') := handle_client_message hip_approval_status at_ d m s in
  (res = Ok () → booked [] s') ∧ fine s' ∧ ended (connection s') = ended (connection s).
Proof.
  intros Hb Hf Hblock. destruct m as [r|id request|r]; cbn [handle_client_message].
  - done.
  - destruct (_ || _) eqn:E; [done|]. boolify.
    set (s1 := on_connection _ s).
    destruct (negb _); [by split; [|split; [split; apply Hf|]]|].
    assert (booked [id] s1) as Hb1.
    { destruct Hb as [(k & Hk & Ho & Hb) Hz]. split.
      - exists k. split; [done|]. split; [done|]. cbn. rewrite elements_union_singleton by done.
        constructor. exact Hb.
      - cbn. rewrite size_union, size_singleton by set_solver. lia. }
    pose proof (handle_request_settles d id request s1 Hb1) as Hh.
    apply Hh; [split; apply Hf|]. by destruct request.
  - assert (aside s (with_server (send_snapshot (at_id at_) (server s)).2 s)) as Ha.
    { apply aside_server. unfold send_snapshot.
      destruct (fit_snapshot_message _); [apply steady_send|apply steady_refl]. }
    destruct (send_snapshot _ _) as [sent srv]. split; [intros _; by eapply aside_booked|].
    split; [by eapply fine_aside|done].
Qed.

(** ** The invariant of the loop *)
Record connection_inv (s : Svc) : Prop := {
  ci_booked : ended (connection s) = None → booked [] s;
  ci_fine : fine s;
  ci_end : ended (connection s) ≠ Some EndUnexpectedReply;
}.
Lemma ended_inv e s : e ≠ EndUnexpectedReply → fine s → connection_inv (end_loop e s).
Proof. intros He Hf. split; cbn; [done|split; apply Hf|congruence]. Qed.
Lemma aside_inv s s' : aside s s' → connection_inv s → connection_inv s'.
Proof.
  intros Ha [Hb Hf He]. pose proof Ha as (_ & Hc & _). split; [|by eapply fine_aside|by rewrite Hc].
  rewrite Hc. intros Hn. eapply aside_booked; [done|auto].
Qed.
(** Changes of the clocks and of what was written. *)
Lemma quiet_connection_inv f s :
  (∀ c, pending_requests (f c) = pending_requests c ∧ request_tasks (f c) = request_tasks c ∧
        lost (f c) = lost c ∧ ended (f c) = ended c) →
  connection_inv s → connection_inv (on_connection f s).
Proof.
  intros Hc [Hb Hf He]. destruct (Hc (connection s)) as (Hp & Ht & Hl & Hn). split; cbn; rewrite ?Hn.
  - intros Hx. destruct (Hb Hx) as [(k & Hk & Ho & Hbk) Hz]. split; cbn; [|by rewrite Hp].
    exists k. unfold outstanding in *. cbn. by rewrite Hp, Ht, Hl.
  - split; cbn; rewrite ?Ht; apply Hf.
  - done.
Qed.
Lemma write_inv ok now m s : connection_inv s → connection_inv (write ok now m s).
Proof.
  intros Hi. unfold write. destruct ok; [|apply ended_inv; [done|apply Hi]].
  by apply quiet_connection_inv.
Qed.

Lemma take_next_inv ok now s :
  ended (connection s) = None → connection_inv s → connection_inv (take_next at_ ok now s).
Proof.
  intros Hn Hi. pose proof Hi as [Hb Hf He]. destruct (Hb Hn) as [(k & Hk & Ho & Hbk) Hz].
  unfold take_next, take_command. rewrite Hk. pose proof (recv_spec (control_tx k)) as Hr.
  destruct (queued (control_tx k)) as [|c cs] eqn:Hq; [by rewrite Hr|].
  destruct Hr as (q & -> & Hqs & _ & Hc).
  set (srv := on_control _ _ _).
  assert (controls srv !! at_id at_ = Some (set_control_tx q k)) as Hk'.
  { unfold srv. by rewrite lookup_on_control, decide_True, Hk. }
  destruct c as [m|id r].
  - apply write_inv. split; [|split; apply Hf|done]. intros _. split; [|done].
    exists (set_control_tx q k). split; [done|]. split; [cbn; congruence|].
    rewrite <- Hbk. unfold outstanding, queue_ids. cbn. by rewrite Hqs, Hq.
  - assert (id ∈ pending_requests (connection s)) as Hid.
    { apply elem_of_elements. rewrite <- Hbk. unfold outstanding, queue_ids. rewrite Hq. cbn. set_solver. }
    cbn -[srv]. rewrite bool_decide_eq_true_2 by done. apply write_inv. split; [|split; apply Hf|done].
    intros _. split; [|cbn; pose proof (size_remove id (pending_requests (connection s))); lia].
    exists (set_control_tx q k). split; [done|]. split; [cbn; congruence|].
    apply (Permutation_cons_inv (a:=id)). cbn -[srv]. rewrite (elements_remove id) by done.
    rewrite <- Hbk. unfold outstanding, queue_ids. cbn. by rewrite Hqs, Hq.
Qed.
Lemma take_frame_inv f d ok now s :
  ended (connection s) = None → frame_blocked f s = false → connection_inv s →
  connection_inv (take_frame hip_approval_status at_ f d ok now s).
Proof.
  intros Hn Hblock Hi. destruct f as [[m|]| | | | |]; cbn [take_frame];
    try (apply ended_inv; [done|apply Hi]).
  - pose proof (handle_message_settles d m s (ci_booked s Hi Hn) (ci_fine s Hi) Hblock) as Hh.
    destruct (handle_client_message _ _ _ _ _) as [[[]|e] s1]; destruct Hh as (Hb & Hf & He).
    + split; [auto|done|]. rewrite He, Hn. done.
    + by apply ended_inv.
  - destruct ok; [by apply quiet_connection_inv|]. apply ended_inv; [done|apply Hi].
  - by apply quiet_connection_inv.
Qed.
Lemma heartbeat_inv now ok s : connection_inv s → connection_inv (heartbeat now ok s).
Proof.
  intros Hi. unfold heartbeat. destruct (pong_deadline _).
  - destruct (_ <=? _); [|done]. apply ended_inv; [done|apply Hi].
  - destruct (_ <=? _); [|done]. destruct ok; [by apply quiet_connection_inv|].
    apply ended_inv; [done|apply Hi].
Qed.
Lemma take_statistics_inv ok now s : connection_inv s → connection_inv (take_statistics at_ ok now s).
Proof.
  intros Hi. unfold take_statistics. destruct (controls _ !! _) as [k|]; [|done].
  destruct (statistics_enabled k); [|done]. destruct (watch_borrow _); [by apply write_inv|done].
Qed.
Lemma take_close_inv s : connection_inv s → connection_inv (take_close at_ s).
Proof.
  intros Hi. unfold take_close. destruct (controls _ !! _) as [k|]; [|done].
  destruct (watch_borrow _); [|done]. apply ended_inv; [done|apply Hi].
Qed.

(** ** Beside the loop *)
Lemma commit_dispatch_calm answers request (s : Dispatch) :
  (dispatch_pending answers request s).2.2.2.1 = s.2.2.1.
Proof.
  destruct s as [d a]. destruct request as [p request uid report|dr|request]; cbn [dispatch_pending].
  - destruct (prepare_connection _ _) as [c|e]; [|done].
    unfold preparation_commit.
    match goal with |- context [SessionRegistry.commit_connection ?i ?g ?m (Dispatcher.on_lifecycle ?f) _] =>
      pose proof (commit_calm i g m f a) as Hc end.
    cbn [snd]. destruct (SessionRegistry.commit_connection _ _ _ _ a) as [[r|r] a1]; exact Hc.
  - done.
  - cbn [fst snd]. by destruct (dispatch_other _ _ _).
Qed.
Lemma dispatch_no_panic answers request (s : Dispatch) :
  task_ok (Dispatching request) → (dispatch_pending answers request s).1 ≠ Panicked.
Proof.
  intros Hok. destruct request as [p request uid report|dr|request]; cbn [dispatch_pending].
  - destruct (prepare_connection _ _); [|done]. by destruct (preparation_commit _ _ _ _ _).
  - cbn. destruct dr; [|done]. by destruct (Lifecycle.drain_is_complete _ _).
  - destruct request; try done; cbn; by destruct (negb _).
Qed.
Lemma delete_tasks i id t (ts : list (Uuid * RequestTask (T:=T))) :
  ts !! i = Some (id, t) → ts.*1 ≡ₚ id :: (delete i ts).*1.
Proof. intros Hi. rewrite (delete_Permutation ts i (id, t)) at 1 by done. done. Qed.
Lemma insert_tasks i id t t' (ts : list (Uuid * RequestTask (T:=T))) :
  ts !! i = Some (id, t) → (<[i := (id, t')]> ts).*1 = ts.*1.
Proof.
  intros Hi. rewrite list_fmap_insert. apply list_insert_id. by rewrite list_lookup_fmap, Hi.
Qed.

Lemma run_task_inv i answers s : connection_inv s → connection_inv (run_task at_ i answers s).
Proof.
  intros Hi. pose proof Hi as [Hb Hf He]. unfold run_task.
  destruct (request_tasks (connection s) !! i) as [[id [request|r]]|] eqn:Ht; [| |done].
  - pose proof (commit_dispatch_calm answers request (dispatcher s, registry_state (server s))) as Hc.
    assert (task_ok (Dispatching request)) as Hok.
    { exact (Forall_lookup_1 (λ t, task_ok t.2) _ _ _ (fi_tasks s Hf) Ht). }
    pose proof (dispatch_no_panic answers request (dispatcher s, registry_state (server s)) Hok) as Hnp.
    destruct (dispatch_pending _ _ _) as [o [d a]]. cbn in Hc, Hnp.
    set (s1 := with_dispatcher d _).
    assert (aside s s1) as Ha by (split; [by apply steady_controls|done]).
    pose proof (aside_inv _ _ Ha Hi) as [Hb1 [Hf1 Ht1] He1].
    destruct o as [r| |]; [|done|done].
    split; cbn -[s1]; [|split; [done|]|done].
    + intros Hn. destruct (Hb1 Hn) as [(k & Hk & Ho & Hbk) Hz]. split; [|done]. exists k. split; [done|].
      split; [done|]. rewrite <- Hbk. unfold outstanding. cbn -[s1].
      by rewrite (insert_tasks i id (Dispatching request) (Replying r)) by done.
    + by apply Forall_insert.
  - destruct (controls (server s) !! at_id at_) as [k|] eqn:Hk; [|done].
    destruct (receiver_closed (control_tx k)) eqn:Ho.
    + split; cbn; [|split; [apply Hf|]|done].
      * intros Hn. destruct (Hb Hn) as [(k' & Hk' & Ho' & _) _]. congruence.
      * apply Forall_delete, Hf.
    + unfold queue_reply. destruct (send_command_spec (Reply id r) (at_id at_) (server s) k Hk)
        as [(Hsent & _ & q & Heq & Hq & Hc)|[Hsent Heq]];
        destruct (send_command _ _ _) as [sent srv]; cbn in Hsent, Heq; subst sent srv; [|by destruct s].
      split; cbn; [|split; [apply Hf|by apply Forall_delete, Hf]|done].
      intros Hn. destruct (Hb Hn) as [(k' & Hk' & _ & Hbk) Hz]. rewrite Hk in Hk'. injection Hk' as <-.
      split; [|done]. eexists. split; [apply lookup_insert_eq|]. split; [done|].
      rewrite <- Hbk. unfold outstanding, queue_ids. cbn. rewrite Hq, omap_app. cbn.
      rewrite (delete_tasks i id (Replying r) (request_tasks (connection s))) by done. solve_Permutation.
Qed.

Lemma release_ids w x p :
  running p !! w = Some x → preview_ids p ≡ₚ option_list (own_request (w, x)) ++ preview_ids (release_slot w p).
Proof.
  intros Hx. unfold preview_ids. cbn. rewrite <- (map_to_list_delete (running p) w x) by done.
  cbn. by destruct (own_request (w, x)).
Qed.
Lemma worker_result_calm session preview generated (s : Srv) :
  controls (worker_result session preview generated s).2 = controls s.
Proof.
  destruct generated as [xml|]; [|done]. cbn. unfold preview_result, on_registry.
  pose proof (stored_calm session preview xml (registry_state s)) as Hc.
  destruct (stored_preview _ _ _ _) as [[r|e] st]; exact Hc.
Qed.
Lemma end_preview_inv w generated preview s :
  connection_inv s → connection_inv (end_preview at_ w generated preview s).
Proof.
  intros Hi. unfold end_preview. destruct (running (previews s) !! w) as [x|] eqn:Hx; [|done].
  pose proof (worker_result_calm (worker_session x) preview generated (server s)) as Hc.
  destruct (worker_result _ _ _ _) as [r srv]. cbn in Hc.
  assert (aside s (with_server srv s)) as Ha by (split; [by apply steady_controls|done]).
  pose proof (aside_inv _ _ Ha Hi) as [Hb [Hp Ht] He]. clear Ha Hi.
  pose proof (release_inv w (previews s) ltac:(apply is_running_true; eauto) Hp) as Hp'.
  pose proof (release_ids w x (previews s) Hx) as Hids. unfold own_request in Hids. cbn [snd] in Hids.
  destruct (worker_connection x =? at_id at_) eqn:Hown; boolify.
  - rewrite Hown in *. destruct (ended (connection s)) as [e|] eqn:Hn.
    { destruct (send_command _ _ _) as [sent srv']. destruct sent; cbn;
        (split; cbn; [by rewrite Hn|split; cbn; [done|exact Ht]|cbn in He; congruence]). }
    destruct (Hb Hn) as [(k & Hk & Ho & Hbk) Hz].
    destruct (send_command_spec (Reply (worker_request x) r) (at_id at_) srv k Hk)
      as [(Hsent & _ & q & Heq & Hq & Hcl)|[Hsent Heq]];
      destruct (send_command _ _ _) as [sent srv']; cbn in Hsent, Heq; subst sent srv'.
    + cbn. split; cbn; [|by split|congruence]. intros _. split; [|done]. eexists.
      split; [apply lookup_insert_eq|]. split; [done|]. rewrite <- Hbk.
      unfold outstanding, queue_ids. cbn. rewrite Hq, omap_app. cbn. rewrite Hids. cbn. solve_Permutation.
    + cbn. split; cbn; [|by split|congruence]. intros _. split; [|done]. exists k.
      split; [done|]. split; [done|]. rewrite <- Hbk.
      unfold outstanding, queue_ids. cbn. rewrite Hids. cbn. solve_Permutation.
  - pose proof (steady_other_reply (worker_connection x) (worker_request x) r srv Hown) as Hs.
    destruct (send_command _ _ _) as [sent srv']. cbn [snd] in Hs. rewrite orb_true_r.
    split; cbn; [|by split|done]. intros Hn. destruct (Hb Hn) as [(k & Hk & Ho & Hbk) Hz].
    destruct (Hs k Hk) as (k' & Hk' & Hq & Hr). split; [|done]. exists k'. split; [done|].
    split; [congruence|]. rewrite <- Hbk. unfold outstanding. cbn. by rewrite Hids, Hq.
Qed.
Lemma other_preview_inv l s : connection_inv s → connection_inv (other_preview at_ l s).
Proof.
  intros [Hb [Hp Ht] He]. pose proof (preview_step_inv (previews s) l Hp) as Hp'.
  assert (∀ p, previews_inv p → preview_ids p ≡ₚ preview_ids (previews s) →
    connection_inv (with_previews p s)) as Hframe.
  { intros p Hpi Hids. split; [|by split|done]. cbn. intros Hn.
    destruct (Hb Hn) as [(k & Hk & Ho & Hbk) Hz]. split; [|done]. exists k. split; [done|]. split; [done|].
    rewrite <- Hbk. unfold outstanding. cbn. by rewrite Hids. }
  destruct l as [ss c r|ss c| | |w]; cbn [other_preview]; [| | | |done].
  - destruct (c =? at_id at_) eqn:Hc; [done|]. boolify. apply Hframe; [done|]. cbn.
    destruct (tasks_locked _); [done|]. unfold start. destruct (_ || _); [done|]. cbn.
    destruct (slots _); [done|]. unfold preview_ids. cbn. rewrite map_to_list_insert.
    + cbn. unfold own_request at 1. cbn. by rewrite (proj2 (N.eqb_neq _ _) Hc).
    + apply eq_None_not_Some. intros Hx%(pi_next _ Hp). lia.
  - destruct (c =? at_id at_); [done|]. apply Hframe; [done|]. cbn. unfold cancel_connection.
    repeat case_match; done.
  - by apply Hframe.
  - apply Hframe; [done|]. cbn. by destruct (_ && _).
Qed.
Lemma other_server_inv l s : connection_inv s → connection_inv (other_server at_ l s).
Proof.
  intros Hi. unfold other_server.
  assert (∀ l, match l with Deliver id | SendReply id _ _ | DropReceiver id => id ≠ at_id at_ | _ => True end →
    connection_inv (with_server (WsServer.server (server_step
      {| WsServer.server := server s; delivered := ∅ |} l)) s)) as Hstep.
  { intros l' Hl'. eapply aside_inv; [|exact Hi]. apply aside_server. by apply steady_step. }
  assert (∀ srv, ended (connection s) ≠ None → connection_inv (with_server srv s)) as Hended.
  { intros srv Hn. destruct Hi as [_ [Hp Ht] He]. by split; [|by split|]. }
  destruct l as [p id|p id|id| |id|id ss g|ev|id ss g b|b| |k|id q r|id|id|id r|r a|w];
    try by apply Hstep.
  all: destruct ((id =? at_id at_) && _) eqn:E; [done|];
    apply andb_false_iff in E as [E|E]; boolify; [by apply Hstep|apply Hended; intros Hn; rewrite Hn in E; by destruct E].
Qed.
Lemma clean_up_inv s :
  ended (connection s) ≠ None → tasks_locked (previews s) = false → connection_inv s →
  connection_inv (clean_up at_ s).
Proof.
  intros Hn Hl [_ [Hp Ht] He]. split; [done|split; [|done]|done].
  by apply cancel_inv.
Qed.

Lemma connection_step_inv s l : connection_inv s → connection_inv (step s l).
Proof.
  intros Hi.
  assert (∀ s', (ended (connection s) = None → connection_inv s') →
    connection_inv (if bool_decide (is_Some (ended (connection s))) then s else s')) as Hloop.
  { intros s' Hs'. case_bool_decide as E; [done|]. by apply Hs', eq_None_not_Some. }
  destruct l; cbn [connection_step]; try (apply Hloop; intros Hn).
  - by apply take_next_inv.
  - by apply take_close_inv.
  - destruct (frame_blocked f s) eqn:Hbl; [done|]. by apply take_frame_inv.
  - by apply heartbeat_inv.
  - by apply take_statistics_inv.
  - by apply run_task_inv.
  - by apply end_preview_inv.
  - destruct (_ && _) eqn:E; [|done]. boolify. apply clean_up_inv; [|done..].
    intros Hn. rewrite Hn in *. by match goal with H : is_Some None |- _ => destruct H end.
  - by apply other_preview_inv.
  - by apply other_server_inv.
  - destruct Hi as [Hb [Hp Ht] He]. by split; [|by split|].
Qed.

(** A connection as [accept] starts its loop: its queue is open and holds no replies. *)
Record started (s : Svc) (now : N) : Prop := {
  st_connection : connection s = connection_new now;
  st_queue : ∃ k, controls (server s) !! at_id at_ = Some k ∧ receiver_closed (control_tx k) = false ∧
    queue_ids k = [];
  st_previews : previews_inv (previews s);
  st_own : preview_ids (previews s) = [];
}.
Lemma started_inv s now : started s now → connection_inv s.
Proof.
  intros [Hc (k & Hk & Ho & Hq) Hp Hi]. split; [|split; [done|]|]; rewrite Hc; [|constructor|done].
  intros _. unfold booked, outstanding. rewrite Hc. cbn. split; [|rewrite size_empty; lia].
  exists k. split; [done|]. split; [done|]. by rewrite Hq, Hi.
Qed.

(** C30: a client gets exactly the replies it asked for. Over every run of a connection,
    beside whatever the server, the other connections and the workers do: the loop never
    meets a reply to a request it does not have pending; while it runs, the pending
    requests are, each exactly once, those whose reply is queued, whose task or preview
    still runs, or whose preview found the queue full; there are at most 64 of them; and
    no request task reaches the [unreachable!] of the dispatcher. *)
Theorem replies_are_expected s now ls :
  started s now →
  let s' := runs step s ls in
  ended (connection s') ≠ Some EndUnexpectedReply ∧
  (ended (connection s') = None →
     (∃ k, controls (server s') !! at_id at_ = Some k ∧
        outstanding k s' ++ lost (connection s') ≡ₚ elements (pending_requests (connection s'))) ∧
     (size (pending_requests (connection s')) ≤ 64)%nat) ∧
  ∀ i id request answers (d : Dispatch),
    request_tasks (connection s') !! i = Some (id, Dispatching request) →
    (dispatch_pending answers request d).1 ≠ Panicked.
Proof.
  intros Hs s'. assert (connection_inv s') as [Hb [_ Ht] He].
  { apply runs_invariant; [intros ? ?; apply connection_step_inv|by eapply started_inv]. }
  split; [done|]. split.
  - intros Hn. destruct (Hb Hn) as [(k & Hk & _ & Hbk) Hz]. split; [by exists k|done].
  - intros i id request answers d Hi. apply dispatch_no_panic.
    exact (Forall_lookup_1 (λ t, task_ok t.2) _ _ _ Ht Hi).
Qed.

(** ** The heartbeat *)
(** The pong is not touched, and what may end the loop is not the heartbeat. *)
Record calm_clock (c c' : Connection (T:=T)) : Prop := {
  cc_pong : pong_deadline c' = pong_deadline c;
  cc_ended : ended c' = ended c ∨ (ended c = None ∧ ended c' ≠ None ∧ ended c' ≠ Some EndHeartbeat);
}.
Lemma calm_clock_refl c : calm_clock c c.
Proof. split; auto. Qed.
Lemma calm_clock_same c c' :
  pong_deadline c' = pong_deadline c → ended c' = ended c → calm_clock c c'.
Proof. split; auto. Qed.
Lemma calm_clock_end c c' e :
  pong_deadline c' = pong_deadline c → ended c = None → ended c' = Some e → e ≠ EndHeartbeat → calm_clock c c'.
Proof. intros Hp Hn He Hne. split; [done|]. right. rewrite He. split; [done|]. split; congruence. Qed.

Lemma queue_reply_connection id r (s : Svc) : connection (queue_reply at_ id r s).2 = connection s.
Proof. unfold queue_reply. by destruct (send_command _ _ _). Qed.
Lemma reply_connection id r (s : Svc) : connection (reply at_ id r s).2 = connection s.
Proof.
  unfold reply. pose proof (queue_reply_connection id r s) as Hq. by destruct (queue_reply at_ id r s).
Qed.
(** What handling a message may change. *)
Definition keeps_clock (c c' : Connection (T:=T)) : Prop :=
  pong_deadline c' = pong_deadline c ∧ ended c' = ended c.
Lemma reply_or_close_clock id r (s : Svc) :
  keeps_clock (connection s) (connection (reply_or_close at_ id r s).2).
Proof.
  unfold reply_or_close. pose proof (queue_reply_connection id r s) as Hq.
  destruct (queue_reply at_ id r s) as [[] s']; cbn in Hq |- *; rewrite Hq; done.
Qed.
Lemma handle_request_clock d id request (s : Svc) :
  keeps_clock (connection s) (connection (handle_request hip_approval_status at_ d id request s).2).
Proof.
  assert (∀ request, keeps_clock (connection s) (connection (dispatch_request at_ id request s).2)) as Hdisp.
  { intros r. unfold dispatch_request. destruct (dispatch_lifecycle _ _ _ _ _) as [[p|e] [d' a]]; [done|].
    apply (reply_or_close_clock id e (with_dispatcher d' (with_server (set_registry_state a (server s)) s))). }
  destruct request; cbn [handle_request]; try apply Hdisp.
  - destruct (server_set_statistics_enabled _ _ _ _ _) as [r srv]. by rewrite reply_connection.
  - pose proof (store_chunk_aside d request s) as (_ & Hc & _). destruct (store_chunk _ _ _ _) as [r s1].
    cbn in Hc. rewrite <- Hc. apply reply_or_close_clock.
  - unfold start_preview. destruct (match preview_source request with Edited _ => _ | _ => _ end);
      [|by rewrite reply_connection].
    destruct (start _ _ _ _) as [[] p]; [done|]. by rewrite reply_connection.
  - by rewrite reply_connection.
  - pose proof (read_chunk_aside request s) as (_ & Hc & _). destruct (read_chunk _ _ _) as [r s1].
    cbn in Hc. by rewrite reply_connection, Hc.
  - pose proof (last_report_aside d s) as (_ & Hc & _). destruct (last_report _ _ _) as [r s1].
    cbn in Hc. by rewrite reply_connection, Hc.
Qed.
Lemma handle_message_clock d m (s : Svc) :
  keeps_clock (connection s) (connection (handle_client_message hip_approval_status at_ d m s).2).
Proof.
  destruct m as [r|id request|r]; cbn [handle_client_message]; [done| |].
  - destruct (_ || _); [done|]. destruct (negb _); [done|].
    exact (handle_request_clock d id request
      (on_connection (set_pending_requests ({[id]} ∪ pending_requests (connection s))) s)).
  - by destruct (send_snapshot _ _).
Qed.

Definition is_pong (l : connection_label (TS:=TS) (T:=T) (Q:=Q) (W:=W) (Resources:=Resources) (M:=M)
    (Level:=Level) (MW:=MW)) : bool :=
  match l with TakeFrame FPong _ _ _ => true | _ => false end.
Definition is_tick (l : connection_label (TS:=TS) (T:=T) (Q:=Q) (W:=W) (Resources:=Resources) (M:=M)
    (Level:=Level) (MW:=MW)) : bool :=
  match l with Tick _ _ => true | _ => false end.
Lemma write_clock ok now m (s : Svc) :
  ended (connection s) = None → calm_clock (connection s) (connection (write ok now m s)).
Proof. intros Hn. destruct ok; [by apply calm_clock_same|by eapply (calm_clock_end _ _ EndSocket)]. Qed.

Lemma step_clock (s : Svc) l :
  is_pong l = false → is_tick l = false → calm_clock (connection s) (connection (step s l)).
Proof.
  intros Hp Ht.
  assert (∀ s', (ended (connection s) = None → calm_clock (connection s) (connection s')) →
    calm_clock (connection s)
      (connection (if bool_decide (is_Some (ended (connection s))) then s else s'))) as Hloop.
  { intros s' Hs'. case_bool_decide as E; [apply calm_clock_refl|]. by apply Hs', eq_None_not_Some. }
  destruct l; try done; cbn [connection_step]; try (apply Hloop; intros Hn).
  - unfold take_next. destruct (take_command _ _) as [[[m|id r]|] srv].
    + by apply (write_clock ok now m (with_server srv s)).
    + cbn. destruct (bool_decide (id ∈ _)); [|by eapply (calm_clock_end _ _ EndUnexpectedReply)].
      destruct ok; [by apply calm_clock_same|by eapply (calm_clock_end _ _ EndSocket)].
    + apply calm_clock_refl.
  - unfold take_close. destruct (controls _ !! _) as [k|]; [|apply calm_clock_refl].
    destruct (watch_borrow _) as [r|]; [|apply calm_clock_refl]. by eapply (calm_clock_end _ _ (EndClosed r)).
  - destruct (frame_blocked f s); [apply calm_clock_refl|].
    destruct f as [[m|]| | | | |]; cbn [take_frame]; try done;
      try first [by eapply (calm_clock_end _ _ EndAuthentication)
                | by eapply (calm_clock_end _ _ EndSocket) | by eapply (calm_clock_end _ _ EndMalformed)].
    + pose proof (handle_message_clock d m s) as [Hc He].
      destruct (handle_client_message _ _ _ _ _) as [[[]|e] s1]; cbn in Hc, He;
        [by apply calm_clock_same|by eapply (calm_clock_end _ _ EndMalformed)].
    + destruct ok; [by apply calm_clock_same|by eapply (calm_clock_end _ _ EndSocket)].
  - unfold take_statistics. destruct (controls _ !! _) as [k|]; [|apply calm_clock_refl].
    destruct (statistics_enabled k); [|apply calm_clock_refl].
    destruct (watch_borrow _); [by apply write_clock|apply calm_clock_refl].
  - unfold run_task. destruct (_ !! _) as [[id [request|r]]|]; [| |apply calm_clock_refl].
    + destruct (dispatch_pending _ _ _) as [[r| |] [d a]]; by apply calm_clock_same.
    + destruct (controls _ !! _) as [k|]; [|apply calm_clock_refl].
      destruct (receiver_closed _); [by apply calm_clock_same|].
      pose proof (queue_reply_connection id r s) as Hq.
      destruct (queue_reply _ _ _ _) as [[] s1]; cbn in Hq |- *; rewrite Hq;
        [by apply calm_clock_same|apply calm_clock_refl].
  - unfold end_preview. destruct (running _ !! _) as [x|]; [|apply calm_clock_refl].
    destruct (worker_result _ _ _ _) as [r srv]. destruct (send_command _ _ _) as [sent srv'].
    destruct (sent || _); by apply calm_clock_same.
  - destruct (_ && _); by apply calm_clock_same.
  - destruct l; cbn [other_preview]; try (destruct (_ =? _)); by apply calm_clock_same.
  - unfold other_server. destruct l; try (destruct ((_ =? _) && _)); by apply calm_clock_same.
  - by apply calm_clock_same.
Qed.

Lemma step_ended (s : Svc) l : ended (connection s) ≠ None → step s l = s ∨ ended (connection (step s l)) ≠ None.
Proof.
  intros He. destruct (is_pong l || is_tick l) eqn:E.
  - left. destruct l; try done; cbn [connection_step];
      (case_bool_decide as Hn; [done|by apply eq_None_not_Some in Hn]).
  - boolify. destruct (step_clock s l) as [_ [->|(Hn & _ & _)]]; [done..|by right|done].
Qed.
Lemma runs_ended (s : Svc) ls : ended (connection s) ≠ None → ended (connection (runs step s ls)) ≠ None.
Proof.
  revert s. induction ls as [|l ls IH]; intros s He; [done|]. cbn. apply IH.
  destruct (step_ended s l He) as [->|]; done.
Qed.
(** Without a pong the deadline stays until the loop ends. *)
Lemma deadline_stays (s : Svc) d ls :
  pong_deadline (connection s) = Some d → forallb (λ l, negb (is_pong l)) ls = true →
  ended (connection (runs step s ls)) ≠ None ∨ pong_deadline (connection (runs step s ls)) = Some d.
Proof.
  revert s. induction ls as [|l ls IH]; intros s Hd Hl; [by right|]. cbn in Hl |- *. boolify.
  destruct (is_tick l) eqn:Ht.
  - destruct l; try done. cbn [connection_step]. case_bool_decide as E; [by apply IH|].
    unfold heartbeat. rewrite Hd. destruct (d <=? now); [|by apply IH]. left. by apply runs_ended.
  - apply IH; [|done]. rewrite (cc_pong _ _ (step_clock s l ltac:(done) Ht)). done.
Qed.

(** A run in which a ping was sent that still waits for its pong by [deadline]. *)
Definition silent (ls : list (connection_label (TS:=TS) (T:=T) (Q:=Q) (W:=W) (Resources:=Resources) (M:=M)
    (Level:=Level) (MW:=MW))) : bool := forallb (λ l, negb (is_pong l)) ls.
Definition pinged (s : Svc) ls (deadline : N) : Prop := ∃ ls1 now ok ls2,
  ls = ls1 ++ Tick now ok :: ls2 ∧ deadline = now + PONG_TIMEOUT ∧ silent ls2 = true ∧
  pong_deadline (connection (runs step s ls1)) = None ∧
  HEARTBEAT_INTERVAL <= now - last_outbound (connection (runs step s ls1)).
Lemma pinged_snoc (s : Svc) ls d l : is_pong l = false → pinged s ls d → pinged s (ls ++ [l]) d.
Proof.
  intros Hl (ls1 & now & ok & ls2 & -> & -> & Hs & Hp & Hi). exists ls1, now, ok, (ls2 ++ [l]).
  rewrite <- app_assoc. split_and!; [done|done| |done|done]. unfold silent in *.
  by rewrite forallb_app, Hs; cbn; rewrite Hl.
Qed.
Definition timed_out (s : Svc) ls : Prop := ∃ ls1 deadline now ok ls2,
  ls = ls1 ++ Tick now ok :: ls2 ∧ pinged s ls1 deadline ∧ deadline <= now.
Lemma timed_out_snoc (s : Svc) ls l : timed_out s ls → timed_out s (ls ++ [l]).
Proof.
  intros (ls1 & d & now & ok & ls2 & -> & Hp & Hd). exists ls1, d, now, ok, (ls2 ++ [l]).
  by rewrite <- app_assoc.
Qed.
Lemma tick_history (s : Svc) ls now ok :
  let s1 := runs step s ls in
  ended (connection s1) = None →
  (∀ d, pong_deadline (connection s1) = Some d → pinged s ls d) →
  (ended (connection (heartbeat now ok s1)) = None → ∀ d,
     pong_deadline (connection (heartbeat now ok s1)) = Some d → pinged s (ls ++ [Tick now ok]) d) ∧
  (ended (connection (heartbeat now ok s1)) = Some EndHeartbeat → timed_out s (ls ++ [Tick now ok])).
Proof.
  intros s1 Hn Hp. unfold heartbeat. destruct (pong_deadline (connection s1)) as [d|] eqn:Hd.
  - destruct (d <=? now) eqn:Hle; boolify.
    + split; [done|]. intros _. exists ls, d, now, ok, []. split_and!; [done|by apply Hp|done].
    + split; [|congruence]. intros _ d'. rewrite Hd. intros [= <-]. apply pinged_snoc; [done|by apply Hp].
  - destruct (HEARTBEAT_INTERVAL <=? _) eqn:Hi; boolify; [|split; [intros _ d; congruence|congruence]].
    destruct ok; [|split; [done|cbn; congruence]]. split; [|cbn; congruence]. intros _ d [= <-].
    exists ls, now, true, []. by split_and!.
Qed.
Lemma history (s : Svc) ls :
  pong_deadline (connection s) = None → ended (connection s) = None →
  (ended (connection (runs step s ls)) = None → ∀ d,
     pong_deadline (connection (runs step s ls)) = Some d → pinged s ls d) ∧
  (ended (connection (runs step s ls)) = Some EndHeartbeat → timed_out s ls).
Proof.
  intros Hp He. induction ls as [|l ls [IHp IHe]] using rev_ind; [cbn; split; congruence|].
  rewrite runs_app. cbn [runs fold_left]. set (s1 := runs step s ls) in *.
  destruct (is_pong l) eqn:Hl; [|destruct (is_tick l) eqn:Ht].
  - destruct l as [|ok now|[| | | | |] d ok now| | | | | | | |]; try done. cbn [connection_step frame_blocked].
    case_bool_decide as E; [|apply eq_None_not_Some in E; cbn; split; [done|congruence]].
    split; [intros Hn; rewrite Hn in E; by destruct E|]. intros Hx. by apply timed_out_snoc, IHe.
  - destruct l; try done. cbn [connection_step]. case_bool_decide as E.
    + split; [intros Hn; rewrite Hn in E; by destruct E|]. intros Hx. by apply timed_out_snoc, IHe.
    + apply eq_None_not_Some in E. by apply tick_history; [|apply IHp].
  - destruct (step_clock s1 l Hl Ht) as [Hpong [Hend|(Hn & Hn1 & Hn2)]].
    + rewrite Hpong, Hend. split; [intros Hn d Hd; apply pinged_snoc; auto|].
      intros Hx. by apply timed_out_snoc, IHe.
    + done.
Qed.

(** C31: the heartbeat detects a dead peer and spares a live one. A peer that has been idle
    for the interval is pinged by the next tick, and unless its pong arrives the first tick
    ten seconds later finds the loop ended; and the heartbeat ends the loop of no other
    peer: before the tick that does, a ping was sent at least ten seconds earlier and no
    pong has come since. *)
Theorem heartbeat_detects_dead_peer (s : Svc) ls :
  pong_deadline (connection s) = None → ended (connection s) = None →
  (∀ now ok now' ok', HEARTBEAT_INTERVAL <= now - last_outbound (connection s) →
     now + PONG_TIMEOUT <= now' → silent ls = true →
     ended (connection (runs step s (Tick now ok :: ls ++ [Tick now' ok']))) ≠ None) ∧
  (ended (connection (runs step s ls)) = Some EndHeartbeat → timed_out s ls).
Proof.
  intros Hp He. split; [|by apply history].
  intros now ok now' ok' Hi Hn Hl. cbn [runs fold_left].
  fold (runs step (step s (Tick now ok)) (ls ++ [Tick now' ok'])).
  rewrite runs_app. cbn [connection_step]. rewrite bool_decide_eq_false_2 by (by rewrite He; intros [? ?]).
  set (s1 := heartbeat now ok s).
  assert (ended (connection s1) ≠ None ∨ pong_deadline (connection s1) = Some (now + PONG_TIMEOUT)) as Hs1.
  { unfold s1, heartbeat. rewrite Hp, (proj2 (N.leb_le _ _) Hi). destruct ok; [by right|by left]. }
  destruct Hs1 as [Hs1|Hs1]; [by apply runs_ended, runs_ended|].
  destruct (deadline_stays s1 _ ls Hs1 Hl) as [Hs2|Hs2]; [by apply runs_ended|].
  set (s2 := runs step s1 ls) in *. cbn [runs fold_left connection_step].
  case_bool_decide as E; [by apply not_eq_None_Some in E|].
  unfold heartbeat. by rewrite Hs2, (proj2 (N.leb_le _ _) Hn).
Qed.
End connection_theorems.

(** * Connection 100 of session 42 *)
Module ConnectionExample.
Import Concrete.
#[export] Existing Instance Concrete.uuids.
#[export] Existing Instance Concrete.plain_base64.
#[export] Existing Instance ReportExample.parser.
#[export] Existing Instance RedactExample.literal_regex.
#[export] Existing Instance ServerExample.configuration_codec.
#[export] Existing Instance HandshakeExample.server_message_codec.

Abbreviation Shared := (Lifecycle (TS:=tokens) (T:=N) (Q:=queue) (W:=cell) (Resources:=()) (Monitor:=N)).
Abbreviation Svc := (Service (TS:=tokens) (T:=N) (Q:=queue) (W:=cell) (Resources:=()) (M:=N) (Level:=N)
  (MW:=TunnelMonitors (W:=cell))).
Abbreviation labels := (list (connection_label (TS:=tokens) (T:=N) (Q:=queue) (W:=cell) (Resources:=())
  (M:=N) (Level:=N) (MW:=TunnelMonitors (W:=cell)))).

Definition idle : Shared := {|
  Lifecycle.tokens := (∅, ∅); completed := ∅; admissions := admissions_default; events := channel 4;
  tunnel := watch_channel tunnel_binding_default; state := watch_channel VpnState.Disconnected |}.
Definition attachment : Attachment :=
  {| at_id := 100; at_session := 42; at_uid := Some 1000; at_generation := 1 |}.
Definition base : Svc := {|
  server := set_connections {[100]} (set_controls {[100 := control_new (channel 4)]}
    (server_new ServerExample.quiet_env
      {| registry_instance := 1; sessions := {[42 := DispatcherExample.session]}; poisoned := false |}
      idle ServerExample.world));
  dispatcher := {| gui_restart_requested := false; redaction := []; max_level := Some 3;
    gui_management_enabled := true; externally_brokered := false |};
  previews := previews_new;
  connection := connection_new 0;
|}.
Definition step := connection_step (TS:=tokens) (T:=N) (Q:=queue) (W:=cell) (Resources:=()) (M:=N)
  (Level:=N) (MW:=TunnelMonitors (W:=cell)) (λ _ _, None) attachment.
Definition draws : Draws := {| drawn_upload := 1; drawn_report := 2; drawn_preview := 3 |}.
Definition answers : SystemAnswers (Resources:=()) (Level:=N) := {|
  ans_acquire _ := Ok (); ans_install _ := Installed; ans_metadata := Ok None;
  ans_parse_level _ := Some 4; ans_info := 3 |}.
Definition request (id : Uuid) (r : WsRequest) :=
  TakeFrame (TS:=tokens) (T:=N) (Q:=queue) (W:=cell) (Resources:=()) (M:=N) (Level:=N)
    (MW:=TunnelMonitors (W:=cell)) (FBinary (Some (ClientRequest id r))) draws true 1.
Definition requests : labels :=
  [request 7 (UpdateLogLevel "debug"); request 8 RestartGui; RunTask 0 answers; RunTask 0 answers;
   request 9 (ReadHipPreviewChunk {| read_preview_id := "1"; read_offset := 0 |})].
Definition quiet_peer : labels := [TakeFrame FPing draws true 15500; TakeCommand true 15600].

Lemma base_started : started attachment base 0.
Proof.
  split; [done| | |by vm_compute].
  - eexists. split; [by vm_compute|]. by vm_compute.
  - destruct (previews_bounded []) as [_ _]. split; [done|by intros w [x Hx]|done..].
Qed.
(** Two replies are queued, one task runs; a third request with a used id ends the loop. *)
Lemma replies_are_expected_witness :
  ended (connection (runs step base requests)) = None ∧
  ended (connection (runs step base (requests ++ [request 8 RestartGui]))) = Some EndMalformed ∧
  size (pending_requests (connection (runs step base requests))) = 3%nat ∧
  ended (connection (runs step base (requests ++ [TakeCommand true 2; TakeCommand true 3]))) ≠ Some EndUnexpectedReply.
Proof.
  split; [by vm_compute|]. split; [by vm_compute|]. split; [by vm_compute|].
  apply (replies_are_expected (λ _ _, None) attachment base 0
    (requests ++ [TakeCommand true 2; TakeCommand true 3]) base_started).
Defined.

Lemma heartbeat_detects_dead_peer_witness :
  ended (connection (runs step base (Tick 15000 true :: quiet_peer ++ [Tick 25000 true]))) ≠ None.
Proof.
  destruct (heartbeat_detects_dead_peer (λ _ _, None) attachment base quiet_peer ltac:(done) ltac:(done))
    as [Hd _].
  apply (Hd 15000 true 25000 true); [|by vm_compute..]. cbn. unfold HEARTBEAT_INTERVAL. lia.
Defined.
End ConnectionExample.
