(* ===== verification/WidgetModel.v ===== *)
(** What the desktop widget shows (apps/gpwidget/src: proto.rs, config.rs, ux.rs,
    daemon/state.rs): the messages of its socket, its configuration, the daemon's model
    of the VPN and the snapshot built from it, and the formatting the bars share.

    The paths, the clock and the file of the configuration belong to the host; the
    daemon takes them as arguments. *)
From S2P Require Import Prelude Utf8 Text ThirdParty Session Service.
From Stdlib Require Import Strings.Ascii.
From stdpp Require Import pretty.

#[local] Open Scope N_scope.

(** * The socket's messages (proto.rs) *)
Definition PROTOCOL_VERSION : N := 1.

Module WidgetState.
Inductive t :=
  | NeedsSetup | Disconnected | Authenticating | Connecting | Connected | Disconnecting | Error.
#[export] Instance t_eq_dec : EqDecision t.
Proof. solve_decision. Defined.
End WidgetState.

Definition widget_state_as_str (s : WidgetState.t) : string :=
  match s with
  | WidgetState.NeedsSetup => "needs-setup"
  | WidgetState.Disconnected => "disconnected"
  | WidgetState.Authenticating => "authenticating"
  | WidgetState.Connecting => "connecting"
  | WidgetState.Connected => "connected"
  | WidgetState.Disconnecting => "disconnecting"
  | WidgetState.Error => "error"
  end.

Record GatewayInfo := { info_name : string; info_address : string }.
Record ConnStats := {
  conn_since : N;
  conn_ifname : option string;
  conn_ipv4 : option string;
  rx_bytes : N;
  tx_bytes : N;
  rx_rate : N;
  tx_rate : N;
}.
Record SessionSummary := {
  expires_at : option N;
  summary_in_human : option string;
  summary_lifetime_secs : option N;
  warn_prior_secs : option N;
  allow_extend : bool;
}.
Record StatusMsg := {
  status_state : option WidgetState.t;
  status_portal : option string;
  status_gateway : option GatewayInfo;
  status_gateways : list GatewayInfo;
  status_conn : option ConnStats;
  status_session : option SessionSummary;
  status_error : option string;
}.
Module ToastLevel.
Inductive t := Info | Warn | Error.
End ToastLevel.
Inductive ServerMsg :=
  | Hello (version : string) (protocol : N)
  | Status (status : StatusMsg)
  | Toast (level : ToastLevel.t) (title message : string)
  | AuthPrompt (kind message : string)
  | Ack (id : N) (ok : bool) (error : option string)
  | Bye.
Inductive ClientMsg :=
  | GetStatus (id : option N)
  | CmdConnect (id : option N) (portal gateway : option string)
  | CmdDisconnect (id : option N)
  | Toggle (id : option N)
  | SubmitOtp (id : option N) (otp : string)
  | OpenPopup (id : option N)
  | CmdQuit (id : option N).
Definition client_msg_id (m : ClientMsg) : option N :=
  match m with
  | GetStatus id | CmdConnect id _ _ | CmdDisconnect id | Toggle id | SubmitOtp id _
  | OpenPopup id | CmdQuit id => id
  end.

(** * The configuration (config.rs) *)
Inductive BrowserMode := Embedded | DefaultBrowser | NamedBrowser (name : string).
#[export] Instance BrowserMode_eq_dec : EqDecision BrowserMode.
Proof. solve_decision. Defined.

Record AdvancedConfig := {
  adv_ignore_tls_errors : bool;
  adv_fix_openssl : bool;
  adv_client_version : option string;
  adv_certificate : option string;
  adv_sslkey : option string;
  adv_key_password : option string;
  adv_mtu : N;
  adv_reconnect_timeout : N;
  adv_disable_ipv6 : bool;
  adv_no_dtls : bool;
  adv_hip : bool;
}.
Record WaybarConfig := { show_gateway : bool }.
Record PopupConfig := { popup_edge : string; popup_margin : Z * Z }.
Record Config := {
  config_portal : option string;
  config_gateway : option string;
  config_browser : string;
  config_hidpi : bool;
  config_notifications : bool;
  auto_connect : bool;
  auto_resume : bool;
  stats_interval_secs : N;
  config_waybar : WaybarConfig;
  config_popup : PopupConfig;
  advanced : AdvancedConfig;
}.
Definition advanced_default : AdvancedConfig := {|
  adv_ignore_tls_errors := false; adv_fix_openssl := false; adv_client_version := None;
  adv_certificate := None; adv_sslkey := None; adv_key_password := None; adv_mtu := 0;
  adv_reconnect_timeout := 300; adv_disable_ipv6 := false; adv_no_dtls := false;
  adv_hip := false |}.
Definition waybar_default : WaybarConfig := {| show_gateway := true |}.
Definition popup_default : PopupConfig := {| popup_edge := "top-right"; popup_margin := (8, 8)%Z |}.
Definition config_default : Config := {|
  config_portal := None; config_gateway := None; config_browser := "embedded";
  config_hidpi := false; config_notifications := true; auto_connect := false;
  auto_resume := true; stats_interval_secs := 2; config_waybar := waybar_default;
  config_popup := popup_default; advanced := advanced_default |}.
Definition set_portal (v : option string) (c : Config) : Config := {|
  config_portal := v; config_gateway := config_gateway c; config_browser := config_browser c;
  config_hidpi := config_hidpi c; config_notifications := config_notifications c;
  auto_connect := auto_connect c; auto_resume := auto_resume c;
  stats_interval_secs := stats_interval_secs c; config_waybar := config_waybar c;
  config_popup := config_popup c; advanced := advanced c |}.

Definition browser_mode (c : Config) : BrowserMode :=
  let b := trim (config_browser c) in
  if is_empty b || String.eqb b "embedded" then Embedded
  else if String.eqb b "default" then DefaultBrowser
  else NamedBrowser b.

(** * Formatting (ux.rs) *)
Record StateStyle := { glyph : string; style_label : string; style_class : string }.
(** [shield c] is the private-use character U+F09xx whose last UTF-8 byte is [c]. *)
Definition shield (c : N) : string :=
  String (ascii_of_N 243) (String (ascii_of_N 176) (String (ascii_of_N 166)
    (String (ascii_of_N c) ""))).
Definition state_style (s : option WidgetState.t) : StateStyle :=
  let off := shield 158 in
  let sync := shield 150 in
  match s with
  | None => {| glyph := off; style_label := "VPN off"; style_class := "stack-down" |}
  | Some WidgetState.NeedsSetup =>
      {| glyph := off; style_label := "Setup required"; style_class := "needs-setup" |}
  | Some WidgetState.Disconnected =>
      {| glyph := off; style_label := "Disconnected"; style_class := "disconnected" |}
  | Some WidgetState.Authenticating =>
      {| glyph := sync; style_label := "Authenticating…"; style_class := "connecting" |}
  | Some WidgetState.Connecting =>
      {| glyph := sync; style_label := "Connecting…"; style_class := "connecting" |}
  | Some WidgetState.Connected =>
      {| glyph := shield 157; style_label := "Connected"; style_class := "connected" |}
  | Some WidgetState.Disconnecting =>
      {| glyph := sync; style_label := "Disconnecting…"; style_class := "disconnecting" |}
  | Some WidgetState.Error =>
      {| glyph := shield 159; style_label := "Error"; style_class := "error" |}
  end.

(** Days, hours, minutes and seconds. *)
Definition duration_parts (secs : N) : N * N * N * N :=
  let (days, rem) := N.div_eucl secs 86400 in
  let (hours, rem) := N.div_eucl rem 3600 in
  let (minutes, seconds) := N.div_eucl rem 60 in
  (days, hours, minutes, seconds).
Definition format_duration_short (secs : N) : string :=
  match duration_parts secs with
  | (0, 0, 0, seconds) => pretty seconds +:+ "s"
  | (0, 0, minutes, seconds) => pretty minutes +:+ "m " +:+ pretty seconds +:+ "s"
  | (0, hours, minutes, _) => pretty hours +:+ "h " +:+ pretty minutes +:+ "m"
  | (days, hours, _, _) => pretty days +:+ "d " +:+ pretty hours +:+ "h"
  end.

(** [remaining * 100] is a [u64] multiplication: it panics when it overflows. *)
Definition session_percentage (expires lifetime : option N) (now : N) : option N :=
  match expires, lifetime with
  | Some expires, Some lifetime =>
      if (lifetime =? 0) || (expires <=? now) then Some 0
      else hundred ← checked_mul u64_max (expires - now) 100;
           Some (cast u8_max (N.min (hundred / lifetime) 100))
  | _, _ => Some 0
  end.

(** * The model (daemon/state.rs) *)
Record Model := {
  model_config : Config;
  vpn_env : option VpnEnv;
  vpn_state : VpnState.t;
  authenticating : bool;
  last_error : option string;
  known_gateways : list GatewayInfo;
  current_gateway : option GatewayInfo;
  model_portal : option string;
  model_session : option SessionSummary;
  conn : option ConnStats;
}.
Definition model_new (c : Config) : Model := {|
  model_config := c; vpn_env := None; vpn_state := VpnState.Disconnected;
  authenticating := false; last_error := None; known_gateways := []; current_gateway := None;
  model_portal := config_portal c; model_session := None; conn := None |}.

Definition set_model_config (v : Config) (s : Model) : Model := {|
  model_config := v; vpn_env := vpn_env s; vpn_state := vpn_state s;
  authenticating := authenticating s; last_error := last_error s;
  known_gateways := known_gateways s; current_gateway := current_gateway s;
  model_portal := model_portal s; model_session := model_session s; conn := conn s
|}.
Definition set_vpn_env (v : option VpnEnv) (s : Model) : Model := {|
  model_config := model_config s; vpn_env := v; vpn_state := vpn_state s;
  authenticating := authenticating s; last_error := last_error s;
  known_gateways := known_gateways s; current_gateway := current_gateway s;
  model_portal := model_portal s; model_session := model_session s; conn := conn s
|}.
Definition set_vpn_state (v : VpnState.t) (s : Model) : Model := {|
  model_config := model_config s; vpn_env := vpn_env s; vpn_state := v;
  authenticating := authenticating s; last_error := last_error s;
  known_gateways := known_gateways s; current_gateway := current_gateway s;
  model_portal := model_portal s; model_session := model_session s; conn := conn s
|}.
Definition set_authenticating (v : bool) (s : Model) : Model := {|
  model_config := model_config s; vpn_env := vpn_env s; vpn_state := vpn_state s;
  authenticating := v; last_error := last_error s; known_gateways := known_gateways s;
  current_gateway := current_gateway s; model_portal := model_portal s;
  model_session := model_session s; conn := conn s
|}.
Definition set_last_error (v : option string) (s : Model) : Model := {|
  model_config := model_config s; vpn_env := vpn_env s; vpn_state := vpn_state s;
  authenticating := authenticating s; last_error := v;
  known_gateways := known_gateways s; current_gateway := current_gateway s;
  model_portal := model_portal s; model_session := model_session s; conn := conn s
|}.
Definition set_known_gateways (v : list GatewayInfo) (s : Model) : Model := {|
  model_config := model_config s; vpn_env := vpn_env s; vpn_state := vpn_state s;
  authenticating := authenticating s; last_error := last_error s; known_gateways := v;
  current_gateway := current_gateway s; model_portal := model_portal s;
  model_session := model_session s; conn := conn s
|}.
Definition set_current_gateway (v : option GatewayInfo) (s : Model) : Model := {|
  model_config := model_config s; vpn_env := vpn_env s; vpn_state := vpn_state s;
  authenticating := authenticating s; last_error := last_error s;
  known_gateways := known_gateways s; current_gateway := v;
  model_portal := model_portal s; model_session := model_session s; conn := conn s
|}.
Definition set_model_portal (v : option string) (s : Model) : Model := {|
  model_config := model_config s; vpn_env := vpn_env s; vpn_state := vpn_state s;
  authenticating := authenticating s; last_error := last_error s;
  known_gateways := known_gateways s; current_gateway := current_gateway s;
  model_portal := v; model_session := model_session s; conn := conn s
|}.
Definition set_model_session (v : option SessionSummary) (s : Model) : Model := {|
  model_config := model_config s; vpn_env := vpn_env s; vpn_state := vpn_state s;
  authenticating := authenticating s; last_error := last_error s;
  known_gateways := known_gateways s; current_gateway := current_gateway s;
  model_portal := model_portal s; model_session := v; conn := conn s
|}.
Definition set_conn (v : option ConnStats) (s : Model) : Model := {|
  model_config := model_config s; vpn_env := vpn_env s; vpn_state := vpn_state s;
  authenticating := authenticating s; last_error := last_error s;
  known_gateways := known_gateways s; current_gateway := current_gateway s;
  model_portal := model_portal s; model_session := model_session s; conn := v
|}.
Definition gateway_info (g : Gateway) : GatewayInfo :=
  {| info_name := gateway_name g; info_address := gateway_address g |}.
Definition session_summary (s : SessionInfo) : SessionSummary := {|
  expires_at := user_expires s;
  summary_in_human := expires_in_human s;
  summary_lifetime_secs := lifetime_secs s;
  warn_prior_secs := prior_secs <$> lifetime_warning s;
  allow_extend := allow_extend_session s;
|}.

Definition widget_state (m : Model) : WidgetState.t :=
  match vpn_state m with
  | VpnState.Connecting _ | VpnState.ReconnectRequired _ => WidgetState.Connecting
  | VpnState.Connected _ => WidgetState.Connected
  | VpnState.Disconnecting => WidgetState.Disconnecting
  | VpnState.Disconnected | VpnState.Failed _ =>
      if authenticating m then WidgetState.Authenticating
      else if bool_decide (is_Some (last_error m)) then WidgetState.Error
      else if bool_decide (model_portal m = None) then WidgetState.NeedsSetup
      else WidgetState.Disconnected
  end.

Section model.
(** The portal and the gateways of a [ConnectInfo] are read from its JSON form: the
    gateways pass through their codec. *)
Context `{SerdeJson Gateway, SerdeJson (list Gateway)}.

Record ConnectView := { view_portal : string; view_gateway : Gateway; view_gateways : list Gateway }.
Definition connect_view (i : ConnectInfo) : option ConnectView :=
  gateway ← to_vec (info_gateway i) ≫= from_slice;
  gateways ← to_vec (info_gateways i) ≫= from_slice;
  Some {| view_portal := info_portal i; view_gateway := gateway; view_gateways := gateways |}.
Definition show_view (v : option ConnectView) (m : Model) : Model :=
  match v with
  | Some v => set_known_gateways (gateway_info <$> view_gateways v)
                (set_current_gateway (Some (gateway_info (view_gateway v)))
                (set_model_portal (Some (view_portal v)) m))
  | None => m
  end.

Definition apply_vpn_state (s : VpnState.t) (m : Model) : Model :=
  let '(s, m) := match s with
    | VpnState.Failed reason => (VpnState.Disconnected, set_last_error (Some reason) m)
    | s => (s, m)
    end in
  let m := match s with
    | VpnState.Connecting i => set_model_session None (show_view (connect_view i) m)
    | VpnState.ReconnectRequired r =>
        set_model_session None (show_view (Some {|
          view_portal := info_portal (rr_info r); view_gateway := info_gateway (rr_info r);
          view_gateways := info_gateways (rr_info r) |}) m)
    | VpnState.Connected c =>
        let m := show_view (connect_view (connected_connect_info c)) m in
        let m := set_model_session (session_summary <$> connected_session_info c) m in
        match conn m with
        | None => set_conn (Some {|
            conn_since := connected_at c; conn_ifname := None; conn_ipv4 := None;
            rx_bytes := 0; tx_bytes := 0; rx_rate := 0; tx_rate := 0 |}) m
        | Some _ => m
        end
    | VpnState.Disconnected | VpnState.Failed _ =>
        set_current_gateway None (set_model_session None (set_conn None m))
    | VpnState.Disconnecting => m
    end in
  set_vpn_state s m.
End model.

Definition model_snapshot (m : Model) : StatusMsg :=
  let state := widget_state m in {|
  status_state := Some state;
  status_portal := model_portal m;
  status_gateway := current_gateway m;
  status_gateways := known_gateways m;
  status_conn := match state with WidgetState.Connected => conn m | _ => None end;
  status_session := model_session m;
  status_error := last_error m;
|}.

(** * Theorems *)
Section model_theorems.
Context `{SerdeJson Gateway, SerdeJson (list Gateway)}.

Lemma show_view_keeps v m :
  vpn_state (show_view v m) = vpn_state m ∧ conn (show_view v m) = conn m ∧
  last_error (show_view v m) = last_error m ∧ authenticating (show_view v m) = authenticating m ∧
  model_config (show_view v m) = model_config m.
Proof. by destruct v. Qed.
Lemma apply_vpn_state_state st m :
  vpn_state (apply_vpn_state st m) =
  match st with VpnState.Failed _ => VpnState.Disconnected | st => st end.
Proof. by destruct st. Qed.

(** What the model keeps about the state it shows. *)
Definition coherent (m : Model) : Prop :=
  match vpn_state m with
  | VpnState.Failed _ => False
  | VpnState.Disconnected => conn m = None ∧ model_session m = None ∧ current_gateway m = None
  | VpnState.Connecting _ | VpnState.ReconnectRequired _ => model_session m = None
  | VpnState.Connected _ => is_Some (conn m)
  | VpnState.Disconnecting => True
  end.
Lemma coherent_new c : coherent (model_new c).
Proof. done. Qed.
Lemma apply_vpn_state_coherent st m : coherent (apply_vpn_state st m).
Proof.
  destruct st; try done; cbn.
  unfold coherent. cbn. set (m' := show_view _ m).
  destruct (conn m') as [c|] eqn:E; [exists c; exact E|by eexists].
Qed.
Lemma coherent_snapshot m : coherent m →
  let v := model_snapshot m in
  (is_Some (status_conn v) ↔ status_state v = Some WidgetState.Connected) ∧
  (status_state v = Some WidgetState.Error → is_Some (status_error v)) ∧
  (status_state v ∈ Some <$> [WidgetState.NeedsSetup; WidgetState.Disconnected;
                              WidgetState.Authenticating; WidgetState.Error] →
   status_session v = None ∧ status_gateway v = None).
Proof.
  unfold coherent, model_snapshot, widget_state. cbn.
  destruct (vpn_state m); try done;
    repeat (case_match; try done); intros Hc; (split; [split; naive_solver|]); (split; [try done|]);
    try (case_bool_decide; done); set_solver.
Qed.
End model_theorems.

(** For the expiry and the lifetime of a session, which are 32 bits wide, the
    percentage does not overflow, is at most 100, and while the session is at most a
    lifetime from its end it is the share of the lifetime that remains, rounded down. *)
Lemma session_percentage_is_the_share s now :
  default 0 (user_expires s) ≤ u32_max →
  ∃ p, session_percentage (expires_at (session_summary s))
         (summary_lifetime_secs (session_summary s)) now = Some p ∧
    p ≤ 100 ∧
    ∀ e l, user_expires s = Some e → lifetime_secs s = Some l → now < e → e ≤ now + l →
      l * p ≤ 100 * (e - now) < l * (p + 1).
Proof.
  destruct s as [l e ? ? ? ? ?]. cbn. intros He.
  destruct e as [e|]; cbn in *; [|exists 0; split; [done|]; split; [lia|done]].
  destruct l as [l|]; [|exists 0; split; [done|]; split; [lia|done]].
  destruct ((l =? 0) || (e <=? now)) eqn:Eb.
  - exists 0. split; [done|]. split; [lia|]. intros ? ? [= <-] [= <-] ? ?.
    apply orb_true_iff in Eb as [?%N.eqb_eq|?%N.leb_le]; lia.
  - apply orb_false_iff in Eb as [?%N.eqb_neq ?%N.leb_gt].
    unfold checked_mul. destruct (N.leb_spec ((e - now) * 100) u64_max) as [_|Hv];
      [|unfold u32_max, u64_max in *; lia]. cbn.
    rewrite cast_small by (unfold u8_max; lia).
    exists (N.min ((e - now) * 100 / l) 100). split; [done|]. split; [lia|].
    intros ? ? [= <-] [= <-] ? ?.
    pose proof (N.Div0.div_le_upper_bound ((e - now) * 100) l 100).
    pose proof (N.Div0.mul_div_le ((e - now) * 100) l).
    pose proof (N.mul_succ_div_gt ((e - now) * 100) l). nia.
Qed.
Lemma session_percentage_is_the_share_witness :
  ∃ p, session_percentage (Some 1000) (Some 100) 950 = Some p ∧ p ≤ 100.
Proof.
  destruct (session_percentage_is_the_share
    (from_vpn_session_fields (λ _, "") 950 (Some 100) (Some 1000) None false) 950 ltac:(by vm_compute))
    as (p & Hp & Hl & _). by exists p.
Defined.
