(* ===== verification/Widget.v ===== *)
(** The widget's daemon (apps/gpwidget/src/daemon/mod.rs, stats.rs, notify.rs and the
    messages of connect_flow.rs).

    [Daemon] has the fields of the struct that hold state. What its channels and the
    tasks it spawns hold is in [Desk]: connect flows, sleeping timers, requests on their
    way to gpservice; what others see of it is in [Output]: the last snapshot, the lines
    sent to the socket's clients, notifications. [widget_step] is one arm of
    the daemon's [select!], or one step of a task that runs beside it; a task may act
    at any moment, so time needs no model. *)
From S2P Require Import Prelude Utf8 Text ThirdParty ClientProfile Transport Tunnel Session Service WidgetModel.

#[local] Open Scope N_scope.

(** [QuitTimeout] and the watchdog sleep for [QUIT_DISCONNECT_TIMEOUT_SECS] and
    [CONNECT_WATCHDOG_SECS]; here a timer may fire as soon as it was spawned. *)
Inductive TimerMsg :=
  | ConnectWatchdog (generation : N)
  | ExpiryWarning (generation : N)
  | QuitTimeout.
#[export] Instance TimerMsg_eq_dec : EqDecision TimerMsg.
Proof. solve_decision. Defined.

(** connect_flow.rs; [respond] names a oneshot channel. *)
Inductive FlowMsg :=
  | OtpPrompt (message : string) (respond : N)
  | Submitted (request : ConnectRequest)
  | FlowFailed (error : string) (cancelled : bool).

(** ws_client.rs *)
Inductive WsNotice :=
  | NoticeEvent (event : WsEvent.t)
  | NoticeRejected (message : string)
  | Lost
  | Gone.

Module Urgency.
Inductive t := Normal | Low | Critical.
End Urgency.

Section widget.
Context {TS T : Type} `{CancellationTokens TS T} {W : Type → Type} `{Watch W}.
Context `{SerdeJson Gateway, SerdeJson (list Gateway), SerdeJson ServerMsg}.

Record FlowCtx := {
  ctx_portal : string;
  ctx_gateway_override : option string;
  ctx_config : Config;
  ctx_vpn_env : VpnEnv;
  ctx_cancel : T;
}.

(** A flow's task: its context and, once it is through, the request it handed to the WS
    task; what is left then is to report [Submitted]. *)
Record FlowTask := { flow_ctx : FlowCtx; flow_sent : option ConnectRequest }.

(** The statistics ticker: the interfaces there were before the tunnel, the epoch of
    the connection and the interval. *)
Record Ticker := { ticker_baseline : gset string; ticker_since : N; ticker_interval : N }.
Record StatsTracker := { baseline : gset string; stats_task : option Ticker }.
Definition tracker_new : StatsTracker := {| baseline := ∅; stats_task := None |}.
Definition stats_stop (t : StatsTracker) : StatsTracker :=
  {| baseline := baseline t; stats_task := None |}.
Definition on_connecting (interfaces : gset string) (t : StatsTracker) : StatsTracker :=
  {| baseline := interfaces; stats_task := stats_task (stats_stop t) |}.
Definition on_connected (since interval : N) (t : StatsTracker) : StatsTracker :=
  {| baseline := baseline t;
     stats_task := Some {| ticker_baseline := baseline (stats_stop t); ticker_since := since;
                           ticker_interval := interval |} |}.

Record Daemon := {
  model : Model;
  stats : StatsTracker;
  notifier_enabled : bool;
  connect_cancel : option T;
  pending_otp : option N;
  resume_gateway : option string;
  submitted_connect : option ConnectRequest;
  disconnect_requested : bool;
  quitting : bool;
  watchdog_generation : N;
  expiry_generation : N;
}.
Definition set_model (v : Model) (s : Daemon) : Daemon := {|
  model := v; stats := stats s; notifier_enabled := notifier_enabled s;
  connect_cancel := connect_cancel s; pending_otp := pending_otp s;
  resume_gateway := resume_gateway s; submitted_connect := submitted_connect s;
  disconnect_requested := disconnect_requested s; quitting := quitting s;
  watchdog_generation := watchdog_generation s;
  expiry_generation := expiry_generation s
|}.
Definition set_stats (v : StatsTracker) (s : Daemon) : Daemon := {|
  model := model s; stats := v; notifier_enabled := notifier_enabled s;
  connect_cancel := connect_cancel s; pending_otp := pending_otp s;
  resume_gateway := resume_gateway s; submitted_connect := submitted_connect s;
  disconnect_requested := disconnect_requested s; quitting := quitting s;
  watchdog_generation := watchdog_generation s;
  expiry_generation := expiry_generation s
|}.
Definition set_connect_cancel (v : option T) (s : Daemon) : Daemon := {|
  model := model s; stats := stats s; notifier_enabled := notifier_enabled s;
  connect_cancel := v; pending_otp := pending_otp s;
  resume_gateway := resume_gateway s; submitted_connect := submitted_connect s;
  disconnect_requested := disconnect_requested s; quitting := quitting s;
  watchdog_generation := watchdog_generation s;
  expiry_generation := expiry_generation s
|}.
Definition set_pending_otp (v : option N) (s : Daemon) : Daemon := {|
  model := model s; stats := stats s; notifier_enabled := notifier_enabled s;
  connect_cancel := connect_cancel s; pending_otp := v;
  resume_gateway := resume_gateway s; submitted_connect := submitted_connect s;
  disconnect_requested := disconnect_requested s; quitting := quitting s;
  watchdog_generation := watchdog_generation s;
  expiry_generation := expiry_generation s
|}.
Definition set_resume_gateway (v : option string) (s : Daemon) : Daemon := {|
  model := model s; stats := stats s; notifier_enabled := notifier_enabled s;
  connect_cancel := connect_cancel s; pending_otp := pending_otp s;
  resume_gateway := v; submitted_connect := submitted_connect s;
  disconnect_requested := disconnect_requested s; quitting := quitting s;
  watchdog_generation := watchdog_generation s;
  expiry_generation := expiry_generation s
|}.
Definition set_submitted_connect (v : option ConnectRequest) (s : Daemon) : Daemon := {|
  model := model s; stats := stats s; notifier_enabled := notifier_enabled s;
  connect_cancel := connect_cancel s; pending_otp := pending_otp s;
  resume_gateway := resume_gateway s; submitted_connect := v;
  disconnect_requested := disconnect_requested s; quitting := quitting s;
  watchdog_generation := watchdog_generation s;
  expiry_generation := expiry_generation s
|}.
Definition set_disconnect_requested (v : bool) (s : Daemon) : Daemon := {|
  model := model s; stats := stats s; notifier_enabled := notifier_enabled s;
  connect_cancel := connect_cancel s; pending_otp := pending_otp s;
  resume_gateway := resume_gateway s; submitted_connect := submitted_connect s;
  disconnect_requested := v; quitting := quitting s;
  watchdog_generation := watchdog_generation s;
  expiry_generation := expiry_generation s
|}.
Definition set_quitting (v : bool) (s : Daemon) : Daemon := {|
  model := model s; stats := stats s; notifier_enabled := notifier_enabled s;
  connect_cancel := connect_cancel s; pending_otp := pending_otp s;
  resume_gateway := resume_gateway s; submitted_connect := submitted_connect s;
  disconnect_requested := disconnect_requested s; quitting := v;
  watchdog_generation := watchdog_generation s;
  expiry_generation := expiry_generation s
|}.
Definition set_watchdog_generation (v : N) (s : Daemon) : Daemon := {|
  model := model s; stats := stats s; notifier_enabled := notifier_enabled s;
  connect_cancel := connect_cancel s; pending_otp := pending_otp s;
  resume_gateway := resume_gateway s; submitted_connect := submitted_connect s;
  disconnect_requested := disconnect_requested s; quitting := quitting s;
  watchdog_generation := v; expiry_generation := expiry_generation s
|}.
Definition set_expiry_generation (v : N) (s : Daemon) : Daemon := {|
  model := model s; stats := stats s; notifier_enabled := notifier_enabled s;
  connect_cancel := connect_cancel s; pending_otp := pending_otp s;
  resume_gateway := resume_gateway s; submitted_connect := submitted_connect s;
  disconnect_requested := disconnect_requested s; quitting := quitting s;
  watchdog_generation := watchdog_generation s; expiry_generation := v
|}.

(** [sending] holds the requests whose task was spawned and did not reach the channel,
    [requests] is the channel to the WS task. *)
Record Desk := {
  tokens : TS;
  flows : list FlowTask;
  flow_queue : list FlowMsg;
  otp_waiting : gset N;
  otp_answers : list (N * string);
  otp_next : N;
  timers : list TimerMsg;
  sending : list WsRequest;
  requests : list WsRequest;
  config_file : result string Config;
  exited : option N;
}.
Definition set_tokens (v : TS) (s : Desk) : Desk := {|
  tokens := v; flows := flows s; flow_queue := flow_queue s;
  otp_waiting := otp_waiting s; otp_answers := otp_answers s; otp_next := otp_next s;
  timers := timers s; sending := sending s; requests := requests s;
  config_file := config_file s; exited := exited s
|}.
Definition set_flows (v : list FlowTask) (s : Desk) : Desk := {|
  tokens := tokens s; flows := v; flow_queue := flow_queue s;
  otp_waiting := otp_waiting s; otp_answers := otp_answers s; otp_next := otp_next s;
  timers := timers s; sending := sending s; requests := requests s;
  config_file := config_file s; exited := exited s
|}.
Definition set_flow_queue (v : list FlowMsg) (s : Desk) : Desk := {|
  tokens := tokens s; flows := flows s; flow_queue := v; otp_waiting := otp_waiting s;
  otp_answers := otp_answers s; otp_next := otp_next s; timers := timers s;
  sending := sending s; requests := requests s; config_file := config_file s;
  exited := exited s
|}.
Definition set_otp_waiting (v : gset N) (s : Desk) : Desk := {|
  tokens := tokens s; flows := flows s; flow_queue := flow_queue s; otp_waiting := v;
  otp_answers := otp_answers s; otp_next := otp_next s; timers := timers s;
  sending := sending s; requests := requests s; config_file := config_file s;
  exited := exited s
|}.
Definition set_otp_answers (v : list (N * string)) (s : Desk) : Desk := {|
  tokens := tokens s; flows := flows s; flow_queue := flow_queue s;
  otp_waiting := otp_waiting s; otp_answers := v; otp_next := otp_next s;
  timers := timers s; sending := sending s; requests := requests s;
  config_file := config_file s; exited := exited s
|}.
Definition set_otp_next (v : N) (s : Desk) : Desk := {|
  tokens := tokens s; flows := flows s; flow_queue := flow_queue s;
  otp_waiting := otp_waiting s; otp_answers := otp_answers s; otp_next := v;
  timers := timers s; sending := sending s; requests := requests s;
  config_file := config_file s; exited := exited s
|}.
Definition set_timers (v : list TimerMsg) (s : Desk) : Desk := {|
  tokens := tokens s; flows := flows s; flow_queue := flow_queue s;
  otp_waiting := otp_waiting s; otp_answers := otp_answers s; otp_next := otp_next s;
  timers := v; sending := sending s; requests := requests s;
  config_file := config_file s; exited := exited s
|}.
Definition set_sending (v : list WsRequest) (s : Desk) : Desk := {|
  tokens := tokens s; flows := flows s; flow_queue := flow_queue s;
  otp_waiting := otp_waiting s; otp_answers := otp_answers s; otp_next := otp_next s;
  timers := timers s; sending := v; requests := requests s;
  config_file := config_file s; exited := exited s
|}.
Definition set_requests (v : list WsRequest) (s : Desk) : Desk := {|
  tokens := tokens s; flows := flows s; flow_queue := flow_queue s;
  otp_waiting := otp_waiting s; otp_answers := otp_answers s; otp_next := otp_next s;
  timers := timers s; sending := sending s; requests := v;
  config_file := config_file s; exited := exited s
|}.
Definition set_config_file (v : result string Config) (s : Desk) : Desk := {|
  tokens := tokens s; flows := flows s; flow_queue := flow_queue s;
  otp_waiting := otp_waiting s; otp_answers := otp_answers s; otp_next := otp_next s;
  timers := timers s; sending := sending s; requests := requests s; config_file := v;
  exited := exited s
|}.
Definition set_exited (v : option N) (s : Desk) : Desk := {|
  tokens := tokens s; flows := flows s; flow_queue := flow_queue s;
  otp_waiting := otp_waiting s; otp_answers := otp_answers s; otp_next := otp_next s;
  timers := timers s; sending := sending s; requests := requests s;
  config_file := config_file s; exited := v
|}.

Record Output := {
  snapshot_tx : W string;
  broadcasts : list string;
  replies : list string;
  notifications : list (Urgency.t * string * string);
  popups : N;
}.
Definition set_snapshot_tx (v : W string) (s : Output) : Output := {|
  snapshot_tx := v; broadcasts := broadcasts s; replies := replies s;
  notifications := notifications s; popups := popups s
|}.
Definition set_broadcasts (v : list string) (s : Output) : Output := {|
  snapshot_tx := snapshot_tx s; broadcasts := v; replies := replies s;
  notifications := notifications s; popups := popups s
|}.
Definition set_replies (v : list string) (s : Output) : Output := {|
  snapshot_tx := snapshot_tx s; broadcasts := broadcasts s; replies := v;
  notifications := notifications s; popups := popups s
|}.
Definition set_notifications (v : list (Urgency.t * string * string)) (s : Output) : Output := {|
  snapshot_tx := snapshot_tx s; broadcasts := broadcasts s; replies := replies s;
  notifications := v; popups := popups s
|}.
Definition set_popups (v : N) (s : Output) : Output := {|
  snapshot_tx := snapshot_tx s; broadcasts := broadcasts s; replies := replies s;
  notifications := notifications s; popups := v
|}.

Record Widget := { daemon : Daemon; desk : Desk; output : Output }.
Definition on_daemon (f : Daemon → Daemon) (s : Widget) : Widget :=
  {| daemon := f (daemon s); desk := desk s; output := output s |}.
Definition on_desk (f : Desk → Desk) (s : Widget) : Widget :=
  {| daemon := daemon s; desk := f (desk s); output := output s |}.
Definition on_output (f : Output → Output) (s : Widget) : Widget :=
  {| daemon := daemon s; desk := desk s; output := f (output s) |}.
Definition on_model (f : Model → Model) : Widget → Widget :=
  on_daemon (λ d, set_model (f (model d)) d).
Definition on_stats (f : StatsTracker → StatsTracker) : Widget → Widget :=
  on_daemon (λ d, set_stats (f (stats d)) d).

(** What a step reads of the host: the clock, the interfaces, whether a file can be
    written, the path of the configuration, the clients subscribed to the broadcasts. *)
Record Host := {
  unix_now : N;
  interface_names : gset string;
  save_error : option string;
  config_path : string;
  receiver_count : N;
}.

(** * Output *)
Definition publish_msg (m : ServerMsg) : Widget → Widget :=
  on_output (λ o, match to_vec m with
                  | Some line => set_broadcasts (broadcasts o ++ [line]) o
                  | None => o
                  end).
Definition publish_snapshot (s : Widget) : Widget :=
  on_output (λ o, match to_vec (Status (model_snapshot (model (daemon s)))) with
                  | Some line => set_broadcasts (broadcasts o ++ [line])
                                   (set_snapshot_tx (watch_send line (snapshot_tx o)) o)
                  | None => o
                  end) s.
Definition toast (level : ToastLevel.t) (title message : string) : Widget → Widget :=
  publish_msg (Toast level title message).
Definition notify (u : Urgency.t) (summary body : string) (s : Widget) : Widget :=
  on_output (λ o, if notifier_enabled (daemon s)
                  then set_notifications (notifications o ++ [(u, summary, body)]) o
                  else o) s.
Definition alert (title message : string) (s : Widget) : Widget :=
  notify Urgency.Critical title message (toast ToastLevel.Error title message s).
Definition send_line (line : string) (o : Output) : Output :=
  set_replies (replies o ++ [line]) o.
Definition ack (id : option N) (r : result string ()) : Widget → Widget :=
  on_output (λ o, match id with
    | Some id =>
        match to_vec (Ack id (is_ok r) (match r with Ok _ => None | Err e => Some e end)) with
        | Some line => send_line line o
        | None => o
        end
    | None => o
    end).
Definition spawn_flow (c : FlowCtx) : Widget → Widget :=
  on_desk (λ k, set_flows (flows k ++ [{| flow_ctx := c; flow_sent := None |}]) k).
Definition spawn_timer (t : TimerMsg) : Widget → Widget :=
  on_desk (λ k, set_timers (timers k ++ [t]) k).
Definition spawn_send (r : WsRequest) : Widget → Widget :=
  on_desk (λ k, set_sending (sending k ++ [r]) k).
Definition send_ws (r : WsRequest) : Widget → Widget :=
  on_desk (λ k, set_requests (requests k ++ [r]) k).
Definition open_popup : Widget → Widget := on_output (λ o, set_popups (popups o + 1) o).
Definition cancel_token (t : T) : Widget → Widget :=
  on_desk (λ k, set_tokens (token_cancel t (tokens k)) k).
Definition next (generation : N) : N := cast u64_max (generation + 1).
Definition bump_watchdog : Widget → Widget :=
  on_daemon (λ d, set_watchdog_generation (next (watchdog_generation d)) d).
Definition bump_expiry : Widget → Widget :=
  on_daemon (λ d, set_expiry_generation (next (expiry_generation d)) d).

Definition is_disconnected (s : VpnState.t) : bool :=
  match s with VpnState.Disconnected => true | _ => false end.
Definition is_disconnecting (s : VpnState.t) : bool :=
  match s with VpnState.Disconnecting => true | _ => false end.
Definition is_connected (s : VpnState.t) : bool :=
  match s with VpnState.Connected _ => true | _ => false end.
Definition connecting_or_connected (s : VpnState.t) : bool :=
  match s with VpnState.Connecting _ | VpnState.Connected _ => true | _ => false end.

(** * Operations *)
Section operations.
Variable host : Host.

(** ** Connect flows *)
Definition start_connect_flow (portal_override gateway_override : option string) (s : Widget) :
    result string () * Widget :=
  if bool_decide (is_Some (connect_cancel (daemon s)))
  then (Err "a connection attempt is already in progress", s)
  else if negb (is_disconnected (vpn_state (model (daemon s))))
  then (Err "already connected or connecting", s)
  else match vpn_env (model (daemon s)) with
  | None => (Err "the VPN service environment is not ready yet", s)
  | Some env =>
      let config := match config_file (desk s) with
        | Ok c => c
        | Err _ => model_config (model (daemon s))
        end in
      let '(config, s) := match portal_override with
        | Some portal =>
            let portal := trim portal in
            if negb (is_empty portal) && negb (bool_decide (config_portal config = Some portal))
            then let config := set_portal (Some portal) config in
                 (config, match save_error host with
                          | None => on_desk (set_config_file (Ok config)) s
                          | Some _ => s
                          end)
            else (config, s)
        | None => (config, s)
        end in
      match config_portal config with
      | None => (Err ("no portal configured — set one in " +:+ config_path host), s)
      | Some portal =>
          let s := on_model (λ m, set_last_error None (set_authenticating true
                     (set_model_portal (Some portal) (set_model_config config m)))) s in
          let s := publish_snapshot s in
          let '(cancel, ts) := token_new (tokens (desk s)) in
          let s := on_daemon (set_connect_cancel (Some cancel)) (on_desk (set_tokens ts) s) in
          (Ok (), spawn_flow {|
             ctx_portal := portal; ctx_gateway_override := gateway_override;
             ctx_config := config; ctx_vpn_env := env; ctx_cancel := cancel |} s)
      end
  end.

Definition disconnect (s : Widget) : Widget :=
  match connect_cancel (daemon s) with
  | Some cancel => cancel_token cancel (on_daemon (set_connect_cancel None) s)
  | None =>
      match vpn_state (model (daemon s)) with
      | VpnState.Connecting _ | VpnState.Connected _ | VpnState.ReconnectRequired _ =>
          spawn_send Disconnect
            (on_daemon (λ d, set_submitted_connect None (set_disconnect_requested true d)) s)
      | _ => s
      end
  end.

Definition restart_submitted_connect (attempt : N) (s : Widget) : Widget :=
  if quitting (daemon s) || disconnect_requested (daemon s) then s
  else match submitted_connect (daemon s) with
  | None => publish_snapshot (on_model (set_last_error
      (Some "The VPN service asked to reconnect, but the previous login is gone")) s)
  | Some request => spawn_send (Connect (with_restart_of (Some attempt) request)) s
  end.

Definition resume_connection (s : Widget) : Widget :=
  if negb (auto_resume (model_config (model (daemon s)))) then s
  else if bool_decide (is_Some (connect_cancel (daemon s))) ||
          negb (is_disconnected (vpn_state (model (daemon s)))) then s
  else match resume_gateway (daemon s) with
  | None => s
  | Some gateway => (start_connect_flow None (Some gateway) s).2
  end.

(** ** The session's expiry *)
Definition on_session_established (s : Widget) : Widget :=
  let s := bump_expiry s in
  match vpn_state (model (daemon s)) with
  | VpnState.Connected connected =>
      match connected_session_info connected with
      | None => s
      | Some session =>
          let s := match admin_logout_message session with
            | Some message => notify Urgency.Critical "GlobalProtect" message
                (toast ToastLevel.Warn "GlobalProtect" message s)
            | None => s
            end in
          match user_expires session with
          | None => s
          | Some _ => spawn_timer (ExpiryWarning (expiry_generation (daemon s))) s
          end
      end
  | _ => s
  end.
(** How long the warning's timer sleeps. *)
Definition expiry_delay (session : SessionInfo) (expires_at : N) : N :=
  let warn_prior := default 600 (prior_secs <$> lifetime_warning session) in
  expires_at - warn_prior - unix_now host.
Definition handle_expiry_warning (generation : N) (s : Widget) : Widget :=
  if negb (generation =? expiry_generation (daemon s)) then s
  else match vpn_state (model (daemon s)) with
  | VpnState.Connected connected =>
      let message := default "The VPN session is about to expire"
        (warning_message <$> (connected_session_info connected ≫= lifetime_warning)) in
      notify Urgency.Normal "GlobalProtect" message (toast ToastLevel.Warn "GlobalProtect" message s)
  | _ => s
  end.

(** ** Events of gpservice *)
(** The reaction to a state before the model takes it; [true] ends the daemon. *)
Definition before_vpn_state (state : VpnState.t) (s : Widget) : bool * Widget :=
  let progress := λ s, bump_watchdog (on_model (λ m, set_last_error None (set_authenticating false m)) s) in
  match state with
  | VpnState.Connecting _ | VpnState.Connected _ => (false, progress s)
  | VpnState.ReconnectRequired request =>
      (false, restart_submitted_connect (rr_attempt request) (progress s))
  | VpnState.Disconnected | VpnState.Failed _ =>
      if quitting (daemon s) then (true, s)
      else
        let failure := match state with VpnState.Failed reason => Some reason | _ => None end in
        let was := vpn_state (model (daemon s)) in
        let s :=
          if disconnect_requested (daemon s)
          then if is_connected was || is_disconnecting was
               then notify Urgency.Low "GlobalProtect disconnected" "" s else s
          else if bool_decide (is_Some failure) || is_connected was
          then alert "GlobalProtect" (default "VPN connection lost" failure) s
          else s in
        (false, on_daemon (set_disconnect_requested false) s)
  | VpnState.Disconnecting => (false, s)
  end.
(** The reaction once the model has taken the state. *)
Definition after_vpn_state (was_connected : bool) (s : Widget) : Widget :=
  match vpn_state (model (daemon s)) with
  | VpnState.Connecting _ | VpnState.ReconnectRequired _ =>
      on_stats (on_connecting (interface_names host)) s
  | VpnState.Connected _ =>
      if was_connected then s
      else
        let since := default (unix_now host) (conn_since <$> conn (model (daemon s))) in
        let interval := N.max (stats_interval_secs (model_config (model (daemon s)))) 1 in
        let s := on_stats (on_connected since interval) s in
        let gateway := default "" (info_name <$> current_gateway (model (daemon s))) in
        on_session_established (notify Urgency.Normal "GlobalProtect connected" gateway s)
  | VpnState.Disconnected => bump_expiry (on_stats stats_stop s)
  | _ => s
  end.
Definition handle_ws_event (event : WsEvent.t) (s : Widget) : bool * Widget :=
  match event with
  | WsEvent.EvVpnEnv env =>
      let s := on_model (λ m, set_vpn_env (Some env) (apply_vpn_state (env_vpn_state env) m)) s in
      let s := publish_snapshot s in
      (false, if auto_connect (model_config (model (daemon s))) &&
                 is_disconnected (vpn_state (model (daemon s)))
              then (start_connect_flow None None s).2 else s)
  | WsEvent.EvVpnState state =>
      let '(over, s) := before_vpn_state state s in
      if over then (true, s)
      else
        let was_connected := is_connected (vpn_state (model (daemon s))) in
        let s := on_model (apply_vpn_state state) s in
        (false, publish_snapshot (after_vpn_state was_connected s))
  | WsEvent.ActiveGui => (false, open_popup s)
  | WsEvent.EvTunnelState _ => (false, s)
  | WsEvent.ResumeConnection => (false, resume_connection s)
  end.
Definition handle_rejection (message : string) (s : Widget) : Widget :=
  let s := on_model (set_authenticating false) (bump_watchdog s) in
  let s := alert "GlobalProtect" message s in
  publish_snapshot (on_model (set_last_error (Some message)) s).
Definition terminated : string := "VPN service terminated unexpectedly".
(** [run] ends with [code]; the last line the clients get is [Bye]. *)
Definition exit_with (code : N) (s : Widget) : Widget :=
  publish_msg Bye (on_desk (set_exited (Some code)) s).
Definition handle_notice (notice : option WsNotice) (s : Widget) : Widget :=
  match notice with
  | None => exit_with 1 s
  | Some (NoticeEvent event) =>
      let '(over, s) := handle_ws_event event s in if (over : bool) then exit_with 0 s else s
  | Some (NoticeRejected message) => handle_rejection message s
  | Some Lost => s
  | Some Gone => exit_with 0 (alert "GlobalProtect" terminated s)
  end.

(** ** Commands of the socket's clients *)
Definition handle_command (msg : ClientMsg) (s : Widget) : bool * Widget :=
  let id := client_msg_id msg in
  match msg with
  | GetStatus _ => (false, ack id (Ok ()) 
      (on_output (λ o, send_line (watch_borrow (snapshot_tx o)) o) s))
  | CmdConnect _ portal gateway =>
      let '(r, s) := start_connect_flow portal gateway s in (false, ack id r s)
  | CmdDisconnect _ => (false, ack id (Ok ()) (disconnect s))
  | Toggle _ =>
      if bool_decide (is_Some (connect_cancel (daemon s))) ||
         connecting_or_connected (vpn_state (model (daemon s)))
      then (false, ack id (Ok ()) (disconnect s))
      else let '(r, s) := start_connect_flow None None s in (false, ack id r s)
  | SubmitOtp _ otp =>
      let d := daemon s in
      let s := on_daemon (set_pending_otp None) s in
      match pending_otp d with
      | Some respond =>
          if bool_decide (respond ∈ otp_waiting (desk s))
          then (false, ack id (Ok ()) (on_desk (λ k,
                 set_otp_waiting (otp_waiting k ∖ {[respond]})
                 (set_otp_answers (otp_answers k ++ [(respond, otp)]) k)) s))
          else (false, ack id (Err "the OTP prompt expired") s)
      | None => (false, ack id (Err "no pending OTP prompt") s)
      end
  | OpenPopup _ => (false, ack id (Ok ()) (open_popup s))
  | CmdQuit _ =>
      let s := ack id (Ok ()) s in
      let s := match connect_cancel (daemon s) with
        | Some cancel => cancel_token cancel (on_daemon (set_connect_cancel None) s)
        | None => s
        end in
      if connecting_or_connected (vpn_state (model (daemon s)))
      then let s := on_daemon (λ d, set_disconnect_requested true (set_quitting true d)) s in
           (false, spawn_timer QuitTimeout (send_ws Disconnect s))
      else (true, s)
  end.

(** ** Messages of the connect flow *)
Definition handle_flow_msg (m : FlowMsg) (s : Widget) : Widget :=
  match m with
  | OtpPrompt message respond =>
      publish_msg (AuthPrompt "otp" message) (on_daemon (set_pending_otp (Some respond)) s)
  | Submitted request =>
      let s := on_daemon (λ d, set_submitted_connect (Some request)
                 (set_resume_gateway (Some (gateway_name (info_gateway (request_info request))))
                 (set_connect_cancel None d))) s in
      let s := bump_watchdog s in
      spawn_timer (ConnectWatchdog (watchdog_generation (daemon s))) s
  | FlowFailed error cancelled =>
      let s := on_daemon (λ d, set_pending_otp None (set_connect_cancel None d)) s in
      let s := on_model (set_authenticating false) s in
      let s := if (cancelled : bool) then s
               else alert "GlobalProtect connection failed" error
                      (on_model (set_last_error (Some error)) s) in
      publish_snapshot s
  end.
Definition handle_watchdog (generation : N) (s : Widget) : Widget :=
  if negb (generation =? watchdog_generation (daemon s)) then s
  else if is_disconnected (vpn_state (model (daemon s))) &&
          bool_decide (connect_cancel (daemon s) = None)
  then publish_snapshot (on_model (λ m, set_last_error
         (Some "The VPN service did not react to the connect request")
         (set_authenticating false m)) s)
  else s.
Definition handle_timer (t : TimerMsg) (s : Widget) : Widget :=
  match t with
  | ConnectWatchdog generation => handle_watchdog generation s
  | ExpiryWarning generation => handle_expiry_warning generation s
  | QuitTimeout => if quitting (daemon s) then exit_with 0 s else s
  end.
Definition handle_stats (v : ConnStats) (s : Widget) : Widget :=
  if is_connected (vpn_state (model (daemon s)))
  then let s := on_model (set_conn (Some v)) s in
       if 0 <? receiver_count host then publish_snapshot s else s
  else s.
End operations.

(** * The system *)
Inductive label :=
  (** the arms of the daemon's [select!] *)
  | RecvNotice (notice : option WsNotice)
  | RecvCommand (msg : option ClientMsg)
  | RecvFlow
  | RecvTimer (i : nat)
  | RecvStats (stats : ConnStats)
  | Signal
  (** the tasks beside it *)
  | FlowPrompts (i : nat) (message : string)
  | FlowGivesUp (respond : N)
  | FlowSends (i : nat) (request : ConnectRequest)
  | FlowSubmits (i : nat)
  | FlowFails (i : nat) (error : string) (cancelled : bool)
  | SendReaches (i : nat).

Definition FLOW_CHANNEL : nat := 16.
Definition send_flow (m : FlowMsg) (k : Desk) : Desk := set_flow_queue (flow_queue k ++ [m]) k.
Definition desk_step (l : label) (k : Desk) : Desk :=
  let room := bool_decide (length (flow_queue k) < FLOW_CHANNEL)%nat in
  match l with
  | FlowPrompts i message =>
      match flows k !! i with
      | Some {| flow_sent := None |} => if room then
          set_otp_next (otp_next k + 1) (set_otp_waiting ({[otp_next k]} ∪ otp_waiting k)
            (send_flow (OtpPrompt message (otp_next k)) k))
        else k
      | _ => k
      end
  | FlowGivesUp respond => set_otp_waiting (otp_waiting k ∖ {[respond]}) k
  | FlowSends i request =>
      match flows k !! i with
      | Some {| flow_ctx := ctx; flow_sent := None |} =>
          set_flows (<[i := {| flow_ctx := ctx; flow_sent := Some request |}]> (flows k))
            (set_requests (requests k ++ [Connect request]) k)
      | _ => k
      end
  | FlowSubmits i =>
      match flows k !! i with
      | Some {| flow_sent := Some request |} =>
          if room then set_flows (delete i (flows k)) (send_flow (Submitted request) k) else k
      | _ => k
      end
  | FlowFails i error cancelled =>
      match flows k !! i with
      | Some {| flow_sent := None |} =>
          if room then set_flows (delete i (flows k)) (send_flow (FlowFailed error cancelled) k)
          else k
      | _ => k
      end
  | SendReaches i =>
      match sending k !! i with
      | Some r => set_sending (delete i (sending k)) (set_requests (requests k ++ [r]) k)
      | None => k
      end
  | _ => k
  end.
Definition daemon_step (host : Host) (l : label) (s : Widget) : Widget :=
  match l with
  | RecvNotice notice => handle_notice host notice s
  | RecvCommand None => exit_with 1 s
  | RecvCommand (Some msg) =>
      let '(over, s) := handle_command host msg s in if (over : bool) then exit_with 0 s else s
  | RecvFlow =>
      match flow_queue (desk s) with
      | m :: ms => handle_flow_msg m (on_desk (set_flow_queue ms) s)
      | [] => s
      end
  | RecvTimer i =>
      match timers (desk s) !! i with
      | Some t => handle_timer t (on_desk (set_timers (delete i (timers (desk s)))) s)
      | None => s
      end
  | RecvStats stats => handle_stats host stats s
  | Signal => exit_with 0 s
  | l => on_desk (desk_step l) s
  end.
Definition widget_step (s : Widget) (hl : Host * label) : Widget :=
  if bool_decide (exited (desk s) = None) then daemon_step hl.1 hl.2 s else s.

Definition daemon_new (c : Config) : Daemon := {|
  model := model_new c; stats := tracker_new; notifier_enabled := config_notifications c;
  connect_cancel := None; pending_otp := None; resume_gateway := None;
  submitted_connect := None; disconnect_requested := false; quitting := false;
  watchdog_generation := 0; expiry_generation := 0 |}.
Definition output_new (line : string) : Output := {|
  snapshot_tx := watch_channel line; broadcasts := []; replies := []; notifications := [];
  popups := 0 |}.
Definition desk_new (ts : TS) (file : result string Config) : Desk := {|
  tokens := ts; flows := []; flow_queue := []; otp_waiting := ∅; otp_answers := [];
  otp_next := 0; timers := []; sending := []; requests := []; config_file := file; exited := None |}.
(** [None]: the first snapshot could not be written. *)
Definition widget_new (ts : TS) (c : Config) (file : result string Config) : option Widget :=
  line ← to_vec (Status (model_snapshot (model_new c)));
  Some {| daemon := daemon_new c; desk := desk_new ts file; output := output_new line |}.

(** * Theorems *)

(** ** What a step does to the connect flows *)
Definition terminal (m : FlowMsg) : bool := match m with OtpPrompt _ _ => false | _ => true end.
(** The flows that run or have not been told of: their tasks and their last messages. *)
Definition unfinished (s : Widget) : nat :=
  length (flows (desk s)) + length (filter (λ m, terminal m = true) (flow_queue (desk s))).
Definition flow_token (f : FlowTask) : T := ctx_cancel (flow_ctx f).

Definition same_flows (s s' : Widget) : Prop :=
  connect_cancel (daemon s') = connect_cancel (daemon s) ∧ flows (desk s') = flows (desk s) ∧
  flow_queue (desk s') = flow_queue (desk s) ∧ tokens (desk s') = tokens (desk s).
Inductive flow_effect (s s' : Widget) : Prop :=
  | effect_none : same_flows s s' → flow_effect s s'
  | effect_start c :
      connect_cancel (daemon s) = None →
      connect_cancel (daemon s') = Some (ctx_cancel c) →
      token_new (tokens (desk s)) = (ctx_cancel c, tokens (desk s')) →
      flows (desk s') = flows (desk s) ++ [{| flow_ctx := c; flow_sent := None |}] →
      flow_queue (desk s') = flow_queue (desk s) → flow_effect s s'
  | effect_cancel t :
      connect_cancel (daemon s) = Some t → connect_cancel (daemon s') = None →
      tokens (desk s') = token_cancel t (tokens (desk s)) →
      flows (desk s') = flows (desk s) → flow_queue (desk s') = flow_queue (desk s) →
      flow_effect s s'
  | effect_recv m :
      flow_queue (desk s) = m :: flow_queue (desk s') →
      connect_cancel (daemon s') = (if terminal m then None else connect_cancel (daemon s)) →
      flows (desk s') = flows (desk s) → tokens (desk s') = tokens (desk s) → flow_effect s s'
  | effect_task i f ms :
      connect_cancel (daemon s') = connect_cancel (daemon s) →
      tokens (desk s') = tokens (desk s) → flows (desk s) !! i = Some f →
      flow_queue (desk s') = flow_queue (desk s) ++ ms →
      match ms with
      | [] => ∃ r, flows (desk s') = <[i := {| flow_ctx := flow_ctx f; flow_sent := r |}]> (flows (desk s))
      | [m] => flows (desk s') = if terminal m then delete i (flows (desk s)) else flows (desk s)
      | _ => False
      end → flow_effect s s'.

Lemma same_flows_refl s : same_flows s s.
Proof. done. Qed.
#[local] Hint Extern 0 (same_flows _ _) => repeat split; reflexivity : core.
Lemma same_flows_trans a b c : same_flows a b → same_flows b c → same_flows a c.
Proof. intros (?&?&?&?) (?&?&?&?). repeat split; congruence. Qed.
Lemma flow_effect_around s0 s s' s1 :
  same_flows s0 s → flow_effect s s' → same_flows s' s1 → flow_effect s0 s1.
Proof.
  intros (Ec & Ef & Eq & Et) E (Ec' & Ef' & Eq' & Et').
  destruct E as [(?&?&?&?)|c|t|m|i f ms ?? Hi ? Hms].
  - apply effect_none. repeat split; congruence.
  - eapply (effect_start _ _ c); congruence.
  - eapply (effect_cancel _ _ t); congruence.
  - eapply (effect_recv _ _ m); [congruence| |congruence..]. destruct (terminal m); congruence.
  - rewrite Ef in Hi, Hms. rewrite <- Ef' in Hms.
    eapply (effect_task _ _ i f ms); [congruence..|done].
Qed.
Lemma flow_effect_after s s' s1 : flow_effect s s' → same_flows s' s1 → flow_effect s s1.
Proof. by apply flow_effect_around. Qed.
Lemma flow_effect_before s0 s s' : same_flows s0 s → flow_effect s s' → flow_effect s0 s'.
Proof. intros. eapply flow_effect_around; eauto. Qed.

Lemma start_connect_flow_effect h p g s : flow_effect s (start_connect_flow h p g s).2.
Proof.
  unfold start_connect_flow. case_bool_decide as Hc; [by apply effect_none|].
  destruct (negb _); [by apply effect_none|].
  destruct (vpn_env _); [|by apply effect_none].
  match goal with |- context [let '(_, _) := ?x in _] => set (chosen := x) end.
  assert (same_flows s chosen.2) as Hs.
  { subst chosen. destruct p; [|done]. destruct (_ && _); [|done]. by destruct (save_error h). }
  destruct chosen as [c s']. cbn in Hs. destruct (config_portal c); [|by apply effect_none].
  destruct (token_new _) as [t ts] eqn:Et. destruct Hs as (Ec & Ef & Eq & Etk).
  match goal with |- context [spawn_flow ?c] => eapply (effect_start _ _ c) end; cbn; try done.
  - by apply eq_None_not_Some.
  - by rewrite <- Etk.
  - by rewrite Ef.
Qed.
Lemma disconnect_effect s : flow_effect s (disconnect s).
Proof.
  unfold disconnect. destruct (connect_cancel _) eqn:E.
  - by eapply effect_cancel.
  - apply effect_none. by destruct (vpn_state _).
Qed.
Lemma restart_flows a s : same_flows s (restart_submitted_connect a s).
Proof. unfold restart_submitted_connect. destruct (_ || _); [done|]. by destruct (submitted_connect _). Qed.
Lemma established_flows s : same_flows s (on_session_established s).
Proof.
  unfold on_session_established. cbn. destruct (vpn_state _); try done.
  destruct (connected_session_info _) as [i|]; [|done].
  by destruct (admin_logout_message i), (user_expires i).
Qed.
Lemma before_vpn_state_flows st s : same_flows s (before_vpn_state st s).2.
Proof.
  destruct st; [eapply same_flows_trans; [|apply restart_flows]; done|..]; try done.
  all: cbn; destruct (quitting _); [done|]; destruct (disconnect_requested _).
  all: repeat (case_match; try done); done.
Qed.
Lemma after_vpn_state_flows h c s : same_flows s (after_vpn_state h c s).
Proof.
  unfold after_vpn_state. destruct (vpn_state _); try done. destruct c; [done|].
  eapply same_flows_trans; [|apply established_flows]. done.
Qed.
Lemma ws_event_effect h e s : flow_effect s (handle_ws_event h e s).2.
Proof.
  destruct e as [|env|st| |]; cbn; try by apply effect_none.
  - destruct (_ && _); [|by apply effect_none].
    eapply flow_effect_before; [|apply start_connect_flow_effect]. done.
  - apply effect_none. pose proof (before_vpn_state_flows st s) as Hb.
    destruct (before_vpn_state st s) as [[] s']; [done|]. cbn in *.
    eapply same_flows_trans; [exact Hb|].
    eapply same_flows_trans; [|apply (after_vpn_state_flows h (is_connected (vpn_state (model (daemon s')))))].
    done.
  - unfold resume_connection. destruct (negb _); [by apply effect_none|].
    destruct (_ || _); [by apply effect_none|]. destruct (resume_gateway _); [|by apply effect_none].
    apply start_connect_flow_effect.
Qed.
Lemma exit_flows n s : same_flows s (exit_with n s).
Proof. done. Qed.
Lemma handle_notice_effect h n s : flow_effect s (handle_notice h n s).
Proof.
  destruct n as [[e|m| |]|]; try by apply effect_none.
  cbn. pose proof (ws_event_effect h e s) as E. destruct (handle_ws_event h e s) as [[] s']; [|done].
  by eapply flow_effect_after.
Qed.
Lemma command_effect h m s : flow_effect s (handle_command h m s).2.
Proof.
  destruct m as [id|id p g|id|id|id otp|id|id]; cbn; try by apply effect_none.
  - pose proof (start_connect_flow_effect h p g s). destruct (start_connect_flow _ _ _ _).
    by eapply flow_effect_after.
  - by eapply flow_effect_after; [apply disconnect_effect|].
  - destruct (_ || _); [by eapply flow_effect_after; [apply disconnect_effect|]|].
    pose proof (start_connect_flow_effect h None None s). destruct (start_connect_flow _ _ _ _).
    by eapply flow_effect_after.
  - destruct (pending_otp _); [case_bool_decide|]; by apply effect_none.
  - destruct (connect_cancel _) eqn:E; cbn.
    + destruct (connecting_or_connected _); by eapply effect_cancel.
    + destruct (connecting_or_connected _); by apply effect_none.
Qed.
Lemma flow_msg_effect m ms s : flow_queue (desk s) = m :: ms →
  flow_effect s (handle_flow_msg m (on_desk (set_flow_queue ms) s)).
Proof.
  intros E. destruct m as [| |e []]; by eapply effect_recv.
Qed.
Lemma desk_step_effect l s : flow_effect s (on_desk (desk_step l) s).
Proof.
  destruct l as [| | | | | |i m|r|i r|i|i e c|i]; try by apply effect_none.
  - unfold on_desk, desk_step. destruct (flows (desk s) !! i) as [[c []]|] eqn:E; [by apply effect_none| |by apply effect_none].
    case_bool_decide; [|by apply effect_none]. by eapply effect_task.
  - unfold on_desk, desk_step. destruct (flows (desk s) !! i) as [[c []]|] eqn:E; [by apply effect_none| |by apply effect_none].
    eapply (effect_task _ _ i _ []); cbn; eauto. by rewrite app_nil_r.
  - unfold on_desk, desk_step. destruct (flows (desk s) !! i) as [[c []]|] eqn:E; [|by apply effect_none|by apply effect_none].
    case_bool_decide; [|by apply effect_none]. by eapply effect_task.
  - unfold on_desk, desk_step. destruct (flows (desk s) !! i) as [[c' []]|] eqn:E; [by apply effect_none| |by apply effect_none].
    case_bool_decide; [|by apply effect_none]. by eapply effect_task.
  - unfold on_desk, desk_step. destruct (sending (desk s) !! i); by apply effect_none.
Qed.
Lemma handle_timer_flows t s : same_flows s (handle_timer t s).
Proof.
  destruct t; cbn [handle_timer].
  - unfold handle_watchdog. destruct (negb _); [done|]. by destruct (_ && _).
  - unfold handle_expiry_warning. destruct (negb _); [done|]. by destruct (vpn_state _).
  - by destruct (quitting _).
Qed.
Lemma widget_step_effect s hl : flow_effect s (widget_step s hl).
Proof.
  unfold widget_step. case_bool_decide; [|by apply effect_none]. destruct hl as [h l]. cbn.
  destruct l; try apply desk_step_effect; cbn.
  - apply handle_notice_effect.
  - destruct msg as [m|]; [|by apply effect_none]. pose proof (command_effect h m s).
    destruct (handle_command h m s) as [[] s']; [|done]. by eapply flow_effect_after.
  - destruct (flow_queue _) eqn:E; [by apply effect_none|]. by apply flow_msg_effect.
  - destruct (timers _ !! i) as [t|]; [|by apply effect_none].
    apply effect_none. eapply same_flows_trans; [|apply handle_timer_flows]. done.
  - apply effect_none. unfold handle_stats. destruct (is_connected _); [|done]. by destruct (0 <? _).
  - by apply effect_none.
Qed.

(** ** One connect flow at a time

    A flow that was cancelled still has to stop. [patiently] says that no flow starts
    while a cancelled one has not been heard of. *)
Definition starts_flow (s : Widget) (hl : Host * label) : Prop :=
  (length (flows (desk s)) < length (flows (desk (widget_step s hl))))%nat.
Definition patient (s : Widget) (hl : Host * label) : Prop :=
  connect_cancel (daemon s) = None → unfinished s ≠ 0%nat → ¬ starts_flow s hl.
Fixpoint patiently (s : Widget) (ls : list (Host * label)) : Prop :=
  match ls with
  | [] => True
  | hl :: ls => patient s hl ∧ patiently (widget_step s hl) ls
  end.

Section single_flow.
Context `{!CancellationLaws TS T}.

Record single (s : Widget) : Prop := {
  single_bound : (unfinished s ≤ 1)%nat;
  single_live f : f ∈ flows (desk s) → token_live (flow_token f) (tokens (desk s));
  single_handle t : connect_cancel (daemon s) = Some t →
    token_live t (tokens (desk s)) ∧ token_cancelled t (tokens (desk s)) = false ∧
    unfinished s = 1%nat ∧ ∀ f, f ∈ flows (desk s) → flow_token f = t;
  single_cancelled f : connect_cancel (daemon s) = None → f ∈ flows (desk s) →
    token_cancelled (flow_token f) (tokens (desk s)) = true;
}.

Lemma unfinished_same s s' : same_flows s s' → unfinished s' = unfinished s.
Proof. intros (_ & Ef & Eq & _). unfold unfinished. by rewrite Ef, Eq. Qed.
Lemma unfinished_recv s s' m :
  flow_queue (desk s) = m :: flow_queue (desk s') → flows (desk s') = flows (desk s) →
  (unfinished s = unfinished s' + if terminal m then 1 else 0)%nat.
Proof.
  intros Eq Ef. unfold unfinished. rewrite Eq, Ef, filter_cons.
  destruct (terminal m) eqn:E; case_decide; cbn; try congruence; lia.
Qed.
Lemma flows_task s s' i f ms :
  flows (desk s) !! i = Some f → flow_queue (desk s') = flow_queue (desk s) ++ ms →
  match ms with
  | [] => ∃ r, flows (desk s') = <[i := {| flow_ctx := flow_ctx f; flow_sent := r |}]> (flows (desk s))
  | [m] => flows (desk s') = if terminal m then delete i (flows (desk s)) else flows (desk s)
  | _ => False
  end →
  unfinished s' = unfinished s ∧
  ∀ g, g ∈ flows (desk s') → ∃ g', g' ∈ flows (desk s) ∧ flow_token g = flow_token g'.
Proof.
  intros Hi Eq Hms. unfold unfinished. rewrite Eq, list.filter_app, length_app.
  assert (f ∈ flows (desk s)) as Hf by by eapply list_elem_of_lookup_2.
  destruct ms as [|m [|]]; [| |done].
  - destruct Hms as [r ->]. rewrite length_insert. split; [cbn; lia|].
    intros g Hg. apply list_elem_of_lookup in Hg as [j Hg].
    apply list_lookup_insert_Some in Hg as [(<- & <- & _)|[_ Hg]]; [by exists f|].
    exists g. split; [by eapply list_elem_of_lookup_2|done].
  - rewrite Hms, filter_cons. pose proof (length_delete (flows (desk s)) i (ltac:(by eexists))).
    pose proof (lookup_lt_Some _ _ _ Hi).
    destruct (terminal m) eqn:E; case_decide; cbn; try congruence; (split; [lia|]); [|eauto].
    intros g Hg. exists g. split; [|done]. by eapply list_elem_of_delete_inv.
Qed.

Lemma single_step s hl : single s → patient s hl → single (widget_step s hl).
Proof.
  intros HI Hp. pose proof (widget_step_effect s hl) as E. unfold patient, starts_flow in Hp.
  set (s' := widget_step s hl) in *. destruct HI as [Hb Hl Hh Hc].
  destruct E as [Hs|c Ec Ec' Et Ef Eq|t Ec Ec' Et Ef Eq|m Eq Ec Ef Et|i f ms Ec Et Hi Eq Hms].
  - pose proof (unfinished_same _ _ Hs) as Eu. destruct Hs as (Ec & Ef & Eq & Et).
    split; rewrite ?Ec, ?Ef, ?Et, ?Eu; auto.
  - rewrite Ef, length_app in Hp. cbn in Hp.
    assert (unfinished s = 0%nat) as Hu by (destruct (unfinished s); [done|]; exfalso; apply Hp; lia || done).
    pose proof (token_new_live (tokens (desk s))) as Tl.
    pose proof (token_new_uncancelled (tokens (desk s))) as Tu. rewrite Et in Tl, Tu. cbn in Tl, Tu.
    assert (flows (desk s) = []) as E0 by (apply nil_length_inv; unfold unfinished in Hu; lia).
    assert (unfinished s' = 1%nat) as Hu' by (unfold unfinished in *; rewrite Ef, Eq, E0 in *; cbn in *; lia).
    rewrite E0 in Ef. cbn in Ef.
    split; rewrite ?Ec', ?Ef, ?Hu'; [done|..].
    + intros f ->%list_elem_of_singleton. done.
    + intros t [= <-]. repeat split; try done. by intros f ->%list_elem_of_singleton.
    + done.
  - assert (unfinished s' = unfinished s) as Hu by (unfold unfinished; by rewrite Ef, Eq).
    destruct (Hh t Ec) as (Tl & Tu & _ & Hf).
    split; rewrite ?Ec', ?Ef, ?Hu, ?Et; [done| |done|].
    + intros f Hin. by apply token_cancel_live, Hl.
    + intros f _ Hin. rewrite (Hf f Hin). by apply token_cancel_self.
  - pose proof (unfinished_recv s s' m Eq Ef) as Hu. destruct (terminal m) eqn:Em.
    + assert (flows (desk s) = []) as E0 by (apply nil_length_inv; unfold unfinished in *; rewrite Ef in *; lia).
      split; rewrite ?Ec, ?Ef, ?E0; try (intros ? ?%elem_of_nil; done); [lia|done|].
      by intros f _ ?%elem_of_nil.
    + rewrite Nat.add_0_r in Hu. split; rewrite ?Ec, ?Ef, ?Et, <- ?Hu; auto.
  - destruct (flows_task s s' i f ms Hi Eq Hms) as [Hu Hg].
    split; rewrite ?Ec, ?Et, ?Hu; [done|..].
    + intros g (g' & Hin & ->)%Hg. auto.
    + intros t Ht. destruct (Hh t Ht) as (? & ? & ? & Hf). repeat split; try done.
      intros g (g' & Hin & ->)%Hg. auto.
    + intros g Hn (g' & Hin & ->)%Hg. auto.
Qed.
Lemma single_runs ls : ∀ s, single s → patiently s ls → single (runs widget_step s ls).
Proof.
  induction ls as [|hl ls IH]; intros s HI; [done|]. intros [Hp Hps]. apply IH; [|done].
  by apply single_step.
Qed.
Lemma single_new ts c file s : widget_new ts c file = Some s → single s.
Proof.
  unfold widget_new. intros (line & _ & [= <-])%bind_Some. by split; cbn; [lia|intros ? ?%elem_of_nil|..|intros ? _ ?%elem_of_nil].
Qed.

(** While no flow is started before a cancelled one has stopped, the daemon runs at
    most one connect flow, and a flow that was not cancelled is the one its handle
    cancels: Disconnect, Toggle and Quit reach it. *)
Lemma one_connect_flow ts c file s ls :
  widget_new ts c file = Some s → patiently s ls →
  let s' := runs widget_step s ls in
  (length (flows (desk s')) ≤ 1)%nat ∧
  ∀ f, f ∈ flows (desk s') → token_cancelled (flow_token f) (tokens (desk s')) = false →
       connect_cancel (daemon s') = Some (flow_token f).
Proof.
  intros Hs Hp. pose proof (single_runs ls s (single_new _ _ _ _ Hs) Hp) as [Hb _ Hh Hc].
  split; [unfold unfinished in Hb; lia|]. intros f Hf Hn.
  destruct (connect_cancel _) as [t|] eqn:Et.
  - destruct (Hh t eq_refl) as (_ & _ & _ & Ht). by rewrite (Ht f Hf).
  - by rewrite (Hc f eq_refl Hf) in Hn.
Qed.
End single_flow.

(** ** Timers

    A generation is left behind for as long as fewer than [2 ^ 64 - 1] steps follow. *)
Definition generations (s : Widget) : N * N :=
  (watchdog_generation (daemon s), expiry_generation (daemon s)).
Definition ticked (g g' : N) : Prop := g' = g ∨ g' = next g.
Definition generations_tick (s s' : Widget) : Prop :=
  ticked (generations s).1 (generations s').1 ∧ ticked (generations s).2 (generations s').2.
#[local] Hint Extern 0 (ticked _ _) => (left; reflexivity) : core.
#[local] Hint Extern 1 (ticked _ _) => (right; reflexivity) : core.
#[local] Hint Extern 0 (generations_tick _ _) => (split; auto; fail) : core.

Lemma start_generations h p g s : generations (start_connect_flow h p g s).2 = generations s.
Proof.
  unfold start_connect_flow. case_bool_decide; [done|]. destruct (negb _); [done|].
  destruct (vpn_env _); [|done].
  match goal with |- context [let '(_, _) := ?x in _] => set (chosen := x) end.
  assert (daemon chosen.2 = daemon s) as Hs.
  { subst chosen. destruct p; [|done]. destruct (_ && _); [|done]. by destruct (save_error h). }
  destruct chosen as [c s']. cbn in Hs. destruct (config_portal c); [|unfold generations; cbn; by rewrite Hs].
  destruct (token_new _) as [t ts] eqn:Et. unfold generations; cbn. by rewrite Hs.
Qed.
Lemma disconnect_generations s : generations (disconnect s) = generations s.
Proof. unfold disconnect. destruct (connect_cancel _); [done|]. by destruct (vpn_state _). Qed.
Lemma restart_generations a s : generations (restart_submitted_connect a s) = generations s.
Proof. unfold restart_submitted_connect. destruct (_ || _); [done|]. by destruct (submitted_connect _). Qed.
Lemma before_generations st s :
  expiry_generation (daemon (before_vpn_state st s).2) = expiry_generation (daemon s) ∧
  watchdog_generation (daemon (before_vpn_state st s).2) =
    match st with
    | VpnState.Connecting _ | VpnState.Connected _ | VpnState.ReconnectRequired _ =>
        next (watchdog_generation (daemon s))
    | _ => watchdog_generation (daemon s)
    end.
Proof.
  destruct st; try done; [pose proof (restart_generations) as Hr; cbn; split|..].
  - injection (Hr (rr_attempt r) (bump_watchdog (on_model (λ m, set_last_error None (set_authenticating false m)) s))) as ? He.
    exact He.
  - injection (Hr (rr_attempt r) (bump_watchdog (on_model (λ m, set_last_error None (set_authenticating false m)) s))) as Hw ?.
    exact Hw.
  - cbn. destruct (quitting _); [done|]. destruct (disconnect_requested _); repeat (case_match; try done); done.
  - cbn. destruct (quitting _); [done|]. destruct (disconnect_requested _); repeat (case_match; try done); done.
Qed.
Lemma after_generations h c s :
  watchdog_generation (daemon (after_vpn_state h c s)) = watchdog_generation (daemon s) ∧
  ticked (expiry_generation (daemon s)) (expiry_generation (daemon (after_vpn_state h c s))) ∧
  (vpn_state (model (daemon s)) = VpnState.Disconnected ∨
   c = false ∧ is_connected (vpn_state (model (daemon s))) = true →
   expiry_generation (daemon (after_vpn_state h c s)) = next (expiry_generation (daemon s))).
Proof.
  unfold after_vpn_state. destruct (vpn_state (model (daemon s))) eqn:E; cbn; try naive_solver auto.
  destruct c; [naive_solver auto|]. unfold on_session_established. cbn. rewrite E.
  destruct (connected_session_info _) as [i|]; [|naive_solver auto].
  destruct (admin_logout_message i), (user_expires i); naive_solver auto.
Qed.
Lemma command_generations h m s : generations (handle_command h m s).2 = generations s.
Proof.
  destruct m as [id|id p g|id|id|id otp|id|id]; cbn; try done.
  - pose proof (start_generations h p g s). by destruct (start_connect_flow _ _ _ _).
  - apply disconnect_generations.
  - destruct (_ || _); [apply disconnect_generations|].
    pose proof (start_generations h None None s). by destruct (start_connect_flow _ _ _ _).
  - destruct (pending_otp _); [|done]. by case_bool_decide.
  - destruct (connect_cancel _); cbn; by destruct (connecting_or_connected _).
Qed.
Lemma timer_generations t s : generations (handle_timer t s) = generations s.
Proof.
  destruct t; cbn [handle_timer].
  - unfold handle_watchdog. destruct (negb _); [done|]. by destruct (_ && _).
  - unfold handle_expiry_warning. destruct (negb _); [done|]. by destruct (vpn_state _).
  - by destruct (quitting _).
Qed.
Lemma same_generations s s' : generations s' = generations s → generations_tick s s'.
Proof. intros E. unfold generations_tick. rewrite E. auto. Qed.
Lemma event_generations h e s : generations_tick s (handle_ws_event h e s).2.
Proof.
  destruct e as [|env|st| |]; cbn; try done.
  - apply same_generations. destruct (_ && _); [|done].
    by etrans; [apply start_generations|].
  - pose proof (before_generations st s) as [Be Bw].
    destruct (before_vpn_state st s) as [[] s'] eqn:E; cbn in *.
    + split; cbn; [rewrite Bw; destruct st|rewrite Be]; auto.
    + set (c := is_connected _). set (s1 := on_model _ s').
      destruct (after_generations h c s1) as (Aw & Ae & _). split; cbn.
      * rewrite Aw. subst s1. cbn. rewrite Bw. destruct st; auto.
      * subst s1. cbn in Ae. by rewrite <- Be.
  - apply same_generations. unfold resume_connection. destruct (negb _); [done|].
    destruct (_ || _); [done|]. destruct (resume_gateway _); [|done]. apply start_generations.
Qed.
Lemma step_generations s hl : generations_tick s (widget_step s hl).
Proof.
  unfold widget_step. case_bool_decide; [|done]. destruct hl as [h l]. destruct l; cbn; try done.
  - destruct notice as [[e|m| |]|]; cbn; try done.
    pose proof (event_generations h e s) as E. destruct (handle_ws_event h e s) as [[] s']; done.
  - destruct msg as [m|]; [|done]. pose proof (command_generations h m s) as E.
    destruct (handle_command h m s) as [[] s']; apply same_generations; done.
  - destruct (flow_queue _) as [|[| |? []] ?]; done.
  - destruct (timers _ !! i); [|done]. apply same_generations. by etrans; [apply timer_generations|].
  - apply same_generations. unfold handle_stats. destruct (is_connected _); [|done]. by destruct (0 <? _).
Qed.

(** Fewer than [2 ^ 64] increments lead away from a generation. *)
Definition ahead (g g' k : N) : Prop := g' = cast u64_max (g + k).
Lemma ticked_ahead g g1 g2 k : ahead g g1 k → ticked g1 g2 → ahead g g2 k ∨ ahead g g2 (k + 1).
Proof.
  unfold ahead. intros -> [->| ->]; [by left|right]. unfold next, cast.
  rewrite N.Div0.add_mod_idemp_l. by rewrite N.add_assoc.
Qed.
Lemma ahead_moved g g' k : g ≤ u64_max → 0 < k ≤ u64_max → ahead g g' k → g' ≠ g.
Proof.
  unfold ahead, cast. intros Hg Hk -> E.
  destruct (N.lt_ge_cases (g + k) (u64_max + 1)) as [Hl|Hl].
  - rewrite N.mod_small in E by done. lia.
  - replace (g + k) with (g + k - (u64_max + 1) + 1 * (u64_max + 1)) in E by lia.
    rewrite N.Div0.mod_add, N.mod_small in E; lia.
Qed.
Lemma runs_ahead (gen : Widget → N) (Hgen : ∀ s hl, ticked (gen s) (gen (widget_step s hl))) ls :
  ∀ g s k, ahead g (gen s) k →
  ∃ k', k ≤ k' ≤ k + N.of_nat (length ls) ∧ ahead g (gen (runs widget_step s ls)) k'.
Proof.
  induction ls as [|hl ls IH]; intros g s k Hk; [exists k; split; [cbn; lia|done]|].
  cbn [length runs fold_left].
  destruct (ticked_ahead g (gen s) _ k Hk (Hgen s hl)) as [Ha|Ha].
  - destruct (IH g _ _ Ha) as (k' & ? & ?). exists k'. split; [lia|done].
  - destruct (IH g _ _ Ha) as (k' & ? & ?). exists k'. split; [lia|done].
Qed.
Lemma left_behind (gen : Widget → N) (Hgen : ∀ s hl, ticked (gen s) (gen (widget_step s hl))) s hl ls :
  gen s ≤ u64_max → gen (widget_step s hl) = next (gen s) → N.of_nat (length ls) < u64_max →
  gen (runs widget_step (widget_step s hl) ls) ≠ gen s.
Proof.
  intros Hg Hn Hl. destruct (runs_ahead gen Hgen ls (gen s) (widget_step s hl) 1) as (k & Hk & Ha).
  - by rewrite Hn.
  - eapply ahead_moved; [done| |exact Ha]. lia.
Qed.

(** What disarms the watchdog, and what the warning of an expiry. *)
Definition reaction (n : WsNotice) : bool :=
  match n with
  | NoticeRejected _ => true
  | NoticeEvent (WsEvent.EvVpnState st) =>
      match st with
      | VpnState.Connecting _ | VpnState.Connected _ | VpnState.ReconnectRequired _ => true
      | _ => false
      end
  | _ => false
  end.
Definition session_over (s : Widget) (n : WsNotice) : bool :=
  match n with
  | NoticeEvent (WsEvent.EvVpnState st) =>
      match st with
      | VpnState.Disconnected | VpnState.Failed _ => negb (quitting (daemon s))
      | VpnState.Connected _ => negb (is_connected (vpn_state (model (daemon s))))
      | _ => false
      end
  | _ => false
  end.
Lemma reaction_bumps h n s : reaction n = true →
  watchdog_generation (daemon (handle_notice h (Some n) s)) = next (watchdog_generation (daemon s)).
Proof.
  destruct n as [e|m| |]; cbn; try done. destruct e as [| |st| |]; cbn; try done. intros Hr.
  pose proof (before_generations st s) as [_ Bw].
  destruct (before_vpn_state st s) as [b s'] eqn:E.
  assert (b = false) as -> by (destruct st; cbn in E; congruence). cbn in *.
  set (s1 := on_model _ s'). destruct (after_generations h (is_connected (vpn_state (model (daemon s')))) s1) as (Aw & _).
  rewrite Aw. subst s1. cbn. rewrite Bw. by destruct st.
Qed.
Lemma before_vpn_state_model st s : quitting (daemon s) = false ∨ (∃ c, st = VpnState.Connected c) →
  (before_vpn_state st s).1 = false ∧
  vpn_state (model (daemon (before_vpn_state st s).2)) = vpn_state (model (daemon s)).
Proof.
  intros Hq. destruct st; try done; cbn.
  - unfold restart_submitted_connect. cbn. destruct (_ || _); [done|]. by destruct (submitted_connect _).
  - destruct (quitting _); [naive_solver|]. destruct (disconnect_requested _); repeat (case_match; try done); done.
  - destruct (quitting _); [naive_solver|]. destruct (disconnect_requested _); repeat (case_match; try done); done.
Qed.
Lemma session_over_bumps h n s : session_over s n = true →
  expiry_generation (daemon (handle_notice h (Some n) s)) = next (expiry_generation (daemon s)).
Proof.
  destruct n as [e|m| |]; cbn; try done. destruct e as [| |st| |]; cbn; try done. intros Hr.
  pose proof (before_generations st s) as [Be _].
  destruct (before_vpn_state_model st s) as [Eb Em].
  { destruct st; try done; [left|left|by right; eexists]; by apply negb_true_iff. }
  destruct (before_vpn_state st s) as [b s']. cbn in *. subst b.
  set (s1 := on_model _ s'). destruct (after_generations h (is_connected (vpn_state (model (daemon s')))) s1) as (_ & _ & Ae).
  cbn. rewrite Ae; [by subst s1; cbn; rewrite Be|]. rewrite Em. subst s1. cbn.
  rewrite apply_vpn_state_state. destruct st; try done; [by left|by left|right].
  split; [by apply negb_true_iff|done].
Qed.

(** Once gpservice showed progress or refused the request, the watchdog armed
    before does nothing when it fires, and once the session ended or was replaced
    neither does its expiry warning, whatever happens in between. *)
Lemma stale_timers_ignored s h n ls :
  exited (desk s) = None → watchdog_generation (daemon s) ≤ u64_max →
  expiry_generation (daemon s) ≤ u64_max → N.of_nat (length ls) < u64_max →
  let s' := runs widget_step s ((h, RecvNotice (Some n)) :: ls) in
  (reaction n = true → handle_timer (ConnectWatchdog (watchdog_generation (daemon s))) s' = s') ∧
  (session_over s n = true → handle_timer (ExpiryWarning (expiry_generation (daemon s))) s' = s').
Proof.
  intros He Hw Hx Hl. cbn [runs fold_left]. set (hl := (h, _)).
  assert (widget_step s hl = handle_notice h (Some n) s) as Es
    by (unfold widget_step; by rewrite bool_decide_eq_true_2).
  pose proof (λ s hl, proj1 (step_generations s hl)) as Gw.
  pose proof (λ s hl, proj2 (step_generations s hl)) as Gx.
  split; intros Hn; cbn [handle_timer].
  - unfold handle_watchdog. rewrite (proj2 (N.eqb_neq _ _)); [done|]. apply not_eq_sym.
    apply (left_behind (λ s, watchdog_generation (daemon s)) Gw s hl ls); [done| |done].
    rewrite Es. by apply reaction_bumps.
  - unfold handle_expiry_warning. rewrite (proj2 (N.eqb_neq _ _)); [done|]. apply not_eq_sym.
    apply (left_behind (λ s, expiry_generation (daemon s)) Gx s hl ls); [done| |done].
    rewrite Es. by apply session_over_bumps.
Qed.

(** ** The published snapshot *)
Section published.
Context `{!WatchLaws W}.
(** serde_json writes every message. *)
Hypothesis serializes : ∀ m : ServerMsg, is_Some (to_vec m).

Definition has_receiver (s : Widget) : Prop := watch_receivers (snapshot_tx (output s)) ≠ 0%nat.
Definition current (s : Widget) : Prop :=
  has_receiver s ∧
  to_vec (Status (model_snapshot (model (daemon s)))) = Some (watch_borrow (snapshot_tx (output s))).
Definition same_view (s s' : Widget) : Prop :=
  model_snapshot (model (daemon s')) = model_snapshot (model (daemon s)) ∧
  snapshot_tx (output s') = snapshot_tx (output s).
#[local] Hint Extern 0 (same_view _ _) => (split; reflexivity) : core.

Lemma same_view_trans a b c : same_view a b → same_view b c → same_view a c.
Proof. intros [? ?] [? ?]. split; congruence. Qed.
Lemma current_same s s' : same_view s s' → current s → current s'.
Proof. unfold current, has_receiver. by intros [-> ->]. Qed.
Lemma publish_current s : has_receiver s → current (publish_snapshot s).
Proof.
  unfold current, has_receiver, publish_snapshot. intros Hr. cbn.
  destruct (serializes (Status (model_snapshot (model (daemon s))))) as [line E]. rewrite E. cbn.
  rewrite watch_receivers_send, watch_borrow_send, decide_False by done. done.
Qed.
Lemma publish_msg_view m s : same_view s (publish_msg m s).
Proof. unfold publish_msg. split; cbn; [done|]. by destruct (to_vec m). Qed.
Lemma alert_view t m s : same_view s (alert t m s).
Proof.
  eapply same_view_trans; [apply publish_msg_view|]. split; cbn; [done|]. by case_match.
Qed.
Lemma notify_view u t m s : same_view s (notify u t m s).
Proof. split; cbn; [done|]. by destruct (notifier_enabled _). Qed.
Lemma ack_view id r s : same_view s (ack id r s).
Proof. split; cbn; [done|]. destruct id; [|done]. by destruct (to_vec _). Qed.
Lemma exit_view n s : same_view s (exit_with n s).
Proof. by eapply same_view_trans; [|apply publish_msg_view]. Qed.
Lemma view_receiver s s' : snapshot_tx (output s') = snapshot_tx (output s) → has_receiver s → has_receiver s'.
Proof. unfold has_receiver. by intros ->. Qed.
Lemma start_current h p g s : current s → current (start_connect_flow h p g s).2.
Proof.
  intros Hc. unfold start_connect_flow. case_bool_decide; [done|]. destruct (negb _); [done|].
  destruct (vpn_env _); [|done].
  match goal with |- context [let '(_, _) := ?x in _] => set (chosen := x) end.
  assert (same_view s chosen.2) as Hs.
  { subst chosen. destruct p; [|done]. destruct (_ && _); [|done]. by destruct (save_error h). }
  destruct chosen as [c s']. cbn in Hs. apply (current_same _ _ Hs) in Hc as [Hr Hc].
  destruct (config_portal c); [|by split].
  match goal with |- context [publish_snapshot ?x] => pose proof (publish_current x Hr) as Hp; set (s1 := publish_snapshot x) in * end.
  destruct (token_new _). by eapply current_same; [|exact Hp].
Qed.
Lemma restart_current a s : current s → current (restart_submitted_connect a s).
Proof.
  intros Hc. unfold restart_submitted_connect. destruct (_ || _); [done|].
  destruct (submitted_connect _); [by eapply current_same; [|exact Hc]|].
  apply publish_current. apply Hc.
Qed.
Lemma disconnect_view s : same_view s (disconnect s).
Proof. unfold disconnect. destruct (connect_cancel _); [done|]. by destruct (vpn_state _). Qed.
Lemma established_receiver s : has_receiver s → has_receiver (on_session_established s).
Proof.
  intros Hr. unfold on_session_established. cbn. destruct (vpn_state _); try done.
  destruct (connected_session_info _) as [i|]; [|done].
  eapply view_receiver; [|exact Hr].
  destruct (admin_logout_message i), (user_expires i); cbn; try done; repeat (case_match; try done).
Qed.
Lemma before_receiver st s : has_receiver s → has_receiver (before_vpn_state st s).2.
Proof.
  intros Hr. destruct st; try done; cbn.
  1: { unfold restart_submitted_connect. cbn. destruct (_ || _); [done|].
       destruct (submitted_connect _); [done|]. by apply publish_current. }
  all: destruct (quitting _); [done|]; eapply view_receiver; [|exact Hr]; cbn.
  all: destruct (disconnect_requested _); try case_match; cbn; try done.
  all: repeat (case_match; cbn; try done).
Qed.
Lemma before_over st s : (before_vpn_state st s).1 = true → (before_vpn_state st s).2 = s.
Proof. destruct st; cbn; try done; by destruct (quitting _). Qed.
Lemma after_receiver h c s : has_receiver s → has_receiver (after_vpn_state h c s).
Proof.
  intros Hr. unfold after_vpn_state. destruct (vpn_state _); try done. destruct c; [done|].
  apply established_receiver. eapply view_receiver; [|exact Hr]. cbn.
  by destruct (notifier_enabled _).
Qed.
Lemma event_current h e s : current s → current (handle_ws_event h e s).2.
Proof.
  intros Hc. destruct e as [|env|st| |]; cbn; try (by eapply current_same; [|exact Hc]).
  - set (s1 := on_model _ _). assert (current (publish_snapshot s1)) as Hp by apply publish_current, Hc.
    destruct (_ && _); [|exact Hp]. by apply start_current.
  - pose proof (before_receiver st s (proj1 Hc)) as Hr. pose proof (before_over st s) as Ho.
    destruct (before_vpn_state st s) as [[] s']; cbn in *; [by rewrite Ho|].
    by apply publish_current, after_receiver.
  - unfold resume_connection. destruct (negb _); [done|]. destruct (_ || _); [done|].
    destruct (resume_gateway _); [|done]. by apply start_current.
Qed.
Lemma command_current h m s : current s → current (handle_command h m s).2.
Proof.
  intros Hc. destruct m as [id|id p g|id|id|id otp|id|id]; cbn.
  - by eapply current_same; [apply ack_view|]; eapply current_same; [|exact Hc].
  - pose proof (start_current h p g s Hc). destruct (start_connect_flow _ _ _ _).
    by eapply current_same; [apply ack_view|].
  - eapply current_same; [apply ack_view|]. by eapply current_same; [apply disconnect_view|].
  - destruct (_ || _).
    + eapply current_same; [apply ack_view|]. by eapply current_same; [apply disconnect_view|].
    + pose proof (start_current h None None s Hc). destruct (start_connect_flow _ _ _ _).
      by eapply current_same; [apply ack_view|].
  - destruct (pending_otp _); [case_bool_decide|]; cbn; eapply current_same; try apply ack_view;
      by eapply current_same; [|exact Hc].
  - by eapply current_same; [apply ack_view|]; eapply current_same; [|exact Hc].
  - assert (current (ack id (Ok ()) s)) as Ha by by eapply current_same; [apply ack_view|].
    destruct (connect_cancel _); cbn; destruct (connecting_or_connected _); by eapply current_same; [|exact Ha].
Qed.
Lemma flow_msg_current m s : current s → current (handle_flow_msg m s).
Proof.
  intros Hc. destruct m as [msg id|r|e []].
  - eapply current_same; [apply publish_msg_view|]. by eapply current_same; [|exact Hc].
  - by eapply current_same; [|exact Hc].
  - cbn. apply publish_current, Hc.
  - cbn. apply publish_current. eapply view_receiver; [apply alert_view|]. apply Hc.
Qed.
Lemma timer_current t s : current s → current (handle_timer t s).
Proof.
  intros Hc. destruct t; cbn [handle_timer].
  - unfold handle_watchdog. destruct (negb _); [done|]. destruct (_ && _); [|done].
    apply publish_current, Hc.
  - unfold handle_expiry_warning. destruct (negb _); [done|]. destruct (vpn_state _); try done.
    eapply current_same; [apply notify_view|]. by eapply current_same; [apply publish_msg_view|].
  - destruct (quitting _); [|done]. by eapply current_same; [apply exit_view|].
Qed.

(** A client is subscribed whenever statistics arrive. *)
Definition heard (hl : Host * label) : Prop :=
  match hl.2 with RecvStats _ => 0 < receiver_count hl.1 | _ => True end.
Lemma step_current s hl : heard hl → current s → current (widget_step s hl).
Proof.
  intros Hh Hc. unfold widget_step. case_bool_decide; [|done]. destruct hl as [h l].
  destruct l; cbn in *; try (by eapply current_same; [|exact Hc]).
  - destruct notice as [[e|m| |]|]; cbn; try done.
    + pose proof (event_current h e s Hc). destruct (handle_ws_event h e s) as [[] s']; [|done].
      by eapply current_same; [apply exit_view|].
    + apply publish_current. eapply view_receiver; [apply alert_view|]. apply Hc.
    + eapply current_same; [apply exit_view|]. by eapply current_same; [apply alert_view|].
    + by eapply current_same; [apply exit_view|].
  - destruct msg as [m|]; [|by eapply current_same; [apply exit_view|]].
    pose proof (command_current h m s Hc). destruct (handle_command h m s) as [[] s']; [|done].
    by eapply current_same; [apply exit_view|].
  - destruct (flow_queue _); [done|]. apply flow_msg_current. by eapply current_same; [|exact Hc].
  - destruct (timers _ !! i); [|done]. apply timer_current. by eapply current_same; [|exact Hc].
  - unfold handle_stats. destruct (is_connected _); [|done].
    rewrite (proj2 (N.ltb_lt _ _) Hh). apply publish_current, Hc.
  - by eapply current_same; [apply exit_view|].
Qed.

(** The snapshot a client gets when it attaches, or asks for, is the one of the
    daemon's model, whatever happened, provided that somebody was subscribed each time
    statistics arrived. *)
Lemma published_snapshot_is_current ts c file s ls :
  widget_new ts c file = Some s → Forall heard ls →
  let s' := runs widget_step s ls in
  to_vec (Status (model_snapshot (model (daemon s')))) = Some (watch_borrow (snapshot_tx (output s'))).
Proof.
  intros Hs Hl. cbn zeta. assert (current s) as Hc.
  { unfold widget_new in Hs. apply bind_Some in Hs as (line & El & [= <-]).
    split; unfold has_receiver; cbn; by rewrite ?watch_receivers_channel, ?watch_borrow_channel. }
  clear Hs. revert s Hc. induction Hl as [|hl ls Hh _ IH]; intros s Hc; [apply Hc|].
  apply IH. by apply step_current.
Qed.
End published.

(** ** The model *)
Definition same_vpn (s s' : Widget) : Prop :=
  let view m := (vpn_state m, conn m, model_session m, current_gateway m) in
  view (model (daemon s')) = view (model (daemon s)).
Lemma coherent_same s s' : same_vpn s s' → coherent (model (daemon s)) → coherent (model (daemon s')).
Proof. unfold same_vpn, coherent. by intros [= -> -> -> ->]. Qed.
#[local] Hint Extern 0 (same_vpn _ _) => reflexivity : core.
Ltac by_cases := repeat (case_match; simplify_eq/=; try done); done.
Lemma start_vpn h p g s : same_vpn s (start_connect_flow h p g s).2.
Proof. unfold start_connect_flow. by_cases. Qed.
Lemma restart_vpn a s : same_vpn s (restart_submitted_connect a s).
Proof. unfold restart_submitted_connect. by_cases. Qed.
Lemma disconnect_vpn s : same_vpn s (disconnect s).
Proof. unfold disconnect. by_cases. Qed.
Lemma before_vpn st s : same_vpn s (before_vpn_state st s).2.
Proof.
  destruct st; try done; cbn; [by etrans; [apply restart_vpn|]|..]; by_cases.
Qed.
Lemma after_vpn h c s : same_vpn s (after_vpn_state h c s).
Proof.
  unfold after_vpn_state. destruct (vpn_state _); try done. destruct c; [done|].
  unfold on_session_established. by_cases.
Qed.
Lemma event_coherent h e s : coherent (model (daemon s)) →
  coherent (model (daemon (handle_ws_event h e s).2)).
Proof.
  intros Hc. destruct e as [|env|st| |]; cbn; try done.
  - set (s1 := publish_snapshot _). assert (coherent (model (daemon s1))) as H1' by apply apply_vpn_state_coherent.
    destruct (_ && _); [|exact H1']. eapply coherent_same; [apply start_vpn|exact H1'].
  - pose proof (before_vpn st s) as Hb. destruct (before_vpn_state st s) as [[] s']; cbn in *.
    + by eapply coherent_same.
    + eapply coherent_same; [apply (after_vpn h)|]. apply apply_vpn_state_coherent.
  - unfold resume_connection. repeat (case_match; try done). eapply coherent_same; [apply start_vpn|done].
Qed.
Lemma command_vpn h m s : same_vpn s (handle_command h m s).2.
Proof.
  destruct m as [id|id p g|id|id|id otp|id|id]; cbn; try done.
  - pose proof (start_vpn h p g s). by destruct (start_connect_flow _ _ _ _).
  - apply disconnect_vpn.
  - case_match; [apply disconnect_vpn|].
    pose proof (start_vpn h None None s). by destruct (start_connect_flow _ _ _ _).
  - by_cases.
  - by_cases.
Qed.
Lemma flow_msg_vpn m s : same_vpn s (handle_flow_msg m s).
Proof. by destruct m as [| |? []]. Qed.
Lemma timer_vpn t s : same_vpn s (handle_timer t s).
Proof. destruct t; cbn; [unfold handle_watchdog|unfold handle_expiry_warning|]; by_cases. Qed.
Lemma step_coherent s hl : coherent (model (daemon s)) → coherent (model (daemon (widget_step s hl))).
Proof.
  intros Hc. unfold widget_step. case_bool_decide; [|done]. destruct hl as [h l].
  destruct l; cbn; try done.
  - destruct notice as [[e|m| |]|]; cbn; try done.
    pose proof (event_coherent h e s Hc). by destruct (handle_ws_event h e s) as [[] s'].
  - destruct msg as [m|]; [|done]. pose proof (command_vpn h m s).
    destruct (handle_command h m s) as [[] s']; by eapply coherent_same.
  - destruct (flow_queue _); [done|]. by eapply coherent_same; [apply flow_msg_vpn|].
  - destruct (timers _ !! i); [|done]. by eapply coherent_same; [apply timer_vpn|].
  - unfold handle_stats. destruct (vpn_state (model (daemon s))) eqn:E; cbn; try done.
    assert (coherent (model (daemon (on_model (set_conn (Some stats0)) s)))) as Hs.
    { unfold coherent. cbn. rewrite E. by eexists. }
    by destruct (0 <? _).
Qed.

(** C37: every snapshot the daemon can build is well formed: it carries traffic exactly
    while connected, an error text whenever it says error, and neither a session nor a
    gateway while no connection exists. *)
Theorem snapshots_are_coherent ts c file s ls :
  widget_new ts c file = Some s →
  let v := model_snapshot (model (daemon (runs widget_step s ls))) in
  (is_Some (status_conn v) ↔ status_state v = Some WidgetState.Connected) ∧
  (status_state v = Some WidgetState.Error → is_Some (status_error v)) ∧
  (status_state v ∈ Some <$> [WidgetState.NeedsSetup; WidgetState.Disconnected;
                              WidgetState.Authenticating; WidgetState.Error] →
   status_session v = None ∧ status_gateway v = None).
Proof.
  intros Hs. apply coherent_snapshot.
  apply (runs_invariant _ (λ s, coherent (model (daemon s))) step_coherent).
  unfold widget_new in Hs. apply bind_Some in Hs as (line & _ & [= <-]). apply coherent_new.
Qed.

(** ** The state that is shown

    Only gpservice's notices change the state the model shows. *)
Definition settled (st : VpnState.t) : VpnState.t :=
  match st with VpnState.Failed _ => VpnState.Disconnected | st => st end.
Definition told_state (n : WsNotice) : option VpnState.t :=
  match n with
  | NoticeEvent (WsEvent.EvVpnState st) => Some st
  | NoticeEvent (WsEvent.EvVpnEnv env) => Some (env_vpn_state env)
  | _ => None
  end.
Definition shown (s : Widget) : VpnState.t := vpn_state (model (daemon s)).
Definition notices_of (ls : list (Host * label)) : list WsNotice :=
  omap (λ hl, match hl.2 with RecvNotice (Some n) => Some n | _ => None end) ls.
Definition told_states (ns : list WsNotice) (st : VpnState.t) : VpnState.t :=
  fold_left (λ st n, default st (told_state n)) ns st.

Lemma shown_same s s' : same_vpn s s' → shown s' = shown s.
Proof. unfold shown. by intros [= -> _ _ _]. Qed.
Lemma notice_shows h n s :
  exited (desk (handle_notice h (Some n) s)) = None →
  shown (handle_notice h (Some n) s) = default (shown s) (settled <$> told_state n).
Proof.
  intros He. destruct n as [e|m| |]; cbn in *; try done.
  destruct e as [|env|st| |]; cbn; try done.
  - destruct (_ && _); [|apply apply_vpn_state_state].
    rewrite (shown_same _ _ (start_vpn _ _ _ _)). apply apply_vpn_state_state.
  - cbn in He. destruct (before_vpn_state st s) as [[] s']; [done|]. cbn.
    unfold shown. cbn. pose proof (after_vpn h (is_connected (vpn_state (model (daemon s'))))
      (on_model (apply_vpn_state st) s')) as Ha. apply shown_same in Ha. unfold shown in Ha. rewrite Ha.
    apply apply_vpn_state_state.
  - unfold resume_connection. repeat (case_match; try done). apply (shown_same _ _ (start_vpn _ _ _ _)).
Qed.
Lemma step_shows s hl st :
  shown s = settled st → exited (desk (widget_step s hl)) = None →
  shown (widget_step s hl) = settled (told_states (notices_of [hl]) st).
Proof.
  unfold widget_step. case_bool_decide as He0; [|done]. destruct hl as [h l].
  intros Hst He. destruct l; cbn -[shown] in *; try (by rewrite <- Hst).
  - destruct notice as [n|]; [|done]. rewrite (notice_shows h n s He). cbn.
    by destruct (told_state n).
  - destruct msg as [m|]; [|done]. pose proof (shown_same _ _ (command_vpn h m s)) as Hc.
    destruct (handle_command h m s) as [[] s']; [done|]. cbn in Hc. by rewrite Hc.
  - destruct (flow_queue _); [done|]. rewrite (shown_same _ _ (flow_msg_vpn _ _)). by rewrite <- Hst.
  - destruct (timers _ !! i); [|done]. rewrite (shown_same _ _ (timer_vpn _ _)). by rewrite <- Hst.
  - rewrite <- Hst. unfold handle_stats. destruct (is_connected _); [|done]. by destruct (0 <? _).
Qed.
Lemma exited_stays ls : ∀ s, exited (desk s) ≠ None → runs widget_step s ls = s.
Proof.
  induction ls as [|hl ls IH]; intros s He; [done|]. cbn.
  assert (widget_step s hl = s) as -> by (unfold widget_step; by rewrite bool_decide_eq_false_2).
  by apply IH.
Qed.
Lemma runs_show ls : ∀ s st, shown s = settled st → exited (desk (runs widget_step s ls)) = None →
  shown (runs widget_step s ls) = settled (told_states (notices_of ls) st).
Proof.
  induction ls as [|hl ls IH]; intros s st Hst He; [done|]. cbn [runs fold_left] in *.
  fold (runs widget_step (widget_step s hl) ls) in *.
  assert (exited (desk (widget_step s hl)) = None) as Hn.
  { destruct (exited (desk (widget_step s hl))) eqn:E; [|done].
    rewrite exited_stays in He by congruence. congruence. }
  rewrite (IH _ _ (step_shows s hl st Hst Hn) He). f_equal.
  unfold told_states. rewrite <- fold_left_app. f_equal.
  change (hl :: ls) with ([hl] ++ ls). unfold notices_of. by rewrite omap_app.
Qed.

(** ** Quitting *)
Definition keeps (s s' : Widget) : Prop :=
  (quitting (daemon s) = true → quitting (daemon s') = true) ∧
  ∀ t, t ∈ timers (desk s) → t ∈ timers (desk s').
Lemma keeps_trans a b c : keeps a b → keeps b c → keeps a c.
Proof. unfold keeps. naive_solver. Qed.
Lemma keeps_same s s' : quitting (daemon s') = quitting (daemon s) →
  timers (desk s') = timers (desk s) → keeps s s'.
Proof. unfold keeps. by intros -> ->. Qed.
Lemma keeps_timer t s : keeps s (spawn_timer t s).
Proof. split; cbn; [done|]. intros ??. apply elem_of_app. by left. Qed.
#[local] Hint Extern 0 (keeps _ _) => (apply keeps_same; reflexivity) : core.
Lemma start_keeps h p g s : keeps s (start_connect_flow h p g s).2.
Proof. unfold start_connect_flow. by_cases. Qed.
Lemma disconnect_keeps s : keeps s (disconnect s).
Proof. unfold disconnect. by_cases. Qed.
Lemma restart_keeps a s : keeps s (restart_submitted_connect a s).
Proof. unfold restart_submitted_connect. by_cases. Qed.
Lemma established_keeps s : keeps s (on_session_established s).
Proof.
  unfold on_session_established.
  repeat (case_match; try done); (eapply keeps_trans; [|apply keeps_timer]); done.
Qed.
Lemma before_keeps st s : keeps s (before_vpn_state st s).2.
Proof.
  destruct st; try done; cbn; [eapply keeps_trans; [|apply restart_keeps]; done|..]; by_cases.
Qed.
Lemma after_keeps h c s : keeps s (after_vpn_state h c s).
Proof.
  unfold after_vpn_state. destruct (vpn_state _); try done. destruct c; [done|].
  eapply keeps_trans; [|apply established_keeps]. done.
Qed.
Lemma event_keeps h e s : keeps s (handle_ws_event h e s).2.
Proof.
  destruct e as [|env|st| |]; cbn; try done.
  - case_match; [|done]. eapply keeps_trans; [|apply start_keeps]. done.
  - pose proof (before_keeps st s). destruct (before_vpn_state st s) as [[] s']; [done|]. cbn in *.
    eapply keeps_trans; [done|].
    eapply keeps_trans; [|apply (after_keeps h (is_connected (vpn_state (model (daemon s')))))]. done.
  - unfold resume_connection. repeat (case_match; try done). apply start_keeps.
Qed.
Lemma command_keeps h m s : keeps s (handle_command h m s).2.
Proof.
  destruct m as [id|id p g|id|id|id otp|id|id]; cbn; try done.
  - pose proof (start_keeps h p g s). by destruct (start_connect_flow _ _ _ _).
  - eapply keeps_trans; [apply disconnect_keeps|done].
  - case_match; [eapply keeps_trans; [apply disconnect_keeps|done]|].
    pose proof (start_keeps h None None s). by destruct (start_connect_flow _ _ _ _).
  - by_cases.
  - repeat (case_match; try done);
      (eapply keeps_trans; [|apply keeps_timer]); (split; cbn; done).
Qed.
Lemma flow_msg_keeps m s : keeps s (handle_flow_msg m s).
Proof.
  destruct m as [| |? []]; try done. eapply keeps_trans; [|apply keeps_timer]. done.
Qed.
Lemma timer_keeps t s : keeps s (handle_timer t s).
Proof. destruct t; cbn; [unfold handle_watchdog|unfold handle_expiry_warning|]; by_cases. Qed.

Definition leaving (s : Widget) : Prop :=
  is_Some (exited (desk s)) ∨ (quitting (daemon s) = true ∧ QuitTimeout ∈ timers (desk s)).
Lemma leaving_keeps s s' : keeps s s' → exited (desk s) = None → leaving s → leaving s'.
Proof.
  intros [Hq Ht] He [[? ?]|[? ?]]; [congruence|]. right. auto.
Qed.
Lemma leaving_step s hl : leaving s → leaving (widget_step s hl).
Proof.
  intros HL. unfold widget_step. case_bool_decide as He; [|done]. destruct hl as [h l].
  destruct l; cbn; try (by eapply leaving_keeps; [|exact He|exact HL]); try (left; by eexists).
  - destruct notice as [[e|m| |]|]; cbn; try (by eapply leaving_keeps; [|exact He|exact HL]); try (left; by eexists).
    pose proof (event_keeps h e s) as Hk. destruct (handle_ws_event h e s) as [[] s']; [left; by eexists|].
    by eapply leaving_keeps; [exact Hk|..].
  - destruct msg as [m|]; [|left; by eexists]. pose proof (command_keeps h m s) as Hk.
    destruct (handle_command h m s) as [[] s']; [left; by eexists|].
    by eapply leaving_keeps; [exact Hk|..].
  - destruct (flow_queue _); [done|]. eapply leaving_keeps; [|exact He|exact HL].
    eapply keeps_trans; [|apply flow_msg_keeps]. done.
  - destruct (timers _ !! i) as [t|] eqn:Et; [|done]. set (s1 := on_desk _ s).
    destruct HL as [[? ?]|[Hq Hin]]; [congruence|].
    destruct (decide (t = QuitTimeout)) as [->|Hn].
    + left. cbn. rewrite Hq. by eexists.
    + eapply leaving_keeps; [apply timer_keeps|done|]. right. split; [done|]. subst s1. cbn.
      apply delete_Permutation in Et. rewrite Et in Hin. set_solver.
  - eapply leaving_keeps; [|exact He|exact HL]. unfold handle_stats. by_cases.
  - eapply leaving_keeps; [|exact He|exact HL]. apply keeps_same; cbn; [done|]. by_cases.
  - eapply leaving_keeps; [|exact He|exact HL]. apply keeps_same; cbn; [done|]. by_cases.
  - eapply leaving_keeps; [|exact He|exact HL]. apply keeps_same; cbn; [done|]. by_cases.
  - eapply leaving_keeps; [|exact He|exact HL]. apply keeps_same; cbn; [done|]. by_cases.
  - eapply leaving_keeps; [|exact He|exact HL]. apply keeps_same; cbn; [done|]. by_cases.
Qed.

(** After Quit the daemon has ended, or a timer is asleep that ends it with exit
    code 0 when it fires, whatever gpservice, the clients and the flows do. *)
Lemma quit_ends_the_daemon s h id ls :
  exited (desk s) = None →
  let s' := runs widget_step s ((h, RecvCommand (Some (CmdQuit id))) :: ls) in
  is_Some (exited (desk s')) ∨
  ∃ i, timers (desk s') !! i = Some QuitTimeout ∧
       ∀ h', exited (desk (widget_step s' (h', RecvTimer i))) = Some 0.
Proof.
  intros He. cbn [runs fold_left]. set (s1 := widget_step s _).
  assert (leaving s1) as Hl.
  { subst s1. unfold widget_step. rewrite bool_decide_eq_true_2 by done. cbn.
    destruct (connect_cancel _), (connecting_or_connected _); cbn; try (left; by eexists);
      right; (split; [done|]); apply elem_of_app; right; by left. }
  apply (runs_invariant _ leaving leaving_step ls) in Hl. fold (runs widget_step s1 ls).
  set (s' := runs widget_step s1 ls) in *.
  destruct (exited (desk s')) as [n|] eqn:E; [left; by eexists|right].
  destruct Hl as [[? ?]|[Hq Hin]]; [congruence|].
  apply list_elem_of_lookup in Hin as [i Hi]. exists i. split; [done|]. intros h'.
  unfold widget_step. rewrite bool_decide_eq_true_2 by done. cbn. by rewrite Hi; cbn; rewrite Hq.
Qed.
End widget.

(** * Concrete runs *)
Module WidgetExample.
Import Concrete.
Definition line (m : ServerMsg) : string :=
  match m with
  | Status st => "status " +:+ default "" (widget_state_as_str <$> status_state st) +:+
      (if bool_decide (rx_bytes <$> status_conn st = Some 7) then " 7 bytes" else "")
  | Bye => "bye"
  | _ => "message"
  end.
#[local] Instance json_lines : SerdeJson ServerMsg := {| to_vec m := Some (line m); from_slice _ := None |}.
#[local] Instance json_gateway : SerdeJson Gateway :=
  {| to_vec g := Some (gateway_name g); from_slice s := Some (gateway_new s s) |}.
#[local] Instance json_gateways : SerdeJson (list Gateway) :=
  {| to_vec _ := Some "[]"; from_slice _ := Some [] |}.

Definition host : Host := {|
  unix_now := 1000; interface_names := ∅; save_error := None; config_path := "config.toml";
  receiver_count := 1 |}.
Definition config : Config := set_portal (Some "portal") config_default.
Definition env (st : VpnState.t) : VpnEnv := {|
  env_tunnel_state := None; env_vpn_state := st; env_vpnc_script := None;
  env_auth_executable := "gpauth";
  env_host_info := {| host_identity := identity_application "computer" "installation" |} |}.
Abbreviation W := (Widget (TS:=tokens) (T:=N) (W:=cell)).
Definition start : W := default {| daemon := daemon_new config; desk := desk_new (∅, ∅) (Ok config);
    output := output_new "" |} (widget_new (∅, ∅) config (Ok config)).
Definition at_host (l : label) : Host * label := (host, l).
Definition hello : Host * label :=
  at_host (RecvNotice (Some (NoticeEvent (WsEvent.EvVpnEnv (env VpnState.Disconnected))))).
Definition state_event (st : VpnState.t) : WsNotice := NoticeEvent (WsEvent.EvVpnState st).
Definition connect : Host * label := at_host (RecvCommand (Some (CmdConnect (Some 1) None None))).
Definition stop : Host * label := at_host (RecvCommand (Some (CmdDisconnect None))).
Definition info : ConnectInfo := connect_info_new "portal" (gateway PlanExample.member) [].
Definition request : ConnectRequest := connect_request_new info PlanExample.plan.
Definition cancelled (i : nat) : Host * label := at_host (FlowFails i "cancelled" true).
Definition flow_message : Host * label := at_host RecvFlow.

Definition orderly : list (Host * label) :=
  [hello; connect; stop; cancelled 0; flow_message; connect; connect].
Lemma one_connect_flow_witness :
  patiently start orderly ∧ length (flows (desk (runs widget_step start orderly))) = 1%nat ∧
  ∀ f, f ∈ flows (desk (runs widget_step start orderly)) →
    token_cancelled (flow_token f) (Widget.tokens (desk (runs widget_step start orderly))) = false →
    connect_cancel (daemon (runs widget_step start orderly)) = Some (flow_token f).
Proof.
  assert (patiently start orderly) as Hp.
  { repeat split; intros Hn Hu Hs; first [by vm_compute in Hn|by apply Hu; vm_compute|vm_compute in Hs; lia]. }
  destruct (one_connect_flow (∅, ∅) config (Ok config) start orderly ltac:(by vm_compute) Hp) as [_ Hf].
  split; [exact Hp|]. split; [by vm_compute|exact Hf].
Defined.

(** The message of a cancelled flow also takes the handle of the flow that was started
    after it: two flows run that no command can cancel. *)
Definition hasty_end : W := runs widget_step start [hello; connect; stop; connect; cancelled 0; flow_message; connect].
Lemma cancelled_flow_takes_the_handle :
  connect_cancel (daemon (runs widget_step start
    [hello; connect; stop; connect; cancelled 0; flow_message])) = None ∧
  (λ f, token_cancelled (flow_token f) (Widget.tokens (desk hasty_end))) <$> flows (desk hasty_end) = [false; false].
Proof. split; by vm_compute. Qed.

Definition submitted : W :=
  runs widget_step start [hello; connect; at_host (FlowSends 0 request); at_host (FlowSubmits 0); flow_message].
Definition connected : WsNotice := state_event (VpnState.Connected (connected_info_new 990 info None)).
Lemma stale_timers_ignored_witness :
  timers (desk submitted) = [ConnectWatchdog 1] ∧ exited (desk submitted) = None ∧
  handle_timer (ConnectWatchdog 1) submitted ≠ submitted ∧
  let s' := runs widget_step submitted
    [at_host (RecvNotice (Some connected)); at_host (RecvNotice (Some (state_event VpnState.Disconnected)))] in
  handle_timer (ConnectWatchdog 1) s' = s' ∧ handle_timer (ExpiryWarning 0) s' = s'.
Proof.
  split; [by vm_compute|]. split; [by vm_compute|].
  split; [intros E; apply (f_equal (λ s, last_error (model (daemon s)))) in E; by vm_compute in E|].
  destruct (stale_timers_ignored submitted host connected
    [at_host (RecvNotice (Some (state_event VpnState.Disconnected)))]
    ltac:(by vm_compute) ltac:(by vm_compute) ltac:(by vm_compute) ltac:(by vm_compute)) as [Hw Hx].
  split; [by apply Hw; vm_compute|by apply Hx; vm_compute].
Defined.

Definition day : list (Host * label) :=
  [hello; connect; at_host (FlowSends 0 request); at_host (FlowSubmits 0); flow_message;
   at_host (RecvNotice (Some connected))].
Lemma published_snapshot_is_current_witness :
  Forall heard day ∧ watch_borrow (snapshot_tx (output (runs widget_step start day))) = "status connected" ∧
  to_vec (Status (model_snapshot (model (daemon (runs widget_step start day))))) =
    Some (watch_borrow (snapshot_tx (output (runs widget_step start day)))).
Proof.
  assert (Forall heard day) as Hh by by repeat constructor.
  split; [exact Hh|]. split; [by vm_compute|].
  apply (published_snapshot_is_current ltac:(by eexists) (∅, ∅) config (Ok config) start day ltac:(by vm_compute) Hh).
Defined.

(** Nobody is subscribed: the statistics reach the model, and a client that attaches
    later gets the snapshot from before. *)
Definition deaf : Host := {|
  unix_now := 1000; interface_names := ∅; save_error := None; config_path := "config.toml";
  receiver_count := 0 |}.
Definition traffic : ConnStats := {|
  conn_since := 990; conn_ifname := Some "tun0"; conn_ipv4 := None; rx_bytes := 7; tx_bytes := 0;
  rx_rate := 0; tx_rate := 0 |}.
Lemma unheard_statistics_are_not_published :
  let s := runs widget_step start (day ++ [(deaf, RecvStats traffic)]) in
  watch_borrow (snapshot_tx (output s)) = "status connected" ∧
  to_vec (Status (model_snapshot (model (daemon s)))) = Some "status connected 7 bytes".
Proof. split; by vm_compute. Qed.

Lemma snapshots_are_coherent_witness :
  let v := model_snapshot (model (daemon (runs widget_step start day))) in
  status_state v = Some WidgetState.Connected ∧
  (is_Some (status_conn v) ↔ status_state v = Some WidgetState.Connected).
Proof.
  split; [by vm_compute|].
  by destruct (snapshots_are_coherent (∅, ∅) config (Ok config) start day ltac:(by vm_compute)).
Defined.
Definition up : W := runs widget_step start day.
(** The end of a disconnect may only show in the snapshot of the next attachment. The
    request is not forgotten then, and a restart of the next connection is ignored. *)
Definition restart_offer : Host * label := at_host (RecvNotice (Some (state_event
  (VpnState.ReconnectRequired {| rr_attempt := 7; rr_owner := 0; rr_info := info |})))).
Lemma disconnect_request_outlives_its_end :
  sending (desk (runs widget_step up [restart_offer])) = [Connect (with_restart_of (Some 7) request)] ∧
  sending (desk (runs widget_step up ([stop; at_host (RecvNotice (Some Lost))] ++ day ++ [restart_offer]))) =
    [Disconnect].
Proof. split; by vm_compute. Qed.
Lemma quit_ends_the_daemon_witness :
  exited (desk up) = None ∧
  let s' := runs widget_step up
    [at_host (RecvCommand (Some (CmdQuit None))); at_host (RecvNotice (Some Lost)); connect] in
  is_Some (exited (desk s')) ∨
  ∃ i, timers (desk s') !! i = Some QuitTimeout ∧
       ∀ h', exited (desk (widget_step s' (h', RecvTimer i))) = Some 0.
Proof.
  split; [by vm_compute|].
  apply (quit_ends_the_daemon up host None [at_host (RecvNotice (Some Lost)); connect]). by vm_compute.
Defined.
End WidgetExample.
