(* ===== verification/ConnectFlow.v ===== *)
(** The widget's connect flow (apps/gpwidget/src/daemon/connect_flow.rs): from the portal's
    address to the connect request.

    The flow is an interaction tree whose questions are [FlowE]: it asks servers, the
    authenticator, the user and the channel to gpservice. What a server answers is a
    function of the request; [None] is a cancellation that won the [select!]. *)
From S2P Require Import Prelude Utf8 Text ThirdParty ClientProfile Xml GpHttp Interaction.
From S2P Require Import ChildProcess Csc Transport Tunnel Session Credential AuthLauncher.
From S2P Require Import Portal GatewayLogin Service WidgetModel Widget.
From ITree Require Import ITree.

#[local] Open Scope N_scope.
#[local] Open Scope flow_scope.

Definition is_flow_cancelled (e : Failure) : bool :=
  match root_cause e with FlowCancelled => true | _ => false end.
Definition is_cancelled (e : Failure) : bool :=
  is_flow_cancelled e || Utf8.contains "Authentication cancelled" (to_text e).

(** What this machine is and answers: its profile, the launcher's surroundings, the HTTP
    client for some parameters, the resolver, and the custom checks. *)
Record Machine (ClientIdentity : Type) := {
  snapshot : HostSnapshot;
  variables : string → option string;
  wayland : bool;
  canonicalize : string → option string;
  bundled_gpauth : string;
  non_root : Command → result Failure Command;
  http_client : GpParams ClientIdentity → result Failure ();
  resolve : string → N → option (list IpAddr);
  local_ipv4 : string → option string;
  csc_reader : CscDataReader;
}.
Arguments snapshot {_} _.
Arguments variables {_} _ _.
Arguments wayland {_} _.
Arguments canonicalize {_} _ _.
Arguments bundled_gpauth {_} _.
Arguments non_root {_} _ _.
Arguments http_client {_} _ _.
Arguments resolve {_} _ _ _.
Arguments local_ipv4 {_} _ _.
Arguments csc_reader {_} _.

(** The answers to one [discover]: its two checks of the token inside, and the flow's
    own after a failure. *)
Record Discovery := {
  portal_server : PortalServer;
  detection : InternalHostDetection → result string bool;
  discovery_millis : N;
  cancelled_parsing : bool;
  cancelled_detecting : bool;
  discovery_cancelled : bool;
}.
(** The answers to one [login]: the check before, the response, the flow's check after a
    failure. *)
Record LoginTurn := {
  cancelled_before : bool;
  login_post : string → Params → option (result NetworkError LoginAnswer);
  login_cancelled : bool;
}.
Inductive OtpAnswer := OtpGiven (otp : string) | OtpUnheard | OtpCancelled | OtpTimedOut | OtpDismissed.

Inductive FlowE : Type → Type :=
  | PreloginE (server : string) : FlowE (option (string → Params → Params → result NetworkError Response))
  | LaunchE (l : Launch) : FlowE (option WorkerEnd)
  | CancelledE : FlowE bool
  | DiscoverE (portal : string) : FlowE Discovery
  (** A login at the server of this URL. *)
  | LoginE (origin : Url) : FlowE LoginTurn
  | OtpE (message : string) : FlowE OtpAnswer
  | SendE (request : ConnectRequest) : FlowE bool.

Section flow.
Context `{UrlEncoding} `{Xmltree} `{UrlCrate} `{Base64} `{UuidV5} `{SerdeJson SamlAuthResult}.
Context {ClientIdentity T : Type}.
(** [Url::origin] and [Url::as_str] as text, and the digest and encoder of the checks. *)
Variable origin_text : Url → string.
Variable url_text : Url → string.
Variable md5 : string → list N.
Variable csc_encode : string → string.
Variable machine : Machine ClientIdentity.

Notation Flow := (flow FlowE).

(** [cancellable] for an answer that may be the cancellation. *)
Definition cancellable {A B} (answer : option A) (k : A → result Failure B) : result Failure B :=
  match answer with None => Err FlowCancelled | Some a => k a end.

Definition build_os_profile (ctx : FlowCtx (T := T)) : option OsProfile :=
  let b := profile_builder_new (snapshot_runtime_os (snapshot machine)) in
  let b := set_host_identity (host_identity (env_host_info (ctx_vpn_env ctx))) b in
  let b := match adv_client_version (advanced (ctx_config ctx)) with
           | Some v => set_client_version v b
           | None => b
           end in
  build_profile (snapshot machine) b.
Definition build_gp_params (config : Config) (profile : OsProfile) : GpParams ClientIdentity :=
  let a := advanced config in
  build_params
    (b_set_key_password (adv_key_password a) (b_set_sslkey (adv_sslkey a)
      (b_set_certificate (adv_certificate a)
        (b_set_ignore_tls_errors (adv_ignore_tls_errors a) (params_builder_new profile))))).

(** [prelogin] under [cancellable], with its context. *)
Definition ask_prelogin (m server : string) (gp : GpParams ClientIdentity) (o : PreloginOptions) :
    Flow Prelogin :=
  let* answer := ask (PreloginE server) in
  pure (GpHttp.context m (cancellable answer (λ post,
    prelogin origin_text post (http_client machine gp) server gp o))).

(** ** The authenticator *)
Definition browser_choice (config : Config) (saml : SamlPrelogin) (is_gateway allowed : bool) :
    option string * bool :=
  let external_supported := support_default_browser saml && (negb is_gateway || allowed) in
  match WidgetModel.browser_mode config with
  | WidgetModel.Embedded => (None, false)
  | DefaultBrowser => if external_supported then (None, true) else (None, false)
  | NamedBrowser name => if external_supported then (Some name, false) else (None, false)
  end.
Definition saml_launcher (ctx : FlowCtx (T := T)) (saml : SamlPrelogin) (server : string)
    (is_gateway allowed : bool) (profile : OsProfile) : SamlAuthLauncher :=
  let a := advanced (ctx_config ctx) in
  let '(named_browser, use_default_browser) := browser_choice (ctx_config ctx) saml is_gateway allowed in
  set_launch_default_browser use_default_browser (set_hidpi (config_hidpi (ctx_config ctx))
    (set_browser named_browser (set_launch_key_password (adv_key_password a)
      (set_launch_sslkey (adv_sslkey a) (set_launch_certificate (adv_certificate a)
        (set_launch_ignore_tls_errors (adv_ignore_tls_errors a) (set_launch_os_profile profile
          (set_launch_saml_request (Some (saml_request saml)) (set_launch_gateway is_gateway
            (set_auth_executable (Some (env_auth_executable (ctx_vpn_env ctx)))
              (launcher_new server))))))))))).
Definition launch (s : SamlAuthLauncher) : Flow Credential :=
  match prepare_launch (variables machine) (wayland machine) (canonicalize machine)
          (bundled_gpauth machine) (non_root machine) s with
  | Err e =>
      let* cancelled := ask CancelledE in
      if (cancelled : bool) then throw FlowCancelled else throw e
  | Ok l =>
      let* answer := ask (LaunchE l) in
      pure (cancellable answer (λ w, launch_result l w false))
  end.
Definition with_context {A} (m : string) (t : Flow A) : Flow A :=
  either t (λ r, pure (GpHttp.context m r)).
Definition saml_auth (ctx : FlowCtx (T := T)) (saml : SamlPrelogin) (server : string)
    (is_gateway allowed : bool) (profile : OsProfile) : Flow Credential :=
  with_context "SAML authentication failed"
    (launch (saml_launcher ctx saml server is_gateway allowed profile)).
Definition obtain_credential (ctx : FlowCtx (T := T)) (p : Prelogin) (server : string)
    (allowed : bool) (profile : OsProfile) : Flow Credential :=
  match p with
  | Saml saml => saml_auth ctx saml server (prelogin_is_gateway p) allowed profile
  | Standard _ => throw (Message ("This server uses username/password authentication, which " +:+
      "gpwidget does not support yet — use `gpclient connect` instead"))
  end.

(** ** The gateway *)
Definition request_otp (message : string) : Flow string :=
  let* answer := ask (OtpE message) in
  pure match answer with
       | OtpGiven otp => Ok otp
       | OtpUnheard | OtpCancelled => Err FlowCancelled
       | OtpTimedOut => Err (Context "Timed out waiting for the one-time password"
                              (Message "deadline has elapsed"))
       | OtpDismissed => Err (Context "OTP prompt was dismissed" (Message "channel closed"))
       end.
Definition login_gateway (gateway : string) (cred : Credential) (gp : GpParams ClientIdentity)
    (context : GatewayLoginContext) : Flow GatewayAuthentication :=
  let* client := pure (login_client_new gateway gp (http_client machine gp)) in
  repeating (λ client,
    let* t := ask (LoginE (origin client)) in
    let '(r, client, _) := login origin_text url_text (resolve machine) (local_ipv4 machine)
      (login_post t) cred (Some context) (cancelled_before t) client in
    let* login := pure (map_err (λ e, if login_cancelled t then FlowCancelled else e) r) in
    match login with
    | Authenticated a => ok (inr a)
    | Mfa message input =>
        let* otp := request_otp message in
        ok (inl (respond_mfa input otp client))
    end) client.
Definition gateway_login_with_fallback (ctx : FlowCtx (T := T)) (gateway : Gateway)
    (portal_cred : option Credential) (gp : GpParams ClientIdentity)
    (context : GatewayLoginContext) (allowed : bool) (profile : OsProfile) :
    Flow GatewayAuthentication :=
  let server := gateway_address gateway in
  let fallback :=
    let external := negb (bool_decide (WidgetModel.browser_mode (ctx_config ctx) = WidgetModel.Embedded)) in
    let* p := ask_prelogin "Gateway prelogin failed" server gp
      {| external_browser_requested := external; gateway_external_browser_allowed := allowed |} in
    let* cred := obtain_credential ctx p server allowed profile in
    login_gateway server cred gp context in
  match portal_cred with
  | Some cred =>
      either (login_gateway server cred gp context) (λ r,
        match r with
        | Ok a => ok a
        | Err e => if is_cancelled e then throw e else fallback
        end)
  | None => fallback
  end.

(** ** The flow *)
Definition select_gateway (pin : option string) (region : string) (c : PortalConfig) :
    Flow (Gateway * GatewaySelection) :=
  match pin with
  | Some pin =>
      let* g := pure (ok_or (Message ("Cannot find gateway: " +:+ pin)) (find_gateway pin c)) in
      ok (g, Manual)
  | None =>
      let* g := may_panic (find_preferred_gateway region c) in
      ok (g, Auto)
  end.
Definition pinned (ctx : FlowCtx (T := T)) : option string :=
  match ctx_gateway_override ctx with
  | Some g => Some g
  | None => config_gateway (ctx_config ctx)
  end.
Definition make_request (ctx : FlowCtx (T := T)) (profile : OsProfile) (info : ConnectInfo)
    (plan : ConnectionPlan) (allow_extend_session : bool) : ConnectRequest :=
  let a := advanced (ctx_config ctx) in
  let r := connect_request_new info plan in
  let r := with_os_profile profile r in
  let r := with_args (set_arg_vpnc_script (env_vpnc_script (ctx_vpn_env ctx))) r in
  let r := with_hip_source (if adv_hip a then Generated else Disabled) r in
  let r := with_args (set_arg_ignore_tls_errors (adv_ignore_tls_errors a)) r in
  let r := with_args (set_arg_allow_extend_session allow_extend_session) r in
  let r := with_args (set_arg_certificate (adv_certificate a)) r in
  let r := with_args (set_arg_sslkey (adv_sslkey a)) r in
  let r := with_args (set_arg_key_password (adv_key_password a)) r in
  let r := with_args (set_arg_mtu (adv_mtu a)) r in
  let r := with_args (set_arg_reconnect_timeout (adv_reconnect_timeout a)) r in
  let r := with_args (set_arg_disable_ipv6 (adv_disable_ipv6 a)) r in
  with_args (set_arg_no_dtls (adv_no_dtls a)) r.
Definition discovered_config (d : Discovery) (portal : string) (cred : Credential)
    (gp : GpParams ClientIdentity) : result Failure PortalConfig :=
  match discover origin_text md5 csc_encode (csc_reader machine) (discovery_millis d)
          (detection d) (portal_server d) (http_client machine gp) portal cred gp
          (cancelled_parsing d) (cancelled_detecting d) with
  | Ok c => Ok c
  | Err e => if discovery_cancelled d then Err FlowCancelled
             else Err (Context "Failed to retrieve the portal config" e)
  end.

(** The authenticated gateway is handed to gpservice. *)
Definition submit (ctx : FlowCtx (T := T)) (profile : OsProfile) (c : PortalConfig)
    (selected : Gateway) (a : GatewayAuthentication) : Flow ConnectRequest :=
  if negb (bool_decide (authentication_mode a = Session.Tunnel)) then
    throw (Message ("Gateway " +:+ gateway_display selected +:+ " issued a non-tunnel session, " +:+
      "which gpwidget does not support yet — use `gpclient connect` instead"))
  else
  let* plan := pure (map_err Message (plan_new to_string
    [{| gateway := selected; authentication := a; binding := None |}] [] policy_default)) in
  let info := connect_info_new (ctx_portal ctx) selected (gateways c) in
  let request := make_request ctx profile info plan
    (default false (config_allow_extend_session c)) in
  let* sent := ask (SendE request) in
  if (sent : bool) then ok request
  else throw (Context "Failed to send the connect request to gpservice" (Message "channel closed")).

Definition connect_flow (ctx : FlowCtx (T := T)) : Flow ConnectRequest :=
  let portal := ctx_portal ctx in
  let config := ctx_config ctx in
  let* profile := may_panic (build_os_profile ctx) in
  let gp := build_gp_params config profile in
  let external := negb (bool_decide (WidgetModel.browser_mode config = WidgetModel.Embedded)) in
  let* portal_prelogin := ask_prelogin "Portal prelogin failed" portal gp
    {| external_browser_requested := external; gateway_external_browser_allowed := false |} in
  let* cred := obtain_credential ctx portal_prelogin portal false profile in
  let* d := ask (DiscoverE portal) in
  let* c := pure (discovered_config d portal cred gp) in
  let* c := may_panic (sort_gateways (region portal_prelogin) c) in
  let portal_default_browser := default false (default_browser c) in
  if bool_decide (gateways c = []) then throw (Message "The portal returned no gateways") else
  let* gs := select_gateway (pinned ctx) (region portal_prelogin) c in
  let '(selected, selection) := gs in
  let gw := with_is_gateway true gp in
  let context := with_connect_method (connect_method c) (login_context_new selected selection) in
  let portal_cred := if cookie_can_authenticate (auth_cookie c)
                     then Some (AuthCookie (auth_cookie c)) else None in
  let* a := gateway_login_with_fallback ctx selected portal_cred gw context
              (portal_default_browser || external) profile in
  submit ctx profile c selected a.

(** [spawn]: what the flow reports at its end. *)
Definition flow_report (r : result Failure ConnectRequest) : FlowMsg :=
  match r with
  | Ok request => Submitted request
  | Err e => FlowFailed (alternate_text e) (is_cancelled e)
  end.
End flow.

(** * What an event is to the flow *)
Definition cancels (ev : event FlowE) : bool :=
  let '@Ev _ X q a := ev in
  match q in FlowE Y return Y → bool with
  | PreloginE _ => λ a, match a with None => true | Some _ => false end
  | LaunchE _ => λ a, match a with None => true | Some _ => false end
  | CancelledE => λ a, a
  | DiscoverE _ => λ d, cancelled_detecting d && discovery_cancelled d
  | LoginE _ => λ t, cancelled_before t && login_cancelled t
  | OtpE _ => λ a, match a with OtpUnheard | OtpCancelled => true | _ => false end
  | SendE _ => λ _, false
  end a.
Definition sends (ev : event FlowE) : bool :=
  let '@Ev _ X q a := ev in match q with SendE _ => true | _ => false end.
Definition accepted (ev : event FlowE) : bool :=
  let '@Ev _ X q a := ev in
  match q in FlowE Y return Y → bool with SendE _ => λ sent, sent | _ => λ _, false end a.
Definition quiet (ev : event FlowE) : Prop := cancels ev = false ∧ sends ev = false.
(** Nothing was sent and nothing cancelled so far, or nothing before the last event. *)
Definition open (h : trace FlowE) : Prop := Forall quiet h.
Definition open_before (h : trace FlowE) : Prop := open (removelast h).
Definition closed (h : trace FlowE) : Prop :=
  ∃ h' ev, h = h' ++ [ev] ∧ open h' ∧ cancels ev = true.

Lemma open_before_open h : open h → open_before h.
Proof. unfold open_before, open. rewrite removelast_firstn_len. apply Forall_take. Qed.
Lemma open_before_snoc h ev : open h → open_before (h ++ [ev]).
Proof. unfold open_before. by rewrite removelast_last. Qed.
Lemma open_snoc h ev : open h → quiet ev → open (h ++ [ev]).
Proof. intros Ho Hq. apply Forall_app. split; [done|by apply Forall_singleton]. Qed.
Lemma closed_before h : closed h → open_before h.
Proof. intros (h' & ev & -> & Ho & _). by apply open_before_snoc. Qed.
Lemma flow_cancelled_context m e : is_flow_cancelled (Context m e) = is_flow_cancelled e.
Proof. done. Qed.
Lemma flow_cancelled_cancelled e : is_flow_cancelled e = true → is_cancelled e = true.
Proof. unfold is_cancelled. by intros ->. Qed.

(** What a part of the flow leaves of the history: after a failure either nothing was
    cancelled, or the cancellation was the last event and the failure says so. *)
Definition settled {A} (h l : trace FlowE) (r : result Failure A) : Prop :=
  (∃ k, l = h ++ k) ∧
  match r with
  | Ok _ => open l
  | Err e => open l ∨ (closed l ∧ is_flow_cancelled e = true)
  end.
Lemma settled_before {A} h l (r : result Failure A) : settled h l r → open_before l.
Proof.
  intros [_ Hs]. destruct r; [by apply open_before_open|].
  destruct Hs as [?|[? _]]; [by apply open_before_open|by apply closed_before].
Qed.
Lemma settled_here {A} h (r : result Failure A) : open h → settled h h r.
Proof. intros Ho. split; [exists []; by rewrite app_nil_r|]. destruct r; auto. Qed.
Lemma settled_from {A} g h l (r : result Failure A) : (∃ k, h = g ++ k) → settled h l r → settled g l r.
Proof. intros [k ->] [[k' ->] Hs]. split; [|done]. exists (k ++ k'). by rewrite app_assoc. Qed.
Lemma settled_err {A B} h l e : settled h l (Err e : result Failure A) → settled h l (Err e : result Failure B).
Proof. done. Qed.
Lemma settled_context {A} m h l (r : result Failure A) : settled h l r → settled h l (GpHttp.context m r).
Proof. intros [Hk Hs]. split; [done|]. by destruct r. Qed.
#[local] Hint Resolve open_before_open open_before_snoc settled_before : core.

Lemma wpf_question {X} (e : FlowE X) (Φ : trace FlowE → result Failure X → Prop) h :
  open h → (∀ x, Φ (h ++ [Ev e x]) (Ok x)) → wpf open_before (ask e) Φ h.
Proof. intros Ho Hx. apply wpf_ask; [auto|]. intros x. split; auto. Qed.
(** A step that settles, and what follows it. *)
Lemma wpf_settle {A B} (m : flow FlowE A) (k : A → flow FlowE B) P Φ h :
  wpf open_before m (λ l r, settled h l r ∧ P l r) h →
  (∀ l a, (∃ g, l = h ++ g) → open l → P l (Ok a) → wpf open_before (k a) Φ l) →
  (∀ l e, settled (A := A) h l (Err e) → Φ l (Err e)) →
  wpf open_before (and_then m k) Φ h.
Proof.
  intros Hm Hk He. apply wpf_and_then. eapply wpf_mono, Hm. intros l [a|e] [Hs HP].
  - destruct Hs as [? ?]. by apply Hk.
  - apply wpf_pure; [by eapply settled_before|by apply He].
Qed.

Section specifications.
Context `{UrlEncoding} `{Xmltree} `{UrlCrate} `{Base64} `{UuidV5Laws} `{SerdeJson SamlAuthResult}.
Context {ClientIdentity T : Type}.
Variable origin_text : Url → string.
Variable url_text : Url → string.
Variable md5 : string → list N.
Variable csc_encode : string → string.
Variable machine : Machine ClientIdentity.

Lemma cancellable_settled {A B} (x : option A) (k : A → result Failure B) h ev :
  open h → cancels ev = bool_decide (x = None) → sends ev = false →
  settled h (h ++ [ev]) (cancellable x k).
Proof.
  intros Ho Hc Hs. split; [by eexists|]. destruct x as [a|]; cbn.
  - assert (Hq : open (h ++ [ev])) by (apply open_snoc; [done|by split]). destruct (k a); auto.
  - right. split; [by exists h, ev|done].
Qed.
(** What was heard is in every later history. *)
Lemma heard_later (ev : event FlowE) h k : ev ∈ h → ev ∈ h ++ k.
Proof. intros Hin. apply elem_of_app. by left. Qed.
Lemma heard_last (ev : event FlowE) h : ev ∈ h ++ [ev].
Proof. apply elem_of_app. right. by apply list_elem_of_singleton. Qed.
#[local] Hint Resolve heard_later heard_last : core.

(** The server answered this to a prelogin. *)
Definition asked_prelogin (h : trace FlowE) (server : string) (gp : GpParams ClientIdentity)
    (o : PreloginOptions) (p : Prelogin) : Prop :=
  ∃ post, Ev (PreloginE server) (Some post) ∈ h ∧
    prelogin origin_text post (http_client machine gp) server gp o = Ok p.
Lemma asked_prelogin_later h k server gp o p :
  asked_prelogin h server gp o p → asked_prelogin (h ++ k) server gp o p.
Proof. intros (post & ? & ?). exists post. auto. Qed.
Lemma ask_prelogin_spec m server gp o h : open h →
  wpf open_before (ask_prelogin origin_text machine m server gp o)
    (λ l r, settled h l r ∧ ∀ p, r = Ok p → asked_prelogin l server gp o p) h.
Proof.
  intros Ho. apply wpf_and_then, wpf_question; [done|]. intros x.
  assert (Hs : settled h (h ++ [Ev (PreloginE server) x]) (GpHttp.context m (cancellable x (λ post,
    prelogin origin_text post (http_client machine gp) server gp o)))).
  { apply settled_context, cancellable_settled; [done|by destruct x|done]. }
  apply wpf_pure; [by eapply settled_before|]. split; [done|]. intros p Hp.
  destruct x as [post|]; [|done]. exists post. split; [done|]. cbn in Hp.
  by destruct (prelogin _ _ _ _ _ _).
Qed.

(** The authenticator, started for this server and what it asks, gave this credential. *)
Definition signed_in (ctx : FlowCtx (T := T)) (h : trace FlowE) (p : Prelogin) (server : string)
    (allowed : bool) (profile : OsProfile) (cred : Credential) : Prop :=
  ∃ saml l w, p = Saml saml ∧
    prepare_launch (variables machine) (wayland machine) (canonicalize machine) (bundled_gpauth machine)
      (non_root machine) (saml_launcher ctx saml server (prelogin_is_gateway p) allowed profile) = Ok l ∧
    Ev (LaunchE l) (Some w) ∈ h ∧ launch_result l w false = Ok cred.
Lemma signed_in_later ctx h k p server allowed profile cred :
  signed_in ctx h p server allowed profile cred → signed_in ctx (h ++ k) p server allowed profile cred.
Proof. intros (saml & l & w & ? & ? & ? & ?). exists saml, l, w. auto. Qed.
Lemma launch_spec s h : open h → wpf open_before (launch machine s) (λ g r, settled h g r ∧
  ∀ cred, r = Ok cred → ∃ l w,
    prepare_launch (variables machine) (wayland machine) (canonicalize machine) (bundled_gpauth machine)
      (non_root machine) s = Ok l ∧ Ev (LaunchE l) (Some w) ∈ g ∧ launch_result l w false = Ok cred) h.
Proof.
  intros Ho. unfold launch. destruct (prepare_launch _ _ _ _ _ _) as [l|e] eqn:El.
  - apply wpf_and_then, wpf_question; [done|]. intros x.
    assert (Hs : settled h (h ++ [Ev (LaunchE l) x]) (cancellable x (λ w, launch_result l w false))).
    { apply cancellable_settled; [done|by destruct x|done]. }
    apply wpf_pure; [by eapply settled_before|]. split; [done|]. intros cred Hc.
    destruct x as [w|]; [|done]. by exists l, w.
  - apply wpf_and_then, wpf_question; [done|].
    intros [|]; (apply wpf_pure; [auto|]); (split; [split; [by eexists|]|by intros ? [=]]).
    + right. split; [by exists h, (Ev CancelledE true)|done].
    + left. apply open_snoc; [done|by split].
Qed.
Lemma obtain_credential_spec ctx p server allowed profile h : open h →
  wpf open_before (obtain_credential (T := T) machine ctx p server allowed profile) (λ l r, settled h l r ∧
    ∀ cred, r = Ok cred → signed_in ctx l p server allowed profile cred) h.
Proof.
  intros Ho. destruct p as [saml|]; cbn [obtain_credential].
  - apply wpf_either. eapply wpf_mono, launch_spec, Ho. intros l r [Hs Hl].
    apply wpf_pure; [by eapply settled_before|]. split; [by apply settled_context|].
    intros cred Hc. destruct r as [x|e]; [|done]. injection Hc as ->.
    destruct (Hl cred eq_refl) as (la & w & ? & ? & ?). by exists saml, la, w.
  - apply wpf_pure; [auto|]. split; [by apply settled_here|by intros ? [=]].
Qed.
Lemma request_otp_spec message h : open h → wpf open_before (request_otp message) (λ l r, settled h l r ∧
  ∀ otp, r = Ok otp → Ev (OtpE message) (OtpGiven otp) ∈ l) h.
Proof.
  intros Ho. apply wpf_and_then, wpf_question; [done|]. intros x.
  apply wpf_pure; [auto|]. split; [split; [by eexists|]|].
  - destruct x; first [apply open_snoc; [done|by split] | left; apply open_snoc; [done|by split] |
      right; split; [by eexists h, _|done]].
  - intros otp Hx. destruct x; try done. injection Hx as ->. done.
Qed.

(** A login under way at a gateway: its client, new or with the user's answer to the
    challenge of the turn before. *)
Inductive logging_in (h : trace FlowE) (gateway : string) (gp : GpParams ClientIdentity)
    (cred : Credential) (ctx : GatewayLoginContext) :
    GatewayLoginClient (ClientIdentity := ClientIdentity) → Prop :=
  | login_starts client :
      login_client_new gateway gp (http_client machine gp) = Ok client →
      logging_in h gateway gp cred ctx client
  | login_goes_on client t message input client' o otp :
      logging_in h gateway gp cred ctx client → Ev (LoginE (origin client)) t ∈ h →
      login origin_text url_text (resolve machine) (local_ipv4 machine) (login_post t) cred (Some ctx)
        (cancelled_before t) client = (Ok (Mfa message input), client', o) →
      Ev (OtpE message) (OtpGiven otp) ∈ h →
      logging_in h gateway gp cred ctx (respond_mfa input otp client').
(** The gateway issued the authentication: it answered with it to a login at its URL. *)
Definition issued (h : trace FlowE) (gateway : string) (gp : GpParams ClientIdentity) (cred : Credential)
    (ctx : GatewayLoginContext) (a : GatewayAuthentication) : Prop :=
  ∃ client t client' o,
    logging_in h gateway gp cred ctx client ∧
    (server ← normalize gateway; parse_url_or server) = Ok (origin client) ∧
    Ev (LoginE (origin client)) t ∈ h ∧
    login origin_text url_text (resolve machine) (local_ipv4 machine) (login_post t) cred (Some ctx)
      (cancelled_before t) client = (Ok (Authenticated a), client', o).

Lemma logging_in_later h k gateway gp cred ctx client :
  logging_in h gateway gp cred ctx client → logging_in (h ++ k) gateway gp cred ctx client.
Proof. induction 1; [by apply login_starts|eapply login_goes_on; eauto]. Qed.
Lemma issued_later h k gateway gp cred ctx a :
  issued h gateway gp cred ctx a → issued (h ++ k) gateway gp cred ctx a.
Proof.
  intros (c & t & c' & o & ? & ? & ? & ?). exists c, t, c', o.
  split_and!; auto using logging_in_later.
Qed.
Lemma login_origin post cred ctx b (client client' : GatewayLoginClient (ClientIdentity := ClientIdentity)) r o :
  login origin_text url_text (resolve machine) (local_ipv4 machine) post cred ctx b client = (r, client', o) →
  origin client' = origin client.
Proof.
  unfold login. destruct b; [by intros [= _ <- _]|]. destruct (post _ _) as [answer|]; [|by intros [= _ <- _]].
  destruct (receive_gateway_login _ _ _ _ _ _ _) as [received|]; [|by intros [= _ <- _]].
  destruct (parse_login_response _ _) as [[l|] o']; by intros [= _ <- _].
Qed.
(** The whole login is at the gateway. *)
Lemma logging_in_origin h gateway gp cred ctx client : logging_in h gateway gp cred ctx client →
  (server ← normalize gateway; parse_url_or server) = Ok (origin client).
Proof.
  induction 1 as [client Hn|client t message input client' o otp _ IH _ Hl _].
  - unfold login_client_new in Hn. destruct (normalize gateway) as [server|]; [|done]. cbn in *.
    destruct (parse_url_or server) as [url|]; [|done]. cbn in *.
    destruct (http_client machine gp); [|done]. by injection Hn as <-.
  - cbn. by rewrite (login_origin _ _ _ _ _ _ _ _ Hl).
Qed.
Definition logged_in (gateway : string) (gp : GpParams ClientIdentity) (ctx : GatewayLoginContext)
    (cred : Credential → trace FlowE → Prop) (h l : trace FlowE) (r : result Failure GatewayAuthentication) : Prop :=
  settled h l r ∧ ∀ a, r = Ok a → ∃ c, cred c l ∧ issued l gateway gp c ctx a.
Lemma login_gateway_spec gateway cred gp c h : open h →
  wpf open_before (login_gateway origin_text url_text machine gateway cred gp c)
    (logged_in gateway gp c (λ cr _, cr = cred) h) h.
Proof.
  intros Ho. eapply (wpf_settle _ _ (λ l r, l = h ∧ ∀ client, r = Ok client → logging_in h gateway gp cred c client)).
  { apply wpf_pure; [auto|]. split; [by apply settled_here|]. split; [done|].
    intros client Hc. by apply login_starts. }
  2: { intros l e Hs. split; [done|]. by intros a [=]. }
  intros l client _ _ [-> Hnew]. specialize (Hnew client eq_refl).
  eapply (wpf_repeating _ _ (λ l client, (open l ∧ ∃ k, l = h ++ k) ∧ logging_in l gateway gp cred c client));
    [|split; [split; [done|exists []; by rewrite app_nil_r]|done]].
  clear client Hnew. intros l client [[Hl Hk] Hc]. apply wpf_and_then, wpf_question; [done|]. intros t.
  destruct (login _ _ _ _ _ _ _ _ _) as [[r client'] o] eqn:Hlogin.
  set (ev := Ev (LoginE (origin client)) t).
  assert (Hs : settled l (l ++ [ev]) (map_err (λ e, if login_cancelled t then FlowCancelled else e) r)).
  { split; [by eexists|]. destruct (cancelled_before t && login_cancelled t) eqn:Hcc.
    - apply andb_true_iff in Hcc as [Hb Hn]. unfold login in Hlogin. rewrite Hb in Hlogin.
      injection Hlogin as <- <- <-. cbn. rewrite Hn. right. split; [|done].
      exists l, ev. split_and!; [done..|]. cbn. by rewrite Hb, Hn.
    - assert (Hq : open (l ++ [ev])) by (apply open_snoc; [done|by split]).
      destruct r; cbn; auto. }
  apply wpf_let_pure; [auto|].
  destruct (map_err _ r) as [[a|m input]|e] eqn:Hr; cbn beta iota.
  - apply wpf_pure; [by eapply settled_before|]. destruct r as [x|]; [|done]. cbn in Hr. simplify_eq.
    split; [by apply (settled_from h l _ (Ok a))|]. intros b [= <-]. exists cred. split; [done|].
    exists client, t, client', o. split_and!; [by apply logging_in_later|by eapply logging_in_origin|done|done].
  - destruct Hs as [Hk' Ho']. apply wpf_and_then. eapply wpf_mono, request_otp_spec, Ho'.
    intros g [otp|e] [Hg Hotp].
    + apply wpf_pure; [by eapply settled_before|]. destruct Hg as [(k2 & ->) Hg]. split; [split; [done|]|].
      * destruct Hk as (k1 & ->), Hk' as (k3 & ->). exists (k1 ++ k3 ++ k2). by rewrite !app_assoc.
      * destruct r as [x|]; [|done]. cbn in Hr. injection Hr as ->.
        eapply login_goes_on; [by do 2 apply logging_in_later|apply heard_later, heard_last|exact Hlogin|by apply Hotp].
    + apply wpf_pure; [by eapply settled_before|]. split; [|by intros ? [=]].
      eapply settled_from; [|exact Hg]. destruct Hk as (k1 & ->), Hk' as (k3 & ->).
      exists (k1 ++ k3). by rewrite app_assoc.
  - split; [|by intros ? [=]]. by apply (settled_from h l _ (Err e)).
Qed.
(** What the flow logs in with at a gateway: the portal's cookie, or a credential its
    authenticator gave for this gateway. *)
Definition gateway_options (ctx : FlowCtx (T := T)) (allowed : bool) : PreloginOptions := {|
  external_browser_requested := negb (bool_decide (WidgetModel.browser_mode (ctx_config ctx) = WidgetModel.Embedded));
  gateway_external_browser_allowed := allowed |}.
Definition gateway_credential (ctx : FlowCtx (T := T)) (server : string) (portal_cred : option Credential)
    (gp : GpParams ClientIdentity) (allowed : bool) (profile : OsProfile) (cred : Credential) (h : trace FlowE) : Prop :=
  portal_cred = Some cred ∨
  ∃ p, asked_prelogin h server gp (gateway_options ctx allowed) p ∧
       signed_in ctx h p server allowed profile cred.
Lemma gateway_login_spec ctx gateway cred gp c allowed profile h : open h →
  wpf open_before (gateway_login_with_fallback (T := T) origin_text url_text machine ctx gateway cred gp c
    allowed profile) (logged_in (gateway_address gateway) gp c
      (gateway_credential ctx (gateway_address gateway) cred gp allowed profile) h) h.
Proof.
  intros Ho. unfold gateway_login_with_fallback. set (fallback := and_then (ask_prelogin _ _ _ _ _ _) _).
  set (done_in := logged_in _ _ _ _ _).
  assert (Hf : ∀ l, (∃ k, l = h ++ k) → open l → wpf open_before fallback done_in l).
  { intros l Hl Hol. eapply wpf_settle; [by eapply ask_prelogin_spec|..].
    2: { intros g e Hg. split; [by eapply settled_err, settled_from|by intros ? [=]]. }
    intros g p [g1 ->] Hg Hp. specialize (Hp p eq_refl). eapply wpf_settle; [by eapply obtain_credential_spec|..].
    2: { intros g e Hg'. split; [|by intros ? [=]]. destruct Hl as [g0 ->].
         eapply settled_err, settled_from; [|exact Hg']. exists (g0 ++ g1). by rewrite app_assoc. }
    intros g cr [g2 ->] Hg' Hc. specialize (Hc cr eq_refl).
    eapply wpf_mono, login_gateway_spec, Hg'. intros g r [Hs Hi].
    destruct Hl as [g0 ->]. split.
    - eapply settled_from; [|exact Hs]. exists (g0 ++ g1 ++ g2). by rewrite !app_assoc.
    - intros a Ha. destruct (Hi a Ha) as (c' & -> & His). exists cr. split; [|done]. right. exists p.
      destruct Hs as [[k ->] _]. split; [by do 2 apply asked_prelogin_later|by apply signed_in_later]. }
  destruct cred as [cr|]; [|by apply Hf; [exists []; rewrite app_nil_r|]].
  apply wpf_either. eapply wpf_mono, login_gateway_spec, Ho. intros l [a|e] [Hs Hi].
  - apply wpf_pure; [by eapply settled_before|]. split; [done|]. intros b Hb.
    destruct (Hi b Hb) as (c' & -> & ?). exists cr. split; [by left|done].
  - destruct (is_cancelled e) eqn:He; [by apply wpf_pure; [eapply settled_before|split; [|intros ? [=]]]|].
    destruct Hs as [Hk [Hl|[_ Hc]]]; [by apply Hf|]. by rewrite (flow_cancelled_cancelled _ Hc) in He.
Qed.

(** ** The request a flow submits *)

(** What a submitted request is made of: the configuration the portal answered to the
    credential its authenticator gave, the gateway the user pinned in it or the one its
    rules prefer in the region the portal's prelogin named, one tunnel authentication that
    this gateway issued, and the settings. *)
Record request_sound (ctx : FlowCtx (T := T)) (h : trace FlowE) (r : ConnectRequest) : Prop := {
  rs_config : ∃ profile p cred d c c' a cred',
    let gp := build_gp_params (ctx_config ctx) profile in
    let g := info_gateway (request_info r) in
    let selection := match pinned ctx with Some _ => Manual | None => Auto end in
    let allowed := default false (default_browser c') || external_browser_requested (gateway_options ctx false) in
    build_os_profile machine ctx = Some profile ∧
    asked_prelogin h (ctx_portal ctx) gp (gateway_options ctx false) p ∧
    signed_in ctx h p (ctx_portal ctx) false profile cred ∧
    Ev (DiscoverE (ctx_portal ctx)) d ∈ h ∧
    discovered_config origin_text md5 csc_encode machine d (ctx_portal ctx) cred gp = Ok c ∧
    sort_gateways (region p) c = Some c' ∧
    info_gateways (request_info r) = gateways c' ∧
    (match pinned ctx with
     | Some pin => find_gateway pin c' = Some g
     | None => find_preferred_gateway (region p) c' = Some g
     end) ∧
    gateway_credential ctx (gateway_address g)
      (if cookie_can_authenticate (auth_cookie c') then Some (AuthCookie (auth_cookie c')) else None)
      (with_is_gateway true gp) allowed profile cred' h ∧
    issued h (gateway_address g) (with_is_gateway true gp) cred'
      (with_connect_method (connect_method c') (login_context_new g selection)) a ∧
    authentication_mode a = Session.Tunnel ∧
    request_plan r = {|
      members := [{| gateway := g; authentication := a; binding := None |}];
      failures := []; policy := policy_default; internal_detection := None |} ∧
    r = make_request ctx profile (connect_info_new (ctx_portal ctx) g (gateways c'))
          (request_plan r) (default false (config_allow_extend_session c'));
  rs_plan : plan_valid to_string (members (request_plan r)) (failures (request_plan r)) Session.Tunnel;
  rs_coherent : request_coherent r;
  rs_fresh : restart_of r = None;
}.

Lemma discovered_config_gateways d portal cred gp c :
  discovered_config origin_text md5 csc_encode machine d portal cred gp = Ok c → gateways c ≠ [].
Proof.
  unfold discovered_config, discover. destruct (retrieve_config _ _ _ _ _ _ _ _ _ _ _) as [policy|e]; cbn.
  - destruct (cancelled_detecting d); cbn; [by destruct (discovery_cancelled d)|].
    intros [= <-]. apply select_gateways_nonempty.
  - by destruct (discovery_cancelled d).
Qed.
Lemma discovered_config_cancelled d portal cred gp : cancels (Ev (DiscoverE portal) d) = true →
  ∃ e, discovered_config origin_text md5 csc_encode machine d portal cred gp = Err e ∧
    is_flow_cancelled e = true.
Proof.
  cbn. intros [Hd Hn]%andb_true_iff. unfold discovered_config, discover. rewrite Hn.
  destruct (retrieve_config _ _ _ _ _ _ _ _ _ _ _) as [policy|e]; cbn; [rewrite Hd; cbn|]; by eexists.
Qed.
Lemma select_gateway_spec pin r c h : open h → gateways c ≠ [] →
  wpf open_before (select_gateway pin r c) (λ l x, l = h ∧ match x with
    | Ok (g, sel) => match pin with
        | Some pin => find_gateway pin c = Some g ∧ sel = Manual
        | None => find_preferred_gateway r c = Some g ∧ sel = Auto end
    | Err e => open l end) h.
Proof.
  intros Ho Hg. destruct pin as [pin|]; cbn [select_gateway].
  - apply wpf_let_pure; [auto|]. destruct (find_gateway pin c) as [g|] eqn:Ef; cbn; [|done].
    by apply wpf_pure; [auto|].
  - apply wpf_let_may_panic; [auto|]. destruct (find_preferred_total r c Hg) as [g Eg].
    exists g. split; [done|]. by apply wpf_pure; [auto|].
Qed.
Lemma make_request_fields ctx profile info plan b :
  let r := make_request (T := T) ctx profile info plan b in
  request_info r = info ∧ request_plan r = plan ∧ restart_of r = None ∧
  arg_packet_delivery (request_args r) = System.
Proof. by cbn. Qed.

(** How a flow ends. *)
Definition flow_end (ctx : FlowCtx (T := T)) (l : trace FlowE) (r : result Failure ConnectRequest) : Prop :=
  match r with
  | Ok q => ∃ h, l = h ++ [Ev (SendE q) true] ∧ open h ∧ request_sound ctx h q
  | Err e => open l ∨ (closed l ∧ is_flow_cancelled e = true) ∨
             (∃ h q, l = h ++ [Ev (SendE q) false] ∧ open h ∧ is_cancelled e = false)
  end.
Lemma settled_end {A} ctx h l e : settled (A := A) h l (Err e) → flow_end ctx l (Err e).
Proof. intros [_ [?|?]]; [by left|by right; left]. Qed.
Lemma submit_spec ctx profile c' g a h : open h →
  (∀ q, info_gateway (request_info q) = g → info_gateways (request_info q) = gateways c' →
    authentication_mode a = Session.Tunnel →
    request_plan q = {| members := [{| gateway := g; authentication := a; binding := None |}];
      failures := []; policy := policy_default; internal_detection := None |} →
    q = make_request ctx profile (connect_info_new (ctx_portal ctx) g (gateways c'))
          (request_plan q) (default false (config_allow_extend_session c')) →
    plan_valid to_string (members (request_plan q)) (failures (request_plan q)) Session.Tunnel →
    request_coherent q → restart_of q = None → request_sound ctx h q) →
  wpf open_before (submit ctx profile c' g a) (flow_end ctx) h.
Proof.
  intros Ho Hsound. unfold submit.
  destruct (decide (authentication_mode a = Session.Tunnel)) as [Hm|Hm];
    [rewrite bool_decide_true by done|rewrite bool_decide_false by done]; cbn [negb].
  2: { apply wpf_pure; [auto|]. by left. }
  apply wpf_let_pure; [auto|]. destruct (plan_new _ _ _ _) as [plan|e] eqn:Hplan; cbn; [|by left].
  apply plan_new_iff in Hplan as (Hplan & mode & Hv).
  set (q := make_request _ _ _ _ _). apply wpf_and_then, wpf_question; [done|].
  intros [|]; apply wpf_pure; auto.
  - exists h. split; [done|]. split; [done|]. assert (mode = Session.Tunnel) as ->.
    { rewrite <- Hm. symmetry.
      exact (pv_mode _ _ _ _ Hv {| gateway := g; authentication := a; binding := None |} (list_elem_of_here _ _)). }
    apply Hsound; try done. by subst plan.
  - right. right. by exists h, q.
Qed.
Lemma connect_flow_spec ctx : wpf open_before
  (connect_flow origin_text url_text md5 csc_encode machine ctx) (flow_end ctx) [].
Proof.
  assert (Ho : open []) by constructor. unfold connect_flow.
  apply wpf_let_may_panic; [auto|]. destruct (build_profile_total (snapshot machine)
    (match adv_client_version (advanced (ctx_config ctx)) with
     | Some v => set_client_version v (set_host_identity (host_identity (env_host_info (ctx_vpn_env ctx)))
                   (profile_builder_new (snapshot_runtime_os (snapshot machine))))
     | None => set_host_identity (host_identity (env_host_info (ctx_vpn_env ctx)))
                   (profile_builder_new (snapshot_runtime_os (snapshot machine))) end)) as [profile Hprofile].
  exists profile. split; [exact Hprofile|]. change (build_os_profile machine ctx = Some profile) in Hprofile.
  set (gp := build_gp_params (ctx_config ctx) profile).
  eapply wpf_settle; [by apply ask_prelogin_spec|..].
  2: { intros. by eapply settled_end. }
  intros l1 p _ Hl1 Hp. specialize (Hp p eq_refl). eapply wpf_settle; [by apply obtain_credential_spec|..].
  2: { intros. by eapply settled_end. }
  intros l2 cred [g1 ->] Hl2 Hcred. specialize (Hcred cred eq_refl).
  apply wpf_and_then, wpf_question; [done|]. intros d. apply wpf_let_pure; [auto|].
  set (l2 := l1 ++ g1) in *. set (ev := Ev (DiscoverE (ctx_portal ctx)) d).
  destruct (cancels ev) eqn:Hc.
  { destruct (discovered_config_cancelled d (ctx_portal ctx) cred gp Hc) as (e & -> & He).
    right. left. split; [by exists l2, ev|done]. }
  assert (Hl3 : open (l2 ++ [ev])) by (apply open_snoc; [done|by split]).
  destruct (discovered_config _ _ _ _ d _ _ _) as [c|e] eqn:Hd; [|by left].
  pose proof (discovered_config_gateways _ _ _ _ _ Hd) as Hg.
  apply wpf_let_may_panic; [auto|]. destruct (sort_gateways_total (region p) c Hg) as [c' Hc'].
  exists c'. split; [done|].
  destruct (decide (gateways c' = [])) as [He|He];
    [rewrite bool_decide_true by done; apply wpf_pure; [auto|by left]|rewrite bool_decide_false by done].
  apply wpf_and_then. eapply wpf_mono, select_gateway_spec; [|done..].
  intros l [[g sel]|e] [-> Hsel]; [|by apply wpf_pure; [auto|left]].
  eapply wpf_settle; [by apply gateway_login_spec|..].
  2: { intros. by eapply settled_end. }
  intros l3 a [k ->] Hl4 Ha. destruct (Ha a eq_refl) as (cred' & Hcr & Hissued).
  apply submit_spec; [done|]. intros q <- Hgs Hm Hplan Hq Hv Hco Hre. split; [|done..].
  exists profile, p, cred, d, c, c', a, cred'. cbv zeta.
  assert (sel = match pinned ctx with Some _ => Manual | None => Auto end) as <-
    by (destruct (pinned ctx); apply Hsel).
  split_and!; try done.
  - apply asked_prelogin_later. unfold l2. rewrite <- app_assoc. by apply asked_prelogin_later.
  - rewrite <- app_assoc. by apply signed_in_later.
  - apply heard_later, heard_last.
  - by destruct (pinned ctx); apply Hsel.
Qed.

(** ** Theorems *)
Lemma open_quiet l ev : open l → ev ∈ l → quiet ev.
Proof. unfold open. rewrite List.Forall_forall. intros Ho Hin. by apply Ho, list_elem_of_In. Qed.
Lemma open_before_last h ev k : open_before (h ++ ev :: k) → ¬ quiet ev → k = [].
Proof.
  unfold open_before. intros Ho Hn. destruct k as [|x k]; [done|]. destruct Hn.
  rewrite removelast_app in Ho by done. apply (open_quiet _ _ Ho), elem_of_app.
  right. by apply list_elem_of_here.
Qed.

(** C35: a connect flow never panics, sends at most one connect request, as its last
    act, and reports that it submitted one exactly if gpservice's channel took it. The
    request names the gateway the user pinned, by the portal's configuration, or the one
    the portal's rules prefer there for the region of the portal's own prelogin; its plan is
    valid and holds one tunnel authentication that this gateway issued, in a login of this
    run at the gateway's URL, with the portal's cookie or a credential the authenticator
    gave for this gateway. *)
Theorem submitted_request_sound ctx l t :
  plays (connect_flow origin_text url_text md5 csc_encode machine ctx) l t →
  (∀ h ev k, l = h ++ ev :: k → sends ev = true → k = []) ∧
  ∀ o, observe t = RetF o → ∃ r, o = Some r ∧
    ∀ q, (r = Ok q ↔ Ev (SendE q) true ∈ l) ∧
         (r = Ok q → ∃ h, l = h ++ [Ev (SendE q) true] ∧ request_sound ctx h q).
Proof.
  intros Hp. destruct (connect_flow_spec ctx l t Hp) as [Hi Hend]. cbn [app] in *. split.
  - intros h ev k -> Hs. eapply open_before_last; [exact Hi|]. intros [_ Hn]. congruence.
  - intros o Ho. specialize (Hend o Ho). destruct o as [r|]; [|done]. exists r. split; [done|].
    assert (Hlast : ∀ h ev q, open h → ev ≠ Ev (SendE q) true → Ev (SendE q) true ∉ h ++ [ev]).
    { intros h ev q Hh Hne [Hin|Hin%list_elem_of_singleton]%elem_of_app; [|by rewrite Hin in Hne].
      by destruct (open_quiet _ _ Hh Hin). }
    intros q. destruct r as [q'|e].
    + destruct Hend as (h & -> & Hh & Hs). split; [split|].
      * intros [= <-]. apply elem_of_app. right. by apply list_elem_of_singleton.
      * intros [Hin|Hin%list_elem_of_singleton]%elem_of_app; [by destruct (open_quiet _ _ Hh Hin)|].
        by injection Hin as ->.
      * intros [= <-]. by exists h.
    + split; [split; [done|]|done]. intros Hin. exfalso.
      destruct Hend as [Hl|[[(h & ev & -> & Hh & Hc) _]|(h & q' & -> & Hh & _)]].
      * by destruct (open_quiet _ _ Hl Hin).
      * apply (Hlast h ev q); [done| |done]. intros ->. done.
      * apply (Hlast h (Ev (SendE q') false) q); [done| |done]. by intros ?%(f_equal accepted).
Qed.

(** A cancelled connect flow stops: the cancellation is the last thing it hears,
    nothing was sent to gpservice before, and it reports a failure marked as cancelled. *)
Lemma cancelled_flow_stops (ctx : FlowCtx (T := T)) l t h ev k :
  plays (connect_flow origin_text url_text md5 csc_encode machine ctx) l t →
  l = h ++ ev :: k → cancels ev = true →
  k = [] ∧ (∀ q b, Ev (SendE q) b ∉ l) ∧
  ∀ o, observe t = RetF o → ∃ e, o = Some (Err e) ∧ flow_report (Err e) = FlowFailed (alternate_text e) true.
Proof.
  intros Hp -> Hc. destruct (connect_flow_spec ctx _ t Hp) as [Hi Hend]. cbn [app] in *.
  assert (k = []) as ->.
  { eapply open_before_last; [exact Hi|]. intros [Hn _]. congruence. }
  unfold open_before in Hi. rewrite removelast_last in Hi. split; [done|]. split.
  { intros q b [Hin|Hin%list_elem_of_singleton]%elem_of_app; [by destruct (open_quiet _ _ Hi Hin)|].
    by rewrite <- Hin in Hc. }
  intros o Ho. specialize (Hend o Ho). destruct o as [[q|e]|]; [..|done]; cbn in Hend.
  - destruct Hend as (h' & E' & _). apply app_inj_tail in E' as [_ ->]. done.
  - exists e. split; [done|]. cbn. f_equal.
    destruct Hend as [Hl|[[_ He]|(h' & q' & E' & _)]].
    + assert (quiet ev) as [Hn _]; [|congruence]. apply (open_quiet _ _ Hl), elem_of_app.
      right. by apply list_elem_of_singleton.
    + by apply flow_cancelled_cancelled.
    + apply app_inj_tail in E' as [_ ->]. done.
Qed.

(** *** The flow and the widget's task *)
Definition flow_label (i : nat) (ev : event FlowE) : option label :=
  let '@Ev _ X q a := ev in
  match q in FlowE Y return Y → option label with
  | OtpE message => λ _, Some (FlowPrompts i message)
  | SendE q => λ sent, if (sent : bool) then Some (FlowSends i q) else None
  | _ => λ _, None
  end a.
Definition end_label (i : nat) (r : result Failure ConnectRequest) : label :=
  match r with
  | Ok _ => FlowSubmits i
  | Err e => FlowFails i (alternate_text e) (is_cancelled e)
  end.
Lemma prompts_keep {TS} i h (k : Desk (TS := TS) (T := T)) : Forall (λ ev, accepted ev = false) h →
  flows (runs (flip desk_step) k (omap (flow_label i) h)) = flows k ∧
  requests (runs (flip desk_step) k (omap (flow_label i) h)) = requests k.
Proof.
  intros Ho. revert k. induction Ho as [|ev h Hs Ho IH]; intros k; cbn; [done|].
  destruct ev as [X [| | | | |message|q] a]; cbn in Hs |- *; try apply IH; [|subst a; apply IH].
  destruct (IH (desk_step (FlowPrompts i message) k)) as [E1 E2].
  assert (Hk : flows (desk_step (FlowPrompts i message) k) = flows k ∧
               requests (desk_step (FlowPrompts i message) k) = requests k).
  { cbn. destruct (flows k !! i) as [[c [q|]]|]; [done| |done]. by destruct (bool_decide _). }
  destruct Hk as [Hk1 Hk2]. split; [exact (eq_trans E1 Hk1)|exact (eq_trans E2 Hk2)].
Qed.
Lemma open_unaccepted l : open l → Forall (λ ev, accepted ev = false) l.
Proof. apply Forall_impl. intros [X [| | | | | |q] a] [_ Hs]; done. Qed.
(** A history holds an accepted request as its last event or not at all. *)
Lemma accepted_cases l : open_before l →
  Forall (λ ev, accepted ev = false) l ∨ ∃ h q, l = h ++ [Ev (SendE q) true] ∧ open h.
Proof.
  unfold open_before. destruct (list_eq_nil_dec l) as [->|Hl]; [by left|].
  destruct (exists_last Hl) as (h & ev & ->). rewrite removelast_last. intros Ho.
  destruct (accepted ev) eqn:Ha.
  - right. destruct ev as [X [| | | | | |q] a]; try done. cbn in Ha. subst a. by exists h, q.
  - left. apply Forall_app. split; [by apply open_unaccepted|by apply Forall_singleton].
Qed.

(** C36: what the flow does is what the widget's model of its task does: its prompts and
    its request are steps of that task, and when it returns, the task can report
    exactly what the flow reports and is gone then. *)
Theorem flow_refines_task {TS} ctx l t i (k : Desk (TS := TS) (T := T)) :
  plays (connect_flow origin_text url_text md5 csc_encode machine ctx) l t →
  flows k !! i = Some {| flow_ctx := ctx; flow_sent := None |} →
  let k' := runs (flip desk_step) k (omap (flow_label i) l) in
  ∃ sent, flows k' !! i = Some {| flow_ctx := ctx; flow_sent := sent |} ∧
    requests k' = requests k ++ match sent with Some q => [Connect q] | None => [] end ∧
    ∀ o, observe t = RetF o → ∃ r, o = Some r ∧ sent = to_option r ∧
      ((length (flow_queue k') < FLOW_CHANNEL)%nat →
       desk_step (end_label i r) k' = set_flows (delete i (flows k')) (send_flow (flow_report r) k')).
Proof.
  intros Hp Hf. destruct (connect_flow_spec ctx l t Hp) as [Hi Hend]. cbn [app] in *. cbn zeta.
  destruct (accepted_cases l Hi) as [Ha|(h & q & -> & Hh)].
  - destruct (prompts_keep i l k Ha) as [Hk Hr]. exists None. rewrite Hk, Hr, app_nil_r.
    split; [done|]. split; [done|]. intros o Ho. specialize (Hend o Ho).
    destruct o as [r|]; [|done]. exists r. split; [done|].
    destruct r as [q|e].
    { destruct Hend as (h & -> & _). apply Forall_app in Ha as [_ Ha%Forall_inv]. by cbn in Ha. }
    split; [done|]. intros Hroom. cbn. rewrite Hk, Hf. by rewrite bool_decide_true.
  - destruct (prompts_keep i h k (open_unaccepted h Hh)) as [Hk Hr]. exists (Some q).
    rewrite omap_app, runs_app.
    set (k1 := runs (flip desk_step) k (omap (flow_label i) h)) in *.
    set (k2 := runs (flip desk_step) k1 (omap (flow_label i) [Ev (SendE q) true])).
    assert (k2 = set_flows (<[i := {| flow_ctx := ctx; flow_sent := Some q |}]> (flows k1))
                   (set_requests (requests k1 ++ [Connect q]) k1)) as ->.
    { change k2 with (desk_step (FlowSends i q) k1). cbn. by rewrite Hk, Hf. }
    rewrite Hk, Hr. cbn [flows requests set_flows set_requests].
    assert (Hlt : (i < length (flows k))%nat) by (apply lookup_lt_is_Some; eauto).
    rewrite list_lookup_insert_eq by done.
    split; [done|]. split; [done|]. intros o Ho. specialize (Hend o Ho).
    destruct o as [r|]; [|done]. exists r. split; [done|].
    destruct r as [q'|e].
    + destruct Hend as (h' & E' & _). apply app_inj_tail in E' as [_ [=]]. subst q'.
      split; [done|]. intros Hroom. cbn. rewrite list_lookup_insert_eq by done. by rewrite bool_decide_true.
    + exfalso. destruct Hend as [Hl|[[(h' & ev & E' & _ & Hc) _]|(h' & q' & E' & _)]].
      * apply open_unaccepted, Forall_app in Hl as [_ Hl%Forall_inv]. by cbn in Hl.
      * apply app_inj_tail in E' as [_ <-]. done.
      * apply app_inj_tail in E' as [_ E']. by apply (f_equal accepted) in E'.
Qed.
End specifications.

Module FlowExample.
Import XmlExample.
Definition quoted (s : string) : string := String quote (s +:+ String quote "").
Definition challenge : string :=
  "var respStatus = Challenge;" +:+ String newline ("var respMsg = " +:+ quoted "Code?" +:+ ";" +:+
  String newline ("thisForm.inputStr.value = " +:+ quoted "7" +:+ ";")).
Definition prelogin_doc : Element := element "prelogin-response" ∅
  [leaf "status" "Success"; leaf "region" "FR"; leaf "saml-auth-method" "REDIRECT";
   leaf "saml-request" "request"; leaf "saml-default-browser" "yes"].
Definition policy_doc : Element := element "policy" ∅
  [node "gateways" [node "external" [node "list"
     [entry "out.example" [leaf "description" "Outside"];
      entry "fr.example" [leaf "description" "Paris"; node "priority-rule" [entry "FR" [leaf "priority" "1"]]]]]]].
#[local] Instance docs : Xmltree := xml [("<prelogin/>", prelogin_doc); ("<policy/>", policy_doc);
  ("<jnlp/>", LoginExample.jnlp LoginExample.args)].
#[local] Instance encoding : UrlEncoding := LoginExample.encoding.
#[local] Instance forms : UrlCrate := LoginExample.forms.
#[local] Instance base64 : Base64 := Concrete.plain_base64.
#[local] Instance uuid5 : UuidV5 := ProfileExample.fixed.
#[local] Instance uuid5_laws : UuidV5Laws := ProfileExample.fixed_laws.
Definition saml_data : SamlAuthData := {|
  saml_username := "alice"; saml_prelogin_cookie := Some "prelogin"; saml_portal_userauthcookie := None;
  saml_token := None; saml_host_id := None |}.
#[local] Instance saml_json : SerdeJson SamlAuthResult := {|
  to_vec r := match r with SamlSuccess _ => Some "success" | _ => Some "cancelled" end;
  from_slice s := Some (if String.eqb s "success" then SamlSuccess saml_data else SamlCancelled) |}.

Definition machine : Machine () := {|
  snapshot := ProfileExample.snapshot "s1" "aa:bb" "1"; variables _ := None; wayland := false;
  canonicalize := Some; bundled_gpauth := "/usr/bin/gpauth"; non_root := Ok; http_client _ := Ok ();
  resolve _ _ := None; local_ipv4 _ := None; csc_reader := system_reader [] |}.
Definition env : VpnEnv := {|
  env_tunnel_state := None; env_vpn_state := VpnState.Disconnected; env_vpnc_script := None;
  env_auth_executable := "/usr/bin/gpauth";
  env_host_info := {| host_identity := ProfileExample.host "s1" "aa:bb" |} |}.
Definition ctx (gateway : option string) : FlowCtx (T := N) := {|
  ctx_portal := "portal.example"; ctx_gateway_override := gateway; ctx_config := config_default;
  ctx_vpn_env := env; ctx_cancel := 0 |}.
Definition answer (body : string) : Response := {| status := 200; gp_reason := None; text := Ok body |}.
Definition ran (stdout : string) : WorkerEnd :=
  Ran {| out_status := Exited 0; out_stdout := stdout; out_input_error := None |} [].
Definition server : PortalServer := {|
  post_config _ _ := Some (Ok (answer "<policy/>")); post_csc _ _ := None; csc_cancelled := false |}.

(** A user who signs in, is asked for a code and gives it, or gives up at that prompt. *)
Definition user (patient : bool) (n : nat) (X : Type) (q : FlowE X) : X :=
  match q with
  | PreloginE _ => Some (λ _ _ _, Ok (answer "<prelogin/>"))
  | LaunchE _ => Some (ran "success")
  | CancelledE => false
  | DiscoverE _ => {| portal_server := server; detection _ := Ok false; discovery_millis := 0;
      cancelled_parsing := false; cancelled_detecting := false; discovery_cancelled := false |}
  | LoginE _ => {| cancelled_before := false; login_cancelled := false;
      login_post _ _ := Some (Ok {|
        la_response := answer (if (n <? 6)%nat then challenge else "<jnlp/>");
        la_peer_certificate := None; la_endpoint := None; la_url := Concrete.gateway_url |}) |}
  | OtpE _ => if patient then OtpGiven "123456" else OtpCancelled
  | SendE _ => true
  end.
Abbreviation flow_of g := (connect_flow (λ _, "origin") (λ _, "https://198.51.100.7/") (λ _, [])
  (λ s, s) machine (ctx g)).
Definition played (patient : bool) (g : option string) :
    trace FlowE * option (result Failure ConnectRequest) :=
  default ([], None) (exec (user patient) 100 0 (flow_of g)).
Lemma played_returns patient g :
  match exec (user patient) 100 0 (flow_of g) with Some _ => true | None => false end = true →
  returns (flow_of g) (played patient g).1 (played patient g).2.
Proof.
  unfold played. destruct (exec _ _ _ _) as [[l o]|] eqn:E'; [|done]. intros _.
  by eapply exec_returns.
Qed.
Definition gateway_of (o : option (result Failure ConnectRequest)) : option string :=
  match o with Some (Ok r) => Some (gateway_name (info_gateway (request_info r))) | _ => None end.
Example flows_end :
  gateway_of (played true None).2 = Some "Paris" ∧
  gateway_of (played true (Some "out.example")).2 = Some "Outside" ∧
  (played true (Some "elsewhere")).2 = Some (Err (Message "Cannot find gateway: elsewhere")) ∧
  (played false None).2 = Some (Err FlowCancelled).
Proof. vm_compute. repeat split. Qed.

Lemma submitted_request_sound_witness : ∃ l t q h,
  plays (flow_of None) l t ∧ observe t = RetF (Some (Ok q)) ∧ l = h ++ [Ev (SendE q) true] ∧
  request_sound (λ _, "origin") (λ _, "https://198.51.100.7/") (λ _, []) (λ s, s) machine (ctx None) h q ∧
  gateway_name (info_gateway (request_info q)) = "Paris".
Proof.
  destruct (played_returns true None) as (t & Hp & Ho); [vm_compute; reflexivity|].
  destruct (submitted_request_sound (λ _, "origin") (λ _, "https://198.51.100.7/") (λ _, [])
    (λ s, s) machine (ctx None) _ t Hp) as [_ Hend].
  destruct (Hend _ Ho) as (r & Hr & Hq). destruct r as [q|e]; [|by vm_compute in Hr].
  destruct (proj2 (Hq q) eq_refl) as (h & Hl & Hs).
  exists (played true None).1, t, q, h. split; [exact Hp|]. split; [by rewrite Ho, Hr|].
  split; [exact Hl|]. split; [exact Hs|].
  assert (Hg : gateway_of (played true None).2 = Some "Paris") by (vm_compute; reflexivity).
  rewrite Hr in Hg. by injection Hg.
Defined.
Lemma cancelled_flow_stops_witness : ∃ l t h ev,
  plays (flow_of None) l t ∧ l = h ++ [ev] ∧ cancels ev = true ∧ (∀ q b, Ev (SendE q) b ∉ l) ∧
  ∃ e, observe t = RetF (Some (Err e)).
Proof.
  destruct (played_returns false None) as (t & Hp & Ho); [vm_compute; reflexivity|].
  assert (Hc : match list.last (played false None).1 with Some ev => cancels ev | None => false end = true)
    by (vm_compute; reflexivity).
  destruct (list.last (played false None).1) as [ev|] eqn:El; [|done].
  apply last_Some in El as [h Hl].
  destruct (cancelled_flow_stops (λ _, "origin") (λ _, "https://198.51.100.7/") (λ _, [])
    (λ s, s) machine (ctx None) _ t h ev [] Hp Hl Hc) as (_ & Hs & Hend).
  exists (played false None).1, t, h, ev. do 4 (split; [assumption|]).
  destruct (Hend _ Ho) as (e & He & _). exists e. by rewrite Ho, He.
Defined.
Definition desk : Desk (TS := ()) (T := N) := {|
  Widget.tokens := (); flows := [{| flow_ctx := ctx None; flow_sent := None |}]; flow_queue := [];
  otp_waiting := ∅; otp_answers := []; otp_next := 0; timers := []; sending := []; requests := [];
  config_file := Ok config_default; exited := None |}.
Lemma flow_refines_task_witness : ∃ l t q,
  plays (flow_of None) l t ∧
  let k := runs (flip desk_step) desk (omap (flow_label 0) l) in
  requests k = [Connect q] ∧ length (flow_queue k) = 1%nat ∧
  desk_step (FlowSubmits 0) k = set_flows [] (send_flow (Submitted q) k).
Proof.
  destruct (played_returns true None) as (t & Hp & Ho); [vm_compute; reflexivity|].
  destruct (flow_refines_task (λ _, "origin") (λ _, "https://198.51.100.7/") (λ _, [])
    (λ s, s) machine (ctx None) _ t 0%nat desk Hp eq_refl) as (sent & Hf & Hreq & Hend).
  destruct (Hend _ Ho) as (r & Hr & Hsent & Hstep). destruct r as [q|e]; [|by vm_compute in Hr].
  set (k := runs _ _ _) in *.
  assert (Hq : length (flow_queue k) = 1%nat) by (vm_compute; reflexivity).
  assert (Hfl : length (flows k) = 1%nat) by (vm_compute; reflexivity).
  exists (played true None).1, t, q. split; [exact Hp|]. cbn zeta. fold k.
  split; [by rewrite Hreq, Hsent|]. split; [exact Hq|].
  destruct (flows k) as [|f [|]]; try discriminate Hfl. apply Hstep. rewrite Hq. vm_compute. lia.
Defined.

(** The authenticator's window was closed: the child says so and the launcher answers
    [AuthenticationCancelled], but the context added to the error hides its text, so the
    flow does not take it for a cancellation and shows an error. *)
Definition closes_window (n : nat) (X : Type) (q : FlowE X) : X :=
  match q with LaunchE _ => Some (ran "cancelled") | q => user true n _ q end.
Example closed_window_is_an_error :
  let e := Context "SAML authentication failed" AuthenticationCancelled in
  snd <$> exec closes_window 100 0 (flow_of None) = Some (Some (Err e)) ∧
  is_authentication_cancelled e = true ∧
  flow_report (Err e) = FlowFailed "SAML authentication failed: Authentication cancelled" false.
Proof. vm_compute. repeat split. Qed.
End FlowExample.
