(* ===== verification/WidgetClient.v ===== *)
(** The widget's connection to gpservice (apps/gpwidget/src/daemon/ws_client.rs): finding
    the service, the client's side of the handshake, the pump of a session and the task
    that reconnects it.

    The pump is one function per arm of its [select!]; the task is a state machine whose
    labels carry what the network answered. *)
From S2P Require Import Prelude Utf8 Text ThirdParty LockFile Transport Tunnel TunnelMonitor Session Service.
From S2P Require Import EditedReport Lifecycle SessionRegistry WsServer WidgetModel Widget.
From Stdlib Require Import Strings.Ascii.

#[local] Open Scope N_scope.

Definition RECONNECT_DELAYS_MS : list N := [500; 1000; 2000; 4000; 5000; 5000].

(** * Errors

    The texts of errors are logged only; [Revoked] is the one that is told apart. *)
Inductive ClientError := Revoked | Failure.
Definition or_fail {E A} (r : result E A) : result ClientError A := map_err (λ _, Failure) r.
Definition is_revoked (e : ClientError) : bool := match e with Revoked => true | Failure => false end.

(** VersionMismatch, Unauthorized, SessionReplaced, ServiceRestarted. *)
Definition FINAL_CLOSE_CODES : list N := [4001; 4002; 4003; 4011].
(** [closed], on the code of the frame if there is one. *)
Definition closed (frame : option N) : result ClientError () :=
  match frame with
  | Some code => if existsb (N.eqb code) FINAL_CLOSE_CODES then Err Revoked else Err Failure
  | None => Ok ()
  end.

(** * Finding the service *)
Inductive LockView := PortFound (port : N) | Missing | Unreadable.
Definition classify_lock (r : result LockFileError LockInfo) : LockView :=
  match r with
  | Ok info => if lock_port info <=? u16_max then PortFound (lock_port info) else Missing
  | Err (IoError NotFound) => Missing
  | Err (IoError PermissionDenied) => Unreadable
  | Err _ => Missing
  end.

(** One line of /proc/net/tcp. *)
Definition root_listener (line : string) : option N :=
  let cols := split_whitespace line in
  let col i := default "" (cols !! i) in
  if (N.of_nat (length cols) <? 8) || negb (String.eqb (col 3%nat) "0A") ||
     negb (String.eqb (col 7%nat) "0") then None
  else
    '(ip, port_hex) ← split_once ":" (col 1%nat);
    if negb (String.eqb ip "0100007F") then None else from_str_radix u16_max 16 port_hex.
Definition localhost_root_listeners (table : string) : list N :=
  omap root_listener (tail (lines table)).

Section client.
Context `{UuidFormat} {hs ts : Type} `{Snow hs ts}.
Context `{SerdeJson ServerMessage} `{SerdeJson ClientMessage}.
Context `{SerdeJson ClientPrelude} `{SerdeJson ServerPrelude}.

(** * The socket *)
Inductive Message :=
  | Binary (payload : string)
  | Ping (payload : string)
  | Pong (payload : string)
  | Close (code : option N)
  | OtherFrame.
(** [incoming] ends where the stream does; [None] is an error of it. [writes] says which
    sends succeed; all do when it is used up. *)
Record Socket := {
  incoming : list (option Message);
  writes : list bool;
  outgoing : list Message;
}.
Definition send_message (m : Message) : stm Socket ClientError () := λ k,
  let ok := hd true (writes k) in
  (if (ok : bool) then Ok () else Err Failure,
   {| incoming := incoming k; writes := tl (writes k);
      outgoing := if (ok : bool) then outgoing k ++ [m] else outgoing k |}).
Definition set_incoming (v : list (option Message)) (k : Socket) : Socket :=
  {| incoming := v; writes := writes k; outgoing := outgoing k |}.

Fixpoint recv_frames (frames : list (option Message)) : stm Socket ClientError string := λ k,
  match frames with
  | Some (Binary payload) :: rest => (Ok payload, set_incoming rest k)
  | Some (Ping payload) :: rest =>
      match send_message (Pong payload) (set_incoming rest k) with
      | (Ok _, k) => recv_frames rest k
      | (Err e, k) => (Err e, k)
      end
  | Some (Close frame) :: rest =>
      (match closed frame with Err e => Err e | Ok _ => Err Failure end, set_incoming rest k)
  | _ :: rest => (Err Failure, set_incoming rest k)
  | [] => (Err Failure, k)
  end.
Definition recv_binary : stm Socket ClientError string := λ k, recv_frames (incoming k) k.

(** * The handshake *)
Definition handshake (credential : SessionCredential) (last_revision : option N) :
    stm Socket ClientError (ts * N * VpnEnv) :=
  prelude ← lift (or_fail (client_prelude_encode {|
    prelude_product_version := product_version credential;
    prelude_hip_protocol_version := HIP_PROTOCOL_VERSION;
    prelude_service_instance_id := service_instance_id credential;
    prelude_session_id := session_id credential |}));
  _ ← send_message (Binary prelude);
  answer ← recv_binary;
  answer ← lift (or_fail (server_prelude_decode answer));
  match answer with
  | Transport.Rejected _ => fail Revoked
  | Ready =>
      initiator ← lift (or_fail (initiator_new (product_version credential)
        (service_instance_id credential) (session_id credential) (secret credential)));
      first ← lift (or_fail (write_first initiator));
      _ ← send_message (Binary first.1);
      response ← recv_binary;
      noise ← lift (or_fail (read_response first.2 response));
      attach ← lift (or_fail (encrypt noise (ClientAttach last_revision)));
      _ ← send_message (Binary attach.1);
      attached ← recv_binary;
      attached ← lift (or_fail (decrypt (A:=ServerMessage) attach.2 attached));
      match attached.1 with
      | ServerAttached _ current_revision snapshot => mret (attached.2, current_revision, snapshot)
      | _ => fail Failure
      end
  end.

(** An authenticated, attached session; the socket is the pump's. *)
Record ClientSession := {
  noise : ts;
  session_revision : N;
  session_snapshot : VpnEnv;
}.
(** [establish], once connected and within its timeouts. *)
Definition establish_client (credential : SessionCredential) (last_revision : option N) :
    stm Socket ClientError ClientSession :=
  h ← handshake credential last_revision;
  mret {| noise := h.1.1; session_revision := h.1.2; session_snapshot := h.2 |}.

Record Endpoint := { endpoint_port : option N; announced_probe : bool }.
Fixpoint probe (dial : N → result ClientError ClientSession) (ports : list N) :
    result ClientError (N * ClientSession) :=
  match ports with
  | [] => Err Failure
  | port :: ports =>
      match dial port with
      | Ok session => Ok (port, session)
      | Err _ => probe dial ports
      end
  end.
(** [dial]: what establishing on a port gives; [table]: /proc/net/tcp, if readable. *)
Definition open (file : result IoErrorKind string) (table : option string)
    (dial : N → result ClientError ClientSession) (e : Endpoint) :
    result ClientError ClientSession * Endpoint :=
  match endpoint_port e with
  | Some port => (dial port, e)
  | None =>
      match classify_lock (lock_info_from_file file) with
      | PortFound port =>
          match dial port with
          | Ok session => (Ok session, {| endpoint_port := Some port; announced_probe := announced_probe e |})
          | Err err => (Err err, e)
          end
      | Missing => (Err Failure, e)
      | Unreadable =>
          match table with
          | None => (Err Failure, {| endpoint_port := None; announced_probe := true |})
          | Some table =>
              match probe dial (localhost_root_listeners table) with
              | Ok (port, session) => (Ok session, {| endpoint_port := Some port; announced_probe := true |})
              | Err err => (Err err, {| endpoint_port := None; announced_probe := true |})
              end
          end
      end
  end.

(** * The pump *)
Definition wrapping_add_one (n : N) : N := cast u64_max (n + 1).
(** [pump_sent]: the messages that were encrypted and sent. *)
Record Pump := {
  pump_revision : N;
  pump_notices : list WsNotice;
  pump_sent : list ClientMessage;
}.
Definition tell (n : WsNotice) (p : Pump) : Pump := {|
  pump_revision := pump_revision p; pump_notices := pump_notices p ++ [n];
  pump_sent := pump_sent p |}.
Definition set_pump_revision (r : N) (p : Pump) : Pump :=
  {| pump_revision := r; pump_notices := pump_notices p; pump_sent := pump_sent p |}.
Definition sent_message (m : ClientMessage) (p : Pump) : Pump := {|
  pump_revision := pump_revision p; pump_notices := pump_notices p;
  pump_sent := pump_sent p ++ [m] |}.
Definition pump_start (session : ClientSession) : Pump := {|
  pump_revision := session_revision session;
  pump_notices := [NoticeEvent (WsEvent.EvVpnEnv (session_snapshot session))];
  pump_sent := [] |}.
(** A decrypted message; [send] is whether a message can be encrypted and sent. *)
Definition pump_message (send : bool) (m : ServerMessage) (p : Pump) : result ClientError Pump :=
  match m with
  | ServerEvent next event =>
      p ← (if negb (next =? wrapping_add_one (pump_revision p))
           then if (send : bool) then Ok (sent_message (ClientResync (pump_revision p)) p) else Err Failure
           else Ok p);
      Ok (tell (NoticeEvent event) (set_pump_revision next p))
  | ServerSnapshot current_revision snapshot =>
      Ok (tell (NoticeEvent (WsEvent.EvVpnState (env_vpn_state snapshot)))
            (set_pump_revision current_revision p))
  | ServerReply _ (Rejected rejection) => Ok (tell (NoticeRejected (rejection_message rejection)) p)
  | ServerReply _ _ => Ok p
  | ServerAttached _ _ _ => Err Failure
  | ServerTunnelStatistics _ => Ok p
  end.
Definition pump_request (send : bool) (id : Uuid) (r : WsRequest) (p : Pump) : result ClientError Pump :=
  if send then Ok (sent_message (ClientRequest id r) p) else Err Failure.
(** The messages of a session, in order. *)
Fixpoint pump_all (send : bool) (ms : list ServerMessage) (p : Pump) : result ClientError Pump :=
  match ms with
  | [] => Ok p
  | m :: ms => p ← pump_message send m p; pump_all send ms p
  end.
(** A frame: [inl] goes on, [inr] is what the pump returns. *)
Definition pump_frame (send : bool) (frame : option (option Message)) (np : ts * Pump) :
    (ts * Pump) + result ClientError () :=
  match frame with
  | None => inr (Ok ())
  | Some None => inr (Err Failure)
  | Some (Some (Binary payload)) =>
      match decrypt (A:=ServerMessage) np.1 payload with
      | Err _ => inr (Err Failure)
      | Ok (m, noise) =>
          match pump_message send m np.2 with
          | Ok p => inl (noise, p)
          | Err e => inr (Err e)
          end
      end
  | Some (Some (Ping _)) => if send then inl np else inr (Err Failure)
  | Some (Some (Close code)) => inr (closed code)
  | Some (Some _) => inl np
  end.

(** * The task

    [attempts] is what is left of [RECONNECT_DELAYS_MS]; [notices] what was sent up. *)
Inductive TaskState :=
  | Starting
  | Pumping (session : ClientSession)
  | Reconnecting (attempts : list N) (revision : N)
  | Stopped.
Record Task := { task_state : TaskState; task_endpoint : Endpoint; notices : list WsNotice }.
Definition notice (n : WsNotice) (t : Task) : Task := {|
  task_state := task_state t; task_endpoint := task_endpoint t; notices := notices t ++ [n] |}.
Definition goto (s : TaskState) (t : Task) : Task :=
  {| task_state := s; task_endpoint := task_endpoint t; notices := notices t |}.
Definition set_endpoint (e : Endpoint) (t : Task) : Task :=
  {| task_state := task_state t; task_endpoint := e; notices := notices t |}.
Definition stop_gone (t : Task) : Task := goto Stopped (notice Gone t).

Inductive task_label :=
  | Opened (file : result IoErrorKind string) (table : option string)
      (dial : N → result ClientError ClientSession) (expired : bool)
  | PumpEnded (p : Pump) (r : result ClientError ()) (daemon : bool)
  | Retried (healthy : bool) (file : result IoErrorKind string) (table : option string)
      (dial : N → result ClientError ClientSession).
(** [expired]: the deadline has passed; [daemon]: the daemon still takes notices. A pump
    that ends has told what its [pump_notices] say, and its revision is kept. *)
Definition task_step (t : Task) (l : task_label) : Task :=
  match task_state t, l with
  | Starting, Opened file table dial expired =>
      let '(r, e) := open file table dial (task_endpoint t) in
      let t := set_endpoint e t in
      match r with
      | Ok session => goto (Pumping session) t
      | Err e => if is_revoked e || expired then stop_gone t else t
      end
  | Pumping _, PumpEnded p r daemon =>
      let t := {| task_state := task_state t; task_endpoint := task_endpoint t;
                  notices := notices t ++ pump_notices p |} in
      match r with
      | Err Revoked => stop_gone t
      | _ => if daemon then goto (Reconnecting RECONNECT_DELAYS_MS (pump_revision p)) (notice Lost t)
             else goto Stopped t
      end
  | Reconnecting attempts revision, Retried healthy file table dial =>
      match attempts with
      | [] => stop_gone t
      | _ :: attempts =>
          if bool_decide (is_Some (endpoint_port (task_endpoint t))) && negb healthy then stop_gone t
          else
            let '(r, e) := open file table dial (task_endpoint t) in
            let t := set_endpoint e t in
            match r with
            | Ok session => goto (Pumping session) t
            | Err e =>
                if is_revoked e then stop_gone t
                else match attempts with
                     | [] => stop_gone t
                     | _ => goto (Reconnecting attempts revision) t
                     end
            end
      end
  | _, _ => t
  end.
Definition task_new : Task := {|
  task_state := Starting;
  task_endpoint := {| endpoint_port := None; announced_probe := false |}; notices := [] |}.

(** * Theorems *)

(** ** The pump follows the server *)

Lemma follow_revision st m st' : follow st m = Some st' → st.1 ≤ st'.1.
Proof.
  destruct m; cbn; try (intros [= <-]; done); try done.
  - destruct (_ =? _) eqn:E; [|done]. intros [= <-]. apply N.eqb_eq in E. cbn. lia.
  - destruct (_ =? _) eqn:E; [|done]. intros [= <-]. apply N.eqb_eq in E. cbn. lia.
Qed.
Lemma follow_all_revision ms : ∀ st st', follow_all st ms = Some st' → st.1 ≤ st'.1.
Proof.
  induction ms as [|m ms IH]; cbn; intros st st'; [by intros [= <-]|].
  intros (st1 & Hf & Hr)%bind_Some. etrans; [by eapply follow_revision|by eapply IH].
Qed.
Lemma pump_follow send m p e r' e' :
  follow (pump_revision p, e) m = Some (r', e') → r' ≤ u64_max →
  ∃ p' ns, pump_message send m p = Ok p' ∧ pump_revision p' = r' ∧ pump_sent p' = pump_sent p ∧
    pump_notices p' = pump_notices p ++ ns ∧
    told_states ns (env_vpn_state e) = env_vpn_state e'.
Proof.
  destruct m as [s|id r0 e0|id res|r ev|r env]; cbn; intros Hf Hr.
  - injection Hf as <- <-. exists p, []. by rewrite app_nil_r.
  - done.
  - injection Hf as <- <-. destruct res; try (exists p, []; by rewrite app_nil_r).
    by exists (tell (NoticeRejected (rejection_message r)) p), [NoticeRejected (rejection_message r)].
  - destruct (r =? _) eqn:E; [|done]. apply N.eqb_eq in E. injection Hf as <- <-.
    assert (wrapping_add_one (pump_revision p) = r) as -> by (unfold wrapping_add_one; rewrite cast_small; lia).
    rewrite N.eqb_refl. cbn. eexists _, [NoticeEvent ev]. split; [done|]. cbn.
    repeat split; try done. by destruct ev.
  - destruct (r =? _) eqn:E; [|done]. injection Hf as <- <-.
    by eexists _, [NoticeEvent (WsEvent.EvVpnState (env_vpn_state env))].
Qed.
(** Replies come between the messages the server sends on its own. *)
Definition unsolicited (m : ServerMessage) : bool :=
  match m with ServerReply _ _ => false | _ => true end.
Lemma follow_unsolicited ms : ∀ st, follow_all st (filter (λ m, unsolicited m = true) ms) = follow_all st ms.
Proof.
  induction ms as [|m ms IH]; intros st; [done|]. rewrite filter_cons.
  destruct (unsolicited m) eqn:E; case_decide; try congruence; cbn.
  - by destruct (follow st m); cbn.
  - rewrite IH. by destruct m.
Qed.
Lemma pump_follow_all send ms : ∀ p e r' e',
  follow_all (pump_revision p, e) ms = Some (r', e') → r' ≤ u64_max →
  ∃ p' ns, pump_all send ms p = Ok p' ∧ pump_revision p' = r' ∧ pump_sent p' = pump_sent p ∧
    pump_notices p' = pump_notices p ++ ns ∧
    told_states ns (env_vpn_state e) = env_vpn_state e'.
Proof.
  induction ms as [|m ms IH]; cbn; intros p e r' e' Hf Hr.
  - injection Hf as <- <-. exists p, []. by rewrite app_nil_r.
  - apply bind_Some in Hf as ([r1 e1] & Hm & Hf).
    pose proof (follow_all_revision _ _ _ Hf) as Hle. cbn in Hle.
    destruct (pump_follow send m p e r1 e1 Hm ltac:(lia)) as (p1 & ns1 & -> & <- & Hs & Hn & Ht).
    destruct (IH p1 e1 r' e' Hf Hr) as (p' & ns & Hp & Hr' & Hs' & Hn' & Ht').
    exists p', (ns1 ++ ns). split; [exact Hp|]. split; [done|]. split; [congruence|].
    split; [by rewrite Hn', Hn, app_assoc|].
    unfold told_states in *. by rewrite fold_left_app, Ht.
Qed.
End client.

(** ** The widget and the server *)
Section widget_and_server.
Context {Q : Type → Type} `{MpscLaws Q} {WA : Type → Type} `{WatchLaws WA}.
Context {A D R : Type} `{AttemptHandles A D R}.
Context {MW M : Type} `{MonitorLaws MW M} `{XmlTree}.
Context `{SerdeJson ServerMessage} `{SerdeJson TunnelConfiguration}.
Context {ts : Type} {TS T : Type} `{CancellationTokens TS T} {W : Type → Type} `{Watch W}.
Context `{SerdeJson Gateway, SerdeJson (list Gateway), SerdeJson ServerMsg}.

Lemma server_revision_bounded env r (a : A) (w : MW) ls :
  revision (server (runs (server_step (Q:=Q) (W:=WA)) (system_start env r a w) ls)) ≤ u64_max.
Proof.
  apply (runs_invariant server_step (λ y, revision (server y) ≤ u64_max)); [|done].
  intros y l. apply server_step_revision.
Qed.

(** C33: a widget whose session was attached by the server never misses an event: its
    pump takes every message the server queued, with whatever replies between them, asks
    for no resync, ends at the server's revision, and once the daemon has handled the notices it shows the VPN state of the
    server, whatever else the daemon did in the meantime. *)
Theorem widget_shows_the_servers_state env r (a : A) (w : MW) ls id k (noise : ts) send ms
    (d : Widget (TS:=TS) (T:=T) (W:=W)) wls :
  let y := runs (server_step (Q:=Q) (W:=WA)) (system_start env r a w) ls in
  id ∈ connections (server y) → controls (server y) !! id = Some k →
  receiver_closed (control_tx k) = false →
  ∃ id' r0 e0 rest,
    messages y id k = ServerAttached id' r0 e0 :: rest ∧
    (filter (λ m, unsolicited m = true) ms = filter (λ m, unsolicited m = true) rest →
     ∃ p,
    pump_all send ms (pump_start {| noise := noise; session_revision := r0; session_snapshot := e0 |}) = Ok p ∧
    pump_sent p = [] ∧ pump_revision p = revision (server y) ∧
    (shown d = settled (shown d) → notices_of wls = pump_notices p →
     exited (desk (runs widget_step d wls)) = None →
     shown (runs widget_step d wls) = settled (env_vpn_state (WsServer.snapshot (server y))))).
Proof.
  intros y Hid Hk Hopen.
  pose proof (ri_told y ltac:(apply (runs_invariant server_step replica_inv);
    [intros ? ?; apply server_step_replica|apply replica_start]) id k Hid Hk Hopen)
    as (id' & r0 & e0 & rest & e & Hm & Hf & Hs).
  set (se := {| noise := noise; session_revision := r0; session_snapshot := e0 |}).
  exists id', r0, e0, rest. split; [done|]. intros Hms.
  rewrite <- follow_unsolicited, <- Hms, follow_unsolicited in Hf.
  destruct (pump_follow_all send ms (pump_start se) e0 (revision (server y)) e Hf
    (server_revision_bounded env r a w ls)) as (p & ns & Hp & Hr & Hsent & Hn & Ht).
  exists p. split; [exact Hp|]. split; [exact Hsent|].
  split; [exact Hr|]. intros Hd Hw He. rewrite (runs_show wls d (shown d) Hd He), Hw, Hn.
  unfold told_states in *. cbn. rewrite Ht. apply (f_equal env_vpn_state) in Hs. cbn in Hs. by rewrite Hs.
Qed.
End widget_and_server.

(** ** Reconnecting *)
Section reconnecting.
Context {ts : Type}.
Definition is_retry (l : task_label (ts:=ts)) : bool :=
  match l with Retried _ _ _ _ => true | _ => false end.
Definition settled_task (t : Task (ts:=ts)) : Prop :=
  (∃ session, task_state t = Pumping session) ∨ task_state t = Stopped ∧ list.last (notices t) = Some Gone.
Lemma settled_retry t l : settled_task t → is_retry l = true → settled_task (task_step t l).
Proof. destruct l; try done. unfold task_step. intros [[se E]|[E ?]] _; rewrite E; [left; by eexists|by right]. Qed.
Lemma stop_settled (t : Task (ts:=ts)) : settled_task (stop_gone t).
Proof. right. split; [done|]. cbn. by rewrite list.last_snoc. Qed.
Lemma retry_step t l atts rev : task_state t = Reconnecting atts rev → is_retry l = true →
  settled_task (task_step t l) ∨
  ∃ a a' atts', atts = a :: a' :: atts' ∧ task_state (task_step t l) = Reconnecting (a' :: atts') rev.
Proof.
  intros Ht Hl. destruct l as [| |healthy file table dial]; try done. unfold task_step. rewrite Ht.
  destruct atts as [|a atts]; [left; apply stop_settled|].
  case_match; [left; apply stop_settled|].
  destruct (open file table dial (task_endpoint t)) as [[se|e] ep]; [left; left; by eexists|].
  destruct (is_revoked e); [left; apply stop_settled|].
  destruct atts as [|a' atts]; [left; apply stop_settled|]. right. by exists a, a', atts.
Qed.
Lemma retries_settle ls : ∀ t atts rev,
  settled_task t ∨ task_state t = Reconnecting atts rev ∧ (length atts ≤ length ls)%nat ∧ atts ≠ [] →
  Forall (λ l, is_retry l = true) ls → settled_task (runs task_step t ls).
Proof.
  induction ls as [|l ls IH]; intros t atts rev Ht Hls; cbn.
  - destruct Ht as [|(_ & Hl & Hne)]; [done|]. destruct atts; cbn in *; [done|lia].
  - inversion_clear Hls as [|? ? Hl Hls']. destruct Ht as [Ht|(Ht & Hlen & _)].
    + apply (IH _ [] 0); [left; by apply settled_retry|done].
    + destruct (retry_step t l atts rev Ht Hl) as [Hs|(a & a' & atts' & -> & Hs)].
      * apply (IH _ [] 0); [by left|done].
      * apply (IH _ (a' :: atts') rev); [right|done]. split; [done|]. cbn in *. split; [lia|done].
Qed.

(** C34: when a session ends, the widget reconnects within as many attempts as there are
    delays, or stops and tells the daemon that the service is gone; a service that ended
    the session for good is not asked again. *)
Theorem reconnecting_settles (t : Task (ts:=ts)) session p r ls :
  task_state t = Pumping session → Forall (λ l, is_retry l = true) ls →
  length ls = length RECONNECT_DELAYS_MS →
  settled_task (runs task_step (task_step t (PumpEnded p r true)) ls) ∧
  (r = Err Revoked → task_state (task_step t (PumpEnded p r true)) = Stopped).
Proof.
  intros Ht Hls Hlen. set (t1 := task_step t _).
  assert (settled_task t1 ∨ task_state t1 = Reconnecting RECONNECT_DELAYS_MS (pump_revision p)) as H1.
  { subst t1. unfold task_step. rewrite Ht. destruct r as [u|[|]]; [by right| |by right].
    left. apply stop_settled. }
  split.
  - apply (retries_settle ls t1 RECONNECT_DELAYS_MS (pump_revision p)); [|done].
    destruct H1 as [|]; [by left|right]. split; [done|]. split; [by rewrite Hlen|done].
  - intros ->. subst t1. unfold task_step. by rewrite Ht.
Qed.
End reconnecting.

(** * Concrete runs *)
Module ClientExample.
Import Concrete.
#[export] Existing Instance WidgetExample.json_lines.
#[export] Existing Instance WidgetExample.json_gateway.
#[export] Existing Instance WidgetExample.json_gateways.

(** [/proc/net/tcp] on a host where root listens on port 4242 and a user on 8080. *)
Definition table : string :=
  "  sl  local_address rem_address   st tx_queue rx_queue tr tm->when retrnsmt   uid" +:+ String newline
  "   0: 0100007F:1092 00000000:0000 0A 00000000:00000000 00:00000000 00000000     0" +:+ String newline
  "   1: 0100007F:1F90 00000000:0000 0A 00000000:00000000 00:00000000 00000000  1000" +:+ String newline
  "   2: 00000000:0016 00000000:0000 0A 00000000:00000000 00:00000000 00000000     0" +:+ String newline "".
Example listeners_of_the_table : localhost_root_listeners table = [4242].
Proof. by vm_compute. Qed.

Import ServerExample.
Definition served := runs server_step start listening.
Definition rest : list ServerMessage := tail (messages served 100 listener).
Definition session : ClientSession (ts:=unit) := {|
  noise := (); session_revision := 0; session_snapshot := server_snapshot (server start) |}.
Definition told : list WsNotice :=
  match pump_all true rest (pump_start session) with Ok p => pump_notices p | Err _ => [] end.
Definition handled : list (Host * label) := (λ n, WidgetExample.at_host (RecvNotice (Some n))) <$> told.
Lemma widget_shows_the_servers_state_witness :
  length told = 3%nat ∧
  shown (runs widget_step WidgetExample.start handled) =
    settled (env_vpn_state (WsServer.snapshot (server served))) ∧
  env_vpn_state (WsServer.snapshot (server served)) = VpnState.Disconnecting.
Proof.
  split; [by vm_compute|]. split; [|by vm_compute].
  destruct (widget_shows_the_servers_state quiet_env RegistryExample.s2.1 ∅ world listening 100 listener
    () true rest WidgetExample.start handled
    ltac:(apply (bool_decide_unpack _); by vm_compute) ltac:(by vm_compute) ltac:(by vm_compute))
    as (id & r0 & e0 & rest' & Hm & Hp).
  vm_compute in Hm. injection Hm as <- <- <- <-.
  destruct Hp as (p & Hpump & _ & _ & Hshown); [by vm_compute|].
  apply Hshown; [by vm_compute| |by vm_compute].
  vm_compute in Hpump. injection Hpump as <-. by vm_compute.
Defined.

(** A task that lost its session; the service refuses it six times. *)
Definition lost : Task (ts:=unit) := {|
  task_state := Pumping session;
  task_endpoint := {| endpoint_port := Some 4242; announced_probe := false |}; notices := [] |}.
Definition refused : task_label (ts:=unit) := Retried true (Err NotFound) None (λ _, Err Failure).
Lemma reconnecting_settles_witness :
  settled_task (runs task_step (task_step lost (PumpEnded (pump_start session) (Ok ()) true)) (repeat refused 6)) ∧
  notices (runs task_step (task_step lost (PumpEnded (pump_start session) (Ok ()) true)) (repeat refused 6)) =
    pump_notices (pump_start session) ++ [Lost; Gone].
Proof.
  split; [|by vm_compute].
  apply (reconnecting_settles lost session (pump_start session) (Ok ()) (repeat refused 6));
    [done|by repeat constructor|done].
Defined.
End ClientExample.
