(* ===== verification/ClientSession.v ===== *)
(** The session of a command-line client while its tunnel runs
    (apps/gpclient/src/session.rs) and its extension at the gateway
    (crates/gpapi/src/gateway/session.rs).

    The runtime is a program: it reads the clock, sleeps, shows notices and asks the
    gateway. [Pace] is when it may do so. *)
From S2P Require Import Prelude Utf8 Text ThirdParty ClientProfile Xml GpHttp Interaction.
From S2P Require Import Session Credential Portal GatewayLogin.
From S2P Require Lifecycle.
From ITree Require Import ITree.

#[local] Open Scope N_scope.

(** * What a request of the session needs (session.rs of gpapi) *)
Record SessionRequestArgs := {
  args_cookie : string;
  args_user_agent : option string;
  args_certificate : option string;
  args_sslkey : option string;
  args_key_password : option string;
  args_disable_ipv6 : bool;
}.
Definition request_args_new (cookie : string) : SessionRequestArgs := {|
  args_cookie := cookie; args_user_agent := None; args_certificate := None; args_sslkey := None;
  args_key_password := None; args_disable_ipv6 := false |}.
Definition with_user_agent (v : option string) (a : SessionRequestArgs) : SessionRequestArgs := {|
  args_cookie := args_cookie a; args_user_agent := v; args_certificate := args_certificate a;
  args_sslkey := args_sslkey a; args_key_password := args_key_password a;
  args_disable_ipv6 := args_disable_ipv6 a |}.
Definition with_certificate (v : option string) (a : SessionRequestArgs) : SessionRequestArgs := {|
  args_cookie := args_cookie a; args_user_agent := args_user_agent a; args_certificate := v;
  args_sslkey := args_sslkey a; args_key_password := args_key_password a;
  args_disable_ipv6 := args_disable_ipv6 a |}.
Definition with_sslkey (v : option string) (a : SessionRequestArgs) : SessionRequestArgs := {|
  args_cookie := args_cookie a; args_user_agent := args_user_agent a;
  args_certificate := args_certificate a; args_sslkey := v;
  args_key_password := args_key_password a; args_disable_ipv6 := args_disable_ipv6 a |}.
Definition with_key_password (v : option string) (a : SessionRequestArgs) : SessionRequestArgs := {|
  args_cookie := args_cookie a; args_user_agent := args_user_agent a;
  args_certificate := args_certificate a; args_sslkey := args_sslkey a;
  args_key_password := v; args_disable_ipv6 := args_disable_ipv6 a |}.
Definition with_disable_ipv6 (v : bool) (a : SessionRequestArgs) : SessionRequestArgs := {|
  args_cookie := args_cookie a; args_user_agent := args_user_agent a;
  args_certificate := args_certificate a; args_sslkey := args_sslkey a;
  args_key_password := args_key_password a; args_disable_ipv6 := v |}.

Section session.
Context `{UrlEncoding} `{Xmltree} `{UrlCrate} {ClientIdentity : Type}.
Notation Client := (GatewayLoginClient (ClientIdentity := ClientIdentity)).

Record SessionExtensionAuth := {
  ext_credential : Credential;
  ext_client : Client;
  ext_binding : option GatewayBinding;
}.
Definition extension_auth_new (cred : Credential) (c : Client) : SessionExtensionAuth :=
  {| ext_credential := cred; ext_client := c; ext_binding := None |}.
Definition with_binding (b : option GatewayBinding) (a : SessionExtensionAuth) : SessionExtensionAuth :=
  {| ext_credential := ext_credential a; ext_client := ext_client a; ext_binding := b |}.
Definition ext_identity (a : SessionExtensionAuth) : option ClientIdentity :=
  prepared_identity (client_params (ext_client a)).
Record SessionContext := {
  ctx_server : string;
  ctx_portal : string;
  session_args : SessionRequestArgs;
  extension_auth : option SessionExtensionAuth;
}.
Definition session_context_new (server portal : string) (a : SessionRequestArgs) : SessionContext :=
  {| ctx_server := server; ctx_portal := portal; session_args := a; extension_auth := None |}.
Definition with_extension_auth (a : SessionExtensionAuth) (c : SessionContext) : SessionContext :=
  {| ctx_server := ctx_server c; ctx_portal := ctx_portal c; session_args := session_args c;
     extension_auth := Some a |}.

Record SessionContextInput := {
  input_portal : string;
  input_gateway : string;
  input_cookie : string;
  input_profile : OsProfile;
  input_certificate : option string;
  input_sslkey : option string;
  input_key_password : option string;
  input_disable_ipv6 : bool;
  input_extension : option SessionExtensionAuth;
}.
Definition build_session_context (i : SessionContextInput) : SessionContext :=
  let a := with_disable_ipv6 (input_disable_ipv6 i)
    (with_key_password (input_key_password i)
      (with_sslkey (input_sslkey i)
        (with_certificate (input_certificate i)
          (with_user_agent (Some (profile_user_agent (input_profile i)))
            (request_args_new (input_cookie i)))))) in
  let c := session_context_new (input_gateway i) (input_portal i) a in
  match input_extension i with
  | Some e => with_extension_auth e c
  | None => c
  end.
Definition session_info_from_vpn (format_duration_secs : N → string) (now : N)
    (i : Lifecycle.VpnSessionInfo) (allow_extend : bool) : SessionInfo :=
  from_vpn_session_fields format_duration_secs now (Lifecycle.vsi_lifetime_secs i)
    (Lifecycle.vsi_user_expires i) (Lifecycle.vsi_lifetime_warning i) allow_extend.

(** * The warning schedule *)
Record SessionWarningSchedule := {
  schedule_delay : N;
  schedule_message : string;
  should_auto_extend : bool;
}.
(** [now] in seconds, of which the code keeps 32 bits. *)
Definition build_session_warning_schedule (now : N) (i : SessionInfo) : option SessionWarningSchedule :=
  warning ← lifetime_warning i;
  delay ← match user_expires i with
          | Some expires => Some (expires - prior_secs warning - now mod (u32_max + 1))
          | None => (λ l, l - prior_secs warning) <$> lifetime_secs i
          end;
  Some {| schedule_delay := delay; schedule_message := warning_message warning;
          should_auto_extend := allow_extend_session i |}.

(** * The extension *)
Definition EXTEND_SESSION_MESSAGE : string := "User Session Extension".
Definition EXTEND_SESSION_COMMENT : string := "User extends the login lifetime".
Definition parse_cookie_form (a : SessionRequestArgs) : gmap string string :=
  list_to_map (rev (form_urlencoded_parse (args_cookie a))).
Definition build_extend_session_form (now : N) (c : SessionContext) : gmap string string :=
  <["comment" := EXTEND_SESSION_COMMENT]> (<["message" := EXTEND_SESSION_MESSAGE]>
    (<["timestamp" := to_string now]> (<["portal" := ctx_portal c]>
      (parse_cookie_form (session_args c))))).
Definition parse_extend_session_status (root : Element) : result Failure string :=
  ok_or (Message "Malformed extend session response") (attr "status" root).
Definition validate_extension_login (l : GatewayLogin) : result Failure () :=
  match l with
  | Authenticated _ => Ok ()
  | Mfa _ _ => bail "Session extension requires an interactive gateway challenge"
  end.

Inductive Level := LevelInfo | LevelWarn.
Inductive SessionE : Type → Type :=
  | NowE : SessionE N
  | SleepE (secs : N) : SessionE ()
  (** The dashboard's notice, and the terminal's line. *)
  | NoticeE (level : Level) (text : string) : SessionE ()
  | ReportE (level : Level) (text : string) : SessionE ()
  | ExtendLoginE (url : string) (form : Params) : SessionE (result NetworkError LoginAnswer)
  (** The logout of a cookie nobody will use. *)
  | RevokeE (cookie : string) : SessionE ()
  | AgentMessageE (url : string) (form : gmap string string) : SessionE (result NetworkError Response).

Variable origin_text : Url → string.
Variable url_text : Url → string.
Variable to_socket_addrs : string → N → option (list IpAddr).
Variable format_duration_secs : N → string.
(** The [Display] of an HTTP status. *)
Variable status_text : N → string.
Notation Flow := (flow SessionE).
#[local] Open Scope flow_scope.

Definition gp_error_text (e : GpError) : string :=
  "GP response error: reason=" +:+ reason e +:+ ", status=" +:+ status_text (error_status e) +:+
  ", body=" +:+ error_body e.
Definition retained (c : SessionContext) : result Failure SessionExtensionAuth :=
  ok_or (Message "Session extension requires retained gateway auth state") (extension_auth c).
(** [extend_lifetime] of the login client, its request asked for. *)
Definition extend_lifetime (a : SessionExtensionAuth) : Flow GatewayLogin :=
  let c := ext_client a in
  let* answer := ask (ExtendLoginE (trim_end_slashes (url_text (origin c)) +:+ "/ssl-vpn/login.esp")
    (login_request url_text to_socket_addrs (origin c) (ext_credential a) (client_params c) None None true)) in
  let '(r, logout) := extend_lifetime_login origin_text url_text to_socket_addrs (λ _ _, answer)
                        (ext_credential a) c in
  let* _ := match logout with Some cookie => ask (RevokeE cookie) | None => ok () end in
  pure r.
Definition extend_session_lifetime (c : SessionContext) : Flow () :=
  let* a := pure (retained c) in
  let* login := extend_lifetime a in
  pure (validate_extension_login login).
Definition extend_session (c : SessionContext) : Flow () :=
  let* _ := extend_session_lifetime c in
  let* a := pure (retained c) in
  let url := trim_end_slashes (url_text (origin (ext_client a))) +:+ "/ssl-vpn/agentmessage.esp" in
  let* now := ask NowE in
  let* answer := ask (AgentMessageE url (build_extend_session_form now c)) in
  let* res := pure (map_err (λ e, Message (net_text e)) answer) in
  let* body := pure (map_err (λ e, Message (gp_error_text e)) (parse_gp_response res)) in
  let* root := pure (map_err Message (parse_xml body)) in
  let* status := pure (parse_extend_session_status root) in
  if String.eqb status "success" then ok ()
  else throw (Message ("Extend session rejected: " +:+ status)).

(** * The runtime

    The clock is read first also where the schedule does not need it. *)
Definition newline_text (s : string) : string := String (Ascii.ascii_of_nat 10) s.
Definition session_turn (c : SessionContext) (i : SessionInfo) : Flow (SessionInfo + ()) :=
  let* now := ask NowE in
  match build_session_warning_schedule now i with
  | None => ok (inr ())
  | Some s =>
      let* _ := ask (SleepE (schedule_delay s)) in
      let* _ := ask (NoticeE LevelWarn (schedule_message s)) in
      let* _ := ask (ReportE LevelWarn (newline_text ("WARNING: " +:+ schedule_message s))) in
      if negb (should_auto_extend s) then ok (inr ())
      else either (extend_session c) (λ r,
        match r with
        | Ok _ =>
            let* now := ask NowE in
            match rescheduled_after_extension format_duration_secs (now mod (u32_max + 1)) i with
            | None => ok (inr ())
            | Some i =>
                let* _ := ask (NoticeE LevelInfo "Session extended.") in
                let* _ := ask (ReportE LevelInfo "Session extended.") in
                ok (inl i)
            end
        | Err e =>
            let* _ := ask (ReportE LevelWarn ("WARNING: Failed to extend session: " +:+ to_text e)) in
            ok (inr ())
        end)
  end.
Definition run_session_runtime (c : SessionContext) (i : SessionInfo) : Flow () :=
  repeating (session_turn c) i.
End session.

(** * The schedule *)
(** A warning is shown when [prior_secs] are left, if the sleep lasts as long as it was
    asked to and the clock has 32 bits. *)
Lemma schedule_in_time now i s expires warning :
  build_session_warning_schedule now i = Some s → user_expires i = Some expires →
  lifetime_warning i = Some warning → now ≤ u32_max →
  expires ≤ now + schedule_delay s + prior_secs warning ∧
  (now + prior_secs warning ≤ expires → now + schedule_delay s + prior_secs warning = expires).
Proof.
  unfold build_session_warning_schedule. intros Hs He Hw Hn. rewrite Hw, He in Hs. cbn in Hs.
  simplify_eq. cbn [schedule_delay]. rewrite N.mod_small by lia. lia.
Qed.
(** With a lifetime no longer than the warning time every schedule after an extension is
    due at once: extensions follow each other without a pause. *)
Lemma extension_without_pause f now now' i i' s lifetime warning :
  lifetime_secs i = Some lifetime → lifetime_warning i = Some warning → lifetime ≤ prior_secs warning →
  rescheduled_after_extension f now i = Some i' → now ≤ now' ≤ u32_max →
  build_session_warning_schedule now' i' = Some s → schedule_delay s = 0.
Proof.
  intros Hl Hw Hp. unfold rescheduled_after_extension. rewrite Hl. cbn. intros [= <-] Hn.
  unfold build_session_warning_schedule. cbn. rewrite Hw. cbn. intros [= <-]. cbn.
  unfold saturating_add. rewrite N.mod_small by lia. lia.
Qed.

(** * The user is warned before the gateway is asked *)
Inductive Pace := Quiet | Warned | Extending | Announced | Over.
Section pace.
Context `{UrlEncoding} `{Xmltree} `{UrlCrate} {ClientIdentity : Type}.
Variables (origin_text url_text : Url → string) (sockets : string → N → option (list IpAddr)).
Variables (format_duration_secs status_text : N → string).
Variable allowed : bool.
Definition pace_step (s : Pace) (e : event SessionE) (s' : Pace) : Prop :=
  let '@Ev _ X q _ := e in
  match q with
  | NowE => s' = s
  | SleepE _ => s = Quiet ∧ s' = Quiet
  | NoticeE LevelWarn _ => s = Quiet ∧ s' = Warned
  | NoticeE LevelInfo _ => s = Announced ∧ s' = Quiet
  | ReportE LevelWarn _ => s ≠ Quiet ∧ s ≠ Over ∧ (s' = Over ∨ s = Warned ∧ s' = Warned)
  | ReportE LevelInfo _ => s = Quiet ∧ s' = Quiet
  | ExtendLoginE _ _ => s = Warned ∧ allowed = true ∧ s' = Extending
  | RevokeE _ => s = Extending ∧ s' = Extending
  | AgentMessageE _ _ => s = Extending ∧ s' = Announced
  end.
Notation paced m := (spec pace_step Quiet Quiet m (λ s _, s ≠ Quiet)).
Notation runtime c := (run_session_runtime (ClientIdentity := ClientIdentity)
  origin_text url_text sockets format_duration_secs status_text c).

(** Whatever [extend_session] does after the warning, it can be reported. *)
Definition extended (s : Pace) (r : result Failure ()) : Prop :=
  match r with Ok _ => s = Announced | Err _ => s = Warned ∨ s = Extending ∨ s = Announced end.
Lemma extend_session_paced c : allowed = true →
  spec pace_step Quiet Warned
    (extend_session (ClientIdentity := ClientIdentity) origin_text url_text sockets status_text c) extended.
Proof.
  intros Ha. unfold extend_session, extend_session_lifetime, extend_lifetime.
  apply (spec_bind _ _ _ _ _ (λ s r, match r with Ok _ => s = Extending | Err _ => extended s (Err (Message "")) end)).
  - apply spec_let_pure. destruct (retained c) as [a|e]; [|by left].
    apply (spec_bind _ _ _ _ _ (λ s _, s = Extending)).
    + apply spec_ask. intros answer. exists Extending. split; [done|].
      destruct (extend_lifetime_login _ _ _ _ _ _) as [r [cookie|]].
      * apply spec_ask. intros []. exists Extending. split; [done|]. by apply spec_pure.
      * apply (spec_bind _ _ _ _ _ (λ s _, s = Extending)); [by apply spec_ok|intros s [] ->|done].
        by apply spec_pure.
    + intros s l ->. apply spec_pure. destruct l; [done|by right; left].
    + intros s e ->. by right; left.
  - intros s [] ->. apply spec_let_pure. destruct (retained c) as [a|e]; [|by right; left].
    apply spec_ask. intros now. exists Extending. split; [done|].
    apply spec_ask. intros answer. exists Announced. split; [done|].
    do 4 (apply spec_let_pure; match goal with |- match ?r with _ => _ end => destruct r end; [|by right; right]).
    destruct (String.eqb _ _); [by apply spec_ok|apply spec_throw; by right; right].
  - by intros s e Hs.
Qed.
Lemma runtime_paced c i : (allow_extend_session i = true → allowed = true) →
  spec pace_step Quiet Quiet (runtime c i) (λ _ r, r = Ok ()).
Proof.
  intros Hi. apply (spec_repeating _ _ _ _ (λ s i, s = Quiet ∧ (allow_extend_session i = true → allowed = true)));
    [|done]. clear i Hi. intros s i [-> Hi]. apply spec_ask. intros now. exists Quiet. split; [done|].
  destruct (build_session_warning_schedule now i) as [w|] eqn:Es; [|by apply spec_ok].
  assert (should_auto_extend w = allow_extend_session i) as Hw.
  { unfold build_session_warning_schedule in Es. destruct (lifetime_warning i); [cbn in Es|done].
    destruct (match user_expires i with Some _ => _ | None => _ end); [|done]. by injection Es as <-. }
  apply spec_ask. intros []. exists Quiet. split; [done|]. apply spec_ask. intros []. exists Warned.
  split; [done|]. apply spec_ask. intros []. exists Warned. split; [by split_and!; [..|right]|].
  destruct (should_auto_extend w) eqn:Ew; cbn [negb]; [|by apply spec_ok].
  eapply spec_either; [apply extend_session_paced; auto|]. intros s [[]|e] Hs.
  - apply spec_ask. intros now'. exists s. split; [done|]. cbn in Hs. subst s.
    destruct (rescheduled_after_extension _ _ i) as [i'|] eqn:Er; [|by apply spec_ok].
    apply spec_ask. intros []. exists Quiet. split; [done|]. apply spec_ask. intros []. exists Quiet.
    split; [done|]. apply spec_ok. split; [done|]. unfold rescheduled_after_extension in Er.
    destruct (lifetime_secs i); [|done]. cbn in Er. by injection Er as <-.
  - apply spec_ask. intros []. exists Over. split; [|by apply spec_ok].
    destruct Hs as [->|[->| ->]]; (split; [done|]; split; [done|]; by left).
Qed.
(** In every run of the session's runtime the gateway is asked to extend the session only
    if it allows extensions and after the user was warned; what an extension needs
    follows at once, and after a failure nothing is sent any more. *)
Lemma session_runtime_lawful c i l t : (allow_extend_session i = true → allowed = true) →
  plays (runtime c i) l t → accepted pace_step Quiet l.
Proof. intros Hi Hp. by eapply spec_runs, Hp; apply runtime_paced. Qed.
End pace.
