(* ===== verification/ClientConnect.v ===== *)
(** Connecting with the command-line client (apps/gpclient/src/connect: mod.rs, args.rs,
    credential.rs, gateway.rs, internal.rs and vpn_script).

    The handler is a program over [ClientE] with the state its [RefCell]s hold: it asks the
    portal, the gateways, the user, standard input, the cookie cache, the tunnel library
    and the maintenance of internal sessions. The token is read with [CancelledE] until it
    is seen cancelled, which it stays. What is only reported is left out. *)
From S2P Require Import Prelude Utf8 Text ThirdParty ClientProfile Xml GpHttp Interaction Stateful.
From S2P Require Import ChildProcess Csc Session Credential AuthLauncher Portal GatewayLogin GatewayTransport.
From S2P Require HostCollection CookieStore ClientSession Openconnect NonTunnel AttemptRuntime Lifecycle.
From ITree Require Import ITree.

#[local] Open Scope N_scope.
#[local] Open Scope sflow_scope.

(** * Arguments (args.rs) *)
Record ConnectArgs := {
  server : string;
  dashboard : bool;
  arg_gateway : option string;
  auto_gateway : bool;
  arg_user : option string;
  passwd_on_stdin : bool;
  cookie_on_stdin : bool;
  cookie_cache : option string;
  script : option string;
  interface : option string;
  script_tun : bool;
  as_gateway : bool;
  hip : option string;
  hip_user : option string;
  arg_certificate : option string;
  arg_sslkey : option string;
  arg_key_password : option string;
  csd_user : option string;
  csd_wrapper : option string;
  reconnect_timeout : N;
  mtu : option N;
  ip_preference : Session.IpPreference.t;
  disable_ipv6 : bool;
  arg_client_version : option string;
  os : ClientOs;
  csc : CscMode;
  no_dtls : bool;
  local_hostname : option string;
  dpd_interval : option N;
  no_xmlpost : bool;
  (** Those of the feature webview-auth. *)
  arg_hidpi : bool;
  arg_clean : bool;
  arg_default_browser : bool;
  arg_browser : option string;
  arg_browser_listen : option IpAddr;
  cookie_only : bool;
}.
Record SharedArgs := {
  arg_ignore_tls_errors : bool;
  arg_verbose : option string;
  arg_log_format : LogFormat;
}.

(** What this machine is and answers. *)
Record ClientMachine (ClientIdentity : Type) := {
  system : HostCollection.System;
  home : option string;
  variables : string → option string;
  wayland : bool;
  canonicalize : string → option string;
  bundled_gpauth : string;
  non_root : Command → result Failure Command;
  http_client : GpParams ClientIdentity → result Failure ();
  load_identity : string → option string → option string → result Failure ClientIdentity;
  identity_key_password : ClientIdentity → option string;
  resolve : string → N → option (list IpAddr);
  local_ipv4 : string → option string;
  csc_reader : CscDataReader;
  user_by_name : string → option User;
  exists_file : string → bool;
  is_file : string → bool;
  is_executable : string → bool;
  metadata_is_file : string → result Openconnect.OsError bool;
  gp_vpnc_script : option string;
  current_exe : option string;
  (** [gphip::generate_report_with_control] for a profile, and its errors' texts. *)
  hip_report : OsProfile → Openconnect.HipRequest → option (result Openconnect.OsError string);
  os_error_text : Openconnect.OsError → string;
}.
Arguments system {_} _.
Arguments home {_} _.
Arguments variables {_} _ _.
Arguments wayland {_} _.
Arguments canonicalize {_} _ _.
Arguments bundled_gpauth {_} _.
Arguments non_root {_} _ _.
Arguments http_client {_} _ _.
Arguments load_identity {_} _ _ _ _.
Arguments identity_key_password {_} _ _.
Arguments resolve {_} _ _ _.
Arguments local_ipv4 {_} _ _.
Arguments csc_reader {_} _.
Arguments user_by_name {_} _ _.
Arguments exists_file {_} _ _.
Arguments is_file {_} _ _.
Arguments is_executable {_} _ _.
Arguments metadata_is_file {_} _ _.
Arguments gp_vpnc_script {_} _.
Arguments current_exe {_} _.
Arguments hip_report {_} _ _ _.
Arguments os_error_text {_} _ _.

(** * Questions *)
Inductive StdinLine := CookieLine | PasswordLine.
Inductive Prompt :=
  | UsernamePrompt (label : string)
  | PasswordPrompt (label : string)
  | PassphrasePrompt (label : string)
  | OtpPrompt (message : string).
(** The answers to a [discover], its checks of the token inside. *)
Record Discovered := {
  portal_server : PortalServer;
  detection : InternalHostDetection → result string bool;
  discovery_millis : N;
  cancelled_parsing : bool;
  cancelled_detecting : bool;
}.
Record LoginPost := {
  cancelled_before : bool;
  login_post : string → Params → option (result NetworkError LoginAnswer);
}.
(** How writing the PID file goes: when it fails, a file it created, emptied or wrote in
    part may be left. *)
Inductive PidWrite :=
  | PidWritten
  | PidFailed (left_behind : bool).
Definition write_pid_file (w : PidWrite) : bool :=
  match w with PidWritten => true | PidFailed _ => false end.
(** How the tunnel's thread ends, [None] when it panicked; what its connect callback did
    before, with how writing the PID file went. *)
Inductive TunnelStart :=
  | TunnelExited (code : option Z) (established : option PidWrite)
  | TunnelEstablished (w : PidWrite)
  | TunnelUnestablished.
Inductive MaintainStart :=
  | MaintainEnded (r : result string NonTunnel.SessionExit) (logged_out : list string)
  | MaintainEstablished.

Section client.
Context {ClientIdentity : Type}.
Notation LoginClient := (GatewayLoginClient (ClientIdentity := ClientIdentity)).
Inductive ClientE : Type → Type :=
  | CancelledE : ClientE bool
  | CancelE : ClientE ()
  | PreloginE : ClientE (option (string → Params → Params → result NetworkError Response))
  | DiscoverE : ClientE Discovered
  | StdinE (line : StdinLine) : ClientE (result string string)
  | PromptE (p : Prompt) : ClientE (result string string)
  | SelectE (l : list Gateway) : ClientE (result string { g | g ∈ l })
  (** The end of the authenticator, and the token after it. *)
  | LaunchE (s : SamlAuthLauncher) (l : Launch) : ClientE (WorkerEnd * bool)
  | ReadCacheE (path : string) : ClientE (option string)
  | SaveCacheE (path : string) (stored : option N → CookieStore.StoredCookie) : ClientE (result string ())
  | ClearCacheE (path : string) : ClientE ()
  | LoginE (gateway : string) (c : LoginClient) (cred : Credential)
      (ctx : option GatewayLoginContext) : ClientE LoginPost
  | RevokeE (cookie : string) : ClientE ()
  | BindE (g : Gateway) (c : LoginClient) : ClientE (Url → SocketAddr → bool → result string GatewayBinding)
  | LogoutE (s : GatewaySession) : ClientE ()
  | LogoutAllE (l : GatewaySessions) : ClientE ()
  | RelinquishE (l : GatewaySessions) : ClientE ()
  | PrintCookieE (cookie gateway : string) : ClientE ()
  (** The certificate's and the key's file. *)
  | IdentityFilesE (i : ClientIdentity) : ClientE (result string (string * option string))
  | RedirectStdioE : ClientE (result string ())
  | DashboardE : ClientE (result string ())
  | DashboardStartE : ClientE (result string ())
  | DashboardFinishE : ClientE (result string ())
  | DetachE : ClientE (result string ())
  | AttachMonitorE : ClientE ()
  | StopMonitorE : ClientE ()
  (** The tunnel, with the session its runtime keeps when it is established. *)
  | TunnelE (gateway : string) (v : Openconnect.Vpn)
      (session : ClientSession.SessionContext (ClientIdentity := ClientIdentity)) (allow_extend : bool) :
      ClientE TunnelStart
  (** Has the tunnel ended when the cleanup is done? *)
  | TunnelGoneE : ClientE (option (option Z))
  | JoinTunnelE : ClientE (option Z)
  | DisconnectRequestedE : ClientE bool
  | CaptureNetworkE : ClientE (result string ())
  | ValidateBindingE (b : GatewayBinding) : ClientE (result string ())
  | WritePidE : ClientE PidWrite
  | RemovePidE : ClientE (result string ())
  | MaintainE (l : GatewaySessions) : ClientE MaintainStart
  | MaintainEndE (l : GatewaySessions) : ClientE (result string NonTunnel.SessionExit * list string)
  | JoinMonitorE : ClientE bool.

(** * The handler *)
Record Handler := {
  profile : OsProfile;
  latest_key_password : option string;
  password_from_stdin : option string;
  cookie_from_stdin : option string;
  clean_requested : bool;
  auth_recovery : RecoveryState;
  sessions : GatewaySessions;
  pid_written : bool;
  (** The token was seen cancelled. *)
  cancelled_seen : bool;
}.
Definition set_profile (v : OsProfile) (h : Handler) : Handler := {|
  profile := v; latest_key_password := latest_key_password h;
  password_from_stdin := password_from_stdin h; cookie_from_stdin := cookie_from_stdin h;
  clean_requested := clean_requested h; auth_recovery := auth_recovery h; sessions := sessions h;
  pid_written := pid_written h; cancelled_seen := cancelled_seen h |}.
Definition set_latest_key_password (v : option string) (h : Handler) : Handler := {|
  profile := profile h; latest_key_password := v;
  password_from_stdin := password_from_stdin h; cookie_from_stdin := cookie_from_stdin h;
  clean_requested := clean_requested h; auth_recovery := auth_recovery h; sessions := sessions h;
  pid_written := pid_written h; cancelled_seen := cancelled_seen h |}.
Definition set_password_from_stdin (v : option string) (h : Handler) : Handler := {|
  profile := profile h; latest_key_password := latest_key_password h;
  password_from_stdin := v; cookie_from_stdin := cookie_from_stdin h;
  clean_requested := clean_requested h; auth_recovery := auth_recovery h; sessions := sessions h;
  pid_written := pid_written h; cancelled_seen := cancelled_seen h |}.
Definition set_cookie_from_stdin (v : option string) (h : Handler) : Handler := {|
  profile := profile h; latest_key_password := latest_key_password h;
  password_from_stdin := password_from_stdin h; cookie_from_stdin := v;
  clean_requested := clean_requested h; auth_recovery := auth_recovery h; sessions := sessions h;
  pid_written := pid_written h; cancelled_seen := cancelled_seen h |}.
Definition set_clean_requested (v : bool) (h : Handler) : Handler := {|
  profile := profile h; latest_key_password := latest_key_password h;
  password_from_stdin := password_from_stdin h; cookie_from_stdin := cookie_from_stdin h;
  clean_requested := v; auth_recovery := auth_recovery h; sessions := sessions h;
  pid_written := pid_written h; cancelled_seen := cancelled_seen h |}.
Definition set_auth_recovery (v : RecoveryState) (h : Handler) : Handler := {|
  profile := profile h; latest_key_password := latest_key_password h;
  password_from_stdin := password_from_stdin h; cookie_from_stdin := cookie_from_stdin h;
  clean_requested := clean_requested h; auth_recovery := v; sessions := sessions h;
  pid_written := pid_written h; cancelled_seen := cancelled_seen h |}.
Definition set_sessions (f : GatewaySessions → GatewaySessions) (h : Handler) : Handler := {|
  profile := profile h; latest_key_password := latest_key_password h;
  password_from_stdin := password_from_stdin h; cookie_from_stdin := cookie_from_stdin h;
  clean_requested := clean_requested h; auth_recovery := auth_recovery h; sessions := f (sessions h);
  pid_written := pid_written h; cancelled_seen := cancelled_seen h |}.
Definition set_pid_written (v : bool) (h : Handler) : Handler := {|
  profile := profile h; latest_key_password := latest_key_password h;
  password_from_stdin := password_from_stdin h; cookie_from_stdin := cookie_from_stdin h;
  clean_requested := clean_requested h; auth_recovery := auth_recovery h; sessions := sessions h;
  pid_written := v; cancelled_seen := cancelled_seen h |}.
Definition see_cancelled (v : bool) (h : Handler) : Handler := {|
  profile := profile h; latest_key_password := latest_key_password h;
  password_from_stdin := password_from_stdin h; cookie_from_stdin := cookie_from_stdin h;
  clean_requested := clean_requested h; auth_recovery := auth_recovery h; sessions := sessions h;
  pid_written := pid_written h; cancelled_seen := cancelled_seen h || v |}.
End client.
Arguments ClientE : clear implicits.

(** What a run is given: [Url::origin], [Url::as_str] and a port as text, the digest and
    the encoder of the checks, the clients of bound sessions, the machine, the feature
    webview-auth, the arguments, and [self.background.is_some()]. *)
Class Setting (ClientIdentity RequestIdentity : Type) := {
  origin_text : Url → string;
  url_text : Url → string;
  port_text : N → string;
  md5 : string → list N;
  csc_encode : string → string;
  settings : GpParams ClientIdentity → result string (ClientSettings RequestIdentity);
  build_bound : BoundClient RequestIdentity → result string (BoundClient RequestIdentity);
  machine : ClientMachine ClientIdentity;
  webview : bool;
  args : ConnectArgs;
  shared : SharedArgs;
  background : bool;
}.

Section connect.
Context `{UrlEncoding} `{Xmltree} `{UrlCrate} `{Base64} `{UuidV5} `{UuidFormat}.
Context `{SerdeJson SamlAuthResult} `{SerdeJson CookieStore.StoredCookie}.
Context {ClientIdentity RequestIdentity : Type} {client : Setting ClientIdentity RequestIdentity}.

Notation Flow := (sflow (ClientE ClientIdentity) (Handler)).
Notation LoginClient := (GatewayLoginClient (ClientIdentity := ClientIdentity)).
Notation ExtensionAuth := (ClientSession.SessionExtensionAuth (ClientIdentity := ClientIdentity)).

(** ** Profiles and parameters *)
Definition build_os_profile_with_host_id (host_id : option string) : option OsProfile :=
  let b := profile_builder_new (os args) in
  let b := match arg_client_version args with Some v => set_client_version v b | None => b end in
  let b := match local_hostname args with Some n => set_computer_name_override n b | None => b end in
  HostCollection.collect_profile (system machine) b host_id.
Definition build_os_profile : option OsProfile := build_os_profile_with_host_id None.
Definition cookie_cache_path : option string :=
  (λ path, CookieStore.cookie_path (home machine) (if is_empty path then None else Some path))
    <$> cookie_cache args.
Definition apply_stdin_host_id (host_id : option string) : Flow () :=
  match host_id with
  | None => sok ()
  | Some id => let+ p := smay_panic (build_os_profile_with_host_id (Some id)) in smodify (set_profile p)
  end.
Definition gp_params_of (h : Handler) : GpParams ClientIdentity :=
  build_params
    (b_set_key_password (latest_key_password h) (b_set_sslkey (arg_sslkey args)
      (b_set_certificate (arg_certificate args)
        (b_set_ignore_tls_errors (arg_ignore_tls_errors shared)
          (b_set_csc_mode (csc args) (params_builder_new (profile h))))))).
Definition build_gp_params : Flow (GpParams ClientIdentity) := sgets gp_params_of.
Definition external_browser_requested : bool :=
  (webview && arg_default_browser args) || bool_decide (is_Some (arg_browser args)).
Definition prelogin_options (gateway_browser_auth_allowed : bool) : PreloginOptions := {|
  Portal.external_browser_requested := external_browser_requested;
  gateway_external_browser_allowed := gateway_browser_auth_allowed |}.
Definition direct_gateway_prelogin_options : PreloginOptions := prelogin_options true.
Definition gateway_browser_auth_allowed (portal_default_browser : bool) : bool :=
  portal_default_browser || external_browser_requested.

(** ** The token *)
Definition is_cancelled : Flow bool :=
  let+ seen := sgets cancelled_seen in
  if (seen : bool) then sok true
  else
    let+ c := sask CancelledE in
    let+ _ := smodify (see_cancelled c) in sok (c : bool).
Definition check_cancelled : Flow () :=
  let+ c := is_cancelled in
  if (c : bool) then sthrow AuthenticationCancelled else sok ().
(** [self.cancellation.cancel()] *)
Definition cancel : Flow () := let+ _ := sask CancelE in smodify (see_cancelled true).

(** An I/O operation whose error is shown only. *)
Definition attempt {A} (q : ClientE ClientIdentity (result string A)) : Flow A :=
  let+ r := sask q in spure (map_err Message r).
Definition ask_prelogin (server : string) (gp : GpParams ClientIdentity) (o : PreloginOptions) :
    Flow Prelogin :=
  let+ answer := sask PreloginE in
  match answer with
  | None => let+ _ := smodify (see_cancelled true) in sthrow AuthenticationCancelled
  | Some post => spure (Portal.prelogin origin_text post (http_client machine gp) server gp o)
  end.
Definition ask_discover (portal : string) (cred : Credential) (gp : GpParams ClientIdentity) :
    Flow PortalConfig :=
  let+ d := sask DiscoverE in
  spure (discover origin_text md5 csc_encode (csc_reader machine) (discovery_millis d)
    (detection d) (portal_server d) (http_client machine gp) portal cred gp
    (cancelled_parsing d) (cancelled_detecting d)).

(** ** Credentials (credential.rs) *)
(** [consume_for_webview]: whether the window starts clean, and what is left. *)
Definition consume_for_webview (webview_auth requested : bool) : bool * bool :=
  if negb webview_auth || negb requested then (false, requested) else (true, false).
Definition should_read_stdin_credential (prelogin_is_gateway : bool) : bool :=
  cookie_on_stdin args && (negb prelogin_is_gateway || as_gateway args).
Definition can_use_external_browser_auth (supported is_gateway allowed : bool) : bool :=
  supported && (negb is_gateway || allowed).
(** The text of a JSON error is left out. *)
Definition parse_auth_data (cookie : string) : result Failure SamlAuthResult :=
  ok_or (Message "") (from_slice cookie).
Definition result_host_id (r : SamlAuthResult) : option string :=
  match r with SamlSuccess d => saml_host_id d | _ => None end.
Definition read_auth_result_from_stdin : Flow SamlAuthResult :=
  let+ line := attempt (StdinE CookieLine) in
  let cookie := trim_end line in
  let+ _ := smodify (set_cookie_from_stdin (Some cookie)) in
  spure (GpHttp.context "Failed to parse auth data" (parse_auth_data cookie)).
Definition prepare_cookie_from_stdin : Flow () :=
  let+ known := sgets cookie_from_stdin in
  if negb (cookie_on_stdin args) || bool_decide (is_Some known) then sok ()
  else
    let+ r := read_auth_result_from_stdin in
    apply_stdin_host_id (result_host_id r).
Definition read_cookie_from_stdin : Flow Credential :=
  let+ known := sgets cookie_from_stdin in
  match known with
  | Some cookie => let+ r := spure (parse_auth_data cookie) in spure (credential_of_result r)
  | None =>
      let+ r := read_auth_result_from_stdin in
      let+ _ := apply_stdin_host_id (result_host_id r) in
      spure (credential_of_result r)
  end.
Definition obtain_password (p : StandardPrelogin) : Flow string :=
  if passwd_on_stdin args then
    let+ known := sgets password_from_stdin in
    match known with
    | Some password => sok password
    | None =>
        let+ input := attempt (StdinE PasswordLine) in
        let password := trim_end input in
        let+ _ := smodify (set_password_from_stdin (Some password)) in
        sok password
    end
  else attempt (PromptE (PasswordPrompt (label_password p +:+ ":"))).

(** The launcher of a SAML login: [None] when this build has no way to show it. *)
Definition saml_launcher (h : Handler) (p : SamlPrelogin) (server : string) (allowed : bool) :
    option SamlAuthLauncher :=
  let is_gateway := saml_is_gateway p in
  let supported := can_use_external_browser_auth (support_default_browser p) is_gateway allowed in
  browser ← (if supported then Some (arg_browser args) else if webview then Some None else None);
  let l := launcher_new server in
  let l := set_dmabuf_disabled (recovery_dmabuf_disabled (auth_recovery h)) l in
  let l := set_launch_gateway is_gateway l in
  let l := set_launch_saml_request (Some (saml_request p)) l in
  let l := set_launch_os_profile (profile h) l in
  let l := set_launch_ignore_tls_errors (arg_ignore_tls_errors shared) l in
  let l := set_launch_certificate (arg_certificate args) l in
  let l := set_launch_sslkey (arg_sslkey args) l in
  let l := set_launch_key_password (latest_key_password h) l in
  let l := set_browser browser l in
  let l := set_browser_listen (arg_browser_listen args) l in
  let l := set_log_format (arg_log_format shared) l in
  let l := set_verbose (arg_verbose shared) l in
  Some (if webview
        then set_launch_default_browser (supported && arg_default_browser args)
               (set_hidpi (arg_hidpi args) l)
        else l).
(** Without the feature every login is shown in a browser outside. *)
Definition shows_window (l : SamlAuthLauncher) : bool :=
  webview && negb (bool_decide (is_Some (browser l)) || launch_default_browser l).
Definition launch (l : SamlAuthLauncher) : Flow Credential :=
  let+ c := spure (prepare_launch (variables machine) (wayland machine) (canonicalize machine)
    (bundled_gpauth machine) (non_root machine) l) in
  let+ answer := sask (LaunchE l c) in
  let+ _ := smodify (see_cancelled answer.2) in
  spure (launch_result c answer.1 answer.2).
Definition obtain_credential (p : Prelogin) (server : string) (allowed : bool) : Flow Credential :=
  if should_read_stdin_credential (prelogin_is_gateway p) then read_cookie_from_stdin
  else match p with
  | Saml p =>
      let+ l := sgets (λ h, saml_launcher h p server allowed) in
      match l with
      | None => sthrow (Message ("The server does not support authentication via the default browser " +:+
          "and the gpclient is not built with the `webview-auth` feature"))
      | Some l =>
          let+ requested := sgets clean_requested in
          let '(clean_auth, requested) := consume_for_webview (shows_window l) requested in
          let+ _ := smodify (set_clean_requested requested) in
          let+ cred := launch (if webview then set_clean clean_auth l else l) in
          let+ _ := check_cancelled in
          sok cred
      end
  | Standard p =>
      let+ user := match arg_user args with
                   | Some user => sok user
                   | None => attempt (PromptE (UsernamePrompt (label_username p +:+ ":")))
                   end in
      let+ password := obtain_password p in
      sok (Password {| pw_username := user; pw_password := password |})
  end.
Definition terminal_now (e : Failure) : Flow Failure := sgets (λ h, terminal e (auth_recovery h)).
Definition refresh_auth_prelogin (server : string) (is_gateway allowed : bool) : Flow Prelogin :=
  let+ gp := build_gp_params in
  ask_prelogin server (with_is_gateway is_gateway gp) (prelogin_options allowed).
Definition obtain_credential_with_recovery (p : Prelogin) (server : string) (allowed : bool) :
    Flow (Prelogin * Credential) :=
  srepeating (λ p,
    let+ _ := check_cancelled in
    scatch (obtain_credential p server allowed) (λ r,
      let+ _ := check_cancelled in
      match r with
      | Ok cred => sok (inr (p, cred))
      | Err e =>
          let+ recovery := sgets auth_recovery in
          let '(again, recovery) := recover e recovery in
          let+ _ := smodify (set_auth_recovery recovery) in
          if negb again then let+ e := terminal_now e in sthrow e
          else scatch (refresh_auth_prelogin server (prelogin_is_gateway p) allowed) (λ r,
            match r with
            | Ok p => sok (inl p)
            | Err e => let+ e := terminal_now e in sthrow e
            end)
      end)) p.

(** ** The ledger (internal.rs, gateway_sessions.rs) *)
Definition logout_gateway (server : string) : Flow () :=
  let+ l := sgets sessions in
  match taken server l with
  | None => sok ()
  | Some m =>
      let+ _ := smodify (set_sessions (relinquish_gateway server)) in sask (LogoutE m)
  end.

(** ** Logging in (gateway.rs) *)
Record GatewayLoginSession := {
  gls_authentication : GatewayAuthentication;
  gls_extension : ExtensionAuth;
}.
Definition session_of (gateway : string) (a : GatewayAuthentication) (c : LoginClient) : GatewaySession := {|
  session_gateway := gateway_new gateway gateway;
  session_transport := {| transport_origin := origin c; transport_authentication := a;
                          transport_profile := ClientProfile.os_profile (client_params c) |};
  session_addresses := {| addr_ipv4 := None; addr_ipv6 := None |} |}.
(** What an answer to [login] is to the client: the result, its state, and a cookie to
    log out. *)
Definition login_turn (c : LoginClient) (cred : Credential) (ctx : option GatewayLoginContext)
    (t : LoginPost) : result Failure GatewayLogin * LoginClient * option string :=
  login origin_text url_text (resolve machine) (local_ipv4 machine) (login_post t) cred ctx
    (cancelled_before t) c.
Definition is_internal (ctx : option GatewayLoginContext) : bool :=
  match ctx with Some c => bool_decide (login_kind c = Internal) | None => false end.
Definition bound_ledger (g : Gateway) (c : LoginClient)
    (network : Url → SocketAddr → bool → result string GatewayBinding) (l : GatewaySessions) :=
  bind_non_tunnel settings build_bound url_text g c (disable_ipv6 args) network l.
Definition bind_session (g : Gateway) (c : LoginClient) : Flow GatewayBinding :=
  let+ network := sask (BindE g c) in
  let+ l := sgets sessions in
  match bound_ledger g c network l with
  | Ok (b, _, l) => let+ _ := smodify (set_sessions (λ _, l)) in sok b
  | Err e => sthrow (ProtocolContext (Message e))
  end.
Definition authenticated_session (gateway : string) (c : LoginClient) (cred : Credential)
    (ctx : option GatewayLoginContext) (a : GatewayAuthentication) : Flow GatewayLoginSession :=
  let+ _ := smodify (set_sessions (register (session_of gateway a c))) in
  let+ _ := check_cancelled in
  let+ b := (if is_internal ctx && bool_decide (authentication_mode a = NonTunnel) && negb (cookie_only args)
             then let+ b := bind_session (gateway_new gateway gateway) c in sok (Some b)
             else sok None) in
  sok {| gls_authentication := a;
         gls_extension := ClientSession.with_binding b (ClientSession.extension_auth_new cred c) |}.
Definition login_loop_turn (gateway : string) (cred : Credential) (ctx : option GatewayLoginContext)
    (c : LoginClient) : Flow (LoginClient + GatewayLoginSession) :=
  let+ _ := check_cancelled in
  let+ t := sask (LoginE gateway c cred ctx) in
  let '(r, c, unused) := login_turn c cred ctx t in
  let+ _ := match unused with Some cookie => sask (RevokeE cookie) | None => sok () end in
  match r with
  | Err e => let+ _ := smodify (see_cancelled (is_authentication_cancelled e)) in sthrow e
  | Ok (Authenticated a) => let+ s := authenticated_session gateway c cred ctx a in sok (inr s)
  | Ok (Mfa message input) =>
      let+ otp := attempt (PromptE (OtpPrompt message)) in
      sok (inl (respond_mfa input otp c))
  end.
Definition login_gateway (gateway : string) (cred : Credential) (gp : GpParams ClientIdentity)
    (ctx : option GatewayLoginContext) : Flow GatewayLoginSession :=
  let '(prepared, gp) := prepare_client_identity (load_identity machine) gp in
  let+ _ := spure prepared in
  let+ c := spure (login_client_new gateway gp (http_client machine gp)) in
  srepeating (login_loop_turn gateway cred ctx) c.

(** ** The cookie cache *)
Definition load_cookie (server : string) : Flow (option (string * CookieStore.StoredCookie)) :=
  match cookie_cache_path with
  | None => sok None
  | Some path =>
      let+ id := sgets (λ h, host_id (profile_host_identity (profile h))) in
      let+ file := sask (ReadCacheE path) in
      match CookieStore.load file server id with
      | None => sok None
      | Some stored =>
          if cookie_can_authenticate (CookieStore.stored_auth_cookie stored)
          then sok (Some (path, stored))
          else let+ _ := sask (ClearCacheE path) in sok None
      end
  end.
Definition cached_portal_credential (server : string) : Flow (option Credential) :=
  if cookie_on_stdin args then sok None
  else
    let+ r := load_cookie server in
    sok ((λ ps, AuthCookie (CookieStore.stored_auth_cookie ps.2)) <$> r).
Definition clear_cookie_cache : Flow () :=
  match cookie_cache_path with Some path => sask (ClearCacheE path) | None => sok () end.
Definition save_cookie_cache (portal gateway : string) (c : AuthCookieCredential) : Flow () :=
  match cookie_cache_path with
  | None => sok ()
  | Some path =>
      if negb (cookie_can_authenticate c) then sok ()
      else
        let+ id := sgets (λ h, host_id (profile_host_identity (profile h))) in
        let+ _ := sask (SaveCacheE path (λ now,
          CookieStore.stored_cookie_new now portal (ac_username c) id gateway c)) in
        sok ()
  end.

(** ** Authenticating at a gateway *)
Definition authenticate_gateway (portal gateway : string) (portal_cred : AuthCookieCredential)
    (portal_default_browser : bool) (ctx : GatewayLoginContext) : Flow GatewayLoginSession :=
  let+ _ := check_cancelled in
  let+ gp := build_gp_params in
  let gp := with_is_gateway true gp in
  let allowed := gateway_browser_auth_allowed portal_default_browser in
  let+ p := ask_prelogin gateway gp (prelogin_options allowed) in
  let+ _ := check_cancelled in
  let with_prelogin :=
    let+ pc := obtain_credential_with_recovery p gateway allowed in
    let+ _ := check_cancelled in
    login_gateway gateway pc.2 gp (Some ctx) in
  if cookie_can_authenticate portal_cred then
    scatch (login_gateway gateway (AuthCookie portal_cred) gp (Some ctx)) (λ r,
      match r with
      | Ok session => let+ _ := save_cookie_cache portal gateway portal_cred in sok session
      | Err e =>
          let+ _ := check_cancelled in
          let+ e := terminal_now e in
          if is_recovery_failed e || is_login_protocol_error e then sthrow e
          else with_prelogin
      end)
  else with_prelogin.

(** ** The tunnel (gateway.rs, vpn_script/default.rs) *)
Definition OPENCONNECT_INTERRUPTED_EXIT_CODE : Z := -4.
Inductive GatewayConnectFailureStage := BeforeEstablishment | AfterEstablishment.
Record GatewayConnectError := { stage : GatewayConnectFailureStage; error : Failure }.
Definition before_establishment (e : Failure) : GatewayConnectError :=
  {| stage := BeforeEstablishment; error := e |}.
Definition after_establishment (e : Failure) : GatewayConnectError :=
  {| stage := AfterEstablishment; error := e |}.
Definition is_before_establishment (e : GatewayConnectError) : bool :=
  match stage e with BeforeEstablishment => true | AfterEstablishment => false end.
(** A connection ends with a [GatewayConnectError] of its own. *)
Notation Connected := (result GatewayConnectError ()).
(** [m.map_err(stage)?] *)
Definition staged {A B} (at_stage : Failure → GatewayConnectError) (m : Flow A)
    (k : A → Flow (result GatewayConnectError B)) : Flow (result GatewayConnectError B) :=
  scatch m (λ r, match r with Ok a => k a | Err e => sok (Err (at_stage e)) end).
Definition into_error (r : Connected) : result Failure () := map_err error r.

Definition determine_hip_user : option string :=
  match hip_user args with Some u => Some u | None => csd_user args end.
Definition get_uid (user : option string) : result Failure (option N) :=
  match user with
  | None => Ok None
  | Some u => u ← get_user_by_name (user_by_name machine) u; Ok (Some (uid u))
  end.
Definition hip_source (p : OsProfile) : result Failure Openconnect.HipSource :=
  let user := determine_hip_user in
  let requires := Message "--hip-user requires an explicit HIP script" in
  match (match hip args with Some s => Some s | None => csd_wrapper args end) with
  | Some path =>
      if negb (is_empty path) then
        id ← get_uid user;
        s ← map_err (λ e, Message (os_error_text machine e))
              (Openconnect.hip_script_new (exists_file machine) (is_executable machine)
                 (metadata_is_file machine) path id);
        Ok (Openconnect.HipScripted s)
      else
        _ ← ensure (bool_decide (user = None)) requires;
        Ok (Openconnect.HipGenerator (hip_report machine p))
  | None =>
      _ ← ensure (bool_decide (user = None)) requires;
      Ok Openconnect.HipDisabled
  end.
Definition tunnel_ip_preference : Openconnect.GatewayIpPreference.t :=
  match ip_preference args with
  | Session.IpPreference.Auto => Openconnect.GatewayIpPreference.Auto
  | Session.IpPreference.Ipv4 => Openconnect.GatewayIpPreference.Ipv4
  | Session.IpPreference.Ipv6 => Openconnect.GatewayIpPreference.Ipv6
  end.
(** The builder, with the profile applied. *)
Definition tunnel_builder (gateway cookie : string) (certificate key key_password : option string)
    (hip : Openconnect.HipSource) (p : OsProfile) : Openconnect.VpnBuilder :=
  let b := Openconnect.set_script_tun (script_tun args)
             (Openconnect.script_command (script args) (Openconnect.builder_new gateway cookie)) in
  {| Openconnect.b_server := Openconnect.b_server b; Openconnect.b_cookie := Openconnect.b_cookie b;
     Openconnect.b_script := Openconnect.b_script b; Openconnect.b_handler := Openconnect.b_handler b;
     Openconnect.b_script_is_path := Openconnect.b_script_is_path b;
     Openconnect.b_interface := interface args;
     Openconnect.b_script_tun := Openconnect.b_script_tun b;
     Openconnect.b_script_tun_launch := Openconnect.b_script_tun_launch b;
     Openconnect.b_user_agent := Some (profile_user_agent p);
     Openconnect.b_os := Some (to_openconnect_os (profile_client_os p));
     Openconnect.b_os_version := Some (profile_os_version p);
     Openconnect.b_client_version := Some (profile_client_version p);
     Openconnect.b_host_id := Some (host_id (profile_host_identity p));
     Openconnect.b_local_hostname := local_hostname args;
     Openconnect.b_certificate := certificate; Openconnect.b_sslkey := key;
     Openconnect.b_key_password := key_password; Openconnect.b_hip_source := hip;
     Openconnect.b_reconnect_timeout := reconnect_timeout args;
     Openconnect.b_mtu := default 0 (mtu args);
     Openconnect.b_disable_ipv6 := disable_ipv6 args;
     Openconnect.b_gateway_ip_preference := tunnel_ip_preference;
     Openconnect.b_no_dtls := no_dtls args;
     Openconnect.b_dpd_interval := default 0 (dpd_interval args);
     Openconnect.b_no_xmlpost := no_xmlpost args |}.
Definition build_tunnel (b : Openconnect.VpnBuilder) : option (result string Openconnect.Vpn) :=
  Openconnect.build (exists_file machine) (is_file machine) (is_executable machine)
    (canonicalize machine) (gp_vpnc_script machine) (current_exe machine) b.

Definition signed_text (z : Z) : string :=
  match z with Zneg p => "-" +:+ to_string (Npos p) | _ => to_string (Z.to_N z) end.
Definition classify_openconnect_result (exit_code : Z) (established disconnect_requested : bool) : Connected :=
  if (exit_code =? 0)%Z then Ok ()
  else if disconnect_requested && (exit_code =? OPENCONNECT_INTERRUPTED_EXIT_CODE)%Z then Ok ()
  else
    let e := Message ("OpenConnect exited with status " +:+ signed_text exit_code) in
    Err (if established : bool then after_establishment e else before_establishment e).

(** What is shown of a running tunnel: an error cancels the client. *)
Definition shown (m : Flow ()) (output_error : option Failure) : Flow (option Failure) :=
  scatch m (λ r, match r with
    | Ok _ => sok output_error
    | Err e => let+ _ := cancel in sok (Some e)
    end).
Definition on_ready : Flow (option Failure) :=
  let+ e := (if dashboard args then shown (attempt DashboardStartE) None else sok None) in
  if background then
    let+ written := sgets pid_written in
    shown (if (written : bool) then attempt DetachE
           else sthrow (Message "Cannot detach without a writable PID lock file")) e
  else sok e.
(** [wait_for_tunnel_exit] after the cleanup of the sessions nobody uses. *)
Definition wait_for_tunnel_exit : Flow (option Z * option Failure) :=
  let+ gone := sask TunnelGoneE in
  match gone with
  | Some code => sok (code, None)
  | None =>
      let+ e := on_ready in
      let+ code := sask JoinTunnelE in sok (code, e)
  end.
(** What the session's runtime is started with when the tunnel is established. *)
Definition tunnel_session (portal gateway : string) (a : GatewayAuthentication) (ext : ExtensionAuth)
    (certificate key key_password : option string) (p : OsProfile) :
    ClientSession.SessionContext (ClientIdentity := ClientIdentity) :=
  ClientSession.build_session_context {|
    ClientSession.input_portal := portal; ClientSession.input_gateway := gateway;
    ClientSession.input_cookie := cookie a; ClientSession.input_profile := p;
    ClientSession.input_certificate := certificate; ClientSession.input_sslkey := key;
    ClientSession.input_key_password := key_password;
    ClientSession.input_disable_ipv6 := disable_ipv6 args;
    ClientSession.input_extension := Some ext |}.
(** The tunnel's thread until it is joined: its end, whether it was established, what
    could not be shown. *)
Definition run_tunnel (gateway : string) (v : Openconnect.Vpn)
    (session : ClientSession.SessionContext (ClientIdentity := ClientIdentity)) (allow_extend : bool) :
    Flow (option Z * bool * option Failure) :=
  let+ _ := smodify (set_sessions (relinquish_gateway gateway)) in
  let+ start := sask (TunnelE gateway v session allow_extend) in
  match start with
  | TunnelExited code established =>
      let+ _ := match established with Some w => smodify (set_pid_written (write_pid_file w)) | None => sok () end in
      sok (code, bool_decide (is_Some established), None)
  | TunnelUnestablished => let+ code := sask JoinTunnelE in sok (code, false, None)
  | TunnelEstablished w =>
      let+ _ := smodify (set_pid_written (write_pid_file w)) in
      let+ l := sgets sessions in
      let unused := List.filter (λ m, negb (serves gateway m)) l in
      let+ _ := sfor (session_server <$> unused) logout_gateway in
      let+ r := wait_for_tunnel_exit in
      sok (r.1, true, r.2)
  end.
Definition connect_gateway (portal gateway : string) (a : GatewayAuthentication) (allow_extend : bool)
    (ext : ExtensionAuth) : Flow Connected :=
  if cookie_only args then let+ _ := sask (PrintCookieE (cookie a) gateway) in sok (Ok ())
  else if negb (bool_decide (authentication_mode a = Tunnel)) then
    sok (Err (after_establishment (Message "Non-tunnel authentication requires fresh internal portal discovery")))
  else
    staged after_establishment check_cancelled (λ _,
    staged before_establishment (match ClientSession.ext_identity ext with
                                 | None => sok None
                                 | Some i => let+ files := attempt (IdentityFilesE i) in sok (Some (i, files))
                                 end) (λ files,
    let certificate := (λ f, f.2.1) <$> files in
    let key := f ← files; f.2.2 in
    let key_password := f ← files; identity_key_password machine f.1 in
    let+ p := sgets profile in
    staged before_establishment (spure (hip_source p)) (λ hip,
    let+ built := smay_panic (build_tunnel (tunnel_builder gateway (cookie a) certificate key key_password hip p)) in
    staged before_establishment (spure (map_err Message built)) (λ v,
    staged before_establishment (if background then attempt RedirectStdioE else sok ()) (λ _,
    staged before_establishment (if dashboard args then attempt DashboardE else sok ()) (λ _,
    let+ _ := sask AttachMonitorE in
    let+ r := run_tunnel gateway v (tunnel_session portal gateway a ext certificate key key_password p) allow_extend in
    let '(code, established, output_error) := r in
    let+ _ := sask StopMonitorE in
    let+ output_error := (if dashboard args then
        let+ r := sask DashboardFinishE in
        sok match r with Ok _ => output_error | Err e => Some (Message e) end
      else sok output_error) in
    match output_error, code with
    | Some e, _ => sok (Err (after_establishment e))
    | None, None => sok (Err (after_establishment (Message "VPN worker panicked")))
    | None, Some code =>
        let+ requested := sask DisconnectRequestedE in
        sok (classify_openconnect_result code established requested)
    end)))))).

(** ** Internal gateways (internal.rs) *)
Definition internal_session_mode (modes : list SessionMode) : result Failure SessionMode :=
  match modes with
  | [] => bail "No internal gateway authenticated successfully"
  | mode :: modes =>
      _ ← ensure (forallb (λ m, bool_decide (m = mode)) modes)
            (Message ("Mixed tunnel and non-tunnel internal gateways are unsupported; " +:+
                      "select a gateway explicitly"));
      Ok mode
  end.
(** The candidates are internal, and each host is one candidate. *)
Fixpoint check_candidates (hosts : list string) (l : list Gateway) : result Failure () :=
  match l with
  | [] => Ok ()
  | g :: l =>
      _ ← ensure (bool_decide (gateway_kind g = Internal)) (Message "Non-tunnel candidates must be internal");
      host ← map_err Message (normalize_server port_text (gateway_address g));
      _ ← ensure (negb (bool_decide (host ∈ hosts))) (Message "Duplicate internal gateway");
      check_candidates (host :: hosts) l
  end.
Definition end_reason_text (r : SessionEndReason) : string :=
  match r with
  | InvalidCookie => "InvalidCookie"
  | NetworkChanged => "NetworkChanged"
  | AllMembersFailed => "AllMembersFailed"
  | AuthorizationRevoked => "AuthorizationRevoked"
  end.
Definition validate_bindings (l : list GatewayBinding) : Flow () := sfor l (λ b, attempt (ValidateBindingE b)).
Fixpoint session_bindings (l : list (Gateway * GatewayLoginSession)) : result Failure (list GatewayBinding) :=
  match l with
  | [] => Ok []
  | (_, s) :: l =>
      b ← ok_or (Message "Non-tunnel binding is missing") (ClientSession.ext_binding (gls_extension s));
      l ← session_bindings l; Ok (b :: l)
  end.
(** The maintenance: how it ended, what it logged out, and what could not be shown. *)
Definition maintain_sessions : Flow (result string NonTunnel.SessionExit * list string * option Failure) :=
  let+ l := sgets sessions in
  let+ start := sask (MaintainE l) in
  match start with
  | MaintainEnded r out => sok (r, out, None)
  | MaintainEstablished =>
      let+ e := (if dashboard args then shown (attempt DashboardStartE) None else sok None) in
      let+ r := sask (MaintainEndE l) in sok (r.1, r.2, e)
  end.
Definition run_internal_session (config : PortalConfig) (l : list (Gateway * GatewayLoginSession)) : Flow () :=
  let+ _ := attempt CaptureNetworkE in
  let+ bindings := spure (session_bindings l) in
  let+ _ := validate_bindings bindings in
  let+ policy := spure (ok_or (Message "Invalid internal session policy") (internal_session_policy config)) in
  let+ p := sgets profile in
  let+ _ := spure (if collect_hip_data policy then hip_source p else Ok Openconnect.HipDisabled) in
  let+ _ := (if dashboard args then attempt DashboardE else sok ()) in
  let+ w := sask WritePidE in
  let+ _ := smodify (set_pid_written (write_pid_file w)) in
  let+ r := maintain_sessions in
  let '(result, out, shown) := r in
  let+ shown := (if dashboard args then
      let+ r := sask DashboardFinishE in
      sok match r with Ok _ => shown | Err e => Some (Message e) end
    else sok shown) in
  let+ _ := smodify (set_sessions (λ l, (AttemptRuntime.logged_out_of out l).2)) in
  let+ joined := sask JoinMonitorE in
  if negb joined then sthrow (GpHttp.Context "Internal network monitor failed" (Message "task panicked"))
  else match shown, result with
  | Some e, _ => sthrow e
  | None, Err e => sthrow (Message e)
  | None, Ok NonTunnel.Disconnected => sok ()
  | None, Ok (NonTunnel.Failed reason) =>
      sthrow (Message ("Internal session ended: " +:+ end_reason_text reason +:+
                       ". Connect again to authenticate."))
  end.
Definition internal_logins (portal : string) (config : PortalConfig) (cred : AuthCookieCredential) :
    list Gateway → list (Gateway * GatewayLoginSession) → Flow (list (Gateway * GatewayLoginSession)) :=
  fix go remaining authenticated :=
    match remaining with
    | [] => sok authenticated
    | g :: remaining =>
        let+ _ := check_cancelled in
        let ctx := with_connect_method (connect_method config) (login_context_new g Auto) in
        scatch (authenticate_gateway portal (gateway_address g) cred
                  (default false (default_browser config)) ctx) (λ r,
          match r with
          | Ok s => go remaining (authenticated ++ [(g, s)])
          | Err e =>
              let+ _ := logout_gateway (gateway_address g) in
              let+ _ := check_cancelled in
              let+ recovery := sgets auth_recovery in
              if recovery_dmabuf_disabled recovery then sthrow (terminal e recovery)
              else go remaining authenticated
          end)
    end.
Definition connect_internal_gateways (portal : string) (config : PortalConfig) (cred : AuthCookieCredential)
    (first : Gateway) (session : GatewayLoginSession) (remaining : list Gateway) : Flow () :=
  let+ _ := spure (ensure (negb background) (Message ("--background requires a VPN tunnel; internal " +:+
    "non-tunnel sessions must run in the foreground"))) in
  let+ _ := spure (ensure (length remaining <? 64)%nat (Message "Too many internal non-tunnel candidates")) in
  let+ _ := spure (check_candidates [] (first :: remaining)) in
  let+ l := internal_logins portal config cred remaining [(first, session)] in
  let+ _ := check_cancelled in
  let+ mode := spure (internal_session_mode ((λ gs, authentication_mode (gls_authentication gs.2)) <$> l)) in
  let+ _ := spure (ensure (bool_decide (mode = NonTunnel)) (Message "Expected non-tunnel authentication")) in
  run_internal_session config l.

(** ** The attempt (gateway.rs, mod.rs) *)
Definition connect_gateway_with_fallback (portal : string) (g : Gateway) (cred : AuthCookieCredential)
    (config : PortalConfig) (selection : GatewaySelection) (remaining : list Gateway) : Flow Connected :=
  let ctx := with_connect_method (connect_method config) (login_context_new g selection) in
  staged before_establishment (authenticate_gateway portal (gateway_address g) cred
                                 (default false (default_browser config)) ctx) (λ s,
  if negb (cookie_only args) && bool_decide (authentication_mode (gls_authentication s) = NonTunnel) then
    if negb (bool_decide (gateway_kind g = Internal)) then
      sok (Err (after_establishment (Message
        "Non-tunnel authentication requires freshly discovered internal gateways")))
    else staged after_establishment (connect_internal_gateways portal config cred g s remaining) (λ _, sok (Ok ()))
  else connect_gateway portal (gateway_address g) (gls_authentication s)
         (default false (config_allow_extend_session config)) (gls_extension s)).
Definition connect_gateway_with_prelogin (portal gateway : string) (allow_extend : bool)
    (ctx : option GatewayLoginContext) : Flow () :=
  let+ gp := build_gp_params in
  let gp := with_is_gateway true gp in
  let+ p := ask_prelogin gateway gp direct_gateway_prelogin_options in
  let+ pc := obtain_credential_with_recovery p gateway true in
  let+ s := login_gateway gateway pc.2 gp ctx in
  let+ r := connect_gateway portal gateway (gls_authentication s) allow_extend (gls_extension s) in
  spure (into_error r).
Definition try_cached_cookie (server : string) : Flow (option (result Failure ())) :=
  let+ r := load_cookie server in
  match r with
  | None => sok None
  | Some (path, stored) =>
      let gateway := CookieStore.last_gateway stored in
      let+ gp := build_gp_params in
      scatch (login_gateway gateway (AuthCookie (CookieStore.stored_auth_cookie stored))
                (with_is_gateway true gp) None) (λ r,
      match r with
      | Err e =>
          let+ cancelled := is_cancelled in
          if (cancelled : bool) || is_login_protocol_error e then sok (Some (Err e))
          else let+ _ := sask (ClearCacheE path) in sok None
      | Ok s =>
          if bool_decide (authentication_mode (gls_authentication s) = NonTunnel) && negb (cookie_only args)
          then let+ _ := logout_gateway gateway in sok None
          else
            let+ r := connect_gateway server gateway (gls_authentication s) false (gls_extension s) in
            match r with
            | Ok _ => sok (Some (Ok ()))
            | Err e =>
                let+ cancelled := is_cancelled in
                if (cancelled : bool) then sok (Some (Err (error e)))
                else let+ _ := logout_gateway gateway in sok None
            end
      end)
  end.
(** The gateways in priority order: each with those after it. *)
Definition auto_gateways (portal : string) (cred : AuthCookieCredential) (config : PortalConfig) (count : nat) :
    list Gateway → option Failure → Flow () :=
  fix go l last :=
    match l with
    | [] =>
        let detail := default "unknown error" (to_text <$> last) in
        sthrow (Message ("Auto-gateway: all " +:+ to_string (N.of_nat count) +:+
          " gateway(s) failed to connect; last error: " +:+ detail))
    | g :: l =>
        let+ r := connect_gateway_with_fallback portal g cred config Auto l in
        match r with
        | Ok _ => sok ()
        | Err e =>
            let+ _ := logout_gateway (gateway_address g) in
            let+ recovery := sgets auth_recovery in
            if recovery_dmabuf_disabled recovery || negb (is_before_establishment e)
            then sthrow (terminal (error e) recovery)
            else go l (Some (error e))
        end
    end.
Definition select_gateway (config : PortalConfig) : Flow Gateway :=
  match arg_gateway args with
  | Some name => spure (ok_or (Message ("Cannot find gateway specified: " +:+ name)) (find_gateway name config))
  | None =>
      match gateways config with
      | [] => sthrow (Message "No gateways available in portal configuration")
      | [g] => sok g
      | l => let+ g := attempt (SelectE l) in sok (proj1_sig g)
      end
  end.
Definition discovered_with_cache (portal : string) (gp : GpParams ClientIdentity) :
    Flow (option (Credential * PortalConfig)) :=
  let+ cached := cached_portal_credential portal in
  match cached with
  | None => sok None
  | Some cred =>
      scatch (ask_discover portal cred gp) (λ r,
        match r with
        | Ok config => sok (Some (cred, config))
        | Err e => let+ _ := check_cancelled in let+ _ := clear_cookie_cache in sok None
        end)
  end.
Definition connect_portal_with_prelogin (portal : string) : Flow () :=
  let+ gp := build_gp_params in
  let+ p := ask_prelogin portal gp (prelogin_options false) in
  let+ cached := discovered_with_cache portal gp in
  let+ found := match cached with
    | Some (cred, config) => sok (p, cred, config)
    | None =>
        let+ pc := obtain_credential_with_recovery p portal false in
        let+ _ := check_cancelled in
        let+ config := ask_discover portal pc.2 gp in
        sok (pc.1, pc.2, config)
    end in
  let '(p, cred, config) := found in
  let+ _ := check_cancelled in
  let+ config := smay_panic (sort_gateways (region p) config) in
  let auth := match password cred with
              | Some pw => with_password pw (auth_cookie config)
              | None => auth_cookie config
              end in
  if auto_gateway args then
    match gateways config with
    | [] => sthrow (Message "No gateways available in portal config for auto-gateway selection")
    | l => auto_gateways portal auth config (length l) l None
    end
  else
    let selection := if bool_decide (is_Some (arg_gateway args)) then Manual else Auto in
    let+ g := select_gateway config in
    let+ r := connect_gateway_with_fallback portal g auth config selection [] in
    spure (into_error r).
Definition is_portal_error (e : Failure) : bool :=
  match root_cause e with PortalFailure p => bool_decide (PortalError.sources p = []) | _ => false end.
Definition handle_impl : Flow () :=
  let+ _ := check_cancelled in
  let+ _ := prepare_cookie_from_stdin in
  if as_gateway args then connect_gateway_with_prelogin (server args) (server args) false None
  else
    let+ cached := (if cookie_on_stdin args then sok None else try_cached_cookie (server args)) in
    match cached with
    | Some r => spure r
    | None =>
        let+ _ := check_cancelled in
        scatch (connect_portal_with_prelogin (server args)) (λ r,
          match r with
          | Ok _ => sok ()
          | Err e =>
              let+ e := terminal_now e in
              if is_recovery_failed e then sthrow e
              else if is_portal_error e
              then connect_gateway_with_prelogin (server args) (server args) false None
              else sthrow e
          end)
    end.
Definition handle_turn (_ : ()) : Flow (() + ()) :=
  let+ _ := check_cancelled in
  scatch handle_impl (λ r,
    match r with
    | Ok _ => sok (inr ())
    | Err e =>
        let+ e := terminal_now e in
        if is_recovery_failed e then sthrow e
        else match root_cause e with
        | IdentityFailure RequestIdentityError.NoKey => sok (inr ())
        | IdentityFailure (RequestIdentityError.NoPassphrase t | RequestIdentityError.DecryptError t) =>
            let+ password := attempt (PromptE (PassphrasePrompt ("Enter the " +:+ t +:+ " passphrase:"))) in
            let+ _ := smodify (set_latest_key_password (Some password)) in
            sok (inl ())
        | _ => sthrow e
        end
    end).
Definition handle_attempt : Flow () :=
  if bool_decide (is_Some (arg_browser_listen args)) &&
     negb (match arg_browser args with Some b => is_manual b | None => false end)
  then sthrow (Message "The '--browser-listen' option requires '--browser manual'")
  else if webview && arg_default_browser args && bool_decide (is_Some (arg_browser args))
  then sthrow (Message "Cannot use `--default-browser` and `--browser` options at the same time")
  else
    let+ _ := smodify (set_latest_key_password (arg_key_password args)) in
    srepeating handle_turn ().
(** When the PID file cannot be removed, that is logged and the file stays. *)
Definition handle : Flow () :=
  let+ _ := smodify (set_auth_recovery recovery_new) in
  scatch handle_attempt (λ r,
    let+ l := sgets sessions in
    let+ _ := smodify (set_sessions (λ _, [])) in
    let+ _ := sask (if cookie_only args && match r with Ok _ => true | Err _ => false end
                    then RelinquishE l else LogoutAllE l) in
    let+ written := sgets pid_written in
    let+ _ := (if (written : bool) then let+ _ := sask RemovePidE in sok () else sok ()) in
    spure r).
(** [ConnectHandler::new] *)
Definition handler_new : option Handler :=
  p ← build_os_profile;
  Some {| profile := p; latest_key_password := None; password_from_stdin := None;
          cookie_from_stdin := None; clean_requested := webview && arg_clean args;
          auth_recovery := recovery_new; sessions := []; pid_written := false;
          cancelled_seen := false |}.
End connect.
