(* ===== verification/ClientAccount.v ===== *)
(** What a run of the command-line client accounts for: every session a gateway issues to
    it, the lines it reads from standard input, the clean window and the PID file.

    An automaton watches the events of a run; [calm] is the logic of the parts of the
    handler that leave the ledger alone, and the other parts say what they do to it. *)
From ITree Require Import ITree.
From S2P Require Import Prelude Utf8 Text ThirdParty ClientProfile Xml GpHttp Interaction Stateful.
From S2P Require Import ChildProcess Csc Session Credential AuthLauncher Portal GatewayLogin GatewayTransport.
From S2P Require Import ClientConnect.
From S2P Require HostCollection CookieStore ClientSession Openconnect NonTunnel AttemptRuntime.

#[local] Open Scope sflow_scope.

#[export] Instance StdinLine_eq_dec : EqDecision StdinLine.
Proof. solve_decision. Defined.

(** * The automaton *)
(** The server and the cookie of a session. *)
Definition Key : Type := string * string.
Definition key (s : GatewaySession) : Key :=
  (session_server s, cookie (transport_authentication (session_transport s))).
Definition keys (l : GatewaySessions) : list Key := key <$> l.
(** How writing the PID file and removing it went, and whether a file that was written,
    whole or in part, is there. A failed write removes nothing. *)
Record PidFile := {
  pid_writes : list PidWrite;
  pid_there : bool;
  pid_removals : list (result string ());
}.
Definition pid_file_new : PidFile := {| pid_writes := []; pid_there := false; pid_removals := [] |}.
Definition left_by (w : PidWrite) : bool := match w with PidWritten => true | PidFailed b => b end.
Definition note_write (w : PidWrite) (p : PidFile) : PidFile := {|
  pid_writes := pid_writes p ++ [w]; pid_there := pid_there p || left_by w;
  pid_removals := pid_removals p |}.
Definition note_removal (r : result string ()) (p : PidFile) : PidFile := {|
  pid_writes := pid_writes p; pid_there := pid_there p && negb (is_ok r);
  pid_removals := pid_removals p ++ [r] |}.
(** The last write succeeded. *)
Definition last_written (p : PidFile) : bool :=
  match list.last (pid_writes p) with Some w => write_pid_file w | None => false end.
(** The sessions still held, a cookie that no session came of, the sessions that ended
    with a logout, went to the tunnel, were printed and were released for who reads the
    cookie; what was read, shown clean and written. *)
Record Account := {
  held : list Key;
  unusable : option string;
  ended : list Key;
  handed : list Key;
  printed : list Key;
  released : list Key;
  lines_read : list StdinLine;
  clean_used : bool;
  pid_file : PidFile;
}.
Definition account_new : Account := {|
  held := []; unusable := None; ended := []; handed := []; printed := []; released := [];
  lines_read := []; clean_used := false; pid_file := pid_file_new |}.
Definition hold (k : Key) (u : option string) (a : Account) : Account := {|
  held := held a ++ [k]; unusable := u; ended := ended a; handed := handed a; printed := printed a;
  released := released a; lines_read := lines_read a; clean_used := clean_used a; pid_file := pid_file a |}.
Definition set_unusable (u : option string) (a : Account) : Account := {|
  held := held a; unusable := u; ended := ended a; handed := handed a; printed := printed a;
  released := released a; lines_read := lines_read a; clean_used := clean_used a; pid_file := pid_file a |}.
Definition end_sessions (out rest : list Key) (a : Account) : Account := {|
  held := rest; unusable := unusable a; ended := ended a ++ out; handed := handed a; printed := printed a;
  released := released a; lines_read := lines_read a; clean_used := clean_used a; pid_file := pid_file a |}.
Definition hand_to_tunnel (k : Key) (rest : list Key) (pid : PidFile) (a : Account) : Account := {|
  held := rest; unusable := unusable a; ended := ended a; handed := handed a ++ [k]; printed := printed a;
  released := released a; lines_read := lines_read a; clean_used := clean_used a; pid_file := pid |}.
Definition print_session (k : Key) (a : Account) : Account := {|
  held := held a; unusable := unusable a; ended := ended a; handed := handed a; printed := printed a ++ [k];
  released := released a; lines_read := lines_read a; clean_used := clean_used a; pid_file := pid_file a |}.
Definition release (a : Account) : Account := {|
  held := []; unusable := unusable a; ended := ended a; handed := handed a; printed := printed a;
  released := released a ++ held a; lines_read := lines_read a; clean_used := clean_used a;
  pid_file := pid_file a |}.
Definition read_line (line : StdinLine) (a : Account) : Account := {|
  held := held a; unusable := unusable a; ended := ended a; handed := handed a; printed := printed a;
  released := released a; lines_read := lines_read a ++ [line]; clean_used := clean_used a;
  pid_file := pid_file a |}.
Definition show_window (clean : bool) (a : Account) : Account := {|
  held := held a; unusable := unusable a; ended := ended a; handed := handed a; printed := printed a;
  released := released a; lines_read := lines_read a; clean_used := clean_used a || clean;
  pid_file := pid_file a |}.
Definition set_pid_file (v : PidFile) (a : Account) : Account := {|
  held := held a; unusable := unusable a; ended := ended a; handed := handed a; printed := printed a;
  released := released a; lines_read := lines_read a; clean_used := clean_used a; pid_file := v |}.

(** The first session of a server is taken out. *)
Fixpoint take_out (server : string) (l : list Key) : option Key * list Key :=
  match l with
  | [] => (None, [])
  | k :: l => if String.eqb k.1 server then (Some k, l)
              else let '(o, l) := take_out server l in (o, k :: l)
  end.
Fixpoint take_all (servers : list string) (l : list Key) : list Key * list Key :=
  match servers with
  | [] => ([], l)
  | v :: servers =>
      let '(o, l) := take_out v l in
      let '(out, rest) := take_all servers l in (option_list o ++ out, rest)
  end.

Section account.
Context `{UrlEncoding} `{Xmltree} `{UrlCrate} `{Base64} `{UuidV5} `{UuidFormat}.
Context `{SerdeJson SamlAuthResult} `{SerdeJson CookieStore.StoredCookie}.
Context {ClientIdentity RequestIdentity : Type} {client : Setting ClientIdentity RequestIdentity}.
Notation E := (ClientE ClientIdentity).
Notation Flow := (sflow E Handler).

(** What the client may do next, and what it has done then:
    - it logs in to a gateway only when it holds no session there and has no cookie left
      to revoke; the session an answer issues is held;
    - it logs out a session it holds, or all it holds, unless it printed a cookie;
    - the tunnel gets the session of its gateway and cookie, in a run that does not only
      print the cookie;
    - such a run alone prints a cookie, of a session it holds, and releases what it holds;
    - a line of standard input is read once, an embedded window starts clean once;
    - the PID file is removed only when it is there. *)
Definition next (a : Account) (e : event E) : option Account :=
  match e with
  | @Ev _ X q x =>
      match q in ClientE _ Y return Y → option Account with
      | LoginE gateway c cred ctx => λ t,
          guard (gateway ∉ (held a).*1);; guard (unusable a = None);;
          let '(r, _, unused) := login_turn c cred ctx t in
          Some match r with
          | Ok (Authenticated au) => hold (gateway, cookie au) unused a
          | _ => set_unusable unused a
          end
      | RevokeE c => λ _, guard (unusable a = Some c);; Some (set_unusable None a)
      | LogoutE s => λ _,
          guard (printed a = []);;
          let '(o, rest) := take_out (session_server s) (held a) in
          guard (o = Some (key s));; Some (end_sessions [key s] rest a)
      | LogoutAllE l => λ _,
          guard (printed a = []);; guard (keys l = held a);; Some (end_sessions (held a) [] a)
      | RelinquishE l => λ _,
          guard (cookie_only args = true);; guard (keys l = held a);; Some (release a)
      | PrintCookieE c gateway => λ _,
          guard (cookie_only args = true);; guard (held a = [(gateway, c)]);; guard (printed a = []);;
          Some (print_session (gateway, c) a)
      | TunnelE gateway v _ _ => λ t,
          guard (cookie_only args = false);;
          let '(o, rest) := take_out gateway (held a) in
          guard (o = Some (gateway, Openconnect.vpn_cookie v));;
          Some (hand_to_tunnel (gateway, Openconnect.vpn_cookie v) rest
                  match t with
                  | TunnelExited _ (Some w) | TunnelEstablished w => note_write w (pid_file a)
                  | _ => pid_file a
                  end a)
      | MaintainE l => λ t,
          guard (keys l = held a);;
          Some match t with
          | MaintainEnded _ out => let '(out, rest) := take_all out (held a) in end_sessions out rest a
          | MaintainEstablished => a
          end
      | MaintainEndE l => λ t,
          guard (keys l = held a);;
          let '(out, rest) := take_all t.2 (held a) in Some (end_sessions out rest a)
      | StdinE line => λ r,
          guard (line ∉ lines_read a);; Some match r with Ok _ => read_line line a | Err _ => a end
      | LaunchE s _ => λ _,
          guard (clean s = true → shows_window s = true ∧ clean_used a = false);;
          Some (show_window (clean s) a)
      | WritePidE => λ w, Some (set_pid_file (note_write w (pid_file a)) a)
      | RemovePidE => λ r,
          guard (last_written (pid_file a) = true);; guard (pid_removals (pid_file a) = []);;
          Some (set_pid_file (note_removal r (pid_file a)) a)
      | _ => λ _, Some a
      end x
  end.
Definition step (a : Account) (e : event E) (a' : Account) : Prop := next a e = Some a'.
Notation spec := (sspec step account_new).

(** * What the handler keeps between its steps *)
(** The handler knows that the PID file was written and is to be removed. *)
Record pid_known (p : PidFile) (written : bool) : Prop := {
  known_written : last_written p = written;
  known_there : pid_there p = existsb left_by (pid_writes p);
  known_removals : pid_removals p = [];
}.
Lemma pid_known_write w p written : pid_known p written → pid_known (note_write w p) (write_pid_file w).
Proof.
  intros [_ Ht Hr]. constructor; cbn; [|by rewrite Ht, existsb_app; cbn; rewrite orb_false_r|done].
  unfold last_written. cbn. by rewrite list.last_snoc.
Qed.
(** [known = None → line not read] and the like: what the handler remembers of the run. *)
Record core (a : Account) (h : Handler) : Prop := {
  core_cookie : cookie_from_stdin h = None → CookieLine ∉ lines_read a;
  core_password : password_from_stdin h = None → PasswordLine ∉ lines_read a;
  core_clean : clean_requested h = true → clean_used a = false;
  core_pid : pid_known (pid_file a) (pid_written h);
  core_unusable : unusable a = None;
  core_released : released a = [];
}.
(** What stays when the ledger is left alone. *)
Record frame (a : Account) (h : Handler) (a' : Account) (h' : Handler) : Prop := {
  frame_held : held a' = held a;
  frame_sessions : sessions h' = sessions h;
  frame_printed : printed a' = printed a;
  frame_cancelled : cancelled_seen h = true → cancelled_seen h' = true;
}.
Lemma frame_here a h : frame a h a h.
Proof. by constructor. Qed.
Lemma frame_trans a h a1 h1 a2 h2 : frame a h a1 h1 → frame a1 h1 a2 h2 → frame a h a2 h2.
Proof. intros [] []. constructor; [congruence..|auto]. Qed.

(** An error no other attempt follows. *)
Definition final (e : Failure) : Prop :=
  match root_cause e with IdentityFailure _ | PortalFailure _ => False | _ => True end.
Definition anything (_ : Failure) : Prop := True.

(** Flows that leave the ledger alone; their errors satisfy [Q]. *)
Definition calm {A} (Q : Failure → Prop) (m : Flow A) : Prop :=
  ∀ a h, core a h → spec a h m (λ a' h' r, core a' h' ∧ frame a h a' h' ∧ match r with Ok _ => True | Err e => Q e end).
(** Questions that account for nothing. *)
Definition neutral {X} (q : E X) : Prop := ∀ a x, next a (Ev q x) = Some a.
(** State changes that only concern the profile, the passphrase and the recovery. *)
Record harmless (f : Handler → Handler) : Prop := {
  harmless_core a h : core a h → core a (f h);
  harmless_frame a h : frame a h a (f h);
}.

Lemma calm_weaken {A} (Q R : Failure → Prop) (m : Flow A) : (∀ e, Q e → R e) → calm Q m → calm R m.
Proof.
  intros Hq Hm a h Hc. eapply sspec_mono, Hm, Hc. intros a' h' [x|e] (? & ? & ?); auto.
Qed.
Lemma calm_pure {A} Q (r : result Failure A) : (∀ e, r = Err e → Q e) → calm Q (spure r).
Proof.
  intros Hr a h Hc. apply sspec_pure. split; [done|]. split; [apply frame_here|]. destruct r; auto.
Qed.
Lemma calm_ok {A} Q (x : A) : calm Q (sok x).
Proof. by apply calm_pure. Qed.
Lemma calm_throw {A} (Q : Failure → Prop) e : Q e → calm (A := A) Q (sthrow e).
Proof. intros He. apply calm_pure. by intros ? [= <-]. Qed.
Lemma calm_catch {A B} Q R (m : Flow A) (k : result Failure A → Flow B) :
  calm Q m → (∀ x, calm R (k (Ok x))) → (∀ e, Q e → calm R (k (Err e))) → calm R (scatch m k).
Proof.
  intros Hm Hk He a h Hc. eapply sspec_catch; [by apply Hm|]. cbn.
  intros a1 h1 r (Hc1 & Hf & Hr).
  assert (calm R (k r)) as Hkr by (destruct r; auto).
  eapply sspec_mono, Hkr, Hc1. cbn. intros a2 h2 r2 (? & ? & ?). split_and!; [done| |done].
  by eapply frame_trans.
Qed.
Lemma calm_then {A B} Q (m : Flow A) (k : A → Flow B) :
  calm Q m → (∀ x, calm Q (k x)) → calm Q (sbind m k).
Proof. intros Hm Hk. eapply calm_catch; [done..|]. intros e He. by apply calm_throw. Qed.
Lemma calm_gets {A} Q (f : Handler → A) : calm Q (sgets f).
Proof. intros a h Hc. apply (sspec_ok step account_new a h (f h)). split_and!; [done|apply frame_here|done]. Qed.
Lemma calm_modify Q f : harmless f → calm Q (smodify f).
Proof.
  intros [Hc Hf] a h Ha g Hg. apply wp_ret; [by exists a|]. exists a. split; [done|]. cbn. auto.
Qed.
Lemma calm_may_panic {A} Q (o : option A) : calm Q (smay_panic o).
Proof.
  intros a h Hc g Hg. apply wp_ret; [by exists a|]. exists a. split; [done|].
  destruct o; cbn; [|done]. split_and!; [done|apply frame_here|done].
Qed.
Lemma calm_ask {X} Q (q : E X) : neutral q → calm Q (sask q).
Proof.
  intros Hn a h Hc g Hg. apply wp_bind, wp_trigger; [by exists a|]. intros x.
  assert (tracks step account_new (g ++ [Ev q x]) a) as Hg' by (eapply tracks_snoc; [done|apply Hn]).
  split; [by exists a|]. apply wp_ret; [by exists a|]. exists a. split; [done|]. cbn.
  split_and!; [done|apply frame_here|done].
Qed.
Lemma calm_repeating {A I} Q (turn : I → Flow (I + A)) i :
  (∀ i, calm Q (turn i)) → calm Q (srepeating turn i).
Proof.
  intros Ht a h Hc.
  apply (sspec_repeating step account_new _ _ _ (λ a' h' _, core a' h' ∧ frame a h a' h')).
  - intros a1 h1 j [Hc1 Hf1]. eapply sspec_mono, Ht, Hc1. cbn. pose proof frame_trans.
    intros a2 h2 [[j2|x]|e] (? & ? & ?); split_and!; eauto.
  - split; [done|apply frame_here].
Qed.
Lemma calm_for {A} Q (l : list A) (f : A → Flow ()) : (∀ x, calm Q (f x)) → calm Q (sfor l f).
Proof. intros Hf. induction l as [|x l IH]; [apply calm_ok|]. by apply calm_then. Qed.
Lemma calm_attempt {A} (Q : Failure → Prop) (q : E (result string A)) :
  neutral q → (∀ m, Q (Message m)) → calm Q (attempt q).
Proof.
  intros Hn Hq. apply calm_then; [by apply calm_ask|]. intros [x|m]; apply calm_pure; [done|].
  by intros ? [= <-].
Qed.

(** Stepping over a calm part. *)
Lemma spec_bind_calm {A B} Q a h (m : Flow A) (k : A → Flow B) Φ : calm Q m → core a h →
  (∀ a' h' x, core a' h' → frame a h a' h' → spec a' h' (k x) Φ) →
  (∀ a' h' e, core a' h' → frame a h a' h' → Q e → Φ a' h' (Err e)) → spec a h (sbind m k) Φ.
Proof.
  intros Hm Hc Hk He. eapply sspec_bind; [by apply Hm|..]; cbn.
  - intros a' h' x (? & ? & _). auto.
  - intros a' h' e (? & ? & ?). auto.
Qed.
Lemma spec_catch_calm {A B} Q a h (m : Flow A) (k : result Failure A → Flow B) Φ : calm Q m → core a h →
  (∀ a' h' r, core a' h' → frame a h a' h' → match r with Ok _ => True | Err e => Q e end → spec a' h' (k r) Φ) →
  spec a h (scatch m k) Φ.
Proof. intros Hm Hc Hk. eapply sspec_catch; [by apply Hm|]; cbn. intros a' h' r (? & ? & ?). auto. Qed.
Lemma spec_calm {A} Q a h (m : Flow A) Φ : calm Q m → core a h →
  (∀ a' h' r, core a' h' → frame a h a' h' → match r with Ok _ => True | Err e => Q e end → Φ a' h' r) →
  spec a h m Φ.
Proof. intros Hm Hc Hk. eapply sspec_mono, Hm, Hc. cbn. intros a' h' r (? & ? & ?). auto. Qed.

Lemma harmless_profile p : harmless (set_profile p).
Proof. by split; [intros a h []|]. Qed.
Lemma harmless_key_password p : harmless (set_latest_key_password p).
Proof. by split; [intros a h []|]. Qed.
Lemma harmless_recovery r : harmless (set_auth_recovery r).
Proof. by split; [intros a h []|]. Qed.
Lemma harmless_cancelled c : harmless (see_cancelled c).
Proof. split; [by intros a h []|]. intros a h. constructor; try done. cbn. by intros ->. Qed.
End account.
#[export] Hint Resolve harmless_profile harmless_key_password harmless_recovery harmless_cancelled : calm.

(** Goes through a flow; what is not a construct of flows is found in the database. *)
Ltac calm_step :=
  lazymatch goal with
  | |- calm _ (sbind _ _) => apply calm_then
  | |- calm _ (sok _) => apply calm_ok
  | |- calm _ (sthrow _) => apply calm_throw
  | |- calm _ (spure _) => apply calm_pure
  | |- calm _ (sgets _) => apply calm_gets
  | |- calm _ (smay_panic _) => apply calm_may_panic
  | |- calm _ (smodify _) => apply calm_modify; solve [eauto with calm]
  | |- calm _ (sask _) => apply calm_ask; done
  | |- calm _ (srepeating _ _) => apply calm_repeating
  | |- calm _ (sfor _ _) => apply calm_for
  | |- calm _ (match ?x with _ => _ end) => destruct x
  | |- calm _ (let _ := _ in _) => cbv zeta
  | |- ∀ _, _ => intros ?
  | |- anything _ => exact I
  | |- _ => solve [eauto with calm]
  end.
Ltac calm := repeat calm_step.

Section calm_parts.
Context `{UrlEncoding} `{Xmltree} `{UrlCrate} `{Base64} `{UuidV5} `{UuidFormat}.
Context `{SerdeJson SamlAuthResult} `{SerdeJson CookieStore.StoredCookie}.
Context {ClientIdentity RequestIdentity : Type} {client : Setting ClientIdentity RequestIdentity}.
Notation E := (ClientE ClientIdentity).
Notation Flow := (sflow E Handler).
Notation spec := (sspec step account_new).
Notation calm0 := (calm anything).

Lemma any_attempt {A} (q : E (result string A)) : neutral q → calm0 (attempt q).
Proof. intros Hn. by apply calm_attempt. Qed.
Lemma final_attempt {A} (q : E (result string A)) : neutral q → calm final (attempt q).
Proof. intros Hn. by apply calm_attempt. Qed.
Hint Extern 1 (calm _ (attempt _)) => (apply any_attempt || apply final_attempt); done : calm.

(** The token. *)
Lemma is_cancelled_says a h : core a h → spec a h is_cancelled (λ a' h' r,
  core a' h' ∧ frame a h a' h' ∧ r = Ok (cancelled_seen h')).
Proof.
  intros Hc. unfold is_cancelled. apply sspec_gets. destruct (cancelled_seen h) eqn:Es.
  - apply sspec_ok. split_and!; [done|apply frame_here|by rewrite Es].
  - apply sspec_ask. intros c. exists a. split; [done|]. apply sspec_modify, sspec_ok.
    split_and!; [by apply harmless_cancelled|by apply harmless_cancelled|]. cbn. by rewrite Es.
Qed.
Lemma check_cancelled_says a h : core a h → spec a h check_cancelled (λ a' h' r,
  core a' h' ∧ frame a h a' h' ∧
  r = if cancelled_seen h' then Err AuthenticationCancelled else Ok ()).
Proof.
  intros Hc. eapply sspec_bind; [by apply is_cancelled_says|..]; cbn.
  - intros a' h' x (? & ? & [= ->]). destruct (cancelled_seen h') eqn:Es.
    + apply sspec_throw. rewrite Es. by split_and!.
    + apply sspec_ok. rewrite Es. by split_and!.
  - by intros ? ? ? (_ & _ & [=]).
Qed.
Lemma calm_is_cancelled Q : calm Q is_cancelled.
Proof.
  intros a h Hc. eapply sspec_mono, is_cancelled_says, Hc. cbn. intros a' h' r (? & ? & ->). done.
Qed.
Lemma calm_check_cancelled (Q : Failure → Prop) : Q AuthenticationCancelled → calm Q check_cancelled.
Proof.
  intros Hq a h Hc. eapply sspec_mono, check_cancelled_says, Hc. cbn.
  intros a' h' r (? & ? & ->). split_and!; [done..|]. by destruct (cancelled_seen h').
Qed.
Hint Resolve calm_is_cancelled : calm.
Hint Extern 1 (calm _ check_cancelled) => apply calm_check_cancelled; exact I : calm.
Lemma calm_cancel Q : calm Q cancel.
Proof. unfold cancel. calm. Qed.
Hint Resolve calm_cancel : calm.

Lemma calm_ask_prelogin server gp o : calm0 (ask_prelogin server gp o).
Proof. unfold ask_prelogin. calm. Qed.
Lemma calm_ask_discover portal cred gp : calm0 (ask_discover portal cred gp).
Proof. unfold ask_discover. calm. Qed.
Lemma calm_build_gp_params : calm0 build_gp_params.
Proof. apply calm_gets. Qed.
Lemma calm_apply_stdin_host_id Q id : calm Q (apply_stdin_host_id id).
Proof. unfold apply_stdin_host_id. calm. Qed.
Lemma calm_terminal_now Q e : calm Q (terminal_now e).
Proof. apply calm_gets. Qed.
Hint Resolve calm_ask_prelogin calm_ask_discover calm_build_gp_params calm_apply_stdin_host_id calm_terminal_now : calm.

(** Standard input: what was read is remembered. *)
Lemma calm_read_auth_result a h : core a h → cookie_from_stdin h = None →
  spec a h read_auth_result_from_stdin (λ a' h' r, core a' h' ∧ frame a h a' h' ∧ True).
Proof.
  intros Hc Hk. unfold read_auth_result_from_stdin, attempt.
  apply (sspec_bind step account_new _ _ _ _ (λ a' h' r, h' = h ∧ match r with
    | Ok _ => a' = read_line CookieLine a | Err _ => a' = a end)).
  - apply sspec_ask. intros r. exists (match r with Ok _ => read_line CookieLine a | Err _ => a end).
    split; [unfold step; cbn; by rewrite option_guard_True by (by apply Hc)|].
    apply sspec_pure. by destruct r.
  - intros ? ? line [-> ->]. apply sspec_modify, sspec_pure. split_and!; [|by constructor|done].
    destruct Hc as [_ Hp Hcl Hpid Hu Hrel]. constructor; cbn; try done. intros Hpw.
    apply Hp in Hpw. by intros [?|?%list_elem_of_singleton]%elem_of_app.
  - intros ? ? e [-> ->]. split_and!; [done|apply frame_here|done].
Qed.
Lemma calm_prepare_cookie : calm0 prepare_cookie_from_stdin.
Proof.
  intros a h Hc. unfold prepare_cookie_from_stdin. apply sspec_gets.
  destruct (cookie_from_stdin h) as [c|] eqn:Ek.
  { rewrite orb_true_r. by apply calm_ok. }
  rewrite orb_false_r. destruct (cookie_on_stdin args); [|by apply calm_ok]. cbn [negb].
  eapply sspec_bind; [by apply calm_read_auth_result|..]; cbn.
  - intros a1 h1 r (Hc1 & Hf1 & _). eapply sspec_mono, (calm_apply_stdin_host_id anything), Hc1.
    cbn. intros a2 h2 r2 (? & ? & ?). split_and!; [done|by eapply frame_trans|done].
  - intros a1 h1 e (? & ? & _). done.
Qed.
Lemma calm_read_cookie : calm0 read_cookie_from_stdin.
Proof.
  intros a h Hc. unfold read_cookie_from_stdin. apply sspec_gets.
  destruct (cookie_from_stdin h) as [c|] eqn:Ek.
  { revert a h Hc Ek. cut (calm0 (let+ r := spure (parse_auth_data c) in spure (credential_of_result r))); [by auto|]. calm. }
  eapply sspec_bind; [by apply calm_read_auth_result|..]; cbn.
  - intros a1 h1 r (Hc1 & Hf1 & _).
    assert (calm0 (let+ _ := apply_stdin_host_id (result_host_id r) in spure (credential_of_result r))) as Hk by calm.
    eapply sspec_mono, Hk, Hc1.
    cbn. intros a2 h2 r2 (? & ? & ?). split_and!; [done|by eapply frame_trans|done].
  - intros a1 h1 e (? & ? & _). done.
Qed.
Lemma calm_obtain_password p : calm0 (obtain_password p).
Proof.
  unfold obtain_password. destruct (passwd_on_stdin args); [|calm].
  intros a h Hc. apply sspec_gets. destruct (password_from_stdin h) as [w|] eqn:Ek; [by apply calm_ok|].
  unfold attempt.
  apply (sspec_bind step account_new _ _ _ _ (λ a' h' r, h' = h ∧ match r with
    | Ok _ => a' = read_line PasswordLine a | Err _ => a' = a end)).
  - apply sspec_ask. intros r. exists (match r with Ok _ => read_line PasswordLine a | Err _ => a end).
    split; [unfold step; cbn; by rewrite option_guard_True by (by apply Hc)|].
    apply sspec_pure. by destruct r.
  - intros ? ? line [-> ->]. apply sspec_modify, sspec_ok. split_and!; [|by constructor|done].
    destruct Hc as [Hco _ Hcl Hpid Hu Hrel]. constructor; cbn; try done. intros Hpw.
    apply Hco in Hpw. by intros [?|?%list_elem_of_singleton]%elem_of_app.
  - intros ? ? e [-> ->]. split_and!; [done|apply frame_here|done].
Qed.
Hint Resolve calm_prepare_cookie calm_read_cookie calm_obtain_password : calm.

(** The clean window. *)
Lemma saml_launcher_not_clean h p server allowed l :
  saml_launcher h p server allowed = Some l → clean l = false.
Proof.
  unfold saml_launcher. destruct (if can_use_external_browser_auth _ _ _ then _ else _); [|done].
  intros [= <-]. by destruct webview.
Qed.
Lemma launch_shows (l : SamlAuthLauncher) a h : core a h →
  (clean l = true → shows_window l = true ∧ clean_used a = false ∧ clean_requested h = false) →
  spec a h (launch l) (λ a' h' r, core a' h' ∧ frame a h a' h' ∧ True).
Proof.
  intros Hc Hl. unfold launch. apply sspec_let_pure. destruct (prepare_launch _ _ _ _ _ _) as [c|e].
  2:{ split_and!; [done|apply frame_here|done]. }
  apply sspec_ask. intros [w cancelled]. exists (show_window (clean l) a). split.
  { unfold step. cbn. rewrite option_guard_True; [done|]. intros (? & ? & ?)%Hl. done. }
  apply sspec_modify, sspec_pure. split_and!; [|constructor; cbn; try done; by intros ->|done].
  destruct Hc as [Hco Hp Hcl Hpid Hu Hrel]. constructor; cbn; try done. intros Hr.
  rewrite Hcl by done. destruct (clean l) eqn:El; [|done]. destruct (Hl eq_refl) as (_ & _ & Hf). congruence.
Qed.
Lemma calm_obtain_credential p server allowed : calm0 (obtain_credential p server allowed).
Proof.
  unfold obtain_credential. destruct (should_read_stdin_credential _); [calm|]. destruct p as [p|p].
  2:{ calm. }
  intros a h Hc. apply sspec_gets. destruct (saml_launcher h p server allowed) as [l|] eqn:El.
  2:{ by apply calm_throw. }
  apply saml_launcher_not_clean in El. apply sspec_gets.
  set (clean_auth := (consume_for_webview (shows_window l) (clean_requested h)).1).
  set (rest := (consume_for_webview (shows_window l) (clean_requested h)).2).
  assert (clean_auth = true → shows_window l = true ∧ clean_requested h = true ∧ rest = false) as Hcl.
  { subst clean_auth rest. unfold consume_for_webview.
    destruct (shows_window l), (clean_requested h); cbn; by auto. }
  assert (rest = true → clean_requested h = true) as Hrest.
  { subst rest. unfold consume_for_webview. by destruct (shows_window l), (clean_requested h). }
  replace (consume_for_webview _ _) with (clean_auth, rest) by (subst; by destruct (consume_for_webview _ _)).
  apply sspec_modify.
  assert (core a (set_clean_requested rest h)) as Hc1.
  { destruct Hc as [Hco Hp Hq Hpid Hu Hrel]. constructor; cbn; auto. }
  eapply sspec_bind.
  { apply launch_shows; [exact Hc1|]. destruct webview; cbn; [|congruence].
    intros Hca. destruct (Hcl Hca) as (Hs & Hr & Hz). split_and!; [done| |done]. by apply Hc. }
  - cbn. intros a1 h1 cred (Hc2 & Hf & _).
    assert (calm0 (let+ _ := check_cancelled in sok cred)) as Hk by calm.
    eapply sspec_mono, Hk, Hc2. cbn. intros a2 h2 r (? & Hf2 & ?). split_and!; [done| |done].
    destruct Hf, Hf2. constructor; cbn in *; [congruence..|auto].
  - cbn. intros a1 h1 e (Hc2 & [] & _). split_and!; [done|by constructor|done].
Qed.
Hint Resolve calm_obtain_credential : calm.
Lemma calm_refresh server g allowed : calm0 (refresh_auth_prelogin server g allowed).
Proof. unfold refresh_auth_prelogin. calm. Qed.
Hint Resolve calm_refresh : calm.
Lemma calm_credential_with_recovery p server allowed :
  calm0 (obtain_credential_with_recovery p server allowed).
Proof.
  unfold obtain_credential_with_recovery. apply calm_repeating. intros i. apply calm_then; [calm|intros _].
  apply (calm_catch anything); [calm..|]. intros e _. apply calm_then; [calm|intros _]. apply calm_then; [calm|].
  intros r. destruct (recover e r) as [again r']. apply calm_then; [calm|intros _].
  destruct (negb again); [calm|]. apply (calm_catch anything); calm.
Qed.
Hint Resolve calm_credential_with_recovery : calm.

(** The cookie cache. *)
Lemma calm_load_cookie Q server : calm Q (load_cookie server).
Proof. unfold load_cookie. calm. Qed.
Hint Resolve calm_load_cookie : calm.
Lemma calm_cached_portal_credential Q server : calm Q (cached_portal_credential server).
Proof. unfold cached_portal_credential. calm. Qed.
Lemma calm_clear_cookie_cache Q : calm Q clear_cookie_cache.
Proof. unfold clear_cookie_cache. calm. Qed.
Lemma calm_save_cookie_cache Q portal gateway c : calm Q (save_cookie_cache portal gateway c).
Proof. unfold save_cookie_cache. calm. Qed.
Lemma calm_select_gateway config : calm0 (select_gateway config).
Proof. unfold select_gateway. calm. Qed.
Hint Resolve calm_cached_portal_credential calm_clear_cookie_cache calm_save_cookie_cache calm_select_gateway : calm.
Lemma calm_discovered portal gp : calm0 (discovered_with_cache portal gp).
Proof.
  unfold discovered_with_cache. apply calm_then; [calm|]. intros [cred|]; [|calm].
  apply (calm_catch anything); calm.
Qed.
End calm_parts.
#[export] Hint Extern 1 (calm _ (attempt _)) => (apply any_attempt || apply final_attempt); done : calm.
#[export] Hint Extern 1 (calm _ check_cancelled) => apply calm_check_cancelled; exact I : calm.
#[export] Hint Resolve calm_is_cancelled calm_cancel calm_ask_prelogin calm_ask_discover calm_build_gp_params
  calm_apply_stdin_host_id calm_terminal_now calm_prepare_cookie calm_obtain_credential
  calm_credential_with_recovery calm_load_cookie calm_cached_portal_credential calm_clear_cookie_cache
  calm_save_cookie_cache calm_select_gateway calm_discovered : calm.
