(* ===== verification/ClientLedger.v ===== *)
(** The sessions of the command-line client: each one a gateway issues is logged out, goes
    to the tunnel or is released with its cookie printed, exactly once. *)
From ITree Require Import ITree.
From S2P Require Import Prelude Utf8 Text ThirdParty ClientProfile Xml GpHttp Interaction Stateful.
From S2P Require Import ChildProcess Csc Session Credential AuthLauncher Portal GatewayLogin GatewayTransport.
From S2P Require Import ClientConnect ClientAccount.
From S2P Require HostCollection CookieStore ClientSession Openconnect NonTunnel AttemptRuntime.

#[local] Open Scope sflow_scope.

(** * Keys and what is taken out of them *)
Lemma take_out_keys server l :
  take_out server (keys l) = (key <$> taken server l, keys (relinquish_gateway server l)).
Proof.
  induction l as [|m l IH]; [done|]. unfold taken in *. cbn. fold (keys l). rewrite IH.
  unfold serves at 2 4. by destruct (String.eqb (session_server m) server).
Qed.
Lemma take_all_keys servers l :
  take_all servers (keys l) =
    (keys (AttemptRuntime.logged_out_of servers l).1, keys (AttemptRuntime.logged_out_of servers l).2).
Proof.
  revert l. induction servers as [|v servers IH]; intros l; [done|]. cbn. rewrite take_out_keys, IH.
  destruct (AttemptRuntime.logged_out_of servers _) as [out rest]. cbn. f_equal. unfold keys.
  rewrite fmap_app. by destruct (taken v l).
Qed.
Lemma take_out_perm server l : option_list (take_out server l).1 ++ (take_out server l).2 ≡ₚ l.
Proof.
  induction l as [|k l IH]; [done|]. cbn. destruct (String.eqb k.1 server); [done|].
  destruct (take_out server l) as [o rest]. cbn in *. rewrite <- IH. by rewrite Permutation_middle.
Qed.
Lemma take_all_perm servers l : (take_all servers l).1 ++ (take_all servers l).2 ≡ₚ l.
Proof.
  revert l. induction servers as [|v servers IH]; intros l; [done|]. cbn.
  pose proof (take_out_perm v l) as Ho. destruct (take_out v l) as [o rest]. cbn in *.
  specialize (IH rest). destruct (take_all servers rest) as [out left]. cbn in *.
  by rewrite <- app_assoc, IH.
Qed.
Lemma taken_nothing server l : taken server l = None → relinquish_gateway server l = l.
Proof.
  unfold taken. induction l as [|m l IH]; [done|]. cbn. destruct (serves server m); [done|].
  intros Hn. by rewrite IH.
Qed.
Lemma keys_maps l l' : session_server <$> l' = session_server <$> l →
  transport_authentication ∘ session_transport <$> l' =
  transport_authentication ∘ session_transport <$> l → keys l' = keys l.
Proof.
  revert l'. induction l as [|m l IH]; intros [|m' l'] Hs Ht; try discriminate; [done|].
  cbn in *. injection Hs as Hs1 Hs. injection Ht as Ht1 Ht. unfold key. rewrite Hs1, Ht1.
  f_equal. by apply IH.
Qed.
Lemma take_out_only k : take_out k.1 [k] = (Some k, []).
Proof. cbn. by rewrite String.eqb_refl. Qed.

(** * Errors *)
Lemma final_terminal e s : final e → final (terminal e s).
Proof.
  intros He. unfold terminal. destruct (_ || _); [done|]. by destruct (first_failure s).
Qed.
Lemma final_terminal_recovered e s : recovery_dmabuf_disabled s = true → final (terminal e s).
Proof.
  unfold recovery_dmabuf_disabled, terminal, final. intros Hs.
  destruct (first_failure s) as [m|] eqn:E1; [|done].
  destruct (is_authentication_cancelled e || is_recovery_failed e) eqn:E2; [|done].
  unfold is_authentication_cancelled, is_recovery_failed in E2. by destruct (root_cause e).
Qed.
Lemma protocol_error_stops e s : is_login_protocol_error e = true →
  is_recovery_failed (terminal e s) || is_login_protocol_error (terminal e s) = true.
Proof.
  intros He. unfold terminal. destruct (is_authentication_cancelled e || is_recovery_failed e).
  - by rewrite He, orb_true_r.
  - destruct (first_failure s); [done|]. by rewrite He, orb_true_r.
Qed.

Section ledger.
Context `{UrlEncoding} `{Xmltree} `{UrlCrate} `{Base64} `{UuidV5} `{UuidFormat}.
Context `{SerdeJson SamlAuthResult} `{SerdeJson CookieStore.StoredCookie}.
Context {ClientIdentity RequestIdentity : Type} {client : Setting ClientIdentity RequestIdentity}.
Notation E := (ClientE ClientIdentity).
Notation Flow := (sflow E Handler).
Notation spec := (sspec step account_new).
Notation calm0 := (calm anything).

(** The account and the ledger hold the same sessions. *)
Record sound (a : Account) (h : Handler) : Prop := {
  sound_core : core a h;
  sound_ledger : held a = keys (sessions h);
}.
Lemma sound_calm a h a' h' : sound a h → core a' h' → frame a h a' h' → sound a' h'.
Proof. intros [] ? []. split; [done|congruence]. Qed.
Lemma sound_set_sessions a h out l : sound a h →
  sound (end_sessions out (keys l) a) (set_sessions (λ _, l) h).
Proof. by intros [[] Hl]. Qed.

(** [logout_gateway] *)
Lemma logout_gateway_takes server a h : sound a h → printed a = [] →
  spec a h (logout_gateway server) (λ a' h' r, sound a' h' ∧ printed a' = [] ∧ r = Ok () ∧
    held a' = (take_out server (held a)).2).
Proof.
  intros [Hc Hl] Hp. unfold logout_gateway. apply sspec_gets.
  destruct (taken server (sessions h)) as [m|] eqn:Et.
  2:{ apply sspec_ok. split_and!; [by split|done|done|]. rewrite Hl, take_out_keys, Et. cbn.
      by rewrite (taken_nothing _ _ Et). }
  pose proof (taken_serves _ _ _ Et) as Hs.
  apply sspec_modify, sspec_asked. intros [].
  exists (end_sessions [key m] (keys (relinquish_gateway server (sessions h))) a). split.
  - unfold step. cbn. rewrite option_guard_True by done. cbn. rewrite Hs, Hl, take_out_keys, Et. cbn.
    by rewrite option_guard_True.
  - split_and!; [by destruct Hc|done|done|]. by rewrite Hl, take_out_keys.
Qed.

(** ** Logging in *)
(** A login adds the session to what is held, and an error that leaves it there is the
    last: the run is cancelled or the session's configuration is invalid. *)
Definition logged_in (gateway : string) (a a' : Account) (h' : Handler) (r : result Failure (GatewayLoginSession (ClientIdentity := ClientIdentity))) : Prop :=
  match r with
  | Ok s => held a' = held a ++ [(gateway, cookie (gls_authentication s))]
  | Err e => held a' = held a ∨ ∃ c, held a' = held a ++ [(gateway, c)] ∧ final e ∧
      (cancelled_seen h' = true ∨ is_login_protocol_error e = true)
  end.
Lemma sound_registered gateway a h (c : GatewayLoginClient (ClientIdentity := ClientIdentity)) au :
  core a h → held a = keys (sessions h) ++ [(gateway, cookie au)] →
  sound a (set_sessions (register (session_of gateway au c)) h).
Proof.
  intros [] Hl. split; [done|]. cbn. unfold register, keys. by rewrite fmap_app.
Qed.
Lemma bind_session_keeps g c a h : sound a h → spec a h (bind_session g c) (λ a' h' r,
  sound a' h' ∧ held a' = held a ∧ printed a' = printed a ∧
  match r with Ok _ => True | Err e => final e ∧ is_login_protocol_error e = true end).
Proof.
  intros Hs. unfold bind_session. apply sspec_ask. intros network. exists a. split; [done|].
  apply sspec_gets. destruct (bound_ledger g c network (sessions h)) as [[[b d] l]|e] eqn:Eb.
  - apply bind_non_tunnel_keeps in Eb as [He Hf]. apply sspec_modify, sspec_ok.
    split_and!; [|done..]. destruct Hs as [[] Hl]. split; [done|]. rewrite Hl. symmetry. by apply keys_maps.
  - apply sspec_throw. by split_and!.
Qed.
Lemma authenticated_session_adds gateway c cred ctx au a0 a h :
  core a h → held a = held a0 ++ [(gateway, cookie au)] → held a0 = keys (sessions h) → printed a = printed a0 →
  spec a h (authenticated_session gateway c cred ctx au) (λ a' h' r,
    sound a' h' ∧ printed a' = printed a0 ∧ logged_in gateway a0 a' h' r).
Proof.
  intros Hc Hh Hl Hp. unfold authenticated_session. apply sspec_modify.
  assert (sound a (set_sessions (register (session_of gateway au c)) h)) as Hs.
  { apply sound_registered; [done|congruence]. }
  eapply sspec_bind; [by apply check_cancelled_says, Hs|..]; cbn.
  - intros a1 h1 [] (Hc1 & Hf1 & _). pose proof (sound_calm _ _ _ _ Hs Hc1 Hf1) as Hs1.
    destruct Hf1 as [Hh1 _ Hp1 _].
    destruct (is_internal ctx && _ && _).
    + eapply (sspec_bind _ _ _ _ _ _ (λ a' h' r, sound a' h' ∧ held a' = held a1 ∧ printed a' = printed a1 ∧
        match r with Ok _ => True | Err e => final e ∧ is_login_protocol_error e = true end)).
      * eapply sspec_bind; [by apply bind_session_keeps|..]; cbn.
        -- intros a2 h2 b (? & ? & ? & _). by apply sspec_ok.
        -- done.
      * cbn. intros a2 h2 b (? & ? & ? & _). apply sspec_ok. split_and!; [done|congruence|]. cbn. congruence.
      * cbn. intros a2 h2 e (? & ? & ? & ? & ?). split_and!; [done|congruence|]. right.
        exists (cookie au). split_and!; [congruence|done|by right].
    + apply sspec_let_pure, sspec_ok. split_and!; [done|congruence|]. cbn. congruence.
  - intros a1 h1 e (Hc1 & Hf1 & He). split; [by eapply sound_calm|]. destruct Hf1 as [Hh1 _ Hp1 _].
    split; [congruence|]. right. exists (cookie au).
    destruct (cancelled_seen h1); [|done]. injection He as ->. split_and!; [congruence|done|by left].
Qed.
Lemma login_loop_turn_adds gateway cred ctx c a h : sound a h → gateway ∉ (held a).*1 →
  spec a h (login_loop_turn gateway cred ctx c) (λ a' h' r,
    sound a' h' ∧ printed a' = printed a ∧ match r with
    | Ok (inl _) => held a' = held a
    | Ok (inr s) => logged_in gateway a a' h' (Ok s)
    | Err e => logged_in gateway a a' h' (Err e)
    end).
Proof.
  intros Hs Hg. unfold login_loop_turn.
  eapply (spec_bind_calm final); [calm|by apply Hs|..].
  2:{ cbn. intros a1 h1 e Hc1 Hf1 _. split; [by eapply sound_calm|]. destruct Hf1. split; [done|]. by left. }
  intros a1 h1 [] Hc1 Hf1. pose proof (sound_calm _ _ _ _ Hs Hc1 Hf1) as Hs1. destruct Hf1 as [Hh1 _ Hp1 _].
  apply sspec_ask. intros t. destruct (login_turn c cred ctx t) as [[r c'] unused] eqn:Et.
  set (a2 := match r with
             | Ok (Authenticated au) => hold (gateway, cookie au) unused a1
             | _ => set_unusable unused a1
             end).
  exists a2. split.
  { unfold step. cbn. rewrite option_guard_True by (by rewrite Hh1). cbn.
    rewrite option_guard_True by apply Hc1. cbn. by rewrite Et. }
  (* The unusable cookie is revoked. *)
  set (a3 := set_unusable None a2).
  assert (core a3 h1) as Hc3 by (destruct Hc1; subst a3 a2; by destruct r as [[]|]).
  assert (∀ B (k : () → Flow B) Φ, spec a3 h1 (k ()) Φ →
    spec a2 h1 (let+ x := match unused with Some cookie => sask (RevokeE cookie) | None => sok () end in k x) Φ) as Hrev.
  { intros B k Φ Hk. destruct unused as [u|].
    - apply sspec_ask. intros []. exists a3. split; [|done]. unfold step. cbn.
      rewrite option_guard_True; [done|]. subst a2. by destruct r as [[]|].
    - apply sspec_let_pure. replace a2 with a3; [done|]. subst a3 a2. by destruct r as [[]|]. }
  apply Hrev. clear Hrev. subst a3 a2. destruct r as [[au|message input]|e]; cbn.
  - eapply sspec_bind.
    { eapply (authenticated_session_adds _ _ _ _ _ a1); [exact Hc3|done|apply Hs1|done]. }
    + cbn. intros a4 h4 s (? & ? & Hi). apply sspec_ok. split_and!; [done|congruence|]. congruence.
    + cbn. intros a4 h4 e (? & ? & Hi). split_and!; [done|congruence|]. by rewrite <- Hh1.
  - eapply (spec_bind_calm final); [calm|exact Hc3|..]; cbn.
    + intros a4 h4 otp Hc4 Hf4. apply sspec_ok. split.
      { eapply sound_calm; [|done..]. split; [done|]. cbn. by apply Hs1. }
      destruct Hf4. cbn in *. split; congruence.
    + intros a4 h4 e Hc4 Hf4 _. split.
      { eapply sound_calm; [|done..]. split; [done|]. cbn. by apply Hs1. }
      destruct Hf4. cbn in *. split; [congruence|]. left. congruence.
  - apply sspec_modify, sspec_throw. split_and!; [|done|left; done]. split; [|by apply Hs1].
    by apply harmless_cancelled.
Qed.
Lemma login_gateway_adds gateway cred gp ctx a h : sound a h → gateway ∉ (held a).*1 →
  spec a h (login_gateway gateway cred gp ctx) (λ a' h' r,
    sound a' h' ∧ printed a' = printed a ∧ logged_in gateway a a' h' r).
Proof.
  intros Hs Hg. unfold login_gateway. destruct (prepare_client_identity _ _) as [prepared gp'].
  apply sspec_let_pure. destruct prepared as [[]|e]; [|by split_and!; [done..|left]].
  apply sspec_let_pure. destruct (login_client_new _ _ _) as [c|e]; [|by split_and!; [done..|left]].
  apply (sspec_repeating _ _ _ _ _ (λ a' h' _, sound a' h' ∧ printed a' = printed a ∧ held a' = held a)); [|done].
  intros a1 h1 c1 (Hs1 & Hp1 & Hh1). rewrite <- Hh1 in Hg.
  eapply sspec_mono; [|by apply login_loop_turn_adds]. cbn.
  intros a2 h2 [[c2|s]|e] (? & ? & Hl); cbn in *; split_and!; try done; try congruence.
  by rewrite <- Hh1.
Qed.

(** What a part did that leaves the ledger alone. *)
Lemma sound_after a h a' h' : sound a h → core a' h' → frame a h a' h' →
  sound a' h' ∧ held a' = held a ∧ printed a' = printed a.
Proof. intros Hs Hc Hf. split; [by eapply sound_calm|]. by destruct Hf. Qed.
Definition authenticated (gateway : string) (a a' : Account)
    (r : result Failure (GatewayLoginSession (ClientIdentity := ClientIdentity))) : Prop :=
  match r with
  | Ok s => held a' = held a ++ [(gateway, cookie (gls_authentication s))]
  | Err e => held a' = held a ∨ ∃ c, held a' = held a ++ [(gateway, c)] ∧ final e
  end.
Lemma logged_in_authenticated gateway a a' h' r : logged_in gateway a a' h' r → authenticated gateway a a' r.
Proof. destruct r as [s|e]; [done|]. intros [?|(c & ? & ? & _)]; [by left|]. right. by exists c. Qed.
(** Stepping over a calm part of a flow about the ledger. *)
Lemma over_calm {A B} Q a h (m : Flow A) (k : A → Flow B) (Φ : Account → Handler → result Failure B → Prop) :
  calm Q m → sound a h →
  (∀ a' h' x, sound a' h' → held a' = held a → printed a' = printed a → spec a' h' (k x) Φ) →
  (∀ a' h' e, sound a' h' → held a' = held a → printed a' = printed a → Q e → Φ a' h' (Err e)) →
  spec a h (sbind m k) Φ.
Proof.
  intros Hm Hs Hk He. eapply spec_bind_calm; [done|by apply Hs|..].
  - intros a1 h1 x Hc1 Hf1. destruct (sound_after _ _ _ _ Hs Hc1 Hf1) as (? & ? & ?). auto.
  - intros a1 h1 e Hc1 Hf1 Hq. destruct (sound_after _ _ _ _ Hs Hc1 Hf1) as (? & ? & ?). auto.
Qed.
Lemma over_calm_catch {A B} Q a h (m : Flow A) (k : result Failure A → Flow B) (Φ : Account → Handler → result Failure B → Prop) :
  calm Q m → sound a h →
  (∀ a' h' r, sound a' h' → held a' = held a → printed a' = printed a →
     match r with Ok _ => True | Err e => Q e end → spec a' h' (k r) Φ) →
  spec a h (scatch m k) Φ.
Proof.
  intros Hm Hs Hk. eapply spec_catch_calm; [done|by apply Hs|].
  intros a1 h1 r Hc1 Hf1 Hr. destruct (sound_after _ _ _ _ Hs Hc1 Hf1) as (? & ? & ?). auto.
Qed.

Lemma prelogin_login_adds p gateway allowed gp ctx a h : sound a h → gateway ∉ (held a).*1 →
  spec a h (let+ pc := obtain_credential_with_recovery p gateway allowed in
            let+ _ := check_cancelled in login_gateway gateway pc.2 gp ctx) (λ a' h' r,
    sound a' h' ∧ printed a' = printed a ∧ authenticated gateway a a' r).
Proof.
  intros Hs Hg. eapply (over_calm anything); [calm|done|..].
  2:{ intros. split_and!; [done..|by left]. }
  intros a1 h1 pc Hs1 Hh1 Hp1. eapply (over_calm anything); [calm|done|..].
  2:{ intros. split_and!; [done|congruence|left; congruence]. }
  intros a2 h2 [] Hs2 Hh2 Hp2. eapply sspec_mono; [|apply login_gateway_adds; [done|by rewrite Hh2, Hh1]].
  cbn. intros a3 h3 r (? & ? & Hl). split_and!; [done|congruence|].
  apply logged_in_authenticated in Hl. unfold authenticated in *. by rewrite <- Hh1, <- Hh2.
Qed.
Lemma authenticate_gateway_adds portal gateway cred browser ctx a h : sound a h → gateway ∉ (held a).*1 →
  spec a h (authenticate_gateway portal gateway cred browser ctx) (λ a' h' r,
    sound a' h' ∧ printed a' = printed a ∧ authenticated gateway a a' r).
Proof.
  intros Hs Hg. unfold authenticate_gateway.
  assert (∀ a' h' e, sound a' h' → held a' = held a → printed a' = printed a →
    sound a' h' ∧ printed a' = printed a ∧ authenticated gateway a a' (Err e)) as Hdone.
  { intros. split_and!; [done..|by left]. }
  eapply (over_calm anything); [calm|done|..]; [|by auto]. intros a1 h1 [] Hs1 Hh1 Hp1.
  eapply (over_calm anything); [calm|done|..]; [|intros; apply Hdone; congruence]. intros a2 h2 gp Hs2 Hh2 Hp2.
  eapply (over_calm anything); [calm|done|..]; [|intros; apply Hdone; congruence]. intros a3 h3 p Hs3 Hh3 Hp3.
  eapply (over_calm anything); [calm|done|..]; [|intros; apply Hdone; congruence]. intros a4 h4 [] Hs4 Hh4 Hp4.
  assert (held a4 = held a ∧ printed a4 = printed a) as [Hh Hp] by (split; congruence).
  assert (gateway ∉ (held a4).*1) as Hg4 by by rewrite Hh.
  assert (∀ r a', authenticated gateway a4 a' r → authenticated gateway a a' r) as Ha.
  { intros r a'. unfold authenticated. by rewrite Hh. }
  clear - Hs4 Hg4 Hp Hh Ha Hdone. destruct (cookie_can_authenticate cred).
  2:{ eapply sspec_mono; [|by apply prelogin_login_adds]. cbn. intros a5 h5 r (? & ? & ?).
      split_and!; [done|congruence|by apply Ha]. }
  eapply sspec_catch; [by apply login_gateway_adds|]. cbn. intros a5 h5 [s|e] (Hs5 & Hp5 & Hl5).
  - eapply (over_calm (λ _, False)); [calm|done|..|done]. intros a6 h6 [] Hs6 Hh6 Hp6. apply sspec_ok.
    split_and!; [done|congruence|]. cbn in *. congruence.
  - eapply sspec_bind; [by apply check_cancelled_says, Hs5|..]; cbn.
    2:{ intros a6 h6 e6 (Hc6 & Hf6 & He6). destruct (sound_after _ _ _ _ Hs5 Hc6 Hf6) as (? & Hh6 & ?).
        split_and!; [done|congruence|]. destruct (cancelled_seen h6); [|done]. injection He6 as ->.
        destruct Hl5 as [?|(c & ? & _)]; [left; congruence|]. right. exists c. split; [congruence|done]. }
    intros a6 h6 [] (Hc6 & Hf6 & He6). destruct (sound_after _ _ _ _ Hs5 Hc6 Hf6) as (Hs6 & Hh6 & Hp6).
    assert (cancelled_seen h5 = false) as Hn.
    { destruct (cancelled_seen h5) eqn:E5; [|done]. destruct Hf6 as [_ _ _ Hf6]. by rewrite (Hf6 E5) in He6. }
    unfold terminal_now. apply sspec_gets.
    assert (held a5 = held a4 ∨ (∃ c, held a5 = held a4 ++ [(gateway, c)] ∧ final (terminal e (auth_recovery h6)) ∧
      is_recovery_failed (terminal e (auth_recovery h6)) || is_login_protocol_error (terminal e (auth_recovery h6)) = true)) as Hl.
    { destruct Hl5 as [?|(c & ? & Hfin & [Hx|Hx])]; [by left|congruence|]. right. exists c.
      split_and!; [done|by apply final_terminal|by apply protocol_error_stops]. }
    destruct (is_recovery_failed _ || is_login_protocol_error _) eqn:Eo.
    + apply sspec_throw. split_and!; [done|congruence|].
      destruct Hl as [?|(c & ? & ? & _)]; [left; congruence|]. right. exists c. split; [congruence|done].
    + destruct Hl as [Hl|(c & _ & _ & ?)]; [|congruence].
      eapply sspec_mono; [|apply prelogin_login_adds; [done|by rewrite Hh6, Hl]].
      cbn. intros a7 h7 r (? & ? & Ha7). split_and!; [done|congruence|]. apply Ha. clear Ha Hdone.
      unfold authenticated in *. by rewrite <- Hl, <- Hh6.
Qed.

(** ** The tunnel *)
Lemma over_staged {A B} (at_stage : Failure → GatewayConnectError) a h (m : Flow A)
    (k : A → Flow (result GatewayConnectError B)) (Φ : Account → Handler → result Failure (result GatewayConnectError B) → Prop) :
  (∀ e, error (at_stage e) = e) → calm final m → sound a h →
  (∀ a' h' x, sound a' h' → held a' = held a → printed a' = printed a → spec a' h' (k x) Φ) →
  (∀ a' h' e, sound a' h' → held a' = held a → printed a' = printed a → final (error e) → Φ a' h' (Ok (Err e))) →
  spec a h (staged at_stage m k) Φ.
Proof.
  intros Ha Hm Hs Hk He. eapply (over_calm_catch final); [done|done|]. intros a1 h1 [x|e] ? ? ? Hf; [by auto|].
  apply sspec_ok, He; [done..|]. by rewrite Ha.
Qed.
Lemma hip_source_final p e : hip_source p = Err e → final e.
Proof.
  unfold hip_source, get_uid, get_user_by_name. intros Hs.
  destruct (match hip args with Some s => Some s | None => csd_wrapper args end) as [path|].
  - destruct (negb (is_empty path)).
    + destruct determine_hip_user as [u|]; cbn in Hs;
        [destruct (user_by_name machine u); cbn in Hs; [|by injection Hs as <-]|];
        (destruct (Openconnect.hip_script_new _ _ _ _ _); cbn in Hs; [done|by injection Hs as <-]).
    + destruct (bool_decide _); [done|by injection Hs as <-].
  - destruct (bool_decide _); [done|by injection Hs as <-].
Qed.
Lemma calm_shown Q m o : calm anything m → calm Q (shown m o).
Proof. intros Hm. apply (calm_catch anything); [done|calm..]. Qed.
Hint Resolve calm_shown : calm.
Lemma calm_on_ready Q : calm Q on_ready.
Proof.
  unfold on_ready. apply calm_then.
  { destruct (dashboard args); [apply calm_shown|]; calm. }
  intros e. destruct background; [|calm]. apply calm_then; [calm|]. intros w. apply calm_shown. calm.
Qed.
Hint Resolve calm_on_ready : calm.
Lemma calm_wait_for_tunnel_exit Q : calm Q wait_for_tunnel_exit.
Proof. unfold wait_for_tunnel_exit. calm. Qed.
Lemma keys_nil l : keys l = [] → l = [].
Proof. by destruct l. Qed.

(** The tunnel gets the only session; what it does not use is nothing. *)
Lemma run_tunnel_hands_over gateway v session allow a h : cookie_only args = false → sound a h →
  held a = [(gateway, Openconnect.vpn_cookie v)] → printed a = [] →
  spec a h (run_tunnel gateway v session allow) (λ a' h' r,
    sound a' h' ∧ held a' = [] ∧ printed a' = [] ∧ ∃ x, r = Ok x).
Proof.
  intros Hco [Hc Hl] Hh Hp. unfold run_tunnel. apply sspec_modify, sspec_ask. intros t.
  assert (relinquish_gateway gateway (sessions h) = []) as Hr.
  { apply keys_nil. pose proof (take_out_keys gateway (sessions h)) as Hk.
    rewrite <- Hl, Hh in Hk. pose proof (take_out_only (gateway, Openconnect.vpn_cookie v)) as Ho.
    cbn in Ho, Hk. rewrite Ho in Hk. by injection Hk. }
  set (pid := match t with
              | TunnelExited _ (Some w) | TunnelEstablished w => note_write w (pid_file a)
              | _ => pid_file a
              end).
  exists (hand_to_tunnel (gateway, Openconnect.vpn_cookie v) [] pid a). split.
  { unfold step. cbn. rewrite option_guard_True by done. cbn. rewrite Hh. cbn. rewrite String.eqb_refl.
    by rewrite option_guard_True. }
  set (a1 := hand_to_tunnel _ _ _ a).
  assert (∀ w, pid = note_write w (pid_file a) →
    sound a1 (set_pid_written (write_pid_file w) (set_sessions (relinquish_gateway gateway) h))) as Hs1.
  { intros w Hw. destruct Hc. split; [|cbn; by rewrite Hr].
    constructor; cbn; try done. rewrite Hw. by eapply pid_known_write. }
  assert (pid = pid_file a → sound a1 (set_sessions (relinquish_gateway gateway) h)) as Hs2.
  { intros Hpid. destruct Hc. split; [constructor; cbn; try done; congruence|]. cbn. by rewrite Hr. }
  destruct t as [code [w|]|w|].
  - apply sspec_modify, sspec_ok. split_and!; [by apply Hs1|done|exact Hp|eauto].
  - apply sspec_let_pure, sspec_ok. split_and!; [by apply Hs2|done|exact Hp|eauto].
  - apply sspec_modify, sspec_gets. cbn. rewrite Hr. cbn. apply sspec_let_pure.
    eapply (over_calm (λ _, False)); [apply calm_wait_for_tunnel_exit|by apply Hs1|..|done].
    intros a2 h2 x Hs Hh2 Hp2. apply sspec_ok. split_and!; [done| |rewrite Hp2; exact Hp|eauto]. by rewrite Hh2.
  - eapply (over_calm (λ _, False)); [calm|by apply Hs2|..|done].
    intros a2 h2 x Hs Hh2 Hp2. apply sspec_ok. split_and!; [done| |rewrite Hp2; exact Hp|eauto]. by rewrite Hh2.
Qed.
(** How a connection with the only session [k] ends. *)
Definition connected (k : Key) (a' : Account) (h' : Handler) (r : result Failure (result GatewayConnectError ())) : Prop :=
  sound a' h' ∧ match r with
  | Ok (Ok _) => if cookie_only args then held a' = [k] ∧ printed a' = [k] else held a' = [] ∧ printed a' = []
  | Ok (Err e) => printed a' = [] ∧ (held a' = [] ∨ held a' = [k] ∧ final (error e))
  | Err _ => False
  end.
Lemma build_tunnel_cookie b v : build_tunnel b = Some (Ok v) →
  Openconnect.vpn_cookie v = Openconnect.b_cookie b.
Proof.
  unfold build_tunnel, Openconnect.build. destruct (_ && _); [done|].
  destruct (Openconnect.resolve_script _ _ _ _ _ _ _) as [s|]; [|done]. intros Hb.
  repeat (lazymatch type of Hb with
    | (x ← _; _) = Some _ => apply bind_Some in Hb as (? & ? & Hb) end).
  injection Hb as <-. cbn.
  match goal with H : Openconnect.c_string (Openconnect.b_cookie b) = Some _ |- _ => rename H into Hc end.
  unfold Openconnect.c_string in Hc. destruct (contains_nul _); by simplify_eq.
Qed.
Lemma connect_gateway_uses portal gateway au allow ext a h : sound a h →
  held a = [(gateway, cookie au)] → printed a = [] →
  spec a h (connect_gateway portal gateway au allow ext) (connected (gateway, cookie au)).
Proof.
  intros Hs Hh Hp. unfold connect_gateway. destruct (cookie_only args) eqn:Hco.
  { apply sspec_ask. intros []. exists (print_session (gateway, cookie au) a). split.
    - unfold step. cbn. rewrite option_guard_True by done. cbn. rewrite option_guard_True by done. cbn.
      by rewrite option_guard_True.
    - apply sspec_ok. split; [by destruct Hs as [[] ?]|]. rewrite Hco. cbn. by rewrite Hh, Hp. }
  assert (∀ a' h' e, sound a' h' → held a' = held a → printed a' = printed a → final (error e) →
    connected (gateway, cookie au) a' h' (Ok (Err e))) as Hearly.
  { intros a' h' e ? Hh' Hp' ?. split; [done|]. split; [congruence|]. right. by rewrite Hh'. }
  destruct (negb (bool_decide (authentication_mode au = Tunnel))); [by apply sspec_ok, Hearly|].
  apply over_staged; [done|calm|done| |done]. intros a1 h1 [] Hs1 Hh1 Hp1.
  apply over_staged; [done|calm|done| |intros; apply Hearly; [done|congruence|congruence|done]]. intros a2 h2 files Hs2 Hh2 Hp2.
  apply sspec_gets. apply over_staged; [done| |done| |intros; apply Hearly; [done|congruence|congruence|done]].
  { apply calm_pure. apply hip_source_final. }
  intros a3 h3 hip Hs3 Hh3 Hp3. apply sspec_may_panic. intros built Hb.
  unfold staged at 1. apply sspec_catch_pure. destruct built as [v|e]; cbn.
  2:{ apply sspec_ok, Hearly; [done|congruence|congruence|done]. }
  apply build_tunnel_cookie in Hb. cbn in Hb. 
  apply over_staged; [done|calm|done| |intros; apply Hearly; [done|congruence|congruence|done]].
  intros a4 h4 [] Hs4 Hh4 Hp4.
  apply over_staged; [done|calm|done| |intros; apply Hearly; [done|congruence|congruence|done]].
  intros a5 h5 [] Hs5 Hh5 Hp5.
  eapply (over_calm (λ _, False)); [calm|done| |done]. intros a6 h6 [] Hs6 Hh6 Hp6.
  assert (held a6 = [(gateway, Openconnect.vpn_cookie v)] ∧ printed a6 = []) as [Hh' Hp'].
  { rewrite Hb. split; [|congruence]. by rewrite Hh6, Hh5, Hh4, Hh3, Hh2, Hh1. }
  clear - Hs6 Hh' Hp' Hco. eapply sspec_bind; [by apply run_tunnel_hands_over|..]; cbn.
  2:{ by intros ? ? ? (_ & _ & _ & ? & [=]). }
  intros b g [[code established] out] (Hs & Hh & Hp & _).
  assert (∀ b' g' r, sound b' g' → held b' = [] → printed b' = [] →
    connected (gateway, cookie au) b' g' (Ok r)) as Hend.
  { intros b' g' r ? ? ?. split; [done|]. rewrite Hco. destruct r; auto. }
  eapply (over_calm (λ _, False)); [calm|done| |done]. intros b1 g1 [] Hs1 Hh1 Hp1.
  eapply (over_calm (λ _, False)); [calm|done| |done]. intros b2 g2 out2 Hs2 Hh2 Hp2.
  destruct out2 as [e|]; [|destruct code as [code|]].
  - apply sspec_ok, Hend; [done|by rewrite Hh2, Hh1|congruence].
  - eapply (over_calm (λ _, False)); [calm|done| |done]. intros b3 g3 requested Hs3 Hh3 Hp3.
    apply sspec_ok, Hend; [done|by rewrite Hh3, Hh2, Hh1|congruence].
  - apply sspec_ok, Hend; [done|by rewrite Hh2, Hh1|congruence].
Qed.

(** ** Internal gateways *)
Lemma final_ok_or {A} m (o : option A) e : ok_or (Message m) o = Err e → final e.
Proof. destruct o; [done|]. by intros [= <-]. Qed.
Lemma check_candidates_distinct hosts l : check_candidates hosts l = Ok () →
  NoDup (gateway_address <$> l) ∧
  ∀ g host, g ∈ l → normalize_server port_text (gateway_address g) = Ok host → host ∉ hosts.
Proof.
  revert hosts. induction l as [|g l IH]; intros hosts Hc.
  { split; [constructor|]. by intros ? ? ?%not_elem_of_nil. }
  cbn in Hc. destruct (bool_decide _); [|done]. cbn in Hc.
  destruct (normalize_server _ _) as [host|] eqn:Eh; [|done]. cbn in Hc.
  destruct (bool_decide (host ∈ hosts)) eqn:Ei; [done|]. cbn in Hc. apply bool_decide_eq_false in Ei.
  apply IH in Hc as [Hn Hd]. split.
  - cbn. constructor; [|done]. intros (g' & Hg & Hin)%list_elem_of_fmap. rewrite Hg in Eh.
    apply (Hd g' host Hin Eh). by left.
  - intros g' host' [->|Hin]%elem_of_cons Hg'; [congruence|].
    intros Hx. apply (Hd g' host' Hin Hg'). by right.
Qed.
Lemma check_candidates_final hosts l e : check_candidates hosts l = Err e → final e.
Proof.
  revert hosts. induction l as [|g l IH]; intros hosts Hc; [done|].
  cbn in Hc. destruct (bool_decide _); [|by injection Hc as <-]. cbn in Hc.
  destruct (normalize_server _ _) as [host|]; [|by injection Hc as <-]. cbn in Hc.
  destruct (bool_decide _); [by injection Hc as <-|]. cbn in Hc; by eapply IH.
Qed.
Lemma internal_session_mode_final modes e : internal_session_mode modes = Err e → final e.
Proof.
  destruct modes as [|m modes]; cbn; [by intros [= <-]|]. destruct (forallb _ _); [done|by intros [= <-]].
Qed.
Lemma session_bindings_final (l : list (Gateway * GatewayLoginSession (ClientIdentity := ClientIdentity))) e :
  session_bindings l = Err e → final e.
Proof.
  induction l as [|[g s] l IH]; [done|]. cbn. destruct (ClientSession.ext_binding _); [|by intros [= <-]]. cbn.
  destruct (session_bindings l) as [x|e'] eqn:Ex; [done|]. intros [= <-]. by apply IH.
Qed.
Lemma take_out_elem k v l : k ∈ (take_out v l).2 → k ∈ l.
Proof. intros Hk. rewrite <- (take_out_perm v l). apply elem_of_app. by right. Qed.

(** How a part of an internal session ends: nothing is printed, an error is the last. *)
Definition internal_end {A} (a' : Account) (h' : Handler) (r : result Failure A) : Prop :=
  sound a' h' ∧ printed a' = [] ∧ match r with Ok _ => True | Err e => final e end.
(** The shown errors of the maintenance, and the ledger that is still to be told. *)
Lemma maintain_takes a h : sound a h → printed a = [] → spec a h maintain_sessions (λ a' h' r,
  core a' h' ∧ printed a' = [] ∧ ∃ x out shown, r = Ok (x, out, shown) ∧
    held a' = keys (AttemptRuntime.logged_out_of out (sessions h')).2 ∧ ∀ e, shown = Some e → final e).
Proof.
  intros [Hc Hl] Hp. unfold maintain_sessions. apply sspec_gets, sspec_ask. intros t.
  assert (∀ out b g, core b g → held b = keys (sessions g) →
    core (end_sessions (take_all out (held b)).1 (take_all out (held b)).2 b) g ∧
    (take_all out (held b)).2 = keys (AttemptRuntime.logged_out_of out (sessions g)).2) as Hend.
  { intros out b g [] Hb. split; [done|]. by rewrite Hb, take_all_keys. }
  destruct t as [x out|].
  - exists (end_sessions (take_all out (held a)).1 (take_all out (held a)).2 a). split.
    { unfold step. cbn. rewrite option_guard_True by done. cbn. by destruct (take_all out (held a)). }
    apply sspec_ok. destruct (Hend out a h Hc Hl). split_and!; [done|done|]. by exists x, out, None.
  - exists a. split; [unfold step; cbn; by rewrite option_guard_True|].
    eapply (sspec_bind _ _ _ _ _ _ (λ a' h' r, core a' h' ∧ frame a h a' h' ∧
      ∃ o, r = Ok o ∧ ∀ e, o = Some e → final e)).
    { destruct (dashboard args); [|apply sspec_ok; split_and!; [done|apply frame_here|by exists None]].
      unfold shown. eapply (spec_catch_calm final); [calm|done|]. intros a1 h1 [[]|e] Hc1 Hf1 He.
      - apply sspec_ok. split_and!; [done|done|by exists None].
      - eapply (spec_bind_calm (λ _, False)); [calm|done| |done]. intros a2 h2 [] Hc2 Hf2.
        apply sspec_ok. split_and!; [done|by eapply frame_trans|]. exists (Some e). split; [done|].
        by intros ? [= <-]. }
    2:{ by intros ? ? ? (_ & _ & ? & [=] & _). }
    cbn. intros a1 h1 o (Hc1 & [Hh1 Hs1 Hp1 _] & o' & [= <-] & Ho). apply sspec_ask. intros t.
    exists (end_sessions (take_all t.2 (held a1)).1 (take_all t.2 (held a1)).2 a1). split.
    { unfold step. cbn. rewrite option_guard_True by congruence. cbn. by destruct (take_all t.2 (held a1)). }
    apply sspec_ok. destruct (Hend t.2 a1 h1 Hc1) as [? ?]; [congruence|].
    split_and!; [done|cbn; congruence|]. by exists t.1, t.2, o.
Qed.
Lemma run_internal_session_ends config l a h : sound a h → printed a = [] →
  spec a h (run_internal_session config l) internal_end.
Proof.
  intros Hs Hp. unfold run_internal_session.
  assert (∀ a' h' e, sound a' h' → printed a' = [] → final e → internal_end (A := ()) a' h' (Err e)) as Hfail.
  { by intros. }
  eapply (over_calm final); [calm|done| |intros; apply Hfail; [done|congruence|done]]. intros a1 h1 [] Hs1 _ Hp1.
  apply sspec_let_pure. destruct (session_bindings l) as [bindings|e] eqn:Eb.
  2:{ apply Hfail; [done|congruence|by eapply session_bindings_final]. }
  eapply (over_calm final); [apply calm_for; calm|done| |intros; apply Hfail; [done|congruence|done]].
  intros a2 h2 [] Hs2 _ Hp2.
  apply sspec_let_pure. destruct (internal_session_policy config) as [policy|]; cbn.
  2:{ apply Hfail; [done|congruence|done]. }
  apply sspec_gets, sspec_let_pure.
  destruct (if collect_hip_data policy then _ else _) as [hip|e] eqn:Eh.
  2:{ apply Hfail; [done|congruence|]. destruct (collect_hip_data policy); [|done]. by eapply hip_source_final. }
  eapply (over_calm final); [destruct (dashboard args); calm|done| |intros; apply Hfail; [done|congruence|done]].
  intros a3 h3 [] Hs3 _ Hp3. apply sspec_ask. intros w. exists (set_pid_file (note_write w (pid_file a3)) a3). split; [done|].
  apply sspec_modify.
  eapply sspec_bind; [apply maintain_takes; [destruct Hs3 as [[] ?]; split; [|done]; constructor; cbn; try done; by eapply pid_known_write|cbn; congruence]|..]; cbn.
  2:{ by intros ? ? ? (_ & _ & ? & ? & ? & [=] & _). }
  intros b g [[x out] shown] (Hc & Hpb & x' & out' & shown' & [= <- <- <-] & Hh & Hf). clear Hs Hs1 Hp1 Hs2 Hp2 Hs3 Hp3.
  eapply (sspec_bind _ _ _ _ _ _ (λ a' h' r, core a' h' ∧ frame b g a' h' ∧ ∃ o, r = Ok o ∧ ∀ e, o = Some e → final e)).
  { destruct (dashboard args); [|apply sspec_ok; split_and!; [done|apply frame_here|by exists shown]].
    eapply (spec_bind_calm (λ _, False)); [calm|done| |done]. intros b1 g1 r Hc1 Hf1. apply sspec_ok.
    split_and!; [done|done|]. eexists. split; [done|]. destruct r as [[]|e]; [done|]. by intros ? [= <-]. }
  2:{ by intros ? ? ? (_ & _ & ? & [=] & _). }
  cbn. intros b1 g1 o (Hc1 & [Hh1 Hs1 Hp1 _] & o' & [= <-] & Ho). apply sspec_modify.
  assert (sound b1 (set_sessions (λ l, (AttemptRuntime.logged_out_of out l).2) g1)) as Hsb.
  { destruct Hc1. split; [done|]. cbn. by rewrite Hh1, Hs1. }
  eapply (over_calm (λ _, False)); [calm|done| |done]. intros b2 g2 joined Hs2 _ Hp2.
  assert (printed b2 = []) as Hpn by congruence.
  destruct joined; cbn; [|by apply sspec_throw]. destruct o as [e|]; [by apply sspec_throw; auto|].
  destruct x as [[]|e]; [by apply sspec_ok|by apply sspec_throw|by apply sspec_throw].
Qed.
Lemma over_ensure {B} a h (b : bool) e (k : () → Flow B) (Φ : Account → Handler → result Failure B → Prop) :
  spec a h (k ()) Φ → Φ a h (Err e) → spec a h (sbind (spure (ensure b e)) k) Φ.
Proof. intros Hk He. apply sspec_let_pure. by destruct b. Qed.
Lemma internal_logins_end portal config cred remaining : ∀ authenticated a h,
  sound a h → printed a = [] → NoDup (gateway_address <$> remaining) →
  (∀ g, g ∈ remaining → gateway_address g ∉ (held a).*1) →
  spec a h (internal_logins portal config cred remaining authenticated) internal_end.
Proof.
  induction remaining as [|g remaining IH]; intros authenticated a h Hs Hp Hnd Hd; [by apply sspec_ok|].
  cbn [internal_logins]. apply list.NoDup_cons in Hnd as [Hg Hnd].
  eapply (over_calm final); [calm|done| |by intros; split_and!; [done|congruence|done]].
  intros a1 h1 [] Hs1 Hh1 Hp1.
  eapply sspec_catch; [apply authenticate_gateway_adds; [done|rewrite Hh1; by apply Hd; left]|]. cbn.
  (* What is held is held already or this gateway's. *)
  assert (∀ a', (∀ k, k ∈ held a' → k ∈ held a ∨ k.1 = gateway_address g) →
    ∀ g', g' ∈ remaining → gateway_address g' ∉ (held a').*1) as Hrest.
  { intros a' Ha' g' Hg' (k & Hk & Hin)%list_elem_of_fmap. destruct (Ha' k Hin) as [Hold|Hnew].
    - apply (Hd g'); [by right|]. apply list_elem_of_fmap. by exists k.
    - apply Hg. apply list_elem_of_fmap. exists g'. split; [congruence|done]. }
  intros a2 h2 [s|e] (Hs2 & Hp2 & Ha2).
  - apply IH; [done|congruence|done|]. apply Hrest. cbn in Ha2. rewrite Ha2, Hh1. intros k.
    intros [?| ->%list_elem_of_singleton]%elem_of_app; [by left|by right].
  - eapply sspec_bind; [apply logout_gateway_takes; [done|congruence]|..]; cbn.
    2:{ by intros ? ? ? (_ & _ & [=] & _). }
    intros a3 h3 [] (Hs3 & Hp3 & _ & Hh3).
    eapply (over_calm final); [calm|done| |by intros; split_and!; [done|congruence|done]].
    intros a4 h4 [] Hs4 Hh4 Hp4. apply sspec_gets.
    destruct (recovery_dmabuf_disabled (auth_recovery h4)) eqn:Er.
    { apply sspec_throw. split_and!; [done|congruence|by apply final_terminal_recovered]. }
    apply IH; [done|congruence|done|]. apply Hrest. rewrite Hh4, Hh3. intros k Hk%take_out_elem.
    destruct Ha2 as [Ha2|(c & Ha2 & _)]; rewrite Ha2, Hh1 in Hk; [by left|].
    apply elem_of_app in Hk as [?| ->%list_elem_of_singleton]; [by left|by right].
Qed.
Lemma connect_internal_gateways_ends portal config cred first session remaining c a h :
  sound a h → held a = [(gateway_address first, c)] → printed a = [] →
  spec a h (connect_internal_gateways portal config cred first session remaining) internal_end.
Proof.
  intros Hs Hh Hp. unfold connect_internal_gateways.
  apply over_ensure; [|done]. apply over_ensure; [|done].
  apply sspec_let_pure. destruct (check_candidates [] (first :: remaining)) as [[]|e] eqn:Ec.
  2:{ split_and!; [done..|by eapply check_candidates_final]. }
  apply check_candidates_distinct in Ec as [[Hf Hn]%list.NoDup_cons _].
  eapply sspec_bind; [apply internal_logins_end; [done..|]|..]; cbn.
  { intros g Hg. rewrite Hh. intros Hin%list_elem_of_singleton. cbn in Hin. apply Hf.
    apply list_elem_of_fmap. by exists g. }
  2:{ by intros a1 h1 e ?. }
  intros a1 h1 l (Hs1 & Hp1 & _).
  eapply (over_calm final); [calm|done| |by intros; split_and!; [done|congruence|done]].
  intros a2 h2 [] Hs2 Hh2 Hp2. apply sspec_let_pure. destruct (internal_session_mode _) as [mode|e] eqn:Em.
  2:{ split_and!; [done|congruence|by eapply internal_session_mode_final]. }
  apply over_ensure; [|by split_and!; [done|congruence|]]. apply run_internal_session_ends; [done|congruence].
Qed.

(** ** The attempt *)
(** How a part that starts with nothing held ends: what is held was printed, in a run for
    a cookie; an error after which something is held is the last. *)
Definition finished (a' : Account) : Prop :=
  if cookie_only args then held a' = printed a' else printed a' = [].
Definition failed (a' : Account) (e : Failure) : Prop := printed a' = [] ∧ (held a' = [] ∨ final e).
Definition turned {A} (a' : Account) (h' : Handler) (r : result Failure A) : Prop :=
  sound a' h' ∧ match r with Ok _ => finished a' | Err e => failed a' e end.
Definition fell_back (gateway : string) (a' : Account) (h' : Handler) (r : result Failure (result GatewayConnectError ())) : Prop :=
  sound a' h' ∧ match r with
  | Ok (Ok _) => finished a'
  | Ok (Err e) => failed a' (error e) ∧
      (stage e = BeforeEstablishment → held a' = [] ∨ ∃ c, held a' = [(gateway, c)])
  | Err _ => False
  end.
Record fresh (a : Account) (h : Handler) : Prop := {
  fresh_sound : sound a h;
  fresh_held : held a = [];
  fresh_printed : printed a = [];
}.
Lemma fresh_after a h a' h' : fresh a h → sound a' h' → held a' = held a → printed a' = printed a → fresh a' h'.
Proof. intros [] ? ? ?. split; [done|congruence|congruence]. Qed.
Lemma fresh_absent a h gateway : fresh a h → gateway ∉ (held a).*1.
Proof. intros [_ -> _]. by apply not_elem_of_nil. Qed.
Lemma fresh_failed {A} a h e : fresh a h → turned (A := A) a h (Err e).
Proof. intros [? ? ?]. split; [done|]. split; [done|by left]. Qed.
Lemma over_fresh {A B} a h (m : Flow A) (k : A → Flow B) (Φ : Account → Handler → result Failure B → Prop) :
  calm anything m → fresh a h →
  (∀ a' h' x, fresh a' h' → spec a' h' (k x) Φ) → (∀ a' h' e, fresh a' h' → Φ a' h' (Err e)) →
  spec a h (sbind m k) Φ.
Proof.
  intros Hm Hf Hk He. eapply (over_calm anything); [done|by apply Hf|..].
  - intros. eapply Hk, fresh_after; done.
  - intros. eapply He, fresh_after; done.
Qed.
Lemma connected_falls_back k a' h' r : connected k a' h' r → fell_back k.1 a' h' r.
Proof.
  intros [Hs Hr]. split; [done|]. unfold finished, failed in *. destruct r as [[u|e]|]; [..|done].
  - destruct (cookie_only args); destruct Hr as [Hh Hp]; congruence.
  - destruct Hr as [Hp Hh]. split.
    + split; [done|]. destruct Hh as [?|[_ ?]]; [by left|by right].
    + intros _. destruct Hh as [?|[Hk _]]; [by left|right]. exists k.2. by destruct k.
Qed.
Lemma connected_turns k a' h' r : connected k a' h' r →
  match r with Ok x => turned a' h' (into_error x) | Err _ => False end.
Proof.
  intros Hc. apply connected_falls_back in Hc as [Hs Hr]. destruct r as [[u|e]|]; [by split|by destruct Hr|done].
Qed.
(** A login from nothing: the session alone, or an error after which it is the last. *)
Lemma authenticated_fresh gateway a a' r : held a = [] → authenticated gateway a a' r →
  match r with
  | Ok s => held a' = [(gateway, cookie (gls_authentication s))]
  | Err e => (held a' = [] ∨ final e) ∧ (held a' = [] ∨ ∃ c, held a' = [(gateway, c)])
  end.
Proof.
  intros Hh. destruct r as [s|e]; cbn; rewrite Hh; [done|]. intros [->|(c & -> & Hf)]; [by split; left|].
  split; [by right|]. right. by exists c.
Qed.

Lemma connect_gateway_with_fallback_ends portal g cred config selection remaining a h : fresh a h →
  spec a h (connect_gateway_with_fallback portal g cred config selection remaining) (fell_back (gateway_address g)).
Proof.
  intros Hf. unfold connect_gateway_with_fallback. unfold staged at 1.
  eapply sspec_catch; [apply authenticate_gateway_adds; [apply Hf|by eapply fresh_absent]|]. cbn.
  intros a1 h1 r (Hs1 & Hp1 & Ha1). rewrite (fresh_printed _ _ Hf) in Hp1.
  apply (authenticated_fresh _ _ _ _) in Ha1; [|by apply Hf]. destruct r as [s|e].
  2:{ apply sspec_ok. destruct Ha1. by split_and!. }
  destruct (cookie_only args) eqn:Hco; cbn.
  { eapply sspec_mono; [|by apply connect_gateway_uses]. intros a2 h2 r2 ?.
    by eapply (connected_falls_back (gateway_address g, _)). }
  destruct (bool_decide (authentication_mode _ = NonTunnel)); cbn.
  2:{ eapply sspec_mono; [|by apply connect_gateway_uses]. intros a2 h2 r2 ?.
      by eapply (connected_falls_back (gateway_address g, _)). }
  destruct (bool_decide (gateway_kind g = Internal)); cbn.
  - unfold staged. eapply sspec_catch; [by eapply connect_internal_gateways_ends|]. cbn.
    intros a2 h2 r2 (Hs2 & Hp2 & He2). destruct r2 as [u|e]; apply sspec_ok; (split; [done|]).
    + unfold finished. by rewrite Hco.
    + split; [|done]. split; [done|by right].
  - apply sspec_ok. split; [done|]. split; [|done]. split; [done|by right].
Qed.
Lemma connect_gateway_with_prelogin_ends portal gateway allow ctx a h : fresh a h →
  spec a h (connect_gateway_with_prelogin portal gateway allow ctx) turned.
Proof.
  intros Hf. unfold connect_gateway_with_prelogin.
  apply over_fresh; [calm|done| |intros; by apply fresh_failed]. intros a1 h1 gp Hf1.
  apply over_fresh; [calm|done| |intros; by apply fresh_failed]. intros a2 h2 p Hf2.
  apply over_fresh; [calm|done| |intros; by apply fresh_failed]. intros a3 h3 pc Hf3. clear - Hf3.
  eapply sspec_bind; [apply login_gateway_adds; [apply Hf3|by eapply fresh_absent]|..]; cbn.
  - intros a4 h4 s (Hs4 & Hp4 & Hl4). cbn in Hl4. rewrite (fresh_held _ _ Hf3) in Hl4.
    rewrite (fresh_printed _ _ Hf3) in Hp4. eapply sspec_bind; [by apply connect_gateway_uses|..].
    + intros a5 h5 r Hc. apply sspec_pure. by apply connected_turns in Hc.
    + intros a5 h5 e Hc. by apply connected_turns in Hc.
  - intros a4 h4 e (Hs4 & Hp4 & Hl4). 
    apply (logged_in_authenticated gateway a3 a4 h4 (Err e)), authenticated_fresh in Hl4; [|by apply Hf3].
    destruct Hl4 as [Hl4 _]. split; [done|]. split; [|done]. rewrite Hp4. by apply Hf3.
Qed.
Definition cached_ends (a' : Account) (h' : Handler) (r : result Failure (option (result Failure ()))) : Prop :=
  match r with Ok None => fresh a' h' | Ok (Some r) => turned a' h' r | Err _ => False end.
(** A logout at the only gateway leaves nothing. *)
Lemma over_logout {B} gateway a h (k : () → Flow B) (Φ : Account → Handler → result Failure B → Prop) :
  sound a h → printed a = [] → held a = [] ∨ (∃ c, held a = [(gateway, c)]) →
  (∀ a' h', fresh a' h' → spec a' h' (k ()) Φ) → spec a h (sbind (logout_gateway gateway) k) Φ.
Proof.
  intros Hs Hp Hh Hk. eapply sspec_bind; [by apply logout_gateway_takes|..]; cbn.
  2:{ by intros ? ? ? (_ & _ & [=] & _). }
  intros a1 h1 [] (Hs1 & Hp1 & _ & Hh1). apply Hk. split; [done| |done]. rewrite Hh1.
  destruct Hh as [->|[c ->]]; [done|]. cbn. by rewrite String.eqb_refl.
Qed.
Lemma over_is_cancelled {B} a h (k : bool → Flow B) (Φ : Account → Handler → result Failure B → Prop) : sound a h →
  (∀ a' h' c, sound a' h' → held a' = held a → printed a' = printed a → (cancelled_seen h = true → c = true) → spec a' h' (k c) Φ) →
  spec a h (sbind is_cancelled k) Φ.
Proof.
  intros Hs Hk. eapply sspec_bind; [by apply is_cancelled_says, Hs|..]; cbn.
  - intros a1 h1 c (Hc1 & Hf1 & [= ->]). destruct (sound_after _ _ _ _ Hs Hc1 Hf1) as (? & ? & ?).
    destruct Hf1 as [_ _ _ Hm]. by apply Hk.
  - by intros ? ? ? (_ & _ & [=]).
Qed.
Lemma try_cached_cookie_ends server a h : fresh a h → spec a h (try_cached_cookie server) cached_ends.
Proof.
  intros Hf. unfold try_cached_cookie.
  eapply (over_calm (λ _, False)); [calm|by apply Hf| |done]. intros a1 h1 r Hs1 Hh1 Hp1.
  assert (fresh a1 h1) as Hf1 by by eapply fresh_after. clear Hs1 Hh1 Hp1 Hf.
  destruct r as [[path stored]|]; [|by apply sspec_ok]. apply sspec_gets.
  eapply sspec_catch; [apply login_gateway_adds; [apply Hf1|by eapply fresh_absent]|]. cbn.
  intros a2 h2 r (Hs2 & Hp2 & Hl2). rewrite (fresh_printed _ _ Hf1) in Hp2.
  unfold logged_in in Hl2. rewrite (fresh_held _ _ Hf1) in Hl2. cbn in Hl2. destruct r as [s|e].
  - destruct (_ && _).
    { apply over_logout; [done|done|right; eauto|]. intros. by apply sspec_ok. }
    eapply sspec_bind; [by apply connect_gateway_uses|..].
    2:{ intros a3 h3 e Hc. by apply connected_turns in Hc. }
    intros a3 h3 r Hc. pose proof (connected_turns _ _ _ _ Hc) as Ht. cbn in Ht.
    destruct r as [u|e]; [by apply sspec_ok|]. destruct Hc as [Hs3 [Hp3 Hh3]].
    apply over_is_cancelled; [done|]. intros a4 h4 c Hs4 Hh4 Hp4 _. destruct c.
    + apply sspec_ok. split; [done|]. destruct Ht as [_ [_ Hh]]. split; [congruence|]. by rewrite Hh4.
    + apply over_logout; [done|congruence| |intros; by apply sspec_ok]. rewrite Hh4.
      destruct Hh3 as [?|[? _]]; [by left|right; eauto].
  - apply over_is_cancelled; [done|]. intros a3 h3 c Hs3 Hh3 Hp3 Hc.
    destruct (c || is_login_protocol_error e) eqn:Ec.
    + apply sspec_ok. split; [done|]. split; [congruence|]. rewrite Hh3.
      destruct Hl2 as [?|(? & ? & ? & _)]; [by left|by right].
    + apply orb_false_iff in Ec as [-> Ec].
      assert (held a2 = []) as Hn.
      { destruct Hl2 as [?|(? & _ & _ & [Hx|Hx])]; [done|by specialize (Hc Hx)|congruence]. }
      eapply (over_calm (λ _, False)); [calm|done| |done]. intros a4 h4 [] Hs4 Hh4 Hp4.
      apply sspec_ok. split; [done|congruence|congruence].
Qed.
Lemma auto_gateways_end portal cred config count l : ∀ last a h, fresh a h →
  spec a h (auto_gateways portal cred config count l last) turned.
Proof.
  induction l as [|g l IH]; intros last a h Hf; [by apply sspec_throw, fresh_failed|].
  cbn [auto_gateways]. eapply sspec_bind; [by apply connect_gateway_with_fallback_ends|..].
  2:{ by intros a1 h1 e [_ ?]. }
  intros a1 h1 [u|e] [Hs1 Hr1]; [by apply sspec_ok|]. destruct Hr1 as [[Hp1 Hh1] Hb1].
  eapply sspec_bind; [by apply logout_gateway_takes|..]; cbn.
  2:{ by intros ? ? ? (_ & _ & [=] & _). }
  intros a2 h2 [] (Hs2 & Hp2 & _ & Hh2). apply sspec_gets.
  destruct (recovery_dmabuf_disabled (auth_recovery h2)) eqn:Er; cbn.
  { apply sspec_throw. split; [done|]. split; [done|right]. by apply final_terminal_recovered. }
  destruct (is_before_establishment e) eqn:Eb; cbn.
  - apply IH. split; [done| |done]. rewrite Hh2. unfold is_before_establishment in Eb.
    destruct (stage e); [|done]. destruct (Hb1 eq_refl) as [->|[c ->]]; [done|]. cbn. by rewrite String.eqb_refl.
  - apply sspec_throw. split; [done|]. split; [done|]. rewrite Hh2.
    destruct Hh1 as [->|?]; [by left|right]. by apply final_terminal.
Qed.
Lemma connect_portal_with_prelogin_ends portal a h : fresh a h →
  spec a h (connect_portal_with_prelogin portal) turned.
Proof.
  intros Hf. unfold connect_portal_with_prelogin.
  apply over_fresh; [calm|done| |intros; by apply fresh_failed]. intros a1 h1 gp Hf1.
  apply over_fresh; [calm|done| |intros; by apply fresh_failed]. intros a2 h2 p Hf2.
  apply over_fresh; [calm|done| |intros; by apply fresh_failed]. intros a3 h3 cached Hf3.
  apply over_fresh; [destruct cached as [[]|]; calm|done| |intros; by apply fresh_failed].
  intros a4 h4 [[p' cred] config] Hf4.
  apply over_fresh; [calm|done| |intros; by apply fresh_failed]. intros a5 h5 [] Hf5.
  apply sspec_may_panic. intros config' _. clear - Hf5. cbv zeta. set (auth := match password cred with Some _ => _ | None => _ end).
  destruct (auto_gateway args).
  - destruct (gateways config'); [by apply sspec_throw, fresh_failed|by apply auto_gateways_end].
  - apply over_fresh; [calm|done| |intros; by apply fresh_failed]. intros a6 h6 g Hf6.
    eapply sspec_bind; [by apply connect_gateway_with_fallback_ends|..].
    + intros a7 h7 r [Hs7 Hr7]. apply sspec_pure. destruct r as [u|e]; cbn; [by split|]. by destruct Hr7.
    + by intros a7 h7 e [_ ?].
Qed.
Lemma handle_impl_ends a h : fresh a h → spec a h handle_impl turned.
Proof.
  intros Hf. unfold handle_impl.
  apply over_fresh; [calm|done| |intros; by apply fresh_failed]. intros a1 h1 [] Hf1.
  apply over_fresh; [calm|done| |intros; by apply fresh_failed]. intros a2 h2 [] Hf2.
  destruct (as_gateway args); [by apply connect_gateway_with_prelogin_ends|].
  eapply (sspec_bind _ _ _ _ _ _ cached_ends).
  { destruct (cookie_on_stdin args); [by apply sspec_ok|by apply try_cached_cookie_ends]. }
  2:{ by intros ? ? ? ?. }
  intros a3 h3 [r|] Hf3; [by apply sspec_pure|].
  apply over_fresh; [calm|done| |intros; by apply fresh_failed]. intros a4 h4 [] Hf4.
  eapply sspec_catch; [by apply connect_portal_with_prelogin_ends|]. intros a5 h5 [u|e] [Hs5 Hr5]; [by apply sspec_ok|].
  unfold terminal_now. apply sspec_gets. set (e' := terminal e _).
  assert (failed a5 e') as Hr.
  { destruct Hr5 as [? [?|?]]; (split; [done|]); [by left|right]. by apply final_terminal. }
  destruct (is_recovery_failed e'); [by apply sspec_throw|].
  destruct (is_portal_error e') eqn:Ep; [|by apply sspec_throw].
  apply connect_gateway_with_prelogin_ends. destruct Hr as [Hp [Hh|Hfin]]; [by split|]. exfalso.
  unfold is_portal_error in Ep. unfold final in Hfin. by destruct (root_cause e').
Qed.
Lemma handle_turn_ends a h : fresh a h → spec a h (handle_turn ()) (λ a' h' r,
  match r with Ok (inl _) => fresh a' h' | Ok (inr u) => turned a' h' (Ok u) | Err e => turned a' h' (Err (A := ()) e) end).
Proof.
  intros Hf. unfold handle_turn.
  apply over_fresh; [calm|done| |intros; by apply fresh_failed]. intros a1 h1 [] Hf1.
  eapply sspec_catch; [by apply handle_impl_ends|]. intros a2 h2 [u|e] [Hs2 Hr2]; [by apply sspec_ok|].
  unfold terminal_now. apply sspec_gets. set (e' := terminal e _).
  assert (failed a2 e') as Hr.
  { destruct Hr2 as [? [?|?]]; (split; [done|]); [by left|right]. by apply final_terminal. }
  destruct (is_recovery_failed e'); [by apply sspec_throw|].
  assert (∀ i, root_cause e' = IdentityFailure i → fresh a2 h2) as Hid.
  { intros i Hi. destruct Hr as [Hp [Hh|Hfin]]; [by split|]. exfalso. unfold final in Hfin. by rewrite Hi in Hfin. }
  destruct (root_cause e') as [| | |i| | | | | | | |] eqn:Ec; try by apply sspec_throw.
  specialize (Hid i eq_refl).
  destruct i as [|t|t| | | | | | |]; try by apply sspec_throw.
  - apply sspec_ok. split; [done|]. unfold finished. rewrite (fresh_held _ _ Hid), (fresh_printed _ _ Hid).
    by destruct (cookie_only args).
  - apply over_fresh; [calm|done| |intros; by apply fresh_failed]. intros a3 h3 w Hf3.
    apply over_fresh; [calm|done| |intros; by apply fresh_failed]. intros. by apply sspec_ok.
  - apply over_fresh; [calm|done| |intros; by apply fresh_failed]. intros a3 h3 w Hf3.
    apply over_fresh; [calm|done| |intros; by apply fresh_failed]. intros. by apply sspec_ok.
Qed.
Lemma handle_attempt_ends a h : fresh a h → spec a h handle_attempt turned.
Proof.
  intros Hf. unfold handle_attempt. destruct (_ && _); [by apply sspec_throw, fresh_failed|].
  destruct (_ && _); [by apply sspec_throw, fresh_failed|].
  apply over_fresh; [calm|done| |intros; by apply fresh_failed]. intros a1 h1 [] Hf1.
  apply (sspec_repeating _ _ _ _ _ (λ a' h' _, fresh a' h')); [|done].
  intros a2 h2 [] Hf2. by apply handle_turn_ends.
Qed.

(** ** What a trace shows *)
(** The session an answer to a login issues, or the cookie nobody will use. *)
Definition issued_by (e : event E) : option Key :=
  match e with
  | @Ev _ X q x => match q in ClientE _ Y return Y → option Key with
    | LoginE gateway c cred ctx => λ t, match login_turn c cred ctx t with
        | (Ok (Authenticated au), _, _) => Some (gateway, cookie au) | _ => None end
    | _ => λ _, None end x
  end.
Definition unusable_of (e : event E) : option string :=
  match e with
  | @Ev _ X q x => match q in ClientE _ Y return Y → option string with
    | LoginE gateway c cred ctx => λ t, (login_turn c cred ctx t).2
    | _ => λ _, None end x
  end.
Definition revoked_by (e : event E) : option string :=
  match e with Ev q _ => match q with RevokeE c => Some c | _ => None end end.
Definition logged_out_by (e : event E) : list Key :=
  match e with
  | @Ev _ X q x => match q in ClientE _ Y return Y → list Key with
    | LogoutE s => λ _, [key s]
    | LogoutAllE l => λ _, keys l
    | MaintainE l => λ t, match t with
        | MaintainEnded _ out => keys (AttemptRuntime.logged_out_of out l).1 | MaintainEstablished => [] end
    | MaintainEndE l => λ t, keys (AttemptRuntime.logged_out_of t.2 l).1
    | _ => λ _, [] end x
  end.
Definition tunnelled_by (e : event E) : option Key :=
  match e with Ev q _ => match q with TunnelE gateway v _ _ => Some (gateway, Openconnect.vpn_cookie v) | _ => None end end.
Definition printed_by (e : event E) : option Key :=
  match e with Ev q _ => match q with PrintCookieE c gateway => Some (gateway, c) | _ => None end end.
Definition released_by (e : event E) : list Key :=
  match e with Ev q _ => match q with RelinquishE l => keys l | _ => [] end end.
Definition read_by (e : event E) : option StdinLine :=
  match e with
  | @Ev _ X q x => match q in ClientE _ Y return Y → option StdinLine with
    | StdinE line => λ r, match r with Ok _ => Some line | Err _ => None end
    | _ => λ _, None end x
  end.
Definition clean_window (e : event E) : option SamlAuthLauncher :=
  match e with Ev q _ => match q with LaunchE s _ => if clean s then Some s else None | _ => None end end.
Definition pid_after (p : PidFile) (e : event E) : PidFile :=
  match e with
  | @Ev _ X q x => match q in ClientE _ Y return Y → PidFile with
    | WritePidE => λ w, note_write w p
    | TunnelE _ _ _ _ => λ t, match t with
        | TunnelExited _ (Some w) | TunnelEstablished w => note_write w p | _ => p end
    | RemovePidE => λ r, note_removal r p
    | _ => λ _, p end x
  end.
Definition issued (l : trace E) : list Key := omap issued_by l.
Definition unusable_cookies (l : trace E) : list string := omap unusable_of l.
Definition revoked (l : trace E) : list string := omap revoked_by l.
Definition logged_out (l : trace E) : list Key := l ≫= logged_out_by.
Definition tunnelled (l : trace E) : list Key := omap tunnelled_by l.
Definition printed_cookies (l : trace E) : list Key := omap printed_by l.
Definition released_sessions (l : trace E) : list Key := l ≫= released_by.
Definition read_lines (l : trace E) : list StdinLine := omap read_by l.
Definition clean_windows (l : trace E) : list SamlAuthLauncher := omap clean_window l.
Definition pid_of (l : trace E) : PidFile := foldl pid_after pid_file_new l.

(** What the account is of a trace. *)
Record traced (l : trace E) (a : Account) : Prop := {
  traced_issued : issued l ≡ₚ held a ++ ended a ++ handed a ++ released a;
  traced_unusable : unusable_cookies l = revoked l ++ option_list (unusable a);
  traced_ended : ended a = logged_out l;
  traced_handed : handed a = tunnelled l;
  traced_printed : printed a = printed_cookies l;
  traced_released : released a = released_sessions l;
  traced_lines : lines_read a = read_lines l;
  traced_clean : length (clean_windows l) = if clean_used a then 1%nat else 0%nat;
  traced_windows : Forall (λ s, shows_window s = true) (clean_windows l);
  traced_pid : pid_file a = pid_of l;
  traced_once : NoDup (lines_read a);
  traced_gateways : NoDup (held a).*1;
  traced_tunnel : cookie_only args = true → handed a = [];
}.
Lemma take_out_gateways v l : NoDup l.*1 → NoDup (take_out v l).2.*1.
Proof.
  intros Hn. assert (NoDup (option_list (take_out v l).1 ++ (take_out v l).2).*1) as Hx by by rewrite take_out_perm.
  rewrite fmap_app in Hx. by apply list.NoDup_app in Hx as (_ & _ & ?).
Qed.
Lemma take_all_gateways v l : NoDup l.*1 → NoDup (take_all v l).2.*1.
Proof.
  intros Hn. assert (NoDup ((take_all v l).1 ++ (take_all v l).2).*1) as Hx by by rewrite take_all_perm.
  rewrite fmap_app in Hx. by apply list.NoDup_app in Hx as (_ & _ & ?).
Qed.
(** What one event moves. *)
Record moved (a : Account) (e : event E) (a' : Account) : Prop := {
  moved_sessions : held a' ++ ended a' ++ handed a' ++ released a' ≡ₚ
    (held a ++ ended a ++ handed a ++ released a) ++ option_list (issued_by e);
  moved_unusable : option_list (unusable a) ++ option_list (unusable_of e) =
    option_list (revoked_by e) ++ option_list (unusable a');
  moved_ended : ended a' = ended a ++ logged_out_by e;
  moved_handed : handed a' = handed a ++ option_list (tunnelled_by e);
  moved_printed : printed a' = printed a ++ option_list (printed_by e);
  moved_released : released a' = released a ++ released_by e;
  moved_lines : lines_read a' = lines_read a ++ option_list (read_by e);
  moved_clean : match clean_window e with
    | Some s => shows_window s = true ∧ clean_used a = false ∧ clean_used a' = true
    | None => clean_used a' = clean_used a end;
  moved_pid : pid_file a' = pid_after (pid_file a) e;
  moved_once : NoDup (lines_read a) → NoDup (lines_read a');
  moved_gateways : NoDup (held a).*1 → NoDup (held a').*1;
  moved_tunnel : cookie_only args = true → handed a = [] → handed a' = [];
}.
Lemma omap_snoc {A B} (f : A → option B) l x : omap f (l ++ [x]) = omap f l ++ option_list (f x).
Proof. rewrite omap_app. cbn. by destruct (f x). Qed.
Lemma traced_moved l a e a' : traced l a → moved a e a' → traced (l ++ [e]) a'.
Proof.
  intros [Ti Tu Te Th Tp Tr Tl Tc Tw Tpid To Tg Tt] [Mi Mu Me Mh Mp Mr Ml Mc Mpid Mo Mg Mt].
  assert (length (clean_windows (l ++ [e])) = (if clean_used a' then 1 else 0)%nat ∧
    Forall (λ s, shows_window s = true) (clean_windows (l ++ [e]))) as [Hc Hw].
  { unfold clean_windows in *. rewrite omap_snoc, length_app, Tc, list.Forall_app. destruct (clean_window e).
    - destruct Mc as (Hs & -> & ->). cbn. split; [done|]. split; [done|]. by repeat constructor.
    - rewrite Mc. cbn. rewrite Nat.add_0_r. by repeat split. }
  constructor; [..|auto|auto|auto].
  - unfold issued in *. by rewrite omap_snoc, Ti, Mi.
  - unfold unusable_cookies, revoked in *. rewrite !omap_snoc, Tu, <- !app_assoc. by f_equal.
  - unfold logged_out in *. rewrite bind_app, Me, Te. cbn. by rewrite app_nil_r.
  - unfold tunnelled in *. by rewrite omap_snoc, Mh, Th.
  - unfold printed_cookies in *. by rewrite omap_snoc, Mp, Tp.
  - unfold released_sessions in *. rewrite bind_app, Mr, Tr. cbn. by rewrite app_nil_r.
  - unfold read_lines in *. by rewrite omap_snoc, Ml, Tl.
  - done.
  - done.
  - unfold pid_of in *. by rewrite foldl_app, Mpid, Tpid.
Qed.
(** An event that only ends sessions. *)
Lemma moved_end a e (out rest : list Key) :
  out ++ rest ≡ₚ held a → (NoDup (held a).*1 → NoDup rest.*1) →
  logged_out_by e = out → issued_by e = None → unusable_of e = None → revoked_by e = None → tunnelled_by e = None →
  printed_by e = None → released_by e = [] → read_by e = None → clean_window e = None →
  (∀ p, pid_after p e = p) → moved a e (end_sessions out rest a).
Proof.
  intros Hp Hn Ho N1 N2 N3 N4 N5 N6 N7 N8 N9.
  constructor; rewrite ?Ho, ?N1, ?N2, ?N3, ?N4, ?N5, ?N6, ?N7, ?N8, ?N9; cbn; rewrite ?app_nil_r; try done.
  rewrite <- Hp, <- !app_assoc, (app_assoc rest), (Permutation_app_swap_app (rest ++ _) out).
  by rewrite <- app_assoc.
Qed.
Lemma moved_nothing a e : logged_out_by e = [] → issued_by e = None → unusable_of e = None → revoked_by e = None →
  tunnelled_by e = None → printed_by e = None → released_by e = [] → read_by e = None → clean_window e = None →
  (∀ p, pid_after p e = p) → moved a e a.
Proof.
  intros Ho N1 N2 N3 N4 N5 N6 N7 N8 N9.
  by constructor; rewrite ?Ho, ?N1, ?N2, ?N3, ?N4, ?N5, ?N6, ?N7, ?N8, ?N9; cbn; rewrite ?app_nil_r.
Qed.
Lemma guard_inv {A} (P : Prop) `{Decision P} (m : P → option A) y :
  (guard P ≫= m) = Some y → ∃ p : P, m p = Some y.
Proof. unfold guard. destruct (decide P) as [p|]; [|done]. by exists p. Qed.
Lemma step_moved a e a' : step a e a' → moved a e a'.
Proof.
  intros Hs. destruct e as [X q x]. unfold step in Hs.
  destruct q; cbn in Hs; repeat (apply guard_inv in Hs as [? Hs]);
    try (injection Hs as <-; by apply moved_nothing).
  - (* StdinE *) destruct x as [t|t]; injection Hs as <-; [|by apply moved_nothing].
    constructor; cbn; rewrite ?app_nil_r; try done. intros Hn. apply list.NoDup_app. split_and!; [done| |apply NoDup_singleton].
    by intros y Hy ->%list_elem_of_singleton.
  - (* LaunchE *) match goal with Hx : _ → shows_window s = true ∧ _ |- _ => rename Hx into Hc end. injection Hs as <-.
    constructor; cbn; rewrite ?app_nil_r; try done. destruct (clean s) eqn:Ec; [|by rewrite orb_false_r].
    destruct (Hc eq_refl) as [? ->]. done.
  - (* LoginE *) rename select (gateway ∉ _) into Hg. rename select (unusable a = None) into Hu.
    destruct (login_turn c cred ctx x) as [[r c'] unused] eqn:El. injection Hs as <-.
    constructor; cbn; rewrite ?El, ?Hu, ?app_nil_r; cbn; try done; destruct r as [[au|m1 m2]|e]; cbn; rewrite ?app_nil_r; try done.
    + rewrite <- !app_assoc. apply Permutation_app_head.
      by rewrite (Permutation_app_comm [_]), <- !app_assoc.
    + intros Hn. rewrite fmap_app. apply list.NoDup_app. split_and!; [done| |apply NoDup_singleton].
      by intros y Hy ->%list_elem_of_singleton.
  - (* RevokeE *) rename select (unusable a = _) into Hu. injection Hs as <-.
    by constructor; cbn; rewrite ?Hu, ?app_nil_r.
  - (* LogoutE *) destruct (take_out (session_server s) (held a)) as [o rest] eqn:Et. cbn in Hs.
    apply guard_inv in Hs as [Ho Hs]. injection Hs as <-. apply moved_end; try done.
    + pose proof (take_out_perm (session_server s) (held a)) as Hp. by rewrite Et, Ho in Hp.
    + intros Hn. apply (take_out_gateways (session_server s)) in Hn. by rewrite Et in Hn.
  - (* LogoutAllE *) injection Hs as <-. apply moved_end; try done; [by rewrite app_nil_r|constructor].
  - (* RelinquishE *) rename select (keys l = held a) into Hk. injection Hs as <-.
    constructor; cbn; rewrite ?Hk, ?app_nil_r; try done; [|constructor].
    by rewrite (Permutation_app_comm (held a)), <- !app_assoc.
  - (* PrintCookieE *) injection Hs as <-. by constructor; cbn; rewrite ?app_nil_r.
  - (* TunnelE *) destruct (take_out gateway (held a)) as [o rest] eqn:Et. cbn in Hs.
    apply guard_inv in Hs as [Ho Hs]. injection Hs as <-.
    pose proof (take_out_perm gateway (held a)) as Hp. rewrite Et, Ho in Hp. cbn in Hp.
    constructor; cbn; rewrite ?app_nil_r; try done.
    + rewrite <- Hp. set (k := (gateway, Openconnect.vpn_cookie v)).
      trans (k :: (rest ++ ended a ++ handed a) ++ released a); [|by rewrite <- !app_assoc].
      rewrite (Permutation_middle (rest ++ ended a ++ handed a)). by rewrite <- !app_assoc.
    + intros Hn. apply (take_out_gateways gateway) in Hn. by rewrite Et in Hn.
    + congruence.
  - (* WritePidE *) injection Hs as <-. by constructor; cbn; rewrite ?app_nil_r.
  - (* RemovePidE *) injection Hs as <-. by constructor; cbn; rewrite ?app_nil_r.
  - (* MaintainE *) rename select (keys l = held a) into Hk. injection Hs as <-.
    destruct x as [y out|]; [|by apply moved_nothing]. rewrite <- Hk, take_all_keys.
    apply moved_end; try done.
    + rewrite <- Hk. unfold keys. by rewrite <- fmap_app, AttemptRuntime.logged_out_perm.
    + rewrite <- Hk. intros Hn. apply (take_all_gateways out) in Hn. by rewrite take_all_keys in Hn.
  - (* MaintainEndE *) rename select (keys l = held a) into Hk. rewrite <- Hk, take_all_keys in Hs. injection Hs as <-.
    apply moved_end; try done.
    + rewrite <- Hk. unfold keys. by rewrite <- fmap_app, AttemptRuntime.logged_out_perm.
    + rewrite <- Hk. intros Hn. apply (take_all_gateways x.2) in Hn. by rewrite take_all_keys in Hn.
Qed.
Lemma tracks_traced l a : tracks step account_new l a → traced l a.
Proof.
  induction 1 as [|l e a a' _ IH Hs]; [|by eapply traced_moved, step_moved].
  constructor; cbn; try done; constructor.
Qed.

(** * Theorems *)
(** The PID file at the end: its removal was tried, once, when the last write of it had
    succeeded, and else not at all; the file is there after a removal that failed, or
    when a write of it failed and left it. *)
Definition pid_settled (p : PidFile) : Prop :=
  match pid_removals p with
  | [] => last_written p = false ∧ (pid_there p = true → ∃ b, list.last (pid_writes p) = Some (PidFailed b))
  | [r] => last_written p = true ∧ pid_there p = negb (is_ok r)
  | _ => False
  end.
Lemma pid_known_unwritten p : pid_known p false → pid_settled p.
Proof.
  intros [Hw Ht Hr]. unfold pid_settled. rewrite Hr. split; [done|]. rewrite Ht. unfold last_written in Hw.
  destruct (pid_writes p) as [|w ws] using rev_ind; [done|]. rewrite list.last_snoc in *.
  destruct w as [|b]; [done|]. intros _. by exists b.
Qed.
Lemma pid_known_removed p r : pid_known p true → pid_settled (note_removal r p).
Proof.
  intros [Hw Ht Hr]. unfold pid_settled. cbn. rewrite Hr. split; [done|]. rewrite Ht. unfold last_written in Hw.
  destruct (pid_writes p) as [|w ws] using rev_ind; [done|]. rewrite list.last_snoc in Hw.
  destruct w; [|done]. by rewrite existsb_app, orb_true_r.
Qed.
(** When the handler is done. *)
Record settled (a : Account) (r : result Failure ()) : Prop := {
  settled_held : held a = [];
  settled_unusable : unusable a = None;
  settled_pid : pid_settled (pid_file a);
  settled_cookie : if cookie_only args
    then released a = printed a ∧ ∀ e, r = Err e → released a = []
    else released a = [] ∧ printed a = [];
}.
Lemma handle_settles a h : fresh a h → spec a h handle (λ a' _ r, settled a' r).
Proof.
  intros Hf. unfold handle. apply sspec_modify.
  eapply sspec_catch; [apply handle_attempt_ends|].
  { destruct Hf as [[[] ?] ? ?]. split; [|done|done]. by split. }
  cbn. intros a1 h1 r [[Hc Hl] Hr]. apply sspec_gets, sspec_modify.
  assert ((∃ e, r = Err e) ∨ cookie_only args = false → printed a1 = []) as Hp.
  { intros Hx. unfold finished in Hr. destruct r as [u|e]; [|by apply Hr].
    destruct Hx as [[? [=]]|Hx]. by rewrite Hx in Hr. }
  set (printing := cookie_only args && _).
  set (a2 := if printing then release a1 else end_sessions (held a1) [] a1).
  eapply (sspec_bind _ _ _ _ _ _ (λ a' h' r', a' = a2 ∧ h' = set_sessions (λ _, []) h1 ∧ r' = Ok ())).
  { apply sspec_asked. intros []. exists a2. split; [|done]. subst a2. unfold step.
    destruct printing eqn:Ep; subst printing; cbn.
    - apply andb_true_iff in Ep as [Hco _]. rewrite option_guard_True by done. cbn. by rewrite option_guard_True.
    - rewrite option_guard_True.
      2:{ apply Hp. destruct r; [right; by rewrite andb_true_r in Ep|left; eauto]. }
      cbn. by rewrite option_guard_True. }
  2:{ by intros ? ? ? (_ & _ & [=]). }
  intros a3 h3 [] (-> & -> & _). apply sspec_gets. cbn [pid_written set_sessions].
  assert (∀ p, pid_settled p → settled (set_pid_file p a2) r) as Hend.
  { intros p Hpid. subst a2. unfold printing. unfold finished in Hr. pose proof (core_released _ _ Hc) as Hrel.
    constructor; cbn.
    - by destruct (_ && _).
    - destruct (_ && _); by apply Hc.
    - done.
    - destruct (cookie_only args); cbn.
      + destruct r as [u|e]; cbn; [rewrite Hrel, Hr; by split|]. rewrite Hrel, Hp by eauto. by split.
      + rewrite Hrel, Hp by eauto. by split. }
  assert (pid_known (pid_file a2) (pid_written h1)) as Hpid.
  { subst a2. destruct printing; by apply Hc. }
  destruct (pid_written h1) eqn:Ew.
  - eapply (sspec_bind _ _ _ _ _ _ (λ a' _ r', settled a' r ∧ r' = Ok ())).
    { apply sspec_ask. intros x. exists (set_pid_file (note_removal x (pid_file a2)) a2). split.
      { unfold step. cbn. rewrite option_guard_True by apply Hpid. cbn. by rewrite option_guard_True by apply Hpid. }
      apply sspec_ok. split; [|done]. by apply Hend, pid_known_removed. }
    + intros a4 h4 _ [Hs _]. by apply sspec_pure.
    + by intros ? ? ? [_ [=]].
  - apply sspec_let_pure, sspec_pure. replace a2 with (set_pid_file (pid_file a2) a2); [|by destruct a2].
    by apply Hend, pid_known_unwritten.
Qed.
Lemma fresh_new h : handler_new = Some h → fresh account_new h.
Proof.
  unfold handler_new. intros Hn. apply bind_Some in Hn as (p & _ & [= <-]).
  split; [|done|done]. split; [|done]. constructor; cbn; try done; intros _; apply not_elem_of_nil.
Qed.

(** What the user gives once is used once. In every run, finished or not: no line of
    standard input is read twice, [--clean] clears at most one window and only one of the
    client's own, never a browser's; and the client holds at most one session at a
    gateway. *)
Lemma client_asks_once h l t : handler_new = Some h → plays (handle h) l t →
  NoDup (read_lines l) ∧
  (length (clean_windows l) ≤ 1)%nat ∧ Forall (λ s, shows_window s = true) (clean_windows l) ∧
  ∃ kept, NoDup kept.*1 ∧ issued l ≡ₚ kept ++ logged_out l ++ tunnelled l ++ released_sessions l.
Proof.
  intros Hn Hr. eapply sspec_runs in Hr as [a Ht]; [|by apply handle_settles, fresh_new].
  apply tracks_traced in Ht as [Ti _ Te Th _ Tr Tl Tc Tw _ To Tg _].
  split_and!; [congruence|rewrite Tc; by destruct (clean_used a); lia|done|].
  exists (held a). split; [done|]. by rewrite Ti, Te, Th, Tr.
Qed.
End ledger.

Module LedgerExample.
Import XmlExample.
Definition prelogin_doc : Element := element "prelogin-response" ∅
  [leaf "status" "Success"; leaf "region" "FR"; leaf "saml-auth-method" "REDIRECT";
   leaf "saml-request" "request"; leaf "saml-default-browser" "yes"].
Definition policy_doc : Element := element "policy" ∅
  [node "gateways" [node "external" [node "list"
     [entry "out.example" [leaf "description" "Outside"];
      entry "fr.example" [leaf "description" "Paris"; node "priority-rule" [entry "FR" [leaf "priority" "1"]]]]]]].
#[local] Instance docs : Xmltree := xml [("<prelogin/>", prelogin_doc); ("<policy/>", policy_doc);
  ("<jnlp/>", LoginExample.jnlp LoginExample.args)].
#[local] Instance encoding : UrlEncoding := LoginExample.encoding.
#[local] Instance forms : UrlCrate := LoginExample.forms.
#[local] Instance base64 : Base64 := Concrete.plain_base64.
#[local] Instance uuid5 : UuidV5 := ProfileExample.fixed.
#[local] Instance uuids : UuidFormat :=
  {| uuid_as_bytes _ := ""; uuid_to_string _ := ""; uuid_parse_str _ := None |}.
#[local] Instance no_stored : SerdeJson CookieStore.StoredCookie :=
  {| to_vec _ := None; from_slice _ := None |}.
Definition saml_data : SamlAuthData := {|
  saml_username := "alice"; saml_prelogin_cookie := Some "prelogin"; saml_portal_userauthcookie := None;
  saml_token := None; saml_host_id := None |}.
#[local] Instance saml_json : SerdeJson SamlAuthResult := {|
  to_vec r := match r with SamlSuccess _ => Some "success" | _ => Some "cancelled" end;
  from_slice s := Some (if String.eqb s "success" then SamlSuccess saml_data else SamlCancelled) |}.

Definition machine : ClientMachine () := {|
  system := {| HostCollection.read_file _ := None; HostCollection.hostname := Some "laptop";
               HostCollection.default_mac := None; HostCollection.distro := None;
               HostCollection.checks _ := Ok () |};
  home := None; variables _ := None; wayland := false; canonicalize := Some;
  bundled_gpauth := "/usr/bin/gpauth"; non_root := Ok; http_client _ := Ok ();
  load_identity _ _ _ := Ok (); identity_key_password _ := None; resolve _ _ := None;
  local_ipv4 _ := None; csc_reader := system_reader []; user_by_name _ := None;
  exists_file _ := true; is_file _ := true; is_executable _ := true; metadata_is_file _ := Ok true;
  gp_vpnc_script := None; current_exe := None; hip_report _ _ := None; os_error_text _ := "" |}.
(** [gpclient connect portal.example --auto-gateway --clean], detached, or for the cookie only. *)
Definition arguments (cookies : bool) : ConnectArgs := {|
  server := "portal.example"; dashboard := false; arg_gateway := None; auto_gateway := true;
  arg_user := None; passwd_on_stdin := false; cookie_on_stdin := false; cookie_cache := None;
  script := None; interface := None; script_tun := false; as_gateway := false; hip := None;
  hip_user := None; arg_certificate := None; arg_sslkey := None; arg_key_password := None;
  csd_user := None; csd_wrapper := None; reconnect_timeout := 300; mtu := None;
  ip_preference := Session.IpPreference.Auto; disable_ipv6 := false; arg_client_version := None;
  os := Linux; csc := CscAuto; no_dtls := false; local_hostname := None; dpd_interval := None;
  no_xmlpost := false; arg_hidpi := false; arg_clean := true; arg_default_browser := false;
  arg_browser := None; arg_browser_listen := None; cookie_only := cookies |}.
#[local] Instance setting (cookies : bool) : Setting () () := {|
  origin_text _ := "origin"; url_text _ := "https://198.51.100.7/"; port_text _ := "443";
  md5 _ := []; csc_encode s := s; settings _ := Err "no network"; build_bound := Ok;
  ClientConnect.machine := machine; webview := true; args := arguments cookies;
  shared := {| arg_ignore_tls_errors := false; arg_verbose := None; arg_log_format := LogText |};
  background := negb cookies |}.
Definition answer (body : string) : Response := {| status := 200; gp_reason := None; text := Ok body |}.
(** Standard output cannot be redirected for the first gateway; the second one's tunnel is
    established and ends. *)
Definition world (n : nat) (X : Type) (q : ClientE () X) : X :=
  match q with
  | CancelledE => false
  | CancelE => ()
  | PreloginE => Some (λ _ _ _, Ok (answer "<prelogin/>"))
  | DiscoverE => {|
      portal_server := {| post_config _ _ := Some (Ok (answer "<policy/>")); post_csc _ _ := None;
                          csc_cancelled := false |};
      detection _ := Ok false; discovery_millis := 0; cancelled_parsing := false; cancelled_detecting := false |}
  | StdinE _ => Ok "line"
  | PromptE _ => Ok "text"
  | SelectE _ => Err "no choice"
  | LaunchE _ _ => (Ran {| out_status := Exited 0; out_stdout := "success"; out_input_error := None |} [], false)
  | ReadCacheE _ => None
  | SaveCacheE _ _ => Ok ()
  | ClearCacheE _ => ()
  | LoginE _ _ _ _ => {| cancelled_before := false; login_post _ _ := Some (Ok {|
      la_response := answer "<jnlp/>"; la_peer_certificate := None; la_endpoint := None;
      la_url := Concrete.gateway_url |}) |}
  | RevokeE _ => ()
  | BindE _ _ => λ _ _ _, Err "no network"
  | LogoutE _ | LogoutAllE _ | RelinquishE _ | PrintCookieE _ _ => ()
  | IdentityFilesE _ => Err "no file"
  | RedirectStdioE => if (n <? 30)%nat then Err "Bad file descriptor" else Ok ()
  | DashboardE | DashboardStartE | DashboardFinishE | DetachE => Ok ()
  | AttachMonitorE | StopMonitorE => ()
  | RemovePidE => Err "Permission denied"
  | TunnelE _ _ _ _ => TunnelEstablished PidWritten
  | TunnelGoneE => None
  | JoinTunnelE => Some 0%Z
  | DisconnectRequestedE => false
  | CaptureNetworkE => Ok ()
  | ValidateBindingE _ => Ok ()
  | WritePidE => PidWritten
  | MaintainE _ => MaintainEstablished
  | MaintainEndE _ => (Ok NonTunnel.Disconnected, [])
  | JoinMonitorE => true
  end.
Definition ran (cookies : bool) : trace (ClientE ()) * option (result Failure ()) :=
  match handler_new (client := setting cookies) with
  | Some h =>
      match exec world 300 0 (handle (client := setting cookies) h) with
      | Some (l, (r, _)) => (l, r)
      | None => ([], None)
      end
  | None => ([], None)
  end.
Definition ended_well (cookies : bool) : bool :=
  match (ran cookies).2 with Some (Ok _) => true | _ => false end.
Lemma ran_returns cookies : ended_well cookies = true → ∃ h h',
  handler_new (client := setting cookies) = Some h ∧
  returns (handle (client := setting cookies) h) (ran cookies).1 (Some (Ok ()), h').
Proof.
  unfold ended_well, ran. destruct (handler_new (client := setting cookies)) as [h|]; [|done].
  destruct (exec _ _ _ _) as [[l [r h']]|] eqn:Ee; [|done]. cbn. intros Hr.
  exists h, h'. split; [done|]. apply exec_returns in Ee. by destruct r as [[[]|e]|].
Qed.
Lemma client_asks_once_witness :
  let l := (ran false).1 in
  NoDup (read_lines l) ∧ length (clean_windows l) = 1%nat ∧ (length (clean_windows l) ≤ 1)%nat ∧
  ∃ kept, NoDup kept.*1 ∧
    issued (client := setting false) l ≡ₚ kept ++ logged_out l ++ tunnelled l ++ released_sessions l.
Proof.
  destruct (ran_returns false) as (h & g & Hh & t & Hp & _); [vm_compute; reflexivity|].
  destruct (client_asks_once (client := setting false) _ _ _ Hh Hp) as (H1 & H2 & _ & H3).
  cbn zeta. split; [exact H1|]. split; [vm_compute; reflexivity|]. split; [exact H2|exact H3].
Defined.
End LedgerExample.
