(* ===== verification/Halting.v ===== *)
(** How programs that talk to their surroundings end. A program [halts] when it asks
    finitely many questions and returns, whatever the answers; a run that returned is
    taken apart into the runs of the program's parts. *)
From ITree Require Import ITree.
From S2P Require Import Prelude GpHttp Interaction.

Inductive halts {E R} (t : itree E R) : Prop :=
  | halts_ret r : observe t = RetF r → halts t
  | halts_tau u : observe t = TauF u → halts u → halts t
  | halts_vis X (e : E X) k : observe t = VisF e k → (∀ x, halts (k x)) → halts t.
Section halting.
Context {E : Type → Type}.
Lemma halts_observe {R} (t u : itree E R) : observe t = observe u → halts u → halts t.
Proof.
  intros Ho [r Hr|v Hv Hh|X e k Hk Hh]; rewrite <- Ho in *; [by eapply halts_ret|by eapply halts_tau|by eapply halts_vis].
Qed.
Lemma halts_bind {A R} (t : itree E A) (k : A → itree E R) :
  halts t → (∀ a, halts (k a)) → halts (ITree.bind t k).
Proof.
  intros Ht Hk. induction Ht as [t r Hr|t u Hu _ IH|t X e h He _ IH].
  - apply (halts_observe _ (k r)); [|done]. by rewrite observe_bind, Hr.
  - eapply halts_tau; [by rewrite observe_bind, Hu|done].
  - eapply halts_vis; [by rewrite observe_bind, He|done].
Qed.
(** The result of a run of [t]. *)
Lemma halts_bind_returns {A R} (t : itree E A) (k : A → itree E R) :
  halts t → (∀ l a, returns t l a → halts (k a)) → halts (ITree.bind t k).
Proof.
  intros Ht. induction Ht as [t r Hr|t u Hu _ IH|t X e h He _ IH]; intros Hk.
  - apply (halts_observe _ (k r)); [by rewrite observe_bind, Hr|]. apply (Hk []). exists t. by split; [constructor|].
  - eapply halts_tau; [by rewrite observe_bind, Hu|]. apply IH. intros l a (t' & Hp & Ha). apply (Hk l).
    exists t'. by split; [eapply plays_tau|].
  - eapply halts_vis; [by rewrite observe_bind, He|]. intros x. apply IH. intros l a (t' & Hp & Ha).
    apply (Hk (Ev e x :: l)). exists t'. by split; [eapply plays_vis|].
Qed.
Lemma halts_pure {A} (r : result Failure A) : halts (pure (E:=E) r).
Proof. by eapply halts_ret. Qed.
Lemma halts_ask {X} (e : E X) : halts (ask e).
Proof. apply halts_bind; [eapply halts_vis; [done|]|]; intros x; by eapply halts_ret. Qed.
Lemma halts_and_then {A B} (m : flow E A) (k : A → flow E B) :
  halts m → (∀ a, halts (k a)) → halts (and_then m k).
Proof. intros Hm Hk. apply halts_bind; [done|]. intros [[a|e]|]; [done|by eapply halts_ret..]. Qed.
Lemma halts_either {A B} (m : flow E A) (k : result Failure A → flow E B) :
  halts m → (∀ r, halts (k r)) → halts (either m k).
Proof. intros Hm Hk. apply halts_bind; [done|]. intros [r|]; [done|by eapply halts_ret]. Qed.
(** A loop whose turns halt and make a measure smaller. *)
Lemma halts_repeating {A I} (turn : I → flow E (I + A)) (J : I → Prop) (size : I → nat) i :
  (∀ i, J i → halts (turn i)) →
  (∀ i l j, J i → returns (turn i) l (Some (Ok (inl j))) → J j ∧ (size j < size i)%nat) →
  J i → halts (repeating turn i).
Proof.
  intros Hturn Hless Hi. remember (size i) as n eqn:En. revert i Hi En.
  induction (lt_wf n) as [n _ IH]. intros i Hi ->.
  eapply halts_observe; [apply observe_iter|]. apply halts_bind_returns.
  - apply halts_bind; [by apply Hturn|]. intros x. by eapply halts_ret.
  - intros l y (t' & Hp & Hy). apply plays_bind_inv in Hp as [(t & Hp & ->)|(l1 & l2 & x & Hx & Hp & ->)].
    + rewrite observe_bind in Hy. destruct (observe t) as [x| |] eqn:Ex; [|done..]. cbn in Hy.
      destruct x as [[[j|a]|e]|]; injection Hy as <-; try (by eapply halts_ret).
      destruct (Hless i l j Hi) as [Hj Hs]; [by exists t|]. eapply halts_tau; [done|]. by eapply IH.
    + inversion Hp as [u|? ? ? ? Ho|? ? ? ? ? ? ? Ho]; subst; [|done..]. cbn in Hy.
      destruct x as [[[j|a]|e]|]; injection Hy as <-; try (by eapply halts_ret).
      destruct (Hless i l1 j Hi Hx) as [Hj Hs]. eapply halts_tau; [done|]. by eapply IH.
Qed.
(** The same with the logic of runs. *)
Lemma halts_loop {A I} (turn : I → flow E (I + A)) (J : I → Prop) (size : I → nat) i :
  (∀ i, J i → halts (turn i)) →
  (∀ i, J i → wpf (λ _, True) (turn i) (λ _ r, match r with
     | Ok (inl j) => J j ∧ (size j < size i)%nat | _ => True end) []) →
  J i → halts (repeating turn i).
Proof.
  intros Hturn Hless. apply (halts_repeating _ J size); [done|]. intros j l k Hj (t & Hp & Ht).
  destruct (Hless j Hj l t Hp) as [_ Hr]. exact (Hr _ Ht).
Qed.
End halting.
#[export] Hint Resolve halts_pure halts_ask : halts.
(** Programs without loops. *)
Ltac halting :=
  repeat match goal with
  | |- ∀ _, _ => intro
  | |- halts (and_then _ _) => apply halts_and_then
  | |- halts (either _ _) => apply halts_either
  | |- halts (pure _) => apply halts_pure
  | |- halts (ok _) => apply (halts_pure (Ok _))
  | |- halts (throw _) => apply (halts_pure (Err _))
  | |- halts (ask _) => apply halts_ask
  | |- halts (match ?x with _ => _ end) => destruct x
  | |- _ => solve [eauto with halts]
  end.

(** * A run that returned *)
Section returned.
Context {E : Type → Type}.
Lemma returns_bind {A R} (t : itree E A) (k : A → itree E R) l r : returns (ITree.bind t k) l r →
  ∃ l1 l2 x, returns t l1 x ∧ returns (k x) l2 r ∧ l = l1 ++ l2.
Proof.
  intros (v & Hp & Hr). apply plays_bind_inv in Hp as [(t' & Hp & ->)|(l1 & l2 & x & Ht & Hk & ->)].
  - rewrite observe_bind in Hr. destruct (observe t') as [a| |] eqn:Ea; [|done..].
    exists l, [], a. split; [by exists t'|]. split; [|by rewrite app_nil_r]. exists (k a). by split; [constructor|].
  - exists l1, l2, x. split; [done|]. split; [by exists v|done].
Qed.
Lemma returns_ret {R} (a : R) l r : returns (E:=E) (Ret a) l r → l = [] ∧ r = a.
Proof.
  intros (v & Hp & Hr). inversion Hp as [|? ? ? ? Ho|? ? ? ? ? ? ? Ho]; subst; [|done..].
  cbn in Hr. by injection Hr as <-.
Qed.
Lemma returns_pure {A} (r : result Failure A) l o : returns (E:=E) (pure r) l o → l = [] ∧ o = Some r.
Proof. apply returns_ret. Qed.
Lemma returns_ask {X} (q : E X) l o : returns (ask q) l o → ∃ x, l = [Ev q x] ∧ o = Some (Ok x).
Proof.
  intros (l1 & l2 & x & (v & Hp & Hx) & [-> ->]%returns_ret & ->)%returns_bind. exists x. split; [|done].
  rewrite app_nil_r. inversion Hp as [|? ? ? ? Ho|? Y e k y l' ? Ho Hp']; subst; [done..|].
  assert (∀ o : itree' E X, o = VisF q (λ x, Ret x) →
    match o with @VisF _ _ _ Z g c => ∀ z : Z, ∃ w, Ev g z = Ev q w ∧ c z = Ret w | _ => True end) as HG.
  { intros o ->. intros z. by exists z. }
  specialize (HG _ (eq_sym Ho) y) as (w & -> & Hw). rewrite Hw in Hp'.
  destruct (returns_ret w l' x) as [-> ->]; [by exists v|done].
Qed.
Lemma returns_either {A B} (m : flow E A) (k : result Failure A → flow E B) l r : returns (either m k) l (Some r) →
  ∃ l1 l2 x, returns m l1 (Some x) ∧ returns (k x) l2 (Some r) ∧ l = l1 ++ l2.
Proof.
  intros (l1 & l2 & [x|] & Hm & Hk & ->)%returns_bind; [by exists l1, l2, x|by apply returns_ret in Hk as [_ ?]].
Qed.
Lemma returns_and_then {A B} (m : flow E A) (k : A → flow E B) l b : returns (and_then m k) l (Some (Ok b)) →
  ∃ l1 l2 a, returns m l1 (Some (Ok a)) ∧ returns (k a) l2 (Some (Ok b)) ∧ l = l1 ++ l2.
Proof.
  intros (l1 & l2 & [[a|e]|] & Hm & Hk & ->)%returns_bind; [by exists l1, l2, a|by apply returns_ret in Hk as [_ ?]..].
Qed.
Lemma returns_let_pure {A B} (r : result Failure A) (k : A → flow E B) l b : returns (and_then (pure r) k) l (Some (Ok b)) →
  ∃ a, r = Ok a ∧ returns (k a) l (Some (Ok b)).
Proof. intros (l1 & l2 & a & [-> [= <-]]%returns_pure & Hk & ->)%returns_and_then. by exists a. Qed.
Lemma returns_let_ask {X B} (q : E X) (k : X → flow E B) l b : returns (and_then (ask q) k) l (Some (Ok b)) →
  ∃ x l', l = Ev q x :: l' ∧ returns (k x) l' (Some (Ok b)).
Proof. intros (l1 & l2 & a & (x & -> & [= ->])%returns_ask & Hk & ->)%returns_and_then. by exists x, l2. Qed.
End returned.
