(* ===== verification/FileStore.v ===== *)
(** The operations on files of a privileged program, and what they leave on disk.

    A program asks [FileE]; the state [Fs] is the files it works on, which nobody else
    changes meanwhile. Every operation may fail, a write or a removal in part. An answer
    the files do not allow ends a run ([None]): [fspec] is the logic of the runs whose
    answers are those of the files, with an invariant that holds after every operation,
    so also when the program is killed there. *)
From ITree Require Import ITree.
From S2P Require Import Prelude Utf8 Text GpHttp Interaction.
From Stdlib Require Import Strings.Ascii.

#[local] Open Scope N_scope.

(** An absolute path: its components. *)
Definition Path : Type := list string.
Definition display (p : Path) : string := "/" +:+ String.concat "/" p.
Inductive FileKind := Regular (bytes : string) | Directory | Symlink | Special.
#[export] Instance FileKind_eq_dec : EqDecision FileKind.
Proof. solve_decision. Defined.
Record Inode := { inode_kind : FileKind; inode_uid : N; inode_mode : N; inode_links : N }.
Definition Fs : Type := Path → option Inode.
Inductive FileType := IsFile | IsDir | IsSymlink | IsOther.
#[export] Instance FileType_eq_dec : EqDecision FileType.
Proof. solve_decision. Defined.
(** [fs::symlink_metadata]; the mode is that of the permissions. *)
Record Metadata := { m_type : FileType; m_uid : N; m_mode : N; m_len : N; m_nlink : N }.
#[export] Instance Metadata_eq_dec : EqDecision Metadata.
Proof. solve_decision. Defined.
Definition is_dir (m : Metadata) : bool := bool_decide (m_type m = IsDir).
Definition is_file (m : Metadata) : bool := bool_decide (m_type m = IsFile).
Definition is_symlink (m : Metadata) : bool := bool_decide (m_type m = IsSymlink).
Definition metadata_of (i : Inode) : Metadata := {|
  m_type := match inode_kind i with
            | Regular _ => IsFile | Directory => IsDir | Symlink => IsSymlink | Special => IsOther end;
  m_uid := inode_uid i; m_mode := inode_mode i;
  m_len := match inode_kind i with Regular b => slen b | _ => 0 end; m_nlink := inode_links i |}.
Inductive ErrorKind := NotFound | AlreadyExists | PermissionDenied | OtherKind.
#[export] Instance ErrorKind_eq_dec : EqDecision ErrorKind.
Proof. solve_decision. Defined.
Record FileError := { error_kind : ErrorKind; file_error : string }.
Definition not_found (e : FileError) : bool := bool_decide (error_kind e = NotFound).
Definition already_exists (e : FileError) : bool := bool_decide (error_kind e = AlreadyExists).
Definition failure_of (e : FileError) : Failure := Message (file_error e).

Inductive FileE : Type → Type :=
  (** [control.check()], and [Uuid::new_v4] as text. *)
  | CheckE : FileE (result Failure ())
  | NewIdE : FileE string
  (** The hardware address of a network interface, and 32 random bytes. *)
  | MacAddressE : FileE (result FileError (option string))
  | RandomE : FileE (result FileError string)
  | MetadataE (p : Path) : FileE (result FileError Metadata)
  (** A read of at most [most] bytes at [offset]; nothing at the end. *)
  | ReadE (p : Path) (offset most : N) : FileE (result FileError string)
  (** A read of the whole file. *)
  | ReadAllE (p : Path) : FileE (result FileError string)
  | CreateDirE (p : Path) (mode : N) : FileE (result FileError ())
  (** [create_dir_all]; a failure tells how many directories of the path there are. *)
  | CreateDirAllE (p : Path) : FileE (result (FileError * nat) ())
  | SetModeE (p : Path) (mode : N) : FileE (result FileError ())
  (** A new temporary directory or file; the answer is its name. *)
  | TempDirE (dir : Path) (prefix : string) : FileE (result FileError string)
  | TempFileE (dir : Path) : FileE (result FileError string)
  | CreateNewE (p : Path) (mode : N) : FileE (result FileError ())
  (** An open that follows no symbolic link; with a mode it creates a missing file. *)
  | OpenE (p : Path) (create : option N) : FileE (result FileError ())
  | LockE (p : Path) : FileE (result FileError ())
  (** A write that fails tells what it wrote. *)
  | WriteE (p : Path) (bytes : string) : FileE (result (FileError * string) ())
  | SyncE (p : Path) : FileE (result FileError ())
  | ExistsE (p : Path) : FileE bool
  | RenameE (from to : Path) : FileE (result FileError ())
  (** A rename that replaces nothing. *)
  | RenameNewE (from to : Path) : FileE (result FileError ())
  | RemoveFileE (p : Path) : FileE (result FileError ())
  (** A removal that fails tells what it removed. *)
  | RemoveAllE (p : Path) : FileE (result (FileError * list Path) ()).

(** ** Asking *)
Definition answered {A} (r : result FileError A) : result Failure A := map_err failure_of r.
(** [op?] and [op.context(m)?]. *)
Definition try {A} (q : FileE (result FileError A)) : flow FileE A := (let* r := ask q in pure (answered r))%flow.
Definition try_context {A} (m : string) (q : FileE (result FileError A)) : flow FileE A :=
  (let* r := ask q in pure (context m (answered r)))%flow.
Definition check : flow FileE () := (let* r := ask CheckE in pure r)%flow.
Definition write_all (p : Path) (bytes : string) : flow FileE () :=
  (let* r := ask (WriteE p bytes) in pure (map_err (failure_of ∘ fst) r))%flow.
Fixpoint for_each {A} (l : list A) (f : A → flow FileE ()) : flow FileE () :=
  match l with [] => ok () | x :: l => (let* _ := f x in for_each l f)%flow end.
(** A temporary file is removed when the scope ends early. *)
Definition with_temp_file {A} (p : Path) (m : flow FileE A) : flow FileE A :=
  either m (λ r, match r with Ok a => ok a | Err e => (let* _ := ask (RemoveFileE p) in throw e)%flow end).
(** A write with the errors of [write]. *)
Definition write_context (m : string) (p : Path) (bytes : string) : flow FileE () :=
  (let* r := ask (WriteE p bytes) in pure (context m (map_err (failure_of ∘ fst) r)))%flow.
(** [path.ancestors()] below the root. *)
Fixpoint prefixes_of (reversed : list string) : list Path :=
  match reversed with [] => [] | _ :: r => rev reversed :: prefixes_of r end.
Definition ancestors (p : Path) : list Path := prefixes_of (rev p).
Definition parent (p : Path) : option Path := match p with [] => None | _ => Some (removelast p) end.

(** ** What the files hold *)
Fixpoint below (dir p : Path) : option Path :=
  match dir, p with
  | [], _ => Some p
  | d :: dir, c :: p => if String.eqb d c then below dir p else None
  | _ :: _, [] => None
  end.
Definition put (p : Path) (i : option Inode) (s : Fs) : Fs := λ q, if decide (q = p) then i else s q.
Definition on_inode (p : Path) (f : Inode → Inode) (s : Fs) : Fs := λ q, if decide (q = p) then f <$> s p else s q.
Definition with_mode (m : N) (i : Inode) : Inode :=
  {| inode_kind := inode_kind i; inode_uid := inode_uid i; inode_mode := m; inode_links := inode_links i |}.
Definition with_bytes (b : string) (i : Inode) : Inode :=
  {| inode_kind := Regular b; inode_uid := inode_uid i; inode_mode := inode_mode i; inode_links := inode_links i |}.
Definition renamed (from to : Path) (s : Fs) : Fs := λ q,
  match below to q with
  | Some r => s (from ++ r)
  | None => if decide (is_Some (below from q)) then None else s q
  end.
(** A rename takes the files below a directory along. *)
Definition moved (from to : Path) (s : Fs) : Fs :=
  match s from with
  | Some {| inode_kind := Directory |} => renamed from to s
  | i => put to i (put from None s)
  end.
Definition removed_all (p : Path) (s : Fs) : Fs := λ q, if decide (is_Some (below p q)) then None else s q.
Definition removed (gone : list Path) (s : Fs) : Fs := λ q, if decide (q ∈ gone) then None else s q.
(** The form of [Uuid::to_string]. *)
Definition uuid_text (id : string) : bool := negb (is_empty id) && all_bytes (λ b, is_ascii_hexdigit b || (b =? 45)) id.
Definition prefixed (prefix s : string) : bool := String.prefix prefix s.

Section files.
(** The user of the program and its umask. *)
Variables (user umask : N).
Definition new_inode (k : FileKind) (mode : N) : Inode :=
  {| inode_kind := k; inode_uid := user; inode_mode := N.ldiff mode umask; inode_links := 1 |}.
(** The directories on the way to a path, the path last. *)
Fixpoint create_all (done rest : Path) (s : Fs) : Fs :=
  match rest with
  | [] => s
  | c :: rest =>
      let p := done ++ [c] in
      create_all p rest (match s p with Some _ => s | None => put p (Some (new_inode Directory 511)) s end)
  end.
(** A part of the file, or nothing at its end. *)
Definition part_of (bytes chunk : string) (offset most : N) : bool :=
  String.eqb chunk (String.substring (N.to_nat offset) (String.length chunk) bytes) && (slen chunk <=? most) &&
  (negb (is_empty chunk) || (slen bytes <=? offset) || (most =? 0)).
Definition applied (s : Fs) (e : event FileE) : option Fs :=
  match e with
  | @Ev _ X q x =>
      match q in FileE Y return Y → option Fs with
      | CheckE => λ _, Some s
      | NewIdE => λ id, if uuid_text id then Some s else None
      | MacAddressE => λ r, match r with Ok (Some mac) => guard (slen mac = 6);; Some s | _ => Some s end
      | RandomE => λ r, match r with Ok bytes => guard (slen bytes = 32);; Some s | _ => Some s end
      | MetadataE p => λ r,
          match r with
          | Ok m => guard (metadata_of <$> s p = Some m);; Some s
          | Err e => if not_found e then guard (s p = None);; Some s else Some s
          end
      | ReadE p offset most => λ r,
          match r, s p with
          | Err _, _ => Some s
          | Ok chunk, Some {| inode_kind := Regular b |} => if part_of b chunk offset most then Some s else None
          | Ok _, _ => None
          end
      | ReadAllE p => λ r,
          match r with
          | Ok bytes => guard (inode_kind <$> s p = Some (Regular bytes));; Some s
          | Err _ => Some s
          end
      | CreateDirE p mode => λ r,
          match r with
          | Ok _ => guard (s p = None);; Some (put p (Some (new_inode Directory mode)) s)
          | Err e => if already_exists e then guard (is_Some (s p));; Some s else Some s
          end
      | CreateDirAllE p => λ r,
          Some (create_all [] match r with Ok _ => p | Err (_, n) => take n p end s)
      | SetModeE p m => λ r, Some match r with Ok _ => on_inode p (with_mode m) s | Err _ => s end
      | TempDirE dir prefix => λ r,
          match r with
          | Ok name => if prefixed prefix name then
              guard (s (dir ++ [name]) = None);; Some (put (dir ++ [name]) (Some (new_inode Directory 511)) s)
              else None
          | Err _ => Some s
          end
      | TempFileE dir => λ r,
          match r with
          | Ok name => if prefixed ".tmp" name then
              guard (s (dir ++ [name]) = None);; Some (put (dir ++ [name]) (Some (new_inode (Regular "") 384)) s)
              else None
          | Err _ => Some s
          end
      | CreateNewE p m => λ r,
          match r with
          | Ok _ => guard (s p = None);; Some (put p (Some (new_inode (Regular "") m)) s)
          | Err _ => Some s
          end
      | OpenE p create => λ r,
          match r with
          | Ok _ =>
              match s p, create with
              | Some i, _ => guard (inode_kind i ≠ Symlink);; Some s
              | None, Some m => Some (put p (Some (new_inode (Regular "") m)) s)
              | None, None => None
              end
          | Err e => if not_found e then guard (s p = None);; Some s else Some s
          end
      | LockE _ => λ _, Some s
      | WriteE p bytes => λ r,
          Some (on_inode p (with_bytes match r with Ok _ => bytes | Err (_, b) => b end) s)
      | SyncE _ => λ _, Some s
      | ExistsE p => λ b, if b then guard (is_Some (s p));; Some s else Some s
      | RenameE a b => λ r,
          match r with
          | Ok _ => guard (is_Some (s a));; Some (moved a b s)
          | Err _ => Some s
          end
      | RenameNewE a b => λ r,
          match r with
          | Ok _ => guard (is_Some (s a));; guard (s b = None);; Some (moved a b s)
          | Err _ => Some s
          end
      | RemoveFileE p => λ r, Some match r with Ok _ => put p None s | Err _ => s end
      | RemoveAllE p => λ r, Some match r with
          | Ok _ => removed_all p s
          | Err (_, gone) => removed (List.filter (λ q, bool_decide (is_Some (below p q))) gone) s
          end
      end x
  end.
End files.

(** Reading on: what was read is a beginning of the file, and all of it at the end. *)
Definition beginning (read bytes : string) : Prop := read = String.substring 0 (String.length read) bytes.
Lemma read_on read bytes chunk most : beginning read bytes →
  part_of bytes chunk (slen read) most = true → beginning (read +:+ chunk) bytes.
Proof.
  intros Hr Hp. unfold part_of in Hp. apply andb_prop in Hp as [Hp _]. apply andb_prop in Hp as [Hp _].
  apply String.eqb_eq in Hp. unfold slen in Hp. rewrite Nat2N.id in Hp. unfold beginning.
  assert (String.length (read +:+ chunk) = (String.length read + String.length chunk)%nat) as ->.
  { pose proof (slen_app read chunk) as El. unfold slen in El. lia. }
  rewrite <- substring_app_split. by rewrite <- Hr, Nat.add_0_l, <- Hp.
Qed.
Lemma read_all read bytes most : beginning read bytes → 0 < most →
  part_of bytes "" (slen read) most = true → read = bytes.
Proof.
  intros Hr Hm Hp. unfold part_of in Hp. apply andb_prop in Hp as [_ Hp]. cbn [is_empty negb orb] in Hp.
  assert (slen bytes ≤ slen read) as Hl.
  { destruct (N.leb_spec (slen bytes) (slen read)); [done|]. destruct (N.eqb_spec most 0); [lia|done]. }
  rewrite Hr. apply substring_all. unfold slen in Hl. lia.
Qed.

(** * The logic of runs on these files *)
Section logic.
Variables (user umask : N) (Inv : Fs → Prop) (s0 : Fs).
Definition fstep (a : option Fs) (e : event FileE) (a' : option Fs) : Prop :=
  a' = (s ← a; applied user umask s e) ∧ match a' with Some s => Inv s | None => True end.
Notation fruns := (spec fstep (Some s0)).
(** In every run on the files [s] the invariant holds after every operation, and when the
    program returns [Φ] holds of the files and the result. *)
Definition fspec {A} (s : Fs) (m : flow FileE A) (Φ : Fs → result Failure A → Prop) : Prop :=
  ∀ h, tracks fstep (Some s0) h (Some s) →
    wp (accepted fstep (Some s0)) m (λ l o, ∃ a, tracks fstep (Some s0) l a ∧
      match a, o with Some s', Some r => Φ s' r | None, _ => True | _, None => False end) h.

(** After an impossible answer everything is accepted. *)
Lemma tracks_none (h l : trace FileE) : tracks fstep (Some s0) h None → tracks fstep (Some s0) (h ++ l) None.
Proof.
  intros Hh. induction l as [|e l IH] using rev_ind; [by rewrite app_nil_r|].
  rewrite app_assoc. by eapply tracks_snoc.
Qed.
Lemma wp_none {R} (t : itree FileE R) Φ h : tracks fstep (Some s0) h None →
  (∀ l r, tracks fstep (Some s0) l None → Φ l r) → wp (accepted fstep (Some s0)) t Φ h.
Proof.
  intros Hh Hd l t' _. pose proof (tracks_none h l Hh) as Hl. split; [by exists None|]. intros r _. by apply Hd.
Qed.
Lemma fspec_pure {A} s (r : result Failure A) Φ : Φ s r → fspec s (pure r) Φ.
Proof. intros Hr h Hh. apply wp_ret; [by exists (Some s)|]. by exists (Some s). Qed.
Lemma fspec_ok {A} s (a : A) Φ : Φ s (Ok a) → fspec s (ok a) Φ.
Proof. apply (fspec_pure s (Ok a)). Qed.
Lemma fspec_throw {A} s e (Φ : Fs → result Failure A → Prop) : Φ s (Err e) → fspec s (throw e) Φ.
Proof. apply (fspec_pure s (Err e)). Qed.
Lemma fspec_mono {A} s (m : flow FileE A) (Φ Ψ : Fs → result Failure A → Prop) :
  (∀ s r, Φ s r → Ψ s r) → fspec s m Φ → fspec s m Ψ.
Proof.
  intros Hm Hs h Hh. eapply wp_mono, Hs, Hh. intros l o ([s'|] & Hl & Hr); [exists (Some s')|by exists None].
  split; [done|]. destruct o; [by apply Hm|done].
Qed.
Lemma fspec_either {A B} s (m : flow FileE A) (k : result Failure A → flow FileE B) Φ Ψ :
  fspec s m Φ → (∀ s r, Φ s r → fspec s (k r) Ψ) → fspec s (either m k) Ψ.
Proof.
  intros Hm Hk h Hh. apply wp_bind. eapply wp_mono, Hm, Hh. intros l o ([s'|] & Hl & Hr).
  - destruct o as [r|]; [|done]. exact (Hk s' r Hr l Hl).
  - apply wp_none; [done|]. intros l' r Hl'. by exists None.
Qed.
Lemma fspec_bind {A B} s (m : flow FileE A) (k : A → flow FileE B) Φ Ψ :
  fspec s m Φ → (∀ s x, Φ s (Ok x) → fspec s (k x) Ψ) → (∀ s e, Φ s (Err e) → Ψ s (Err e)) →
  fspec s (and_then m k) Ψ.
Proof.
  intros Hm Hk He h Hh. apply wp_bind. eapply wp_mono, Hm, Hh. intros l o ([s'|] & Hl & Hr).
  - destruct o as [[x|e]|]; [exact (Hk s' x Hr l Hl)| |done]. apply wp_ret; [by exists (Some s')|].
    exists (Some s'). split; [done|]. by apply He.
  - apply wp_none; [done|]. intros l' r Hl'. by exists None.
Qed.
Lemma fspec_ask {X B} s (q : FileE X) (k : X → flow FileE B) Φ :
  (∀ x s', applied user umask s (Ev q x) = Some s' → Inv s' ∧ fspec s' (k x) Φ) →
  fspec s (and_then (ask q) k) Φ.
Proof.
  intros Hk h Hh. apply wp_bind, wp_bind, wp_trigger; [by exists (Some s)|]. intros x.
  destruct (applied user umask s (Ev q x)) as [s'|] eqn:Ea.
  - destruct (Hk x s' Ea) as [Hi Hw].
    assert (tracks fstep (Some s0) (h ++ [Ev q x]) (Some s')) as Hh' by (eapply tracks_snoc; [done|by split; [rewrite <- Ea|]]).
    split; [by exists (Some s')|]. apply wp_ret; [by exists (Some s')|]. by apply Hw.
  - assert (tracks fstep (Some s0) (h ++ [Ev q x]) None) as Hh' by (eapply tracks_snoc; [done|by split; [rewrite <- Ea|]]).
    split; [by exists None|]. apply wp_ret; [by exists None|]. apply wp_none; [done|].
    intros l' r Hl'. by exists None.
Qed.
Lemma fspec_let_pure {A B} s (r : result Failure A) (k : A → flow FileE B) Φ :
  match r with Ok x => fspec s (k x) Φ | Err e => Φ s (Err e) end → fspec s (and_then (pure r) k) Φ.
Proof.
  intros Hr. apply (fspec_bind _ _ _ (λ s' r', s' = s ∧ r' = r)); [by apply fspec_pure|..].
  - by intros ? x [-> <-].
  - by intros ? e [-> <-].
Qed.
Lemma fspec_repeating {A I} s (turn : I → flow FileE (I + A)) (J : Fs → I → Prop) Φ i :
  (∀ s i, J s i → fspec s (turn i) (λ s' r, match r with
     | Ok (inl j) => J s' j | Ok (inr x) => Φ s' (Ok x) | Err e => Φ s' (Err e) end)) →
  J s i → fspec s (repeating turn i) Φ.
Proof.
  intros Hturn Hj h Hh.
  eapply (wp_iter _ _ (λ l i, ∃ a, tracks fstep (Some s0) l a ∧ match a with Some s => J s i | None => True end)).
  - intros g j ([s1|] & Hg & Hj1); apply wp_bind.
    + eapply wp_mono, wp_and_inv, (Hturn s1 j Hj1), Hg.
      intros l o [Hi (a2 & Hl & Hr)]. apply wp_ret; [done|].
      destruct a2 as [s2|], o as [[[j'|x]|e]|]; try done; try (by exists (Some s2)); try (by exists None).
    + apply wp_none; [done|]. intros l r Hl. apply wp_ret; [by exists None|].
      destruct r as [[[j'|x]|e]|]; by exists None.
  - by exists (Some s).
Qed.

(** ** Asking *)
Lemma fspec_asked {X A B} s (q : FileE X) (f : X → result Failure A) (k : A → flow FileE B) Φ :
  (∀ x s', applied user umask s (Ev q x) = Some s' → Inv s' ∧
    match f x with Ok a => fspec s' (k a) Φ | Err e => Φ s' (Err e) end) →
  fspec s (and_then (and_then (ask q) (λ x, pure (f x))) k) Φ.
Proof.
  intros Hk.
  apply (fspec_bind _ _ _ (λ s' r, match r with Ok a => fspec s' (k a) Φ | Err e => Φ s' (Err e) end)).
  - apply fspec_ask. intros x s' Ha. destruct (Hk x s' Ha) as [? Hf]. split; [done|].
    apply fspec_pure. by destruct (f x).
  - done.
  - done.
Qed.
Lemma fspec_try {A B} s (q : FileE (result FileError A)) (k : A → flow FileE B) Φ :
  (∀ r s', applied user umask s (Ev q r) = Some s' → Inv s' ∧
    match r with Ok a => fspec s' (k a) Φ | Err e => Φ s' (Err (failure_of e)) end) →
  fspec s (and_then (try q) k) Φ.
Proof. intros Hk. apply fspec_asked. intros [a|e] s' Ha; exact (Hk _ _ Ha). Qed.
Lemma fspec_try_context {A B} m s (q : FileE (result FileError A)) (k : A → flow FileE B) Φ :
  (∀ r s', applied user umask s (Ev q r) = Some s' → Inv s' ∧
    match r with Ok a => fspec s' (k a) Φ | Err e => Φ s' (Err (Context m (failure_of e))) end) →
  fspec s (and_then (try_context m q) k) Φ.
Proof. intros Hk. apply fspec_asked. intros [a|e] s' Ha; exact (Hk _ _ Ha). Qed.
Lemma fspec_last {X A} s (q : FileE X) (f : X → result Failure A) Φ :
  (∀ x s', applied user umask s (Ev q x) = Some s' → Inv s' ∧ Φ s' (f x)) →
  fspec s (and_then (ask q) (λ x, pure (f x))) Φ.
Proof. intros Hk. apply fspec_ask. intros x s' Ha. destruct (Hk x s' Ha). split; [done|]. by apply fspec_pure. Qed.

(** ** What leaves the files alone *)
Definition reads {A} (s : Fs) (m : flow FileE A) (P : A → Prop) : Prop :=
  fspec s m (λ s' r, s' = s ∧ match r with Ok x => P x | Err _ => True end).
Lemma fspec_reads {A B} s (m : flow FileE A) P (k : A → flow FileE B) Φ :
  reads s m P → (∀ x, P x → fspec s (k x) Φ) → (∀ e, Φ s (Err e)) → fspec s (and_then m k) Φ.
Proof.
  intros Hm Hk He. eapply fspec_bind; [exact Hm|..].
  - intros s' x [-> Hx]. by apply Hk.
  - by intros s' e [-> _].
Qed.
Lemma reads_bind {A B} s (m : flow FileE A) P (k : A → flow FileE B) Q :
  reads s m P → (∀ x, P x → reads s (k x) Q) → reads s (and_then m k) Q.
Proof. intros Hm Hk. by eapply fspec_reads. Qed.
Lemma reads_either {A B} s (m : flow FileE A) P (k : result Failure A → flow FileE B) Q :
  reads s m P → (∀ x, P x → reads s (k (Ok x)) Q) → (∀ e, reads s (k (Err e)) Q) → reads s (either m k) Q.
Proof. intros Hm Hk He. eapply fspec_either; [exact Hm|]. intros s' [x|e] [-> Hx]; [by apply Hk|apply He]. Qed.
Lemma reads_mono {A} s (m : flow FileE A) (P Q : A → Prop) : (∀ x, P x → Q x) → reads s m P → reads s m Q.
Proof. intros HPQ. apply fspec_mono. intros s' [x|e] [-> ?]; auto. Qed.
Lemma reads_pure {A} s (r : result Failure A) (P : A → Prop) : (∀ x, r = Ok x → P x) → reads s (pure r) P.
Proof. intros Hr. apply fspec_pure. split; [done|]. destruct r; auto. Qed.
Lemma reads_ok {A} s (x : A) (P : A → Prop) : P x → reads s (ok x) P.
Proof. intros Hx. by apply fspec_ok. Qed.
Lemma reads_ensure s b e (P : () → Prop) : (b = true → P ()) → reads s (pure (ensure b e)) P.
Proof. intros Hb. apply reads_pure. intros []. destruct b; [auto|done]. Qed.
Lemma reads_let_pure {A B} s (r : result Failure A) (k : A → flow FileE B) Q :
  (∀ x, r = Ok x → reads s (k x) Q) → reads s (and_then (pure r) k) Q.
Proof. intros Hk. apply fspec_let_pure. destruct r; [by apply Hk|done]. Qed.
Lemma reads_let_ensure {B} s b e (k : () → flow FileE B) Q :
  (b = true → reads s (k ()) Q) → reads s (and_then (pure (ensure b e)) k) Q.
Proof. intros Hk. apply reads_let_pure. intros []. destruct b; [auto|done]. Qed.
Lemma reads_asked {X A} s (q : FileE X) (f : X → result Failure A) (P : A → Prop) : Inv s →
  (∀ x s', applied user umask s (Ev q x) = Some s' → s' = s ∧ ∀ a, f x = Ok a → P a) →
  reads s (and_then (ask q) (λ x, pure (f x))) P.
Proof.
  intros Hs Hq. apply fspec_ask. intros x s' Ha. destruct (Hq x s' Ha) as [-> Hp]. split; [done|].
  by apply reads_pure.
Qed.
Lemma reads_check s : Inv s → reads s check (λ _, True).
Proof. intros Hs. apply reads_asked; [done|]. intros x s' [= <-]. auto. Qed.
Lemma reads_metadata_asked (f : result FileError Metadata → result Failure Metadata) s p : Inv s →
  (∀ r d, f r = Ok d → r = Ok d) →
  reads s (and_then (ask (MetadataE p)) (λ r, pure (f r))) (λ d, ∃ i, s p = Some i ∧ d = metadata_of i).
Proof.
  intros Hs Hf. apply reads_asked; [done|]. intros [d|e] s'; cbn.
  - case_guard as Hd; [|done]. intros [= <-]. split; [done|]. intros a [= ->]%Hf.
    destruct (s p) as [i|]; [|done]. injection Hd as <-. by exists i.
  - destruct (not_found e); [case_guard|]; try done; intros [= <-]; (split; [done|]); by intros a ?%Hf.
Qed.
Lemma reads_metadata m s p : Inv s →
  reads s (try_context m (MetadataE p)) (λ d, ∃ i, s p = Some i ∧ d = metadata_of i).
Proof. intros Hs. apply (reads_metadata_asked (λ r, context m (answered r))); [done|]. by intros [] ? [= <-]. Qed.
Lemma reads_metadata_try s p : Inv s →
  reads s (try (MetadataE p)) (λ d, ∃ i, s p = Some i ∧ d = metadata_of i).
Proof. intros Hs. apply (reads_metadata_asked answered); [done|]. by intros [] ? [= <-]. Qed.
Lemma reads_all s p : Inv s →
  reads s (try (ReadAllE p)) (λ bytes, inode_kind <$> s p = Some (Regular bytes)).
Proof.
  intros Hs. apply reads_asked; [done|]. intros [d|e] s'; cbn; [|by intros [= <-]].
  case_guard as Hd; [|done]. intros [= <-]. split; [done|]. by intros a [= <-].
Qed.
(** A file that is there is opened and nothing else. *)
Lemma reads_open_asked (f : result FileError () → result Failure ()) s p i : Inv s → s p = Some i →
  reads s (and_then (ask (OpenE p None)) (λ r, pure (f r))) (λ _, True).
Proof.
  intros Hs Hi. apply reads_asked; [done|].
  intros [[]|e] s'; cbn [applied]; rewrite Hi; [case_guard; [|done]|destruct (not_found e); [case_guard|]]; by intros [= <-].
Qed.
Lemma reads_part s p offset most : Inv s →
  reads s (try (ReadE p offset most)) (λ chunk, ∃ bytes, inode_kind <$> s p = Some (Regular bytes) ∧
    part_of bytes chunk offset most = true).
Proof.
  intros Hs. apply reads_asked; [done|]. intros [d|e] s'; cbn; [|by intros [= <-]].
  destruct (s p) as [[[bytes| | |] ? ? ?]|]; [|done..]. destruct (part_of _ _ _ _) eqn:Ep; [|done].
  intros [= <-]. split; [done|]. intros a [= <-]. by exists bytes.
Qed.
Lemma reads_for_each {A} s (l : list A) f (P : A → Prop) :
  (∀ x, x ∈ l → reads s (f x) (λ _, P x)) → reads s (for_each l f) (λ _, Forall P l).
Proof.
  induction l as [|x l IH]; intros Hf; cbn; [by apply reads_ok|].
  eapply reads_bind; [apply Hf; by left|]. intros ? Hx.
  apply (reads_mono _ _ (λ _, Forall P l)); [intros _ Hl; by constructor|].
  apply IH. intros y Hy. apply Hf. by right.
Qed.
End logic.

(** * Runs on given files *)
Section runs.
Variables (user umask : N).
(** What a run leaves of the files it started with: nothing when an answer is not theirs. *)
Definition files_after (s : Fs) (l : trace FileE) : option Fs :=
  foldl (λ a e, s ← a; applied user umask s e) (Some s) l.
Lemma tracks_files_after Inv s l a : tracks (fstep user umask Inv) (Some s) l a → a = files_after s l.
Proof.
  induction 1 as [|h e a a' _ -> [-> _]]; [done|]. unfold files_after. by rewrite foldl_app.
Qed.
(** The invariant holds whenever the program is stopped. *)
Lemma fspec_holds {A} Inv s s' (m : flow FileE A) Φ l t : Inv s → fspec user umask Inv s s m Φ → plays m l t →
  files_after s l = Some s' → Inv s'.
Proof.
  intros Hs Hm Hp Ha. destruct (Hm [] (tracks_nil _ _) l t Hp) as [[a Ht] _].
  pose proof (tracks_files_after _ _ _ _ Ht) as Hf. change ([] ++ l) with l in Hf. rewrite Ha in Hf. subst a.
  remember (Some s') as a eqn:Ea. destruct Ht as [|h e b a _ [_ Hi]].
  - by injection Ea as ->.
  - by subst a.
Qed.
Lemma fspec_ends {A} Inv s s' (m : flow FileE A) Φ l o : fspec user umask Inv s s m Φ → returns m l o →
  files_after s l = Some s' → ∃ r, o = Some r ∧ Φ s' r.
Proof.
  intros Hm (t & Hp & Ho) Ha. destruct (Hm [] (tracks_nil _ _) l t Hp) as [_ Hr].
  specialize (Hr o Ho) as (a & Ht & Hr). pose proof (tracks_files_after _ _ _ _ Ht) as Hf. change ([] ++ l) with l in Hf.
  rewrite Ha in Hf. subst a. destruct o as [r|]; [|done]. by exists r.
Qed.
(** A program that only reads leaves the files as they were, whenever it stops. *)
Lemma reads_run {A} s s' (m : flow FileE A) P l o :
  reads user umask (eq s) s s m P → returns m l o → files_after s l = Some s' →
  s' = s ∧ ∃ r, o = Some r ∧ match r with Ok x => P x | Err _ => True end.
Proof.
  intros Hm Hr Hf. destruct (fspec_ends _ _ _ _ _ _ _ Hm Hr Hf) as (r & -> & -> & Hp). split; [done|]. by exists r.
Qed.
End runs.

(** ** Paths *)
Lemma uuid_text_plain id prefix : uuid_text id = true → prefixed ("." +:+ prefix) id = false.
Proof.
  destruct id as [|a id]; [done|]. unfold uuid_text, prefixed. intros Hu. apply andb_prop in Hu as [_ Hu].
  cbn [all_bytes] in Hu. apply andb_prop in Hu as [Hu _].
  change ("." +:+ prefix) with (String "." prefix). cbn [String.prefix].
  destruct (ascii_dec "." a) as [Ha|]; [|done]. rewrite <- Ha in Hu. by vm_compute in Hu.
Qed.
Lemma below_app dir r : below dir (dir ++ r) = Some r.
Proof. induction dir as [|d dir IH]; [done|]. cbn. by rewrite String.eqb_refl. Qed.
Lemma below_Some dir p r : below dir p = Some r → p = dir ++ r.
Proof.
  revert p. induction dir as [|d dir IH]; intros p; cbn; [by intros [= ->]|].
  destruct p as [|c p]; [done|]. destruct (String.eqb_spec d c) as [->|]; [|done].
  by intros ->%IH.
Qed.
Lemma below_sibling dir c d r : c ≠ d → below (dir ++ [c]) (dir ++ d :: r) = None.
Proof.
  intros Hc. induction dir as [|e dir IH]; cbn; [|by rewrite String.eqb_refl].
  by destruct (String.eqb_spec c d).
Qed.
Lemma put_same p i s : put p i s p = i.
Proof. unfold put. by rewrite decide_True. Qed.
Lemma put_other p i s q : q ≠ p → put p i s q = s q.
Proof. intros Hq. unfold put. by rewrite decide_False. Qed.
Lemma moved_directory a b s i : s a = Some i → inode_kind i = Directory → moved a b s = renamed a b s.
Proof. unfold moved. destruct i as [k u m l]. cbn. by intros -> ->. Qed.
Lemma moved_file a b s i : s a = Some i → inode_kind i ≠ Directory → moved a b s = put b (Some i) (put a None s).
Proof. unfold moved. destruct i as [k u m l]. cbn. intros -> Hk. by destruct k. Qed.
Lemma on_inode_same p f s : on_inode p f s p = f <$> s p.
Proof. unfold on_inode. by rewrite decide_True. Qed.
Lemma on_inode_other p f s q : q ≠ p → on_inode p f s q = s q.
Proof. intros Hq. unfold on_inode. by rewrite decide_False. Qed.

(** A change at one path only. *)
Definition except (p : Path) (s s' : Fs) : Prop := ∀ q, q ≠ p → s' q = s q.
(** A change below the directory only. *)
Definition only_below (dir : Path) (s s' : Fs) : Prop := ∀ q, below dir q = None → s' q = s q.
Lemma only_below_refl dir s : only_below dir s s.
Proof. by intros q _. Qed.
Lemma only_below_trans dir s1 s2 s3 : only_below dir s1 s2 → only_below dir s2 s3 → only_below dir s1 s3.
Proof. intros Ha Hb q Hq. by rewrite Hb, Ha. Qed.
Lemma only_below_at dir r s s' : (∀ q, q ≠ dir ++ r → s' q = s q) → only_below dir s s'.
Proof. intros Hs q Hq. apply Hs. intros ->. by rewrite below_app in Hq. Qed.
Lemma removed_all_below p s : only_below p s (removed_all p s).
Proof. intros q Hq. unfold removed_all. rewrite Hq. case_decide as Hd; [by destruct Hd|done]. Qed.
Lemma removed_below p gone s :
  only_below p s (removed (List.filter (λ q, bool_decide (is_Some (below p q))) gone) s).
Proof.
  intros q Hq. unfold removed. rewrite decide_False; [done|]. intros Hin%list_elem_of_In%filter_In.
  destruct Hin as [_ Hb]. rewrite Hq in Hb. by apply bool_decide_eq_true in Hb as [? ?].
Qed.

(** * Programs that keep what they find

    [ours] are the paths the program may replace, [Rest] what holds of them. *)
Section keeping.
Variables (user umask : N) (s0 : Fs) (ours : Path → Prop) (Rest : Fs → Prop).
Hypothesis Rest_ours : ∀ s s', (∀ p, ours p → s' p = s p) → Rest s → Rest s'.
Definition kept (s : Fs) : Prop := ∀ p, s0 p ≠ None → ¬ ours p → s p = s0 p.
Definition keeping (s : Fs) : Prop := kept s ∧ Rest s.
(** A path that nothing was at. *)
Definition fresh_path (p : Path) : Prop := s0 p = None ∧ ¬ ours p.
Notation fspec := (fspec user umask keeping s0).
Notation reads := (reads user umask keeping s0).
Lemma fresh_missing s p : kept s → ¬ ours p → s p = None → fresh_path p.
Proof. intros Hk Ho Hn. split; [|done]. destruct (s0 p) eqn:E; [|done]. rewrite Hk in Hn by (done || congruence). congruence. Qed.
Lemma kept_except p s s' : fresh_path p → except p s s' → kept s → kept s'.
Proof. intros [Hn _] He Hk q Hq Ho. rewrite He; [by apply Hk|]. by intros ->. Qed.
Lemma keeping_except p s s' : fresh_path p → except p s s' → keeping s → keeping s'.
Proof.
  intros Hf He [Hk Hr]. split; [by eapply kept_except|]. eapply Rest_ours; [|exact Hr]. intros q Hq. apply He.
  intros ->. by destruct Hf.
Qed.

(** Postconditions that keep the promise whatever fails. *)
Definition post {A} (P : Fs → A → Prop) (s : Fs) (r : result Failure A) : Prop :=
  keeping s ∧ match r with Ok a => P s a | Err _ => True end.
Lemma post_bind {A B} s (m : flow FileE A) P (k : A → flow FileE B) Q :
  fspec s m (post P) → (∀ s' a, keeping s' → P s' a → fspec s' (k a) (post Q)) → fspec s (and_then m k) (post Q).
Proof.
  intros Hm Hk. eapply fspec_bind; [exact Hm|..]; intros s' x [Hs Hp]; [by apply Hk|by split].
Qed.
Lemma post_reads {A B} s (m : flow FileE A) P (k : A → flow FileE B) Q : keeping s →
  reads s m P → (∀ a, P a → fspec s (k a) (post Q)) → fspec s (and_then m k) (post Q).
Proof. intros Hs Hm Hk. eapply fspec_reads; [exact Hm|done|]. by split. Qed.
Lemma post_asked {X A B} s (q : FileE X) (f : X → result Failure A) (k : A → flow FileE B) Q : keeping s →
  (∀ x e s', applied user umask s (Ev q x) = Some s' → f x = Err e → s' = s) →
  (∀ x a s', applied user umask s (Ev q x) = Some s' → f x = Ok a → keeping s' ∧ fspec s' (k a) (post Q)) →
  fspec s (and_then (and_then (ask q) (λ x, pure (f x))) k) (post Q).
Proof.
  intros Hs He Hk. apply fspec_asked. intros x s' Ha. destruct (f x) as [a|e] eqn:Ef; [by eapply Hk|].
  rewrite (He _ _ _ Ha Ef). by split; [|split].
Qed.
Lemma post_try_context {A B} m s (q : FileE (result FileError A)) (k : A → flow FileE B) Q : keeping s →
  (∀ e s', applied user umask s (Ev q (Err e)) = Some s' → s' = s) →
  (∀ a s', applied user umask s (Ev q (Ok a)) = Some s' → keeping s' ∧ fspec s' (k a) (post Q)) →
  fspec s (and_then (try_context m q) k) (post Q).
Proof.
  intros Hs He Hk. apply post_asked; [done|..]; intros [a|e] b s' Ha; cbn; try done; intros [= <-];
    [by apply He in Ha|by apply Hk].
Qed.
Lemma post_try {A B} s (q : FileE (result FileError A)) (k : A → flow FileE B) Q : keeping s →
  (∀ e s', applied user umask s (Ev q (Err e)) = Some s' → s' = s) →
  (∀ a s', applied user umask s (Ev q (Ok a)) = Some s' → keeping s' ∧ fspec s' (k a) (post Q)) →
  fspec s (and_then (try q) k) (post Q).
Proof.
  intros Hs He Hk. apply post_asked; [done|..]; intros [a|e] b s' Ha; cbn; try done; intros [= <-];
    [by apply He in Ha|by apply Hk].
Qed.
Lemma post_write_asked {B} (f : result (FileError * string) () → result Failure ()) s p b (k : () → flow FileE B) Q :
  (∀ r, f r = Ok () → r = Ok ()) → keeping s → fresh_path p →
  (∀ s', s' = on_inode p (with_bytes b) s → keeping s' → fspec s' (k ()) (post Q)) →
  fspec s (and_then (and_then (ask (WriteE p b)) (λ r, pure (f r))) k) (post Q).
Proof.
  intros Hf Hs Hp Hk. apply fspec_asked. intros r s' [= <-].
  assert (∀ b, keeping (on_inode p (with_bytes b) s)) as Hr.
  { intros b'. eapply keeping_except; [exact Hp| |exact Hs]. intros q Hq. by apply on_inode_other. }
  split; [destruct r as [|[??]]; apply Hr|]. destruct (f r) as [[]|e] eqn:Ef.
  - rewrite (Hf r Ef). by apply Hk.
  - split; [destruct r as [|[??]]; apply Hr|done].
Qed.
Lemma post_write_context {B} m s p b (k : () → flow FileE B) Q : keeping s → fresh_path p →
  (∀ s', s' = on_inode p (with_bytes b) s → keeping s' → fspec s' (k ()) (post Q)) →
  fspec s (and_then (write_context m p b) k) (post Q).
Proof. apply (post_write_asked (λ r, context m (map_err (failure_of ∘ fst) r))). by intros [[]|]. Qed.
Lemma post_write {B} s p b (k : () → flow FileE B) Q : keeping s → fresh_path p →
  (∀ s', s' = on_inode p (with_bytes b) s → keeping s' → fspec s' (k ()) (post Q)) →
  fspec s (and_then (write_all p b) k) (post Q).
Proof. apply (post_write_asked (map_err (failure_of ∘ fst))). by intros [[]|]. Qed.
Lemma post_temp_file {A} s p (m : flow FileE A) P : fresh_path p →
  fspec s m (post P) → fspec s (with_temp_file p m) (post P).
Proof.
  intros Hp Hm. eapply fspec_either; [exact Hm|]. intros s' [a|e] [Hs Ha]; [by apply fspec_ok|].
  apply fspec_ask. intros r s2 [= <-].
  assert (keeping match r with Ok _ => put p None s' | Err _ => s' end) as Hr.
  { destruct r; [|done]. eapply keeping_except; [exact Hp| |exact Hs]. intros q Hq. by apply put_other. }
  split; [done|]. apply fspec_throw. by split.
Qed.
(** A file of the program's user. *)
Definition own_file (bytes : string) (mode : N) : Inode :=
  {| inode_kind := Regular bytes; inode_uid := user; inode_mode := mode; inode_links := 1 |}.
(** A new temporary file that gets its mode and its content. *)
Lemma staged_file s dir name mode b : keeping s → ¬ ours (dir ++ [name]) → s (dir ++ [name]) = None →
  fresh_path (dir ++ [name]) ∧
  let created := put (dir ++ [name]) (Some (new_inode user umask (Regular "") 384)) s in
  let moded := on_inode (dir ++ [name]) (with_mode mode) created in
  let written := on_inode (dir ++ [name]) (with_bytes b) moded in
  keeping created ∧ keeping moded ∧ keeping written ∧
  except (dir ++ [name]) s written ∧ written (dir ++ [name]) = Some (own_file b mode).
Proof.
  intros Hs Ho Hn. assert (fresh_path (dir ++ [name])) as Hp by (eapply fresh_missing; [apply Hs|done..]).
  set (p := dir ++ [name]) in *. split; [done|]. cbn.
  assert (except p s (put p (Some (new_inode user umask (Regular "") 384)) s)) as E1 by (intros q Hq; by apply put_other).
  assert (∀ f s1, except p s s1 → except p s (on_inode p f s1)) as E2
    by (intros f s1 E q Hq; rewrite on_inode_other by done; by apply E).
  do 3 (split; [eapply keeping_except; [exact Hp| |exact Hs]; by repeat apply E2|]).
  split; [by repeat apply E2|]. rewrite !on_inode_same, put_same. done.
Qed.
(** A temporary file that replaces another. *)
Definition persisted (temp t : Path) (i : Inode) (s : Fs) : Fs := put t (Some i) (put temp None s).
Lemma persisted_kept temp t i s : fresh_path temp → ours t → kept s → kept (persisted temp t i s).
Proof.
  intros [Hn _] Ht Hk q Hq Ho. unfold persisted. rewrite put_other by (by intros ->).
  rewrite put_other by (by intros ->). by apply Hk.
Qed.
End keeping.

(** * Running a program on files

    The answers of a system where no operation fails and the clock stands still; new
    identifiers are always the same. *)
Definition missing : FileError := {| error_kind := NotFound; file_error := "No such file or directory" |}.
Definition read_at (s : Fs) (p : Path) : result FileError string :=
  match s p with Some {| inode_kind := Regular b |} => Ok b | _ => Err missing end.
Definition respond (s : Fs) (X : Type) (q : FileE X) : X :=
  match q in FileE Y return Y with
  | CheckE => Ok ()
  | NewIdE => "1f"
  | MacAddressE => Ok None
  | RandomE => Ok "0123456789abcdef0123456789abcdef"
  | MetadataE p => match s p with Some i => Ok (metadata_of i) | None => Err missing end
  | ReadE p offset most => b ← read_at s p; Ok (String.substring (N.to_nat offset) (N.to_nat most) b)
  | ReadAllE p => read_at s p
  | CreateDirE p _ =>
      match s p with Some _ => Err {| error_kind := AlreadyExists; file_error := "File exists" |} | None => Ok () end
  | CreateDirAllE _ => Ok ()
  | SetModeE _ _ => Ok ()
  | TempDirE _ prefix => Ok (prefix +:+ "t")
  | TempFileE dir => Ok match s (dir ++ [".tmpt"]) with None => ".tmpt" | Some _ => ".tmpu" end
  | CreateNewE p _ => Ok ()
  | OpenE p create => match s p, create with None, None => Err missing | _, _ => Ok () end
  | LockE _ => Ok ()
  | WriteE _ _ => Ok ()
  | SyncE _ => Ok ()
  | ExistsE p => bool_decide (is_Some (s p))
  | RenameE _ _ => Ok ()
  | RenameNewE _ _ => Ok ()
  | RemoveFileE _ => Ok ()
  | RemoveAllE _ => Ok ()
  end.
Section obey.
Variables (user umask : N).
Fixpoint obey {R} (fuel : nat) (s : Fs) (t : itree FileE R) : option (trace FileE * Fs * R) :=
  match fuel with
  | O => None
  | S fuel =>
      match observe t with
      | RetF r => Some ([], s, r)
      | TauF t => obey fuel s t
      | @VisF _ _ _ X q k =>
          let x := respond s X q in
          s ← applied user umask s (Ev q x);
          '(l, s, r) ← obey fuel s (k x); Some (Ev q x :: l, s, r)
      end
  end.
Lemma obey_returns {R} fuel s (t : itree FileE R) l s' r : obey fuel s t = Some (l, s', r) →
  returns t l r ∧ files_after user umask s l = Some s'.
Proof.
  revert s t l. induction fuel as [|fuel IH]; intros s t l; [done|]; cbn [obey].
  destruct (observe t) as [r'|u|X q k] eqn:Eo.
  - intros [= <- <- <-]. split; [|done]. exists t. by split; [constructor|].
  - intros Hx. destruct (IH _ _ _ Hx) as ((t' & ? & ?) & ?). split; [|done]. exists t'. by split; [eapply plays_tau|].
  - destruct (applied user umask s (Ev q (respond s X q))) as [s1|] eqn:Ea; cbn [mbind option_bind]; [|done].
    destruct (obey fuel s1 (k _)) as [[[l1 s2] r1]|] eqn:Hx; cbn [mbind option_bind]; [|done]. intros [= <- <- <-].
    destruct (IH _ _ _ Hx) as ((t' & ? & ?) & Hf). split.
    + exists t'. by split; [eapply plays_vis|].
    + unfold files_after in *. cbn [foldl mbind option_bind]. by rewrite Ea.
Qed.

Definition seen {R} (x : option (trace FileE * Fs * R)) : trace FileE := match x with Some (l, _, _) => l | None => [] end.
Definition left_files {R} (x : option (trace FileE * Fs * R)) : Fs := match x with Some (_, s, _) => s | None => λ _, None end.
Definition result_of {R} (x : option (trace FileE * Fs * R)) : option R := match x with Some (_, _, r) => Some r | None => None end.
Lemma obeyed {R} fuel s (t : itree FileE R) r : result_of (obey fuel s t) = Some r →
  returns t (seen (obey fuel s t)) r ∧
  files_after user umask s (seen (obey fuel s t)) = Some (left_files (obey fuel s t)).
Proof.
  destruct (obey fuel s t) as [[[l s'] r']|] eqn:E; cbn; [|done]. intros [= <-]. by eapply obey_returns.
Qed.
End obey.
