(* ===== verification/Trust.v ===== *)
(** What users without privileges can do to files, and which paths withstand it.

    [unprivileged] are the changes other users may make; a path is [trusted] when root owns
    everything on the way to it and nobody else may write there, but for directories where
    the sticky bit protects what is below. *)
From ITree Require Import ITree.
From S2P Require Import Prelude Utf8 Text FileStore.

#[local] Open Scope N_scope.

(** * What other users can do to the files *)
Definition sticky (i : Inode) : bool := negb (N.land (inode_mode i) 512 =? 0).
(** Group members are anyone. *)
Definition may_write (u : N) (i : Inode) : Prop := inode_uid i = u ∨ N.land (inode_mode i) 18 ≠ 0.
Inductive unprivileged (s : Fs) : Fs → Prop :=
  | writes u p i bytes : u ≠ 0 → s p = Some i → inode_kind i ≠ Directory → may_write u i →
      unprivileged s (on_inode p (with_bytes bytes) s)
  | changes_mode u p i mode : u ≠ 0 → s p = Some i → inode_uid i = u →
      unprivileged s (on_inode p (with_mode mode) s)
  (** Creating, linking or moving something here. *)
  | creates u dir name d i : u ≠ 0 → s dir = Some d → inode_kind d = Directory → may_write u d →
      s (dir ++ [name]) = None → unprivileged s (put (dir ++ [name]) (Some i) s)
  (** Removing or moving away, with what is below. *)
  | removes u dir name d i : u ≠ 0 → s dir = Some d → inode_kind d = Directory → may_write u d →
      s (dir ++ [name]) = Some i → (sticky d = true → inode_uid i = u ∨ inode_uid d = u) →
      unprivileged s (removed_all (dir ++ [name]) s).

(** ** A trusted path withstands it *)
(** A component of a trusted path. *)
Definition withstands (s : Fs) (last : bool) (p : Path) : Prop := ∃ i,
  s p = Some i ∧ inode_uid i = 0 ∧
  (N.land (inode_mode i) 18 = 0 ∨ (last = false ∧ inode_kind i = Directory ∧ sticky i = true)).
Definition on_the_way (p q : Path) : Prop := is_Some (below q p).
Definition trusted (s : Fs) (p : Path) : Prop := ∀ q, on_the_way p q → withstands s (bool_decide (q = p)) q.
Lemma below_trans p q r x y : below q p = Some x → below r q = Some y → below r p = Some (y ++ x).
Proof. intros ->%below_Some ->%below_Some. rewrite <- app_assoc. apply below_app. Qed.
Lemma on_the_way_above p dir name : on_the_way p (dir ++ [name]) → on_the_way p dir.
Proof.
  intros [x Hx]. exists ([name] ++ x). eapply below_trans; [exact Hx|]. apply below_app.
Qed.
Lemma trusted_step s s' p : trusted s p → unprivileged s s' → ∀ q, on_the_way p q → s' q = s q.
Proof.
  intros Ht Hstep q Hq.
  assert (∀ u d i, u ≠ 0 → on_the_way p d → s d = Some i → may_write u i →
    inode_uid i = 0 ∧ inode_kind i = Directory ∧ sticky i = true) as Hwrite.
  { intros u d i Hu Hd Hi Hw. destruct (Ht d Hd) as (i' & Hi' & Hr & Hs). rewrite Hi in Hi'. injection Hi' as <-.
    destruct Hw as [Hw|Hw]; [congruence|]. destruct Hs as [Hs|(_ & Hk & Hs)]; [done|done]. }
  destruct Hstep as [u p' i bytes Hu Hi Hk Hw|u p' i mode Hu Hi Ho|u dir name d i Hu Hd Hk Hw Hn|u dir name d i Hu Hd Hk Hw Hi Hs].
  - apply on_inode_other. intros ->. by destruct (Hwrite u p' i Hu Hq Hi Hw) as (_ & ? & _).
  - apply on_inode_other. intros ->. destruct (Ht p' Hq) as (i' & Hi' & Hr & _). congruence.
  - apply put_other. intros ->. destruct (Ht _ Hq) as (i' & Hi' & _). congruence.
  - unfold removed_all. case_decide as Hb; [|done]. exfalso.
    assert (on_the_way p (dir ++ [name])) as Hway.
    { destruct Hb as [y Hy], Hq as [x Hx]. exists (y ++ x). by eapply below_trans. }
    destruct (Hwrite u dir d Hu (on_the_way_above _ _ _ Hway) Hd Hw) as (Hrd & _ & Hst).
    destruct (Ht _ Hway) as (i' & Hi' & Hr & _). rewrite Hi in Hi'. injection Hi' as <-.
    destruct (Hs Hst); congruence.
Qed.
Lemma trusted_steps s s' p : rtc unprivileged s s' → trusted s p → ∀ q, on_the_way p q → s' q = s q.
Proof.
  induction 1 as [s|s s1 s2 Hstep _ IH]; intros Ht q Hq; [done|].
  rewrite <- (trusted_step _ _ _ Ht Hstep q Hq). apply IH; [|done].
  intros r Hr. destruct (Ht r Hr) as (i & Hi & Hw). exists i. by rewrite (trusted_step _ _ _ Ht Hstep r Hr).
Qed.
(** Nothing can be added to a trusted directory. *)
Lemma trusted_adds_nothing s s' dir name : rtc unprivileged s s' → trusted s dir → s (dir ++ [name]) = None →
  s' (dir ++ [name]) = None.
Proof.
  intros Hs. induction Hs as [s|s s1 s2 Hstep Hrest IH]; intros Ht Hn; [done|].
  apply IH.
  - intros r Hr. destruct (Ht r Hr) as (i & Hi & Hw). exists i. by rewrite (trusted_step _ _ _ Ht Hstep r Hr).
  - destruct Hstep as [u p' i bytes Hu Hi Hk Hw|u p' i mode Hu Hi Ho|u d name' i' i Hu Hd Hk Hw Hn'|u d name' i' i Hu Hd Hk Hw Hi Hs].
    + unfold on_inode. case_decide; [|done]. by subst; rewrite Hn.
    + unfold on_inode. case_decide; [|done]. by subst; rewrite Hn.
    + rewrite put_other; [done|]. intros Heq. apply app_inj_tail in Heq as [<- _].
      assert (on_the_way dir dir) as Hway by (exists []; rewrite <- (app_nil_r dir) at 2; apply below_app).
      destruct (Ht _ Hway) as (i2 & Hi2 & Hr & Hlast). rewrite Hd in Hi2. injection Hi2 as <-.
      rewrite bool_decide_true in Hlast by done. destruct Hw as [Hw|Hw]; [congruence|]. by destruct Hlast as [|[? _]].
    + unfold removed_all. by case_decide.
Qed.

(** [path.ancestors()]: the path and everything above it, the root last. *)
Fixpoint ancestors_reversed (reversed : list string) : list Path :=
  rev reversed :: match reversed with [] => [] | _ :: r => ancestors_reversed r end.
Definition ancestors_and_root (p : Path) : list Path := ancestors_reversed (rev p).

Lemma ancestors_on_the_way p q : on_the_way p q → q ∈ ancestors_and_root p.
Proof.
  intros [x ->%below_Some]. unfold ancestors_and_root. rewrite rev_app_distr. induction x as [|a x IH] using rev_ind.
  - assert (∀ r, rev r ∈ ancestors_reversed r) as Hself by (intros []; by left).
    rewrite <- (rev_involutive q) at 1. apply Hself.
  - rewrite rev_app_distr. cbn [rev app ancestors_reversed]. right. exact IH.
Qed.
