(* ===== verification/HipApproval.v ===== *)
(** Approved HIP scripts (apps/gpservice/src/hip_approval.rs): an unprivileged user's
    script, copied into a directory of root under a new identifier with its owner and
    its digest. [install] copies, [resolve] finds the script for its owner, [revoke]
    takes it away, [status] tells about it.

    The programs run on files of [FileStore]; reading JSON, SHA-256, base64 and the
    form of identifiers are parameters. *)
From ITree Require Import ITree.
From S2P Require Import Prelude Utf8 Text ThirdParty GpHttp Service Interaction Halting FileStore Trust.
From Stdlib Require Import Strings.Ascii.

#[local] Open Scope N_scope.
#[local] Open Scope flow_scope.

Definition APPROVAL_DIRECTORY : Path := ["var"; "lib"; "gpclient"; "hip-approvals"].
Definition MAX_SCRIPT_SIZE : N := 1024 * 1024.
Definition MAX_METADATA_SIZE : N := 8 * 1024.
Definition METADATA_VERSION : N := 1.
Definition SCRIPT_NAME : string := "script".
Definition METADATA_NAME : string := "metadata.json".

Record InstallRequest := { original_path : string; contents_base64 : string }.
Record ApprovalInfo := {
  approval_id : string; owner_uid : N; sha256 : string; info_original_path : string }.
Record ApprovedScript := { approved_info : ApprovalInfo; approved_path : Path }.
Record StoredMetadata := { version : N; info : ApprovalInfo }.

(** The digits of [{:o}] for a number below 512, and of [{:02x}] for a byte. *)
Definition octal (n : N) : string :=
  let digits := String (hex_digit (n / 64)) (String (hex_digit (n / 8 `mod` 8)) (String (hex_digit (n `mod` 8)) "")) in
  if n <? 8 then String.substring 2 1 digits else if n <? 64 then String.substring 1 2 digits else digits.
Fixpoint digest_hex (digest : string) : string :=
  match digest with
  | EmptyString => ""
  | String a r => String (hex_digit (byte_val a / 16)) (String (hex_digit (byte_val a `mod` 16)) (digest_hex r))
  end.
Definition is_absolute (path : string) : bool := String.prefix "/" path.

Section hip_approval.
Context `{UuidFormat} `{Base64} `{SerdeJson StoredMetadata}.
(** The sha2 crate's digest. *)
Variable digest : string → string.
Definition sha256_hex (data : string) : string := digest_hex (digest data).

Definition contents (r : InstallRequest) : result Failure string :=
  _ ← ensure (slen (original_path r) <=? 4096) (Message "HIP script path is too long");
  _ ← ensure (is_absolute (original_path r)) (Message "HIP script path must be absolute");
  _ ← ensure (negb (contains_nul (original_path r))) (Message "HIP script path contains a NUL byte");
  _ ← ensure (slen (contents_base64 r) <=? (MAX_SCRIPT_SIZE + 2 + 2) / 3 * 4) (Message "HIP script exceeds 1 MiB");
  bytes ← context "Invalid HIP script content encoding" (ok_or (Message "base64") (base64_decode (contents_base64 r)));
  _ ← ensure (negb (is_empty bytes) && (slen bytes <=? MAX_SCRIPT_SIZE)) (Message "HIP script must be 1 MiB or smaller");
  Ok bytes.

Definition validate_id (value : string) : result Failure () :=
  parsed ← context "Invalid HIP approval ID" (ok_or (Message "uuid") (uuid_parse_str value));
  ensure (String.eqb (uuid_to_string parsed) value) (Message "HIP approval ID must use canonical form").

Definition inspect (path : Path) : flow FileE Metadata :=
  try_context ("Cannot inspect " +:+ display path) (MetadataE path).
Definition validate_private_dir (path : Path) (owner_uid : N) : flow FileE () :=
  let* metadata := inspect path in
  let* _ := pure (ensure (is_dir metadata && negb (is_symlink metadata))
    (Message "HIP approval directory is not a directory")) in
  pure (ensure ((m_uid metadata =? owner_uid) && (N.land (m_mode metadata) 63 =? 0))
    (Message ("HIP approval directory " +:+ display path +:+ " is not private (owner " +:+ to_string (m_uid metadata) +:+
      ", mode " +:+ octal (N.land (m_mode metadata) 511) +:+ ")"))).
Definition validate_file (path : Path) (owner_uid mode max_size : N) : flow FileE () :=
  let* metadata := inspect path in
  let* _ := pure (ensure (is_file metadata && negb (is_symlink metadata)) (Message "HIP approval file is not regular")) in
  let* _ := pure (ensure ((m_uid metadata =? owner_uid) && (N.land (m_mode metadata) 511 =? mode))
    (Message "HIP approval file has unsafe ownership or mode")) in
  pure (ensure (m_len metadata <=? max_size) (Message "HIP approval file is too large")).
(** One turn of the loop of [validate_approval_ancestors]. *)
Definition validate_ancestor (component : Path) : flow FileE () :=
  let* metadata := inspect component in
  let* _ := pure (ensure (negb (is_symlink metadata)) (Message "HIP approval path contains a symlink")) in
  let* _ := pure (ensure (m_uid metadata =? 0) (Message "HIP approval path is not root-owned")) in
  let* _ := pure (ensure (N.land (m_mode metadata) 18 =? 0) (Message "HIP approval path is writable by another user")) in
  pure (ensure (is_dir metadata) (Message "HIP approval parent is not a directory")).
(** A [Path] is absolute. *)
Definition validate_approval_ancestors (path : Path) : flow FileE () := for_each (ancestors path) validate_ancestor.

Definition write_new (path : Path) (bytes : string) (mode : N) : flow FileE () :=
  let* _ := try (CreateNewE path mode) in
  let* _ := write_all path bytes in
  try (SyncE path).

(** ** Reading an approval *)
Definition read_metadata_unbound_at (base : Path) (id : string) (file_owner : N) : flow FileE ApprovalInfo :=
  let* _ := pure (validate_id id) in
  let* _ := validate_private_dir base file_owner in
  let directory := base ++ [id] in
  let* _ := validate_private_dir directory file_owner in
  let metadata_path := directory ++ [METADATA_NAME] in
  let* _ := validate_file metadata_path file_owner 384 MAX_METADATA_SIZE in
  let* bytes := try (ReadAllE metadata_path) in
  let* stored := pure (ok_or (Message "json") (from_slice bytes)) in
  let* _ := pure (ensure (version stored =? METADATA_VERSION) (Message "Unsupported HIP approval version")) in
  let* _ := pure (ensure (String.eqb (approval_id (info stored)) id) (Message "HIP approval ID mismatch")) in
  let* _ := pure (ensure ((slen (sha256 (info stored)) =? 64) && all_bytes is_ascii_hexdigit (sha256 (info stored)))
    (Message "Invalid HIP approval digest")) in
  ok (info stored).
Definition read_metadata_at (base : Path) (id : string) (desktop_uid file_owner : N) : flow FileE ApprovalInfo :=
  let* found := read_metadata_unbound_at base id file_owner in
  let* _ := pure (ensure (owner_uid found =? desktop_uid) (Message "HIP approval belongs to another user")) in
  ok found.
(** One turn of the loop that reads the script in parts of 8 KiB. *)
Definition read_chunk (script : Path) (read : string) : flow FileE (string + string) :=
  let* _ := check in
  let* chunk := try (ReadE script (slen read) 8192) in
  if is_empty chunk then ok (inr read)
  else
    let* _ := pure (ensure (slen read + slen chunk <=? MAX_SCRIPT_SIZE) (Message "Approved HIP script is too large")) in
    ok (inl (read +:+ chunk)).
Definition resolve_at_with_control (base : Path) (id : string) (desktop_uid file_owner : N) : flow FileE ApprovedScript :=
  let* _ := check in
  let* found := read_metadata_at base id desktop_uid file_owner in
  let* _ := check in
  let script := base ++ [id; SCRIPT_NAME] in
  let* _ := validate_file script file_owner 320 MAX_SCRIPT_SIZE in
  let* _ := try (OpenE script None) in
  let* bytes := repeating (read_chunk script) "" in
  let* _ := pure (ensure (negb (is_empty bytes)) (Message "Approved HIP script is empty")) in
  let* _ := pure (ensure (String.eqb (sha256_hex bytes) (sha256 found)) (Message "Approved HIP script digest mismatch")) in
  let* _ := check in
  ok {| approved_info := found; approved_path := script |}.
(** With a budget of 60 seconds as the control. *)
Definition resolve_at : Path → string → N → N → flow FileE ApprovedScript := resolve_at_with_control.
Definition resolve_with_control (id : string) (desktop_uid : N) : flow FileE ApprovedScript :=
  let* _ := check in
  let* _ := pure (ensure (negb (desktop_uid =? 0)) (Message "Root is not a desktop HIP approval owner")) in
  let* _ := validate_approval_ancestors APPROVAL_DIRECTORY in
  resolve_at_with_control APPROVAL_DIRECTORY id desktop_uid 0.
Definition resolve : string → N → flow FileE ApprovedScript := resolve_with_control.

(** The first of these files that cannot be inspected decides. *)
Fixpoint inspect_all (l : list Path) : flow FileE (option HipApprovalStatus) :=
  match l with
  | [] => ok None
  | path :: l =>
      let* r := ask (MetadataE path) in
      match r with
      | Err err => ok (Some (if not_found err then Revoked else Corrupt))
      | Ok _ => inspect_all l
      end
  end.
Definition status_at (base : Path) (id : string) (desktop_uid file_owner : N) (validate_root_ancestors : bool) :
    flow FileE HipApprovalStatus :=
  let* _ := pure (ensure (negb (desktop_uid =? 0)) (Message "HIP approval status requires a desktop user")) in
  let* _ := pure (validate_id id) in
  let* missing := inspect_all [base; base ++ [id]; base ++ [id; METADATA_NAME]] in
  match missing with
  | Some status => ok status
  | None =>
      either (validate_private_dir base file_owner) (λ private,
      either (match private with
              | Ok _ => if validate_root_ancestors then validate_approval_ancestors base else ok ()
              | Err e => throw e end) (λ valid,
      match valid with
      | Err _ => ok Corrupt
      | Ok _ =>
          either (read_metadata_unbound_at base id file_owner) (λ found,
          match found with
          | Err _ => ok Corrupt
          | Ok found =>
              if negb (owner_uid found =? desktop_uid) then ok OtherUser
              else either (resolve_at base id desktop_uid file_owner) (λ r, ok (if is_ok r then Valid else Corrupt))
          end)
      end))
  end.
Definition status (id : string) (desktop_uid : N) : flow FileE HipApprovalStatus :=
  status_at APPROVAL_DIRECTORY id desktop_uid 0 true.

(** ** Installing and revoking *)
(** A temporary directory lives until its owner's scope ends, whichever way. *)
Definition with_temp_dir {A} (staged : Path) (m : flow FileE A) : flow FileE A :=
  either m (λ r, let* _ := ask (RemoveAllE staged) in pure r).
Definition publish (base staged : Path) (bytes : string) (found : ApprovalInfo) (file_owner : N) : flow FileE ApprovalInfo :=
  let* _ := try (SetModeE staged 448) in
  let* _ := validate_private_dir staged file_owner in
  let* _ := write_new (staged ++ [SCRIPT_NAME]) bytes 320 in
  let stored := {| version := METADATA_VERSION; info := found |} in
  let* encoded := pure (ok_or (Message "json") (to_vec stored)) in
  let* _ := pure (ensure (slen encoded <=? MAX_METADATA_SIZE) (Message "HIP approval metadata is too large")) in
  let* _ := write_new (staged ++ [METADATA_NAME]) encoded 384 in
  let* _ := try (SyncE staged) in
  let target := base ++ [approval_id found] in
  let* exists_already := ask (ExistsE target) in
  let* _ := pure (ensure (negb exists_already) (Message "HIP approval ID collision")) in
  let* _ := try_context "Cannot publish HIP approval" (RenameE staged target) in
  let* _ := try (SyncE base) in
  ok found.
Definition install_at (base : Path) (bytes path : string) (approving_uid file_owner : N) : flow FileE ApprovalInfo :=
  let* _ := validate_private_dir base file_owner in
  let* _ := pure (ensure (negb (is_empty bytes) && (slen bytes <=? MAX_SCRIPT_SIZE))
    (Message "HIP script must be 1 MiB or smaller")) in
  let* id := ask NewIdE in
  let found := {| approval_id := id; owner_uid := approving_uid; sha256 := sha256_hex bytes; info_original_path := path |} in
  let* name := try (TempDirE base ".install-") in
  with_temp_dir (base ++ [name]) (publish base (base ++ [name]) bytes found file_owner).
Definition install (request : InstallRequest) (approving_uid : N) : flow FileE ApprovalInfo :=
  let* _ := pure (ensure (negb (approving_uid =? 0)) (Message "Root cannot approve a desktop HIP script")) in
  let* bytes := pure (contents request) in
  let base := APPROVAL_DIRECTORY in
  let* r := ask (CreateDirAllE base) in
  let* _ := pure (context "Cannot create HIP approval directory" (map_err (failure_of ∘ fst) r)) in
  let* _ := validate_approval_ancestors base in
  let* _ := try (SetModeE base 448) in
  install_at base bytes (original_path request) approving_uid 0.

Definition revoke_at (base : Path) (id : string) (approving_uid file_owner : N) : flow FileE () :=
  let* _ := pure (validate_id id) in
  let directory := base ++ [id] in
  let* r := ask (MetadataE directory) in
  match r with
  | Err err => if not_found err then ok () else pure (context "Cannot inspect HIP approval directory" (answered (Err err)))
  | Ok _ =>
      let* _ := read_metadata_at base id approving_uid file_owner in
      let revoked := base ++ [".revoked-" +:+ id] in
      let* _ := try_context "Cannot revoke HIP approval" (RenameE directory revoked) in
      let* _ := try (SyncE base) in
      let* r := ask (RemoveAllE revoked) in
      match r with Err _ => ok () | Ok _ => try (SyncE base) end
  end.
Definition revoke (id : string) (approving_uid : N) : flow FileE () :=
  let* _ := pure (ensure (negb (approving_uid =? 0)) (Message "Root cannot revoke another user's HIP approval")) in
  let* _ := validate_approval_ancestors APPROVAL_DIRECTORY in
  revoke_at APPROVAL_DIRECTORY id approving_uid 0.

(** ** The installer's program (bin/gp-hip-script-installer) *)
Definition MAX_INSTALL_REQUEST_SIZE : N := 2 * 1024 * 1024.
Inductive Command := Install | Revoke (id : string).
(** The input is standard input; an installation prints what it returns. *)
Definition try_run `{SerdeJson InstallRequest} (is_root : bool) (pkexec_uid : option string) (command : Command)
    (input : string) : flow FileE (option ApprovalInfo) :=
  let* _ := pure (ensure is_root (Message "HIP script installer must run as root")) in
  let* uid := pure (context "HIP script installer requires pkexec authorization" (ok_or (Message "not set") pkexec_uid)) in
  let* approving_uid := pure (context "Invalid pkexec user identity" (ok_or (Message "invalid digit") (from_str u32_max uid))) in
  let* _ := pure (ensure (negb (approving_uid =? 0)) (Message "HIP script installer requires a desktop user")) in
  match command with
  | Install =>
      let* _ := pure (ensure (slen input <=? MAX_INSTALL_REQUEST_SIZE) (Message "HIP install request is too large")) in
      let* request := pure (context "Invalid HIP install request" (ok_or (Message "json") (from_slice input))) in
      let* found := install request approving_uid in
      ok (Some found)
  | Revoke id => let* _ := revoke id approving_uid in ok None
  end.
End hip_approval.

(** * Reading terminates *)
Section terminates.
Context `{UuidFormat} `{Base64} `{SerdeJson StoredMetadata} (digest : string → string).
Lemma halts_private_dir p o : halts (validate_private_dir p o).
Proof. unfold validate_private_dir, inspect, try_context. halting. Qed.
Lemma halts_file p o m z : halts (validate_file p o m z).
Proof. unfold validate_file, inspect, try_context. halting. Qed.
Lemma halts_for_each {A} (l : list A) f : (∀ x, halts (f x)) → halts (for_each l f).
Proof. intros Hf. induction l; cbn; halting. Qed.
Lemma halts_ancestors p : halts (validate_approval_ancestors p).
Proof. apply halts_for_each. intros c. unfold validate_ancestor, inspect, try_context. halting. Qed.
Lemma halts_read_metadata base id u o : halts (read_metadata_at base id u o).
Proof.
  pose proof halts_private_dir. pose proof halts_file.
  unfold read_metadata_at, read_metadata_unbound_at, try. halting.
Qed.
Lemma halts_read_script script : halts (repeating (read_chunk script) "").
Proof.
  apply (halts_loop _ (λ _, True) (λ r, N.to_nat (MAX_SCRIPT_SIZE + 1 - slen r))); [|intros read _|done].
  - intros read _. unfold read_chunk, check, try. halting.
  - unfold read_chunk. apply wpf_and_then. unfold check. apply wpf_let_ask; [done|]. intros r. split; [done|].
    apply wpf_pure; [done|]. destruct r as [[]|]; [|by apply wpf_throw].
    apply wpf_and_then. unfold try. apply wpf_let_ask; [done|]. intros r. split; [done|].
    apply wpf_pure; [done|]. destruct r as [chunk|]; cbn; [|by apply wpf_throw].
    destruct (is_empty chunk) eqn:Ec; [by apply wpf_ok|]. apply wpf_let_pure; [done|]. unfold ensure.
    destruct (N.leb_spec (slen read + slen chunk) MAX_SCRIPT_SIZE) as [Hl|]; [|done]. apply wpf_ok; [done|].
    split; [done|]. rewrite slen_app. assert (slen chunk ≠ 0) by (intros Hn; apply slen_nil_inv in Hn; by subst). lia.
Qed.
End terminates.

(** * What the files of an approval are *)
Section approvals.
Context `{UuidFormat} `{Base64} `{SerdeJson StoredMetadata} (digest : string → string).
Definition private_dir (s : Fs) (owner : N) (p : Path) : Prop := ∃ i,
  s p = Some i ∧ inode_kind i = Directory ∧ inode_uid i = owner ∧ N.land (inode_mode i) 63 = 0.
Definition sealed_file (s : Fs) (owner mode : N) (p : Path) (bytes : string) : Prop := ∃ i,
  s p = Some i ∧ inode_kind i = Regular bytes ∧ inode_uid i = owner ∧ N.land (inode_mode i) 511 = mode.
Definition safe_ancestor (s : Fs) (p : Path) : Prop := ∃ i,
  s p = Some i ∧ inode_kind i = Directory ∧ inode_uid i = 0 ∧ N.land (inode_mode i) 18 = 0.
(** The metadata of an approval, and its script. *)
Definition described (s : Fs) (base : Path) (id : string) (owner : N) (found : ApprovalInfo) : Prop :=
  validate_id id = Ok () ∧ private_dir s owner base ∧ private_dir s owner (base ++ [id]) ∧
  approval_id found = id ∧
  ∃ encoded, sealed_file s owner 384 (base ++ [id; METADATA_NAME]) encoded ∧
    from_slice encoded = Some {| version := METADATA_VERSION; info := found |}.
Definition approved (s : Fs) (base : Path) (owner : N) (found : ApprovalInfo) (bytes : string) : Prop :=
  described s base (approval_id found) owner found ∧
  sealed_file s owner 320 (base ++ [approval_id found; SCRIPT_NAME]) bytes ∧
  slen bytes ≤ MAX_SCRIPT_SIZE ∧ sha256_hex digest bytes = sha256 found.
End approvals.

(** * What reading shows *)
Section reading.
Context `{UuidFormat} `{Base64} `{SerdeJson StoredMetadata} (digest : string → string).
Variables (user umask : N) (Inv : Fs → Prop) (s0 s : Fs).
Hypothesis Hs : Inv s.
Notation reads := (reads user umask Inv s0 s).
Lemma reads_private_dir p o : reads (validate_private_dir p o) (λ _, private_dir s o p).
Proof.
  eapply reads_bind; [by apply reads_metadata|]. intros d (i & Hi & ->).
  apply reads_let_ensure. intros Hd.
  apply reads_ensure. intros Hm. exists i. split; [done|]. boolify. unfold is_dir, metadata_of in *. cbn in *.
  by destruct (inode_kind i).
Qed.
Lemma reads_file p o m z : reads (validate_file p o m z)
  (λ _, ∃ i, s p = Some i ∧ inode_uid i = o ∧ N.land (inode_mode i) 511 = m ∧
        ∃ bytes, inode_kind i = Regular bytes ∧ slen bytes ≤ z).
Proof.
  eapply reads_bind; [by apply reads_metadata|]. intros d (i & Hi & ->).
  apply reads_let_ensure. intros Hd.
  apply reads_let_ensure. intros Hm.
  apply reads_ensure. intros Hl. exists i. boolify. unfold is_file, metadata_of in *. cbn in *.
  destruct (inode_kind i) as [bytes| | |]; try done. naive_solver.
Qed.
Lemma reads_ancestors p : reads (validate_approval_ancestors p) (λ _, Forall (safe_ancestor s) (ancestors p)).
Proof.
  apply reads_for_each. intros c _.
  eapply reads_bind; [by apply reads_metadata|]. intros d (i & Hi & ->).
  apply reads_let_ensure. intros _.
  apply reads_let_ensure. intros Hu.
  apply reads_let_ensure. intros Hm.
  apply reads_ensure. intros Hd. exists i. boolify. unfold is_dir, metadata_of in *. cbn in *.
  by destruct (inode_kind i).
Qed.
Lemma reads_unbound base id o : reads (read_metadata_unbound_at base id o) (λ found, described s base id o found).
Proof.
  apply reads_let_pure. intros [] Hid.
  eapply reads_bind; [apply reads_private_dir|]. intros [] Hb.
  eapply reads_bind; [apply reads_private_dir|]. intros [] Hd.
  rewrite <- !app_assoc. cbn [app].
  eapply reads_bind; [apply reads_file|]. intros [] (i & Hi & Ho & Hm & bytes & Hk & Hl).
  eapply reads_bind; [by apply reads_all|]. intros bytes' Hr. rewrite Hi in Hr. injection Hr as Hr.
  rewrite Hk in Hr. injection Hr as <-.
  apply reads_let_pure. intros stored Hf.
  apply reads_let_ensure. intros Hv.
  apply reads_let_ensure. intros Hi'.
  apply reads_let_ensure. intros _.
  apply reads_ok. destruct (from_slice bytes) as [st|] eqn:Ej; [|done]. injection Hf as <-.
  apply String.eqb_eq in Hi'. apply N.eqb_eq in Hv. do 4 (split; [done|]). exists bytes.
  split; [by exists i|]. destruct st as [v f]. cbn in *. by subst v.
Qed.
Lemma reads_bound base id u o :
  reads (read_metadata_at base id u o) (λ found, described s base id o found ∧ owner_uid found = u).
Proof.
  eapply reads_bind; [apply reads_unbound|]. intros found Hf.
  apply reads_let_ensure. intros Hu. boolify. by apply reads_ok.
Qed.
(** The loop reads the whole script. *)
Lemma reads_script script bytes : inode_kind <$> s script = Some (Regular bytes) →
  reads (repeating (read_chunk script) "") (λ b, b = bytes).
Proof.
  intros Hk. eapply (fspec_repeating _ _ _ _ _ _ (λ s' r, s' = s ∧ beginning r bytes)); [|by split; [|destruct bytes]].
  intros s' r [-> Hr]. unfold read_chunk.
  eapply fspec_reads; [by apply reads_check| |done]. intros _ _.
  eapply fspec_reads; [by apply reads_part| |done]. intros chunk (b & Hb & Hp).
  rewrite Hk in Hb. injection Hb as <-. destruct chunk as [|a chunk]; cbn [is_empty].
  - apply fspec_ok. split; [done|]. by apply (read_all _ _ 8192).
  - apply fspec_let_pure. destruct (ensure _ _); [|done]. apply fspec_ok. split; [done|]. by eapply read_on.
Qed.
Lemma reads_resolve_at base id u o : reads (resolve_at digest base id u o) (λ a, ∃ bytes,
  approved digest s base o (approved_info a) bytes ∧ approval_id (approved_info a) = id ∧
  owner_uid (approved_info a) = u ∧ bytes ≠ ""%string ∧ approved_path a = base ++ [id; SCRIPT_NAME]).
Proof.
  eapply reads_bind; [by apply reads_check|]. intros _ _.
  eapply reads_bind; [apply reads_bound|]. intros found [Hf Hu].
  eapply reads_bind; [by apply reads_check|]. intros _ _.
  eapply reads_bind; [apply reads_file|]. intros [] (i & Hi & Ho & Hm & bytes & Hk & Hl).
  eapply reads_bind; [by eapply (reads_open_asked _ _ _ _ answered)|]. intros _ _.
  eapply reads_bind; [apply (reads_script _ bytes); by rewrite Hi; cbn; rewrite Hk|]. intros ? ->.
  apply reads_let_ensure. intros Hne. apply reads_let_ensure. intros Hd%String.eqb_eq.
  eapply reads_bind; [by apply reads_check|]. intros _ _. apply reads_ok.
  pose proof Hf as (_ & _ & _ & <- & _). exists bytes. cbn. split; [|by destruct bytes].
  split; [done|]. split; [by exists i|]. by split.
Qed.
End reading.

(** * A new file *)
Section writing.
Variables (user umask : N) (Inv : Fs → Prop) (s0 : Fs).
Lemma fspec_write_new {B} s p bytes mode (k : () → flow FileE B) Φ :
  (∀ s', except p s s' → Inv s' ∧ ∀ e, Φ s' (Err e)) →
  (∀ s', except p s s' → s' p = Some (new_inode user umask (Regular bytes) mode) →
     fspec user umask Inv s0 s' (k ()) Φ) →
  fspec user umask Inv s0 s (and_then (write_new p bytes mode) k) Φ.
Proof.
  intros Hany Hk.
  apply (fspec_bind _ _ _ _ _ _ _ (λ s' r, except p s s' ∧ (r = Ok () → s' p = Some (new_inode user umask (Regular bytes) mode)))).
  - assert (except p s s) as Hs by done. apply fspec_try. intros [[]|e] s1; cbn.
    2: { intros [= <-]. split; [by apply Hany|done]. }
    case_guard as Hp; [|done]. intros [= <-].
    assert (except p s (put p (Some (new_inode user umask (Regular "") mode)) s)) as H1 by (intros q Hq; by apply put_other).
    split; [by apply Hany|]. set (s1 := put _ _ _) in *. apply fspec_asked. intros r s2 [= <-].
    assert (except p s (on_inode p (with_bytes match r with Ok _ => bytes | Err (_, b) => b end) s1)) as H2
      by (intros q Hq; rewrite on_inode_other by done; by apply H1).
    split; [by apply Hany|]. destruct r as [[]|[e b]]; cbn; [|done].
    apply fspec_last. intros r s3 [= <-]. split; [by apply Hany|]. split; [done|]. intros _.
    rewrite on_inode_same. unfold s1. by rewrite put_same.
  - intros s' [] [Hs Hp]. by apply Hk, Hp.
  - intros s' e [Hs _]. by apply Hany.
Qed.
End writing.

(** * Installing *)
Section installing.
Context `{UuidFormat} `{Base64} `{SerdeJson StoredMetadata} (digest : string → string).
Variables (user umask : N) (s0 : Fs) (base : Path) (bytes path : string) (uid : N).
(** The paths below the entries of the directory that [ex] tells. *)
Definition aside (ex : string → bool) (p : Path) : bool :=
  match below base p with Some (name :: _) => ex name | _ => false end.
Definition untouched (ex : string → bool) (s : Fs) : Prop := ∀ p, aside ex p = false → s p = s0 p.
(** The whole approval, with the modes it is installed with. *)
Definition published (s : Fs) (found : ApprovalInfo) : Prop :=
  owner_uid found = uid ∧ sha256 found = sha256_hex digest bytes ∧ info_original_path found = path ∧
  s (base ++ [approval_id found]) = Some {| inode_kind := Directory; inode_uid := user; inode_mode := 448; inode_links := 1 |} ∧
  s (base ++ [approval_id found; SCRIPT_NAME]) = Some (new_inode user umask (Regular bytes) 320) ∧
  ∃ encoded, to_vec {| version := METADATA_VERSION; info := found |} = Some encoded ∧ slen encoded ≤ MAX_METADATA_SIZE ∧
    s (base ++ [approval_id found; METADATA_NAME]) = Some (new_inode user umask (Regular encoded) 384).
Definition staging : string → bool := prefixed ".install-".
Definition besides (found : ApprovalInfo) (name : string) : bool := staging name || String.eqb name (approval_id found).
Definition installed (s : Fs) (found : ApprovalInfo) : Prop :=
  uuid_text (approval_id found) = true ∧ published s found ∧ untouched (besides found) s.
Definition settled (s : Fs) : Prop := untouched staging s ∨ ∃ found, installed s found.
Notation fspec := (fspec user umask settled s0).

Lemma aside_entry ex name r : aside ex (base ++ name :: r) = ex name.
Proof. unfold aside. by rewrite below_app. Qed.
Lemma aside_not ex name p : ex name = true → aside ex p = false → below (base ++ [name]) p = None.
Proof.
  intros Hn Hp. destruct (below (base ++ [name]) p) as [r|] eqn:Eb; [|done]. apply below_Some in Eb as ->.
  rewrite <- app_assoc in Hp. cbn in Hp. rewrite aside_entry in Hp. congruence.
Qed.
Lemma settled_staging s : untouched staging s → settled s.
Proof. by left. Qed.
Lemma untouched_below ex name s s' : ex name = true → only_below (base ++ [name]) s s' →
  untouched ex s → untouched ex s'.
Proof. intros Hn Hb Hu p Hp. rewrite Hb; [by apply Hu|]. by eapply aside_not. Qed.
Lemma installed_below name s s' found : staging name = true → only_below (base ++ [name]) s s' →
  installed s found → installed s' found.
Proof.
  intros Hn Hb (Hid & Hp & Hu).
  assert (∀ r, s' (base ++ approval_id found :: r) = s (base ++ approval_id found :: r)) as E.
  { intros r. apply Hb, below_sibling. intros ->. pose proof (uuid_text_plain _ "install-" Hid) as Hf.
    change (prefixed ("." +:+ "install-") (approval_id found)) with (staging (approval_id found)) in Hf. congruence. }
  split; [done|]. split; [|eapply untouched_below; [|done..]; unfold besides; by rewrite Hn].
  unfold published in *. by rewrite !E.
Qed.
Lemma settled_below name s s' : staging name = true → only_below (base ++ [name]) s s' → settled s → settled s'.
Proof.
  intros Hn Hb [Hu|[found Hf]]; [left|right].
  - by eapply untouched_below.
  - exists found. by eapply installed_below.
Qed.
Definition outcome (s : Fs) (r : result Failure ApprovalInfo) : Prop :=
  settled s ∧ ∀ found, r = Ok found → installed s found.
Lemma with_temp_dir_spec name s m : staging name = true → fspec s m outcome →
  fspec s (with_temp_dir (base ++ [name]) m) outcome.
Proof.
  intros Hn Hm. eapply fspec_either; [exact Hm|]. intros s1 r [Hs Hr]. apply fspec_last.
  intros x s2 [= <-].
  assert (only_below (base ++ [name]) s1 match x with
    | Ok _ => removed_all (base ++ [name]) s1
    | Err (_, gone) => removed (List.filter (λ q, bool_decide (is_Some (below (base ++ [name]) q))) gone) s1 end) as Hb.
  { destruct x as [|[e gone]]; [apply removed_all_below|apply removed_below]. }
  split; [by eapply settled_below|]. split; [by eapply settled_below|].
  intros found Hf. eapply installed_below; [done..|]. by apply Hr.
Qed.

(** The temporary directory before it is renamed. *)
Section staged.
Variables (name : string) (found : ApprovalInfo).
Hypothesis (Hname : staging name = true) (Hid : uuid_text (approval_id found) = true).
Notation staged := (base ++ [name]).
Definition untouched_yet (s : Fs) : Prop := untouched staging s.
Lemma yet_except r s s' : untouched_yet s → except (staged ++ r) s s' → untouched_yet s'.
Proof. intros Hu He. eapply untouched_below; [done| |done]. by eapply only_below_at. Qed.
Lemma yet_outcome s e : untouched_yet s → settled s ∧ outcome s (Err e).
Proof. intros Hu. split; [by left|]. split; [by left|done]. Qed.
Lemma yet_error s e : untouched_yet s → outcome s (Err e).
Proof. intros Hu. exact (proj2 (yet_outcome s e Hu)). Qed.
(** Renaming publishes what was staged. *)
Lemma renamed_installed s encoded :
  owner_uid found = uid → sha256 found = sha256_hex digest bytes → info_original_path found = path →
  untouched_yet s →
  s staged = Some {| inode_kind := Directory; inode_uid := user; inode_mode := 448; inode_links := 1 |} →
  s (staged ++ [SCRIPT_NAME]) = Some (new_inode user umask (Regular bytes) 320) →
  to_vec {| version := METADATA_VERSION; info := found |} = Some encoded → slen encoded ≤ MAX_METADATA_SIZE →
  s (staged ++ [METADATA_NAME]) = Some (new_inode user umask (Regular encoded) 384) →
  installed (renamed staged (base ++ [approval_id found]) s) found.
Proof.
  intros Ho Hsha Hpath Hu Hd Hscript Hv Hl Hm.
  assert (∀ r, renamed staged (base ++ [approval_id found]) s (base ++ approval_id found :: r) = s (staged ++ r)) as E.
  { intros r. unfold renamed. replace (base ++ approval_id found :: r) with ((base ++ [approval_id found]) ++ r)
      by (by rewrite <- app_assoc). by rewrite below_app. }
  split; [done|]. split.
  - do 3 (split; [done|]). split; [rewrite E, app_nil_r; exact Hd|]. split; [by rewrite E|].
    exists encoded. split; [done|]. split; [done|]. by rewrite E.
  - intros p Hp. unfold renamed. rewrite (aside_not (besides found) (approval_id found)); [|unfold besides|done].
    + rewrite (aside_not (besides found) name); [|unfold besides; by rewrite Hname|done].
      rewrite decide_False by (intros [? ?]; done). apply Hu. unfold aside, besides in *.
      destruct (below base p) as [[|n r]|]; try done. by apply orb_false_elim in Hp as [? _].
    + by rewrite String.eqb_refl, orb_true_r.
Qed.
Lemma publish_approval_spec s file_owner :
  owner_uid found = uid → sha256 found = sha256_hex digest bytes → info_original_path found = path →
  untouched_yet s → s staged = Some (new_inode user umask Directory 511) →
  fspec s (publish base staged bytes found file_owner) outcome.
Proof.
  intros Ho Hsha Hpath Hu Hd. unfold publish.
  apply fspec_try. intros [[]|e] s1; cbn [applied]; intros [= <-]; [|by apply yet_outcome].
  assert (except (staged ++ []) s (on_inode staged (with_mode 448) s)) as He%(yet_except _ _ _ Hu)
    by (rewrite app_nil_r; intros q Hq; by apply on_inode_other).
  rename He into Hu1.
  assert (on_inode staged (with_mode 448) s staged =
    Some {| inode_kind := Directory; inode_uid := user; inode_mode := 448; inode_links := 1 |}) as Hd1
    by (by rewrite on_inode_same, Hd).
  set (s1 := on_inode _ _ _) in *. clearbody s1. split; [by left|].
  eapply fspec_reads; [apply reads_private_dir; by left| |intros; by apply yet_error]. intros [] _.
  assert (∀ n n', n ≠ n' → staged ++ [n] ≠ staged ++ [n']) as Hne by (by intros n n' Hn [= ?]%(inj _)).
  assert (∀ n, staged ≠ staged ++ [n]) as Hnd.
  { intros n Hn%(f_equal length). rewrite !length_app in Hn. cbn in Hn. lia. }
  apply fspec_write_new; [intros s2 H2; apply (yet_except _ _ _ Hu1) in H2; split; [by left|intros; by apply yet_error]|].
  intros s2 H2 Hscript. pose proof (yet_except _ _ _ Hu1 H2) as Hu2.
  apply fspec_let_pure. destruct (to_vec _) as [encoded|] eqn:Ev; cbn [ok_or]; [|by apply yet_error].
  apply fspec_let_pure. destruct (N.leb_spec (slen encoded) MAX_METADATA_SIZE) as [Hl|]; cbn [ensure]; [|by apply yet_error].
  apply fspec_write_new; [intros s3 H3; apply (yet_except _ _ _ Hu2) in H3; split; [by left|intros; by apply yet_error]|].
  intros s3 H3 Hm. pose proof (yet_except _ _ _ Hu2 H3) as Hu3.
  apply fspec_try. intros [[]|e] s4 [= <-]; [|by apply yet_outcome]. split; [by left|].
  apply fspec_ask. intros x s4. cbn [applied]. intros Hx. assert (s4 = s3) as ->.
  { destruct x; [case_guard; [|done]|]; by injection Hx. }
  split; [by left|]. apply fspec_let_pure. destruct x; cbn [negb ensure]; [by apply yet_error|].
  apply fspec_try_context. intros [[]|e] s4; cbn [applied].
  2: { intros [= <-]. by apply yet_outcome. }
  case_guard as Hs; [|done]. intros [= <-].
  assert (installed (renamed staged (base ++ [approval_id found]) s3) found) as Hi.
  { eapply renamed_installed; [done..| | |exact Ev|done|done].
    - rewrite H3, H2; done.
    - rewrite H3; [done|]. by apply Hne. }
  erewrite moved_directory; [|rewrite H3, H2; done|done].
  split; [by right; exists found|]. apply fspec_try. intros r s4 [= <-].
  split; [by right; exists found|]. destruct r as [[]|e].
  - apply fspec_ok. split; [by right; exists found|]. by intros f [= <-].
  - split; [by right; exists found|]. done.
Qed.
End staged.
Lemma install_approval_spec file_owner :
  fspec s0 (install_at digest base bytes path uid file_owner) outcome.
Proof.
  assert (untouched staging s0) as H0' by done.
  assert (∀ e, outcome s0 (Err e)) as He by (intros e; split; [by left|done]).
  unfold install_at. eapply fspec_reads; [apply reads_private_dir; by left| |done]. intros [] _.
  apply fspec_let_pure. destruct (ensure _ _); [|done].
  apply fspec_ask. intros id s1. cbn [applied]. destruct (uuid_text id) eqn:Eid; [|done]. intros [= <-].
  split; [by left|]. apply fspec_try. intros [name|e] s1; cbn [applied].
  2: { intros [= <-]. split; [by left|done]. }
  destruct (prefixed ".install-" name) eqn:En; [|done]. case_guard as Hn; [|done]. intros [= <-].
  assert (untouched staging (put (base ++ [name]) (Some (new_inode user umask Directory 511)) s0)) as Hu.
  { eapply untouched_below; [exact En| |done]. apply (only_below_at _ []). rewrite app_nil_r.
    intros q Hq. by apply put_other. }
  split; [by left|]. apply with_temp_dir_spec; [done|]. apply publish_approval_spec; try done. by rewrite put_same.
Qed.
End installing.

(** * Revoking *)
Section revoking.
Context `{UuidFormat} `{Base64} `{SerdeJson StoredMetadata}.
Variables (user umask : N) (s0 : Fs) (base : Path) (id : string).
Definition set_aside : string := ".revoked-" +:+ id.
Definition leaving (name : string) : bool := String.eqb name id || String.eqb name set_aside.
(** The approval is whole or gone, and nothing else changed but what is set aside. *)
Definition whole_or_gone (s : Fs) : Prop :=
  ((∀ r, s (base ++ id :: r) = s0 (base ++ id :: r)) ∨ ∀ r, s (base ++ id :: r) = None) ∧
  untouched s0 base leaving s.
Notation fspec := (fspec user umask whole_or_gone s0).
Definition revoked_by (uid file_owner : N) (s : Fs) (r : result Failure ()) : Prop :=
  r = Ok () → s (base ++ [id]) = None ∧
    (s0 (base ++ [id]) = None ∨ ∃ found, described s0 base id file_owner found ∧ owner_uid found = uid).
Lemma set_aside_other : set_aside ≠ id.
Proof. intros Hn%(f_equal slen). unfold set_aside in Hn. rewrite slen_app in Hn. change (slen ".revoked-") with 9 in Hn. lia. Qed.
Lemma gone_below s s' : only_below (base ++ [set_aside]) s s' →
  (∀ r, s (base ++ id :: r) = None) → untouched s0 base leaving s →
  whole_or_gone s' ∧ s' (base ++ [id]) = None.
Proof.
  intros Hb Hn Hu.
  assert (∀ r, s' (base ++ id :: r) = None) as Hn'.
  { intros r. rewrite Hb; [done|]. apply below_sibling. apply set_aside_other. }
  split; [|apply Hn']. split; [by right|]. eapply untouched_below; [|done..]. unfold leaving.
  by rewrite String.eqb_refl, orb_true_r.
Qed.
Lemma renamed_gone : let s := renamed (base ++ [id]) (base ++ [set_aside]) s0 in
  (∀ r, s (base ++ id :: r) = None) ∧ untouched s0 base leaving s.
Proof.
  cbn. split.
  - intros r. unfold renamed. rewrite below_sibling by apply set_aside_other.
    replace (base ++ id :: r) with ((base ++ [id]) ++ r) by (by rewrite <- app_assoc).
    rewrite below_app, decide_True; done.
  - intros p Hp. unfold renamed. rewrite (aside_not _ leaving set_aside); [| |done].
    + rewrite (aside_not _ leaving id); [| |done]; [by case_decide as Hd; [destruct Hd|]|].
      unfold leaving. by rewrite String.eqb_refl.
    + unfold leaving. by rewrite String.eqb_refl, orb_true_r.
Qed.
Lemma revoke_at_spec uid file_owner : fspec s0 (revoke_at base id uid file_owner) (revoked_by uid file_owner).
Proof.
  assert (whole_or_gone s0) as H0' by (split; [by left|done]).
  assert (∀ s e, revoked_by uid file_owner s (Err e)) as He by done.
  unfold revoke_at. apply fspec_let_pure. destruct (validate_id id) as [[]|]; [|done].
  apply fspec_ask. intros [d|e] s1; cbn [applied].
  2: { destruct (not_found e) eqn:En; [case_guard as Hn; [|done]|]; intros [= <-]; (split; [done|]);
         [|by apply fspec_pure]. apply fspec_ok. intros _. split; [done|by left]. }
  case_guard as Hd; [|done]. intros [= <-]. split; [done|].
  eapply fspec_reads; [by apply reads_bound| |done]. intros found [Hf Hu].
  apply fspec_try_context. intros [[]|e] s1; cbn [applied]; [|intros [= <-]; done].
  case_guard as Hs; [|done]. intros [= <-]. destruct renamed_gone as [Hn Hun].
  pose proof Hf as (_ & _ & (i & Hi & Hk & _) & _). rewrite (moved_directory _ _ _ i Hi Hk).
  set (s1 := renamed _ _ _) in *. clearbody s1.
  destruct (gone_below s1 s1) as [Hw _]; [by apply only_below_refl|done..|].
  split; [done|]. apply fspec_try. intros [[]|e] s2 [= <-]; (split; [done|]); [|done].
  assert (∀ s2, only_below (base ++ [set_aside]) s1 s2 →
    whole_or_gone s2 ∧ revoked_by uid file_owner s2 (Ok ())) as Hdone.
  { intros s2 Hb. destruct (gone_below s1 s2 Hb Hn Hun) as [? ?]. split; [done|]. intros _.
    split; [done|right]. by exists found. }
  apply fspec_ask. intros [[]|[e gone]] s2; cbn [applied]; intros [= <-].
  - destruct (Hdone _ (removed_all_below _ _)) as [Hw2 Hr2]. split; [done|].
    apply fspec_last. intros r s3 [= <-]. split; [done|]. by destruct r as [[]|].
  - destruct (Hdone _ (removed_below _ gone _)) as [Hw2 Hr2]. split; [done|]. by apply fspec_ok.
Qed.
End revoking.

(** * The promises *)
Section promises.
Context `{UuidFormat} `{Base64} `{SerdeJson StoredMetadata} (digest : string → string).
Variables (user umask : N).

Lemma reads_inspect_all Inv s0 s l : Inv s →
  reads user umask Inv s0 s (inspect_all l) (λ st, st ≠ Some Valid ∧ st ≠ Some OtherUser).
Proof.
  intros Hs. induction l as [|p l IH]; [by apply reads_ok|]. apply fspec_ask. intros [d|e] s'; cbn [applied].
  - case_guard; [|done]. by intros [= <-].
  - assert (∀ s', s' = s → Inv s' ∧ reads user umask Inv s0 s (ok (Some (if not_found e then Revoked else Corrupt)))
      (λ st, st ≠ Some Valid ∧ st ≠ Some OtherUser)) as Hok
      by (intros ? ->; split; [done|apply reads_ok; by destruct (not_found e)]).
    destruct (not_found e); [case_guard; [|done]|]; intros [= <-]; by apply Hok.
Qed.
(** What a status tells. *)
Definition told (s : Fs) (base : Path) (id : string) (uid o : N) (st : HipApprovalStatus) : Prop :=
  match st with
  | Valid => ∃ found bytes, approved digest s base o found bytes ∧ approval_id found = id ∧ owner_uid found = uid
  | OtherUser => ∃ found, described s base id o found ∧ owner_uid found ≠ uid
  | Revoked | Corrupt => True
  end.
Lemma reads_status base id uid o v s :
  reads user umask (eq s) s s (status_at digest base id uid o v) (told s base id uid o).
Proof.
  unfold status_at. apply reads_let_ensure. intros Hu.
  apply reads_let_pure. intros [] Hid. eapply reads_bind; [by apply reads_inspect_all|]. intros [st|] [Hv Ho].
  { apply reads_ok. by destruct st. }
  eapply reads_either; [by apply reads_private_dir|intros [] _|intros e].
  2: { eapply reads_either; [by apply (reads_pure _ _ _ _ _ (Err e) (λ _, False))|done|]. intros e'. by apply reads_ok. }
  assert (∀ P : Prop, P → reads user umask (eq s) s s (if v then validate_approval_ancestors base else ok ()) (λ _, True)) as Hanc.
  { intros _ _. destruct v; [|by apply reads_ok].
    eapply reads_mono; [|by apply reads_ancestors]. done. }
  eapply reads_either; [by apply (Hanc True)|intros [] _|intros e; by apply reads_ok].
  eapply reads_either; [by apply reads_unbound|intros found Hf|intros e; by apply reads_ok].
  destruct (N.eqb_spec (owner_uid found) uid) as [Hou|Hou]; cbn [negb]; [|apply reads_ok; by exists found].
  eapply reads_either; [by apply reads_resolve_at| |intros e; by apply reads_ok].
  intros a (bytes & Ha & Hi & Hw & _). apply reads_ok. by exists (approved_info a), bytes.
Qed.
Lemma reads_resolve id uid s : reads user umask (eq s) s s (resolve digest id uid) (λ a,
  uid ≠ 0 ∧ Forall (safe_ancestor s) (ancestors APPROVAL_DIRECTORY) ∧ ∃ bytes,
    approved digest s APPROVAL_DIRECTORY 0 (approved_info a) bytes ∧ approval_id (approved_info a) = id ∧
    owner_uid (approved_info a) = uid ∧ bytes ≠ ""%string ∧ approved_path a = APPROVAL_DIRECTORY ++ [id; SCRIPT_NAME]).
Proof.
  eapply reads_bind; [by apply reads_check|]. intros _ _. apply reads_let_ensure. intros Hu.
  eapply reads_bind; [by apply reads_ancestors|]. intros [] Ha.
  eapply reads_mono; [|by apply reads_resolve_at]. intros a Hr. split; [by destruct (N.eqb_spec uid 0)|]. by split.
Qed.

(** The chain that [resolve] checks keeps other users out, if the root directory does. *)
Lemma approved_trusted s found bytes : withstands s false [] → Forall (safe_ancestor s) (ancestors APPROVAL_DIRECTORY) →
  approved digest s APPROVAL_DIRECTORY 0 found bytes → trusted s (APPROVAL_DIRECTORY ++ [approval_id found; SCRIPT_NAME]).
Proof.
  intros Hroot Ha ((_ & _ & Hd & _) & Hf & _) q Hq%ancestors_on_the_way.
  assert (∀ p, safe_ancestor s p → ∀ last, withstands s last p) as Hsafe.
  { intros p (i & Hi & _ & Hu & Hm) last. exists i. split; [done|]. split; [done|]. by left. }
  assert (∀ m, N.land m 63 = 0 → N.land m 18 = 0) as Hprivate.
  { intros m Hm. change 18 with (N.land 63 18). by rewrite N.land_assoc, Hm. }
  assert (∀ m, N.land m 511 = 320 → N.land m 18 = 0) as Hsealed.
  { intros m Hm. change 18 with (N.land 511 18). by rewrite N.land_assoc, Hm. }
  cbn in Ha. rewrite !list.Forall_cons in Ha. destruct Ha as (H4 & H3 & H2 & H1' & _).
  cbn in Hq. rewrite !elem_of_cons in Hq.
  destruct Hq as [->|[->|[->|[->|[->|[->|[->|Hq]]]]]]]; [| |by apply Hsafe..|done|by apply elem_of_nil in Hq].
  - destruct Hf as (i & Hi & _ & Hu & Hm). exists i. split; [done|]. split; [done|]. left. by apply Hsealed.
  - destruct Hd as (i & Hi & _ & Hu & Hm). exists i. split; [done|]. split; [done|]. left. by apply Hprivate.
Qed.
(** C10: A resolved approval was approved: on every run that returns [Ok], the files, which
    no run changes, hold in a root-owned chain of directories the script and its
    metadata, private and unaltered since the approval, and the approval is the asking
    user's, who is not root; whatever other users do to the files afterwards leaves the
    script as it is. Resolving ends whatever the system answers. *)
Theorem resolve_guarded id uid :
  halts (resolve digest id uid) ∧
  ∀ s s' l o, returns (resolve digest id uid) l o → files_after user umask s l = Some s' →
    s' = s ∧ ∃ r, o = Some r ∧ ∀ a, r = Ok a →
      uid ≠ 0 ∧ Forall (safe_ancestor s) (ancestors APPROVAL_DIRECTORY) ∧ ∃ bytes,
        approved digest s APPROVAL_DIRECTORY 0 (approved_info a) bytes ∧ approval_id (approved_info a) = id ∧
        owner_uid (approved_info a) = uid ∧ bytes ≠ ""%string ∧
        approved_path a = APPROVAL_DIRECTORY ++ [id; SCRIPT_NAME] ∧
        (withstands s false [] → ∀ later, rtc unprivileged s later → later (approved_path a) = s (approved_path a)).
Proof.
  split.
  - pose proof halts_file. pose proof halts_read_metadata. pose proof halts_ancestors. pose proof halts_read_script.
    unfold resolve, resolve_with_control, resolve_at_with_control, check, try. halting.
  - intros s s' l o Hr Hf. destruct (reads_run _ _ _ _ _ _ _ _ (reads_resolve id uid s) Hr Hf) as (-> & r & -> & Hp).
    split; [done|]. exists r. split; [done|]. intros a ->. destruct Hp as (? & Hanc & bytes & Ha & Hi & ? & ? & Hpath).
    split; [done|]. split; [done|]. exists bytes. do 4 (split; [done|]). split; [done|]. intros Hroot later Hl.
    rewrite Hpath, <- Hi. eapply trusted_steps; [exact Hl|by eapply approved_trusted|].
    exists []. rewrite <- (app_nil_r (_ ++ _)) at 2. apply below_app.
Qed.
(** C11: Installing is atomic: whenever a run of [install_at] stops, nothing but its temporary
    directory differs from before, or the whole approval is there under its identifier
    and nothing else differs; and when it returns an approval it is there. *)
Theorem install_is_atomic base bytes path uid file_owner s0 :
  (∀ l t s, plays (install_at digest base bytes path uid file_owner) l t → files_after user umask s0 l = Some s →
     settled digest user umask s0 base bytes path uid s) ∧
  ∀ l o s, returns (install_at digest base bytes path uid file_owner) l o → files_after user umask s0 l = Some s →
    ∃ r, o = Some r ∧ ∀ found, r = Ok found → installed digest user umask s0 base bytes path uid s found.
Proof.
  pose proof (install_approval_spec digest user umask s0 base bytes path uid file_owner) as Hi. split.
  - intros l t s Hp Hf. by eapply fspec_holds; [|exact Hi|exact Hp|exact Hf]; left.
  - intros l o s Hp Hf. destruct (fspec_ends _ _ _ _ _ _ _ _ _ Hi Hp Hf) as (r & -> & _ & Hr). by exists r.
Qed.
(** An installed approval resolves to nothing but itself: a later run that resolves it
    returns exactly the approval that was installed, its path holds exactly the script
    that was installed, and only for the user who approved it. *)
Lemma installed_script_resolves `{!SerdeLaws StoredMetadata} base bytes path uid owner s0 s1 s2 found a uid' l1 l2 :
  returns (install_at digest base bytes path uid owner) l1 (Some (Ok found)) → files_after user umask s0 l1 = Some s1 →
  returns (resolve_at digest base (approval_id found) uid' owner) l2 (Some (Ok a)) → files_after user umask s1 l2 = Some s2 →
  uid' = uid ∧ approved_info a = found ∧ approved_path a = base ++ [approval_id found; SCRIPT_NAME] ∧
  inode_kind <$> s2 (approved_path a) = Some (Regular bytes).
Proof.
  intros Hi1 Hf1 Hr2 Hf2.
  destruct (fspec_ends _ _ _ _ _ _ _ _ _ (install_approval_spec _ _ _ _ _ _ _ _ _) Hi1 Hf1) as (r & [= <-] & _ & Hr).
  destruct (Hr found eq_refl) as (_ & (Hu & _ & _ & _ & Hs & encoded & Hv & _ & Hm) & _).
  destruct (reads_run _ _ _ _ _ _ _ _ (reads_resolve_at _ _ _ _ _ s1 eq_refl base _ uid' owner) Hr2 Hf2)
    as (-> & r & [= <-] & b & ((_ & _ & _ & Hid & enc & Hsm & Hj) & _) & Hia & Hua & _ & ->).
  destruct Hsm as (i & Hsi & Hk & _). rewrite Hia, Hm in Hsi. injection Hsi as <-. injection Hk as <-.
  rewrite (from_slice_to_vec _ _ Hv) in Hj. injection Hj as Hj. rewrite <- Hj in *.
  split; [congruence|]. split; [done|]. split; [done|]. by rewrite Hs.
Qed.
(** C12: Revocation is atomic and final: whenever a run of [revoke_at] stops, the approval is
    as it was or gone; once it returned [Ok], which only the approval's user gets it
    to, no run resolves the approval for anyone. *)
Theorem revocation_is_final base id uid owner s0 :
  (∀ l t s, plays (revoke_at base id uid owner) l t → files_after user umask s0 l = Some s →
     whole_or_gone s0 base id s) ∧
  ∀ l s1, returns (revoke_at base id uid owner) l (Some (Ok ())) → files_after user umask s0 l = Some s1 →
    (s0 (base ++ [id]) = None ∨ ∃ found, described s0 base id owner found ∧ owner_uid found = uid) ∧
    ∀ uid' l' o s2, returns (resolve_at digest base id uid' owner) l' o → files_after user umask s1 l' = Some s2 →
      ∃ e, o = Some (Err e).
Proof.
  pose proof (revoke_at_spec user umask s0 base id uid owner) as Hi. split.
  - intros l t s Hp Hf. eapply fspec_holds; [|exact Hi|exact Hp|exact Hf]. split; [by left|done].
  - intros l s1 Hp Hf. destruct (fspec_ends _ _ _ _ _ _ _ _ _ Hi Hp Hf) as (r & [= <-] & Hr).
    destruct (Hr eq_refl) as [Hn Hw]. split; [done|]. intros uid' l' o s2 Hr2 Hf2.
    destruct (reads_run _ _ _ _ _ _ _ _ (reads_resolve_at _ _ _ _ _ s1 eq_refl base _ uid' owner) Hr2 Hf2)
      as (-> & [a|e] & -> & Ha); [|by exists e].
    destruct Ha as (b & ((_ & _ & (i & Hd & _) & _) & _) & Hia & _). rewrite Hia, Hn in Hd. done.
Qed.
End promises.

(** * Examples *)
Module ApprovalExample.
#[local] Instance uuids : UuidFormat :=
  {| uuid_as_bytes _ := ""; uuid_to_string _ := "1f"; uuid_parse_str s := if String.eqb s "1f" then Some 1 else None |}.
#[local] Instance base64 : Base64 := Concrete.plain_base64.
(** The sha2 crate, here a constant. *)
Definition digest (_ : string) : string := "0123456789abcdef0123456789abcdef".
Definition found : ApprovalInfo := {|
  approval_id := "1f"; owner_uid := 1000; sha256 := sha256_hex digest ""; info_original_path := "/home/u/hip.sh" |}.
#[local] Instance json : SerdeJson StoredMetadata :=
  {| to_vec m := if decide (version m = 1 ∧ approval_id (info m) = "1f" ∧ owner_uid (info m) = 1000 ∧
                    sha256 (info m) = sha256 found ∧ info_original_path (info m) = "/home/u/hip.sh")
                 then Some "approval" else None;
     from_slice s := if String.eqb s "approval" then Some {| version := 1; info := found |} else None |}.
#[local] Instance json_laws : SerdeLaws StoredMetadata.
Proof.
  split; intros [v [a b c d]] s; cbn.
  - case_decide as Hd; [|done]. cbn in Hd. destruct Hd as (-> & -> & -> & -> & ->). by intros [= <-].
  - case_decide; [|done]. by intros [= <-].
Qed.
Definition root_dir (mode : N) : option Inode :=
  Some {| inode_kind := Directory; inode_uid := 0; inode_mode := mode; inode_links := 2 |}.
Definition before : Fs := λ p,
  if decide (p = APPROVAL_DIRECTORY) then root_dir 448
  else if decide (p ∈ ancestors APPROVAL_DIRECTORY) then root_dir 493 else None.
Definition script : string := "#!/bin/sh".
Definition installing : option (trace FileE * Fs * option (result Failure ApprovalInfo)) :=
  obey 0 18 200 before (install_at digest APPROVAL_DIRECTORY script "/home/u/hip.sh" 1000 0).
Definition with_approval : Fs := left_files installing.
Definition approval : ApprovedScript := {| approved_info := found; approved_path := APPROVAL_DIRECTORY ++ ["1f"; "script"] |}.
Definition resolving (s : Fs) (uid : N) := obey 0 18 200 s (resolve digest "1f" uid).
Definition resolving_at (s : Fs) (uid : N) := obey 0 18 200 s (resolve_at digest APPROVAL_DIRECTORY "1f" uid 0).
Definition revoking : option (trace FileE * Fs * option (result Failure ())) :=
  obey 0 18 200 with_approval (revoke_at APPROVAL_DIRECTORY "1f" 1000 0).
Lemma installing_succeeds : result_of installing = Some (Some (Ok found)).
Proof. by vm_compute. Qed.
Lemma resolving_succeeds : result_of (resolving with_approval 1000) = Some (Some (Ok approval)).
Proof. by vm_compute. Qed.
Lemma resolves_at : result_of (resolving_at with_approval 1000) = Some (Some (Ok approval)).
Proof. by vm_compute. Qed.
Lemma revokes : result_of revoking = Some (Some (Ok ())).
Proof. by vm_compute. Qed.
Example another_user_is_refused : result_of (resolving with_approval 1001) =
  Some (Some (Err (Message "HIP approval belongs to another user"))).
Proof. by vm_compute. Qed.
Lemma resolve_guarded_witness : 1000 ≠ 0 ∧ Forall (safe_ancestor with_approval) (ancestors APPROVAL_DIRECTORY) ∧
  ∃ bytes, approved digest with_approval APPROVAL_DIRECTORY 0 found bytes.
Proof.
  destruct (obeyed _ _ _ _ _ _ resolving_succeeds) as [Hr Hf].
  destruct (resolve_guarded digest 0 18 "1f" 1000) as [_ Hg]. destruct (Hg _ _ _ _ Hr Hf) as (_ & r & [= <-] & Ha).
  destruct (Ha approval eq_refl) as (? & ? & b & ? & _). split; [done|]. split; [done|]. by exists b.
Defined.
Lemma install_is_atomic_witness :
  installed digest 0 18 before APPROVAL_DIRECTORY script "/home/u/hip.sh" 1000 with_approval found.
Proof.
  destruct (obeyed _ _ _ _ _ _ installing_succeeds) as [Hr Hf].
  destruct (install_is_atomic digest 0 18 APPROVAL_DIRECTORY script "/home/u/hip.sh" 1000 0 before) as [_ Hi].
  destruct (Hi _ _ _ Hr Hf) as (r & [= <-] & Ha). by apply Ha.
Defined.
Lemma installed_script_resolves_witness :
  inode_kind <$> left_files (resolving_at with_approval 1000) (APPROVAL_DIRECTORY ++ ["1f"; "script"]) = Some (Regular script).
Proof.
  destruct (obeyed _ _ _ _ _ _ installing_succeeds) as [Hr1 Hf1]. destruct (obeyed _ _ _ _ _ _ resolves_at) as [Hr2 Hf2].
  by destruct (installed_script_resolves digest 0 18 _ _ _ _ _ _ _ _ _ _ _ _ _ Hr1 Hf1 Hr2 Hf2) as (_ & _ & _ & Hs).
Defined.
Lemma revocation_is_final_witness : ∃ e, result_of (resolving_at (left_files revoking) 1000) = Some (Some (Err e)).
Proof.
  destruct (obeyed _ _ _ _ _ _ revokes) as [Hr Hf].
  destruct (revocation_is_final digest 0 18 APPROVAL_DIRECTORY "1f" 1000 0 with_approval) as [_ Hi].
  destruct (Hi _ _ Hr Hf) as [_ Hn].
  destruct (result_of (resolving_at (left_files revoking) 1000)) as [o|] eqn:E; [|by vm_compute in E].
  destruct (obeyed _ _ _ _ _ _ E) as [Hr2 Hf2]. destruct (Hn _ _ _ _ Hr2 Hf2) as (e & ->). by exists e.
Defined.
End ApprovalExample.
