(* ===== verification/DeviceAnchor.v ===== *)
(** The installation's identity (apps/gpservice/src/device_anchor.rs): a record of root
    that is made once, from a hardware address or at random, and found again ever after. *)
From ITree Require Import ITree.
From S2P Require Import Prelude Utf8 Text ThirdParty GpHttp Transport Interaction FileStore.

#[local] Open Scope N_scope.
#[local] Open Scope flow_scope.

Record AnchorRecord := { version : N; anchor : DeviceAnchor }.
Definition STATE_DIRECTORY : Path := ["var"; "lib"; "gp"].
Definition is_unix (a : DeviceAnchor) : bool := match source a with UnixMac | UnixRandom => true | MacosIokit => false end.

Section device_anchor.
Context `{Base64} `{SerdeJson AnchorRecord}.
Variable sha256 : string → string.
(** An address with six zero bytes, or of a group, tells nothing. *)
Definition usable_mac (mac : string) : bool :=
  negb (all_bytes (λ b, b =? 0) mac) && match mac with String a _ => negb (N.testbit (byte_val a) 0) | EmptyString => false end.
Definition collect_from (mac : option string) (random : flow FileE string) : flow FileE DeviceAnchor :=
  let random_anchor := (let* bytes := random in ok (derive sha256 UnixRandom bytes)) in
  match mac with
  | Some mac => if usable_mac mac then ok (derive sha256 UnixMac mac) else random_anchor
  | None => random_anchor
  end.
Definition collect_unix : flow FileE DeviceAnchor :=
  let* mac := try MacAddressE in
  collect_from mac (let* r := ask RandomE in pure (map_err (λ _, Message "cannot initialize device anchor") r)).

Definition validate_metadata (m : Metadata) (owner : N) (directory : bool) : result Failure () :=
  _ ← ensure (if directory then is_dir m else is_file m) (Message "unexpected device anchor state type");
  _ ← ensure (m_uid m =? owner) (Message "unexpected device anchor state owner");
  _ ← ensure (N.land (m_mode m) 511 =? if directory then 448 else 384) (Message "unsafe device anchor state permissions");
  if directory then Ok () else ensure (m_nlink m =? 1) (Message "device anchor state must not have hard links").
Definition read_record (path : Path) (owner : N) : flow FileE (option DeviceAnchor) :=
  let* r := ask (OpenE path None) in
  match r with
  | Err error => if not_found error then ok None else pure (answered (Err error))
  | Ok _ =>
      let* m := try (MetadataE path) in
      let* _ := pure (validate_metadata m owner false) in
      let* m := try (MetadataE path) in
      let* _ := pure (ensure (m_len m <=? 4096) (Message "oversized device anchor record")) in
      let* bytes := try (ReadAllE path) in
      let* record := pure (context "malformed device anchor record" (ok_or (Message "json") (from_slice bytes))) in
      let* _ := pure (ensure ((version record =? 1) && validate (anchor record))
        (Message "unsupported or invalid device anchor record")) in
      let* _ := pure (ensure (is_unix (anchor record)) (Message "invalid Unix device anchor source")) in
      ok (Some (anchor record))
  end.
(** The end of [resolve_in] for a record that is missing. A record that cannot take its place
    stays in the error, which its temporary file is removed with. *)
Definition make_record (directory path : Path) (collect : flow FileE DeviceAnchor) : flow FileE DeviceAnchor :=
  let* made := collect in
  let* _ := pure (ensure (validate made && is_unix made) (Message "invalid collected Unix device anchor")) in
  let* name := try (TempFileE directory) in
  let temporary := directory ++ [name] in
  let* _ := with_temp_file temporary (
    let* _ := try (SetModeE temporary 384) in
    let* bytes := pure (ok_or (Message "json") (to_vec {| version := 1; anchor := made |})) in
    let* _ := write_all temporary bytes in
    try (SyncE temporary)) in
  let* _ := try (RenameNewE temporary path) in
  let* _ := try (SyncE directory) in
  ok made.
Definition resolve_in (directory : Path) (owner : N) (collect : flow FileE DeviceAnchor) : flow FileE DeviceAnchor :=
  let* r := ask (CreateDirE directory 448) in
  let* _ := match r with
            | Ok _ => match parent directory with Some above => try (SyncE above) | None => ok () end
            | Err error => if already_exists error then ok () else pure (answered (Err error)) end in
  let* m := try (MetadataE directory) in
  let* _ := pure (validate_metadata m owner true) in
  let path := directory ++ ["hardware-id"] in
  let lock := directory ++ ["hardware-id.lock"] in
  let* _ := try (OpenE lock (Some 384)) in
  let* m := try (MetadataE lock) in
  let* _ := pure (validate_metadata m owner false) in
  let* _ := try (LockE lock) in
  let* found := read_record path owner in
  match found with
  | Some found => ok found
  | None => make_record directory path collect
  end.
Definition resolve : flow FileE DeviceAnchor :=
  either (resolve_in STATE_DIRECTORY 0 collect_unix) (λ r,
    pure (context "cannot resolve persistent GUI device anchor" r)).
End device_anchor.

(** * The record is made once *)
Section resolving.
Context `{Base64} `{SerdeJson AnchorRecord} `{!SerdeLaws AnchorRecord}.
Variables (user umask : N) (s0 : Fs) (directory : Path) (collect : flow FileE DeviceAnchor).
Notation path := (directory ++ ["hardware-id"]).
Notation lock := (directory ++ ["hardware-id.lock"]).
Definition ours (p : Path) : Prop := p = path.
Definition genuine (a : DeviceAnchor) : Prop := validate a = true ∧ is_unix a = true.
(** The record of an anchor. *)
Definition recorded (s : Fs) (a : DeviceAnchor) : Prop := genuine a ∧ ∃ bytes,
  inode_kind <$> s path = Some (Regular bytes) ∧ from_slice bytes = Some {| version := 1; anchor := a |}.
Definition made_once (s : Fs) : Prop := s path = s0 path ∨ (s0 path = None ∧ ∃ a, recorded s a).
Definition unmade (s : Fs) : Prop := s path = s0 path.
Definition once : Fs → Prop := keeping s0 ours made_once.
Definition pending : Fs → Prop := keeping s0 ours unmade.
Notation fspec := (fspec user umask once s0).
Notation reads := (reads user umask once s0).
Notation post := (post s0 ours made_once).
Notation fresh_path := (fresh_path s0 ours).
Lemma made_once_ours s s' : (∀ p, ours p → s' p = s p) → made_once s → made_once s'.
Proof. intros Ho. unfold made_once, recorded. by rewrite !Ho. Qed.
Lemma unmade_ours s s' : (∀ p, ours p → s' p = s p) → unmade s → unmade s'.
Proof. intros Ho. unfold unmade. by rewrite !Ho. Qed.
Lemma pending_once s : pending s → once s.
Proof. intros [? ?]. split; [done|]. by left. Qed.
Lemma anchor_pending_except p s s' : fresh_path p → except p s s' → pending s → pending s'.
Proof. apply keeping_except, unmade_ours. Qed.
Lemma recorded_same s a a' : recorded s a → recorded s a' → a = a'.
Proof. intros [_ (b & Hb & Ha)] [_ (b' & Hb' & Ha')]. congruence. Qed.
Hypothesis Hcollect : ∀ s, once s → reads s collect (λ _, True).

Lemma reads_record s o : once s → reads s (read_record path o) (λ r, match r with Some a => recorded s a | None => s path = None end).
Proof.
  intros Hs. apply fspec_ask. intros [[]|e] s'; cbn [applied].
  - destruct (s path) as [i|] eqn:Ei; [|done]. case_guard; [|done]. intros [= <-]. split; [done|].
    eapply reads_bind; [by apply reads_metadata_try|]. intros m _. apply reads_let_pure. intros [] _.
    eapply reads_bind; [by apply reads_metadata_try|]. intros m' _. apply reads_let_ensure. intros _.
    eapply reads_bind; [by apply reads_all|]. intros bytes Hb. apply reads_let_pure. intros r Hr.
    apply reads_let_ensure. intros Hv. apply reads_let_ensure. intros Hu. apply reads_ok.
    apply andb_prop in Hv as [Hv%N.eqb_eq ?]. split; [done|]. exists bytes. split; [done|].
    destruct (from_slice bytes) as [r'|]; [|done]. injection Hr as <-. destruct r' as [v a]. cbn in *. by subst v.
  - destruct (not_found e); [case_guard; [|done]|]; intros [= <-]; (split; [done|]); [by apply reads_ok|by apply reads_pure].
Qed.
Lemma make_record_spec s : pending s → s path = None → fspec s (make_record directory path collect) (post recorded).
Proof.
  intros Hs Hn. pose proof (pending_once _ Hs). eapply post_reads; [done|by apply Hcollect|]. intros made _.
  apply fspec_let_pure. destruct (validate made && is_unix made) eqn:Eg; cbn [ensure]; [|done]. apply andb_prop in Eg.
  apply post_try; [done|by intros e s' [= <-]|]. intros name s'. cbn [applied].
  destruct (prefixed ".tmp" name) eqn:En; [|done]. case_guard as Hnew; [|done]. intros [= <-].
  assert (¬ ours (directory ++ [name])) as Ho by (intros [= ->]%(inj _); by vm_compute in En).
  set (Staged := λ b, staged_file user umask s0 ours unmade unmade_ours s _ _ 384 b Hs Ho Hnew).
  destruct (Staged "") as (Hp & Hc & Hm & _). set (p := directory ++ [name]) in *. split; [by apply pending_once|].
  eapply (post_bind _ _ _ _ _ _ _ (λ s _, pending s ∧ s path = None ∧ ∃ bytes,
    s p = Some (own_file user bytes 384) ∧ from_slice bytes = Some {| version := 1; anchor := made |})).
  - apply post_temp_file; [apply made_once_ours|done|].
    apply post_try; [by apply pending_once|by intros e s' [= <-]|]. intros [] s' [= <-]. split; [by apply pending_once|].
    apply fspec_let_pure. destruct (to_vec _) as [bytes|] eqn:Ev; cbn [ok_or]; [|by split; [apply pending_once|]].
    destruct (Staged bytes) as (_ & _ & _ & Hw & He & Hf).
    apply post_write; [apply made_once_ours|by apply pending_once|done|]. intros s' -> _.
    apply fspec_last. intros r s' [= <-]. split; [by apply pending_once|]. split; [by apply pending_once|].
    destruct r as [[]|]; [|done]. split; [done|]. split; [rewrite He; [done|by intros [= <-]%(inj _)]|].
    exists bytes. split; [done|]. by apply from_slice_to_vec.
  - clear Staged. intros s1 [] _ (Hs1 & Hn1 & bytes & Hf & Hj).
    apply post_try; [by apply pending_once|by intros e s' [= <-]|]. intros [] s'. cbn [applied].
    case_guard; [|done]. cbn [mbind option_bind]. case_guard; [|done]. cbn [mbind option_bind]. intros [= <-].
    rewrite (moved_file _ _ _ _ Hf) by done. fold (persisted p path (own_file user bytes 384) s1).
    assert (recorded (persisted p path (own_file user bytes 384) s1) made) as Hr.
    { split; [done|]. exists bytes. by unfold persisted; rewrite put_same. }
    assert (once (persisted p path (own_file user bytes 384) s1)) as Ho1.
    { split; [by apply persisted_kept; [| |apply Hs1]|]. right. split; [|by exists made]. destruct Hs1 as [_ <-]. done. }
    split; [done|]. apply post_try; [done|by intros e s' [= <-]|]. intros [] s' [= <-]. split; [done|]. by apply fspec_ok.
Qed.
Lemma resolve_in_spec owner : fspec s0 (resolve_in directory owner collect) (post recorded).
Proof.
  assert (pending s0) as Hs by (split; [by intros p|done]). pose proof (pending_once _ Hs) as Hs'.
  assert (¬ ours directory) as Hdir.
  { intros Hd%(f_equal length). rewrite length_app in Hd. cbn in Hd. lia. }
  assert (¬ ours lock) as Hlock by (by intros [= ?]%(inj _)).
  assert (∀ s, pending s → fspec s
    (let* m := try (MetadataE directory) in
     let* _ := pure (validate_metadata m owner true) in
     let* _ := try (OpenE lock (Some 384)) in
     let* m := try (MetadataE lock) in
     let* _ := pure (validate_metadata m owner false) in
     let* _ := try (LockE lock) in
     let* found := read_record path owner in
     match found with
     | Some found => ok found
     | None => make_record directory path collect
     end)%flow (post recorded)) as Hrest.
  { clear Hs Hs'. intros s Hs. pose proof (pending_once _ Hs) as Hs'.
    eapply post_reads; [done|by apply reads_metadata_try|]. intros m _. apply fspec_let_pure.
    destruct (validate_metadata m owner true) as [[]|]; [|done].
    apply post_try; [done|by intros e s'; cbn [applied]; destruct (not_found e); [case_guard|]; intros [= <-]|].
    intros [] s' Ha.
    assert (pending s') as Hs1.
    { cbn [applied] in Ha. destruct (s lock) eqn:El; [case_guard; [|done]; by injection Ha as <-|]. injection Ha as <-.
      apply (anchor_pending_except lock s); [eapply fresh_missing; [apply Hs|done..]| |exact Hs]. intros q Hq. by apply put_other. }
    clear Ha Hs Hs'. pose proof (pending_once _ Hs1) as Hs'. split; [done|].
    eapply post_reads; [done|by apply reads_metadata_try|]. intros d _. apply fspec_let_pure.
    destruct (validate_metadata d owner false) as [[]|]; [|done].
    apply post_try; [done|by intros e s2 [= <-]|]. intros [] s2 [= <-]. split; [done|].
    eapply post_reads; [done|by apply reads_record|]. intros [a|] Hr; [by apply fspec_ok|by apply make_record_spec]. }
  apply fspec_ask. intros [[]|e] s1; cbn [applied].
  - case_guard as Hn; [|done]. intros [= <-].
    assert (pending (put directory (Some (new_inode user umask Directory 448)) s0)) as Hs1.
    { apply (anchor_pending_except directory s0); [eapply fresh_missing; [apply Hs|done..]| |exact Hs]. intros q Hq. by apply put_other. }
    split; [by apply pending_once|]. eapply (post_bind _ _ _ _ _ _ _ (λ s _, pending s)); [|by intros s' [] _; apply Hrest].
    destruct (parent directory) as [above|]; [|by apply fspec_ok; split; [apply pending_once|]].
    apply fspec_last. intros r s2 [= <-]. split; [by apply pending_once|]. split; [by apply pending_once|]. by destruct r.
  - destruct (already_exists e); [case_guard; [|done]|]; intros [= <-]; (split; [done|]).
    + eapply (post_bind _ _ _ _ _ _ _ (λ s _, pending s)); [by apply fspec_ok|]. intros s' [] _. apply Hrest.
    + eapply (post_bind _ _ _ _ _ _ _ (λ s _, False)); [by apply fspec_pure|done].
Qed.
End resolving.

Section promises.
Context `{Base64} `{SerdeJson AnchorRecord} `{!SerdeLaws AnchorRecord} (sha256 : string → string).
Variables (user umask : N).
Lemma reads_collect Inv s0 s : Inv s → reads user umask Inv s0 s (collect_unix sha256) (λ _, True).
Proof.
  intros Hs. eapply reads_bind.
  - apply (reads_asked _ _ _ _ _ _ _ (λ _, True)); [done|]. intros [[mac|]|e] s'; cbn [applied]; [case_guard; [|done]|..]; by intros [= <-].
  - intros mac _. assert (reads user umask Inv s0 s (let* bytes := (let* r := ask RandomE in
      pure (map_err (λ _, Message "cannot initialize device anchor") r)) in ok (derive sha256 UnixRandom bytes))%flow (λ _, True)) as Hr.
    { eapply reads_bind; [|intros; by apply reads_ok]. apply (reads_asked _ _ _ _ _ _ _ (λ _, True)); [done|].
      intros [b|e] s'; cbn [applied]; [case_guard; [|done]|]; by intros [= <-]. }
    unfold collect_from. destruct mac as [mac|]; [|done]. destruct (usable_mac mac); [by apply reads_ok|done].
Qed.
Notation resolve_in directory owner := (resolve_in directory owner (collect_unix sha256)).
(** C14: The installation's identity is made once: wherever a run of [resolve_in] stops, every
    file there was is there unchanged, and a record is whole or not there; an anchor that
    is returned is valid, of a Unix source and the one recorded, so every later run that
    returns an anchor, on files that keep the record, returns the same. *)
Theorem anchor_is_made_once directory owner s0 :
  (∀ l t s, plays (resolve_in directory owner) l t → files_after user umask s0 l = Some s →
     once s0 directory s ∧ ∀ p, s0 p ≠ None → s p = s0 p) ∧
  ∀ l a s, returns (resolve_in directory owner) l (Some (Ok a)) → files_after user umask s0 l = Some s →
    recorded directory s a ∧ ∀ s1 l' a' s2, s1 (directory ++ ["hardware-id"]) = s (directory ++ ["hardware-id"]) →
      returns (resolve_in directory owner) l' (Some (Ok a')) → files_after user umask s1 l' = Some s2 → a' = a.
Proof.
  assert (∀ s0, once s0 directory s0) as Hinit by (intros s; split; [by intros p|by left]).
  assert (∀ s0 s, once s0 directory s → ∀ p, s0 p ≠ None → s p = s0 p) as Hkept.
  { intros f s [Hk Hr] p Hp. destruct (decide (p = directory ++ ["hardware-id"])) as [->|Hne]; [|by apply Hk].
    destruct Hr as [Hr|[Hr _]]; [done|]. by rewrite Hr in Hp. }
  assert (∀ s0, fspec user umask (once s0 directory) s0 s0 (resolve_in directory owner)
    (post s0 (ours directory) (made_once s0 directory) (recorded directory))) as Hspec.
  { intros f. apply resolve_in_spec. intros s Hs. by apply reads_collect. }
  split.
  - intros l t s Hp Hf. assert (once s0 directory s) as Ho by (by eapply fspec_holds; [|apply Hspec|exact Hp|exact Hf]).
    split; [done|]. by apply Hkept.
  - intros l a s Hr Hf. destruct (fspec_ends _ _ _ _ _ _ _ _ _ (Hspec s0) Hr Hf) as (r & [= <-] & _ & Ha).
    split; [done|]. intros s1 l' a' s2 He Hr2 Hf2.
    destruct (fspec_ends _ _ _ _ _ _ _ _ _ (Hspec s1) Hr2 Hf2) as (r & [= <-] & Ho & Ha').
    eapply recorded_same; [exact Ha'|]. unfold recorded in *. rewrite (Hkept _ _ Ho); rewrite He; [done|].
    destruct Ha as (_ & b & Hb & _). by destruct (s _).
Qed.
End promises.

(** * Examples *)
Module AnchorExample.
#[local] Instance base64 : Base64 := Concrete.plain_base64.
Definition sha256 (_ : string) : string := "0123456789abcdef0123456789abcdef".
Definition made : DeviceAnchor := derive sha256 UnixRandom "".
#[local] Instance json : SerdeJson AnchorRecord :=
  {| to_vec r := if decide (version r = 1 ∧ anchor r = made) then Some "record" else None;
     from_slice s := if String.eqb s "record" then Some {| version := 1; anchor := made |} else None |}.
#[local] Instance json_laws : SerdeLaws AnchorRecord.
Proof.
  split; intros [v a] s; cbn; case_decide as Hd; try done; intros [= <-]; [|done]. by destruct Hd as [-> ->].
Qed.
Definition empty : Fs := λ _, None.
Definition first := obey 0 18 200 empty (resolve_in STATE_DIRECTORY 0 (collect_unix sha256)).
Definition second := obey 0 18 200 (left_files first) (resolve_in STATE_DIRECTORY 0 (collect_unix sha256)).
Lemma makes : result_of first = Some (Some (Ok made)).
Proof. by vm_compute. Qed.
Lemma anchor_is_made_once_witness : recorded STATE_DIRECTORY (left_files first) made ∧
  (∃ a, result_of second = Some (Some (Ok a))) ∧ ∀ a, result_of second = Some (Some (Ok a)) → a = made.
Proof.
  destruct (obeyed _ _ _ _ _ _ makes) as [Hr Hf].
  destruct (anchor_is_made_once sha256 0 18 STATE_DIRECTORY 0 empty) as [_ Ho].
  destruct (Ho _ _ _ Hr Hf) as [Hrec Hagain]. split; [done|]. split; [by eexists; vm_compute|].
  intros a Ha. destruct (obeyed _ _ _ _ _ _ Ha) as [Hr2 Hf2]. by apply (Hagain _ _ _ _ eq_refl Hr2 Hf2).
Defined.
End AnchorExample.
