(* ===== verification/Collector.v ===== *)
(** The tools a privileged program runs to learn about the host
    (crates/gpapi/src/process/collection.rs): where they are looked for, which are trusted,
    and how they are run. *)
From S2P Require Import Prelude Utf8 Text GpHttp.
From ITree Require Import ITree.
From S2P Require Import Interaction FileStore Trust.

#[local] Open Scope N_scope.

Record Output := { success : bool; stdout : string }.
(** What the system answers; commands and checks in the order they are asked for. *)
Record Host := {
  files : Fs;
  (** [fs::canonicalize] *)
  canonicalize : Path → option Path;
  effective_uid : N;
  (** [split_paths] of the variable GP_COMMAND_PATH, absolute ones as paths. *)
  gp_command_path : list (option Path);
  checks : nat → result FileError ();
  controlled : nat → Path → list string → list (string * string) → result FileError Output;
}.
Definition TOOL_DIRECTORIES : list Path :=
  [["usr"; "bin"]; ["usr"; "sbin"]; ["bin"]; ["sbin"]; ["usr"; "local"; "bin"]; ["usr"; "local"; "sbin"];
   ["run"; "current-system"; "sw"; "bin"]].

(** What is asked of the system is counted. *)
Abbreviation Controlled := (stm nat FileError).

Section collector.
Variable host : Host.
Definition symlink_metadata (p : Path) : option Metadata := metadata_of <$> files host p.
Definition tool_directories : list Path := omap id (gp_command_path host) ++ TOOL_DIRECTORIES.
Definition root_owned_part (path part : Path) : bool :=
  match symlink_metadata part with
  | None => false
  | Some metadata =>
      let mode := m_mode metadata in
      let writable := negb (N.land mode 18 =? 0) in
      let protected_ancestor := bool_decide (part ≠ path) && is_dir metadata && negb (N.land mode 512 =? 0) in
      (m_uid metadata =? 0) && (negb writable || protected_ancestor) && negb (is_symlink metadata)
  end.
Definition root_owned_path (path : Path) : bool := forallb (root_owned_part path) (ancestors_and_root path).
(** A canonical path is no symbolic link, [fs::metadata] of it is its own. *)
Definition resolve_executable (path : Path) (require_root : bool) : option Path :=
  resolved ← canonicalize host path;
  metadata ← symlink_metadata resolved;
  if is_file metadata && negb (N.land (m_mode metadata) 73 =? 0) && (negb require_root || root_owned_path resolved)
  then Some resolved else None.
Fixpoint resolve_in_directories (name : string) (directories : list Path) (require_root : bool) : option Path :=
  match directories with
  | [] => None
  | directory :: directories =>
      let found := directory ← canonicalize host directory;
        if require_root && negb (root_owned_path directory) then None
        else resolve_executable (directory ++ [name]) require_root in
      match found with Some p => Some p | None => resolve_in_directories name directories require_root end
  end.
Definition resolve (name : string) : option Path :=
  resolve_in_directories name tool_directories (effective_uid host =? 0).
Definition command_directories (require_root : bool) : list Path :=
  omap (λ directory,
    resolved ← canonicalize host directory;
    metadata ← symlink_metadata resolved;
    if is_dir metadata && (negb require_root || root_owned_path resolved) then Some resolved else None) tool_directories.
(** [join_paths] refuses a directory with a colon in its name. *)
Definition command_path (require_root : bool) : result FileError string :=
  let directories := command_directories require_root in
  if forallb (λ p, negb (contains ":" (display p))) directories
  then Ok (String.concat ":" (display <$> directories))
  else Err {| error_kind := OtherKind; file_error := "path segment contains separator `:`" |}.

(** ** Running: the state counts what was asked of the system *)
Definition next : Controlled nat := n ← get; _ ← modify S; mret n.
Definition check : Controlled () := n ← next; lift (checks host n).
Definition command_environment : result FileError (list (string * string)) :=
  path ← command_path (effective_uid host =? 0);
  Ok [("PATH", path); ("LC_ALL", "C"); ("HOME", if effective_uid host =? 0 then "/root" else "/")].
(** The child has this environment only, and the root as its directory. *)
Definition run_path (path : Path) (args : list string) : Controlled (option Output) :=
  _ ← check;
  env ← lift command_environment;
  n ← next;
  match controlled host n path args env with
  | Ok output => mret (Some output)
  | Err error => if decide (error_kind error = NotFound ∨ error_kind error = PermissionDenied) then mret None else fail error
  end.
Definition run (name : string) (args : list string) : Controlled (option Output) :=
  _ ← check;
  match resolve name with None => mret None | Some path => run_path path args end.
Definition run_executable (path : Path) (args : list string) : Controlled (option Output) :=
  _ ← check;
  match resolve_executable path (effective_uid host =? 0) with None => mret None | Some path => run_path path args end.
End collector.


(** * Trusted tools stay what they are *)
Lemma root_owned_trusted host p : root_owned_path host p = true → trusted (files host) p.
Proof.
  unfold root_owned_path. rewrite forallb_forall. intros Ha q Hq.
  specialize (Ha q). rewrite <- list_elem_of_In in Ha. specialize (Ha (ancestors_on_the_way _ _ Hq)).
  unfold root_owned_part, symlink_metadata in Ha. destruct (files host q) as [i|] eqn:Ei; [|done].
  cbn in Ha. boolify. exists i. split; [done|]. split; [done|].
  match goal with H : (_ || _)%bool = true |- _ => apply orb_prop in H as [Hw|Hw] end.
  - left. by boolify.
  - right. boolify. rewrite bool_decide_false by done. split; [done|]. split; [|unfold sticky; by apply negb_true_iff, N.eqb_neq].
    unfold is_dir in *. cbn in *. by destruct (inode_kind i).
Qed.
Lemma resolve_executable_trusted host path q : resolve_executable host path true = Some q →
  canonicalize host path = Some q ∧ trusted (files host) q ∧
  ∃ i bytes, files host q = Some i ∧ inode_kind i = Regular bytes ∧ N.land (inode_mode i) 73 ≠ 0.
Proof.
  unfold resolve_executable. destruct (canonicalize host path) as [r|]; cbn; [|done].
  unfold symlink_metadata. destruct (files host r) as [i|] eqn:Ei; cbn; [|done].
  destruct (_ && _ && _) eqn:Eb; [|done]. intros [= <-]. boolify. split; [done|].
  split; [by apply root_owned_trusted|]. unfold is_file in *. cbn in *.
  destruct (inode_kind i) as [b| | |] eqn:Ek; try done. exists i, b. by split.
Qed.
Lemma resolve_in_trusted host name dirs q : resolve_in_directories host name dirs true = Some q →
  trusted (files host) q ∧ ∃ i bytes, files host q = Some i ∧ inode_kind i = Regular bytes ∧ N.land (inode_mode i) 73 ≠ 0.
Proof.
  induction dirs as [|d dirs IH]; cbn; [done|].
  destruct (canonicalize host d) as [d'|]; cbn; [|done]. destruct (negb (root_owned_path host d')); [done|].
  destruct (resolve_executable host (d' ++ [name]) true) as [p|] eqn:Ep; [|done].
  intros [= <-]. by apply resolve_executable_trusted in Ep as (_ & ? & ?).
Qed.
Lemma command_directories_trusted host d : d ∈ command_directories host true → trusted (files host) d.
Proof.
  unfold command_directories. intros (d0 & _ & Hd)%list_elem_of_omap.
  destruct (canonicalize host d0) as [d'|]; cbn in Hd; [|done].
  destruct (symlink_metadata host d') as [m|]; cbn in Hd; [|done].
  destruct (is_dir m); [|done]. cbn in Hd. destruct (root_owned_path host d') eqn:Er; [|done]. injection Hd as <-.
  by apply root_owned_trusted.
Qed.
(** C15: What root runs to learn about the host stays what it is: whatever users without
    privileges do to the files after a tool was found, the tool, an executable file, and every
    directory on the way to it are unchanged; so are the directories of the command path,
    and nothing new can appear in these. *)
Theorem trusted_tools_stay host name q : effective_uid host = 0 → resolve host name = Some q →
  (∃ i bytes, files host q = Some i ∧ inode_kind i = Regular bytes ∧ N.land (inode_mode i) 73 ≠ 0) ∧
  ∀ s', rtc unprivileged (files host) s' →
    (∀ r, on_the_way q r → s' r = files host r) ∧
    ∀ d, d ∈ command_directories host true → (∀ r, on_the_way d r → s' r = files host r) ∧
      ∀ new, files host (d ++ [new]) = None → s' (d ++ [new]) = None.
Proof.
  intros Hroot Hq. unfold resolve in Hq. rewrite Hroot in Hq. apply resolve_in_trusted in Hq as [Ht Hx]. split; [done|].
  intros s' Hs. split; [by eapply trusted_steps|]. intros d Hd. apply command_directories_trusted in Hd.
  split; [by eapply trusted_steps|]. intros new. by eapply trusted_adds_nothing.
Qed.

(** * Examples *)
Module CollectorExample.
Definition inode (k : FileKind) (uid mode : N) : option Inode :=
  Some {| inode_kind := k; inode_uid := uid; inode_mode := mode; inode_links := 1 |}.
(** A tool in a directory of root, and a directory where everyone may write. *)
Definition some_files : Fs := λ p,
  if decide (p ∈ [[]; ["usr"]; ["usr"; "bin"]]) then inode Directory 0 493
  else if decide (p = ["usr"; "bin"; "tool"]) then inode (Regular "ELF") 0 493
  else if decide (p = ["tmp"]) then inode Directory 0 1023
  else if decide (p = ["tmp"; "tool"]) then inode (Regular "#!/bin/sh") 1000 493 else None.
Definition host : Host := {|
  files := some_files; canonicalize p := (λ _, p) <$> some_files p; effective_uid := 0;
  gp_command_path := [Some ["tmp"]; None]; checks _ := Ok ();
  controlled _ _ _ _ := Ok {| success := true; stdout := "1.0" |} |}.
(** The tool in [/tmp] is passed over, and could be replaced. *)
Example passed_over : resolve host "tool" = Some ["usr"; "bin"; "tool"] ∧
  command_directories host true = [["usr"; "bin"]] ∧
  unprivileged some_files (removed_all ["tmp"; "tool"] some_files).
Proof.
  split; [by vm_compute|]. split; [by vm_compute|].
  eapply (removes _ 1000 ["tmp"] "tool"); [done|by vm_compute|done|by right; vm_compute|by vm_compute|by left].
Qed.
Example runs : answer (run host "tool" []) 0%nat = Ok (Some {| success := true; stdout := "1.0" |}).
Proof. by vm_compute. Qed.
Lemma trusted_tools_stay_witness : let s' := removed_all ["tmp"; "tool"] some_files in
  rtc unprivileged some_files s' ∧
  s' ["usr"; "bin"; "tool"] = inode (Regular "ELF") 0 493 ∧ s' ["usr"; "bin"; "other"] = None.
Proof.
  intros s'. assert (rtc unprivileged some_files s') as Hs by (apply rtc_once, passed_over). split; [done|]. destruct (trusted_tools_stay host "tool" ["usr"; "bin"; "tool"]) as [_ Ht]; [done|by vm_compute|].
  destruct (Ht s' Hs) as [Hway Hd]. split.
  - rewrite (Hway ["usr"; "bin"; "tool"]); [done|by exists []].
  - destruct (Hd ["usr"; "bin"]) as [_ Hnew]; [by vm_compute; left|]. by apply (Hnew "other").
Defined.
End CollectorExample.
