(* ===== verification/HipReport.v ===== *)
(** HIP reports (crates/gphip/src/lib.rs and sentinel_unix.rs): what is collected of the host,
    the report that is generated, the identity report, and the refresh of an edited
    report with the values of the current session.

    The template engine, the XML writer, the clock and the answers of the system are
    parameters. *)
From S2P Require Import Prelude Utf8 Text ThirdParty ClientProfile Xml EditedReport FileStore Collector.
From Stdlib Require Import Strings.Ascii.

#[local] Open Scope N_scope.

(** * Errors: an I/O error keeps its kind *)
Inductive Error := Io (e : FileError) | Other (m : string).
Abbreviation Reporting := (stm nat Error).
Definition io {A} (m : Controlled A) : Reporting A := λ n, let '(r, n) := m n in (map_err Io r, n).
Definition or_bail {A} (r : result string A) : Reporting A := lift (map_err Other r).

(** * Inputs *)
Inductive ReportContext :=
  | Connected (cookie : string) (client_ip client_ipv6 : option string) (md5 : string)
  | Preview.
Definition context_cookie (c : ReportContext) : string := match c with Connected k _ _ _ => k | Preview => "" end.
Definition later_text : string := "[available after connection]".
Definition context_md5 (c : ReportContext) : string := match c with Connected _ _ _ m => m | Preview => later_text end.
Definition context_client_ip (c : ReportContext) : option string := match c with Connected _ ip _ _ => ip | Preview => None end.
Definition context_client_ipv6 (c : ReportContext) : option string := match c with Connected _ _ ip _ => ip | Preview => None end.
Record ReportInput := { input_profile : OsProfile; input_context : ReportContext }.

(** * What is known of the host *)
Record DefenderInfo := {
  app_version : string; engine_version : string; definitions_version : string; real_time_protection_enabled : bool }.
Record UfwInfo := { ufw_version : string; ufw_is_enabled : bool }.
Record ClamAvInfo := {
  clamav_version : string; clamav_definitions : option string; clamav_real_time : bool }.
Record SentinelInfo := {
  sentinel_version : string; sentinel_real_time : bool; sentinel_firewall : option bool }.
Record NetworkInterface := {
  if_name : string; if_description : string; if_mac : option string; if_ipv4 : option string; if_ipv6 : option string }.
Definition if_new (name description : string) : NetworkInterface :=
  {| if_name := name; if_description := description; if_mac := None; if_ipv4 := None; if_ipv6 := None |}.
Definition with_mac (mac : option string) (i : NetworkInterface) : NetworkInterface :=
  {| if_name := if_name i; if_description := if_description i; if_mac := mac; if_ipv4 := if_ipv4 i; if_ipv6 := if_ipv6 i |}.
Definition with_ipv4 (ipv4 : option string) (i : NetworkInterface) : NetworkInterface :=
  {| if_name := if_name i; if_description := if_description i; if_mac := if_mac i; if_ipv4 := ipv4; if_ipv6 := if_ipv6 i |}.
Definition with_ipv6 (ipv6 : option string) (i : NetworkInterface) : NetworkInterface :=
  {| if_name := if_name i; if_description := if_description i; if_mac := if_mac i; if_ipv4 := if_ipv4 i; if_ipv6 := ipv6 |}.
Record HostInfo := {
  info_os_vendor : string; info_os_version : string; info_host_id : string; info_host_name : string;
  info_software_version : string; info_domain : string; network_interfaces : list NetworkInterface;
  defender : option DefenderInfo; clamav : option ClamAvInfo; sentinel : option SentinelInfo; ufw : option UfwInfo }.
Definition default_ipv4 (h : HostInfo) : string := default "" (head (network_interfaces h) ≫= if_ipv4).
Definition default_ipv6 (h : HostInfo) : string := default "" (head (network_interfaces h) ≫= if_ipv6).

(** [netdev]'s default interface, and [chrono::Local::now()] in the forms of the report. *)
Record DefaultInterface := {
  dev_name : string; dev_description : option string; dev_mac : option string; dev_ipv4 : list string; dev_ipv6 : list string }.
Record Now := { date_time : string; now_day : string; now_month : string; now_year : string }.
Record Machine := {
  machine_host : Host;
  default_interface : option DefaultInterface;
  now : Now;
  user_named : string → option N;
}.
Record HipReportTemplate := {
  t_client_version : string; t_generate_time : string; t_day : string; t_month : string; t_year : string;
  t_user_name : string; t_host_info : HostInfo; t_md5 : string }.
Class ReportXml := {
  (** [template.render()] *)
  render : HipReportTemplate → option string;
  (** [write_with_config] with an indentation. *)
  write_indented : Element → option string;
  (** [get_mut_child]: the first child element of the name is changed. *)
  change_child : string → (Element → Element) → Element → option Element;
}.

Section hip_report.
Context `{UuidV5} `{UrlCrate} `{Xmltree} `{ReportXml} `{!SerdeJson DefenderInfo}.
Variable machine : Machine.
#[local] Instance tree : XmlTree := {| element_parse xml := to_option (parse_xml xml) |}.

(** ** The session's values *)
(** A later parameter of a name replaces an earlier one. *)
Definition cookie_params (input : ReportInput) : gmap string string :=
  fold_left (λ m kv, <[kv.1 := kv.2]> m) (form_urlencoded_parse (context_cookie (input_context input))) ∅.
Definition report_user_name (input : ReportInput) (params : gmap string string) : string :=
  match input_context input with
  | Preview => later_text
  | Connected _ _ _ _ => default "" (params !! "user")
  end.
Definition get_domain (params : gmap string string) : string := default "" (params !! "domain").
Definition domain_for_profile (p : OsProfile) (params : gmap string string) : string :=
  match profile_client_os p with Linux => "" | Mac | Windows | Ios => get_domain params end.

(** ** Interfaces *)
Definition profile_host_id (p : OsProfile) : string := pi_host_id (profile_identity p).
Definition profile_computer (p : OsProfile) : string := pi_computer (profile_identity p).
Definition collect_network_interface (input : ReportInput) : NetworkInterface :=
  match default_interface machine with
  | Some iface =>
      with_ipv6 (head (dev_ipv6 iface)) (with_ipv4 (head (dev_ipv4 iface)) (with_mac (dev_mac iface)
        (if_new (dev_name iface) (default (dev_name iface) (dev_description iface)))))
  | None =>
      with_ipv6 (context_client_ipv6 (input_context input)) (with_ipv4 (context_client_ip (input_context input))
        (if_new "unknown" "unknown"))
  end.
Definition derive_windows_network_name (host_id : string) (iface : NetworkInterface) : string :=
  let seed := host_id +:+ "-" +:+ default "00:00:00:00:00:00" (if_mac iface) +:+ "-" +:+ if_name iface in
  "{" +:+ to_ascii_uppercase (uuid_v5_dns seed) +:+ "}".
Definition placeholder_interface_for (p : OsProfile) (runtime : NetworkInterface) : string * string :=
  match profile_client_os p with
  | Ios => (if_name runtime, if_description runtime)
  | Linux => ("enp1s0f0", "enp1s0f0")
  | Mac => ("en0", "en0")
  | Windows => (derive_windows_network_name (profile_host_id p) runtime, "PANGP Virtual Ethernet Adapter Secure")
  end.
Definition format_mac_for (p : OsProfile) (mac : option string) : option string :=
  match profile_client_os p with Windows => replace_char ":" "-" <$> mac | Linux | Mac | Ios => mac end.
Definition adapt_primary_interface (p : OsProfile) (runtime : NetworkInterface) : NetworkInterface :=
  let '(name, description) :=
    if is_native p then (if_name runtime, if_description runtime) else placeholder_interface_for p runtime in
  {| if_name := name; if_description := description; if_mac := format_mac_for p (if_mac runtime);
     if_ipv4 := if_ipv4 runtime; if_ipv6 := if_ipv6 runtime |}.
Definition extra_interfaces (p : OsProfile) (primary : NetworkInterface) : list NetworkInterface :=
  match profile_client_os p with
  | Windows => [{| if_name := derive_windows_network_name (profile_host_id p) primary;
      if_description := "Software Loopback Interface 1"; if_mac := Some ""; if_ipv4 := Some "127.0.0.1";
      if_ipv6 := Some "::1" |}]
  | Linux | Mac | Ios => []
  end.
Definition collect_identity (input : ReportInput) (params : gmap string string) : HostInfo :=
  let p := input_profile input in
  let primary := adapt_primary_interface p (collect_network_interface input) in
  {| info_os_vendor := profile_os_vendor p; info_os_version := profile_os_version p;
     info_host_id := profile_host_id p; info_host_name := profile_computer p;
     info_software_version := profile_software_version p; info_domain := domain_for_profile p params;
     network_interfaces := primary :: extra_interfaces p primary;
     defender := None; clamav := None; sentinel := None; ufw := None |}.

(** ** Products: what a tool says is read, or there is no product *)
Notation host := (machine_host machine).
Definition from_utf8 (bytes : string) : option string := if utf8b (S (String.length bytes)) bytes then Some bytes else None.
Definition successful (output : option Output) : option string :=
  o ← output; if success o then from_utf8 (stdout o) else None.
Definition command_text (name : string) (args : list string) : Controlled (option string) :=
  output ← run host name args; mret (successful output).
Definition parse_clamav_version (output : string) : option (string * option string) :=
  match split_whitespace output with
  | name :: word :: _ =>
      if String.eqb name "ClamAV" then
        match split "/" word with
        | version :: rest =>
            if is_empty version then None
            else Some (version, d ← head rest; if is_empty d then None else Some d)
        | [] => None
        end
      else None
  | _ => None
  end.
Definition detect_clamav : Controlled (option ClamAvInfo) :=
  text ← command_text "clamscan" ["--version"];
  match text ≫= parse_clamav_version with
  | None => mret None
  | Some (version, definitions) =>
      active ← run host "systemctl" ["is-active"; "clamav-onaccess.service"];
      mret (Some {| clamav_version := version; clamav_definitions := definitions;
                    clamav_real_time := match active with Some o => success o | None => false end |})
  end.
Definition parse_ufw_version (output : string) : option string :=
  match split_whitespace output with
  | name :: rest => if String.eqb name "ufw" then head rest else None
  | [] => None
  end.
(** The first line that starts with the label, without it. *)
Fixpoint labelled (label : string) (l : list string) : option string :=
  match l with
  | [] => None
  | line :: l => match strip_prefix label (trim line) with Some v => Some (trim v) | None => labelled label l end
  end.
Definition parse_ufw_status (output : string) : option bool :=
  status ← labelled "Status:" (lines output);
  if String.eqb status "active" then Some true else if String.eqb status "inactive" then Some false else None.
Definition detect_ufw : Controlled (option UfwInfo) :=
  text ← command_text "ufw" ["version"];
  match text ≫= parse_ufw_version with
  | None => mret None
  | Some version =>
      match resolve host "ufw" with
      | None => mret None
      | Some tool =>
          output ← (if effective_uid host =? 0 then run_path host tool ["status"]
                    else run host "sudo" ["-n"; display tool; "status"]);
          mret (enabled ← successful output ≫= parse_ufw_status;
                Some {| ufw_version := version; ufw_is_enabled := enabled |})
      end
  end.
Definition parse_defender_info (json : string) : option DefenderInfo := from_slice json.
Definition detect_microsoft_defender : Controlled (option DefenderInfo) :=
  text ← command_text "mdatp" ["health"; "--output"; "json"];
  mret (text ≫= parse_defender_info).

(** ** SentinelOne (sentinel_unix.rs) *)
Definition SENTINEL_DIR : Path := ["opt"; "sentinelone"].
Definition trusted_dir (p : Path) (owner : N) : bool :=
  match symlink_metadata host p with
  | Some m => is_dir m && (m_uid m =? owner) && (N.land (m_mode m) 18 =? 0)
  | None => false
  end.
Definition guarded_option (b : bool) : option () := if b then Some () else None.
Definition trusted_cli : option Path :=
  agent_uid ← user_named machine "sentinelone";
  _ ← guarded_option (trusted_dir ["opt"] 0);
  link ← symlink_metadata host SENTINEL_DIR;
  _ ← guarded_option (negb (is_symlink link && negb (m_uid link =? 0)));
  resolved_dir ← canonicalize host SENTINEL_DIR;
  _ ← guarded_option (forallb (λ p, trusted_dir p 0) (tail (Trust.ancestors_and_root resolved_dir)));
  _ ← guarded_option ((trusted_dir resolved_dir 0 || trusted_dir resolved_dir agent_uid) &&
                      trusted_dir (resolved_dir ++ ["bin"]) 0);
  let cli := resolved_dir ++ ["bin"; "sentinelctl"] in
  m ← symlink_metadata host cli;
  _ ← guarded_option (is_file m && (m_uid m =? 0) && (N.land (m_mode m) 18 =? 0) && negb (N.land (m_mode m) 73 =? 0));
  Some cli.
Definition run_cli (cli : Path) (args : list string) : Controlled (option string) :=
  output ← run_path host cli args; mret (successful output).
Definition parse_version (output : string) : option string :=
  version ← labelled "Agent version:" (lines output);
  if is_empty version || (64 <? slen version) ||
     negb (all_bytes (λ b, is_ascii_alphanumeric b || (b =? 46) || (b =? 45) || (b =? 95)) version)
  then None else Some version.
Definition parse_enabled (label output : string) : option bool :=
  v ← labelled label (lines output);
  if String.eqb v "Enabled" then Some true else if String.eqb v "Disabled" then Some false else None.
Definition detect_sentinel : Controlled (option SentinelInfo) :=
  match trusted_cli with
  | None => mret None
  | Some cli =>
      text ← run_cli cli ["version"];
      match text ≫= parse_version with
      | None => mret None
      | Some version =>
          status ← run_cli cli ["control"; "status"];
          match status ≫= parse_enabled "Agent state" with
          | None => mret None
          | Some false => mret (Some {| sentinel_version := version; sentinel_real_time := false; sentinel_firewall := None |})
          | Some true =>
              policy ← run_cli cli ["policy"; "status"];
              mret (policy ← policy;
                    on_write ← parse_enabled "On-Write:" policy;
                    on_execute ← parse_enabled "On-Execute:" policy;
                    Some {| sentinel_version := version; sentinel_real_time := on_write || on_execute;
                            sentinel_firewall := None |})
          end
      end
  end.
Definition with_products (d : option DefenderInfo) (c : option ClamAvInfo) (s : option SentinelInfo) (u : option UfwInfo)
    (h : HostInfo) : HostInfo := {|
  info_os_vendor := info_os_vendor h; info_os_version := info_os_version h; info_host_id := info_host_id h;
  info_host_name := info_host_name h; info_software_version := info_software_version h; info_domain := info_domain h;
  network_interfaces := network_interfaces h; defender := d; clamav := c; sentinel := s; ufw := u |}.
(** On Linux only a native profile has products. *)
Definition collect (input : ReportInput) (params : gmap string string) : Controlled HostInfo :=
  _ ← check host;
  let info := collect_identity input params in
  _ ← check host;
  info ← (if bool_decide (profile_client_os (input_profile input) = Linux) && is_native (input_profile input) then
            d ← detect_microsoft_defender;
            c ← detect_clamav;
            u ← detect_ufw;
            s ← detect_sentinel;
            mret (with_products d c s u info)
          else mret info);
  _ ← check host;
  mret info.

(** ** Reports *)
Definition write_report (e : Element) : result string string := ok_or "XML" (write_indented e).
Definition format_xml (xml : string) : result string string :=
  e ← parse_xml xml; write_report e.
Definition generate_report_with_control (input : ReportInput) : Reporting string :=
  _ ← io (check host);
  let params := cookie_params input in
  host_info ← io (collect input params);
  let template := {|
    t_client_version := profile_client_version (input_profile input); t_generate_time := date_time (now machine);
    t_day := now_day (now machine); t_month := now_month (now machine); t_year := now_year (now machine);
    t_user_name := report_user_name input params; t_host_info := host_info; t_md5 := context_md5 (input_context input) |} in
  text ← or_bail (ok_or "template" (render template));
  report ← or_bail (format_xml text);
  _ ← io (check host);
  mret report.
(** [Element::new] with a text. *)
Definition text_element (name value : string) : XMLNode := NodeElement (element name ∅ [NodeText value]).
Definition generate_identity_report (input : ReportInput) : result string string :=
  let params := cookie_params input in
  let p := input_profile input in
  write_report (element "hip-report" ∅ ((λ kv, text_element kv.1 kv.2) <$>
    [("md5-sum", context_md5 (input_context input)); ("user-name", report_user_name input params);
     ("domain", default "" (params !! "domain")); ("host-name", profile_computer p); ("host-id", profile_host_id p);
     ("ip-address", default "" (context_client_ip (input_context input)));
     ("ipv6-address", default "" (context_client_ipv6 (input_context input)));
     ("hip-report-version", "4"); ("generate-time", date_time (now machine))])).

(** ** Refreshing an edited report *)
Definition with_text (value : string) (e : Element) : Element := element (element_name e) (attributes e) [NodeText value].
Definition set_field (target : Element) (field : string * string) : result string Element :=
  ok_or ("HIP report is missing <" +:+ field.1 +:+ ">") (change_child field.1 (with_text field.2) target).
Fixpoint set_fields (target : Element) (fields : list (string * string)) : result string Element :=
  match fields with
  | [] => Ok target
  | field :: fields => target ← set_field target field; set_fields target fields
  end.
(** The first child element the test holds of is changed. *)
Fixpoint change_first (test : Element → bool) (f : Element → Element) (l : list XMLNode) : list XMLNode :=
  match l with
  | [] => []
  | NodeElement c :: l => if test c then NodeElement (f c) :: l else NodeElement c :: change_first test f l
  | n :: l => n :: change_first test f l
  end.
Definition over_children (f : list XMLNode → list XMLNode) (e : Element) : Element :=
  element (element_name e) (attributes e) (f (children_nodes e)).
(** [host_info_mut] and what is set there. *)
Definition set_host_info (edited : Element) (fields : list (string * string)) : result string Element :=
  categories ← ok_or "HIP report is missing <categories>" (get_child "categories" edited);
  host_info ← ok_or "HIP report is missing host-info" (List.find is_host_info (child_elements categories));
  host_info ← set_fields host_info fields;
  ok_or "HIP report is missing <categories>"
    (change_child "categories" (over_children (change_first is_host_info (λ _, host_info))) edited).
Definition report_fields (input : ReportInput) : list (string * string) :=
  let params := cookie_params input in
  let identity := collect_identity input params in
  [("md5-sum", context_md5 (input_context input)); ("user-name", report_user_name input params);
   ("domain", info_domain identity +:+ ".internal"); ("host-name", info_host_name identity);
   ("host-id", info_host_id identity); ("ip-address", default_ipv4 identity); ("ipv6-address", default_ipv6 identity);
   ("generate-time", date_time (now machine))].
Definition host_info_fields (input : ReportInput) : list (string * string) :=
  let identity := collect_identity input (cookie_params input) in
  [("client-version", profile_client_version (input_profile input)); ("os", info_os_version identity);
   ("os-vendor", info_os_vendor identity); ("domain", info_domain identity +:+ ".internal");
   ("host-name", info_host_name identity); ("host-id", info_host_id identity)].
Definition refresh_edited_report_with_control (edited_xml : string) (input : ReportInput) : Reporting string :=
  _ ← io (check host);
  edited ← or_bail (validate_edited_report edited_xml);
  _ ← io (check host);
  edited ← or_bail (set_fields edited (report_fields input));
  edited ← or_bail (set_host_info edited (host_info_fields input));
  refreshed ← or_bail (write_report edited);
  _ ← or_bail (validate_edited_report refreshed);
  _ ← io (check host);
  mret refreshed.
End hip_report.

(** * A refresh rewrites exactly the session's fields *)
Class ReportXmlLaws `{Xmltree} `{ReportXml} := {
  change_child_first name f e : change_child name f e =
    match children_named name e with
    | [] => None
    | _ => Some (over_children (change_first (named name) f) e)
    end;
}.
(** What every field becomes, in one pass. *)
Definition assoc (name : string) (fields : list (string * string)) : option string :=
  snd <$> List.find (λ kv, String.eqb kv.1 name) fields.
Definition on_element (f : Element → Element) (n : XMLNode) : XMLNode :=
  match n with NodeElement c => NodeElement (f c) | n => n end.
Definition rewritten (fields : list (string * string)) (c : Element) : Element :=
  match assoc (element_name c) fields with Some v => with_text v c | None => c end.
Definition over_elements (f : Element → Element) : Element → Element := over_children (map (on_element f)).
Definition only (test : Element → bool) (f : Element → Element) (c : Element) : Element := if test c then f c else c.
Definition refreshed (root_fields info_fields : list (string * string)) : Element → Element :=
  over_elements (λ c, only (named "categories") (over_elements (only is_host_info (over_elements (rewritten info_fields))))
    (rewritten root_fields c)).

(** ** Children under a change *)
Definition keeps_names (f : Element → Element) : Prop := ∀ c, element_name (f c) = element_name c.
Lemma rewritten_name fields : keeps_names (rewritten fields).
Proof. intros c. unfold rewritten. by destruct (assoc _ _). Qed.
Lemma child_elements_over f e : child_elements (over_elements f e) = f <$> child_elements e.
Proof.
  unfold child_elements, over_elements, over_children. cbn [children_nodes].
  induction (children_nodes e) as [|n l IH]; [done|]. destruct n; cbn; by rewrite ?IH.
Qed.
Lemma filter_fmap (test : Element → bool) f l : (∀ c, test (f c) = test c) →
  List.filter test (f <$> l) = f <$> List.filter test l.
Proof. intros Ht. induction l as [|c l IH]; [done|]. cbn. rewrite Ht. destruct (test c); cbn; by rewrite IH. Qed.
Lemma children_named_over name f e : keeps_names f →
  children_named name (over_elements f e) = f <$> children_named name e.
Proof.
  intros Hf. unfold children_named. rewrite child_elements_over. apply filter_fmap. intros c. unfold named. by rewrite Hf.
Qed.
Lemma over_elements_compose f g e : over_elements f (over_elements g e) = over_elements (λ c, f (g c)) e.
Proof.
  unfold over_elements, over_children. cbn. f_equal. rewrite map_map. apply map_ext. by intros [].
Qed.
Lemma over_elements_ext f g e : (∀ c, f c = g c) → over_elements f e = over_elements g e.
Proof. intros Hfg. unfold over_elements, over_children. f_equal. apply map_ext. intros []; cbn; by rewrite ?Hfg. Qed.
(** The first of one is the only one. *)
Lemma change_first_only test f l c : List.filter test (omap as_element l) = [c] →
  change_first test f l = map (on_element (only test f)) l.
Proof.
  unfold only. induction l as [|n l IH]; [done|]. destruct n as [d| | | |]; cbn; try (intros Hl; f_equal; by apply IH).
  destruct (test d) eqn:Ed; [|intros Hl; f_equal; by apply IH]. intros [= -> Hnone]. f_equal.
  clear IH. induction l as [|n l IH]; [done|]. destruct n as [d| | | |]; cbn in *; try (f_equal; by apply IH).
  destruct (test d); [done|]. f_equal. by apply IH.
Qed.
Lemma over_elements_in f g e : (∀ c, c ∈ child_elements e → f c = g c) → over_elements f e = over_elements g e.
Proof.
  unfold over_elements, over_children, child_elements. intros Hfg. f_equal. induction (children_nodes e) as [|n l IH]; [done|].
  destruct n as [c| | | |]; cbn in *; f_equal; try (by apply IH).
  - f_equal. apply Hfg. by left.
  - apply IH. intros d Hd. apply Hfg. by right.
Qed.
Lemma over_elements_id e : over_elements id e = e.
Proof.
  destruct e as [n a l]. unfold over_elements, over_children. cbn. f_equal. induction l as [|[] l IH]; [done|..]; cbn; by f_equal.
Qed.
(** An element that passes a test only one passes. *)
Lemma filter_single (test : Element → bool) l c d : List.filter test l = [c] → d ∈ l → test d = true → d = c.
Proof.
  intros Hl Hd Ht. assert (In d (List.filter test l)) as Hin by (apply filter_In; by rewrite <- list_elem_of_In).
  rewrite Hl in Hin. by destruct Hin as [->|[]].
Qed.
Lemma find_filter (test : Element → bool) l c : List.filter test l = [c] → List.find test l = Some c.
Proof. induction l as [|d l IH]; [done|]. cbn. destruct (test d); [by intros [= ->]|done]. Qed.

Section edits.
Context `{ReportXmlLaws}.
Lemma change_child_only name f e c : children_named name e = [c] →
  change_child name f e = Some (over_elements (only (named name) f) e).
Proof.
  intros Hc. rewrite change_child_first, Hc. f_equal. unfold over_elements, over_children. f_equal.
  by eapply change_first_only.
Qed.
Lemma rewritten_cons n v fields c : n ∉ fields.*1 →
  rewritten fields (only (named n) (with_text v) c) = rewritten ((n, v) :: fields) c.
Proof.
  intros Hn. unfold only, named, rewritten, assoc. cbn [List.find fst]. rewrite (String.eqb_sym n).
  destruct (String.eqb_spec (element_name c) n) as [En|]; [|done]. cbn. 
  destruct (List.find _ fields) as [[m w]|] eqn:Ef; [|done]. apply find_some in Ef as [Hin Hm]. cbn in Hm.
  apply String.eqb_eq in Hm. destruct Hn. apply list_elem_of_fmap. exists (m, w). split; [by rewrite <- En|].
  by apply list_elem_of_In.
Qed.
Lemma set_fields_spec fields e : NoDup fields.*1 → (∀ n, n ∈ fields.*1 → ∃ c, children_named n e = [c]) →
  set_fields e fields = Ok (over_elements (rewritten fields) e).
Proof.
  revert e. induction fields as [|[n v] fields IH]; intros e Hnd Hone; cbn [set_fields].
  - by rewrite (over_elements_ext _ id), over_elements_id.
  - apply list.NoDup_cons in Hnd as [Hn Hnd]. destruct (Hone n) as [c Hc]; [by left|].
    unfold set_field. cbn [fst snd]. rewrite (change_child_only _ _ _ _ Hc). cbn [ok_or mbind result_bind].
    assert (keeps_names (only (named n) (with_text v))) as Hk by (intros d; unfold only; by destruct (named n d)).
    rewrite IH; [|done|].
    + rewrite over_elements_compose. f_equal. apply over_elements_ext. intros d. by apply rewritten_cons.
    + intros m Hm. destruct (Hone m) as [d Hd]; [by right|]. rewrite children_named_over, Hd by done. by eexists.
Qed.
Lemma set_host_info_spec `{!XmltreeLaws} fields e cat hi : NoDup fields.*1 →
  children_named "categories" e = [cat] → List.filter is_host_info (child_elements cat) = [hi] →
  (∀ n, n ∈ fields.*1 → ∃ c, children_named n hi = [c]) →
  set_host_info e fields =
    Ok (over_elements (only (named "categories") (over_elements (only is_host_info (over_elements (rewritten fields))))) e).
Proof.
  intros Hnd Hcat Hhi Hone. unfold set_host_info. rewrite get_child_first.
  change (head _) with (head (children_named "categories" e)). rewrite Hcat. cbn [head ok_or mbind result_bind].
  rewrite (find_filter _ _ _ Hhi). cbn [ok_or mbind result_bind]. rewrite set_fields_spec by done. cbn [mbind result_bind].
  rewrite (change_child_only _ _ _ _ Hcat). cbn [ok_or]. f_equal. apply over_elements_in. intros c Hc. unfold only.
  destruct (named "categories" c) eqn:En; [|done]. rewrite (filter_single _ _ _ _ Hcat Hc En).
  transitivity (over_elements (only is_host_info (λ _, over_elements (rewritten fields) hi)) cat).
  - unfold over_elements, over_children. f_equal. by eapply change_first_only.
  - apply over_elements_in. intros d Hd. unfold only. destruct (is_host_info d) eqn:Ed; [|done].
    by rewrite (filter_single _ _ _ _ Hhi Hd Ed).
Qed.
End edits.

Section promises.
Context `{UuidV5} `{UrlCrate} `{XmltreeLaws} `{!ReportXml} `{!ReportXmlLaws}.
Variable machine : Machine.
#[local] Instance tree' : XmlTree := tree.
Lemma report_names input : (report_fields machine input).*1 =
  ["md5-sum"; "user-name"; "domain"; "host-name"; "host-id"; "ip-address"; "ipv6-address"; "generate-time"].
Proof. done. Qed.
Lemma host_info_names_set input : (host_info_fields machine input).*1 = host_info_names.
Proof. done. Qed.
Lemma edits_spec xml root input : validate_edited_report xml = Ok root →
  (e ← set_fields root (report_fields machine input); set_host_info e (host_info_fields machine input)) =
  Ok (refreshed (report_fields machine input) (host_info_fields machine input) root).
Proof.
  intros Hv%validate_edited_report_sound. destruct Hv as [_ _ _ Hfields (cat & hi & Hcat & Hhi & Hone)].
  rewrite set_fields_spec; [|rewrite report_names; by apply (bool_decide_unpack _); vm_compute|].
  2: { intros n Hn. apply Hfields. rewrite report_names in Hn. unfold root_names. set_solver. }
  cbn [mbind result_bind].
  assert (named "categories" cat = true) as Hname.
  { assert (In cat (children_named "categories" root)) as Hin by (rewrite Hcat; by left).
    unfold children_named in Hin. by apply filter_In in Hin as [_ ?]. }
  rewrite (set_host_info_spec _ _ cat hi); [|rewrite host_info_names_set; by apply (bool_decide_unpack _); vm_compute| |done|].
  - by rewrite over_elements_compose.
  - rewrite children_named_over by apply rewritten_name. rewrite Hcat. cbn. f_equal. unfold rewritten, assoc.
    apply String.eqb_eq in Hname. rewrite Hname. done.
  - intros n Hn. rewrite host_info_names_set in Hn. by apply Hone.
Qed.
End promises.

Section refresh.
Context `{UuidV5} `{UrlCrate} `{XmltreeLaws} `{!ReportXml} `{!ReportXmlLaws}.
Variable machine : Machine.
#[local] Instance tree'' : XmlTree := tree.
Lemma reporting_bind {A B} (m : Reporting A) (k : A → Reporting B) n b n' : Prelude.run (m ≫= k) n = (Ok b, n') →
  ∃ a n1, Prelude.run m n = (Ok a, n1) ∧ Prelude.run (k a) n1 = (Ok b, n').
Proof.
  unfold Prelude.run, mbind, stm_bind, stm_bind_def. destruct (m n) as [[a|e] n1]; [|done]. intros Hk. by exists a, n1.
Qed.
Lemma or_bail_Ok {A} (r : result string A) n a n' : Prelude.run (or_bail r) n = (Ok a, n') → r = Ok a ∧ n' = n.
Proof. unfold Prelude.run, or_bail, lift. destruct r; [|done]. by intros [= -> ->]. Qed.
Lemma assoc_in name v fields : NoDup fields.*1 → (name, v) ∈ fields → assoc name fields = Some v.
Proof.
  unfold assoc. induction fields as [|[m w] fields IH]; [by intros _ ?%elem_of_nil|].
  intros [Hm Hnd]%list.NoDup_cons [[= -> ->]|Hin]%elem_of_cons; cbn [List.find fst]; [by rewrite String.eqb_refl|].
  destruct (String.eqb_spec m name) as [->|]; [|by apply IH]. destruct Hm. apply list_elem_of_fmap. by exists (name, v).
Qed.
Lemma assoc_not name fields : name ∉ fields.*1 → assoc name fields = None.
Proof.
  unfold assoc. induction fields as [|[m w] fields IH]; [done|]. cbn [List.find fst fmap list_fmap].
  intros [Hm Hn]%not_elem_of_cons. destruct (String.eqb_spec m name); [by subst|by apply IH].
Qed.
Lemma report_fields_nodup input : NoDup (report_fields machine input).*1.
Proof. rewrite report_names. by apply (bool_decide_unpack _); vm_compute. Qed.
(** C16: Refreshing an edited report changes the session's fields and nothing else: what is
    written when a refresh succeeds is the validated report with each of the session's
    fields, which are there once, given its current value as only text, in the report and
    in its host information, and every other element as the user left it; and what is
    written passes the validation again. *)
Theorem refresh_changes_session_fields_only xml input n out n' :
  Prelude.run (refresh_edited_report_with_control machine xml input) n = (Ok out, n') →
  ∃ root, validate_edited_report xml = Ok root ∧ (∃ root', validate_edited_report out = Ok root') ∧
    let final := refreshed (report_fields machine input) (host_info_fields machine input) root in
    write_indented final = Some out ∧
    (∀ name v, (name, v) ∈ report_fields machine input → ∃ c,
       children_named name root = [c] ∧ children_named name final = [with_text v c]) ∧
    ∀ name, name ∉ (report_fields machine input).*1 → name ≠ "categories"%string →
      children_named name final = children_named name root.
Proof.
  unfold refresh_edited_report_with_control. intros Hr.
  apply reporting_bind in Hr as ([] & n1 & _ & Hr). apply reporting_bind in Hr as (root & n2 & [Hv _]%or_bail_Ok & Hr).
  apply reporting_bind in Hr as ([] & n3 & _ & Hr).
  apply reporting_bind in Hr as (e1 & n4 & [He1 _]%or_bail_Ok & Hr).
  apply reporting_bind in Hr as (e2 & n5 & [He2 _]%or_bail_Ok & Hr).
  apply reporting_bind in Hr as (text & n6 & [Hw _]%or_bail_Ok & Hr).
  apply reporting_bind in Hr as (root' & n7 & [Hv' _]%or_bail_Ok & Hr).
  apply reporting_bind in Hr as ([] & n8 & _ & Hr). injection Hr as -> _.
  pose proof (edits_spec machine xml root input Hv) as Hs. rewrite He1 in Hs. cbn [mbind result_bind] in Hs.
  rewrite He2 in Hs. injection Hs as ->. exists root. split; [done|]. split; [by exists root'|].
  cbn zeta. split; [unfold write_report in Hw; destruct (write_indented _); [by injection Hw as ->|done]|].
  set (f := λ c, only (named "categories") (over_elements (only is_host_info (over_elements (rewritten (host_info_fields machine input)))))
    (rewritten (report_fields machine input) c)).
  assert (keeps_names f) as Hk.
  { intros c. unfold f, only. destruct (named "categories" _); [|by apply rewritten_name]. by rewrite <- (rewritten_name (report_fields machine input) c). }
  assert (∀ c, element_name c ≠ "categories"%string → f c = rewritten (report_fields machine input) c) as Hf.
  { intros c Hc. unfold f, only, named. rewrite rewritten_name. by destruct (String.eqb_spec (element_name c) "categories"). }
  assert (∀ name c, c ∈ children_named name root → element_name c = name) as Hname.
  { intros name c Hin. unfold children_named in Hin. apply list_elem_of_In, filter_In in Hin as [_ Hin]. by apply String.eqb_eq. }
  apply validate_edited_report_sound in Hv as [_ _ _ Hfields _].
  unfold refreshed. fold f. split.
  - intros name v Hin. destruct (Hfields name) as [c Hc].
    { assert (name ∈ (report_fields machine input).*1) as Hn by (apply list_elem_of_fmap; by exists (name, v)).
      rewrite report_names in Hn. unfold root_names. set_solver. }
    exists c. split; [done|]. rewrite children_named_over, Hc by done. cbn. f_equal.
    assert (element_name c = name) as Ec by (apply Hname; rewrite Hc; by left).
    rewrite Hf.
    + unfold rewritten. rewrite Ec. by rewrite (assoc_in name v) by (done || by apply report_fields_nodup).
    + rewrite Ec. intros ->. assert ("categories"%string ∈ (report_fields machine input).*1) as Hn
        by (apply list_elem_of_fmap; by exists ("categories"%string, v)).
      rewrite report_names in Hn. set_solver.
  - intros name Hn Hnc. rewrite children_named_over by done. rewrite <- (list_fmap_id (children_named name root)) at 2.
    apply list_fmap_ext. intros k c Hc. apply list_elem_of_lookup_2 in Hc. apply Hname in Hc. rewrite Hf by congruence.
    unfold rewritten. rewrite Hc. by rewrite assoc_not.
Qed.
End refresh.

(** * Examples *)
Module HipExample.
#[local] Instance uuid5 : UuidV5 := {| uuid_v5_dns _ := "6ba7b810-9dad-11d1-80b4-00c04fd430c8" |}.
#[local] Instance urls : UrlCrate :=
  {| url_parse _ := None; form_urlencoded_parse s := if String.eqb s "user=ann&domain=corp" then [("user", "ann"); ("domain", "corp")] else [] |}.
Definition leaf (name : string) : XMLNode := NodeElement (element name ∅ [NodeText "old"]).
Definition edited_host_info : Element :=
  element "entry" {[ "name" := "host-info" ]} (map leaf host_info_names ++ [leaf "network-interface"]).
(** A report whose user added an element. *)
Definition edited : Element := element "hip-report" ∅
  (map leaf root_names ++ [NodeComment "mine"; NodeElement (element "categories" ∅ [NodeElement edited_host_info; leaf "entry"]); leaf "extra"]).
#[local] Instance trees : Xmltree := {|
  parse_xml s := if String.eqb s "<hip-report/>" then Ok edited else Err "no report";
  write_xml _ := Some ""; get_text _ := None;
  get_child name e := head (List.filter (λ c, String.eqb (element_name c) name) (child_elements e)) |}.
#[local] Instance trees_laws : XmltreeLaws.
Proof. by split. Qed.
#[local] Instance report_xml : ReportXml := {|
  render _ := Some "<hip-report/>"; write_indented _ := Some "<hip-report/>";
  change_child name f e := match children_named name e with
    | [] => None | _ => Some (over_children (change_first (named name) f) e) end |}.
#[local] Instance report_xml_laws : ReportXmlLaws.
Proof. by split. Qed.
#[local] Instance defender_json : SerdeJson DefenderInfo := {| to_vec _ := None; from_slice _ := None |}.
Definition machine : Machine := {|
  machine_host := CollectorExample.host;
  default_interface := Some {| dev_name := "eth0"; dev_description := None; dev_mac := Some "00:11:22:33:44:55";
    dev_ipv4 := ["192.0.2.7"; "192.0.2.8"]; dev_ipv6 := [] |};
  now := {| date_time := "07/04/2026 12:00:00"; now_day := "04"; now_month := "07"; now_year := "2026" |};
  user_named _ := None |}.
Definition identity : HostIdentity :=
  {| host_id := "host"; computer := "laptop"; serial_number := "serial"; mac_address := "00:11:22:33:44:55" |}.
Definition profile (os : ClientOs) : OsProfile := {|
  profile_runtime_os := Linux; profile_client_os := os; profile_os_version := "Linux 6"; profile_software_version := "";
  profile_os_vendor := "Linux"; profile_client_version := "6.3.3"; profile_host_identity := identity;
  profile_identity := {| pi_computer := "laptop"; pi_host_id := "host"; pi_serial_number := "serial"; pi_mac_address := "m" |};
  profile_user_agent := "agent" |}.
Definition input : ReportInput :=
  {| input_profile := profile Mac; input_context := Connected "user=ann&domain=corp" None None "deadbeef" |}.
Definition refreshing := Prelude.run (refresh_edited_report_with_control machine "<hip-report/>" input) 0%nat.
Example products_are_read :
  parse_clamav_version "ClamAV 1.4.2/27510/Mon" = Some ("1.4.2", Some "27510") ∧
  parse_ufw_status ("Status: active" +:+ String (ascii_of_N 10) "") = Some true ∧
  parse_version "Agent version: 25.2.2.14" = Some "25.2.2.14" ∧ parse_version "Agent version: 1<2" = None ∧
  parse_enabled "Agent state" "Agent state      Enabled" = Some true.
Proof. by vm_compute. Qed.
Example generates : answer (generate_report_with_control machine {| input_profile := profile Linux; input_context := Preview |}) 0%nat =
  Ok "<hip-report/>".
Proof. by vm_compute. Qed.
Lemma refresh_changes_session_fields_only_witness :
  let final := refreshed (report_fields machine input) (host_info_fields machine input) edited in
  refreshing = (Ok "<hip-report/>", 3%nat) ∧
  (∃ c, children_named "user-name" final = [with_text "ann" c]) ∧
  children_named "extra" final = children_named "extra" edited.
Proof.
  intros final. assert (refreshing = (Ok "<hip-report/>", 3%nat)) as Hr by by vm_compute. split; [done|].
  destruct (refresh_changes_session_fields_only machine _ _ _ _ _ Hr) as (root & Hv & _ & _ & Hset & Hkept).
  assert (root = edited) as -> by (vm_compute in Hv; by injection Hv).
  split.
  - destruct (Hset "user-name" "ann") as (c & _ & Hc); [right; left|]. by exists c.
  - apply Hkept; [|done]. by apply (bool_decide_unpack _); vm_compute.
Defined.
End HipExample.
