(* ===== verification/VpncScript.v ===== *)
(** The installed VPNC script (apps/gpservice/src/vpnc_script.rs): a script of the
    administrator that root runs when a tunnel is configured, with metadata that tell
    where it came from. [install] replaces both, [installed_script] and [metadata] find
    them, [remove] takes them away; none trusts a file that others could have written. *)
From ITree Require Import ITree.
From S2P Require Import Prelude Utf8 Text ThirdParty GpHttp Service Interaction Halting FileStore.
From S2P Require Openconnect.

#[local] Open Scope N_scope.
#[local] Open Scope flow_scope.

Definition INSTALLED_VPNC_SCRIPT : Path := ["var"; "lib"; "gpclient"; "scripts"; "vpnc-script"].
Definition INSTALLED_VPNC_SCRIPT_METADATA : Path := ["var"; "lib"; "gpclient"; "scripts"; "vpnc-script.metadata"].
Definition MAX_VPNC_SCRIPT_SIZE : N := 1024 * 1024.
Definition DIRECTORY_MODE : N := 493.
Definition SCRIPT_MODE : N := 493.
Definition METADATA_MODE : N := 384.
Definition METADATA_VERSION : N := 1.
Definition MAX_METADATA_SIZE : N := 40 * 1024.
Definition ROOT_UID : N := 0.

Record StoredMetadata := { version : N; stored_metadata : VpncScriptMetadata }.
Record InstallVpncScriptRequest := { request_metadata : VpncScriptMetadata; request_contents : string }.

Section vpnc_script.
Context `{Base64} `{SerdeJson StoredMetadata}.
Definition contents (r : InstallVpncScriptRequest) : result Failure string :=
  ok_or (Message "base64") (base64_decode (request_contents r)).
Definition validate_source (m : VpncScriptMetadata) : result Failure () :=
  map_err Message (vpnc_script_metadata_validate m).

(** ** Validation *)
Definition validate_ownership_and_mode (path : Path) (m : Metadata) (owner_uid : N) : result Failure () :=
  _ ← ensure (m_uid m =? owner_uid) (Message (display path +:+ " must be owned by uid " +:+ to_string owner_uid));
  ensure (N.land (m_mode m) 18 =? 0) (Message (display path +:+ " must not be writable by group or other users")).
Definition validate_directory (path : Path) (owner_uid : N) : flow FileE () :=
  let* m := try_context ("Failed to inspect VPNC script directory " +:+ display path) (MetadataE path) in
  let* _ := pure (ensure (negb (is_symlink m || negb (is_dir m)))
    (Message ("VPNC script directory " +:+ display path +:+ " is not a real directory"))) in
  pure (validate_ownership_and_mode path m owner_uid).
Definition validate_script (path : Path) (m : Metadata) (owner_uid : N) : result Failure () :=
  _ ← ensure (negb (is_symlink m || negb (is_file m)))
    (Message ("Installed VPNC script " +:+ display path +:+ " is not a regular file"));
  _ ← validate_ownership_and_mode path m owner_uid;
  ensure (negb (N.land (m_mode m) 73 =? 0)) (Message ("Installed VPNC script " +:+ display path +:+ " is not executable")).
Definition validate_metadata (path : Path) (m : Metadata) (owner_uid : N) : result Failure () :=
  _ ← ensure (negb (is_symlink m || negb (is_file m)))
    (Message ("VPNC script metadata " +:+ display path +:+ " is not a regular file"));
  _ ← validate_ownership_and_mode path m owner_uid;
  _ ← ensure (N.land (m_mode m) 511 =? METADATA_MODE) (Message ("VPNC script metadata " +:+ display path +:+ " must have mode 0600"));
  ensure (m_len m <=? MAX_METADATA_SIZE) (Message ("VPNC script metadata " +:+ display path +:+ " is too large")).
Definition parent_of (m : string) (path : Path) : flow FileE Path := pure (ok_or (Message m) (parent path)).
Definition sync_directory (directory : Path) : flow FileE () :=
  try_context "Failed to sync the VPNC script directory" (SyncE directory).

(** ** Finding the script *)
Definition installed_script : flow FileE (option Path) :=
  let path := INSTALLED_VPNC_SCRIPT in
  let* r := ask (MetadataE path) in
  match r with
  | Ok m =>
      let* _ := pure (validate_script path m ROOT_UID) in
      let* directory := parent_of "Installed VPNC script has no parent directory" path in
      let* _ := validate_directory directory ROOT_UID in
      let* above := parent_of "Installed VPNC script directory has no parent directory" directory in
      let* _ := validate_directory above ROOT_UID in
      ok (Some path)
  | Err err =>
      if not_found err then ok None
      else pure (context "Failed to inspect the installed VPNC script" (answered (Err err)))
  end.
Definition read_metadata_at (target : Path) (owner_uid : N) : flow FileE (option VpncScriptMetadata) :=
  let* r := ask (MetadataE target) in
  match r with
  | Err err =>
      if not_found err then ok None
      else pure (context "Failed to inspect VPNC script metadata" (answered (Err err)))
  | Ok m =>
      let* _ := pure (validate_metadata target m owner_uid) in
      let* _ := try_context "Failed to open VPNC script metadata" (OpenE target None) in
      let* bytes := try_context "Failed to parse VPNC script metadata" (ReadAllE target) in
      let* stored := pure (context "Failed to parse VPNC script metadata" (ok_or (Message "json")
        (from_slice (String.substring 0 (N.to_nat MAX_METADATA_SIZE) bytes)))) in
      let* _ := pure (ensure (version stored =? METADATA_VERSION)
        (Message ("Unsupported VPNC script metadata version " +:+ to_string (version stored)))) in
      let* _ := pure (validate_source (stored_metadata stored)) in
      ok (Some (stored_metadata stored))
  end.
Definition metadata : flow FileE (option VpncScriptMetadata) :=
  let* found := installed_script in
  match found with
  | None => ok None
  | Some _ => read_metadata_at INSTALLED_VPNC_SCRIPT_METADATA ROOT_UID
  end.

(** ** Installing *)
(** The end of [ensure_directory] for a directory that is missing. *)
Definition make_directory (directory : Path) (owner_uid : N) : flow FileE () :=
  let* _ := try_context "Failed to create the VPNC script directory" (CreateDirE directory 511) in
  let* _ := try_context "Failed to set VPNC script directory permissions" (SetModeE directory DIRECTORY_MODE) in
  validate_directory directory owner_uid.
(** [ensure_directory], on the reversed components. *)
Fixpoint ensure_reversed (reversed : list string) (owner_uid : N) : flow FileE () :=
  let directory := rev reversed in
  let* r := ask (MetadataE directory) in
  match r with
  | Ok _ => validate_directory directory owner_uid
  | Err err =>
      if not_found err then
        let* _ := match reversed with [] => ok () | _ :: above => ensure_reversed above owner_uid end in
        make_directory directory owner_uid
      else pure (context "Failed to inspect the VPNC script directory" (answered (Err err)))
  end.
Definition ensure_directory (directory : Path) (owner_uid : N) : flow FileE () := ensure_reversed (rev directory) owner_uid.

(** The staged script and metadata. *)
Definition stage (directory : Path) (bytes : string) (m : VpncScriptMetadata) : flow FileE (Path * Path) :=
  let* name := try_context "Failed to stage the VPNC script" (TempFileE directory) in
  let staged_script := directory ++ [name] in
  with_temp_file staged_script (
    let* _ := try_context "Failed to set VPNC script permissions" (SetModeE staged_script SCRIPT_MODE) in
    let* _ := write_context "Failed to write the VPNC script" staged_script bytes in
    let* _ := try_context "Failed to sync the VPNC script" (SyncE staged_script) in
    let* name := try_context "Failed to stage VPNC script metadata" (TempFileE directory) in
    let staged_metadata := directory ++ [name] in
    with_temp_file staged_metadata (
      let* _ := try_context "Failed to set VPNC script metadata permissions" (SetModeE staged_metadata METADATA_MODE) in
      let* encoded := pure (context "Failed to write VPNC script metadata"
        (ok_or (Message "json") (to_vec {| version := METADATA_VERSION; stored_metadata := m |}))) in
      let* _ := write_context "Failed to write VPNC script metadata" staged_metadata encoded in
      let* _ := try_context "Failed to sync VPNC script metadata" (SyncE staged_metadata) in
      ok (staged_script, staged_metadata))).
(** [persist] gives the temporary file back when it fails, and it is removed. *)
Definition persist (m : string) (temp target : Path) : flow FileE () :=
  with_temp_file temp (try_context m (RenameE temp target)).
(** What there is may be replaced. *)
Definition replaceable (target : Path) (validate : Path → Metadata → N → result Failure ()) (owner_uid : N) : flow FileE () :=
  let* r := ask (MetadataE target) in
  match r with Ok existing => pure (validate target existing owner_uid) | Err _ => ok () end.
Definition inspect_installed (m : string) (target : Path) (validate : Path → Metadata → N → result Failure ()) (owner_uid : N) :
    flow FileE () :=
  let* d := try_context m (MetadataE target) in pure (validate target d owner_uid).
Definition install_at (bytes : string) (m : VpncScriptMetadata) (target metadata_target : Path) (owner_uid : N) : flow FileE () :=
  let* directory := parent_of "Installed VPNC script has no parent directory" target in
  let* _ := ensure_directory directory owner_uid in
  let* _ := replaceable target validate_script owner_uid in
  let* _ := replaceable metadata_target validate_metadata owner_uid in
  let* _ := pure (ensure (negb (is_empty bytes)) (Message "VPNC script is empty")) in
  let* _ := pure (ensure (slen bytes <=? MAX_VPNC_SCRIPT_SIZE)
    (Message ("VPNC script exceeds the " +:+ to_string MAX_VPNC_SCRIPT_SIZE +:+ " byte limit"))) in
  let* _ := pure (validate_source m) in
  let* staged := stage directory bytes m in
  let '(staged_script, staged_metadata) := staged in
  let* _ := with_temp_file staged_metadata (persist "Failed to install the VPNC script" staged_script target) in
  let* _ := persist "Failed to install VPNC script metadata" staged_metadata metadata_target in
  let* _ := sync_directory directory in
  let* _ := inspect_installed "Failed to inspect the installed VPNC script" target validate_script owner_uid in
  inspect_installed "Failed to inspect VPNC script metadata" metadata_target validate_metadata owner_uid.
Definition install (request : InstallVpncScriptRequest) : flow FileE () :=
  let* _ := pure (validate_source (request_metadata request)) in
  let* bytes := pure (contents request) in
  let target := INSTALLED_VPNC_SCRIPT in
  let* directory := parent_of "Installed VPNC script has no parent directory" target in
  let* state_directory := parent_of "Installed VPNC script directory has no parent directory" directory in
  let* state_parent := parent_of "VPNC script state directory has no parent directory" state_directory in
  let* _ := validate_directory state_parent ROOT_UID in
  let* _ := ensure_directory state_directory ROOT_UID in
  let* _ := ensure_directory directory ROOT_UID in
  install_at bytes (request_metadata request) target INSTALLED_VPNC_SCRIPT_METADATA ROOT_UID.

(** ** Removing *)
Definition remove_at (target : Path) (owner_uid : N) (validate : Path → Metadata → N → result Failure ()) : flow FileE () :=
  let* directory := parent_of "VPNC script state file has no parent directory" target in
  let* _ := validate_directory directory owner_uid in
  let* r := ask (MetadataE target) in
  match r with
  | Ok m =>
      let* _ := pure (validate target m owner_uid) in
      let* _ := try_context "Failed to remove VPNC script state" (RemoveFileE target) in
      sync_directory directory
  | Err err =>
      if not_found err then ok ()
      else pure (context "Failed to inspect VPNC script state" (answered (Err err)))
  end.
Definition remove : flow FileE () :=
  let* found := installed_script in
  let* _ := match found with
            | Some _ => remove_at INSTALLED_VPNC_SCRIPT ROOT_UID validate_script
            | None => ok () end in
  remove_at INSTALLED_VPNC_SCRIPT_METADATA ROOT_UID validate_metadata.

(** ** The installer's program (bin/gp-vpnc-script-installer), and the service's use of the
    script (vpn_script/selection.rs, vpn_script/privileged_unix.rs) *)
Definition MAX_INSTALL_REQUEST_SIZE : N := 2 * 1024 * 1024.
Inductive Command := Install | Remove.
(** The input is standard input, of which at most 2 MiB are read. *)
Definition try_run `{SerdeJson InstallVpncScriptRequest} (is_root : bool) (command : Command) (input : string) : flow FileE () :=
  let* _ := pure (ensure is_root (Message "The VPNC script installer must run as root")) in
  match command with
  | Install =>
      let* request := pure (ok_or (Message "json")
        (from_slice (String.substring 0 (N.to_nat MAX_INSTALL_REQUEST_SIZE) input))) in
      install request
  | Remove => remove
  end.
Inductive ScriptSource := FromInstalled (path : Path) | FromLegacy (script : string) | FromDefault.
Definition select (installed : option Path) (legacy : option string) : ScriptSource :=
  match installed with
  | Some path => FromInstalled path
  | None => match legacy with Some script => FromLegacy script | None => FromDefault end
  end.
Definition builder (server cookie : string) (args : ConnectArgs) : flow FileE Openconnect.VpnBuilder :=
  let* installed := installed_script in
  let b := Openconnect.builder_new server cookie in
  ok match select installed (arg_vpnc_script args) with
     | FromInstalled path => Openconnect.script_path (Some (display path)) b
     | FromLegacy script => Openconnect.script_command (Some script) b
     | FromDefault => Openconnect.script_path None b
     end.
End vpnc_script.

(** * What reading shows *)
Section reading.
Context `{Base64} `{SerdeJson StoredMetadata}.
Variables (user umask : N) (Inv : Fs → Prop) (s0 s : Fs).
Hypothesis Hs : Inv s.
Notation reads := (reads user umask Inv s0 s).
(** A file of the kind and an owner that nobody else may write. *)
Definition guarded (s : Fs) (owner : N) (p : Path) (P : Inode → Prop) : Prop := ∃ i,
  s p = Some i ∧ inode_uid i = owner ∧ N.land (inode_mode i) 18 = 0 ∧ P i.
Definition real_directory (s : Fs) (owner : N) (p : Path) : Prop := guarded s owner p (λ i, inode_kind i = Directory).
Definition real_script (s : Fs) (owner : N) (p : Path) : Prop :=
  guarded s owner p (λ i, (∃ bytes, inode_kind i = Regular bytes) ∧ N.land (inode_mode i) 73 ≠ 0).
Definition real_metadata (s : Fs) (owner : N) (p : Path) : Prop :=
  guarded s owner p (λ i, (∃ bytes, inode_kind i = Regular bytes ∧ slen bytes ≤ MAX_METADATA_SIZE) ∧
    N.land (inode_mode i) 511 = METADATA_MODE).
Lemma validated_ownership p i o : validate_ownership_and_mode p (metadata_of i) o = Ok () →
  inode_uid i = o ∧ N.land (inode_mode i) 18 = 0.
Proof.
  unfold validate_ownership_and_mode. intros Hv. bind_inv Hv. unfold ensure in *. cbn in *.
  repeat case_match; try done. boolify. done.
Qed.
Lemma validated_script p i o : validate_script p (metadata_of i) o = Ok () → s p = Some i → real_script s o p.
Proof.
  unfold validate_script. intros Hv Hi. bind_inv Hv. apply ensure_Ok in Hv. boolify. destruct x0.
  apply validated_ownership in Hx0 as [? ?]. exists i. do 3 (split; [done|]). split; [|done].
  unfold is_file, metadata_of in *. cbn in *. destruct (inode_kind i) as [b| | |]; [by exists b|done..].
Qed.
Lemma validated_metadata p i o : validate_metadata p (metadata_of i) o = Ok () → s p = Some i → real_metadata s o p.
Proof.
  unfold validate_metadata. intros Hv Hi. bind_inv Hv. apply ensure_Ok in Hv. boolify. destruct x0.
  apply validated_ownership in Hx0 as [? ?]. exists i. do 3 (split; [done|]). split; [|done].
  unfold is_file, metadata_of in *. cbn in *. destruct (inode_kind i) as [b| | |]; [by exists b|done..].
Qed.
Lemma reads_directory p o : reads (validate_directory p o) (λ _, real_directory s o p).
Proof.
  eapply reads_bind; [by apply reads_metadata|]. intros d (i & Hi & ->). apply reads_let_ensure. intros Hd.
  apply reads_pure. intros [] Hv%validated_ownership. exists i. destruct Hv as [? ?]. do 3 (split; [done|]).
  boolify. unfold is_dir, metadata_of in *. cbn in *. by destruct (inode_kind i).
Qed.
Lemma reads_installed : reads installed_script (λ r, match r with
  | Some p => p = INSTALLED_VPNC_SCRIPT ∧ real_script s 0 p ∧
      real_directory s 0 ["var"; "lib"; "gpclient"; "scripts"] ∧ real_directory s 0 ["var"; "lib"; "gpclient"]
  | None => s INSTALLED_VPNC_SCRIPT = None end).
Proof.
  apply fspec_ask. intros [d|e] s'; cbn [applied].
  - case_guard as Hd; [|done]. intros [= <-]. split; [done|]. destruct (s INSTALLED_VPNC_SCRIPT) as [i|] eqn:Ei; [|done].
    injection Hd as <-. apply reads_let_pure. intros [] Hv.
    apply (reads_let_pure _ _ _ _ _ (ok_or _ (parent _))). cbn. intros dir [= <-].
    eapply reads_bind; [by apply reads_directory|]. intros [] Hd.
    apply (reads_let_pure _ _ _ _ _ (ok_or _ (parent _))). cbn. intros above [= <-].
    eapply reads_bind; [by apply reads_directory|]. intros [] Ha. apply reads_ok.
    split; [done|]. split; [|done]. by eapply validated_script.
  - destruct (not_found e); [case_guard; [|done]|]; intros [= <-]; (split; [done|]); [by apply reads_ok|].
    by apply reads_pure.
Qed.
Lemma reads_metadata_at p o : reads (read_metadata_at p o) (λ r, match r with
  | Some m => real_metadata s o p ∧ validate_source m = Ok () ∧
      ∃ bytes, inode_kind <$> s p = Some (Regular bytes) ∧
        from_slice bytes = Some {| version := METADATA_VERSION; stored_metadata := m |}
  | None => s p = None end).
Proof.
  apply fspec_ask. intros [d|e] s'; cbn [applied].
  - case_guard as Hd; [|done]. intros [= <-]. split; [done|]. destruct (s p) as [i|] eqn:Ei; [|done].
    injection Hd as <-. apply reads_let_pure. intros [] Hv.
    eapply reads_bind; [by eapply (reads_open_asked _ _ _ _ (λ r, context "Failed to open VPNC script metadata" (answered r)))|]. intros [] _.
    assert (reads (try_context "Failed to parse VPNC script metadata" (ReadAllE p))
      (λ bytes, inode_kind <$> s p = Some (Regular bytes))) as Ha.
    { apply reads_asked; [done|]. intros [b|e] s'; cbn [applied]; [case_guard as Hb; [|done]|]; intros [= <-]; [|done].
      split; [done|]. by intros ? [= <-]. }
    eapply reads_bind; [exact Ha|]. intros bytes Hb.
    assert (String.substring 0 (N.to_nat MAX_METADATA_SIZE) bytes = bytes) as ->.
    { destruct (validated_metadata _ _ _ Hv Ei) as (i' & Hi' & _ & _ & (b & Hk & Hl) & _).
      rewrite Ei in Hi', Hb. injection Hi' as <-. cbn in Hb. rewrite Hk in Hb. injection Hb as ->.
      apply substring_all. unfold slen in Hl. lia. }
    apply reads_let_pure. intros st Hst. apply reads_let_ensure. intros Hver%N.eqb_eq.
    apply reads_let_pure. intros [] Hsrc. apply reads_ok. split; [by eapply validated_metadata|]. split; [done|].
    exists bytes. split; [by rewrite <- Ei|]. destruct (from_slice bytes) as [st'|]; [|done]. injection Hst as <-.
    destruct st' as [ver m]. cbn in *. by subst ver.
  - destruct (not_found e); [case_guard; [|done]|]; intros [= <-]; (split; [done|]); [by apply reads_ok|].
    by apply reads_pure.
Qed.
End reading.

(** * Installing *)
Section installing.
Context `{Base64} `{SerdeJson StoredMetadata}.
Variables (user umask : N) (s0 : Fs) (bytes : string) (source : VpncScriptMetadata).
Notation target := INSTALLED_VPNC_SCRIPT.
Notation metadata_target := INSTALLED_VPNC_SCRIPT_METADATA.
Notation directory := ["var"; "lib"; "gpclient"; "scripts"].
Definition ours (p : Path) : Prop := p = target ∨ p = metadata_target.
Definition script_there (s : Fs) : Prop := s target = Some (own_file user bytes SCRIPT_MODE).
Definition metadata_there (s : Fs) : Prop := ∃ encoded,
  to_vec {| version := METADATA_VERSION; stored_metadata := source |} = Some encoded ∧
  s metadata_target = Some (own_file user encoded METADATA_MODE).
(** The script and the metadata are the old or the new ones. *)
Definition old_or_new (s : Fs) : Prop :=
  (s target = s0 target ∨ script_there s) ∧ (s metadata_target = s0 metadata_target ∨ metadata_there s).
Definition still_old (s : Fs) : Prop := s target = s0 target ∧ s metadata_target = s0 metadata_target.
Definition replaced : Fs → Prop := keeping s0 ours old_or_new.
Definition pending : Fs → Prop := keeping s0 ours still_old.
Notation fspec := (fspec user umask replaced s0).
Notation reads := (reads user umask replaced s0).
Notation post := (post s0 ours old_or_new).
Notation fresh_path := (fresh_path s0 ours).
Lemma old_or_new_ours s s' : (∀ p, ours p → s' p = s p) → old_or_new s → old_or_new s'.
Proof. intros Ho. unfold old_or_new, script_there, metadata_there. rewrite !Ho; [done|by right|by left]. Qed.
Lemma still_old_ours s s' : (∀ p, ours p → s' p = s p) → still_old s → still_old s'.
Proof. intros Ho. unfold still_old. rewrite !Ho; [done|by right|by left]. Qed.
Lemma pending_replaced s : pending s → replaced s.
Proof. intros (? & ? & ?). split; [done|]. split; by left. Qed.
Lemma script_pending_except p s s' : fresh_path p → except p s s' → pending s → pending s'.
Proof. apply keeping_except, still_old_ours. Qed.
Lemma pending_init : pending s0.
Proof. split; [by intros p|done]. Qed.

(** ** Directories *)
Lemma fspec_directory s p o P : replaced s → P s → fspec s (validate_directory p o) (post (λ s _, P s)).
Proof.
  intros Hs Hp. eapply fspec_mono, reads_directory; [|done]. intros s' r [-> _]. split; [done|]. by destruct r.
Qed.
Lemma make_directory_spec s p o : pending s → ¬ ours p →
  fspec s (make_directory p o) (post (λ s _, pending s)).
Proof.
  intros Hs Ht. apply post_try_context; [by apply pending_replaced|..].
  { intros e s'. cbn [applied]. destruct (already_exists e); [case_guard; [|done]|]; by intros [= <-]. }
  intros [] s'. cbn [applied]. case_guard as Hn; [|done]. intros [= <-].
  assert (fresh_path p) as Hp by (eapply fresh_missing; [apply Hs|done..]).
  assert (pending (put p (Some (new_inode user umask Directory 511)) s)) as Hs1
    by (eapply script_pending_except; [exact Hp| |exact Hs]; intros q Hq; by apply put_other).
  split; [by apply pending_replaced|]. apply post_try_context; [by apply pending_replaced|by intros e s' [= <-]|].
  intros [] s' [= <-].
  assert (pending (on_inode p (with_mode DIRECTORY_MODE) (put p (Some (new_inode user umask Directory 511)) s))) as Hs2
    by (eapply script_pending_except; [exact Hp| |exact Hs1]; intros q Hq; by apply on_inode_other).
  split; [by apply pending_replaced|]. by apply fspec_directory; [apply pending_replaced|].
Qed.
Lemma short_path (r : list string) : (length r < 5)%nat → ¬ ours (rev r).
Proof.
  intros Hl [Hn|Hn]; apply (f_equal length) in Hn; rewrite length_rev in Hn.
  - change (length target) with 5%nat in Hn. lia.
  - change (length metadata_target) with 5%nat in Hn. lia.
Qed.
Lemma ensure_reversed_spec r o s : (length r < 5)%nat → pending s →
  fspec s (ensure_reversed r o) (post (λ s _, pending s)).
Proof.
  revert s. induction r as [|c r IH]; intros s Hl Hs; pose proof (short_path _ Hl); pose proof (pending_replaced _ Hs).
  all: apply fspec_ask; intros [d|e] s'; cbn [applied];
    [case_guard; [|done]; intros [= <-]; split; [done|]; by apply fspec_directory|].
  all: destruct (not_found e); [case_guard as Hn; [|done]|]; intros [= <-]; (split; [done|]);
    [|by apply fspec_pure; split].
  - eapply (post_bind _ _ _ _ _ _ _ (λ s _, pending s)); [by apply fspec_ok; split|]. intros s' [] _ Hs'. by apply make_directory_spec.
  - eapply post_bind; [apply IH; [cbn in Hl; lia|done]|]. intros s' [] _ Hs'. by apply make_directory_spec.
Qed.

(** ** The staged files *)
Definition two_staged (s : Fs) (x : Path * Path) : Prop :=
  pending s ∧ fresh_path x.1 ∧ fresh_path x.2 ∧ x.1 ≠ x.2 ∧ s x.1 = Some (own_file user bytes SCRIPT_MODE) ∧
  ∃ encoded, to_vec {| version := METADATA_VERSION; stored_metadata := source |} = Some encoded ∧
    s x.2 = Some (own_file user encoded METADATA_MODE).
Lemma temp_not_ours name : prefixed ".tmp" name = true → ¬ ours (directory ++ [name]).
Proof. intros Hn [[= ->]|[= ->]]; by vm_compute in Hn. Qed.
Lemma stage_spec s : pending s → fspec s (stage directory bytes source) (post two_staged).
Proof.
  intros Hs. pose proof (pending_replaced _ Hs).
  apply post_try_context; [done|by intros e s' [= <-]|]. intros name s'. cbn [applied].
  destruct (prefixed ".tmp" name) eqn:En; [|done]. case_guard as Hn; [|done]. intros [= <-].
  destruct (staged_file user umask s0 ours still_old still_old_ours s _ _ SCRIPT_MODE bytes Hs (temp_not_ours _ En) Hn)
    as (Hp & Hc & Hm & Hw & He & Hf).
  set (p := directory ++ [name]) in *. split; [by apply pending_replaced|]. apply post_temp_file; [apply old_or_new_ours|done|].
  apply post_try_context; [by apply pending_replaced|by intros e s' [= <-]|]. intros [] s' [= <-]. split; [by apply pending_replaced|].
  apply post_write_context; [apply old_or_new_ours|by apply pending_replaced|done|]. intros s' -> _.
  cbn zeta in *. set (s1 := on_inode p (with_bytes bytes) _) in *. clearbody s1.
  apply post_try_context; [by apply pending_replaced|by intros e s' [= <-]|]. intros [] s' [= <-]. split; [by apply pending_replaced|].
  apply post_try_context; [by apply pending_replaced|by intros e s' [= <-]|]. intros name2 s'. cbn [applied].
  destruct (prefixed ".tmp" name2) eqn:En2; [|done]. case_guard as Hn2; [|done]. intros [= <-].
  assert (p ≠ directory ++ [name2]) as Hne by (intros Hq; rewrite <- Hq, Hf in Hn2; done).
  set (Staged := λ encoded, staged_file user umask s0 ours still_old still_old_ours s1 _ _ METADATA_MODE encoded Hw (temp_not_ours _ En2) Hn2). set (p2 := directory ++ [name2]) in *.
  destruct (Staged "") as (Hp2 & Hc2 & Hm2 & _). split; [by apply pending_replaced|].
  apply post_temp_file; [apply old_or_new_ours|done|].
  apply post_try_context; [by apply pending_replaced|by intros e s' [= <-]|]. intros [] s' [= <-]. split; [by apply pending_replaced|].
  apply fspec_let_pure. destruct (to_vec _) as [encoded|] eqn:Ev; cbn [ok_or context map_err]; [|by split; [apply pending_replaced|]].
  destruct (Staged encoded) as (_ & _ & _ & Hw2 & He2 & Hf2).
  apply post_write_context; [apply old_or_new_ours|by apply pending_replaced|done|]. intros s' -> _.
  cbn zeta in *. set (s2 := on_inode p2 (with_bytes encoded) _) in *. clearbody s2.
  apply post_try_context; [by apply pending_replaced|by intros e s' [= <-]|]. intros [] s' [= <-]. split; [by apply pending_replaced|].
  apply fspec_ok. split; [by apply pending_replaced|]. do 4 (split; [done|]). split; [by rewrite He2|]. by exists encoded.
Qed.

(** ** Replacing *)
Lemma persist_spec m s temp t b mode : replaced s → fresh_path temp → s temp = Some (own_file user b mode) →
  replaced (persisted temp t (own_file user b mode) s) →
  fspec s (persist m temp t) (post (λ s' _, s' = persisted temp t (own_file user b mode) s)).
Proof.
  intros Hs Hp Hf Hr. apply post_temp_file; [apply old_or_new_ours|done|]. apply fspec_last. intros [[]|e] s'; cbn [applied].
  - case_guard; [|done]. intros [= <-]. rewrite (moved_file _ _ _ _ Hf) by done. by split; [|split].
  - intros [= <-]. by split; [|split].
Qed.
Lemma two_staged_persisted s p1 p2 : two_staged s (p1, p2) →
  let s1 := persisted p1 target (own_file user bytes SCRIPT_MODE) s in
  replaced s1 ∧ ∃ encoded, s1 p2 = Some (own_file user encoded METADATA_MODE) ∧
    let s2 := persisted p2 metadata_target (own_file user encoded METADATA_MODE) s1 in
    replaced s2 ∧ script_there s2 ∧ metadata_there s2.
Proof.
  intros ((Hk & Ht & Hm) & Hp1 & Hp2 & Hne & _ & encoded & Hv & Hf2). cbn [fst snd] in *.
  assert (∀ p, fresh_path p → p ≠ target ∧ p ≠ metadata_target) as Hours
    by (intros p [_ Ho]; split; intros ->; apply Ho; [by left|by right]).
  destruct (Hours _ Hp1), (Hours _ Hp2). cbn zeta.
  set (s1 := persisted p1 target _ s).
  assert (kept s0 ours s1) as Hk1 by (by apply persisted_kept; [|left|]).
  assert (script_there s1) as Hs1 by (apply put_same).
  assert (s1 metadata_target = s0 metadata_target) as Hm1 by (unfold s1, persisted; by rewrite !put_other).
  split; [by split; [|split; [right|left]]|]. exists encoded.
  split; [unfold s1, persisted; by rewrite !put_other|]. set (s2 := persisted p2 metadata_target _ s1).
  assert (script_there s2) as Hs2 by (unfold s2, script_there, persisted; by rewrite !put_other).
  assert (metadata_there s2) as Hm2 by (exists encoded; split; [done|apply put_same]).
  split; [|done]. split; [by apply persisted_kept; [|right|]|]. by split; right.
Qed.
Lemma install_script_spec owner s : pending s →
  fspec s (install_at bytes source target metadata_target owner) (post (λ s _, script_there s ∧ metadata_there s)).
Proof.
  intros Hs. apply fspec_let_pure. cbn [parent ok_or].
  eapply post_bind; [apply ensure_reversed_spec; [cbn; lia|done]|]. clear s Hs. intros s [] Hr Hs.
  assert (∀ p v, reads s (replaceable p v owner) (λ _, True)) as Hreplaceable.
  { intros p v. apply fspec_ask. intros [d|e] s'; cbn [applied].
    - case_guard; [|done]. intros [= <-]. split; [done|]. by apply reads_pure.
    - destruct (not_found e); [case_guard; [|done]|]; intros [= <-]; (split; [done|]); by apply reads_ok. }
  eapply post_reads; [done|apply Hreplaceable|]. intros [] _.
  eapply post_reads; [done|apply Hreplaceable|]. intros [] _. clear Hreplaceable.
  assert (∀ e, post (λ s _, script_there s ∧ metadata_there s) s (@Err Failure () e)) as Herr by done.
  apply fspec_let_pure. destruct (ensure _ _); [|done]. apply fspec_let_pure. destruct (ensure _ _); [|done].
  apply fspec_let_pure. destruct (validate_source _); [|done].
  eapply post_bind; [by apply stage_spec|]. clear s Hr Hs Herr.
  intros s [p1 p2] Hr Hs. destruct (two_staged_persisted _ _ _ Hs) as (Hr1 & encoded & Hf2 & Hr2 & Hdone).
  destruct Hs as (_ & Hp1 & Hp2 & _ & Hf1 & _). cbn [fst snd] in *.
  eapply post_bind; [apply post_temp_file; [apply old_or_new_ours|done|by apply persist_spec]|]. intros s' [] _ ->.
  eapply post_bind; [by apply persist_spec|]. intros s' [] _ ->.
  set (s2 := persisted p2 _ _ _) in *. clearbody s2.
  apply post_try_context; [done|by intros e s' [= <-]|]. intros [] s' [= <-]. split; [done|].
  assert (∀ m p v, reads s2 (inspect_installed m p v owner) (λ _, True)) as Hinspect.
  { intros m p v. eapply reads_bind; [by apply reads_metadata|]. intros d _. by apply reads_pure. }
  eapply post_reads; [done|apply Hinspect|]. intros [] _.
  eapply fspec_mono, Hinspect. intros s' r [-> _]. split; [done|]. by destruct r.
Qed.
Lemma install_spec owner_metadata encoded_contents :
  source = owner_metadata → default "" (base64_decode encoded_contents) = bytes →
  fspec s0 (install {| request_metadata := owner_metadata; request_contents := encoded_contents |})
    (post (λ s _, script_there s ∧ metadata_there s)).
Proof.
  intros <- Hb. pose proof pending_init as Hs.
  pose proof (pending_replaced _ Hs) as Hr.
  apply fspec_let_pure. destruct (validate_source _); [|done]. apply fspec_let_pure. unfold contents. cbn [request_contents].
  destruct (base64_decode _) as [b|]; [|done]. cbn in Hb |- *. subst b.
  do 3 (apply fspec_let_pure; cbn [parent ok_or removelast]).
  eapply post_reads; [done|by apply reads_directory|]. intros [] _.
  eapply post_bind; [apply ensure_reversed_spec; [cbn; lia|done]|]. intros s [] _ Hs1.
  eapply post_bind; [apply ensure_reversed_spec; [cbn; lia|done]|]. intros s' [] _ Hs2. by apply install_script_spec.
Qed.
End installing.

(** * Removing *)
Section removing.
Variables (user umask : N) (s0 : Fs).
Notation target := INSTALLED_VPNC_SCRIPT.
Notation metadata_target := INSTALLED_VPNC_SCRIPT_METADATA.
Definition gone_or_kept (s : Fs) : Prop := ∀ p,
  s p = s0 p ∨ (s p = None ∧ (p = target ∨ p = metadata_target)).
Notation fspec := (fspec user umask gone_or_kept s0).
Lemma gone_put s t : t = target ∨ t = metadata_target → gone_or_kept s → gone_or_kept (put t None s).
Proof.
  intros Ht Hs p. destruct (decide (p = t)) as [->|Hp]; [rewrite put_same; by right|]. rewrite put_other by done. apply Hs.
Qed.
Lemma remove_at_spec s t o v : t = target ∨ t = metadata_target → gone_or_kept s →
  fspec s (remove_at t o v) (λ s' r, gone_or_kept s' ∧ (r = Ok () → s' t = None ∧ ∀ p, s p = None → s' p = None)).
Proof.
  intros Ht Hs. assert (parent t = Some ["var"; "lib"; "gpclient"; "scripts"]) as Hp by (by destruct Ht as [-> | ->]).
  apply fspec_let_pure. rewrite Hp. cbn [ok_or].
  eapply fspec_reads; [by apply reads_directory| |done]. intros [] _.
  apply fspec_ask. intros [d|e] s'; cbn [applied].
  - case_guard; [|done]. intros [= <-]. split; [done|]. apply fspec_let_pure. destruct (v t d o); [|done].
    apply fspec_try_context. intros [[]|e] s' [= <-]; [|by split]. pose proof (gone_put s t Ht Hs) as Hg. split; [done|].
    apply fspec_last. intros r s' [= <-]. split; [done|]. split; [done|]. intros _. split; [apply put_same|].
    intros p Hn. destruct (decide (p = t)) as [->|Hpt]; [apply put_same|by rewrite put_other].
  - destruct (not_found e); [case_guard as Hn; [|done]|]; intros [= <-]; (split; [done|]); [by apply fspec_ok|].
    by apply fspec_pure.
Qed.
Lemma remove_spec : fspec s0 remove (λ s r, gone_or_kept s ∧ (r = Ok () → s target = None ∧ s metadata_target = None)).
Proof.
  assert (gone_or_kept s0) as Hs by (intros p; by left).
  eapply fspec_reads; [by apply reads_installed| |done]. intros found Hf.
  eapply (fspec_bind _ _ _ _ _ _ _ (λ s r, gone_or_kept s ∧ (r = Ok () → s target = None))).
  - destruct found as [p|]; [|by apply fspec_ok].
    eapply fspec_mono, remove_at_spec; [|by left|done]. intros s r [Hg Hr]. split; [done|]. intros Hok. by destruct (Hr Hok).
  - intros s [] [Hg Hn]. specialize (Hn eq_refl). eapply fspec_mono, remove_at_spec; [|by right|done].
    intros s' r [Hg' Hr]. split; [done|]. intros Hok. destruct (Hr Hok) as [? Hk]. split; [by apply Hk|done].
  - intros s e [Hg _]. by split.
Qed.
End removing.

(** * The promises *)
Section promises.
Context `{Base64} `{SerdeJson StoredMetadata}.
Variables (user umask : N).
(** C13: An installed VPNC script is replaced whole: wherever a run of [install] stops, whatever
    was there before is still there, but for the script, which is the old one or all of the
    new one with its mode, and its metadata, for which the same holds; when [install]
    returns [Ok] both are the new ones. *)
Theorem vpnc_script_is_replaced_whole r s0 :
  let bytes := default "" (base64_decode (request_contents r)) in
  (∀ l t s, plays (install r) l t → files_after user umask s0 l = Some s →
     replaced user s0 bytes (request_metadata r) s) ∧
  ∀ l o s, returns (install r) l o → files_after user umask s0 l = Some s → ∃ x, o = Some x ∧
    (x = Ok () → script_there user bytes s ∧ metadata_there user (request_metadata r) s).
Proof.
  destruct r as [m c]. cbn. pose proof (install_spec user umask s0 (default "" (base64_decode c)) m m c eq_refl eq_refl) as Hi.
  split.
  - intros l t s Hp Hf. eapply fspec_holds; [|exact Hi|exact Hp|exact Hf]. apply pending_replaced, pending_init.
  - intros l o s Hp Hf. destruct (fspec_ends _ _ _ _ _ _ _ _ _ Hi Hp Hf) as (x & -> & _ & Hx). exists x.
    split; [done|]. by intros ->.
Qed.
(** A VPNC script that is found is trusted with reason: it is a regular executable of root
    in two real directories of root, none of which others may write, and looking changes
    nothing; after [remove] returned [Ok] none is found, and nothing but the script and its
    metadata is removed. *)
Lemma vpnc_script_is_trusted :
  (∀ s l o s', returns installed_script l o → files_after user umask s l = Some s' → s' = s ∧ ∃ r, o = Some r ∧
     ∀ p, r = Ok (Some p) → real_script s 0 p ∧
       real_directory s 0 ["var"; "lib"; "gpclient"; "scripts"] ∧ real_directory s 0 ["var"; "lib"; "gpclient"]) ∧
  ∀ s l o s', returns remove l o → files_after user umask s l = Some s' →
    gone_or_kept s s' ∧ ∃ r, o = Some r ∧ (r = Ok () → ∀ l' o' s2, returns installed_script l' o' →
      files_after user umask s' l' = Some s2 → ∀ p, o' ≠ Some (Ok (Some p))).
Proof.
  split.
  - intros s l o s' Hr Hf.
    destruct (reads_run _ _ _ _ _ _ _ _ (reads_installed _ _ (eq s) s s eq_refl) Hr Hf) as (-> & r & -> & Hp).
    split; [done|]. exists r. split; [done|]. intros p ->. by destruct Hp as (_ & ? & ?).
  - intros s l o s' Hr Hf. destruct (fspec_ends _ _ _ _ _ _ _ _ _ (remove_spec user umask s) Hr Hf) as (r & -> & Hg & Hn).
    split; [done|]. exists r. split; [done|]. intros Hok l' o' s2 Hr2 Hf2 p ->. destruct (Hn Hok) as [Ht _].
    destruct (reads_run _ _ _ _ _ _ _ _ (reads_installed _ _ (eq s') s' s' eq_refl) Hr2 Hf2) as (_ & r2 & [= <-] & -> & Hs & _).
    destruct Hs as (i & Hi & _). congruence.
Qed.
End promises.

(** * Examples *)
Module ScriptExample.
#[local] Instance base64 : Base64 := Concrete.plain_base64.
Definition source : VpncScriptMetadata := {| script_source := ScriptCommand; script_value := "exit 0" |}.
#[local] Instance json : SerdeJson StoredMetadata :=
  {| to_vec _ := Some "metadata"; from_slice _ := Some {| version := 1; stored_metadata := source |} |}.
Definition request : InstallVpncScriptRequest :=
  {| request_metadata := source; request_contents := base64_encode "#!/bin/sh" |}.
(** A fresh system: [/var] and [/var/lib] only. *)
Definition before : Fs := λ p,
  if decide (p ∈ [["var"]; ["var"; "lib"]])
  then Some {| inode_kind := Directory; inode_uid := 0; inode_mode := 493; inode_links := 2 |} else None.
Definition installing := obey 0 18 200 before (install request).
Definition installed : Fs := left_files installing.
Definition finding (s : Fs) := obey 0 18 200 s installed_script.
Definition telling := obey 0 18 200 installed metadata.
Definition removing := obey 0 18 200 installed remove.
Lemma script_installs : result_of installing = Some (Some (Ok ())).
Proof. by vm_compute. Qed.
Lemma finds : result_of (finding installed) = Some (Some (Ok (Some INSTALLED_VPNC_SCRIPT))).
Proof. by vm_compute. Qed.
Example tells : result_of telling = Some (Some (Ok (Some source))).
Proof. by vm_compute. Qed.
Lemma removes : result_of removing = Some (Some (Ok ())).
Proof. by vm_compute. Qed.
Lemma vpnc_script_is_replaced_whole_witness : script_there 0 "#!/bin/sh" installed ∧ metadata_there 0 source installed.
Proof.
  destruct (obeyed _ _ _ _ _ _ script_installs) as [Hr Hf].
  destruct (vpnc_script_is_replaced_whole 0 18 request before) as [_ Hi].
  destruct (Hi _ _ _ Hr Hf) as (x & [= <-] & Hx). by apply Hx.
Defined.
Lemma vpnc_script_is_trusted_witness : real_script installed 0 INSTALLED_VPNC_SCRIPT ∧
  gone_or_kept installed (left_files removing) ∧ ∀ p, result_of (finding (left_files removing)) ≠ Some (Some (Ok (Some p))).
Proof.
  destruct (vpnc_script_is_trusted 0 18) as [Hg Hn].
  destruct (obeyed _ _ _ _ _ _ finds) as [Hr Hf]. destruct (Hg _ _ _ _ Hr Hf) as (_ & r & [= <-] & Hp).
  destruct (Hp _ eq_refl) as [? _]. split; [done|].
  destruct (obeyed _ _ _ _ _ _ removes) as [Hr2 Hf2]. destruct (Hn _ _ _ _ Hr2 Hf2) as (? & r & [= <-] & Hno).
  split; [done|]. intros p Hp'. destruct (obeyed _ _ _ _ _ _ Hp') as [Hr3 Hf3]. by eapply (Hno eq_refl _ _ _ Hr3 Hf3).
Defined.
End ScriptExample.
