(* ===== verification/HipExecution.v ===== *)
(** Where HIP reports come from (apps/gpservice/src/hip_source.rs): the choice of a user is
    resolved into a generator, a script of the user or an approved script that runs as
    root.

    A closure is the values it captures; [validate_current] and [generate] are the bodies.
    The users of the system, the check of an executable and the text of an error of the
    system are parameters. *)
From ITree Require Import ITree.
From S2P Require Import Prelude Utf8 Text ThirdParty ClientProfile Xml GpHttp Service EditedReport Interaction.
From S2P Require Import FileStore Trust HipApproval.
From Stdlib Require Import Strings.Ascii.
From S2P Require Collector HipReport HostCollection Openconnect.

#[local] Open Scope N_scope.
#[local] Open Scope flow_scope.

Record User := { user_name : string; user_dir : string }.
Inductive ExecutionSource :=
  | ExecDisabled
  | ExecGenerator (edited : option string) (profile : OsProfile)
  (** The script, and what its validator captures: the approval, its owner and the path. *)
  | ExecScript (script : Openconnect.HipScript) (validator : option (string * N * Path)).
Record HipExecution := { execution_source : ExecutionSource; approval_identity : option (string * N) }.

Section hip_source.
Context `{UuidFormat} `{Base64} `{SerdeJson StoredMetadata} `{XmlTree}.
Variable digest : string → string.
Variables (new_script : string → option N → result Openconnect.OsError Openconnect.HipScript).
Variables (user_from_uid : N → result Failure (option User)) (host : Collector.Host).
Variable os_error_text : Openconnect.OsError → string.
Definition os {A} (r : result Openconnect.OsError A) : result Failure A := map_err (λ e, Message (os_error_text e)) r.

Definition script_environment (uid : N) : result Failure (list (string * string) * string) :=
  user ← user_from_uid uid;
  user ← ok_or (Message "HIP execution user is unavailable") user;
  path ← map_err failure_of (Collector.command_path host (uid =? 0));
  Ok ([("PATH", path); ("LC_ALL", "C"); ("HOME", user_dir user); ("USER", user_name user); ("LOGNAME", user_name user)],
      user_dir user).
Definition ensure_custom_available (brokered_macos : bool) : result Failure () :=
  ensure (negb brokered_macos) (Message "Custom HIP scripts are unavailable on macOS").
(** The validator of an approved script. *)
Definition validate_current (id : string) (owner_uid : N) (expected : Path) : flow FileE () :=
  let* _ := check in
  let* current := resolve_with_control digest id owner_uid in
  let* _ := pure (ensure (bool_decide (approved_path current = expected)) (Message "Approved HIP executable changed")) in
  check.
Definition approval_is_valid (identity : option (string * N)) : flow FileE bool :=
  match identity with
  | Some (id, uid) => either (HipApproval.resolve digest id uid) (λ r, ok (is_ok r))
  | None => ok true
  end.
(** [HipScript::new] with the environment of its user. *)
Definition script_for (path : string) (uid : N) : result Failure Openconnect.HipScript :=
  script ← os (new_script path (Some uid));
  environment ← script_environment uid;
  os (Openconnect.with_environment environment.1 environment.2 script).
Definition slash : Ascii.ascii := Ascii.ascii_of_N 47.
Definition path_of (text : string) : Path := List.filter (λ c, negb (is_empty c)) (split slash text).
Definition resolve (source : HipSource) (desktop_uid : option N) (brokered_macos : bool) (edited_report : option string)
    (profile : option OsProfile) : flow FileE HipExecution :=
  let found s := ok {| execution_source := s; approval_identity := None |} in
  match source with
  | Disabled => found ExecDisabled
  | Generated | Edited _ =>
      let* profile := pure (ok_or (Message "HIP generator identity is unavailable") profile) in
      match source with
      | Edited _ =>
          let* xml := pure (ok_or (Message "Edited HIP report was not uploaded for this connection") edited_report) in
          let* _ := pure (map_err Message (validate_edited_report xml)) in
          found (ExecGenerator (Some xml) profile)
      | _ => found (ExecGenerator None profile)
      end
  | UserScript path =>
      let* _ := pure (ensure_custom_available brokered_macos) in
      let* uid := pure (ok_or (Message "HIP custom scripts require a verified desktop user") desktop_uid) in
      let* _ := pure (ensure (negb (uid =? 0)) (Message "HIP custom scripts require a non-root desktop user")) in
      let* _ := pure (ensure (is_absolute path) (Message "HIP custom script path must be absolute")) in
      let* metadata := try_context "Failed to inspect the HIP script" (MetadataE (path_of path)) in
      let* _ := pure (ensure (is_file metadata && negb (is_symlink metadata) && negb (N.land (m_mode metadata) 73 =? 0))
        (Message "HIP custom script must be an executable regular file")) in
      let* script := pure (script_for path uid) in
      found (ExecScript script None)
  | ApprovedRootScript id =>
      let* _ := pure (ensure_custom_available brokered_macos) in
      let* owner_uid := pure (ok_or (Message "Root HIP scripts require a verified desktop user") desktop_uid) in
      let* approved := HipApproval.resolve digest id owner_uid in
      let* script := pure (script_for (display (approved_path approved)) 0) in
      ok {| execution_source := ExecScript script (Some (id, owner_uid, approved_path approved));
            approval_identity := Some (id, owner_uid) |}
  end.
End hip_source.

(** ** Generating (with [HipReport]) *)
Section generating.
Context `{UuidV5} `{UrlCrate} `{Xmltree} `{HipReport.ReportXml} `{!SerdeJson HipReport.DefenderInfo}.
Definition report_context (request : Openconnect.HipRequest) (preview : bool) : HipReport.ReportContext :=
  if preview then HipReport.Preview
  else HipReport.Connected (Openconnect.hip_cookie request) (Openconnect.hip_client_ip request)
         (Openconnect.hip_client_ipv6 request) (Openconnect.hip_md5 request).
Definition generate (machine : HipReport.Machine) (profile : OsProfile) (edited : option string)
    (request : Openconnect.HipRequest) (preview : bool) : HipReport.Reporting string :=
  (_ ← HipReport.io (Collector.check (HipReport.machine_host machine));
   let input := {| HipReport.input_profile := profile; HipReport.input_context := report_context request preview |} in
   match edited with
   | Some xml => HipReport.refresh_edited_report_with_control machine xml input
   | None => HipReport.generate_report_with_control machine input
   end)%stdpp.
(** An I/O error keeps its kind. *)
Definition generation_error (e : HipReport.Error) : FileError :=
  match e with HipReport.Io e => e | HipReport.Other m => {| error_kind := OtherKind; file_error := m |} end.
Context `{UuidFormat}.
(** The identity with the negotiated names; a panic is [Ok None]. *)
Definition profile (system : HostCollection.System) (identity : HostIdentity) (client_os : ClientOs)
    (version os_version host_id hostname : option string) : stm nat string (option OsProfile) :=
  match HostCollection.identity_from_parts system (default (computer identity) hostname)
          (default (ClientProfile.host_id identity) host_id) (serial_number identity) (mac_address identity) with
  | None => mret None
  | Some identity =>
      let builder := set_host_identity identity (profile_builder_new client_os) in
      let builder := match version with Some v => set_client_version v builder | None => builder end in
      let builder := match os_version with Some v => set_os_version v builder | None => builder end in
      HostCollection.collect_profile_with_control system builder None
  end.
End generating.

(** * What runs as whom *)
Section promises.
Context `{UuidFormat} `{Base64} `{SerdeJson StoredMetadata} `{XmlTree}.
Variable digest : string → string.
Variables (exists_file is_executable : string → bool) (metadata_is_file : string → result Openconnect.OsError bool).
Variables (user_from_uid : N → result Failure (option User)) (host : Collector.Host).
Variable os_error_text : Openconnect.OsError → string.
Variables (user umask : N).
Notation new_script := (Openconnect.hip_script_new exists_file is_executable metadata_is_file).
Notation resolve := (resolve digest new_script user_from_uid host os_error_text).
Lemma script_for_user path uid script : script_for new_script user_from_uid host os_error_text path uid = Ok script →
  Openconnect.hip_path script = path ∧ Openconnect.hip_user script = Some uid.
Proof.
  unfold script_for. intros Hs. apply result_bind_Ok in Hs as (s & Hs & Hr). apply result_bind_Ok in Hr as ([vars cwd] & _ & Hr).
  unfold os in *. destruct (new_script path (Some uid)) as [s'|] eqn:En; [|done]. injection Hs as ->.
  unfold Openconnect.hip_script_new in En. bind_inv En. injection En as <-.
  cbn [fst snd] in Hr. destruct (Openconnect.with_environment vars cwd _) as [s''|] eqn:Ee; [|done]. injection Hr as ->.
  unfold Openconnect.with_environment in Ee. bind_inv Ee. injection Ee as <-. cbn. split; [|done].
  unfold Openconnect.c_string in *. destruct (contains_nul path); by simplify_eq.
Qed.
(** The approval the files hold for a user. *)
Definition approved_for (s : Fs) (id : string) (uid : N) (path : Path) : Prop :=
  uid ≠ 0 ∧ Forall (safe_ancestor s) (ancestors APPROVAL_DIRECTORY) ∧ path = APPROVAL_DIRECTORY ++ [id; SCRIPT_NAME] ∧
  ∃ found bytes, approved digest s APPROVAL_DIRECTORY 0 found bytes ∧ approval_id found = id ∧ owner_uid found = uid.
(** Who runs what. *)
Definition rightful (s : Fs) (source : HipSource) (desktop_uid : option N) (brokered : bool) (edited : option string)
    (x : HipExecution) : Prop :=
  match execution_source x with
  | ExecDisabled => source = Disabled ∧ approval_identity x = None
  | ExecGenerator xml _ => approval_identity x = None ∧
      ((source = Generated ∧ xml = None) ∨
       ∃ id text root, source = Edited id ∧ edited = Some text ∧ xml = Some text ∧ validate_edited_report text = Ok root)
  | ExecScript script None => approval_identity x = None ∧ brokered = false ∧ ∃ path uid,
      source = UserScript path ∧ desktop_uid = Some uid ∧ uid ≠ 0 ∧
      Openconnect.hip_path script = path ∧ Openconnect.hip_user script = Some uid
  | ExecScript script (Some (id, owner, path)) => approval_identity x = Some (id, owner) ∧ brokered = false ∧
      source = ApprovedRootScript id ∧ desktop_uid = Some owner ∧ approved_for s id owner path ∧
      Openconnect.hip_path script = display path ∧ Openconnect.hip_user script = Some 0
  end.
Lemma reads_approved s id uid : reads user umask (eq s) s s (HipApproval.resolve digest id uid)
  (λ a, approved_for s id uid (approved_path a)).
Proof.
  eapply reads_mono; [|apply reads_resolve]. intros a (? & ? & bytes & ? & ? & ? & _ & ?).
  split; [done|]. split; [done|]. split; [done|]. by exists (approved_info a), bytes.
Qed.
Lemma reads_execution s source desktop_uid brokered edited profile :
  reads user umask (eq s) s s (resolve source desktop_uid brokered edited profile) (rightful s source desktop_uid brokered edited).
Proof.
  destruct source as [| |id|path|id]; cbn [HipExecution.resolve].
  - by apply reads_ok.
  - apply reads_let_pure. intros p _. apply reads_ok. split; [done|]. by left.
  - apply reads_let_pure. intros p _. apply reads_let_pure. intros xml Hx. apply reads_let_pure. intros root Hv.
    apply reads_ok. split; [done|]. right. destruct edited as [text|]; [|done]. injection Hx as ->.
    destruct (validate_edited_report xml) as [r|] eqn:Ev; [|done]. by exists id, xml, r.
  - apply reads_let_pure. intros [] Hb. apply reads_let_pure. intros uid Hu. apply reads_let_ensure. intros Hr.
    apply reads_let_ensure. intros _. eapply reads_bind; [by apply reads_metadata|]. intros m _.
    apply reads_let_ensure. intros _. apply reads_let_pure. intros script Hs. apply reads_ok.
    apply script_for_user in Hs as [? ?]. split; [done|]. split; [by destruct brokered|]. exists path, uid.
    destruct desktop_uid; [|done]. injection Hu as ->. by destruct (N.eqb_spec uid 0).
  - apply reads_let_pure. intros [] Hb. apply reads_let_pure. intros uid Hu.
    eapply reads_bind; [apply reads_approved|]. intros a Ha. apply reads_let_pure. intros script Hs. apply reads_ok.
    apply script_for_user in Hs as [? ?]. split; [done|]. split; [by destruct brokered|]. split; [done|].
    split; [by destruct desktop_uid; [injection Hu as ->|]|]. done.
Qed.
(** C9: Root runs only approved scripts: what a user's choice of a HIP source is resolved into
    is that choice; a script of the user's own runs as this user, who is not root; a script
    that runs as root is the one root's files hold the user's approval of, and its validator
    passes only while they do. *)
Theorem root_runs_approved_scripts_only :
  (∀ s l o s' source desktop_uid brokered edited profile,
     returns (resolve source desktop_uid brokered edited profile) l o → files_after user umask s l = Some s' →
     s' = s ∧ ∃ r, o = Some r ∧ ∀ x, r = Ok x → rightful s source desktop_uid brokered edited x) ∧
  ∀ s l o s' id owner path, returns (validate_current digest id owner path) l o → files_after user umask s l = Some s' →
    s' = s ∧ ∃ r, o = Some r ∧ (r = Ok () → approved_for s id owner path).
Proof.
  split.
  - intros s l o s' source desktop_uid brokered edited profile Hr Hf.
    destruct (reads_run _ _ _ _ _ _ _ _ (reads_execution _ _ _ _ _ _) Hr Hf) as (-> & r & -> & Hx). split; [done|].
    exists r. split; [done|]. by intros x ->.
  - intros s l o s' id owner path Hr Hf.
    assert (reads user umask (eq s) s s (validate_current digest id owner path) (λ _, approved_for s id owner path)) as Hv.
    { eapply reads_bind; [by apply reads_check|]. intros _ _. eapply reads_bind; [apply reads_approved|]. intros a Ha.
      apply reads_let_ensure. intros Hp%bool_decide_eq_true_1. cbv beta in Ha. rewrite Hp in Ha.
      eapply reads_mono; [|by apply reads_check]. done. }
    destruct (reads_run _ _ _ _ _ _ _ _ Hv Hr Hf) as (-> & r & -> & Hx). split; [done|].
    exists r. split; [done|]. by intros ->.
Qed.
End promises.

(** * Examples *)
Module ExecutionExample.
#[local] Existing Instance ApprovalExample.uuids.
#[local] Existing Instance ApprovalExample.base64.
#[local] Existing Instance ApprovalExample.json.
#[local] Instance trees : XmlTree := {| element_parse _ := None |}.
Definition users (uid : N) : result Failure (option User) :=
  Ok (if uid =? 0 then Some {| user_name := "root"; user_dir := "/root" |} else None).
Definition any_file (_ : string) : bool := true.
Definition resolve := HipExecution.resolve ApprovalExample.digest
  (Openconnect.hip_script_new any_file any_file (λ _, Ok true)) users Collector.CollectorExample.host (λ _, "error").
Definition files : Fs := ApprovalExample.with_approval.
Definition resolving := obey 0 18 200 files (resolve (ApprovedRootScript "1f") (Some 1000) false None None).
Definition validating := obey 0 18 200 files
  (validate_current ApprovalExample.digest "1f" 1000 (APPROVAL_DIRECTORY ++ ["1f"; SCRIPT_NAME])).
Definition script : Openconnect.HipScript := {|
  Openconnect.hip_path := "/var/lib/gpclient/hip-approvals/1f/script"; Openconnect.hip_user := Some 0;
  Openconnect.hip_validator := None;
  Openconnect.hip_environment := Some ["PATH=/usr/bin"; "LC_ALL=C"; "HOME=/root"; "USER=root"; "LOGNAME=root"];
  Openconnect.hip_cwd := Some "/root" |}.
Definition execution : HipExecution := {|
  execution_source := ExecScript script (Some ("1f", 1000, APPROVAL_DIRECTORY ++ ["1f"; SCRIPT_NAME]));
  approval_identity := Some ("1f", 1000) |}.
Lemma execution_resolves : result_of resolving = Some (Some (Ok execution)).
Proof. by vm_compute. Qed.
Lemma validates : result_of validating = Some (Some (Ok ())).
Proof. by vm_compute. Qed.
Example own_script_of_root_is_refused :
  result_of (obey 0 18 200 files (resolve (UserScript "/tmp/hip.sh") (Some 0) false None None)) =
  Some (Some (Err (Message "HIP custom scripts require a non-root desktop user"))).
Proof. by vm_compute. Qed.
Lemma root_runs_approved_scripts_only_witness :
  rightful ApprovalExample.digest files (ApprovedRootScript "1f") (Some 1000) false None execution ∧
  approved_for ApprovalExample.digest files "1f" 1000 (APPROVAL_DIRECTORY ++ ["1f"; SCRIPT_NAME]).
Proof.
  destruct (root_runs_approved_scripts_only ApprovalExample.digest any_file any_file (λ _, Ok true) users
    Collector.CollectorExample.host (λ _, "error") 0 18) as [Hr Hv].
  destruct (obeyed _ _ _ _ _ _ execution_resolves) as [Hr1 Hf1]. destruct (Hr _ _ _ _ _ _ _ _ _ Hr1 Hf1) as (_ & r & [= <-] & Hx).
  destruct (obeyed _ _ _ _ _ _ validates) as [Hr2 Hf2]. destruct (Hv _ _ _ _ _ _ _ Hr2 Hf2) as (_ & r & [= <-] & Ha).
  split; [by apply Hx|by apply Ha].
Defined.
End ExecutionExample.
